(* ===== verification/_CoqProject ===== *)
-Q . S2P
Prelude.v
Alloc.v
KHeap.v
KHeapRep.v
KHeapSpec.v
KHeapInit.v
KHeapTheorems.v
Critical.v
SpinlockProtocol.v
Interrupts.v
InterruptTheorems.v
Time.v
TimeTheorems.v
KernelQueue.v
QueueTheorems.v
Scheduler.v
SchedulerSpec.v
SchedulerTheorems.v
SchedulerFairness.v
SchedulerOps.v
Semaphore.v
SemaphoreTheorems.v
SemClient.v
Mutex.v
MutexTheorems.v
Mailbox.v
MailboxTheorems.v
MsgQueue.v
MsgQueueTheorems.v
Frames.v
MemAlloc.v
MemAllocSpec.v
MemAllocTheorems.v
FramePool.v
ByteMem.v
MemInfo.v
MemInfoTheorems.v
FaultHandlers.v
FaultTheorems.v
Paging.v
PagingSpec.v
PagingMap.v
PagingTheorems.v
PagingInit.v
LibDiv.v
LibDivSpec.v
LibDivTheorems.v
LibNum.v
LibNumTheorems.v
LibString.v
LibStringTheorems.v
LibSearch.v
Cpu.v
CpuTheorems.v
Ports.v
Serial.v
KernelOutput.v
KernelOutputTheorems.v
SerialTheorems.v
Vga.v
VgaTheorems.v
Console.v
ConsoleTheorems.v
Pic.v
PicTheorems.v
Timers.v
TimersTheorems.v
RtcTheorems.v
Acpi.v
AcpiTheorems.v
Ata.v
AtaTheorems.v
AtaDrive.v
Keyboard.v
KeyboardTheorems.v
Apic.v
ApicTheorems.v
Vesa.v
VesaScreen.v
VesaTheorems.v
