(* ===== verification/Prelude.v ===== *)
(** * UTK, a preemptive kernel for i386: verification library

    This file is the root of the library: it documents the whole of it, then
    holds what every other file shares (machine integers, return codes, the
    kernel monad, automation).

    ** The program

    The kernel under [Kernel/] is a multiprocessor, fixed-priority, preemptive
    kernel.  A heap ([memory/kheap.c]) provides the memory of every kernel
    object.  On it are built doubly linked queues ([core/kernel_queue.c]), and
    on the queues a scheduler with one run queue per CPU and priority
    ([core/scheduler.c]), semaphores and mutexes ([sync/]) whose waiting
    threads are nodes of a queue, and mailboxes and message queues ([comm/])
    made of two semaphores each.  Frames and pages come from sorted lists of
    areas ([memory/memalloc.c]); the frames back the page tables and the
    mappings of [arch/cpu/i386/paging.c], which edits the tables through a
    recursive entry of the page directory.  The frames that exist come from the
    memory map of the boot loader ([memory/meminfo.c]).  [lib/] is the part of
    the C library the kernel is linked with: strings, numbers in text, 64-bit
    division.  Interrupts reach handlers through one table
    ([interrupt/]), the timer interrupt drives the tick counters and the
    scheduler ([time/time_management.c]).  Every shared object is protected by
    a critical section ([sync/critical.h]): interrupts off, then a recursive
    spinlock.

    Text goes through one formatter ([io/kernel_output.c], [lib/printf.c]) to
    the graphic driver that [io/graphic.c] has selected: the serial line or the
    text screen.  [arch/x86/] has the drivers.  They reach their devices by
    ports or by registers in memory; those that get interrupts give their
    handlers to [interrupt/], and the two interrupt controllers are structures
    of functions that the interrupt manager calls.  [acpi.c] finds in the
    firmware's tables the processors and the I/O APIC.  The tables the processor
    itself reads, the GDT, the IDT and the TSS, are those of
    [arch/cpu/i386/].

    ** The model

    A C function becomes a function of the same name in the monad [M S] below:
    it takes the state of its component and returns a value and a new state,
    or stops ([Panic], the calls of [kernel_panic]; [Fault], an access through
    a pointer that designates no object; [Diverge], a loop that never ends).
    Pointers are addresses kept in [Z], 0 is the null pointer; 32- and 64-bit
    arithmetic wraps through [u32], [u64] and [i32].  A caller sees the state
    of the components it calls through [zoom].

    - [Alloc]: the interface of the heap, a class of two operations and the
      class of their laws; the queues and the pools are proved against it.
    - [KHeap]: [kheap.c] on raw memory, a map from addresses to words, with
      the chunk headers and the circular lists inside it.  [KHeapRep],
      [KHeapSpec] and [KHeapInit] hold the invariant, the proof that [KHeap]
      is an instance of [Alloc] and the initialisation; [KHeapTheorems] the
      properties.
    - [Critical]: [sync/critical.h] and the interrupt flag; [critical l m] is
      [m] between the two macros.  The state [kstate S] adds the locks and the
      flag to the state of a component.  [SpinlockProtocol] has the same
      macros as single accesses to the lock, interleaved between CPUs.
    - [Interrupts] and [InterruptTheorems]: [interrupt/interrupts.c] and
      [interrupt/exceptions.c].  The controller is a record of optional
      functions, as the driver structure of the code.
    - [Time] and [TimeTheorems]: [time/time_management.c], with the timers as
      records of optional functions on a hardware state that is a parameter.
    - [KernelQueue] and [QueueTheorems]: [core/kernel_queue.c] on stores of
      nodes and queues indexed by their addresses.
    - [Scheduler]: [core/scheduler.c] and the context functions of
      [arch/cpu/i386/cpu.c].  [SchedulerSpec] follows its execution,
      [SchedulerTheorems] has the election and the context switch,
      [SchedulerFairness] sequences of elections, [SchedulerOps] the services.
    - [Semaphore], [Mutex], [Mailbox], [MsgQueue]: the files of [sync/] and
      [comm/], each on the state of the layer below; [SemClient] what the
      clients of the semaphores use of them; [SemaphoreTheorems],
      [MutexTheorems], [MailboxTheorems] and [MsgQueueTheorems] the
      properties.
    - [Frames]: the interface of the frame pool, a class of two operations and
      the class of their laws; paging is proved against it.  [MemAlloc]:
      [memory/memalloc.c]; [MemAllocSpec] and
      [MemAllocTheorems] its invariant and properties, [FramePool] the proof
      that its frame pool is an instance of [Frames].
    - [FaultHandlers] and [FaultTheorems]: the sorted table of page fault
      handlers of [arch/cpu/i386/paging.c], [paging_fault_general_handler]
      and the registration of handlers.
    - [Paging]: the rest of that file, on physical words: a load or a store
      through a virtual address walks the page directory and the page tables
      the way the processor does, so that the accesses through the recursive
      entry reach the tables being edited.  [PagingSpec] holds the invariant
      of the tables and the map from virtual to physical pages they
      represent, [PagingMap] the execution of the mapping loops,
      [PagingTheorems] the properties of the services, [PagingInit] the
      initialisation.
    - [ByteMem]: memory as bytes, for the code that walks strings and tables.
      On it, [MemInfo] and [MemInfoTheorems]: [memory/meminfo.c], and
      [LibString], [LibStringTheorems] and [LibSearch]: the [str*.c] and
      [mem*.c] of [lib/], one function per file.
    - [LibDiv]: [lib/div64.c] and the division of 64-bit integers around it,
      and [lib/udivmoddi4.c].  [LibDivSpec] holds the
      arithmetic of digits and the loops, [LibDivTheorems] the properties.
      [LibNum] and [LibNumTheorems]: [lib/uitoa.c] and [lib/itoa.c] on top.

    - [Ports]: the accesses to input and output ports.  A driver's state has
      the history of its accesses; the value of a read is a function of the
      history and the port, the device, a parameter of the driver.
    - [Cpu] and [CpuTheorems]: [cpu_settings.c], [cpu_structs.c] and the SSE
      handler of [cpu.c] in [arch/cpu/i386/].
    - [Serial] and [SerialTheorems]: [arch/x86/serial.c].
    - [KernelOutput] and [KernelOutputTheorems]: the formatter of
      [io/kernel_output.c] on any output.  [Console] and [ConsoleTheorems]:
      the functions that print with it, [io/graphic.c], [lib/printf.c] and
      [lib/perror.c], on the two drivers.
    - [Vga] and [VgaTheorems]: [arch/x86/vga_text.c], on the bytes of the frame
      buffer and the ports of the cursor.
    - [Pic] and [PicTheorems]: [arch/x86/pic.c].  [Timers], [TimersTheorems]
      and [RtcTheorems]: [pit.c] and [rtc.c], on the interrupt manager, the
      controller and the ports.
    - [Acpi] and [AcpiTheorems]: [arch/x86/acpi.c] on the bytes of memory.
    - [Ata] and [AtaTheorems]: [arch/x86/ata_pio.c]; [AtaDrive] a pair of
      drives that meet what the theorems ask of the device.
    - [Keyboard] and [KeyboardTheorems]: [arch/x86/keyboard.c] with the text
      screen it writes to.
    - [Apic] and [ApicTheorems]: [io_apic.c], [lapic.c] and [io/mmio.h], on the
      history of the accesses to the registers in memory.
    - [Vesa]: the drawing functions and the console of [arch/x86/vesa.c], on
      the bytes of the frame buffer.  [VesaScreen] reads these bytes as a
      picture, and has the terminal that the screen is to be with the cursor
      and the scrolling; [VesaTheorems] the characters and the properties.

    A function that can give the CPU away is cut at that point: the type
    [step] of [Scheduler] says whether it is done, has raised the scheduling
    interrupt before it returns, or has been switched out in the middle of a
    loop, and [..._resume] is the part that runs when its thread is elected
    again.  Between the two parts anything may happen to the state.

    ** What the theorems show

    - Heap: any trace of allocations and releases keeps live blocks disjoint,
      aligned and inside the heap; [kmalloc] and [kfree] meet their
      specification; freeing everything gives back the single initial chunk.
    - Queues: pushes and pops refine a first-in first-out list, prioritised
      pushes a stable priority queue; removal, search and the life of nodes
      and queues on every branch.
    - Pools: releasing and allocating frames adds and removes exactly their
      addresses, and the two undo each other.
    - Paging: every way a mapping ends, with the page tables it takes from the
      pool and those of its failures that leave pages or a lock behind; an
      unmapping, with the list of the releases it makes; the first undone by
      the second, frames and page tables included.  The initialisation builds
      exactly the map the kernel starts with.  The table of fault handlers
      refines a partial map and stays sorted.
    - Scheduler: the election takes the oldest ready thread of the first
      priority that has one, after it requeued the preempted thread and woke
      the sleepers that are due; the context switch; wake-up, sleep, the first
      stack frame.  A thread that waits at the most urgent priority in use is
      elected after as many elections as there are threads before it.
    - Synchronisation: mutual exclusion of the spinlock for every interleaving
      of accesses; a semaphore's level counts its posts and pends; a mutex
      excludes; a mailbox refines a slot that is full or empty and a message
      queue a bounded first-in first-out list, from their creation on, whose
      result is that of the requests made to the heap.
    - Interrupts and time: the handler table refines a partial map; the
      dispatch; the tick, the active wait and when it ends, the
      initialisation as one sequence of calls.
    - Library: both division routines compute the quotient and the remainder;
      the text of a number reads back as the number; the copies stay in their
      bounds; the searches find the first occurrence, and the tokens of a
      string are its parts between delimiters.  The memory map lists the
      entries of the boot loader's table, up to the first null address, and their
      total length.
    - Output: the text the formatter sends for a format and its arguments, on
      any output and through the selected driver; the bytes a serial line
      receives; the text screen refines a terminal, a grid of cells with a
      cursor, and the graphic screen a terminal that paints a picture.
    - CPU and interrupt controllers: a gate of the installed table leads to its
      handler; the masks of the PIC are the set of the lines that were asked
      for, and each entry of the redirection table of the I/O APIC that of the
      last request whose interrupt the firmware moves to its line.
    - Devices: the nesting of enables and disables of a timer against the mask
      of its line, and the values its functions send to the ports; the time of
      day for each encoding of the CMOS; what the parser of the firmware's
      tables keeps; reads and writes of parts of sectors are those of an array
      of blocks, on a drive that gives and takes data only after a status
      without BUSY and with DRQ; the keys typed edit a line.
    - Corner cases the code does not handle are theorems too, about the same
      definitions: they end in [_faults], [_corrupts], [_drift], [_wraps],
      [breaks_exclusion], [not_checked] or [dangling_prev].

    ** Fuel

    Walks of linked lists get one more unit of fuel than there are objects in
    the store ([walk_fuel]): only a cyclic list exhausts it, and the theorems
    about walks prove that it is enough on well-formed lists.  The size class
    loops of the heap run at most 32 times ([slot_loop] halves a 32-bit size)
    and once per size class ([find_slot]).  [wait_poll] takes the number of
    ticks that arrive as its fuel, and its theorem says which numbers suffice.
    The loops of [Paging] run once per page of the request, which has at most
    as many pages as the address space ([page_fuel]).

    The walks of strings get one more unit of fuel than there are bytes in
    memory ([mem_fuel]).  The loops of the divisions run at most once per digit
    or bit, and [uitoa] once per digit of the result, at most 64; its fuel is
    over the 128 characters of its buffer, so that writing past it is a fault
    and never a lack of fuel.

    The drivers wait by reading a register: [polls] bounds the number of reads
    in the serial line, the disks and the messages between processors, and a
    device that is busy longer is one the code never leaves ([Diverge]).  The
    theorems hold for every [polls] that exceeds the delay of the device.  The
    other loops of the drivers have constant bounds, the 257 words of a sector,
    the 256 turns of the padding of a number, or run over the bytes of a table.

    ** Not modelled

    The translation buffer of the processor: [Paging] always walks the tables,
    so INVLPG has no effect in it.  The symbols of the linker script are
    arguments of the readers of [MemInfo].  [memcpy], [memset] and [memmove]
    are their portable branches; the i386 ones, like the assembly files, have
    no C definition.  Of [arch/cpu/i386/cpu.c], the detection of the features
    of the processor and the start of the other processors; of [lapic.c],
    [lapic_timer_init], whose loop waits for interrupts of the PIT; of
    [vga_text.c], the mapping of its frame buffer; of [vesa.c], the discovery
    and the choice of a mode, which like [bios_call.c] depend on code of the
    BIOS, and the thread of the double buffer, which is not configured.
    [core/kernel_kickstart.c] and the panic screen, sequences of calls.  The devices of different drivers have separate
    histories: an access of one driver never changes the device of another,
    apart from the console and the keyboard, the timers and the controller,
    which share theirs.  The serial traces and the test-mode code are left out
    of the functions that contain them.  [Bootloader/] and [old_version/] are
    other programs. *)
From Stdlib Require Export ZArith Lia.
From stdpp Require Export base numbers gmap list.
#[export] Set Default Goal Selector "!".
#[export] Set Warnings "-clear-no-such-hyp".
Open Scope Z_scope.

(** ** Machine integers *)

Definition u32 (z : Z) : Z := z mod 2 ^ 32.
Definition u64 (z : Z) : Z := z mod 2 ^ 64.
Definition u16 (z : Z) : Z := z mod 2 ^ 16.
Definition u8 (z : Z) : Z := z mod 2 ^ 8.

(** Two's complement reading of a 32-bit word. *)
Definition i32 (z : Z) : Z := (z + 2 ^ 31) mod 2 ^ 32 - 2 ^ 31.

(** The null pointer of [stddef.h]; pointers are 32-bit addresses kept as [Z]. *)
Definition NULL : Z := 0.

Lemma u32_small z : 0 <= z < 2 ^ 32 -> u32 z = z.
Proof. intros. unfold u32. by apply Z.mod_small. Qed.

Lemma i32_small z : - 2 ^ 31 <= z < 2 ^ 31 -> i32 z = z.
Proof. intros. unfold i32. rewrite Z.mod_small; lia. Qed.

Lemma u64_small z : 0 <= z < 2 ^ 64 -> u64 z = z.
Proof. intros. unfold u64. by apply Z.mod_small. Qed.

Lemma u16_small z : 0 <= z < 2 ^ 16 -> u16 z = z.
Proof. intros. unfold u16. by apply Z.mod_small. Qed.

Lemma u32_range z : 0 <= u32 z < 2 ^ 32.
Proof. unfold u32. by apply Z.mod_pos_bound. Qed.

Lemma u64_range z : 0 <= u64 z < 2 ^ 64.
Proof. unfold u64. by apply Z.mod_pos_bound. Qed.

Lemma u32_idemp z : u32 (u32 z) = u32 z.
Proof. apply u32_small, u32_range. Qed.

(** A number below a power of two and a multiple of it have no bit in common. *)
Lemma land_above a b k : 0 <= k -> 0 <= a < 2 ^ k -> Z.land a (b * 2 ^ k) = 0.
Proof.
  intros Hk Ha. apply Z.bits_inj'. intros n Hn. rewrite Z.land_spec, Z.bits_0.
  destruct (decide (n < k)); [by rewrite Z.mul_pow2_bits_low, andb_false_r|].
  by rewrite <- (Z.mod_small a (2 ^ k)), Z.mod_pow2_bits_high by lia.
Qed.

Lemma lor_above a b k : 0 <= k -> 0 <= a < 2 ^ k -> Z.lor a (b * 2 ^ k) = a + b * 2 ^ k.
Proof. intros Hk Ha. rewrite <- Z.add_lor_land, land_above by done. lia. Qed.

(** ** Return codes ([enum OS_RETURN] of [lib/stddef.h]) *)

Inductive OS_RETURN_E : Type :=
  | OS_NO_ERR
  | OS_ERR_NULL_POINTER
  | OS_ERR_OUT_OF_BOUND
  | OR_ERR_UNAUTHORIZED_INTERRUPT_LINE
  | OS_ERR_INTERRUPT_ALREADY_REGISTERED
  | OS_ERR_INTERRUPT_NOT_REGISTERED
  | OS_ERR_NO_SUCH_IRQ_LINE
  | OS_ERR_NO_MORE_FREE_EVENT
  | OS_ERR_NO_SUCH_ID
  | OS_ERR_MALLOC
  | OS_ERR_UNAUTHORIZED_ACTION
  | OS_ERR_FORBIDEN_PRIORITY
  | OS_ERR_MUTEX_UNINITIALIZED
  | OS_ERR_SEM_UNINITIALIZED
  | OS_ERR_MAILBOX_NON_INITIALIZED
  | OS_ERR_QUEUE_NON_INITIALIZED
  | OS_ERR_NO_SEM_BLOCKED
  | OS_ERR_NO_MUTEX_BLOCKED
  | OS_ERR_GRAPHIC_MODE_NOT_SUPPORTED
  | OS_MUTEX_LOCKED
  | OS_SEM_LOCKED
  | OS_ERR_CHECKSUM_FAILED
  | OS_ERR_ACPI_UNSUPPORTED
  | OS_ACPI_NOT_INITIALIZED
  | OS_ERR_NO_SUCH_LAPIC_ID
  | OS_ERR_NO_SUCH_SERIAL_BAUDRATE
  | OS_ERR_NO_SUCH_SERIAL_PARITY
  | OS_ERR_ATA_DEVICE_NOT_PRESENT
  | OS_ERR_ATA_DEVICE_ERROR
  | OS_ERR_ATA_BAD_SECTOR_NUMBER
  | OS_ERR_ATA_SIZE_TO_HUGE
  | OS_ERR_VESA_NOT_SUPPORTED
  | OS_ERR_VESA_MODE_NOT_SUPPORTED
  | OS_ERR_VESA_NOT_INIT
  | OS_ERR_NO_MORE_FREE_MEM
  | OS_ERR_PAGING_NOT_INIT
  | OS_ERR_MAPPING_ALREADY_EXISTS
  | OS_ERR_MEMORY_NOT_MAPPED
  | OS_ERR_SMBIOS_NOT_FOUND
  | OS_ERR_BAD_HANDLER
  | OS_ERR_MBR_PARTITION_INDEX_TOO_LARGE
  | OS_ERR_BAD_PARTITION_FORMAT
  | OS_ERR_PART_ALREADY_MOUNTED
  | OS_ERR_PART_NOT_MOUNTED
  | OS_ERR_MOUNT_POINT_USED
  | OS_ERR_WRONG_MOUNT_POINT
  | OS_ERR_UNSUPPORTED_DEVICE_TYPE
  | OS_ERR_WRONG_FAT32_BPB
  | OS_ERR_WRONG_FILESYSTEM
  | OS_ERR_FAT32_BPS_NOT_SUPPORTED
  | OS_ERR_FAT32_REQ_TOO_BIG
  | OS_ERR_NOT_A_FOLDER
  | OS_ERR_FILE_NOT_FOUND
  | OS_ERR_NOT_A_FILE
  | OS_ERR_FILE_ALREADY_EXISTS
  | OS_ERR_BAD_CLUSTER
  | OS_ERR_BAD_FILE_NAME
  | OS_ERR_PERMISSION_DENIED
  | OS_ERR_NOT_SUPPORTED
  | OS_ERR_KERNEL_MEM_OFFSET_UNALIGNED
  | OS_ERR_HANDLER_ALREADY_EXISTS.

#[export] Instance OS_RETURN_E_eq_dec : EqDecision OS_RETURN_E.
Proof. solve_decision. Defined.

(** The numeric values, which [err |= ...] works on. *)
Definition OS_RETURN_code (e : OS_RETURN_E) : Z :=
  match e with
  | OS_NO_ERR => 0
  | OS_ERR_NULL_POINTER => 1
  | OS_ERR_OUT_OF_BOUND => 2
  | OR_ERR_UNAUTHORIZED_INTERRUPT_LINE => 3
  | OS_ERR_INTERRUPT_ALREADY_REGISTERED => 4
  | OS_ERR_INTERRUPT_NOT_REGISTERED => 5
  | OS_ERR_NO_SUCH_IRQ_LINE => 6
  | OS_ERR_NO_MORE_FREE_EVENT => 7
  | OS_ERR_NO_SUCH_ID => 8
  | OS_ERR_MALLOC => 9
  | OS_ERR_UNAUTHORIZED_ACTION => 10
  | OS_ERR_FORBIDEN_PRIORITY => 11
  | OS_ERR_MUTEX_UNINITIALIZED => 12
  | OS_ERR_SEM_UNINITIALIZED => 13
  | OS_ERR_MAILBOX_NON_INITIALIZED => 14
  | OS_ERR_QUEUE_NON_INITIALIZED => 15
  | OS_ERR_NO_SEM_BLOCKED => 16
  | OS_ERR_NO_MUTEX_BLOCKED => 17
  | OS_ERR_GRAPHIC_MODE_NOT_SUPPORTED => 19
  | OS_MUTEX_LOCKED => 20
  | OS_SEM_LOCKED => 21
  | OS_ERR_CHECKSUM_FAILED => 22
  | OS_ERR_ACPI_UNSUPPORTED => 23
  | OS_ACPI_NOT_INITIALIZED => 24
  | OS_ERR_NO_SUCH_LAPIC_ID => 25
  | OS_ERR_NO_SUCH_SERIAL_BAUDRATE => 26
  | OS_ERR_NO_SUCH_SERIAL_PARITY => 27
  | OS_ERR_ATA_DEVICE_NOT_PRESENT => 28
  | OS_ERR_ATA_DEVICE_ERROR => 29
  | OS_ERR_ATA_BAD_SECTOR_NUMBER => 30
  | OS_ERR_ATA_SIZE_TO_HUGE => 31
  | OS_ERR_VESA_NOT_SUPPORTED => 32
  | OS_ERR_VESA_MODE_NOT_SUPPORTED => 33
  | OS_ERR_VESA_NOT_INIT => 34
  | OS_ERR_NO_MORE_FREE_MEM => 35
  | OS_ERR_PAGING_NOT_INIT => 36
  | OS_ERR_MAPPING_ALREADY_EXISTS => 37
  | OS_ERR_MEMORY_NOT_MAPPED => 38
  | OS_ERR_SMBIOS_NOT_FOUND => 39
  | OS_ERR_BAD_HANDLER => 40
  | OS_ERR_MBR_PARTITION_INDEX_TOO_LARGE => 41
  | OS_ERR_BAD_PARTITION_FORMAT => 42
  | OS_ERR_PART_ALREADY_MOUNTED => 43
  | OS_ERR_PART_NOT_MOUNTED => 44
  | OS_ERR_MOUNT_POINT_USED => 45
  | OS_ERR_WRONG_MOUNT_POINT => 46
  | OS_ERR_UNSUPPORTED_DEVICE_TYPE => 47
  | OS_ERR_WRONG_FAT32_BPB => 48
  | OS_ERR_WRONG_FILESYSTEM => 49
  | OS_ERR_FAT32_BPS_NOT_SUPPORTED => 50
  | OS_ERR_FAT32_REQ_TOO_BIG => 51
  | OS_ERR_NOT_A_FOLDER => 52
  | OS_ERR_FILE_NOT_FOUND => 53
  | OS_ERR_NOT_A_FILE => 54
  | OS_ERR_FILE_ALREADY_EXISTS => 55
  | OS_ERR_BAD_CLUSTER => 56
  | OS_ERR_BAD_FILE_NAME => 57
  | OS_ERR_PERMISSION_DENIED => 58
  | OS_ERR_NOT_SUPPORTED => 59
  | OS_ERR_KERNEL_MEM_OFFSET_UNALIGNED => 60
  | OS_ERR_HANDLER_ALREADY_EXISTS => 61
  end.

(** ** The kernel monad

    A C function that reads and writes the kernel state is a function from
    the state to an [outcome]: it returns a value and a new state, stops the
    machine through [kernel_panic], dereferences a pointer that does not
    designate an object of the expected type ([Fault]), or runs a loop that
    never ends ([Diverge], the result of a list walk that exhausts a fuel
    larger than the number of objects in memory, which only a cyclic list
    can do). *)

Inductive outcome (A : Type) : Type :=
  | Ret (a : A)
  | Panic (e : OS_RETURN_E)
  | Fault
  | Diverge.
Arguments Ret {A} a.
Arguments Panic {A} e.
Arguments Fault {A}.
Arguments Diverge {A}.

Definition M (S A : Type) : Type := S -> outcome (A * S).

Definition ret {S A} (a : A) : M S A := fun s => Ret (a, s).

Definition bind {S A B} (m : M S A) (k : A -> M S B) : M S B := fun s =>
  match m s with
  | Ret (a, s') => k a s'
  | Panic e => Panic e
  | Fault => Fault
  | Diverge => Diverge
  end.

Definition gets {S A} (f : S -> A) : M S A := fun s => Ret (f s, s).
Definition modify {S} (f : S -> S) : M S unit := fun s => Ret (tt, f s).
Definition kernel_panic {S A} (e : OS_RETURN_E) : M S A := fun _ => Panic e.
Definition fault {S A} : M S A := fun _ => Fault.
Definition diverge {S A} : M S A := fun _ => Diverge.

(** Runs an operation of a component on its part of a larger state. *)
Definition zoom {S T A} (get : S -> T) (put : T -> S -> S) (m : M T A) : M S A :=
  fun s =>
    match m (get s) with
    | Ret (a, t) => Ret (a, put t s)
    | Panic e => Panic e
    | Fault => Fault
    | Diverge => Diverge
    end.

Declare Scope kernel_scope.
Delimit Scope kernel_scope with K.
Notation "'let*' x ':=' m 'in' k" := (bind m (fun x => k))
  (at level 10, x pattern, m at level 200, k at level 200) : kernel_scope.
Notation "m '>>>' k" := (bind m (fun _ => k))
  (at level 100, right associativity) : kernel_scope.
Open Scope kernel_scope.

(** The value an execution returns, if it returns. *)
Definition result_of {S A} (o : outcome (A * S)) : option A :=
  match o with Ret (a, _) => Some a | _ => None end.

Definition is_fault {A} (o : outcome A) : bool :=
  match o with Fault => true | _ => false end.

Lemma bind_ret {S A B} (m : M S A) (k : A -> M S B) s a s' :
  m s = Ret (a, s') -> bind m k s = k a s'.
Proof. unfold bind. by intros ->. Qed.

Lemma Ret_inj {S A} (a b : A) (s t : S) : Ret (a, s) = Ret (b, t) -> a = b /\ s = t.
Proof. intros H. by injection H. Qed.

Lemma bind_ret_l {S A B} (a : A) (k : A -> M S B) s : bind (ret a) k s = k a s.
Proof. done. Qed.

Lemma exec_gets {S A B} (f : S -> A) (k : A -> M S B) s :
  bind (gets f) k s = k (f s) s.
Proof. done. Qed.

Lemma exec_modify {S B} (f : S -> S) (k : unit -> M S B) s :
  bind (modify f) k s = k tt (f s).
Proof. done. Qed.

Lemma bind_Ret_inv {S A B} (m : M S A) (k : A -> M S B) s r :
  bind m k s = Ret r -> exists a s', m s = Ret (a, s') /\ k a s' = Ret r.
Proof. unfold bind. destruct (m s) as [[a s']| | |]; naive_solver. Qed.

Lemma bind_assoc {S A B C} (m : M S A) (f : A -> M S B) (g : B -> M S C) s :
  bind (bind m f) g s = bind m (fun a => bind (f a) g) s.
Proof. unfold bind. by destruct (m s) as [[]| | |]. Qed.

(** ** Automation *)

(** Linear arithmetic with divisions by constants. *)
Ltac div_lia := Z.to_euclidean_division_equations; lia.

(** Equality of two maps built from a common one by insertions,
    alterations and deletions: compare them at every key. *)
Ltac map_ext :=
  apply map_eq; intros ?i;
  rewrite ?lookup_insert, ?lookup_alter, ?lookup_delete;
  repeat case_decide; simplify_eq; simplify_map_eq; try done.
