(* ===== verification/Alloc.v ===== *)
(** * The allocator interface

    What [memory/kheap.c] promises to the components that allocate kernel
    objects ([kernel_queue.c], [memalloc.c], [scheduler.c], [queue.c]): the
    two operations [kmalloc] and [kfree], the relation that says which blocks
    are live, and the laws the clients rely on.  [KHeap] is the instance. *)
From S2P Require Import Prelude.

(** [L] maps the address of every live block to its usable size. *)
Definition block_fresh (L : gmap Z Z) (p n : Z) : Prop :=
  forall q m, L !! q = Some m -> p + n <= q \/ q + m <= p.

Definition blocks_disjoint (L : gmap Z Z) : Prop :=
  forall p n, L !! p = Some n -> block_fresh (delete p L) p n.

Class AllocOps : Type := {
  heap : Type;
  kmalloc : Z -> heap -> Z * heap;
  kfree : Z -> heap -> heap;
}.

(** The largest request for which [(size + ALIGN - 1)] does not wrap. *)
Definition kmalloc_max : Z := 2 ^ 32 - 4.

Class AllocSpec (ops : AllocOps) : Type := {
  heap_rep : heap -> gmap Z Z -> Prop;
  kmalloc_spec h L n p h' :
    heap_rep h L -> 0 <= n <= kmalloc_max -> kmalloc n h = (p, h') ->
    (p = NULL /\ h' = h) \/
    (p <> NULL /\ exists m, n <= m /\ 0 < m /\ L !! p = None /\ block_fresh L p m /\
                       heap_rep h' (<[p := m]> L));
  kfree_spec h L p m :
    heap_rep h L -> L !! p = Some m -> heap_rep (kfree p h) (delete p L);
  kfree_null h : kfree NULL h = h;
  heap_rep_null h L : heap_rep h L -> L !! NULL = None;
}.
