(* ===== verification/KHeap.v ===== *)
(** * The kernel heap ([memory/kheap.c])

    The allocator works on raw memory: a map from addresses to the 32-bit
    words (and flag bytes) stored there.  Chunk headers, the circular list of
    all chunks and the circular lists of free chunks live in that memory, as
    in the code; only the static variables of the file are a record. *)
From stdpp Require Import sorting functions.
From S2P Require Import Prelude Alloc.

(** ** Layout ([memory/kheap.h])

    [struct mem_chunk]: [all.next] at 0, [all.prev] at 4, [used] at 8 and the
    union at 12, which is [data] for its owner and [free.next], [free.prev]
    for the allocator. *)
Abbreviation mem := (gmap Z Z).

(** The word at an address; memory never written reads as zero. *)
Definition rd (m : gmap Z Z) (a : Z) : Z := default 0 (m !! a).

Definition NUM_SIZES : Z := 32.
Definition ALIGN : Z := 4.
Definition MIN_SIZE : Z := 8.
Definition HEADER_SIZE : Z := 12.
Definition sizeof_mem_chunk : Z := 20.

Definition next_of (p : Z) : Z := p.
Definition prev_of (p : Z) : Z := p + 4.
Definition used_of (c : Z) : Z := c + 8.
Definition free_of (c : Z) : Z := c + 12.
Definition CONTAINER_free (p : Z) : Z := p - 12.

Definition align_mask : Z := 2 ^ 32 - 4.

(** ** Circular lists *)
Definition list_init (node : Z) (m : mem) : mem :=
  <[prev_of node := node]> (<[next_of node := node]> m).

Definition insert_before (current new : Z) (m : mem) : mem :=
  let current_prev := rd m (prev_of current) in
  let new_prev := rd m (prev_of new) in
  let m := <[next_of current_prev := new]> m in
  let m := <[prev_of new := current_prev]> m in
  let m := <[next_of new_prev := current]> m in
  <[prev_of current := new_prev]> m.

Definition insert_after (current new : Z) (m : mem) : mem :=
  let current_next := rd m (next_of current) in
  let new_prev := rd m (prev_of new) in
  let m := <[next_of current := new]> m in
  let m := <[prev_of new := current]> m in
  let m := <[next_of new_prev := current_next]> m in
  <[prev_of current_next := new_prev]> m.

Definition remove (node : Z) (m : mem) : mem :=
  let m := <[next_of (rd m (prev_of node)) := rd m (next_of node)]> m in
  let m := <[prev_of (rd m (next_of node)) := rd m (prev_of node)]> m in
  let m := <[next_of node := node]> m in
  <[prev_of node := node]> m.

(** The caller's list variable is the first component of the result. *)
Definition push (list node : Z) (m : mem) : Z * mem :=
  let m := if decide (list <> NULL) then insert_before list node m else m in
  (node, m).

Definition pop (list : Z) (m : mem) : Z * Z * mem :=
  let top := list in
  let next_top := rd m (next_of top) in
  let m := remove top m in
  let list := if decide (top = next_top) then NULL else next_top in
  (list, top, m).

Definition remove_from (list node : Z) (m : mem) : Z * mem :=
  if decide (list = node) then let '(list, _, m) := pop list m in (list, m)
  else (list, remove node m).

(** ** The allocator's variables *)
Record kheap : Type := mk_kheap {
  kh_init : Z;
  kh_mem : mem;
  kh_free_chunk : gmap Z Z;
  kh_first_chunk : Z;
  kh_last_chunk : Z;
  kh_mem_free : Z;
  kh_mem_used : Z;
  kh_mem_meta : Z;
}.

Definition set_mem (m : mem) (h : kheap) : kheap :=
  mk_kheap (kh_init h) m (kh_free_chunk h) (kh_first_chunk h) (kh_last_chunk h)
           (kh_mem_free h) (kh_mem_used h) (kh_mem_meta h).
Definition set_free_chunk (n v : Z) (h : kheap) : kheap :=
  mk_kheap (kh_init h) (kh_mem h) (<[n := v]> (kh_free_chunk h)) (kh_first_chunk h)
           (kh_last_chunk h) (kh_mem_free h) (kh_mem_used h) (kh_mem_meta h).
Definition add_mem_free (d : Z) (h : kheap) : kheap :=
  mk_kheap (kh_init h) (kh_mem h) (kh_free_chunk h) (kh_first_chunk h)
           (kh_last_chunk h) (u32 (kh_mem_free h + d)) (kh_mem_used h) (kh_mem_meta h).
Definition add_mem_used (d : Z) (h : kheap) : kheap :=
  mk_kheap (kh_init h) (kh_mem h) (kh_free_chunk h) (kh_first_chunk h)
           (kh_last_chunk h) (kh_mem_free h) (u32 (kh_mem_used h + d)) (kh_mem_meta h).
Definition add_mem_meta (d : Z) (h : kheap) : kheap :=
  mk_kheap (kh_init h) (kh_mem h) (kh_free_chunk h) (kh_first_chunk h)
           (kh_last_chunk h) (kh_mem_free h) (kh_mem_used h) (u32 (kh_mem_meta h + d)).
Definition on_mem (f : mem -> mem) (h : kheap) : kheap := set_mem (f (kh_mem h)) h.

(** [LIST_PUSH(&free_chunk[n], chunk, free)] *)
Definition list_push_free (n chunk : Z) (h : kheap) : kheap :=
  let hd := rd (kh_free_chunk h) n in
  let head := if decide (hd = NULL) then NULL else free_of hd in
  let '(head, m) := push head (free_of chunk) (kh_mem h) in
  set_free_chunk n (CONTAINER_free head) (set_mem m h).

(** [LIST_POP(&free_chunk[n], free)] *)
Definition list_pop_free (n : Z) (h : kheap) : Z * kheap :=
  let head := free_of (rd (kh_free_chunk h) n) in
  let '(head, res, m) := pop head (kh_mem h) in
  let v := if decide (head = NULL) then NULL else CONTAINER_free head in
  (CONTAINER_free res, set_free_chunk n v (set_mem m h)).

(** [LIST_REMOVE_FROM(&free_chunk[n], chunk, free)] *)
Definition list_remove_free (n chunk : Z) (h : kheap) : kheap :=
  let head := free_of (rd (kh_free_chunk h) n) in
  let '(head, m) := remove_from head (free_of chunk) (kh_mem h) in
  let v := if decide (head = NULL) then NULL else CONTAINER_free head in
  set_free_chunk n v (set_mem m h).

Definition memory_chunk_init (chunk : Z) (m : mem) : mem :=
  list_init (free_of chunk) (<[used_of chunk := 0]> (list_init chunk m)).

Definition memory_chunk_size (chunk : Z) (m : mem) : Z :=
  u32 (rd m (next_of chunk) - chunk - HEADER_SIZE).

(** [while(size > 0) { ++n; size /= 2; }]: 32 halvings empty a 32-bit word. *)
Fixpoint slot_loop (fuel : nat) (n size : Z) : Z :=
  match fuel with
  | O => n
  | S fuel => if decide (size > 0) then slot_loop fuel (n + 1) (size / 2) else n
  end.
Definition memory_chunk_slot (size : Z) : Z := slot_loop 32 (-1) size.

Definition remove_free (chunk : Z) (h : kheap) : kheap :=
  let len := memory_chunk_size chunk (kh_mem h) in
  let n := memory_chunk_slot len in
  add_mem_free (- (len - HEADER_SIZE)) (list_remove_free n chunk h).

Definition push_free (chunk : Z) (h : kheap) : kheap :=
  let len := memory_chunk_size chunk (kh_mem h) in
  let n := memory_chunk_slot len in
  add_mem_free (len - HEADER_SIZE) (list_push_free n chunk h).

(** [kheap_init]; [heap_start] and [heap_end] are the addresses of the linker
    symbols, [h] the state left by the loader. *)
Definition kheap_init (heap_start heap_end : Z) (h : kheap) : kheap :=
  let size := u32 (heap_end - heap_start) in
  let mem_start := Z.land (u32 (heap_start + ALIGN - 1)) align_mask in
  let mem_end := Z.land (u32 (heap_start + size)) align_mask in
  let first_chunk := mem_start in
  let second := first_chunk + sizeof_mem_chunk in
  let last_chunk := mem_end - sizeof_mem_chunk in
  let m := kh_mem h in
  let m := memory_chunk_init first_chunk m in
  let m := memory_chunk_init second m in
  let m := memory_chunk_init last_chunk m in
  let m := insert_after first_chunk second m in
  let m := insert_after second last_chunk m in
  let m := <[used_of first_chunk := 1]> m in
  let m := <[used_of last_chunk := 1]> m in
  let len := memory_chunk_size second m in
  let n := memory_chunk_slot len in
  let h := mk_kheap (kh_init h) m (kh_free_chunk h) first_chunk last_chunk 0 0 0 in
  let h := list_push_free n second h in
  mk_kheap 1 (kh_mem h) (kh_free_chunk h) first_chunk last_chunk
    (u32 (len - HEADER_SIZE)) 0 (sizeof_mem_chunk * 2 + HEADER_SIZE).

(** [while(free_chunk[n] == 0) { ++n; if(n >= NUM_SIZES) return NULL; }] *)
Fixpoint find_slot (fuel : nat) (n : Z) (fc : gmap Z Z) : option Z :=
  match fuel with
  | O => None
  | S fuel =>
      if decide (rd fc n = NULL) then
        if decide (n + 1 >= NUM_SIZES) then None else find_slot fuel (n + 1) fc
      else Some n
  end.

Definition round_size (size : Z) : Z :=
  let size := Z.land (u32 (size + ALIGN - 1)) align_mask in
  if decide (size < MIN_SIZE) then MIN_SIZE else size.

(** The part of [kmalloc] that follows the choice of slot [n]. *)
Definition carve (size n : Z) (h : kheap) : Z * kheap :=
  let '(chunk, h) := list_pop_free n h in
  let size2 := memory_chunk_size chunk (kh_mem h) in
  let '(len, h) :=
    if decide (u32 (size + sizeof_mem_chunk) <= size2) then
      let chunk2 := chunk + HEADER_SIZE + size in
      let h := on_mem (memory_chunk_init chunk2) h in
      let h := on_mem (insert_after chunk chunk2) h in
      let len := memory_chunk_size chunk2 (kh_mem h) in
      let n := memory_chunk_slot len in
      let h := list_push_free n chunk2 h in
      let h := add_mem_meta HEADER_SIZE h in
      (len, add_mem_free (len - HEADER_SIZE) h)
    else (0, h) in
  let h := on_mem (<[used_of chunk := 1]>) h in
  let h := add_mem_free (- size2) h in
  let h := add_mem_used (size2 - len - HEADER_SIZE) h in
  (* [return chunk->data;] *)
  (rd (kh_mem h) (free_of chunk), h).

Definition kheap_kmalloc (size : Z) (h : kheap) : Z * kheap :=
  if decide (kh_init h = 0) then (NULL, h)
  else
    let size := round_size size in
    let n := memory_chunk_slot (size - 1) + 1 in
    if decide (n >= NUM_SIZES) then (NULL, h)
    else
      match find_slot 32 n (kh_free_chunk h) with
      | None => (NULL, h)
      | Some n => carve size n h
      end.

Definition kheap_kfree (ptr : Z) (h : kheap) : kheap :=
  if decide (kh_init h = 0 \/ ptr = NULL) then h
  else
    let chunk := ptr - HEADER_SIZE in
    let next := rd (kh_mem h) (next_of chunk) in
    let prev := rd (kh_mem h) (prev_of chunk) in
    let used := memory_chunk_size chunk (kh_mem h) in
    let h := add_mem_used (- used) h in
    let h :=
      if decide (rd (kh_mem h) (used_of next) = 0) then
        let h := remove_free next h in
        let h := on_mem (remove next) h in
        add_mem_free HEADER_SIZE (add_mem_meta (- HEADER_SIZE) h)
      else h in
    if decide (rd (kh_mem h) (used_of prev) = 0) then
      let h := remove_free prev h in
      let h := on_mem (remove chunk) h in
      let h := push_free prev h in
      add_mem_free HEADER_SIZE (add_mem_meta (- HEADER_SIZE) h)
    else
      let h := on_mem (<[used_of chunk := 0]>) h in
      let h := on_mem (list_init (free_of chunk)) h in
      push_free chunk h.

#[export] Instance kheap_ops : AllocOps := {|
  heap := kheap;
  kmalloc := kheap_kmalloc;
  kfree := kheap_kfree;
|}.
