(* ===== verification/KHeapRep.v ===== *)
(** * The kernel heap: circular lists, slots and the heap invariant

    Lemmas about the list primitives of [memory/kheap.c], the invariant of the
    chunk lists and the effect of each internal step on it. *)
From stdpp Require Import sorting functions.
From S2P Require Import Prelude Alloc KHeap.

(** ** Circular lists in memory

    [seg m x l]: the nodes of [l] follow [x], linked both ways;
    [ring m l]: the nodes of [l] form a circular list. *)
Definition lnk (m : mem) (a b : Z) : Prop := rd m (next_of a) = b /\ rd m (prev_of b) = a.

Fixpoint seg (m : mem) (x : Z) (l : list Z) : Prop :=
  match l with
  | [] => True
  | y :: l' => lnk m x y /\ seg m y l'
  end.

Definition ring (m : mem) (l : list Z) : Prop :=
  match l with
  | [] => True
  | x :: l' => seg m x l' /\ lnk m (default x (last l')) x
  end.

(** No node overlaps the second word of another one. *)
Definition sep (l : list Z) : Prop :=
  NoDup l /\ forall p q, p ∈ l -> q ∈ l -> p <> q + 4.

Lemma rd_insert (m : mem) a v b :
  rd (<[a := v]> m) b = if decide (a = b) then v else rd m b.
Proof. unfold rd. rewrite lookup_insert. by case_decide. Qed.

(** Reads through a chain of stores; the addresses are compared by [lia]. *)
Ltac rds :=
  unfold next_of, prev_of, used_of, free_of in *;
  repeat (rewrite rd_insert; case_decide; try lia).

Lemma default_last_cons (x y : Z) l : default x (last (y :: l)) = default y (last l).
Proof. rewrite last_cons. by destruct (last l). Qed.

Lemma default_last_app (x y : Z) l1 l2 :
  default x (last (l1 ++ y :: l2)) = default y (last l2).
Proof. rewrite last_app, last_cons. by destruct (last l2). Qed.

Lemma default_last_elem (x : Z) l : default x (last l) ∈ x :: l.
Proof.
  revert x. induction l as [|y l IH]; intros x; [set_solver|].
  rewrite default_last_cons. specialize (IH y). set_solver.
Qed.

Lemma seg_app m x l1 y l2 :
  seg m x (l1 ++ y :: l2) <->
  seg m x l1 /\ lnk m (default x (last l1)) y /\ seg m y l2.
Proof.
  revert x. induction l1 as [|z l1 IH]; intros x; simpl; [tauto|].
  rewrite IH, default_last_cons. tauto.
Qed.

Lemma seg_ext m m' x l :
  NoDup (x :: l) ->
  (forall p, p ∈ x :: l -> p <> default x (last l) -> rd m' (next_of p) = rd m (next_of p)) ->
  (forall q, q ∈ l -> rd m' (prev_of q) = rd m (prev_of q)) ->
  seg m x l -> seg m' x l.
Proof.
  revert x. induction l as [|y l IH]; intros x Hnd Hn Hp; simpl; [done|].
  rewrite default_last_cons in Hn. apply NoDup_cons in Hnd as [Hx Hnd].
  intros [[H1 H2] Hs]. split.
  - split; [rewrite Hn; [done|set_solver|]|rewrite Hp; [done|set_solver]].
    intros ->. by apply Hx, default_last_elem.
  - apply IH; [done| | |done].
    + intros p Hpy. apply Hn. set_solver.
    + intros q Hq. apply Hp. set_solver.
Qed.

Lemma ring_ext m m' l :
  (forall p, p ∈ l -> rd m' (next_of p) = rd m (next_of p) /\
                      rd m' (prev_of p) = rd m (prev_of p)) ->
  NoDup l -> ring m l -> ring m' l.
Proof.
  destruct l as [|x l]; [done|]. intros Hf Hnd [Hs [H1 H2]]. split.
  - apply (seg_ext m); [done| | |done]; intros; apply Hf; set_solver.
  - split.
    + rewrite (proj1 (Hf _ (default_last_elem x l))). done.
    + rewrite (proj2 (Hf x ltac:(set_solver))). done.
Qed.

Lemma ring_rotate m l1 l2 : ring m (l1 ++ l2) -> ring m (l2 ++ l1).
Proof.
  destruct l1 as [|x l1], l2 as [|y l2]; simpl; rewrite ?app_nil_r; try done.
  rewrite !seg_app, !default_last_app. tauto.
Qed.

Lemma ring_next m l1 a b l2 : ring m (l1 ++ a :: b :: l2) -> lnk m a b.
Proof. intros H%ring_rotate. simpl in H. tauto. Qed.

Lemma ring_wrap m a l b : ring m (a :: l ++ [b]) -> lnk m b a.
Proof. intros [_ H]. by rewrite default_last_app in H. Qed.

Lemma sep_perm l l' : l ≡ₚ l' -> sep l -> sep l'.
Proof. intros HP [H1 H2]. split; [by rewrite <- HP|]. intros p q. rewrite <- HP. apply H2. Qed.

(** *** [remove] *)
Lemma remove_frame x m c :
  c <> x -> c <> x + 4 -> c <> rd m (prev_of x) -> c <> rd m (next_of x) + 4 ->
  rd (remove x m) c = rd m c.
Proof.
  intros. unfold remove. cbn zeta.
  assert (rd (<[next_of (rd m (prev_of x)) := rd m (next_of x)]> m) (next_of x) =
          rd m (next_of x)) as -> by (rewrite rd_insert; by case_decide).
  rds; done.
Qed.

Lemma remove_ring m x l :
  ring m (x :: l) -> sep (x :: l) ->
  ring (remove x m) l /\ lnk (remove x m) x x.
Proof.
  destruct l as [|y l].
  { simpl. intros [_ [H1 H2]] _. split; [done|]. unfold remove, lnk. cbn zeta.
    split; rds. }
  intros [Hs Hl] [Hnd Hsep]. rewrite default_last_cons in Hl. simpl in Hs.
  destruct Hs as [[H1 H2] Hs], Hl as [H3 H4].
  pose proof (default_last_elem y l) as Hz. set (z := default y (last l)) in *.
  unfold remove. cbn zeta. rewrite H1, H4.
  apply NoDup_cons in Hnd as [Hx Hnd].
  assert (forall p, p ∈ y :: l -> p <> x /\ p <> x + 4 /\ x <> p + 4) as Hpx.
  { intros p Hp. repeat split; [|apply Hsep|apply Hsep]; set_solver. }
  assert (forall p q, p ∈ y :: l -> q ∈ y :: l -> p <> q + 4) as Hpq
    by (intros; apply Hsep; set_solver).
  assert (rd (<[next_of z:=y]> m) (next_of x) = y) as ->.
  { destruct (Hpx z Hz) as (?&?&?). rds; done. }
  assert (rd (<[next_of z:=y]> m) (prev_of x) = z) as ->.
  { destruct (Hpx z Hz) as (?&?&?). rds; done. }
  pose proof (Hpx z Hz). pose proof (Hpx y ltac:(set_solver)).
  split; [split|].
  - eapply seg_ext; [done| | |exact Hs].
    + intros p Hp Hpz. fold z in Hpz. pose proof (Hpx p Hp).
      pose proof (Hpq p y Hp ltac:(set_solver)). rds; done.
    + intros q Hq. pose proof (Hpx q ltac:(set_solver)).
      pose proof (Hpq z q Hz ltac:(set_solver)).
      assert (q <> y) by (apply NoDup_cons in Hnd; set_solver). rds; done.
  - fold z. pose proof (Hpq z y Hz ltac:(set_solver)).
    split; rds; done.
  - split; rds; done.
Qed.

Lemma ring_next_elem m l a : ring m l -> a ∈ l -> rd m (next_of a) ∈ l.
Proof.
  intros Hr Ha. apply list_elem_of_split in Ha as (l1 & l2 & ->).
  apply (ring_rotate m l1 (a :: l2)) in Hr. simpl in Hr.
  assert (forall b, b ∈ l2 ++ l1 -> b ∈ l1 ++ a :: l2) by set_solver.
  destruct (l2 ++ l1) as [|b l3]; simpl in Hr.
  - destruct Hr as [_ [-> _]]. set_solver.
  - destruct Hr as [[[-> _] _] _]. set_solver.
Qed.

Lemma ring_prev_elem m l a : ring m l -> a ∈ l -> rd m (prev_of a) ∈ l.
Proof.
  intros Hr Ha. apply list_elem_of_split in Ha as (l1 & l2 & ->).
  apply (ring_rotate m l1 (a :: l2)) in Hr. destruct Hr as [_ [_ ->]].
  pose proof (default_last_elem a (l2 ++ l1)). set_solver.
Qed.

(** *** Insertion of a self-linked node *)
Lemma insert_after_frame cur new m c :
  rd m (prev_of new) = new ->
  c <> cur -> c <> new -> c <> new + 4 -> c <> rd m (next_of cur) + 4 ->
  rd (insert_after cur new m) c = rd m c.
Proof. intros H ????. unfold insert_after. cbn zeta. rewrite H. rds; done. Qed.

Lemma insert_before_frame cur new m c :
  rd m (prev_of new) = new ->
  c <> cur + 4 -> c <> new -> c <> new + 4 -> c <> rd m (prev_of cur) ->
  rd (insert_before cur new m) c = rd m c.
Proof. intros H ????. unfold insert_before. cbn zeta. rewrite H. rds; done. Qed.

Lemma insert_before_ring m cur new l :
  rd m (prev_of new) = new -> sep (new :: cur :: l) -> ring m (cur :: l) ->
  ring (insert_before cur new m) (new :: cur :: l).
Proof.
  intros Hn [Hnd Hsep] [Hs [H1 H2]].
  pose proof (default_last_elem cur l) as Hz.
  set (z := default cur (last l)) in *.
  apply NoDup_cons in Hnd as [Hx Hnd].
  assert (forall p, p ∈ cur :: l -> p <> new /\ p <> new + 4 /\ new <> p + 4) as Hpx.
  { intros p Hp. repeat split; [|apply Hsep|apply Hsep]; set_solver. }
  assert (forall p q, p ∈ cur :: l -> q ∈ cur :: l -> p <> q + 4) as Hpq
    by (intros; apply Hsep; set_solver).
  unfold insert_before. cbn zeta. rewrite Hn, H2.
  pose proof (Hpx z Hz). pose proof (Hpx cur ltac:(set_solver)).
  pose proof (Hpq z cur Hz ltac:(set_solver)).
  split; [split|].
  - split; rds; done.
  - apply (seg_ext m); [done| | |done].
    + intros p Hp Hpz. fold z in Hpz. pose proof (Hpx p Hp).
      pose proof (Hpq p cur Hp ltac:(set_solver)). rds; done.
    + intros q Hq. pose proof (Hpx q ltac:(set_solver)).
      pose proof (Hpq z q Hz ltac:(set_solver)).
      assert (q <> cur) by (apply NoDup_cons in Hnd; set_solver). rds; done.
  - rewrite default_last_cons. fold z. split; rds; done.
Qed.

Lemma insert_after_ring m cur new l :
  rd m (prev_of new) = new -> sep (new :: cur :: l) -> ring m (cur :: l) ->
  ring (insert_after cur new m) (cur :: new :: l).
Proof.
  intros Hn Hsep Hr.
  assert (exists l', cur :: l ≡ₚ rd m (next_of cur) :: l' /\
            ring m (rd m (next_of cur) :: l') /\
            forall m', ring m' (new :: rd m (next_of cur) :: l') ->
                       ring m' (cur :: new :: l)) as (l' & HP & Hr' & Hback).
  { destruct l as [|y l].
    - exists []. destruct Hr as [_ [H1 H2]]. simpl in *. rewrite H1.
      split; [done|]. split; [done|]. intros m' H. apply (ring_rotate m' [new] [cur]). done.
    - exists (l ++ [cur]). pose proof Hr as [[[H1 H2] _] _]. rewrite H1. split_and!.
      + by rewrite Permutation_cons_append.
      + by apply (ring_rotate m [cur] (y :: l)).
      + intros m' H. by apply (ring_rotate m' (new :: y :: l) [cur]). }
  apply Hback.
  assert (insert_after cur new m = insert_before (rd m (next_of cur)) new m) as ->.
  { unfold insert_after, insert_before. cbn zeta.
    assert (rd m (prev_of (rd m (next_of cur))) = cur) as ->; [|done].
    destruct l as [|y l]; simpl in Hr.
    - destruct Hr as [_ [-> ->]]. done.
    - destruct Hr as [[[-> ->] _] _]. done. }
  apply insert_before_ring; [done| |done].
  eapply sep_perm; [|exact Hsep]. by rewrite HP.
Qed.

(** ** Slots *)
Lemma slot_loop_log2 fuel n s :
  0 <= s < 2 ^ Z.of_nat fuel ->
  slot_loop fuel n s = if decide (s = 0) then n else n + 1 + Z.log2 s.
Proof.
  revert n s. induction fuel as [|fuel IH]; intros n s Hs.
  { simpl in *. rewrite decide_True by lia. done. }
  simpl slot_loop. rewrite Nat2Z.inj_succ, Z.pow_succ_r in Hs by lia.
  destruct (decide (s > 0)).
  - assert (0 <= s / 2 < 2 ^ Z.of_nat fuel)
      by (split; [apply Z.div_pos|apply Z.div_lt_upper_bound]; lia).
    rewrite IH, (decide_False (P := s = 0)) by lia.
    case_decide as Hd.
    + assert (s = 1) as -> by (apply Z.div_small_iff in Hd; lia). simpl. lia.
    + assert (2 <= s) by (destruct (decide (s = 1)) as [->|]; [done|lia]).
      assert (Z.log2 s = Z.log2 (s / 2) + 1); [|lia].
      change (s / 2) with (s / 2 ^ 1). rewrite <- Z.shiftr_div_pow2 by lia.
      rewrite Z.log2_shiftr by lia.
      assert (1 <= Z.log2 s) by (apply (Z.log2_le_mono 2 s); lia). lia.
  - rewrite decide_True by lia. done.
Qed.

Lemma memory_chunk_slot_log2 s :
  0 < s < 2 ^ 32 -> memory_chunk_slot s = Z.log2 s.
Proof.
  intros Hs. unfold memory_chunk_slot. rewrite slot_loop_log2 by (simpl; lia).
  rewrite decide_False by lia. lia.
Qed.

Lemma memory_chunk_slot_0 : memory_chunk_slot 0 = -1.
Proof. reflexivity. Qed.

(** Every chunk of a slot at or above the one [kmalloc] starts from is large
    enough. *)
Lemma memory_chunk_slot_fits size len n :
  0 < size -> 0 < len < 2 ^ 32 -> size < 2 ^ 32 ->
  memory_chunk_slot (size - 1) + 1 <= n -> memory_chunk_slot len = n -> size <= len.
Proof.
  intros Hs Hl Hs2 Hn Hln. rewrite memory_chunk_slot_log2 in Hln by lia.
  destruct (Z.log2_spec len) as [H1 _]; [lia|]. rewrite Hln in H1.
  destruct (decide (size = 1)) as [->|]; [lia|].
  rewrite memory_chunk_slot_log2 in Hn by lia.
  destruct (Z.log2_spec (size - 1)) as [_ H2]; [lia|].
  assert (2 ^ Z.succ (Z.log2 (size - 1)) <= 2 ^ n)
    by (apply Z.pow_le_mono_r; lia). lia.
Qed.

(** ** The heap invariant

    [cs] are the addresses of all chunks in increasing order, [fl n] those of
    the free chunks of slot [n], first one first, and [X] the chunks an
    operation has taken off its free list or not yet put on one. *)
Definition csize (m : mem) (c : Z) : Z := memory_chunk_size c m.
Definition used (m : mem) (c : Z) : Z := rd m (used_of c).

Record krep (h : kheap) (cs : list Z) (fl : Z -> list Z) (X : list Z) : Prop := {
  kr_sorted : StronglySorted (fun a b => a + sizeof_mem_chunk <= b) cs;
  kr_ends : exists mid, cs = kh_first_chunk h :: mid ++ [kh_last_chunk h];
  kr_bounds : 0 < kh_first_chunk h /\ kh_last_chunk h + sizeof_mem_chunk <= 2 ^ 32;
  kr_align a : a ∈ cs -> a mod ALIGN = 0;
  kr_ring : ring (kh_mem h) cs;
  kr_flag a : a ∈ cs -> used (kh_mem h) a = 0 \/ used (kh_mem h) a = 1;
  kr_ends_used : used (kh_mem h) (kh_first_chunk h) = 1 /\
                 used (kh_mem h) (kh_last_chunk h) = 1;
  kr_head n : rd (kh_free_chunk h) n = default NULL (head (fl n));
  kr_free_ring n : ring (kh_mem h) (map free_of (fl n)) /\ NoDup (fl n);
  kr_tie n a : a ∈ fl n <->
    a ∈ cs /\ used (kh_mem h) a = 0 /\ memory_chunk_slot (csize (kh_mem h) a) = n /\ a ∉ X;
  kr_float x : x ∈ X -> x ∈ cs /\ lnk (kh_mem h) (free_of x) (free_of x);
  (* no two adjacent chunks are free *)
  kr_coalesced a : a ∈ cs -> used (kh_mem h) a = 0 -> a ∉ X ->
    used (kh_mem h) (rd (kh_mem h) a) = 1 \/ rd (kh_mem h) a ∈ X;
}.

Lemma sorted_spaced cs a b :
  StronglySorted (fun a b => a + sizeof_mem_chunk <= b) cs -> a ∈ cs -> b ∈ cs ->
  a = b \/ a + 20 <= b \/ b + 20 <= a.
Proof.
  induction cs as [|c cs IH]; [set_solver|].
  rewrite StronglySorted_cons, Forall_forall. unfold sizeof_mem_chunk in *.
  intros [Hc Hs] [->|Ha]%elem_of_cons [->|Hb]%elem_of_cons; auto.
Qed.

Lemma sorted_NoDup cs :
  StronglySorted (fun a b => a + sizeof_mem_chunk <= b) cs -> NoDup cs.
Proof.
  induction cs as [|c cs IH]; [constructor|].
  rewrite StronglySorted_cons, Forall_forall. intros [Hc Hs].
  constructor; [|auto]. intros Hin. specialize (Hc _ Hin). unfold sizeof_mem_chunk in *. lia.
Qed.

Lemma sorted_sep cs :
  StronglySorted (fun a b => a + sizeof_mem_chunk <= b) cs -> sep cs.
Proof.
  intros Hs. split; [by apply sorted_NoDup|]. intros p q Hp Hq.
  pose proof (sorted_spaced _ _ _ Hs Hp Hq). lia.
Qed.

Lemma sep_free cs l :
  StronglySorted (fun a b => a + sizeof_mem_chunk <= b) cs ->
  NoDup l -> l ⊆ cs -> sep (map free_of l).
Proof.
  intros Hs Hnd Hl. split.
  - apply (NoDup_fmap_2_strong free_of); [|done]. unfold free_of. intros. lia.
  - intros p q (a & -> & Ha)%list_elem_of_fmap (b & -> & Hb)%list_elem_of_fmap.
    pose proof (sorted_spaced _ _ _ Hs (Hl _ Ha) (Hl _ Hb)). unfold free_of. lia.
Qed.

Lemma krep_mem_ends h cs fl X :
  krep h cs fl X -> kh_first_chunk h ∈ cs /\ kh_last_chunk h ∈ cs.
Proof. intros HK. destruct (kr_ends _ _ _ _ HK) as [mid ->]. set_solver. Qed.

Lemma krep_pos h cs fl X a : krep h cs fl X -> a ∈ cs -> 0 < a /\ a + 20 <= 2 ^ 32.
Proof.
  intros HK Ha. pose proof (kr_bounds _ _ _ _ HK) as [H1 H2].
  pose proof (kr_sorted _ _ _ _ HK) as Hs. destruct (kr_ends _ _ _ _ HK) as [mid ->].
  apply (StronglySorted_app _ (_ :: mid)) in Hs as (Hlast & Hs & _).
  apply StronglySorted_cons in Hs as [Hf _]. rewrite Forall_forall in Hf.
  unfold sizeof_mem_chunk in *.
  specialize (Hlast a (kh_last_chunk h)) as Hl. specialize (Hf a) as Hf'.
  specialize (Hlast (kh_first_chunk h) (kh_last_chunk h)).
  apply (elem_of_app (_ :: mid)) in Ha as [Ha|Ha%list_elem_of_singleton].
  - specialize (Hl Ha ltac:(set_solver)). apply elem_of_cons in Ha as [->|Ha]; [lia|].
    specialize (Hf' Ha). lia.
  - subst. specialize (Hlast ltac:(set_solver) ltac:(set_solver)). lia.
Qed.

Lemma csize_eq m c b : lnk m c b -> c + 20 <= b -> 0 < c -> b <= 2 ^ 32 ->
  csize m c = b - c - 12.
Proof.
  intros [H _] ???. unfold csize, memory_chunk_size. unfold next_of in *. rewrite H.
  unfold HEADER_SIZE. apply u32_small. lia.
Qed.

(** ** Moving chunks between the free lists and [X] *)

(** The header words of the chunks are unchanged. *)
Definition hdr_same (cs : list Z) (m m' : mem) : Prop :=
  forall a, a ∈ cs -> rd m' (next_of a) = rd m (next_of a) /\
                      rd m' (prev_of a) = rd m (prev_of a) /\ used m' a = used m a.

Lemma hdr_same_csize cs m m' a : hdr_same cs m m' -> a ∈ cs -> csize m' a = csize m a.
Proof.
  intros Hs Ha. destruct (Hs a Ha) as (H & _). unfold csize, memory_chunk_size.
  unfold next_of in *. by rewrite H.
Qed.

Lemma krep_free_sub h cs fl X n : krep h cs fl X -> fl n ⊆ cs.
Proof. intros HK a Ha. by apply (kr_tie _ _ _ _ HK) in Ha as (? & _). Qed.

Lemma list_remove_free_run h cs fl X n x l1 l2 :
  krep h cs fl X -> fl n = l1 ++ x :: l2 ->
  list_remove_free n x h =
    set_free_chunk n (default NULL (head (l1 ++ l2)))
      (set_mem (remove (free_of x) (kh_mem h)) h).
Proof.
  intros HK Hfl. pose proof (krep_free_sub _ _ _ _ n HK) as Hsub.
  pose proof (kr_head _ _ _ _ HK n) as Hh.
  destruct (kr_free_ring _ _ _ _ HK n) as [Hr Hnd]. rewrite Hfl in *.
  assert (forall a, a ∈ l1 ++ x :: l2 -> 0 < a) as Hpos
    by (intros a Ha; apply (krep_pos _ _ _ _ _ HK); auto).
  unfold list_remove_free, remove_from. rewrite Hh. destruct l1 as [|y l1]; simpl in *.
  - rewrite decide_True by done. unfold pop. cbn zeta iota.
    destruct l2 as [|z l2]; simpl in *.
    + destruct Hr as [_ [H1 _]]. rewrite H1.
      rewrite (decide_True (P := free_of x = free_of x)) by done. done.
    + destruct Hr as [[[H1 _] _] _]. rewrite H1.
      apply NoDup_cons in Hnd as [Hx _]. pose proof (Hpos z ltac:(set_solver)).
      rewrite (decide_False (P := free_of x = free_of z))
        by (unfold free_of; intros ?; apply Hx; assert (x = z) by lia; set_solver).
      rewrite decide_False by (unfold free_of, NULL; lia).
      unfold CONTAINER_free, free_of. by rewrite Z.add_simpl_r.
  - apply NoDup_cons in Hnd as [Hy _]. pose proof (Hpos y ltac:(set_solver)).
    rewrite (decide_False (P := free_of y = free_of x))
      by (unfold free_of; intros ?; apply Hy; assert (x = y) by lia; set_solver).
    rewrite decide_False by (unfold free_of, NULL; lia).
    unfold CONTAINER_free, free_of. by rewrite Z.add_simpl_r.
Qed.

Lemma list_pop_free_run h n :
  list_pop_free n h =
    (rd (kh_free_chunk h) n, list_remove_free n (rd (kh_free_chunk h) n) h).
Proof.
  unfold list_pop_free, list_remove_free, remove_from.
  rewrite (decide_True (P := free_of _ = free_of _)) by done. unfold pop. cbn zeta iota.
  unfold CONTAINER_free, free_of. by rewrite !Z.add_simpl_r.
Qed.

(** The cells an operation on the free list [l] and the chunk [x] may write. *)
Definition free_frame (l : list Z) (m m' : mem) : Prop :=
  forall c, (forall a, a ∈ l -> c <> free_of a /\ c <> free_of a + 4) -> rd m' c = rd m c.

Lemma free_frame_hdr cs l m m' :
  StronglySorted (fun a b => a + sizeof_mem_chunk <= b) cs -> l ⊆ cs ->
  free_frame l m m' -> hdr_same cs m m'.
Proof.
  intros Hs Hl Hf a Ha. unfold used, next_of, prev_of, used_of.
  repeat split; apply Hf; intros b Hb; pose proof (sorted_spaced _ _ _ Hs Ha (Hl _ Hb));
    unfold free_of; lia.
Qed.

Lemma free_frame_lnk cs l m m' a :
  StronglySorted (fun a b => a + sizeof_mem_chunk <= b) cs -> l ⊆ cs ->
  free_frame l m m' -> a ∈ cs -> a ∉ l ->
  rd m' (next_of (free_of a)) = rd m (next_of (free_of a)) /\
  rd m' (prev_of (free_of a)) = rd m (prev_of (free_of a)).
Proof.
  intros Hs Hl Hf Ha Hal. unfold next_of, prev_of.
  split; apply Hf; intros b Hb; pose proof (sorted_spaced _ _ _ Hs Ha (Hl _ Hb));
    assert (a <> b) by set_solver; unfold free_of; lia.
Qed.

Lemma remove_free_frame l x m :
  ring m (map free_of l) -> x ∈ l -> free_frame l m (remove (free_of x) m).
Proof.
  intros Hr Hx c Hc.
  assert (free_of x ∈ map free_of l) as Hfx by (apply list_elem_of_fmap; eauto).
  pose proof (ring_next_elem _ _ _ Hr Hfx) as (z & Hz & Hzl)%list_elem_of_fmap.
  pose proof (ring_prev_elem _ _ _ Hr Hfx) as (y & Hy & Hyl)%list_elem_of_fmap.
  destruct (Hc x Hx), (Hc y Hyl), (Hc z Hzl).
  apply remove_frame; congruence.
Qed.

(** The invariant after a step that only moves chunks between the free list
    of slot [n] and [X]. *)
Lemma krep_slot_update h cs fl X n l l0 X' m' :
  krep h cs fl X ->
  free_frame l0 (kh_mem h) m' -> l0 ⊆ cs -> (forall a, a ∈ l0 -> a ∈ fl n \/ a ∈ X) ->
  ring m' (map free_of l) -> NoDup l ->
  (forall a, a ∈ l <-> a ∈ cs /\ used (kh_mem h) a = 0 /\
                       memory_chunk_slot (csize (kh_mem h) a) = n /\ a ∉ X') ->
  (forall a, a ∈ cs -> used (kh_mem h) a = 0 ->
     memory_chunk_slot (csize (kh_mem h) a) <> n -> (a ∉ X' <-> a ∉ X)) ->
  (forall x, x ∈ X' -> x ∈ cs /\ (((x ∉ l0) /\ (x ∈ X)) \/ lnk m' (free_of x) (free_of x))) ->
  (forall a, a ∈ cs -> used (kh_mem h) a = 0 -> a ∉ X' ->
     used (kh_mem h) (rd (kh_mem h) a) = 1 \/ rd (kh_mem h) a ∈ X') ->
  krep (set_free_chunk n (default NULL (head l)) (set_mem m' h)) cs (<[n := l]> fl) X' /\
  hdr_same cs (kh_mem h) m'.
Proof.
  intros HK Hfr Hl0 Hl0x Hr Hnd Hin Hout HX Hco.
  pose proof (free_frame_hdr _ _ _ _ (kr_sorted _ _ _ _ HK) Hl0 Hfr) as Hh.
  split; [|done].
  destruct (krep_mem_ends _ _ _ _ HK) as [Hf Hl].
  assert (forall a, a ∈ cs -> rd m' a = rd (kh_mem h) a) as Hnx by (intros a Ha; apply (Hh a Ha)).
  assert (forall a, a ∈ cs -> used m' a = used (kh_mem h) a) as Hus by (intros a Ha; apply (Hh a Ha)).
  assert (forall a, a ∈ cs -> csize m' a = csize (kh_mem h) a) as Hsz
    by (intros a Ha; by apply (hdr_same_csize cs)).
  split; simpl; try apply HK.
  - apply (ring_ext (kh_mem h)); [|apply sorted_NoDup, HK|apply HK].
    intros p Hp. destruct (Hh p Hp) as (?&?&?). done.
  - intros a Ha. rewrite Hus by done. by apply HK.
  - rewrite !Hus by done. apply HK.
  - intros k. rewrite rd_insert. destruct (decide (n = k)) as [<-|Hk].
    + by rewrite fn_lookup_insert.
    + rewrite fn_lookup_insert_ne by done. apply HK.
  - intros k. destruct (decide (n = k)) as [<-|Hk]; [by rewrite fn_lookup_insert|].
    rewrite fn_lookup_insert_ne by done. destruct (kr_free_ring _ _ _ _ HK k) as [Hrk Hndk].
    split; [|done]. apply (ring_ext (kh_mem h)); [| |done].
    + intros p (a & -> & Ha)%list_elem_of_fmap.
      apply (kr_tie _ _ _ _ HK) in Ha as (Ha & Hu & Hk' & HaX).
      eapply free_frame_lnk; [apply HK|exact Hl0|done|done|].
      intros [Hx|Hx]%Hl0x; [|done]. by apply (kr_tie _ _ _ _ HK) in Hx as (_ & _ & ? & _); congruence.
    + apply (NoDup_fmap_2_strong free_of); [|done]. unfold free_of. intros; lia.
  - intros k a. destruct (decide (n = k)) as [<-|Hk].
    + rewrite fn_lookup_insert, Hin. split; intros (Ha & Hu & Hs & HaX);
        (split_and!; [done|by rewrite <- Hu; rewrite Hus|by rewrite <- Hs, Hsz|done]).
    + rewrite fn_lookup_insert_ne by done. rewrite (kr_tie _ _ _ _ HK).
      split; intros (Ha & Hu & Hs & HaX).
      * rewrite Hus, Hsz by done. split_and!; try done. apply Hout; [done|done|congruence|done].
      * rewrite Hus in Hu by done. rewrite Hsz in Hs by done. split_and!; try done.
        apply Hout; [done|done|congruence|done].
  - intros x Hx. destruct (HX x Hx) as (Hc & [[Hn Hx']|Hx']); [|done].
    split; [done|]. destruct (kr_float _ _ _ _ HK x Hx') as [_ [H1 H2]].
    destruct (free_frame_lnk cs l0 (kh_mem h) m' x) as [E1 E2]; try done; [apply HK|].
    split; congruence.
  - intros a Ha Hu HaX. rewrite Hus in Hu by done. rewrite Hnx by done.
    destruct (Hco a Ha Hu HaX) as [H|H]; [|by right].
    assert (rd (kh_mem h) a ∈ cs)
      by (apply ring_next_elem; [apply HK|done]).
    left. rewrite Hus by done. done.
Qed.

(** Taking a chunk off its free list. *)
Lemma krep_take h cs fl X n x l1 l2 :
  krep h cs fl X -> fl n = l1 ++ x :: l2 ->
  krep (list_remove_free n x h) cs (<[n := l1 ++ l2]> fl) (x :: X) /\
  hdr_same cs (kh_mem h) (kh_mem (list_remove_free n x h)).
Proof.
  intros HK Hfl. rewrite (list_remove_free_run _ _ _ _ _ _ _ _ HK Hfl).
  pose proof (krep_free_sub _ _ _ _ n HK) as Hsub.
  destruct (kr_free_ring _ _ _ _ HK n) as [Hr Hnd].
  assert (x ∈ fl n) as Hx by (rewrite Hfl; set_solver).
  pose proof (remove_free_frame _ _ _ Hr Hx) as Hfr.
  assert (ring (remove (free_of x) (kh_mem h)) (map free_of (l1 ++ l2)) /\
          lnk (remove (free_of x) (kh_mem h)) (free_of x) (free_of x)) as [Hring Hself].
  { rewrite Hfl, map_app in Hr. apply ring_rotate in Hr. simpl in Hr.
    rewrite map_app. apply remove_ring in Hr as [Hr Hl].
    - split; [by apply ring_rotate|done].
    - rewrite <- map_app. change (sep (map free_of (x :: l2 ++ l1))).
      apply (sep_free cs); [apply HK| |].
      + assert (x :: l2 ++ l1 ≡ₚ fl n) as -> by (rewrite Hfl; solve_Permutation). done.
      + intros a Ha. apply Hsub. rewrite Hfl. set_solver. }
  assert (forall a, a ∈ l1 ++ l2 <-> a ∈ fl n /\ a <> x) as Hl.
  { intros a. rewrite Hfl in *. rewrite NoDup_app, NoDup_cons in Hnd.
    destruct Hnd as (? & Hd & ? & ?). split; [|set_solver].
    intros Ha. split; [set_solver|]. intros ->. set_solver. }
  pose proof (kr_tie _ _ _ _ HK) as Htie.
  apply (krep_slot_update h cs fl X n (l1 ++ l2) (fl n)); try done.
  - by left.
  - rewrite Hfl, NoDup_app, NoDup_cons in Hnd. rewrite NoDup_app. set_solver.
  - intros a. rewrite Hl, Htie. set_solver.
  - intros a Ha Hu Hs. apply Htie in Hx as (?&?&?&?). split; [set_solver|].
    intros Hax [->|]%elem_of_cons; done.
  - intros y [->|Hy]%elem_of_cons; [auto|].
    split; [by apply (kr_float _ _ _ _ HK)|]. left. split; [|done].
    intros (_&_&_&?)%Htie. done.
  - intros a Ha Hu [Hax HaX]%not_elem_of_cons.
    destruct (kr_coalesced _ _ _ _ HK a Ha Hu HaX); [by left|right; set_solver].
Qed.

Lemma list_push_free_run h cs fl X n x :
  krep h cs fl X ->
  list_push_free n x h =
    set_free_chunk n x (set_mem
      (match fl n with
       | [] => kh_mem h
       | y :: _ => insert_before (free_of y) (free_of x) (kh_mem h)
       end) h).
Proof.
  intros HK. unfold list_push_free, push. rewrite (kr_head _ _ _ _ HK n).
  pose proof (krep_free_sub _ _ _ _ n HK) as Hsub.
  assert (CONTAINER_free (free_of x) = x) as ->
    by (unfold CONTAINER_free, free_of; by rewrite Z.add_simpl_r).
  destruct (fl n) as [|y l]; cbn [head default from_option].
  - rewrite !(decide_True (P := NULL = NULL)) by done. rewrite decide_False; auto.
  - destruct (krep_pos _ _ _ _ y HK) as [? ?]; [apply Hsub; set_solver|].
    rewrite (decide_False (P := y = NULL)) by (unfold NULL; lia).
    rewrite (decide_True (P := free_of y <> NULL)) by (unfold free_of, NULL; lia). done.
Qed.

(** Putting a chunk on the free list of its size. *)
Lemma krep_put h cs fl X n x :
  krep h cs fl (x :: X) -> x ∉ X -> used (kh_mem h) x = 0 ->
  memory_chunk_slot (csize (kh_mem h) x) = n ->
  (used (kh_mem h) (rd (kh_mem h) x) = 1 \/ rd (kh_mem h) x ∈ X) ->
  (forall p, p ∈ cs -> rd (kh_mem h) p = x -> used (kh_mem h) p = 1 \/ p ∈ X) ->
  krep (list_push_free n x h) cs (<[n := x :: fl n]> fl) X /\
  hdr_same cs (kh_mem h) (kh_mem (list_push_free n x h)).
Proof.
  intros HK HxX Hux Hsl Hnext Hprev.
  pose proof (krep_free_sub _ _ _ _ n HK) as Hsub.
  destruct (kr_free_ring _ _ _ _ HK n) as [Hr Hnd].
  destruct (kr_float _ _ _ _ HK x ltac:(set_solver)) as [Hxc [Hself1 Hself2]].
  pose proof (kr_tie _ _ _ _ HK) as Htie.
  assert (x ∉ fl n) as Hxn by (intros (_&_&_&?)%Htie; set_solver).
  rewrite (list_push_free_run _ _ _ _ _ _ HK). simpl kh_mem.
  set (m' := match fl n with [] => _ | _ => _ end).
  assert (ring m' (map free_of (x :: fl n)) /\ free_frame (x :: fl n) (kh_mem h) m')
    as [Hring Hfr].
  { subst m'. destruct (fl n) as [|y l] eqn:Hfl; [done|].
    split.
    - apply insert_before_ring; [done| |done].
      change (sep (map free_of (x :: y :: l))). apply (sep_free cs); [apply HK| |].
      + by constructor.
      + set_solver.
    - intros c Hc. destruct (Hc x ltac:(set_solver)), (Hc y ltac:(set_solver)).
      apply insert_before_frame; [done|done|done|done|].
      assert (free_of y ∈ map free_of (y :: l)) as Hfy by set_solver.
      pose proof (ring_prev_elem _ _ _ Hr Hfy) as (z & -> & Hz)%list_elem_of_fmap.
      apply (Hc z). set_solver. }
  apply (krep_slot_update h cs fl (x :: X) n (x :: fl n) (x :: fl n) X m'); try done.
  - set_solver.
  - intros a [->|Ha]%elem_of_cons; [right; set_solver|by left].
  - by constructor.
  - intros a. rewrite elem_of_cons, Htie. split.
    + intros [->|(?&?&?&?)]; set_solver.
    + intros (?&?&?&?). destruct (decide (a = x)); set_solver.
  - intros a Ha Hu Hs. assert (a <> x) by congruence. set_solver.
  - intros y Hy. split; [apply (kr_float _ _ _ _ HK); set_solver|]. left.
    split; [|set_solver]. intros [->|Hyn]%elem_of_cons; [done|].
    apply Htie in Hyn as (_&_&_&?). set_solver.
  - intros a Ha Hu HaX. destruct (decide (a = x)) as [->|Hax]; [done|].
    destruct (kr_coalesced _ _ _ _ HK a Ha Hu ltac:(set_solver)) as [|Hin]; [by left|].
    apply elem_of_cons in Hin as [Hin|]; [|by right].
    destruct (Hprev a Ha Hin); [|done]. congruence.
Qed.

(** ** Changing the list of all chunks *)
Lemma ring_lnk m l a : ring m l -> a ∈ l -> lnk m a (rd m (next_of a)).
Proof.
  intros Hr Ha. apply list_elem_of_split in Ha as (l1 & l2 & ->).
  apply (ring_rotate m l1 (a :: l2)) in Hr. simpl in Hr.
  destruct (l2 ++ l1) as [|b l3]; simpl in Hr; unfold lnk in *.
  - destruct Hr as [_ [H1 H2]]. by rewrite H1.
  - destruct Hr as [[[H1 H2] _] _]. by rewrite H1.
Qed.

Ltac spaced Hs a b :=
  let H := fresh in
  assert (a = b \/ a + 20 <= b \/ b + 20 <= a) as H
    by (apply (sorted_spaced _ a b Hs); first [done | clear; set_solver | set_solver]).

Lemma krep_neighbours h cs fl X a :
  krep h cs fl X -> a ∈ cs -> a <> kh_first_chunk h -> a <> kh_last_chunk h ->
  exists A p n B, cs = A ++ p :: a :: n :: B /\ lnk (kh_mem h) p a /\ lnk (kh_mem h) a n /\
    p + 20 <= a /\ a + 20 <= n /\ csize (kh_mem h) a = n - a - 12.
Proof.
  intros HK Ha Hf Hl. destruct (kr_ends _ _ _ _ HK) as [mid Hcs].
  assert (a ∈ mid) as Hm by set_solver.
  apply list_elem_of_split in Hm as (m1 & m2 & ->).
  assert (exists A p, kh_first_chunk h :: m1 = A ++ [p]) as (A & p & HA).
  { destruct (exists_last (l := kh_first_chunk h :: m1)) as (A & p & ?); eauto. }
  assert (exists n B, m2 ++ [kh_last_chunk h] = n :: B) as (n & B & HB)
    by (destruct m2; simpl; eauto).
  assert (cs = A ++ p :: a :: n :: B) as Hcs'.
  { rewrite Hcs, <- HB. rewrite <- app_assoc. simpl.
    change (kh_first_chunk h :: m1 ++ ?x) with ((kh_first_chunk h :: m1) ++ x).
    rewrite HA, <- app_assoc. done. }
  exists A, p, n, B. split; [done|].
  pose proof (kr_sorted _ _ _ _ HK) as Hs. pose proof (kr_ring _ _ _ _ HK) as Hr.
  rewrite Hcs' in Hs, Hr.
  assert (lnk (kh_mem h) p a) by (by eapply ring_next).
  assert (lnk (kh_mem h) a n).
  { eapply (ring_next _ (A ++ [p])). rewrite <- app_assoc. exact Hr. }
  apply StronglySorted_app in Hs as (_ & _ & Hs).
  apply StronglySorted_cons in Hs as [Hp Hs]. apply StronglySorted_cons in Hs as [Hn _].
  rewrite Forall_forall in Hp, Hn. unfold sizeof_mem_chunk in *.
  specialize (Hp a ltac:(set_solver)). specialize (Hn n ltac:(set_solver)).
  destruct (krep_pos _ _ _ _ a HK Ha).
  destruct (krep_pos _ _ _ _ n HK); [rewrite Hcs'; set_solver|].
  split_and!; try done. apply csize_eq; lia || done.
Qed.

(** What an operation that changes the successor of [p] alone keeps. *)
Definition hdr_except (cs : list Z) (p : Z) (m m' : mem) : Prop :=
  (forall a, a ∈ cs -> used m' a = used m a) /\
  (forall a, a ∈ cs -> a <> p -> rd m' a = rd m a).

(** All words of chunk [a] but the successor of [p] and the backward links. *)
Definition chunk_same (p : Z) (m m' : mem) (a : Z) : Prop :=
  used m' a = used m a /\ (a <> p -> rd m' a = rd m a) /\
  rd m' (next_of (free_of a)) = rd m (next_of (free_of a)) /\
  rd m' (prev_of (free_of a)) = rd m (prev_of (free_of a)).

Lemma krep_all_update h cs fl X cs' X' p m' :
  krep h cs fl X ->
  StronglySorted (fun a b => a + sizeof_mem_chunk <= b) cs' ->
  (exists mid, cs' = kh_first_chunk h :: mid ++ [kh_last_chunk h]) ->
  (forall a, a ∈ cs' -> a mod ALIGN = 0) ->
  ring m' cs' ->
  (forall a, a ∈ cs' -> a ∈ cs -> chunk_same p (kh_mem h) m' a /\ (a ∈ X' <-> a ∈ X)) ->
  (forall a, a ∈ cs' -> a ∉ cs ->
     a ∈ X' /\ used m' a = 0 /\ lnk m' (free_of a) (free_of a)) ->
  (forall a n, a ∈ fl n -> a ∈ cs') -> (forall x, x ∈ X' -> x ∈ cs') ->
  p ∈ X' \/ used m' p = 1 ->
  (forall a, a ∈ cs' -> a ∈ cs -> a <> p -> rd (kh_mem h) a ∈ cs') ->
  krep (set_mem m' h) cs' fl X'.
Proof.
  intros HK Hs Hends Hal Hr Hold Hnew Hfl HX Hp Hnx.
  pose proof (kr_tie _ _ _ _ HK) as Htie.
  assert (kh_first_chunk h ∈ cs' /\ kh_last_chunk h ∈ cs') as [Hf Hl]
    by (destruct Hends as [mid ->]; set_solver).
  destruct (krep_mem_ends _ _ _ _ HK) as [Hfc Hlc].
  assert (forall a, a ∈ cs' -> a ∉ X' -> a ∈ cs /\ chunk_same p (kh_mem h) m' a /\ a ∉ X)
    as Hcase.
  { intros a Ha HaX. destruct (decide (a ∈ cs)) as [Hac|Hac].
    - destruct (Hold a Ha Hac) as [? Hi]. by rewrite Hi in HaX.
    - by destruct (Hnew a Ha Hac). }
  assert (forall a, a ∈ cs' -> a ∉ X' -> used m' a = 0 ->
            a <> p /\ csize m' a = csize (kh_mem h) a) as Hsz.
  { intros a Ha HaX Hu. destruct (Hcase a Ha HaX) as (_ & (_ & Hc & _) & _).
    assert (a <> p) as Hap by (intros ->; destruct Hp; [done|congruence]).
    split; [done|]. unfold csize, memory_chunk_size, next_of in *. by rewrite Hc. }
  split; simpl; try done; try apply HK.
  - intros a Ha. destruct (decide (a ∈ cs)) as [Hac|Hac].
    + destruct (Hold a Ha Hac) as [(-> & _) _]. by apply HK.
    + left. by apply Hnew.
  - destruct (Hold _ Hf Hfc) as [(-> & _) _], (Hold _ Hl Hlc) as [(-> & _) _]. apply HK.
  - intros n. destruct (kr_free_ring _ _ _ _ HK n) as [Hrk Hnd]. split; [|done].
    apply (ring_ext (kh_mem h)); [| |done].
    + intros q (a & -> & Ha)%list_elem_of_fmap. pose proof (Hfl _ _ Ha) as Ha'.
      apply Htie in Ha as (Hac & _). destruct (Hold a Ha' Hac) as [(_ & _ & ? & ?) _]. done.
    + apply (NoDup_fmap_2_strong free_of); [|done]. unfold free_of. intros; lia.
  - intros n a. rewrite Htie. split.
    + intros (Ha & Hu & Hn & HaX). assert (a ∈ cs') as Ha' by (apply (Hfl a n), Htie; done).
      destruct (Hold a Ha' Ha) as [(Hu' & _) Hi]. rewrite <- Hi in HaX.
      rewrite Hu'. split_and!; try done. rewrite <- Hn. f_equal. apply Hsz; congruence.
    + intros (Ha & Hu & Hn & HaX). destruct (Hcase a Ha HaX) as (Hac & (Hu' & _) & HaX').
      split_and!; try done; [congruence|]. rewrite <- Hn. f_equal. symmetry. by apply Hsz.
  - intros x Hx. pose proof (HX x Hx) as Hx'. split; [done|].
    destruct (decide (x ∈ cs)) as [Hac|Hac]; [|by apply Hnew].
    destruct (Hold x Hx' Hac) as [(_ & _ & E1 & E2) Hi]. apply Hi in Hx.
    destruct (kr_float _ _ _ _ HK x Hx) as [_ [H1 H2]]. split; congruence.
  - intros a Ha Hu HaX. destruct (Hcase a Ha HaX) as (Hac & (Hu' & Hn & _) & HaX').
    destruct (Hsz a Ha HaX Hu) as [Hap _]. rewrite (Hn Hap).
    pose proof (Hnx a Ha Hac Hap) as Hb.
    assert (rd (kh_mem h) a ∈ cs) as Hbc by (apply ring_next_elem; [apply HK|done]).
    destruct (Hold _ Hb Hbc) as [(Hub & _) Hi]. rewrite Hub, Hi.
    apply (kr_coalesced _ _ _ _ HK); congruence.
Qed.

(** Replacing inner elements of a list keeps its two ends. *)
Lemma app_mid_ends {T} (f l : T) A p (mid B C C' : list T) :
  A ++ p :: C ++ B = f :: mid ++ [l] -> B <> [] ->
  exists mid', A ++ p :: C' ++ B = f :: mid' ++ [l].
Proof.
  intros E HB. destruct (exists_last HB) as (B' & b & ->).
  assert (b = l) as ->.
  { assert ((A ++ p :: C ++ B') ++ [b] = (f :: mid) ++ [l]) as E'
      by (change ((f :: mid) ++ [l]) with (f :: mid ++ [l]); rewrite <- E;
          rewrite <- app_assoc; simpl; by rewrite <- app_assoc).
    by apply app_inj_tail in E' as [_ ?]. }
  destruct A as [|a A]; simpl in E; injection E as -> _; simpl.
  - exists (C' ++ B'). by rewrite <- app_assoc.
  - exists (A ++ p :: C' ++ B'). rewrite <- app_assoc. simpl. by rewrite <- app_assoc.
Qed.

Lemma krep_unlink h A p x n B fl X X' :
  krep h (A ++ p :: x :: n :: B) fl X ->
  x ∈ X \/ used (kh_mem h) x = 1 -> p ∈ X \/ used (kh_mem h) p = 1 ->
  (forall y, y ∈ X' <-> y ∈ X /\ y <> x) ->
  krep (on_mem (remove x) h) (A ++ p :: n :: B) fl X' /\
  hdr_except (A ++ p :: n :: B) p (kh_mem h) (remove x (kh_mem h)) /\
  rd (remove x (kh_mem h)) p = n.
Proof.
  intros HK Hx Hp HX'. set (m := kh_mem h) in *. set (m' := remove x m).
  pose proof (kr_sorted _ _ _ _ HK) as Hs. pose proof (kr_ring _ _ _ _ HK) as Hr.
  pose proof (sorted_NoDup _ Hs) as Hnd. fold m in Hr.
  assert (lnk m p x) as [Hpx1 Hpx2] by (by eapply ring_next).
  assert (lnk m x n) as [Hxn1 Hxn2].
  { eapply (ring_next _ (A ++ [p])). rewrite <- app_assoc. exact Hr. }
  assert (forall a, a ∈ A ++ p :: n :: B <-> a ∈ A ++ p :: x :: n :: B /\ a <> x) as Hne.
  { clear - Hnd. rewrite NoDup_app, !NoDup_cons in Hnd. set_solver. }
  assert (ring m' (A ++ p :: n :: B)) as Hr'.
  { assert (ring m ((A ++ [p]) ++ x :: n :: B)) as Hr2 by (by rewrite <- app_assoc).
    apply ring_rotate, remove_ring in Hr2 as [Hr2 _].
    - apply (ring_rotate _ (n :: B)) in Hr2. by rewrite <- app_assoc in Hr2.
    - apply (sep_perm (A ++ p :: x :: n :: B)); [solve_Permutation|by apply sorted_sep]. }
  assert (forall c, c <> x -> c <> x + 4 -> c <> p -> c <> n + 4 -> rd m' c = rd m c) as Hfr.
  { intros c ????. apply remove_frame; congruence. }
  assert (forall a, a ∈ A ++ p :: n :: B -> chunk_same p m m' a) as Hcell.
  { intros a [Ha Hax]%Hne. spaced Hs a x. spaced Hs a p. spaced Hs a n.
    unfold chunk_same, used, used_of, next_of, prev_of, free_of.
    split_and!; intros; rewrite ?Hfr by lia; done. }
  split_and!.
  - apply (krep_all_update h (A ++ p :: x :: n :: B) fl X _ X' p); try done.
    + apply StronglySorted_app in Hs as (H1 & H2 & H3). apply StronglySorted_app.
      split_and!; [set_solver|done|]. rewrite !StronglySorted_cons, !Forall_cons in H3.
      rewrite !StronglySorted_cons, !Forall_cons. tauto.
    + destruct (kr_ends _ _ _ _ HK) as [mid E].
      by apply (app_mid_ends _ _ _ _ mid _ [x] [] E).
    + intros a [Ha _]%Hne. by apply HK.
    + intros a Ha _. split; [by apply Hcell|]. rewrite HX'. apply Hne in Ha. naive_solver.
    + intros a [Ha _]%Hne. done.
    + intros a k Ha. apply Hne. apply (kr_tie _ _ _ _ HK) in Ha as (? & Hu & _ & ?).
      split; [done|]. intros ->. destruct Hx; [done|]. unfold m in *. congruence.
    + intros y [Hy ?]%HX'. apply Hne. by apply (kr_float _ _ _ _ HK) in Hy as [? _].
    + rewrite HX'. destruct Hp as [|Hu]; [left|right].
      * split; [done|]. apply (Hne p). set_solver.
      * rewrite <- Hu. exact (proj1 (Hcell p ltac:(set_solver))).
    + intros a Ha Hac Hap. apply Hne. split; [apply ring_next_elem; [apply HK|done]|].
      intros E. pose proof (ring_lnk _ _ _ Hr Hac) as [_ E']. fold m in E.
      unfold next_of in E'. rewrite E in E'. congruence.
  - split; intros a Ha; by destruct (Hcell a Ha) as (? & ? & _).
  - apply (ring_next m' A p n B Hr').
Qed.
