(* ===== verification/KHeapSpec.v ===== *)
(** * The kernel heap implements the allocator interface

    [kmalloc] and [kfree] preserve the invariant of [KHeapRep] and satisfy
    the laws of [Alloc.AllocSpec]; [kheap_init] establishes the invariant. *)
From stdpp Require Import sorting functions.
From S2P Require Import Prelude Alloc KHeap KHeapRep.

(** ** Splitting a chunk *)
Lemma memory_chunk_init_frame x m c :
  c <> x -> c <> x + 4 -> c <> x + 8 -> c <> x + 12 -> c <> x + 16 ->
  rd (memory_chunk_init x m) c = rd m c.
Proof. intros. unfold memory_chunk_init, list_init. rds; done. Qed.

Lemma memory_chunk_init_cells x m :
  rd (memory_chunk_init x m) (prev_of x) = x /\
  used (memory_chunk_init x m) x = 0 /\
  lnk (memory_chunk_init x m) (free_of x) (free_of x).
Proof. unfold memory_chunk_init, list_init, used, lnk. split_and!; rds; done. Qed.

Lemma krep_split h A c n B fl X x :
  krep h (A ++ c :: n :: B) fl X -> c ∈ X ->
  c + 20 <= x -> x + 20 <= n -> x mod ALIGN = 0 ->
  let m' := insert_after c x (memory_chunk_init x (kh_mem h)) in
  krep (set_mem m' h) (A ++ c :: x :: n :: B) fl (x :: X) /\
  hdr_except (A ++ c :: n :: B) c (kh_mem h) m' /\
  lnk m' c x /\ lnk m' x n /\ used m' x = 0.
Proof.
  intros HK HcX Hcx Hxn Hal m'. set (m := kh_mem h) in *.
  pose proof (kr_sorted _ _ _ _ HK) as Hs. pose proof (kr_ring _ _ _ _ HK) as Hr. fold m in Hr.
  set (m1 := memory_chunk_init x m) in *.
  destruct (memory_chunk_init_cells x m) as (Hx1 & Hx2 & Hx3). fold m1 in Hx1, Hx2, Hx3.
  assert (lnk m c n) as [Hcn _] by (by eapply ring_next).
  assert (StronglySorted (fun a b => a + sizeof_mem_chunk <= b) (A ++ c :: x :: n :: B)) as Hs'.
  { pose proof Hs as Hs2. apply StronglySorted_app in Hs2 as (H1 & H2 & H3).
    rewrite !StronglySorted_cons, !Forall_cons, !Forall_forall in H3.
    apply StronglySorted_app. rewrite !StronglySorted_cons, !Forall_cons, !Forall_forall.
    unfold sizeof_mem_chunk in *. destruct H3 as ([? Hc] & Hn & ?). split_and!; try done.
    - intros a b Ha Hb. rewrite !elem_of_cons in Hb.
      assert (a + 20 <= c) by (apply H1; set_solver).
      destruct Hb as [->|[->|[->|Hb]]]; [lia|lia|lia|]. apply H1; set_solver.
    - intros b Hb. specialize (Hn b Hb). lia. }
  assert (forall a, a ∈ A ++ c :: n :: B -> a + 20 <= x \/ x + 20 <= a) as Hax.
  { intros a Ha. assert (a <> x) as Hne.
    { intros ->. apply sorted_NoDup in Hs'. rewrite NoDup_app, !NoDup_cons in Hs'. set_solver. }
    spaced Hs' a x. lia. }
  assert (forall a, a ∈ A ++ c :: n :: B -> rd m1 (next_of a) = rd m (next_of a) /\
            rd m1 (prev_of a) = rd m (prev_of a) /\ chunk_same c m m1 a) as Hm1.
  { intros a Ha. specialize (Hax a Ha).
    unfold chunk_same, used, used_of, next_of, prev_of, free_of.
    split_and!; intros; apply memory_chunk_init_frame; lia. }
  assert (ring m1 (A ++ c :: n :: B)) as Hr1.
  { apply (ring_ext m); [|by apply sorted_NoDup|done].
    intros a Ha. destruct (Hm1 a Ha) as (?&?&_). done. }
  assert (ring m' (A ++ c :: x :: n :: B)) as Hr'.
  { apply ring_rotate in Hr1. apply (ring_rotate m' (c :: x :: n :: B) A).
    apply insert_after_ring; [done| |done].
    apply (sep_perm (A ++ c :: x :: n :: B)); [solve_Permutation|by apply sorted_sep]. }
  assert (rd m1 (next_of c) = n) as Hcn1 by (destruct (Hm1 c) as (-> & _); [set_solver|done]).
  assert (forall k, k <> c -> k <> x -> k <> x + 4 -> k <> n + 4 -> rd m' k = rd m1 k) as Hfr.
  { intros k ????. apply insert_after_frame; congruence. }
  assert (forall a, a ∈ A ++ c :: n :: B -> chunk_same c m m' a) as Hcell.
  { intros a Ha. destruct (Hm1 a Ha) as (_ & _ & H1 & H2 & H3 & H4).
    specialize (Hax a Ha). spaced Hs a c. spaced Hs a n.
    unfold chunk_same, used, used_of, next_of, prev_of, free_of in *.
    split_and!; intros; rewrite Hfr by lia; auto. }
  assert (used m' x = 0 /\ lnk m' (free_of x) (free_of x)) as [Hux Hlx].
  { unfold used, lnk, used_of, next_of, prev_of, free_of in *.
    rewrite !Hfr by lia. done. }
  split_and!; try done.
  - apply (krep_all_update h (A ++ c :: n :: B) fl X _ (x :: X) c); try done.
    + destruct (kr_ends _ _ _ _ HK) as [mid E].
      by apply (app_mid_ends _ _ _ _ mid (n :: B) [] [x] E).
    + intros a Ha. destruct (decide (a = x)) as [->|]; [done|]. apply (kr_align _ _ _ _ HK). set_solver.
    + intros a Ha Hac. split; [by apply Hcell|].
      assert (a <> x) by (intros ->; specialize (Hax x Hac); lia). set_solver.
    + intros a Ha Hac. assert (a = x) as -> by set_solver. split; [set_solver|done].
    + intros a k Ha. apply (kr_tie _ _ _ _ HK) in Ha as (? & _). set_solver.
    + intros y [->|Hy]%elem_of_cons; [set_solver|].
      apply (kr_float _ _ _ _ HK) in Hy as [? _]. set_solver.
    + left. set_solver.
    + intros a Ha Hac Hap. pose proof (ring_next_elem _ _ _ Hr Hac). set_solver.
  - split; intros a Ha; by destruct (Hcell a Ha) as (? & ? & _).
  - by apply (ring_next m' A c x (n :: B)).
  - apply (ring_next m' (A ++ [c]) x n B). by rewrite <- app_assoc.
Qed.

(** ** Changing the owner of a chunk *)
Lemma krep_flag_update h cs fl X X' c m' :
  krep h cs fl X -> c ∈ cs -> c <> kh_first_chunk h -> c <> kh_last_chunk h ->
  c ∈ X \/ used (kh_mem h) c = 1 ->
  (forall k, k <> used_of c -> k <> free_of c -> k <> free_of c + 4 ->
     rd m' k = rd (kh_mem h) k) ->
  (forall y, y <> c -> (y ∈ X' <-> y ∈ X)) ->
  ((c ∉ X') /\ used m' c = 1) \/
  (c ∈ X' /\ used m' c = 0 /\ lnk m' (free_of c) (free_of c)) ->
  krep (set_mem m' h) cs fl X' /\
  (forall a, a ∈ cs -> rd m' a = rd (kh_mem h) a) /\
  (forall a, a ∈ cs -> a <> c -> used m' a = used (kh_mem h) a).
Proof.
  intros HK Hc Hcf Hcl HcX Hfr HX Hv. set (m := kh_mem h) in *.
  pose proof (kr_sorted _ _ _ _ HK) as Hs. pose proof (kr_tie _ _ _ _ HK) as Htie.
  destruct (krep_mem_ends _ _ _ _ HK) as [Hf Hl].
  assert (forall n, c ∉ fl n) as Hcfl.
  { intros n (_ & Hu & _ & ?)%Htie. destruct HcX; [done|]. fold m in Hu. congruence. }
  assert (forall a, a ∈ cs -> rd m' a = rd m a /\ rd m' (prev_of a) = rd m (prev_of a))
    as Hnx.
  { intros a Ha. spaced Hs a c.
    split; apply Hfr; unfold used_of, free_of, prev_of; lia. }
  assert (forall a, a ∈ cs -> a <> c -> used m' a = used m a /\
     rd m' (next_of (free_of a)) = rd m (next_of (free_of a)) /\
     rd m' (prev_of (free_of a)) = rd m (prev_of (free_of a))) as Hoth.
  { intros a Ha Hac. spaced Hs a c.
    split_and!; apply Hfr; unfold used_of, free_of, prev_of, next_of; lia. }
  assert (forall a, a ∈ cs -> csize m' a = csize m a) as Hsz.
  { intros a Ha. destruct (Hnx a Ha) as [E _].
    unfold csize, memory_chunk_size, next_of. by rewrite E. }
  assert (forall a, a ∉ X' -> used m' a = 0 -> a <> c) as Hnc.
  { intros a Ha Hu ->. destruct Hv as [[_ ?]|[? _]]; [congruence|done]. }
  split_and!; [|by intros; apply Hnx|by intros; apply Hoth].
  split; simpl; try apply HK.
  - apply (ring_ext m); [apply Hnx|by apply sorted_NoDup|apply HK].
  - intros a Ha. destruct (decide (a = c)) as [->|Hac].
    + destruct Hv as [[_ ->]|[_ [-> _]]]; auto.
    + destruct (Hoth a Ha Hac) as [-> _]. by apply HK.
  - destruct (Hoth _ Hf) as [-> _]; [done|]. destruct (Hoth _ Hl) as [-> _]; [done|]. apply HK.
  - intros n. destruct (kr_free_ring _ _ _ _ HK n) as [Hr Hnd]. split; [|done].
    apply (ring_ext m); [| |done].
    + intros q (a & -> & Ha)%list_elem_of_fmap.
      assert (a <> c) by (intros ->; by apply (Hcfl n)).
      apply Htie in Ha as (Ha & _). destruct (Hoth a Ha) as (_ & ? & ?); done.
    + apply (NoDup_fmap_2_strong free_of); [|done]. unfold free_of. intros; lia.
  - intros n a. rewrite Htie. fold m. split; intros (Ha & Hu & Hn & HaX).
    + assert (a <> c) as Hac by (intros ->; apply (Hcfl n), Htie; done).
      destruct (Hoth a Ha Hac) as [-> _]. rewrite Hsz by done. by rewrite HX.
    + assert (a <> c) as Hac by (by apply Hnc).
      destruct (Hoth a Ha Hac) as [E _]. rewrite Hsz in Hn by done.
      rewrite HX in HaX by done. by rewrite <- E.
  - intros x Hx. destruct (decide (x = c)) as [->|Hxc].
    + split; [done|]. by destruct Hv as [[? _]|[_ [_ ?]]].
    + apply HX in Hx; [|done]. destruct (kr_float _ _ _ _ HK x Hx) as [Hxs [E1 E2]].
      split; [done|]. destruct (Hoth x Hxs Hxc) as (_ & F1 & F2). fold m in E1, E2.
      split; congruence.
  - intros a Ha Hu HaX. assert (a <> c) as Hac by (by apply Hnc).
    destruct (Hnx a Ha) as [-> _]. destruct (Hoth a Ha Hac) as [E _].
    rewrite E in Hu. rewrite HX in HaX by done.
    assert (rd m a ∈ cs) as Hb by (apply (ring_next_elem m cs a); [apply HK|done]).
    destruct (decide (rd m a = c)) as [->|Hbc].
    + destruct Hv as [[_ ?]|[? _]]; auto.
    + destruct (Hoth _ Hb Hbc) as [-> _]. rewrite HX by done.
      by apply (kr_coalesced _ _ _ _ HK).
Qed.

(** ** [kmalloc] *)

(** The variables that only [kheap_init] assigns. *)
Definition same_static (h h' : kheap) : Prop :=
  kh_init h' = kh_init h /\ kh_first_chunk h' = kh_first_chunk h /\
  kh_last_chunk h' = kh_last_chunk h.

Lemma same_static_trans h1 h2 h3 :
  same_static h1 h2 -> same_static h2 h3 -> same_static h1 h3.
Proof. intros (?&?&?) (?&?&?). split_and!; congruence. Qed.

(** The invariant does not depend on the counters. *)
Lemma krep_counters h h' cs fl X :
  kh_mem h' = kh_mem h -> kh_free_chunk h' = kh_free_chunk h -> same_static h h' ->
  krep h cs fl X -> krep h' cs fl X.
Proof.
  intros Hm Hfc (_ & Hf & Hl) HK.
  split; rewrite ?Hm, ?Hfc, ?Hf, ?Hl; apply HK.
Qed.

Lemma csize_next m m' a : rd m' a = rd m a -> csize m' a = csize m a.
Proof. intros E. unfold csize, memory_chunk_size, next_of. by rewrite E. Qed.

Lemma krep_free_inner h cs fl X a :
  krep h cs fl X -> used (kh_mem h) a = 0 ->
  a <> kh_first_chunk h /\ a <> kh_last_chunk h.
Proof. intros HK Hu. destruct (kr_ends_used _ _ _ _ HK). split; congruence. Qed.

(** What carving a block out of the free chunk [c] does to the chunks: the
    other ones keep their owner and size, new ones are free. *)
Record carved (c size : Z) (h : kheap) (cs : list Z) (h' : kheap) (cs' : list Z) : Prop := {
  cv_static : same_static h h';
  cv_in : c ∈ cs' /\ used (kh_mem h') c = 1;
  cv_size : size <= csize (kh_mem h') c <= csize (kh_mem h) c;
  cv_old a : a ∈ cs -> a ∈ cs';
  cv_new a : a ∈ cs' -> a ∉ cs -> used (kh_mem h') a = 0;
  cv_same a : a ∈ cs -> a <> c -> used (kh_mem h') a = used (kh_mem h) a /\
                                  rd (kh_mem h') a = rd (kh_mem h) a;
}.

(** The last steps of [kmalloc] turn the floating chunk into a block. *)
Lemma krep_mark_used h cs fl c :
  krep h cs fl [c] -> used (kh_mem h) c = 0 ->
  krep (on_mem (<[used_of c := 1]>) h) cs fl [] /\
  rd (<[used_of c := 1]> (kh_mem h)) (free_of c) = c + 12 /\
  used (<[used_of c := 1]> (kh_mem h)) c = 1 /\
  (forall a, a ∈ cs -> rd (<[used_of c := 1]> (kh_mem h)) a = rd (kh_mem h) a) /\
  (forall a, a ∈ cs -> a <> c ->
     used (<[used_of c := 1]> (kh_mem h)) a = used (kh_mem h) a).
Proof.
  intros HK Hu. destruct (krep_free_inner _ _ _ _ _ HK Hu) as [Hcf Hcl].
  destruct (kr_float _ _ _ _ HK c ltac:(set_solver)) as [Hc [Hself _]].
  destruct (krep_flag_update h cs fl [c] [] c (<[used_of c := 1]> (kh_mem h)))
    as (HK' & H1 & H2); try done.
  - left. set_solver.
  - intros k Hk _ _. rewrite rd_insert. by rewrite decide_False.
  - set_solver.
  - left. split; [set_solver|]. unfold used. rewrite rd_insert. by rewrite decide_True.
  - split_and!; try done.
    + unfold next_of, free_of, used_of in *. rewrite rd_insert, decide_False by lia. done.
    + unfold used. rewrite rd_insert. by rewrite decide_True.
Qed.

Lemma list_remove_free_static n c h : same_static h (list_remove_free n c h).
Proof. unfold list_remove_free. by destruct (remove_from _ _ _). Qed.

Lemma list_push_free_static n c h : same_static h (list_push_free n c h).
Proof. unfold list_push_free. by destruct (push _ _ _). Qed.

(** The chunk list is not split: the whole chunk becomes the block. *)
Lemma carve_whole h cs fl n c l size :
  krep h cs fl [] -> fl n = c :: l -> 0 <= size <= csize (kh_mem h) c ->
  csize (kh_mem h) c < u32 (size + sizeof_mem_chunk) ->
  exists h' fl', carve size n h = (c + 12, h') /\ krep h' cs fl' [] /\
                 carved c size h cs h' cs.
Proof.
  intros HK Hfl Hsz Hsplit.
  pose proof (krep_take h cs fl [] n c [] l HK Hfl) as [HK1 Hh].
  assert (c ∈ cs /\ used (kh_mem h) c = 0) as [Hc Hu].
  { assert (c ∈ fl n) as (?&?&_)%(kr_tie _ _ _ _ HK) by (rewrite Hfl; set_solver). done. }
  pose proof (list_remove_free_static n c h) as Hst1.
  unfold carve. rewrite list_pop_free_run.
  assert (rd (kh_free_chunk h) n = c) as -> by (rewrite (kr_head _ _ _ _ HK), Hfl; done).
  set (h1 := list_remove_free n c h) in *. simpl app in HK1. cbn zeta iota.
  change (memory_chunk_size c (kh_mem h1)) with (csize (kh_mem h1) c).
  rewrite (hdr_same_csize cs _ _ c Hh Hc).
  rewrite decide_False by lia. cbn zeta iota.
  assert (used (kh_mem h1) c = 0) as Hu1 by (by rewrite <- Hu; apply Hh).
  destruct (krep_mark_used h1 cs _ c HK1 Hu1) as (HK2 & Hptr & Huc & Hrd & Hus).
  eexists _, _. split; [apply (f_equal2 pair); [exact Hptr|reflexivity]|]. split.
  - eapply krep_counters; [..|exact HK2]; done.
  - assert (forall a, a ∈ cs -> csize (<[used_of c:=1]> (kh_mem h1)) a = csize (kh_mem h) a)
      as Hcs.
    { intros a Ha. rewrite (csize_next (kh_mem h1)) by auto. by apply (hdr_same_csize cs). }
    split; simpl; try done.
    + rewrite Hcs by done. lia.
    + intros a Ha Hac. rewrite Hus, Hrd by done. split; by apply Hh.
Qed.

(** The end of the chunk becomes a new free chunk. *)
Lemma carve_split h cs fl n c l size :
  krep h cs fl [] -> fl n = c :: l -> 8 <= size <= 2 ^ 31 -> size mod ALIGN = 0 ->
  size + 20 <= csize (kh_mem h) c ->
  exists h' cs' fl', carve size n h = (c + 12, h') /\ krep h' cs' fl' [] /\
                     carved c size h cs h' cs'.
Proof.
  intros HK Hfl Hsz Hal Hsplit.
  pose proof (krep_take h cs fl [] n c [] l HK Hfl) as [HK1 Hh].
  assert (c ∈ cs /\ used (kh_mem h) c = 0) as [Hc Hu].
  { assert (c ∈ fl n) as (?&?&_)%(kr_tie _ _ _ _ HK) by (rewrite Hfl; set_solver). done. }
  destruct (krep_free_inner _ _ _ _ _ HK Hu) as [Hcf Hcl].
  destruct (krep_neighbours _ _ _ _ _ HK Hc Hcf Hcl)
    as (A & p & nx & B & Hcs & _ & [Hcn _] & _ & Hge & Hsize).
  pose proof (list_remove_free_static n c h) as Hst1.
  unfold carve. rewrite list_pop_free_run.
  assert (rd (kh_free_chunk h) n = c) as -> by (rewrite (kr_head _ _ _ _ HK), Hfl; done).
  set (h1 := list_remove_free n c h) in *. simpl app in HK1. cbn zeta iota.
  change (memory_chunk_size c (kh_mem h1)) with (csize (kh_mem h1) c).
  rewrite (hdr_same_csize cs _ _ c Hh Hc).
  rewrite decide_True by (rewrite u32_small; unfold sizeof_mem_chunk; lia). cbn zeta iota.
  set (x := c + HEADER_SIZE + size).
  destruct (krep_split h1 (A ++ [p]) c nx B (<[n := l]> fl) [c] x) as (HK2 & [Hus2 Hrd2] & Hcx & Hxn & Hux).
  { rewrite <- app_assoc. simpl. by rewrite <- Hcs. }
  { set_solver. }
  { unfold x, HEADER_SIZE. lia. }
  { unfold x, HEADER_SIZE. lia. }
  { pose proof (kr_align _ _ _ _ HK c Hc). unfold x, HEADER_SIZE, ALIGN in *.
    Z.div_mod_to_equations. lia. }
  set (m2 := insert_after c x (memory_chunk_init x (kh_mem h1))) in *.
  change (on_mem (insert_after c x) (on_mem (memory_chunk_init x) h1)) with (set_mem m2 h1).
  set (h2 := set_mem m2 h1) in *.
  change (memory_chunk_size x (kh_mem h2)) with (csize (kh_mem h2) x).
  change m2 with (kh_mem h2) in Hus2, Hrd2, Hcx, Hxn, Hux.
  set (cs' := (A ++ [p]) ++ c :: x :: nx :: B) in *.
  assert ((A ++ [p]) ++ c :: nx :: B = cs) as Hcs2 by (rewrite <- app_assoc; by rewrite Hcs).
  rewrite Hcs2 in Hus2, Hrd2.
  assert (forall a, a ∈ cs' <-> a = x \/ a ∈ cs) as Hin
    by (intros a; unfold cs'; rewrite <- Hcs2; set_solver).
  assert (x ∉ cs) as Hxcs.
  { intros Hx. pose proof (kr_sorted _ _ _ _ HK2) as Hs2. apply sorted_NoDup in Hs2.
    rewrite <- Hcs2 in Hx. unfold cs' in Hs2. rewrite NoDup_app, !NoDup_cons in Hs2. set_solver. }
  assert (nx ∈ cs /\ nx <> c) as [Hnx Hnxc] by (rewrite Hcs; split; [set_solver|lia]).
  destruct (krep_put h2 cs' (<[n := l]> fl) [c] (memory_chunk_slot (csize (kh_mem h2) x)) x)
    as [HK3 Hh3]; try done.
  { intros Hx. apply Hxcs. assert (x = c) as -> by set_solver. done. }
  { left. destruct Hxn as [E _]. unfold next_of in E. rewrite E, Hus2 by done.
    destruct (Hh nx Hnx) as (_ & _ & ->).
    destruct (kr_coalesced _ _ _ _ HK c Hc Hu) as [E'|E']; [set_solver| |set_solver].
    unfold next_of in Hcn. by rewrite Hcn in E'. }
  { intros q [->|Hq]%Hin Hqx.
    - exfalso. destruct Hxn as [E _]. unfold next_of in E. rewrite E in Hqx. congruence.
    - right. destruct (decide (q = c)) as [->|Hqc]; [set_solver|]. exfalso.
      rewrite Hrd2 in Hqx by done. destruct (Hh q Hq) as (E & _). unfold next_of in E.
      rewrite E in Hqx. apply Hxcs. rewrite <- Hqx.
      apply (ring_next_elem _ _ _ (kr_ring _ _ _ _ HK) Hq). }
  set (h3 := list_push_free _ x h2) in *.
  pose proof (list_push_free_static (memory_chunk_slot (csize (kh_mem h2) x)) x h2) as Hst3.
  fold h3 in Hst3.
  assert (used (kh_mem h3) c = 0) as Hu3.
  { destruct (Hh3 c) as (_ & _ & ->); [apply Hin; auto|]. rewrite Hus2 by done.
    rewrite <- Hu. by apply Hh. }
  destruct (krep_mark_used h3 cs' _ c HK3 Hu3) as (HK4 & Hptr & Huc & Hrd & Hus).
  pose proof (same_static_trans h h1 h3 Hst1 Hst3) as Hst.
  eexists _, cs', _. split; [apply (f_equal2 pair); [exact Hptr|reflexivity]|]. split.
  { apply (krep_counters (on_mem (<[used_of c := 1]>) h3)); done. }
  set (m4 := <[used_of c := 1]> (kh_mem h3)) in *.
  assert (forall a, a ∈ cs -> a <> c -> rd m4 a = rd (kh_mem h) a) as Hrd4.
  { intros a Ha Hac. rewrite Hrd by (apply Hin; auto).
    destruct (Hh3 a) as (E & _); [apply Hin; auto|]. unfold next_of in E.
    rewrite E, Hrd2 by done. by apply Hh. }
  assert (csize m4 c = size) as Hc4.
  { destruct (krep_pos _ _ _ _ nx HK Hnx), (krep_pos _ _ _ _ c HK Hc).
    rewrite (csize_eq _ _ x); [unfold x, HEADER_SIZE; lia| |unfold x, HEADER_SIZE; lia..].
    split.
    - unfold next_of. rewrite Hrd by (apply Hin; auto).
      destruct (Hh3 c) as (E & _); [apply Hin; auto|]. unfold next_of in E.
      rewrite E. by destruct Hcx as [E' _].
    - apply (ring_next m4 (A ++ [p]) c x (nx :: B)). apply (kr_ring _ _ _ _ HK4). }
  split; simpl; try done.
  - split; [apply Hin; auto|done].
  - change (size <= csize m4 c <= csize (kh_mem h) c). lia.
  - intros a Ha. apply Hin. auto.
  - intros a [->|?]%Hin ?; [|done]. rewrite Hus; [|apply Hin; auto|congruence].
    rewrite <- Hux. apply Hh3. apply Hin; auto.
  - intros a Ha Hac. split; [|by apply Hrd4].
    rewrite Hus by (done || apply Hin; auto).
    destruct (Hh3 a) as (_ & _ & ->); [apply Hin; auto|]. rewrite Hus2 by done. by apply Hh.
Qed.

(** ** Rounding and slot search *)
Lemma align_mask_land x : 0 <= x < 2 ^ 32 -> Z.land x align_mask = 4 * (x / 4).
Proof.
  intros Hx. replace (4 * (x / 4)) with (Z.shiftl (Z.shiftr x 2) 2)
    by (rewrite Z.shiftl_mul_pow2, Z.shiftr_div_pow2 by lia; change (2 ^ 2) with 4; apply Z.mul_comm).
  apply Z.bits_inj'. intros n Hn. rewrite Z.land_spec, Z.shiftl_spec by lia.
  assert (Z.testbit align_mask n = Z.testbit (Z.ones 30) (n - 2)) as ->
    by (change align_mask with (Z.shiftl (Z.ones 30) 2); by rewrite Z.shiftl_spec by lia).
  destruct (decide (n < 2)).
  - rewrite !(Z.testbit_neg_r _ (n - 2)) by lia. by rewrite andb_false_r.
  - rewrite Z.shiftr_spec by lia. replace (n - 2 + 2) with n by lia.
    destruct (decide (n < 32)).
    + rewrite Z.ones_spec_low by lia. by rewrite andb_true_r.
    + rewrite Z.ones_spec_high by lia. rewrite andb_false_r.
      destruct (decide (x = 0)) as [->|]; [by rewrite Z.bits_0|].
      symmetry. apply Z.bits_above_log2; [lia|].
      assert (Z.log2 x < 32) by (apply Z.log2_lt_pow2; lia). lia.
Qed.

Lemma round_size_spec size :
  0 <= size <= kmalloc_max ->
  size <= round_size size /\ 8 <= round_size size < 2 ^ 32 /\
  round_size size mod ALIGN = 0 /\ round_size size <= Z.max 8 (size + 3).
Proof.
  unfold kmalloc_max, round_size, ALIGN, MIN_SIZE. intros H.
  rewrite u32_small, align_mask_land by lia.
  pose proof (Z.div_mod (size + 4 - 1) 4). pose proof (Z.mod_pos_bound (size + 4 - 1) 4).
  case_decide; [split_and!; lia || done|].
  split_and!; [lia|lia|lia| |lia]. rewrite Z.mul_comm. by rewrite Z.mod_mul.
Qed.

Lemma find_slot_Some fuel n fc k :
  find_slot fuel n fc = Some k -> n <= k /\ rd fc k <> NULL /\ (n < 32 -> k < 32).
Proof.
  revert n. induction fuel as [|fuel IH]; intros n; simpl; [done|].
  unfold NUM_SIZES. repeat case_decide; [done| |].
  - intros ?%IH. destruct H1 as (?&?&?). split_and!; try done; lia.
  - intros [= <-]. done.
Qed.

Lemma find_slot_None fuel n fc :
  find_slot fuel n fc = None -> 32 <= n + Z.of_nat fuel ->
  forall k, n <= k < 32 -> rd fc k = NULL.
Proof.
  revert n. induction fuel as [|fuel IH]; intros n; simpl; [intros; lia|].
  unfold NUM_SIZES. repeat case_decide; [| |done].
  - intros _ _ k Hk. by replace k with n by lia.
  - intros HN Hf k Hk. destruct (decide (k = n)) as [->|]; [done|].
    apply (IH (n + 1)); [done|lia|lia].
Qed.

Lemma krep_csize h cs fl X a :
  krep h cs fl X -> a ∈ cs -> a <> kh_first_chunk h -> a <> kh_last_chunk h ->
  8 <= csize (kh_mem h) a < 2 ^ 32 /\ a + 12 + csize (kh_mem h) a <= 2 ^ 32.
Proof.
  intros HK Ha Hf Hl.
  destruct (krep_neighbours _ _ _ _ _ HK Ha Hf Hl) as (A & p & n & B & Hcs & _ & _ & _ & ? & ->).
  destruct (krep_pos _ _ _ _ a HK Ha). destruct (krep_pos _ _ _ _ n HK); [rewrite Hcs; set_solver|].
  lia.
Qed.

(** The first slot [kmalloc] looks at. *)
Definition first_slot (size : Z) : Z := memory_chunk_slot (round_size size - 1) + 1.

Lemma kmalloc_carved h cs fl size :
  krep h cs fl [] -> kh_init h <> 0 -> 0 <= size <= kmalloc_max ->
  (kheap_kmalloc size h = (NULL, h) /\
   (forall a n, a ∈ fl n -> n < first_slot size)) \/
  exists c h' cs' fl', kheap_kmalloc size h = (c + 12, h') /\ krep h' cs' fl' [] /\
    c ∈ cs /\ used (kh_mem h) c = 0 /\ carved c (round_size size) h cs h' cs'.
Proof.
  intros HK Hi Hsz. unfold kheap_kmalloc. rewrite decide_False by done.
  destruct (round_size_spec size Hsz) as (Hr1 & Hr2 & Hr3 & _).
  fold (first_slot size). set (rs := round_size size) in *.
  assert (forall a n, a ∈ fl n -> n < 32) as Hslot.
  { intros a n (Ha & Hu & <- & _)%(kr_tie _ _ _ _ HK).
    destruct (krep_free_inner _ _ _ _ _ HK Hu) as [Haf Hal].
    destruct (krep_csize _ _ _ _ _ HK Ha Haf Hal) as [Hc _].
    rewrite memory_chunk_slot_log2 by lia. apply Z.log2_lt_pow2; lia. }
  case_decide as Hn; [left; split; [done|]; intros a n Ha; apply Hslot in Ha; unfold NUM_SIZES in *; lia|].
  destruct (find_slot 32 (first_slot size) (kh_free_chunk h)) as [n|] eqn:Hfind.
  - right. apply find_slot_Some in Hfind as (Hge & Hne & Hlt).
    rewrite (kr_head _ _ _ _ HK) in Hne.
    destruct (fl n) as [|c l] eqn:Hfl; [done|].
    assert (c ∈ fl n) as (Hc & Hu & Hs & _)%(kr_tie _ _ _ _ HK) by (rewrite Hfl; set_solver).
    destruct (krep_free_inner _ _ _ _ _ HK Hu) as [Hcf Hcl].
    destruct (krep_csize _ _ _ _ _ HK Hc Hcf Hcl) as [Hcs _].
    assert (rs <= csize (kh_mem h) c) as Hfit.
    { apply (memory_chunk_slot_fits _ _ n); [lia|lia|lia|exact Hge|done]. }
    assert (rs <= 2 ^ 31) as Hrs.
    { unfold first_slot in Hn. fold rs in Hn. rewrite memory_chunk_slot_log2 in Hn by lia.
      unfold NUM_SIZES in Hn. destruct (Z.log2_spec (rs - 1)) as [_ Hub]; [lia|].
      assert (2 ^ Z.succ (Z.log2 (rs - 1)) <= 2 ^ 31) by (apply Z.pow_le_mono_r; lia). lia. }
    destruct (decide (rs + 20 <= csize (kh_mem h) c)).
    + destruct (carve_split h cs fl n c l rs) as (h' & cs' & fl' & ?&?&?); try done; try lia.
      exists c, h', cs', fl'. done.
    + destruct (carve_whole h cs fl n c l rs) as (h' & fl' & ?&?&?); try done; try lia.
      { rewrite u32_small; unfold sizeof_mem_chunk; lia. }
      exists c, h', cs, fl'. done.
  - left. split; [done|]. intros a n Ha. destruct (decide (n < first_slot size)); [done|].
    pose proof (Hslot _ _ Ha).
    assert (0 <= first_slot size) by (unfold first_slot; fold rs; rewrite memory_chunk_slot_log2 by lia; pose proof (Z.log2_nonneg (rs - 1)); lia).
    assert (rd (kh_free_chunk h) n = NULL) as E
      by (apply (find_slot_None 32 (first_slot size)); [exact Hfind|change (Z.of_nat 32) with 32; lia|lia]).
    rewrite (kr_head _ _ _ _ HK) in E. destruct (fl n) as [|y l] eqn:Hfl; [by apply not_elem_of_nil in Ha|].
    clear Hfind. assert (y ∈ fl n) as Hy%(krep_free_sub _ _ _ _ _ HK) by (rewrite Hfl; set_solver).
    destruct (krep_pos _ _ _ _ y HK Hy). simpl in E. unfold NULL in E. lia.
Qed.

(** ** [kfree] *)
Lemma krep_add_counters h cs fl X a b :
  krep h cs fl X -> krep (add_mem_free a (add_mem_meta b h)) cs fl X.
Proof. by apply krep_counters. Qed.

Lemma remove_free_spec h cs fl X x :
  krep h cs fl X -> x ∈ cs -> used (kh_mem h) x = 0 -> x ∉ X ->
  exists fl', krep (remove_free x h) cs fl' (x :: X) /\
    hdr_same cs (kh_mem h) (kh_mem (remove_free x h)) /\ same_static h (remove_free x h).
Proof.
  intros HK Hx Hu HxX. set (n := memory_chunk_slot (csize (kh_mem h) x)).
  assert (x ∈ fl n) as (l1 & l2 & Hfl)%list_elem_of_split by (apply (kr_tie _ _ _ _ HK); done).
  destruct (krep_take h cs fl X n x l1 l2 HK Hfl) as [HK' Hh].
  pose proof (list_remove_free_static n x h) as Hst.
  eexists. split; [|by split]. by apply (krep_counters (list_remove_free n x h)).
Qed.

Lemma push_free_spec h cs fl X x :
  krep h cs fl (x :: X) -> x ∉ X -> used (kh_mem h) x = 0 ->
  (used (kh_mem h) (rd (kh_mem h) x) = 1 \/ rd (kh_mem h) x ∈ X) ->
  (forall p, p ∈ cs -> rd (kh_mem h) p = x -> used (kh_mem h) p = 1 \/ p ∈ X) ->
  exists fl', krep (push_free x h) cs fl' X /\
    hdr_same cs (kh_mem h) (kh_mem (push_free x h)) /\ same_static h (push_free x h).
Proof.
  intros HK HxX Hu Hn Hp. set (n := memory_chunk_slot (csize (kh_mem h) x)).
  destruct (krep_put h cs fl X n x) as [HK' Hh]; try done.
  pose proof (list_push_free_static n x h) as Hst.
  eexists. split; [|by split]. by apply (krep_counters (list_push_free n x h)).
Qed.

(** Merging the free chunk [n] into the allocated chunk [c] before it. *)
Definition absorb_next (n : Z) (h : kheap) : kheap :=
  add_mem_free HEADER_SIZE (add_mem_meta (- HEADER_SIZE)
    (on_mem (remove n) (remove_free n h))).

Lemma absorb_next_spec h A c n n2 B fl :
  krep h (A ++ c :: n :: n2 :: B) fl [] -> used (kh_mem h) c = 1 ->
  used (kh_mem h) n = 0 ->
  exists fl', krep (absorb_next n h) (A ++ c :: n2 :: B) fl' [] /\
    same_static h (absorb_next n h) /\ used (kh_mem h) n2 = 1 /\
    hdr_except (A ++ c :: n2 :: B) c (kh_mem h) (kh_mem (absorb_next n h)) /\
    rd (kh_mem (absorb_next n h)) c = n2.
Proof.
  intros HK Hc Hn. set (cs := A ++ c :: n :: n2 :: B) in *.
  assert (n ∈ cs /\ c ∈ cs) as [Hncs Hccs] by (clear; unfold cs; set_solver).
  destruct (remove_free_spec h cs fl [] n) as (fl' & HK1 & Hh & Hst); try done.
  { set_solver. }
  set (h1 := remove_free n h) in *.
  destruct (krep_unlink h1 A c n n2 B fl' [n] []) as (HK2 & [Hu Hr] & Hrc); try done.
  { left. set_solver. }
  { right. rewrite <- Hc. by apply Hh. }
  { set_solver. }
  exists fl'. split; [exact (krep_add_counters _ _ _ _ _ _ HK2)|]. split; [done|].
  assert (lnk (kh_mem h) n n2) as [Hn2 _].
  { apply (ring_next _ (A ++ [c]) n n2 B). rewrite <- app_assoc. apply (kr_ring _ _ _ _ HK). }
  split; [|split; [split|done]].
  - destruct (kr_coalesced _ _ _ _ HK n Hncs Hn) as [E|E]; [apply not_elem_of_nil| |by apply not_elem_of_nil in E].
    unfold next_of in Hn2. by rewrite Hn2 in E.
  - intros a Ha. simpl. unfold on_mem. simpl. rewrite Hu by done. apply Hh. unfold cs. set_solver.
  - intros a Ha Hac. simpl. rewrite Hr by done. apply Hh. unfold cs. set_solver.
Qed.

Definition merge_prev (c p : Z) (h : kheap) : kheap :=
  add_mem_free HEADER_SIZE (add_mem_meta (- HEADER_SIZE)
    (push_free p (on_mem (remove c) (remove_free p h)))).

Definition release (c : Z) (h : kheap) : kheap :=
  push_free c (on_mem (list_init (free_of c)) (on_mem (<[used_of c := 0]>) h)).

(** [kfree] on a live heap is these steps in sequence. *)
Lemma kheap_kfree_unfold ptr h :
  kh_init h <> 0 -> ptr <> NULL ->
  let c := ptr - HEADER_SIZE in
  let next := rd (kh_mem h) (next_of c) in
  let prev := rd (kh_mem h) (prev_of c) in
  let h0 := add_mem_used (- csize (kh_mem h) c) h in
  let h1 := if decide (used (kh_mem h) next = 0) then absorb_next next h0 else h0 in
  kheap_kfree ptr h =
    if decide (used (kh_mem h1) prev = 0) then merge_prev c prev h1 else release c h1.
Proof. intros. unfold kheap_kfree. rewrite decide_False by tauto. done. Qed.

(** The effect of the last step: chunk [c] is free, or merged into a free
    chunk; the other allocated chunks are as before. *)
Record freed (c : Z) (h : kheap) (cs : list Z) (h' : kheap) (cs' : list Z) : Prop := {
  fd_static : same_static h h';
  fd_old a : a ∈ cs' -> a ∈ cs;
  fd_kept a : a ∈ cs -> used (kh_mem h) a = 1 -> a <> c ->
    a ∈ cs' /\ used (kh_mem h') a = 1 /\ csize (kh_mem h') a = csize (kh_mem h) a;
  fd_free a : a ∈ cs' -> used (kh_mem h') a = 1 -> a <> c /\ used (kh_mem h) a = 1;
  fd_first : rd (kh_mem h') (kh_first_chunk h) = rd (kh_mem h) (kh_first_chunk h);
}.

Lemma freed_add_counters c h cs h' cs' a b :
  freed c h cs h' cs' -> freed c h cs (add_mem_free a (add_mem_meta b h')) cs'.
Proof. intros []. by split. Qed.

Lemma lnk_pred m cs p c q :
  ring m cs -> q ∈ cs -> lnk m p c -> rd m q = c -> q = p.
Proof.
  intros Hr Hq [_ H] E. destruct (ring_lnk m cs q Hr Hq) as [_ E'].
  unfold next_of in E'. rewrite E in E'. congruence.
Qed.

Lemma merge_prev_spec h A p c n B fl :
  krep h (A ++ p :: c :: n :: B) fl [] -> used (kh_mem h) c = 1 ->
  used (kh_mem h) n = 1 -> used (kh_mem h) p = 0 -> c <> kh_first_chunk h ->
  exists fl', krep (merge_prev c p h) (A ++ p :: n :: B) fl' [] /\
    freed c h (A ++ p :: c :: n :: B) (merge_prev c p h) (A ++ p :: n :: B).
Proof.
  intros HK Hc Hn Hp Hcf. set (cs := A ++ p :: c :: n :: B) in *.
  assert (n ∈ cs /\ c ∈ cs /\ p ∈ cs) as (Hncs & Hccs & Hpcs) by (clear; unfold cs; set_solver).
  pose proof (sorted_NoDup _ (kr_sorted _ _ _ _ HK)) as Hnd.
  destruct (remove_free_spec h cs fl [] p) as (fl' & HK1 & Hh & Hst); try done.
  { set_solver. }
  set (h1 := remove_free p h) in *.
  assert (c <> p /\ n <> c) as [Hcp Hnc].
  { clear - Hnd. unfold cs in Hnd. rewrite NoDup_app, !NoDup_cons in Hnd. set_solver. }
  destruct (krep_unlink h1 A p c n B fl' [p] [p]) as (HK2 & [Hu Hr] & Hrp); try done.
  { right. rewrite <- Hc. by apply Hh. }
  { left. set_solver. }
  { set_solver. }
  set (h2 := on_mem (remove c) h1) in *. set (cs' := A ++ p :: n :: B) in *.
  assert (forall a, a ∈ cs' <-> a ∈ cs /\ a <> c) as Hin.
  { clear - Hnd. unfold cs, cs' in *. rewrite NoDup_app, !NoDup_cons in Hnd. set_solver. }
  assert (forall a, a ∈ cs' -> used (kh_mem h2) a = used (kh_mem h) a) as Hu2.
  { intros a Ha. simpl. rewrite Hu by done. apply Hh. by apply Hin. }
  assert (forall q, q ∈ cs' -> rd (kh_mem h2) q = p -> rd (kh_mem h) q = p /\ q <> p) as Hpred.
  { intros q Hq E. change (rd (remove c (kh_mem h1)) q = p) in E. destruct (decide (q = p)) as [->|Hqp].
    - rewrite Hrp in E. congruence.
    - rewrite Hr in E by done. split; [|done]. rewrite <- E. symmetry. apply Hh. by apply Hin. }
  destruct (push_free_spec h2 cs' fl' [] p) as (fl2 & HK3 & Hh3 & Hst3); try done.
  { set_solver. }
  { rewrite Hu2; [done|]. apply Hin. done. }
  { left. change (used (kh_mem h2) (rd (remove c (kh_mem h1)) p) = 1). rewrite Hrp, Hu2; [done|]. by apply Hin. }
  { intros q Hq E. left. rewrite Hu2 by done. destruct (Hpred q Hq E) as [E' Hqp].
    apply Hin in Hq as [Hq _].
    destruct (kr_flag _ _ _ _ HK q Hq) as [Hq0|]; [|done]. exfalso.
    destruct (kr_coalesced _ _ _ _ HK q Hq Hq0) as [F|F]; [apply not_elem_of_nil| |by apply not_elem_of_nil in F].
    rewrite E' in F. congruence. }
  exists fl2. set (h3 := push_free p h2) in *.
  split; [exact (krep_add_counters _ _ _ _ _ _ HK3)|].
  apply (freed_add_counters c h cs h3 cs').
  assert (forall a, a ∈ cs' -> used (kh_mem h3) a = used (kh_mem h) a) as Hu3.
  { intros a Ha. rewrite <- Hu2 by done. by apply Hh3. }
  split.
  - exact (same_static_trans _ _ _ Hst Hst3).
  - intros a Ha%Hin. apply Ha.
  - intros a Ha Hua Hac. assert (a ∈ cs') as Ha' by (apply Hin; done).
    split; [done|]. split; [by rewrite Hu3|].
    transitivity (csize (kh_mem h2) a); [by apply (hdr_same_csize cs')|].
    apply csize_next. transitivity (rd (kh_mem h1) a); [|exact (proj1 (Hh a Ha))].
    apply Hr; [done|congruence].
  - intros a Ha Hua. rewrite Hu3 in Hua by done. apply Hin in Ha as [_ ?]. done.
  - destruct (krep_free_inner _ _ _ _ _ HK Hp) as [Hpf _].
    destruct (krep_mem_ends _ _ _ _ HK) as [Hf _].
    assert (kh_first_chunk h ∈ cs') as Hf' by (apply Hin; done).
    transitivity (rd (kh_mem h2) (kh_first_chunk h)); [exact (proj1 (Hh3 _ Hf'))|].
    transitivity (rd (kh_mem h1) (kh_first_chunk h)); [|exact (proj1 (Hh _ Hf))].
    apply Hr; [done|congruence].
Qed.

Lemma release_spec h A p c n B fl :
  krep h (A ++ p :: c :: n :: B) fl [] -> used (kh_mem h) c = 1 ->
  used (kh_mem h) n = 1 -> used (kh_mem h) p = 1 ->
  c <> kh_first_chunk h -> c <> kh_last_chunk h ->
  exists fl', krep (release c h) (A ++ p :: c :: n :: B) fl' [] /\
    freed c h (A ++ p :: c :: n :: B) (release c h) (A ++ p :: c :: n :: B).
Proof.
  intros HK Hc Hn Hp Hcf Hcl. set (cs := A ++ p :: c :: n :: B) in *.
  assert (n ∈ cs /\ c ∈ cs /\ p ∈ cs) as (Hncs & Hccs & Hpcs) by (clear; unfold cs; set_solver).
  pose proof (sorted_NoDup _ (kr_sorted _ _ _ _ HK)) as Hnd.
  pose proof (kr_ring _ _ _ _ HK) as Hring.
  assert (lnk (kh_mem h) p c) as Hpc by (by apply (ring_next _ A p c (n :: B))).
  assert (lnk (kh_mem h) c n) as [Hcn _].
  { apply (ring_next _ (A ++ [p]) c n B). by rewrite <- app_assoc. }
  set (m' := list_init (free_of c) (<[used_of c := 0]> (kh_mem h))).
  assert (used m' c = 0 /\ lnk m' (free_of c) (free_of c)) as [Huc Hlc].
  { unfold m', list_init, used, lnk. split_and!; rds; done. }
  destruct (krep_flag_update h cs fl [] [c] c m') as (HK1 & Hr & Hu); try done.
  { by right. }
  { intros k ???. unfold m', list_init. rds; done. }
  { set_solver. }
  { right. split; [set_solver|done]. }
  set (h1 := set_mem m' h) in *.
  destruct (push_free_spec h1 cs fl [] c) as (fl2 & HK2 & Hh2 & Hst2); try done.
  { set_solver. }
  { left. simpl. rewrite Hr by done. unfold next_of in Hcn. rewrite Hcn.
    rewrite Hu; [done|done|]. intros ->. unfold cs in Hnd.
    rewrite NoDup_app, !NoDup_cons in Hnd. set_solver. }
  { intros q Hq E. left. simpl in *. rewrite Hr in E by done.
    assert (q = p) as -> by (by eapply (lnk_pred (kh_mem h) cs)).
    rewrite Hu; [done|done|]. intros ->. unfold cs in Hnd.
    rewrite NoDup_app, !NoDup_cons in Hnd. set_solver. }
  exists fl2. change (release c h) with (push_free c h1). set (h2 := push_free c h1) in *.
  split; [done|].
  assert (forall a, a ∈ cs -> a <> c -> used (kh_mem h2) a = used (kh_mem h) a)
    as Hu3 by (intros a Ha Hac; rewrite <- Hu by done; by apply Hh2).
  split.
  - done.
  - done.
  - intros a Ha Hua Hac. split; [done|]. split; [rewrite <- Hua; by apply Hu3|].
    transitivity (csize (kh_mem h1) a); [by apply (hdr_same_csize cs)|].
    apply csize_next. by apply Hr.
  - intros a Ha Hua. destruct (decide (a = c)) as [->|Hac].
    + exfalso. assert (used (kh_mem h2) c = 0); [|congruence].
      rewrite <- Huc. by apply Hh2.
    + split; [done|]. rewrite <- Hua. symmetry. by apply Hu3.
  - destruct (krep_mem_ends _ _ _ _ HK) as [Hf _].
    transitivity (rd (kh_mem h1) (kh_first_chunk h)); [exact (proj1 (Hh2 _ Hf))|by apply Hr].
Qed.

(** The two ways [kfree] ends, from a state where the next chunk is allocated. *)
Lemma kfree_finish h A p c n B fl :
  krep h (A ++ p :: c :: n :: B) fl [] -> used (kh_mem h) c = 1 ->
  used (kh_mem h) n = 1 -> c <> kh_first_chunk h -> c <> kh_last_chunk h ->
  let h' := if decide (used (kh_mem h) p = 0) then merge_prev c p h else release c h in
  exists cs' fl', krep h' cs' fl' [] /\ freed c h (A ++ p :: c :: n :: B) h' cs'.
Proof.
  intros HK Hc Hn Hcf Hcl. case_decide as Hp.
  - destruct (merge_prev_spec h A p c n B fl) as (fl' & ? & ?); try done. eauto.
  - destruct (kr_flag _ _ _ _ HK p) as [|Hp1]; [set_solver|done|].
    destruct (release_spec h A p c n B fl) as (fl' & ? & ?); try done. eauto.
Qed.

(** [kfree] after the merge with the next chunk. *)
Lemma freed_absorbed c n h cs h1 cs1 h' cs' :
  same_static h h1 -> c ∈ cs1 -> used (kh_mem h) n = 0 ->
  (forall a, a ∈ cs1 <-> a ∈ cs /\ a <> n) ->
  hdr_except cs1 c (kh_mem h) (kh_mem h1) ->
  c <> kh_first_chunk h -> kh_first_chunk h ∈ cs1 ->
  freed c h1 cs1 h' cs' -> freed c h cs h' cs'.
Proof.
  intros Hst Hc Hn Hin [Hu Hr] Hcf Hf1 [F1 F2 F3 F4 F5]. split.
  - by eapply same_static_trans.
  - intros a Ha%F2%Hin. apply Ha.
  - intros a Ha Hua Hac. assert (a ∈ cs1) as Ha1.
    { apply Hin. split; [done|]. intros ->. congruence. }
    destruct (F3 a Ha1) as (? & ? & E); [by rewrite Hu|done|].
    split_and!; try done. rewrite E. apply csize_next. by apply Hr.
  - intros a Ha Hua. destruct (F4 a Ha Hua) as [? E]. split; [done|].
    by rewrite <- Hu by auto.
  - pose proof (proj1 (proj2 Hst)) as Ef. rewrite Ef in F5. rewrite F5. by apply Hr.
Qed.

Lemma freed_used_counter c d h cs h' :
  (exists cs' fl', krep h' cs' fl' [] /\ freed c (add_mem_used d h) cs h' cs') ->
  exists cs' fl', krep h' cs' fl' [] /\ freed c h cs h' cs'.
Proof. intros (cs' & fl' & HK & []). exists cs', fl'. split; [done|]. by split. Qed.

Lemma kfree_freed h cs fl c :
  krep h cs fl [] -> kh_init h <> 0 -> c ∈ cs -> c <> kh_first_chunk h ->
  c <> kh_last_chunk h -> used (kh_mem h) c = 1 ->
  exists cs' fl', krep (kheap_kfree (c + 12) h) cs' fl' [] /\
                  freed c h cs (kheap_kfree (c + 12) h) cs'.
Proof.
  intros HK Hi Hc Hcf Hcl Huc.
  destruct (krep_neighbours _ _ _ _ _ HK Hc Hcf Hcl)
    as (A & p & n & B & Hcs & [_ Hpc] & [Hcn _] & Hpge & Hnge & _).
  destruct (krep_pos _ _ _ _ c HK Hc).
  rewrite (kheap_kfree_unfold (c + 12) h Hi) by (unfold NULL; lia).
  assert (c + 12 - HEADER_SIZE = c) as -> by (unfold HEADER_SIZE; lia).
  cbn zeta. rewrite Hpc, Hcn. set (d := - csize (kh_mem h) c). set (h0 := add_mem_used d h).
  assert (krep h0 cs fl []) as HK0 by (by apply (krep_counters h)).
  apply (freed_used_counter c d h). fold h0. change (kh_mem h) with (kh_mem h0) in Huc |- *.
  subst cs. destruct (kr_flag _ _ _ _ HK0 n ltac:(set_solver)) as [Hn|Hn].
  - rewrite (decide_True (P := used (kh_mem h0) n = 0)) by done.
    destruct B as [|n2 B].
    { exfalso. destruct (kr_ends _ _ _ _ HK0) as [mid E].
      assert ((A ++ [p; c]) ++ [n] = (kh_first_chunk h0 :: mid) ++ [kh_last_chunk h0]) as E'
        by (rewrite <- app_assoc; exact E).
      apply app_inj_tail in E' as [_ ->]. destruct (kr_ends_used _ _ _ _ HK0). congruence. }
    pose proof (sorted_NoDup _ (kr_sorted _ _ _ _ HK0)) as Hnd.
    destruct (absorb_next_spec h0 (A ++ [p]) c n n2 B fl) as (fl1 & HK1 & Hst & Hn2 & Hhd & Hrd);
      try done; [by rewrite <- app_assoc|].
    rewrite <- app_assoc in HK1, Hhd. simpl in HK1, Hhd.
    set (h1 := absorb_next n h0) in *.
    destruct (kfree_finish h1 A p c n2 B fl1) as (cs' & fl' & HK' & Hfd); try done.
    { destruct Hhd as [-> _]; [done|set_solver]. }
    { destruct Hhd as [-> _]; [done|set_solver]. }
    { destruct Hst as (_ & -> & _). done. }
    { destruct Hst as (_ & _ & ->). done. }
    exists cs', fl'. split; [exact HK'|].
    apply (freed_absorbed c n h0 _ h1 (A ++ p :: c :: n2 :: B) _ cs');
      [exact Hst| |exact Hn| |exact Hhd|done| |exact Hfd].
    + clear. set_solver.
    + clear - Hnd. rewrite NoDup_app, !NoDup_cons in Hnd. set_solver.
    + pose proof (krep_mem_ends _ _ _ _ HK1) as [Hf _].
      by destruct Hst as (_ & <- & _).
  - rewrite (decide_False (P := used (kh_mem h0) n = 0)) by congruence.
    by apply (kfree_finish h0 A p c n B fl).
Qed.

(** ** The allocator interface *)
Definition live (h : kheap) (cs : list Z) (c : Z) : Prop :=
  c ∈ cs /\ c <> kh_first_chunk h /\ c <> kh_last_chunk h /\ used (kh_mem h) c = 1.

Definition kheap_rep (h : kheap) (L : gmap Z Z) : Prop :=
  kh_init h <> 0 /\ rd (kh_mem h) (kh_first_chunk h) = kh_first_chunk h + 20 /\
  exists cs fl, krep h cs fl [] /\
  forall p n, L !! p = Some n <->
              exists c, live h cs c /\ p = c + 12 /\ n = csize (kh_mem h) c.

(** The usable size of the block at [p]. *)
Definition block_size (h : kheap) (p : Z) : Z := csize (kh_mem h) (p - HEADER_SIZE).

(** The blocks of distinct chunks do not overlap. *)
Lemma krep_chunks_disjoint h cs fl X a b :
  krep h cs fl X -> a ∈ cs -> b ∈ cs -> a < b -> a <> kh_first_chunk h ->
  a + 12 + csize (kh_mem h) a <= b.
Proof.
  intros HK Ha Hb Hab Haf.
  assert (a <> kh_last_chunk h) as Hal.
  { intros ->. pose proof (kr_sorted _ _ _ _ HK) as Hs.
    destruct (kr_ends _ _ _ _ HK) as [mid E]. rewrite E in Hs, Hb.
    apply (StronglySorted_app _ (_ :: mid)) in Hs as (H1 & _).
    apply (elem_of_app (_ :: mid)) in Hb as [Hb|Hb%list_elem_of_singleton]; [|lia].
    specialize (H1 b (kh_last_chunk h) Hb ltac:(set_solver)). unfold sizeof_mem_chunk in H1. lia. }
  destruct (krep_neighbours _ _ _ _ _ HK Ha Haf Hal) as (A & p & n & B & Hcs & _ & _ & ? & ? & ->).
  pose proof (kr_sorted _ _ _ _ HK) as Hs. rewrite Hcs in Hs, Hb.
  apply StronglySorted_app in Hs as (H1 & _ & Hs).
  rewrite !StronglySorted_cons, !Forall_cons, !Forall_forall in Hs. unfold sizeof_mem_chunk in *.
  destruct Hs as ((Hpa & Hpn & _) & (Han & _) & HnB & _).
  apply elem_of_app in Hb as [Hb|Hb].
  - specialize (H1 b a Hb ltac:(set_solver)). lia.
  - rewrite !elem_of_cons in Hb. destruct Hb as [->|[->|[->|Hb]]]; [lia|lia|lia|].
    specialize (HnB b Hb). lia.
Qed.

Lemma live_disjoint h cs fl X a b :
  krep h cs fl X -> live h cs a -> live h cs b -> a <> b ->
  a + 12 + csize (kh_mem h) a <= b \/ b + 12 + csize (kh_mem h) b <= a.
Proof.
  intros HK (?&?&?&?) (?&?&?&?) Hab.
  destruct (decide (a < b)); [left|right]; apply (krep_chunks_disjoint _ _ _ _ _ _ HK); lia || done.
Qed.

Lemma kheap_kmalloc_rep h L n p h' :
  kheap_rep h L -> 0 <= n <= kmalloc_max -> kheap_kmalloc n h = (p, h') ->
  (p = NULL /\ h' = h) \/
  (p <> NULL /\ p mod ALIGN = 0 /\ let m := block_size h' p in
   n <= m /\ 0 < m /\ L !! p = None /\ block_fresh L p m /\
   kheap_rep h' (<[p := m]> L)).
Proof.
  intros (Hi & Hfirst & cs & fl & HK & HL) Hn Hrun.
  destruct (kmalloc_carved h cs fl n HK Hi Hn)
    as [[E _]|(c & h1 & cs' & fl' & E & HK' & Hc & Huc & [S1 S2 S3 S4 S5 S6])];
    rewrite E in Hrun; injection Hrun as <- <-; [by left|right].
  destruct (krep_pos _ _ _ _ c HK Hc) as [Hpos _].
  destruct (krep_free_inner _ _ _ _ _ HK Huc) as [Hcf Hcl].
  destruct (round_size_spec n Hn) as (Hr1 & Hr2 & _).
  destruct S1 as (Hi' & Hf' & Hl').
  assert (forall a, live h1 cs' a <-> a = c \/ live h cs a) as Hlive.
  { intros a. unfold live. rewrite Hf', Hl'. split.
    - intros (Ha & ? & ? & Hu). destruct (decide (a = c)) as [->|Hac]; [by left|right].
      destruct (decide (a ∈ cs)) as [Hacs|Hacs].
      + destruct (S6 a Hacs Hac). split_and!; try done. congruence.
      + specialize (S5 a Ha Hacs). congruence.
    - intros [->|(Ha & ? & ? & Hu)]; [by destruct S2|].
      assert (a <> c) as Hac by congruence. destruct (S6 a Ha Hac).
      split_and!; auto. congruence. }
  assert (live h1 cs' c) as Hlc by (apply Hlive; by left).
  assert (forall a, live h cs a -> a <> c /\ csize (kh_mem h1) a = csize (kh_mem h) a) as Hsz.
  { intros a (Ha & _ & _ & Hu). assert (a <> c) by congruence. split; [done|].
    apply csize_next. by apply S6. }
  split; [unfold NULL; lia|]. unfold block_size.
  replace (c + 12 - HEADER_SIZE) with c by (unfold HEADER_SIZE; lia). cbn zeta. split.
  { pose proof (kr_align _ _ _ _ HK c Hc). unfold ALIGN in *. Z.div_mod_to_equations. lia. }
  split_and!; [lia|lia| | |].
  - destruct (L !! (c + 12)) as [m|] eqn:EL; [|done]. exfalso.
    apply HL in EL as (a & Ha & Ea & _). destruct (Hsz a Ha). lia.
  - intros q m (a & Ha & -> & ->)%HL. destruct (Hsz a Ha) as [Hac <-].
    assert (live h1 cs' a) as Ha1 by (apply Hlive; by right).
    destruct (live_disjoint _ _ _ _ a c HK' Ha1 Hlc Hac); lia.
  - split; [congruence|]. split.
    { rewrite Hf', <- Hfirst. apply S6; [apply (krep_mem_ends _ _ _ _ HK)|done]. }
    exists cs', fl'. split; [done|]. intros q m.
    rewrite lookup_insert_Some. split.
    + intros [[<- <-]|[Hne (a & Ha & -> & ->)%HL]]; [by exists c|].
      exists a. destruct (Hsz a Ha) as [_ ->]. split; [apply Hlive; by right|done].
    + intros (a & [->|Ha]%Hlive & -> & ->); [by left|right]. destruct (Hsz a Ha) as [Hac ->].
      split; [lia|]. apply HL. by exists a.
Qed.

Lemma kheap_kfree_rep h L p m :
  kheap_rep h L -> L !! p = Some m -> kheap_rep (kheap_kfree p h) (delete p L).
Proof.
  intros (Hi & Hfirst & cs & fl & HK & HL) Hp.
  apply HL in Hp as (c & (Hc & Hcf & Hcl & Huc) & -> & _).
  destruct (kfree_freed h cs fl c) as (cs' & fl' & HK' & [(Hi' & Hf' & Hl') F2 F3 F4 F5]); try done.
  split; [congruence|]. split; [congruence|]. exists cs', fl'. split; [done|]. intros q n.
  rewrite lookup_delete_Some, HL. unfold live. rewrite Hf', Hl'. split.
  - intros [Hne (a & (Ha & ? & ? & Hu) & -> & ->)].
    destruct (F3 a Ha Hu ltac:(congruence)) as (? & ? & <-). exists a. done.
  - intros (a & (Ha & ? & ? & Hu) & -> & ->). destruct (F4 a Ha Hu) as [Hac Hu0].
    split; [lia|]. exists a. destruct (F3 a (F2 _ Ha) Hu0 Hac) as (_ & _ & ->).
    split_and!; auto.
Qed.

#[export] Program Instance kheap_alloc : AllocSpec kheap_ops := {|
  heap_rep := kheap_rep;
|}.
Next Obligation.
  intros h L n p h' HR Hn Hrun.
  destruct (kheap_kmalloc_rep h L n p h' HR Hn Hrun) as [?|(? & _ & ?)]; [by left|right].
  split; [done|]. by exists (block_size h' p).
Qed.
Next Obligation. exact kheap_kfree_rep. Qed.
Next Obligation. intros h. simpl. unfold kheap_kfree. rewrite decide_True by (by right). done. Qed.
Next Obligation.
  intros h L (_ & _ & cs & fl & HK & HL). destruct (L !! NULL) as [m|] eqn:E; [|done].
  apply HL in E as (c & (Hc & _) & Ec & _). destruct (krep_pos _ _ _ _ c HK Hc).
  unfold NULL in *. lia.
Qed.
