(* ===== verification/KHeapInit.v ===== *)
(** * Initialisation of the kernel heap, and its clients

    [kheap_init] establishes the invariant of [KHeapRep]; what the owner of a
    block writes inside it leaves the heap intact; the accounting variables. *)
From stdpp Require Import sorting functions.
From S2P Require Import Prelude Alloc KHeap KHeapRep KHeapSpec.

(** ** [kheap_init] *)

(** The memory after the three chunk headers are written and linked. *)
Definition init_mem (f s l : Z) (m : mem) : mem :=
  insert_after s l (insert_after f s
    (memory_chunk_init l (memory_chunk_init s (memory_chunk_init f m)))).

Lemma init_mem_cells f s l m :
  f + 20 <= s -> s + 20 <= l ->
  ring (init_mem f s l m) [f; s; l] /\
  forall x, x ∈ [f; s; l] -> used (init_mem f s l m) x = 0 /\
                             lnk (init_mem f s l m) (free_of x) (free_of x).
Proof.
  intros Hfs Hsl. unfold init_mem.
  set (m0 := memory_chunk_init l _).
  assert (forall x, x ∈ [f; s; l] -> rd m0 x = x /\ rd m0 (x + 4) = x /\ rd m0 (x + 8) = 0 /\
            rd m0 (x + 12) = x + 12 /\ rd m0 (x + 16) = x + 12) as H0.
  { intros x Hx. unfold m0, memory_chunk_init, list_init.
    rewrite !elem_of_cons in Hx. destruct Hx as [->|[->|[->|Hx]]]; [..|by apply not_elem_of_nil in Hx];
      split_and!; rds. }
  destruct (H0 f ltac:(set_solver)) as (F1 & F2 & _), (H0 s ltac:(set_solver)) as (_ & S2 & _),
    (H0 l ltac:(set_solver)) as (L1 & L2 & _).
  assert (forall k, k <> f -> k <> s -> k <> s + 4 -> k <> f + 4 ->
            rd (insert_after f s m0) k = rd m0 k) as Hfr1.
  { intros. apply insert_after_frame; unfold prev_of, next_of; congruence. }
  assert (ring (insert_after f s m0) [f; s]) as Hr1.
  { apply insert_after_ring; [done| |done].
    split; [rewrite !NoDup_cons; split_and!; try constructor; set_solver by lia|].
    intros p q. rewrite !elem_of_cons. intros [->|[->|?]] [->|[->|?]]; set_solver by lia. }
  set (m1 := insert_after f s m0) in *.
  assert (rd m1 (next_of s) = f) as Hsf by (apply ring_rotate with (l1 := [f]) (l2 := [s]) in Hr1; apply Hr1).
  assert (forall k, k <> s -> k <> l -> k <> l + 4 -> k <> f + 4 ->
            rd (insert_after s l m1) k = rd m1 k) as Hfr2.
  { intros. apply insert_after_frame; try done; [|congruence].
    unfold prev_of. rewrite Hfr1 by lia. done. }
  split.
  - apply (ring_rotate _ [s; l] [f]). apply insert_after_ring.
    + unfold prev_of. rewrite Hfr1 by lia. done.
    + split; [rewrite !NoDup_cons; split_and!; try constructor; set_solver by lia|].
      intros p q. rewrite !elem_of_cons. intros [->|[->|[->|?]]] [->|[->|[->|?]]]; set_solver by lia.
    + by apply (ring_rotate _ [f] [s]).
  - intros x Hx. destruct (H0 x Hx) as (_ & _ & U & N & P).
    rewrite !elem_of_cons in Hx. unfold used, used_of, lnk, next_of, prev_of, free_of.
    destruct Hx as [->|[->|[->|Hx]]]; [..|by apply not_elem_of_nil in Hx];
      rewrite !Hfr2 by lia; rewrite !Hfr1 by lia; rewrite <- ?Z.add_assoc; done.
Qed.

(** The state before the free chunk is put on its list. *)
Lemma krep_initial h f s l :
  0 < f -> f + 20 <= s -> s + 20 <= l -> l + 20 <= 2 ^ 32 ->
  f mod ALIGN = 0 -> s mod ALIGN = 0 -> l mod ALIGN = 0 ->
  kh_first_chunk h = f -> kh_last_chunk h = l ->
  (forall n, rd (kh_free_chunk h) n = NULL) ->
  let m := <[used_of l := 1]> (<[used_of f := 1]> (init_mem f s l (kh_mem h))) in
  krep (set_mem m h) [f; s; l] (fun _ => []) [s].
Proof.
  intros Hf Hfs Hsl Hl Af As Al E1 E2 Hfc m.
  destruct (init_mem_cells f s l (kh_mem h) Hfs Hsl) as [Hr Hc].
  set (m0 := init_mem f s l (kh_mem h)) in *.
  assert (forall k, k <> f + 8 -> k <> l + 8 -> rd m k = rd m0 k) as Hfr
    by (intros; unfold m; rds; done).
  assert (used m f = 1 /\ used m s = 0 /\ used m l = 1) as (Uf & Us & Ul).
  { unfold used. split_and!; [unfold m; rds|rewrite Hfr|unfold m; rds]; try (unfold used_of; lia).
    apply (Hc s). set_solver. }
  assert (forall x, x ∈ [f; s; l] <-> x = f \/ x = s \/ x = l) as Hin by set_solver.
  assert (ring m [f; s; l]) as Hr'.
  { apply (ring_ext m0); [| |done].
    - intros x Hx%Hin. unfold next_of, prev_of.
      destruct Hx as [->|[->| ->]]; rewrite !Hfr by lia; done.
    - rewrite !NoDup_cons. split_and!; try constructor; set_solver by lia. }
  split; simpl; try done.
  - rewrite !StronglySorted_cons, !Forall_cons, !Forall_nil. unfold sizeof_mem_chunk.
    split_and!; try done; try lia. constructor.
  - exists [s]. by rewrite E1, E2.
  - unfold sizeof_mem_chunk. lia.
  - intros a [->|[->| ->]]%Hin; done.
  - intros a [->|[->| ->]]%Hin; auto.
  - by rewrite E1, E2.
  - intros n. split; [done|constructor].
  - intros n a. split; [by intros ?%not_elem_of_nil|].
    intros ([->|[->| ->]]%Hin & Hu & _ & Hs); [congruence|set_solver|congruence].
  - intros x ->%list_elem_of_singleton. split; [set_solver|]. destruct (Hc s) as [_ [N P]]; [set_solver|].
    unfold lnk, next_of, prev_of, free_of in *. rewrite !Hfr by lia. done.
  - intros a [->|[->| ->]]%Hin Hu Hs; [congruence|set_solver|congruence].
Qed.

(** [kheap_init] in terms of the addresses of the three chunks. *)
Lemma kheap_init_eq start fin h :
  0 < start -> start <= fin < 2 ^ 32 -> start + 3 < 2 ^ 32 ->
  kheap_init start fin h =
    let f := 4 * ((start + 3) / 4) in
    let l := 4 * (fin / 4) - 20 in
    let m := <[used_of l := 1]> (<[used_of f := 1]> (init_mem f (f + 20) l (kh_mem h))) in
    let h1 := mk_kheap (kh_init h) m (kh_free_chunk h) f l 0 0 0 in
    let h2 := list_push_free (memory_chunk_slot (csize m (f + 20))) (f + 20) h1 in
    mk_kheap 1 (kh_mem h2) (kh_free_chunk h2) f l (u32 (csize m (f + 20) - HEADER_SIZE)) 0 52.
Proof.
  intros Hs Hf Hs3. unfold kheap_init.
  rewrite (u32_small (fin - start)), (u32_small (start + ALIGN - 1)) by (unfold ALIGN; lia).
  rewrite (u32_small (start + (fin - start))) by lia.
  rewrite !align_mask_land by (unfold ALIGN; lia).
  replace (start + ALIGN - 1) with (start + 3) by (unfold ALIGN; lia).
  replace (start + (fin - start)) with fin by lia. reflexivity.
Qed.

Lemma kheap_init_rep start fin h :
  let f := 4 * ((start + 3) / 4) in
  let e := 4 * (fin / 4) in
  0 < start -> start <= fin < 2 ^ 32 -> f + 60 <= e ->
  (forall n, rd (kh_free_chunk h) n = NULL) ->
  kheap_rep (kheap_init start fin h) ∅ /\
  exists fl, krep (kheap_init start fin h) [f; f + 20; e - 20] fl [].
Proof.
  intros f e Hs Hfin Hfe Hfc.
  pose proof (Z.div_mod (start + 3) 4). pose proof (Z.mod_pos_bound (start + 3) 4).
  pose proof (Z.div_mod fin 4). pose proof (Z.mod_pos_bound fin 4).
  set (s := f + 20). set (l := e - 20).
  set (h1 := mk_kheap (kh_init h)
     (<[used_of l := 1]> (<[used_of f := 1]> (init_mem f s l (kh_mem h))))
     (kh_free_chunk h) f l 0 0 0).
  assert (krep h1 [f; s; l] (fun _ => []) [s]) as HK.
  { change h1 with (set_mem (kh_mem h1) (mk_kheap (kh_init h) (kh_mem h) (kh_free_chunk h) f l 0 0 0)).
    apply (krep_initial (mk_kheap (kh_init h) (kh_mem h) (kh_free_chunk h) f l 0 0 0));
      try done; unfold s, l, ALIGN; try lia; subst f e; try (Z.div_mod_to_equations; lia). }
  destruct (kr_ends_used _ _ _ _ HK) as [Uf Ul]. simpl kh_first_chunk in Uf. simpl kh_last_chunk in Ul.
  pose proof (kr_ring _ _ _ _ HK) as Hr.
  assert (lnk (kh_mem h1) s l) as [Hsl _] by apply (ring_next _ [f] s l [] Hr).
  assert (lnk (kh_mem h1) f s) as Hpc by apply (ring_next _ [] f s [l] Hr).
  assert (used (kh_mem h1) s = 0) as Us.
  { unfold used. simpl. rds. apply (init_mem_cells f s l (kh_mem h)); [lia|lia|set_solver]. }
  set (n := memory_chunk_slot (csize (kh_mem h1) s)).
  destruct (krep_put h1 [f; s; l] (fun _ => []) [] n s) as [HK2 Hh]; try done.
  { apply not_elem_of_nil. }
  { left. unfold next_of in Hsl. by rewrite Hsl. }
  { intros p Hp E. left. rewrite (lnk_pred (kh_mem h1) [f; s; l] f s p); done. }
  rewrite kheap_init_eq by lia. cbn zeta. fold f e s l.
  change (<[used_of l := 1]> (<[used_of f := 1]> (init_mem f s l (kh_mem h)))) with (kh_mem h1).
  change (mk_kheap (kh_init h) (kh_mem h1) (kh_free_chunk h) f l 0 0 0) with h1. fold n.
  set (h2 := list_push_free n s h1) in *.
  destruct (list_push_free_static n s h1) as (_ & Ef & El). fold h2 in Ef, El.
  set (h3 := mk_kheap _ _ _ _ _ _ _ _).
  assert (krep h3 [f; s; l] (<[n := [s]]> (fun _ => [])) []) as HK3.
  { destruct HK2. rewrite Ef, El in *. by split. }
  split; [|by eexists]. split; [done|]. split.
  { pose proof (ring_next _ [] f s [l] (kr_ring _ _ _ _ HK3)) as [E _]. exact E. }
  exists [f; s; l], (<[n := [s]]> (fun _ => [])).
  split; [done|]. intros p k. rewrite lookup_empty. split; [done|].
  intros (c & (Hc & Hcf & Hcl & Hu) & _). exfalso. simpl in Hcf, Hcl.
  assert (c = s) as -> by (clear - Hc Hcf Hcl; set_solver).
  destruct (Hh s) as (_ & _ & Us2); [clear; set_solver|]. 
  change (used (kh_mem h2) s = 1) in Hu. congruence.
Qed.

(** ** The owner of a block may write anything inside it *)
Lemma kheap_client_write h L p n a v :
  kheap_rep h L -> L !! p = Some n -> p <= a < p + n ->
  kheap_rep (on_mem (<[a := v]>) h) L.
Proof.
  intros (Hi & Hfirst & cs & fl & HK & HL) Hp Ha.
  apply HL in Hp as (c & (Hc & Hcf & Hcl & Huc) & -> & ->).
  assert (forall b k, b ∈ cs -> b <> c -> 0 <= k < 20 -> a <> b + k) as Hout.
  { intros b k Hb Hbc Hk ->.
    destruct (decide (b < c)).
    - pose proof (krep_csize _ _ _ _ _ HK Hc Hcf Hcl).
      pose proof (sorted_spaced _ _ _ (kr_sorted _ _ _ _ HK) Hb Hc). lia.
    - pose proof (krep_chunks_disjoint _ _ _ _ c b HK Hc Hb ltac:(lia) Hcf). lia. }
  assert (forall b k, b ∈ cs -> 0 <= k < 12 -> rd (<[a := v]> (kh_mem h)) (b + k) = rd (kh_mem h) (b + k))
    as Hhdr.
  { intros b k Hb Hk. rewrite rd_insert. apply decide_False.
    destruct (decide (b = c)) as [->|]; [lia|]. apply Hout; [done|done|lia]. }
  set (m' := <[a := v]> (kh_mem h)) in *.
  assert (forall b, b ∈ cs -> rd m' b = rd (kh_mem h) b) as Hn
    by (intros b Hb; rewrite <- (Z.add_0_r b); apply Hhdr; [done|lia]).
  assert (forall b, b ∈ cs -> used m' b = used (kh_mem h) b) as Hu
    by (intros b Hb; apply Hhdr; [done|lia]).
  assert (krep (on_mem (<[a := v]>) h) cs fl []) as HK'.
  { change (on_mem (<[a:=v]>) h) with (set_mem m' h).
    destruct (decide (a = free_of c \/ a = free_of c + 4)) as [Hac|Hac].
    - apply (krep_flag_update h cs fl [] [] c m'); try done; [by right| |left].
      + intros k _ ??. unfold m'. rewrite rd_insert. apply decide_False. lia.
      + split; [apply not_elem_of_nil|]. by rewrite Hu.
    - apply (krep_all_update h cs fl [] cs [] (kh_first_chunk h) m' HK); try done; try apply HK.
      + apply (ring_ext (kh_mem h)); [|apply sorted_NoDup, HK|apply HK].
        intros b Hb. split; [by apply Hn|]. apply Hhdr; [done|lia].
      + intros b Hb _. split; [|done].
        split; [by apply Hu|]. split; [intros _; by apply Hn|].
        unfold m', next_of, prev_of, free_of in *. rewrite !rd_insert.
        destruct (decide (b = c)) as [->|Hbc].
        * rewrite !decide_False by lia. done.
        * pose proof (Hout b 12 Hb Hbc). pose proof (Hout b 16 Hb Hbc).
          rewrite !decide_False by lia. done.
      + intros b k Hb. by apply (kr_tie _ _ _ _ HK) in Hb as [? _].
      + right. rewrite Hu by apply (krep_mem_ends _ _ _ _ HK). apply HK.
      + intros b Hb _ _. apply ring_next_elem; [apply HK|done]. }
  split; [done|]. split.
  { simpl. unfold m' in Hn. rewrite Hn by apply (krep_mem_ends _ _ _ _ HK). done. }
  exists cs, fl. split; [done|]. intros q k. rewrite HL. unfold live. simpl.
  split; intros (b & (Hb & ? & ? & Hub) & -> & ->); exists b.
  - rewrite Hu by done. split_and!; try done. symmetry. by apply csize_next, Hn.
  - rewrite Hu in Hub by done. split_and!; try done. by apply csize_next, Hn.
Qed.
