(* ===== verification/KHeapTheorems.v ===== *)
(** * The properties of the kernel heap

    The statements about [memory/kheap.c] a client or a maintainer relies on,
    each with a witness on a heap laid out by [kheap_init]. *)
From stdpp Require Import sorting functions.
From S2P Require Import Prelude Alloc KHeap KHeapRep KHeapSpec KHeapInit.

(** A zero-initialised heap, and the heap the kernel would build between the
    unaligned addresses 0x1001 and 0x2003. *)
Definition bss_kheap : kheap := mk_kheap 0 ∅ ∅ 0 0 0 0 0.
Definition demo_kheap : kheap := kheap_init 4097 8195 bss_kheap.

Lemma bss_slots n : rd (kh_free_chunk bss_kheap) n = NULL.
Proof. done. Qed.

Lemma demo_kheap_rep : kheap_rep demo_kheap ∅.
Proof.
  apply (kheap_init_rep 4097 8195 bss_kheap); [lia|lia| |apply bss_slots].
  vm_compute. congruence.
Defined.

(** ** Sequences of calls *)
Inductive heap_op : Type :=
  | Malloc (n : Z)
  | Free (p : Z).

(** [heap_trace h L ops h' L']: the calls [ops] lead from [h] to [h']; [L] and
    [L'] are the blocks the clients own.  A client only frees what it owns. *)
Inductive heap_trace : kheap -> gmap Z Z -> list heap_op -> kheap -> gmap Z Z -> Prop :=
  | trace_nil h L : heap_trace h L [] h L
  | trace_malloc h L n p h1 ops h' L' :
      0 <= n <= kmalloc_max -> kheap_kmalloc n h = (p, h1) ->
      heap_trace h1 (if decide (p = NULL) then L else <[p := block_size h1 p]> L) ops h' L' ->
      heap_trace h L (Malloc n :: ops) h' L'
  | trace_free h L p ops h' L' :
      is_Some (L !! p) -> heap_trace (kheap_kfree p h) (delete p L) ops h' L' ->
      heap_trace h L (Free p :: ops) h' L'.

Lemma heap_trace_rep h L ops h' L' :
  heap_trace h L ops h' L' -> kheap_rep h L -> kheap_rep h' L'.
Proof.
  induction 1 as [|h L n p h1 ops h' L' Hn Hrun _ IH|h L p ops h' L' [m Hm] _ IH];
    intros HR; [done| |].
  - apply IH. destruct (kheap_kmalloc_rep h L n p h1 HR Hn Hrun) as [[-> ->]|(Hp & _ & H)].
    + by rewrite decide_True.
    + rewrite decide_False by done. apply H.
  - apply IH. by apply (kheap_kfree_rep h L p m).
Qed.

(** No call moves the two ends of the heap. *)
Lemma kheap_kmalloc_static n h : same_static h (kheap_kmalloc n h).2.
Proof.
  unfold kheap_kmalloc. case_decide; [done|]. case_decide; [done|].
  destruct (find_slot _ _ _) as [k|]; [|done]. unfold carve. rewrite list_pop_free_run.
  pose proof (list_remove_free_static k (rd (kh_free_chunk h) k) h) as Hst.
  case_decide; [|done].
  apply (same_static_trans _ _ _ Hst). cbn zeta iota.
  match goal with |- context [list_push_free ?n ?c ?h0] =>
    exact (list_push_free_static n c h0) end.
Qed.

Lemma push_free_static c h : same_static h (push_free c h).
Proof. unfold push_free. apply list_push_free_static. Qed.

Lemma remove_free_static c h : same_static h (remove_free c h).
Proof. unfold remove_free. apply list_remove_free_static. Qed.

Lemma on_mem_static f h : same_static h (on_mem f h).
Proof. by repeat split. Qed.

Lemma counters_static a b h : same_static h (add_mem_free a (add_mem_meta b h)).
Proof. by repeat split. Qed.

Lemma mem_used_static d h : same_static h (add_mem_used d h).
Proof. by repeat split. Qed.

(** Peels the steps of [kfree] off, last one first. *)
Ltac heap_static :=
  lazymatch goal with
  | |- same_static ?h ?h => by repeat split
  | |- same_static _ (add_mem_free ?a (add_mem_meta ?b ?h1)) =>
      apply (same_static_trans _ h1); [heap_static|apply counters_static]
  | |- same_static _ (push_free ?c ?h1) =>
      apply (same_static_trans _ h1); [heap_static|apply push_free_static]
  | |- same_static _ (remove_free ?c ?h1) =>
      apply (same_static_trans _ h1); [heap_static|apply remove_free_static]
  | |- same_static _ (on_mem ?f ?h1) =>
      apply (same_static_trans _ h1); [heap_static|apply on_mem_static]
  end.

Lemma absorb_next_static n h : same_static h (absorb_next n h).
Proof. unfold absorb_next. heap_static. Qed.

Lemma merge_prev_static c p h : same_static h (merge_prev c p h).
Proof. unfold merge_prev. heap_static. Qed.

Lemma release_static c h : same_static h (release c h).
Proof. unfold release. heap_static. Qed.

Lemma kheap_kfree_static p h : same_static h (kheap_kfree p h).
Proof.
  destruct (decide (kh_init h = 0 \/ p = NULL)) as [Hd|Hd].
  { unfold kheap_kfree. by rewrite decide_True. }
  rewrite kheap_kfree_unfold by tauto. cbn zeta.
  set (h0 := add_mem_used _ h). pose proof (mem_used_static _ h : same_static h h0) as H0.
  set (h1 := if decide _ then absorb_next _ _ else _).
  assert (same_static h h1) as Hst.
  { subst h1. case_decide; [|done]. apply (same_static_trans _ _ _ H0), absorb_next_static. }
  case_decide; apply (same_static_trans _ _ _ Hst);
    [apply merge_prev_static|apply release_static].
Qed.

Lemma heap_trace_ends h L ops h' L' :
  heap_trace h L ops h' L' ->
  kh_first_chunk h' = kh_first_chunk h /\ kh_last_chunk h' = kh_last_chunk h.
Proof.
  induction 1 as [|h L n p h1 ops h' L' Hn Hrun _ [-> ->]|h L p ops h' L' _ _ [-> ->]]; [done| |].
  - pose proof (kheap_kmalloc_static n h) as Hst. rewrite Hrun in Hst. apply Hst.
  - apply (kheap_kfree_static p h).
Qed.

Lemma kheap_init_ends start fin h :
  0 < start -> start <= fin < 2 ^ 32 -> start + 3 < 2 ^ 32 ->
  kh_first_chunk (kheap_init start fin h) = 4 * ((start + 3) / 4) /\
  kh_last_chunk (kheap_init start fin h) = 4 * (fin / 4) - 20.
Proof. intros. by rewrite kheap_init_eq. Qed.

Lemma kheap_rep_disjoint h L : kheap_rep h L -> blocks_disjoint L.
Proof.
  intros (_ & _ & cs & fl & HK & HL) p n (a & Ha & -> & ->)%HL q k.
  rewrite lookup_delete_Some. intros [Hne (b & Hb & -> & ->)%HL].
  destruct (live_disjoint _ _ _ _ a b HK Ha Hb); [congruence|lia|lia].
Qed.

Lemma kheap_rep_block h L p m :
  kheap_rep h L -> L !! p = Some m ->
  p mod ALIGN = 0 /\ 8 <= m /\ kh_first_chunk h + 32 <= p /\ p + m <= kh_last_chunk h.
Proof.
  intros (_ & Hf & cs & fl & HK & HL) (c & (Hc & Hcf & Hcl & _) & -> & ->)%HL.
  pose proof (kr_align _ _ _ _ HK c Hc) as Hal.
  pose proof (krep_csize _ _ _ _ _ HK Hc Hcf Hcl) as [? _].
  destruct (krep_mem_ends _ _ _ _ HK) as [Hfc Hlc].
  pose proof (krep_pos _ _ _ _ _ HK Hfc).
  assert (kh_first_chunk h < c) as Hlt.
  { destruct (kr_ends _ _ _ _ HK) as [mid E]. pose proof (kr_sorted _ _ _ _ HK) as Hs.
    rewrite E in Hs, Hc. apply StronglySorted_cons in Hs as [Hs _].
    rewrite Forall_forall in Hs. apply elem_of_cons in Hc as [->|Hc]; [done|].
    specialize (Hs c Hc). unfold sizeof_mem_chunk in Hs. lia. }
  pose proof (sorted_spaced _ _ _ (kr_sorted _ _ _ _ HK) Hfc Hc).
  assert (c < kh_last_chunk h) as Hlt2.
  { destruct (decide (c < kh_last_chunk h)); [done|].
    destruct (kr_ends _ _ _ _ HK) as [mid E2]. exfalso.
    pose proof (kr_sorted _ _ _ _ HK) as Hs. rewrite E2 in Hs, Hc.
    apply (StronglySorted_app _ (_ :: mid)) in Hs as (Hall & _).
    apply (elem_of_app (_ :: mid)) in Hc as [Hc|Hc%list_elem_of_singleton]; [|done].
    specialize (Hall c (kh_last_chunk h) Hc ltac:(set_solver)). unfold sizeof_mem_chunk in Hall. lia. }
  pose proof (krep_chunks_disjoint _ _ _ _ c _ HK Hc Hlc Hlt2 Hcf).
  split_and!; [|lia|lia|lia]. unfold ALIGN in *. Z.div_mod_to_equations. lia.
Qed.

(** A failed request: every free chunk is smaller than twice its size. *)
Lemma kmalloc_null_sizes h cs fl n a :
  krep h cs fl [] -> kh_init h <> 0 -> 0 <= n <= kmalloc_max ->
  kheap_kmalloc n h = (NULL, h) -> a ∈ cs -> used (kh_mem h) a = 0 ->
  csize (kh_mem h) a < 2 * Z.max 8 (n + 3).
Proof.
  intros HK Hi Hn Hrun Ha Hu.
  destruct (round_size_spec n Hn) as (_ & Hr & _ & Hr2).
  destruct (krep_free_inner _ _ _ _ _ HK Hu) as [Haf Hal].
  destruct (krep_csize _ _ _ _ _ HK Ha Haf Hal) as [Hsz _].
  destruct (kmalloc_carved h cs fl n HK Hi Hn) as [[_ Hno]|(c & h' & _ & _ & E & _ & Hc & _)].
  - assert (a ∈ fl (memory_chunk_slot (csize (kh_mem h) a))) as Hin
      by (apply (kr_tie _ _ _ _ HK); split_and!; try done; apply not_elem_of_nil).
    apply Hno in Hin. unfold first_slot in Hin. rewrite !memory_chunk_slot_log2 in Hin by lia.
    destruct (Z.log2_spec (csize (kh_mem h) a)) as [_ H1]; [lia|].
    destruct (Z.log2_spec (round_size n - 1)) as [H2 _]; [lia|].
    assert (2 ^ Z.succ (Z.log2 (csize (kh_mem h) a)) <= 2 ^ (Z.log2 (round_size n - 1) + 1)) as H3
      by (apply Z.pow_le_mono_r; lia).
    rewrite Z.pow_add_r in H3 by (try apply Z.log2_nonneg; lia). lia.
  - rewrite E in Hrun. destruct (krep_pos _ _ _ _ _ HK Hc).
    injection Hrun as Hrun _. unfold NULL in Hrun. lia.
Qed.

(** ** Theorems *)

(** C1: every sequence of [kmalloc] and [kfree] calls by clients that free
    only what they own, on the heap [kheap_init] builds, keeps the live blocks
    pairwise disjoint, 4-byte aligned and inside the heap area, and ends in a
    well-formed heap. *)
Theorem heap_trace_safe start fin h ops h' L' :
  4 * ((start + 3) / 4) + 60 <= 4 * (fin / 4) ->
  0 < start -> start <= fin < 2 ^ 32 ->
  (forall n, rd (kh_free_chunk h) n = NULL) ->
  heap_trace (kheap_init start fin h) ∅ ops h' L' ->
  kheap_rep h' L' /\ blocks_disjoint L' /\
  forall p m, L' !! p = Some m -> p mod ALIGN = 0 /\ start + 32 <= p /\ p + m + 20 <= fin.
Proof.
  intros Hsz Hs Hf Hfc Htr.
  destruct (kheap_init_rep start fin h Hs Hf Hsz Hfc) as [HR _].
  pose proof (heap_trace_rep _ _ _ _ _ Htr HR) as HR'.
  destruct (heap_trace_ends _ _ _ _ _ Htr) as [Ef El].
  split; [done|]. split; [by eapply kheap_rep_disjoint|].
  intros p m Hp. destruct (kheap_rep_block _ _ _ _ HR' Hp) as (? & _ & H1 & H2).
  rewrite Ef in H1. rewrite El in H2.
  destruct (kheap_init_ends start fin h Hs Hf) as [E1 E2];
    [Z.div_mod_to_equations; lia|]. rewrite E1 in H1. rewrite E2 in H2.
  split; [done|]. Z.div_mod_to_equations. lia.
Qed.

Lemma heap_trace_safe_witness :
  exists h' L', heap_trace demo_kheap ∅ [Malloc 100; Malloc 40; Free 4132] h' L' /\
    kheap_rep h' L' /\ is_Some (L' !! 4244).
Proof.
  eexists _, _.
  assert (heap_trace demo_kheap ∅ [Malloc 100; Malloc 40; Free 4132]
            (kheap_kfree 4132 (kheap_kmalloc 40 (kheap_kmalloc 100 demo_kheap).2).2)
            (delete 4132 (<[4244 := 40]> (<[4132 := 100]> ∅)))) as Htr.
  { eapply (trace_malloc _ _ 100 4132); [vm_compute; split; congruence|apply surjective_pairing|].
    eapply (trace_malloc _ _ 40 4244); [vm_compute; split; congruence|apply surjective_pairing|].
    eapply trace_free; [by eexists|]. apply trace_nil. }
  split; [exact Htr|].
  destruct (heap_trace_safe 4097 8195 bss_kheap _ _ _
    ltac:(vm_compute; congruence) ltac:(lia) ltac:(lia) bss_slots Htr) as [HR _].
  split; [exact HR|]. by eexists.
Defined.

(** C9: [kmalloc] either returns a fresh, aligned block of at least the
    requested size that overlaps no live block, leaving every live block as it
    was, or returns [NULL] and changes nothing; it fails only when no free
    chunk is twice as large as the (rounded) request. *)
Theorem kmalloc_correct h L n :
  kheap_rep h L -> 0 <= n <= kmalloc_max ->
  let '(p, h') := kheap_kmalloc n h in
  (p = NULL /\ h' = h /\
   forall cs fl a, krep h cs fl [] -> a ∈ cs -> used (kh_mem h) a = 0 ->
     csize (kh_mem h) a < 2 * Z.max 8 (n + 3)) \/
  (p <> NULL /\ p mod ALIGN = 0 /\ L !! p = None /\
   n <= block_size h' p /\ block_fresh L p (block_size h' p) /\
   kh_first_chunk h + 32 <= p /\ p + block_size h' p <= kh_last_chunk h /\
   kheap_rep h' (<[p := block_size h' p]> L)).
Proof.
  intros HR Hn. destruct (kheap_kmalloc n h) as [p h'] eqn:Hrun.
  pose proof (kheap_kmalloc_static n h) as (_ & Ef & El). rewrite Hrun in Ef, El. simpl in Ef, El.
  destruct (kheap_kmalloc_rep h L n p h' HR Hn Hrun) as [[-> ->]|(Hp & Hal & Hb)]; [left|right].
  - split; [done|]. split; [done|]. intros cs fl a HK Ha Hu.
    destruct HR as (Hi & _). by apply (kmalloc_null_sizes h cs fl n).
  - cbn zeta in Hb. destruct Hb as (? & ? & ? & ? & HR').
    destruct (kheap_rep_block h' _ p (block_size h' p) HR') as (_ & _ & ? & ?);
      [by rewrite lookup_insert_eq|].
    rewrite Ef, El in *. done.
Qed.

Lemma kmalloc_correct_witness :
  kheap_rep demo_kheap ∅ /\ (kheap_kmalloc 100 demo_kheap).1 = 4132 /\
  block_fresh ∅ 4132 (block_size (kheap_kmalloc 100 demo_kheap).2 4132).
Proof.
  split; [exact demo_kheap_rep|]. split; [vm_compute; reflexivity|].
  pose proof (kmalloc_correct demo_kheap ∅ 100 demo_kheap_rep
    ltac:(vm_compute; split; congruence)) as H.
  destruct (kheap_kmalloc 100 demo_kheap) as [p h'] eqn:E.
  assert (p = 4132) as -> by (change p with (p, h').1; rewrite <- E; vm_compute; reflexivity).
  destruct H as [[H _]|(_ & _ & _ & _ & H & _)]; [discriminate H|exact H].
Defined.

(** C10: [kfree] of a live block gives that block, and nothing else, back; and
    the freed space is merged at once with the free space around it, so that
    no two neighbouring chunks are ever both free. *)
Theorem kfree_correct h L p m :
  kheap_rep h L -> L !! p = Some m ->
  kheap_rep (kheap_kfree p h) (delete p L) /\
  exists cs fl, krep (kheap_kfree p h) cs fl [] /\
    forall A a b B, cs = A ++ a :: b :: B ->
      used (kh_mem (kheap_kfree p h)) a = 1 \/ used (kh_mem (kheap_kfree p h)) b = 1.
Proof.
  intros HR Hp. pose proof (kheap_kfree_rep h L p m HR Hp) as HR'.
  split; [done|]. destruct HR' as (_ & _ & cs & fl & HK & _).
  exists cs, fl. split; [done|]. intros A a b B ->.
  assert (lnk (kh_mem (kheap_kfree p h)) a b) as [E _] by (eapply ring_next, HK).
  destruct (kr_flag _ _ _ _ HK a ltac:(set_solver)) as [Ha|]; [right|by left].
  destruct (kr_coalesced _ _ _ _ HK a ltac:(set_solver) Ha) as [H|H];
    [apply not_elem_of_nil| |by apply not_elem_of_nil in H].
  unfold next_of in E. by rewrite E in H.
Qed.

Lemma kfree_correct_witness :
  let h := (kheap_kmalloc 100 demo_kheap).2 in
  kheap_rep h (<[4132 := 100]> ∅) /\
  kheap_rep (kheap_kfree 4132 h) (delete 4132 (<[4132 := 100]> ∅)).
Proof.
  intros h. assert (kheap_rep h (<[4132 := 100]> ∅)) as HR.
  { destruct (kheap_kmalloc_rep demo_kheap ∅ 100 4132 h demo_kheap_rep
      ltac:(vm_compute; split; congruence) ltac:(apply surjective_pairing))
      as [[H _]|(_ & _ & _ & _ & _ & _ & H)]; [discriminate H|exact H]. }
  split; [exact HR|]. apply (kfree_correct h _ 4132 100 HR). reflexivity.
Defined.

(** nothing leaks: when the clients have freed all their blocks, the heap
    is again the single free chunk [kheap_init] started with. *)
Theorem kheap_all_freed h :
  kheap_rep h ∅ -> kh_first_chunk h + 40 <= kh_last_chunk h ->
  exists fl, krep h [kh_first_chunk h; kh_first_chunk h + 20; kh_last_chunk h] fl [] /\
    used (kh_mem h) (kh_first_chunk h + 20) = 0 /\
    csize (kh_mem h) (kh_first_chunk h + 20) = kh_last_chunk h - kh_first_chunk h - 32.
Proof.
  intros (_ & Hf & cs & fl & HK & HL) Hroom.
  assert (forall c, c ∈ cs -> c <> kh_first_chunk h -> c <> kh_last_chunk h ->
            used (kh_mem h) c = 0) as Hfree.
  { intros c Hc Hcf Hcl. destruct (kr_flag _ _ _ _ HK c Hc) as [|Hu]; [done|].
    assert ((∅ : gmap Z Z) !! (c + 12) = Some (csize (kh_mem h) c)) as E
      by (apply HL; exists c; done).
    by rewrite lookup_empty in E. }
  destruct (kr_ends _ _ _ _ HK) as [mid Hcs]. rewrite Hcs in HK.
  pose proof (kr_sorted _ _ _ _ HK) as Hs. pose proof (kr_ring _ _ _ _ HK) as Hr.
  set (f := kh_first_chunk h) in *. set (l := kh_last_chunk h) in *.
  destruct mid as [|s mid]; simpl in *.
  { destruct Hr as [[[E _] _] _]. unfold next_of in E. lia. }
  assert (s = f + 20) as -> by (destruct Hr as [[[E _] _] _]; unfold next_of in E; congruence).
  assert (used (kh_mem h) (f + 20) = 0) as Us.
  { apply Hfree; [rewrite Hcs; set_solver|lia|lia]. }
  destruct mid as [|y mid]; simpl in *.
  - exists fl. split; [done|]. split; [done|].
    assert (lnk (kh_mem h) (f + 20) l) as Hl by (by apply (ring_next _ [f] _ l [])).
    destruct (kr_bounds _ _ _ _ HK) as [? ?]. fold f l in H, H0. unfold sizeof_mem_chunk in *.
    rewrite (csize_eq _ _ l Hl) by lia. lia.
  - exfalso. assert (lnk (kh_mem h) (f + 20) y) as [E _] by (by apply (ring_next _ [f] _ y (mid ++ [l]))).
    destruct (kr_coalesced _ _ _ _ HK (f + 20)) as [H|H];
      [set_solver|done|apply not_elem_of_nil| |by apply not_elem_of_nil in H].
    unfold next_of in E. rewrite E in H.
    rewrite !StronglySorted_cons, !Forall_cons in Hs. unfold sizeof_mem_chunk in Hs.
    destruct Hs as ((? & ? & _) & (? & _) & Hy & _).
    rewrite Forall_forall in Hy. specialize (Hy l ltac:(set_solver)). simpl in Hy.
    assert (used (kh_mem h) y = 0); [|congruence].
    apply Hfree; [rewrite Hcs; set_solver|lia|lia].
Qed.

Lemma kheap_all_freed_witness :
  kheap_rep demo_kheap ∅ /\ csize (kh_mem demo_kheap) 4120 = 4040.
Proof.
  split; [exact demo_kheap_rep|].
  destruct (kheap_all_freed demo_kheap demo_kheap_rep ltac:(vm_compute; congruence))
    as (fl & _ & _ & H).
  transitivity (kh_last_chunk demo_kheap - kh_first_chunk demo_kheap - 32);
    [exact H|vm_compute; reflexivity].
Defined.

(** [kheap_init] lays out a well-formed heap with no live block and one
    free chunk that spans everything between the two end markers, whatever the
    alignment of the area, as soon as it has room for the three headers; the
    free-byte counter is the size of that chunk less one header. *)
Theorem kheap_init_correct start fin h :
  0 < start -> start <= fin < 2 ^ 32 -> 4 * ((start + 3) / 4) + 60 <= 4 * (fin / 4) ->
  (forall n, rd (kh_free_chunk h) n = NULL) ->
  let f := 4 * ((start + 3) / 4) in
  let l := 4 * (fin / 4) - 20 in
  let h' := kheap_init start fin h in
  kheap_rep h' ∅ /\ (exists fl, krep h' [f; f + 20; l] fl []) /\
  csize (kh_mem h') (f + 20) = l - f - 32 /\
  kh_mem_free h' = u32 (l - f - 44) /\ kh_mem_used h' = 0 /\ kh_mem_meta h' = 52.
Proof.
  intros Hs Hfin Hsz Hfc f l h'.
  destruct (kheap_init_rep start fin h Hs Hfin Hsz Hfc) as [HR [fl HK]].
  split; [done|]. split; [by exists fl|].
  pose proof (kr_bounds _ _ _ _ HK) as [_ Hb]. unfold sizeof_mem_chunk in Hb.
  assert (start + 3 < 2 ^ 32) as Hs3 by (Z.div_mod_to_equations; lia).
  assert (0 < f /\ f + 40 <= l /\ l + 20 <= 2 ^ 32) as (? & ? & ?)
    by (unfold f, l; Z.div_mod_to_equations; lia).
  assert (forall m, lnk m (f + 20) l -> csize m (f + 20) = l - f - 32) as Hcs
    by (intros m Hl; rewrite (csize_eq _ _ l Hl) by lia; lia).
  split; [apply Hcs, (ring_next _ [f] _ l []); apply (kr_ring _ _ _ _ HK)|].
  unfold h'. rewrite kheap_init_eq by done. cbn zeta. simpl. fold f. fold l.
  split; [|done]. f_equal.
  rewrite (csize_next (init_mem f (f + 20) l (kh_mem h))).
  - rewrite Hcs; [unfold HEADER_SIZE; lia|].
    destruct (init_mem_cells f (f + 20) l (kh_mem h)) as [Hr _]; [lia|lia|].
    by apply (ring_next _ [f] _ l []).
  - rds; done.
Qed.

Lemma kheap_init_correct_witness :
  kh_mem_free demo_kheap = 4028 /\ kheap_rep demo_kheap ∅.
Proof.
  destruct (kheap_init_correct 4097 8195 bss_kheap ltac:(lia) ltac:(lia)
    ltac:(vm_compute; congruence) bss_slots) as (HR & _ & _ & Hf & _).
  split; [etransitivity; [exact Hf|reflexivity]|exact HR].
Defined.

(** whatever the owner of a block writes inside it, the heap stays
    well formed and all blocks keep their address and size. *)
Theorem kheap_owner_write h L p n a v :
  kheap_rep h L -> L !! p = Some n -> p <= a < p + n ->
  kheap_rep (on_mem (<[a := v]>) h) L.
Proof. apply kheap_client_write. Qed.

Lemma kheap_owner_write_witness :
  let h := (kheap_kmalloc 100 demo_kheap).2 in
  kheap_rep (on_mem (<[4136 := 77]>) h) (<[4132 := 100]> ∅).
Proof.
  intros h.
  destruct (kheap_kmalloc_rep demo_kheap ∅ 100 4132 h demo_kheap_rep
    ltac:(vm_compute; split; congruence) ltac:(apply surjective_pairing))
    as [[H _]|(_ & _ & _ & _ & _ & _ & H)]; [discriminate H|].
  apply (kheap_owner_write h _ 4132 100 4136 77 H); [reflexivity|lia].
Defined.

(** the accounting drifts.  A request that takes a whole chunk adds its
    size less a header to [kheap_mem_used], [kfree] subtracts the whole size;
    [mem_free] loses the whole size and gets back a header less.  After one
    allocation and its release no block is live, but the counters say that
    2^32 - 12 bytes are in use and that 12 free bytes have gone. *)
Theorem kheap_counters_drift :
  let h0 := kheap_init 4097 6200 bss_kheap in
  let '(p, h) := kheap_kmalloc 2048 h0 in
  let h' := kheap_kfree p h in
  kh_mem_used h0 = 0 /\ p = 4132 /\ kh_mem_used h = 2036 /\ block_size h p = 2048 /\
  kh_mem_used h' = 2 ^ 32 - 12 /\ kh_mem_free h' = kh_mem_free h0 - 12.
Proof. vm_compute. repeat split; congruence. Qed.

(** a request within three bytes of 2^32 wraps around in the rounding and
    succeeds with a block of eight bytes. *)
Theorem kmalloc_request_wraps :
  let '(p, h) := kheap_kmalloc (2 ^ 32 - 1) demo_kheap in
  p <> NULL /\ block_size h p = 8.
Proof. vm_compute. split; congruence. Qed.
