(* ===== verification/Critical.v ===== *)
(** * Critical sections ([sync/critical.h])

    [ENTER_CRITICAL] and [EXIT_CRITICAL] with the recursive spinlock they use,
    the interrupt flag they save and restore ([interrupt/interrupts.c]), and
    the [critical] combinator that the components above use for a body
    between the two macros, as one CPU sees them.  [SpinlockProtocol] has the
    same macros one access at a time. *)
From stdpp Require Import functions.
From S2P Require Import Prelude.

(** ** The interrupt flag of a CPU

    1 when maskable interrupts are enabled, 0 otherwise, the value that
    [cpu_get_interrupt_state] reads. *)
Definition kernel_interrupt_get_state (flag : Z) : Z := flag.

(** Result: the returned old state and the new flag. *)
Definition kernel_interrupt_disable (flag : Z) : Z * Z :=
  let old_state := kernel_interrupt_get_state flag in
  if decide (old_state = 0) then (0, flag) else (old_state, 0).

Definition kernel_interrupt_restore (prev_state flag : Z) : Z :=
  if decide (prev_state <> 0) then 1 else flag.

(** ** Spinlocks *)
Record spinlock : Type := mk_spinlock {
  value : Z;
  current_tid : Z;
  nesting : Z;
}.

#[export] Instance spinlock_eq_dec : EqDecision spinlock.
Proof. solve_decision. Defined.

Definition SPINLOCK_INIT_VALUE : spinlock := mk_spinlock 0 (-1) 0.

(** The locks the modelled components take: one per CPU and a global one in
    the scheduler, those of [interrupts.c], [exceptions.c], [memory/paging.c],
    [arch/cpu/i386/paging.c], [memalloc.c], [pic.c], [pit.c], [rtc.c],
    [io_apic.c] and [lapic.c], and one inside every thread, semaphore, mutex,
    mailbox, queue and disk, named by the address of the object. *)
Inductive lock_id : Type :=
  | CpuLock (cpu : Z)
  | SchedLock
  | InterruptLock
  | ExceptionLock
  | FaultLock
  | PagingLock
  | MemallocLock
  | PicLock
  | PitLock
  | RtcLock
  | IoApicLock
  | IpiLock
  | LapicTimerLock (cpu : Z)
  | ObjLock (addr : Z).

#[export] Instance lock_id_eq_dec : EqDecision lock_id.
Proof. solve_decision. Defined.

(** What a CPU knows of itself: [cpu_get_id] and [cpu_get_booted_cpu_count]. *)
Record cpu_env : Type := mk_cpu {
  cpu_get_id : Z;
  booted_cpu_count : Z;
}.

(** A component's state together with the interrupt flag of the running CPU
    and the spinlocks. *)
Record kstate (S : Type) : Type := mk_kstate {
  core : S;
  int_flag : Z;
  locks : lock_id -> spinlock;
}.
Arguments mk_kstate {S}.
Arguments core {S}.
Arguments int_flag {S}.
Arguments locks {S}.

Definition with_core {S T} (c : T) (t : kstate S) : kstate T :=
  mk_kstate c (int_flag t) (locks t).

(** The same operation seen from a larger component. *)
Definition kzoom {S T A} (get : S -> T) (put : T -> S -> S) (m : M (kstate T) A) :
  M (kstate S) A :=
  zoom (fun t => with_core (get (core t)) t)
       (fun t' t => mk_kstate (put (core t') (core t)) (int_flag t') (locks t')) m.

Definition INIT_SPINLOCK {S} (l : lock_id) : M (kstate S) unit :=
  modify (fun t => mk_kstate (core t) (int_flag t) (<[l := SPINLOCK_INIT_VALUE]> (locks t))).

(** An operation that does not touch locks or the interrupt flag. *)
Definition lift {S A} (m : M S A) : M (kstate S) A := zoom core with_core m.

Section Sections.
Context {S : Type} (e : cpu_env).

(** Taking a lock that another CPU holds and that nobody releases spins for
    ever: [Diverge] in this one-CPU view. *)
Definition ENTER_CRITICAL (l : lock_id) : M (kstate S) Z := fun t =>
  let '(x, flag) := kernel_interrupt_disable (int_flag t) in
  let lk := locks t l in
  if decide (booted_cpu_count e > 1) then
    let must_wait := bool_decide (cpu_get_id e <> -1 /\ current_tid lk <> cpu_get_id e) in
    if must_wait && Z.testbit (value lk) 0 then Diverge
    else
      let v := if must_wait then Z.lor (value lk) 1 else value lk in
      Ret (x, mk_kstate (core t) flag
        (<[l := mk_spinlock v (cpu_get_id e) (u32 (nesting lk + 1))]> (locks t)))
  else Ret (x, mk_kstate (core t) flag (locks t)).

Definition EXIT_CRITICAL (x : Z) (l : lock_id) : M (kstate S) unit := fun t =>
  let lk := locks t l in
  let lks :=
    if decide (booted_cpu_count e > 1) then
      let n := u32 (nesting lk - 1) in
      let tid := if decide (n = 0) then -1 else current_tid lk in
      <[l := mk_spinlock 0 tid n]> (locks t)
    else locks t in
  Ret (tt, mk_kstate (core t) (kernel_interrupt_restore x (int_flag t)) lks).

(** The code between the two macros; every [return] in it is preceded by
    [EXIT_CRITICAL]. *)
Definition critical {A} (l : lock_id) (m : M (kstate S) A) : M (kstate S) A :=
  let* x := ENTER_CRITICAL l in
  let* r := m in
  EXIT_CRITICAL x l >>> ret r.

(** *** A free lock makes a critical section transparent *)
Definition flag_ok (t : kstate S) : Prop := int_flag t = 0 \/ int_flag t = 1.

Definition lock_free (l : lock_id) (t : kstate S) : Prop := locks t l = SPINLOCK_INIT_VALUE.

(** The state inside a section on the free lock [l]. *)
Definition inside (l : lock_id) (t : kstate S) : kstate S :=
  mk_kstate (core t) 0
    (if decide (booted_cpu_count e > 1)
     then <[l := mk_spinlock (if decide (cpu_get_id e <> -1) then 1 else 0) (cpu_get_id e) 1]>
            (locks t)
     else locks t).

Definition same_locks (t t' : kstate S) : Prop :=
  int_flag t' = int_flag t /\ forall l, locks t' l = locks t l.

Lemma enter_run l t :
  lock_free l t -> ENTER_CRITICAL l t = Ret (int_flag t, inside l t).
Proof.
  intros Hl. unfold ENTER_CRITICAL, kernel_interrupt_disable, kernel_interrupt_get_state, inside.
  unfold lock_free in Hl. rewrite Hl. simpl.
  assert (forall f, (if decide (f = 0) then (0, f) else (f, 0)) = (f, 0)) as ->
    by (intros f; case_decide; congruence).
  case_decide; [|done]. rewrite andb_false_r.
  case_bool_decide as Hb; case_decide as Hc; try done; [tauto|].
  assert (cpu_get_id e = -1) as -> by (simpl in Hb; lia). lia.
Qed.

Lemma critical_run {A} l (m : M (kstate S) A) t a s' :
  flag_ok t -> lock_free l t ->
  m (inside l t) = Ret (a, with_core s' (inside l t)) ->
  exists t', critical l m t = Ret (a, t') /\ core t' = s' /\ same_locks t t'.
Proof.
  intros Hf Hl Hm. unfold critical.
  rewrite (bind_ret _ _ _ _ _ (enter_run l t Hl)), (bind_ret _ _ _ _ _ Hm).
  eexists. split; [done|]. split; [done|]. split.
  - simpl. unfold kernel_interrupt_restore. destruct Hf as [-> | ->]; done.
  - intros k. simpl. destruct (decide (booted_cpu_count e > 1)); [|done].
    destruct (decide (l = k)) as [<-|].
    + rewrite !fn_lookup_insert. simpl. symmetry. exact Hl.
    + by rewrite !fn_lookup_insert_ne.
Qed.

(** Leaving the section restores the locks and the flag. *)
Lemma exit_run l t t1 :
  flag_ok t -> lock_free l t -> same_locks (inside l t) t1 ->
  exists t', EXIT_CRITICAL (int_flag t) l t1 = Ret (tt, t') /\ core t' = core t1 /\ same_locks t t'.
Proof.
  intros Hf Hl [Hif Hk]. eexists. split; [done|]. split; [done|]. split; simpl.
  - unfold kernel_interrupt_restore. simpl in Hif. destruct Hf as [E|E]; rewrite E, ?Hif; done.
  - intros k. specialize (Hk k) as Hkk. specialize (Hk l). unfold inside in Hk, Hkk. simpl in Hk, Hkk.
    destruct (decide (booted_cpu_count e > 1)); [|done].
    destruct (decide (l = k)) as [<-|].
    + rewrite fn_lookup_insert. rewrite Hk, fn_lookup_insert. simpl. symmetry. exact Hl.
    + rewrite fn_lookup_insert_ne by done. by rewrite Hkk, fn_lookup_insert_ne.
Qed.

Lemma inside_free l k t : l <> k -> lock_free k t -> lock_free k (inside l t).
Proof.
  intros Hn Hk. unfold lock_free, inside. simpl.
  case_decide; [by rewrite fn_lookup_insert_ne|done].
Qed.
End Sections.

Lemma lift_run {S A} (m : M S A) t a s' :
  m (core t) = Ret (a, s') -> lift m t = Ret (a, with_core s' t).
Proof. intros H. unfold lift, zoom. by rewrite H. Qed.

Lemma with_core_id {S} (t : kstate S) : with_core (core t) t = t.
Proof. by destruct t. Qed.

Lemma exec_lift {S A B} (m : M S A) (k : A -> M (kstate S) B) t a s' :
  m (core t) = Ret (a, s') -> bind (lift m) k t = k a (with_core s' t).
Proof. intros H. by rewrite (bind_ret _ _ _ _ _ (lift_run _ _ _ _ H)). Qed.

Lemma exec_lift_read {S A B} (m : M S A) (k : A -> M (kstate S) B) t a :
  m (core t) = Ret (a, core t) -> bind (lift m) k t = k a t.
Proof. intros H. by rewrite (exec_lift _ _ _ _ _ H), with_core_id. Qed.

(** *** A section that calls functions with sections of their own

    [t1] is a state inside a section on [l] entered from [t].  The lock word
    is not fixed: a nested section on the same lock clears it. *)
Section Nested.
Context {S : Type} (e : cpu_env).

Record in_section (l : lock_id) (t t1 : kstate S) : Prop := {
  is_flag : int_flag t1 = 0;
  is_lock : if decide (booted_cpu_count e > 1)
    then exists v, locks t1 l = mk_spinlock v (cpu_get_id e) 1
    else locks t1 l = locks t l;
  is_other k : k <> l -> locks t1 k = locks t k;
}.

Lemma enter_section l t : in_section l t (inside e l t).
Proof.
  split; simpl; [done| |intros k Hk]; case_decide; try done.
  - rewrite fn_lookup_insert. by eexists.
  - by rewrite fn_lookup_insert_ne.
Qed.

Lemma section_moves l t t1 t2 : in_section l t t1 -> same_locks t1 t2 -> in_section l t t2.
Proof.
  intros [H1 H2 H3] [H4 H5]. split; [congruence|by rewrite H5|].
  intros k Hk. rewrite H5. by apply H3.
Qed.

Lemma section_before l t t1 t2 : same_locks t t1 -> in_section l t1 t2 -> in_section l t t2.
Proof.
  intros [H4 H5] [H1 H2 H3]. split; [done|by rewrite <- H5|].
  intros k Hk. rewrite <- H5. by apply H3.
Qed.

Lemma section_core l t t1 c : in_section l t t1 -> in_section l t (with_core c t1).
Proof. by intros [H1 H2 H3]. Qed.

Lemma section_free l k t t1 : in_section l t t1 -> k <> l -> lock_free k t -> lock_free k t1.
Proof. intros [_ _ H] Hk. unfold lock_free. by rewrite H. Qed.

(** A nested section on the same lock. *)
Lemma nested_section {A} l (m : M S A) t t1 a s' :
  lock_free l t -> in_section l t t1 -> m (core t1) = Ret (a, s') ->
  exists t2, critical e l (lift m) t1 = Ret (a, t2) /\ core t2 = s' /\ in_section l t t2.
Proof.
  intros Hf [H1 H2 H3] Hm. unfold critical, ENTER_CRITICAL. unfold bind at 1.
  rewrite H1. simpl. destruct (decide (booted_cpu_count e > 1)) as [Hb|Hb].
  - destruct H2 as [v Hv]. rewrite Hv. simpl.
    rewrite bool_decide_false by tauto. simpl.
    rewrite (bind_ret _ _ _ _ _ (lift_run m (mk_kstate (core t1) 0 _) a s' Hm)).
    eexists. split; [reflexivity|]. split; [done|]. split; simpl; [done| |].
    + destruct (decide (booted_cpu_count e > 1)); [|done]. rewrite !fn_lookup_insert. exists 0. reflexivity.
    + intros k Hk. destruct (decide (booted_cpu_count e > 1)); [|done].
      rewrite !fn_lookup_insert_ne by done. by apply H3.
  - rewrite (bind_ret _ _ _ _ _ (lift_run m (mk_kstate (core t1) 0 _) a s' Hm)).
    eexists. split; [reflexivity|]. split; [done|]. split; simpl; [done| |].
    + by destruct (decide (booted_cpu_count e > 1)).
    + by destruct (decide (booted_cpu_count e > 1)).
Qed.

Lemma exit_section l t t1 :
  flag_ok t -> lock_free l t -> in_section l t t1 ->
  exists t2, EXIT_CRITICAL e (int_flag t) l t1 = Ret (tt, t2) /\ core t2 = core t1 /\ same_locks t t2.
Proof.
  intros Hfl Hf [H1 H2 H3]. eexists. split; [done|]. split; [done|]. split; simpl.
  - unfold kernel_interrupt_restore. rewrite H1. destruct Hfl as [-> | ->]; done.
  - intros k. destruct (decide (booted_cpu_count e > 1)) as [Hb|Hb].
    + destruct H2 as [v Hv]. rewrite Hv. destruct (decide (l = k)) as [<-|].
      * rewrite fn_lookup_insert. by rewrite Hf.
      * rewrite fn_lookup_insert_ne by done. by apply H3.
    + destruct (decide (k = l)) as [->|]; [done|by apply H3].
Qed.
End Nested.

Lemma critical_lift {S A} (e : cpu_env) l (m : M S A) (t : kstate S) a s' :
  flag_ok t -> lock_free l t -> m (core t) = Ret (a, s') ->
  exists t', critical e l (lift m) t = Ret (a, t') /\ core t' = s' /\ same_locks t t'.
Proof. intros Hf Hl Hm. apply critical_run; [done..|]. by apply lift_run. Qed.

Lemma same_locks_flag {S} (t t' : kstate S) : same_locks t t' -> flag_ok t -> flag_ok t'.
Proof. intros [H _]. unfold flag_ok. by rewrite H. Qed.
Lemma same_locks_free {S} (t t' : kstate S) k : same_locks t t' -> lock_free k t -> lock_free k t'.
Proof. intros [_ H]. unfold lock_free. by rewrite H. Qed.
Lemma same_locks_trans {S} (t1 t2 t3 : kstate S) :
  same_locks t1 t2 -> same_locks t2 t3 -> same_locks t1 t3.
Proof. intros [? H] [? H']. split; [congruence|]. intros k. by rewrite H', H. Qed.
