(* ===== verification/SpinlockProtocol.v ===== *)
(** * The spinlock protocol, one access at a time

    [ENTER_CRITICAL] and [EXIT_CRITICAL] as the accesses to the three fields
    of the lock that they perform, interleaved between any number of CPUs. *)
From stdpp Require Import functions relations.
From S2P Require Import Prelude Critical.

(** Where a CPU is; [d] counts the sections around the current one. *)
Inductive place : Type :=
  | Outside
  | ReadTid (d : nat)    (* reads [current_tid] *)
  | Spin (d : nat)       (* in [__pause_spinlock] *)
  | SetTid (d : nat)     (* writes [current_tid] *)
  | IncNest (d : nat)    (* [nesting++] *)
  | Inside (d : nat)     (* in [d] nested sections *)
  | DecNest (d : nat)    (* [nesting--] *)
  | CheckNest (d : nat)  (* resets [current_tid] at nesting 0 *)
  | Release (d : nat).   (* [value = 0] *)

Record proto : Type := mk_proto {
  lock : spinlock;
  at_ : Z -> place;
}.

Definition go (c : Z) (p : place) (l : spinlock) (s : proto) : proto :=
  mk_proto l (<[c := p]> (at_ s)).

(** Inside a section a CPU either opens a nested one or leaves. *)
Inductive choice : Type := Nest | Go.

(** The next access of CPU [c]; [None]: it cannot move. *)
Definition access (nested : bool) (ch : choice) (c : Z) (s : proto) : option proto :=
  let l := lock s in
  match at_ s c with
  | Outside => Some (go c (ReadTid 0) l s)
  | ReadTid d =>
      Some (go c (if decide (current_tid l <> c) then Spin d else SetTid d) l s)
  | Spin d =>
      if Z.testbit (value l) 0 then None
      else Some (go c (SetTid d) (mk_spinlock (Z.lor (value l) 1) (current_tid l) (nesting l)) s)
  | SetTid d => Some (go c (IncNest d) (mk_spinlock (value l) c (nesting l)) s)
  | IncNest d =>
      Some (go c (Inside (S d)) (mk_spinlock (value l) (current_tid l) (u32 (nesting l + 1))) s)
  | Inside d =>
      match ch, nested, d with
      | Nest, true, _ => Some (go c (ReadTid d) l s)
      | Go, _, S d => Some (go c (DecNest d) l s)
      | _, _, _ => None
      end
  | DecNest d =>
      Some (go c (CheckNest d) (mk_spinlock (value l) (current_tid l) (u32 (nesting l - 1))) s)
  | CheckNest d =>
      Some (go c (Release d)
        (mk_spinlock (value l) (if decide (nesting l = 0) then -1 else current_tid l) (nesting l)) s)
  | Release d =>
      Some (go c (match d with O => Outside | _ => Inside d end)
        (mk_spinlock 0 (current_tid l) (nesting l)) s)
  end.

Inductive access_step (nested : bool) : proto -> proto -> Prop :=
  | do_access ch c s s' : 0 <= c -> access nested ch c s = Some s' -> access_step nested s s'.

Definition unlocked : proto := mk_proto SPINLOCK_INIT_VALUE (fun _ => Outside).

Fixpoint accesses (nested : bool) (cs : list (choice * Z)) (s : proto) : option proto :=
  match cs with
  | [] => Some s
  | (ch, c) :: cs =>
      match access nested ch c s with Some s' => accesses nested cs s' | None => None end
  end.

Lemma accesses_steps nested cs : forall s s',
  Forall (fun c => 0 <= c.2) cs -> accesses nested cs s = Some s' -> rtc (access_step nested) s s'.
Proof.
  induction cs as [|[ch c] cs IH]; intros s s' Hcs; simpl; [intros [=->]; constructor|].
  apply Forall_cons in Hcs as [Hc Hcs]. destruct (access nested ch c s) as [s1|] eqn:E; [|done].
  intros H. eapply rtc_l; [by econstructor|]. by apply IH.
Qed.

(** ** Invariant without nesting *)
Definition owns (p : place) : Prop :=
  match p with Outside | ReadTid _ | Spin _ => False | _ => True end.
Definition named (p : place) : Prop :=
  match p with IncNest _ | Inside _ | DecNest _ | CheckNest _ => True | _ => False end.
Definition shallow (p : place) : Prop :=
  match p with
  | Outside => True
  | Inside d => d = 1%nat
  | ReadTid d | Spin d | SetTid d | IncNest d | DecNest d | CheckNest d | Release d => d = 0%nat
  end.
Definition depth_at (p : place) : Z := match p with Inside _ | DecNest _ => 1 | _ => 0 end.

Record lock_inv (s : proto) : Prop := {
  inv_one c1 c2 : owns (at_ s c1) -> owns (at_ s c2) -> c1 = c2;
  inv_value c : owns (at_ s c) -> value (lock s) = 1;
  inv_tid c : 0 <= c -> current_tid (lock s) = c -> named (at_ s c);
  inv_shallow c : shallow (at_ s c);
  inv_nest c : owns (at_ s c) -> nesting (lock s) = depth_at (at_ s c);
  inv_free : (forall c, ~ owns (at_ s c)) -> nesting (lock s) = 0;
  inv_bit : value (lock s) = 0 \/ value (lock s) = 1;
}.

Lemma named_owns p : named p -> owns p.
Proof. by destruct p. Qed.

Lemma lock_inv_unlocked : lock_inv unlocked.
Proof.
  split; simpl; try done.
  - intros c Hc E. lia.
  - by left.
Qed.

(** The place of one CPU moves, the others stay. *)
Lemma at_go c p l s c' : at_ (go c p l s) c' = if decide (c' = c) then p else at_ s c'.
Proof.
  simpl. case_decide; [subst; by rewrite fn_lookup_insert|by rewrite fn_lookup_insert_ne].
Qed.

(** A move of an owner that stays one. *)
Lemma owner_moves s c p l :
  lock_inv s -> owns (at_ s c) -> owns p -> shallow p -> value l = value (lock s) ->
  nesting l = depth_at p ->
  (forall c', 0 <= c' -> current_tid l = c' -> if decide (c' = c) then named p else named (at_ s c')) ->
  lock_inv (go c p l s).
Proof.
  intros [H1 H2 H3 H4 H5 H6 H7] Ho Hp Hs Hv Hn Ht. split.
  - intros c1 c2. rewrite !at_go. repeat case_decide; subst; eauto.
  - intros c'. rewrite at_go. simpl. rewrite Hv. case_decide; eauto.
  - intros c' Hc' E. specialize (Ht c' Hc' E). rewrite at_go. by case_decide.
  - intros c'. rewrite at_go. by case_decide.
  - intros c'. rewrite at_go. case_decide; [by intros|].
    intros Hc'. exfalso. by eapply H, H1.
  - intros Hf. specialize (Hf c). rewrite at_go, decide_True in Hf by done. done.
  - simpl. by rewrite Hv.
Qed.

(** A move of a CPU that neither owns the lock nor gets it. *)
Lemma outsider_moves s c p :
  lock_inv s -> ~ owns (at_ s c) -> ~ owns p -> shallow p -> lock_inv (go c p (lock s) s).
Proof.
  intros [H1 H2 H3 H4 H5 H6 H7] Ho Hp Hs. split.
  - intros c1 c2. rewrite !at_go. repeat case_decide; subst; eauto; tauto.
  - intros c'. rewrite at_go. case_decide; [tauto|eauto].
  - intros c' Hc' E. rewrite at_go. specialize (H3 c' Hc' E).
    destruct (decide (c' = c)) as [Ec|]; [|done].
    exfalso. apply Ho. rewrite <- Ec. by apply named_owns.
  - intros c'. rewrite at_go. by case_decide.
  - intros c'. rewrite at_go. case_decide; [tauto|eauto].
  - intros Hf. apply H6. intros c'. specialize (Hf c'). rewrite at_go in Hf.
    case_decide; subst; tauto.
  - done.
Qed.

Lemma lock_inv_step s s' : lock_inv s -> access_step false s s' -> lock_inv s'.
Proof.
  intros HI Hs. revert HI. destruct Hs as [ch c s0 s1 Hc Hstep]. intros HI.
  unfold access in Hstep.
  pose proof HI as [H1 H2 H3 H4 H5 H6 H7].
  pose proof (H4 c) as Hsh. pose proof (H5 c) as Hn. pose proof (H2 c) as Hv.
  assert (forall c', 0 <= c' -> current_tid (lock s0) = c' -> c' <> c -> owns (at_ s0 c) -> False) as Hother.
  { intros c' Hc' E Hne Ho. apply Hne, H1; [|exact Ho]. by apply named_owns, H3. }
  destruct (at_ s0 c) as [|d|d|d|d|d|d|d|d] eqn:E; cbn [shallow owns named depth_at] in *.
  - injection Hstep as <-. apply outsider_moves; rewrite ?E; try done; simpl; tauto.
  - case_decide as Ht; injection Hstep as <-.
    + apply outsider_moves; rewrite ?E; try done; simpl; tauto.
    + specialize (H3 c Hc Ht). by rewrite E in H3.
  - destruct (Z.testbit (value (lock s0)) 0) eqn:Eb; [done|]. injection Hstep as <-.
    assert (value (lock s0) = 0) as Hv0 by (destruct H7 as [->|E1]; [done|by rewrite E1 in Eb]).
    assert (forall c', ~ owns (at_ s0 c')) as Hnone.
    { intros c' Hc'. pose proof (H2 c' Hc'). lia. }
    split.
    + intros c1 c2. rewrite !at_go. repeat case_decide; subst; try done; intros ? ?; exfalso; by eapply Hnone.
    + intros c' _. simpl. by rewrite Hv0.
    + intros c' Hc' Et. simpl in Et. exfalso. apply (Hnone c'). by apply named_owns, H3.
    + intros c'. rewrite at_go. by case_decide.
    + intros c'. rewrite at_go. simpl. rewrite H6 by done.
      case_decide; [done|]. intros Hc'. by destruct (Hnone c').
    + intros Hf. by apply H6.
    + simpl. rewrite Hv0. by right.
  - injection Hstep as <-. apply owner_moves; rewrite ?E; try done; simpl; [by apply Hn|].
    intros c' Hc' <-. by rewrite decide_True.
  - injection Hstep as <-. rewrite Hn by done. apply owner_moves; rewrite ?E; try done; [simpl; by rewrite Hsh|].
    intros c' Hc' Et. simpl in Et. case_decide; [done|]. exfalso. by eapply Hother.
  - destruct ch; [by destruct d|]. rewrite Hsh in Hstep. injection Hstep as <-.
    apply owner_moves; rewrite ?E; try done; simpl; [by apply Hn|].
    intros c' Hc' Et. case_decide; [done|]. exfalso. by eapply Hother.
  - injection Hstep as <-. rewrite Hn by done. apply owner_moves; rewrite ?E; try done.
    intros c' Hc' Et. simpl in Et. case_decide; [done|]. exfalso. by eapply Hother.
  - injection Hstep as <-. rewrite Hn by done. apply owner_moves; rewrite ?E; try done.
    intros c' Hc' Et. simpl in Et. lia.
  - injection Hstep as <-. rewrite Hsh.
    assert (forall c', c' <> c -> ~ owns (at_ s0 c')) as Hnone.
    { intros c' Hne Hc'. apply Hne, H1; [done|by rewrite E]. }
    split.
    + intros c1 c2. rewrite !at_go. repeat case_decide; subst; try done; intros ? ?; exfalso; by eapply Hnone.
    + intros c'. rewrite at_go. case_decide; [done|]. intros Hc'. by destruct (Hnone c').
    + intros c' Hc' Et. simpl in Et. rewrite at_go. specialize (H3 c' Hc' Et).
      case_decide; [|done]. subst. by rewrite E in H3.
    + intros c'. rewrite at_go. by case_decide.
    + intros c'. rewrite at_go. case_decide; [done|]. intros Hc'. by destruct (Hnone c').
    + intros _. simpl. by apply Hn.
    + simpl. by left.
Qed.

Lemma lock_inv_reachable s : rtc (access_step false) unlocked s -> lock_inv s.
Proof.
  intros H. remember unlocked as s0 eqn:E. assert (lock_inv s0) as HI by (subst; apply lock_inv_unlocked).
  clear E. induction H as [|s1 s2 s3 Hs _ IH]; [done|]. apply IH. by apply (lock_inv_step s1).
Qed.

(** ** Properties *)

(** C12: as long as no CPU opens a critical section inside another one on the
    same lock, at most one CPU is inside, whatever the interleaving of their
    accesses. *)
Theorem spinlock_mutual_exclusion s c1 c2 d1 d2 :
  rtc (access_step false) unlocked s -> at_ s c1 = Inside d1 -> at_ s c2 = Inside d2 -> c1 = c2.
Proof.
  intros H%lock_inv_reachable E1 E2. apply (inv_one _ H); [by rewrite E1|by rewrite E2].
Qed.

Definition enter_alone : list (choice * Z) := replicate 5 (Go, 0).

Lemma spinlock_mutual_exclusion_witness :
  exists s, rtc (access_step false) unlocked s /\ at_ s 0 = Inside 1 /\
    forall c, at_ s c = Inside 1 -> 0 = c.
Proof.
  destruct (accesses false enter_alone unlocked) as [s|] eqn:E; [|vm_compute in E; discriminate E].
  assert (rtc (access_step false) unlocked s) as Hr.
  { apply (accesses_steps false enter_alone); [|exact E].
    repeat constructor; vm_compute; congruence. }
  assert (at_ s 0 = Inside 1) as H0 by (vm_compute in E; injection E as <-; reflexivity).
  exists s. split; [exact Hr|]. split; [exact H0|].
  intros c Hc. exact (spinlock_mutual_exclusion s 0 c 1 1 Hr H0 Hc).
Defined.

(** CPU 0 enters twice and leaves the inner section, then CPU 1 enters. *)
Definition nested_run : list (choice * Z) :=
  replicate 5 (Go, 0) ++ [(Nest, 0)] ++ replicate 3 (Go, 0) ++ replicate 4 (Go, 0) ++
  replicate 5 (Go, 1).

(** nesting breaks the exclusion although the lock counts it: leaving the
    inner section clears the lock word, and another CPU enters while the first
    one is still inside. *)
Theorem nested_exit_breaks_exclusion :
  exists s, rtc (access_step true) unlocked s /\ at_ s 0 = Inside 1 /\ at_ s 1 = Inside 1.
Proof.
  destruct (accesses true nested_run unlocked) as [s|] eqn:E; [|vm_compute in E; discriminate E].
  exists s. split.
  - apply (accesses_steps true nested_run); [|exact E]. repeat constructor; vm_compute; congruence.
  - vm_compute in E. injection E as <-. by split.
Qed.
