(* ===== verification/Interrupts.v ===== *)
(** * Interrupt and exception management

    The handler table with its registration functions
    ([interrupt/interrupts.c], [interrupt/exceptions.c]), the interrupt
    controller seen through its driver structure, and the dispatch of an
    interrupt to its handler. *)
From stdpp Require Import functions.
From S2P Require Import Prelude Critical.

Definition MIN_INTERRUPT_LINE : Z := 32.
Definition MAX_INTERRUPT_LINE : Z := 255.
Definition INT_ENTRY_COUNT : Z := 256.
Definition MIN_EXCEPTION_LINE : Z := 0.
Definition MAX_EXCEPTION_LINE : Z := 31.
Definition DIV_BY_ZERO_LINE : Z := 0.
Definition SCHEDULER_SW_INT_LINE : Z := 33.
Definition PANIC_INT_LINE : Z := 42.

(** [struct custom_handler]; a handler is the address of its code. *)
Record custom_handler : Type := mk_handler {
  enabled : Z;
  handler : Z;
}.

#[export] Instance custom_handler_eq_dec : EqDecision custom_handler.
Proof. solve_decision. Defined.

(** [kernel_interrupt_handlers]. *)
Definition handlers : Type := Z -> custom_handler.

Inductive INTERRUPT_TYPE_E : Type :=
  | INTERRUPT_TYPE_SPURIOUS
  | INTERRUPT_TYPE_REGULAR.

#[export] Instance INTERRUPT_TYPE_E_eq_dec : EqDecision INTERRUPT_TYPE_E.
Proof. solve_decision. Defined.

(** ** The handler table *)
Section Table.
Context (e : cpu_env).

Definition kernel_interrupt_register_int_handler (interrupt_line h : Z) :
  M (kstate handlers) OS_RETURN_E :=
  if decide (interrupt_line < MIN_INTERRUPT_LINE \/ interrupt_line > MAX_INTERRUPT_LINE)
  then ret OR_ERR_UNAUTHORIZED_INTERRUPT_LINE
  else if decide (h = NULL) then ret OS_ERR_NULL_POINTER
  else
    critical e InterruptLock (lift (
      let* t := gets (fun t : handlers => t) in
      if decide (handler (t interrupt_line) <> NULL)
      then ret OS_ERR_INTERRUPT_ALREADY_REGISTERED
      else
        modify (fun t : handlers => <[interrupt_line := mk_handler (enabled (t interrupt_line)) h]> t) >>>
        modify (fun t : handlers => <[interrupt_line := mk_handler 1 (handler (t interrupt_line))]> t) >>>
        ret OS_NO_ERR)).

Definition kernel_interrupt_remove_int_handler (interrupt_line : Z) :
  M (kstate handlers) OS_RETURN_E :=
  if decide (interrupt_line < MIN_INTERRUPT_LINE \/ interrupt_line > MAX_INTERRUPT_LINE)
  then ret OR_ERR_UNAUTHORIZED_INTERRUPT_LINE
  else
    critical e InterruptLock (lift (
      let* t := gets (fun t : handlers => t) in
      if decide (handler (t interrupt_line) = NULL)
      then ret OS_ERR_INTERRUPT_NOT_REGISTERED
      else
        modify (fun t : handlers => <[interrupt_line := mk_handler (enabled (t interrupt_line)) NULL]> t) >>>
        modify (fun t : handlers => <[interrupt_line := mk_handler 0 (handler (t interrupt_line))]> t) >>>
        ret OS_NO_ERR)).

(** *** Exceptions: the same table under another lock

    [exception_line] is a [uint32_t], cast to [int32_t] in the first test. *)
Definition kernel_exception_register_handler (exception_line h : Z) :
  M (kstate handlers) OS_RETURN_E :=
  if decide (i32 exception_line < MIN_EXCEPTION_LINE \/ exception_line > MAX_EXCEPTION_LINE)
  then ret OR_ERR_UNAUTHORIZED_INTERRUPT_LINE
  else if decide (h = NULL) then ret OS_ERR_NULL_POINTER
  else
    critical e ExceptionLock (lift (
      let* t := gets (fun t : handlers => t) in
      if decide (handler (t exception_line) <> NULL)
      then ret OS_ERR_INTERRUPT_ALREADY_REGISTERED
      else
        modify (fun t : handlers => <[exception_line := mk_handler (enabled (t exception_line)) h]> t) >>>
        modify (fun t : handlers => <[exception_line := mk_handler 1 (handler (t exception_line))]> t) >>>
        ret OS_NO_ERR)).

Definition kernel_exception_remove_handler (exception_line : Z) :
  M (kstate handlers) OS_RETURN_E :=
  if decide (i32 exception_line < MIN_EXCEPTION_LINE \/ exception_line > MAX_EXCEPTION_LINE)
  then ret OR_ERR_UNAUTHORIZED_INTERRUPT_LINE
  else
    critical e ExceptionLock (lift (
      let* t := gets (fun t : handlers => t) in
      if decide (handler (t exception_line) = NULL)
      then ret OS_ERR_INTERRUPT_NOT_REGISTERED
      else
        modify (fun t : handlers => <[exception_line := mk_handler (enabled (t exception_line)) NULL]> t) >>>
        modify (fun t : handlers => <[exception_line := mk_handler 0 (handler (t exception_line))]> t) >>>
        ret OS_NO_ERR)).

(** [div_by_zero_handler] is the address of the handler below. *)
Definition kernel_exception_init (div_by_zero_handler : Z) : M (kstate handlers) OS_RETURN_E :=
  let* err := kernel_exception_register_handler DIV_BY_ZERO_LINE div_by_zero_handler in
  if decide (err <> OS_NO_ERR) then ret err else ret OS_NO_ERR.
End Table.

(** ** The interrupt controller and the dispatch *)

(** [struct interrupt_driver] for a controller with state [D]; a null
    function pointer is [None]. *)
Record interrupt_driver (D : Type) : Type := mk_driver {
  driver_set_irq_mask : option (Z -> Z -> D -> OS_RETURN_E * D);
  driver_set_irq_eoi : option (Z -> D -> OS_RETURN_E * D);
  driver_handle_spurious : option (Z -> D -> INTERRUPT_TYPE_E * D);
  driver_get_irq_int_line : option (Z -> Z);
}.
Arguments mk_driver {D}.
Arguments driver_set_irq_mask {D}.
Arguments driver_set_irq_eoi {D}.
Arguments driver_handle_spurious {D}.
Arguments driver_get_irq_int_line {D}.

(** What [kernel_interrupt_handler] does with an interrupt. *)
Inductive dispatch : Type :=
  | Blocked              (* returns at once *)
  | Spurious             (* counted, then returns *)
  | RunPanic             (* calls [panic], which never returns *)
  | RunHandler (h : Z).  (* calls the registered handler *)

Section Driver.
Context {D : Type} (e : cpu_env).

Record int_state : Type := mk_int_state {
  kernel_interrupt_handlers : handlers;
  driver : interrupt_driver D;
  spurious_interrupt : Z;
  controller : D;
}.

Definition with_handlers (t : handlers) (s : int_state) : int_state :=
  mk_int_state t (driver s) (spurious_interrupt s) (controller s).
Definition with_driver (d : interrupt_driver D) (s : int_state) : int_state :=
  mk_int_state (kernel_interrupt_handlers s) d (spurious_interrupt s) (controller s).
Definition with_spurious (n : Z) (s : int_state) : int_state :=
  mk_int_state (kernel_interrupt_handlers s) (driver s) n (controller s).
Definition with_controller (c : D) (s : int_state) : int_state :=
  mk_int_state (kernel_interrupt_handlers s) (driver s) (spurious_interrupt s) c.

(** A call through a function pointer of the driver. *)
Definition call_driver {R} (f : option (D -> R * D)) : M int_state R := fun s =>
  match f with
  | Some f => let '(r, c) := f (controller s) in Ret (r, with_controller c s)
  | None => Fault
  end.

Definition init_driver_set_irq_mask (irq_number enabled : Z) (c : D) : OS_RETURN_E * D :=
  (OS_NO_ERR, c).
Definition init_driver_set_irq_eoi (irq_number : Z) (c : D) : OS_RETURN_E * D := (OS_NO_ERR, c).
Definition init_driver_handle_spurious (int_number : Z) (c : D) : INTERRUPT_TYPE_E * D :=
  (INTERRUPT_TYPE_REGULAR, c).
Definition init_driver_get_irq_int_line (irq_number : Z) : Z := 0.

Definition spurious_handler : M int_state unit :=
  modify (fun s => with_spurious (u32 (spurious_interrupt s + 1)) s).

(** [saved_flag] is the IF bit of the interrupted code's EFLAGS. *)
Definition kernel_interrupt_handler (saved_flag int_id : Z) : M int_state dispatch :=
  if decide (saved_flag = 0 /\ int_id <> PANIC_INT_LINE /\
             int_id <> SCHEDULER_SW_INT_LINE /\ int_id >= MIN_INTERRUPT_LINE)
  then ret Blocked
  else if decide (int_id = PANIC_INT_LINE) then ret RunPanic
  else
    let* d := gets driver in
    let* ty := call_driver (option_map (fun f => f int_id) (driver_handle_spurious d)) in
    if decide (ty = INTERRUPT_TYPE_SPURIOUS) then spurious_handler >>> ret Spurious
    else
      let* t := gets kernel_interrupt_handlers in
      if decide (int_id < INT_ENTRY_COUNT /\ enabled (t int_id) = 1 /\ handler (t int_id) <> NULL)
      then ret (RunHandler (handler (t int_id)))
      else ret RunPanic.

(** [panic] is the address of the panic handler. *)
Definition kernel_interrupt_init (panic : Z) : M (kstate int_state) OS_RETURN_E :=
  lift (modify (with_handlers (fun _ => mk_handler 0 NULL))) >>>
  lift (modify (fun s => with_handlers
    (<[PANIC_INT_LINE := mk_handler 1 (handler (kernel_interrupt_handlers s PANIC_INT_LINE))]>
       (kernel_interrupt_handlers s)) s)) >>>
  lift (modify (fun s => with_handlers
    (<[PANIC_INT_LINE := mk_handler (enabled (kernel_interrupt_handlers s PANIC_INT_LINE)) panic]>
       (kernel_interrupt_handlers s)) s)) >>>
  modify (fun t => mk_kstate (core t) (kernel_interrupt_disable (int_flag t)).2 (locks t)) >>>
  lift (modify (with_spurious 0)) >>>
  lift (modify (with_driver (mk_driver (Some init_driver_set_irq_mask)
    (Some init_driver_set_irq_eoi) (Some init_driver_handle_spurious)
    (Some init_driver_get_irq_int_line)))) >>>
  ret OS_NO_ERR.

(** [None] is the null pointer. *)
Definition kernel_interrupt_set_driver (d : option (interrupt_driver D)) :
  M (kstate int_state) OS_RETURN_E :=
  match d with
  | None => ret OS_ERR_NULL_POINTER
  | Some d =>
      match driver_set_irq_eoi d, driver_set_irq_mask d, driver_handle_spurious d,
            driver_get_irq_int_line d with
      | Some _, Some _, Some _, Some _ =>
          critical e InterruptLock (lift (modify (with_driver d))) >>> ret OS_NO_ERR
      | _, _, _, _ => ret OS_ERR_NULL_POINTER
      end
  end.

Definition on_handlers {A} (m : M (kstate handlers) A) : M (kstate int_state) A :=
  kzoom kernel_interrupt_handlers with_handlers m.

(** The line is an [int32_t]; a negative one means no such IRQ. *)
Definition irq_int_line (irq_number : Z) : M (kstate int_state) Z := fun t =>
  match driver_get_irq_int_line (driver (core t)) with
  | Some f => Ret (f irq_number, t)
  | None => Fault
  end.

Definition kernel_interrupt_register_irq_handler (irq_number h : Z) :
  M (kstate int_state) OS_RETURN_E :=
  let* int_line := irq_int_line irq_number in
  if decide (int_line < 0) then ret OS_ERR_NO_SUCH_IRQ_LINE
  else on_handlers (kernel_interrupt_register_int_handler e int_line h).

Definition kernel_interrupt_remove_irq_handler (irq_number : Z) :
  M (kstate int_state) OS_RETURN_E :=
  let* int_line := irq_int_line irq_number in
  if decide (int_line < 0) then ret OS_ERR_NO_SUCH_IRQ_LINE
  else on_handlers (kernel_interrupt_remove_int_handler e int_line).

Definition kernel_interrupt_set_irq_mask (irq_number enabled : Z) : M int_state OS_RETURN_E :=
  let* d := gets driver in
  call_driver (option_map (fun f => f irq_number enabled) (driver_set_irq_mask d)).

Definition kernel_interrupt_set_irq_eoi (irq_number : Z) : M int_state OS_RETURN_E :=
  let* d := gets driver in
  call_driver (option_map (fun f => f irq_number) (driver_set_irq_eoi d)).
End Driver.
Arguments int_state : clear implicits.
