(* ===== verification/InterruptTheorems.v ===== *)
(** * The properties of the interrupt and exception manager

    The handler table refines a partial map from lines to handlers, and the
    dispatch of an interrupt follows that map. *)
From stdpp Require Import functions.
From S2P Require Import Prelude Critical Interrupts.

(** ** The abstract registry *)
Definition registry : Type := Z -> option Z.

Definition entry (h : option Z) : custom_handler :=
  match h with Some h => mk_handler 1 h | None => mk_handler 0 NULL end.

Lemma handlers_insert (t : handlers) l c : (<[l := c]> t) l = c.
Proof. apply fn_lookup_insert. Qed.
Lemma handlers_insert_ne (t : handlers) l l' c : l <> l' -> (<[l := c]> t) l' = t l'.
Proof. intros. by apply fn_lookup_insert_ne. Qed.
Lemma registry_insert (r : registry) l c : (<[l := c]> r) l = c.
Proof. apply fn_lookup_insert. Qed.
Lemma registry_insert_ne (r : registry) l l' c : l <> l' -> (<[l := c]> r) l' = r l'.
Proof. intros. by apply fn_lookup_insert_ne. Qed.

Record represents (t : handlers) (r : registry) : Prop := {
  rep_entry : forall l, t l = entry (r l);
  rep_not_null : forall l, r l <> Some NULL;
}.

(** What a registration and a removal promise, for lines between [lo] and
    [hi]. *)
Definition abs_register (lo hi l h : Z) (r : registry) : OS_RETURN_E * registry :=
  if decide (l < lo \/ l > hi) then (OR_ERR_UNAUTHORIZED_INTERRUPT_LINE, r)
  else if decide (h = NULL) then (OS_ERR_NULL_POINTER, r)
  else if r l is Some _ then (OS_ERR_INTERRUPT_ALREADY_REGISTERED, r)
  else (OS_NO_ERR, <[l := Some h]> r).

Definition abs_remove (lo hi l : Z) (r : registry) : OS_RETURN_E * registry :=
  if decide (l < lo \/ l > hi) then (OR_ERR_UNAUTHORIZED_INTERRUPT_LINE, r)
  else if r l is Some _ then (OS_NO_ERR, <[l := None]> r)
  else (OS_ERR_INTERRUPT_NOT_REGISTERED, r).

Lemma entry_handler t r l :
  represents t r -> handler (t l) = NULL <-> r l = None.
Proof.
  intros [He Hn]. rewrite He. specialize (Hn l). destruct (r l); simpl; [|done].
  split; [by intros ->|done].
Qed.

Lemma represents_insert t r l h :
  represents t r -> h <> Some NULL -> represents (<[l := entry h]> t) (<[l := h]> r).
Proof.
  intros [He Hn] Hh. split; intros k; destruct (decide (l = k)) as [<-|].
  - by rewrite handlers_insert, registry_insert.
  - by rewrite handlers_insert_ne, registry_insert_ne.
  - by rewrite registry_insert.
  - by rewrite registry_insert_ne.
Qed.

(** Two writes to the same entry, as the code does them. *)
Lemma represents_write t r l (h : option Z) c1 c2 :
  represents t r -> h <> Some NULL -> c2 = entry h ->
  represents (<[l := c2]> (<[l := c1]> t)) (<[l := h]> r).
Proof.
  intros Hr Hh ->. destruct (represents_insert t r l h Hr Hh) as [He Hn]. split; [|done].
  intros k. rewrite <- He. destruct (decide (l = k)) as [<-|].
  - by rewrite !handlers_insert.
  - by rewrite !handlers_insert_ne.
Qed.

(** An operation on the table agrees with its abstract counterpart. *)
Definition agrees (m : M (kstate handlers) OS_RETURN_E) (f : registry -> OS_RETURN_E * registry)
  (l : lock_id) : Prop :=
  forall k r, flag_ok k -> lock_free l k -> represents (core k) r ->
    exists k', m k = Ret ((f r).1, k') /\ represents (core k') (f r).2 /\ same_locks k k'.

Lemma critical_agrees e l (m : M handlers OS_RETURN_E) f :
  (forall t r, represents t r -> exists t', m t = Ret ((f r).1, t') /\ represents t' (f r).2) ->
  agrees (critical e l (lift m)) f l.
Proof.
  intros H k r Hf Hl Hr. destruct (H _ _ Hr) as (t' & Hrun & Hr').
  destruct (critical_lift e l m k _ _ Hf Hl Hrun) as (k' & Hk & <- & Hs). eauto.
Qed.

Lemma ret_agrees a f l :
  (forall r, f r = (a, r)) -> agrees (ret a) f l.
Proof.
  intros H k r _ _ Hr. exists k. rewrite H. split_and!; [done|done|split; done].
Qed.

Section Registration.
Context (e : cpu_env).

Lemma register_section t r l h :
  represents t r -> h <> NULL ->
  exists t', (let* t := gets (fun t : handlers => t) in
      if decide (handler (t l) <> NULL) then ret OS_ERR_INTERRUPT_ALREADY_REGISTERED
      else
        modify (fun t : handlers => <[l := mk_handler (enabled (t l)) h]> t) >>>
        modify (fun t : handlers => <[l := mk_handler 1 (handler (t l))]> t) >>>
        ret OS_NO_ERR) t =
    Ret (if r l is Some _ then OS_ERR_INTERRUPT_ALREADY_REGISTERED else OS_NO_ERR, t') /\
    represents t' (if r l is Some _ then r else <[l := Some h]> r).
Proof.
  intros Hr Hh. rewrite exec_gets. pose proof (entry_handler t r l Hr) as He.
  destruct (r l) as [h'|].
  - exists t. rewrite decide_True; [done|]. rewrite He. discriminate.
  - rewrite decide_False by tauto. eexists. split; [done|].
    apply represents_write; [done|congruence|]. by rewrite handlers_insert.
Qed.

Lemma remove_section t r l :
  represents t r ->
  exists t', (let* t := gets (fun t : handlers => t) in
      if decide (handler (t l) = NULL) then ret OS_ERR_INTERRUPT_NOT_REGISTERED
      else
        modify (fun t : handlers => <[l := mk_handler (enabled (t l)) NULL]> t) >>>
        modify (fun t : handlers => <[l := mk_handler 0 (handler (t l))]> t) >>>
        ret OS_NO_ERR) t =
    Ret (if r l is Some _ then OS_NO_ERR else OS_ERR_INTERRUPT_NOT_REGISTERED, t') /\
    represents t' (if r l is Some _ then <[l := None]> r else r).
Proof.
  intros Hr. rewrite exec_gets. pose proof (entry_handler t r l Hr) as He.
  destruct (r l) as [h'|].
  - rewrite decide_False by (rewrite He; discriminate). eexists. split; [done|].
    apply represents_write; [done|done|]. by rewrite handlers_insert.
  - exists t. rewrite decide_True by tauto. done.
Qed.

Lemma register_agrees lk lo hi l h (P : Prop) `{Decision P} :
  (P <-> l < lo \/ l > hi) ->
  agrees (if decide P then ret OR_ERR_UNAUTHORIZED_INTERRUPT_LINE
    else if decide (h = NULL) then ret OS_ERR_NULL_POINTER
    else critical e lk (lift (let* t := gets (fun t : handlers => t) in
      if decide (handler (t l) <> NULL) then ret OS_ERR_INTERRUPT_ALREADY_REGISTERED
      else
        modify (fun t : handlers => <[l := mk_handler (enabled (t l)) h]> t) >>>
        modify (fun t : handlers => <[l := mk_handler 1 (handler (t l))]> t) >>>
        ret OS_NO_ERR))) (abs_register lo hi l h) lk.
Proof.
  intros HP. unfold abs_register. destruct (decide P).
  { apply ret_agrees. intros r. by rewrite decide_True by tauto. }
  destruct (decide (h = NULL)).
  { apply ret_agrees. intros r. by rewrite decide_False by tauto. }
  apply critical_agrees. intros t r Hr. rewrite decide_False by tauto.
  destruct (register_section t r l h Hr ltac:(done)) as (t' & Hrun & Hr').
  exists t'. rewrite Hrun. by destruct (r l).
Qed.

Lemma remove_agrees lk lo hi l (P : Prop) `{Decision P} :
  (P <-> l < lo \/ l > hi) ->
  agrees (if decide P then ret OR_ERR_UNAUTHORIZED_INTERRUPT_LINE
    else critical e lk (lift (let* t := gets (fun t : handlers => t) in
      if decide (handler (t l) = NULL) then ret OS_ERR_INTERRUPT_NOT_REGISTERED
      else
        modify (fun t : handlers => <[l := mk_handler (enabled (t l)) NULL]> t) >>>
        modify (fun t : handlers => <[l := mk_handler 0 (handler (t l))]> t) >>>
        ret OS_NO_ERR))) (abs_remove lo hi l) lk.
Proof.
  intros HP. unfold abs_remove. destruct (decide P).
  { apply ret_agrees. intros r. by rewrite decide_True by tauto. }
  apply critical_agrees. intros t r Hr. rewrite decide_False by tauto.
  destruct (remove_section t r l Hr) as (t' & Hrun & Hr').
  exists t'. rewrite Hrun. by destruct (r l).
Qed.

(** The guard of the exceptions casts the unsigned line to [int32_t]. *)
Lemma exception_guard l :
  0 <= l < 2 ^ 32 ->
  i32 l < MIN_EXCEPTION_LINE \/ l > MAX_EXCEPTION_LINE <->
  l < MIN_EXCEPTION_LINE \/ l > MAX_EXCEPTION_LINE.
Proof.
  intros Hl. unfold i32, MIN_EXCEPTION_LINE, MAX_EXCEPTION_LINE.
  destruct (decide (l < 2 ^ 31)).
  - rewrite Z.mod_small by lia. lia.
  - split; intros; right; lia.
Qed.

(** ** Sequences of operations *)
Inductive table_op : Type :=
  | RegisterInt (l h : Z)
  | RemoveInt (l : Z)
  | RegisterException (l h : Z)
  | RemoveException (l : Z).

Definition op_run (o : table_op) : M (kstate handlers) OS_RETURN_E :=
  match o with
  | RegisterInt l h => kernel_interrupt_register_int_handler e l h
  | RemoveInt l => kernel_interrupt_remove_int_handler e l
  | RegisterException l h => kernel_exception_register_handler e l h
  | RemoveException l => kernel_exception_remove_handler e l
  end.

Definition op_abs (o : table_op) : registry -> OS_RETURN_E * registry :=
  match o with
  | RegisterInt l h => abs_register MIN_INTERRUPT_LINE MAX_INTERRUPT_LINE l h
  | RemoveInt l => abs_remove MIN_INTERRUPT_LINE MAX_INTERRUPT_LINE l
  | RegisterException l h => abs_register MIN_EXCEPTION_LINE MAX_EXCEPTION_LINE l h
  | RemoveException l => abs_remove MIN_EXCEPTION_LINE MAX_EXCEPTION_LINE l
  end.

Definition op_lock (o : table_op) : lock_id :=
  match o with
  | RegisterInt _ _ | RemoveInt _ => InterruptLock
  | _ => ExceptionLock
  end.

(** A line given to the exception functions is a [uint32_t]. *)
Definition op_typed (o : table_op) : Prop :=
  match o with
  | RegisterException l _ | RemoveException l => 0 <= l < 2 ^ 32
  | _ => True
  end.

Lemma op_agrees o : op_typed o -> agrees (op_run o) (op_abs o) (op_lock o).
Proof.
  intros Ho. destruct o; simpl in Ho.
  - by apply register_agrees.
  - by apply remove_agrees.
  - apply register_agrees. by apply exception_guard.
  - apply remove_agrees. by apply exception_guard.
Qed.

Fixpoint ops_run (l : list table_op) : M (kstate handlers) (list OS_RETURN_E) :=
  match l with
  | [] => ret []
  | o :: l => let* r := op_run o in let* rs := ops_run l in ret (r :: rs)
  end.

Fixpoint ops_abs (l : list table_op) (r : registry) : list OS_RETURN_E * registry :=
  match l with
  | [] => ([], r)
  | o :: l => let '(x, r) := op_abs o r in let '(xs, r) := ops_abs l r in (x :: xs, r)
  end.
End Registration.

(** C18: the handler table implements a partial map from lines to handlers.
    Any sequence of registrations and removals of interrupt and exception
    handlers returns what the map returns (a line is never overwritten, an
    absent handler never removed, interrupts only between 32 and 255 and
    exceptions only between 0 and 31), keeps [enabled] in step with the
    handler on every line, and leaves the locks and the interrupt flag as it
    found them. *)
Theorem registration_refines e ops k r :
  flag_ok k -> lock_free InterruptLock k -> lock_free ExceptionLock k ->
  represents (core k) r -> Forall op_typed ops ->
  exists k', ops_run e ops k = Ret ((ops_abs ops r).1, k') /\
    represents (core k') (ops_abs ops r).2 /\ same_locks k k'.
Proof.
  intros Hf Hi Hx Hr Ho. revert k r Hf Hi Hx Hr.
  induction Ho as [|o ops Hty Ho IH]; intros k r Hf Hi Hx Hr.
  { exists k. split_and!; [done|done|split; done]. }
  assert (lock_free (op_lock o) k) as Hl by (by destruct o).
  destruct (op_agrees e o Hty k r Hf Hl Hr) as (k1 & Hrun & Hr1 & [Hf1 Hs1]). simpl.
  rewrite (bind_ret _ _ _ _ _ Hrun). destruct (op_abs o r) as [x r1].
  destruct (IH k1 r1) as (k' & Hrun' & Hr' & [Hf' Hs']).
  - unfold flag_ok. by rewrite Hf1.
  - unfold lock_free. by rewrite Hs1.
  - unfold lock_free. by rewrite Hs1.
  - done.
  - exists k'. rewrite (bind_ret _ _ _ _ _ Hrun'). destruct (ops_abs ops r1) as [xs r2].
    split_and!; [done|done|split; [congruence|]]. intros l. by rewrite Hs', Hs1.
Qed.

(** an interrupt handler that is registered and removed leaves the table as it was;
    in between, the line is taken. *)
Theorem register_remove_roundtrip e k r l h :
  flag_ok k -> lock_free InterruptLock k -> represents (core k) r ->
  MIN_INTERRUPT_LINE <= l <= MAX_INTERRUPT_LINE -> h <> NULL -> r l = None ->
  exists k', (let* e1 := kernel_interrupt_register_int_handler e l h in
              let* e2 := kernel_interrupt_register_int_handler e l h in
              let* e3 := kernel_interrupt_remove_int_handler e l in
              let* e4 := kernel_interrupt_remove_int_handler e l in
              ret [e1; e2; e3; e4]) k =
      Ret ([OS_NO_ERR; OS_ERR_INTERRUPT_ALREADY_REGISTERED; OS_NO_ERR;
            OS_ERR_INTERRUPT_NOT_REGISTERED], k') /\
    (forall l', core k' l' = core k l') /\ same_locks k k'.
Proof.
  intros Hf Hl Hr Hrange Hh Hn.
  assert (forall o k r, op_lock o = InterruptLock -> op_typed o -> flag_ok k ->
    lock_free InterruptLock k -> represents (core k) r ->
    exists k', op_run e o k = Ret ((op_abs o r).1, k') /\ represents (core k') (op_abs o r).2 /\
      same_locks k k' /\ flag_ok k' /\ lock_free InterruptLock k') as Hstep.
  { intros o k0 r0 Ho Ht Hf0 Hl0 Hr0.
    destruct (op_agrees e o Ht k0 r0 Hf0 ltac:(by rewrite Ho) Hr0) as (k' & H1 & H2 & H3).
    exists k'. split_and!; [done..| |]; destruct H3 as [H3 H4].
    - unfold flag_ok. by rewrite H3.
    - unfold lock_free. by rewrite H4. }
  set (r1 := <[l := Some h]> r). set (r2 := <[l := None]> r1).
  assert (op_abs (RegisterInt l h) r = (OS_NO_ERR, r1)) as O1.
  { simpl. unfold abs_register. by rewrite !decide_False, Hn by (lia || done). }
  assert (op_abs (RegisterInt l h) r1 = (OS_ERR_INTERRUPT_ALREADY_REGISTERED, r1)) as O2.
  { simpl. unfold abs_register, r1. by rewrite !decide_False, registry_insert by (lia || done). }
  assert (op_abs (RemoveInt l) r1 = (OS_NO_ERR, r2)) as O3.
  { simpl. unfold abs_remove, r2, r1. by rewrite !decide_False, registry_insert by (lia || done). }
  assert (op_abs (RemoveInt l) r2 = (OS_ERR_INTERRUPT_NOT_REGISTERED, r2)) as O4.
  { simpl. unfold abs_remove, r2. by rewrite !decide_False, registry_insert by (lia || done). }
  destruct (Hstep (RegisterInt l h) k r eq_refl I Hf Hl Hr) as (k1 & E1 & R1 & S1 & F1 & L1).
  rewrite O1 in E1, R1. simpl fst in E1. simpl snd in R1.
  destruct (Hstep (RegisterInt l h) k1 _ eq_refl I F1 L1 R1) as (k2 & E2 & R2 & S2 & F2 & L2).
  rewrite O2 in E2, R2. simpl fst in E2. simpl snd in R2.
  destruct (Hstep (RemoveInt l) k2 _ eq_refl I F2 L2 R2) as (k3 & E3 & R3 & S3 & F3 & L3).
  rewrite O3 in E3, R3. simpl fst in E3. simpl snd in R3.
  destruct (Hstep (RemoveInt l) k3 _ eq_refl I F3 L3 R3) as (k4 & E4 & R4 & S4 & _ & _).
  rewrite O4 in E4, R4. simpl in *.
  exists k4. rewrite (bind_ret _ _ _ _ _ E1), (bind_ret _ _ _ _ _ E2), (bind_ret _ _ _ _ _ E3),
    (bind_ret _ _ _ _ _ E4). split; [done|]. split.
  - intros l'. rewrite (rep_entry _ _ R4), (rep_entry _ _ Hr).
    unfold r2, r1. destruct (decide (l = l')) as [<-|Hne]; [by rewrite registry_insert, Hn|].
    by rewrite !registry_insert_ne.
  - destruct S1 as [A1 B1], S2 as [A2 B2], S3 as [A3 B3], S4 as [A4 B4].
    split; [congruence|]. intros q. by rewrite B4, B3, B2, B1.
Qed.

(** What an interrupt leads to, given the class the controller puts it in. *)
Definition dispatch_of (r : registry) (saved_flag id : Z) (ty : INTERRUPT_TYPE_E) : dispatch :=
  if decide (id = PANIC_INT_LINE) then RunPanic
  else if decide (saved_flag = 0 /\ id <> SCHEDULER_SW_INT_LINE /\ MIN_INTERRUPT_LINE <= id)
  then Blocked
  else match ty with
       | INTERRUPT_TYPE_SPURIOUS => Spurious
       | INTERRUPT_TYPE_REGULAR => if r id is Some h then RunHandler h else RunPanic
       end.

(** C39: the dispatch of an interrupt.  The panic line always panics; code
    that runs with interrupts masked is only interrupted by the exceptions
    and the scheduler's line; a spurious interrupt is counted and dropped;
    any other one runs the handler registered for its line, and panics when
    there is none.  Registering is thus enough to be called, and the table,
    the driver and the counters are left alone otherwise. *)
Theorem interrupt_dispatch {D} (s : int_state D) r saved_flag id f :
  represents (kernel_interrupt_handlers s) r -> 0 <= id < INT_ENTRY_COUNT ->
  driver_handle_spurious (driver s) = Some f ->
  let '(ty, c) := f id (controller s) in
  let d := dispatch_of r saved_flag id ty in
  exists s', kernel_interrupt_handler saved_flag id s = Ret (d, s') /\
    kernel_interrupt_handlers s' = kernel_interrupt_handlers s /\ driver s' = driver s /\
    spurious_interrupt s' = match d with Spurious => u32 (spurious_interrupt s + 1)
                                       | _ => spurious_interrupt s end.
Proof.
  intros Hr Hid Hf. destruct (f id (controller s)) as [ty c] eqn:Ef.
  unfold kernel_interrupt_handler, dispatch_of, PANIC_INT_LINE, SCHEDULER_SW_INT_LINE,
    MIN_INTERRUPT_LINE.
  destruct (decide (id = 42)) as [->|Hp].
  { exists s. rewrite decide_False by lia. done. }
  destruct (decide (saved_flag = 0 /\ id <> 33 /\ 32 <= id)) as [Hb|Hb].
  { exists s. rewrite decide_True by lia. done. }
  rewrite decide_False by lia. rewrite exec_gets, Hf.
  unfold call_driver. unfold bind at 1. simpl option_map. cbv iota. rewrite Ef.
  destruct ty; simpl.
  - exists (with_spurious (u32 (spurious_interrupt s + 1)) (with_controller c s)). done.
  - exists (with_controller c s). rewrite exec_gets. simpl.
    pose proof (rep_entry _ _ Hr id) as He. pose proof (entry_handler _ _ id Hr) as Hh.
    rewrite He in Hh. rewrite He. destruct (r id) as [h|]; simpl in *.
    + rewrite decide_True; [done|]. split_and!; [lia|done|]. rewrite Hh. discriminate.
    + rewrite decide_False; [done|]. intros (_ & _ & H). done.
Qed.

(** *** Witnesses *)
Definition empty_table : kstate handlers :=
  mk_kstate (fun _ => mk_handler 0 NULL) 1 (fun _ => SPINLOCK_INIT_VALUE).

Lemma empty_represents : represents (core empty_table) (fun _ => None).
Proof. by split. Qed.

Definition two_cpus : cpu_env := mk_cpu 0 2.

Lemma registration_refines_witness :
  result_of (ops_run two_cpus [RegisterInt 40 9000; RegisterInt 40 9100; RegisterException 40 9200;
      RegisterException 3 0; RemoveException 3; RemoveInt 40] empty_table) =
    Some [OS_NO_ERR; OS_ERR_INTERRUPT_ALREADY_REGISTERED; OR_ERR_UNAUTHORIZED_INTERRUPT_LINE;
      OS_ERR_NULL_POINTER; OS_ERR_INTERRUPT_NOT_REGISTERED; OS_NO_ERR].
Proof.
  destruct (registration_refines two_cpus [RegisterInt 40 9000; RegisterInt 40 9100;
      RegisterException 40 9200; RegisterException 3 0; RemoveException 3; RemoveInt 40]
    empty_table (fun _ => None)) as (k' & -> & _);
    [right; reflexivity|reflexivity|reflexivity|exact empty_represents| |reflexivity].
  repeat constructor; simpl; lia.
Defined.

Lemma register_remove_roundtrip_witness :
  result_of ((let* e1 := kernel_interrupt_register_int_handler two_cpus 32 9000 in
              let* e2 := kernel_interrupt_register_int_handler two_cpus 32 9000 in
              let* e3 := kernel_interrupt_remove_int_handler two_cpus 32 in
              let* e4 := kernel_interrupt_remove_int_handler two_cpus 32 in
              ret [e1; e2; e3; e4]) empty_table) =
    Some [OS_NO_ERR; OS_ERR_INTERRUPT_ALREADY_REGISTERED; OS_NO_ERR;
          OS_ERR_INTERRUPT_NOT_REGISTERED].
Proof.
  destruct (register_remove_roundtrip two_cpus empty_table (fun _ => None) 32 9000)
    as (k' & -> & _); [right; reflexivity|reflexivity|exact empty_represents| | | |reflexivity].
  - unfold MIN_INTERRUPT_LINE, MAX_INTERRUPT_LINE. lia.
  - discriminate.
  - reflexivity.
Defined.

(** A controller that takes line 39 for spurious; a handler on line 36. *)
Definition demo_int : int_state unit :=
  mk_int_state (fun l => if decide (l = 36) then mk_handler 1 9000 else mk_handler 0 NULL)
    (mk_driver None None
      (Some (fun id c => (if decide (id = 39) then INTERRUPT_TYPE_SPURIOUS
                          else INTERRUPT_TYPE_REGULAR, c))) None) 4 tt.

Definition demo_registry : registry := fun l => if decide (l = 36) then Some 9000 else None.

Lemma demo_int_represents : represents (kernel_interrupt_handlers demo_int) demo_registry.
Proof.
  split; intros l; unfold demo_int, demo_registry; simpl; destruct (decide (l = 36));
    [reflexivity|reflexivity|discriminate|discriminate].
Qed.

Lemma interrupt_dispatch_witness :
  result_of (kernel_interrupt_handler 1 36 demo_int) = Some (RunHandler 9000).
Proof.
  destruct (interrupt_dispatch demo_int demo_registry 1 36 _ demo_int_represents
    ltac:(unfold INT_ENTRY_COUNT; lia) eq_refl) as (s' & -> & _). reflexivity.
Defined.
