(* ===== verification/Time.v ===== *)
(** * Time management ([time/time_management.c])

    The three timers behind their driver structures, the tick counters and
    the tick handler that calls the scheduler. *)
From stdpp Require Import functions.
From S2P Require Import Prelude Critical.

Definition KERNEL_MAIN_TIMER_FREQ : Z := 200.
Definition KERNEL_AUX_TIMER_FREQ : Z := 20.
Definition KERNEL_RTC_TIMER_FREQ : Z := 16.

(** [struct kernel_timer] for timer hardware with state [D]; a null function
    pointer is [None], a handler is the address of its code. *)
Record kernel_timer (D : Type) : Type := mk_timer {
  get_frequency : option (D -> Z);
  set_frequency : option (Z -> D -> OS_RETURN_E * D);
  enable : option (D -> OS_RETURN_E * D);
  disable : option (D -> OS_RETURN_E * D);
  set_handler : option (Z -> D -> OS_RETURN_E * D);
  remove_handler : option (D -> OS_RETURN_E * D);
  get_irq : option (D -> Z);
}.
Arguments mk_timer {D}.
Arguments get_frequency {D}.
Arguments set_frequency {D}.
Arguments enable {D}.
Arguments disable {D}.
Arguments set_handler {D}.
Arguments remove_handler {D}.
Arguments get_irq {D}.

Definition is_set {A} (f : option A) : bool := bool_decide (is_Some f).

Section Time.
Context {D : Type} (e : cpu_env).

Definition null_timer : kernel_timer D := mk_timer None None None None None None None.

Record time_state : Type := mk_time {
  sys_tick_count : Z -> Z;
  sys_main_timer : kernel_timer D;
  sys_rtc_timer : kernel_timer D;
  sys_aux_timer : kernel_timer D;
  active_wait : Z;
  schedule_routine : Z;
  timers_hw : D;
}.

Definition with_ticks (v : Z -> Z) (s : time_state) : time_state :=
  mk_time v (sys_main_timer s) (sys_rtc_timer s) (sys_aux_timer s) (active_wait s)
          (schedule_routine s) (timers_hw s).
Definition with_main (v : kernel_timer D) (s : time_state) : time_state :=
  mk_time (sys_tick_count s) v (sys_rtc_timer s) (sys_aux_timer s) (active_wait s)
          (schedule_routine s) (timers_hw s).
Definition with_rtc (v : kernel_timer D) (s : time_state) : time_state :=
  mk_time (sys_tick_count s) (sys_main_timer s) v (sys_aux_timer s) (active_wait s)
          (schedule_routine s) (timers_hw s).
Definition with_aux (v : kernel_timer D) (s : time_state) : time_state :=
  mk_time (sys_tick_count s) (sys_main_timer s) (sys_rtc_timer s) v (active_wait s)
          (schedule_routine s) (timers_hw s).
Definition with_wait (v : Z) (s : time_state) : time_state :=
  mk_time (sys_tick_count s) (sys_main_timer s) (sys_rtc_timer s) (sys_aux_timer s) v
          (schedule_routine s) (timers_hw s).
Definition with_routine (v : Z) (s : time_state) : time_state :=
  mk_time (sys_tick_count s) (sys_main_timer s) (sys_rtc_timer s) (sys_aux_timer s)
          (active_wait s) v (timers_hw s).
Definition with_hw (v : D) (s : time_state) : time_state :=
  mk_time (sys_tick_count s) (sys_main_timer s) (sys_rtc_timer s) (sys_aux_timer s)
          (active_wait s) (schedule_routine s) v.

(** Calls through the timers' function pointers. *)
Definition call_timer {R} (f : option (D -> R * D)) : M time_state R := fun s =>
  match f with
  | Some f => let '(r, d) := f (timers_hw s) in Ret (r, with_hw d s)
  | None => Fault
  end.
Definition read_timer {R} (f : option (D -> R)) : M time_state R := fun s =>
  match f with Some f => Ret (f (timers_hw s), s) | None => Fault end.

(** [cpu_get_id()], with -1 replaced by 0. *)
Definition this_cpu : Z := if decide (cpu_get_id e = -1) then 0 else cpu_get_id e.

(** *** Initialisation *)

(** The integrity check of the main and RTC timers: every pointer is set. *)
Definition timer_complete (t : kernel_timer D) : bool :=
  is_set (get_frequency t) && is_set (set_frequency t) && is_set (enable t) &&
  is_set (disable t) && is_set (set_handler t) && is_set (remove_handler t) &&
  is_set (get_irq t).

(** The check of the auxiliary timer is a disjunction in the source. *)
Definition aux_timer_accepted (t : kernel_timer D) : bool :=
  is_set (get_frequency t) || is_set (set_frequency t) || is_set (enable t) ||
  is_set (disable t) || is_set (set_handler t) || is_set (remove_handler t) ||
  is_set (get_irq t).

(** A call that makes [time_init] return its error code when it fails. *)
Definition or_return (call : M time_state OS_RETURN_E) (k : M time_state OS_RETURN_E) :
  M time_state OS_RETURN_E :=
  let* err := call in
  if decide (err <> OS_NO_ERR) then ret err else k.

Definition setup_timer (get : time_state -> kernel_timer D) (freq handler : Z)
  (k : M time_state OS_RETURN_E) : M time_state OS_RETURN_E :=
  let* t := gets get in
  or_return (call_timer (option_map (fun f => f freq) (set_frequency t)))
  (let* t := gets get in
   or_return (call_timer (option_map (fun f => f handler) (set_handler t))) k).

Definition setup_optional (get : time_state -> kernel_timer D) (freq handler : Z)
  (k : M time_state OS_RETURN_E) : M time_state OS_RETURN_E :=
  let* t := gets get in
  if is_set (set_frequency t) then setup_timer get freq handler k else k.

Definition enable_timer (get : time_state -> kernel_timer D)
  (k : M time_state OS_RETURN_E) : M time_state OS_RETURN_E :=
  let* t := gets get in or_return (call_timer (enable t)) k.

Definition enable_optional (get : time_state -> kernel_timer D)
  (k : M time_state OS_RETURN_E) : M time_state OS_RETURN_E :=
  let* t := gets get in
  if is_set (set_frequency t) then enable_timer get k else k.

(** The last three arguments are the addresses of the tick handlers. *)
Definition time_init (main_timer rtc_timer aux_timer : option (kernel_timer D))
  (main_handler rtc_handler aux_handler : Z) : M time_state OS_RETURN_E :=
  match main_timer with
  | None => ret OS_ERR_NULL_POINTER
  | Some main =>
      if negb (timer_complete main) then ret OS_ERR_NULL_POINTER
      else
        modify (with_main main) >>>
        let* rtc_ok :=
          match rtc_timer with
          | None => ret true
          | Some rtc => if timer_complete rtc then modify (with_rtc rtc) >>> ret true
                        else ret false
          end in
        if negb rtc_ok then ret OS_ERR_NULL_POINTER
        else
          let* aux_ok :=
            match aux_timer with
            | None => ret true
            | Some aux => if aux_timer_accepted aux then modify (with_aux aux) >>> ret true
                          else ret false
            end in
          if negb aux_ok then ret OS_ERR_NULL_POINTER
          else
            modify (with_ticks (fun _ => 0)) >>>
            setup_timer sys_main_timer KERNEL_MAIN_TIMER_FREQ main_handler
            (setup_optional sys_rtc_timer KERNEL_RTC_TIMER_FREQ rtc_handler
            (setup_optional sys_aux_timer KERNEL_AUX_TIMER_FREQ aux_handler
            (enable_timer sys_main_timer
            (enable_optional sys_rtc_timer
            (enable_optional sys_aux_timer
            (ret OS_NO_ERR))))))
  end.

(** *** Reading the time *)

(** [1000 / frequency] milliseconds per tick; a zero frequency traps. *)
Definition time_slice (freq : Z) : M time_state Z :=
  if decide (freq = 0) then fault else ret (1000 / freq).

Definition time_get_current_uptime : M time_state Z :=
  let* t := gets sys_main_timer in
  if is_set (get_frequency t) then
    let* freq := read_timer (get_frequency t) in
    let* slice := time_slice freq in
    let* ticks := gets sys_tick_count in
    ret (u64 (slice * ticks this_cpu))
  else ret 0.

Definition time_get_tick_count : M time_state Z :=
  let* ticks := gets sys_tick_count in ret (ticks this_cpu).

Definition time_register_scheduler (scheduler_call : Z) : M time_state OS_RETURN_E :=
  if decide (scheduler_call = NULL) then ret OS_ERR_NULL_POINTER
  else modify (with_routine scheduler_call) >>> ret OS_NO_ERR.

(** The part of the tick handler that runs before the scheduler exists:
    count down the active wait. *)
Definition active_wait_tick : M time_state unit :=
  let* w := gets active_wait in
  if decide (w > 0) then
    let* t := gets sys_main_timer in
    let* freq := read_timer (get_frequency t) in
    let* slice := time_slice freq in
    if decide (w >= slice) then modify (with_wait (u32 (w - slice)))
    else modify (with_wait 0)
  else ret tt.

Definition count_tick : M time_state unit :=
  modify (fun s => with_ticks
    (<[this_cpu := u64 (sys_tick_count s this_cpu + 1)]> (sys_tick_count s)) s).

(** [time_wait_no_sched]: [active_wait] is set, then polled; between two polls
    the tick handler runs [n] times in all ([None]: still waiting). *)
Fixpoint wait_poll (n : nat) : M time_state (option nat) :=
  let* w := gets active_wait in
  if decide (w > 0) then
    match n with
    | O => ret None
    | S n => count_tick >>> active_wait_tick >>> wait_poll n
    end
  else ret (Some n).

Definition time_wait_no_sched (ms : Z) (n : nat) : M time_state (option nat) :=
  let* r := gets schedule_routine in
  if decide (r <> NULL) then ret (Some n)
  else modify (with_wait ms) >>> wait_poll n.
End Time.
Arguments time_state : clear implicits.

(** ** The interrupt handlers

    They run in the state of the whole kernel: [on_time] finds the time
    manager in it, [eoi] acknowledges an IRQ and [call] runs the routine at
    an address. *)
Section Handlers.
Context {S D : Type} (e : cpu_env) (on_time : forall A, M (time_state D) A -> M S A)
  (eoi : Z -> M S OS_RETURN_E) (call : Z -> M S unit) (rtc_update_time : M S unit).

Definition end_of_interrupt (get : time_state D -> kernel_timer D) : M S unit :=
  let* irq := on_time _ (let* t := gets get in read_timer (get_irq t)) in
  eoi irq >>> ret tt.

Definition time_main_timer_handler : M S unit :=
  on_time _ (count_tick e) >>>
  let* routine := on_time _ (gets schedule_routine) in
  (if decide (routine <> NULL) then call routine else on_time _ active_wait_tick) >>>
  end_of_interrupt sys_main_timer.

Definition time_rtc_timer_handler : M S unit :=
  rtc_update_time >>> end_of_interrupt sys_rtc_timer.

Definition time_aux_timer_handler : M S unit := end_of_interrupt sys_aux_timer.
End Handlers.
