(* ===== verification/TimeTheorems.v ===== *)
(** * The properties of the time manager

    The tick handler, the active wait and its termination, the
    initialisation of the timers as one sequence of calls. *)
From stdpp Require Import functions.
From S2P Require Import Prelude Critical Time.

(** [1000 / frequency], and the ticks a wait of [ms] takes. *)
Definition slice_of (freq : Z) : Z := 1000 / freq.
Definition wait_ticks (ms slice : Z) : nat := Z.to_nat ((ms + slice - 1) / slice).

Lemma wait_ticks_0 slice : 0 < slice -> wait_ticks 0 slice = 0%nat.
Proof. intros. unfold wait_ticks. by rewrite Z.div_small by lia. Qed.

Lemma wait_ticks_step w slice :
  0 < slice -> 0 < w ->
  wait_ticks w slice = S (wait_ticks (if decide (w >= slice) then w - slice else 0) slice).
Proof.
  intros Hs Hw. destruct (decide (w >= slice)) as [H|H].
  - unfold wait_ticks. replace (w + slice - 1) with (w - slice + slice - 1 + 1 * slice) by lia.
    rewrite Z.div_add by lia. rewrite Z2Nat.inj_add; [|apply Z.div_pos; lia|lia].
    change (Z.to_nat 1) with 1%nat. lia.
  - rewrite wait_ticks_0 by done. unfold wait_ticks.
    replace (w + slice - 1) with (w - 1 + 1 * slice) by lia.
    rewrite Z.div_add by lia. by rewrite Z.div_small by lia.
Qed.

Lemma wait_ticks_le w slice n :
  0 < slice -> 0 <= w -> (wait_ticks w slice <= n)%nat <-> w <= slice * Z.of_nat n.
Proof.
  intros Hs Hw. unfold wait_ticks.
  assert (0 <= (w + slice - 1) / slice) by (apply Z.div_pos; lia).
  pose proof (Z.mul_div_le (w + slice - 1) slice ltac:(lia)).
  pose proof (Z.mul_succ_div_gt (w + slice - 1) slice ltac:(lia)). nia.
Qed.

Section Proofs.
Context {D : Type} (e : cpu_env).
Implicit Types (s : time_state D) (f : D -> Z).

(** The main timer answers with the frequency [freq]. *)
Definition ticking s (freq : Z) : Prop :=
  exists f, get_frequency (sys_main_timer s) = Some f /\ f (timers_hw s) = freq.

Lemma slice_run freq s : freq <> 0 -> @time_slice D freq s = Ret (slice_of freq, s).
Proof. intros H. unfold time_slice. by rewrite decide_False. Qed.

Lemma active_wait_tick_run s freq :
  ticking s freq -> freq <> 0 -> 0 <= slice_of freq -> 0 <= active_wait s < 2 ^ 32 ->
  active_wait_tick s = Ret (tt,
    if decide (active_wait s > 0) then
      with_wait (if decide (active_wait s >= slice_of freq) then active_wait s - slice_of freq
                 else 0) s
    else s).
Proof.
  intros (f & Hf & Hq) H0 Hsl Hw. unfold active_wait_tick. rewrite exec_gets.
  destruct (decide (active_wait s > 0)) as [Hp|]; [|done].
  rewrite exec_gets. unfold bind, read_timer. rewrite Hf, Hq, slice_run by done.
  destruct (decide (active_wait s >= slice_of freq)); [|done].
  unfold modify. by rewrite u32_small by lia.
Qed.

Lemma wait_poll_run n s freq :
  ticking s freq -> 0 < freq -> 0 <= active_wait s < 2 ^ 32 ->
  exists s', wait_poll e n s = Ret (
    if decide (active_wait s = 0) then Some n
    else if decide (slice_of freq = 0) then None
    else if decide (wait_ticks (active_wait s) (slice_of freq) <= n)%nat
    then Some (n - wait_ticks (active_wait s) (slice_of freq))%nat else None, s').
Proof.
  intros Ht Hfreq. assert (0 <= slice_of freq) as Hsl by (apply Z.div_pos; lia).
  revert s Ht. induction n as [|n IH]; intros s Ht Hw.
  - simpl. rewrite exec_gets. destruct (decide (active_wait s = 0)) as [->|Hne].
    + by exists s.
    + exists s. rewrite decide_True by lia. case_decide; [done|].
      rewrite decide_False; [done|]. rewrite wait_ticks_le by lia. lia.
  - simpl. rewrite exec_gets. destruct (decide (active_wait s = 0)) as [->|Hne]; [by exists s|].
    rewrite decide_True by lia. unfold count_tick. rewrite exec_modify.
    set (s1 := with_ticks _ s). assert (ticking s1 freq) as Ht1 by done.
    change (active_wait s) with (active_wait s1) in *.
    rewrite (bind_ret _ _ _ _ _ (active_wait_tick_run s1 freq Ht1 ltac:(lia) Hsl Hw)).
    rewrite decide_True by lia.
    set (w := if decide (active_wait s1 >= slice_of freq) then _ else _).
    assert (0 <= w < 2 ^ 32) as Hw1
      by (subst w; destruct (decide (active_wait s1 >= slice_of freq)); lia).
    destruct (IH (with_wait w s1) Ht1 Hw1) as (s' & Hs'). exists s'. rewrite Hs'.
    change (active_wait (with_wait w s1)) with w. f_equal. f_equal.
    destruct (decide (slice_of freq = 0)) as [E|Hn].
    { assert (w = active_wait s1) as ->
        by (subst w; destruct (decide (active_wait s1 >= slice_of freq)); lia).
      by rewrite decide_False. }
    rewrite (wait_ticks_step (active_wait s1) (slice_of freq)) by lia. fold w.
    destruct (decide (w = 0)) as [->|].
    + rewrite wait_ticks_0 by lia. rewrite decide_True by lia. f_equal. lia.
    + destruct (decide (wait_ticks w _ <= n)%nat), (decide (S (wait_ticks w _) <= S n)%nat);
        try lia; done.
Qed.
End Proofs.

(** C40: the active wait used before the scheduler exists ends after
    exactly the number of ticks that covers the time asked for, rounded up,
    when the main timer runs at 1000 Hz or less; a faster timer has a tick of
    zero milliseconds and the wait never ends, whatever the number of ticks.
    A tick counts the whole milliseconds of its period: with a frequency that
    does not divide 1000 more time passes than was asked for.
    Once a scheduler is registered there is no wait at all. *)
Theorem time_wait_terminates {D} (e : cpu_env) (s : time_state D) freq ms n :
  ticking s freq -> 0 < freq -> 0 <= ms < 2 ^ 32 ->
  result_of (time_wait_no_sched e ms n s) = Some (
    if decide (schedule_routine s <> NULL \/ ms = 0) then Some n
    else if decide (freq > 1000) then None
    else if decide (ms <= slice_of freq * Z.of_nat n)
    then Some (n - wait_ticks ms (slice_of freq))%nat else None).
Proof.
  intros Ht Hf Hms. unfold time_wait_no_sched. rewrite exec_gets.
  destruct (decide (schedule_routine s <> NULL)) as [Hr|Hr].
  { by rewrite decide_True by tauto. }
  rewrite exec_modify. destruct (wait_poll_run e n (with_wait ms s) freq Ht Hf Hms) as (s' & ->).
  simpl. destruct (decide (ms = 0)) as [->|Hne]; [by rewrite decide_True by tauto|].
  rewrite (decide_False (P := _ \/ _)) by tauto. f_equal.
  assert (slice_of freq = 0 <-> freq > 1000) as Hz.
  { unfold slice_of. split; intros H.
    - destruct (decide (freq > 1000)); [done|]. assert (1 <= 1000 / freq); [|lia].
      apply Z.div_le_lower_bound; lia.
    - apply Z.div_small. lia. }
  destruct (decide (slice_of freq = 0)) as [E|E]; [by rewrite (decide_True (P := freq > 1000)) by tauto|].
  assert (0 <= slice_of freq) by (apply Z.div_pos; lia).
  rewrite (decide_False (P := freq > 1000)) by tauto. apply decide_ext. apply wait_ticks_le; lia.
Qed.

(** ** The tick handler

    The calls it makes to the scheduler and to the interrupt controller, in
    the order it makes them. *)
Inductive tick_call : Type :=
  | Scheduled (routine : Z)
  | Acknowledged (irq : Z).

Definition on_time {D} (A : Type) (m : M (time_state D) A) : M (time_state D * list tick_call) A :=
  zoom fst (fun t s => (t, s.2)) m.
Definition log_eoi {D} (irq : Z) : M (time_state D * list tick_call) OS_RETURN_E :=
  modify (fun s => (s.1, s.2 ++ [Acknowledged irq])) >>> ret OS_NO_ERR.
Definition log_call {D} (r : Z) : M (time_state D * list tick_call) unit :=
  modify (fun s => (s.1, s.2 ++ [Scheduled r])).

(** The state after one more tick on this CPU. *)
Definition ticked {D} (e : cpu_env) (s : time_state D) : time_state D :=
  with_ticks (<[this_cpu e := u64 (sys_tick_count s (this_cpu e) + 1)]> (sys_tick_count s)) s.

(** a tick of the main timer counts on the CPU that takes it and on no
    other, then either calls the scheduler or counts down the active wait,
    and acknowledges the interrupt last: the scheduler runs before the
    end-of-interrupt. *)
Theorem main_timer_tick {D} (e : cpu_env) (s : time_state D) freq irq log :
  ticking s freq -> 0 < freq -> 0 <= active_wait s < 2 ^ 32 ->
  option_map (fun f => f (timers_hw s)) (get_irq (sys_main_timer s)) = Some irq ->
  time_main_timer_handler e on_time log_eoi log_call (s, log) = Ret (tt,
    if decide (schedule_routine s <> NULL)
    then (ticked e s, log ++ [Scheduled (schedule_routine s); Acknowledged irq])
    else (with_wait (Z.max 0 (active_wait s - slice_of freq)) (ticked e s),
          log ++ [Acknowledged irq])).
Proof.
  intros Ht Hf Hw Hi. assert (0 <= slice_of freq) by (apply Z.div_pos; lia).
  destruct (get_irq (sys_main_timer s)) as [g|] eqn:Eg; [|done]. injection Hi as <-.
  assert (forall s', sys_main_timer s' = sys_main_timer s -> timers_hw s' = timers_hw s ->
    forall log, end_of_interrupt on_time log_eoi sys_main_timer (s', log) =
      Ret (tt, (s', log ++ [Acknowledged (g (timers_hw s))]))) as Heoi.
  { intros s' Hm Hh log'. unfold end_of_interrupt, on_time, zoom, bind, gets, read_timer. simpl.
    by rewrite Hm, Eg, Hh. }
  unfold time_main_timer_handler.
  rewrite (bind_ret (on_time _ (count_tick e)) _ (s, log) tt (ticked e s, log)) by done.
  rewrite (bind_ret (on_time _ (gets schedule_routine)) _ (ticked e s, log) (schedule_routine s)
    (ticked e s, log)) by done.
  destruct (decide (schedule_routine s <> NULL)) as [Hr|Hr].
  - rewrite (bind_ret _ _ _ tt (ticked e s, log ++ [Scheduled (schedule_routine s)])) by done.
    rewrite Heoi by done. by rewrite <- app_assoc.
  - set (s2 := with_wait (Z.max 0 (active_wait s - slice_of freq)) (ticked e s)).
    rewrite (bind_ret _ _ _ tt (s2, log)); [by rewrite Heoi|].
    unfold on_time, zoom. simpl.
    rewrite (active_wait_tick_run (ticked e s) freq Ht ltac:(lia)) by done.
    change (active_wait (ticked e s)) with (active_wait s). f_equal. f_equal. f_equal.
    unfold s2. destruct (decide (active_wait s > 0)).
    + f_equal. case_decide; lia.
    + assert (active_wait s = 0) as E by lia. rewrite E, Z.max_l by lia.
      unfold with_wait, ticked, with_ticks. simpl. by rewrite <- E.
Qed.

(** the uptime is the whole milliseconds of a tick times the ticks of this
    CPU: it loses the remainder of 1000 divided by the frequency at each tick
    (nothing at the 200 Hz of the kernel), and stays at zero above 1000 Hz.
    It wraps at 64 bits. *)
Theorem uptime_lags {D} (e : cpu_env) (s : time_state D) freq :
  ticking s freq -> 0 < freq ->
  let ticks := sys_tick_count s (this_cpu e) in
  exists u, time_get_current_uptime e s = Ret (u64 u, s) /\
    u * freq + ticks * (1000 mod freq) = 1000 * ticks /\ (freq > 1000 -> u = 0).
Proof.
  intros (f & Hf & Hq) H0 ticks. exists (slice_of freq * ticks). split_and!.
  - unfold time_get_current_uptime. rewrite exec_gets. rewrite Hf.
    change (is_set (Some f)) with true. cbv iota. unfold bind at 1, read_timer. rewrite Hq.
    by rewrite (bind_ret _ _ _ _ _ (slice_run freq s ltac:(lia))).
  - unfold slice_of. pose proof (Z.div_mod 1000 freq ltac:(lia)). nia.
  - intros H. unfold slice_of. by rewrite Z.div_small by lia.
Qed.

(** ** The initialisation as a sequence of calls *)
Section Init.
Context {D : Type}.
Implicit Types (s : time_state D) (t : kernel_timer D) (k : M (time_state D) OS_RETURN_E).

Definition hw_call : Type := D -> OS_RETURN_E * D.

(** Runs the calls up to the first that fails, whose error it returns. *)
Fixpoint try_all (l : list hw_call) (d : D) : OS_RETURN_E * D :=
  match l with
  | [] => (OS_NO_ERR, d)
  | f :: l => let '(r, d) := f d in if decide (r <> OS_NO_ERR) then (r, d) else try_all l d
  end.

Definition setup_calls (t : kernel_timer D) (freq handler : Z) : list hw_call :=
  match set_frequency t, set_handler t with
  | Some f, Some g => [f freq; g handler]
  | _, _ => []
  end.
Definition enable_calls (t : kernel_timer D) : list hw_call :=
  match enable t with Some f => [f] | None => [] end.

Definition init_calls (main rtc aux : kernel_timer D) (mh rh ah : Z) : list hw_call :=
  setup_calls main KERNEL_MAIN_TIMER_FREQ mh ++ setup_calls rtc KERNEL_RTC_TIMER_FREQ rh ++
  setup_calls aux KERNEL_AUX_TIMER_FREQ ah ++
  enable_calls main ++ enable_calls rtc ++ enable_calls aux.

Definition performs k (l : list hw_call) s : Prop :=
  forall d, k (with_hw d s) = Ret ((try_all l d).1, with_hw (try_all l d).2 s).

Lemma performs_done s : performs (ret OS_NO_ERR) [] s.
Proof. intros d. done. Qed.

Lemma performs_call (f : hw_call) k l s :
  performs k l s -> performs (or_return (call_timer (Some f)) k) (f :: l) s.
Proof.
  intros H d. unfold or_return, bind, call_timer. simpl. destruct (f d) as [r d'].
  case_decide; [done|]. apply H.
Qed.

Lemma timer_complete_inv t :
  timer_complete t = true ->
  exists f g h, set_frequency t = Some f /\ set_handler t = Some g /\ enable t = Some h.
Proof.
  unfold timer_complete, is_set. rewrite !andb_true_iff, !bool_decide_eq_true.
  intros ((((((_ & [f ->]) & [h ->]) & _) & [g ->]) & _) & _).
  exists f, g, h. done.
Qed.

Lemma complete_accepted t : timer_complete t = true -> aux_timer_accepted t = true.
Proof.
  unfold timer_complete, aux_timer_accepted. rewrite !andb_true_iff. by intros ((((((-> & _) & _) & _) & _) & _) & _).
Qed.

(** A timer that is absent or complete. *)
Definition usable t : Prop := t = null_timer \/ timer_complete t = true.

Lemma performs_setup get freq h k l s :
  (forall d, get (with_hw d s) = get s) -> timer_complete (get s) = true -> performs k l s ->
  performs (setup_timer get freq h k) (setup_calls (get s) freq h ++ l) s.
Proof.
  intros Hg (f & g & _ & Hf & Hh & _)%timer_complete_inv H. unfold setup_calls. rewrite Hf, Hh.
  intros d. unfold setup_timer. rewrite exec_gets, Hg, Hf. revert d.
  apply (performs_call (f freq)). intros d. rewrite exec_gets, Hg, Hh. by apply performs_call.
Qed.

Lemma performs_setup_optional get freq h k l s :
  (forall d, get (with_hw d s) = get s) -> usable (get s) -> performs k l s ->
  performs (setup_optional get freq h k) (setup_calls (get s) freq h ++ l) s.
Proof.
  intros Hg [Hn|Hc] H d; unfold setup_optional; rewrite exec_gets, Hg.
  - rewrite Hn. apply H.
  - pose proof (timer_complete_inv _ Hc) as (f & _ & _ & -> & _).
    change (is_set (Some f)) with true. by apply performs_setup.
Qed.

Lemma performs_enable get k l s :
  (forall d, get (with_hw d s) = get s) -> timer_complete (get s) = true -> performs k l s ->
  performs (enable_timer get k) (enable_calls (get s) ++ l) s.
Proof.
  intros Hg (_ & _ & h & _ & _ & Hh)%timer_complete_inv H d.
  unfold enable_timer, enable_calls. rewrite exec_gets, Hg, Hh. by apply performs_call.
Qed.

Lemma performs_enable_optional get k l s :
  (forall d, get (with_hw d s) = get s) -> usable (get s) -> performs k l s ->
  performs (enable_optional get k) (enable_calls (get s) ++ l) s.
Proof.
  intros Hg [Hn|Hc] H d; unfold enable_optional; rewrite exec_gets, Hg.
  - rewrite Hn. apply H.
  - pose proof (timer_complete_inv _ Hc) as (f & _ & _ & -> & _).
    change (is_set (Some f)) with true. by apply performs_enable.
Qed.

(** A timer argument of [time_init], the null pointer included. *)
Definition given (t : option (kernel_timer D)) : kernel_timer D := default null_timer t.

(** The state with the three timers installed and the ticks at zero. *)
Definition installed (main rtc aux : kernel_timer D) s : time_state D :=
  with_ticks (fun _ => 0) (with_aux aux (with_rtc rtc (with_main main s))).
End Init.

(** with complete timers (the RTC and the auxiliary timer may be absent),
    [time_init] installs them, zeroes the ticks and makes the calls of
    [init_calls] in order, frequency then handler for each timer and all the
    enables after; it stops at the first call that fails and returns its
    error, and [OS_NO_ERR] when none does. *)
Theorem time_init_sequence {D} (main : kernel_timer D) rtc aux mh rh ah s :
  timer_complete main = true -> (forall t, rtc = Some t -> timer_complete t = true) ->
  (forall t, aux = Some t -> timer_complete t = true) ->
  sys_rtc_timer s = null_timer -> sys_aux_timer s = null_timer ->
  let r := try_all (init_calls main (given rtc) (given aux) mh rh ah) (timers_hw s) in
  time_init (Some main) rtc aux mh rh ah s =
    Ret (r.1, with_hw r.2 (installed main (given rtc) (given aux) s)).
Proof.
  intros Hm Hr Ha Hr0 Ha0 r. set (s1 := installed main (given rtc) (given aux) s).
  assert (usable (given rtc)) as Ur by (destruct rtc; [right; by apply Hr|by left]).
  assert (usable (given aux)) as Ua by (destruct aux; [right; by apply Ha|by left]).
  assert (performs (setup_timer sys_main_timer KERNEL_MAIN_TIMER_FREQ mh
            (setup_optional sys_rtc_timer KERNEL_RTC_TIMER_FREQ rh
            (setup_optional sys_aux_timer KERNEL_AUX_TIMER_FREQ ah
            (enable_timer sys_main_timer
            (enable_optional sys_rtc_timer
            (enable_optional sys_aux_timer
            (ret OS_NO_ERR))))))) (init_calls main (given rtc) (given aux) mh rh ah) s1) as Hp.
  { unfold init_calls. apply performs_setup; [done..|].
    apply (performs_setup_optional sys_rtc_timer); [done..|].
    apply (performs_setup_optional sys_aux_timer); [done..|].
    apply performs_enable; [done..|]. apply (performs_enable_optional sys_rtc_timer); [done..|].
    rewrite <- (app_nil_r (enable_calls (given aux))).
    apply (performs_enable_optional sys_aux_timer); [done..|]. apply performs_done. }
  specialize (Hp (timers_hw s)). fold r in Hp. rewrite <- Hp. clear Hp.
  unfold time_init. rewrite Hm. cbn [negb]. rewrite exec_modify.
  assert (with_hw (timers_hw s) s1 = s1) as -> by done. subst s1 r. destruct s as [tk m0 r0 a0 w sch hw].
  simpl in Hr0, Ha0. subst r0 a0.
  destruct rtc as [r|], aux as [a|];
    try pose proof (complete_accepted _ (Ha _ eq_refl)) as Hca;
    try rewrite (Hr _ eq_refl); unfold bind at 1; cbn [modify ret]; try rewrite Hca; reflexivity.
Qed.

(** the integrity check of the auxiliary timer only asks for one of its
    functions.  A timer with a [set_frequency] and no [set_handler] passes
    it, and [time_init] then calls through the null pointer. *)
Theorem time_init_incomplete_aux_faults {D} (main aux : kernel_timer D) f mh rh ah s :
  timer_complete main = true -> sys_rtc_timer s = null_timer ->
  set_frequency aux = Some f -> set_handler aux = None ->
  (try_all (setup_calls main KERNEL_MAIN_TIMER_FREQ mh ++ [f KERNEL_AUX_TIMER_FREQ])
    (timers_hw s)).1 = OS_NO_ERR ->
  timer_complete aux = false /\ time_init (Some main) None (Some aux) mh rh ah s = Fault.
Proof.
  intros Hm Hr Hf Hh Hok. split.
  { unfold timer_complete. rewrite Hh. change (is_set (@None (Z -> D -> OS_RETURN_E * D))) with false.
    by rewrite andb_false_r. }
  unfold time_init. rewrite Hm. cbn [negb]. rewrite exec_modify.
  unfold bind at 1; cbn [ret negb]. unfold aux_timer_accepted. rewrite Hf.
  change (is_set (Some f)) with true. rewrite orb_true_r. unfold bind at 1 2, modify. cbn [negb ret].
  unfold bind at 1.
  destruct (timer_complete_inv _ Hm) as (g & h & _ & Hg & Hh' & _).
  unfold setup_calls in Hok. rewrite Hg, Hh' in Hok. simpl app in Hok. cbn [try_all] in Hok.
  unfold setup_timer at 1, or_return, call_timer, gets, bind at 1. cbn. rewrite Hg. cbn.
  unfold bind at 1. cbn. destruct (g KERNEL_MAIN_TIMER_FREQ (timers_hw s)) as [r1 d1].
  destruct (decide (r1 <> OS_NO_ERR)); [by simpl in Hok|].
  unfold bind at 1 2. cbn. rewrite Hh'. cbn. destruct (h mh d1) as [r2 d2].
  destruct (decide (r2 <> OS_NO_ERR)); [by simpl in Hok|].
  unfold setup_optional at 1, bind at 1, gets. cbn. rewrite Hr.
  change (is_set (set_frequency (@null_timer D))) with false. cbv iota.
  unfold setup_optional, bind at 1, gets. cbn. rewrite Hf.
  change (is_set (Some f)) with true. cbv iota.
  unfold setup_timer, or_return, call_timer, gets, bind at 1. cbn. rewrite Hf. cbn.
  unfold bind at 1. cbn. destruct (f KERNEL_AUX_TIMER_FREQ d2) as [r3 d3].
  destruct (decide (r3 <> OS_NO_ERR)); [by simpl in Hok|].
  unfold bind at 1 2. cbn. rewrite Hh. done.
Qed.

(** *** Witnesses: hardware that records the calls made to it *)
Definition log_timer : kernel_timer (list Z) :=
  mk_timer (Some (fun _ => 200)) (Some (fun f d => (OS_NO_ERR, d ++ [f])))
    (Some (fun d => (OS_NO_ERR, d ++ [1]))) (Some (fun d => (OS_NO_ERR, d)))
    (Some (fun h d => (OS_NO_ERR, d ++ [h]))) (Some (fun d => (OS_NO_ERR, d)))
    (Some (fun _ => 0)).

(** Its [enable] fails. *)
Definition broken_timer : kernel_timer (list Z) :=
  mk_timer (Some (fun _ => 16)) (Some (fun f d => (OS_NO_ERR, d ++ [f])))
    (Some (fun d => (OS_ERR_MALLOC, d ++ [2]))) (Some (fun d => (OS_NO_ERR, d)))
    (Some (fun h d => (OS_NO_ERR, d ++ [h]))) (Some (fun d => (OS_NO_ERR, d)))
    (Some (fun _ => 8)).

Definition demo_time : time_state (list Z) :=
  mk_time (fun _ => 7) log_timer null_timer null_timer 3 NULL [].

Definition demo_cpu_env : cpu_env := mk_cpu 1 2.

Lemma demo_ticking : ticking demo_time 200.
Proof. exists (fun _ => 200). by split. Qed.

(** 12 ms take three ticks of 5 ms. *)
Lemma time_wait_terminates_witness :
  result_of (time_wait_no_sched demo_cpu_env 12 4 demo_time) = Some (Some 1%nat).
Proof.
  rewrite (time_wait_terminates demo_cpu_env demo_time 200 12 4 demo_ticking); [reflexivity|lia|lia].
Defined.

Lemma main_timer_tick_witness :
  exists s', time_main_timer_handler demo_cpu_env on_time log_eoi log_call (demo_time, []) =
      Ret (tt, (s', [Acknowledged 0])) /\
    active_wait s' = 0 /\ sys_tick_count s' 1 = 8 /\ sys_tick_count s' 0 = 7.
Proof.
  eexists. split; [exact (main_timer_tick demo_cpu_env demo_time 200 0 [] demo_ticking
    ltac:(lia) ltac:(simpl; lia) eq_refl)|]. vm_compute. repeat split.
Defined.

Lemma uptime_lags_witness : result_of (time_get_current_uptime demo_cpu_env demo_time) = Some 35.
Proof.
  destruct (uptime_lags demo_cpu_env demo_time 200 demo_ticking ltac:(lia)) as (u & -> & Hu & _).
  change (u * 200 + 7 * (1000 mod 200) = 1000 * 7) in Hu. change (1000 mod 200) with 0 in Hu.
  assert (u = 35) as -> by lia. reflexivity.
Defined.

(** The RTC's enable fails after the four set-up calls and the main enable. *)
Lemma time_init_sequence_witness :
  exists s', time_init (Some log_timer) (Some broken_timer) None 51 52 53 demo_time =
      Ret (OS_ERR_MALLOC, s') /\ timers_hw s' = [200; 51; 16; 52; 1; 2].
Proof.
  eexists. split.
  - apply (time_init_sequence log_timer (Some broken_timer) None 51 52 53 demo_time);
      [reflexivity|intros t [= <-]; reflexivity|discriminate|reflexivity|reflexivity].
  - reflexivity.
Defined.

Definition partial_timer : kernel_timer (list Z) :=
  mk_timer None (Some (fun f d => (OS_NO_ERR, d ++ [f]))) None None None None None.

Lemma time_init_incomplete_aux_faults_witness :
  is_fault (time_init (Some log_timer) None (Some partial_timer) 51 52 53 demo_time) = true.
Proof.
  rewrite (proj2 (time_init_incomplete_aux_faults log_timer partial_timer
    (fun f d => (OS_NO_ERR, d ++ [f])) 51 52 53 demo_time
    eq_refl eq_refl eq_refl eq_refl eq_refl)). reflexivity.
Defined.
