(* ===== verification/KernelQueue.v ===== *)
(** * Kernel queues ([core/kernel_queue.c])

    The doubly linked queues on which every other kernel object is built.
    Nodes and queues live in two typed stores indexed by their address; the
    allocator gives the addresses. *)
From Stdlib Require Import Sorted.
From S2P Require Import Prelude Alloc.

(** [struct kernel_queue_node] *)
Record kernel_queue_node : Type := mk_node {
  n_next : Z;
  n_prev : Z;
  n_enlisted : Z;
  n_priority : Z;
  n_data : Z;
}.

(** [struct kernel_queue]; the spinlock field is the subject of [Critical]. *)
Record kernel_queue : Type := mk_queue {
  q_head : Z;
  q_tail : Z;
  q_size : Z;
}.

#[export] Instance kernel_queue_node_eq_dec : EqDecision kernel_queue_node.
Proof. solve_decision. Defined.
#[export] Instance kernel_queue_eq_dec : EqDecision kernel_queue.
Proof. solve_decision. Defined.

(** Field assignments. *)
Definition set_next (v : Z) (n : kernel_queue_node) : kernel_queue_node :=
  mk_node v (n_prev n) (n_enlisted n) (n_priority n) (n_data n).
Definition set_prev (v : Z) (n : kernel_queue_node) : kernel_queue_node :=
  mk_node (n_next n) v (n_enlisted n) (n_priority n) (n_data n).
Definition set_enlisted (v : Z) (n : kernel_queue_node) : kernel_queue_node :=
  mk_node (n_next n) (n_prev n) v (n_priority n) (n_data n).
Definition set_priority (v : Z) (n : kernel_queue_node) : kernel_queue_node :=
  mk_node (n_next n) (n_prev n) (n_enlisted n) v (n_data n).
Definition set_data (v : Z) (n : kernel_queue_node) : kernel_queue_node :=
  mk_node (n_next n) (n_prev n) (n_enlisted n) (n_priority n) v.
Definition set_head (v : Z) (q : kernel_queue) : kernel_queue :=
  mk_queue v (q_tail q) (q_size q).
Definition set_tail (v : Z) (q : kernel_queue) : kernel_queue :=
  mk_queue (q_head q) v (q_size q).
Definition set_size (v : Z) (q : kernel_queue) : kernel_queue :=
  mk_queue (q_head q) (q_tail q) v.

(** [sizeof(kernel_queue_node_t)] and [sizeof(kernel_queue_t)] (with its
    12-byte spinlock) on i386. *)
Definition sizeof_kernel_queue_node : Z := 20.
Definition sizeof_kernel_queue : Z := 24.

Section Ops.
Context {ops : AllocOps}.

Record qstore : Type := mk_qstore {
  qs_heap : heap;
  qs_nodes : gmap Z kernel_queue_node;
  qs_queues : gmap Z kernel_queue;
}.

Definition with_heap (h : heap) (s : qstore) : qstore :=
  mk_qstore h (qs_nodes s) (qs_queues s).
Definition with_nodes (ns : gmap Z kernel_queue_node) (s : qstore) : qstore :=
  mk_qstore (qs_heap s) ns (qs_queues s).
Definition with_queues (qs : gmap Z kernel_queue) (s : qstore) : qstore :=
  mk_qstore (qs_heap s) (qs_nodes s) qs.

(** Memory accesses. *)
Definition get_node (p : Z) : M qstore kernel_queue_node := fun s =>
  match qs_nodes s !! p with Some n => Ret (n, s) | None => Fault end.

Definition upd_node (p : Z) (f : kernel_queue_node -> kernel_queue_node) :
  M qstore unit := fun s =>
  match qs_nodes s !! p with
  | Some n => Ret (tt, with_nodes (<[p := f n]> (qs_nodes s)) s)
  | None => Fault
  end.

Definition get_queue (p : Z) : M qstore kernel_queue := fun s =>
  match qs_queues s !! p with Some q => Ret (q, s) | None => Fault end.

Definition upd_queue (p : Z) (f : kernel_queue -> kernel_queue) : M qstore unit :=
  fun s =>
  match qs_queues s !! p with
  | Some q => Ret (tt, with_queues (<[p := f q]> (qs_queues s)) s)
  | None => Fault
  end.

Definition q_kmalloc (n : Z) : M qstore Z := fun s =>
  let '(p, h) := kmalloc n (qs_heap s) in Ret (p, with_heap h s).

(** [kfree] of an object also ends its life in the typed stores. *)
Definition q_kfree (p : Z) : M qstore unit := fun s =>
  Ret (tt, mk_qstore (kfree p (qs_heap s)) (delete p (qs_nodes s))
                     (delete p (qs_queues s))).

Definition zero_node : kernel_queue_node := mk_node NULL NULL 0 0 0.
Definition zero_queue : kernel_queue := mk_queue NULL NULL 0.

(** The second component of the result of the creation, [pop] and [find]
    functions is the value stored through the [error] pointer when the
    caller gives one. *)
Definition kernel_queue_create_node (data : Z) : M qstore (Z * OS_RETURN_E) :=
  let* new_node := q_kmalloc sizeof_kernel_queue_node in
  if decide (new_node = NULL) then ret (NULL, OS_ERR_MALLOC)
  else
    modify (fun s => with_nodes (<[new_node := set_data data zero_node]> (qs_nodes s)) s) >>>
    ret (new_node, OS_NO_ERR).

(** [node] is the value of the caller's variable; the result is its new
    value and the return code. *)
Definition kernel_queue_delete_node (node : Z) : M qstore (Z * OS_RETURN_E) :=
  if decide (node = NULL) then ret (node, OS_ERR_NULL_POINTER)
  else
    let* n := get_node node in
    if decide (n_enlisted n <> 0) then ret (node, OS_ERR_UNAUTHORIZED_ACTION)
    else q_kfree node >>> ret (NULL, OS_NO_ERR).

Definition kernel_queue_create_queue : M qstore (Z * OS_RETURN_E) :=
  let* newqueue := q_kmalloc sizeof_kernel_queue in
  if decide (newqueue = NULL) then ret (NULL, OS_ERR_MALLOC)
  else
    modify (fun s => with_queues (<[newqueue := zero_queue]> (qs_queues s)) s) >>>
    ret (newqueue, OS_NO_ERR).

Definition kernel_queue_delete_queue (queue : Z) : M qstore (Z * OS_RETURN_E) :=
  if decide (queue = NULL) then ret (queue, OS_ERR_NULL_POINTER)
  else
    let* q := get_queue queue in
    if decide (q_head q <> NULL \/ q_tail q <> NULL)
    then ret (queue, OS_ERR_UNAUTHORIZED_ACTION)
    else q_kfree queue >>> ret (NULL, OS_NO_ERR).

(** The consistency check that ends both insertion functions. *)
Definition check_links (node : Z) : M qstore OS_RETURN_E :=
  let* n := get_node node in
  if decide (n_next n <> NULL /\ n_prev n <> NULL /\ n_next n = n_prev n)
  then kernel_panic OS_ERR_UNAUTHORIZED_ACTION
  else ret OS_NO_ERR.

Definition kernel_queue_push (node queue : Z) : M qstore OS_RETURN_E :=
  if decide (node = NULL \/ queue = NULL) then ret OS_ERR_NULL_POINTER
  else
    let* q := get_queue queue in
    (if decide (q_head q = NULL) then
       upd_queue queue (set_head node) >>>
       upd_queue queue (set_tail node) >>>
       upd_node node (set_next NULL) >>>
       upd_node node (set_prev NULL)
     else
       upd_node node (set_next (q_head q)) >>>
       upd_node node (set_prev NULL) >>>
       upd_node (q_head q) (set_prev node) >>>
       upd_queue queue (set_head node)) >>>
    upd_queue queue (fun q => set_size (u32 (q_size q + 1)) q) >>>
    upd_node node (set_enlisted 1) >>>
    check_links node.

(** The list walks of the file are all
    [while(cursor != NULL && !stop) cursor = cursor->next;]. *)
Fixpoint walk (stop : Z -> kernel_queue_node -> bool) (fuel : nat) (cursor : Z) :
  M qstore Z :=
  match fuel with
  | O => diverge
  | S fuel =>
      if decide (cursor = NULL) then ret cursor
      else
        let* c := get_node cursor in
        if stop cursor c then ret cursor else walk stop fuel (n_next c)
  end.

(** [cursor->priority > priority] fails. *)
Definition stop_prio (priority : Z) (_ : Z) (c : kernel_queue_node) : bool :=
  bool_decide (n_priority c <= priority).
(** [node->data != data] fails. *)
Definition stop_data (data : Z) (_ : Z) (c : kernel_queue_node) : bool :=
  bool_decide (n_data c = data).
(** [cursor != node] fails. *)
Definition stop_node (node cursor : Z) (_ : kernel_queue_node) : bool :=
  bool_decide (cursor = node).

(** A walk that visits more nodes than memory holds is on a cycle. *)
Definition walk_fuel (s : qstore) : nat := S (size (qs_nodes s)).

Definition kernel_queue_push_prio (node queue priority : Z) : M qstore OS_RETURN_E :=
  if decide (node = NULL \/ queue = NULL) then ret OS_ERR_NULL_POINTER
  else
    upd_node node (set_priority priority) >>>
    let* q := get_queue queue in
    (if decide (q_head q = NULL) then
       upd_queue queue (set_head node) >>>
       upd_queue queue (set_tail node) >>>
       upd_node node (set_next NULL) >>>
       upd_node node (set_prev NULL)
     else
       let* fuel := gets walk_fuel in
       let* cursor := walk (stop_prio priority) fuel (q_head q) in
       if decide (cursor <> NULL) then
         upd_node node (set_next cursor) >>>
         let* c := get_node cursor in
         upd_node node (set_prev (n_prev c)) >>>
         upd_node cursor (set_prev node) >>>
         let* n := get_node node in
         if decide (n_prev n <> NULL) then upd_node (n_prev n) (set_next node)
         else upd_queue queue (set_head node)
       else
         upd_node node (set_prev (q_tail q)) >>>
         upd_node node (set_next NULL) >>>
         upd_node (q_tail q) (set_next node) >>>
         upd_queue queue (set_tail node)) >>>
    upd_queue queue (fun q => set_size (u32 (q_size q + 1)) q) >>>
    upd_node node (set_enlisted 1) >>>
    check_links node.

Definition kernel_queue_pop (queue : Z) : M qstore (Z * OS_RETURN_E) :=
  if decide (queue = NULL) then ret (NULL, OS_ERR_NULL_POINTER)
  else
    let* q := get_queue queue in
    if decide (q_head q = NULL) then ret (NULL, OS_NO_ERR)
    else
      let node := q_tail q in
      let* n := get_node node in
      (if decide (n_prev n <> NULL) then
         upd_node (n_prev n) (set_next NULL) >>>
         upd_queue queue (set_tail (n_prev n))
       else
         upd_queue queue (set_head NULL) >>>
         upd_queue queue (set_tail NULL)) >>>
      upd_queue queue (fun q => set_size (u32 (q_size q - 1)) q) >>>
      upd_node node (set_next NULL) >>>
      upd_node node (set_prev NULL) >>>
      upd_node node (set_enlisted 0) >>>
      ret (node, OS_NO_ERR).

Definition kernel_queue_find (queue data : Z) : M qstore (Z * OS_RETURN_E) :=
  if decide (queue = NULL) then ret (NULL, OS_ERR_NULL_POINTER)
  else
    let* q := get_queue queue in
    let* fuel := gets walk_fuel in
    let* node := walk (stop_data data) fuel (q_head q) in
    if decide (node = NULL) then ret (NULL, OS_ERR_NO_SUCH_ID)
    else ret (node, OS_NO_ERR).

Definition kernel_queue_remove (queue node : Z) : M qstore OS_RETURN_E :=
  if decide (queue = NULL \/ node = NULL) then ret OS_ERR_NULL_POINTER
  else
    let* q := get_queue queue in
    let* fuel := gets walk_fuel in
    let* cursor := walk (stop_node node) fuel (q_head q) in
    if decide (cursor = NULL) then ret OS_ERR_NO_SUCH_ID
    else
      let* c := get_node cursor in
      (if decide (n_prev c <> NULL /\ n_next c <> NULL) then
         upd_node (n_prev c) (set_next (n_next c)) >>>
         upd_node (n_next c) (set_prev (n_prev c))
       else if decide (n_prev c = NULL /\ n_next c <> NULL) then
         upd_queue queue (set_head (n_next c)) >>>
         upd_node (n_next c) (set_prev NULL)
       else if decide (n_prev c <> NULL /\ n_next c = NULL) then
         upd_queue queue (set_tail (n_prev c)) >>>
         upd_node (n_prev c) (set_next NULL)
       else
         upd_queue queue (set_head NULL) >>>
         upd_queue queue (set_tail NULL)) >>>
      upd_node node (set_next NULL) >>>
      upd_node node (set_prev NULL) >>>
      upd_node node (set_enlisted 0) >>>
      ret OS_NO_ERR.
End Ops.

(** ** Representation

    [dseg ns p l nx]: the nodes of [l] are linked in order, the first one
    after [p] and the last one before [nx], and all are marked enlisted. *)
Fixpoint dseg (ns : gmap Z kernel_queue_node) (p : Z) (l : list Z) (nx : Z) : Prop :=
  match l with
  | [] => True
  | x :: l' =>
      x <> NULL /\
      (exists n, ns !! x = Some n /\ n_prev n = p /\
                 n_next n = default nx (head l') /\ n_enlisted n = 1) /\
      dseg ns x l' nx
  end.

Lemma dseg_app ns p l1 l2 nx :
  dseg ns p (l1 ++ l2) nx <->
  dseg ns p l1 (default nx (head l2)) /\ dseg ns (default p (last l1)) l2 nx.
Proof.
  revert p. induction l1 as [|x l1 IH]; intros p; simpl; [tauto|].
  rewrite IH, last_cons. destruct l1 as [|y l1]; simpl.
  - tauto.
  - destruct (last (y :: l1)) eqn:E; [simpl; tauto|].
    by apply last_None in E.
Qed.

Lemma dseg_ext ns ns' p l nx :
  (forall x, x ∈ l -> ns' !! x = ns !! x) -> dseg ns p l nx -> dseg ns' p l nx.
Proof.
  revert p. induction l as [|x l IH]; intros p Hext; simpl; [done|].
  intros (Hx & (n & Hn & ?) & Hl). split; [done|]. split.
  - exists n. rewrite Hext; [done|set_solver].
  - apply IH; [|done]. intros y Hy. apply Hext. set_solver.
Qed.

Lemma dseg_lookup ns p l nx x :
  dseg ns p l nx -> x ∈ l -> x <> NULL /\ exists n, ns !! x = Some n /\ n_enlisted n = 1.
Proof.
  revert p. induction l as [|y l IH]; intros p; simpl; [set_solver|].
  intros (Hy & (n & Hn & _ & _ & He) & Hl) [->|Hx]%elem_of_cons; eauto.
Qed.

Lemma dseg_head_ne ns p l nx :
  dseg ns p l nx -> l <> [] -> default NULL (head l) <> NULL.
Proof. destruct l; simpl; naive_solver. Qed.

Lemma dseg_last_ne ns p l nx :
  dseg ns p l nx -> l <> [] -> default NULL (last l) <> NULL.
Proof.
  intros Hd Hl. destruct (last l) as [x|] eqn:E; [|by apply last_None in E].
  apply last_Some in E as (l' & ->). simpl.
  destruct (dseg_lookup _ _ _ _ x Hd); [set_solver|done].
Qed.

Section Rep.
Context {ops : AllocOps}.
Implicit Types (s : qstore) (A : gmap Z (list Z)).

Definition queue_ok s (q : Z) (l : list Z) : Prop :=
  exists Q, qs_queues s !! q = Some Q /\
    q_head Q = default NULL (head l) /\ q_tail Q = default NULL (last l) /\
    dseg (qs_nodes s) NULL l NULL /\ NoDup l.

Definition node_free (n : kernel_queue_node) : Prop :=
  n_next n = NULL /\ n_prev n = NULL /\ n_enlisted n = 0.

Definition enlisted_in A (x : Z) : Prop := exists q l, A !! q = Some l /\ x ∈ l.

(** [A] gives, for each queue of the store, the nodes it holds from head to
    tail.  A node is in at most one queue. *)
Record qrep s A : Prop := {
  qr_queue q l : A !! q = Some l -> queue_ok s q l;
  qr_dom q : is_Some (qs_queues s !! q) -> is_Some (A !! q);
  qr_disj q1 q2 l1 l2 x :
    A !! q1 = Some l1 -> A !! q2 = Some l2 -> x ∈ l1 -> x ∈ l2 -> q1 = q2;
  qr_free x n : qs_nodes s !! x = Some n -> ~ enlisted_in A x -> node_free n;
  qr_null : qs_nodes s !! NULL = None /\ qs_queues s !! NULL = None;
}.

(** The representation only looks at the two stores, not at the heap. *)
Lemma qrep_same_store s s' A :
  qs_nodes s' = qs_nodes s -> qs_queues s' = qs_queues s -> qrep s A -> qrep s' A.
Proof.
  intros Hn Hq [H1 H2 H3 H4 H5].
  split; unfold queue_ok in *; rewrite ?Hn, ?Hq; [exact H1|exact H2|exact H3|exact H4|exact H5].
Qed.

(** Fields no queue operation other than [push_prio] touches. *)
Definition payload (n : kernel_queue_node) : Z * Z := (n_data n, n_priority n).

Definition same_payload (ns ns' : gmap Z kernel_queue_node) : Prop :=
  forall x, payload <$> ns' !! x = payload <$> ns !! x.

(** Every object sits in a live block of its own that is large enough. *)
Record qheap `{!AllocSpec ops} s (L : gmap Z Z) : Prop := {
  qh_rep : heap_rep (qs_heap s) L;
  qh_node x n : qs_nodes s !! x = Some n ->
    exists m, L !! x = Some m /\ sizeof_kernel_queue_node <= m;
  qh_queue q Q : qs_queues s !! q = Some Q ->
    exists m, L !! q = Some m /\ sizeof_kernel_queue <= m;
  qh_typed x n : qs_nodes s !! x = Some n -> qs_queues s !! x = None;
}.

Lemma qrep_lookup s A q l :
  qrep s A -> A !! q = Some l ->
  q <> NULL /\ exists Q, qs_queues s !! q = Some Q /\
    q_head Q = default NULL (head l) /\ q_tail Q = default NULL (last l) /\
    dseg (qs_nodes s) NULL l NULL /\ NoDup l.
Proof.
  intros HR Hq. destruct (qr_queue _ _ HR _ _ Hq) as (Q & HQ & H).
  split; [|eauto]. intros ->. destruct (qr_null _ _ HR). congruence.
Qed.

Lemma qrep_node_ne s A x n : qrep s A -> qs_nodes s !! x = Some n -> x <> NULL.
Proof. intros HR Hx ->. destruct (qr_null _ _ HR). congruence. Qed.
End Rep.

#[global] Arguments walk : simpl never.

(** ** Symbolic execution *)
Section Exec.
Context {ops : AllocOps} {B : Type}.
Implicit Types (s : qstore).

Lemma exec_get_node p (k : kernel_queue_node -> M qstore B) s n :
  qs_nodes s !! p = Some n -> bind (get_node p) k s = k n s.
Proof. intros H. unfold bind, get_node. by rewrite H. Qed.

Lemma exec_upd_node p f (k : unit -> M qstore B) s n :
  qs_nodes s !! p = Some n ->
  bind (upd_node p f) k s = k tt (with_nodes (<[p := f n]> (qs_nodes s)) s).
Proof. intros H. unfold bind, upd_node. by rewrite H. Qed.

Lemma exec_get_queue p (k : kernel_queue -> M qstore B) s q :
  qs_queues s !! p = Some q -> bind (get_queue p) k s = k q s.
Proof. intros H. unfold bind, get_queue. by rewrite H. Qed.

Lemma exec_upd_queue p f (k : unit -> M qstore B) s q :
  qs_queues s !! p = Some q ->
  bind (upd_queue p f) k s = k tt (with_queues (<[p := f q]> (qs_queues s)) s).
Proof. intros H. unfold bind, upd_queue. by rewrite H. Qed.
End Exec.

(** Resolves a test whose outcome the context decides. *)
Ltac qdecide := simpl; first [ done | tauto | by intros [? [? ?]] | by intros [? ?] ].
Ltac qif := first [ rewrite decide_True by qdecide | rewrite decide_False by qdecide ].

(** One memory access or one test of a straight-line program. *)
Ltac qstep :=
  rewrite ?bind_assoc;
  first
    [ rewrite exec_gets
    | erewrite exec_get_node by (simpl; by simplify_map_eq)
    | erewrite exec_upd_node by (simpl; by simplify_map_eq)
    | erewrite exec_get_queue by (simpl; by simplify_map_eq)
    | erewrite exec_upd_queue by (simpl; by simplify_map_eq)
    | qif ];
  simpl.
Ltac qsteps := repeat qstep.

(** ** Joining two segments *)
Definition alter_opt (f : kernel_queue_node -> kernel_queue_node) (o : option Z)
    (ns : gmap Z kernel_queue_node) : gmap Z kernel_queue_node :=
  match o with Some y => alter f y ns | None => ns end.

Lemma lookup_alter_opt_ne f o ns x : o <> Some x -> alter_opt f o ns !! x = ns !! x.
Proof. destruct o; simpl; [|done]. intros. rewrite lookup_alter_ne; [done|congruence]. Qed.

Lemma alter_opt_payload f o ns :
  (forall n, payload (f n) = payload n) -> same_payload ns (alter_opt f o ns).
Proof.
  intros Hf x. destruct o as [y|]; simpl; [|done]. rewrite lookup_alter.
  case_decide; [subst|done]. destruct (ns !! x); simpl; [by rewrite Hf|done].
Qed.

Lemma same_payload_trans ns1 ns2 ns3 :
  same_payload ns1 ns2 -> same_payload ns2 ns3 -> same_payload ns1 ns3.
Proof. intros H1 H2 x. by rewrite H2, H1. Qed.

Lemma dseg_set_prev ns p l nx v :
  dseg ns p l nx -> NoDup l -> dseg (alter_opt (set_prev v) (head l) ns) v l nx.
Proof.
  destruct l as [|y l]; simpl; [done|]. intros (Hy & (n & Hn & ? & ? & ?) & Hd) Hnd.
  split; [done|]. split.
  - exists (set_prev v n). by rewrite lookup_alter_eq, Hn.
  - eapply dseg_ext; [|done]. intros x Hx. apply NoDup_cons in Hnd as [].
    apply lookup_alter_ne. set_solver.
Qed.

Lemma dseg_set_next ns p l nx v :
  dseg ns p l nx -> NoDup l -> dseg (alter_opt (set_next v) (last l) ns) p l v.
Proof.
  destruct l as [|y l _] using rev_ind; [done|]. rewrite last_snoc. simpl.
  rewrite !dseg_app. simpl. intros (Hd & Hy & (n & Hn & ? & ? & ?) & _) Hnd.
  split; [|split; [done|split; [|done]]].
  - eapply dseg_ext; [|done]. intros x Hx. apply NoDup_app in Hnd as (_ & Hnd & _).
    apply lookup_alter_ne. specialize (Hnd x Hx). set_solver.
  - exists (set_next v n). by rewrite lookup_alter_eq, Hn.
Qed.

(** Linking the end of [l1] to the beginning of [l2]. *)
Definition relink (l1 l2 : list Z) (p nx : Z) (ns : gmap Z kernel_queue_node) :
  gmap Z kernel_queue_node :=
  alter_opt (set_next (default nx (head l2))) (last l1)
    (alter_opt (set_prev (default p (last l1))) (head l2) ns).

Lemma head_elem_of {X} (l : list X) x : head l = Some x -> x ∈ l.
Proof. destruct l; simpl; [done|]. intros [= ->]. set_solver. Qed.

Lemma last_elem_of {X} (l : list X) x : last l = Some x -> x ∈ l.
Proof. intros [l' ->]%last_Some. set_solver. Qed.

Lemma lookup_relink_ne l1 l2 p nx ns x :
  x ∉ l1 -> x ∉ l2 -> relink l1 l2 p nx ns !! x = ns !! x.
Proof.
  intros H1 H2. unfold relink. rewrite !lookup_alter_opt_ne; [done|intros H..].
  - by apply head_elem_of in H.
  - by apply last_elem_of in H.
Qed.

Lemma relink_payload l1 l2 p nx ns : same_payload ns (relink l1 l2 p nx ns).
Proof. eapply same_payload_trans; apply alter_opt_payload; by intros []. Qed.

Lemma dseg_join ns p l1 nx1 p2 l2 nx :
  dseg ns p l1 nx1 -> dseg ns p2 l2 nx -> NoDup (l1 ++ l2) ->
  dseg (relink l1 l2 p nx ns) p (l1 ++ l2) nx.
Proof.
  intros H1 H2 (Hn1 & Hdis & Hn2)%NoDup_app. apply dseg_app. unfold relink. split.
  - apply dseg_set_next with nx1; [|done]. eapply dseg_ext; [|done].
    intros x Hx. apply lookup_alter_opt_ne. intros Hh. apply head_elem_of in Hh.
    by apply (Hdis x).
  - eapply dseg_ext; [|by eapply dseg_set_prev].
    intros x Hx. apply lookup_alter_opt_ne. intros Hh. apply last_elem_of in Hh.
    by apply (Hdis x).
Qed.

Section Push.
Context {ops : AllocOps}.
Implicit Types (s : qstore) (A : gmap Z (list Z)).

Lemma check_links_ok s node n :
  qs_nodes s !! node = Some n -> (n_prev n = NULL \/ n_next n = NULL \/ n_next n <> n_prev n) ->
  check_links node s = Ret (OS_NO_ERR, s).
Proof.
  intros Hn H. unfold check_links. rewrite (exec_get_node _ _ _ n) by done.
  rewrite decide_False; [done|naive_solver].
Qed.

Lemma push_run s A q l node n Q :
  qrep s A -> A !! q = Some l -> qs_nodes s !! node = Some n ->
  node ∉ l -> qs_queues s !! q = Some Q ->
  exists s', kernel_queue_push node q s = Ret (OS_NO_ERR, s') /\
    qs_heap s' = qs_heap s /\
    qs_queues s' = <[q := mk_queue node (default node (last l)) (u32 (q_size Q + 1))]> (qs_queues s) /\
    qs_nodes s' = <[node := mk_node (default NULL (head l)) NULL 1 (n_priority n) (n_data n)]>
      (alter_opt (set_prev node) (head l) (qs_nodes s)).
Proof.
  intros HR Hq Hn Hnl HQ.
  destruct (qrep_lookup _ _ _ _ HR Hq) as (Hq0 & Q' & HQ' & Hh & Ht & Hl & Hnd). simplify_eq.
  pose proof (qrep_node_ne _ _ _ _ HR Hn) as Hn0.
  unfold kernel_queue_push. rewrite decide_False by naive_solver.
  qstep. destruct l as [|y l]; simpl in *.
  - rewrite decide_True by done. qsteps.
    erewrite check_links_ok by (simpl; first [by simplify_map_eq | by auto]).
    eexists. split; [done|]. simpl.
    split; [done|]. split; [by rewrite !insert_insert_eq|].
    map_ext.
  - destruct Hl as (Hy0 & (m & Hm & Hp & Hx & He) & Hl).
    assert (y <> node) by set_solver.
    rewrite decide_False by congruence. rewrite Hh. qsteps.
    erewrite check_links_ok by (simpl; first [by simplify_map_eq | by auto]).
    eexists. split; [done|]. simpl. split; [done|]. split.
    + rewrite !insert_insert_eq. f_equal. unfold set_size, set_head; simpl.
      rewrite Ht. rewrite last_cons. by destruct (last l).
    + map_ext.
Qed.
End Push.

(** ** The frame lemma

    An operation that rebuilds one queue, touches only its nodes and leaves
    every node it drops free, preserves the representation. *)
Section Frame.
Context {ops : AllocOps}.
Implicit Types (s : qstore) (A : gmap Z (list Z)).

Lemma qrep_update s s' A q l l' :
  qrep s A -> A !! q = Some l -> queue_ok s' q l' ->
  (forall q', q' <> q -> qs_queues s' !! q' = qs_queues s !! q') ->
  (forall x, x ∉ l -> x ∉ l' -> qs_nodes s' !! x = qs_nodes s !! x) ->
  (forall x, x ∈ l' -> x ∈ l \/ ~ enlisted_in A x) ->
  (forall x n, x ∈ l -> x ∉ l' -> qs_nodes s' !! x = Some n -> node_free n) ->
  qrep s' (<[q := l']> A).
Proof.
  intros HR Hq Hok Hqs Hns Hnew Hfree.
  assert (Hother : forall q' l2 x, q' <> q -> A !! q' = Some l2 -> x ∈ l2 -> (x ∉ l) /\ (x ∉ l')).
  { intros q' l2 x Hne Hq' Hx. assert (x ∉ l).
    { intros Hl. by pose proof (qr_disj _ _ HR _ _ _ _ _ Hq' Hq Hx Hl). }
    split; [done|]. intros Hx'. destruct (Hnew x Hx') as [|Hn]; [done|].
    apply Hn. by exists q', l2. }
  split.
  - intros q' l2. destruct (decide (q' = q)) as [->|Hne]; intros H2; simplify_map_eq; [done|].
    destruct (qr_queue _ _ HR _ _ H2) as (Q & HQ & ? & ? & Hd & ?).
    exists Q. rewrite Hqs by done. repeat (split; [done|]). split; [|done].
    eapply dseg_ext; [|done]. intros x Hx.
    destruct (Hother _ _ _ Hne H2 Hx). by apply Hns.
  - intros q' Hs. destruct (decide (q' = q)) as [->|Hne]; [by simplify_map_eq|].
    rewrite lookup_insert_ne by done. rewrite Hqs in Hs by done. by apply (qr_dom _ _ HR).
  - intros q1 q2 l1 l2 x H1 H2 Hx1 Hx2.
    destruct (decide (q1 = q)) as [->|], (decide (q2 = q)) as [->|]; simplify_map_eq; try done.
    + by destruct (Hother q2 l2 x) as [_ []].
    + by destruct (Hother q1 l1 x) as [_ []].
    + by eapply (qr_disj _ _ HR).
  - intros x n Hx Hni.
    assert (x ∉ l'). { intros Hl'. apply Hni. exists q, l'. by simplify_map_eq. }
    destruct (decide (x ∈ l)) as [Hl|Hl]; [by eapply Hfree|].
    rewrite Hns in Hx by done. eapply (qr_free _ _ HR); [done|].
    intros (q' & l2 & Hq' & Hx2). apply Hni. exists q', l2.
    rewrite lookup_insert_ne; [done|]. intros <-. naive_solver.
  - destruct (qr_null _ _ HR) as [Hn Hqn].
    destruct (qrep_lookup _ _ _ _ HR Hq) as (Hq0 & _ & _ & _ & _ & Hd & _).
    destruct Hok as (? & ? & ? & ? & Hd' & ?). split.
    + rewrite Hns; [done|intros Hx..].
      * by destruct (dseg_lookup _ _ _ _ _ Hd Hx).
      * by destruct (dseg_lookup _ _ _ _ _ Hd' Hx).
    + by rewrite Hqs.
Qed.

(** Inserting a free node anywhere in a queue. *)
Lemma dseg_insert ns l1 node l2 v pr da :
  dseg ns NULL (l1 ++ l2) NULL -> NoDup (l1 ++ l2) -> node ∉ l1 ++ l2 -> node <> NULL ->
  v = mk_node (default NULL (head l2)) (default NULL (last l1)) 1 pr da ->
  dseg (<[node := v]> (alter_opt (set_next node) (last l1)
                        (alter_opt (set_prev node) (head l2) ns)))
       NULL (l1 ++ node :: l2) NULL.
Proof.
  intros [Hd1 Hd2]%dseg_app (Hn1 & Hdis & Hn2)%NoDup_app Hnl Hn0 ->.
  apply dseg_app. simpl. split; [|split; [done|split]].
  - eapply dseg_ext; [|by eapply dseg_set_next].
    intros x Hx. rewrite lookup_insert_ne by set_solver.
    destruct (decide (last l1 = Some x)) as [Hl|Hl].
    + rewrite Hl. simpl. rewrite !lookup_alter_eq. rewrite lookup_alter_opt_ne; [done|].
      intros Hh%head_elem_of. by apply (Hdis x).
    + rewrite !lookup_alter_opt_ne; try done.
      intros Hh%head_elem_of. by apply (Hdis x).
  - eexists. rewrite lookup_insert_eq. done.
  - eapply dseg_ext; [|by eapply dseg_set_prev].
    intros x Hx. rewrite lookup_insert_ne by set_solver.
    rewrite lookup_alter_opt_ne; [done|]. intros Hl%last_elem_of. by apply (Hdis x).
Qed.

Lemma qrep_insert s s' A q l1 node l2 n pr sz :
  qrep s A -> A !! q = Some (l1 ++ l2) -> qs_nodes s !! node = Some n ->
  ~ enlisted_in A node ->
  qs_queues s' = <[q := mk_queue (default NULL (head (l1 ++ node :: l2)))
                                 (default NULL (last (l1 ++ node :: l2))) sz]> (qs_queues s) ->
  qs_nodes s' = <[node := mk_node (default NULL (head l2)) (default NULL (last l1)) 1 pr (n_data n)]>
    (alter_opt (set_next node) (last l1) (alter_opt (set_prev node) (head l2) (qs_nodes s))) ->
  qrep s' (<[q := l1 ++ node :: l2]> A) /\
  same_payload (<[node := set_priority pr n]> (qs_nodes s)) (qs_nodes s').
Proof.
  intros HR Hq Hn Hni Hqs Hns.
  assert (Hnl : node ∉ l1 ++ l2) by (intros Hl; apply Hni; by exists q, (l1 ++ l2)).
  destruct (qrep_lookup _ _ _ _ HR Hq) as (_ & _ & _ & _ & _ & Hd & Hnd).
  pose proof (qrep_node_ne _ _ _ _ HR Hn) as Hn0. split.
  - eapply qrep_update; [done..| | | | |].
    + eexists. rewrite Hqs, lookup_insert_eq. split; [done|]. split; [done|]. split; [done|].
      split; [rewrite Hns; by eapply dseg_insert|].
      apply NoDup_app in Hnd as (? & Hdis & ?). apply NoDup_app. split; [done|].
      split; [set_solver|]. apply NoDup_cons. set_solver.
    + intros q' Hne. by rewrite Hqs, lookup_insert_ne.
    + intros x Hx1 Hx2. rewrite Hns, lookup_insert_ne by set_solver.
      rewrite !lookup_alter_opt_ne; [done|intros H..].
      * apply head_elem_of in H. set_solver.
      * apply last_elem_of in H. set_solver.
    + intros x Hx. destruct (decide (x = node)) as [->|]; [by right|left; set_solver].
    + set_solver.
  - intros x. rewrite Hns. destruct (decide (x = node)) as [->|Hne];
      [by rewrite !lookup_insert_eq|]. rewrite !lookup_insert_ne by done.
    rewrite (alter_opt_payload (set_next node)) by (by intros []).
    rewrite (alter_opt_payload (set_prev node)) by (by intros []). done.
Qed.

(** A node outside [A] may be pushed: [push] adds it at the head. *)
Lemma push_spec s A q l node n Q :
  qrep s A -> A !! q = Some l -> qs_nodes s !! node = Some n ->
  ~ enlisted_in A node -> qs_queues s !! q = Some Q ->
  exists s', kernel_queue_push node q s = Ret (OS_NO_ERR, s') /\
    qrep s' (<[q := node :: l]> A) /\
    same_payload (qs_nodes s) (qs_nodes s') /\
    q_size <$> qs_queues s' !! q = Some (u32 (q_size Q + 1)) /\
    qs_heap s' = qs_heap s.
Proof.
  intros HR Hq Hn Hni HQ.
  assert (Hnl : node ∉ l) by (intros Hl; apply Hni; by exists q, l).
  destruct (push_run s A q l node n Q) as (s' & Hrun & Hh & Hqs & Hns); [done..|].
  destruct (qrep_insert s s' A q [] node l n (n_priority n) (u32 (q_size Q + 1))) as [HR' Hp];
    [done..| |done|].
  { simpl. rewrite last_cons. by destruct (last l). }
  exists s'. rewrite Hqs, lookup_insert_eq. repeat (split; [done|]).
  split; [|done]. intros x. rewrite Hp. destruct (decide (x = node)) as [->|];
    [by rewrite lookup_insert_eq, Hn|by rewrite lookup_insert_ne].
Qed.
End Frame.

Section PopRemove.
Context {ops : AllocOps}.
Implicit Types (s : qstore) (A : gmap Z (list Z)).

(** What the caller finds in a node that has left its queue. *)
Definition freed (n : kernel_queue_node) : kernel_queue_node :=
  mk_node NULL NULL 0 (n_priority n) (n_data n).

(** Removing [x] from the middle of the representation. *)
Lemma qrep_remove s s' A q l1 x l2 n sz :
  qrep s A -> A !! q = Some (l1 ++ x :: l2) -> qs_nodes s !! x = Some n ->
  qs_queues s' = <[q := mk_queue (default NULL (head (l1 ++ l2)))
                                 (default NULL (last (l1 ++ l2))) sz]> (qs_queues s) ->
  qs_nodes s' = <[x := freed n]> (relink l1 l2 NULL NULL (qs_nodes s)) ->
  qrep s' (<[q := l1 ++ l2]> A) /\ same_payload (qs_nodes s) (qs_nodes s').
Proof.
  intros HR Hq Hx Hqs Hns.
  destruct (qrep_lookup _ _ _ _ HR Hq) as (_ & _ & _ & _ & _ & Hd & Hnd).
  apply dseg_app in Hd as [Hd1 (_ & _ & Hd2)]. simpl in *.
  apply NoDup_app in Hnd as (Hn1 & Hdis & [Hx2 Hn2]%NoDup_cons).
  assert (Hx1 : x ∉ l1) by (intros H; specialize (Hdis x H); set_solver).
  assert (Hnd : NoDup (l1 ++ l2)).
  { apply NoDup_app. split; [done|]. split; [|done]. intros y Hy. specialize (Hdis y Hy).
    set_solver. }
  split.
  - eapply qrep_update; [done..| | | | |].
    + eexists. rewrite Hqs, lookup_insert_eq. split; [done|]. split; [done|].
      split; [done|]. split; [|done].
      eapply dseg_ext; [|by eapply dseg_join].
      intros y Hy. rewrite Hns, lookup_insert_ne; [done|]. set_solver.
    + intros q' Hne. by rewrite Hqs, lookup_insert_ne.
    + intros y Hy1 Hy2. rewrite Hns, lookup_insert_ne by set_solver.
      apply lookup_relink_ne; set_solver.
    + intros y Hy. left. set_solver.
    + intros y m Hy Hy'. assert (y = x) as -> by set_solver.
      rewrite Hns, lookup_insert_eq. by intros [= <-].
  - eapply same_payload_trans; [apply (relink_payload l1 l2 NULL NULL)|].
    intros y. rewrite Hns. destruct (decide (y = x)) as [->|Hne].
    + rewrite lookup_insert_eq, lookup_relink_ne, Hx by done. done.
    + by rewrite lookup_insert_ne.
Qed.

Lemma pop_run s A q l x n Q :
  qrep s A -> A !! q = Some (l ++ [x]) -> qs_nodes s !! x = Some n ->
  qs_queues s !! q = Some Q ->
  exists s', kernel_queue_pop q s = Ret ((x, OS_NO_ERR), s') /\
    qs_heap s' = qs_heap s /\
    qs_queues s' = <[q := mk_queue (default NULL (head l)) (default NULL (last l))
                                   (u32 (q_size Q - 1))]> (qs_queues s) /\
    qs_nodes s' = <[x := freed n]> (relink l [] NULL NULL (qs_nodes s)).
Proof.
  intros HR Hq Hx HQ.
  destruct (qrep_lookup _ _ _ _ HR Hq) as (Hq0 & Q' & HQ' & Hh & Ht & Hd & Hnd). simplify_eq.
  assert (Hh0 : q_head Q <> NULL).
  { rewrite Hh. eapply dseg_head_ne; [done|]. by destruct l. }
  rewrite last_snoc in Ht. apply dseg_app in Hd as [Hd (Hx0 & (n' & Hn' & Hp & Hnx & He) & _)].
  simplify_eq. simpl in *.
  unfold kernel_queue_pop. rewrite decide_False by done. qstep. rewrite decide_False by done.
  destruct (last l) as [y|] eqn:Hl.
  - pose proof Hl as (l' & ->)%last_Some.
    apply dseg_app in Hd as [_ (Hy0 & (m & Hm & _) & _)].
    apply NoDup_app in Hnd as (_ & Hdis & _). specialize (Hdis y). 
    assert (x <> y) by set_solver.
    rewrite Ht. simpl. qsteps. rewrite Hp. simpl in *. qsteps.
    eexists. split; [done|]. simpl. split; [done|]. split.
    + rewrite !insert_insert_eq. unfold set_size, set_tail; simpl. rewrite Hh, Hp.
      by destruct l'.
    + unfold relink. simpl. rewrite Hl. simpl. map_ext.
  - apply last_None in Hl as ->. simpl in *.
    rewrite Ht. simpl. qsteps.
    eexists. split; [done|]. simpl. split; [done|]. split; [by rewrite !insert_insert_eq|].
    unfold relink; simpl. map_ext.
Qed.

Lemma pop_spec s A q l x Q :
  qrep s A -> A !! q = Some (l ++ [x]) -> qs_queues s !! q = Some Q ->
  exists s', kernel_queue_pop q s = Ret ((x, OS_NO_ERR), s') /\
    qrep s' (<[q := l]> A) /\ same_payload (qs_nodes s) (qs_nodes s') /\
    q_size <$> qs_queues s' !! q = Some (u32 (q_size Q - 1)) /\
    qs_heap s' = qs_heap s.
Proof.
  intros HR Hq HQ.
  destruct (qrep_lookup _ _ _ _ HR Hq) as (Hq0 & _ & _ & _ & _ & Hd & _).
  destruct (dseg_lookup _ _ _ _ x Hd) as (_ & n & Hn & _); [set_solver|].
  destruct (pop_run s A q l x n Q) as (s' & Hrun & Hh & Hqs & Hns); [done..|].
  destruct (qrep_remove s s' A q l x [] n (u32 (q_size Q - 1))) as [HR' Hp];
    [done|done|done|by rewrite app_nil_r|done|].
  rewrite app_nil_r in HR'. exists s'. rewrite Hqs, lookup_insert_eq. done.
Qed.

Lemma pop_empty s A q :
  qrep s A -> A !! q = Some [] -> kernel_queue_pop q s = Ret ((NULL, OS_NO_ERR), s).
Proof.
  intros HR Hq. destruct (qrep_lookup _ _ _ _ HR Hq) as (Hq0 & Q & HQ & Hh & _).
  unfold kernel_queue_pop. simpl in Hh. qsteps. done.
Qed.
End PopRemove.

(** ** Walks *)
Section Walk.
Context {ops : AllocOps}.
Implicit Types (s : qstore) (A : gmap Z (list Z)).

(** [stop] holds of no node of [l1] and of the first node of [l2]. *)
Definition split_at (stop : Z -> kernel_queue_node -> bool)
    (ns : gmap Z kernel_queue_node) (l1 l2 : list Z) : Prop :=
  (forall x n, x ∈ l1 -> ns !! x = Some n -> stop x n = false) /\
  (forall x n, head l2 = Some x -> ns !! x = Some n -> stop x n = true).

Lemma walk_ok stop s p l fuel :
  dseg (qs_nodes s) p l NULL -> (length l < fuel)%nat ->
  exists l1 l2, l = l1 ++ l2 /\ split_at stop (qs_nodes s) l1 l2 /\
    walk stop fuel (default NULL (head l)) s = Ret (default NULL (head l2), s).
Proof.
  revert p fuel. induction l as [|x l IH]; intros p [|fuel] Hd Hf; simpl in *; try lia;
    unfold walk; fold walk.
  - exists [], []. split; [done|]. split; [|done]. split; [set_solver|done].
  - destruct Hd as (Hx & (n & Hn & _ & Hnx & _) & Hd).
    rewrite decide_False by done. erewrite exec_get_node by done.
    destruct (stop x n) eqn:Hs.
    + exists [], (x :: l). split; [done|]. split; [|done].
      split; [set_solver|]. simpl. intros ? ? [= ->] ?. by simplify_eq.
    + destruct (IH x fuel) as (l1 & l2 & -> & [H1 H2] & Hw); [done|lia|].
      exists (x :: l1), l2. split; [done|]. split; [|by rewrite Hnx].
      split; [|done]. intros y m [->|Hy]%elem_of_cons Hm; [by simplify_eq|eauto].
Qed.

Lemma dseg_length ns p l nx :
  dseg ns p l nx -> NoDup l -> (length l <= size ns)%nat.
Proof.
  intros Hd Hnd. rewrite <- (size_list_to_set (C := gset Z)) by done.
  rewrite <- size_dom. apply subseteq_size. intros x Hx%elem_of_list_to_set.
  destruct (dseg_lookup _ _ _ _ _ Hd Hx) as (_ & n & Hn & _). apply elem_of_dom. eauto.
Qed.

Lemma queue_walk stop s A q l Q :
  qrep s A -> A !! q = Some l -> qs_queues s !! q = Some Q ->
  exists l1 l2, l = l1 ++ l2 /\ split_at stop (qs_nodes s) l1 l2 /\
    walk stop (walk_fuel s) (q_head Q) s = Ret (default NULL (head l2), s).
Proof.
  intros HR Hq HQ.
  destruct (qrep_lookup _ _ _ _ HR Hq) as (_ & Q' & HQ' & Hh & _ & Hd & Hnd). simplify_eq.
  rewrite Hh. eapply walk_ok; [done|]. unfold walk_fuel.
  pose proof (dseg_length _ _ _ _ Hd Hnd). lia.
Qed.

Lemma find_spec s A q l data :
  qrep s A -> A !! q = Some l ->
  (exists l1 x l2 n, l = l1 ++ x :: l2 /\ qs_nodes s !! x = Some n /\ n_data n = data /\
     (forall y m, y ∈ l1 -> qs_nodes s !! y = Some m -> n_data m <> data) /\
     kernel_queue_find q data s = Ret ((x, OS_NO_ERR), s)) \/
  ((forall y m, y ∈ l -> qs_nodes s !! y = Some m -> n_data m <> data) /\
     kernel_queue_find q data s = Ret ((NULL, OS_ERR_NO_SUCH_ID), s)).
Proof.
  intros HR Hq.
  destruct (qrep_lookup _ _ _ _ HR Hq) as (Hq0 & Q & HQ & Hh & Ht & Hd & Hnd).
  destruct (queue_walk (stop_data data) s A q l Q) as (l1 & l2 & -> & [H1 H2] & Hw); [done..|].
  assert (Hrun : kernel_queue_find q data s =
    Ret (if decide (default NULL (head l2) = NULL) then (NULL, OS_ERR_NO_SUCH_ID)
         else (default NULL (head l2), OS_NO_ERR), s)).
  { unfold kernel_queue_find. qsteps. rewrite (bind_ret _ _ _ _ _ Hw). by case_decide. }
  rewrite Hrun.
  assert (H1' : forall y m, y ∈ l1 -> qs_nodes s !! y = Some m -> n_data m <> data).
  { intros y m Hy Hm. specialize (H1 _ _ Hy Hm). by apply bool_decide_eq_false in H1. }
  destruct l2 as [|x l2]; simpl.
  - right. rewrite app_nil_r. done.
  - left. apply dseg_app in Hd as [_ (Hx & (n & Hn & _) & _)].
    specialize (H2 x n eq_refl Hn). apply bool_decide_eq_true in H2.
    rewrite decide_False by done. exists l1, x, l2, n. done.
Qed.
End Walk.

(** ** Removal and ordered insertion *)
Section RemovePrio.
Context {ops : AllocOps}.
Implicit Types (s : qstore) (A : gmap Z (list Z)).

Lemma remove_absent s A q l node :
  qrep s A -> A !! q = Some l -> node <> NULL -> node ∉ l ->
  kernel_queue_remove q node s = Ret (OS_ERR_NO_SUCH_ID, s).
Proof.
  intros HR Hq Hn0 Hnl.
  destruct (qrep_lookup _ _ _ _ HR Hq) as (Hq0 & Q & HQ & Hh & Ht & Hd & Hnd).
  destruct (queue_walk (stop_node node) s A q l Q) as (l1 & l2 & -> & [H1 H2] & Hw); [done..|].
  unfold kernel_queue_remove. qsteps. rewrite (bind_ret _ _ _ _ _ Hw).
  destruct l2 as [|x l2]; [done|]. exfalso.
  apply dseg_app in Hd as [_ (Hx & (n & Hn & _) & _)].
  specialize (H2 x n eq_refl Hn). apply bool_decide_eq_true in H2. set_solver.
Qed.

(** The walk of [kernel_queue_remove] stops on the node itself. *)
Lemma remove_walk s A q l1 node l2 Q :
  qrep s A -> A !! q = Some (l1 ++ node :: l2) -> qs_queues s !! q = Some Q ->
  walk (stop_node node) (walk_fuel s) (q_head Q) s = Ret (node, s).
Proof.
  intros HR Hq HQ.
  destruct (qrep_lookup _ _ _ _ HR Hq) as (_ & _ & _ & _ & _ & Hd & _).
  destruct (queue_walk (stop_node node) s A q (l1 ++ node :: l2) Q)
    as (k1 & k2 & Hk & [H1 H2] & ->); [done..|]. do 2 f_equal.
  pose proof Hd as [_ (Hx & (n & Hn & _) & _)]%dseg_app.
  destruct (decide (node ∈ k1)) as [Hin|Hin].
  - specialize (H1 _ _ Hin Hn). by apply bool_decide_eq_false in H1.
  - destruct k2 as [|y k2]; [rewrite app_nil_r in Hk; set_solver|]. simpl.
    rewrite Hk in Hd. apply dseg_app in Hd as [_ (Hy & (m & Hm & _) & _)].
    specialize (H2 y m eq_refl Hm). by apply bool_decide_eq_true in H2.
Qed.

(** The neighbours of a node in its queue. *)
Lemma dseg_neighbours ns l1 node l2 :
  dseg ns NULL (l1 ++ node :: l2) NULL -> NoDup (l1 ++ node :: l2) ->
  (node <> NULL /\ (node ∉ l1) /\ (node ∉ l2)) /\
  (exists n, ns !! node = Some n /\ n_prev n = default NULL (last l1) /\
             n_next n = default NULL (head l2)) /\
  (forall y, last l1 = Some y -> y <> NULL /\ y <> node /\ exists m, ns !! y = Some m) /\
  (forall z, head l2 = Some z ->
     z <> NULL /\ z <> node /\ last l1 <> Some z /\ exists m, ns !! z = Some m).
Proof.
  intros [Hd1 (Hx & (n & Hn & Hp & Hnx & He) & Hd2)]%dseg_app
    (Hn1 & Hdis & [Hx2 Hn2]%NoDup_cons)%NoDup_app. simpl in *.
  assert (Hx1 : node ∉ l1) by (intros H; specialize (Hdis _ H); set_solver).
  split; [done|]. split; [eauto|]. split.
  - intros y Hy%last_elem_of. destruct (dseg_lookup _ _ _ _ _ Hd1 Hy) as (? & m & ? & _).
    split; [done|]. split; [set_solver|eauto].
  - intros z Hz%head_elem_of. destruct (dseg_lookup _ _ _ _ _ Hd2 Hz) as (? & m & ? & _).
    split; [done|]. split; [set_solver|]. split; [|eauto].
    intros Hl%last_elem_of. specialize (Hdis _ Hl). set_solver.
Qed.

Lemma remove_run s A q l1 node l2 Q n :
  qrep s A -> A !! q = Some (l1 ++ node :: l2) -> qs_queues s !! q = Some Q ->
  qs_nodes s !! node = Some n ->
  exists s', kernel_queue_remove q node s = Ret (OS_NO_ERR, s') /\
    qs_heap s' = qs_heap s /\
    qs_queues s' = <[q := mk_queue (default NULL (head (l1 ++ l2)))
                                   (default NULL (last (l1 ++ l2))) (q_size Q)]> (qs_queues s) /\
    qs_nodes s' = <[node := freed n]> (relink l1 l2 NULL NULL (qs_nodes s)).
Proof.
  intros HR Hq HQ Hn. pose proof (remove_walk _ _ _ _ _ _ _ HR Hq HQ) as Hw.
  destruct (qrep_lookup _ _ _ _ HR Hq) as (Hq0 & Q' & HQ' & Hh & Ht & Hd & Hnd). simplify_eq.
  destruct (dseg_neighbours _ _ _ _ Hd Hnd) as ((Hx & _) & (n' & Hn' & Hp & Hnx) & Hl1 & Hl2).
  simplify_eq. rewrite head_app in Hh. rewrite last_app, last_cons in Ht.
  clear HR Hq Hd Hnd.
  unfold kernel_queue_remove. qsteps. rewrite (bind_ret _ _ _ _ _ Hw). clear Hw. qstep. qstep.
  unfold relink. rewrite head_app, last_app. destruct Q as [Qh Qt Qs]. simpl in *.
  assert (Hlast : last l2 = None <-> head l2 = None) by (rewrite last_None, head_None; done).
  assert (Hhead : last l1 = None <-> head l1 = None) by (rewrite last_None, head_None; done).
  destruct (last l1) as [y|] eqn:El1, (head l2) as [z|] eqn:El2; simpl in Hp, Hnx;
    rewrite Hp, Hnx.
  - destruct (Hl1 y) as (? & ? & m1 & ?), (Hl2 z) as (? & ? & ? & m2 & ?); [done..|].
    assert (y <> z) by congruence. clear Hl1 Hl2.
    qsteps. eexists. split; [done|]. simpl. split; [done|]. split; [|map_ext].
    rewrite insert_id; [done|]. rewrite HQ. simpl.
    destruct (head l1); [|naive_solver]. destruct (last l2); [|naive_solver].
    simpl in *. by subst.
  - destruct (Hl1 y) as (? & ? & m1 & ?); [done|]. clear Hl1 Hl2.
    qsteps. eexists. split; [done|]. simpl. split; [done|]. split; [|map_ext].
    destruct (head l1); [|naive_solver]. destruct (last l2); [naive_solver|]. simpl in *. by subst.
  - destruct (Hl2 z) as (? & ? & ? & m2 & ?); [done..|]. clear Hl1 Hl2.
    qsteps. eexists. split; [done|]. simpl. split; [done|]. split; [|map_ext].
    destruct (head l1); [naive_solver|]. destruct (last l2); [|naive_solver]. simpl in *. by subst.
  - clear Hl1 Hl2. qsteps. eexists. split; [done|]. simpl. split; [done|]. split; [|map_ext].
    rewrite insert_insert_eq. destruct (head l1); [naive_solver|].
    destruct (last l2); [naive_solver|]. done.
Qed.

(** [remove] unlinks the node, but it leaves the [size] field unchanged. *)
Lemma remove_spec s A q l1 node l2 Q :
  qrep s A -> A !! q = Some (l1 ++ node :: l2) -> qs_queues s !! q = Some Q ->
  exists s', kernel_queue_remove q node s = Ret (OS_NO_ERR, s') /\
    qrep s' (<[q := l1 ++ l2]> A) /\ same_payload (qs_nodes s) (qs_nodes s') /\
    q_size <$> qs_queues s' !! q = Some (q_size Q) /\
    qs_heap s' = qs_heap s.
Proof.
  intros HR Hq HQ.
  destruct (qrep_lookup _ _ _ _ HR Hq) as (_ & _ & _ & _ & _ & Hd & _).
  destruct (dseg_lookup _ _ _ _ node Hd) as (_ & n & Hn & _); [set_solver|].
  destruct (remove_run _ _ _ _ _ _ _ n HR Hq HQ Hn) as (s' & Hrun & Hh & Hqs & Hns).
  destruct (qrep_remove s s' A q l1 node l2 n (q_size Q)) as [HR' Hpay]; [done..|].
  exists s'. rewrite Hqs, lookup_insert_eq. done.
Qed.
End RemovePrio.

(** ** Ordered insertion *)
Section PushPrio.
Context {ops : AllocOps}.
Implicit Types (s : qstore) (A : gmap Z (list Z)).

Definition prio_of (ns : gmap Z kernel_queue_node) (x : Z) : Z :=
  match ns !! x with Some n => n_priority n | None => 0 end.

(** From head to tail, priorities never increase. *)
Definition prio_sorted (ns : gmap Z kernel_queue_node) (l : list Z) : Prop :=
  StronglySorted (fun x y => prio_of ns y <= prio_of ns x) l.

(** The body of the function once the walk has found its place. *)
Lemma push_prio_link s q l1 l2 node n Q prio :
  let s1 := with_nodes (<[node := set_priority prio n]> (qs_nodes s)) s in
  walk (stop_prio prio) (walk_fuel s1) (q_head Q) s1 = Ret (default NULL (head l2), s1) ->
  dseg (qs_nodes s) NULL (l1 ++ l2) NULL -> NoDup (l1 ++ l2) ->
  q <> NULL -> node <> NULL -> node ∉ l1 ++ l2 -> qs_nodes s !! node = Some n ->
  qs_queues s !! q = Some Q ->
  q_head Q = default NULL (head (l1 ++ l2)) -> q_tail Q = default NULL (last (l1 ++ l2)) ->
  exists s', kernel_queue_push_prio node q prio s = Ret (OS_NO_ERR, s') /\
    qs_heap s' = qs_heap s /\
    qs_queues s' = <[q := mk_queue (default NULL (head (l1 ++ node :: l2)))
                                   (default NULL (last (l1 ++ node :: l2)))
                                   (u32 (q_size Q + 1))]> (qs_queues s) /\
    qs_nodes s' =
      <[node := mk_node (default NULL (head l2)) (default NULL (last l1)) 1 prio (n_data n)]>
      (alter_opt (set_next node) (last l1) (alter_opt (set_prev node) (head l2) (qs_nodes s))).
Proof.
  intros s1 Hw Hd Hnd Hq0 Hn0 Hnl Hn HQ Hh Ht.
  unfold kernel_queue_push_prio. qstep. qstep. qstep.
  assert (Hl : forall y, y ∈ l1 ++ l2 -> y <> NULL /\ y <> node /\ exists m, qs_nodes s !! y = Some m).
  { intros y Hy. destruct (dseg_lookup _ _ _ _ _ Hd Hy) as (? & m & ? & _).
    split; [done|]. split; [set_solver|eauto]. }
  destruct l2 as [|z l2].
  - rewrite app_nil_r in *. destruct l1 as [|y l1 _] using rev_ind; simpl in *.
    + qsteps. erewrite check_links_ok by (simpl; first [by simplify_map_eq | by auto]).
      eexists. split; [done|]. simpl. split; [done|]. split; [by rewrite !insert_insert_eq|map_ext].
    + rewrite !last_snoc in *. simpl in Ht.
      assert (q_head Q <> NULL) by (rewrite Hh; eapply dseg_head_ne; [done|]; by destruct l1).
      destruct (Hl y) as (? & ? & m & Hm); [set_solver|]. clear Hl.
      qstep. qstep. rewrite ?bind_assoc. rewrite (bind_ret _ _ _ _ _ Hw).
      rewrite Ht. qsteps. erewrite check_links_ok by (simpl; first [by simplify_map_eq | by auto]).
      eexists. split; [done|]. simpl. split; [done|]. split; [|map_ext].
      rewrite !insert_insert_eq. unfold set_size, set_tail; simpl. rewrite Hh. by destruct l1.
  - assert (q_head Q <> NULL) by (rewrite Hh; eapply dseg_head_ne; [done|]; by destruct l1).
    destruct (Hl z) as (? & ? & m & Hm); [set_solver|].
    apply dseg_app in Hd as [Hd (_ & (m' & Hm' & Hp & _ & _) & _)]. simplify_eq.
    qstep. qstep. rewrite ?bind_assoc. rewrite (bind_ret _ _ _ _ _ Hw). simpl.
    rewrite last_app in Ht. rewrite head_app in Hh. rewrite head_app, last_app.
    destruct (last l1) as [y|] eqn:El1; simpl in Hp.
    + assert (Hy : y ∈ l1) by (by apply last_elem_of).
      destruct (Hl y) as (? & ? & my & Hmy); [set_solver|]. clear Hl.
      assert (y <> z).
      { intros ->. apply NoDup_app in Hnd as (_ & Hnd & _). specialize (Hnd _ Hy). set_solver. }
      qsteps. rewrite Hp. qsteps.
      erewrite check_links_ok by (simpl; first [by simplify_map_eq | simpl; rewrite ?Hp; by auto]).
      eexists. split; [done|]. simpl. split; [done|]. split; [|map_ext].
      unfold set_size. rewrite Ht, Hh. by destruct l1.
    + apply last_None in El1 as ->. clear Hl. simpl in *.
      qsteps. rewrite Hp. simpl. qsteps.
      erewrite check_links_ok by (simpl; first [by simplify_map_eq | simpl; rewrite ?Hp; by auto]).
      eexists. split; [done|]. simpl. split; [done|]. split; [|map_ext].
      rewrite !insert_insert_eq. unfold set_size, set_head; simpl. rewrite Ht.
      by destruct (last (z :: l2)).
Qed.

(** The node lands after every node of strictly larger priority and before
    the first one whose priority is at most its own. *)
Lemma push_prio_spec s A q l node n Q prio :
  qrep s A -> A !! q = Some l -> qs_nodes s !! node = Some n ->
  ~ enlisted_in A node -> qs_queues s !! q = Some Q ->
  exists l1 l2 s', l = l1 ++ l2 /\
    (forall x, x ∈ l1 -> prio < prio_of (qs_nodes s) x) /\
    (forall x, head l2 = Some x -> prio_of (qs_nodes s) x <= prio) /\
    kernel_queue_push_prio node q prio s = Ret (OS_NO_ERR, s') /\
    qrep s' (<[q := l1 ++ node :: l2]> A) /\
    same_payload (<[node := set_priority prio n]> (qs_nodes s)) (qs_nodes s') /\
    q_size <$> qs_queues s' !! q = Some (u32 (q_size Q + 1)) /\
    qs_heap s' = qs_heap s.
Proof.
  intros HR Hq Hn Hni HQ.
  assert (Hnl : node ∉ l) by (intros Hl; apply Hni; by exists q, l).
  pose proof (qrep_node_ne _ _ _ _ HR Hn) as Hn0.
  destruct (qrep_lookup _ _ _ _ HR Hq) as (Hq0 & Q' & HQ' & Hh & Ht & Hd & Hnd). simplify_eq.
  set (s1 := with_nodes (<[node := set_priority prio n]> (qs_nodes s)) s).
  assert (Hl : forall x, x ∈ l -> qs_nodes s1 !! x = qs_nodes s !! x).
  { intros x Hx. simpl. rewrite lookup_insert_ne; [done|set_solver]. }
  assert (Hd1 : dseg (qs_nodes s1) NULL l NULL) by (by eapply dseg_ext).
  destruct (walk_ok (stop_prio prio) s1 NULL l (walk_fuel s1)) as (l1 & l2 & -> & [H1 H2] & Hw);
    [done| |].
  { unfold walk_fuel. pose proof (dseg_length _ _ _ _ Hd1 Hnd). lia. }
  rewrite <- Hh in Hw.
  destruct (push_prio_link s q l1 l2 node n Q prio) as (s' & Hrun & Hhp & Hqs & Hns); [done..|].
  destruct (qrep_insert s s' A q l1 node l2 n prio (u32 (q_size Q + 1))) as [HR' Hp]; [done..|].
  exists l1, l2, s'. split; [done|].
  assert (Hlook : forall x, x ∈ l1 ++ l2 -> exists m, qs_nodes s1 !! x = Some m /\
                    prio_of (qs_nodes s) x = n_priority m).
  { intros x Hx. destruct (dseg_lookup _ _ _ _ _ Hd1 Hx) as (_ & m & Hm & _).
    exists m. split; [done|]. unfold prio_of. rewrite <- Hl by done. by rewrite Hm. }
  split; [|split; [|rewrite Hqs, lookup_insert_eq; done]].
  - intros x Hx. destruct (Hlook x) as (m & Hm & ->); [set_solver|].
    specialize (H1 _ _ Hx Hm). apply bool_decide_eq_false in H1. lia.
  - intros x Hx. destruct (Hlook x) as (m & Hm & ->); [apply head_elem_of in Hx; set_solver|].
    specialize (H2 _ _ Hx Hm). by apply bool_decide_eq_true in H2.
Qed.

Lemma prio_sorted_app ns l1 l2 :
  prio_sorted ns (l1 ++ l2) <->
  prio_sorted ns l1 /\ prio_sorted ns l2 /\
  forall x y, x ∈ l1 -> y ∈ l2 -> prio_of ns y <= prio_of ns x.
Proof.
  unfold prio_sorted. induction l1 as [|x l1 IH]; simpl.
  - split; [|tauto]. intros. split; [constructor|]. split; [done|set_solver].
  - split.
    + intros [Hs Hf]%StronglySorted_inv. apply IH in Hs as (H1 & H2 & H3).
      rewrite Forall_app, !Forall_forall in Hf. destruct Hf as [Hf1 Hf2].
      split; [constructor; [done|by apply Forall_forall]|]. split; [done|].
      intros a b [->|Ha]%elem_of_cons Hb; auto.
    + intros ([Hs Hf]%StronglySorted_inv & H2 & H3). constructor.
      * apply IH. split; [done|]. split; [done|]. set_solver.
      * apply Forall_app. split; [done|]. apply Forall_forall. set_solver.
Qed.

Lemma prio_sorted_ext ns ns' l :
  (forall x, x ∈ l -> prio_of ns' x = prio_of ns x) -> prio_sorted ns l -> prio_sorted ns' l.
Proof.
  unfold prio_sorted. induction l as [|x l IH]; intros He; [constructor|].
  intros [Hs Hf]%StronglySorted_inv. constructor.
  - apply IH; [|done]. set_solver.
  - rewrite Forall_forall in *. intros y Hy. rewrite !He by set_solver. auto.
Qed.

Lemma same_payload_prio ns ns' x : same_payload ns ns' -> prio_of ns' x = prio_of ns x.
Proof.
  intros H. specialize (H x). unfold prio_of.
  destruct (ns !! x), (ns' !! x); simpl in *; try done. by injection H.
Qed.

Lemma push_prio_sorted s A q l node n Q prio :
  qrep s A -> A !! q = Some l -> qs_nodes s !! node = Some n ->
  ~ enlisted_in A node -> qs_queues s !! q = Some Q -> prio_sorted (qs_nodes s) l ->
  exists l' s', kernel_queue_push_prio node q prio s = Ret (OS_NO_ERR, s') /\
    qrep s' (<[q := l']> A) /\ prio_sorted (qs_nodes s') l' /\ l' ≡ₚ node :: l /\
    same_payload (<[node := set_priority prio n]> (qs_nodes s)) (qs_nodes s').
Proof.
  intros HR Hq Hn Hni HQ Hs.
  assert (Hnl : node ∉ l) by (intros Hl; apply Hni; by exists q, l).
  destruct (push_prio_spec s A q l node n Q prio)
    as (l1 & l2 & s' & -> & Hlt & Hge & Hrun & HR' & Hp & _); [done..|].
  exists (l1 ++ node :: l2), s'. split; [done|]. split; [done|].
  split; [|split; [by rewrite Permutation_middle|done]].
  assert (Hold : forall x, x ∈ l1 ++ l2 -> prio_of (qs_nodes s') x = prio_of (qs_nodes s) x).
  { intros x Hx. rewrite (same_payload_prio _ _ _ Hp). unfold prio_of.
    rewrite lookup_insert_ne; [done|set_solver]. }
  assert (Hnew : prio_of (qs_nodes s') node = prio).
  { rewrite (same_payload_prio _ _ _ Hp). unfold prio_of. by rewrite lookup_insert_eq. }
  apply prio_sorted_app in Hs as (Hs1 & Hs2 & Hs3).
  assert (Hle : forall y, y ∈ l2 -> prio_of (qs_nodes s) y <= prio).
  { intros y Hy. destruct l2 as [|z l2]; [set_solver|]. specialize (Hge z eq_refl).
    apply StronglySorted_inv in Hs2 as [_ Hf]. rewrite Forall_forall in Hf.
    apply elem_of_cons in Hy as [->|Hy]; [done|]. specialize (Hf _ Hy). lia. }
  apply prio_sorted_app. split; [|split].
  - eapply prio_sorted_ext; [|done]. intros. apply Hold. set_solver.
  - constructor; [eapply prio_sorted_ext; [|done]; intros; apply Hold; set_solver|].
    apply Forall_forall. intros y Hy. rewrite Hnew, Hold by set_solver. auto.
  - intros x y Hx [->|Hy]%elem_of_cons.
    + rewrite Hnew, Hold by set_solver. specialize (Hlt _ Hx). lia.
    + rewrite !Hold by set_solver. auto.
Qed.

(** Popping an ordered queue gives a node of least priority value. *)
Lemma pop_sorted_min s A q l x Q :
  qrep s A -> A !! q = Some (l ++ [x]) -> qs_queues s !! q = Some Q ->
  prio_sorted (qs_nodes s) (l ++ [x]) ->
  (forall y, y ∈ l ++ [x] -> prio_of (qs_nodes s) x <= prio_of (qs_nodes s) y) /\
  exists s', kernel_queue_pop q s = Ret ((x, OS_NO_ERR), s') /\
    qrep s' (<[q := l]> A) /\ prio_sorted (qs_nodes s') l.
Proof.
  intros HR Hq HQ Hs.
  destruct (pop_spec s A q l x Q) as (s' & Hrun & HR' & Hp & _); [done..|].
  apply prio_sorted_app in Hs as (Hs1 & _ & Hs3). split.
  - intros y [Hy|Hy%list_elem_of_singleton]%elem_of_app; [|subst; lia]. apply Hs3; set_solver.
  - exists s'. split; [done|]. split; [done|]. eapply prio_sorted_ext; [|done].
    intros. by apply same_payload_prio.
Qed.
End PushPrio.

(** ** Creation and deletion *)
Section Life.
Context {ops : AllocOps} {spec : AllocSpec ops}.
Implicit Types (s : qstore) (A : gmap Z (list Z)) (L : gmap Z Z).

Lemma exec_kmalloc s L n (HH : qheap s L) (Hn : 0 <= n <= kmalloc_max) :
  q_kmalloc n s = Ret (NULL, s) \/
  exists p m h, q_kmalloc n s = Ret (p, with_heap h s) /\ p <> NULL /\ n <= m /\
    L !! p = None /\ block_fresh L p m /\ heap_rep h (<[p := m]> L).
Proof.
  unfold q_kmalloc. destruct (kmalloc n (qs_heap s)) as [p h] eqn:E.
  destruct (kmalloc_spec _ _ _ _ _ (qh_rep _ _ HH) Hn E) as [[-> ->]|(Hp & m & ?)].
  - left. by destruct s.
  - right. exists p, m, h. naive_solver.
Qed.

(** No typed object sits at the address of a block that is not live. *)
Lemma qheap_fresh s L p : qheap s L -> L !! p = None ->
  qs_nodes s !! p = None /\ qs_queues s !! p = None.
Proof.
  intros HH Hp. split; apply eq_None_not_Some; intros [x Hx].
  - destruct (qh_node _ _ HH _ _ Hx) as (m & ? & _). congruence.
  - destruct (qh_queue _ _ HH _ _ Hx) as (m & ? & _). congruence.
Qed.

Lemma create_node_spec s A L data :
  qrep s A -> qheap s L ->
  kernel_queue_create_node data s = Ret ((NULL, OS_ERR_MALLOC), s) \/
  exists p m s', kernel_queue_create_node data s = Ret ((p, OS_NO_ERR), s') /\
    p <> NULL /\ L !! p = None /\ ~ enlisted_in A p /\
    qs_nodes s' = <[p := mk_node NULL NULL 0 0 data]> (qs_nodes s) /\
    qs_queues s' = qs_queues s /\
    qrep s' A /\ qheap s' (<[p := m]> L).
Proof.
  intros HR HH. unfold kernel_queue_create_node.
  destruct (exec_kmalloc s L sizeof_kernel_queue_node HH) as [Hk|(p & m & h & Hk & Hp & Hm & Hf & Hb & Hr)];
    [by unfold sizeof_kernel_queue_node, kmalloc_max; lia| |]; rewrite (bind_ret _ _ _ _ _ Hk).
  { by left. }
  right. destruct (qheap_fresh _ _ _ HH Hf) as [Hfn Hfq].
  assert (Hni : ~ enlisted_in A p).
  { intros (q & l & Hq & Hin). destruct (qrep_lookup _ _ _ _ HR Hq) as (_ & _ & _ & _ & _ & Hd & _).
    destruct (dseg_lookup _ _ _ _ _ Hd Hin) as (_ & n & ? & _). congruence. }
  rewrite decide_False by done. eexists p, m, _. split; [done|].
  split; [done|]. split; [done|]. split; [done|]. split; [done|]. split; [done|]. split.
  - split; simpl.
    + intros q l Hq. destruct (qr_queue _ _ HR _ _ Hq) as (Q & HQ & ? & ? & Hd & ?).
      exists Q. repeat (split; [done|]). split; [|done]. eapply dseg_ext; [|done].
      intros x Hx. simpl. rewrite lookup_insert_ne; [done|]. intros ->. apply Hni. by exists q, l.
    + apply (qr_dom _ _ HR).
    + apply (qr_disj _ _ HR).
    + intros x n Hx Hne. destruct (decide (x = p)) as [->|]; simplify_map_eq; [done|].
      by eapply (qr_free _ _ HR).
    + rewrite lookup_insert_ne by done. apply (qr_null _ _ HR).
  - split; simpl.
    + done.
    + intros x n Hx. destruct (decide (x = p)) as [->|]; simplify_map_eq; [eauto|].
      by apply (qh_node _ _ HH) in Hx.
    + intros q Q HQ. destruct (decide (q = p)) as [->|]; [congruence|].
      rewrite lookup_insert_ne by done. by apply (qh_queue _ _ HH) in HQ.
    + intros x n Hx. destruct (decide (x = p)) as [->|]; simplify_map_eq; [done|].
      by eapply (qh_typed _ _ HH).
Qed.

Lemma create_queue_spec s A L :
  qrep s A -> qheap s L ->
  kernel_queue_create_queue s = Ret ((NULL, OS_ERR_MALLOC), s) \/
  exists p m s', kernel_queue_create_queue s = Ret ((p, OS_NO_ERR), s') /\
    p <> NULL /\ L !! p = None /\ A !! p = None /\
    qs_nodes s' = qs_nodes s /\
    qs_queues s' = <[p := mk_queue NULL NULL 0]> (qs_queues s) /\
    qrep s' (<[p := []]> A) /\ qheap s' (<[p := m]> L).
Proof.
  intros HR HH. unfold kernel_queue_create_queue.
  destruct (exec_kmalloc s L sizeof_kernel_queue HH) as [Hk|(p & m & h & Hk & Hp & Hm & Hf & Hb & Hr)];
    [by unfold sizeof_kernel_queue, kmalloc_max; lia| |]; rewrite (bind_ret _ _ _ _ _ Hk).
  { by left. }
  right. destruct (qheap_fresh _ _ _ HH Hf) as [Hfn Hfq].
  assert (HA : A !! p = None).
  { apply eq_None_not_Some. intros [l Hl]. destruct (qr_queue _ _ HR _ _ Hl) as (Q & HQ & _).
    congruence. }
  rewrite decide_False by done. eexists p, m, _. split; [done|].
  split; [done|]. split; [done|]. split; [done|]. split; [done|]. split; [done|]. split.
  - split; simpl.
    + intros q l Hq. destruct (decide (q = p)) as [->|]; simplify_map_eq.
      * exists zero_queue. simpl. rewrite lookup_insert_eq. repeat (split; [done|]). constructor.
      * destruct (qr_queue _ _ HR _ _ Hq) as (Q & HQ & ?). exists Q. simpl.
        by rewrite lookup_insert_ne.
    + intros q. destruct (decide (q = p)) as [->|]; [by rewrite !lookup_insert_eq|].
      rewrite !lookup_insert_ne by done. apply (qr_dom _ _ HR).
    + intros q1 q2 l1 l2 x H1 H2 Hx1 Hx2.
      destruct (decide (q1 = p)) as [->|], (decide (q2 = p)) as [->|]; simplify_map_eq;
        [done|set_solver|set_solver|]. by eapply (qr_disj _ _ HR).
    + intros x n Hx Hne. eapply (qr_free _ _ HR); [done|]. intros (q & l & Hq & Hl).
      apply Hne. exists q, l. rewrite lookup_insert_ne; [done|congruence].
    + rewrite lookup_insert_ne by done. apply (qr_null _ _ HR).
  - split; simpl.
    + done.
    + intros x n Hx. destruct (decide (x = p)) as [->|]; [congruence|].
      rewrite lookup_insert_ne by done. by apply (qh_node _ _ HH) in Hx.
    + intros q Q HQ. destruct (decide (q = p)) as [->|]; simplify_map_eq; [eauto|].
      by apply (qh_queue _ _ HH) in HQ.
    + intros x n Hx. destruct (decide (x = p)) as [->|]; [congruence|].
      rewrite lookup_insert_ne by done. by eapply (qh_typed _ _ HH).
Qed.

(** A node leaves memory only when no queue holds it. *)
Lemma delete_node_spec s A L node n :
  qrep s A -> qheap s L -> qs_nodes s !! node = Some n -> ~ enlisted_in A node ->
  exists s', kernel_queue_delete_node node s = Ret ((NULL, OS_NO_ERR), s') /\
    qs_nodes s' = delete node (qs_nodes s) /\ qs_queues s' = qs_queues s /\
    qrep s' A /\ qheap s' (delete node L).
Proof.
  intros HR HH Hn Hni. pose proof (qrep_node_ne _ _ _ _ HR Hn) as Hn0.
  destruct (qr_free _ _ HR _ _ Hn Hni) as (_ & _ & He).
  pose proof (qh_typed _ _ HH _ _ Hn) as Htq.
  destruct (qh_node _ _ HH _ _ Hn) as (m & Hm & _).
  unfold kernel_queue_delete_node. qsteps.
  eexists. split; [done|]. simpl. rewrite (delete_id (qs_queues s)) by done.
  split; [done|]. split; [done|]. split.
  - split; simpl.
    + intros q l Hq. destruct (qr_queue _ _ HR _ _ Hq) as (Q & HQ & ? & ? & Hd & ?).
      exists Q. repeat (split; [done|]). split; [|done]. eapply dseg_ext; [|done].
      intros x Hx. simpl. rewrite lookup_delete_ne; [done|]. intros <-. apply Hni. by exists q, l.
    + apply (qr_dom _ _ HR).
    + apply (qr_disj _ _ HR).
    + intros x k Hx. apply lookup_delete_Some in Hx as [_ Hx]. by eapply (qr_free _ _ HR).
    + destruct (qr_null _ _ HR). split; [|done]. by apply lookup_delete_None; right.
  - split; simpl.
    + by eapply kfree_spec; [apply (qh_rep _ _ HH)|].
    + intros x k [Hne Hx]%lookup_delete_Some. rewrite lookup_delete_ne by done.
      by apply (qh_node _ _ HH) in Hx.
    + intros q Q HQ. rewrite lookup_delete_ne by congruence. by apply (qh_queue _ _ HH) in HQ.
    + intros x k [_ Hx]%lookup_delete_Some. by eapply (qh_typed _ _ HH).
Qed.

Lemma delete_node_enlisted s A node :
  qrep s A -> enlisted_in A node ->
  kernel_queue_delete_node node s = Ret ((node, OS_ERR_UNAUTHORIZED_ACTION), s).
Proof.
  intros HR (q & l & Hq & Hl).
  destruct (qrep_lookup _ _ _ _ HR Hq) as (_ & _ & _ & _ & _ & Hd & _).
  destruct (dseg_lookup _ _ _ _ _ Hd Hl) as (Hn0 & n & Hn & He).
  unfold kernel_queue_delete_node. qsteps. by rewrite decide_True by lia.
Qed.

Lemma delete_queue_spec s A L q :
  qrep s A -> qheap s L -> A !! q = Some [] ->
  exists s', kernel_queue_delete_queue q s = Ret ((NULL, OS_NO_ERR), s') /\
    qs_nodes s' = qs_nodes s /\ qs_queues s' = delete q (qs_queues s) /\
    qrep s' (delete q A) /\ qheap s' (delete q L).
Proof.
  intros HR HH Hq. destruct (qrep_lookup _ _ _ _ HR Hq) as (Hq0 & Q & HQ & Hh & Ht & _).
  destruct (qh_queue _ _ HH _ _ HQ) as (m & Hm & _). simpl in *.
  assert (Hqn : qs_nodes s !! q = None).
  { apply eq_None_not_Some. intros [n Hn]. pose proof (qh_typed _ _ HH _ _ Hn). congruence. }
  unfold kernel_queue_delete_queue. qstep. qstep. rewrite decide_False by naive_solver.
  eexists. split; [done|]. simpl. rewrite (delete_id (qs_nodes s)) by done.
  split; [done|]. split; [done|]. split.
  - split; simpl.
    + intros q' l [Hne Hq']%lookup_delete_Some.
      destruct (qr_queue _ _ HR _ _ Hq') as (Q' & HQ' & ?). exists Q'. simpl.
      by rewrite lookup_delete_ne.
    + intros q' [Q' [Hne HQ']%lookup_delete_Some]. rewrite lookup_delete_ne by done.
      apply (qr_dom _ _ HR). eauto.
    + intros q1 q2 l1 l2 x [_ H1]%lookup_delete_Some [_ H2]%lookup_delete_Some.
      by apply (qr_disj _ _ HR _ _ _ _ _ H1 H2).
    + intros x n Hx Hne. eapply (qr_free _ _ HR); [done|]. intros (q' & l & Hq' & Hl).
      apply Hne. exists q', l. rewrite lookup_delete_ne; [done|]. intros <-. set_solver.
    + destruct (qr_null _ _ HR). split; [done|]. by apply lookup_delete_None; right.
  - split; simpl.
    + by eapply kfree_spec; [apply (qh_rep _ _ HH)|].
    + intros x k Hx. rewrite lookup_delete_ne by congruence. by apply (qh_node _ _ HH) in Hx.
    + intros q' Q' [Hne HQ']%lookup_delete_Some. rewrite lookup_delete_ne by done.
      by apply (qh_queue _ _ HH) in HQ'.
    + intros x k Hx. apply lookup_delete_None. right. by eapply (qh_typed _ _ HH).
Qed.

Lemma delete_queue_busy s A q x l :
  qrep s A -> A !! q = Some (x :: l) ->
  kernel_queue_delete_queue q s = Ret ((q, OS_ERR_UNAUTHORIZED_ACTION), s).
Proof.
  intros HR Hq. destruct (qrep_lookup _ _ _ _ HR Hq) as (Hq0 & Q & HQ & Hh & _ & [Hx _] & _).
  unfold kernel_queue_delete_queue. qstep. qstep. rewrite decide_True; [done|].
  left. by rewrite Hh.
Qed.
End Life.

(** ** Abstract specification: a first-in first-out queue

    [Fifo] is what the header of [kernel_queue.h] promises to the users of
    [push] and [pop]: the list of the nodes in the order in which they will
    be popped. *)
Module Fifo.
Inductive op : Type :=
  | Push (node : Z)
  | Pop.

(** The value a call returns: the node popped, or [NULL]. *)
Definition step (o : op) (q : list Z) : Z * list Z :=
  match o, q with
  | Push x, _ => (NULL, q ++ [x])
  | Pop, [] => (NULL, [])
  | Pop, x :: q' => (x, q')
  end.

Fixpoint run (os : list op) (q : list Z) : list Z * list Z :=
  match os with
  | [] => ([], q)
  | o :: os =>
      let '(r, q1) := step o q in
      let '(rs, q2) := run os q1 in (r :: rs, q2)
  end.

(** The protocol of the header: push only allocated nodes ([F]) that are not
    in the queue already. *)
Fixpoint legal (F : gset Z) (os : list op) (q : list Z) : Prop :=
  match os with
  | [] => True
  | o :: os =>
      match o with Push x => x ∈ F /\ x ∉ q | Pop => True end /\
      legal F os (snd (step o q))
  end.

#[export] Instance legal_dec F os q : Decision (legal F os q).
Proof. revert q. induction os as [|[x|] os IH]; intros q; simpl; apply _. Defined.
End Fifo.

Section Refine.
Context {ops : AllocOps}.
Implicit Types (s : qstore) (A : gmap Z (list Z)).

Definition queue_step (q : Z) (o : Fifo.op) : M qstore Z :=
  match o with
  | Fifo.Push x => kernel_queue_push x q >>> ret NULL
  | Fifo.Pop => let* (x, _) := kernel_queue_pop q in ret x
  end.

Fixpoint queue_run (q : Z) (os : list Fifo.op) : M qstore (list Z) :=
  match os with
  | [] => ret []
  | o :: os => let* r := queue_step q o in let* rs := queue_run q os in ret (r :: rs)
  end.

(** The nodes of [F] may be pushed in [q]: they exist and no other queue
    holds them. *)
Definition available s A (q : Z) (F : gset Z) : Prop :=
  forall x, x ∈ F -> is_Some (qs_nodes s !! x) /\ ~ enlisted_in (delete q A) x.

Lemma same_payload_is_Some (ns ns' : gmap Z kernel_queue_node) x :
  same_payload ns ns' -> is_Some (ns !! x) -> is_Some (ns' !! x).
Proof. intros H [n Hn]. specialize (H x). rewrite Hn in H. by destruct (ns' !! x). Qed.

Lemma available_frame s s' A q F l :
  available s A q F -> same_payload (qs_nodes s) (qs_nodes s') ->
  available s' (<[q := l]> A) q F.
Proof.
  intros HF Hp x Hx. destruct (HF x Hx) as [Hs Hn]. rewrite delete_insert_eq.
  split; [by eapply same_payload_is_Some|done].
Qed.

Lemma queue_step_sim s A q F l o :
  qrep s A -> A !! q = Some (reverse l) -> available s A q F -> Fifo.legal F [o] l ->
  exists s', queue_step q o s = Ret ((Fifo.step o l).1, s') /\
    qrep s' (<[q := reverse (Fifo.step o l).2]> A) /\
    available s' (<[q := reverse (Fifo.step o l).2]> A) q F.
Proof.
  intros HR Hq HF Hlegal.
  destruct (qrep_lookup _ _ _ _ HR Hq) as (_ & Q & HQ & _).
  destruct o as [x|]; simpl in *.
  - destruct Hlegal as [[Hx Hxl] _]. destruct (HF x Hx) as [[n Hn] Hni].
    destruct (push_spec s A q (reverse l) x n Q) as (s' & Hrun & HR' & Hp & _); [done..| |done|].
    { intros (q' & l' & Hq' & Hin). destruct (decide (q' = q)) as [->|].
      - simplify_eq. by apply Hxl, elem_of_reverse.
      - apply Hni. exists q', l'. by rewrite lookup_delete_ne. }
    exists s'. rewrite (bind_ret _ _ _ _ _ Hrun), reverse_app. split; [done|].
    split; [done|by eapply available_frame].
  - destruct l as [|x l]; simpl.
    + rewrite (bind_ret _ _ _ _ _ (pop_empty _ _ _ HR Hq)). exists s.
      rewrite insert_id by done. done.
    + rewrite reverse_cons in Hq.
      destruct (pop_spec s A q (reverse l) x Q) as (s' & Hrun & HR' & Hp & _); [done..|].
      exists s'. rewrite (bind_ret _ _ _ _ _ Hrun). split; [done|].
      split; [done|by eapply available_frame].
Qed.

Lemma queue_run_sim s A q F l os :
  qrep s A -> A !! q = Some (reverse l) -> available s A q F -> Fifo.legal F os l ->
  exists s', queue_run q os s = Ret ((Fifo.run os l).1, s') /\
    qrep s' (<[q := reverse (Fifo.run os l).2]> A).
Proof.
  revert s A l. induction os as [|o os IH]; intros s A l HR Hq HF Hl; simpl.
  - exists s. rewrite insert_id by done. done.
  - destruct Hl as [Ho Hl].
    destruct (queue_step_sim s A q F l o) as (s1 & Hrun & HR1 & HF1); [done..|].
    rewrite (bind_ret _ _ _ _ _ Hrun).
    destruct (Fifo.step o l) as [r l1] eqn:E; simpl in *.
    destruct (IH s1 (<[q := reverse l1]> A) l1) as (s2 & Hrun2 & HR2); [done|by simplify_map_eq|done..|].
    rewrite (bind_ret _ _ _ _ _ Hrun2). rewrite insert_insert_eq in HR2.
    destruct (Fifo.run os l1) as [rs l2]. exists s2. done.
Qed.
End Refine.
