(* ===== verification/QueueTheorems.v ===== *)
(** * The properties of the kernel queues

    The statements about [core/kernel_queue.c] its clients rely on, with
    witnesses on a small store of one queue and three nodes. *)
From stdpp Require Import sorting.
From S2P Require Import Prelude Alloc KernelQueue KHeap KHeapSpec KHeapTheorems.

(** ** A store whose queues are all empty *)
Section Fresh.
Context {ops : AllocOps}.

Lemma qrep_fresh s :
  (forall x n, qs_nodes s !! x = Some n -> node_free n) ->
  (forall q Q, qs_queues s !! q = Some Q -> q_head Q = NULL /\ q_tail Q = NULL) ->
  qs_nodes s !! NULL = None -> qs_queues s !! NULL = None ->
  qrep s ((fun _ => []) <$> qs_queues s).
Proof.
  intros Hn Hq Hn0 Hq0. split; [| | | |done].
  - intros q l. rewrite lookup_fmap_Some. intros (Q & <- & HQ). exists Q.
    destruct (Hq q Q HQ). split_and!; done || constructor.
  - intros q. rewrite lookup_fmap, fmap_is_Some. done.
  - intros q1 q2 l1 l2 x. rewrite !lookup_fmap_Some. intros (? & <- & _) _ Hx.
    by apply not_elem_of_nil in Hx.
  - intros x n Hx _. by apply (Hn x).
Qed.
End Fresh.

Definition demo_store : qstore :=
  mk_qstore demo_kheap
    {[ 100 := mk_node NULL NULL 0 0 11; 200 := mk_node NULL NULL 0 0 22;
       300 := mk_node NULL NULL 0 0 33 ]}
    {[ 50 := zero_queue ]}.

Definition demo_abs : gmap Z (list Z) := {[ 50 := [] ]}.

Lemma demo_store_rep : qrep demo_store demo_abs.
Proof.
  assert (demo_abs = (fun _ => []) <$> qs_queues demo_store) as ->
    by (unfold demo_abs; simpl; by rewrite map_fmap_singleton).
  apply qrep_fresh; [| |done|done]; simpl.
  - intros x n H. repeat (apply lookup_insert_Some in H as [[<- <-]|[_ H]]; [done|]).
    by apply lookup_singleton_Some in H as [<- <-].
  - intros q Q H. by apply lookup_singleton_Some in H as [<- <-].
Qed.

Lemma demo_store_available : available demo_store demo_abs 50 {[100; 200; 300]}.
Proof.
  intros x Hx. split.
  - simpl. rewrite !elem_of_union, !elem_of_singleton in Hx.
    destruct Hx as [[->| ->]| ->]; by eexists.
  - intros (q & l & Hq & _). rewrite lookup_delete_Some in Hq. destruct Hq as [Hne Hq].
    unfold demo_abs in Hq. rewrite lookup_singleton_Some in Hq. by destruct Hq.
Qed.

(** ** Priority queues: the abstract specification

    A stable priority queue: the state lists the nodes with their priorities
    in the order they will be popped. *)
Module Prio.
Inductive op : Type :=
  | Push (node prio : Z)
  | Pop.

(** After every node of the same or a smaller priority value. *)
Fixpoint insert (x p : Z) (l : list (Z * Z)) : list (Z * Z) :=
  match l with
  | [] => [(x, p)]
  | (y, py) :: l' => if decide (py <= p) then (y, py) :: insert x p l' else (x, p) :: l
  end.

Definition step (o : op) (q : list (Z * Z)) : Z * list (Z * Z) :=
  match o, q with
  | Push x p, _ => (NULL, insert x p q)
  | Pop, [] => (NULL, [])
  | Pop, (x, _) :: q' => (x, q')
  end.

Fixpoint run (os : list op) (q : list (Z * Z)) : list Z * list (Z * Z) :=
  match os with
  | [] => ([], q)
  | o :: os =>
      let '(r, q1) := step o q in
      let '(rs, q2) := run os q1 in (r :: rs, q2)
  end.

Fixpoint legal (F : gset Z) (os : list op) (q : list (Z * Z)) : Prop :=
  match os with
  | [] => True
  | o :: os =>
      match o with Push x _ => x ∈ F /\ x ∉ q.*1 | Pop => True end /\
      legal F os (snd (step o q))
  end.

#[export] Instance legal_dec F os q : Decision (legal F os q).
Proof. revert q. induction os as [|[x p|] os IH]; intros q; simpl; apply _. Defined.

Definition sorted (l : list (Z * Z)) : Prop := StronglySorted (fun a b => a.2 <= b.2) l.

Lemma insert_split x p l1 l2 :
  Forall (fun e => e.2 <= p) l1 -> Forall (fun e => p < e.2) l2 ->
  insert x p (l1 ++ l2) = l1 ++ (x, p) :: l2.
Proof.
  intros H1 H2. induction H1 as [|[y py] l1 Hy H1 IH]; simpl in *.
  - destruct H2 as [|[y py] l2 Hy H2]; simpl in *; [done|]. by rewrite decide_False by lia.
  - rewrite decide_True by done. by rewrite IH.
Qed.
End Prio.

Section PrioRefine.
Context {ops : AllocOps}.
Implicit Types (s : qstore) (A : gmap Z (list Z)).

Definition prio_step (q : Z) (o : Prio.op) : M qstore Z :=
  match o with
  | Prio.Push x p => kernel_queue_push_prio x q p >>> ret NULL
  | Prio.Pop => let* (x, _) := kernel_queue_pop q in ret x
  end.

Fixpoint prio_run (q : Z) (os : list Prio.op) : M qstore (list Z) :=
  match os with
  | [] => ret []
  | o :: os => let* r := prio_step q o in let* rs := prio_run q os in ret (r :: rs)
  end.

(** Queue [q] of [s] holds [l], the next node to pop first. *)
Definition holds s A (q : Z) (l : list (Z * Z)) : Prop :=
  qrep s A /\ A !! q = Some (reverse l.*1) /\ Prio.sorted l /\
  forall x p, (x, p) ∈ l -> prio_of (qs_nodes s) x = p.

Lemma holds_push s A q l x p F :
  holds s A q l -> available s A q F -> x ∈ F -> x ∉ l.*1 ->
  exists s', kernel_queue_push_prio x q p s = Ret (OS_NO_ERR, s') /\
    let l' := Prio.insert x p l in
    let A' := <[q := reverse l'.*1]> A in
    holds s' A' q l' /\ available s' A' q F.
Proof.
  intros (HR & Hq & Hs & Hp) HF Hx Hxl.
  destruct (HF x Hx) as [[n Hn] Hni].
  destruct (qrep_lookup _ _ _ _ HR Hq) as (_ & Q & HQ & _).
  assert (~ enlisted_in A x) as Hfree.
  { intros (q' & l' & Hq' & Hin). destruct (decide (q' = q)) as [->|].
    - simplify_eq. by apply Hxl, elem_of_reverse.
    - apply Hni. exists q', l'. by rewrite lookup_delete_ne. }
  destruct (push_prio_spec s A q _ x n Q p HR Hq Hn Hfree HQ)
    as (L1 & L2 & s' & EL & HL1 & HL2 & Hrun & HR' & Hpay & _).
  exists s'. split; [done|].
  assert (l.*1 = reverse L2 ++ reverse L1) as El
    by (rewrite <- reverse_app, <- EL; by rewrite reverse_involutive).
  apply fmap_app_inv in El as (la & lb & Ea & Eb & ->).
  assert (forall y py, (y, py) ∈ lb -> p < py) as Hb.
  { intros y py Hy. rewrite <- (Hp y py) by set_solver. apply HL1.
    apply elem_of_reverse. rewrite Eb. apply list_elem_of_fmap. by exists (y, py). }
  apply StronglySorted_app in Hs as (Hab & Hsa & Hsb).
  assert (forall y py, (y, py) ∈ la -> py <= p) as Ha.
  { destruct la as [|[z pz] la' _] using rev_ind; [set_solver|].
    assert (pz <= p) as Hz.
    { rewrite <- (Hp z pz) by set_solver. apply HL2.
      rewrite <- (reverse_involutive L2), Ea, fmap_app, reverse_app. done. }
    apply StronglySorted_app in Hsa as (Hsa & _).
    intros y py Hy. apply elem_of_app in Hy as [Hy|Hy%list_elem_of_singleton].
    - specialize (Hsa (y, py) (z, pz) Hy ltac:(set_solver)). simpl in Hsa. lia.
    - by injection Hy as -> ->. }
  cbn zeta. rewrite (Prio.insert_split x p la lb);
    [|apply Forall_forall; by intros [y py] ?%Ha|apply Forall_forall; by intros [y py] ?%Hb].
  assert (L1 ++ x :: L2 = reverse ((la ++ (x, p) :: lb).*1)) as E.
  { rewrite fmap_app, fmap_cons, reverse_app, reverse_cons. simpl.
    rewrite <- Ea, <- Eb, !reverse_involutive, <- app_assoc. done. }
  rewrite <- E.
  assert (forall y, y <> x -> prio_of (qs_nodes s') y = prio_of (qs_nodes s) y) as Hoth.
  { intros y Hy. rewrite (same_payload_prio _ _ _ Hpay). unfold prio_of.
    by rewrite lookup_insert_ne. }
  assert (prio_of (qs_nodes s') x = p) as Hxp.
  { rewrite (same_payload_prio _ _ _ Hpay). unfold prio_of. by rewrite lookup_insert_eq. }
  split; [split_and!|].
  - done.
  - rewrite lookup_insert_eq. by rewrite E.
  - apply StronglySorted_app. rewrite StronglySorted_cons, Forall_forall. split_and!; try done.
    + intros [y py] [z pz] Hy [Hz|Hz]%elem_of_cons; [injection Hz as -> ->; simpl; by eapply Ha|].
      by apply Hab.
    + intros [y py] Hy. apply Hb in Hy. simpl. lia.
  - intros y py [Hy|[Hy|Hy]%elem_of_cons]%elem_of_app; [|by injection Hy as -> ->|].
    all: assert ((y, py) ∈ la ++ lb) as Hin by set_solver.
    all: rewrite Hoth; [by apply Hp|].
    all: intros ->; apply Hxl, list_elem_of_fmap; by exists (x, py).
  - intros y Hy. destruct (HF y Hy) as [[m Hm] Hny]. rewrite delete_insert_eq.
    split; [|done]. eapply same_payload_is_Some; [exact Hpay|].
    rewrite lookup_insert_is_Some'. right. by eexists.
Qed.

Lemma holds_pop s A q l F :
  holds s A q l -> available s A q F ->
  exists e s', kernel_queue_pop q s = Ret (((Prio.step Prio.Pop l).1, e), s') /\
    let l' := (Prio.step Prio.Pop l).2 in
    let A' := <[q := reverse l'.*1]> A in
    holds s' A' q l' /\ available s' A' q F.
Proof.
  intros (HR & Hq & Hs & Hp) HF.
  destruct (qrep_lookup _ _ _ _ HR Hq) as (_ & Q & HQ & _).
  destruct l as [|[x p] l]; simpl in *.
  - exists OS_NO_ERR, s. split; [by apply (pop_empty s A q)|].
    rewrite insert_id by done. done.
  - rewrite reverse_cons in Hq.
    destruct (pop_spec s A q _ x Q HR Hq HQ) as (s' & Hrun & HR' & Hpay & _).
    exists OS_NO_ERR, s'. split; [done|]. apply StronglySorted_cons in Hs as [_ Hs].
    split; [split_and!; try done|].
    + by rewrite lookup_insert_eq.
    + intros y py Hy. rewrite (same_payload_prio _ _ _ Hpay). apply Hp. set_solver.
    + by eapply available_frame.
Qed.

Lemma prio_run_holds s A q F l os :
  holds s A q l -> available s A q F -> Prio.legal F os l ->
  exists s', prio_run q os s = Ret ((Prio.run os l).1, s') /\
    holds s' (<[q := reverse (Prio.run os l).2.*1]> A) q (Prio.run os l).2.
Proof.
  revert s A l. induction os as [|o os IH]; intros s A l HH HF Hl; simpl.
  - exists s. rewrite insert_id by apply HH. done.
  - destruct Hl as [Ho Hl].
    assert (exists s1, prio_step q o s = Ret ((Prio.step o l).1, s1) /\
      let l' := (Prio.step o l).2 in let A' := <[q := reverse l'.*1]> A in
      holds s1 A' q l' /\ available s1 A' q F) as (s1 & Hrun & HH1 & HF1).
    { destruct o as [x p|].
      - destruct Ho as [Hx Hxl]. destruct (holds_push s A q l x p F HH HF Hx Hxl) as (s1 & E & ? & ?).
        exists s1. simpl. by rewrite (bind_ret _ _ _ _ _ E).
      - destruct (holds_pop s A q l F HH HF) as (e & s1 & E & ? & ?).
        exists s1. cbn [prio_step]. by rewrite (bind_ret _ _ _ _ _ E). }
    rewrite (bind_ret _ _ _ _ _ Hrun).
    destruct (Prio.step o l) as [r l1] eqn:E; simpl in *.
    destruct (IH s1 _ l1 HH1 HF1 Hl) as (s2 & Hrun2 & HH2).
    rewrite (bind_ret _ _ _ _ _ Hrun2). rewrite insert_insert_eq in HH2.
    destruct (Prio.run os l1) as [rs l2]. exists s2. done.
Qed.
End PrioRefine.

(** ** Theorems *)
Section Properties.
Context {ops : AllocOps}.
Implicit Types (s : qstore) (A : gmap Z (list Z)).

(** C7: a kernel queue implements a first-in first-out queue: every sequence
    of [kernel_queue_push] and [kernel_queue_pop] that pushes only allocated
    nodes not already enlisted returns, without fault, the values of the
    abstract queue, and leaves all other queues as they were. *)
Theorem queue_refines_fifo s A q F l os :
  qrep s A -> A !! q = Some (reverse l) -> available s A q F -> Fifo.legal F os l ->
  exists s', queue_run q os s = Ret ((Fifo.run os l).1, s') /\
    qrep s' (<[q := reverse (Fifo.run os l).2]> A).
Proof. apply queue_run_sim. Qed.

(** C8: used with [kernel_queue_push_prio], a kernel queue implements a stable
    priority queue: pops return the nodes by increasing priority value and, for
    the same priority, in the order they were pushed. *)
Theorem queue_refines_prio s A q F l os :
  qrep s A -> A !! q = Some (reverse l.*1) -> Prio.sorted l ->
  (forall x p, (x, p) ∈ l -> prio_of (qs_nodes s) x = p) ->
  available s A q F -> Prio.legal F os l ->
  exists s', prio_run q os s = Ret ((Prio.run os l).1, s') /\
    holds s' (<[q := reverse (Prio.run os l).2.*1]> A) q (Prio.run os l).2.
Proof. intros ????. by apply prio_run_holds. Qed.

(** [kernel_queue_remove] unlinks a node wherever it is in the queue and
    keeps the others in order, but it never decrements [size], which then
    counts a node that is not there. *)
Theorem queue_remove_correct s A q l1 node l2 Q :
  qrep s A -> A !! q = Some (l1 ++ node :: l2) -> qs_queues s !! q = Some Q ->
  exists s' n, kernel_queue_remove q node s = Ret (OS_NO_ERR, s') /\
    qrep s' (<[q := l1 ++ l2]> A) /\ same_payload (qs_nodes s) (qs_nodes s') /\
    qs_nodes s' !! node = Some n /\ node_free n /\
    q_size <$> qs_queues s' !! q = Some (q_size Q).
Proof.
  intros HR Hq HQ.
  destruct (remove_spec s A q l1 node l2 Q HR Hq HQ) as (s' & Hrun & HR' & Hp & Hsz & _).
  destruct (qrep_lookup _ _ _ _ HR Hq) as (_ & Q' & _ & _ & _ & Hd & Hnd).
  destruct (dseg_lookup _ _ _ _ node Hd) as (_ & n0 & Hn0 & _); [set_solver|].
  destruct (same_payload_is_Some _ (qs_nodes s') node Hp) as [n Hn]; [by eexists|].
  exists s', n. split_and!; try done. apply (qr_free _ _ HR' node n Hn).
  intros (q' & l & Hq' & Hin). destruct (decide (q' = q)) as [->|Hne].
  - rewrite lookup_insert_eq in Hq'. injection Hq' as <-.
    rewrite NoDup_app, NoDup_cons in Hnd. set_solver.
  - rewrite lookup_insert_ne in Hq' by done. apply Hne.
    apply (qr_disj _ _ HR q' q l _ node Hq' Hq Hin). set_solver.
Qed.

(** [kernel_queue_find] returns the first node, from the head, that holds
    the data, and [OS_ERR_NO_SUCH_ID] exactly when no node does; it changes
    nothing. *)
Theorem queue_find_correct s A q l data :
  qrep s A -> A !! q = Some l ->
  (exists l1 x l2 n, l = l1 ++ x :: l2 /\ qs_nodes s !! x = Some n /\ n_data n = data /\
     (forall y m, y ∈ l1 -> qs_nodes s !! y = Some m -> n_data m <> data) /\
     kernel_queue_find q data s = Ret ((x, OS_NO_ERR), s)) \/
  ((forall y m, y ∈ l -> qs_nodes s !! y = Some m -> n_data m <> data) /\
     kernel_queue_find q data s = Ret ((NULL, OS_ERR_NO_SUCH_ID), s)).
Proof. apply find_spec. Qed.

(** a node goes through its whole life safely: created with the data, it
    is a block no other object occupies, [kernel_queue_delete_node] gives the
    block back when the node is in no queue, and refuses, changing nothing,
    when it is in one. *)
Theorem queue_node_life `{!AllocSpec ops} s A L data :
  qrep s A -> qheap s L ->
  (kernel_queue_create_node data s = Ret ((NULL, OS_ERR_MALLOC), s) \/
   exists p m s1, kernel_queue_create_node data s = Ret ((p, OS_NO_ERR), s1) /\
     p <> NULL /\ L !! p = None /\ qs_nodes s1 !! p = Some (mk_node NULL NULL 0 0 data) /\
     qrep s1 A /\ qheap s1 (<[p := m]> L) /\
     exists s2, kernel_queue_delete_node p s1 = Ret ((NULL, OS_NO_ERR), s2) /\
       qs_nodes s2 = qs_nodes s /\ qrep s2 A /\ qheap s2 L) /\
  forall x, enlisted_in A x ->
    kernel_queue_delete_node x s = Ret ((x, OS_ERR_UNAUTHORIZED_ACTION), s).
Proof.
  intros HR HH. split; [|intros x; by apply delete_node_enlisted].
  destruct (create_node_spec s A L data HR HH)
    as [?|(p & m & s1 & Hrun & Hp & HL & Hni & Hns & Hqs & HR1 & HH1)]; [by left|right].
  exists p, m, s1. split_and!; try done; [by rewrite Hns, lookup_insert_eq|].
  destruct (delete_node_spec s1 A (<[p := m]> L) p (mk_node NULL NULL 0 0 data))
    as (s2 & Hrun2 & Hns2 & _ & HR2 & HH2); try done; [by rewrite Hns, lookup_insert_eq|].
  exists s2. split; [done|]. split; [|split; [done|]].
  - rewrite Hns2, Hns. apply delete_insert_id.
    destruct (qs_nodes s !! p) as [n|] eqn:E; [|done].
    destruct (qh_node _ _ HH p n E) as (k & Hk & _). congruence.
  - by rewrite delete_insert_id in HH2.
Qed.

(** [kernel_queue_delete_queue] frees an empty queue and refuses, changing
    nothing, one that still holds a node. *)
Theorem queue_delete_correct `{!AllocSpec ops} s A L q l :
  qrep s A -> qheap s L -> A !! q = Some l ->
  match l with
  | [] => exists s', kernel_queue_delete_queue q s = Ret ((NULL, OS_NO_ERR), s') /\
            qs_nodes s' = qs_nodes s /\ qrep s' (delete q A) /\ qheap s' (delete q L)
  | _ => kernel_queue_delete_queue q s = Ret ((q, OS_ERR_UNAUTHORIZED_ACTION), s)
  end.
Proof.
  intros HR HH Hq. destruct l as [|x l].
  - destruct (delete_queue_spec s A L q HR HH Hq) as (s' & ? & ? & _ & ? & ?). eauto.
  - by apply (delete_queue_busy s A q x l).
Qed.
End Properties.

(** ** Witnesses *)
Lemma queue_refines_fifo_witness :
  exists s', queue_run 50 [Fifo.Push 100; Fifo.Push 200; Fifo.Pop; Fifo.Push 100; Fifo.Push 300;
                           Fifo.Pop; Fifo.Pop] demo_store =
             Ret ([NULL; NULL; 100; NULL; NULL; 200; 100], s').
Proof.
  eassert (Fifo.legal {[100; 200; 300]} _ []) as Hl; [|
  destruct (queue_refines_fifo demo_store demo_abs 50 {[100; 200; 300]} [] _
    demo_store_rep (lookup_singleton_eq _ _) demo_store_available Hl) as (s' & Hrun & _);
  exists s'; exact Hrun].
  apply (bool_decide_unpack _). vm_compute. exact I.
Defined.

Lemma queue_refines_prio_witness :
  exists s', prio_run 50 [Prio.Push 100 7; Prio.Push 200 3; Prio.Push 300 7; Prio.Pop;
                          Prio.Pop; Prio.Pop; Prio.Pop] demo_store =
             Ret ([NULL; NULL; NULL; 200; 100; 300; NULL], s').
Proof.
  eassert (Prio.legal {[100; 200; 300]} _ []) as Hl; [|
  destruct (queue_refines_prio demo_store demo_abs 50 {[100; 200; 300]} [] _
    demo_store_rep (lookup_singleton_eq _ _) (SSorted_nil _)
    (fun x p H => match not_elem_of_nil _ H with end)
    demo_store_available Hl) as (s' & Hrun & _);
  exists s'; exact Hrun].
  apply (bool_decide_unpack _). vm_compute. exact I.
Defined.

(** The store after node 100, then node 200, were pushed. *)
Definition demo_store2 : qstore :=
  mk_qstore demo_kheap
    {[ 100 := mk_node NULL 200 1 0 11; 200 := mk_node 100 NULL 1 0 22;
       300 := mk_node NULL NULL 0 0 33 ]}
    {[ 50 := mk_queue 200 100 2 ]}.

Lemma demo_store2_rep : qrep demo_store2 (<[50 := [200; 100]]> demo_abs).
Proof.
  assert (Fifo.legal {[100; 200; 300]} [Fifo.Push 100; Fifo.Push 200] []) as Hl
    by (apply (bool_decide_unpack _); vm_compute; exact I).
  destruct (queue_run_sim demo_store demo_abs 50 {[100; 200; 300]} [] _
    demo_store_rep (lookup_singleton_eq _ _) demo_store_available Hl) as (s' & Hrun & HR).
  replace demo_store2 with s'; [exact HR|].
  assert (queue_run 50 [Fifo.Push 100; Fifo.Push 200] demo_store = Ret ([NULL; NULL], demo_store2))
    as Hrun2 by reflexivity.
  rewrite Hrun2 in Hrun. by injection Hrun.
Qed.

Lemma queue_remove_correct_witness :
  exists s', kernel_queue_remove 50 100 demo_store2 = Ret (OS_NO_ERR, s') /\
    qrep s' (<[50 := [200]]> (<[50 := [200; 100]]> demo_abs)) /\
    q_size <$> qs_queues s' !! 50 = Some 2.
Proof.
  destruct (queue_remove_correct demo_store2 _ 50 [200] 100 [] (mk_queue 200 100 2)
    demo_store2_rep (lookup_insert_eq _ _ _) eq_refl) as (s' & n & Hrun & HR & _ & _ & _ & Hsz).
  exists s'. split; [exact Hrun|]. split; [exact HR|exact Hsz].
Defined.

Lemma queue_find_correct_witness :
  kernel_queue_find 50 11 demo_store2 = Ret ((100, OS_NO_ERR), demo_store2).
Proof.
  destruct (queue_find_correct demo_store2 _ 50 [200; 100] 11
    demo_store2_rep (lookup_insert_eq _ _ _)) as [(l1 & x & l2 & n & _ & _ & _ & _ & H)|[H _]].
  - reflexivity.
  - exfalso. apply (H 100 (mk_node NULL 200 1 0 11)); [set_solver|reflexivity|reflexivity].
Defined.

(** An empty store on the boot heap. *)
Definition boot_store : qstore := mk_qstore demo_kheap ∅ ∅.

Lemma boot_store_rep : qrep boot_store ∅ /\ qheap boot_store ∅.
Proof.
  split.
  - change (∅ : gmap Z (list Z)) with ((fun _ => []) <$> qs_queues boot_store : gmap Z (list Z)).
    apply qrep_fresh; done.
  - split; [exact demo_kheap_rep| | |]; simpl; intros *; by rewrite lookup_empty.
Qed.

Lemma queue_node_life_witness :
  exists s1 s2, kernel_queue_create_node 9 boot_store = Ret ((4132, OS_NO_ERR), s1) /\
    kernel_queue_delete_node 4132 s1 = Ret ((NULL, OS_NO_ERR), s2) /\ qrep s2 ∅.
Proof.
  destruct (queue_node_life boot_store ∅ ∅ 9 (proj1 boot_store_rep) (proj2 boot_store_rep))
    as [[H|(p & m & s1 & H1 & _ & _ & _ & _ & _ & s2 & H2 & _ & H3 & _)] _].
  - exfalso. apply (f_equal result_of) in H. vm_compute in H. discriminate H.
  - assert (p = 4132) as ->
      by (apply (f_equal result_of) in H1; vm_compute in H1; congruence).
    exists s1, s2. split; [exact H1|]. split; [exact H2|exact H3].
Defined.

Lemma queue_delete_correct_witness :
  exists s1 s2, kernel_queue_create_queue boot_store = Ret ((4132, OS_NO_ERR), s1) /\
    kernel_queue_delete_queue 4132 s1 = Ret ((NULL, OS_NO_ERR), s2) /\ qrep s2 (delete 4132 {[4132 := []]}).
Proof.
  destruct (create_queue_spec boot_store ∅ ∅ (proj1 boot_store_rep) (proj2 boot_store_rep))
    as [H|(p & m & s1 & H1 & _ & _ & _ & _ & _ & HR & HH)];
    [exfalso; apply (f_equal result_of) in H; vm_compute in H; discriminate H|].
  assert (p = 4132) as ->
    by (apply (f_equal result_of) in H1; vm_compute in H1; congruence).
  destruct (queue_delete_correct s1 _ _ 4132 [] HR HH (lookup_insert_eq _ _ _))
    as (s2 & H2 & _ & HR2 & _).
  exists s1, s2. split; [exact H1|]. split; [exact H2|exact HR2].
Defined.
