(* ===== verification/Scheduler.v ===== *)
(** * The scheduler ([core/scheduler.c])

    Threads, the per-CPU run queues and every function of the file.  A
    function that calls [sched_schedule] raises the scheduling interrupt and
    goes on when its thread is elected again: it is cut there, the type [step]
    says how it ended, and what it does afterwards is its [_resume] part. *)
From stdpp Require Import functions.
From S2P Require Import Prelude Alloc Critical Interrupts KernelQueue.

Definition MAX_CPU_COUNT : Z := 4.
Definition KERNEL_LOWEST_PRIORITY : Z := 63.
Definition KERNEL_HIGHEST_PRIORITY : Z := 0.
Definition IDLE_THREAD_PRIORITY : Z := KERNEL_LOWEST_PRIORITY.
Definition SCHEDULER_IDLE_STACK_SIZE : Z := 4096.
Definition SCHEDULER_INIT_STACK_SIZE : Z := 8192.
Definition SCHEDULER_MAIN_STACK_SIZE : Z := 16384.
Definition THREAD_MAX_NAME_LENGTH : nat := 32.
Definition KERNEL_MAIN_TIMER_FREQ : Z := 200.
Definition ALIGN : Z := 4.

(** ** Threads ([core/thread.h]) *)
Inductive THREAD_STATE_E : Type :=
  | THREAD_STATE_RUNNING
  | THREAD_STATE_READY
  | THREAD_STATE_SLEEPING
  | THREAD_STATE_DEAD
  | THREAD_STATE_ZOMBIE
  | THREAD_STATE_JOINING
  | THREAD_STATE_WAITING.

Inductive THREAD_WAIT_TYPE_E : Type :=
  | THREAD_WAIT_TYPE_SEM
  | THREAD_WAIT_TYPE_MUTEX
  | THREAD_WAIT_TYPE_IO_KEYBOARD.

Inductive THREAD_RETURN_STATE_E : Type :=
  | THREAD_RETURN_STATE_RETURNED
  | THREAD_RETURN_STATE_KILLED.

Inductive THREAD_TERMINATE_CAUSE_E : Type :=
  | THREAD_TERMINATE_CORRECTLY
  | THREAD_TERMINATE_CAUSE_DIV_BY_ZERO
  | THREAD_TERMINATE_CAUSE_PANIC.

Inductive SYSTEM_STATE_E : Type :=
  | SYSTEM_STATE_BOOTING
  | SYSTEM_STATE_RUNNING
  | SYSTEM_STATE_HALTED.

#[export] Instance THREAD_STATE_E_eq_dec : EqDecision THREAD_STATE_E.
Proof. solve_decision. Defined.
#[export] Instance THREAD_WAIT_TYPE_E_eq_dec : EqDecision THREAD_WAIT_TYPE_E.
Proof. solve_decision. Defined.
#[export] Instance THREAD_RETURN_STATE_E_eq_dec : EqDecision THREAD_RETURN_STATE_E.
Proof. solve_decision. Defined.
#[export] Instance THREAD_TERMINATE_CAUSE_E_eq_dec : EqDecision THREAD_TERMINATE_CAUSE_E.
Proof. solve_decision. Defined.
#[export] Instance SYSTEM_STATE_E_eq_dec : EqDecision SYSTEM_STATE_E.
Proof. solve_decision. Defined.

(** [struct virtual_cpu_context] *)
Record virtual_cpu_context : Type := mk_context {
  esp : Z;
  ebp : Z;
  eip : Z;
  cr3 : Z;
}.

(** [struct kernel_thread], less [thread_storage] (FPU registers), [type]
    (never read) and [lock] (kept with the other locks). *)
Record kernel_thread : Type := mk_thread {
  tid : Z;
  ptid : Z;
  name : list Z;
  init_prio : Z;
  priority : Z;
  state : THREAD_STATE_E;
  block_type : THREAD_WAIT_TYPE_E;
  return_state : THREAD_RETURN_STATE_E;
  return_cause : THREAD_TERMINATE_CAUSE_E;
  args : Z;
  function : Z;
  ret_val : Z;
  cpu_context : virtual_cpu_context;
  stack : Z;
  stack_size : Z;
  free_page_table : Z;
  wakeup_time : Z;
  joining_thread : Z;
  children : Z;
  start_time : Z;
  end_time : Z;
  cpu_affinity : Z;
}.

Definition set_tid (v : Z) (t : kernel_thread) : kernel_thread :=
  mk_thread v (ptid t) (name t) (init_prio t) (priority t) (state t) (block_type t)
    (return_state t) (return_cause t) (args t) (function t) (ret_val t) (cpu_context t)
    (stack t) (stack_size t) (free_page_table t) (wakeup_time t) (joining_thread t) (children t)
    (start_time t) (end_time t) (cpu_affinity t).
Definition set_ptid (v : Z) (t : kernel_thread) : kernel_thread :=
  mk_thread (tid t) v (name t) (init_prio t) (priority t) (state t) (block_type t)
    (return_state t) (return_cause t) (args t) (function t) (ret_val t) (cpu_context t)
    (stack t) (stack_size t) (free_page_table t) (wakeup_time t) (joining_thread t) (children t)
    (start_time t) (end_time t) (cpu_affinity t).
Definition set_name (v : list Z) (t : kernel_thread) : kernel_thread :=
  mk_thread (tid t) (ptid t) v (init_prio t) (priority t) (state t) (block_type t)
    (return_state t) (return_cause t) (args t) (function t) (ret_val t) (cpu_context t)
    (stack t) (stack_size t) (free_page_table t) (wakeup_time t) (joining_thread t) (children t)
    (start_time t) (end_time t) (cpu_affinity t).
Definition set_init_prio (v : Z) (t : kernel_thread) : kernel_thread :=
  mk_thread (tid t) (ptid t) (name t) v (priority t) (state t) (block_type t) (return_state t)
    (return_cause t) (args t) (function t) (ret_val t) (cpu_context t) (stack t) (stack_size t)
    (free_page_table t) (wakeup_time t) (joining_thread t) (children t) (start_time t)
    (end_time t) (cpu_affinity t).
Definition set_thread_priority (v : Z) (t : kernel_thread) : kernel_thread :=
  mk_thread (tid t) (ptid t) (name t) (init_prio t) v (state t) (block_type t) (return_state t)
    (return_cause t) (args t) (function t) (ret_val t) (cpu_context t) (stack t) (stack_size t)
    (free_page_table t) (wakeup_time t) (joining_thread t) (children t) (start_time t)
    (end_time t) (cpu_affinity t).
Definition set_state (v : THREAD_STATE_E) (t : kernel_thread) : kernel_thread :=
  mk_thread (tid t) (ptid t) (name t) (init_prio t) (priority t) v (block_type t)
    (return_state t) (return_cause t) (args t) (function t) (ret_val t) (cpu_context t)
    (stack t) (stack_size t) (free_page_table t) (wakeup_time t) (joining_thread t) (children t)
    (start_time t) (end_time t) (cpu_affinity t).
Definition set_block_type (v : THREAD_WAIT_TYPE_E) (t : kernel_thread) : kernel_thread :=
  mk_thread (tid t) (ptid t) (name t) (init_prio t) (priority t) (state t) v (return_state t)
    (return_cause t) (args t) (function t) (ret_val t) (cpu_context t) (stack t) (stack_size t)
    (free_page_table t) (wakeup_time t) (joining_thread t) (children t) (start_time t)
    (end_time t) (cpu_affinity t).
Definition set_return_state (v : THREAD_RETURN_STATE_E) (t : kernel_thread) : kernel_thread :=
  mk_thread (tid t) (ptid t) (name t) (init_prio t) (priority t) (state t) (block_type t) v
    (return_cause t) (args t) (function t) (ret_val t) (cpu_context t) (stack t) (stack_size t)
    (free_page_table t) (wakeup_time t) (joining_thread t) (children t) (start_time t)
    (end_time t) (cpu_affinity t).
Definition set_return_cause (v : THREAD_TERMINATE_CAUSE_E) (t : kernel_thread) : kernel_thread :=
  mk_thread (tid t) (ptid t) (name t) (init_prio t) (priority t) (state t) (block_type t)
    (return_state t) v (args t) (function t) (ret_val t) (cpu_context t) (stack t)
    (stack_size t) (free_page_table t) (wakeup_time t) (joining_thread t) (children t)
    (start_time t) (end_time t) (cpu_affinity t).
Definition set_args (v : Z) (t : kernel_thread) : kernel_thread :=
  mk_thread (tid t) (ptid t) (name t) (init_prio t) (priority t) (state t) (block_type t)
    (return_state t) (return_cause t) v (function t) (ret_val t) (cpu_context t) (stack t)
    (stack_size t) (free_page_table t) (wakeup_time t) (joining_thread t) (children t)
    (start_time t) (end_time t) (cpu_affinity t).
Definition set_function (v : Z) (t : kernel_thread) : kernel_thread :=
  mk_thread (tid t) (ptid t) (name t) (init_prio t) (priority t) (state t) (block_type t)
    (return_state t) (return_cause t) (args t) v (ret_val t) (cpu_context t) (stack t)
    (stack_size t) (free_page_table t) (wakeup_time t) (joining_thread t) (children t)
    (start_time t) (end_time t) (cpu_affinity t).
Definition set_ret_val (v : Z) (t : kernel_thread) : kernel_thread :=
  mk_thread (tid t) (ptid t) (name t) (init_prio t) (priority t) (state t) (block_type t)
    (return_state t) (return_cause t) (args t) (function t) v (cpu_context t) (stack t)
    (stack_size t) (free_page_table t) (wakeup_time t) (joining_thread t) (children t)
    (start_time t) (end_time t) (cpu_affinity t).
Definition set_cpu_context (v : virtual_cpu_context) (t : kernel_thread) : kernel_thread :=
  mk_thread (tid t) (ptid t) (name t) (init_prio t) (priority t) (state t) (block_type t)
    (return_state t) (return_cause t) (args t) (function t) (ret_val t) v (stack t)
    (stack_size t) (free_page_table t) (wakeup_time t) (joining_thread t) (children t)
    (start_time t) (end_time t) (cpu_affinity t).
Definition set_stack (v : Z) (t : kernel_thread) : kernel_thread :=
  mk_thread (tid t) (ptid t) (name t) (init_prio t) (priority t) (state t) (block_type t)
    (return_state t) (return_cause t) (args t) (function t) (ret_val t) (cpu_context t) v
    (stack_size t) (free_page_table t) (wakeup_time t) (joining_thread t) (children t)
    (start_time t) (end_time t) (cpu_affinity t).
Definition set_stack_size (v : Z) (t : kernel_thread) : kernel_thread :=
  mk_thread (tid t) (ptid t) (name t) (init_prio t) (priority t) (state t) (block_type t)
    (return_state t) (return_cause t) (args t) (function t) (ret_val t) (cpu_context t)
    (stack t) v (free_page_table t) (wakeup_time t) (joining_thread t) (children t)
    (start_time t) (end_time t) (cpu_affinity t).
Definition set_free_page_table (v : Z) (t : kernel_thread) : kernel_thread :=
  mk_thread (tid t) (ptid t) (name t) (init_prio t) (priority t) (state t) (block_type t)
    (return_state t) (return_cause t) (args t) (function t) (ret_val t) (cpu_context t)
    (stack t) (stack_size t) v (wakeup_time t) (joining_thread t) (children t) (start_time t)
    (end_time t) (cpu_affinity t).
Definition set_wakeup_time (v : Z) (t : kernel_thread) : kernel_thread :=
  mk_thread (tid t) (ptid t) (name t) (init_prio t) (priority t) (state t) (block_type t)
    (return_state t) (return_cause t) (args t) (function t) (ret_val t) (cpu_context t)
    (stack t) (stack_size t) (free_page_table t) v (joining_thread t) (children t)
    (start_time t) (end_time t) (cpu_affinity t).
Definition set_joining_thread (v : Z) (t : kernel_thread) : kernel_thread :=
  mk_thread (tid t) (ptid t) (name t) (init_prio t) (priority t) (state t) (block_type t)
    (return_state t) (return_cause t) (args t) (function t) (ret_val t) (cpu_context t)
    (stack t) (stack_size t) (free_page_table t) (wakeup_time t) v (children t) (start_time t)
    (end_time t) (cpu_affinity t).
Definition set_children (v : Z) (t : kernel_thread) : kernel_thread :=
  mk_thread (tid t) (ptid t) (name t) (init_prio t) (priority t) (state t) (block_type t)
    (return_state t) (return_cause t) (args t) (function t) (ret_val t) (cpu_context t)
    (stack t) (stack_size t) (free_page_table t) (wakeup_time t) (joining_thread t) v
    (start_time t) (end_time t) (cpu_affinity t).
Definition set_start_time (v : Z) (t : kernel_thread) : kernel_thread :=
  mk_thread (tid t) (ptid t) (name t) (init_prio t) (priority t) (state t) (block_type t)
    (return_state t) (return_cause t) (args t) (function t) (ret_val t) (cpu_context t)
    (stack t) (stack_size t) (free_page_table t) (wakeup_time t) (joining_thread t) (children t)
    v (end_time t) (cpu_affinity t).
Definition set_end_time (v : Z) (t : kernel_thread) : kernel_thread :=
  mk_thread (tid t) (ptid t) (name t) (init_prio t) (priority t) (state t) (block_type t)
    (return_state t) (return_cause t) (args t) (function t) (ret_val t) (cpu_context t)
    (stack t) (stack_size t) (free_page_table t) (wakeup_time t) (joining_thread t) (children t)
    (start_time t) v (cpu_affinity t).
Definition set_cpu_affinity (v : Z) (t : kernel_thread) : kernel_thread :=
  mk_thread (tid t) (ptid t) (name t) (init_prio t) (priority t) (state t) (block_type t)
    (return_state t) (return_cause t) (args t) (function t) (ret_val t) (cpu_context t)
    (stack t) (stack_size t) (free_page_table t) (wakeup_time t) (joining_thread t) (children t)
    (start_time t) (end_time t) v.

(** [memset(thread, 0, sizeof(kernel_thread_t))] *)
Definition zero_thread : kernel_thread :=
  mk_thread 0 0 (replicate THREAD_MAX_NAME_LENGTH 0) 0 0 THREAD_STATE_RUNNING
    THREAD_WAIT_TYPE_SEM THREAD_RETURN_STATE_RETURNED THREAD_TERMINATE_CORRECTLY
    0 NULL NULL (mk_context 0 0 0 0) NULL 0 0 0 NULL NULL 0 0 0.

Definition sizeof_kernel_thread : Z := 1180.

(** [strncpy] on a buffer of [n] bytes: the characters up to the first NUL,
    then NULs. *)
Fixpoint strncpy_field (n : nat) (src : list Z) : list Z :=
  match n, src with
  | O, _ => []
  | S n, c :: src => if decide (c = 0) then replicate (S n) 0 else c :: strncpy_field n src
  | S n, [] => replicate (S n) 0
  end.

(** [struct thread_info]: the fields [get_threads_info] fills. *)
Record thread_info : Type := mk_info {
  i_tid : Z;
  i_ptid : Z;
  i_name : list Z;
  i_priority : Z;
  i_state : THREAD_STATE_E;
  i_start_time : Z;
  i_end_time : Z;
}.

(** ** The state of the scheduler

    [sc_cpus c] collects the [c]-th elements of the arrays indexed by CPU. *)
Record cpu_sched : Type := mk_cpu_sched {
  first_sched : Z;
  idle_thread : Z;
  idle_thread_node : Z;
  active_thread : Z;
  active_thread_node : Z;
  prev_thread : Z;
  prev_thread_node : Z;
  schedule_count : Z;
  idle_sched_count : Z;
  sleeping_threads_table : Z;
}.

Definition set_first_sched (v : Z) (c : cpu_sched) : cpu_sched :=
  mk_cpu_sched v (idle_thread c) (idle_thread_node c) (active_thread c) (active_thread_node c)
    (prev_thread c) (prev_thread_node c) (schedule_count c) (idle_sched_count c)
    (sleeping_threads_table c).
Definition set_idle_thread (v : Z) (c : cpu_sched) : cpu_sched :=
  mk_cpu_sched (first_sched c) v (idle_thread_node c) (active_thread c) (active_thread_node c)
    (prev_thread c) (prev_thread_node c) (schedule_count c) (idle_sched_count c)
    (sleeping_threads_table c).
Definition set_idle_thread_node (v : Z) (c : cpu_sched) : cpu_sched :=
  mk_cpu_sched (first_sched c) (idle_thread c) v (active_thread c) (active_thread_node c)
    (prev_thread c) (prev_thread_node c) (schedule_count c) (idle_sched_count c)
    (sleeping_threads_table c).
Definition set_active_thread (v : Z) (c : cpu_sched) : cpu_sched :=
  mk_cpu_sched (first_sched c) (idle_thread c) (idle_thread_node c) v (active_thread_node c)
    (prev_thread c) (prev_thread_node c) (schedule_count c) (idle_sched_count c)
    (sleeping_threads_table c).
Definition set_active_thread_node (v : Z) (c : cpu_sched) : cpu_sched :=
  mk_cpu_sched (first_sched c) (idle_thread c) (idle_thread_node c) (active_thread c) v
    (prev_thread c) (prev_thread_node c) (schedule_count c) (idle_sched_count c)
    (sleeping_threads_table c).
Definition set_prev_thread (v : Z) (c : cpu_sched) : cpu_sched :=
  mk_cpu_sched (first_sched c) (idle_thread c) (idle_thread_node c) (active_thread c)
    (active_thread_node c) v (prev_thread_node c) (schedule_count c) (idle_sched_count c)
    (sleeping_threads_table c).
Definition set_prev_thread_node (v : Z) (c : cpu_sched) : cpu_sched :=
  mk_cpu_sched (first_sched c) (idle_thread c) (idle_thread_node c) (active_thread c)
    (active_thread_node c) (prev_thread c) v (schedule_count c) (idle_sched_count c)
    (sleeping_threads_table c).
Definition set_schedule_count (v : Z) (c : cpu_sched) : cpu_sched :=
  mk_cpu_sched (first_sched c) (idle_thread c) (idle_thread_node c) (active_thread c)
    (active_thread_node c) (prev_thread c) (prev_thread_node c) v (idle_sched_count c)
    (sleeping_threads_table c).
Definition set_idle_sched_count (v : Z) (c : cpu_sched) : cpu_sched :=
  mk_cpu_sched (first_sched c) (idle_thread c) (idle_thread_node c) (active_thread c)
    (active_thread_node c) (prev_thread c) (prev_thread_node c) (schedule_count c) v
    (sleeping_threads_table c).
Definition set_sleeping_threads_table (v : Z) (c : cpu_sched) : cpu_sched :=
  mk_cpu_sched (first_sched c) (idle_thread c) (idle_thread_node c) (active_thread c)
    (active_thread_node c) (prev_thread c) (prev_thread_node c) (schedule_count c)
    (idle_sched_count c) v.

(** How a function that may give the CPU away ended. *)
Inductive step (A : Type) : Type :=
  | Done (a : A)       (* returned *)
  | Yielded (a : A)    (* raised the scheduling interrupt, then returns [a] *)
  | Switched.          (* raised it, and goes on with its [_resume] part *)
Arguments Done {A} a.
Arguments Yielded {A} a.
Arguments Switched {A}.

(** The environment of a call: the CPU, [time_get_current_uptime()],
    [cpu_get_current_pgdir()] and [kernel_free_pages]. *)
Record sched_env : Type := mk_env {
  se_cpu :> cpu_env;
  uptime : Z;
  current_pgdir : Z;
  kernel_free_pages : Z;
}.

Section Ops.
Context {ops : AllocOps}.

Record sched : Type := mk_sched {
  sc_q : qstore;
  sc_threads : gmap Z kernel_thread;
  sc_stack : gmap Z Z;
  sc_cpus : Z -> cpu_sched;
  last_given_tid : Z;
  thread_count : Z;
  init_thread : Z;
  init_thread_node : Z;
  active_threads_table : Z -> Z -> Z;
  zombie_threads_table : Z;
  global_threads_table : Z;
  system_state : SYSTEM_STATE_E;
  main_core_id : Z;
  sc_handlers : handlers;
  sc_schedule_routine : Z;
}.

Definition with_q (v : qstore) (s : sched) : sched :=
  mk_sched v (sc_threads s) (sc_stack s) (sc_cpus s) (last_given_tid s) (thread_count s)
    (init_thread s) (init_thread_node s) (active_threads_table s) (zombie_threads_table s)
    (global_threads_table s) (system_state s) (main_core_id s) (sc_handlers s)
    (sc_schedule_routine s).
Definition with_threads (v : gmap Z kernel_thread) (s : sched) : sched :=
  mk_sched (sc_q s) v (sc_stack s) (sc_cpus s) (last_given_tid s) (thread_count s)
    (init_thread s) (init_thread_node s) (active_threads_table s) (zombie_threads_table s)
    (global_threads_table s) (system_state s) (main_core_id s) (sc_handlers s)
    (sc_schedule_routine s).
Definition with_stack (v : gmap Z Z) (s : sched) : sched :=
  mk_sched (sc_q s) (sc_threads s) v (sc_cpus s) (last_given_tid s) (thread_count s)
    (init_thread s) (init_thread_node s) (active_threads_table s) (zombie_threads_table s)
    (global_threads_table s) (system_state s) (main_core_id s) (sc_handlers s)
    (sc_schedule_routine s).
Definition with_cpus (v : Z -> cpu_sched) (s : sched) : sched :=
  mk_sched (sc_q s) (sc_threads s) (sc_stack s) v (last_given_tid s) (thread_count s)
    (init_thread s) (init_thread_node s) (active_threads_table s) (zombie_threads_table s)
    (global_threads_table s) (system_state s) (main_core_id s) (sc_handlers s)
    (sc_schedule_routine s).
Definition with_last_given_tid (v : Z) (s : sched) : sched :=
  mk_sched (sc_q s) (sc_threads s) (sc_stack s) (sc_cpus s) v (thread_count s) (init_thread s)
    (init_thread_node s) (active_threads_table s) (zombie_threads_table s)
    (global_threads_table s) (system_state s) (main_core_id s) (sc_handlers s)
    (sc_schedule_routine s).
Definition with_thread_count (v : Z) (s : sched) : sched :=
  mk_sched (sc_q s) (sc_threads s) (sc_stack s) (sc_cpus s) (last_given_tid s) v (init_thread s)
    (init_thread_node s) (active_threads_table s) (zombie_threads_table s)
    (global_threads_table s) (system_state s) (main_core_id s) (sc_handlers s)
    (sc_schedule_routine s).
Definition with_init_thread (v : Z) (s : sched) : sched :=
  mk_sched (sc_q s) (sc_threads s) (sc_stack s) (sc_cpus s) (last_given_tid s) (thread_count s)
    v (init_thread_node s) (active_threads_table s) (zombie_threads_table s)
    (global_threads_table s) (system_state s) (main_core_id s) (sc_handlers s)
    (sc_schedule_routine s).
Definition with_init_thread_node (v : Z) (s : sched) : sched :=
  mk_sched (sc_q s) (sc_threads s) (sc_stack s) (sc_cpus s) (last_given_tid s) (thread_count s)
    (init_thread s) v (active_threads_table s) (zombie_threads_table s) (global_threads_table s)
    (system_state s) (main_core_id s) (sc_handlers s) (sc_schedule_routine s).
Definition with_active_threads_table (v : Z -> Z -> Z) (s : sched) : sched :=
  mk_sched (sc_q s) (sc_threads s) (sc_stack s) (sc_cpus s) (last_given_tid s) (thread_count s)
    (init_thread s) (init_thread_node s) v (zombie_threads_table s) (global_threads_table s)
    (system_state s) (main_core_id s) (sc_handlers s) (sc_schedule_routine s).
Definition with_zombie_threads_table (v : Z) (s : sched) : sched :=
  mk_sched (sc_q s) (sc_threads s) (sc_stack s) (sc_cpus s) (last_given_tid s) (thread_count s)
    (init_thread s) (init_thread_node s) (active_threads_table s) v (global_threads_table s)
    (system_state s) (main_core_id s) (sc_handlers s) (sc_schedule_routine s).
Definition with_global_threads_table (v : Z) (s : sched) : sched :=
  mk_sched (sc_q s) (sc_threads s) (sc_stack s) (sc_cpus s) (last_given_tid s) (thread_count s)
    (init_thread s) (init_thread_node s) (active_threads_table s) (zombie_threads_table s) v
    (system_state s) (main_core_id s) (sc_handlers s) (sc_schedule_routine s).
Definition with_system_state (v : SYSTEM_STATE_E) (s : sched) : sched :=
  mk_sched (sc_q s) (sc_threads s) (sc_stack s) (sc_cpus s) (last_given_tid s) (thread_count s)
    (init_thread s) (init_thread_node s) (active_threads_table s) (zombie_threads_table s)
    (global_threads_table s) v (main_core_id s) (sc_handlers s) (sc_schedule_routine s).
Definition with_main_core_id (v : Z) (s : sched) : sched :=
  mk_sched (sc_q s) (sc_threads s) (sc_stack s) (sc_cpus s) (last_given_tid s) (thread_count s)
    (init_thread s) (init_thread_node s) (active_threads_table s) (zombie_threads_table s)
    (global_threads_table s) (system_state s) v (sc_handlers s) (sc_schedule_routine s).
Definition with_handlers (v : handlers) (s : sched) : sched :=
  mk_sched (sc_q s) (sc_threads s) (sc_stack s) (sc_cpus s) (last_given_tid s) (thread_count s)
    (init_thread s) (init_thread_node s) (active_threads_table s) (zombie_threads_table s)
    (global_threads_table s) (system_state s) (main_core_id s) v (sc_schedule_routine s).
Definition with_schedule_routine (v : Z) (s : sched) : sched :=
  mk_sched (sc_q s) (sc_threads s) (sc_stack s) (sc_cpus s) (last_given_tid s) (thread_count s)
    (init_thread s) (init_thread_node s) (active_threads_table s) (zombie_threads_table s)
    (global_threads_table s) (system_state s) (main_core_id s) (sc_handlers s) v.

(** *** Access to the parts of the state *)
Definition q {A} (m : M qstore A) : M sched A := zoom sc_q with_q m.

Definition get_thread (p : Z) : M sched kernel_thread := fun s =>
  match sc_threads s !! p with Some t => Ret (t, s) | None => Fault end.
Definition upd_thread (p : Z) (f : kernel_thread -> kernel_thread) : M sched unit := fun s =>
  match sc_threads s !! p with
  | Some t => Ret (tt, with_threads (<[p := f t]> (sc_threads s)) s)
  | None => Fault
  end.
Definition get_cpu (c : Z) : M sched cpu_sched := gets (fun s => sc_cpus s c).
Definition upd_cpu (c : Z) (f : cpu_sched -> cpu_sched) : M sched unit :=
  modify (fun s => with_cpus (<[c := f (sc_cpus s c)]> (sc_cpus s)) s).

(** [active_threads_table[c][p]]; an index out of the array is a fault. *)
Definition active_table (c p : Z) : M sched Z := fun s =>
  if decide (0 <= c < MAX_CPU_COUNT /\ 0 <= p <= KERNEL_LOWEST_PRIORITY)
  then Ret (active_threads_table s c p, s) else Fault.

(** [node->data] *)
Definition node_data (node : Z) : M sched Z := let* n := q (get_node node) in ret (n_data n).

(** [kfree] of any object: the block holds nothing afterwards. *)
Definition s_kfree (p : Z) : M sched unit :=
  q (q_kfree p) >>> modify (fun s => with_threads (delete p (sc_threads s)) s).

Definition check (err : OS_RETURN_E) : M sched unit :=
  if decide (err <> OS_NO_ERR) then kernel_panic err else ret tt.

Variable e : sched_env.

(** [cpu_get_id()], with -1 replaced by 0. *)
Definition cpu_id : Z := if decide (cpu_get_id e = -1) then 0 else cpu_get_id e.

Definition cpu_lock : lock_id := CpuLock cpu_id.

(** [active_thread[cpu_id]] *)
Definition active : M sched Z := gets (fun s => active_thread (sc_cpus s cpu_id)).

(** *** Exit *)

(** Init inherits the children of the exiting thread. *)
Fixpoint inherit_children (fuel : nat) : M sched unit :=
  match fuel with
  | O => diverge
  | S fuel =>
      let* a := active in
      let* at_ := get_thread a in
      let* (node, err) := q (kernel_queue_pop (children at_)) in
      if decide (node <> NULL /\ err = OS_NO_ERR) then
        let* thread := node_data node in
        let* init := gets init_thread in
        let* it := get_thread init in
        upd_thread thread (set_ptid (tid it)) >>>
        let* t := get_thread thread in
        let* jd := node_data (joining_thread t) in
        (if decide (jd = a) then q (upd_node (joining_thread t) (set_data NULL)) else ret tt) >>>
        let* it := get_thread init in
        let* err := q (kernel_queue_push node (children it)) in
        check err >>>
        inherit_children fuel
      else check err
  end.

Definition sched_fuel (s : sched) : nat := walk_fuel (sc_q s).

(** The first critical section of [thread_exit], down to the search for the
    joining thread, whose address is the result. *)
Definition exit_to_zombie : M sched Z :=
  let* c := get_cpu cpu_id in
  let* zombies := gets zombie_threads_table in
  let* err := q (kernel_queue_push (active_thread_node c) zombies) in
  check err >>>
  let* fuel := gets sched_fuel in
  inherit_children fuel >>>
  let* a := active in
  let* at_ := get_thread a in
  let* (ch, err) := q (kernel_queue_delete_queue (children at_)) in
  upd_thread a (set_children ch) >>>
  check err >>>
  let* at_ := get_thread a in
  if decide (joining_thread at_ <> NULL) then node_data (joining_thread at_) else ret NULL.

(** The section under the lock of the joining thread. *)
Definition wake_joining (joining : Z) : M sched unit :=
  let* j := get_thread joining in
  if decide (state j = THREAD_STATE_JOINING) then
    upd_thread joining (set_state THREAD_STATE_READY) >>>
    let* a := active in
    let* at_ := get_thread a in
    let* table := active_table (cpu_affinity j) (priority j) in
    let* err := q (kernel_queue_push (joining_thread at_) table) in
    check err
  else ret tt.

(** Up to the first critical section: refuses the idle thread, marks the
    thread; the result says whether it is init. *)
Definition exit_mark : M sched bool :=
  let* c := get_cpu cpu_id in
  if decide (active_thread c = idle_thread c) then kernel_panic OS_ERR_UNAUTHORIZED_ACTION
  else
    upd_thread (active_thread c) (set_state THREAD_STATE_ZOMBIE) >>>
    let* init := gets init_thread in
    ret (bool_decide (active_thread c = init)).

(** The thread is a zombie when it raises the scheduling interrupt: it never
    comes back. *)
Definition thread_exit : M (kstate sched) (step unit) :=
  let* is_init := lift exit_mark in
  if (is_init : bool) then ret (Yielded tt)
  else
    critical e cpu_lock (
      let* joining := lift exit_to_zombie in
      if decide (joining <> NULL)
      then critical e (ObjLock joining) (lift (wake_joining joining))
      else ret tt) >>>
    ret (Yielded tt).

(** The thread's routine runs between the two parts of the wrapper; [v] is
    what it returned. *)
Definition thread_wrapper_start : M sched unit :=
  let* a := active in
  upd_thread a (set_start_time (uptime e)) >>>
  let* t := get_thread a in
  if decide (function t = NULL) then kernel_panic OS_ERR_UNAUTHORIZED_ACTION else ret tt.

Definition thread_wrapper_end (v : Z) : M (kstate sched) (step unit) :=
  lift (let* a := active in
        upd_thread a (set_ret_val v) >>>
        upd_thread a (set_return_state THREAD_RETURN_STATE_RETURNED) >>>
        upd_thread a (set_end_time (uptime e))) >>>
  thread_exit.

Definition sched_set_thread_termination_cause (cause : THREAD_TERMINATE_CAUSE_E) :
  M sched unit :=
  let* a := active in upd_thread a (set_return_cause cause).

Definition sched_terminate_thread : M (kstate sched) (step unit) :=
  lift (let* a := active in
        upd_thread a (set_return_state THREAD_RETURN_STATE_KILLED) >>>
        upd_thread a (set_end_time (uptime e))) >>>
  thread_exit.

(** [div_by_zero_handler] of [exceptions.c]: the result is the address put in
    the interrupted context's EIP; [terminate] is that of
    [sched_terminate_thread]. *)
Definition div_by_zero_handler (int_id terminate : Z) : M sched Z :=
  if decide (int_id <> DIV_BY_ZERO_LINE) then kernel_panic OS_NO_ERR
  else
    sched_set_thread_termination_cause THREAD_TERMINATE_CAUSE_DIV_BY_ZERO >>>
    ret terminate.

(** *** Cleaning up a joined thread *)

(** Removes and frees the node of [table] that holds [thread], if any. *)
Definition clean_table (table thread : Z) : M sched unit :=
  let* (node, err) := q (kernel_queue_find table thread) in
  (if decide (err <> OS_NO_ERR /\ err <> OS_ERR_NO_SUCH_ID) then kernel_panic err else ret tt) >>>
  if decide (node <> NULL /\ err = OS_NO_ERR) then
    let* err := q (kernel_queue_remove table node) in
    check err >>>
    let* (_, err) := q (kernel_queue_delete_node node) in
    check err
  else ret tt.

Definition clean_thread (thread : Z) : M sched unit :=
  let* a := active in
  let* at_ := get_thread a in
  clean_table (children at_) thread >>>
  let* zombies := gets zombie_threads_table in
  clean_table zombies thread >>>
  let* all := gets global_threads_table in
  clean_table all thread >>>
  let* t := get_thread thread in
  s_kfree (stack t) >>>
  s_kfree thread.

Definition decr_thread_count : M sched unit :=
  modify (fun s => with_thread_count (u32 (thread_count s - 1)) s).
Definition incr_thread_count : M sched unit :=
  modify (fun s => with_thread_count (u32 (thread_count s + 1)) s).

Definition sched_clean_joined_thread (thread : Z) : M (kstate sched) unit :=
  critical e cpu_lock (
    lift (clean_thread thread) >>>
    critical e SchedLock (lift decr_thread_count)).

(** *** Election of the next thread *)

(** The loop that wakes up the sleeping threads; [now] is [current_time]. *)
Fixpoint wake_sleepers (fuel : nat) (now : Z) : M sched unit :=
  match fuel with
  | O => diverge
  | S fuel =>
      let* c := get_cpu cpu_id in
      let* (sleeping_node, err) := q (kernel_queue_pop (sleeping_threads_table c)) in
      check err >>>
      if decide (sleeping_node = NULL) then ret tt
      else
        let* sleeping := node_data sleeping_node in
        if decide (sleeping <> NULL) then
          let* t := get_thread sleeping in
          if decide (wakeup_time t < now) then
            upd_thread sleeping (set_state THREAD_STATE_READY) >>>
            let* table := active_table cpu_id (priority t) in
            let* err := q (kernel_queue_push sleeping_node table) in
            check err >>>
            wake_sleepers fuel now
          else
            (* the priority of a node is a [uint32_t] *)
            let* err := q (kernel_queue_push_prio sleeping_node (sleeping_threads_table c)
                             (u32 (wakeup_time t))) in
            check err
        else wake_sleepers fuel now
  end.

(** Where the previous thread goes. *)
Definition requeue_prev : M sched unit :=
  let* c := get_cpu cpu_id in
  let* t := get_thread (prev_thread c) in
  if decide (state t = THREAD_STATE_RUNNING) then
    upd_thread (prev_thread c) (set_state THREAD_STATE_READY) >>>
    let* table := active_table cpu_id (priority t) in
    let* err := q (kernel_queue_push (prev_thread_node c) table) in
    check err
  else if decide (state t = THREAD_STATE_SLEEPING) then
    let* err := q (kernel_queue_push_prio (prev_thread_node c) (sleeping_threads_table c)
                     (u32 (wakeup_time t))) in
    check err
  else ret tt.

(** The [for] loop over the priorities, [n] of them from [i] on. *)
Fixpoint pop_first (n : nat) (i : Z) : M sched unit :=
  match n with
  | O => ret tt
  | S n =>
      let* table := active_table cpu_id i in
      let* (node, err) := q (kernel_queue_pop table) in
      upd_cpu cpu_id (set_active_thread_node node) >>>
      check err >>>
      if decide (node <> NULL) then ret tt else pop_first n (i + 1)
  end.

Definition select_thread : M sched unit :=
  upd_cpu cpu_id (fun c => set_prev_thread (active_thread c) c) >>>
  upd_cpu cpu_id (fun c => set_prev_thread_node (active_thread_node c) c) >>>
  requeue_prev >>>
  let* fuel := gets sched_fuel in
  wake_sleepers fuel (uptime e) >>>
  pop_first (Z.to_nat (KERNEL_LOWEST_PRIORITY + 1)) 0 >>>
  let* c := get_cpu cpu_id in
  if decide (active_thread_node c = NULL) then kernel_panic OS_NO_ERR
  else
    let* next := node_data (active_thread_node c) in
    upd_cpu cpu_id (set_active_thread next) >>>
    if decide (next = NULL) then kernel_panic OS_NO_ERR
    else upd_thread next (set_state THREAD_STATE_RUNNING).

(** [cpu_save_context] and [cpu_restore_context]: the stack pointer of the
    interrupted code goes to the old thread (except the first time), that of
    the new one comes out. *)
Definition cpu_save_context (first cpu_esp thread : Z) : M sched unit :=
  if decide (first = 1)
  then upd_thread thread (fun t =>
         set_cpu_context (mk_context cpu_esp (ebp (cpu_context t)) (eip (cpu_context t))
                            (cr3 (cpu_context t))) t)
  else ret tt.

Definition cpu_restore_context (thread : Z) : M sched Z :=
  let* t := get_thread thread in ret (esp (cpu_context t)).

(** Result: the new page directory and stack pointer. *)
Definition schedule_int (cpu_esp : Z) : M sched (Z * Z) :=
  let* c := get_cpu cpu_id in
  cpu_save_context (first_sched c) cpu_esp (active_thread c) >>>
  select_thread >>>
  upd_cpu cpu_id (fun c => set_schedule_count (u64 (schedule_count c + 1)) c) >>>
  let* next := active in
  let* t := get_thread next in
  let* new_esp := cpu_restore_context next in
  upd_cpu cpu_id (set_first_sched 1) >>>
  ret (cr3 (cpu_context t), new_esp).

(** *** Creation of threads *)

Definition THREAD_INIT_EFLAGS : Z := 514. (* 0x202 *)
Definition THREAD_INIT_CS : Z := 8.
Definition THREAD_INIT_DS : Z := 16.

(** [&thread->stack[i]] *)
Definition stack_slot (base i : Z) : Z := u32 (base + 4 * i).

(** The words [cpu_init_thread_context] writes, from the top of the stack
    down, for a stack of [n] words. *)
Definition initial_frame (base n entry_point : Z) : list Z :=
  [THREAD_INIT_EFLAGS; THREAD_INIT_CS; entry_point; 0; 0;
   THREAD_INIT_DS; THREAD_INIT_DS; THREAD_INIT_DS; THREAD_INIT_DS; THREAD_INIT_DS;
   0; 0; 0; 0; 0; 0; stack_slot base (n - 1); stack_slot base (n - 17)].

Fixpoint write_frame (base i : Z) (ws : list Z) (m : gmap Z Z) : gmap Z Z :=
  match ws with
  | [] => m
  | w :: ws => write_frame base (i - 1) ws (<[stack_slot base i := w]> m)
  end.

Definition cpu_init_thread_context (entry_point stack_index free_table_page
  page_table_address thread : Z) : M sched unit :=
  let* t := get_thread thread in
  let base := stack t in
  upd_thread thread (set_cpu_context
    (mk_context (stack_slot base (stack_index - 17)) (stack_slot base (stack_index - 1))
       entry_point page_table_address)) >>>
  upd_thread thread (set_free_page_table free_table_page) >>>
  modify (fun s => with_stack
    (write_frame base (stack_index - 1) (initial_frame base stack_index entry_point)
       (sc_stack s)) s).

(** [(size + ALIGN - 1) & ~(ALIGN - 1)] in words. *)
Definition stack_words (stack_size : Z) : Z :=
  Z.land (u32 (stack_size + ALIGN - 1)) (2 ^ 32 - ALIGN) / 4.

(** [kernel_queue_delete_queue(&thread->children)], its result dropped. *)
Definition delete_children (thread : Z) : M sched unit :=
  let* t := get_thread thread in
  let* (ch, _) := q (kernel_queue_delete_queue (children t)) in
  upd_thread thread (set_children ch).

(** [kernel_queue_delete_node(&node)], its result dropped. *)
Definition drop_node (node : Z) : M sched unit :=
  q (kernel_queue_delete_node node) >>> ret tt.

(** [kfree(thread->stack); kfree(thread);] *)
Definition free_thread (thread : Z) : M sched unit :=
  let* t := get_thread thread in s_kfree (stack t) >>> s_kfree thread.

(** The body of the critical section of [sched_create_kernel_thread] up to
    the counter: the thread (null on error) and the code. *)
Section Create.
Variables (thread_wrapper prio : Z) (tname : list Z) (size affinity func targs : Z).

Definition init_new_thread (new_thread : Z) : M sched unit :=
  modify (fun s => with_threads (<[new_thread := zero_thread]> (sc_threads s)) s) >>>
  modify (fun s => with_last_given_tid (u32 (last_given_tid s + 1)) s) >>>
  let* n := gets last_given_tid in
  upd_thread new_thread (set_tid (i32 n)) >>>
  let* a := active in
  let* at_ := get_thread a in
  upd_thread new_thread (set_ptid (tid at_)) >>>
  upd_thread new_thread (set_thread_priority prio) >>>
  upd_thread new_thread (set_init_prio prio) >>>
  upd_thread new_thread (set_args targs) >>>
  upd_thread new_thread (set_function func) >>>
  upd_thread new_thread (set_joining_thread NULL) >>>
  upd_thread new_thread (set_state THREAD_STATE_READY) >>>
  upd_thread new_thread (set_stack_size size) >>>
  upd_thread new_thread (set_cpu_affinity affinity).

(** From the first node of the thread on. *)
Definition enlist_new_thread (new_thread new_thread_node : Z) : M sched (Z * OS_RETURN_E) :=
  let* (second, err) := q (kernel_queue_create_node new_thread) in
  if decide (err <> OS_NO_ERR) then
    delete_children new_thread >>> drop_node new_thread_node >>>
    free_thread new_thread >>> ret (NULL, err)
  else
    let* (child, err) := q (kernel_queue_create_node new_thread) in
    if decide (err <> OS_NO_ERR) then
      delete_children new_thread >>> drop_node new_thread_node >>> drop_node second >>>
      free_thread new_thread >>> ret (NULL, err)
    else
      let undo := delete_children new_thread >>> drop_node child >>>
                  drop_node new_thread_node >>> drop_node second in
      let* all := gets global_threads_table in
      let* err := q (kernel_queue_push second all) in
      if decide (err <> OS_NO_ERR) then undo >>> free_thread new_thread >>> ret (NULL, err)
      else
        let* a := active in
        let* at_ := get_thread a in
        let* err := q (kernel_queue_push child (children at_)) in
        if decide (err <> OS_NO_ERR) then
          undo >>> q (kernel_queue_remove all second) >>>
          free_thread new_thread >>> ret (NULL, err)
        else
          let* table := active_table affinity prio in
          let* err := q (kernel_queue_push new_thread_node table) in
          if decide (err <> OS_NO_ERR) then
            undo >>> q (kernel_queue_remove all second) >>>
            q (kernel_queue_remove (children at_) child) >>>
            free_thread new_thread >>> ret (NULL, err)
          else ret (new_thread, OS_NO_ERR).

(** The allocations that come first; [new_thread] is null on error. *)
Definition alloc_thread : M sched (Z * Z * OS_RETURN_E) :=
  let* new_thread := q (q_kmalloc sizeof_kernel_thread) in
  let* (node, err) := q (kernel_queue_create_node new_thread) in
  if decide (err <> OS_NO_ERR \/ new_thread = NULL \/ node = NULL) then
    if decide (new_thread <> NULL) then s_kfree new_thread >>> ret (NULL, NULL, err)
    else ret (NULL, NULL, OS_ERR_MALLOC)
  else ret (new_thread, node, OS_NO_ERR).

(** Children, stack and context. *)
Definition build_thread (new_thread node : Z) : M sched (Z * OS_RETURN_E) :=
  let* (ch, err) := q kernel_queue_create_queue in
  upd_thread new_thread (set_children ch) >>>
  if decide (err <> OS_NO_ERR) then
    drop_node node >>> s_kfree new_thread >>> ret (NULL, err)
  else
    let words := stack_words size in
    let* st := q (q_kmalloc (u32 (words * 4))) in
    upd_thread new_thread (set_stack st) >>>
    if decide (st = NULL) then
      drop_node node >>> delete_children new_thread >>> s_kfree new_thread >>>
      ret (NULL, OS_ERR_MALLOC)
    else
      let* a := active in
      let* at_ := get_thread a in
      cpu_init_thread_context thread_wrapper words (free_page_table at_)
        (cr3 (cpu_context at_)) new_thread >>>
      upd_thread new_thread (set_name (strncpy_field THREAD_MAX_NAME_LENGTH tname)) >>>
      enlist_new_thread new_thread node.

(** The first component of the result is the value stored through [thread]
    when it is given ([None]: nothing is stored). *)
Definition sched_create_kernel_thread : M (kstate sched) (option Z * OS_RETURN_E) :=
  if decide (affinity > MAX_CPU_COUNT - 1) then ret (None, OS_ERR_UNAUTHORIZED_ACTION)
  else if decide (prio > KERNEL_LOWEST_PRIORITY) then ret (Some NULL, OS_ERR_FORBIDEN_PRIORITY)
  else
    critical e cpu_lock (
      let* (p, node, err) := lift alloc_thread in
      if decide (err <> OS_NO_ERR) then ret (Some NULL, err)
      else
        lift (init_new_thread p) >>>
        INIT_SPINLOCK (ObjLock p) >>>
        let* (p, err) := lift (build_thread p node) in
        if decide (err <> OS_NO_ERR) then ret (Some NULL, err)
        else
          critical e SchedLock (lift incr_thread_count) >>>
          ret (Some p, OS_NO_ERR)).
End Create.

(** *** The idle thread *)
Definition idle_name : list Z := [73; 100; 108; 101; 0].

Definition init_idle_thread (idle idle_stack_size idle_sys : Z) : M sched unit :=
  modify (fun s => with_threads (<[idle := zero_thread]> (sc_threads s)) s) >>>
  let* n := gets last_given_tid in
  upd_thread idle (set_tid (i32 n)) >>>
  upd_thread idle (set_ptid (i32 n)) >>>
  upd_thread idle (set_thread_priority IDLE_THREAD_PRIORITY) >>>
  upd_thread idle (set_init_prio IDLE_THREAD_PRIORITY) >>>
  upd_thread idle (set_args 0) >>>
  upd_thread idle (set_function idle_sys) >>>
  upd_thread idle (set_joining_thread NULL) >>>
  upd_thread idle (set_state THREAD_STATE_RUNNING) >>>
  upd_thread idle (set_stack_size idle_stack_size) >>>
  upd_thread idle (set_cpu_affinity cpu_id).

Definition alloc_idle : M sched (Z * OS_RETURN_E) :=
  let* idle := q (q_kmalloc sizeof_kernel_thread) in
  upd_cpu cpu_id (set_idle_thread idle) >>>
  let* (node, err) := q (kernel_queue_create_node idle) in
  upd_cpu cpu_id (set_idle_thread_node node) >>>
  if decide (err <> OS_NO_ERR \/ idle = NULL \/ node = NULL) then
    if decide (idle <> NULL) then s_kfree idle >>> ret (NULL, err)
    else ret (NULL, OS_ERR_MALLOC)
  else ret (idle, OS_NO_ERR).

(** [strncpy(name, idle_name, 5)] leaves the rest of the zeroed field. *)
Definition build_idle (idle idle_stack_size thread_wrapper : Z) : M sched OS_RETURN_E :=
  let* (ch, err) := q kernel_queue_create_queue in
  upd_thread idle (set_children ch) >>>
  if decide (err <> OS_NO_ERR) then s_kfree idle >>> ret err
  else
    let words := stack_words idle_stack_size in
    let* st := q (q_kmalloc (u32 (words * 4))) in
    upd_thread idle (set_stack st) >>>
    if decide (st = NULL) then s_kfree idle >>> ret OS_ERR_MALLOC
    else
      cpu_init_thread_context thread_wrapper words (kernel_free_pages e)
        (current_pgdir e) idle >>>
      upd_thread idle (fun t => set_name (strncpy_field 5 idle_name ++ drop 5 (name t)) t) >>>
      let* (second, err) := q (kernel_queue_create_node idle) in
      if decide (err <> OS_NO_ERR \/ second = NULL) then free_thread idle >>> ret err
      else
        let* all := gets global_threads_table in
        let* err := q (kernel_queue_push second all) in
        if decide (err <> OS_NO_ERR) then free_thread idle >>> ret err
        else
          incr_thread_count >>>
          modify (fun s => with_last_given_tid (u32 (last_given_tid s + 1)) s) >>>
          let* c := get_cpu cpu_id in
          upd_cpu cpu_id (set_active_thread (idle_thread c)) >>>
          upd_cpu cpu_id (set_active_thread_node (idle_thread_node c)) >>>
          upd_cpu cpu_id (fun c => set_prev_thread (active_thread c) c) >>>
          upd_cpu cpu_id (fun c => set_prev_thread_node (active_thread_node c) c) >>>
          ret OS_NO_ERR.

Definition create_idle (idle_stack_size thread_wrapper idle_sys : Z) :
  M (kstate sched) OS_RETURN_E :=
  let* (idle, err) := lift alloc_idle in
  if decide (err <> OS_NO_ERR) then ret err
  else
    lift (init_idle_thread idle idle_stack_size idle_sys) >>>
    INIT_SPINLOCK (ObjLock idle) >>>
    lift (build_idle idle idle_stack_size thread_wrapper).

(** One turn of the loop of [idle_sys], up to [cpu_hlt]. *)
Definition idle_sys_turn : M (kstate sched) unit :=
  lift (upd_cpu cpu_id (fun c => set_idle_sched_count (u64 (idle_sched_count c + 1)) c)) >>>
  modify (fun t => mk_kstate (core t) (kernel_interrupt_restore 1 (int_flag t)) (locks t)) >>>
  let* s := gets core in
  if decide (cpu_id = main_core_id s /\ system_state s = SYSTEM_STATE_HALTED) then
    modify (fun t => mk_kstate (core t) (kernel_interrupt_disable (int_flag t)).2 (locks t)) >>>
    lift (modify (fun s => with_main_core_id (main_core_id s + 1) s))
  else ret tt.

(** *** Waiting for a thread *)

(** Result: the value stored through [ret_val] and the cause stored through
    [term_cause] ([None]: nothing is stored), and the code. *)
Definition wait_result : Type := option Z * option THREAD_TERMINATE_CAUSE_E * OS_RETURN_E.

Definition sched_wait_thread (thread : Z) : M (kstate sched) (step wait_result) :=
  if decide (thread = NULL) then ret (Done (None, None, OS_ERR_NULL_POINTER))
  else
    let* t := lift (get_thread thread) in
    if decide (state t = THREAD_STATE_DEAD) then ret (Done (None, None, OS_ERR_NO_SUCH_ID))
    else if decide (state t = THREAD_STATE_ZOMBIE) then
      lift (upd_thread thread (set_state THREAD_STATE_DEAD)) >>>
      sched_clean_joined_thread thread >>>
      ret (Done (Some (ret_val t), None, OS_NO_ERR))
    else
      lift (let* c := get_cpu cpu_id in
            upd_thread (active_thread c) (set_state THREAD_STATE_JOINING) >>>
            upd_thread thread (set_joining_thread (active_thread_node c))) >>>
      ret Switched.

Definition sched_wait_thread_resume (thread : Z) : M (kstate sched) wait_result :=
  let* t := lift (get_thread thread) in
  sched_clean_joined_thread thread >>>
  ret (Some (ret_val t), Some (return_cause t), OS_NO_ERR).

(** *** Blocking and unblocking *)
Definition sched_lock_thread (kind : THREAD_WAIT_TYPE_E) : M sched Z :=
  let* c := get_cpu cpu_id in
  if decide (active_thread c = idle_thread c) then ret NULL
  else
    let current_thread_node := active_thread_node c in
    upd_thread (active_thread c) (set_state THREAD_STATE_WAITING) >>>
    upd_thread (active_thread c) (set_block_type kind) >>>
    ret current_thread_node.

(** The critical section of [sched_unlock_thread]. *)
Definition make_ready (thread node : Z) : M sched unit :=
  upd_thread thread (set_state THREAD_STATE_READY) >>>
  let* t := get_thread thread in
  let* table := active_table (cpu_affinity t) (priority t) in
  let* err := q (kernel_queue_push node table) in
  check err.

Definition sched_unlock_thread (node : Z) (kind : THREAD_WAIT_TYPE_E) (do_schedule : Z) :
  M (kstate sched) (step OS_RETURN_E) :=
  let* thread := lift (node_data node) in
  let* c := lift (get_cpu cpu_id) in
  if decide (thread = NULL \/ thread = idle_thread c) then ret (Done OS_ERR_NO_SUCH_ID)
  else
    let* t := lift (get_thread thread) in
    if decide (state t <> THREAD_STATE_WAITING \/ block_type t <> kind) then
      ret (Done match kind with
                | THREAD_WAIT_TYPE_SEM => OS_ERR_NO_SEM_BLOCKED
                | THREAD_WAIT_TYPE_MUTEX => OS_ERR_NO_MUTEX_BLOCKED
                | _ => OS_ERR_NULL_POINTER
                end)
    else
      critical e cpu_lock (lift (make_ready thread node)) >>>
      if decide (do_schedule <> 0) then ret (Yielded OS_NO_ERR) else ret (Done OS_NO_ERR).

(** [wakeup_time] is a [uint64_t], the rest of the sum as well. *)
Definition sched_sleep (time_ms : Z) : M sched (step OS_RETURN_E) :=
  let* c := get_cpu cpu_id in
  if decide (active_thread c = idle_thread c) then ret (Done OS_ERR_UNAUTHORIZED_ACTION)
  else
    upd_thread (active_thread c)
      (set_wakeup_time (u64 (uptime e + time_ms - 1000 / KERNEL_MAIN_TIMER_FREQ))) >>>
    upd_thread (active_thread c) (set_state THREAD_STATE_SLEEPING) >>>
    ret (Yielded OS_NO_ERR).

(** *** The current thread *)
Definition get_system_state : M sched SYSTEM_STATE_E := gets system_state.
Definition sched_get_thread_count : M sched Z := gets thread_count.

Definition sched_get_tid : M sched Z :=
  let* c := get_cpu cpu_id in
  if decide (first_sched c = 0) then ret 0
  else let* t := get_thread (active_thread c) in ret (tid t).

Definition sched_get_self : M sched Z :=
  let* c := get_cpu cpu_id in
  if decide (first_sched c = 0) then ret NULL else ret (active_thread c).

Definition sched_get_ptid : M sched Z :=
  let* a := active in let* t := get_thread a in ret (ptid t).

Definition sched_get_priority : M sched Z :=
  let* a := active in let* t := get_thread a in ret (priority t).

Definition sched_set_priority (prio : Z) : M sched OS_RETURN_E :=
  if decide (prio > KERNEL_LOWEST_PRIORITY) then ret OS_ERR_FORBIDEN_PRIORITY
  else let* a := active in upd_thread a (set_thread_priority prio) >>> ret OS_NO_ERR.

Definition sched_get_schedule_count : M sched Z :=
  let* c := get_cpu cpu_id in ret (schedule_count c).

Definition sched_get_idle_schedule_count : M sched Z :=
  let* c := get_cpu cpu_id in ret (idle_sched_count c).

Definition sched_get_thread_free_page_table : M sched Z :=
  let* c := get_cpu cpu_id in
  if decide (first_sched c = 1) then ret (kernel_free_pages e)
  else let* t := get_thread (active_thread c) in ret (free_page_table t).

Definition sched_get_thread_phys_pgdir : Z := current_pgdir e.

(** *** Information on the threads *)
Definition thread_info_of (t : kernel_thread) : thread_info :=
  mk_info (tid t) (ptid t) (strncpy_field THREAD_MAX_NAME_LENGTH (name t)) (priority t)
    (state t) (u32 (start_time t))
    (u32 (if decide (state t <> THREAD_STATE_ZOMBIE) then uptime e else end_time t)).

(** The walk over the global table: [n] entries remain to be filled,
    [cursor_thread] is read from [cursor] before the loop tests anything. *)
Fixpoint threads_info_loop (n : nat) (cursor cursor_thread : Z) : M sched (list thread_info) :=
  if decide (cursor = NULL) then ret []
  else
    match n with
    | O => ret []
    | S n =>
        let* t := get_thread cursor_thread in
        let* c := q (get_node cursor) in
        let* next_thread := node_data (n_next c) in
        let* rest := threads_info_loop n (n_next c) next_thread in
        ret (thread_info_of t :: rest)
    end.

(** [threads] says whether the buffer is given, [size] is [*size] when it is;
    the result holds the new [*size], the entries filled and the code. *)
Definition get_threads_info (threads : bool) (size : option Z) :
  M sched (option Z * list thread_info * OS_RETURN_E) :=
  match threads, size with
  | false, _ => ret (None, [], OS_ERR_NULL_POINTER)
  | _, None => ret (None, [], OS_ERR_NULL_POINTER)
  | true, Some size =>
      let* count := gets thread_count in
      let size := if decide (size > i32 count) then i32 count else size in
      let* all := gets global_threads_table in
      let* table := q (get_queue all) in
      let* first_thread := node_data (q_head table) in
      let* infos := threads_info_loop (Z.to_nat size) (q_head table) first_thread in
      ret (Some size, infos, OS_NO_ERR)
  end.

(** *** Initialisation *)
Definition create_table : M sched Z :=
  let* (p, err) := q kernel_queue_create_queue in check err >>> ret p.

(** The inner loop of the creation of [active_threads_table]. *)
Fixpoint create_priorities (n : nat) (i j : Z) : M sched unit :=
  match n with
  | O => ret tt
  | S n =>
      let* p := create_table in
      modify (fun s => with_active_threads_table
        (<[i := <[j := p]> (active_threads_table s i)]> (active_threads_table s)) s) >>>
      create_priorities n i (j + 1)
  end.

Fixpoint create_active_tables (n : nat) (i : Z) : M (kstate sched) unit :=
  match n with
  | O => ret tt
  | S n =>
      INIT_SPINLOCK (CpuLock i) >>>
      lift (create_priorities (Z.to_nat (KERNEL_LOWEST_PRIORITY + 1)) i 0) >>>
      create_active_tables n (i + 1)
  end.

Fixpoint create_sleeping_tables (n : nat) (i : Z) : M sched unit :=
  match n with
  | O => ret tt
  | S n =>
      let* p := create_table in
      upd_cpu i (set_sleeping_threads_table p) >>>
      create_sleeping_tables n (i + 1)
  end.

(** The two counters are cleared for the first CPU only. *)
Definition reset_settings : M sched unit :=
  modify (with_last_given_tid 0) >>>
  modify (with_thread_count 0) >>>
  upd_cpu 0 (set_schedule_count 0) >>>
  upd_cpu 0 (set_idle_sched_count 0) >>>
  modify (with_init_thread NULL) >>>
  modify (with_init_thread_node NULL) >>>
  modify (fun s => with_cpus (fun c =>
    if decide (0 <= c < MAX_CPU_COUNT) then set_first_sched 0 (sc_cpus s c) else sc_cpus s c) s).

(** Addresses of the routines the scheduler registers. *)
Record routines : Type := mk_routines {
  r_schedule_int : Z;
  r_thread_wrapper : Z;
  r_idle_sys : Z;
  r_init_func : Z;
  r_main_kickstart : Z;
}.

Variable rt : routines.

Definition on_handlers {A} (m : M (kstate handlers) A) : M (kstate sched) A :=
  kzoom sc_handlers with_handlers m.

(** [time_register_scheduler]: the routine is the only part of the time
    manager that the scheduler writes. *)
Definition register_scheduler (call : Z) : M sched OS_RETURN_E :=
  if decide (call = NULL) then ret OS_ERR_NULL_POINTER
  else modify (with_schedule_routine call) >>> ret OS_NO_ERR.

Definition init_name : list Z := [105; 110; 105; 116; 0].
Definition main_name : list Z := [109; 97; 105; 110; 0].

Definition sched_init : M (kstate sched) OS_RETURN_E :=
  lift reset_settings >>>
  INIT_SPINLOCK SchedLock >>>
  let* all := lift create_table in
  lift (modify (with_global_threads_table all)) >>>
  create_active_tables (Z.to_nat MAX_CPU_COUNT) 0 >>>
  let* zombies := lift create_table in
  lift (modify (with_zombie_threads_table zombies)) >>>
  lift (create_sleeping_tables (Z.to_nat MAX_CPU_COUNT) 0) >>>
  let* err := create_idle SCHEDULER_IDLE_STACK_SIZE (r_thread_wrapper rt) (r_idle_sys rt) in
  lift (check err) >>>
  let* err := on_handlers
    (kernel_interrupt_register_int_handler e SCHEDULER_SW_INT_LINE (r_schedule_int rt)) in
  if decide (err <> OS_NO_ERR) then ret err
  else
    let* err := lift (register_scheduler (r_schedule_int rt)) in
    if decide (err <> OS_NO_ERR) then ret err
    else
      let* (init, err) := sched_create_kernel_thread (r_thread_wrapper rt)
        KERNEL_HIGHEST_PRIORITY init_name SCHEDULER_INIT_STACK_SIZE 0 (r_init_func rt) 0 in
      lift (match init with
            | Some p => modify (with_init_thread p)
            | None => ret tt
            end) >>>
      if decide (err <> OS_NO_ERR) then ret err
      else
        lift (modify (with_system_state SYSTEM_STATE_RUNNING)) >>>
        ret OS_NO_ERR.

(** Once the main CPU has scheduled: [sched_init_ap] spins until then. *)
Definition sched_init_ap : M (kstate sched) (option (step OS_RETURN_E)) :=
  let* c0 := lift (get_cpu 0) in
  if decide (first_sched c0 = 0) then ret None
  else
    let* err := create_idle SCHEDULER_IDLE_STACK_SIZE (r_thread_wrapper rt) (r_idle_sys rt) in
    lift (check err) >>>
    modify (fun t => mk_kstate (core t) (kernel_interrupt_restore 1 (int_flag t)) (locks t)) >>>
    ret (Some (Yielded OS_ERR_UNAUTHORIZED_ACTION)).

(** *** The init thread

    [init_func] starts main and waits for it, then for the threads it has
    inherited.  The result of a part says what the thread does next. *)
Inductive init_next : Type :=
  | InitWaiting (thread node : Z)  (* goes on to [sched_wait_thread thread] *)
  | InitDone.                      (* the system is halted *)

Definition wait_or_panic (thread : Z) : M (kstate sched) (step wait_result) :=
  let* st := sched_wait_thread thread in
  match st with
  | Done (_, _, err) | Yielded (_, _, err) => lift (check err)
  | Switched => ret tt
  end >>>
  ret st.

Definition init_func_start : M (kstate sched) (Z * step wait_result) :=
  let* (main_thread, err) := sched_create_kernel_thread (r_thread_wrapper rt)
    KERNEL_HIGHEST_PRIORITY main_name SCHEDULER_MAIN_STACK_SIZE 0 (r_main_kickstart rt) 1 in
  lift (check err) >>>
  let main_thread := default NULL main_thread in
  let* st := wait_or_panic main_thread in
  ret (main_thread, st).

Definition init_pop : M sched (option init_next) :=
  let* a := active in
  let* at_ := get_thread a in
  let* (node, err) := q (kernel_queue_pop (children at_)) in
  if decide (node <> NULL /\ err = OS_NO_ERR) then
    let* thread := node_data node in ret (Some (InitWaiting thread node))
  else ret None.

(** The outer loop.  When threads remain and none is a child of init, it
    polls inside the critical section, interrupts disabled, and on one CPU
    that never ends. *)
Definition init_outer : M sched init_next :=
  let* n := gets thread_count in
  if decide (n > 1 + MAX_CPU_COUNT) then
    let* r := init_pop in
    match r with Some r => ret r | None => diverge end
  else ret InitDone.

Definition halt_if_done (r : init_next) : M (kstate sched) init_next :=
  match r with
  | InitDone => lift (modify (with_system_state SYSTEM_STATE_HALTED)) >>> ret InitDone
  | r => ret r
  end.

(** After main has returned. *)
Definition init_func_children : M (kstate sched) init_next :=
  let* r := critical e cpu_lock (lift init_outer) in halt_if_done r.

(** After the wait for a child: its node is freed and the next one taken. *)
Definition init_func_after_wait (node : Z) : M (kstate sched) init_next :=
  let* r := critical e cpu_lock (lift (
    let* (_, err) := q (kernel_queue_delete_node node) in
    check err >>>
    let* r := init_pop in
    match r with Some r => ret r | None => init_outer end)) in
  halt_if_done r.
End Ops.
