(* ===== verification/SchedulerSpec.v ===== *)
(** * Scheduler: symbolic execution and the pieces of [select_thread]

    The state is followed in the normal form [setq s Q T C]: queues, threads
    and per-CPU data change, the rest of [s] does not. *)
From stdpp Require Import functions sorting.
From S2P Require Import Prelude Alloc Critical KernelQueue Scheduler.

Section Exec.
Context {ops : AllocOps} {B : Type}.
Implicit Types (s : sched) (Q : qstore) (T : gmap Z kernel_thread) (C : Z -> cpu_sched).

Definition setq s Q T C : sched :=
  mk_sched Q T (sc_stack s) C (last_given_tid s) (thread_count s) (init_thread s)
    (init_thread_node s) (active_threads_table s) (zombie_threads_table s)
    (global_threads_table s) (system_state s) (main_core_id s) (sc_handlers s)
    (sc_schedule_routine s).

Lemma setq_id s : setq s (sc_q s) (sc_threads s) (sc_cpus s) = s.
Proof. by destruct s. Qed.

Lemma exec_q {A} (m : M qstore A) (k : A -> M sched B) s Q T C a Q' :
  m Q = Ret (a, Q') -> bind (q m) k (setq s Q T C) = k a (setq s Q' T C).
Proof. intros H. unfold bind, q, zoom. simpl. by rewrite H. Qed.

Lemma exec_get_thread p (k : kernel_thread -> M sched B) s Q T C t :
  T !! p = Some t -> bind (get_thread p) k (setq s Q T C) = k t (setq s Q T C).
Proof. intros H. unfold bind, get_thread. simpl. by rewrite H. Qed.

Lemma exec_upd_thread p f (k : unit -> M sched B) s Q T C t :
  T !! p = Some t -> bind (upd_thread p f) k (setq s Q T C) = k tt (setq s Q (<[p := f t]> T) C).
Proof. intros H. unfold bind, upd_thread. simpl. by rewrite H. Qed.

Lemma exec_get_cpu c (k : cpu_sched -> M sched B) s Q T C :
  bind (get_cpu c) k (setq s Q T C) = k (C c) (setq s Q T C).
Proof. done. Qed.

Lemma exec_upd_cpu c f (k : unit -> M sched B) s Q T C :
  bind (upd_cpu c f) k (setq s Q T C) = k tt (setq s Q T (<[c := f (C c)]> C)).
Proof. done. Qed.

Lemma exec_active e (k : Z -> M sched B) s Q T C :
  bind (active e) k (setq s Q T C) = k (active_thread (C (cpu_id e))) (setq s Q T C).
Proof. done. Qed.

Lemma exec_active_table c p (k : Z -> M sched B) s Q T C :
  0 <= c < MAX_CPU_COUNT -> 0 <= p <= KERNEL_LOWEST_PRIORITY ->
  bind (active_table c p) k (setq s Q T C) = k (active_threads_table s c p) (setq s Q T C).
Proof. intros. unfold bind, active_table. by rewrite decide_True. Qed.

Lemma exec_node_data x (k : Z -> M sched B) s Q T C n :
  qs_nodes Q !! x = Some n ->
  bind (node_data x) k (setq s Q T C) = k (n_data n) (setq s Q T C).
Proof.
  intros H. unfold node_data. rewrite bind_assoc.
  rewrite (exec_q _ _ _ _ _ _ n Q) by (unfold get_node; by rewrite H). done.
Qed.

Lemma exec_check (k : unit -> M sched B) s : bind (check OS_NO_ERR) k s = k tt s.
Proof. done. Qed.
End Exec.

(** ** Queue operations, without the descriptors *)
Section Queues.
Context {ops : AllocOps}.
Implicit Types (Q : qstore) (A : gmap Z (list Z)).

Lemma q_push Q A tb l x :
  qrep Q A -> A !! tb = Some l -> is_Some (qs_nodes Q !! x) -> ~ enlisted_in A x ->
  exists Q', kernel_queue_push x tb Q = Ret (OS_NO_ERR, Q') /\
    qrep Q' (<[tb := x :: l]> A) /\ same_payload (qs_nodes Q) (qs_nodes Q').
Proof.
  intros HR Htb [n Hn] Hx.
  destruct (qrep_lookup _ _ _ _ HR Htb) as (_ & q & Hq & _).
  destruct (push_spec _ _ _ _ _ _ _ HR Htb Hn Hx Hq) as (Q' & ? & ? & ? & _); eauto.
Qed.

Lemma q_pop Q A tb l x :
  qrep Q A -> A !! tb = Some (l ++ [x]) ->
  exists Q', kernel_queue_pop tb Q = Ret ((x, OS_NO_ERR), Q') /\
    qrep Q' (<[tb := l]> A) /\ same_payload (qs_nodes Q) (qs_nodes Q').
Proof.
  intros HR Htb. destruct (qrep_lookup _ _ _ _ HR Htb) as (_ & q & Hq & _).
  destruct (pop_spec _ _ _ _ _ _ HR Htb Hq) as (Q' & ? & ? & ? & _); eauto.
Qed.

Lemma q_push_prio Q A tb l x n prio :
  qrep Q A -> A !! tb = Some l -> qs_nodes Q !! x = Some n -> ~ enlisted_in A x ->
  prio_sorted (qs_nodes Q) l ->
  exists l' Q', kernel_queue_push_prio x tb prio Q = Ret (OS_NO_ERR, Q') /\
    qrep Q' (<[tb := l']> A) /\ prio_sorted (qs_nodes Q') l' /\ l' ≡ₚ x :: l /\
    same_payload (<[x := set_priority prio n]> (qs_nodes Q)) (qs_nodes Q').
Proof.
  intros HR Htb Hn Hx Hs. destruct (qrep_lookup _ _ _ _ HR Htb) as (_ & q & Hq & _).
  destruct (push_prio_sorted _ _ _ _ _ _ _ prio HR Htb Hn Hx Hq Hs)
    as (l' & Q' & ? & ? & ? & ? & ?). eauto 10.
Qed.

(** A node of a queue is allocated and not null. *)
Lemma q_member Q A tb l x :
  qrep Q A -> A !! tb = Some l -> x ∈ l -> x <> NULL /\ is_Some (qs_nodes Q !! x).
Proof.
  intros HR Htb Hx. destruct (qrep_lookup _ _ _ _ HR Htb) as (_ & q & _ & _ & _ & Hd & _).
  destruct (dseg_lookup _ _ _ _ x Hd Hx) as (? & n & ? & _). eauto.
Qed.

(** Once out of its queue, a node is in none. *)
Lemma q_unlisted Q A tb l x :
  qrep Q A -> A !! tb = Some (l ++ [x]) -> ~ enlisted_in (<[tb := l]> A) x.
Proof.
  intros HR Htb (tb' & l' & Htb' & Hx).
  destruct (decide (tb = tb')) as [<-|Hne].
  - rewrite lookup_insert_eq in Htb'. injection Htb' as <-.
    destruct (qrep_lookup _ _ _ _ HR Htb) as (_ & q & _ & _ & _ & _ & Hnd).
    apply NoDup_app in Hnd as (_ & Hnd & _). apply (Hnd x Hx). by apply list_elem_of_singleton.
  - rewrite lookup_insert_ne in Htb' by done. apply Hne.
    apply (qr_disj _ _ HR tb tb' _ _ x Htb Htb'); [|done].
    apply elem_of_app. right. by apply list_elem_of_singleton.
Qed.
End Queues.

(** ** What election keeps

    The node payloads that matter and the threads up to their state. *)
Section Frames.
Context {ops : AllocOps}.
Implicit Types (Q : qstore) (T : gmap Z kernel_thread).

Definition same_data Q Q' : Prop :=
  forall x, n_data <$> qs_nodes Q' !! x = n_data <$> qs_nodes Q !! x.

Definition same_threads T T' : Prop :=
  forall d, set_state THREAD_STATE_READY <$> T' !! d = set_state THREAD_STATE_READY <$> T !! d.

#[export] Instance same_data_preorder : PreOrder same_data.
Proof. split; [done|]. intros Q1 Q2 Q3 H1 H2 x. by rewrite H2, H1. Qed.
#[export] Instance same_threads_preorder : PreOrder same_threads.
Proof. split; [done|]. intros T1 T2 T3 H1 H2 x. by rewrite H2, H1. Qed.

Lemma same_payload_data Q Q' : same_payload (qs_nodes Q) (qs_nodes Q') -> same_data Q Q'.
Proof.
  intros H x. specialize (H x). unfold payload in H.
  destruct (qs_nodes Q' !! x), (qs_nodes Q !! x); simplify_eq/=; congruence.
Qed.

Lemma same_threads_insert T d t v : T !! d = Some t -> same_threads T (<[d := set_state v t]> T).
Proof.
  intros Hd x. destruct (decide (d = x)) as [<-|].
  - rewrite lookup_insert_eq, Hd. done.
  - by rewrite lookup_insert_ne.
Qed.

Lemma same_threads_lookup T T' d t :
  same_threads T T' -> T !! d = Some t ->
  exists t', T' !! d = Some t' /\ priority t' = priority t /\ wakeup_time t' = wakeup_time t.
Proof.
  intros H Hd. specialize (H d). rewrite Hd in H. destruct (T' !! d) as [t'|]; [|done].
  injection H as ?. eauto.
Qed.

(** The thread of a node, and what the scheduler reads in it. *)
Definition thread_at Q (x : Z) : Z := default NULL (n_data <$> qs_nodes Q !! x).
Definition prio_at Q T (x : Z) : Z := default 0 (priority <$> T !! thread_at Q x).
Definition wakeup_at Q T (x : Z) : Z := default 0 (wakeup_time <$> T !! thread_at Q x).

Record runnable Q T (x : Z) : Prop := {
  run_node : is_Some (qs_nodes Q !! x);
  run_data : thread_at Q x <> NULL;
  run_thread : is_Some (T !! thread_at Q x);
  run_prio : 0 <= prio_at Q T x <= KERNEL_LOWEST_PRIORITY;
}.

(** A sleeping node is filed under its thread's wake-up time, which the
    32-bit priority of a node can hold. *)
Record asleep Q T (x : Z) : Prop := {
  asleep_run : runnable Q T x;
  asleep_prio : prio_of (qs_nodes Q) x = wakeup_at Q T x;
  asleep_range : 0 <= wakeup_at Q T x < 2 ^ 32;
}.

Lemma thread_at_same Q Q' x : same_data Q Q' -> thread_at Q' x = thread_at Q x.
Proof. intros H. unfold thread_at. by rewrite H. Qed.

Lemma prio_at_same Q Q' T T' x :
  same_data Q Q' -> same_threads T T' -> prio_at Q' T' x = prio_at Q T x.
Proof.
  intros HQ HT. unfold prio_at. rewrite (thread_at_same _ _ _ HQ).
  specialize (HT (thread_at Q x)).
  destruct (T' !! _), (T !! _); simplify_eq/=; congruence.
Qed.

Lemma wakeup_at_same Q Q' T T' x :
  same_data Q Q' -> same_threads T T' -> wakeup_at Q' T' x = wakeup_at Q T x.
Proof.
  intros HQ HT. unfold wakeup_at. rewrite (thread_at_same _ _ _ HQ).
  specialize (HT (thread_at Q x)).
  destruct (T' !! _), (T !! _); simplify_eq/=; congruence.
Qed.

Lemma runnable_same Q Q' T T' x :
  same_data Q Q' -> same_threads T T' -> runnable Q T x -> runnable Q' T' x.
Proof.
  intros HQ HT [Hn Hd Ht Hp]. split.
  - specialize (HQ x). destruct Hn as [n Hn]. rewrite Hn in HQ. by destruct (_ !! x).
  - by rewrite (thread_at_same _ _ _ HQ).
  - rewrite (thread_at_same _ _ _ HQ). destruct Ht as [t Ht].
    destruct (same_threads_lookup _ _ _ _ HT Ht) as (t' & -> & _). done.
  - by rewrite (prio_at_same _ _ _ _ _ HQ HT).
Qed.

Lemma asleep_same Q Q' T T' x :
  same_data Q Q' -> prio_of (qs_nodes Q') x = prio_of (qs_nodes Q) x ->
  same_threads T T' -> asleep Q T x -> asleep Q' T' x.
Proof.
  intros HQ Hp HT [Hr Hw Hb]. split.
  - by apply (runnable_same Q Q' T T').
  - by rewrite Hp, (wakeup_at_same _ _ _ _ _ HQ HT).
  - by rewrite (wakeup_at_same _ _ _ _ _ HQ HT).
Qed.

(** Filing a node under another priority. *)
Lemma same_data_set_priority Q Q' x n v :
  qs_nodes Q !! x = Some n ->
  same_payload (<[x := set_priority v n]> (qs_nodes Q)) (qs_nodes Q') ->
  same_data Q Q' /\ prio_of (qs_nodes Q') x = v /\
  forall y, y <> x -> prio_of (qs_nodes Q') y = prio_of (qs_nodes Q) y.
Proof.
  intros Hn Hp. split_and!.
  - intros y. specialize (Hp y). unfold payload in Hp.
    destruct (decide (x = y)) as [<-|Hne].
    + rewrite lookup_insert_eq in Hp. rewrite Hn.
      destruct (qs_nodes Q' !! x); simplify_eq/=; congruence.
    + rewrite lookup_insert_ne in Hp by done.
      destruct (qs_nodes Q' !! y), (qs_nodes Q !! y); simplify_eq/=; congruence.
  - rewrite (same_payload_prio _ _ _ Hp). unfold prio_of. by rewrite lookup_insert_eq.
  - intros y Hy. rewrite (same_payload_prio _ _ _ Hp). unfold prio_of.
    by rewrite lookup_insert_ne.
Qed.

Lemma runnable_lookup Q T x :
  runnable Q T x -> exists n t, qs_nodes Q !! x = Some n /\ n_data n = thread_at Q x /\
    n_data n <> NULL /\ T !! n_data n = Some t /\ priority t = prio_at Q T x /\
    wakeup_time t = wakeup_at Q T x /\ 0 <= priority t <= KERNEL_LOWEST_PRIORITY.
Proof.
  intros [[n Hn] Hd [t Ht] Hp]. exists n, t.
  assert (n_data n = thread_at Q x) as Hx by (unfold thread_at; by rewrite Hn).
  unfold prio_at, wakeup_at in *. rewrite Hx, Ht in *. simpl in *. naive_solver.
Qed.
End Frames.

(** ** The election, step by step *)
Section Election.
Context {ops : AllocOps} (e : sched_env).
Implicit Types (s : sched) (Q : qstore) (T : gmap Z kernel_thread) (C : Z -> cpu_sched)
  (A : gmap Z (list Z)).

Definition ready_table s (i : Z) : Z := active_threads_table s (cpu_id e) i.
Definition sleep_table C : Z := sleeping_threads_table (C (cpu_id e)).
Definition level (i : Z) : Prop := 0 <= i <= KERNEL_LOWEST_PRIORITY.

(** The queues of this CPU exist and are all different. *)
Record tables_ok s C A : Prop := {
  tab_cpu : 0 <= cpu_id e < MAX_CPU_COUNT;
  tab_ready i : level i -> is_Some (A !! ready_table s i);
  tab_inj i j : level i -> level j -> ready_table s i = ready_table s j -> i = j;
  tab_sleep i : level i -> ready_table s i <> sleep_table C;
}.

(** Nodes ready at level [i], from head to tail. *)
Definition ready s A (i : Z) : list Z := default [] (A !! ready_table s i).

Lemma ready_lookup s C A i :
  tables_ok s C A -> level i -> A !! ready_table s i = Some (ready s A i).
Proof. intros HT Hi. destruct (tab_ready _ _ _ HT i Hi) as [l Hl]. unfold ready. by rewrite Hl. Qed.

Lemma tables_ok_insert s C A tb l :
  tables_ok s C A -> tables_ok s C (<[tb := l]> A).
Proof.
  intros [H1 H2 H3 H4]. split; [done| |done..].
  intros i Hi. destruct (decide (tb = ready_table s i)) as [<-|].
  - by rewrite lookup_insert_eq.
  - rewrite lookup_insert_ne by done. auto.
Qed.

Lemma ready_insert s C A i l : ready s (<[ready_table s i := l]> A) i = l.
Proof. unfold ready. by rewrite lookup_insert_eq. Qed.

Lemma ready_insert_ne s C A i j l :
  tables_ok s C A -> level i -> level j -> i <> j ->
  ready s (<[ready_table s i := l]> A) j = ready s A j.
Proof.
  intros HT Hi Hj Hne. unfold ready. rewrite lookup_insert_ne; [done|].
  intros E. apply Hne. by apply (tab_inj _ _ _ HT).
Qed.

Lemma ready_insert_sleep s C A i l :
  tables_ok s C A -> level i -> ready s (<[sleep_table C := l]> A) i = ready s A i.
Proof.
  intros HT Hi. unfold ready. rewrite lookup_insert_ne; [done|].
  intros E. by apply (tab_sleep _ _ _ HT i Hi).
Qed.

Lemma sleep_insert_ready s C A i l :
  tables_ok s C A -> level i -> (<[ready_table s i := l]> A) !! sleep_table C = A !! sleep_table C.
Proof. intros HT Hi. rewrite lookup_insert_ne; [done|]. by apply (tab_sleep _ _ _ HT). Qed.

(** Queues that are neither ready queues nor the sleepers'. *)
Definition other s C (tb : Z) : Prop :=
  tb <> sleep_table C /\ forall i, level i -> tb <> ready_table s i.

Lemma push_ready s Q T C A x (k : OS_RETURN_E -> M sched unit) i :
  qrep Q A -> tables_ok s C A -> level i -> is_Some (qs_nodes Q !! x) -> ~ enlisted_in A x ->
  exists Q', qrep Q' (<[ready_table s i := x :: ready s A i]> A) /\
    same_payload (qs_nodes Q) (qs_nodes Q') /\
    bind (active_table (cpu_id e) i) (fun table =>
      bind (q (kernel_queue_push x table)) k) (setq s Q T C) =
    k OS_NO_ERR (setq s Q' T C).
Proof.
  intros HR HT Hi Hx Hni.
  destruct (q_push _ _ _ _ x HR (ready_lookup _ _ _ _ HT Hi) Hx Hni) as (Q' & Hrun & HR' & Hp).
  exists Q'. split; [done|]. split; [done|].
  rewrite exec_active_table by (apply HT || done).
  by rewrite (exec_q _ _ _ _ _ _ _ _ Hrun).
Qed.

Definition due Q T (now x : Z) : Prop := wakeup_at Q T x < now.

Lemma wake_done fuel now s Q T C A keep :
  qrep Q A -> A !! sleep_table C = Some keep ->
  (forall x, x ∈ keep -> asleep Q T x) -> prio_sorted (qs_nodes Q) keep ->
  (forall y, last keep = Some y -> ~ due Q T now y) ->
  exists Q' keep', wake_sleepers e (S fuel) now (setq s Q T C) = Ret (tt, setq s Q' T C) /\
    qrep Q' (<[sleep_table C := keep']> A) /\ same_data Q Q' /\ keep' ≡ₚ keep /\
    prio_sorted (qs_nodes Q') keep' /\ (forall x, x ∈ keep' -> asleep Q' T x).
Proof.
  intros HR Hsl Has Hso Hlast. simpl. rewrite exec_get_cpu. fold (sleep_table C).
  destruct (last keep) as [y|] eqn:El.
  - apply last_Some in El as (k' & ->).
    destruct (q_pop _ _ _ _ _ HR Hsl) as (Q1 & Hrun & HR1 & Hp1).
    rewrite (exec_q _ _ _ _ _ _ _ _ Hrun). simpl. rewrite exec_check.
    destruct (q_member _ _ _ _ y HR Hsl) as [Hy0 _]; [set_solver|].
    rewrite decide_False by done.
    pose proof (same_payload_data _ _ Hp1) as Hd1.
    assert (Hy : asleep Q1 T y).
    { apply (asleep_same Q _ T); try done; [by apply same_payload_prio|]. apply Has. set_solver. }
    destruct (runnable_lookup _ _ _ (asleep_run _ _ _ Hy))
      as (n & t & Hn & Hnd & Hn0 & Ht & _ & Hw & _).
    rewrite (exec_node_data _ _ _ _ _ _ _ Hn). cbv beta.
    destruct (decide (n_data n <> NULL)) as [_|?]; [|done].
    rewrite (exec_get_thread _ _ _ _ _ _ _ Ht). cbv beta.
    destruct (decide (wakeup_time t < now)) as [Hlt|_].
    { exfalso. apply (Hlast y eq_refl). unfold due.
      rewrite <- (wakeup_at_same Q Q1 T T y Hd1); [|done]. by rewrite <- Hw. }
    assert (Hs1 : prio_sorted (qs_nodes Q1) k').
    { eapply prio_sorted_ext; [|apply prio_sorted_app in Hso as (H & _); exact H].
      intros. by apply same_payload_prio. }
    destruct (q_push_prio Q1 (<[sleep_table C := k']> A) (sleep_table C) k' y n (u32 (wakeup_time t)))
      as (l' & Q2 & Hrun2 & HR2 & Hs2 & Hperm & Hp2); try done.
    { by rewrite lookup_insert_eq. }
    { by apply (q_unlisted Q _ _ _ _ HR). }
    rewrite insert_insert_eq in HR2.
    destruct (same_data_set_priority _ _ _ _ _ Hn Hp2) as (Hd2 & Hpy & Hpne).
    exists Q2, l'. rewrite (exec_q _ _ _ _ _ _ _ _ Hrun2).
    split; [done|]. split; [done|]. split; [by transitivity Q1|].
    split; [rewrite Hperm; by rewrite Permutation_app_comm|]. split; [done|].
    intros x Hx. rewrite Hperm in Hx. destruct (decide (x = y)) as [->|Hne].
    + apply (asleep_same Q1 _ T); try done. rewrite Hpy, (asleep_prio _ _ _ Hy), Hw.
      apply u32_small, Hy.
    + apply elem_of_cons in Hx as [Hx|Hx]; [done|].
      apply (asleep_same Q _ T); [by transitivity Q1| |done|apply Has; set_solver].
      rewrite Hpne by done. by apply same_payload_prio.
  - apply last_None in El as ->.
    rewrite (exec_q _ _ _ _ _ _ _ _ (pop_empty _ _ _ HR Hsl)). simpl. rewrite exec_check.
    exists Q, []. rewrite insert_id by done. done.
Qed.

(** The whole loop: [exp] are the sleepers whose time has come. *)
Lemma wake_spec now s C exp : forall fuel Q T A keep,
  qrep Q A -> tables_ok s C A -> A !! sleep_table C = Some (keep ++ exp) ->
  (forall x, x ∈ keep ++ exp -> asleep Q T x) -> prio_sorted (qs_nodes Q) (keep ++ exp) ->
  (forall x, x ∈ exp -> due Q T now x) ->
  (forall y, last keep = Some y -> ~ due Q T now y) ->
  (length exp < fuel)%nat ->
  exists Q' T' A' keep',
    wake_sleepers e fuel now (setq s Q T C) = Ret (tt, setq s Q' T' C) /\
    qrep Q' A' /\ same_data Q Q' /\ same_threads T T' /\ keep' ≡ₚ keep /\
    prio_sorted (qs_nodes Q') keep' /\ (forall x, x ∈ keep' -> asleep Q' T' x) /\
    A' !! sleep_table C = Some keep' /\
    (forall i, level i -> A' !! ready_table s i =
       Some (filter (fun x => prio_at Q T x = i) exp ++ ready s A i)) /\
    (forall tb, other s C tb -> A' !! tb = A !! tb).
Proof.
  induction exp as [|x exp IH] using rev_ind; intros fuel Q T A keep HR HT Hsl Has Hso Hdue Hlast Hf.
  - rewrite app_nil_r in *. destruct fuel as [|fuel]; [simpl in Hf; lia|].
    destruct (wake_done fuel now s Q T C A keep HR Hsl Has Hso Hlast)
      as (Q' & keep' & Hrun & HR' & Hd & Hperm & Hs & Hk).
    exists Q', T, (<[sleep_table C := keep']> A), keep'.
    split_and!; try done; [by rewrite lookup_insert_eq| |].
    + intros i Hi. rewrite lookup_insert_ne by (intros E; by apply (tab_sleep _ _ _ HT i Hi)).
      by apply ready_lookup with C.
    + intros tb [Htb _]. by rewrite lookup_insert_ne.
  - destruct fuel as [|fuel]; [lia|]. rewrite length_app in Hf. simpl in Hf.
    rewrite app_assoc in *. simpl. rewrite exec_get_cpu. fold (sleep_table C).
    destruct (q_pop _ _ _ _ _ HR Hsl) as (Q1 & Hrun & HR1 & Hp1).
    rewrite (exec_q _ _ _ _ _ _ _ _ Hrun). simpl. rewrite exec_check.
    destruct (q_member _ _ _ _ x HR Hsl) as [Hx0 _]; [set_solver|].
    rewrite decide_False by done.
    pose proof (same_payload_data _ _ Hp1) as Hd1.
    assert (Hx : asleep Q1 T x).
    { apply (asleep_same Q _ T); try done; [by apply same_payload_prio|]. apply Has. set_solver. }
    destruct (runnable_lookup _ _ _ (asleep_run _ _ _ Hx))
      as (n & t & Hn & Hnd & Hn0 & Ht & Hp & Hw & Hlev).
    rewrite (exec_node_data _ _ _ _ _ _ _ Hn). cbv beta.
    destruct (decide (n_data n <> NULL)) as [_|?]; [|done].
    rewrite (exec_get_thread _ _ _ _ _ _ _ Ht). cbv beta.
    destruct (decide (wakeup_time t < now)) as [_|Hge].
    2:{ exfalso. apply Hge. rewrite Hw, (wakeup_at_same Q Q1 T T x Hd1) by done.
        apply Hdue. set_solver. }
    rewrite (exec_upd_thread _ _ _ _ _ _ _ _ Ht).
    set (T1 := <[n_data n := set_state THREAD_STATE_READY t]> T).
    pose proof (same_threads_insert T _ t THREAD_STATE_READY Ht) as HT1. fold T1 in HT1.
    pose proof (tables_ok_insert s C A (sleep_table C) (keep ++ exp) HT) as HTa.
    destruct (push_ready s Q1 T1 C _ x 
      (fun err => check err >>> wake_sleepers e fuel now) (priority t) HR1 HTa
      Hlev ltac:(by eexists) (q_unlisted Q _ _ _ _ HR Hsl)) as (Q2 & HR2 & Hp2 & Hrun2).
    rewrite Hrun2, exec_check. rewrite (ready_insert_sleep _ _ _ _ _ HT Hlev) in HR2.
    pose proof (same_payload_data _ _ Hp2) as Hd2.
    assert (same_data Q Q2) as Hd by (by transitivity Q1).
    assert (forall y, prio_of (qs_nodes Q2) y = prio_of (qs_nodes Q) y) as Hpr.
    { intros y. by rewrite (same_payload_prio _ _ y Hp2), (same_payload_prio _ _ y Hp1). }
    edestruct (IH fuel Q2 T1 (<[ready_table s (priority t) := x :: ready s A (priority t)]>
                 (<[sleep_table C := keep ++ exp]> A)) keep)
      as (Q' & T' & A' & keep' & Hrun' & HR' & Hd' & HT' & Hperm & Hs' & Hk' & Hsl' & Hrd' & Ho');
      [exact HR2|by apply tables_ok_insert| | | | | |lia|].
    + rewrite (sleep_insert_ready _ _ _ _ _ HTa Hlev). by rewrite lookup_insert_eq.
    + intros y Hy. apply (asleep_same Q _ T); [done|apply Hpr|done|].
      apply Has. set_solver.
    + apply prio_sorted_app in Hso as (Hso & _). by eapply prio_sorted_ext; [|done].
    + intros y Hy. unfold due. rewrite (wakeup_at_same Q Q2 T T1) by done. apply Hdue. set_solver.
    + intros y Hy. unfold due. rewrite (wakeup_at_same Q Q2 T T1) by done. by apply Hlast.
    + exists Q', T', A', keep'. split; [done|].
      split; [done|]. split; [by transitivity Q2|]. split; [by transitivity T1|].
      split_and!; try done.
      * intros i Hi. rewrite (Hrd' i Hi). f_equal.
        rewrite (list_filter_iff _ (fun y => prio_at Q T y = i))
          by (intros y; by rewrite (prio_at_same Q Q2 T T1)).
        rewrite filter_app, <- app_assoc. f_equal.
        assert (prio_at Q T x = priority t) as Hpx.
        { rewrite Hp. symmetry. by apply prio_at_same. }
        destruct (decide (priority t = i)) as [<-|Hne].
        -- rewrite (ready_insert s C). rewrite filter_cons_True by done. done.
        -- rewrite (ready_insert_ne s C _ _ _ _ HTa Hlev Hi Hne).
           rewrite (ready_insert_sleep _ _ _ _ _ HT Hi).
           by rewrite filter_cons_False by congruence.
      * intros tb Htb. rewrite (Ho' tb Htb). destruct Htb as [Htb1 Htb2].
        rewrite !lookup_insert_ne; [done| |]; [done|]. intros E. by apply (Htb2 _ Hlev).
Qed.

(** Where the preempted thread, with node [an], is found in the ready queues. *)
Definition preempted (t : kernel_thread) (an i : Z) : list Z :=
  if decide (state t = THREAD_STATE_RUNNING /\ priority t = i) then [an] else [].

Lemma requeue_spec s Q T C A an t sl :
  qrep Q A -> tables_ok s C A -> prev_thread_node (C (cpu_id e)) = an ->
  prev_thread (C (cpu_id e)) = thread_at Q an -> T !! thread_at Q an = Some t ->
  runnable Q T an -> ~ enlisted_in A an ->
  A !! sleep_table C = Some sl -> prio_sorted (qs_nodes Q) sl ->
  (forall x, x ∈ sl -> asleep Q T x) ->
  (state t = THREAD_STATE_SLEEPING -> 0 <= wakeup_time t < 2 ^ 32) ->
  exists Q' T' A' sl', requeue_prev e (setq s Q T C) = Ret (tt, setq s Q' T' C) /\
    qrep Q' A' /\ same_data Q Q' /\ same_threads T T' /\ A' !! sleep_table C = Some sl' /\
    prio_sorted (qs_nodes Q') sl' /\ (forall x, x ∈ sl' -> asleep Q' T' x) /\
    sl' ≡ₚ (if decide (state t = THREAD_STATE_SLEEPING) then an :: sl else sl) /\
    (forall i, level i -> A' !! ready_table s i = Some (preempted t an i ++ ready s A i)) /\
    (forall tb, other s C tb -> A' !! tb = A !! tb).
Proof.
  intros HR HT Hpn Hpt Ht Hrun Hni Hsl Hso Has Hwr. unfold requeue_prev.
  rewrite exec_get_cpu, Hpt, Hpn, (exec_get_thread _ _ _ _ _ _ _ Ht).
  destruct (runnable_lookup _ _ _ Hrun) as (n & t0 & Hn & Hnd & _ & Ht0 & Hp & Hw & Hlev).
  assert (t0 = t) as -> by congruence.
  destruct (decide (state t = THREAD_STATE_RUNNING)) as [Hst|Hst].
  - rewrite (exec_upd_thread _ _ _ _ _ _ _ _ Ht).
    set (T1 := <[thread_at Q an := set_state THREAD_STATE_READY t]> T).
    pose proof (same_threads_insert T _ t THREAD_STATE_READY Ht) as HT1. fold T1 in HT1.
    destruct (push_ready s Q T1 C A an check (priority t) HR HT Hlev ltac:(by eexists) Hni)
      as (Q1 & HR1 & Hp1 & Hrun1).
    assert (same_data Q Q1) as Hd by (by apply same_payload_data).
    exists Q1, T1, (<[ready_table s (priority t) := an :: ready s A (priority t)]> A), sl.
    split; [exact Hrun1|]. split; [done|]. split; [done|]. split; [done|].
    split; [by rewrite (sleep_insert_ready _ _ _ _ _ HT Hlev)|].
    split; [by eapply prio_sorted_ext; [|done]; intros; apply same_payload_prio|].
    split; [intros x Hx; apply (asleep_same Q _ T); auto; by apply same_payload_prio|].
    split; [by rewrite decide_False by congruence|]. split.
    + intros i Hi. unfold preempted. destruct (decide (priority t = i)) as [<-|Hne].
      * by rewrite lookup_insert_eq, decide_True.
      * rewrite lookup_insert_ne by (intros E; by apply Hne, (tab_inj _ _ _ HT)).
        rewrite decide_False by tauto. by apply ready_lookup with C.
    + intros tb [_ Htb]. rewrite lookup_insert_ne; [done|]. intros E. by apply (Htb _ Hlev).
  - assert (forall i, preempted t an i = []) as Hpre.
    { intros i. unfold preempted. by rewrite decide_False by tauto. }
    destruct (decide (state t = THREAD_STATE_SLEEPING)) as [Hsl'|Hsl'].
    + specialize (Hwr Hsl'). rewrite u32_small by done. fold (sleep_table C).
      destruct (q_push_prio Q A (sleep_table C) sl an n (wakeup_time t) HR Hsl Hn Hni Hso)
        as (l' & Q1 & Hrun1 & HR1 & Hs1 & Hperm & Hp1).
      destruct (same_data_set_priority _ _ _ _ _ Hn Hp1) as (Hd & Hpa & Hpo).
      exists Q1, T, (<[sleep_table C := l']> A), l'.
      rewrite (exec_q _ _ _ _ _ _ _ _ Hrun1).
      split; [done|]. split; [done|]. split; [done|]. split; [done|].
      split; [by rewrite lookup_insert_eq|]. split; [done|]. split.
      { intros x Hx. destruct (decide (x = an)) as [->|Hne].
        - split; [by apply (runnable_same Q _ T)| |].
          + rewrite Hpa, (wakeup_at_same Q Q1 T T) by done. done.
          + rewrite (wakeup_at_same Q Q1 T T) by done. by rewrite <- Hw.
        - apply (asleep_same Q _ T); try done; [by apply Hpo|]. apply Has.
          rewrite Hperm in Hx. by apply elem_of_cons in Hx as [|]. }
      split; [done|]. split.
      * intros i Hi. rewrite Hpre, lookup_insert_ne
          by (intros E; by apply (tab_sleep _ _ _ HT i Hi)).
        by apply ready_lookup with C.
      * intros tb [Htb _]. by rewrite lookup_insert_ne.
    + exists Q, T, A, sl. split; [done|]. split_and!; try done.
      intros i Hi. rewrite Hpre. by apply ready_lookup with C.
Qed.

(** The first non-empty level gives its oldest node. *)
Lemma pop_first_spec s T A n : forall i Q C,
  qrep Q A -> tables_ok s C A -> 0 <= i -> i + Z.of_nat n = KERNEL_LOWEST_PRIORITY + 1 ->
  (exists j, i <= j <= KERNEL_LOWEST_PRIORITY /\ ready s A j <> []) ->
  exists j l x Q' C', pop_first e n i (setq s Q T C) = Ret (tt, setq s Q' T C') /\
    i <= j <= KERNEL_LOWEST_PRIORITY /\ (forall k, i <= k < j -> ready s A k = []) /\
    ready s A j = l ++ [x] /\ qrep Q' (<[ready_table s j := l]> A) /\
    same_payload (qs_nodes Q) (qs_nodes Q') /\
    C' (cpu_id e) = set_active_thread_node x (C (cpu_id e)) /\
    (forall c, c <> cpu_id e -> C' c = C c).
Proof.
  induction n as [|n IH]; intros i Q C HR HT Hi Hn (j0 & Hj0 & Hne0); [simpl in Hn; lia|].
  assert (level i) as Hlev by (unfold level; lia).
  simpl. rewrite exec_active_table by (apply HT || done).
  change (active_threads_table s (cpu_id e) i) with (ready_table s i).
  pose proof (ready_lookup _ _ _ _ HT Hlev) as Hl.
  destruct (ready s A i) as [|y l0] eqn:El.
  - rewrite (exec_q _ _ _ _ _ _ _ _ (pop_empty _ _ _ HR Hl)). simpl.
    rewrite exec_upd_cpu, exec_check.
    assert (j0 <> i) as Hji by congruence.
    set (C1 := <[cpu_id e := set_active_thread_node NULL (C (cpu_id e))]> C).
    assert (tables_ok s C1 A) as HT1.
    { destruct HT as [H1 H2 H3 H4]. split; try done. intros k Hk. unfold sleep_table, C1.
      rewrite fn_lookup_insert. by apply H4. }
    destruct (IH (i + 1) Q C1) as (j & l & x & Q' & C' & Hrun & Hj & Hlow & Hx & HR' & Hp & HC & HCo);
      [done|done|lia|lia|exists j0; split; [lia|done]|].
    exists j, l, x, Q', C'. split; [exact Hrun|].
    split; [lia|]. split.
    { intros k Hk. destruct (decide (k = i)) as [->|]; [done|]. apply Hlow. lia. }
    split_and!; try done.
    + rewrite HC. unfold C1. by rewrite fn_lookup_insert.
    + intros c Hc. rewrite HCo by done. unfold C1. by rewrite fn_lookup_insert_ne.
  - destruct (exists_last (l := y :: l0)) as (l & x & Ex); [done|]. rewrite Ex in *.
    destruct (q_pop _ _ _ _ _ HR Hl) as (Q' & Hrun & HR' & Hp).
    rewrite (exec_q _ _ _ _ _ _ _ _ Hrun). simpl. rewrite exec_upd_cpu, exec_check.
    destruct (q_member _ _ _ _ x HR Hl) as [Hx0 _]; [set_solver|].
    rewrite decide_True by done.
    eexists i, l, x, Q', _. split; [done|]. split; [lia|]. split; [intros; lia|].
    split_and!; try done.
    + by rewrite fn_lookup_insert.
    + intros c Hc. by rewrite fn_lookup_insert_ne.
Qed.
End Election.
