(* ===== verification/SchedulerTheorems.v ===== *)
(** * The properties of the election

    [select_thread] and [schedule_int], and the small kernel state the
    witnesses of the scheduler and of its clients start from. *)
From stdpp Require Import functions sorting.
From S2P Require Import Prelude Alloc Critical Interrupts KernelQueue KHeap KHeapSpec.
From S2P Require Import KHeapTheorems QueueTheorems Scheduler SchedulerSpec.

(** ** Election *)
Section Select.
Context {ops : AllocOps} (e : sched_env).
Implicit Types (s : sched) (Q : qstore) (A : gmap Z (list Z)).

(** In a list filed by wake-up time, the sleepers that are due are the last. *)
Lemma due_split Q T now l :
  prio_sorted (qs_nodes Q) l -> (forall x, x ∈ l -> asleep Q T x) ->
  exists keep exp, l = keep ++ exp /\ (forall x, x ∈ exp -> due Q T now x) /\
    (forall x, x ∈ keep -> ~ due Q T now x).
Proof.
  induction l as [|x l IH]; intros Hs Has.
  { exists [], []. split_and!; [done|set_solver..]. }
  apply StronglySorted_inv in Hs as [Hs Hx].
  destruct (decide (wakeup_at Q T x < now)) as [Hd|Hd].
  - exists [], (x :: l). split; [done|]. split; [|set_solver].
    intros y [->|Hy]%elem_of_cons; [done|]. unfold due.
    rewrite Forall_forall in Hx. specialize (Hx y Hy).
    rewrite (asleep_prio _ _ _ (Has y ltac:(set_solver))) in Hx.
    rewrite (asleep_prio _ _ _ (Has x ltac:(set_solver))) in Hx. lia.
  - destruct IH as (keep & exp & -> & H1 & H2); [done|set_solver|].
    exists (x :: keep), exp. split_and!; [done..|].
    intros y [->|Hy]%elem_of_cons; auto.
Qed.

Lemma sleepers_fuel Q A C sl :
  qrep Q A -> A !! sleep_table e C = Some sl -> (length sl < S (size (qs_nodes Q)))%nat.
Proof.
  intros HR Hsl. destruct (qrep_lookup _ _ _ _ HR Hsl) as (_ & ? & _ & _ & _ & Hd & Hnd).
  pose proof (dseg_length _ _ _ _ Hd Hnd). lia.
Qed.

Lemma tables_ok_cpus s C C' A :
  sleep_table e C' = sleep_table e C -> tables_ok e s C A -> tables_ok e s C' A.
Proof. intros E [H1 H2 H3 H4]. split; try done. intros i Hi. rewrite E. auto. Qed.

Lemma tables_ok_dom s C A A' :
  (forall i, level i -> is_Some (A' !! ready_table e s i)) ->
  tables_ok e s C A -> tables_ok e s C A'.
Proof. intros E [H1 H2 H3 H4]. by split. Qed.

(** The state of the running CPU before an election: the thread that runs is
    in no queue, every queued thread exists, sleepers are filed under their
    wake-up time, and some thread can be elected. *)
Record schedulable s A (an : Z) (t : kernel_thread) (sl : list Z) : Prop := {
  sd_rep : qrep (sc_q s) A;
  sd_tables : tables_ok e s (sc_cpus s) A;
  sd_node : active_thread_node (sc_cpus s (cpu_id e)) = an;
  sd_active : active_thread (sc_cpus s (cpu_id e)) = thread_at (sc_q s) an;
  sd_thread : sc_threads s !! thread_at (sc_q s) an = Some t;
  sd_runnable : runnable (sc_q s) (sc_threads s) an;
  sd_free : ~ enlisted_in A an;
  sd_sleepers : A !! sleep_table e (sc_cpus s) = Some sl;
  sd_sorted : prio_sorted (qs_nodes (sc_q s)) sl;
  sd_asleep x : x ∈ sl -> asleep (sc_q s) (sc_threads s) x;
  sd_wakeup : state t = THREAD_STATE_SLEEPING -> 0 <= wakeup_time t < 2 ^ 32;
  sd_ready i x : level i -> x ∈ ready e s A i -> runnable (sc_q s) (sc_threads s) x;
  sd_some : state t = THREAD_STATE_RUNNING \/ exists i, level i /\ ready e s A i <> [];
}.

(** Nodes ready at level [i] once the sleepers [exp] are awake and the
    preempted thread is back. *)
Definition refilled s A t an (exp : list Z) (i : Z) : list Z :=
  filter (fun y => prio_at (sc_q s) (sc_threads s) y = i) exp ++ preempted t an i ++ ready e s A i.

(** The first half of [select_thread]. *)
Lemma refill_run s A an t sl C :
  schedulable s A an t sl ->
  C (cpu_id e) = set_prev_thread_node an
    (set_prev_thread (thread_at (sc_q s) an) (sc_cpus s (cpu_id e))) ->
  let Q := sc_q s in
  let T := sc_threads s in
  exists keep exp keep' Q' T' A',
    keep ++ exp ≡ₚ (if decide (state t = THREAD_STATE_SLEEPING) then an :: sl else sl) /\
    (forall y, y ∈ exp -> due Q T (uptime e) y) /\
    (forall y, y ∈ keep -> ~ due Q T (uptime e) y) /\
    (forall k : M sched unit, bind (requeue_prev e) (fun _ => let* fuel := gets sched_fuel in
       wake_sleepers e fuel (uptime e) >>> k) (setq s Q T C) = k (setq s Q' T' C)) /\
    qrep Q' A' /\ same_data Q Q' /\ same_threads T T' /\ tables_ok e s C A' /\
    (forall i, level i -> ready e s A' i = refilled s A t an exp i) /\
    A' !! sleep_table e C = Some keep' /\ keep' ≡ₚ keep /\ prio_sorted (qs_nodes Q') keep' /\
    (forall y, y ∈ keep' -> asleep Q' T' y) /\
    (forall i y, level i -> y ∈ refilled s A t an exp i -> runnable Q T y).
Proof.
  intros [HR HT Han Hat Ht Hrun Hfree Hsl Hso Has Hwr Hrd Hsome] HC Q T.
  assert (sleep_table e C = sleep_table e (sc_cpus s)) as Hst
    by (unfold sleep_table; by rewrite HC).
  pose proof (tables_ok_cpus s _ C A Hst HT) as HT2.
  destruct (requeue_spec e s Q T C A an t sl)
    as (Q1 & T1 & A1 & sl1 & Hrun1 & HR1 & Hd1 & Ht1 & Hsl1 & Hso1 & Has1 & Hperm1 & Hrd1 & Ho1);
    try done; [by rewrite HC|by rewrite HC|by rewrite Hst|].
  destruct (due_split Q1 T1 (uptime e) sl1 Hso1 Has1) as (keep & exp & -> & Hexp & Hkeep).
  assert (tables_ok e s C A1) as HTa.
  { apply (tables_ok_dom s C A); [|done]. intros i Hi. rewrite Hrd1 by done. by eexists. }
  destruct (wake_spec e (uptime e) s C exp (S (size (qs_nodes Q1))) Q1 T1 A1 keep)
    as (Q2 & T2 & A2 & keep' & Hrun2 & HR2 & Hd2 & Ht2 & Hperm2 & Hso2 & Has2 & Hsl2 & Hrd2 & Ho2);
    try done.
  { intros y Hy. apply Hkeep. apply last_Some in Hy as [k' ->]. clear. set_solver. }
  { pose proof (sleepers_fuel _ _ _ _ HR1 Hsl1) as Hf. rewrite length_app in Hf. lia. }
  exists keep, exp, keep', Q2, T2, A2. split; [done|].
  split; [intros y Hy; unfold due; rewrite <- (wakeup_at_same Q Q1 T T1) by done; by apply Hexp|].
  split; [intros y Hy; unfold due; rewrite <- (wakeup_at_same Q Q1 T T1) by done; by apply Hkeep|].
  split.
  { intros k. by rewrite (bind_ret _ _ _ _ _ Hrun1), exec_gets, (bind_ret _ _ _ _ _ Hrun2). }
  split; [done|]. split; [by transitivity Q1|]. split; [by transitivity T1|]. split.
  { apply (tables_ok_dom s C A1); [|done]. intros i Hi. rewrite Hrd2 by done. by eexists. }
  split; [|split_and!; try done].
  - intros i Hi. unfold ready at 1. rewrite (Hrd2 i Hi). simpl.
    unfold ready at 1. rewrite (Hrd1 i Hi). unfold refilled. simpl. f_equal.
    apply list_filter_iff. intros y. fold Q T. by rewrite (prio_at_same Q Q1 T T1).
  - intros i y Hi Hin. unfold refilled in Hin. rewrite !elem_of_app in Hin.
    destruct Hin as [Hin|[Hin|Hin]].
    + apply list_elem_of_filter in Hin as [_ Hin].
      apply (runnable_same Q1 Q T1 T); [intros z; by rewrite Hd1|intros z; by rewrite Ht1|].
      apply Has1. clear - Hin. set_solver.
    + unfold preempted in Hin. case_decide; [|by apply not_elem_of_nil in Hin].
      by apply list_elem_of_singleton in Hin as ->.
    + by apply (Hrd i).
Qed.

Lemma refilled_some s A an t sl exp :
  schedulable s A an t sl ->
  exists i, 0 <= i <= KERNEL_LOWEST_PRIORITY /\ refilled s A t an exp i <> [].
Proof.
  intros HS. destruct (sd_some _ _ _ _ _ HS) as [Hs|(i & Hi & Hne)].
  - exists (priority t).
    destruct (runnable_lookup _ _ _ (sd_runnable _ _ _ _ _ HS))
      as (n & t0 & _ & Hnd & _ & Ht0 & _ & _ & Hlev).
    pose proof (sd_thread _ _ _ _ _ HS). assert (t0 = t) as -> by congruence.
    split; [done|]. unfold refilled, preempted. rewrite decide_True by done.
    clear. by destruct (filter _ exp).
  - exists i. split; [done|]. unfold refilled. intros (_ & [_ ?]%app_eq_nil)%app_eq_nil. done.
Qed.

(** What [select_thread] leaves: [x] runs, taken from level [j]. *)
Record elected s A an t exp keep (s' : sched) A' (j x : Z) (l : list Z) : Prop := {
  el_level : level j;
  el_first k : 0 <= k < j -> refilled s A t an exp k = [];
  el_oldest : refilled s A t an exp j = l ++ [x];
  el_rep : qrep (sc_q s') A';
  el_data : same_data (sc_q s) (sc_q s');
  el_threads : same_threads (sc_threads s) (sc_threads s');
  el_node : active_thread_node (sc_cpus s' (cpu_id e)) = x;
  el_active : active_thread (sc_cpus s' (cpu_id e)) = thread_at (sc_q s) x;
  el_prev : prev_thread_node (sc_cpus s' (cpu_id e)) = an /\
    prev_thread (sc_cpus s' (cpu_id e)) = thread_at (sc_q s) an;
  el_counts : first_sched (sc_cpus s' (cpu_id e)) = first_sched (sc_cpus s (cpu_id e)) /\
    schedule_count (sc_cpus s' (cpu_id e)) = schedule_count (sc_cpus s (cpu_id e));
  el_running : exists t', sc_threads s' !! thread_at (sc_q s) x = Some t' /\
    state t' = THREAD_STATE_RUNNING;
  el_ready i : level i ->
    ready e s' A' i = if decide (i = j) then l else refilled s A t an exp i;
  el_sleepers : exists sl', A' !! sleep_table e (sc_cpus s') = Some sl' /\ sl' ≡ₚ keep /\
    prio_sorted (qs_nodes (sc_q s')) sl';
  el_next : exists t' sl', state t' = THREAD_STATE_RUNNING /\ sl' ≡ₚ keep /\
    schedulable s' A' x t' sl';
}.

(** The elected thread runs: the state can be scheduled again. *)
Lemma next_schedulable s A t an exp Q2 T2 C2 A2 Q3 C4 j l x n tx keep' :
  tables_ok e s C2 A2 -> level j -> qrep Q2 A2 -> ready e s A2 j = l ++ [x] ->
  same_data (sc_q s) Q2 -> same_threads (sc_threads s) T2 ->
  qrep Q3 (<[ready_table e s j := l]> A2) -> same_payload (qs_nodes Q2) (qs_nodes Q3) ->
  sleep_table e C4 = sleep_table e C2 ->
  active_thread_node (C4 (cpu_id e)) = x -> active_thread (C4 (cpu_id e)) = n_data n ->
  n_data n = thread_at (sc_q s) x -> T2 !! n_data n = Some tx ->
  A2 !! sleep_table e C2 = Some keep' -> prio_sorted (qs_nodes Q2) keep' ->
  (forall y, y ∈ keep' -> asleep Q2 T2 y) ->
  (forall i, level i -> ready e s A2 i = refilled s A t an exp i) ->
  (forall i y, level i -> y ∈ refilled s A t an exp i -> runnable (sc_q s) (sc_threads s) y) ->
  schedulable (setq s Q3 (<[n_data n := set_state THREAD_STATE_RUNNING tx]> T2) C4)
    (<[ready_table e s j := l]> A2) x (set_state THREAD_STATE_RUNNING tx) keep'.
Proof.
  intros HT Hj HR2 Hx Hd Htt HR3 Hp Hst Hnode Hact Hnd Htx Hsl Hso Has HRd Hall.
  set (T4 := <[n_data n := _]> T2). pose proof (same_payload_data _ _ Hp) as Hd3.
  pose proof (same_threads_insert T2 _ tx THREAD_STATE_RUNNING Htx) as HT4. fold T4 in HT4.
  assert (same_data (sc_q s) Q3) as Hdq by (by transitivity Q2).
  assert (same_threads (sc_threads s) T4) as Hdt by (by transitivity T2).
  assert (forall i y, level i -> y ∈ ready e s A2 i -> runnable Q3 T4 y) as Hrun.
  { intros i y Hi Hy. rewrite HRd in Hy by done.
    apply (runnable_same (sc_q s) Q3 (sc_threads s) T4); [done..|]. by apply (Hall i). }
  split; simpl; rewrite ?Hst; try done.
  - pose proof (tables_ok_insert e s C2 A2 (ready_table e s j) l HT) as [H1 H2 H3 H4].
    split; [done|exact H2|exact H3|]. intros i Hi. rewrite Hst. by apply H4.
  - by rewrite Hact, (thread_at_same _ _ _ Hdq).
  - rewrite (thread_at_same _ _ _ Hdq), <- Hnd. unfold T4. by rewrite lookup_insert_eq.
  - apply (Hrun j); [done|]. rewrite Hx. apply elem_of_app. right. by apply list_elem_of_singleton.
  - eapply q_unlisted; [exact HR2|]. rewrite <- Hx. by eapply ready_lookup.
  - by rewrite (sleep_insert_ready e s C2 A2 j l HT Hj).
  - eapply prio_sorted_ext; [|done]. intros. by apply same_payload_prio.
  - intros y Hy. apply (asleep_same Q2 Q3 T2 T4); try done; [by apply same_payload_prio|by apply Has].
  - intros i y Hi Hy. apply (Hrun i); [done|].
    change (y ∈ ready e s (<[ready_table e s j := l]> A2) i) in Hy.
    destruct (decide (i = j)) as [->|Hij].
    + unfold ready in Hy. rewrite lookup_insert_eq in Hy. rewrite Hx. apply elem_of_app. by left.
    + unfold ready in Hy. rewrite lookup_insert_ne in Hy; [done|].
      intros E. by apply Hij; symmetry; apply (tab_inj _ _ _ _ HT).
  - by left.
Qed.

Lemma select_run s A an t sl :
  schedulable s A an t sl ->
  exists keep exp j l x s' A',
    keep ++ exp ≡ₚ (if decide (state t = THREAD_STATE_SLEEPING) then an :: sl else sl) /\
    (forall y, y ∈ exp -> wakeup_at (sc_q s) (sc_threads s) y < uptime e) /\
    (forall y, y ∈ keep -> uptime e <= wakeup_at (sc_q s) (sc_threads s) y) /\
    select_thread e s = Ret (tt, s') /\ elected s A an t exp keep s' A' j x l.
Proof.
  intros HS. set (Q := sc_q s). set (T := sc_threads s). set (c := cpu_id e).
  set (C1 := <[c := set_prev_thread (active_thread (sc_cpus s c)) (sc_cpus s c)]> (sc_cpus s)).
  set (C2 := <[c := set_prev_thread_node (active_thread_node (C1 c)) (C1 c)]> C1).
  assert (C2 c = set_prev_thread_node an (set_prev_thread (thread_at Q an) (sc_cpus s c))) as HC2.
  { unfold C2. rewrite fn_lookup_insert. unfold C1. rewrite fn_lookup_insert. simpl.
    unfold Q. by rewrite <- (sd_active _ _ _ _ _ HS), <- (sd_node _ _ _ _ _ HS). }
  destruct (refill_run s A an t sl C2 HS HC2) as (keep & exp & keep' & Q2 & T2 & A2 & Hperm &
    Hexp & Hkeep & Hrun & HR2 & Hd & Htt & HTb & HRd & Hsl2 & Hperm2 & Hso2 & Has2 & Hall).
  destruct (pop_first_spec e s T2 A2 64 0 Q2 C2)
    as (j & l & x & Q3 & C3 & Hrun3 & Hj & Hlow & Hx & HR3 & Hp3 & HC3 & _); try done.
  { destruct (refilled_some _ _ _ _ _ exp HS) as (i & Hi & Hne). exists i. by rewrite HRd. }
  fold c in HC3. pose proof (same_payload_data _ _ Hp3) as Hd3.
  assert (same_data Q Q3) as Hdq by (by transitivity Q2).
  assert (runnable Q3 T2 x) as Hxr.
  { apply (runnable_same Q Q3 T T2); [done..|]. apply (Hall j); [done|].
    rewrite <- HRd, Hx by done. clear. set_solver. }
  destruct (runnable_lookup _ _ _ Hxr) as (n & tx & Hn & Hnd & Hn0 & Htx & _).
  rewrite (thread_at_same _ _ _ Hdq) in Hnd.
  set (C4 := <[c := set_active_thread (n_data n) (C3 c)]> C3).
  set (T4 := <[n_data n := set_state THREAD_STATE_RUNNING tx]> T2).
  exists keep, exp, j, l, x, (setq s Q3 T4 C4), (<[ready_table e s j := l]> A2).
  split; [exact Hperm|]. split; [exact Hexp|].
  split; [intros y Hy; specialize (Hkeep y Hy); unfold due in Hkeep; fold Q T in Hkeep; lia|].
  assert (C4 c = set_active_thread (n_data n) (set_active_thread_node x (C2 c))) as HC4.
  { unfold C4. by rewrite fn_lookup_insert, HC3. }
  assert (sleep_table e C4 = sleep_table e C2) as Hst by (unfold sleep_table; fold c; by rewrite HC4).
  split.
  - rewrite <- (setq_id s) at 1. unfold select_thread.
    rewrite exec_upd_cpu, exec_upd_cpu. fold c. fold C1. fold C2. rewrite Hrun.
    change (Z.to_nat (KERNEL_LOWEST_PRIORITY + 1)) with 64%nat.
    rewrite (bind_ret _ _ _ _ _ Hrun3), exec_get_cpu. fold c. rewrite HC3. simpl.
    destruct (q_member _ _ _ _ x HR2 (ready_lookup _ _ _ _ _ HTb Hj)) as [Hx0 _];
      [rewrite Hx; clear; set_solver|].
    rewrite decide_False by done.
    rewrite (exec_node_data _ _ _ _ _ _ _ Hn), exec_upd_cpu. rewrite decide_False by done.
    unfold upd_thread. simpl. by rewrite Htx.
  - split; simpl; fold c; rewrite ?HC4; try done.
    + intros k Hk. rewrite <- HRd by (unfold level; lia). by apply Hlow.
    + by rewrite <- HRd.
    + transitivity T2; [done|by apply same_threads_insert].
    + by rewrite HC2.
    + by rewrite HC2.
    + exists (set_state THREAD_STATE_RUNNING tx). unfold T4. fold Q. by rewrite <- Hnd, lookup_insert_eq.
    + intros i Hi. destruct (decide (i = j)) as [->|Hij]; unfold ready at 1; simpl.
      * by rewrite lookup_insert_eq.
      * rewrite lookup_insert_ne by (intros E; by apply Hij; symmetry; apply (tab_inj _ _ _ _ HTb)).
        by apply HRd.
    + exists keep'. rewrite Hst. split; [by rewrite (sleep_insert_ready e s C2 A2 j l HTb Hj)|].
      split; [done|]. eapply prio_sorted_ext; [|done]. intros. by apply same_payload_prio.
    + exists (set_state THREAD_STATE_RUNNING tx), keep'. split; [done|]. split; [done|].
      apply (next_schedulable s A t an exp Q2 T2 C2 A2 Q3 C4 j l x n tx keep'); try done.
      * fold c. by rewrite HC4.
      * fold c. by rewrite HC4.
Qed.

(** *** The context switch *)
Lemma same_threads_context T T' d td :
  same_threads T T' -> T !! d = Some td ->
  exists td', T' !! d = Some td' /\ cpu_context td' = cpu_context td.
Proof.
  intros H Hd. specialize (H d). rewrite Hd in H. destruct (T' !! d) as [td'|]; [|done].
  injection H as ?. eauto.
Qed.

(** Storing a context changes nothing that the scheduler orders threads by. *)
Lemma context_keys Q T d td ctx x :
  T !! d = Some td ->
  let T' := <[d := set_cpu_context ctx td]> T in
  prio_at Q T' x = prio_at Q T x /\ wakeup_at Q T' x = wakeup_at Q T x /\
  (runnable Q T x -> runnable Q T' x) /\ (asleep Q T x -> asleep Q T' x).
Proof.
  intros Hd T'. assert (prio_at Q T' x = prio_at Q T x /\ wakeup_at Q T' x = wakeup_at Q T x)
    as [Hp Hw].
  { unfold prio_at, wakeup_at, T'. destruct (decide (d = thread_at Q x)) as [->|].
    - by rewrite lookup_insert_eq, Hd.
    - by rewrite lookup_insert_ne. }
  assert (runnable Q T x -> runnable Q T' x) as Hr.
  { intros [H1 H2 H3 H4]. split; [done|done| |by rewrite Hp]. unfold T'.
    destruct (decide (d = thread_at Q x)) as [->|]; [by rewrite lookup_insert_eq|].
    by rewrite lookup_insert_ne. }
  split; [done|]. split; [done|]. split; [done|].
  intros [H1 H2 H3]. split; [auto|by rewrite Hw..].
Qed.

Definition saved s (cpu_esp : Z) (d : Z) (t : kernel_thread) : sched * kernel_thread :=
  if decide (first_sched (sc_cpus s (cpu_id e)) = 1) then
    let t' := set_cpu_context (mk_context cpu_esp (ebp (cpu_context t)) (eip (cpu_context t))
                                 (cr3 (cpu_context t))) t in
    (setq s (sc_q s) (<[d := t']> (sc_threads s)) (sc_cpus s), t')
  else (s, t).

Lemma saved_schedulable s A an t sl cpu_esp :
  schedulable s A an t sl ->
  let r := saved s cpu_esp (thread_at (sc_q s) an) t in
  schedulable r.1 A an r.2 sl.
Proof.
  intros HS. unfold saved. case_decide; [|done]. simpl.
  destruct HS as [HR HT Han Hat Ht Hrun Hfree Hsl Hso Has Hwr Hrd Hsome].
  set (ctx := mk_context _ _ _ _).
  split; simpl; try done.
  - by destruct HT.
  - by rewrite lookup_insert_eq.
  - by destruct (context_keys (sc_q s) _ _ _ ctx an Ht) as (_ & _ & Hk & _); apply Hk.
  - intros x Hx. destruct (context_keys (sc_q s) _ _ _ ctx x Ht) as (_ & _ & _ & Hk). auto.
  - intros i x Hi Hx. destruct (context_keys (sc_q s) _ _ _ ctx x Ht) as (_ & _ & Hk & _).
    by apply Hk, (Hrd i).
Qed.

Lemma schedule_run s A an t sl cpu_esp :
  schedulable s A an t sl ->
  let d := thread_at (sc_q s) an in
  let r := saved s cpu_esp d t in
  exists keep exp j l x s' A' tx s'',
    elected r.1 A an r.2 exp keep s' A' j x l /\
    sc_threads s' !! thread_at (sc_q s) x = Some tx /\ state tx = THREAD_STATE_RUNNING /\
    schedule_int e cpu_esp s = Ret ((cr3 (cpu_context tx), esp (cpu_context tx)), s'') /\
    sc_q s'' = sc_q s' /\ sc_threads s'' = sc_threads s' /\
    sc_cpus s'' (cpu_id e) = set_first_sched 1
      (set_schedule_count (u64 (schedule_count (sc_cpus s' (cpu_id e)) + 1))
         (sc_cpus s' (cpu_id e))).
Proof.
  intros HS d r. pose proof (saved_schedulable s A an t sl cpu_esp HS) as HS1. fold d r in HS1.
  destruct (select_run _ _ _ _ _ HS1)
    as (keep & exp & j & l & x & s' & A' & _ & _ & _ & Hsel & Hel).
  assert (sc_q r.1 = sc_q s) as Hq by (unfold r, saved; by case_decide).
  destruct (el_running _ _ _ _ _ _ _ _ _ _ _ Hel) as (tx & Htx & Hst).
  rewrite Hq in Htx.
  eexists keep, exp, j, l, x, s', A', tx, _. split; [done|]. split; [done|]. split; [done|].
  unfold schedule_int.
  assert (cpu_save_context (first_sched (sc_cpus s (cpu_id e))) cpu_esp
    (active_thread (sc_cpus s (cpu_id e))) s = Ret (tt, r.1)) as Hsave.
  { unfold cpu_save_context, r, saved. rewrite (sd_active _ _ _ _ _ HS). fold d.
    case_decide; [|done]. unfold upd_thread.
    unfold d. rewrite (sd_thread _ _ _ _ _ HS). by destruct s. }
  unfold get_cpu. rewrite exec_gets, (bind_ret _ _ _ _ _ Hsave), (bind_ret _ _ _ _ _ Hsel).
  rewrite <- (setq_id s') at 1. rewrite exec_upd_cpu, exec_active, fn_lookup_insert.
  simpl. rewrite (el_active _ _ _ _ _ _ _ _ _ _ _ Hel), Hq.
  rewrite (exec_get_thread _ _ _ _ _ _ _ Htx).
  unfold cpu_restore_context. rewrite bind_assoc.
  rewrite (exec_get_thread _ _ _ _ _ _ _ Htx), bind_ret_l, exec_upd_cpu.
  split; [done|]. split; [done|]. split; [done|]. simpl. by rewrite !fn_lookup_insert.
Qed.
End Select.

(** ** Properties *)

(** C2: [select_thread] moves every sleeper whose wake-up time has passed to
    the ready queue of its priority and keeps the others asleep in order, puts
    the preempted thread back, and elects the thread that has waited longest
    at the highest priority with a ready thread; all other ready threads stay
    in order, and no thread changes in anything but its state. *)
Theorem select_thread_correct `{ops : AllocOps} e s A an t sl :
  schedulable e s A an t sl ->
  exists keep exp j l x s' A',
    keep ++ exp ≡ₚ (if decide (state t = THREAD_STATE_SLEEPING) then an :: sl else sl) /\
    (forall y, y ∈ exp -> wakeup_at (sc_q s) (sc_threads s) y < uptime e) /\
    (forall y, y ∈ keep -> uptime e <= wakeup_at (sc_q s) (sc_threads s) y) /\
    select_thread e s = Ret (tt, s') /\ elected e s A an t exp keep s' A' j x l.
Proof. apply select_run. Qed.

(** the context switch stores the interrupted stack pointer in the thread
    that was running (except at the very first switch), hands out the stack
    pointer and the page directory of the elected thread, which is then
    running, and touches nobody else's context: a thread that is elected again
    resumes where it was interrupted. *)
Theorem schedule_int_context `{ops : AllocOps} e s A an t sl cpu_esp :
  schedulable e s A an t sl ->
  let c := sc_cpus s (cpu_id e) in
  exists s' pgdir new_esp t_old t_new,
    schedule_int e cpu_esp s = Ret ((pgdir, new_esp), s') /\
    let c' := sc_cpus s' (cpu_id e) in
    first_sched c' = 1 /\ schedule_count c' = u64 (schedule_count c + 1) /\
    prev_thread c' = active_thread c /\ sc_threads s' !! prev_thread c' = Some t_old /\
    esp (cpu_context t_old) =
      (if decide (first_sched c = 1) then cpu_esp else esp (cpu_context t)) /\
    sc_threads s' !! active_thread c' = Some t_new /\ state t_new = THREAD_STATE_RUNNING /\
    pgdir = cr3 (cpu_context t_new) /\ new_esp = esp (cpu_context t_new) /\
    (forall d td, d <> active_thread c -> sc_threads s !! d = Some td ->
       exists td', sc_threads s' !! d = Some td' /\ cpu_context td' = cpu_context td).
Proof.
  intros HS c.
  destruct (schedule_run e s A an t sl cpu_esp HS)
    as (keep & exp & j & l & x & s' & A' & tx & s'' & Hel & Htx & Hst & Hrun & _ & HT & HC).
  set (d := thread_at (sc_q s) an) in *. set (r := saved e s cpu_esp d t) in *.
  assert (sc_q r.1 = sc_q s) as Hq by (unfold r, saved; by case_decide).
  assert (sc_threads r.1 !! d = Some r.2) as Hd.
  { unfold r, saved. case_decide; simpl; [by rewrite lookup_insert_eq|].
    apply (sd_thread _ _ _ _ _ _ HS). }
  destruct (same_threads_context _ _ _ _ (el_threads _ _ _ _ _ _ _ _ _ _ _ _ Hel) Hd)
    as (t_old & Hold & Hctx).
  exists s'', (cr3 (cpu_context tx)), (esp (cpu_context tx)), t_old, tx.
  split; [exact Hrun|]. rewrite HC, HT. simpl.
  destruct (el_counts _ _ _ _ _ _ _ _ _ _ _ _ Hel) as [_ ->].
  destruct (el_prev _ _ _ _ _ _ _ _ _ _ _ _ Hel) as [_ ->].
  rewrite (el_active _ _ _ _ _ _ _ _ _ _ _ _ Hel), Hq. fold d.
  unfold c. rewrite (sd_active _ _ _ _ _ _ HS). fold d.
  split; [done|]. split; [unfold r, saved; by case_decide|]. split; [done|]. split; [done|].
  split; [rewrite Hctx; unfold r, saved; by case_decide|].
  split; [done|]. split; [done|]. split; [done|]. split; [done|].
  intros d' td Hne Htd.
  apply (same_threads_context (sc_threads r.1)); [apply Hel|].
  unfold r, saved. case_decide; simpl; [|done]. by rewrite lookup_insert_ne.
Qed.

(** ** A small system

    One CPU, whose ready queues are at 1000 to 1063 and whose sleepers' queue
    is at 1064, zombies at 1065, all threads at 1067.  The idle thread, at 5000 with node 10, runs; the thread at
    6000 with node 20 is ready at priority 5; the thread at 7000 with node 30
    is blocked on a semaphore. *)
Definition demo_tables : gmap Z kernel_queue :=
  list_to_map ((fun q => (q, zero_queue)) <$> seqZ 1000 70).

Definition fresh_queues : qstore :=
  mk_qstore demo_kheap
    {[ 10 := mk_node NULL NULL 0 0 5000; 20 := mk_node NULL NULL 0 0 6000;
       30 := mk_node NULL NULL 0 0 7000 ]} demo_tables.

Definition fresh_abs : gmap Z (list Z) := (fun _ => []) <$> demo_tables.

Definition after {S A} (m : M S A) (s : S) : S :=
  match m s with Ret (_, s') => s' | _ => s end.

Lemma after_result {S A} (m : M S A) (s : S) a :
  result_of (m s) = Some a -> m s = Ret (a, after m s).
Proof. unfold result_of, after. by destruct (m s) as [[]| | |]; intros [= ->]. Qed.

(** One node in one queue. *)
Definition pushed (x tb : Z) : qstore := after (kernel_queue_push x tb) fresh_queues.

Definition demo_queues : qstore := pushed 20 1005.

Definition demo_thread (st : THREAD_STATE_E) (prio : Z) : kernel_thread :=
  set_state st (set_thread_priority prio zero_thread).

Definition demo_cpu : cpu_sched := mk_cpu_sched 1 5000 10 5000 10 5000 10 7 0 1064.

Definition demo_sched : sched :=
  mk_sched demo_queues
    {[ 5000 := demo_thread THREAD_STATE_RUNNING 63; 6000 := demo_thread THREAD_STATE_READY 5;
       7000 := demo_thread THREAD_STATE_WAITING 9 ]}
    ∅ (fun _ => demo_cpu) 3 3 6000 20 (fun c p => 1000 + p) 1065 1067 SYSTEM_STATE_RUNNING 0
    (fun _ => mk_handler 0 NULL) 77.

Definition demo_env : sched_env := mk_env (mk_cpu 0 1) 100 0 0.

Definition demo_abs1 : gmap Z (list Z) := <[1005 := [20]]> fresh_abs.

Lemma demo_tables_lookup q : 1000 <= q < 1070 -> demo_tables !! q = Some zero_queue.
Proof.
  intros Hq. unfold demo_tables. apply elem_of_list_to_map.
  - rewrite <- list_fmap_compose. apply (NoDup_fmap_2 _), NoDup_seqZ.
  - apply list_elem_of_fmap. exists q. split; [done|]. apply elem_of_seqZ. lia.
Qed.

Lemma fresh_abs_lookup q : 1000 <= q < 1070 -> fresh_abs !! q = Some [].
Proof. intros Hq. unfold fresh_abs. by rewrite lookup_fmap, demo_tables_lookup. Qed.

Lemma fresh_queues_rep : qrep fresh_queues fresh_abs.
Proof.
  apply qrep_fresh; [| |done|reflexivity]; simpl.
  - intros x n H. repeat (apply lookup_insert_Some in H as [[<- <-]|[_ H]]; [done|]).
    by apply lookup_singleton_Some in H as [<- <-].
  - intros q Q H. unfold demo_tables in H. apply elem_of_list_to_map_2 in H.
    apply list_elem_of_fmap in H as (q' & [= -> ->] & _). done.
Qed.

Lemma pushed_rep x tb :
  1000 <= tb < 1070 -> is_Some (qs_nodes fresh_queues !! x) ->
  qrep (pushed x tb) (<[tb := [x]]> fresh_abs) /\
  same_payload (qs_nodes fresh_queues) (qs_nodes (pushed x tb)).
Proof.
  intros Htb Hx.
  destruct (q_push fresh_queues fresh_abs tb [] x fresh_queues_rep)
    as (Q' & Hrun & HR & Hp); [by apply fresh_abs_lookup|done| |].
  - intros (q & l & Hq & Hin). unfold fresh_abs in Hq.
    apply lookup_fmap_Some in Hq as (? & <- & _). by apply not_elem_of_nil in Hin.
  - unfold pushed, after. by rewrite Hrun.
Qed.

Lemma pushed_free x tb y : y <> x -> ~ enlisted_in (<[tb := [x]]> fresh_abs) y.
Proof.
  intros Hx (q & l & Hq & Hin). apply lookup_insert_Some in Hq as [[<- <-]|[_ Hq]].
  - by apply list_elem_of_singleton in Hin.
  - unfold fresh_abs in Hq. apply lookup_fmap_Some in Hq as (? & <- & _).
    by apply not_elem_of_nil in Hin.
Qed.

Lemma pushed_lookup x tb q : 1000 <= q < 1070 -> q <> tb -> (<[tb := [x]]> fresh_abs) !! q = Some [].
Proof. intros Hq Hne. rewrite lookup_insert_ne by done. by apply fresh_abs_lookup. Qed.

Lemma demo_queues_rep : qrep demo_queues demo_abs1.
Proof. apply pushed_rep; [lia|by eexists]. Qed.

Lemma demo_abs1_5 : demo_abs1 !! 1005 = Some [20].
Proof. unfold demo_abs1. by rewrite lookup_insert_eq. Qed.

#[global] Opaque demo_tables fresh_abs pushed.

Lemma demo_abs1_lookup q : 1000 <= q < 1070 -> q <> 1005 -> demo_abs1 !! q = Some [].
Proof.
  apply pushed_lookup.
Qed.

Lemma demo_ready i : level i -> ready demo_env demo_sched demo_abs1 i = if decide (i = 5) then [20] else [].
Proof.
  intros Hi. unfold ready, ready_table, level, KERNEL_LOWEST_PRIORITY in *. simpl.
  destruct (decide (i = 5)) as [->|Hne]; [by change (1000 + 5) with 1005; rewrite demo_abs1_5|].
  by rewrite demo_abs1_lookup by lia.
Qed.

Lemma demo_nodes : n_data <$> qs_nodes demo_queues !! 10 = Some 5000 /\
  n_data <$> qs_nodes demo_queues !! 20 = Some 6000 /\
  n_data <$> qs_nodes demo_queues !! 30 = Some 7000.
Proof. vm_compute. done. Qed.

Lemma demo_runnable x d t :
  n_data <$> qs_nodes demo_queues !! x = Some d -> d <> NULL ->
  sc_threads demo_sched !! d = Some t -> 0 <= priority t <= 63 ->
  runnable demo_queues (sc_threads demo_sched) x.
Proof.
  intros Hx Hd Ht Hp. assert (thread_at demo_queues x = d) as E
    by (unfold thread_at; rewrite Hx; reflexivity).
  split.
  - destruct (qs_nodes demo_queues !! x); [by eexists|discriminate Hx].
  - rewrite E. exact Hd.
  - rewrite E, Ht. by eexists.
  - unfold prio_at. rewrite E, Ht. exact Hp.
Qed.

Lemma demo_idle_runnable : runnable demo_queues (sc_threads demo_sched) 10.
Proof.
  apply (demo_runnable 10 5000 (demo_thread THREAD_STATE_RUNNING 63)); [apply demo_nodes| | |];
    [discriminate|reflexivity|vm_compute; split; congruence].
Qed.

Lemma demo_other_runnable : runnable demo_queues (sc_threads demo_sched) 20.
Proof.
  apply (demo_runnable 20 6000 (demo_thread THREAD_STATE_READY 5)); [apply demo_nodes| | |];
    [discriminate|reflexivity|vm_compute; split; congruence].
Qed.

Lemma demo_tables_ok : tables_ok demo_env demo_sched (sc_cpus demo_sched) demo_abs1.
Proof.
  split; [vm_compute; split; congruence| | |].
  - intros i Hi. unfold level, KERNEL_LOWEST_PRIORITY in Hi.
    change (ready_table demo_env demo_sched i) with (1000 + i).
    destruct (decide (1000 + i = 1005)) as [->|]; [rewrite demo_abs1_5; by eexists|].
    rewrite demo_abs1_lookup by lia. by eexists.
  - intros i j _ _ H. change (1000 + i = 1000 + j) in H. lia.
  - intros i Hi. unfold level, KERNEL_LOWEST_PRIORITY in Hi. change (1000 + i <> 1064). lia.
Qed.

Lemma demo_schedulable :
  schedulable demo_env demo_sched demo_abs1 10 (demo_thread THREAD_STATE_RUNNING 63) [].
Proof.
  assert (thread_at demo_queues 10 = 5000) as E.
  { unfold thread_at. destruct demo_nodes as (-> & _). reflexivity. }
  split.
  - exact demo_queues_rep.
  - exact demo_tables_ok.
  - reflexivity.
  - change (5000 = thread_at demo_queues 10). rewrite E. reflexivity.
  - change (sc_threads demo_sched !! thread_at demo_queues 10 =
            Some (demo_thread THREAD_STATE_RUNNING 63)). rewrite E. reflexivity.
  - exact demo_idle_runnable.
  - apply pushed_free. lia.
  - change (demo_abs1 !! 1064 = Some []). apply demo_abs1_lookup; lia.
  - constructor.
  - intros x Hx. destruct (not_elem_of_nil _ Hx).
  - intros [=].
  - intros i x Hi. rewrite (demo_ready i Hi). destruct (decide (i = 5)).
    + intros ->%list_elem_of_singleton. exact demo_other_runnable.
    + intros Hx. destruct (not_elem_of_nil _ Hx).
  - left. reflexivity.
Qed.

(** The ready thread of priority 5 takes the place of the idle thread. *)
Lemma select_thread_correct_witness :
  schedulable demo_env demo_sched demo_abs1 10 (demo_thread THREAD_STATE_RUNNING 63) [] /\
  exists s' A' l, select_thread demo_env demo_sched = Ret (tt, s') /\
    elected demo_env demo_sched demo_abs1 10 (demo_thread THREAD_STATE_RUNNING 63) [] []
      s' A' 5 20 l.
Proof.
  split; [exact demo_schedulable|].
  destruct (select_thread_correct _ _ _ _ _ _ demo_schedulable)
    as (keep & exp & j & l & x & s' & A' & Hp & _ & _ & Hrun & Hel).
  assert (keep ++ exp = []) as Hnil by (apply Permutation_nil_r; exact Hp).
  apply app_eq_nil in Hnil as [-> ->].
  exists s', A', l. split; [exact Hrun|].
  pose proof (el_level _ _ _ _ _ _ _ _ _ _ _ _ Hel) as Hj.
  pose proof (el_oldest _ _ _ _ _ _ _ _ _ _ _ _ Hel) as Ho.
  unfold refilled in Ho. rewrite (demo_ready j Hj) in Ho. simpl in Ho.
  assert (~ 5 < j) as Hle.
  { intros Hlt. pose proof (el_first _ _ _ _ _ _ _ _ _ _ _ _ Hel 5 ltac:(lia)) as Hf.
    unfold refilled in Hf. rewrite (demo_ready 5 ltac:(unfold level, KERNEL_LOWEST_PRIORITY; lia)) in Hf.
    discriminate Hf. }
  unfold preempted in Ho. rewrite decide_False in Ho.
  2:{ intros [_ E]. change (63 = j) in E. lia. }
  destruct (decide (j = 5)) as [->|Hne].
  - change ([] ++ [20] = l ++ [x]) in Ho. apply app_inj_tail in Ho as [_ <-]. exact Hel.
  - destruct l; discriminate Ho.
Defined.

Lemma schedule_int_context_witness :
  exists s' pgdir new_esp, schedule_int demo_env 4660 demo_sched = Ret ((pgdir, new_esp), s') /\
    first_sched (sc_cpus s' (cpu_id demo_env)) = 1.
Proof.
  destruct (schedule_int_context _ _ _ _ _ _ 4660 demo_schedulable)
    as (s' & pgdir & new_esp & _ & _ & Hrun & Hf & _).
  exists s', pgdir, new_esp. split; [exact Hrun|exact Hf].
Defined.
