(* ===== verification/SchedulerFairness.v ===== *)
(** * The scheduler is fair among the threads of a priority

    Elections follow one another; between two of them the kernel runs: time
    passes, threads block, wake up or are created.  As long as no thread of a
    higher priority becomes ready, a ready thread is elected after exactly as
    many elections as there are threads before it in its queue. *)
From S2P Require Import Prelude Alloc Interrupts KernelQueue KHeap KHeapSpec KHeapTheorems.
From S2P Require Import QueueTheorems Scheduler SchedulerSpec SchedulerTheorems.

(** What an election sees: the time, the state, the contents of the queues,
    the node and the thread that run, the sleepers. *)
Record view : Type := mk_view {
  vw_env : sched_env;
  vw_s : sched;
  vw_A : gmap Z (list Z);
  vw_an : Z;
  vw_t : kernel_thread;
  vw_sl : list Z
}.

Section Fairness.
Context {ops : AllocOps}.
Implicit Types (v : view) (p x : Z).

Definition view_ok v : Prop :=
  schedulable (vw_env v) (vw_s v) (vw_A v) (vw_an v) (vw_t v) (vw_sl v).

Definition ready_at v (i : Z) : list Z := ready (vw_env v) (vw_s v) (vw_A v) i.
Definition node_prio v (y : Z) : Z := prio_at (sc_q (vw_s v)) (sc_threads (vw_s v)) y.

(** No thread that is ready, running or asleep has a priority above [p]
    (smaller numbers are more urgent). *)
Record none_above p v : Prop := {
  na_queues i : 0 <= i < p -> ready_at v i = [];
  na_running : p <= priority (vw_t v);
  na_sleepers y : y ∈ vw_sl v -> p <= node_prio v y;
  na_ready i y : level i -> y ∈ ready_at v i -> p <= node_prio v y
}.

Definition elects v v' : Prop :=
  vw_env v' = vw_env v /\ select_thread (vw_env v) (vw_s v) = Ret (tt, vw_s v') /\ view_ok v'.

(** What may happen between two elections: anything that keeps the invariant,
    brings no thread above [p] and does not take threads out of the queue of
    [p]; new ones are added where [kernel_queue_push] adds them. *)
Definition activity p v v' : Prop :=
  cpu_id (vw_env v') = cpu_id (vw_env v) /\ view_ok v' /\ none_above p v' /\
  exists new, ready_at v' p = new ++ ready_at v p.

(** Whatever happens between the elections, the one after [n] others elects
    [x]. *)
Inductive elected_after p x : nat -> view -> Prop :=
  | elected_now v v' : elects v v' -> vw_an v' = x -> elected_after p x 0 v
  | elected_later n v v' :
      elects v v' -> (exists w, activity p v' w) ->
      (forall w, activity p v' w -> elected_after p x n w) -> elected_after p x (S n) v.

(** ** One election *)

Section Step.
Context (p : Z) (v : view) (keep exp : list Z).
Hypothesis (Hv : view_ok v) (Hp : level p) (Hq : none_above p v).
Hypothesis (Hperm : keep ++ exp ≡ₚ
  (if decide (state (vw_t v) = THREAD_STATE_SLEEPING) then vw_an v :: vw_sl v else vw_sl v)).
Let refill (i : Z) : list Z := refilled (vw_env v) (vw_s v) (vw_A v) (vw_t v) (vw_an v) exp i.

Lemma running_prio : p <= node_prio v (vw_an v).
Proof.
  unfold node_prio, prio_at. rewrite (sd_thread _ _ _ _ _ _ Hv). simpl. apply (na_running _ _ Hq).
Qed.

Lemma sleeper_prio y : y ∈ keep ++ exp -> p <= node_prio v y.
Proof.
  rewrite Hperm. case_decide; [|apply (na_sleepers _ _ Hq)].
  intros [->|Hy]%elem_of_cons; [apply running_prio|by apply (na_sleepers _ _ Hq)].
Qed.

Lemma refill_prio i y : level i -> y ∈ refill i -> p <= node_prio v y.
Proof.
  intros Hi. unfold refill, refilled. rewrite !elem_of_app. intros [Hy|[Hy|Hy]].
  - apply list_elem_of_filter in Hy as [_ Hy]. apply sleeper_prio. apply elem_of_app. by right.
  - unfold preempted in Hy. case_decide; [|by apply not_elem_of_nil in Hy].
    apply list_elem_of_singleton in Hy as ->. apply running_prio.
  - by apply (na_ready _ _ Hq i).
Qed.

Lemma refill_above i : 0 <= i < p -> refill i = [].
Proof.
  intros Hi. destruct (refill i) as [|y l] eqn:E; [done|]. exfalso.
  assert (level i) as Hl by (unfold level in *; lia).
  assert (y ∈ refill i) as Hy by (rewrite E; apply elem_of_cons; by left).
  revert Hy. unfold refill, refilled. rewrite !elem_of_app. intros [Hy|[Hy|Hy]].
  - apply list_elem_of_filter in Hy as [Hpr Hy].
    assert (p <= node_prio v y) by (apply sleeper_prio; apply elem_of_app; by right).
    unfold node_prio in *. lia.
  - unfold preempted in Hy. case_decide as Hc; [|by apply not_elem_of_nil in Hy].
    pose proof (na_running _ _ Hq). lia.
  - pose proof (na_queues _ _ Hq i Hi) as Hn. unfold ready_at in Hn. rewrite Hn in Hy.
    by apply not_elem_of_nil in Hy.
Qed.

(** The level elected from is [p] as soon as it has a thread. *)
Lemma elected_level s' A' j x l :
  elected (vw_env v) (vw_s v) (vw_A v) (vw_an v) (vw_t v) exp keep s' A' j x l ->
  ready_at v p <> [] -> j = p.
Proof.
  intros HE Hne. pose proof (el_level _ _ _ _ _ _ _ _ _ _ _ _ HE) as Hj.
  destruct (decide (j < p)) as [Hlt|Hge].
  - pose proof (el_oldest _ _ _ _ _ _ _ _ _ _ _ _ HE) as Ho. fold (refill j) in Ho.
    unfold level in Hj. rewrite refill_above in Ho by lia. by destruct l.
  - destruct (decide (p < j)) as [Hlt|]; [|lia]. exfalso.
    unfold level in Hp. pose proof (el_first _ _ _ _ _ _ _ _ _ _ _ _ HE p ltac:(lia)) as Hf.
    unfold refilled in Hf. apply app_eq_nil in Hf as [_ Hf]. by apply app_eq_nil in Hf as [_ ?].
Qed.

Lemma none_above_kept s' A' x l t' sl' :
  elected (vw_env v) (vw_s v) (vw_A v) (vw_an v) (vw_t v) exp keep s' A' p x l ->
  sl' ≡ₚ keep -> schedulable (vw_env v) s' A' x t' sl' ->
  none_above p (mk_view (vw_env v) s' A' x t' sl').
Proof.
  intros HE Hsl HS. unfold level in Hp.
  pose proof (el_data _ _ _ _ _ _ _ _ _ _ _ _ HE) as Hd.
  pose proof (el_threads _ _ _ _ _ _ _ _ _ _ _ _ HE) as Ht.
  assert (forall y, prio_at (sc_q s') (sc_threads s') y = node_prio v y) as Hpr
    by (intros; by apply prio_at_same).
  pose proof (el_oldest _ _ _ _ _ _ _ _ _ _ _ _ HE) as Ho. fold (refill p) in Ho.
  assert (forall i, level i -> ready (vw_env v) s' A' i = if decide (i = p) then l else refill i)
    as Hr by (apply (el_ready _ _ _ _ _ _ _ _ _ _ _ _ HE)).
  split; unfold ready_at, node_prio; simpl.
  - intros i Hi. rewrite Hr, decide_False by (unfold level; lia). by apply refill_above.
  - assert (p <= node_prio v x) as Hx.
    { apply (refill_prio p); [done|]. rewrite Ho. apply elem_of_app. right. by apply list_elem_of_singleton. }
    rewrite <- Hpr in Hx. unfold prio_at in Hx. by rewrite (sd_thread _ _ _ _ _ _ HS) in Hx.
  - intros y Hy. rewrite Hpr. apply sleeper_prio. rewrite Hsl in Hy. apply elem_of_app. by left.
  - intros i y Hi Hy. rewrite Hpr. rewrite Hr in Hy by done. case_decide as Hc.
    + apply (refill_prio p); [done|]. rewrite Ho. apply elem_of_app. by left.
    + by apply (refill_prio i).
Qed.
End Step.

(** The election of a view whose queue [p] is not empty. *)
Lemma election_step p v :
  view_ok v -> level p -> none_above p v -> ready_at v p <> [] ->
  exists front v' l, elects v v' /\ none_above p v' /\ front ++ ready_at v p = l ++ [vw_an v'] /\
    ready_at v' p = l.
Proof.
  intros Hv Hp Hq Hne.
  destruct (select_run _ _ _ _ _ _ Hv) as (keep & exp & j & l & x & s' & A' & Hperm & _ & _ & Hrun & HE).
  pose proof (elected_level p v keep exp Hv Hp Hq Hperm _ _ _ _ _ HE Hne) as ->.
  destruct (el_next _ _ _ _ _ _ _ _ _ _ _ _ HE) as (t' & sl' & _ & Hsl & HS).
  eexists (filter _ exp ++ preempted (vw_t v) (vw_an v) p), (mk_view (vw_env v) s' A' x t' sl'), l.
  split; [done|]. split; [by eapply none_above_kept|]. split.
  - rewrite <- app_assoc. apply (el_oldest _ _ _ _ _ _ _ _ _ _ _ _ HE).
  - unfold ready_at. simpl. rewrite (el_ready _ _ _ _ _ _ _ _ _ _ _ _ HE p Hp). by rewrite decide_True.
Qed.

Lemma activity_idle p v v' : elects v v' -> none_above p v' -> activity p v' v'.
Proof. intros (_ & _ & Hv') Hq. split; [done|]. split; [done|]. split; [done|]. by exists []. Qed.

(** A thread that is ready at [p] with [n] threads before it. *)
Lemma waiting_run p x n : forall v pre post,
  view_ok v -> level p -> none_above p v -> ready_at v p = pre ++ x :: post -> length post = n ->
  elected_after p x n v.
Proof.
  induction n as [|n IH]; intros v pre post Hv Hp Hq Hr Hn;
    (destruct (election_step p v) as (front & v' & l & He & Hq' & Ho & Hl);
      [done|done|done|rewrite Hr; by destruct pre|]); rewrite Hr in Ho.
  - destruct post; [|done]. rewrite app_assoc in Ho. apply app_inj_tail in Ho as [_ Ho].
    by apply elected_now with v'.
  - destruct (exists_last (l := post)) as (post' & y & ->); [by intros ->|].
    rewrite length_app in Hn. simpl in Hn.
    replace (front ++ pre ++ x :: post' ++ [y]) with ((front ++ pre ++ x :: post') ++ [y]) in Ho
      by (by rewrite <- !app_assoc).
    apply app_inj_tail in Ho as [Ho _].
    apply elected_later with v'; [done|exists v'; by apply (activity_idle p v)|].
    intros w (_ & Hw & Hqw & new & Hrw).
    apply (IH w (new ++ front ++ pre) post'); [done|done|done| |lia].
    rewrite Hrw, Hl, <- Ho. by rewrite <- !app_assoc.
Qed.

End Fairness.

(** ** Properties *)

(** C3: bounded waiting.  A thread ready at priority [p] behind [length post]
    others is elected by the election that follows exactly [length post] more,
    whatever the kernel does between them (other threads block, wake up, are
    created, time passes), provided no thread of a higher priority gets
    ready. *)
Theorem waiting_thread_is_elected `{ops : AllocOps} p x v pre post :
  view_ok v -> level p -> none_above p v -> ready_at v p = pre ++ x :: post ->
  elected_after p x (length post) v.
Proof. intros. by eapply waiting_run. Qed.

(** the election keeps the scheduler's state well formed: it returns from
    every schedulable state, and in the new state the elected thread runs and
    an election is possible again. *)
Theorem select_thread_schedulable `{ops : AllocOps} e s A an t sl :
  schedulable e s A an t sl ->
  exists s' A' x t' sl', select_thread e s = Ret (tt, s') /\
    schedulable e s' A' x t' sl' /\ state t' = THREAD_STATE_RUNNING /\
    prev_thread_node (sc_cpus s' (cpu_id e)) = an.
Proof.
  intros HS. destruct (select_run _ _ _ _ _ _ HS) as (keep & exp & j & l & x & s' & A' & _ & _ & _ & Hrun & HE).
  destruct (el_next _ _ _ _ _ _ _ _ _ _ _ _ HE) as (t' & sl' & Ht' & _ & HS').
  exists s', A', x, t', sl'. split; [done|]. split; [done|]. split; [done|].
  apply (el_prev _ _ _ _ _ _ _ _ _ _ _ _ HE).
Qed.

(** ** Witnesses

    The system of [SchedulerTheorems] with a second thread ready at priority 5:
    the node 30 is behind the node 20. *)
Definition pair_queues : qstore := after (kernel_queue_push 30 1005) demo_queues.

Definition pair_sched : sched :=
  setq demo_sched pair_queues
    (<[7000 := demo_thread THREAD_STATE_READY 5]> (sc_threads demo_sched)) (sc_cpus demo_sched).

Definition pair_abs : gmap Z (list Z) := <[1005 := [30; 20]]> demo_abs1.

Lemma pair_queues_rep : qrep pair_queues pair_abs /\ same_data demo_queues pair_queues.
Proof.
  destruct (q_push demo_queues demo_abs1 1005 [20] 30 demo_queues_rep demo_abs1_5)
    as (Q' & Hrun & HR & Hp).
  - destruct demo_nodes as (_ & _ & H). destruct (qs_nodes demo_queues !! 30); [by eexists|discriminate H].
  - apply pushed_free. lia.
  - unfold pair_queues, after. rewrite Hrun. split; [exact HR|]. by apply same_payload_data.
Qed.

Lemma pair_abs_lookup q : 1000 <= q < 1070 -> pair_abs !! q = Some (if decide (q = 1005) then [30; 20] else []).
Proof.
  intros Hq. unfold pair_abs. destruct (decide (q = 1005)) as [->|Hne]; [by rewrite lookup_insert_eq|].
  rewrite lookup_insert_ne by done. by apply demo_abs1_lookup.
Qed.

Lemma pair_thread x d : n_data <$> qs_nodes demo_queues !! x = Some d -> thread_at pair_queues x = d.
Proof. intros H. rewrite (thread_at_same demo_queues) by apply pair_queues_rep. unfold thread_at. by rewrite H. Qed.

Lemma pair_runnable x d t :
  n_data <$> qs_nodes demo_queues !! x = Some d -> d <> NULL ->
  sc_threads pair_sched !! d = Some t -> 0 <= priority t <= 63 ->
  runnable pair_queues (sc_threads pair_sched) x.
Proof.
  intros Hx Hd Ht Hp. pose proof (pair_thread _ _ Hx) as E. split.
  - destruct pair_queues_rep as [_ H]. specialize (H x). rewrite Hx in H.
    destruct (qs_nodes pair_queues !! x); [by eexists|discriminate H].
  - rewrite E. exact Hd.
  - rewrite E, Ht. by eexists.
  - unfold prio_at. rewrite E, Ht. exact Hp.
Qed.

Lemma pair_ready i : level i -> ready demo_env pair_sched pair_abs i = if decide (i = 5) then [30; 20] else [].
Proof.
  intros Hi. unfold level, KERNEL_LOWEST_PRIORITY in Hi.
  unfold ready. change (ready_table demo_env pair_sched i) with (1000 + i). rewrite pair_abs_lookup by lia.
  destruct (decide (i = 5)) as [->|]; [done|]. by rewrite decide_False by lia.
Qed.

Definition pair_view : view :=
  mk_view demo_env pair_sched pair_abs 10 (demo_thread THREAD_STATE_RUNNING 63) [].

Lemma pair_nodes_runnable x : x = 10 \/ x = 20 \/ x = 30 -> runnable pair_queues (sc_threads pair_sched) x.
Proof.
  destruct demo_nodes as (H1 & H2 & H3). intros [->|[->| ->]].
  - apply (pair_runnable 10 5000 (demo_thread THREAD_STATE_RUNNING 63) H1);
      [discriminate|reflexivity|vm_compute; split; congruence].
  - apply (pair_runnable 20 6000 (demo_thread THREAD_STATE_READY 5) H2);
      [discriminate|reflexivity|vm_compute; split; congruence].
  - apply (pair_runnable 30 7000 (demo_thread THREAD_STATE_READY 5) H3);
      [discriminate|reflexivity|vm_compute; split; congruence].
Qed.

Lemma pair_view_ok : view_ok pair_view.
Proof.
  destruct demo_nodes as (H1 & _). pose proof (pair_thread _ _ H1) as E.
  split.
  - apply pair_queues_rep.
  - split; [vm_compute; split; congruence| | |].
    + intros i Hi. unfold level, KERNEL_LOWEST_PRIORITY in Hi.
      change (is_Some (pair_abs !! (1000 + i))). rewrite pair_abs_lookup by lia. by eexists.
    + intros i j _ _ H. change (1000 + i = 1000 + j) in H. lia.
    + intros i Hi. unfold level, KERNEL_LOWEST_PRIORITY in Hi. change (1000 + i <> 1064). lia.
  - reflexivity.
  - change (5000 = thread_at pair_queues 10). rewrite E. reflexivity.
  - change (sc_threads pair_sched !! thread_at pair_queues 10 = Some (demo_thread THREAD_STATE_RUNNING 63)).
    rewrite E. reflexivity.
  - apply pair_nodes_runnable. by left.
  - intros (q & l & Hq & Hin). change (pair_abs !! q = Some l) in Hq. unfold pair_abs in Hq. apply lookup_insert_Some in Hq as [[<- <-]|[Hne Hq]].
    + change (10 ∈ [30; 20]) in Hin. apply elem_of_cons in Hin as [|Hin]; [lia|]. apply list_elem_of_singleton in Hin. lia.
    + apply (pushed_free 20 1005 10); [lia|]. exists q, l. split; [exact Hq|exact Hin].
  - change (pair_abs !! 1064 = Some []). rewrite pair_abs_lookup by lia. reflexivity.
  - constructor.
  - intros x Hx. destruct (not_elem_of_nil _ Hx).
  - intros [=].
  - intros i x Hi Hx. simpl in Hx. rewrite (pair_ready i Hi) in Hx. apply pair_nodes_runnable.
    destruct (decide (i = 5)); [|destruct (not_elem_of_nil _ Hx)].
    apply elem_of_cons in Hx as [->|Hx%list_elem_of_singleton]; auto.
  - left. reflexivity.
Qed.

Lemma pair_none_above : none_above 5 pair_view.
Proof.
  split.
  - intros i Hi. unfold ready_at. simpl. rewrite pair_ready by (unfold level, KERNEL_LOWEST_PRIORITY; lia).
    by rewrite decide_False by lia.
  - vm_compute. congruence.
  - intros y Hy. destruct (not_elem_of_nil _ Hy).
  - intros i y Hi Hy. unfold ready_at in Hy. simpl in Hy. rewrite (pair_ready i Hi) in Hy.
    destruct (decide (i = 5)); [|destruct (not_elem_of_nil _ Hy)].
    destruct demo_nodes as (_ & H2 & H3). unfold node_prio, prio_at.
    apply elem_of_cons in Hy as [->|Hy%list_elem_of_singleton].
    + change (5 <= default 0 (priority <$> sc_threads pair_sched !! thread_at pair_queues 30)).
      rewrite (pair_thread 30 _ H3). vm_compute. congruence.
    + rewrite Hy. change (5 <= default 0 (priority <$> sc_threads pair_sched !! thread_at pair_queues 20)).
      rewrite (pair_thread 20 _ H2). vm_compute. congruence.
Qed.

(** The node 30 runs after exactly one other election. *)
Lemma waiting_thread_is_elected_witness :
  (view_ok pair_view /\ level 5 /\ none_above 5 pair_view /\ ready_at pair_view 5 = [] ++ 30 :: [20]) /\
  elected_after 5 30 1 pair_view.
Proof.
  assert (level 5) as H5 by (unfold level, KERNEL_LOWEST_PRIORITY; lia).
  assert (ready_at pair_view 5 = [] ++ 30 :: [20]) as Hr by (unfold ready_at; exact (pair_ready 5 H5)).
  split; [split; [exact pair_view_ok|]; split; [exact H5|]; split; [exact pair_none_above|exact Hr]|].
  exact (waiting_thread_is_elected 5 30 pair_view [] [20] pair_view_ok H5 pair_none_above Hr).
Defined.

Lemma select_thread_schedulable_witness :
  schedulable demo_env pair_sched pair_abs 10 (demo_thread THREAD_STATE_RUNNING 63) [] /\
  exists s' A' x t' sl', select_thread demo_env pair_sched = Ret (tt, s') /\
    schedulable demo_env s' A' x t' sl' /\ state t' = THREAD_STATE_RUNNING /\
    prev_thread_node (sc_cpus s' (cpu_id demo_env)) = 10.
Proof.
  split; [exact pair_view_ok|].
  exact (select_thread_schedulable demo_env pair_sched pair_abs 10 _ [] pair_view_ok).
Defined.
