(* ===== verification/SchedulerOps.v ===== *)
(** * Properties of the scheduler's services

    Blocking, exit, creation, sleep and information functions. *)
From stdpp Require Import functions sorting.
From S2P Require Import Prelude Alloc Critical Interrupts KernelQueue KHeap KHeapSpec.
From S2P Require Import KHeapTheorems QueueTheorems Scheduler SchedulerSpec SchedulerTheorems.


Lemma bind_fault {S A B} (m : M S A) (k : A -> M S B) s : m s = Fault -> bind m k s = Fault.
Proof. unfold bind. by intros ->. Qed.

Section Ops.
Context {ops : AllocOps} (e : sched_env).
Implicit Types (s : sched) (Q : qstore) (A : gmap Z (list Z)).

Lemma node_data_run s node n :
  qs_nodes (sc_q s) !! node = Some n -> node_data node s = Ret (n_data n, s).
Proof.
  intros H. unfold node_data, bind, q, zoom, get_node. rewrite H. by destruct s.
Qed.

Lemma get_thread_run s d t : sc_threads s !! d = Some t -> get_thread d s = Ret (t, s).
Proof. intros H. unfold get_thread. by rewrite H. Qed.

(** ** Unblocking *)
Definition unblock_error (kind : THREAD_WAIT_TYPE_E) : OS_RETURN_E :=
  match kind with
  | THREAD_WAIT_TYPE_SEM => OS_ERR_NO_SEM_BLOCKED
  | THREAD_WAIT_TYPE_MUTEX => OS_ERR_NO_MUTEX_BLOCKED
  | THREAD_WAIT_TYPE_IO_KEYBOARD => OS_ERR_NULL_POINTER
  end.

Lemma make_ready_run s A d t node n l :
  qrep (sc_q s) A -> qs_nodes (sc_q s) !! node = Some n -> ~ enlisted_in A node ->
  sc_threads s !! d = Some t -> 0 <= cpu_affinity t < MAX_CPU_COUNT -> level (priority t) ->
  A !! active_threads_table s (cpu_affinity t) (priority t) = Some l ->
  exists Q', make_ready d node s =
      Ret (tt, setq s Q' (<[d := set_state THREAD_STATE_READY t]> (sc_threads s)) (sc_cpus s)) /\
    qrep Q' (<[active_threads_table s (cpu_affinity t) (priority t) := node :: l]> A) /\
    same_payload (qs_nodes (sc_q s)) (qs_nodes Q').
Proof.
  intros HR Hn Hni Ht Hc Hp Hl.
  destruct (q_push _ _ _ _ node HR Hl ltac:(by eexists) Hni) as (Q' & Hrun & HR' & Hsame).
  exists Q'. split; [|done]. rewrite <- (setq_id s) at 1. unfold make_ready.
  rewrite (exec_upd_thread _ _ _ _ _ _ _ _ Ht).
  rewrite (exec_get_thread _ _ _ _ _ _ (set_state THREAD_STATE_READY t)) by (by rewrite lookup_insert_eq).
  rewrite exec_active_table by done. by rewrite (exec_q _ _ _ _ _ _ _ _ Hrun).
Qed.

(** ** Creation of the initial stack *)
Lemma write_frame_lookup base ws : forall i m a,
  (forall j, (j < length ws)%nat -> stack_slot base (i - Z.of_nat j) <> a) ->
  write_frame base i ws m !! a = m !! a.
Proof.
  induction ws as [|w ws IH]; intros i m a H; simpl; [done|].
  rewrite IH.
  - rewrite lookup_insert_ne; [done|]. specialize (H 0%nat ltac:(simpl; lia)).
    by replace (i - Z.of_nat 0) with i in H by lia.
  - intros j Hj. specialize (H (S j) ltac:(simpl; lia)).
    by replace (i - 1 - Z.of_nat j) with (i - Z.of_nat (S j)) by lia.
Qed.

Lemma write_frame_at base ws : forall i m j w,
  (forall j1 j2, (j1 < length ws)%nat -> (j2 < length ws)%nat ->
     stack_slot base (i - Z.of_nat j1) = stack_slot base (i - Z.of_nat j2) -> j1 = j2) ->
  ws !! j = Some w -> write_frame base i ws m !! stack_slot base (i - Z.of_nat j) = Some w.
Proof.
  induction ws as [|w0 ws IH]; intros i m j w Hinj Hj; [done|].
  assert (forall j1 j2, (j1 < length ws)%nat -> (j2 < length ws)%nat ->
    stack_slot base (i - 1 - Z.of_nat j1) = stack_slot base (i - 1 - Z.of_nat j2) -> j1 = j2) as Hinj'.
  { intros j1 j2 H1 H2 H. specialize (Hinj (S j1) (S j2)). simpl in Hinj.
    replace (i - Z.of_nat (S j1)) with (i - 1 - Z.of_nat j1) in Hinj by lia.
    replace (i - Z.of_nat (S j2)) with (i - 1 - Z.of_nat j2) in Hinj by lia.
    specialize (Hinj ltac:(lia) ltac:(lia) H). lia. }
  destruct j as [|j]; simpl in Hj.
  - injection Hj as ->. replace (i - Z.of_nat 0) with i by lia. simpl. rewrite write_frame_lookup.
    + by rewrite lookup_insert_eq.
    + intros j Hj E. specialize (Hinj (S j) 0%nat). simpl in Hinj.
      replace (i - 1 - Z.of_nat j) with (i - Z.of_nat (S j)) in E by lia.
      rewrite Z.sub_0_r in Hinj. specialize (Hinj ltac:(lia) ltac:(lia) E). lia.
  - replace (i - Z.of_nat (S j)) with (i - 1 - Z.of_nat j) by lia. by apply IH.
Qed.
End Ops.

(** The address of a slot, when nothing wraps. *)
Lemma stack_slot_small base i : 0 <= base + 4 * i < 2 ^ 32 -> stack_slot base i = base + 4 * i.
Proof. intros. by apply u32_small. Qed.

Lemma initial_frame_length base n entry : length (initial_frame base n entry) = 18%nat.
Proof. done. Qed.

(** the eighteen words of a new thread's stack: when the stack has at
    least that many words they all land inside it, from the top down, and
    every other word of memory is left alone. *)
Theorem initial_frame_in_stack base n entry m :
  0 <= base -> base + 4 * n < 2 ^ 32 -> 18 <= n ->
  let m' := write_frame base (n - 1) (initial_frame base n entry) m in
  (forall j w, initial_frame base n entry !! j = Some w ->
     m' !! (base + 4 * (n - 1 - Z.of_nat j)) = Some w) /\
  (forall a, a < base + 4 * (n - 18) \/ base + 4 * n <= a -> m' !! a = m !! a).
Proof.
  intros Hb Hend Hn m'. split.
  - intros j w Hj. pose proof (lookup_lt_Some _ _ _ Hj) as Hlt. rewrite initial_frame_length in Hlt.
    rewrite <- stack_slot_small by lia. unfold m'.
    apply write_frame_at; [|done]. rewrite initial_frame_length. intros j1 j2 H1 H2.
    rewrite !stack_slot_small by lia. lia.
  - intros a Ha. unfold m'. apply write_frame_lookup. rewrite initial_frame_length.
    intros j Hj. rewrite stack_slot_small by lia. lia.
Qed.

Lemma initial_frame_in_stack_witness :
  18 <= 1024 /\
  write_frame 4096 1023 (initial_frame 4096 1024 77) ∅ !! 8188 = Some THREAD_INIT_EFLAGS.
Proof.
  split; [lia|].
  apply (proj1 (initial_frame_in_stack 4096 1024 77 ∅ ltac:(lia) ltac:(lia) ltac:(lia)) 0%nat).
  reflexivity.
Defined.

(** nothing bounds the stack size from below.  A stack of fewer than
    eighteen words is accepted by [sched_create_kernel_thread], and the words
    that do not fit are written below it, over whatever the heap holds there
    (its own chunk header first). *)
Theorem small_stack_corrupts base n entry m :
  0 <= n < 18 -> 72 <= base -> base + 4 * n < 2 ^ 32 ->
  write_frame base (n - 1) (initial_frame base n entry) m !! (base - 4) =
    initial_frame base n entry !! Z.to_nat n.
Proof.
  intros Hn Hb Hend.
  destruct (lookup_lt_is_Some_2 (initial_frame base n entry) (Z.to_nat n)) as [w Hw];
    [rewrite initial_frame_length; lia|].
  rewrite Hw. replace (base - 4) with (stack_slot base (n - 1 - Z.of_nat (Z.to_nat n)))
    by (rewrite stack_slot_small; lia).
  apply write_frame_at; [|done]. rewrite initial_frame_length. intros j1 j2 H1 H2.
  rewrite !stack_slot_small by lia. lia.
Qed.

Lemma small_stack_corrupts_witness :
  stack_words 8 = 2 /\
  write_frame 4096 1 (initial_frame 4096 2 77) ∅ !! 4092 = Some 77.
Proof.
  split; [reflexivity|].
  etransitivity; [apply (small_stack_corrupts 4096 2 77 ∅); lia|]. reflexivity.
Defined.

Section Services.
Context {ops : AllocOps} (e : sched_env).
Implicit Types (s : sched) (k : kstate sched) (A : gmap Z (list Z)).

(** What [sched_unlock_thread] does with the node of a thread: the thread
    becomes ready at the tail of its queue when it waits for [kind], and
    nothing happens otherwise. *)
Lemma unlock_run k A node n d t l kind do_schedule :
  let s := core k in
  flag_ok k -> lock_free (cpu_lock e) k -> qrep (sc_q s) A ->
  qs_nodes (sc_q s) !! node = Some n -> n_data n = d -> d <> NULL ->
  d <> idle_thread (sc_cpus s (cpu_id e)) -> sc_threads s !! d = Some t ->
  0 <= cpu_affinity t < MAX_CPU_COUNT -> level (priority t) ->
  A !! active_threads_table s (cpu_affinity t) (priority t) = Some l -> ~ enlisted_in A node ->
  if decide (state t = THREAD_STATE_WAITING /\ block_type t = kind) then
    exists k' Q', sched_unlock_thread e node kind do_schedule k =
        Ret (if decide (do_schedule <> 0) then Yielded OS_NO_ERR else Done OS_NO_ERR, k') /\
      same_locks k k' /\
      core k' = setq s Q' (<[d := set_state THREAD_STATE_READY t]> (sc_threads s)) (sc_cpus s) /\
      qrep Q' (<[active_threads_table s (cpu_affinity t) (priority t) := node :: l]> A) /\
      same_payload (qs_nodes (sc_q s)) (qs_nodes Q')
  else sched_unlock_thread e node kind do_schedule k = Ret (Done (unblock_error kind), k).
Proof.
  intros s Hf Hl HR Hn Hd Hd0 Hdi Ht Hc Hp Htb Hni.
  assert (sched_unlock_thread e node kind do_schedule k =
    (if decide (state t <> THREAD_STATE_WAITING \/ block_type t <> kind)
     then ret (Done (unblock_error kind))
     else critical e (cpu_lock e) (lift (make_ready d node)) >>>
          if decide (do_schedule <> 0) then ret (Yielded OS_NO_ERR)
          else ret (Done OS_NO_ERR)) k) as ->.
  { unfold sched_unlock_thread.
    rewrite (exec_lift_read _ _ _ _ (node_data_run _ _ _ Hn)), Hd.
    unfold get_cpu. rewrite exec_lift_read with (a := sc_cpus s (cpu_id e)) by done.
    rewrite decide_False by tauto.
    rewrite (exec_lift_read _ _ _ _ (get_thread_run _ _ _ Ht)). by destruct kind. }
  destruct (decide (state t = THREAD_STATE_WAITING /\ block_type t = kind)) as [[H1 H2]|Hne].
  - rewrite decide_False by tauto.
    destruct (make_ready_run s A d t node n l) as (Q' & Hrun & HR' & Hsame); try done.
    destruct (critical_lift e (cpu_lock e) _ k _ _ Hf Hl Hrun) as (k' & Hrun' & Hcore & Hsl).
    exists k', Q'. rewrite (bind_ret _ _ _ _ _ Hrun'). split; [by case_decide|done].
  - rewrite decide_True; [done|].
    destruct (decide (state t = THREAD_STATE_WAITING)); [right|left]; tauto.
Qed.

(** [sched_lock_thread] on a thread that may block. *)
Lemma lock_run s kind t :
  let c := sc_cpus s (cpu_id e) in
  active_thread c <> idle_thread c -> sc_threads s !! active_thread c = Some t ->
  sched_lock_thread e kind s =
    Ret (active_thread_node c,
         setq s (sc_q s) (<[active_thread c := set_block_type kind (set_state THREAD_STATE_WAITING t)]>
           (sc_threads s)) (sc_cpus s)).
Proof.
  intros c Hne Ht. rewrite <- (setq_id s) at 1. unfold sched_lock_thread.
  rewrite exec_get_cpu. fold c. rewrite decide_False by done.
  rewrite (exec_upd_thread _ _ _ _ _ _ _ _ Ht).
  rewrite (exec_upd_thread _ _ _ _ _ _ _ (set_state THREAD_STATE_WAITING t))
    by (by rewrite lookup_insert_eq).
  by rewrite insert_insert_eq.
Qed.

(** ** Exit *)

(** The loop that hands the children to init faults on a child nobody joins. *)
Lemma inherit_unjoined s A fuel a ta l x n d td init ti :
  qrep (sc_q s) A -> active_thread (sc_cpus s (cpu_id e)) = a -> sc_threads s !! a = Some ta ->
  A !! children ta = Some (l ++ [x]) -> qs_nodes (sc_q s) !! x = Some n -> n_data n = d ->
  sc_threads s !! d = Some td -> init_thread s = init -> sc_threads s !! init = Some ti ->
  joining_thread td = NULL ->
  inherit_children e (S fuel) s = Fault.
Proof.
  intros HR Ha Hta Hch Hn Hd Htd Hi Hti Hj. rewrite <- (setq_id s). simpl.
  rewrite exec_active, Ha, (exec_get_thread _ _ _ _ _ _ _ Hta).
  destruct (q_pop _ _ _ _ _ HR Hch) as (Q1 & Hrun & HR1 & Hp1).
  rewrite (exec_q _ _ _ _ _ _ _ _ Hrun). cbv beta iota.
  destruct (q_member _ _ _ _ x HR Hch) as [Hx0 _]; [clear; set_solver|].
  destruct (decide _) as [_|Hno]; [|by destruct Hno].
  assert (exists n', qs_nodes Q1 !! x = Some n' /\ n_data n' = d) as (n' & Hn' & Hd').
  { pose proof (same_payload_data _ _ Hp1 x) as H. rewrite Hn in H.
    destruct (qs_nodes Q1 !! x); simplify_eq/=. eauto. }
  rewrite (exec_node_data _ _ _ _ _ _ _ Hn'), Hd'.
  rewrite exec_gets. simpl. rewrite Hi, (exec_get_thread _ _ _ _ _ _ _ Hti).
  rewrite (exec_upd_thread _ _ _ _ _ _ _ _ Htd).
  rewrite (exec_get_thread _ _ _ _ _ _ (set_ptid (tid ti) td)) by (by rewrite lookup_insert_eq).
  simpl. rewrite Hj. apply bind_fault. unfold node_data. apply bind_fault.
  unfold q, zoom, get_node. simpl. by destruct (qr_null _ _ HR1) as [-> _].
Qed.

(** ** Information *)
Lemma infos_run s A g l : forall n l0 x l1 d,
  qrep (sc_q s) A -> A !! g = Some l -> l = l0 ++ x :: l1 ->
  (forall y, y ∈ l -> exists t, sc_threads s !! thread_at (sc_q s) y = Some t) ->
  d = thread_at (sc_q s) x ->
  if decide (n < length (x :: l1))%nat then
    threads_info_loop e n x d s = Ret (omap (fun y => thread_info_of e <$>
      (sc_threads s !! thread_at (sc_q s) y)) (take n (x :: l1)), s)
  else threads_info_loop e n x d s = Fault.
Proof.
  induction n as [|n IH]; intros l0 x l1 d HR Hg El Hall Hd.
  { simpl. destruct (q_member _ _ _ _ x HR Hg) as [Hx _]; [rewrite El; clear; set_solver|].
    destruct (decide (x = NULL)); [done|]. done. }
  destruct (qrep_lookup _ _ _ _ HR Hg) as (_ & q0 & _ & _ & _ & Hseg & _).
  rewrite El in Hseg. apply dseg_app in Hseg as [_ Hseg].
  destruct Hseg as (Hx & (nd & Hnd & _ & Hnext & _) & _).
  destruct (Hall x) as [t Ht]; [rewrite El; clear; set_solver|].
  cbn [threads_info_loop]. destruct (decide (x = NULL)); [done|].
  rewrite Hd. rewrite (bind_ret _ _ _ _ _ (get_thread_run _ _ _ Ht)).
  assert (q (get_node x) s = Ret (nd, s)) as Hgn.
  { unfold q, zoom, get_node. rewrite Hnd. by destruct s. }
  rewrite (bind_ret _ _ _ _ _ Hgn), Hnext.
  destruct l1 as [|y l1].
  - simpl. assert (node_data NULL s = Fault) as Hf.
    { unfold node_data. apply bind_fault. unfold q, zoom, get_node.
      by destruct (qr_null _ _ HR) as [-> _]. }
    by rewrite (bind_fault _ _ _ Hf).
  - destruct (q_member _ _ _ _ y HR Hg) as [_ [ny Hny]]; [rewrite El; clear; set_solver|].
    simpl. rewrite (bind_ret _ _ _ _ _ (node_data_run _ _ _ Hny)).
    specialize (IH (l0 ++ [x]) y l1 (n_data ny) HR Hg).
    rewrite <- app_assoc in IH. specialize (IH El Hall).
    assert (n_data ny = thread_at (sc_q s) y) as Ey by (unfold thread_at; by rewrite Hny).
    specialize (IH Ey). simpl in IH. rewrite Ht. simpl.
    repeat case_decide; try lia.
    + by rewrite (bind_ret _ _ _ _ _ IH).
    + by apply bind_fault.
Qed.
End Services.

Lemma critical_fault {S A} (e : cpu_env) l (m : M (kstate S) A) (t : kstate S) :
  flag_ok t -> lock_free l t -> m (inside e l t) = Fault -> critical e l m t = Fault.
Proof.
  intros Hf Hl Hm. unfold critical. rewrite (bind_ret _ _ _ _ _ (enter_run e l t Hl)).
  by apply bind_fault.
Qed.

(** ** Properties *)
Section Properties.
Context {ops : AllocOps} (e : sched_env).
Implicit Types (s : sched) (k : kstate sched) (A : gmap Z (list Z)).

(** [sched_unlock_thread] makes a thread ready, at the end of the run queue
    of its own CPU and priority, exactly when it is blocked for the given
    reason; otherwise it returns the error of that reason and changes
    nothing.  Locks and the interrupt flag are left as they were. *)
Theorem sched_unlock_thread_correct k A node n d t l kind do_schedule :
  let s := core k in
  flag_ok k -> lock_free (cpu_lock e) k -> qrep (sc_q s) A ->
  qs_nodes (sc_q s) !! node = Some n -> n_data n = d -> d <> NULL ->
  d <> idle_thread (sc_cpus s (cpu_id e)) -> sc_threads s !! d = Some t ->
  0 <= cpu_affinity t < MAX_CPU_COUNT -> level (priority t) ->
  A !! active_threads_table s (cpu_affinity t) (priority t) = Some l -> ~ enlisted_in A node ->
  if decide (state t = THREAD_STATE_WAITING /\ block_type t = kind) then
    exists k' Q', sched_unlock_thread e node kind do_schedule k =
        Ret (if decide (do_schedule <> 0) then Yielded OS_NO_ERR else Done OS_NO_ERR, k') /\
      same_locks k k' /\
      core k' = setq s Q' (<[d := set_state THREAD_STATE_READY t]> (sc_threads s)) (sc_cpus s) /\
      qrep Q' (<[active_threads_table s (cpu_affinity t) (priority t) := node :: l]> A) /\
      same_payload (qs_nodes (sc_q s)) (qs_nodes Q')
  else sched_unlock_thread e node kind do_schedule k = Ret (Done (unblock_error kind), k).
Proof. apply unlock_run. Qed.

(** a thread that exits while it has a child that no thread is joining
    dereferences the child's null [joining_thread]: the exit of a parent
    before its children is fatal. *)
Theorem thread_exit_unjoined_child_faults k A t node zl l x n d td ti :
  let s := core k in
  let c := sc_cpus s (cpu_id e) in
  flag_ok k -> lock_free (cpu_lock e) k -> qrep (sc_q s) A ->
  active_thread c <> idle_thread c -> active_thread c <> init_thread s ->
  sc_threads s !! active_thread c = Some t -> active_thread_node c = node ->
  is_Some (qs_nodes (sc_q s) !! node) -> ~ enlisted_in A node ->
  A !! zombie_threads_table s = Some zl -> children t <> zombie_threads_table s ->
  A !! children t = Some (l ++ [x]) -> qs_nodes (sc_q s) !! x = Some n -> n_data n = d ->
  d <> active_thread c -> sc_threads s !! d = Some td -> joining_thread td = NULL ->
  sc_threads s !! init_thread s = Some ti ->
  thread_exit e k = Fault.
Proof.
  intros s c Hf Hl HR Hidle Hinit Ht Hnode Hns Hni Hz Hcz Hch Hn Hd Hda Htd Hj Hti.
  set (a := active_thread c) in *.
  set (s1 := setq s (sc_q s) (<[a := set_state THREAD_STATE_ZOMBIE t]> (sc_threads s)) (sc_cpus s)).
  assert (exit_mark e s = Ret (false, s1)) as Hm.
  { rewrite <- (setq_id s) at 1. unfold exit_mark. rewrite exec_get_cpu. fold c a.
    rewrite decide_False by done. rewrite (exec_upd_thread _ _ _ _ _ _ _ _ Ht), exec_gets.
    simpl. by rewrite bool_decide_false. }
  unfold thread_exit. rewrite (exec_lift _ _ _ _ _ Hm).
  apply bind_fault, critical_fault; [done..|]. apply bind_fault.
  unfold lift, zoom. simpl.
  assert (exit_to_zombie e s1 = Fault) as ->; [|done].
  destruct (q_push (sc_q s) A _ zl node HR Hz Hns Hni) as (Q1 & Hrun & HR1 & Hp1).
  unfold exit_to_zombie, s1. rewrite exec_get_cpu, exec_gets. fold c. simpl. rewrite Hnode.
  rewrite (exec_q _ _ _ _ _ _ _ _ Hrun), exec_check, exec_gets. apply bind_fault.
  assert (exists n', qs_nodes Q1 !! x = Some n' /\ n_data n' = d) as (n' & Hn' & Hd').
  { pose proof (same_payload_data _ _ Hp1 x) as H. rewrite Hn in H.
    destruct (qs_nodes Q1 !! x); simplify_eq/=. eauto. }
  eapply (inherit_unjoined e _ _ _ a); simpl; try done.
  - by rewrite lookup_insert_eq.
  - simpl. by rewrite lookup_insert_ne.
  - rewrite lookup_insert_ne by (subst d; congruence). exact Htd.
  - by rewrite lookup_insert_ne.
Qed.

(** [sched_sleep] puts the running thread to sleep until five milliseconds
    (one timer period) before the requested time; a request that would end
    less than five milliseconds after boot wraps around and sleeps for ever. *)
Theorem sched_sleep_correct s t ms :
  let c := sc_cpus s (cpu_id e) in
  active_thread c <> idle_thread c -> sc_threads s !! active_thread c = Some t ->
  0 <= uptime e < 2 ^ 64 - 2 ^ 32 -> 0 <= ms < 2 ^ 32 ->
  exists t', sched_sleep e ms s = Ret (Yielded OS_NO_ERR,
      setq s (sc_q s) (<[active_thread c := t']> (sc_threads s)) (sc_cpus s)) /\
    state t' = THREAD_STATE_SLEEPING /\
    (5 <= uptime e + ms -> wakeup_time t' = uptime e + ms - 5) /\
    (uptime e + ms < 5 -> forall now, now <= 2 ^ 64 - 5 -> ~ wakeup_time t' < now).
Proof.
  intros c Hne Ht Hu Hms.
  exists (set_state THREAD_STATE_SLEEPING
    (set_wakeup_time (u64 (uptime e + ms - 1000 / KERNEL_MAIN_TIMER_FREQ)) t)).
  split.
  { rewrite <- (setq_id s) at 1. unfold sched_sleep.
    rewrite exec_get_cpu. fold c. rewrite decide_False by done.
    rewrite (exec_upd_thread _ _ _ _ _ _ _ _ Ht).
    rewrite (exec_upd_thread _ _ _ _ _ _ _ (set_wakeup_time _ t)) by (by rewrite lookup_insert_eq).
    by rewrite insert_insert_eq. }
  split; [done|]. simpl. change (1000 / KERNEL_MAIN_TIMER_FREQ) with 5. split.
  - intros H. apply u64_small. lia.
  - intros H now Hnow. unfold u64.
    rewrite <- (Z.mod_add _ 1) by done. rewrite Z.mod_small by lia. lia.
Qed.

(** [get_threads_info] fills the first entries of the global table, but it
    reads the node after the last entry it fills: asked for all the threads,
    it goes through the null pointer at the end of the table. *)
Theorem get_threads_info_correct s A l size :
  qrep (sc_q s) A -> A !! global_threads_table s = Some l -> l <> [] ->
  (forall y, y ∈ l -> is_Some (sc_threads s !! thread_at (sc_q s) y)) ->
  0 <= thread_count s < 2 ^ 31 ->
  let n := Z.min size (thread_count s) in
  if decide (n < Z.of_nat (length l)) then
    get_threads_info e true (Some size) s = Ret (Some n,
      omap (fun y => thread_info_of e <$> (sc_threads s !! thread_at (sc_q s) y))
        (take (Z.to_nat n) l), OS_NO_ERR, s)
  else get_threads_info e true (Some size) s = Fault.
Proof.
  intros HR Hg Hne Hall Hc n. destruct l as [|x l]; [done|].
  destruct (qrep_lookup _ _ _ _ HR Hg) as (_ & q0 & Hq0 & Hh & _). simpl in Hh.
  destruct (q_member _ _ _ _ x HR Hg) as [_ [nx Hnx]]; [clear; set_solver|].
  pose proof (infos_run e s A _ (x :: l) (Z.to_nat n) [] x l (n_data nx) HR Hg eq_refl) as H.
  assert (n_data nx = thread_at (sc_q s) x) as Ex by (unfold thread_at; by rewrite Hnx).
  specialize (H ltac:(intros y Hy; destruct (Hall y Hy); eauto) Ex).
  unfold get_threads_info. rewrite exec_gets.
  assert (i32 (thread_count s) = thread_count s) as ->.
  { unfold i32. rewrite Z.mod_small by lia. lia. }
  assert ((if decide (size > thread_count s) then thread_count s else size) = n) as ->.
  { unfold n. destruct (decide (size > thread_count s)); lia. }
  rewrite exec_gets.
  assert (q (get_queue (global_threads_table s)) s = Ret (q0, s)) as Hgq.
  { unfold q, zoom, get_queue. rewrite Hq0. by destruct s. }
  rewrite (bind_ret _ _ _ _ _ Hgq), Hh. simpl.
  rewrite (bind_ret _ _ _ _ _ (node_data_run _ _ _ Hnx)).
  clearbody n. cbn [length] in *. destruct (decide (n < Z.of_nat (S (length l)))) as [Hlt|Hge].
  - rewrite decide_True in H by lia. by rewrite (bind_ret _ _ _ _ _ H).
  - rewrite decide_False in H by lia. by apply bind_fault.
Qed.
End Properties.

(** *** Witnesses *)
Definition free_locks (s : sched) : kstate sched :=
  mk_kstate s 1 (fun _ => SPINLOCK_INIT_VALUE).

(** The thread at 7000 waits for a semaphore. *)
Lemma sched_unlock_thread_correct_witness :
  exists k' Q', sched_unlock_thread demo_env 30 THREAD_WAIT_TYPE_SEM 1 (free_locks demo_sched) =
      Ret (Yielded OS_NO_ERR, k') /\
    qrep Q' (<[1009 := [30]]> demo_abs1).
Proof.
  destruct demo_nodes as (_ & _ & H3).
  destruct (qs_nodes demo_queues !! 30) as [n|] eqn:En; [|discriminate H3].
  injection H3 as Hd.
  destruct (sched_unlock_thread_correct demo_env (free_locks demo_sched) demo_abs1 30 n 7000
    (demo_thread THREAD_STATE_WAITING 9) [] THREAD_WAIT_TYPE_SEM 1
    (or_intror eq_refl) eq_refl demo_queues_rep En Hd)
    as (k' & Q' & Hrun & _ & _ & HR & _).
  - discriminate.
  - discriminate.
  - reflexivity.
  - vm_compute. split; congruence.
  - vm_compute. split; congruence.
  - apply demo_abs1_lookup; vm_compute; [split; congruence|congruence].
  - apply pushed_free. lia.
  - exists k', Q'. split; [exact Hrun|exact HR].
Defined.

(** The thread at 6000 runs; the one at 7000 is its child. *)
Definition parent_thread : kernel_thread :=
  set_children 1066 (demo_thread THREAD_STATE_RUNNING 5).

Definition parent_sched : sched :=
  mk_sched (pushed 30 1066)
    {[ 5000 := demo_thread THREAD_STATE_READY 63; 6000 := parent_thread;
       7000 := demo_thread THREAD_STATE_WAITING 9; 8000 := demo_thread THREAD_STATE_READY 0 ]}
    ∅ (fun _ => mk_cpu_sched 1 5000 10 6000 20 6000 20 7 0 1064) 3 3 8000 0
    (fun c p => 1000 + p) 1065 1067 SYSTEM_STATE_RUNNING 0 (fun _ => mk_handler 0 NULL) 77.

Lemma parent_node x d :
  n_data <$> qs_nodes fresh_queues !! x = Some d ->
  exists n, qs_nodes (pushed 30 1066) !! x = Some n /\ n_data n = d.
Proof.
  intros Hx. pose proof (proj2 (pushed_rep 30 1066 ltac:(lia) ltac:(by eexists))) as Hp.
  pose proof (same_payload_data fresh_queues (pushed 30 1066) Hp x) as H. rewrite Hx in H.
  destruct (qs_nodes (pushed 30 1066) !! x) as [n|]; [|discriminate H]. injection H as H. eauto.
Qed.

Lemma thread_exit_unjoined_child_faults_witness :
  is_fault (thread_exit demo_env (free_locks parent_sched)) = true.
Proof.
  destruct (parent_node 30 7000 eq_refl) as (n & Hn & Hd).
  destruct (parent_node 20 6000 eq_refl) as (n2 & Hn2 & _).
  rewrite (thread_exit_unjoined_child_faults demo_env (free_locks parent_sched)
    (<[1066 := [30]]> fresh_abs) parent_thread 20 [] [] 30 n 7000
    (demo_thread THREAD_STATE_WAITING 9) (demo_thread THREAD_STATE_READY 0)
    (or_intror eq_refl) eq_refl).
  - reflexivity.
  - apply pushed_rep; [lia|by eexists].
  - discriminate.
  - discriminate.
  - reflexivity.
  - reflexivity.
  - exists n2. exact Hn2.
  - apply pushed_free. lia.
  - change ((<[1066 := [30]]> fresh_abs) !! 1065 = Some []). apply pushed_lookup; lia.
  - discriminate.
  - change ((<[1066 := [30]]> fresh_abs) !! 1066 = Some ([] ++ [30])).
    rewrite lookup_insert_eq. reflexivity.
  - exact Hn.
  - exact Hd.
  - discriminate.
  - reflexivity.
  - reflexivity.
  - reflexivity.
Defined.

(** Asleep at 100 ms for 50 ms. *)
Lemma sched_sleep_correct_witness :
  exists t', result_of (sched_sleep demo_env 50 parent_sched) = Some (Yielded OS_NO_ERR) /\
    state t' = THREAD_STATE_SLEEPING /\ wakeup_time t' = 145.
Proof.
  destruct (sched_sleep_correct demo_env parent_sched parent_thread 50)
    as (t' & Hrun & Hst & Hw & _); [discriminate|reflexivity|simpl; lia|lia|].
  exists t'. rewrite Hrun. split; [reflexivity|]. split; [exact Hst|].
  rewrite Hw; [reflexivity|simpl; lia].
Defined.

(** One thread in the table: asking for none works, asking for it does not. *)
Definition info_sched : sched :=
  mk_sched (pushed 20 1067) {[ 6000 := parent_thread ]}
    ∅ (fun _ => demo_cpu) 3 1 6000 0 (fun c p => 1000 + p) 1065 1067 SYSTEM_STATE_RUNNING 0
    (fun _ => mk_handler 0 NULL) 77.

Lemma get_threads_info_correct_witness :
  is_fault (get_threads_info demo_env true (Some 1) info_sched) = true.
Proof.
  pose proof (pushed_rep 20 1067 ltac:(lia) ltac:(by eexists)) as [HR Hp].
  pose proof (get_threads_info_correct demo_env info_sched (<[1067 := [20]]> fresh_abs) [20] 1 HR)
    as H.
  destruct (decide (Z.min 1 (thread_count info_sched) < Z.of_nat (length [20]))) as [Hlt|Hge].
  - change (1 < 1) in Hlt. lia.
  - cbv zeta in H. rewrite decide_False in H by exact Hge.
    rewrite H; [reflexivity| |discriminate| |simpl; lia].
    + change ((<[1067 := [20]]> fresh_abs) !! 1067 = Some [20]). apply lookup_insert_eq.
    + intros y ->%list_elem_of_singleton.
      pose proof (same_payload_data fresh_queues (pushed 20 1067) Hp 20) as Hn.
      change (sc_q info_sched) with (pushed 20 1067). unfold thread_at. rewrite Hn.
      by eexists.
Defined.
