(* ===== verification/Semaphore.v ===== *)
(** * Semaphores ([sync/semaphore.c]) *)
From stdpp Require Import functions.
From S2P Require Import Prelude Alloc Critical KernelQueue Scheduler.

(** [struct semaphore]; [sem_level] is an [int32_t]. *)
Record semaphore : Type := mk_sem {
  sem_waiting : Z;
  sem_level : Z;
  sem_init_flag : Z;
}.

#[export] Instance semaphore_eq_dec : EqDecision semaphore.
Proof. solve_decision. Defined.

Definition zero_sem : semaphore := mk_sem NULL 0 0.
Definition set_sem_waiting (v : Z) (m : semaphore) : semaphore :=
  mk_sem v (sem_level m) (sem_init_flag m).
Definition set_sem_level (v : Z) (m : semaphore) : semaphore :=
  mk_sem (sem_waiting m) v (sem_init_flag m).
Definition set_sem_init (v : Z) (m : semaphore) : semaphore :=
  mk_sem (sem_waiting m) (sem_level m) v.

Section Ops.
Context {ops : AllocOps}.

Record sem_state : Type := mk_sem_state {
  ss_sched : sched;
  sems : gmap Z semaphore;
}.

Definition with_sched (s : sched) (t : sem_state) : sem_state := mk_sem_state s (sems t).
Definition with_sems (m : gmap Z semaphore) (t : sem_state) : sem_state :=
  mk_sem_state (ss_sched t) m.

(** Operations of the scheduler and of the kernel queues. *)
Definition ks {A} (m : M (kstate sched) A) : M (kstate sem_state) A := kzoom ss_sched with_sched m.
Definition on_sched {A} (m : M sched A) : M sem_state A := zoom ss_sched with_sched m.
Definition on_queues {A} (m : M qstore A) : M sem_state A := on_sched (q m).

Definition get_sem (p : Z) : M sem_state semaphore := fun s =>
  match sems s !! p with Some m => Ret (m, s) | None => Fault end.
Definition upd_sem (p : Z) (f : semaphore -> semaphore) : M sem_state unit := fun s =>
  match sems s !! p with
  | Some m => Ret (tt, with_sems (<[p := f m]> (sems s)) s)
  | None => Fault
  end.

Definition sem_check (err : OS_RETURN_E) : M sem_state unit :=
  if decide (err <> OS_NO_ERR) then kernel_panic err else ret tt.

Variable e : sched_env.

Definition sem_init (sem init_level : Z) : M (kstate sem_state) OS_RETURN_E :=
  if decide (sem = NULL) then ret OS_ERR_NULL_POINTER
  else
    lift (modify (fun s => with_sems (<[sem := zero_sem]> (sems s)) s)) >>>
    lift (upd_sem sem (set_sem_level init_level)) >>>
    INIT_SPINLOCK (ObjLock sem) >>>
    lift (let* (w, err) := on_queues kernel_queue_create_queue in
          upd_sem sem (set_sem_waiting w) >>>
          if decide (err <> OS_NO_ERR) then ret err
          else upd_sem sem (set_sem_init 1) >>> ret OS_NO_ERR).

(** The loop of [sem_destroy]: every waiting thread is made ready. *)
Fixpoint unlock_all (fuel : nat) (queue : Z) (kind : THREAD_WAIT_TYPE_E) :
  M (kstate sem_state) unit :=
  match fuel with
  | O => diverge
  | S fuel =>
      let* (node, err) := lift (on_queues (kernel_queue_pop queue)) in
      if decide (node <> NULL) then
        lift (sem_check err) >>>
        let* r := ks (sched_unlock_thread e node kind 0) in
        match r with
        | Done err => lift (sem_check err)
        | _ => ret tt
        end >>>
        unlock_all fuel queue kind
      else lift (sem_check err)
  end.

Definition sem_fuel (t : kstate sem_state) : nat := sched_fuel (ss_sched (core t)).

Definition sem_destroy (sem : Z) : M (kstate sem_state) OS_RETURN_E :=
  if decide (sem = NULL) then ret OS_ERR_NULL_POINTER
  else
    critical e (ObjLock sem) (
      let* m := lift (get_sem sem) in
      if decide (sem_init_flag m <> 1) then ret OS_ERR_SEM_UNINITIALIZED
      else
        lift (upd_sem sem (set_sem_init 0)) >>>
        let* fuel := gets sem_fuel in
        unlock_all fuel (sem_waiting m) THREAD_WAIT_TYPE_SEM >>>
        ret OS_NO_ERR).

(** One turn of [sem_pend]'s loop, from [ENTER_CRITICAL] to the next
    [EXIT_CRITICAL]: the unit is taken, the semaphore is gone, or the thread
    is queued and gives the CPU away. *)
Definition pend_turn (sem : Z) : M sem_state (step OS_RETURN_E) :=
  let* m := get_sem sem in
  if decide (sem_init_flag m <> 1) then ret (Done OS_ERR_SEM_UNINITIALIZED)
  else if decide (sem_level m < 1) then
    let* active_thread := on_sched (sched_lock_thread e THREAD_WAIT_TYPE_SEM) in
    if decide (active_thread = NULL) then kernel_panic OS_ERR_NULL_POINTER
    else
      let* err := on_queues (kernel_queue_push active_thread (sem_waiting m)) in
      sem_check err >>>
      ret Switched
  else
    upd_sem sem (set_sem_level (i32 (sem_level m - 1))) >>>
    ret (Done OS_NO_ERR).

Definition sem_pend (sem : Z) : M (kstate sem_state) (step OS_RETURN_E) :=
  if decide (sem = NULL) then ret (Done OS_ERR_NULL_POINTER)
  else critical e (ObjLock sem) (lift (pend_turn sem)).

(** After [sched_schedule] the loop turns again. *)
Definition sem_pend_resume (sem : Z) : M (kstate sem_state) (step OS_RETURN_E) :=
  critical e (ObjLock sem) (lift (pend_turn sem)).

(** The critical section of [sem_post]: the error that ends the function at
    once, or the node of the thread to wake up (null if none). *)
Definition post_section (sem : Z) : M sem_state (OS_RETURN_E + Z) :=
  let* m := get_sem sem in
  if decide (sem_init_flag m <> 1) then ret (inl OS_ERR_SEM_UNINITIALIZED)
  else
    upd_sem sem (set_sem_level (i32 (sem_level m + 1))) >>>
    if decide (i32 (sem_level m + 1) > 0) then
      let* (node, err) := on_queues (kernel_queue_pop (sem_waiting m)) in
      sem_check err >>>
      ret (inr node)
    else ret (inr NULL).

Definition sem_post (sem : Z) : M (kstate sem_state) (step OS_RETURN_E) :=
  if decide (sem = NULL) then ret (Done OS_ERR_NULL_POINTER)
  else
    let* r := critical e (ObjLock sem) (lift (post_section sem)) in
    match r with
    | inl err => ret (Done err)
    | inr node =>
        if decide (node = NULL) then ret (Done OS_NO_ERR)
        else
          let* flag := gets int_flag in
          let do_schedule := if decide (kernel_interrupt_get_state flag > 0) then 0 else 1 in
          let* r := ks (sched_unlock_thread e node THREAD_WAIT_TYPE_SEM do_schedule) in
          match r with
          | Done err => lift (sem_check err) >>> ret (Done OS_NO_ERR)
          | r => ret r
          end
    end.

(** [value] says whether the pointer is given; the first component of the
    result is what is stored through it. *)
Definition try_pend_section (sem : Z) : M sem_state (option Z * OS_RETURN_E) :=
  let* m := get_sem sem in
  if decide (sem_init_flag m <> 1) then ret (None, OS_ERR_SEM_UNINITIALIZED)
  else if decide (sem_level m < 1) then ret (Some (sem_level m), OS_SEM_LOCKED)
  else
    upd_sem sem (set_sem_level (i32 (sem_level m - 1))) >>>
    ret (Some (i32 (sem_level m - 1)), OS_NO_ERR).

Definition sem_try_pend (sem : Z) (value : bool) : M (kstate sem_state) (option Z * OS_RETURN_E) :=
  if decide (sem = NULL \/ value = false) then ret (None, OS_ERR_NULL_POINTER)
  else critical e (ObjLock sem) (lift (try_pend_section sem)).
End Ops.
