(* ===== verification/SemaphoreTheorems.v ===== *)
(** * The properties of the semaphores

    The level along traces of operations, and the runs that do not wait. *)
From stdpp Require Import functions.
From S2P Require Import Prelude Alloc Critical Interrupts KernelQueue KHeap KHeapSpec.
From S2P Require Import KHeapTheorems QueueTheorems Scheduler SchedulerSpec SchedulerTheorems.
From S2P Require Import SchedulerOps Semaphore.

(** ** What an execution does to the table of semaphores *)
Section Effects.
Context {ops : AllocOps} (e : sched_env).
Implicit Types (k : kstate sem_state).

(** A computation that leaves every semaphore as it is, when it returns. *)
Definition keeps_sems {A} (m : M (kstate sem_state) A) : Prop :=
  forall k a k', m k = Ret (a, k') -> sems (core k') = sems (core k).

Lemma keeps_ks {A} (m : M (kstate sched) A) : keeps_sems (ks m).
Proof.
  intros k a k'. unfold ks, kzoom, zoom. destruct (m _) as [[a1 k1]| | |]; [|done..].
  by intros [= _ <-].
Qed.

Lemma keeps_enter l : keeps_sems (ENTER_CRITICAL e l).
Proof.
  intros k a k'. unfold ENTER_CRITICAL. destruct (kernel_interrupt_disable _) as [x f].
  case_decide; [|by intros [= _ <-]]. destruct (_ && _); [done|by intros [= _ <-]].
Qed.

Lemma keeps_exit x l : keeps_sems (EXIT_CRITICAL e x l).
Proof. intros k a k'. unfold EXIT_CRITICAL. by intros [= _ <-]. Qed.

(** Inversion of a critical section around a pure part. *)
Lemma critical_lift_inv {A} l (m : M sem_state A) k a k' :
  critical e l (lift m) k = Ret (a, k') ->
  exists c1 c2, sems c1 = sems (core k) /\ m c1 = Ret (a, c2) /\ sems (core k') = sems c2.
Proof.
  unfold critical. intros H.
  apply bind_Ret_inv in H as (x & k1 & HE & H). apply bind_Ret_inv in H as (a1 & k2 & Hm & H).
  apply bind_Ret_inv in H as (u & k3 & HX & H). injection H as -> ->.
  unfold lift, zoom in Hm. destruct (m (core k1)) as [[a2 c2]| | |] eqn:E; [|done..].
  injection Hm as -> <-. exists (core k1), c2. split; [by apply (keeps_enter _ _ _ _ HE)|].
  split; [done|]. by rewrite (keeps_exit _ _ _ _ _ HX).
Qed.

Lemma on_sched_inv {A} (m : M sched A) c a c' :
  on_sched m c = Ret (a, c') -> sems c' = sems c.
Proof.
  unfold on_sched, zoom. destruct (m _) as [[a1 k1]| | |]; [|done..]. by intros [= _ <-].
Qed.

Lemma upd_sem_inv p f c u c' :
  upd_sem p f c = Ret (u, c') ->
  exists m, sems c !! p = Some m /\ sems c' = <[p := f m]> (sems c).
Proof. unfold upd_sem. destruct (sems c !! p) as [m|]; [|done]. intros [= _ <-]. eauto. Qed.

Lemma get_sem_inv p c m c' : get_sem p c = Ret (m, c') -> sems c !! p = Some m /\ c' = c.
Proof. unfold get_sem. destruct (sems c !! p); [|done]. by intros [= -> ->]. Qed.

Lemma pend_turn_inv p c r c' :
  pend_turn e p c = Ret (r, c') ->
  exists m, sems c !! p = Some m /\
    (r = Done OS_ERR_SEM_UNINITIALIZED /\ sem_init_flag m <> 1 /\ sems c' = sems c \/
     r = Switched /\ sem_init_flag m = 1 /\ sem_level m < 1 /\ sems c' = sems c \/
     r = Done OS_NO_ERR /\ sem_init_flag m = 1 /\ 1 <= sem_level m /\
       sems c' = <[p := set_sem_level (i32 (sem_level m - 1)) m]> (sems c)).
Proof.
  unfold pend_turn. intros H. apply bind_Ret_inv in H as (m & c1 & [Hm ->]%get_sem_inv & H).
  exists m. split; [done|]. case_decide as Hi; [left; by injection H as <- <-|]. right.
  case_decide as Hl.
  - left. apply bind_Ret_inv in H as (a & c1 & H1%on_sched_inv & H).
    case_decide; [done|]. apply bind_Ret_inv in H as (err & c2 & H2%on_sched_inv & H).
    apply bind_Ret_inv in H as (u & c3 & H3 & H). injection H as <- <-.
    unfold sem_check in H3. case_decide; [done|]. injection H3 as _ <-.
    split_and!; try done. congruence.
  - right. apply bind_Ret_inv in H as (u & c1 & Hu & H). injection H as <- <-.
    apply upd_sem_inv in Hu as (m' & Hm' & Hs). assert (m' = m) as -> by congruence.
    split_and!; try done. lia.
Qed.

Lemma post_section_inv p c r c' :
  post_section p c = Ret (r, c') ->
  exists m, sems c !! p = Some m /\
    (r = inl OS_ERR_SEM_UNINITIALIZED /\ sem_init_flag m <> 1 /\ sems c' = sems c \/
     (exists node, r = inr node) /\ sem_init_flag m = 1 /\
       sems c' = <[p := set_sem_level (i32 (sem_level m + 1)) m]> (sems c)).
Proof.
  unfold post_section. intros H. apply bind_Ret_inv in H as (m & c1 & [Hm ->]%get_sem_inv & H).
  exists m. split; [done|]. case_decide as Hi; [left; by injection H as <- <-|]. right.
  apply bind_Ret_inv in H as (u & c1 & Hu & H).
  apply upd_sem_inv in Hu as (m' & Hm' & Hs). assert (m' = m) as -> by congruence.
  case_decide.
  - apply bind_Ret_inv in H as ([node err] & c2 & H2%on_sched_inv & H).
    apply bind_Ret_inv in H as (u2 & c3 & H3 & H). injection H as <- <-.
    unfold sem_check in H3. case_decide; [done|]. injection H3 as _ <-.
    split; [eauto|]. split; [done|]. congruence.
  - injection H as <- <-. eauto.
Qed.

(** ** Operations on one semaphore, in any state of the kernel *)
Inductive event : Type := Acquired | Blocked | Posted | Elsewhere.

Inductive sem_op (p : Z) : kstate sem_state -> event -> kstate sem_state -> Prop :=
  | op_acquire k k' :
      sem_pend e p k = Ret (Done OS_NO_ERR, k') -> sem_op p k Acquired k'
  | op_acquire_resumed k k' :
      sem_pend_resume e p k = Ret (Done OS_NO_ERR, k') -> sem_op p k Acquired k'
  | op_try k k' v :
      sem_try_pend e p true k = Ret ((v, OS_NO_ERR), k') -> sem_op p k Acquired k'
  | op_block k k' :
      sem_pend e p k = Ret (Switched, k') -> sem_op p k Blocked k'
  | op_block_again k k' :
      sem_pend_resume e p k = Ret (Switched, k') -> sem_op p k Blocked k'
  | op_post k k' r :
      sem_post e p k = Ret (r, k') -> r = Done OS_NO_ERR \/ r = Yielded OS_NO_ERR ->
      sem_op p k Posted k'
  | op_elsewhere k k' :
      sems (core k') !! p = sems (core k) !! p -> sem_op p k Elsewhere k'.

Inductive sem_trace (p : Z) : kstate sem_state -> list event -> kstate sem_state -> Prop :=
  | trace_nil k : sem_trace p k [] k
  | trace_cons k ev k1 evs k' :
      sem_op p k ev k1 -> sem_trace p k1 evs k' -> sem_trace p k (ev :: evs) k'.

Definition count (ev : event) : Z :=
  match ev with Acquired => -1 | Posted => 1 | _ => 0 end.
Definition balance (evs : list event) : Z := foldr (fun ev n => count ev + n) 0 evs.
Definition posts (evs : list event) : Z :=
  foldr (fun ev n => (match ev with Posted => 1 | _ => 0 end) + n) 0 evs.

Lemma posts_nonneg evs : 0 <= posts evs.
Proof. induction evs as [|[]]; simpl; lia. Qed.

Lemma sem_op_level p k ev k' m :
  sem_op p k ev k' -> sems (core k) !! p = Some m -> 0 <= sem_level m ->
  sem_level m < 2 ^ 31 -> (ev = Posted -> sem_level m + 1 < 2 ^ 31) ->
  exists m', sems (core k') !! p = Some m' /\ sem_level m' = sem_level m + count ev /\
    0 <= sem_level m' /\ (ev = Acquired -> 1 <= sem_level m).
Proof.
  assert (forall r c c', pend_turn e p c = Ret (r, c') -> sems c !! p = Some m ->
    0 <= sem_level m -> sem_level m < 2 ^ 31 ->
    exists m', sems c' !! p = Some m' /\ 0 <= sem_level m' /\
      (r = Done OS_NO_ERR -> 1 <= sem_level m /\ sem_level m' = sem_level m - 1) /\
      (r = Switched -> sem_level m' = sem_level m)) as Hturn.
  { intros r c c' H Hm H0 Hmax.
    apply pend_turn_inv in H as (m1 & Hm1 & [(-> & _ & ->)|[(-> & _ & _ & ->)|(-> & _ & Hl & ->)]]);
      assert (m1 = m) as -> by congruence.
    - exists m. split_and!; done.
    - exists m. split_and!; done.
    - exists (set_sem_level (i32 (sem_level m - 1)) m). rewrite lookup_insert_eq. simpl.
      rewrite i32_small by lia. split_and!; [done|lia| |done]. intros _. split; [done|lia]. }
  intros Hop Hm H0 Hmax Hpost.
  destruct Hop as [k k' H|k k' H|k k' v H|k k' H|k k' H|k k' r H Hr|k k' H].
  - unfold sem_pend in H. case_decide; [done|].
    apply critical_lift_inv in H as (c1 & c2 & Hs1 & Ht & ->). rewrite <- Hs1 in Hm.
    destruct (Hturn _ _ _ Ht Hm H0 Hmax) as (m' & -> & ? & [? ?] & _); [done|].
    exists m'. simpl. split_and!; try done; lia.
  - apply critical_lift_inv in H as (c1 & c2 & Hs1 & Ht & ->). rewrite <- Hs1 in Hm.
    destruct (Hturn _ _ _ Ht Hm H0 Hmax) as (m' & -> & ? & [? ?] & _); [done|].
    exists m'. simpl. split_and!; try done; lia.
  - unfold sem_try_pend in H. case_decide; [done|].
    apply critical_lift_inv in H as (c1 & c2 & Hs1 & Ht & ->). rewrite <- Hs1 in Hm.
    unfold try_pend_section in Ht.
    apply bind_Ret_inv in Ht as (m1 & c3 & [Hm1 ->]%get_sem_inv & Ht).
    assert (m1 = m) as -> by congruence.
    case_decide; [done|]. case_decide; [done|].
    apply bind_Ret_inv in Ht as (u & c3 & Hu & Ht). injection Ht as _ <-.
    apply upd_sem_inv in Hu as (m1 & Hm2 & ->). assert (m1 = m) as -> by congruence.
    exists (set_sem_level (i32 (sem_level m - 1)) m). rewrite lookup_insert_eq. simpl.
    rewrite i32_small by lia. split_and!; [done|lia|lia|lia].
  - unfold sem_pend in H. case_decide; [done|].
    apply critical_lift_inv in H as (c1 & c2 & Hs1 & Ht & ->). rewrite <- Hs1 in Hm.
    destruct (Hturn _ _ _ Ht Hm H0 Hmax) as (m' & -> & ? & _ & Hl). exists m'. simpl.
    rewrite Hl by done. split_and!; try done; lia.
  - apply critical_lift_inv in H as (c1 & c2 & Hs1 & Ht & ->). rewrite <- Hs1 in Hm.
    destruct (Hturn _ _ _ Ht Hm H0 Hmax) as (m' & -> & ? & _ & Hl). exists m'. simpl.
    rewrite Hl by done. split_and!; try done; lia.
  - specialize (Hpost eq_refl). unfold sem_post in H. case_decide; [injection H as <- _; by destruct Hr|].
    apply bind_Ret_inv in H as (res & k1 & Hc & H).
    apply critical_lift_inv in Hc as (c1 & c2 & Hs1 & Ht & Hs2). rewrite <- Hs1 in Hm.
    apply post_section_inv in Ht as (m1 & Hm1 & [(-> & _ & _)|([node ->] & _ & Hs3)]).
    { injection H as <- _. by destruct Hr. }
    assert (m1 = m) as -> by congruence.
    assert (sems (core k') = sems (core k1)) as Hk.
    { case_decide; [by injection H as _ <-|]. rewrite exec_gets in H.
      apply bind_Ret_inv in H as (r2 & k2 & Hu & H).
      rewrite <- (keeps_ks _ _ _ _ Hu).
      destruct r2; [|by injection H as _ <-|by injection H as _ <-].
      apply bind_Ret_inv in H as (u & k3 & Hl & H). injection H as _ <-.
      unfold lift, zoom, sem_check in Hl. case_decide; [done|]. by injection Hl as _ <-. }
    exists (set_sem_level (i32 (sem_level m + 1)) m).
    rewrite Hk, Hs2, Hs3, lookup_insert_eq. simpl. rewrite i32_small by lia.
    split_and!; [done|lia|lia|done].
  - exists m. rewrite H. simpl. split_and!; try done; lia.
Qed.
End Effects.

(** ** Uncontended runs *)
Section Runs.
Context {ops : AllocOps} (e : sched_env).
Implicit Types (t : kstate sem_state).

(** The semaphore [p] is initialised with [n] units, and nobody waits. *)
Definition sem_holds (s : sem_state) (p n : Z) : Prop :=
  exists m, sems s !! p = Some m /\ sem_init_flag m = 1 /\ sem_level m = n /\
    exists A, qrep (sc_q (ss_sched s)) A /\ A !! sem_waiting m = Some [].

(** Another semaphore does not matter. *)
Lemma sem_holds_insert s p p' n m :
  p <> p' -> sem_holds s p n -> sem_holds (with_sems (<[p' := m]> (sems s)) s) p n.
Proof.
  intros Hp (m0 & ? & ?). exists m0. split; [|done]. simpl. by rewrite lookup_insert_ne.
Qed.

Lemma sem_holds_level s p n n' m :
  sem_holds s p n -> sems s !! p = Some m ->
  sem_holds (with_sems (<[p := set_sem_level n' m]> (sems s)) s) p n'.
Proof.
  intros (m0 & Hm & Hi & _ & HA) Hm'. assert (m0 = m) as -> by congruence.
  exists (set_sem_level n' m). simpl. rewrite lookup_insert_eq. done.
Qed.

(** A run of an operation on one semaphore that changes its level. *)
Definition levels t p n' t' : Prop :=
  exists m, core t' = with_sems (<[p := m]> (sems (core t))) (core t) /\
    sem_holds (core t') p n' /\ same_locks t t'.

Lemma sem_pend_run t p n :
  flag_ok t -> lock_free (ObjLock p) t -> p <> NULL -> sem_holds (core t) p n ->
  1 <= n < 2 ^ 31 ->
  exists t', sem_pend e p t = Ret (Done OS_NO_ERR, t') /\ levels t p (n - 1) t'.
Proof.
  intros Hf Hl Hp H Hn. pose proof H as (m & Hm & Hi & Hlev & _).
  assert (pend_turn e p (core t) = Ret (Done OS_NO_ERR,
    with_sems (<[p := set_sem_level (n - 1) m]> (sems (core t))) (core t))) as Hrun.
  { unfold pend_turn, get_sem, bind at 1. rewrite Hm. rewrite decide_False by lia.
    rewrite decide_False by lia. unfold bind, upd_sem. rewrite Hm, Hlev.
    by rewrite i32_small by lia. }
  destruct (critical_lift e (ObjLock p) _ t _ _ Hf Hl Hrun) as (t' & Ht & Hc & Hs).
  exists t'. unfold sem_pend. rewrite decide_False by done. split; [done|].
  exists (set_sem_level (n - 1) m). rewrite Hc. split_and!; [done| |done].
  by eapply sem_holds_level.
Qed.

Lemma sem_post_run t p n :
  flag_ok t -> lock_free (ObjLock p) t -> p <> NULL -> sem_holds (core t) p n ->
  0 <= n -> n + 1 < 2 ^ 31 ->
  exists t', sem_post e p t = Ret (Done OS_NO_ERR, t') /\ levels t p (n + 1) t'.
Proof.
  intros Hf Hl Hp H Hn0 Hn. pose proof H as (m & Hm & Hi & Hlev & A & HR & Hw).
  set (s1 := with_sems (<[p := set_sem_level (n + 1) m]> (sems (core t))) (core t)).
  assert (post_section p (core t) = Ret (inr NULL, s1)) as Hrun.
  { unfold post_section, get_sem, bind at 1. rewrite Hm. rewrite decide_False by lia.
    rewrite (bind_ret _ _ _ tt s1); [|unfold upd_sem; rewrite Hm, Hlev; by rewrite i32_small by lia].
    rewrite Hlev, i32_small by lia. rewrite decide_True by lia.
    rewrite (bind_ret _ _ _ (NULL, OS_NO_ERR) s1); [done|].
    unfold on_queues, on_sched, q, zoom. simpl. rewrite (pop_empty _ _ _ HR Hw).
    unfold s1, with_sched, with_sems. simpl. by destruct (ss_sched (core t)). }
  destruct (critical_lift e (ObjLock p) _ t _ _ Hf Hl Hrun) as (t' & Ht & Hc & Hs).
  exists t'. unfold sem_post. rewrite decide_False by done.
  rewrite (bind_ret _ _ _ _ _ Ht). rewrite decide_True by done. split; [done|].
  exists (set_sem_level (n + 1) m). rewrite Hc. split_and!; [done| |done].
  by eapply sem_holds_level.
Qed.
(** *** Creation and destruction *)

(** A queue created by [sem_init]. *)
Lemma on_queues_run {A} (m : M qstore A) (c : sem_state) a Q :
  m (sc_q (ss_sched c)) = Ret (a, Q) ->
  on_queues m c = Ret (a, with_sched (with_q Q (ss_sched c)) c).
Proof. intros H. unfold on_queues, on_sched, q, zoom. by rewrite H. Qed.

Lemma upd_sem_run p f (c : sem_state) m :
  sems c !! p = Some m -> upd_sem p f c = Ret (tt, with_sems (<[p := f m]> (sems c)) c).
Proof. intros H. unfold upd_sem. by rewrite H. Qed.

(** The semaphore once its lock is ready, before its queue is created. *)
Definition cleared t p n : kstate sem_state :=
  mk_kstate (with_sems (<[p := mk_sem NULL n 0]> (sems (core t))) (core t)) (int_flag t)
    (<[ObjLock p := SPINLOCK_INIT_VALUE]> (locks t)).

Lemma sem_init_prefix t p n :
  p <> NULL ->
  sem_init p n t = lift (
    let* (w, err) := on_queues kernel_queue_create_queue in
    upd_sem p (set_sem_waiting w) >>>
    if decide (err <> OS_NO_ERR) then ret err
    else upd_sem p (set_sem_init 1) >>> ret OS_NO_ERR) (cleared t p n).
Proof.
  intros Hp. unfold sem_init. rewrite decide_False by done.
  rewrite (exec_lift _ _ _ tt (with_sems (<[p := zero_sem]> (sems (core t))) (core t))) by done.
  erewrite exec_lift by (apply upd_sem_run; apply lookup_insert_eq).
  unfold with_sems, cleared. simpl. by rewrite insert_insert_eq.
Qed.

(** The creation fails exactly when the heap has no room for the queue. *)
Definition sem_heap (c : sem_state) : heap := qs_heap (sc_q (ss_sched c)).

Definition queue_room (h : heap) : OS_RETURN_E :=
  if decide ((kmalloc sizeof_kernel_queue h).1 = NULL) then OS_ERR_MALLOC else OS_NO_ERR.

Lemma sem_init_heap t p n err t' : p <> NULL -> sem_init p n t = Ret (err, t') ->
  err = queue_room (sem_heap (core t)) /\ sem_heap (core t') = (kmalloc sizeof_kernel_queue (sem_heap (core t))).2.
Proof.
  intros Hp. rewrite sem_init_prefix by done. set (c := core (cleared t p n)).
  assert (sems c !! p = Some (mk_sem NULL n 0)) as Hm by apply lookup_insert_eq.
  change (sem_heap (core t)) with (qs_heap (sc_q (ss_sched c))). unfold queue_room.
  destruct (kmalloc sizeof_kernel_queue (qs_heap (sc_q (ss_sched c)))) as [w h] eqn:Hk. cbn [fst snd].
  assert (q_kmalloc sizeof_kernel_queue (sc_q (ss_sched c)) = Ret (w, with_heap h (sc_q (ss_sched c)))) as Hq
    by (unfold q_kmalloc; by rewrite Hk).
  destruct (decide (w = NULL)) as [Hw|Hw].
  - assert (kernel_queue_create_queue (sc_q (ss_sched c)) = Ret ((NULL, OS_ERR_MALLOC), with_heap h (sc_q (ss_sched c))))
      as Hc by (unfold kernel_queue_create_queue; by rewrite (bind_ret _ _ _ _ _ Hq), decide_True).
    erewrite lift_run; [|fold c; rewrite (bind_ret _ _ _ _ _ (on_queues_run _ c _ _ Hc));
      erewrite bind_ret by (apply upd_sem_run; exact Hm); reflexivity].
    by intros [= <- <-].
  - assert (exists Q, kernel_queue_create_queue (sc_q (ss_sched c)) = Ret ((w, OS_NO_ERR), Q) /\ qs_heap Q = h)
      as (Q & Hc & HQ).
    { unfold kernel_queue_create_queue. rewrite (bind_ret _ _ _ _ _ Hq), decide_False by done. by eexists. }
    erewrite lift_run; [|fold c; rewrite (bind_ret _ _ _ _ _ (on_queues_run _ c _ _ Hc));
      erewrite bind_ret by (apply upd_sem_run; exact Hm); rewrite decide_False by tauto;
      erewrite bind_ret by (apply upd_sem_run; apply lookup_insert_eq); reflexivity].
    by intros [= <- <-].
Qed.

Lemma sem_init_run `{!AllocSpec ops} t p n A L :
  p <> NULL -> qrep (sc_q (ss_sched (core t))) A -> qheap (sc_q (ss_sched (core t))) L ->
  sem_init p n t = Ret (OS_ERR_MALLOC, cleared t p n) \/
  exists w m Q, sem_init p n t = Ret (OS_NO_ERR,
      mk_kstate (mk_sem_state (with_q Q (ss_sched (core t))) (<[p := mk_sem w n 1]> (sems (core t))))
        (int_flag t) (<[ObjLock p := SPINLOCK_INIT_VALUE]> (locks t))) /\
    A !! w = None /\ qrep Q (<[w := []]> A) /\ qheap Q (<[w := m]> L).
Proof.
  intros Hp HR HH. rewrite sem_init_prefix by done. set (c := core (cleared t p n)).
  assert (sems c !! p = Some (mk_sem NULL n 0)) as Hm by apply lookup_insert_eq.
  destruct (create_queue_spec (sc_q (ss_sched c)) A L HR HH)
    as [Hc|(w & m & Q & Hc & _ & _ & Hw & _ & _ & HR' & HH')].
  - left. rewrite (lift_run _ (cleared t p n) OS_ERR_MALLOC c); [done|]. fold c.
    rewrite (bind_ret _ _ _ _ _ (on_queues_run _ c _ _ Hc)).
    erewrite bind_ret by (apply upd_sem_run; exact Hm). unfold ret, with_sched, with_sems. simpl.
    rewrite insert_insert_eq. unfold c, cleared, with_sems. simpl. by destruct (ss_sched (core t)).
  - right. exists w, m, Q. split; [|done].
    rewrite (lift_run _ (cleared t p n) OS_NO_ERR
      (mk_sem_state (with_q Q (ss_sched (core t))) (<[p := mk_sem w n 1]> (sems (core t))))); [done|].
    fold c. rewrite (bind_ret _ _ _ _ _ (on_queues_run _ c _ _ Hc)).
    erewrite bind_ret by (apply upd_sem_run; exact Hm). rewrite decide_False by tauto.
    erewrite bind_ret by (apply upd_sem_run; apply lookup_insert_eq).
    unfold ret, with_sched, with_sems. simpl. unfold c, cleared, with_sems. simpl.
    by rewrite !insert_insert_eq.
Qed.

(** Nobody waits: the semaphore is only marked. *)
Lemma sem_destroy_run t p n :
  flag_ok t -> lock_free (ObjLock p) t -> p <> NULL -> sem_holds (core t) p n ->
  exists t' m, sem_destroy e p t = Ret (OS_NO_ERR, t') /\
    core t' = with_sems (<[p := m]> (sems (core t))) (core t) /\ same_locks t t'.
Proof.
  intros Hf Hl Hp (m & Hm & Hi & _ & A & HR & Hw).
  set (c1 := with_sems (<[p := set_sem_init 0 m]> (sems (core t))) (core t)).
  unfold sem_destroy. rewrite decide_False by done.
  destruct (critical_run e (ObjLock p) (
      let* m := lift (get_sem p) in
      if decide (sem_init_flag m <> 1) then ret OS_ERR_SEM_UNINITIALIZED
      else
        lift (upd_sem p (set_sem_init 0)) >>>
        let* fuel := gets sem_fuel in
        unlock_all e fuel (sem_waiting m) THREAD_WAIT_TYPE_SEM >>>
        ret OS_NO_ERR) t OS_NO_ERR c1 Hf Hl) as (t' & Hrun & Hc & Hs).
  - rewrite (exec_lift_read _ _ _ m) by (unfold get_sem; simpl; by rewrite Hm).
    rewrite decide_False by tauto.
    erewrite exec_lift by (apply upd_sem_run; exact Hm).
    rewrite exec_gets. unfold sem_fuel, sched_fuel, walk_fuel. cbn [unlock_all].
    rewrite bind_assoc.
    erewrite exec_lift by (apply on_queues_run; apply (pop_empty _ _ _ HR Hw)).
    cbv beta iota. rewrite decide_False by tauto. unfold c1, with_sched, with_sems. simpl.
    by destruct (ss_sched (core t)).
  - exists t', (set_sem_init 0 m). by rewrite Hrun, Hc.
Qed.
End Runs.

(** ** Properties *)

(** C16: a semaphore never gives out more units than it has.  Along any
    sequence of pends, posts and other kernel activity, its level is the
    initial level plus the posts less the successful pends, and it never goes
    below zero: the successful pends are at most the initial level plus the
    posts.  The initial level plus the posts is to be below 2^31, the range of
    the level. *)
Theorem sem_level_counts {ops : AllocOps} e p evs k k' m :
  sem_trace e p k evs k' -> sems (core k) !! p = Some m -> 0 <= sem_level m ->
  sem_level m + posts evs < 2 ^ 31 ->
  exists m', sems (core k') !! p = Some m' /\ sem_level m' = sem_level m + balance evs /\
    0 <= sem_level m + balance evs.
Proof.
  intros Ht. revert m. induction Ht as [k|k ev k1 evs k' Hop Ht IH]; intros m Hm H0 Hmax.
  - exists m. simpl. split_and!; [done|lia|lia].
  - simpl in Hmax. pose proof (posts_nonneg evs).
    destruct (sem_op_level e p k ev k1 m Hop Hm H0) as (m1 & Hm1 & Hl1 & H01 & _);
      [destruct ev; lia|intros ->; lia|].
    destruct (IH m1 Hm1 H01) as (m' & Hm' & Hl' & H0'); [destruct ev; simpl in *; lia|].
    exists m'. simpl. split_and!; [done|lia|lia].
Qed.

(** *** Witnesses *)

(** One unit, and a running thread that may block. *)
Definition demo_sem_state : kstate sem_state :=
  mk_kstate (mk_sem_state parent_sched {[ 4000 := mk_sem 1069 1 1 ]}) 1
    (fun _ => SPINLOCK_INIT_VALUE).

Definition demo_k1 : kstate sem_state := after (sem_pend demo_env 4000) demo_sem_state.
Definition demo_k2 : kstate sem_state := after (sem_pend demo_env 4000) demo_k1.
Definition demo_k3 : kstate sem_state := after (sem_post demo_env 4000) demo_k2.
Definition demo_k4 : kstate sem_state := after (sem_pend_resume demo_env 4000) demo_k3.

Lemma demo_results :
  result_of (sem_pend demo_env 4000 demo_sem_state) = Some (Done OS_NO_ERR) /\
  result_of (sem_pend demo_env 4000 demo_k1) = Some Switched /\
  result_of (sem_post demo_env 4000 demo_k2) = Some (Done OS_NO_ERR) /\
  result_of (sem_pend_resume demo_env 4000 demo_k3) = Some (Done OS_NO_ERR).
Proof. vm_compute. repeat split. Qed.

(** A pend, a second one that blocks, a post that wakes the thread up, and the
    pend that goes on. *)
Lemma sem_level_counts_witness :
  exists m', sems (core demo_k4) !! 4000 = Some m' /\ sem_level m' = 0.
Proof.
  destruct demo_results as (R1 & R2 & R3 & R4).
  pose proof (op_acquire demo_env 4000 _ demo_k1 (after_result _ _ _ R1)) as O1.
  pose proof (op_block demo_env 4000 _ demo_k2 (after_result _ _ _ R2)) as O2.
  pose proof (op_post demo_env 4000 _ demo_k3 _ (after_result _ _ _ R3) (or_introl eq_refl)) as O3.
  pose proof (op_acquire_resumed demo_env 4000 _ demo_k4 (after_result _ _ _ R4)) as O4.
  destruct (sem_level_counts demo_env 4000 [Acquired; Blocked; Posted; Acquired]
    demo_sem_state demo_k4 (mk_sem 1069 1 1)) as (m' & Hm & Hl & _).
  - exact (trace_cons _ _ _ _ _ _ _ O1 (trace_cons _ _ _ _ _ _ _ O2
      (trace_cons _ _ _ _ _ _ _ O3 (trace_cons _ _ _ _ _ _ _ O4 (trace_nil _ _ _))))).
  - reflexivity.
  - discriminate.
  - reflexivity.
  - exists m'. split; [exact Hm|exact Hl].
Defined.
