(* ===== verification/SemClient.v ===== *)
(** * Components made of semaphores

    Mailboxes and message queues keep semaphores inside them: what the
    operations of a semaphore do to the state of such a component, for any
    component given by the access to its semaphores. *)
From stdpp Require Import functions.
From S2P Require Import Prelude Alloc Critical KernelQueue KHeap KHeapSpec KHeapTheorems.
From S2P Require Import QueueTheorems Scheduler SchedulerSpec SchedulerTheorems SchedulerOps.
From S2P Require Import Semaphore SemaphoreTheorems.

(** Where a component of state [S] keeps its semaphores. *)
Class HasSems {ops : AllocOps} (S : Type) : Type := {
  sems_of : S -> sem_state;
  put_sems : sem_state -> S -> S;
  sems_of_put c s : sems_of (put_sems c s) = c;
}.

(** The locks of an object and of its two semaphores once they are created. *)
Lemma object_locks (l0 l : lock_id -> spinlock) p a b :
  l0 (ObjLock p) = SPINLOCK_INIT_VALUE ->
  l = <[ObjLock b := SPINLOCK_INIT_VALUE]> (<[ObjLock a := SPINLOCK_INIT_VALUE]> l0) ->
  p <> a -> p <> b -> a <> b ->
  l (ObjLock p) = SPINLOCK_INIT_VALUE /\ l (ObjLock a) = SPINLOCK_INIT_VALUE /\
  l (ObjLock b) = SPINLOCK_INIT_VALUE.
Proof.
  intros H0 -> Ha Hb Hab. split_and!.
  - by rewrite !fn_lookup_insert_ne by congruence.
  - rewrite fn_lookup_insert_ne by congruence. by rewrite fn_lookup_insert.
  - by rewrite fn_lookup_insert.
Qed.

Section Client.
Context {ops : AllocOps} {S : Type} {HS : HasSems S} (e : sched_env).
Implicit Types (t : kstate S) (s : S) (p n : Z).

(** An operation on the semaphores, seen from the component. *)
Definition on_sems {A} (m : M (kstate sem_state) A) : M (kstate S) A := kzoom sems_of put_sems m.

Lemma on_sems_run {A} (m : M (kstate sem_state) A) t a (t' : kstate sem_state) :
  m (with_core (sems_of (core t)) t) = Ret (a, t') ->
  on_sems m t = Ret (a, mk_kstate (put_sems (core t') (core t)) (int_flag t') (locks t')).
Proof. intros H. unfold on_sems, kzoom, zoom. by rewrite H. Qed.

Lemma on_sems_inv {A} (m : M (kstate sem_state) A) t a t' :
  on_sems m t = Ret (a, t') -> exists c, core t' = put_sems c (core t).
Proof.
  unfold on_sems, kzoom, zoom. destruct (m _) as [[a1 k1]| | |]; [|done..].
  intros [= _ <-]. by exists (core k1).
Qed.

(** The level of one semaphore changes to [n'], and nothing else. *)
Definition sem_moved t p n' t' : Prop :=
  exists c, core t' = put_sems c (core t) /\ same_locks t t' /\ sem_holds c p n' /\
    (forall p' n, p' <> p -> sem_holds (sems_of (core t)) p' n -> sem_holds c p' n).

Lemma levels_moved t p n' (t1 : kstate sem_state) :
  levels (with_core (sems_of (core t)) t) p n' t1 ->
  sem_moved t p n' (mk_kstate (put_sems (core t1) (core t)) (int_flag t1) (locks t1)).
Proof.
  intros (m & Hc & Hh & Hs). exists (core t1). split_and!; [done|done|done|].
  intros p' n Hp H. rewrite Hc. by apply sem_holds_insert.
Qed.

Lemma client_pend t sem n :
  flag_ok t -> lock_free (ObjLock sem) t -> sem <> NULL ->
  sem_holds (sems_of (core t)) sem n -> 1 <= n < 2 ^ 31 ->
  exists t', on_sems (sem_pend e sem) t = Ret (Done OS_NO_ERR, t') /\ sem_moved t sem (n - 1) t'.
Proof.
  intros Hf Hl Hs Hh Hn.
  destruct (sem_pend_run e (with_core (sems_of (core t)) t) sem n) as (t1 & Hp & Hlv); [done..|].
  eexists. split; [by apply on_sems_run|by apply levels_moved].
Qed.

Lemma client_post t sem n :
  flag_ok t -> lock_free (ObjLock sem) t -> sem <> NULL ->
  sem_holds (sems_of (core t)) sem n -> 0 <= n -> n + 1 < 2 ^ 31 ->
  exists t', on_sems (sem_post e sem) t = Ret (Done OS_NO_ERR, t') /\ sem_moved t sem (n + 1) t'.
Proof.
  intros Hf Hl Hs Hh Hn0 Hn.
  destruct (sem_post_run e (with_core (sems_of (core t)) t) sem n) as (t1 & Hp & Hlv); [done..|].
  eexists. split; [by apply on_sems_run|by apply levels_moved].
Qed.

(** The end of a section on the object [p]: the state became [s'], a unit is
    given to [sem], then the section is left. *)
Lemma client_signal t p s' sem n :
  flag_ok t -> lock_free (ObjLock p) t -> lock_free (ObjLock sem) t -> p <> sem -> sem <> NULL ->
  sem_holds (sems_of s') sem n -> 0 <= n -> n + 1 < 2 ^ 31 ->
  exists t3 t4, on_sems (sem_post e sem) (with_core s' (inside e (ObjLock p) t)) =
      Ret (Done OS_NO_ERR, t3) /\
    EXIT_CRITICAL e (int_flag t) (ObjLock p) t3 = Ret (tt, t4) /\
    sem_moved (with_core s' t) sem (n + 1) t4.
Proof.
  intros Hf Hl Hls Hp Hs Hh Hn0 Hn.
  destruct (client_post (with_core s' (inside e (ObjLock p) t)) sem n)
    as (t3 & Hrun & c & Hc & Hsl & Hh' & Ho); [by left| |done..|].
  { apply (inside_free e (ObjLock p)); [congruence|exact Hls]. }
  destruct (exit_run e (ObjLock p) t t3 Hf Hl) as (t4 & Hx & Hc4 & Hs4).
  { destruct Hsl as [H1 H2]. split; [exact H1|exact H2]. }
  exists t3, t4. split; [done|]. split; [done|]. exists c. rewrite Hc4.
  split_and!; [done| |done|done]. destruct Hs4 as [H1 H2]. split; [exact H1|exact H2].
Qed.
(** *** Creation *)
Section Creation.
Context `{!AllocSpec ops}.

(** The semaphore [p] was created with [n] units; the others are as before. *)
Record created t p n t' : Prop := {
  cr_core : exists c, core t' = put_sems c (core t);
  cr_flag : int_flag t' = int_flag t;
  cr_locks : locks t' = <[ObjLock p := SPINLOCK_INIT_VALUE]> (locks t);
  cr_holds : sem_holds (sems_of (core t')) p n;
  cr_others p' k : p' <> p -> sem_holds (sems_of (core t)) p' k ->
    sem_holds (sems_of (core t')) p' k;
  cr_queues : exists A L, qrep (sc_q (ss_sched (sems_of (core t')))) A /\
    qheap (sc_q (ss_sched (sems_of (core t')))) L;
}.

(** The creation failed: nothing else is changed. *)
Record refused t p t' : Prop := {
  rf_core : exists m, core t' =
    put_sems (with_sems (<[p := m]> (sems (sems_of (core t)))) (sems_of (core t))) (core t);
  rf_flag : int_flag t' = int_flag t;
  rf_locks : locks t' = <[ObjLock p := SPINLOCK_INIT_VALUE]> (locks t);
}.

Lemma client_init t p n A L :
  p <> NULL -> qrep (sc_q (ss_sched (sems_of (core t)))) A ->
  qheap (sc_q (ss_sched (sems_of (core t)))) L ->
  (exists t', on_sems (sem_init p n) t = Ret (OS_ERR_MALLOC, t') /\ refused t p t') \/
  (exists t', on_sems (sem_init p n) t = Ret (OS_NO_ERR, t') /\ created t p n t').
Proof.
  intros Hp HR HH. set (t0 := with_core (sems_of (core t)) t : kstate sem_state).
  destruct (sem_init_run t0 p n A L Hp HR HH) as [Hrun|(w & m & Q & Hrun & Hw & HR' & HH')].
  - left. eexists. split; [exact (on_sems_run _ t _ _ Hrun)|]. split; [|done|done]. by eexists.
  - right. eexists. split; [exact (on_sems_run _ t _ _ Hrun)|]. split; simpl; try rewrite sems_of_put.
    + by eexists.
    + done.
    + done.
    + exists (mk_sem w n 1). split; [apply lookup_insert_eq|]. split; [done|]. split; [done|].
      exists (<[w := []]> A). split; [exact HR'|apply lookup_insert_eq].
    + intros p' k Hne (m0 & Hm0 & Hi0 & Hl0 & A0 & HR0 & Hw0).
      destruct (sem_init_run t0 p n A0 L Hp HR0 HH) as [Hr|(w1 & m1 & Q1 & Hr & Hf & HR1 & _)];
        rewrite Hrun in Hr; [discriminate Hr|]. injection Hr as HQ Hs.
      assert (w1 = w) as -> by (apply (f_equal (fun M => sem_waiting <$> M !! p)) in Hs;
        rewrite !lookup_insert_eq in Hs; simpl in Hs; congruence).
      subst Q1.
      exists m0. simpl. rewrite lookup_insert_ne by done. split; [done|]. split; [done|].
      split; [done|]. exists (<[w := []]> A0). split; [exact HR1|].
      rewrite lookup_insert_ne; [done|]. intros ->. congruence.
    + exists (<[w := []]> A), (<[w := m]> L). done.
Qed.

Lemma client_init_heap t p n err t' : p <> NULL -> on_sems (sem_init p n) t = Ret (err, t') ->
  err = queue_room (sem_heap (sems_of (core t))) /\
  sem_heap (sems_of (core t')) = (kmalloc sizeof_kernel_queue (sem_heap (sems_of (core t)))).2.
Proof.
  intros Hp. unfold on_sems, kzoom, zoom.
  destruct (sem_init p n _) as [[a1 k1]| | |] eqn:E; [|done..]. intros [= <- <-]. cbn. rewrite sems_of_put.
  exact (sem_init_heap _ p n _ _ Hp E).
Qed.

Lemma client_destroy t p n :
  flag_ok t -> lock_free (ObjLock p) t -> p <> NULL -> sem_holds (sems_of (core t)) p n ->
  exists t' m, on_sems (sem_destroy e p) t = Ret (OS_NO_ERR, t') /\
    core t' = put_sems (with_sems (<[p := m]> (sems (sems_of (core t)))) (sems_of (core t)))
                (core t) /\ same_locks t t'.
Proof.
  intros Hf Hl Hp Hh.
  destruct (sem_destroy_run e (with_core (sems_of (core t)) t) p n Hf Hl Hp Hh)
    as (t' & m & Hrun & Hc & Hs).
  eexists _, m. split; [exact (on_sems_run _ t _ _ Hrun)|]. simpl. rewrite Hc. split; [done|].
  destruct Hs as [H1 H2]. split; [exact H1|exact H2].
Qed.
End Creation.
End Client.
