(* ===== verification/Mutex.v ===== *)
(** * Mutexes ([sync/mutex.c]) *)
From stdpp Require Import functions.
From S2P Require Import Prelude Alloc Critical KernelQueue Scheduler.

Definition MUTEX_FLAG_RECURSIVE : Z := 1.
Definition MUTEX_PRIORITY_ELEVATION_NONE : Z := 65535.

(** [struct mutex] *)
Record mutex : Type := mk_mutex {
  mx_waiting : Z;
  mx_state : Z;
  mx_flags : Z;
  acquired_thread_priority : Z;
  locker_tid : Z;
  mx_init : Z;
}.

#[export] Instance mutex_eq_dec : EqDecision mutex.
Proof. solve_decision. Defined.

Definition zero_mutex : mutex := mk_mutex NULL 0 0 0 0 0.
Definition set_mx_waiting (v : Z) (m : mutex) : mutex :=
  mk_mutex v (mx_state m) (mx_flags m) (acquired_thread_priority m) (locker_tid m) (mx_init m).
Definition set_mx_state (v : Z) (m : mutex) : mutex :=
  mk_mutex (mx_waiting m) v (mx_flags m) (acquired_thread_priority m) (locker_tid m) (mx_init m).
Definition set_mx_flags (v : Z) (m : mutex) : mutex :=
  mk_mutex (mx_waiting m) (mx_state m) v (acquired_thread_priority m) (locker_tid m) (mx_init m).
Definition set_acquired_priority (v : Z) (m : mutex) : mutex :=
  mk_mutex (mx_waiting m) (mx_state m) (mx_flags m) v (locker_tid m) (mx_init m).
Definition set_locker_tid (v : Z) (m : mutex) : mutex :=
  mk_mutex (mx_waiting m) (mx_state m) (mx_flags m) (acquired_thread_priority m) v (mx_init m).
Definition set_mx_init (v : Z) (m : mutex) : mutex :=
  mk_mutex (mx_waiting m) (mx_state m) (mx_flags m) (acquired_thread_priority m) (locker_tid m) v.

Section Ops.
Context {ops : AllocOps}.

Record mutex_state : Type := mk_mutex_state {
  mu_sched : sched;
  mutexes : gmap Z mutex;
}.

Definition with_sched (s : sched) (t : mutex_state) : mutex_state := mk_mutex_state s (mutexes t).
Definition with_mutexes (m : gmap Z mutex) (t : mutex_state) : mutex_state :=
  mk_mutex_state (mu_sched t) m.

Definition ks {A} (m : M (kstate sched) A) : M (kstate mutex_state) A :=
  kzoom mu_sched with_sched m.
Definition on_sched {A} (m : M sched A) : M mutex_state A := zoom mu_sched with_sched m.
Definition on_queues {A} (m : M qstore A) : M mutex_state A := on_sched (q m).

Definition get_mutex (p : Z) : M mutex_state mutex := fun s =>
  match mutexes s !! p with Some m => Ret (m, s) | None => Fault end.
Definition upd_mutex (p : Z) (f : mutex -> mutex) : M mutex_state unit := fun s =>
  match mutexes s !! p with
  | Some m => Ret (tt, with_mutexes (<[p := f m]> (mutexes s)) s)
  | None => Fault
  end.

Definition mutex_check (err : OS_RETURN_E) : M mutex_state unit :=
  if decide (err <> OS_NO_ERR) then kernel_panic err else ret tt.

Variable e : sched_env.

(** [prio] is a [uint16_t], promoted to [int] by the shift. *)
Definition mutex_init (mutex flags prio : Z) : M (kstate mutex_state) OS_RETURN_E :=
  if decide (mutex = NULL) then ret OS_ERR_NULL_POINTER
  else if decide (prio > KERNEL_LOWEST_PRIORITY /\ prio <> MUTEX_PRIORITY_ELEVATION_NONE)
  then ret OS_ERR_FORBIDEN_PRIORITY
  else
    lift (modify (fun s => with_mutexes (<[mutex := zero_mutex]> (mutexes s)) s)) >>>
    lift (upd_mutex mutex (set_mx_state 1)) >>>
    lift (upd_mutex mutex (set_mx_flags (Z.lor flags (Z.shiftl prio 8)))) >>>
    INIT_SPINLOCK (ObjLock mutex) >>>
    lift (let* (w, err) := on_queues kernel_queue_create_queue in
          upd_mutex mutex (set_mx_waiting w) >>>
          if decide (err <> OS_NO_ERR) then ret err
          else upd_mutex mutex (set_mx_init 1) >>> ret OS_NO_ERR).

Fixpoint unlock_all (fuel : nat) (queue : Z) : M (kstate mutex_state) unit :=
  match fuel with
  | O => diverge
  | S fuel =>
      let* (node, err) := lift (on_queues (kernel_queue_pop queue)) in
      if decide (node <> NULL) then
        lift (mutex_check err) >>>
        let* r := ks (sched_unlock_thread e node THREAD_WAIT_TYPE_MUTEX 0) in
        match r with
        | Done err => lift (mutex_check err)
        | _ => ret tt
        end >>>
        unlock_all fuel queue
      else lift (mutex_check err)
  end.

Definition mutex_destroy (mutex : Z) : M (kstate mutex_state) OS_RETURN_E :=
  if decide (mutex = NULL) then ret OS_ERR_NULL_POINTER
  else
    critical e (ObjLock mutex) (
      let* m := lift (get_mutex mutex) in
      if decide (mx_init m <> 1) then ret OS_ERR_MUTEX_UNINITIALIZED
      else
        let* fuel := gets (fun t => sched_fuel (mu_sched (core t))) in
        unlock_all fuel (mx_waiting m) >>>
        lift (let* (w, _) := on_queues (kernel_queue_delete_queue (mx_waiting m)) in
              upd_mutex mutex (set_mx_waiting w)) >>>
        lift (upd_mutex mutex (set_mx_init 0)) >>>
        ret OS_NO_ERR).

(** The priority field of the flags. *)
Definition elevation (flags : Z) : Z :=
  Z.land (Z.shiftr flags 8) MUTEX_PRIORITY_ELEVATION_NONE.

(** From the end of the waiting loop: the mutex is taken. *)
Definition acquire (mutex : Z) : M mutex_state unit :=
  upd_mutex mutex (set_mx_state 0) >>>
  let* tid := on_sched (sched_get_tid e) in
  upd_mutex mutex (set_locker_tid tid) >>>
  let* m := get_mutex mutex in
  let prio := elevation (mx_flags m) in
  if decide (prio <> MUTEX_PRIORITY_ELEVATION_NONE) then
    let* old := on_sched (sched_get_priority e) in
    upd_mutex mutex (set_acquired_priority old) >>>
    let* err := on_sched (sched_set_priority e (Z.shiftr prio 8)) in
    mutex_check err
  else ret tt.

(** One turn of [mutex_pend], between two switches. *)
Definition pend_turn (mutex : Z) : M mutex_state (step OS_RETURN_E) :=
  let* m := get_mutex mutex in
  if decide (mx_init m <> 1) then ret (Done OS_ERR_MUTEX_UNINITIALIZED)
  else
    let* mine :=
      if decide (mx_state m <> 1 /\ Z.land (mx_flags m) MUTEX_FLAG_RECURSIVE <> 0) then
        let* tid := on_sched (sched_get_tid e) in ret (bool_decide (tid = locker_tid m))
      else ret false in
    if decide (mx_state m <> 1 /\ mine = false) then
      let* active_thread := on_sched (sched_lock_thread e THREAD_WAIT_TYPE_MUTEX) in
      if decide (active_thread = NULL) then kernel_panic OS_ERR_NULL_POINTER
      else
        let* err := on_queues (kernel_queue_push active_thread (mx_waiting m)) in
        mutex_check err >>>
        ret Switched
    else acquire mutex >>> ret (Done OS_NO_ERR).

Definition mutex_pend (mutex : Z) : M (kstate mutex_state) (step OS_RETURN_E) :=
  if decide (mutex = NULL) then ret (Done OS_ERR_NULL_POINTER)
  else critical e (ObjLock mutex) (lift (pend_turn mutex)).

Definition mutex_pend_resume (mutex : Z) : M (kstate mutex_state) (step OS_RETURN_E) :=
  critical e (ObjLock mutex) (lift (pend_turn mutex)).

(** The critical section of [mutex_post]: the error that ends the function,
    or the node of the thread to wake up (null if none) with [do_sched]. *)
Definition post_section (mutex : Z) : M mutex_state (OS_RETURN_E + Z * Z) :=
  let* m := get_mutex mutex in
  if decide (mx_init m <> 1) then ret (inl OS_ERR_MUTEX_UNINITIALIZED)
  else
    upd_mutex mutex (set_mx_state 1) >>>
    let* do_sched :=
      if decide (elevation (mx_flags m) <> MUTEX_PRIORITY_ELEVATION_NONE) then
        let* err := on_sched (sched_set_priority e (acquired_thread_priority m)) in
        mutex_check err >>>
        upd_mutex mutex (set_acquired_priority KERNEL_LOWEST_PRIORITY) >>>
        ret 1
      else ret 0 in
    let* (node, err) := on_queues (kernel_queue_pop (mx_waiting m)) in
    mutex_check err >>>
    ret (inr (node, do_sched)).

Definition mutex_post (mutex : Z) : M (kstate mutex_state) (step OS_RETURN_E) :=
  if decide (mutex = NULL) then ret (Done OS_ERR_NULL_POINTER)
  else
    let* r := critical e (ObjLock mutex) (lift (post_section mutex)) in
    match r with
    | inl err => ret (Done err)
    | inr (node, do_sched) =>
        if decide (node <> NULL) then
          let* r := ks (sched_unlock_thread e node THREAD_WAIT_TYPE_MUTEX 1) in
          match r with
          | Done err => lift (mutex_check err) >>> ret (Done OS_NO_ERR)
          | r => ret r
          end
        else if decide (do_sched <> 0) then ret (Yielded OS_NO_ERR)
        else ret (Done OS_NO_ERR)
    end.

Definition try_pend_section (mutex : Z) : M mutex_state (option Z * OS_RETURN_E) :=
  let* m := get_mutex mutex in
  if decide (mx_init m <> 1) then ret (None, OS_ERR_MUTEX_UNINITIALIZED)
  else if decide (mx_state m <> 1) then ret (Some (mx_state m), OS_MUTEX_LOCKED)
  else upd_mutex mutex (set_mx_state 0) >>> ret (None, OS_NO_ERR).

Definition mutex_try_pend (mutex : Z) (value : bool) :
  M (kstate mutex_state) (option Z * OS_RETURN_E) :=
  if decide (mutex = NULL \/ value = false) then ret (None, OS_ERR_NULL_POINTER)
  else critical e (ObjLock mutex) (lift (try_pend_section mutex)).
End Ops.
