(* ===== verification/MutexTheorems.v ===== *)
(** * The properties of the mutexes

    Exclusion along traces, and what taking and releasing a mutex does to the
    priority of the thread. *)
From stdpp Require Import functions.
From S2P Require Import Prelude Alloc Critical KernelQueue KHeap KHeapSpec KHeapTheorems.
From S2P Require Import QueueTheorems Scheduler SchedulerSpec SchedulerTheorems SchedulerOps.
From S2P Require Import Mutex.

(** ** What an execution does to the table of mutexes *)
Section Effects.
Context {ops : AllocOps} (e : sched_env).
Implicit Types (k : kstate mutex_state).

Lemma critical_lift_mutexes {A} l (m : M mutex_state A) k a k' :
  critical e l (lift m) k = Ret (a, k') ->
  exists c1 c2, mutexes c1 = mutexes (core k) /\ m c1 = Ret (a, c2) /\
    mutexes (core k') = mutexes c2.
Proof.
  unfold critical. intros H.
  apply bind_Ret_inv in H as (x & k1 & HE & H). apply bind_Ret_inv in H as (a1 & k2 & Hm & H).
  apply bind_Ret_inv in H as (u & k3 & HX & H). injection H as -> ->.
  unfold lift, zoom in Hm. destruct (m (core k1)) as [[a2 c2]| | |] eqn:E; [|done..].
  injection Hm as -> <-. exists (core k1), c2. split_and!; [|done|].
  - revert HE. unfold ENTER_CRITICAL. destruct (kernel_interrupt_disable _).
    case_decide; [|by intros [= _ <-]]. destruct (_ && _); [done|by intros [= _ <-]].
  - unfold EXIT_CRITICAL in HX. by injection HX as _ <-.
Qed.

Lemma on_sched_mutexes {A} (m : M sched A) c a c' :
  on_sched m c = Ret (a, c') -> mutexes c' = mutexes c.
Proof.
  unfold on_sched, zoom. destruct (m _) as [[a1 k1]| | |]; [|done..]. by intros [= _ <-].
Qed.

Lemma ks_mutexes {A} (m : M (kstate sched) A) k a k' :
  ks m k = Ret (a, k') -> mutexes (core k') = mutexes (core k).
Proof.
  unfold ks, kzoom, zoom. destruct (m _) as [[a1 k1]| | |]; [|done..]. by intros [= _ <-].
Qed.

Lemma get_mutex_inv p c m c' : get_mutex p c = Ret (m, c') -> mutexes c !! p = Some m /\ c' = c.
Proof. unfold get_mutex. destruct (mutexes c !! p); [|done]. by intros [= -> ->]. Qed.

Lemma upd_mutex_inv p f c u c' :
  upd_mutex p f c = Ret (u, c') ->
  exists m, mutexes c !! p = Some m /\ mutexes c' = <[p := f m]> (mutexes c).
Proof. unfold upd_mutex. destruct (mutexes c !! p) as [m|]; [|done]. intros [= _ <-]. eauto. Qed.

Lemma mutex_check_inv err c u c' : mutex_check err c = Ret (u, c') -> c' = c.
Proof. unfold mutex_check. case_decide; [done|]. by intros [= _ ->]. Qed.

(** The mutex [p] is in state [v], and its flags are [f]. *)
Definition in_state (c : mutex_state) p (v f : Z) : Prop :=
  exists m, mutexes c !! p = Some m /\ mx_state m = v /\ mx_flags m = f.

Lemma in_state_eq c c' p v f : mutexes c' = mutexes c -> in_state c p v f -> in_state c' p v f.
Proof. intros H (m & ?). exists m. by rewrite H. Qed.

Lemma upd_in_state p g c u c' v f v' :
  upd_mutex p g c = Ret (u, c') -> in_state c p v f ->
  (forall m, mx_state m = v -> mx_state (g m) = v') -> (forall m, mx_flags (g m) = mx_flags m) ->
  in_state c' p v' f.
Proof.
  intros (m & Hm & Hc')%upd_mutex_inv (m' & Hm' & Hv & Hf) Hs Hg.
  assert (m' = m) as -> by congruence. exists (g m). rewrite Hc', lookup_insert_eq.
  split; [done|]. split; [by apply Hs|by rewrite Hg].
Qed.

Lemma acquire_inv p c u c' v f :
  Mutex.acquire e p c = Ret (u, c') -> in_state c p v f -> in_state c' p 0 f.
Proof.
  intros H Hin. unfold Mutex.acquire in H.
  apply bind_Ret_inv in H as (u1 & c1 & H1 & H). apply bind_Ret_inv in H as (t & c2 & H2 & H).
  apply bind_Ret_inv in H as (u3 & c3 & H3 & H).
  assert (in_state c3 p 0 f) as Hin3.
  { eapply upd_in_state; [exact H3| |by intros m Hm|done].
    eapply in_state_eq; [by apply (on_sched_mutexes _ _ _ _ H2)|].
    by eapply upd_in_state. }
  apply bind_Ret_inv in H as (m & c4 & [_ ->]%get_mutex_inv & H).
  case_decide; [|by injection H as _ <-].
  apply bind_Ret_inv in H as (o & c5 & H5%on_sched_mutexes & H).
  apply bind_Ret_inv in H as (u6 & c6 & H6 & H).
  apply bind_Ret_inv in H as (er & c7 & H7%on_sched_mutexes & ->%mutex_check_inv).
  eapply in_state_eq; [exact H7|]. eapply upd_in_state; [exact H6| |by intros|done].
  by eapply in_state_eq.
Qed.

(** A turn of [mutex_pend] on a mutex that is not recursive. *)
Lemma pend_turn_state p c r c' v f :
  Mutex.pend_turn e p c = Ret (r, c') -> in_state c p v f -> Z.land f MUTEX_FLAG_RECURSIVE = 0 ->
  (r = Done OS_NO_ERR -> v = 1 /\ in_state c' p 0 f) /\
  (r = Switched -> in_state c' p v f).
Proof.
  intros H Hin Hrec. pose proof Hin as (m & Hm & Hv & Hf). unfold Mutex.pend_turn in H.
  apply bind_Ret_inv in H as (m' & c1 & [Hm' ->]%get_mutex_inv & H).
  assert (m' = m) as -> by congruence.
  case_decide; [injection H as <- <-; by split|].
  rewrite decide_False in H by (rewrite Hf; tauto). rewrite bind_ret_l in H.
  destruct (decide (mx_state m <> 1 /\ false = false)) as [[Hs _]|Hs].
  - split; intros ->.
    + apply bind_Ret_inv in H as (a & c1 & H1 & H). case_decide; [done|].
      apply bind_Ret_inv in H as (er & c2 & Hpu & H).
      by apply bind_Ret_inv in H as (u & c3 & Hch & H).
    + apply bind_Ret_inv in H as (a & c1 & H1%on_sched_mutexes & H). case_decide; [done|].
      apply bind_Ret_inv in H as (er & c2 & Hpu%on_sched_mutexes & H).
      apply bind_Ret_inv in H as (u & c3 & ->%mutex_check_inv & H). injection H as <-.
      eapply in_state_eq; [|exact Hin]. congruence.
  - apply bind_Ret_inv in H as (u & c1 & H1 & H). injection H as <- <-. split; [|done].
    intros _. split; [|by eapply acquire_inv]. destruct (decide (mx_state m = 1)); [congruence|tauto].
Qed.

(** ** Operations on one mutex, in any state of the kernel *)
Inductive event : Type := Acquired | Blocked | Posted | Elsewhere.

#[export] Instance event_eq_dec : EqDecision event.
Proof. solve_decision. Defined.

Inductive mutex_op (p : Z) : kstate mutex_state -> event -> kstate mutex_state -> Prop :=
  | mop_acquire k k' :
      mutex_pend e p k = Ret (Done OS_NO_ERR, k') -> mutex_op p k Acquired k'
  | mop_acquire_resumed k k' :
      mutex_pend_resume e p k = Ret (Done OS_NO_ERR, k') -> mutex_op p k Acquired k'
  | mop_try k k' v :
      mutex_try_pend e p true k = Ret ((v, OS_NO_ERR), k') -> mutex_op p k Acquired k'
  | mop_block k k' : mutex_pend e p k = Ret (Switched, k') -> mutex_op p k Blocked k'
  | mop_block_again k k' :
      mutex_pend_resume e p k = Ret (Switched, k') -> mutex_op p k Blocked k'
  | mop_post k k' r : mutex_post e p k = Ret (r, k') -> mutex_op p k Posted k'
  | mop_elsewhere k k' :
      mutexes (core k') !! p = mutexes (core k) !! p -> mutex_op p k Elsewhere k'.

Inductive mutex_trace (p : Z) : kstate mutex_state -> list event -> kstate mutex_state -> Prop :=
  | mtrace_nil k : mutex_trace p k [] k
  | mtrace_cons k ev k1 evs k' :
      mutex_op p k ev k1 -> mutex_trace p k1 evs k' -> mutex_trace p k (ev :: evs) k'.

(** Everything but a post keeps the state of the mutex, or takes it. *)
Lemma mutex_op_state p k ev k' v f :
  mutex_op p k ev k' -> in_state (core k) p v f -> Z.land f MUTEX_FLAG_RECURSIVE = 0 ->
  match ev with
  | Acquired => v = 1 /\ in_state (core k') p 0 f
  | Blocked | Elsewhere => in_state (core k') p v f
  | Posted => True
  end.
Proof.
  intros Hop Hin Hrec.
  assert (forall r k k', critical e (ObjLock p) (lift (Mutex.pend_turn e p)) k = Ret (r, k') ->
    in_state (core k) p v f ->
    (r = Done OS_NO_ERR -> v = 1 /\ in_state (core k') p 0 f) /\
    (r = Switched -> in_state (core k') p v f)) as Hturn.
  { intros r k0 k0' (c1 & c2 & H1 & H2 & H3)%critical_lift_mutexes Hk.
    assert (in_state c1 p v f) as Hc1 by (by eapply in_state_eq).
    destruct (pend_turn_state _ _ _ _ _ _ H2 Hc1 Hrec) as [HA HB].
    split; intros E; [destruct (HA E) as [? ?]; split; [done|]|specialize (HB E)];
      by eapply in_state_eq. }
  destruct Hop as [k k' H|k k' H|k k' w H|k k' H|k k' H|k k' r H|k k' H]; [| | | | |done|].
  - unfold mutex_pend in H. case_decide; [done|]. by apply (Hturn _ _ _ H).
  - by apply (Hturn _ _ _ H).
  - unfold mutex_try_pend in H. case_decide; [done|].
    apply critical_lift_mutexes in H as (c1 & c2 & H1 & H2 & H3).
    assert (in_state c1 p v f) as Hc1 by (by eapply in_state_eq).
    pose proof Hc1 as (m & Hm & Hv & _). unfold Mutex.try_pend_section in H2.
    apply bind_Ret_inv in H2 as (m' & c3 & [Hm' ->]%get_mutex_inv & H2).
    assert (m' = m) as -> by congruence. case_decide; [done|].
    destruct (decide (mx_state m <> 1)) as [|Hs]; [done|].
    apply bind_Ret_inv in H2 as (u & c4 & H4 & H2). injection H2 as _ <-.
    split; [destruct (decide (mx_state m = 1)); [congruence|tauto]|].
    eapply in_state_eq; [exact H3|]. by eapply upd_in_state.
  - unfold mutex_pend in H. case_decide; [done|]. by apply (Hturn _ _ _ H).
  - by apply (Hturn _ _ _ H).
  - destruct Hin as (m & Hm & ?). exists m. by rewrite H.
Qed.

(** As long as nobody posts, a mutex that is taken stays so and cannot be
    acquired. *)
Lemma taken_until_post p k evs k' f :
  mutex_trace p k evs k' -> in_state (core k) p 0 f -> Z.land f MUTEX_FLAG_RECURSIVE = 0 ->
  Posted ∉ evs -> Acquired ∉ evs.
Proof.
  intros Ht. induction Ht as [k|k ev k1 evs k' Hop Ht IH]; intros Hin Hrec Hnp.
  { apply not_elem_of_nil. }
  apply not_elem_of_cons in Hnp as [Hne Hnp]. pose proof (mutex_op_state _ _ _ _ _ _ Hop Hin Hrec) as Hs.
  apply not_elem_of_cons. destruct ev; try done.
  - by destruct Hs as [[=] _].
  - split; [done|]. by apply IH.
  - split; [done|]. by apply IH.
Qed.
End Effects.

(** ** Taking and releasing a free mutex *)
Lemma elevation_init f prio :
  0 <= f < 256 -> 0 <= prio <= 65535 -> elevation (Z.lor f (Z.shiftl prio 8)) = prio.
Proof.
  intros Hf Hp. unfold elevation, MUTEX_PRIORITY_ELEVATION_NONE.
  change 65535 with (Z.ones 16). rewrite Z.land_ones, Z.shiftr_lor by lia.
  rewrite Z.shiftr_shiftl_l, Z.shiftl_0_r by lia.
  rewrite (Z.shiftr_div_pow2 f) by lia. change (2 ^ 8) with 256. rewrite Z.div_small by done.
  rewrite Z.lor_0_l. apply Z.mod_small. change (2 ^ 16) with 65536. lia.
Qed.

Section Priority.
Context {ops : AllocOps} (e : sched_env).
Implicit Types (c : mutex_state) (k : kstate mutex_state).

Lemma on_sched_run {A} (m : M sched A) c a s' :
  m (mu_sched c) = Ret (a, s') -> on_sched m c = Ret (a, with_sched s' c).
Proof. intros H. unfold on_sched, zoom. by rewrite H. Qed.

Lemma upd_mutex_run p f c m :
  mutexes c !! p = Some m ->
  upd_mutex p f c = Ret (tt, with_mutexes (<[p := f m]> (mutexes c)) c).
Proof. intros H. unfold upd_mutex. by rewrite H. Qed.

Lemma get_mutex_run p c m : mutexes c !! p = Some m -> get_mutex p c = Ret (m, c).
Proof. intros H. unfold get_mutex. by rewrite H. Qed.

(** The running thread. *)
Definition running c (a : Z) (th : kernel_thread) : Prop :=
  active_thread (sc_cpus (mu_sched c) (cpu_id e)) = a /\ sc_threads (mu_sched c) !! a = Some th.

Definition tid_of c (th : kernel_thread) : Z :=
  if decide (first_sched (sc_cpus (mu_sched c) (cpu_id e)) = 0) then 0 else tid th.

Definition threads_with c (T : gmap Z kernel_thread) : sched :=
  setq (mu_sched c) (sc_q (mu_sched c)) T (sc_cpus (mu_sched c)).

Lemma tid_run c a th : running c a th -> sched_get_tid e (mu_sched c) = Ret (tid_of c th, mu_sched c).
Proof.
  intros [Ha Ht]. unfold sched_get_tid, get_cpu, gets, bind at 1, tid_of. case_decide; [done|].
  by rewrite Ha, (bind_ret _ _ _ _ _ (get_thread_run _ _ _ Ht)).
Qed.

Lemma priority_run c a th :
  running c a th -> sched_get_priority e (mu_sched c) = Ret (priority th, mu_sched c).
Proof.
  intros [Ha Ht]. unfold sched_get_priority. rewrite <- (setq_id (mu_sched c)) at 1.
  rewrite exec_active, Ha, (exec_get_thread _ _ _ _ _ _ _ Ht). by rewrite setq_id.
Qed.

Lemma set_priority_run c a th prio :
  running c a th -> prio <= KERNEL_LOWEST_PRIORITY ->
  sched_set_priority e prio (mu_sched c) =
    Ret (OS_NO_ERR, threads_with c (<[a := set_thread_priority prio th]> (sc_threads (mu_sched c)))).
Proof.
  intros [Ha Ht] Hp. unfold sched_set_priority. rewrite decide_False by lia.
  rewrite <- (setq_id (mu_sched c)) at 1.
  rewrite exec_active, Ha. by rewrite (exec_upd_thread _ _ _ _ _ _ _ _ Ht).
Qed.

(** The mutex and the running thread once it is taken. *)
Definition taken (m : mutex) (th : kernel_thread) (id : Z) : mutex :=
  (if decide (elevation (mx_flags m) <> MUTEX_PRIORITY_ELEVATION_NONE)
   then set_acquired_priority (priority th) else (fun m => m)) (set_locker_tid id (set_mx_state 0 m)).
Definition elevated (m : mutex) (th : kernel_thread) : kernel_thread :=
  if decide (elevation (mx_flags m) <> MUTEX_PRIORITY_ELEVATION_NONE)
  then set_thread_priority (Z.shiftr (elevation (mx_flags m)) 8) th else th.

Lemma mutex_acquire_run p c a th m :
  mutexes c !! p = Some m -> running c a th ->
  (elevation (mx_flags m) <> MUTEX_PRIORITY_ELEVATION_NONE ->
    Z.shiftr (elevation (mx_flags m)) 8 <= KERNEL_LOWEST_PRIORITY) ->
  Mutex.acquire e p c = Ret (tt,
    mk_mutex_state (threads_with c (<[a := elevated m th]> (sc_threads (mu_sched c))))
      (<[p := taken m th (tid_of c th)]> (mutexes c))).
Proof.
  intros Hm Hr Hp. pose proof Hr as [Ha Ht]. unfold Mutex.acquire.
  rewrite (bind_ret _ _ _ _ _ (upd_mutex_run p _ c m Hm)). set (c1 := with_mutexes _ c).
  assert (running c1 a th) as Hr1 by done.
  rewrite (bind_ret _ _ _ _ _ (on_sched_run _ c1 _ _ (tid_run c1 a th Hr1))).
  rewrite (bind_ret _ _ _ _ _ (upd_mutex_run p _ _ (set_mx_state 0 m) (lookup_insert_eq _ _ _))).
  set (c2 := with_mutexes _ _). change (tid_of c1 th) with (tid_of c th) in c2.
  assert (mutexes c2 = <[p := set_locker_tid (tid_of c th) (set_mx_state 0 m)]> (mutexes c)) as E2
    by (unfold c2, c1; simpl; by rewrite insert_insert_eq).
  assert (mu_sched c2 = mu_sched c) as Es by done.
  rewrite (bind_ret _ _ _ _ _ (get_mutex_run p c2 (set_locker_tid (tid_of c th) (set_mx_state 0 m))
    ltac:(rewrite E2; apply lookup_insert_eq))).
  change (mx_flags (set_locker_tid _ (set_mx_state 0 m))) with (mx_flags m).
  unfold taken, elevated. destruct (decide (elevation (mx_flags m) <> _)) as [He|He].
  - assert (running c2 a th) as Hr2 by done.
    rewrite (bind_ret _ _ _ _ _ (on_sched_run _ c2 _ _ (priority_run c2 a th Hr2))).
    rewrite (bind_ret _ _ _ _ _ (upd_mutex_run p _ _ (set_locker_tid (tid_of c th) (set_mx_state 0 m))
      ltac:(simpl; rewrite E2; apply lookup_insert_eq))).
    set (c3 := with_mutexes _ _). assert (running c3 a th) as Hr3 by done.
    rewrite (bind_ret _ _ _ _ _ (on_sched_run _ c3 _ _ (set_priority_run c3 a th _ Hr3 (Hp He)))).
    unfold mutex_check. rewrite decide_False by tauto. unfold ret, with_sched. f_equal. f_equal.
    f_equal. unfold c3, with_mutexes at 1. cbn [mutexes].
    by rewrite E2, insert_insert_eq.
  - unfold ret. f_equal. f_equal. unfold c2 in *. unfold with_mutexes in *. simpl in E2 |- *.
    rewrite E2. f_equal. unfold threads_with. rewrite insert_id by done. by rewrite setq_id.
Qed.

(** The end of [mutex_post] when nobody waits. *)
Lemma post_section_run p c a th m A :
  mutexes c !! p = Some m -> mx_init m = 1 -> running c a th ->
  (elevation (mx_flags m) <> MUTEX_PRIORITY_ELEVATION_NONE ->
    acquired_thread_priority m <= KERNEL_LOWEST_PRIORITY) ->
  qrep (sc_q (mu_sched c)) A -> A !! mx_waiting m = Some [] ->
  let prio := elevation (mx_flags m) in
  Mutex.post_section e p c = Ret (
    inr (NULL, if decide (prio <> MUTEX_PRIORITY_ELEVATION_NONE) then 1 else 0),
    if decide (prio <> MUTEX_PRIORITY_ELEVATION_NONE) then
      mk_mutex_state
        (threads_with c (<[a := set_thread_priority (acquired_thread_priority m) th]>
           (sc_threads (mu_sched c))))
        (<[p := set_acquired_priority KERNEL_LOWEST_PRIORITY (set_mx_state 1 m)]> (mutexes c))
    else with_mutexes (<[p := set_mx_state 1 m]> (mutexes c)) c).
Proof.
  intros Hm Hi Hr Hp HR Hw prio. unfold Mutex.post_section.
  rewrite (bind_ret _ _ _ _ _ (get_mutex_run p c m Hm)). rewrite decide_False by tauto.
  rewrite (bind_ret _ _ _ _ _ (upd_mutex_run p _ c m Hm)). set (c1 := with_mutexes _ c).
  assert (forall c2, sc_q (mu_sched c2) = sc_q (mu_sched c) ->
    on_queues (kernel_queue_pop (mx_waiting m)) c2 = Ret ((NULL, OS_NO_ERR), c2)) as Hpop.
  { intros c2 E. unfold on_queues, on_sched, q, zoom. rewrite E, (pop_empty _ _ _ HR Hw), <- E.
    destruct c2 as [s2 mx2]. unfold with_sched. simpl. by destruct s2. }
  fold prio. destruct (decide (prio <> MUTEX_PRIORITY_ELEVATION_NONE)) as [He|He].
  - assert (running c1 a th) as Hr1 by done. rewrite bind_assoc.
    rewrite (bind_ret _ _ _ _ _ (on_sched_run _ c1 _ _ (set_priority_run c1 a th _ Hr1 (Hp He)))).
    unfold mutex_check at 1. rewrite decide_False by tauto. rewrite bind_assoc, bind_ret_l.
    rewrite bind_assoc.
    erewrite bind_ret by (apply upd_mutex_run; simpl; apply lookup_insert_eq).
    rewrite bind_ret_l. erewrite bind_ret by (apply Hpop; done). unfold mutex_check.
    rewrite decide_False by tauto. unfold bind, ret, with_mutexes, c1. simpl.
    by rewrite insert_insert_eq.
  - rewrite bind_ret_l. erewrite bind_ret by (apply Hpop; done). unfold mutex_check.
    by rewrite decide_False by tauto.
Qed.

(** [mutex_pend] on a free mutex. *)
Definition taken_state p c a th m : mutex_state :=
  mk_mutex_state (threads_with c (<[a := elevated m th]> (sc_threads (mu_sched c))))
    (<[p := taken m th (tid_of c th)]> (mutexes c)).

Lemma pend_free_turn p c a th m :
  mutexes c !! p = Some m -> mx_init m = 1 -> mx_state m = 1 -> running c a th ->
  (elevation (mx_flags m) <> MUTEX_PRIORITY_ELEVATION_NONE ->
    Z.shiftr (elevation (mx_flags m)) 8 <= KERNEL_LOWEST_PRIORITY) ->
  Mutex.pend_turn e p c = Ret (Done OS_NO_ERR, taken_state p c a th m) /\
  running (taken_state p c a th m) a (elevated m th).
Proof.
  intros Hm Hi Hs Hr Hsh. split.
  - unfold Mutex.pend_turn. rewrite (bind_ret _ _ _ _ _ (get_mutex_run p c m Hm)).
    rewrite decide_False by tauto. rewrite decide_False by (rewrite Hs; tauto).
    rewrite bind_ret_l, decide_False by (rewrite Hs; tauto).
    by rewrite (bind_ret _ _ _ _ _ (mutex_acquire_run p c a th m Hm Hr Hsh)).
  - destruct Hr as [Ha _]. split; [exact Ha|]. apply lookup_insert_eq.
Qed.

Lemma taken_fields m th id :
  mx_init (taken m th id) = mx_init m /\ mx_state (taken m th id) = 0 /\
  locker_tid (taken m th id) = id /\ mx_flags (taken m th id) = mx_flags m /\
  mx_waiting (taken m th id) = mx_waiting m /\
  (elevation (mx_flags m) <> MUTEX_PRIORITY_ELEVATION_NONE ->
    acquired_thread_priority (taken m th id) = priority th).
Proof.
  unfold taken. destruct (decide (elevation (mx_flags m) <> _)); simpl; tauto.
Qed.
End Priority.

(** The priority a mutex is given at its initialisation is lost. *)
Lemma elevation_given f prio :
  0 <= f < 256 -> 0 <= prio <= KERNEL_LOWEST_PRIORITY \/ prio = MUTEX_PRIORITY_ELEVATION_NONE ->
  elevation (Z.lor f (Z.shiftl prio 8)) = prio /\
  (prio <> MUTEX_PRIORITY_ELEVATION_NONE -> Z.shiftr prio 8 = 0).
Proof.
  intros Hf Hprio. unfold KERNEL_LOWEST_PRIORITY, MUTEX_PRIORITY_ELEVATION_NONE in *. split.
  - apply elevation_init; lia.
  - intros Hn. rewrite Z.shiftr_div_pow2 by lia. apply Z.div_small. lia.
Qed.

(** ** Properties *)

(** C15: a mutex without the recursive flag excludes.  Along any sequence
    of operations on it by any threads, with any other kernel activity in
    between, there is a post between two successful acquisitions, whether
    they come from [mutex_pend], from a thread that was blocked or from
    [mutex_try_pend]. *)
Theorem mutex_exclusion {ops : AllocOps} e p k mid k' m :
  mutex_trace e p k (Acquired :: mid ++ [Acquired]) k' ->
  mutexes (core k) !! p = Some m -> Z.land (mx_flags m) MUTEX_FLAG_RECURSIVE = 0 ->
  Posted ∈ mid.
Proof.
  intros Ht Hm Hrec. inversion Ht as [|? ? k1 ? ? Hop Ht1]; subst.
  assert (in_state (core k) p (mx_state m) (mx_flags m)) as Hin by (by exists m).
  destruct (mutex_op_state e p k Acquired k1 _ _ Hop Hin Hrec) as [_ Hin1].
  destruct (decide (Posted ∈ mid)) as [|Hnp]; [done|].
  assert (Acquired ∉ mid ++ [Acquired]) as Hna.
  { eapply taken_until_post; [done..|]. rewrite not_elem_of_app. split; [done|].
    by intros ?%list_elem_of_singleton. }
  destruct Hna. apply elem_of_app. right. by apply list_elem_of_singleton.
Qed.

(** taking and releasing a free mutex.  [mutex_pend] takes it, records the
    identity and the priority of the thread and, when the mutex was given a
    priority, raises the thread to the highest one (0) and not to the
    priority of the mutex, which is shifted away; [mutex_post] frees it again,
    gives the thread its own priority back and then lets the scheduler run if
    the priority had changed. *)
Theorem mutex_pend_post {ops : AllocOps} (e : sched_env) k p m f prio a th A :
  flag_ok k -> lock_free (ObjLock p) k -> p <> NULL -> mutexes (core k) !! p = Some m ->
  mx_init m = 1 -> mx_state m = 1 -> mx_flags m = Z.lor f (Z.shiftl prio 8) -> 0 <= f < 256 ->
  0 <= prio <= KERNEL_LOWEST_PRIORITY \/ prio = MUTEX_PRIORITY_ELEVATION_NONE ->
  running e (core k) a th -> priority th <= KERNEL_LOWEST_PRIORITY ->
  qrep (sc_q (mu_sched (core k))) A -> A !! mx_waiting m = Some [] ->
  let raised := prio <> MUTEX_PRIORITY_ELEVATION_NONE in
  exists k1 k2 m1 m2, mutex_pend e p k = Ret (Done OS_NO_ERR, k1) /\
    mutexes (core k1) !! p = Some m1 /\ mx_state m1 = 0 /\ locker_tid m1 = tid_of e (core k) th /\
    sc_threads (mu_sched (core k1)) !! a =
      Some (if decide raised then set_thread_priority 0 th else th) /\
    mutex_post e p k1 =
      Ret (if decide raised then Yielded OS_NO_ERR else Done OS_NO_ERR, k2) /\
    mutexes (core k2) !! p = Some m2 /\ mx_state m2 = 1 /\
    sc_threads (mu_sched (core k2)) = sc_threads (mu_sched (core k)) /\ same_locks k k2.
Proof.
  intros Hf Hl Hp0 Hm Hi Hs Hfl Hf8 Hprio Hr Hth HR Hw raised. set (c := core k) in *.
  pose proof (elevation_given f prio Hf8 Hprio) as [He Hsh]. rewrite <- Hfl in He.
  destruct (pend_free_turn e p c a th m Hm Hi Hs Hr) as [Hturn Hr1].
  { rewrite He. intros Hn. rewrite Hsh by done. unfold KERNEL_LOWEST_PRIORITY. lia. }
  destruct (critical_lift e (ObjLock p) _ k _ _ Hf Hl Hturn) as (k1 & Hk1 & Hc1 & Hsl1).
  set (c1 := taken_state e p c a th m) in *. set (m1 := taken m th (tid_of e c th)).
  assert (elevated m th = if decide raised then set_thread_priority 0 th else th) as Hth1.
  { unfold elevated. rewrite He. fold raised. case_decide as Hn; [|done]. by rewrite Hsh. }
  destruct (taken_fields m th (tid_of e c th)) as (J1 & J2 & J3 & J4 & J5 & J6). fold m1 in J1, J2, J3, J4, J5, J6.
  pose proof (post_section_run e p c1 a _ m1 A (lookup_insert_eq _ _ _) ltac:(by rewrite J1) Hr1) as Hpost.
  rewrite J4 in Hpost. specialize (Hpost ltac:(intros Hn; by rewrite J6) HR ltac:(by rewrite J5)).
  rewrite He in Hpost, J6. cbv zeta in Hpost. fold raised in Hpost, J6.
  match type of Hpost with _ = Ret (_, ?x) => set (c2 := x) in Hpost end. rewrite <- Hc1 in Hpost.
  destruct (critical_lift e (ObjLock p) _ k1 _ _ (same_locks_flag _ _ Hsl1 Hf)
    (same_locks_free _ _ _ Hsl1 Hl) Hpost) as (k2 & Hk2 & Hc2 & Hsl2).
  assert (sc_threads (mu_sched c2) = sc_threads (mu_sched c)) as Hthreads.
  { destruct Hr as [_ Ht]. unfold c2, c1, taken_state. destruct (decide raised) as [Hn|Hn]; simpl.
    - rewrite insert_insert_eq, J6, Hth1 by done. apply insert_id. rewrite Ht. f_equal. by destruct th.
    - rewrite Hth1. by apply insert_id. }
  exists k1, k2, m1, (if decide raised then set_acquired_priority KERNEL_LOWEST_PRIORITY
    (set_mx_state 1 m1) else set_mx_state 1 m1).
  unfold mutex_pend, mutex_post. rewrite !decide_False by done. rewrite Hc1, Hc2.
  split_and!; [done|apply lookup_insert_eq|done|done| | | | |done|by eapply same_locks_trans].
  - unfold c1. simpl. by rewrite lookup_insert_eq, Hth1.
  - rewrite decide_False by done. erewrite bind_ret by exact Hk2. by destruct (decide raised).
  - unfold c2. destruct (decide raised); apply lookup_insert_eq.
  - by destruct (decide raised).
Qed.

(** *** Witnesses *)

(** A mutex of priority 7 at 4000 with its queue at 1069; the running thread,
    at 6000, has priority 5. *)
Definition demo_mutex_state : kstate mutex_state :=
  mk_kstate (mk_mutex_state parent_sched {[ 4000 := mk_mutex 1069 1 (Z.shiftl 7 8) 0 0 1 ]}) 1
    (fun _ => SPINLOCK_INIT_VALUE).

Lemma mutex_pend_post_witness :
  exists k1, mutex_pend demo_env 4000 demo_mutex_state = Ret (Done OS_NO_ERR, k1) /\
    sc_threads (mu_sched (core k1)) !! 6000 = Some (set_thread_priority 0 parent_thread).
Proof.
  destruct (mutex_pend_post demo_env demo_mutex_state 4000 (mk_mutex 1069 1 (Z.shiftl 7 8) 0 0 1)
    0 7 6000 parent_thread (<[1066 := [30]]> fresh_abs))
    as (k1 & k2 & m1 & m2 & Hp & _ & _ & _ & Ht & _).
  - right. reflexivity.
  - reflexivity.
  - discriminate.
  - reflexivity.
  - reflexivity.
  - reflexivity.
  - reflexivity.
  - lia.
  - left. unfold KERNEL_LOWEST_PRIORITY. lia.
  - split; reflexivity.
  - vm_compute. discriminate.
  - apply pushed_rep; [lia|by eexists].
  - apply (pushed_lookup 30 1066 1069); lia.
  - exists k1. split; [exact Hp|exact Ht].
Defined.

Definition demo_m1 : kstate mutex_state := after (mutex_pend demo_env 4000) demo_mutex_state.
Definition demo_m2 : kstate mutex_state := after (mutex_pend demo_env 4000) demo_m1.
Definition demo_m3 : kstate mutex_state := after (mutex_post demo_env 4000) demo_m2.
Definition demo_m4 : kstate mutex_state := after (mutex_pend_resume demo_env 4000) demo_m3.

Lemma demo_mutex_results :
  result_of (mutex_pend demo_env 4000 demo_mutex_state) = Some (Done OS_NO_ERR) /\
  result_of (mutex_pend demo_env 4000 demo_m1) = Some Switched /\
  result_of (mutex_post demo_env 4000 demo_m2) = Some (Yielded OS_NO_ERR) /\
  result_of (mutex_pend_resume demo_env 4000 demo_m3) = Some (Done OS_NO_ERR).
Proof. vm_compute. repeat split. Qed.

Lemma mutex_exclusion_witness : Posted ∈ [Blocked; Posted].
Proof.
  destruct demo_mutex_results as (R1 & R2 & R3 & R4).
  pose proof (mop_acquire demo_env 4000 _ demo_m1 (after_result _ _ _ R1)) as O1.
  pose proof (mop_block demo_env 4000 _ demo_m2 (after_result _ _ _ R2)) as O2.
  pose proof (mop_post demo_env 4000 _ demo_m3 _ (after_result _ _ _ R3)) as O3.
  pose proof (mop_acquire_resumed demo_env 4000 _ demo_m4 (after_result _ _ _ R4)) as O4.
  apply (mutex_exclusion demo_env 4000 demo_mutex_state [Blocked; Posted] demo_m4
    (mk_mutex 1069 1 (Z.shiftl 7 8) 0 0 1)).
  - exact (mtrace_cons _ _ _ _ _ _ _ O1 (mtrace_cons _ _ _ _ _ _ _ O2
      (mtrace_cons _ _ _ _ _ _ _ O3 (mtrace_cons _ _ _ _ _ _ _ O4 (mtrace_nil _ _ _))))).
  - reflexivity.
  - reflexivity.
Defined.
