(* ===== verification/Mailbox.v ===== *)
(** * Mailboxes ([comm/mailbox.c])

    A one-place buffer guarded by two semaphores that live inside the mailbox.
    A function that can block is cut at the switch: [..._acquire] runs up to
    the end of [sem_pend], the part with the value follows. *)
From stdpp Require Import functions.
From S2P Require Import Prelude Alloc Critical KernelQueue Scheduler Semaphore.

(** [struct mailbox], less its two semaphores, which are kept with the others
    at their addresses. *)
Record mailbox : Type := mk_mailbox {
  mb_value : Z;
  mb_init : Z;
  mb_state : Z;
}.

#[export] Instance mailbox_eq_dec : EqDecision mailbox.
Proof. solve_decision. Defined.

Definition zero_mailbox : mailbox := mk_mailbox NULL 0 0.
Definition set_mb_value (v : Z) (m : mailbox) : mailbox := mk_mailbox v (mb_init m) (mb_state m).
Definition set_mb_init (v : Z) (m : mailbox) : mailbox := mk_mailbox (mb_value m) v (mb_state m).

(** [&mailbox->mailbox_sem_read], [&mailbox->mailbox_sem_write]. *)
Definition sem_read (mailbox : Z) : Z := mailbox + 8.
Definition sem_write (mailbox : Z) : Z := mailbox + 32.

Section Ops.
Context {ops : AllocOps}.

Record mb_store : Type := mk_mb_store {
  mb_sems : sem_state;
  mailboxes : gmap Z mailbox;
}.

Definition with_mb_sems (v : sem_state) (t : mb_store) : mb_store := mk_mb_store v (mailboxes t).
Definition with_mailboxes (m : gmap Z mailbox) (t : mb_store) : mb_store :=
  mk_mb_store (mb_sems t) m.

Definition on_sems {A} (m : M (kstate sem_state) A) : M (kstate mb_store) A :=
  kzoom mb_sems with_mb_sems m.

Definition get_mailbox (p : Z) : M mb_store mailbox := fun s =>
  match mailboxes s !! p with Some m => Ret (m, s) | None => Fault end.
Definition upd_mailbox (p : Z) (f : mailbox -> mailbox) : M mb_store unit := fun s =>
  match mailboxes s !! p with
  | Some m => Ret (tt, with_mailboxes (<[p := f m]> (mailboxes s)) s)
  | None => Fault
  end.

Variable e : sched_env.

(** [memset] of the whole structure, semaphores included. *)
Definition clear_mailbox (mb : Z) : M mb_store unit :=
  modify (fun s => with_mailboxes (<[mb := zero_mailbox]> (mailboxes s)) s) >>>
  modify (fun s => with_mb_sems (with_sems
    (<[sem_read mb := zero_sem]> (<[sem_write mb := zero_sem]> (sems (mb_sems s))))
    (mb_sems s)) s).

(** When the second [sem_init] fails, [err] is overwritten by the result of
    [sem_destroy]. *)
Definition mailbox_init (mb : Z) : M (kstate mb_store) OS_RETURN_E :=
  if decide (mb = NULL) then ret OS_ERR_NULL_POINTER
  else
    lift (clear_mailbox mb) >>>
    INIT_SPINLOCK (ObjLock mb) >>>
    let* err := on_sems (sem_init (sem_read mb) 0) in
    if decide (err <> OS_NO_ERR) then ret err
    else
      let* err := on_sems (sem_init (sem_write mb) 1) in
      if decide (err <> OS_NO_ERR) then
        let* err := on_sems (sem_destroy e (sem_read mb)) in
        ret err
      else
        lift (upd_mailbox mb (set_mb_init 1)) >>>
        ret OS_NO_ERR.

(** The result is the bitwise disjunction of two codes. *)
Definition mailbox_destroy (mb : Z) : M (kstate mb_store) Z :=
  if decide (mb = NULL) then ret (OS_RETURN_code OS_ERR_NULL_POINTER)
  else
    critical e (ObjLock mb) (
      let* m := lift (get_mailbox mb) in
      if decide (mb_init m <> 1) then ret (OS_RETURN_code OS_ERR_MAILBOX_NON_INITIALIZED)
      else
        lift (upd_mailbox mb (set_mb_init 0)) >>>
        let* e1 := on_sems (sem_destroy e (sem_read mb)) in
        let* e2 := on_sems (sem_destroy e (sem_write mb)) in
        ret (Z.lor (OS_RETURN_code e1) (OS_RETURN_code e2))).

(** The section that only checks the initialisation. *)
Definition check_init (mb : Z) : M (kstate mb_store) bool :=
  critical e (ObjLock mb) (
    let* m := lift (get_mailbox mb) in ret (bool_decide (mb_init m = 1))).

(** Up to the unit of semaphore [sem]; [OS_NO_ERR] means go on. *)
Definition acquire (mb sem : Z) : M (kstate mb_store) (step OS_RETURN_E) :=
  if decide (mb = NULL) then ret (Done OS_ERR_NULL_POINTER)
  else
    let* ok := check_init mb in
    if (ok : bool) then
      let* r := on_sems (sem_pend e sem) in
      match r with
      | Done err | Yielded err =>
          ret (Done (if decide (err <> OS_NO_ERR) then OS_ERR_MAILBOX_NON_INITIALIZED
                     else OS_NO_ERR))
      | Switched => ret Switched
      end
    else ret (Done OS_ERR_MAILBOX_NON_INITIALIZED).

Definition acquire_resume (sem : Z) : M (kstate mb_store) (step OS_RETURN_E) :=
  let* r := on_sems (sem_pend_resume e sem) in
  match r with
  | Done err | Yielded err =>
      ret (Done (if decide (err <> OS_NO_ERR) then OS_ERR_MAILBOX_NON_INITIALIZED
                 else OS_NO_ERR))
  | Switched => ret Switched
  end.

(** *** Reading *)
Definition mailbox_pend_acquire (mb : Z) : M (kstate mb_store) (step OS_RETURN_E) :=
  acquire mb (sem_read mb).

(** What [mailbox_pend] returns: the element and the value of [*error]. *)
Definition pend_status (v : Z) (err : OS_RETURN_E) : Z * OS_RETURN_E :=
  if decide (err <> OS_NO_ERR) then (NULL, OS_ERR_MAILBOX_NON_INITIALIZED) else (v, OS_NO_ERR).

(** The second critical section.  [sem_post] is called inside it: when it
    gives the CPU away the section is left later, by [mailbox_pend_leave]
    with the saved interrupt state. *)
Definition mailbox_pend_take (mb : Z) : M (kstate mb_store) (Z * step (Z * OS_RETURN_E)) :=
  let* x := ENTER_CRITICAL e (ObjLock mb) in
  let* m := lift (get_mailbox mb) in
  if decide (mb_init m <> 1) then
    EXIT_CRITICAL e x (ObjLock mb) >>>
    ret (x, Done (NULL, OS_ERR_MAILBOX_NON_INITIALIZED))
  else
    let* r := on_sems (sem_post e (sem_write mb)) in
    match r with
    | Done err => EXIT_CRITICAL e x (ObjLock mb) >>> ret (x, Done (pend_status (mb_value m) err))
    | Yielded err => ret (x, Yielded (pend_status (mb_value m) err))
    | Switched => ret (x, Switched)
    end.

Definition mailbox_pend_leave (mb x : Z) : M (kstate mb_store) unit :=
  EXIT_CRITICAL e x (ObjLock mb).

(** *** Writing *)
Definition mailbox_post_acquire (mb : Z) : M (kstate mb_store) (step OS_RETURN_E) :=
  acquire mb (sem_write mb).

Definition post_status (err : OS_RETURN_E) : OS_RETURN_E :=
  if decide (err <> OS_NO_ERR) then OS_ERR_MAILBOX_NON_INITIALIZED else OS_NO_ERR.

(** The initialisation is not checked again here. *)
Definition mailbox_post_put (mb element : Z) : M (kstate mb_store) (Z * step OS_RETURN_E) :=
  let* x := ENTER_CRITICAL e (ObjLock mb) in
  lift (upd_mailbox mb (set_mb_value element)) >>>
  let* r := on_sems (sem_post e (sem_read mb)) in
  match r with
  | Done err => EXIT_CRITICAL e x (ObjLock mb) >>> ret (x, Done (post_status err))
  | Yielded err => ret (x, Yielded (post_status err))
  | Switched => ret (x, Switched)
  end.

Definition mailbox_post_leave (mb x : Z) : M (kstate mb_store) unit :=
  EXIT_CRITICAL e x (ObjLock mb).

(** -1 on error. *)
Definition mailbox_isempty (mb : Z) : M (kstate mb_store) (Z * OS_RETURN_E) :=
  if decide (mb = NULL) then ret (-1, OS_ERR_NULL_POINTER)
  else
    critical e (ObjLock mb) (
      let* m := lift (get_mailbox mb) in
      if decide (mb_init m <> 1) then ret (-1, OS_ERR_MAILBOX_NON_INITIALIZED)
      else
        let* s := on_sems (lift (get_sem (sem_read mb))) in
        ret (if decide (sem_level s = 0) then 1 else 0, OS_NO_ERR)).
End Ops.
