(* ===== verification/MailboxTheorems.v ===== *)
(** * The properties of the mailboxes

    With its two semaphores a mailbox is a place for one element. *)
From stdpp Require Import functions.
From S2P Require Import Prelude Alloc Critical Interrupts KernelQueue KHeap KHeapSpec.
From S2P Require Import KHeapTheorems.
From S2P Require Import QueueTheorems Scheduler SchedulerSpec SchedulerTheorems SchedulerOps.
From S2P Require Import Semaphore SemaphoreTheorems SemClient Mailbox.

#[export] Instance mb_has_sems {ops : AllocOps} : HasSems mb_store := {|
  sems_of := mb_sems;
  put_sems := with_mb_sems;
  sems_of_put _ _ := eq_refl;
|}.

(** The units of the semaphore that counts the elements. *)
Definition full (o : option Z) : Z := match o with Some _ => 1 | None => 0 end.

Section Operations.
Context {ops : AllocOps} (e : sched_env).
Implicit Types (t : kstate mb_store) (s : mb_store) (o : option Z).

(** The mailbox [p] is initialised and holds the element of [o], if any. *)
Definition slot s p o : Prop :=
  exists m, mailboxes s !! p = Some m /\ mb_init m = 1 /\ (forall v, o = Some v -> mb_value m = v).

(** Nobody waits for it and nobody is inside one of its sections. *)
Record mb_ready t p o : Prop := {
  mb_flag : flag_ok t;
  mb_ptr : 0 < p;
  mb_lock : lock_free (ObjLock p) t;
  mb_lock_read : lock_free (ObjLock (sem_read p)) t;
  mb_lock_write : lock_free (ObjLock (sem_write p)) t;
  mb_slot : slot (core t) p o;
  mb_read : sem_holds (mb_sems (core t)) (sem_read p) (full o);
  mb_write : sem_holds (mb_sems (core t)) (sem_write p) (1 - full o);
}.

(** [mailbox_post] and [mailbox_pend] when they are not switched out. *)
Definition post_now (p v : Z) : M (kstate mb_store) (step OS_RETURN_E) :=
  let* r := mailbox_post_acquire e p in
  match r with
  | Done OS_NO_ERR => let* (_, r) := mailbox_post_put e p v in ret r
  | r => ret r
  end.

Definition pend_now (p : Z) : M (kstate mb_store) (step (Z * OS_RETURN_E)) :=
  let* r := mailbox_pend_acquire e p in
  match r with
  | Done OS_NO_ERR => let* (_, r) := mailbox_pend_take e p in ret r
  | Done err => ret (Done (NULL, err))
  | Yielded err => ret (Yielded (NULL, err))
  | Switched => ret Switched
  end.

Lemma mb_acquire_run t p o sem :
  mb_ready t p o -> lock_free (ObjLock sem) t -> sem <> NULL ->
  sem_holds (mb_sems (core t)) sem 1 ->
  exists t', Mailbox.acquire e p sem t = Ret (Done OS_NO_ERR, t') /\ sem_moved t sem 0 t'.
Proof.
  intros HR Hl Hs Hh. destruct (mb_slot _ _ _ HR) as (m & Hm & Hi & _).
  assert (exists t1, Mailbox.check_init e p t = Ret (true, t1) /\ core t1 = core t /\ same_locks t t1)
    as (t1 & Hc & Hc1 & Hs1).
  { apply (critical_run e (ObjLock p) _ t _ _ (mb_flag _ _ _ HR) (mb_lock _ _ _ HR)).
    rewrite (exec_lift_read _ _ _ m) by (unfold get_mailbox; simpl; by rewrite Hm).
    unfold ret. by rewrite bool_decide_true by done. }
  destruct (client_pend e t1 sem 1) as (t2 & Hp & c & Hc2 & Hs2 & Hh2 & Ho2);
    [exact (same_locks_flag _ _ Hs1 (mb_flag _ _ _ HR))|by eapply same_locks_free|done
    |by rewrite Hc1|lia|].
  unfold Mailbox.acquire. rewrite decide_False by (pose proof (mb_ptr _ _ _ HR); unfold NULL; lia).
  rewrite (bind_ret _ _ _ _ _ Hc), (bind_ret _ _ _ _ _ Hp). rewrite decide_False by tauto.
  exists t2. split; [done|]. exists c. rewrite Hc1 in *.
  split_and!; [done|by eapply same_locks_trans|done|done].
Qed.

(** The state after the other semaphore was told, from the state between. *)
Lemma mb_ready_moved t0 t1 t p o o' s' sem n :
  mb_ready t0 p o -> same_locks t0 t1 -> sem_moved (with_core s' t1) sem n t ->
  slot s' p o' ->
  sem_holds (mb_sems (core t)) (sem_read p) (full o') ->
  sem_holds (mb_sems (core t)) (sem_write p) (1 - full o') ->
  mb_ready t p o' /\ same_locks t0 t.
Proof.
  intros [Hf Hp Hl Hlr Hlw _ _ _] Hs1 (c & Hc & Hs2 & _) (m & Hm & Hi & Hv) Hr Hw.
  assert (same_locks t0 t) as Hs.
  { apply (same_locks_trans _ _ _ Hs1). destruct Hs2 as [H1 H2]. split; [exact H1|exact H2]. }
  split; [|done]. split; try done; try (by eapply same_locks_free); [by eapply same_locks_flag|].
  exists m. by rewrite Hc.
Qed.

Lemma mb_post_now_run t p v :
  mb_ready t p None ->
  exists t', post_now p v t = Ret (Done OS_NO_ERR, t') /\ mb_ready t' p (Some v) /\ same_locks t t'.
Proof.
  intros HR. pose proof HR as [Hf Hp Hl Hlr Hlw Hslot Hr Hw].
  destruct (mb_acquire_run t p None (sem_write p) HR Hlw) as (t1 & Ha & c & Hc & Hs & Hw1 & Ho);
    [unfold sem_write, NULL; lia|done|].
  destruct Hslot as (m & Hm & Hi & _).
  set (s' := with_mailboxes (<[p := set_mb_value v m]> (mailboxes (core t1))) (core t1)).
  assert (mailboxes (core t1) !! p = Some m) as Hm1 by (by rewrite Hc).
  destruct (client_signal e t1 p s' (sem_read p) 0) as (t3 & t4 & Hpost & Hx & Hmv);
    [by eapply same_locks_flag|by eapply same_locks_free|by eapply same_locks_free
    |unfold sem_read; lia|unfold sem_read, NULL; lia| |lia|lia|].
  { change (sem_holds (mb_sems (core t1)) (sem_read p) 0). rewrite Hc.
    apply Ho; [unfold sem_read, sem_write; lia|exact Hr]. }
  exists t4. unfold post_now. rewrite (bind_ret _ _ _ _ _ Ha). unfold mailbox_post_put.
  assert (lock_free (ObjLock p) t1) as Hl1 by (by eapply same_locks_free).
  rewrite bind_assoc, (bind_ret _ _ _ _ _ (enter_run e (ObjLock p) t1 Hl1)), bind_assoc.
  rewrite (exec_lift _ _ _ tt s') by (unfold upd_mailbox; simpl; by rewrite Hm1).
  rewrite bind_assoc, (bind_ret _ _ _ _ _ Hpost). cbv beta iota.
  rewrite bind_assoc, (bind_ret _ _ _ _ _ Hx). split; [done|].
  pose proof Hmv as (c2 & Hc2 & _ & Hh2 & Ho2).
  apply (mb_ready_moved t t1 t4 p None (Some v) s' (sem_read p) (0 + 1)); [done..| | |].
  - exists (set_mb_value v m). split; [apply lookup_insert_eq|]. split; [done|]. by intros ? [= <-].
  - by rewrite Hc2.
  - rewrite Hc2. apply Ho2; [unfold sem_read, sem_write; lia|].
    change (sem_holds (mb_sems (core t1)) (sem_write p) 0). by rewrite Hc.
Qed.

Lemma mb_pend_now_run t p v :
  mb_ready t p (Some v) ->
  exists t', pend_now p t = Ret (Done (v, OS_NO_ERR), t') /\ mb_ready t' p None /\ same_locks t t'.
Proof.
  intros HR. pose proof HR as [Hf Hp Hl Hlr Hlw Hslot Hr Hw].
  destruct (mb_acquire_run t p (Some v) (sem_read p) HR Hlr) as (t1 & Ha & c & Hc & Hs & Hr1 & Ho);
    [unfold sem_read, NULL; lia|done|].
  destruct Hslot as (m & Hm & Hi & Hv).
  assert (mailboxes (core t1) !! p = Some m) as Hm1 by (by rewrite Hc).
  destruct (client_signal e t1 p (core t1) (sem_write p) 0) as (t3 & t4 & Hpost & Hx & Hmv);
    [by eapply same_locks_flag|by eapply same_locks_free|by eapply same_locks_free
    |unfold sem_write; lia|unfold sem_write, NULL; lia| |lia|lia|].
  { change (sem_holds (mb_sems (core t1)) (sem_write p) 0). rewrite Hc.
    apply Ho; [unfold sem_read, sem_write; lia|exact Hw]. }
  exists t4. unfold pend_now. rewrite (bind_ret _ _ _ _ _ Ha). unfold mailbox_pend_take.
  assert (lock_free (ObjLock p) t1) as Hl1 by (by eapply same_locks_free).
  rewrite bind_assoc, (bind_ret _ _ _ _ _ (enter_run e (ObjLock p) t1 Hl1)), bind_assoc.
  rewrite (exec_lift_read _ _ _ m) by (unfold get_mailbox; simpl; by rewrite Hm1).
  rewrite decide_False by tauto. rewrite bind_assoc.
  rewrite (bind_ret _ _ (inside e (ObjLock p) t1) _ _ Hpost). cbv beta iota.
  rewrite bind_assoc, (bind_ret _ _ _ _ _ Hx). split; [by rewrite (Hv v)|].
  pose proof Hmv as (c2 & Hc2 & _ & Hh2 & Ho2).
  apply (mb_ready_moved t t1 t4 p (Some v) None (core t1) (sem_write p) (0 + 1)); [done..| | |].
  - exists m. done.
  - rewrite Hc2. apply Ho2; [unfold sem_read, sem_write; lia|].
    change (sem_holds (mb_sems (core t1)) (sem_read p) 0). by rewrite Hc.
  - by rewrite Hc2.
Qed.

(** *** Sequences of operations, against one place *)
Inductive mb_op : Type := Post (v : Z) | Pend.

Fixpoint slot_run (os : list mb_op) (o : option Z) : option (list (option Z) * option Z) :=
  match os, o with
  | [], _ => Some ([], o)
  | Post v :: os, None => '(r, o) ← slot_run os (Some v); Some (None :: r, o)
  | Pend :: os, Some v => '(r, o) ← slot_run os None; Some (Some v :: r, o)
  | _, _ => None
  end.

Fixpoint mb_run (p : Z) (os : list mb_op) : M (kstate mb_store) (list (option Z)) :=
  match os with
  | [] => ret []
  | Post v :: os =>
      let* r := post_now p v in
      match r with
      | Done OS_NO_ERR => let* rs := mb_run p os in ret (None :: rs)
      | _ => diverge
      end
  | Pend :: os =>
      let* r := pend_now p in
      match r with
      | Done (x, OS_NO_ERR) => let* rs := mb_run p os in ret (Some x :: rs)
      | _ => diverge
      end
  end.

(** C17: a mailbox is a place for one element.  Any sequence of posts to the
    empty mailbox and pends from the full one returns each element once, in
    the order they were posted, with [OS_NO_ERR] and without blocking, and
    leaves the locks and the interrupt flag as they were. *)
Theorem mailbox_refines_slot os t p o rs o' :
  mb_ready t p o -> slot_run os o = Some (rs, o') ->
  exists t', mb_run p os t = Ret (rs, t') /\ mb_ready t' p o' /\ same_locks t t'.
Proof.
  revert t o rs. induction os as [|[v|] os IH]; intros t o rs HR Hrun; simpl in Hrun.
  - injection Hrun as <- <-. exists t. split_and!; [done|done|split; done].
  - destruct o as [|]; [done|].
    destruct (slot_run os (Some v)) as [[r1 o1]|] eqn:E; [|done]. injection Hrun as <- <-.
    destruct (mb_post_now_run t p v HR) as (t1 & H1 & HR1 & Hs1).
    destruct (IH t1 _ _ HR1 E) as (t' & H' & HR' & Hs').
    exists t'. simpl. rewrite (bind_ret _ _ _ _ _ H1), (bind_ret _ _ _ _ _ H').
    split_and!; [done|done|by eapply same_locks_trans].
  - destruct o as [v|]; [|done].
    destruct (slot_run os None) as [[r1 o1]|] eqn:E; [|done]. injection Hrun as <- <-.
    destruct (mb_pend_now_run t p v HR) as (t1 & H1 & HR1 & Hs1).
    destruct (IH t1 _ _ HR1 E) as (t' & H' & HR' & Hs').
    exists t'. simpl. rewrite (bind_ret _ _ _ _ _ H1), (bind_ret _ _ _ _ _ H').
    split_and!; [done|done|by eapply same_locks_trans].
Qed.
End Operations.

(** ** Creation *)
Section Init.
Context {ops : AllocOps} `{!AllocSpec ops} (e : sched_env).
Implicit Types (t : kstate mb_store).

(** After [memset] and [INIT_SPINLOCK]. *)
Definition blank t p : kstate mb_store :=
  mk_kstate (mk_mb_store (with_sems
      (<[sem_read p := zero_sem]> (<[sem_write p := zero_sem]> (sems (mb_sems (core t)))))
      (mb_sems (core t))) (<[p := zero_mailbox]> (mailboxes (core t))))
    (int_flag t) (<[ObjLock p := SPINLOCK_INIT_VALUE]> (locks t)).

(** The mailbox [p] is marked as not initialised. *)
Definition unset t p : Prop := exists m, mailboxes (core t) !! p = Some m /\ mb_init m = 0.

Lemma blank_unset t p t' : mailboxes (core t') = mailboxes (core (blank t p)) -> unset t' p.
Proof. intros H. exists zero_mailbox. rewrite H. split; [apply lookup_insert_eq|done]. Qed.

Lemma mailbox_init_unfold t p :
  p <> NULL ->
  mailbox_init e p t = (
    let* err := on_sems (sem_init (sem_read p) 0) in
    if decide (err <> OS_NO_ERR) then ret err
    else
      let* err := on_sems (sem_init (sem_write p) 1) in
      if decide (err <> OS_NO_ERR) then
        let* err := on_sems (sem_destroy e (sem_read p)) in ret err
      else lift (upd_mailbox p (set_mb_init 1)) >>> ret OS_NO_ERR) (blank t p).
Proof. intros Hp. unfold mailbox_init. by rewrite decide_False. Qed.

End Init.

(** what [mailbox_init] does with any heap.  It returns [OS_ERR_MALLOC]
    when there is no memory for the first semaphore, and a mailbox that is
    empty and ready when there is memory for both; but when only the second
    allocation fails it returns [OS_NO_ERR] as well, with a mailbox that is
    not initialised. *)
Theorem mailbox_init_correct {ops : AllocOps} `{!AllocSpec ops} (e : sched_env) t p A L :
  0 < p -> flag_ok t -> qrep (sc_q (ss_sched (mb_sems (core t)))) A ->
  qheap (sc_q (ss_sched (mb_sems (core t)))) L ->
  exists err t', mailbox_init e p t = Ret (err, t') /\
    (err = OS_ERR_MALLOC /\ unset t' p \/
     err = OS_NO_ERR /\ unset t' p \/
     err = OS_NO_ERR /\ mb_ready t' p None).
Proof.
  intros Hp Hf HR HH. rewrite mailbox_init_unfold by (unfold NULL; lia).
  destruct (client_init (HS := mb_has_sems) (blank t p) (sem_read p) 0 A L)
    as [(t1 & H1 & [(m & Hc) _ _])|(t1 & H1 & C1)]; [unfold sem_read, NULL; lia|done|done| |].
  { exists OS_ERR_MALLOC, t1. rewrite (bind_ret _ _ _ _ _ H1), decide_True by done.
    split; [done|]. left. split; [done|]. apply (blank_unset t). by rewrite Hc. }
  rewrite (bind_ret _ _ _ _ _ H1). rewrite decide_False by tauto.
  destruct C1 as [(c1 & Hc1) Hf1 Hl1 Hh1 _ (A1 & L1 & HR1 & HH1)].
  destruct (client_init (HS := mb_has_sems) t1 (sem_write p) 1 A1 L1)
    as [(t2 & H2 & [(m & Hc2) Hf2 Hl2])|(t2 & H2 & C2)]; [unfold sem_write, NULL; lia|done|done| |].
  - rewrite (bind_ret _ _ _ _ _ H2), decide_True by done.
    destruct (object_locks (locks (blank t p)) (locks t2) p (sem_read p) (sem_write p)) as (_ & Hlr & _); [apply fn_lookup_insert|by rewrite Hl2, Hl1|unfold sem_read, sem_write; lia..|].
    destruct (client_destroy (HS := mb_has_sems) e t2 (sem_read p) 0) as (t3 & m3 & H3 & Hc3 & _);
      [unfold flag_ok; by rewrite Hf2, Hf1|exact Hlr|unfold sem_read, NULL; lia| |].
    { rewrite Hc2. apply (sem_holds_insert (sems_of (core t1))); [unfold sem_read, sem_write; lia|done]. }
    exists OS_NO_ERR, t3. rewrite (bind_ret _ _ _ _ _ H3). split; [done|]. right. left.
    split; [done|]. rewrite Hc2, Hc1 in Hc3. assert (mailboxes (core t3) = mailboxes (core (blank t p)))
      by (by rewrite Hc3). by apply (blank_unset t).
  - rewrite (bind_ret _ _ _ _ _ H2). rewrite decide_False by tauto.
    destruct C2 as [(c2 & Hc2) Hf2 Hl2 Hh2 Ho2 _].
    destruct (object_locks (locks (blank t p)) (locks t2) p (sem_read p) (sem_write p)) as (Hl & Hlr & Hlw); [apply fn_lookup_insert|by rewrite Hl2, Hl1|unfold sem_read, sem_write; lia..|].
    assert (mailboxes (core t2) !! p = Some zero_mailbox) as Hm
      by (rewrite Hc2, Hc1; apply lookup_insert_eq).
    set (s3 := with_mailboxes (<[p := set_mb_init 1 zero_mailbox]> (mailboxes (core t2))) (core t2)).
    exists OS_NO_ERR, (with_core s3 t2).
    rewrite (exec_lift _ _ _ tt s3) by (unfold upd_mailbox; by rewrite Hm). split; [done|].
    right. right. split; [done|]. split; simpl; try done.
    + unfold flag_ok. simpl. by rewrite Hf2, Hf1.
    + eexists. split; [apply lookup_insert_eq|]. done.
    + apply (Ho2 (sem_read p) 0); [unfold sem_read, sem_write; lia|exact Hh1].
Qed.

(** *** Witnesses: an empty mailbox at 4000 *)
Definition demo_mb : kstate mb_store :=
  mk_kstate (mk_mb_store
    (mk_sem_state parent_sched {[ 4008 := mk_sem 1068 0 1; 4032 := mk_sem 1069 1 1 ]})
    {[ 4000 := mk_mailbox 0 1 0 ]}) 1 (fun _ => SPINLOCK_INIT_VALUE).

Lemma demo_mb_ready : mb_ready demo_mb 4000 None.
Proof.
  assert (forall w, 1068 <= w < 1070 -> exists A, qrep (sc_q parent_sched) A /\ A !! w = Some [])
    as Hwait.
  { intros w Hw. exists (<[1066 := [30]]> fresh_abs).
    split; [apply pushed_rep; [lia|by eexists]|apply pushed_lookup; lia]. }
  split.
  - right. reflexivity.
  - lia.
  - reflexivity.
  - reflexivity.
  - reflexivity.
  - exists (mk_mailbox 0 1 0). split; [reflexivity|]. split; [reflexivity|discriminate].
  - exists (mk_sem 1068 0 1). split; [reflexivity|]. split; [reflexivity|].
    split; [reflexivity|]. apply (Hwait 1068). lia.
  - exists (mk_sem 1069 1 1). split; [reflexivity|]. split; [reflexivity|].
    split; [reflexivity|]. apply (Hwait 1069). lia.
Qed.

Lemma mailbox_refines_slot_witness :
  result_of (mb_run demo_env 4000 [Post 7; Pend; Post 8; Pend] demo_mb) =
    Some [None; Some 7; None; Some 8].
Proof.
  destruct (mailbox_refines_slot demo_env [Post 7; Pend; Post 8; Pend] demo_mb 4000 None _ _
    demo_mb_ready eq_refl) as (t' & -> & _). reflexivity.
Defined.

(** A kernel without objects yet. *)
Definition boot_mb : kstate mb_store :=
  mk_kstate (mk_mb_store (mk_sem_state
    (mk_sched boot_store ∅ ∅ (fun _ => demo_cpu) 3 3 6000 20 (fun c p => 1000 + p) 1065 1067
       SYSTEM_STATE_RUNNING 0 (fun _ => mk_handler 0 NULL) 77) ∅) ∅) 1 (fun _ => SPINLOCK_INIT_VALUE).

(** The result and the initialisation flag. *)
Definition init_result (o : outcome (OS_RETURN_E * kstate mb_store)) : option (OS_RETURN_E * option Z) :=
  match o with Ret (err, t) => Some (err, mb_init <$> mailboxes (core t) !! 256) | _ => None end.

Lemma boot_mb_result : init_result (mailbox_init demo_env 256 boot_mb) = Some (OS_NO_ERR, Some 1).
Proof. vm_compute. reflexivity. Qed.

Lemma mailbox_init_correct_witness :
  exists t', mailbox_init demo_env 256 boot_mb = Ret (OS_NO_ERR, t') /\ mb_ready t' 256 None.
Proof.
  destruct (mailbox_init_correct demo_env boot_mb 256 ∅ ∅ ltac:(lia) (or_intror eq_refl)
    (proj1 boot_store_rep) (proj2 boot_store_rep)) as (err & t' & Hrun & H).
  pose proof boot_mb_result as Hres. rewrite Hrun in Hres. cbn [init_result] in Hres.
  injection Hres as -> Hm1. exists t'. split; [exact Hrun|].
  destruct H as [[E _]|[(_ & m & Hm & Hi)|[_ H]]].
  - discriminate E.
  - exfalso. rewrite Hm in Hm1. cbn in Hm1. rewrite Hi in Hm1. discriminate Hm1.
  - exact H.
Defined.

(** A heap with one block left: the second allocation fails and the error is
    lost. *)
Definition one_block : AllocOps := {|
  heap := bool;
  kmalloc n h := if h then (4096, false) else (NULL, false);
  kfree p h := h;
|}.

Definition last_mb : kstate (mb_store (ops := one_block)) :=
  mk_kstate (mk_mb_store (mk_sem_state
    (mk_sched (mk_qstore (ops := one_block) true ∅ ∅) ∅ ∅ (fun _ => demo_cpu) 3 3 6000 20
       (fun c p => 1000 + p) 1065 1067 SYSTEM_STATE_RUNNING 0 (fun _ => mk_handler 0 NULL) 77) ∅) ∅)
    1 (fun _ => SPINLOCK_INIT_VALUE).

Lemma mailbox_init_error_lost :
  match mailbox_init demo_env 256 last_mb with
  | Ret (err, t) => Some (err, mb_init <$> mailboxes (core t) !! 256)
  | _ => None
  end = Some (OS_NO_ERR, Some 0).
Proof. vm_compute. reflexivity. Qed.
