(* ===== verification/MsgQueue.v ===== *)
(** * Message queues ([comm/queue.c])

    A circular buffer from the kernel heap, guarded by two semaphores that
    count its full and its empty places. *)
From stdpp Require Import functions.
From S2P Require Import Prelude Alloc Critical KernelQueue Scheduler Semaphore.

(** [struct queue], less its semaphores. *)
Record queue_t : Type := mk_queue_t {
  container : Z;
  mq_size : Z;
  max_size : Z;
  index_top : Z;
  index_bot : Z;
  mq_init : Z;
}.

#[export] Instance queue_t_eq_dec : EqDecision queue_t.
Proof. solve_decision. Defined.

Definition zero_queue_t : queue_t := mk_queue_t NULL 0 0 0 0 0.
Definition set_container (v : Z) (m : queue_t) : queue_t :=
  mk_queue_t v (mq_size m) (max_size m) (index_top m) (index_bot m) (mq_init m).
Definition set_mq_size (v : Z) (m : queue_t) : queue_t :=
  mk_queue_t (container m) v (max_size m) (index_top m) (index_bot m) (mq_init m).
Definition set_max_size (v : Z) (m : queue_t) : queue_t :=
  mk_queue_t (container m) (mq_size m) v (index_top m) (index_bot m) (mq_init m).
Definition set_index_top (v : Z) (m : queue_t) : queue_t :=
  mk_queue_t (container m) (mq_size m) (max_size m) v (index_bot m) (mq_init m).
Definition set_index_bot (v : Z) (m : queue_t) : queue_t :=
  mk_queue_t (container m) (mq_size m) (max_size m) (index_top m) v (mq_init m).
Definition set_mq_init (v : Z) (m : queue_t) : queue_t :=
  mk_queue_t (container m) (mq_size m) (max_size m) (index_top m) (index_bot m) v.

Definition sem_read (queue : Z) : Z := queue + 24.
Definition sem_write (queue : Z) : Z := queue + 48.

Section Ops.
Context {ops : AllocOps}.

(** [cells] holds the words of the containers, by address. *)
Record mq_store : Type := mk_mq_store {
  mq_sems : sem_state;
  msg_queues : gmap Z queue_t;
  cells : gmap Z Z;
}.

Definition with_mq_sems (v : sem_state) (t : mq_store) : mq_store :=
  mk_mq_store v (msg_queues t) (cells t).
Definition with_msg_queues (m : gmap Z queue_t) (t : mq_store) : mq_store :=
  mk_mq_store (mq_sems t) m (cells t).
Definition with_cells (m : gmap Z Z) (t : mq_store) : mq_store :=
  mk_mq_store (mq_sems t) (msg_queues t) m.

Definition on_sems {A} (m : M (kstate sem_state) A) : M (kstate mq_store) A :=
  kzoom mq_sems with_mq_sems m.
Definition on_queues {A} (m : M qstore A) : M mq_store A :=
  zoom mq_sems with_mq_sems (Semaphore.on_queues m).

Definition get_msg_queue (p : Z) : M mq_store queue_t := fun s =>
  match msg_queues s !! p with Some m => Ret (m, s) | None => Fault end.
Definition upd_msg_queue (p : Z) (f : queue_t -> queue_t) : M mq_store unit := fun s =>
  match msg_queues s !! p with
  | Some m => Ret (tt, with_msg_queues (<[p := f m]> (msg_queues s)) s)
  | None => Fault
  end.

(** [container[i]]; a word outside every container is a fault. *)
Definition cell (c i : Z) : Z := c + 4 * i.
Definition read_cell (c i : Z) : M mq_store Z := fun s =>
  match cells s !! cell c i with Some v => Ret (v, s) | None => Fault end.
Definition write_cell (c i v : Z) : M mq_store unit := fun s =>
  match cells s !! cell c i with
  | Some _ => Ret (tt, with_cells (<[cell c i := v]> (cells s)) s)
  | None => Fault
  end.

(** The words of a block of [n] bytes appear with [kmalloc] (their contents
    are unspecified, 0 here) and go with [kfree]. *)
Definition block_cells (c n : Z) : list Z :=
  (fun i => cell c (Z.of_nat i)) <$> seq 0 (Z.to_nat (n / 4)).

Definition c_kmalloc (n : Z) : M mq_store Z :=
  let* p := on_queues (q_kmalloc n) in
  (if decide (p = NULL) then ret tt
   else modify (fun s => with_cells (foldr (fun a m => <[a := 0]> m) (cells s) (block_cells p n)) s)) >>>
  ret p.
Definition c_kfree (p n : Z) : M mq_store unit :=
  on_queues (q_kfree p) >>>
  modify (fun s => with_cells (foldr (fun a m => delete a m) (cells s) (block_cells p n)) s).

Variable e : sched_env.

Definition clear_msg_queue (mq : Z) : M mq_store unit :=
  modify (fun s => with_msg_queues (<[mq := zero_queue_t]> (msg_queues s)) s) >>>
  modify (fun s => with_mq_sems (with_sems
    (<[sem_read mq := zero_sem]> (<[sem_write mq := zero_sem]> (sems (mq_sems s))))
    (mq_sems s)) s).

(** [size] is a [uint32_t]; [sem_init] takes an [int32_t]. *)
Definition queue_init (mq size : Z) : M (kstate mq_store) OS_RETURN_E :=
  if decide (mq = NULL) then ret OS_ERR_NULL_POINTER
  else
    lift (clear_msg_queue mq) >>>
    INIT_SPINLOCK (ObjLock mq) >>>
    let* err := on_sems (sem_init (sem_read mq) 0) in
    if decide (err <> OS_NO_ERR) then ret err
    else
      let* err := on_sems (sem_init (sem_write mq) (i32 size)) in
      if decide (err <> OS_NO_ERR) then
        let* err := on_sems (sem_destroy e (sem_read mq)) in
        ret err
      else
        let* c := lift (c_kmalloc (u32 (4 * size))) in
        lift (upd_msg_queue mq (set_container c)) >>>
        if decide (c = NULL) then
          let* err := on_sems (sem_destroy e (sem_read mq)) in
          if decide (err <> OS_NO_ERR) then ret err
          else
            let* err := on_sems (sem_destroy e (sem_write mq)) in
            if decide (err <> OS_NO_ERR) then ret err else ret OS_ERR_MALLOC
        else
          lift (upd_msg_queue mq (set_max_size size)) >>>
          lift (upd_msg_queue mq (set_mq_init 1)) >>>
          ret OS_NO_ERR.

Definition queue_destroy (mq : Z) : M (kstate mq_store) Z :=
  if decide (mq = NULL) then ret (OS_RETURN_code OS_ERR_NULL_POINTER)
  else
    critical e (ObjLock mq) (
      let* m := lift (get_msg_queue mq) in
      if decide (mq_init m <> 1) then ret (OS_RETURN_code OS_ERR_QUEUE_NON_INITIALIZED)
      else
        lift (c_kfree (container m) (u32 (4 * max_size m))) >>>
        lift (upd_msg_queue mq (set_mq_init 0)) >>>
        let* e1 := on_sems (sem_destroy e (sem_read mq)) in
        let* e2 := on_sems (sem_destroy e (sem_write mq)) in
        ret (Z.lor (OS_RETURN_code e1) (OS_RETURN_code e2))).

(** *** Waiting for a full or an empty place *)
Definition check_init (mq : Z) : M (kstate mq_store) bool :=
  critical e (ObjLock mq) (
    let* m := lift (get_msg_queue mq) in ret (bool_decide (mq_init m = 1))).

Definition acquire (mq sem : Z) : M (kstate mq_store) (step OS_RETURN_E) :=
  if decide (mq = NULL) then ret (Done OS_ERR_NULL_POINTER)
  else
    let* ok := check_init mq in
    if (ok : bool) then
      let* r := on_sems (sem_pend e sem) in
      match r with
      | Done err | Yielded err =>
          ret (Done (if decide (err <> OS_NO_ERR) then OS_ERR_QUEUE_NON_INITIALIZED
                     else OS_NO_ERR))
      | Switched => ret Switched
      end
    else ret (Done OS_ERR_QUEUE_NON_INITIALIZED).

Definition acquire_resume (sem : Z) : M (kstate mq_store) (step OS_RETURN_E) :=
  let* r := on_sems (sem_pend_resume e sem) in
  match r with
  | Done err | Yielded err =>
      ret (Done (if decide (err <> OS_NO_ERR) then OS_ERR_QUEUE_NON_INITIALIZED
                 else OS_NO_ERR))
  | Switched => ret Switched
  end.

Definition queue_pend_acquire (mq : Z) : M (kstate mq_store) (step OS_RETURN_E) :=
  acquire mq (sem_read mq).
Definition queue_post_acquire (mq : Z) : M (kstate mq_store) (step OS_RETURN_E) :=
  acquire mq (sem_write mq).

(** *** The second critical sections *)
Definition get_element (mq : Z) : M mq_store Z :=
  let* m := get_msg_queue mq in
  let* v := read_cell (container m) (index_bot m) in
  if decide (max_size m = 0) then fault
  else
    upd_msg_queue mq (set_index_bot (u32 (index_bot m + 1) mod max_size m)) >>>
    upd_msg_queue mq (fun m => set_mq_size (u32 (mq_size m - 1)) m) >>>
    ret v.

Definition put_element (mq element : Z) : M mq_store unit :=
  let* m := get_msg_queue mq in
  write_cell (container m) (index_top m) element >>>
  if decide (max_size m = 0) then fault
  else
    upd_msg_queue mq (set_index_top (u32 (index_top m + 1) mod max_size m)) >>>
    upd_msg_queue mq (fun m => set_mq_size (u32 (mq_size m + 1)) m).

Definition pend_status (v : Z) (err : OS_RETURN_E) : Z * OS_RETURN_E :=
  if decide (err <> OS_NO_ERR) then (NULL, OS_ERR_QUEUE_NON_INITIALIZED) else (v, OS_NO_ERR).
Definition post_status (err : OS_RETURN_E) : OS_RETURN_E :=
  if decide (err <> OS_NO_ERR) then OS_ERR_QUEUE_NON_INITIALIZED else OS_NO_ERR.

(** When [sem_post] gives the CPU away, the section is left later by
    [queue_leave] with the saved interrupt state. *)
Definition queue_pend_take (mq : Z) : M (kstate mq_store) (Z * step (Z * OS_RETURN_E)) :=
  let* x := ENTER_CRITICAL e (ObjLock mq) in
  let* m := lift (get_msg_queue mq) in
  if decide (mq_init m <> 1) then
    EXIT_CRITICAL e x (ObjLock mq) >>>
    ret (x, Done (NULL, OS_ERR_QUEUE_NON_INITIALIZED))
  else
    let* v := lift (get_element mq) in
    let* r := on_sems (sem_post e (sem_write mq)) in
    match r with
    | Done err => EXIT_CRITICAL e x (ObjLock mq) >>> ret (x, Done (pend_status v err))
    | Yielded err => ret (x, Yielded (pend_status v err))
    | Switched => ret (x, Switched)
    end.

(** The initialisation is not checked again here. *)
Definition queue_post_put (mq element : Z) : M (kstate mq_store) (Z * step OS_RETURN_E) :=
  let* x := ENTER_CRITICAL e (ObjLock mq) in
  lift (put_element mq element) >>>
  let* r := on_sems (sem_post e (sem_read mq)) in
  match r with
  | Done err => EXIT_CRITICAL e x (ObjLock mq) >>> ret (x, Done (post_status err))
  | Yielded err => ret (x, Yielded (post_status err))
  | Switched => ret (x, Switched)
  end.

Definition queue_leave (mq x : Z) : M (kstate mq_store) unit := EXIT_CRITICAL e x (ObjLock mq).

(** The size is a [uint32_t] returned as an [int32_t]; -1 on error. *)
Definition queue_size (mq : Z) : M (kstate mq_store) (Z * OS_RETURN_E) :=
  if decide (mq = NULL) then ret (-1, OS_ERR_NULL_POINTER)
  else
    critical e (ObjLock mq) (
      let* m := lift (get_msg_queue mq) in
      if decide (mq_init m <> 1) then ret (-1, OS_ERR_QUEUE_NON_INITIALIZED)
      else ret (i32 (mq_size m), OS_NO_ERR)).

Definition queue_isempty (mq : Z) : M (kstate mq_store) (Z * OS_RETURN_E) :=
  let* (size, err) := queue_size mq in
  if decide (size < 0) then ret (-1, err)
  else ret (if decide (size = 0) then 1 else 0, err).
End Ops.
