(* ===== verification/MsgQueueTheorems.v ===== *)
(** * The properties of the message queues

    The container is a ring buffer; with its two semaphores a message queue is
    a bounded first-in first-out queue. *)
From stdpp Require Import functions.
From S2P Require Import Prelude Alloc Critical Interrupts KernelQueue KHeap KHeapSpec.
From S2P Require Import KHeapTheorems.
From S2P Require Import QueueTheorems Scheduler SchedulerSpec SchedulerTheorems SchedulerOps.
From S2P Require Import Semaphore SemaphoreTheorems SemClient MsgQueue.

(** ** Indices that wrap around *)
Definition wrap (n i : Z) : Z := if decide (i < n) then i else i - n.

Lemma wrap_mod n i : 0 <= i < 2 * n -> i mod n = wrap n i.
Proof.
  intros Hi. unfold wrap. destruct (decide (i < n)); [by apply Z.mod_small; lia|].
  replace i with (i - n + 1 * n) at 1 by lia. rewrite Z.mod_add by lia. apply Z.mod_small. lia.
Qed.

Lemma wrap_range n i : 0 <= i < 2 * n -> 0 <= wrap n i < n.
Proof. unfold wrap. case_decide; lia. Qed.

Lemma wrap_inj n b i j :
  0 <= b < n -> 0 <= i < n -> 0 <= j < n -> wrap n (b + i) = wrap n (b + j) -> i = j.
Proof. unfold wrap. repeat case_decide; lia. Qed.

Lemma wrap_next n b i :
  0 <= b < n -> 0 <= i < n -> wrap n (wrap n (b + 1) + i) = wrap n (b + (1 + i)).
Proof.
  intros. assert (b + 1 < n \/ b + 1 = n) as [H1|H1] by lia.
  - replace (wrap n (b + 1)) with (b + 1) by (unfold wrap; case_decide; lia). f_equal. lia.
  - replace (wrap n (b + 1)) with 0 by (unfold wrap; case_decide; lia).
    unfold wrap. repeat case_decide; lia.
Qed.

Section Ring.
Context {ops : AllocOps}.
Implicit Types (s : mq_store) (m : queue_t) (l : list Z).

(** The elements of the queue [p], the oldest first; [cap] places. *)
Record ring_of (cs : gmap Z Z) m (cap : Z) l : Prop := {
  ring_max : max_size m = cap;
  ring_cap : 0 < cap < 2 ^ 32;
  ring_bot : 0 <= index_bot m < cap;
  ring_len : Z.of_nat (length l) <= cap;
  ring_size : mq_size m = Z.of_nat (length l);
  ring_top : index_top m = (index_bot m + Z.of_nat (length l)) mod cap;
  ring_cells : forall i, 0 <= i < cap -> is_Some (cs !! cell (container m) i);
  ring_data : forall i v, l !! i = Some v ->
    cs !! cell (container m) (wrap cap (index_bot m + Z.of_nat i)) = Some v;
}.

Definition ring s p cap l : Prop :=
  exists m, msg_queues s !! p = Some m /\ mq_init m = 1 /\ ring_of (cells s) m cap l.

Lemma cell_inj c i j : cell c i = cell c j -> i = j.
Proof. unfold cell. lia. Qed.

Lemma ring_put cs m cap l v :
  ring_of cs m cap l -> Z.of_nat (length l) < cap ->
  let m' := set_mq_size (u32 (mq_size m + 1)) (set_index_top (u32 (index_top m + 1) mod cap) m) in
  is_Some (cs !! cell (container m) (index_top m)) /\
  ring_of (<[cell (container m) (index_top m) := v]> cs) m' cap (l ++ [v]).
Proof.
  intros [Hmax Hcap Hbot Hlen Hsize Htop Hcells Hdata] Hroom m'.
  assert (0 <= index_top m < cap) as Ht by (rewrite Htop; apply Z.mod_pos_bound; lia).
  split; [by apply Hcells|]. split; simpl.
  - done.
  - done.
  - done.
  - rewrite length_app. simpl. lia.
  - rewrite length_app, Hsize, u32_small by lia. simpl. lia.
  - rewrite u32_small by lia. rewrite Htop, Z.add_mod_idemp_l by lia. f_equal.
    rewrite length_app. simpl. lia.
  - intros i Hi. rewrite lookup_insert_is_Some. destruct (decide (cell (container m) (index_top m) =
      cell (container m) i)); [by left|right; split; [done|by apply Hcells]].
  - intros i w Hi. rewrite wrap_mod in Htop by lia. rewrite Htop.
    apply lookup_app_Some in Hi as [Hi|[Hge Hi]].
    + pose proof (lookup_lt_Some _ _ _ Hi). rewrite lookup_insert_ne; [by apply Hdata|].
      intros E%cell_inj%wrap_inj; lia.
    + destruct (i - length l)%nat eqn:Ei; [|done]. injection Hi as ->.
      replace i with (length l) by lia. apply lookup_insert_eq.
Qed.

Lemma ring_get cs m cap v l :
  ring_of cs m cap (v :: l) ->
  let m' := set_mq_size (u32 (mq_size m - 1)) (set_index_bot (u32 (index_bot m + 1) mod cap) m) in
  cs !! cell (container m) (index_bot m) = Some v /\ ring_of cs m' cap l.
Proof.
  intros [Hmax Hcap Hbot Hlen Hsize Htop Hcells Hdata] m'. simpl length in *.
  assert (wrap cap (index_bot m + 0) = index_bot m) as Hw0 by (unfold wrap; case_decide; lia).
  split; [rewrite <- Hw0; by apply (Hdata 0%nat)|].
  assert (u32 (index_bot m + 1) mod cap = wrap cap (index_bot m + 1)) as Hb
    by (rewrite u32_small, wrap_mod by lia; done).
  split; simpl; try rewrite Hb.
  - done.
  - done.
  - apply wrap_range. lia.
  - lia.
  - rewrite u32_small by lia. lia.
  - rewrite <- (wrap_mod cap (index_bot m + 1)) by lia. rewrite Z.add_mod_idemp_l by lia.
    rewrite Htop. f_equal. lia.
  - done.
  - intros i w Hi. pose proof (lookup_lt_Some _ _ _ Hi). rewrite wrap_next by lia.
    replace (1 + Z.of_nat i) with (Z.of_nat (S i)) by lia. by apply Hdata.
Qed.

Lemma upd_msg_queue_run p f s m :
  msg_queues s !! p = Some m ->
  upd_msg_queue p f s = Ret (tt, with_msg_queues (<[p := f m]> (msg_queues s)) s).
Proof. intros H. unfold upd_msg_queue. by rewrite H. Qed.

(** Two updates in a row. *)
Lemma upd_msg_queue_twice p f g s m :
  msg_queues s !! p = Some m ->
  (upd_msg_queue p f >>> upd_msg_queue p g) s =
    Ret (tt, with_msg_queues (<[p := g (f m)]> (msg_queues s)) s).
Proof.
  intros H. rewrite (bind_ret _ _ _ _ _ (upd_msg_queue_run p f s m H)).
  rewrite (upd_msg_queue_run p g _ (f m)) by apply lookup_insert_eq.
  unfold with_msg_queues. simpl. by rewrite insert_insert_eq.
Qed.

Lemma put_run s p cap l v :
  ring s p cap l -> Z.of_nat (length l) < cap ->
  exists s', put_element p v s = Ret (tt, s') /\ ring s' p cap (l ++ [v]) /\
    mq_sems s' = mq_sems s.
Proof.
  intros (m & Hm & Hi & HR) Hroom.
  destruct (ring_put _ _ _ _ v HR Hroom) as ([w Hw] & HR').
  unfold put_element, get_msg_queue. unfold bind at 1. rewrite Hm.
  unfold write_cell. unfold bind at 1. rewrite Hw.
  rewrite decide_False by (rewrite (ring_max _ _ _ _ HR); pose proof (ring_cap _ _ _ _ HR); lia).
  erewrite upd_msg_queue_twice by exact Hm.
  eexists. split; [done|]. split; [|done]. eexists. simpl. rewrite lookup_insert_eq.
  split; [done|]. split; [done|]. rewrite <- (ring_max _ _ _ _ HR) in HR' |- *. apply HR'.
Qed.

Lemma get_run s p cap l v :
  ring s p cap (v :: l) ->
  exists s', get_element p s = Ret (v, s') /\ ring s' p cap l /\ mq_sems s' = mq_sems s.
Proof.
  intros (m & Hm & Hi & HR). destruct (ring_get _ _ _ _ _ HR) as (Hv & HR').
  unfold get_element, get_msg_queue. unfold bind at 1. rewrite Hm.
  unfold read_cell. unfold bind at 1. rewrite Hv.
  rewrite decide_False by (rewrite (ring_max _ _ _ _ HR); pose proof (ring_cap _ _ _ _ HR); lia).
  rewrite <- bind_assoc. erewrite bind_ret by (apply upd_msg_queue_twice; exact Hm).
  eexists. split; [done|]. split; [|done]. eexists. simpl. rewrite lookup_insert_eq.
  split; [done|]. split; [done|]. rewrite <- (ring_max _ _ _ _ HR) in HR' |- *. apply HR'.
Qed.
End Ring.

(** ** The whole operations, when they need not wait *)
#[export] Instance mq_has_sems {ops : AllocOps} : HasSems mq_store := {|
  sems_of := mq_sems;
  put_sems := with_mq_sems;
  sems_of_put _ _ := eq_refl;
|}.

Section Operations.
Context {ops : AllocOps} (e : sched_env).
Implicit Types (t : kstate mq_store) (l : list Z).

(** [queue_post] and [queue_pend] between two switches: they go on to their
    second section when the semaphore gave a unit at once. *)
Definition post_now (p v : Z) : M (kstate mq_store) (step OS_RETURN_E) :=
  let* r := queue_post_acquire e p in
  match r with
  | Done OS_NO_ERR => let* (_, r) := queue_post_put e p v in ret r
  | r => ret r
  end.

Definition pend_now (p : Z) : M (kstate mq_store) (step (Z * OS_RETURN_E)) :=
  let* r := queue_pend_acquire e p in
  match r with
  | Done OS_NO_ERR => let* (_, r) := queue_pend_take e p in ret r
  | Done err => ret (Done (NULL, err))
  | Yielded err => ret (Yielded (NULL, err))
  | Switched => ret Switched
  end.

(** The queue [p] of [cap] places holds [l], nobody waits on it and nobody is
    inside one of its sections. *)
Record mq_ready t (p cap : Z) l : Prop := {
  rd_flag : flag_ok t;
  rd_ptr : 0 < p;
  rd_lock : lock_free (ObjLock p) t;
  rd_lock_read : lock_free (ObjLock (sem_read p)) t;
  rd_lock_write : lock_free (ObjLock (sem_write p)) t;
  rd_cap : cap < 2 ^ 31;
  rd_ring : ring (core t) p cap l;
  rd_read : sem_holds (mq_sems (core t)) (sem_read p) (Z.of_nat (length l));
  rd_write : sem_holds (mq_sems (core t)) (sem_write p) (cap - Z.of_nat (length l));
}.

Lemma mq_acquire_run t p cap l sem n :
  mq_ready t p cap l -> lock_free (ObjLock sem) t -> sem <> NULL ->
  sem_holds (mq_sems (core t)) sem n -> 1 <= n < 2 ^ 31 ->
  exists t', acquire e p sem t = Ret (Done OS_NO_ERR, t') /\ sem_moved t sem (n - 1) t'.
Proof.
  intros HR Hl Hs Hh Hn. destruct (rd_ring _ _ _ _ HR) as (m & Hm & Hi & _).
  assert (exists t1, check_init e p t = Ret (true, t1) /\ core t1 = core t /\ same_locks t t1)
    as (t1 & Hc & Hc1 & Hs1).
  { apply (critical_run e (ObjLock p) _ t _ _ (rd_flag _ _ _ _ HR) (rd_lock _ _ _ _ HR)).
    rewrite (exec_lift_read _ _ _ m) by (unfold get_msg_queue; simpl; by rewrite Hm).
    unfold ret. rewrite bool_decide_true by done. unfold with_core, inside. done. }
  destruct (client_pend e t1 sem n) as (t2 & Hp & c & Hc2 & Hs2 & Hh2 & Ho2);
    [exact (same_locks_flag _ _ Hs1 (rd_flag _ _ _ _ HR))|by eapply same_locks_free|done
    |by rewrite Hc1|done|].
  unfold acquire. rewrite decide_False by (pose proof (rd_ptr _ _ _ _ HR); unfold NULL; lia).
  rewrite (bind_ret _ _ _ _ _ Hc), (bind_ret _ _ _ _ _ Hp). rewrite decide_False by tauto.
  exists t2. split; [done|]. exists c. rewrite Hc1 in *.
  split_and!; [done|by eapply same_locks_trans|done|done].
Qed.

Lemma post_put_run t p cap l v n :
  flag_ok t -> 0 < p -> lock_free (ObjLock p) t -> lock_free (ObjLock (sem_read p)) t ->
  ring (core t) p cap l -> Z.of_nat (length l) < cap ->
  sem_holds (mq_sems (core t)) (sem_read p) n -> 0 <= n -> n + 1 < 2 ^ 31 ->
  exists x t', queue_post_put e p v t = Ret ((x, Done OS_NO_ERR), t') /\
    ring (core t') p cap (l ++ [v]) /\ same_locks t t' /\
    sem_holds (mq_sems (core t')) (sem_read p) (n + 1) /\
    (forall p' k, p' <> sem_read p -> sem_holds (mq_sems (core t)) p' k ->
      sem_holds (mq_sems (core t')) p' k).
Proof.
  intros Hf Hp Hl Hls HR Hroom Hh Hn0 Hn.
  destruct (put_run (core t) p cap l v HR Hroom) as (s' & Hput & HR' & Hsems).
  destruct (client_signal e t p s' (sem_read p) n) as (t3 & t4 & Hpost & Hx & c & Hc & Hsl & Hh' & Ho);
    try (done || unfold sem_read, NULL; lia); [by simpl; rewrite Hsems|]. simpl in Hc, Ho.
  exists (int_flag t), t4. unfold queue_post_put.
  rewrite (bind_ret _ _ _ _ _ (enter_run e (ObjLock p) t Hl)).
  rewrite (exec_lift _ _ _ tt s') by exact Hput.
  rewrite (bind_ret _ _ _ _ _ Hpost), (bind_ret _ _ _ _ _ Hx). split; [done|]. split_and!.
  - destruct HR' as (m & Hm & Hi & Hr). exists m. by rewrite Hc.
  - destruct Hsl as [H1 H2]. split; [exact H1|exact H2].
  - by rewrite Hc.
  - intros p' k Hne H. rewrite Hc. apply Ho; [done|]. by rewrite Hsems.
Qed.

Lemma pend_take_run t p cap v l n :
  flag_ok t -> 0 < p -> lock_free (ObjLock p) t -> lock_free (ObjLock (sem_write p)) t ->
  ring (core t) p cap (v :: l) ->
  sem_holds (mq_sems (core t)) (sem_write p) n -> 0 <= n -> n + 1 < 2 ^ 31 ->
  exists x t', queue_pend_take e p t = Ret ((x, Done (v, OS_NO_ERR)), t') /\
    ring (core t') p cap l /\ same_locks t t' /\
    sem_holds (mq_sems (core t')) (sem_write p) (n + 1) /\
    (forall p' k, p' <> sem_write p -> sem_holds (mq_sems (core t)) p' k ->
      sem_holds (mq_sems (core t')) p' k).
Proof.
  intros Hf Hp Hl Hls HR Hh Hn0 Hn. pose proof HR as (m & Hm & Hi & _).
  destruct (get_run (core t) p cap l v HR) as (s' & Hget & HR' & Hsems).
  destruct (client_signal e t p s' (sem_write p) n) as (t3 & t4 & Hpost & Hx & c & Hc & Hsl & Hh' & Ho);
    try (done || unfold sem_write, NULL; lia); [by simpl; rewrite Hsems|]. simpl in Hc, Ho.
  exists (int_flag t), t4. unfold queue_pend_take.
  rewrite (bind_ret _ _ _ _ _ (enter_run e (ObjLock p) t Hl)).
  rewrite (exec_lift_read _ _ _ m) by (unfold get_msg_queue; simpl; by rewrite Hm).
  rewrite decide_False by tauto. rewrite (exec_lift _ _ _ v s') by exact Hget.
  rewrite (bind_ret _ _ _ _ _ Hpost), (bind_ret _ _ _ _ _ Hx). split; [done|]. split_and!.
  - destruct HR' as (m' & Hm' & Hi' & Hr). exists m'. by rewrite Hc.
  - destruct Hsl as [H1 H2]. split; [exact H1|exact H2].
  - by rewrite Hc.
  - intros p' k Hne H. rewrite Hc. apply Ho; [done|]. by rewrite Hsems.
Qed.

(** ** The operations on the bounded queue *)
Lemma post_now_run t p cap l v :
  mq_ready t p cap l -> Z.of_nat (length l) < cap ->
  exists t', post_now p v t = Ret (Done OS_NO_ERR, t') /\ mq_ready t' p cap (l ++ [v]) /\
    same_locks t t'.
Proof.
  intros HR Hroom. pose proof HR as [Hf Hp Hl Hlr Hlw Hcap Hring Hr Hw].
  destruct (mq_acquire_run t p cap l (sem_write p) (cap - Z.of_nat (length l)) HR Hlw)
    as (t1 & Ha & c & Hc & Hs & Hw' & Ho); [unfold sem_write, NULL; lia|done|lia|].
  assert (mq_sems (core t1) = c) as Ec by (by rewrite Hc). rewrite <- Ec in Hw', Ho.
  assert (ring (core t1) p cap l) as Hring1
    by (destruct Hring as (m & ? & ? & ?); exists m; by rewrite Hc).
  destruct (post_put_run t1 p cap l v (Z.of_nat (length l)))
    as (x & t2 & Hput & Hring2 & Hs2 & Hr2 & Ho2); try done; try lia.
  - by eapply same_locks_flag.
  - by eapply same_locks_free.
  - by eapply same_locks_free.
  - apply Ho; [unfold sem_read, sem_write; lia|done].
  - pose proof (same_locks_trans _ _ _ Hs Hs2) as Hs'. exists t2. unfold post_now.
    rewrite (bind_ret _ _ _ _ _ Ha), (bind_ret _ _ _ _ _ Hput). split; [done|]. split; [|done].
    split; try done; try (by eapply same_locks_free); try (by eapply same_locks_flag).
    + rewrite length_app. simpl. by replace (Z.of_nat (length l + 1)) with (Z.of_nat (length l) + 1) by lia.
    + rewrite length_app. simpl. replace (cap - Z.of_nat (length l + 1)) with
        (cap - Z.of_nat (length l) - 1) by lia. apply Ho2; [unfold sem_read, sem_write; lia|done].
Qed.

Lemma pend_now_run t p cap v l :
  mq_ready t p cap (v :: l) ->
  exists t', pend_now p t = Ret (Done (v, OS_NO_ERR), t') /\ mq_ready t' p cap l /\
    same_locks t t'.
Proof.
  intros HR. pose proof HR as [Hf Hp Hl Hlr Hlw Hcap Hring Hr Hw].
  assert (Z.of_nat (length (v :: l)) <= cap) as Hlen
    by (destruct Hring as (m & _ & _ & Hrg); exact (ring_len _ _ _ _ Hrg)).
  simpl length in Hlen, Hr, Hw.
  destruct (mq_acquire_run t p cap (v :: l) (sem_read p) (Z.of_nat (S (length l))) HR Hlr)
    as (t1 & Ha & c & Hc & Hs & Hr' & Ho); [unfold sem_read, NULL; lia|done|lia|].
  assert (mq_sems (core t1) = c) as Ec by (by rewrite Hc). rewrite <- Ec in Hr', Ho.
  assert (ring (core t1) p cap (v :: l)) as Hring1
    by (destruct Hring as (m & ? & ? & ?); exists m; by rewrite Hc).
  destruct (pend_take_run t1 p cap v l (cap - Z.of_nat (S (length l))))
    as (x & t2 & Htake & Hring2 & Hs2 & Hw2 & Ho2); try done; try lia.
  - by eapply same_locks_flag.
  - by eapply same_locks_free.
  - by eapply same_locks_free.
  - apply Ho; [unfold sem_read, sem_write; lia|done].
  - pose proof (same_locks_trans _ _ _ Hs Hs2) as Hs'. exists t2. unfold pend_now.
    rewrite (bind_ret _ _ _ _ _ Ha), (bind_ret _ _ _ _ _ Htake). split; [done|]. split; [|done].
    split; try done; try (by eapply same_locks_free); try (by eapply same_locks_flag).
    + replace (Z.of_nat (length l)) with (Z.of_nat (S (length l)) - 1) by lia.
      apply Ho2; [unfold sem_read, sem_write; lia|done].
    + by replace (cap - Z.of_nat (length l)) with (cap - Z.of_nat (S (length l)) + 1) by lia.
Qed.

(** *** Sequences of operations, against a bounded list *)
Inductive mq_op : Type := Post (v : Z) | Pend.

(** What is returned: the element, or nothing for a post. *)
Fixpoint fifo_run (cap : Z) (os : list mq_op) (l : list Z) : option (list (option Z) * list Z) :=
  match os with
  | [] => Some ([], l)
  | Post v :: os =>
      if decide (Z.of_nat (length l) < cap) then
        '(r, l') ← fifo_run cap os (l ++ [v]); Some (None :: r, l')
      else None
  | Pend :: os =>
      match l with
      | x :: l => '(r, l') ← fifo_run cap os l; Some (Some x :: r, l')
      | [] => None
      end
  end.

Fixpoint mq_run (p : Z) (os : list mq_op) : M (kstate mq_store) (list (option Z)) :=
  match os with
  | [] => ret []
  | Post v :: os =>
      let* r := post_now p v in
      match r with
      | Done OS_NO_ERR => let* rs := mq_run p os in ret (None :: rs)
      | _ => diverge
      end
  | Pend :: os =>
      let* r := pend_now p in
      match r with
      | Done (x, OS_NO_ERR) => let* rs := mq_run p os in ret (Some x :: rs)
      | _ => diverge
      end
  end.

(** C13: a message queue is a bounded first-in first-out queue.  Any sequence
    of posts and pends that the bounded list accepts (no post when it is full,
    no pend when it is empty) returns the same elements in the same order,
    with [OS_NO_ERR] each time and without ever blocking; the two semaphores
    keep counting the full and the empty places, and the locks and the
    interrupt flag are as before. *)
Theorem queue_refines_bounded_fifo os t p cap l rs l' :
  mq_ready t p cap l -> fifo_run cap os l = Some (rs, l') ->
  exists t', mq_run p os t = Ret (rs, t') /\ mq_ready t' p cap l' /\ same_locks t t'.
Proof.
  revert t l rs. induction os as [|[v|] os IH]; intros t l rs HR Hrun; simpl in Hrun.
  - injection Hrun as <- <-. exists t. split_and!; [done|done|split; done].
  - case_decide as Hroom; [|done].
    destruct (fifo_run cap os (l ++ [v])) as [[r1 l1]|] eqn:E; [|done]. injection Hrun as <- <-.
    destruct (post_now_run t p cap l v HR Hroom) as (t1 & H1 & HR1 & Hs1).
    destruct (IH t1 _ _ HR1 E) as (t' & H' & HR' & Hs').
    exists t'. simpl. rewrite (bind_ret _ _ _ _ _ H1), (bind_ret _ _ _ _ _ H').
    split_and!; [done|done|by eapply same_locks_trans].
  - destruct l as [|x l]; [done|].
    destruct (fifo_run cap os l) as [[r1 l1]|] eqn:E; [|done]. injection Hrun as <- <-.
    destruct (pend_now_run t p cap x l HR) as (t1 & H1 & HR1 & Hs1).
    destruct (IH t1 _ _ HR1 E) as (t' & H' & HR' & Hs').
    exists t'. simpl. rewrite (bind_ret _ _ _ _ _ H1), (bind_ret _ _ _ _ _ H').
    split_and!; [done|done|by eapply same_locks_trans].
Qed.
End Operations.

(** ** Creation *)
Section Init.
Context {ops : AllocOps} `{!AllocSpec ops} (e : sched_env).
Implicit Types (t : kstate mq_store).

(** After [memset] and [INIT_SPINLOCK]. *)
Definition blank t p : kstate mq_store :=
  mk_kstate (mk_mq_store (with_sems
      (<[sem_read p := zero_sem]> (<[sem_write p := zero_sem]> (sems (mq_sems (core t)))))
      (mq_sems (core t))) (<[p := zero_queue_t]> (msg_queues (core t))) (cells (core t)))
    (int_flag t) (<[ObjLock p := SPINLOCK_INIT_VALUE]> (locks t)).

(** The queue [p] is marked as not initialised. *)
Definition unset t p : Prop := exists m, msg_queues (core t) !! p = Some m /\ mq_init m = 0.

Lemma blank_queue_unset t p t' : msg_queues (core t') = msg_queues (core (blank t p)) -> unset t' p.
Proof. intros H. exists zero_queue_t. rewrite H. split; [apply lookup_insert_eq|done]. Qed.

Lemma queue_init_unfold t p size :
  p <> NULL ->
  queue_init e p size t = (
    let* err := on_sems (sem_init (sem_read p) 0) in
    if decide (err <> OS_NO_ERR) then ret err
    else
      let* err := on_sems (sem_init (sem_write p) (i32 size)) in
      if decide (err <> OS_NO_ERR) then
        let* err := on_sems (sem_destroy e (sem_read p)) in ret err
      else
        let* c := lift (c_kmalloc (u32 (4 * size))) in
        lift (upd_msg_queue p (set_container c)) >>>
        if decide (c = NULL) then
          let* err := on_sems (sem_destroy e (sem_read p)) in
          if decide (err <> OS_NO_ERR) then ret err
          else
            let* err := on_sems (sem_destroy e (sem_write p)) in
            if decide (err <> OS_NO_ERR) then ret err else ret OS_ERR_MALLOC
        else
          lift (upd_msg_queue p (set_max_size size)) >>>
          lift (upd_msg_queue p (set_mq_init 1)) >>>
          ret OS_NO_ERR) (blank t p).
Proof. intros Hp. unfold queue_init. by rewrite decide_False. Qed.

Lemma foldr_insert_lookup (l : list Z) (m : gmap Z Z) a :
  a ∈ l -> is_Some (foldr (fun b m => <[b := 0]> m) m l !! a).
Proof.
  induction l as [|b l IH]; [intros H; destruct (not_elem_of_nil _ H)|]. simpl.
  intros H. rewrite lookup_insert_is_Some. destruct (decide (b = a)) as [->|Hne]; [by left|].
  right. split; [done|]. apply IH. apply elem_of_cons in H as [E|]; [congruence|done].
Qed.

Lemma block_cell c n i : 0 <= i < n / 4 -> cell c i ∈ block_cells c n.
Proof.
  intros Hi. unfold block_cells. apply list_elem_of_fmap. exists (Z.to_nat i).
  split; [f_equal; lia|]. apply elem_of_seq. lia.
Qed.

(** The container: its words exist, the semaphores are untouched. *)
Lemma c_kmalloc_run s n L :
  qheap (sc_q (ss_sched (mq_sems s))) L -> 0 <= n <= kmalloc_max ->
  let c := (kmalloc n (sem_heap (mq_sems s))).1 in
  exists s', c_kmalloc n s = Ret (c, s') /\ msg_queues s' = msg_queues s /\
    (forall p k, sem_holds (mq_sems s) p k -> sem_holds (mq_sems s') p k) /\
    (c <> NULL -> forall i, 0 <= i < n / 4 -> is_Some (cells s' !! cell c i)).
Proof.
  intros HH Hn c0. subst c0.
  assert (forall c Q, q_kmalloc n (sc_q (ss_sched (mq_sems s))) = Ret (c, Q) ->
    exists s1, MsgQueue.on_queues (q_kmalloc n) s = Ret (c, s1) /\
      sc_q (ss_sched (mq_sems s1)) = Q /\ sems (mq_sems s1) = sems (mq_sems s) /\
      msg_queues s1 = msg_queues s) as Hlift.
  { intros c Q H. unfold MsgQueue.on_queues, zoom.
    rewrite (on_queues_run _ (mq_sems s) _ _ H). eexists. split; [done|]. done. }
  assert (forall s1 Q, sc_q (ss_sched (mq_sems s1)) = Q -> sems (mq_sems s1) = sems (mq_sems s) ->
    qs_nodes Q = qs_nodes (sc_q (ss_sched (mq_sems s))) ->
    qs_queues Q = qs_queues (sc_q (ss_sched (mq_sems s))) ->
    forall p k, sem_holds (mq_sems s) p k -> sem_holds (mq_sems s1) p k) as Hkeep.
  { intros s1 Q HQ Hs Hns Hqs p k (m & Hm & Hi & Hk & A & HR & Hw). exists m.
    rewrite Hs. split; [done|]. split; [done|]. split; [done|]. exists A. split; [|done].
    rewrite HQ. exact (qrep_same_store _ _ _ Hns Hqs HR). }
  unfold c_kmalloc.
  assert (forall c Q, q_kmalloc n (sc_q (ss_sched (mq_sems s))) = Ret (c, Q) ->
    (kmalloc n (sem_heap (mq_sems s))).1 = c) as Hfst.
  { intros c Q. unfold q_kmalloc, sem_heap. destruct (kmalloc n _). by intros [= -> _]. }
  destruct (exec_kmalloc _ L n HH Hn) as [Hk|(c & m & h & Hk & Hc & _)]; rewrite (Hfst _ _ Hk);
    destruct (Hlift _ _ Hk) as (s1 & Hrun & HQ & Hs & Hq); rewrite (bind_ret _ _ _ _ _ Hrun).
  - exists s1. rewrite decide_True by done. split; [done|]. split; [done|].
    split; [by eapply Hkeep|done].
  - rewrite decide_False by done. eexists. split; [done|]. split; [done|].
    split; [by apply (Hkeep s1 _ HQ Hs)|]. intros _ i Hi. apply foldr_insert_lookup. by apply block_cell.
Qed.

(** Only the second semaphore could not be created. *)
Lemma init_no_write t p t1 t2 :
  0 < p -> flag_ok t -> created (HS := mq_has_sems) (blank t p) (sem_read p) 0 t1 ->
  refused (HS := mq_has_sems) t1 (sem_write p) t2 ->
  exists t3, on_sems (sem_destroy e (sem_read p)) t2 = Ret (OS_NO_ERR, t3) /\ unset t3 p.
Proof.
  intros Hp Hf [(c1 & Hc1) Hf1 Hl1 Hh1 _ _] [(m & Hc2) Hf2 Hl2].
  destruct (object_locks (locks (blank t p)) (locks t2) p (sem_read p) (sem_write p))
    as (_ & Hlr & _); [apply fn_lookup_insert|by rewrite Hl2, Hl1
    |unfold sem_read, sem_write; lia..|].
  destruct (client_destroy (HS := mq_has_sems) e t2 (sem_read p) 0) as (t3 & m3 & H3 & Hc3 & _);
    [unfold flag_ok; by rewrite Hf2, Hf1|exact Hlr|unfold sem_read, NULL; lia| |].
  { rewrite Hc2. apply (sem_holds_insert (sems_of (core t1))); [unfold sem_read, sem_write; lia|done]. }
  exists t3. split; [exact H3|]. rewrite Hc2, Hc1 in Hc3.
  apply (blank_queue_unset t). by rewrite Hc3.
Qed.

(** The last steps of the initialisation. *)
Lemma init_finish t p m size :
  msg_queues (core t) !! p = Some m ->
  exists t', (lift (upd_msg_queue p (set_max_size size)) >>>
      lift (upd_msg_queue p (set_mq_init 1)) >>> ret OS_NO_ERR) t = Ret (OS_NO_ERR, t') /\
    core t' = with_msg_queues (<[p := set_mq_init 1 (set_max_size size m)]> (msg_queues (core t)))
                (core t) /\ int_flag t' = int_flag t /\ locks t' = locks t.
Proof.
  intros Hm.
  rewrite (exec_lift _ _ _ tt _ (upd_msg_queue_run p (set_max_size size) (core t) m Hm)).
  erewrite exec_lift by (apply upd_msg_queue_run, lookup_insert_eq).
  eexists. split; [done|]. simpl. unfold with_msg_queues. simpl. by rewrite insert_insert_eq.
Qed.

(** Both semaphores exist: the container, or back to nothing. *)
Lemma init_container t p size t1 t2 :
  0 < p -> flag_ok t -> 0 < size < 2 ^ 30 ->
  created (HS := mq_has_sems) (blank t p) (sem_read p) 0 t1 ->
  created (HS := mq_has_sems) t1 (sem_write p) size t2 ->
  let c := (kmalloc (4 * size) (sem_heap (mq_sems (core t2)))).1 in
  exists t', (let* c := lift (c_kmalloc (u32 (4 * size))) in
        lift (upd_msg_queue p (set_container c)) >>>
        if decide (c = NULL) then
          let* err := on_sems (sem_destroy e (sem_read p)) in
          if decide (err <> OS_NO_ERR) then ret err
          else
            let* err := on_sems (sem_destroy e (sem_write p)) in
            if decide (err <> OS_NO_ERR) then ret err else ret OS_ERR_MALLOC
        else
          lift (upd_msg_queue p (set_max_size size)) >>>
          lift (upd_msg_queue p (set_mq_init 1)) >>>
          ret OS_NO_ERR) t2 = Ret (if decide (c = NULL) then OS_ERR_MALLOC else OS_NO_ERR, t') /\
    if decide (c = NULL) then unset t' p else mq_ready t' p size [].
Proof.
  intros Hp Hf Hsz [(c1 & Hc1) Hf1 Hl1 Hh1 _ _] [(c2 & Hc2) Hf2 Hl2 Hh2 Ho2 (A & L & HR & HH)] c0.
  destruct (object_locks (locks (blank t p)) (locks t2) p (sem_read p) (sem_write p))
    as (Hl & Hlr & Hlw); [apply fn_lookup_insert|by rewrite Hl2, Hl1
    |unfold sem_read, sem_write; lia..|].
  assert (sem_holds (mq_sems (core t2)) (sem_read p) 0) as Hh1'
    by (apply (Ho2 (sem_read p) 0); [unfold sem_read, sem_write; lia|exact Hh1]).
  assert (msg_queues (core t2) !! p = Some zero_queue_t) as Hm
    by (rewrite Hc2, Hc1; apply lookup_insert_eq).
  assert (flag_ok t2) as Hfl by (unfold flag_ok; by rewrite Hf2, Hf1).
  rewrite u32_small by lia.
  destruct (c_kmalloc_run (core t2) (4 * size) L HH) as (s3 & Hk & Hq3 & Hkeep & Hcells);
    [unfold kmalloc_max; lia|]. fold c0 in Hk, Hcells. rename c0 into c. clearbody c.
  rewrite (exec_lift _ _ _ c s3) by exact Hk.
  set (m := set_container c zero_queue_t).
  rewrite (exec_lift _ _ _ tt (with_msg_queues (<[p := m]> (msg_queues s3)) s3))
    by (unfold upd_msg_queue; simpl; by rewrite Hq3, Hm).
  destruct (decide (c = NULL)) as [->|Hc].
  - set (t3 := with_core (with_msg_queues (<[p := m]> (msg_queues s3)) s3) t2 : kstate mq_store).
    destruct (client_destroy (HS := mq_has_sems) e t3 (sem_read p) 0) as (t4 & m4 & H4 & Hc4 & Hs4);
      [exact Hfl|exact Hlr|unfold sem_read, NULL; lia|by apply Hkeep|].
    rewrite (bind_ret _ _ _ _ _ H4), decide_False by tauto.
    destruct (client_destroy (HS := mq_has_sems) e t4 (sem_write p) size)
      as (t5 & m5 & H5 & Hc5 & _); [by eapply same_locks_flag|by eapply same_locks_free
      |unfold sem_write, NULL; lia| |].
    { rewrite Hc4. apply (sem_holds_insert (sems_of (core t3)));
        [unfold sem_read, sem_write; lia|by apply Hkeep]. }
    rewrite (bind_ret _ _ _ _ _ H5), decide_False by tauto.
    exists t5. split; [done|]. exists m.
    rewrite Hc5, Hc4. split; [apply lookup_insert_eq|done].
  - specialize (Hcells Hc). set (t3 := with_core (with_msg_queues (<[p := m]> (msg_queues s3)) s3) t2).
    destruct (init_finish t3 p m size) as (t4 & H4 & Hc4 & Hf4 & Hl4); [apply lookup_insert_eq|].
    exists t4. split; [exact H4|].
    split; unfold lock_free; rewrite ?Hl4, ?Hc4; try done; try lia.
    + unfold flag_ok. by rewrite Hf4.
    + exists (set_mq_init 1 (set_max_size size m)). split; [apply lookup_insert_eq|]. split; [done|].
      split; simpl; try lia; try done. intros i Hi. apply Hcells.
      by rewrite Z.mul_comm, Z.div_mul by lia.
    + by apply Hkeep.
    + rewrite Z.sub_0_r. by apply Hkeep.
Qed.
End Init.

(** What the three requests to the heap make of the initialisation: the value
    it returns, and whether the queue is ready. *)
Definition init_result {ops : AllocOps} (size : Z) (h : heap) : OS_RETURN_E * bool :=
  let (read_queue, h) := kmalloc sizeof_kernel_queue h in
  if decide (read_queue = NULL) then (OS_ERR_MALLOC, false)
  else
    let (write_queue, h) := kmalloc sizeof_kernel_queue h in
    if decide (write_queue = NULL) then (OS_NO_ERR, false)
    else
      let (words, h) := kmalloc (4 * size) h in
      if decide (words = NULL) then (OS_ERR_MALLOC, false) else (OS_NO_ERR, true).

(** C34: What [queue_init] does with any heap, for a queue of [size] places,
    0 < size < 2^30.  It asks for the queues of the two semaphores, then for
    the container.  When the first or the third request fails it returns
    [OS_ERR_MALLOC] and the queue is not initialised; when the second fails it
    returns [OS_NO_ERR] although the queue is not initialised; when none fails
    it returns [OS_NO_ERR] and the queue is empty, ready for [size] elements. *)
Theorem queue_init_correct {ops : AllocOps} `{!AllocSpec ops} (e : sched_env) t p size A L :
  0 < p -> flag_ok t -> 0 < size < 2 ^ 30 ->
  qrep (sc_q (ss_sched (mq_sems (core t)))) A ->
  qheap (sc_q (ss_sched (mq_sems (core t)))) L ->
  let r := init_result size (sem_heap (mq_sems (core t))) in
  exists t', queue_init e p size t = Ret (fst r, t') /\
    if snd r then mq_ready t' p size [] else unset t' p.
Proof.
  intros Hp Hf Hsz HR HH. rewrite queue_init_unfold by (unfold NULL; lia).
  assert (sem_read p <> NULL) as Hnr by (unfold sem_read, NULL; lia).
  assert (sem_write p <> NULL) as Hnw by (unfold sem_write, NULL; lia).
  cbv zeta. unfold init_result. destruct (kmalloc sizeof_kernel_queue (sem_heap (mq_sems (core t)))) as [c1 h1] eqn:K1.
  destruct (client_init (HS := mq_has_sems) (blank t p) (sem_read p) 0 A L)
    as [(t1 & H1 & [(m & Hc) _ _])|(t1 & H1 & C1)]; [done|done|done| |];
    destruct (client_init_heap (HS := mq_has_sems) _ _ _ _ _ Hnr H1) as [E1 K1'];
    change (sem_heap (sems_of (core (blank t p)))) with (sem_heap (mq_sems (core t))) in E1, K1';
    unfold queue_room in E1; rewrite K1 in E1, K1'; cbn [fst snd] in E1, K1'; case_decide; try discriminate E1.
  { exists t1. rewrite (bind_ret _ _ _ _ _ H1), decide_True by done.
    split; [done|]. apply (blank_queue_unset t). by rewrite Hc. }
  rewrite (bind_ret _ _ _ _ _ H1). rewrite decide_False by tauto.
  pose proof C1 as [_ Hf1 Hl1 Hh1 _ (A1 & L1 & HR1 & HH1)].
  rewrite (i32_small size) by lia.
  destruct (client_init (HS := mq_has_sems) t1 (sem_write p) size A1 L1)
    as [(t2 & H2 & R2)|(t2 & H2 & C2)]; [done|done|done| |]; rewrite (bind_ret _ _ _ _ _ H2);
    destruct (client_init_heap (HS := mq_has_sems) _ _ _ _ _ Hnw H2) as [E2 K2]; rewrite K1' in E2, K2;
    unfold queue_room in E2; destruct (kmalloc sizeof_kernel_queue h1) as [c2 h2]; cbn [fst snd] in E2, K2;
    case_decide; try discriminate E2.
  - rewrite decide_True by done. destruct (init_no_write e t p t1 t2 Hp Hf C1 R2) as (t3 & H3 & Hu).
    exists t3. by rewrite (bind_ret _ _ _ _ _ H3).
  - rewrite decide_False by tauto. destruct (init_container e t p size t1 t2 Hp Hf Hsz C1 C2) as (t' & H' & Hr).
    change (sems_of (core t2)) with (mq_sems (core t2)) in K2. rewrite K2 in H', Hr. exists t'.
    destruct (kmalloc (4 * size) h2) as [c3 h3]. cbn [fst] in H', Hr. rewrite H'. by case_decide.
Qed.

(** ** A post that survives the destruction of the queue *)
Section Destroyed.
Context {ops : AllocOps} (e : sched_env).
Implicit Types (t : kstate mq_store).

Lemma on_sems_same {A} (m : M (kstate sem_state) A) t a t' :
  MsgQueue.on_sems m t = Ret (a, t') ->
  msg_queues (core t') = msg_queues (core t) /\ cells (core t') = cells (core t).
Proof. intros H. by destruct (on_sems_inv (HS := mq_has_sems) m t a t' H) as [c ->]. Qed.

Lemma lift_inv {A} (m : M mq_store A) t a t' :
  lift m t = Ret (a, t') -> m (core t) = Ret (a, core t').
Proof.
  unfold lift, zoom. destruct (m (core t)) as [[a1 s1]| | |]; [|done..]. by intros [= -> <-].
Qed.

Lemma foldr_delete_lookup (l : list Z) (m : gmap Z Z) a :
  a ∈ l -> foldr (fun b m => delete b m) m l !! a = None.
Proof.
  induction l as [|b l IH]; [intros H; destruct (not_elem_of_nil _ H)|]. simpl.
  destruct (decide (b = a)) as [->|Hne]; [by rewrite lookup_delete_eq|].
  intros [Ea|H]%elem_of_cons; [congruence|]. rewrite lookup_delete_ne by done. by apply IH.
Qed.

(** The words of the container are gone after [queue_destroy]. *)
Lemma destroy_frees p t err t' m i :
  msg_queues (core t) !! p = Some m -> mq_init m = 1 -> p <> NULL ->
  0 <= i < max_size m -> 4 * max_size m < 2 ^ 32 ->
  queue_destroy e p t = Ret (err, t') ->
  msg_queues (core t') !! p = Some (set_mq_init 0 m) /\
  cells (core t') !! cell (container m) i = None.
Proof.
  intros Hm Hi Hp Hidx Hmax H. unfold queue_destroy in H. rewrite decide_False in H by done.
  unfold critical in H. apply bind_Ret_inv in H as (x & k1 & HE & H).
  assert (core k1 = core t) as Hc1.
  { revert HE. unfold ENTER_CRITICAL. destruct (kernel_interrupt_disable _).
    case_decide; [|by intros [= _ <-]]. destruct (_ && _); [done|by intros [= _ <-]]. }
  apply bind_Ret_inv in H as (r & k2 & H & HX).
  apply bind_Ret_inv in HX as (u & k3 & HX & Hr). injection Hr as -> ->.
  assert (core t' = core k2) as -> by (unfold EXIT_CRITICAL in HX; by injection HX as _ <-).
  rewrite (exec_lift_read _ _ _ m) in H by (unfold get_msg_queue; by rewrite Hc1, Hm).
  rewrite decide_False in H by tauto.
  apply bind_Ret_inv in H as (u1 & k4 & Hfree%lift_inv & H).
  apply bind_Ret_inv in H as (u2 & k5 & Hupd%lift_inv & H).
  apply bind_Ret_inv in H as (e1 & k6 & [Hq6 Hc6]%on_sems_same & H).
  apply bind_Ret_inv in H as (e2 & k7 & [Hq7 Hc7]%on_sems_same & H). injection H as _ <-.
  assert (msg_queues (core k4) = msg_queues (core t) /\
    cells (core k4) !! cell (container m) i = None) as [Hq4 Hc4].
  { unfold c_kfree, on_queues, Semaphore.on_queues, on_sched, q, zoom, q_kfree, bind, modify in Hfree.
    simpl in Hfree. injection Hfree as _ <-. simpl. rewrite Hc1. split; [done|].
    apply foldr_delete_lookup, block_cell. rewrite u32_small by lia.
    rewrite Z.mul_comm, Z.div_mul by done. done. }
  unfold upd_msg_queue in Hupd. rewrite Hq4, Hm in Hupd. injection Hupd as _ Hc5.
  rewrite Hq7, Hc7, Hq6, Hc6, <- Hc5. simpl. split; [apply lookup_insert_eq|exact Hc4].
Qed.
End Destroyed.

(** [queue_post] does not look at the queue again once it has its place.
    If the queue is destroyed between the two sections, the element is written
    into the freed container: in the model, where the block's words are gone,
    the post faults. *)
Theorem queue_post_after_destroy_faults {ops : AllocOps} (e : sched_env) t p cap l v t1 err t2 :
  mq_ready t p cap l -> Z.of_nat (length l) < cap -> 4 * cap < 2 ^ 32 ->
  queue_post_acquire e p t = Ret (Done OS_NO_ERR, t1) ->
  queue_destroy e p t1 = Ret (err, t2) -> lock_free (ObjLock p) t2 ->
  queue_post_put e p v t2 = Fault.
Proof.
  intros HR Hroom Hmax Ha Hd Hl2. pose proof HR as [Hf Hp Hl _ Hlw Hcap Hring _ Hw].
  destruct (mq_acquire_run e t p cap l (sem_write p) (cap - Z.of_nat (length l)) HR Hlw)
    as (t1' & Ha' & c & Hcore & _); [unfold sem_write, NULL; lia|done|lia|].
  unfold queue_post_acquire in Ha. assert (t1' = t1) as -> by congruence.
  destruct Hring as (m & Hm & Hi & [Hmx Hc _ _ _ Htop _ _]).
  assert (0 <= index_top m < cap) as Ht by (rewrite Htop; apply Z.mod_pos_bound; lia).
  assert (msg_queues (core t1) !! p = Some m) as Hm1 by (by rewrite Hcore). clear Hm.
  destruct (destroy_frees e p t1 err t2 m (index_top m) Hm1 Hi) as [Hm2 Hc2];
    [unfold NULL; lia|by rewrite Hmx|by rewrite Hmx|done|].
  unfold queue_post_put. rewrite (bind_ret _ _ _ _ _ (enter_run e (ObjLock p) t2 Hl2)).
  apply bind_fault. unfold lift, zoom, put_element, get_msg_queue. simpl. unfold bind at 1.
  rewrite Hm2. unfold write_cell. unfold bind at 1. simpl. by rewrite Hc2.
Qed.

(** *** Witnesses *)

(** A queue of two places at 4000, with its container at 9000. *)
Definition demo_mq : kstate mq_store :=
  mk_kstate (mk_mq_store
    (mk_sem_state parent_sched {[ 4024 := mk_sem 1068 0 1; 4048 := mk_sem 1069 2 1 ]})
    {[ 4000 := mk_queue_t 9000 0 2 0 0 1 ]} {[ 9000 := 0; 9004 := 0 ]}) 1
    (fun _ => SPINLOCK_INIT_VALUE).

Lemma demo_waiting w : 1068 <= w < 1070 ->
  exists A, qrep (sc_q parent_sched) A /\ A !! w = Some [].
Proof.
  intros Hw. exists (<[1066 := [30]]> fresh_abs).
  split; [apply pushed_rep; [lia|by eexists]|apply pushed_lookup; lia].
Qed.

Lemma demo_mq_ready : mq_ready demo_mq 4000 2 [].
Proof.
  split.
  - right. reflexivity.
  - lia.
  - reflexivity.
  - reflexivity.
  - reflexivity.
  - lia.
  - exists (mk_queue_t 9000 0 2 0 0 1). split; [reflexivity|]. split; [reflexivity|].
    split; simpl; try reflexivity; try lia.
    + intros i Hi. assert (i = 0 \/ i = 1) as [-> | ->] by lia; by eexists.
    + discriminate.
  - exists (mk_sem 1068 0 1). split; [reflexivity|]. split; [reflexivity|].
    split; [reflexivity|]. apply (demo_waiting 1068). lia.
  - exists (mk_sem 1069 2 1). split; [reflexivity|]. split; [reflexivity|].
    split; [reflexivity|]. apply (demo_waiting 1069). lia.
Qed.

Lemma queue_refines_bounded_fifo_witness :
  result_of (mq_run demo_env 4000 [Post 7; Post 8; Pend; Post 9; Pend; Pend] demo_mq) =
    Some [None; None; Some 7; None; Some 8; Some 9].
Proof.
  destruct (queue_refines_bounded_fifo demo_env [Post 7; Post 8; Pend; Post 9; Pend; Pend] demo_mq
    4000 2 [] _ _ demo_mq_ready eq_refl) as (t' & -> & _). reflexivity.
Defined.

Definition demo_mq1 : kstate mq_store := after (queue_post_acquire demo_env 4000) demo_mq.
Definition demo_mq2 : kstate mq_store := after (queue_destroy demo_env 4000) demo_mq1.

Lemma demo_mq_results :
  result_of (queue_post_acquire demo_env 4000 demo_mq) = Some (Done OS_NO_ERR) /\
  result_of (queue_destroy demo_env 4000 demo_mq1) = Some 0.
Proof. vm_compute. split; reflexivity. Qed.

Lemma queue_post_after_destroy_faults_witness :
  is_fault (queue_post_put demo_env 4000 7 demo_mq2) = true.
Proof.
  destruct demo_mq_results as [R1 R2].
  rewrite (queue_post_after_destroy_faults demo_env demo_mq 4000 2 [] 7 demo_mq1 0 demo_mq2
    demo_mq_ready); [reflexivity|simpl; lia|lia|exact (after_result _ _ _ R1)
    |exact (after_result _ _ _ R2)|vm_compute; reflexivity].
Defined.

(** The machine before the first queue exists. *)
Definition boot_mq : kstate mq_store :=
  mk_kstate (mk_mq_store (mk_sem_state
    (mk_sched boot_store ∅ ∅ (fun _ => demo_cpu) 3 3 6000 20 (fun c p => 1000 + p) 1065 1067
       SYSTEM_STATE_RUNNING 0 (fun _ => mk_handler 0 NULL) 77) ∅) ∅ ∅) 1 (fun _ => SPINLOCK_INIT_VALUE).

(** The result and the initialisation flag. *)
Definition mq_init_result (o : outcome (OS_RETURN_E * kstate mq_store)) :
  option (OS_RETURN_E * option Z) :=
  match o with
  | Ret (err, t) => Some (err, mq_init <$> msg_queues (core t) !! 256)
  | _ => None
  end.

Lemma boot_mq_result : mq_init_result (queue_init demo_env 256 8 boot_mq) = Some (OS_NO_ERR, Some 1).
Proof. vm_compute. reflexivity. Qed.

Lemma queue_init_correct_witness :
  init_result 8 (sem_heap (mq_sems (core boot_mq))) = (OS_NO_ERR, true) /\
  exists t', queue_init demo_env 256 8 boot_mq = Ret (OS_NO_ERR, t') /\ mq_ready t' 256 8 [].
Proof.
  assert (init_result 8 (sem_heap (mq_sems (core boot_mq))) = (OS_NO_ERR, true)) as E by (vm_compute; reflexivity).
  split; [exact E|].
  destruct (queue_init_correct demo_env boot_mq 256 8 ∅ ∅ ltac:(lia) (or_intror eq_refl)
    ltac:(lia) (proj1 boot_store_rep) (proj2 boot_store_rep)) as (t' & Hrun & H).
  rewrite E in Hrun, H. exists t'. split; [exact Hrun|exact H].
Defined.
