(* ===== verification/Frames.v ===== *)
(** * The interface of the frame pool

    What [memory/memalloc.c] promises to the paging code: two operations, the
    relation that says which frames are free, and the laws the paging code
    relies on.  [FramePool] is the instance. *)
From S2P Require Import Prelude.

Definition KERNEL_PAGE_SIZE : Z := 4096.
Definition KERNEL_MEM_OFFSET : Z := 3758096384. (* 0xE0000000 *)

Class FrameOps : Type := {
  frames : Type;
  alloc_kframes : Z -> M frames (Z * OS_RETURN_E);
  free_kframes : Z -> Z -> M frames OS_RETURN_E;
}.

(** The [n] frames that start at the address [a], by number. *)
Definition block (a n k : Z) : Prop := a / 4096 <= k < a / 4096 + n.

(** No [n] free frames follow each other. *)
Definition no_block (U : Z -> Prop) (n : Z) : Prop :=
  forall a, a mod 4096 = 0 -> ~ (forall k, block a n k -> U k).

Lemma no_block_one U : no_block U 1 -> forall k, ~ U k.
Proof.
  intros H k Hk. apply (H (k * 4096)); [by apply Z.mod_mul|]. unfold block. rewrite Z.div_mul by lia.
  intros j Hj. by replace j with k by lia.
Qed.

(** [frames_rep f U]: the frames in [U] are free.  [links_ok f] says in
    addition that the backward links of the list are right, which a call of
    [free_kframes] may break.  A release can fault when the pool is empty. *)
Class FrameSpec (ops : FrameOps) : Type := {
  frames_rep : frames -> (Z -> Prop) -> Prop;
  links_ok : frames -> Prop;
  frames_inj f U V : frames_rep f U -> frames_rep f V -> forall k, U k <-> V k;
  frames_ext f U V : (forall k, U k <-> V k) -> frames_rep f U -> frames_rep f V;
  alloc_kframes_spec f U n :
    frames_rep f U -> links_ok f -> 0 < n < 2 ^ 20 ->
    alloc_kframes n f = Ret ((NULL, OS_ERR_NO_MORE_FREE_MEM), f) /\ no_block U n \/
    exists a f', alloc_kframes n f = Ret ((a, OS_NO_ERR), f') /\
      0 <= a /\ a mod 4096 = 0 /\ a + 4096 * n < 2 ^ 32 /\
      (forall k, block a n k -> U k) /\
      frames_rep f' (fun k => U k /\ ~ block a n k) /\ links_ok f';
  free_kframes_spec f U a n :
    frames_rep f U -> 0 <= a -> a mod 4096 = 0 -> 0 < n ->
    a + 4096 * n < 2 ^ 32 -> (forall k, block a n k -> ~ U k) ->
    free_kframes a n f = Fault /\ (forall k, ~ U k) \/
    free_kframes a n f = Ret (OS_ERR_MALLOC, f) \/
    exists f', free_kframes a n f = Ret (OS_NO_ERR, f') /\
      frames_rep f' (fun k => U k \/ block a n k);
}.
