(* ===== verification/MemAlloc.v ===== *)
(** * Frame and page pools ([memory/memalloc.c])

    Physical frames and kernel pages are handed out from two sorted lists of
    free areas, whose nodes are blocks of the kernel heap. *)
From stdpp Require Import sorting.
From S2P Require Import Prelude Alloc Frames.

(** [struct mem_area] *)
Record mem_area : Type := mk_area {
  a_start : Z;
  a_size : Z;
  a_next : Z;
  a_prev : Z;
}.

#[export] Instance mem_area_eq_dec : EqDecision mem_area.
Proof. solve_decision. Defined.

(** [struct mem_range], an entry of the multiboot memory map. *)
Record mem_range : Type := mk_range {
  r_base : Z;
  r_limit : Z;
  r_type : Z;
}.

Definition ARCH_MAX_ADDRESS : Z := 2 ^ 32 - 1.
Definition sizeof_mem_area : Z := 16.
Definition MAX (x y : Z) : Z := if decide (x < y) then y else x.

Definition with_a_start (v : Z) (a : mem_area) : mem_area :=
  mk_area v (a_size a) (a_next a) (a_prev a).
Definition with_a_size (v : Z) (a : mem_area) : mem_area :=
  mk_area (a_start a) v (a_next a) (a_prev a).
Definition with_a_next (v : Z) (a : mem_area) : mem_area :=
  mk_area (a_start a) (a_size a) v (a_prev a).
Definition with_a_prev (v : Z) (a : mem_area) : mem_area :=
  mk_area (a_start a) (a_size a) (a_next a) v.

(** The two list variables of the file. *)
Inductive pool : Type := Frames | Pages.
#[export] Instance pool_eq_dec : EqDecision pool.
Proof. solve_decision. Defined.

Section Ops.
Context {ops : AllocOps}.

Record mstore : Type := mk_mstore {
  ms_heap : heap;
  ms_areas : gmap Z mem_area;
  kernel_free_frames : Z;
  kernel_free_pages : Z;
}.

Definition with_areas (m : gmap Z mem_area) (s : mstore) : mstore :=
  mk_mstore (ms_heap s) m (kernel_free_frames s) (kernel_free_pages s).

(** [*list] for a [mem_area_t** list] that points to a pool variable. *)
Definition list_of (l : pool) (s : mstore) : Z :=
  match l with Frames => kernel_free_frames s | Pages => kernel_free_pages s end.
Definition set_list (l : pool) (v : Z) (s : mstore) : mstore :=
  match l with
  | Frames => mk_mstore (ms_heap s) (ms_areas s) v (kernel_free_pages s)
  | Pages => mk_mstore (ms_heap s) (ms_areas s) (kernel_free_frames s) v
  end.

Definition get_area (p : Z) : M mstore mem_area := fun s =>
  match ms_areas s !! p with Some a => Ret (a, s) | None => Fault end.
Definition upd_area (p : Z) (f : mem_area -> mem_area) : M mstore unit := fun s =>
  match ms_areas s !! p with
  | Some a => Ret (tt, with_areas (<[p := f a]> (ms_areas s)) s)
  | None => Fault
  end.

(** The areas of a fresh block hold arbitrary values until assigned: every
    creation site assigns the four fields, collected in [a]. *)
Definition m_kmalloc : M mstore Z := fun s =>
  let '(p, h) := kmalloc sizeof_mem_area (ms_heap s) in
  Ret (p, mk_mstore h (ms_areas s) (kernel_free_frames s) (kernel_free_pages s)).
Definition store_area (p : Z) (a : mem_area) : M mstore unit :=
  if decide (p = NULL) then fault
  else modify (fun s => with_areas (<[p := a]> (ms_areas s)) s).
Definition m_kfree (p : Z) : M mstore unit := fun s =>
  Ret (tt, mk_mstore (kfree p (ms_heap s)) (delete p (ms_areas s))
                     (kernel_free_frames s) (kernel_free_pages s)).

(** The search loop of [add_free]: the last area that does not start after
    [start], and the one that follows it. *)
Fixpoint add_free_walk (fuel : nat) (start save cursor : Z) : M mstore (Z * Z) :=
  match fuel with
  | O => diverge
  | S fuel =>
      if decide (cursor = NULL) then ret (save, cursor)
      else
        let* c := get_area cursor in
        if decide (a_start c > start) then ret (save, cursor)
        else add_free_walk fuel start cursor (a_next c)
  end.

Definition walk_fuel (s : mstore) : nat := S (size (ms_areas s)).

Definition add_free_first (start size : Z) (list : pool) : M mstore OS_RETURN_E :=
  let* p := m_kmalloc in
  modify (set_list list p) >>>
  (* [if(list == NULL)] tests the address of the variable: never true here *)
  store_area p (mk_area start size NULL NULL) >>>
  ret OS_NO_ERR.

(** After the last area. *)
Definition add_free_end (start size save : Z) : M mstore OS_RETURN_E :=
  let* sv := get_area save in
  if decide (u32 (a_start sv + a_size sv) <> start) then
    let* new_node := m_kmalloc in
    if decide (new_node = NULL) then ret OS_ERR_MALLOC
    else
      store_area new_node (mk_area start size NULL save) >>>
      upd_area save (with_a_next new_node) >>>
      ret OS_NO_ERR
  else
    upd_area save (with_a_size (u32 (a_size sv + size))) >>> ret OS_NO_ERR.

(** Before the first area. *)
Definition add_free_begin (start size cursor : Z) (list : pool) : M mstore OS_RETURN_E :=
  let* c := get_area cursor in
  if decide (u32 (start + size) = a_start c) then
    upd_area cursor (with_a_size (u32 (a_size c + size))) >>>
    upd_area cursor (with_a_start start) >>>
    ret OS_NO_ERR
  else
    let* new_node := m_kmalloc in
    if decide (new_node = NULL) then ret OS_ERR_MALLOC
    else
      store_area new_node (mk_area start size cursor NULL) >>>
      upd_area cursor (with_a_prev new_node) >>>
      modify (set_list list new_node) >>>
      ret OS_NO_ERR.

(** Between two areas. *)
Definition add_free_mid (start size save cursor : Z) : M mstore OS_RETURN_E :=
  let* sv := get_area save in
  let* c := get_area cursor in
  if decide (u32 (a_start sv + a_size sv) = start) then
    if decide (u32 (start + size) = a_start c) then
      upd_area save (with_a_size (u32 (a_size sv + (size + a_size c)))) >>>
      upd_area save (with_a_next (a_next c)) >>>
      m_kfree cursor >>>
      ret OS_NO_ERR
    else
      upd_area save (with_a_size (u32 (a_size sv + size))) >>> ret OS_NO_ERR
  else if decide (u32 (start + size) = a_start c) then
    upd_area cursor (with_a_size (u32 (a_size c + size))) >>>
    upd_area cursor (with_a_start start) >>>
    ret OS_NO_ERR
  else
    let* new_node := m_kmalloc in
    if decide (new_node = NULL) then ret OS_ERR_MALLOC
    else
      store_area new_node (mk_area start size cursor save) >>>
      upd_area save (with_a_next new_node) >>>
      upd_area cursor (with_a_prev new_node) >>>
      ret OS_NO_ERR.

(** [list] is [None] for a null pointer. *)
Definition add_free (start size : Z) (list : option pool) : M mstore OS_RETURN_E :=
  match list with
  | None => ret OS_ERR_NULL_POINTER
  | Some list =>
      let* first := gets (list_of list) in
      if decide (first = NULL) then add_free_first start size list
      else
        let* fuel := gets walk_fuel in
        let* (save, cursor) := add_free_walk fuel start first first in
        let* sv := get_area save in
        if decide (save <> cursor /\ u32 (a_start sv + a_size sv) > start)
        then ret OS_ERR_UNAUTHORIZED_ACTION
        else
          let* over :=
            (if decide (save <> cursor /\ cursor <> NULL) then
               let* c := get_area cursor in
               ret (bool_decide (u32 (start + size) > a_start c))
             else ret false) in
          if over : bool then ret OS_ERR_UNAUTHORIZED_ACTION
          else if decide (cursor = NULL) then add_free_end start size save
          else if decide (cursor = save) then add_free_begin start size cursor list
          else add_free_mid start size save cursor
  end.

Definition remove_free (node : Z) (list : pool) : M mstore unit :=
  let* n := get_area node in
  if decide (a_next n = NULL) then
    if decide (a_prev n = NULL) then
      m_kfree node >>> modify (set_list list NULL)
    else
      upd_area (a_prev n) (with_a_next NULL) >>> m_kfree node
  else if decide (a_prev n = NULL) then
    upd_area (a_next n) (with_a_prev NULL) >>>
    modify (set_list list (a_next n)) >>>
    m_kfree node
  else
    upd_area (a_next n) (with_a_prev (a_prev n)) >>>
    upd_area (a_prev n) (with_a_next (a_next n)) >>>
    m_kfree node.

(** First fit. *)
Fixpoint get_block_walk (fuel : nat) (bytes cursor : Z) : M mstore Z :=
  match fuel with
  | O => diverge
  | S fuel =>
      if decide (cursor = NULL) then ret NULL
      else
        let* c := get_area cursor in
        if decide (a_size c >= bytes) then ret cursor
        else get_block_walk fuel bytes (a_next c)
  end.

Definition get_block (list : pool) (block_count : Z) : M mstore (Z * OS_RETURN_E) :=
  let* first := gets (list_of list) in
  let* fuel := gets walk_fuel in
  let bytes := u32 (KERNEL_PAGE_SIZE * block_count) in
  let* selected := get_block_walk fuel bytes first in
  if decide (selected = NULL) then ret (NULL, OS_ERR_NO_MORE_FREE_MEM)
  else
    let* a := get_area selected in
    let address := a_start a in
    upd_area selected (with_a_size (u32 (a_size a - bytes))) >>>
    upd_area selected (with_a_start (u32 (a_start a + bytes))) >>>
    (if decide (u32 (a_size a - bytes) = 0) then remove_free selected list else ret tt) >>>
    ret (address, OS_NO_ERR).

(** The critical sections around the following four are the subject of
    [Critical]. *)
Definition memalloc_alloc_kframes (frame_count : Z) : M mstore (Z * OS_RETURN_E) :=
  get_block Frames frame_count.

Definition memalloc_free_kframes (frame_addr frame_count : Z) : M mstore OS_RETURN_E :=
  add_free frame_addr (u32 (frame_count * KERNEL_PAGE_SIZE)) (Some Frames).

Definition memalloc_alloc_kpages (page_count : Z) : M mstore (Z * OS_RETURN_E) :=
  get_block Pages page_count.

(** [kernel_end] is the address of the linker symbol, in the high half. *)
Definition memalloc_free_kpages (kernel_end page_addr page_count : Z) : M mstore OS_RETURN_E :=
  if decide (page_addr < u32 (KERNEL_MEM_OFFSET + kernel_end))
  then ret OS_ERR_UNAUTHORIZED_ACTION
  else add_free page_addr (u32 (page_count * KERNEL_PAGE_SIZE)) (Some Pages).

(** ** Initialisation from the memory map *)

(** The first loop: free memory above the kernel image becomes frames. *)
Fixpoint init_frames (kernel_end : Z) (map : list mem_range) : M mstore OS_RETURN_E :=
  match map with
  | [] => ret OS_NO_ERR
  | r :: map =>
      let phys_end := u32 (kernel_end - KERNEL_MEM_OFFSET) in
      if decide (r_type r = 1 /\ r_limit r > phys_end) then
        let start := MAX phys_end (r_base r) in
        let* err := add_free start (u32 (r_limit r - start)) (Some Frames) in
        if decide (err <> OS_NO_ERR) then ret err else init_frames kernel_end map
      else init_frames kernel_end map
  end.

(** The two searches of the second loop. *)
Fixpoint find_next_limit (start : Z) (map : list mem_range) : Z :=
  match map with
  | [] => ARCH_MAX_ADDRESS
  | r :: map =>
      if decide (r_type r <> 1 /\ r_base r > start) then r_base r
      else find_next_limit start map
  end.
Fixpoint find_next_start (next_limit next_start : Z) (map : list mem_range) : Z :=
  match map with
  | [] => next_start
  | r :: map =>
      if decide (r_type r = 1 /\ r_base r > next_limit) then r_base r
      else find_next_start next_limit next_start map
  end.

(** The second loop: everything but the peripherals' ranges becomes pages. *)
Fixpoint init_pages (fuel : nat) (map : list mem_range) (start next_start : Z) :
  M mstore OS_RETURN_E :=
  match fuel with
  | O => diverge
  | S fuel =>
      if decide (start = 0) then ret OS_NO_ERR
      else
        let next_limit := find_next_limit start map in
        let next_start := find_next_start next_limit next_start map in
        let* err := add_free start (u32 (next_limit - start)) (Some Pages) in
        if decide (err <> OS_NO_ERR) then ret err
        else
          init_pages fuel map
            (if decide (next_limit = ARCH_MAX_ADDRESS) then 0 else next_start) next_start
  end.

Definition memalloc_init (kernel_start_phys kernel_end : Z) (map : list mem_range) :
  M mstore OS_RETURN_E :=
  modify (set_list Frames NULL) >>>
  modify (set_list Pages NULL) >>>
  let* err := init_frames kernel_end map in
  if decide (err <> OS_NO_ERR) then ret err
  else init_pages (S (S (length map))) map kernel_start_phys 0.
End Ops.
