(* ===== verification/MemAllocSpec.v ===== *)
(** * The area pools: representation and functional correctness

    The lists of free areas of [MemAlloc] are sorted, disjoint and fully
    merged; [add_free] adds exactly the interval it is given and [get_block]
    takes exactly the interval it returns. *)
From stdpp Require Import sorting functions.
From S2P Require Import Prelude Alloc Frames MemAlloc.

(** A free area: its node, start and size. *)
Abbreviation area := (Z * (Z * Z))%type.

(** [aseg ns l nx]: the nodes of [l] hold the areas of [l] and are linked
    forward, the last one to [nx]. *)
Fixpoint aseg (ns : gmap Z mem_area) (l : list area) (nx : Z) : Prop :=
  match l with
  | [] => True
  | (x, (st, sz)) :: l' =>
      x <> NULL /\
      (exists a, ns !! x = Some a /\ a_start a = st /\ a_size a = sz /\
                 a_next a = default nx (head l'.*1)) /\
      aseg ns l' nx
  end.

(** Backward links. *)
Fixpoint aback (ns : gmap Z mem_area) (p : Z) (l : list Z) : Prop :=
  match l with
  | [] => True
  | x :: l' => (exists a, ns !! x = Some a /\ a_prev a = p) /\ aback ns x l'
  end.

Definition fin (a : Z * Z) : Z := a.1 + a.2.

(** Sorted, with a gap between two areas: adjacent areas are merged. *)
Definition areas_ok (l : list (Z * Z)) : Prop :=
  StronglySorted (fun a b => fin a < b.1) l /\
  Forall (fun a => 0 <= a.1 /\ 0 < a.2 /\ fin a < 2 ^ 32) l.

Definition covers (l : list (Z * Z)) (x : Z) : Prop := exists a, a ∈ l /\ a.1 <= x < fin a.

Lemma aseg_app ns l1 l2 nx :
  aseg ns (l1 ++ l2) nx <-> aseg ns l1 (default nx (head l2.*1)) /\ aseg ns l2 nx.
Proof.
  induction l1 as [|[x [st sz]] l1 IH]; simpl; [tauto|]. rewrite IH.
  destruct l1 as [|[y [? ?]] l1]; simpl; tauto.
Qed.

Lemma aseg_ext ns ns' l nx :
  (forall x, x ∈ l.*1 -> ns' !! x = ns !! x) -> aseg ns l nx -> aseg ns' l nx.
Proof.
  induction l as [|[x [st sz]] l IH]; intros He; simpl; [done|].
  intros (Hx & (a & Ha & ?) & Hl). split; [done|]. split.
  - exists a. rewrite He; [done|]. simpl. set_solver.
  - apply IH; [|done]. intros y Hy. apply He. simpl. set_solver.
Qed.

Lemma aseg_lookup ns l nx x st sz :
  aseg ns l nx -> (x, (st, sz)) ∈ l ->
  x <> NULL /\ exists a, ns !! x = Some a /\ a_start a = st /\ a_size a = sz.
Proof.
  induction l as [|[y [st' sz']] l IH]; simpl; [set_solver|].
  intros (Hy & (a & Ha & E1 & E2 & _) & Hl) [Hx|Hx]%elem_of_cons; [|by apply IH].
  injection Hx as -> -> ->. eauto.
Qed.

Lemma aseg_dom ns l nx x : aseg ns l nx -> x ∈ l.*1 -> x <> NULL /\ is_Some (ns !! x).
Proof.
  intros Hs ([? [st sz]] & -> & Hx)%list_elem_of_fmap.
  destruct (aseg_lookup _ _ _ _ _ _ Hs Hx) as (? & a & Ha & _). simpl. eauto.
Qed.

Lemma aback_app ns p l1 l2 :
  aback ns p (l1 ++ l2) <-> aback ns p l1 /\ aback ns (default p (last l1)) l2.
Proof.
  revert p. induction l1 as [|x l1 IH]; intros p; simpl; [tauto|].
  rewrite IH, last_cons. destruct (last l1); simpl; tauto.
Qed.

Lemma aback_ext ns ns' p l :
  (forall x, x ∈ l -> ns' !! x = ns !! x) -> aback ns p l -> aback ns' p l.
Proof.
  revert p. induction l as [|x l IH]; intros p He; simpl; [done|].
  intros ((a & Ha & ?) & Hl). split.
  - exists a. rewrite He; [done|set_solver].
  - apply IH; [|done]. intros y Hy. apply He. set_solver.
Qed.

Section Rep.
Context {ops : AllocOps} `{!AllocSpec ops}.
Implicit Types (s : mstore) (A : pool -> list area).

(** [A] gives the free areas of each pool; [L] the live blocks of the heap. *)
Record mrep s A (L : gmap Z Z) : Prop := {
  mr_head p : list_of p s = default NULL (head (A p).*1);
  mr_seg p : aseg (ms_areas s) (A p) NULL;
  mr_ok p : areas_ok (A p).*2;
  mr_nodup p : NoDup (A p).*1;
  mr_disj p1 p2 x : x ∈ (A p1).*1 -> x ∈ (A p2).*1 -> p1 = p2;
  mr_null : ms_areas s !! NULL = None;
  mr_heap : heap_rep (ms_heap s) L;
  mr_block x : is_Some (ms_areas s !! x) -> exists m, L !! x = Some m /\ sizeof_mem_area <= m;
}.

(** The backward links of pool [p] are right. *)
Definition back_ok s A (p : pool) : Prop := aback (ms_areas s) NULL (A p).*1.

(** ** Symbolic execution *)
Lemma exec_get_area {B} p (k : mem_area -> M mstore B) s a :
  ms_areas s !! p = Some a -> bind (get_area p) k s = k a s.
Proof. intros H. unfold bind, get_area. by rewrite H. Qed.

Lemma exec_upd_area {B} p f (k : unit -> M mstore B) s a :
  ms_areas s !! p = Some a ->
  bind (upd_area p f) k s = k tt (with_areas (<[p := f a]> (ms_areas s)) s).
Proof. intros H. unfold bind, upd_area. by rewrite H. Qed.

Lemma exec_store_area {B} p a (k : unit -> M mstore B) s :
  p <> NULL -> bind (store_area p a) k s = k tt (with_areas (<[p := a]> (ms_areas s)) s).
Proof. intros H. unfold bind, store_area. by rewrite decide_False. Qed.

Lemma exec_m_kfree {B} p (k : unit -> M mstore B) s :
  bind (m_kfree p) k s =
    k tt (mk_mstore (kfree p (ms_heap s)) (delete p (ms_areas s))
                    (kernel_free_frames s) (kernel_free_pages s)).
Proof. done. Qed.
End Rep.

Ltac mstep :=
  rewrite ?bind_assoc;
  first
    [ rewrite exec_gets
    | rewrite exec_modify
    | rewrite exec_m_kfree
    | erewrite exec_get_area by (simpl; by simplify_map_eq)
    | erewrite exec_upd_area by (simpl; by simplify_map_eq)
    | erewrite exec_store_area by done ];
  simpl.
Ltac msteps := repeat mstep.

#[global] Arguments add_free_walk : simpl never.
#[global] Arguments get_block_walk : simpl never.

Section Walks.
Context {ops : AllocOps} `{!AllocSpec ops}.
Implicit Types (s : mstore) (A : pool -> list area).

(** The walk splits the list at the first area that starts after [start]. *)
Lemma add_free_walk_ok start s l fuel save :
  aseg (ms_areas s) l NULL -> (length l < fuel)%nat ->
  exists l1 l2, l = l1 ++ l2 /\
    Forall (fun a => a.2.1 <= start) l1 /\
    (forall a, head l2 = Some a -> start < a.2.1) /\
    add_free_walk fuel start save (default NULL (head l.*1)) s =
      Ret ((default save (last l1.*1), default NULL (head l2.*1)), s).
Proof.
  revert save fuel. induction l as [|[x [st sz]] l IH]; intros save fuel Hs Hf;
    (destruct fuel as [|fuel]; [simpl in Hf; lia|]); unfold add_free_walk; fold add_free_walk; simpl.
  - exists [], []. done.
  - simpl in Hs. destruct Hs as (Hx & (a & Ha & Est & Esz & Hn) & Hs).
    rewrite decide_False by done. rewrite (exec_get_area _ _ _ a Ha), Est.
    destruct (decide (st > start)) as [Hgt|Hle].
    + exists [], ((x, (st, sz)) :: l). simpl. split_and!; try done.
      intros ? [= <-]. simpl. lia.
    + rewrite Hn. destruct (IH x fuel Hs) as (l1 & l2 & -> & H1 & H2 & Hrun);
        [simpl in Hf; lia|].
      exists ((x, (st, sz)) :: l1), l2. split_and!; try done.
      * constructor; [simpl; lia|done].
      * rewrite Hrun, fmap_cons, last_cons. by destruct (last l1.*1).
Qed.

Lemma aseg_length ns l nx : aseg ns l nx -> NoDup l.*1 -> (length l <= size ns)%nat.
Proof.
  intros Hs Hnd. rewrite <- (length_fmap fst l), <- size_dom.
  rewrite <- (size_list_to_set (C := gset Z) l.*1) by done.
  apply subseteq_size. intros x Hx. apply elem_of_list_to_set in Hx.
  apply elem_of_dom. by apply (aseg_dom ns l nx).
Qed.

(** The first area large enough. *)
Lemma get_block_walk_ok bytes s l fuel :
  aseg (ms_areas s) l NULL -> (length l < fuel)%nat ->
  (exists l1 x st sz l2, l = l1 ++ (x, (st, sz)) :: l2 /\ bytes <= sz /\
     Forall (fun a => a.2.2 < bytes) l1 /\
     get_block_walk fuel bytes (default NULL (head l.*1)) s = Ret (x, s)) \/
  (Forall (fun a => a.2.2 < bytes) l /\
   get_block_walk fuel bytes (default NULL (head l.*1)) s = Ret (NULL, s)).
Proof.
  revert fuel. induction l as [|[x [st sz]] l IH]; intros fuel Hs Hf;
    (destruct fuel as [|fuel]; [simpl in Hf; lia|]); unfold get_block_walk; fold get_block_walk; simpl.
  - by right.
  - simpl in Hs. destruct Hs as (Hx & (a & Ha & Est & Esz & Hn) & Hs).
    rewrite decide_False by done. rewrite (exec_get_area _ _ _ a Ha), Esz.
    destruct (decide (sz >= bytes)) as [Hge|Hlt].
    + left. exists [], x, st, sz, l. split_and!; try done. lia.
    + rewrite Hn. destruct (IH fuel Hs) as [(l1 & y & st' & sz' & l2 & -> & ? & ? & Hrun)|[? Hrun]];
        [simpl in Hf; lia| |].
      * left. exists ((x, (st, sz)) :: l1), y, st', sz', l2. split_and!; try done.
        constructor; [simpl; lia|done].
      * right. split; [|done]. constructor; [simpl; lia|done].
Qed.
End Walks.

(** ** Sorted areas *)
Lemma areas_ok_replace l1 mid l2 a :
  areas_ok (l1 ++ mid ++ l2) -> 0 <= a.1 -> 0 < a.2 -> fin a < 2 ^ 32 ->
  (forall x, x ∈ l1 -> fin x < a.1) -> (forall x, x ∈ l2 -> fin a < x.1) ->
  areas_ok (l1 ++ a :: l2).
Proof.
  intros [Hs Hf] ??? H1 H2. rewrite !StronglySorted_app in Hs. rewrite !Forall_app in Hf.
  destruct Hs as (H12 & Hs1 & Hm & Hs2 & Hs3), Hf as (? & _ & ?).
  split.
  - apply StronglySorted_app. rewrite StronglySorted_cons, Forall_forall.
    split_and!; try done. intros x y Hx [->|Hy]%elem_of_cons; [by apply H1|].
    apply H12; [done|set_solver].
  - rewrite Forall_app, Forall_cons. done.
Qed.

Lemma covers_app l1 l2 x : covers (l1 ++ l2) x <-> covers l1 x \/ covers l2 x.
Proof. unfold covers. set_solver. Qed.

Lemma covers_cons a l x : covers (a :: l) x <-> a.1 <= x < fin a \/ covers l x.
Proof.
  unfold covers. split.
  - intros (b & [->|Hb]%elem_of_cons & ?); [by left|right; eauto].
  - intros [?|(b & ? & ?)]; [exists a|exists b]; set_solver.
Qed.

Lemma covers_nil x : covers [] x <-> False.
Proof. unfold covers. set_solver. Qed.

Lemma areas_ok_in l a : areas_ok l -> a ∈ l -> 0 <= a.1 /\ 0 < a.2 /\ fin a < 2 ^ 32.
Proof. intros [_ Hf] Ha. rewrite Forall_forall in Hf. by apply Hf. Qed.

Lemma areas_ok_lt l1 a l2 :
  areas_ok (l1 ++ a :: l2) ->
  (forall x, x ∈ l1 -> fin x < a.1) /\ (forall x, x ∈ l2 -> fin a < x.1).
Proof.
  intros [Hs _]. rewrite StronglySorted_app, StronglySorted_cons, Forall_forall in Hs.
  destruct Hs as (H1 & _ & H2 & _). split; [|done]. intros x Hx. apply H1; [done|set_solver].
Qed.

Lemma areas_ok_remove l1 a l2 : areas_ok (l1 ++ a :: l2) -> areas_ok (l1 ++ l2).
Proof.
  intros [Hs Hf]. rewrite StronglySorted_app, StronglySorted_cons in Hs.
  rewrite Forall_app, Forall_cons in Hf. destruct Hs as (Hd & ? & _ & ?).
  split; [|rewrite Forall_app; tauto].
  apply StronglySorted_app. split_and!; try done.
  intros x y Hx Hy. apply Hd; [done|]. by apply list_elem_of_further.
Qed.

Section AddFree.
Context {ops : AllocOps} `{!AllocSpec ops}.
Implicit Types (s : mstore) (A : pool -> list area).

Lemma mrep_update s s' A L L' p l' :
  mrep s A L ->
  list_of p s' = default NULL (head l'.*1) ->
  (forall q, q <> p -> list_of q s' = list_of q s) ->
  aseg (ms_areas s') l' NULL -> areas_ok l'.*2 -> NoDup l'.*1 ->
  (forall x, x ∉ (A p).*1 -> x ∈ l'.*1 -> ms_areas s !! x = None) ->
  (forall x, x ∉ (A p).*1 -> x ∉ l'.*1 -> ms_areas s' !! x = ms_areas s !! x) ->
  heap_rep (ms_heap s') L' -> ms_areas s' !! NULL = None ->
  (forall x, is_Some (ms_areas s' !! x) -> exists m, L' !! x = Some m /\ sizeof_mem_area <= m) ->
  mrep s' (<[p := l']> A) L' /\
  (forall q, q <> p -> back_ok s A q -> back_ok s' (<[p := l']> A) q).
Proof.
  intros HR Hhd Hoth Hseg Hok Hnd Hnew Hfr Hheap Hnull Hblk.
  assert (forall q x, q <> p -> x ∈ (A q).*1 -> (x ∉ (A p).*1) /\ (x ∉ l'.*1)) as Hsep.
  { intros q x Hq Hx. assert (x ∉ (A p).*1) as Hxp.
    { intros Hxp. apply Hq. by eapply (mr_disj _ _ _ HR). }
    split; [done|]. intros Hxl. specialize (Hnew x Hxp Hxl).
    destruct (aseg_dom _ _ _ _ (mr_seg _ _ _ HR q) Hx) as [_ [? ?]]. congruence. }
  assert (forall q x, q <> p -> x ∈ (A q).*1 -> ms_areas s' !! x = ms_areas s !! x) as Hsame.
  { intros q x Hq Hx. destruct (Hsep q x Hq Hx). by apply Hfr. }
  split; [split|]; try done.
  - intros q. destruct (decide (p = q)) as [<-|Hq]; [by rewrite fn_lookup_insert|].
    rewrite fn_lookup_insert_ne, Hoth by done. apply HR.
  - intros q. destruct (decide (p = q)) as [<-|Hq]; [by rewrite fn_lookup_insert|].
    rewrite fn_lookup_insert_ne by done.
    apply (aseg_ext (ms_areas s)); [intros x Hx; by eapply Hsame|apply HR].
  - intros q. destruct (decide (p = q)) as [<-|Hq]; [by rewrite fn_lookup_insert|].
    rewrite fn_lookup_insert_ne by done. apply HR.
  - intros q. destruct (decide (p = q)) as [<-|Hq]; [by rewrite fn_lookup_insert|].
    rewrite fn_lookup_insert_ne by done. apply HR.
  - intros q1 q2 x. destruct (decide (p = q1)) as [<-|H1], (decide (p = q2)) as [<-|H2];
      rewrite ?fn_lookup_insert, ?fn_lookup_insert_ne by done; try done.
    + intros Hx Hx2. by destruct (Hsep q2 x).
    + intros Hx1 Hx. by destruct (Hsep q1 x).
    + apply HR.
  - intros q Hq. unfold back_ok. rewrite fn_lookup_insert_ne by done.
    apply aback_ext. intros x Hx. by eapply Hsame.
Qed.

Lemma exec_m_kmalloc {B} s A L (k : Z -> M mstore B) :
  mrep s A L ->
  bind m_kmalloc k s = k NULL s \/
  exists p m h', p <> NULL /\ ms_areas s !! p = None /\ L !! p = None /\
    heap_rep h' (<[p := m]> L) /\ sizeof_mem_area <= m /\
    bind m_kmalloc k s =
      k p (mk_mstore h' (ms_areas s) (kernel_free_frames s) (kernel_free_pages s)).
Proof.
  intros HR. unfold bind, m_kmalloc. destruct (kmalloc sizeof_mem_area (ms_heap s)) as [p h'] eqn:E.
  assert (0 <= sizeof_mem_area <= kmalloc_max) as Hsz by (vm_compute; split; congruence).
  destruct (kmalloc_spec (ms_heap s) L _ p h' (mr_heap _ _ _ HR) Hsz E)
    as [[-> ->]|(Hp & m & Hm & _ & HL & _ & HR')].
  - left. by destruct s.
  - right. exists p, m, h'. split_and!; try done.
    destruct (ms_areas s !! p) eqn:Ea; [|done].
    destruct (mr_block _ _ _ HR p) as (? & ? & _); [by eexists|congruence].
Qed.
End AddFree.

(** ** [add_free], case by case *)
Section AddFreeCases.
Context {ops : AllocOps} `{!AllocSpec ops}.
Implicit Types (s : mstore) (A : pool -> list area).

Lemma areas_set_list l v s : ms_areas (set_list l v s) = ms_areas s.
Proof. by destruct l. Qed.
Lemma heap_set_list l v s : ms_heap (set_list l v s) = ms_heap s.
Proof. by destruct l. Qed.
Lemma list_of_set_list l v s : list_of l (set_list l v s) = v.
Proof. by destruct l. Qed.
Lemma list_of_set_list_ne q l v s : q <> l -> list_of q (set_list l v s) = list_of q s.
Proof. by destruct l, q. Qed.
Lemma list_of_areas l m s : list_of l (with_areas m s) = list_of l s.
Proof. by destruct l. Qed.
Lemma list_of_mk l h m s :
  list_of l (mk_mstore h m (kernel_free_frames s) (kernel_free_pages s)) = list_of l s.
Proof. by destruct l. Qed.

(** The interval is exactly the gap between two areas, and a third follows. *)
Definition fills_gap (l : list (Z * Z)) (st sz : Z) : Prop :=
  exists l1 a b c l2, l = l1 ++ a :: b :: c :: l2 /\ fin a = st /\ st + sz = b.1.

(** The interval is now free in pool [p], and nothing else changed. *)
Definition freed s A (p : pool) (st sz : Z) s' : Prop :=
  exists l' L', mrep s' (<[p := l']> A) L' /\
    (forall x, covers l'.*2 x <-> covers (A p).*2 x \/ st <= x < st + sz) /\
    (back_ok s A p -> ~ fills_gap (A p).*2 st sz -> back_ok s' (<[p := l']> A) p) /\
    (forall q, q <> p -> back_ok s A q -> back_ok s' (<[p := l']> A) q).

Definition mem_ok (ns : gmap Z mem_area) (L : gmap Z Z) : Prop :=
  forall x, is_Some (ns !! x) -> exists m, L !! x = Some m /\ sizeof_mem_area <= m.

Lemma mem_ok_insert ns L x a : mem_ok ns L -> is_Some (ns !! x) -> mem_ok (<[x := a]> ns) L.
Proof.
  intros Hm Hx y Hy. destruct (decide (y = x)) as [->|]; [by apply Hm|].
  apply Hm. by rewrite lookup_insert_ne in Hy.
Qed.

Lemma mem_ok_fresh ns L p m a :
  mem_ok ns L -> sizeof_mem_area <= m -> mem_ok (<[p := a]> ns) (<[p := m]> L).
Proof.
  intros HL Hm x Hx. destruct (decide (x = p)) as [->|Hne].
  - exists m. by rewrite lookup_insert_eq.
  - rewrite lookup_insert_ne in Hx by done. rewrite lookup_insert_ne by done. by apply HL.
Qed.

Lemma mem_ok_delete ns L p : mem_ok ns L -> mem_ok (delete p ns) (delete p L).
Proof.
  intros HL x Hx. destruct (decide (x = p)) as [->|Hne].
  - rewrite lookup_delete_eq in Hx. by destruct Hx.
  - rewrite lookup_delete_ne in Hx by done. rewrite lookup_delete_ne by done. by apply HL.
Qed.

(** [freed] from the new list alone. *)
Lemma freed_intro s A L p st sz s' l' L' :
  mrep s A L -> 
  list_of p s' = default NULL (head l'.*1) ->
  (forall q, q <> p -> list_of q s' = list_of q s) ->
  aseg (ms_areas s') l' NULL -> areas_ok l'.*2 -> NoDup l'.*1 ->
  (forall x, x ∉ (A p).*1 -> x ∈ l'.*1 -> ms_areas s !! x = None) ->
  (forall x, x ∉ (A p).*1 -> x ∉ l'.*1 -> ms_areas s' !! x = ms_areas s !! x) ->
  heap_rep (ms_heap s') L' -> ms_areas s' !! NULL = None -> mem_ok (ms_areas s') L' ->
  (forall x, covers l'.*2 x <-> covers (A p).*2 x \/ st <= x < st + sz) ->
  (aback (ms_areas s) NULL (A p).*1 -> ~ fills_gap (A p).*2 st sz ->
   aback (ms_areas s') NULL l'.*1) ->
  freed s A p st sz s'.
Proof.
  intros HR H1 H2 H3 H4 H5 H6 H7 H8 H9 H10 Hc Hb.
  destruct (mrep_update s s' A L L' p l') as [HR' Ho]; try done.
  exists l', L'. split; [done|]. split; [done|]. split; [|done].
  unfold back_ok. by rewrite fn_lookup_insert.
Qed.

Lemma add_free_first_spec s A L p st sz :
  mrep s A L -> A p = [] -> 0 <= st -> 0 < sz -> st + sz < 2 ^ 32 ->
  add_free_first st sz p s = Fault \/
  exists s', add_free_first st sz p s = Ret (OS_NO_ERR, s') /\ freed s A p st sz s'.
Proof.
  intros HR HA Hst Hsz Hend. unfold add_free_first.
  destruct (exec_m_kmalloc s A L (fun p0 => modify (set_list p p0) >>>
     store_area p0 (mk_area st sz NULL NULL) >>> ret OS_NO_ERR) HR)
    as [-> | (x & m & h' & Hx & Hxa & HxL & Hh & Hm & ->)].
  - left. mstep. unfold bind, store_area. by rewrite decide_True.
  - right. mstep. mstep. eexists. split; [done|].
    apply (freed_intro s A L p st sz _ [(x, (st, sz))] (<[x := m]> L)); try done; simpl;
      rewrite ?list_of_areas, ?areas_set_list, ?heap_set_list, ?list_of_set_list; simpl; try done.
    + intros q Hq. by rewrite list_of_areas, list_of_set_list_ne, list_of_mk.
    + split_and!; try done. eexists. by rewrite lookup_insert_eq.
    + split; [repeat constructor|]. constructor; [|constructor]. simpl. unfold fin. simpl. lia.
    + apply NoDup_singleton.
    + intros y _ ->%list_elem_of_singleton. done.
    + intros y _ Hy. rewrite lookup_insert_ne by set_solver. done.
    + rewrite lookup_insert_ne by done. apply HR.
    + apply mem_ok_fresh; [exact (mr_block _ _ _ HR)|done].
    + intros y. rewrite HA. simpl. rewrite covers_cons, !covers_nil. unfold fin. simpl. tauto.
    + intros _ _. split; [|done]. eexists. by rewrite lookup_insert_eq.
Qed.

Lemma NoDup_middle (x : Z) l1 l2 : NoDup (l1 ++ l2) -> x ∉ l1 ++ l2 -> NoDup (l1 ++ x :: l2).
Proof. intros. rewrite <- Permutation_middle. by constructor. Qed.

Lemma aback_insert_ne ns p l x v : x ∉ l -> aback ns p l -> aback (<[x := v]> ns) p l.
Proof.
  intros Hx. apply aback_ext. intros y Hy. apply lookup_insert_ne. congruence.
Qed.

Lemma aseg_insert_ne ns l nx x v : x ∉ l.*1 -> aseg ns l nx -> aseg (<[x := v]> ns) l nx.
Proof.
  intros Hx. apply aseg_ext. intros y Hy. apply lookup_insert_ne. congruence.
Qed.

Lemma aseg_nodup_last ns l1 y ay l nx v :
  aseg ns (l1 ++ (y, ay) :: l) nx -> NoDup (l1 ++ (y, ay) :: l).*1 ->
  aseg (<[y := v]> ns) l1 y.
Proof.
  intros [Hs _]%aseg_app Hnd. rewrite fmap_app, NoDup_app in Hnd. destruct Hnd as (_ & Hd & _).
  apply (aseg_ext ns); [|done]. intros x Hx. apply lookup_insert_ne.
  intros ->. apply (Hd x Hx). simpl. set_solver.
Qed.

(** After the last area. *)
Lemma add_free_end_spec s A L p st sz l1 y ys yz :
  mrep s A L -> A p = l1 ++ [(y, (ys, yz))] -> ys + yz <= st ->
  0 <= st -> 0 < sz -> st + sz < 2 ^ 32 ->
  add_free_end st sz y s = Ret (OS_ERR_MALLOC, s) \/
  exists s', add_free_end st sz y s = Ret (OS_NO_ERR, s') /\ freed s A p st sz s'.
Proof.
  intros HR HA Hle Hst Hsz Hend. unfold add_free_end.
  pose proof (mr_seg _ _ _ HR p) as Hseg. pose proof (mr_ok _ _ _ HR p) as Hok.
  pose proof (mr_nodup _ _ _ HR p) as Hnd. rewrite HA in Hseg, Hok, Hnd.
  pose proof Hseg as Hseg2. apply aseg_app in Hseg2 as [Hs1 (Hy0 & (a & Ha & Es & Ez & En) & _)].
  rewrite fmap_app in Hok. simpl in Hok.
  destruct (areas_ok_in _ (ys, yz) Hok) as (Hy1 & Hy2 & Hy3); [set_solver|].
  destruct (areas_ok_lt _ _ _ Hok) as [Hlt _]. unfold fin in *. simpl in Hy1, Hy2, Hy3, Hlt.
  assert (y ∈ (A p).*1) as HyA by (rewrite HA, fmap_app; set_solver).
  erewrite exec_get_area by done. rewrite Es, Ez, u32_small by lia.
  case_decide as Hm.
  - destruct (exec_m_kmalloc s A L (fun p0 => if decide (p0 = NULL) then ret OS_ERR_MALLOC else
      store_area p0 (mk_area st sz NULL y) >>> upd_area y (with_a_next p0) >>> ret OS_NO_ERR) HR)
      as [-> | (x & m & h' & Hx & Hxa & HxL & Hh & Hm' & ->)].
    { left. by rewrite decide_True. }
    right. rewrite decide_False by done. assert (x <> y) by congruence.
    msteps. eexists. split; [done|].
    assert (x ∉ (A p).*1) as HxA.
    { intros Hin. rewrite HA in Hin. destruct (aseg_dom _ _ _ _ Hseg Hin) as [_ [? ?]]. congruence. }
    apply (freed_intro s A L p st sz _ (l1 ++ [(y, (ys, yz)); (x, (st, sz))]) (<[x := m]> L));
      try done; simpl.
    + rewrite !list_of_areas, list_of_mk, (mr_head _ _ _ HR p), HA, !fmap_app.
      by destruct l1 as [|[??]].
    + apply aseg_app. simpl. split_and!; try done.
      * apply (aseg_nodup_last _ l1 y (ys, yz) [] NULL); [|done].
        apply (aseg_ext (ms_areas s)); [|done]. intros z Hz. apply lookup_insert_ne. congruence.
      * eexists. rewrite lookup_insert_eq. done.
      * eexists. rewrite lookup_insert_ne, lookup_insert_eq by done. done.
    + rewrite fmap_app. simpl.
      change (l1.*2 ++ [(ys, yz); (st, sz)]) with (l1.*2 ++ [(ys, yz)] ++ [(st, sz)]).
      rewrite app_assoc. apply (areas_ok_replace _ [] []); unfold fin; simpl; try lia.
      * by rewrite app_nil_r.
      * intros b Hb. apply elem_of_app in Hb as [Hb|Hb%list_elem_of_singleton].
        -- specialize (Hlt b Hb). lia.
        -- subst b. simpl. lia.
      * intros b Hb. by apply not_elem_of_nil in Hb.
    + rewrite HA in HxA. rewrite fmap_app in Hnd, HxA |- *. simpl in *.
      change (l1.*1 ++ [y; x]) with (l1.*1 ++ [y] ++ [x]). rewrite app_assoc.
      apply NoDup_middle; by rewrite app_nil_r.
    + intros z Hz Hz'. rewrite fmap_app in Hz'. assert (z = x) as ->; [|done].
      rewrite HA, fmap_app in Hz. simpl in *. set_solver.
    + intros z Hz Hz'. rewrite fmap_app in Hz'. simpl in Hz'. rewrite !lookup_insert_ne by set_solver. done.
    + rewrite !lookup_insert_ne by done. apply HR.
    + apply mem_ok_insert.
      * apply mem_ok_fresh; [exact (mr_block _ _ _ HR)|done].
      * rewrite lookup_insert_ne by done. by eexists.
    + intros b. rewrite HA, !fmap_app, !covers_app. simpl. rewrite !covers_cons, !covers_nil.
      unfold fin. simpl. tauto.
    + intros Hb _. rewrite HA, fmap_app in Hb. rewrite fmap_app. simpl in *.
      apply aback_app in Hb as [Hb1 [(a' & Ha' & Hp) _]].
      apply aback_app. simpl. split_and!; try done.
      * rewrite HA in HxA. rewrite fmap_app in Hnd, HxA. simpl in Hnd, HxA.
        rewrite NoDup_app in Hnd.
        apply aback_insert_ne; [set_solver|]. apply aback_insert_ne; [set_solver|done].
      * exists (with_a_next x a). rewrite lookup_insert_eq. split; [done|]. by simplify_eq.
      * eexists. rewrite lookup_insert_ne, lookup_insert_eq by done. done.
  - right. mstep. eexists. split; [done|].
    apply (freed_intro s A L p st sz _ (l1 ++ [(y, (ys, yz + sz))]) L); try done; simpl.
    + rewrite list_of_areas, (mr_head _ _ _ HR p), HA, !fmap_app. by destruct l1 as [|[??]].
    + apply aseg_app. simpl. split_and!; try done.
      * by apply (aseg_nodup_last _ l1 y (ys, yz) [] NULL).
      * eexists. rewrite lookup_insert_eq. split_and!; try done. simpl. rewrite u32_small; lia.
    + rewrite fmap_app. simpl.
      apply (areas_ok_replace _ [(ys, yz)] []); unfold fin; simpl; try lia; [done|done|].
      intros b Hb. by apply not_elem_of_nil in Hb.
    + by rewrite fmap_app in Hnd |- *.
    + intros z Hz Hz'. exfalso. apply Hz. rewrite HA. by rewrite fmap_app in Hz' |- *.
    + intros z Hz _. rewrite lookup_insert_ne; [done|congruence].
    + apply (mr_heap _ _ _ HR).
    + rewrite lookup_insert_ne by done. apply HR.
    + apply mem_ok_insert; [exact (mr_block _ _ _ HR)|by eexists].
    + intros b. rewrite HA, !fmap_app, !covers_app. simpl. rewrite !covers_cons, !covers_nil.
      unfold fin. simpl. assert (ys + yz = st) by (by destruct (decide (ys + yz = st))).
      assert (ys <= b < ys + (yz + sz) <-> ys <= b < ys + yz \/ st <= b < st + sz) by lia. tauto.
    + intros Hb _. rewrite HA in Hb. rewrite fmap_app in Hb, Hnd |- *. simpl in *.
      apply aback_app in Hb as [Hb1 [(a' & Ha' & Hp) _]].
      rewrite NoDup_app in Hnd. apply aback_app. simpl. split_and!; try done.
      * apply aback_insert_ne; [set_solver|done].
      * eexists. rewrite lookup_insert_eq. split; [done|]. by simplify_eq.
Qed.

(** Before the first area. *)
Lemma add_free_begin_spec s A L p st sz c cs cz l2 :
  mrep s A L -> A p = (c, (cs, cz)) :: l2 -> st + sz <= cs ->
  0 <= st -> 0 < sz -> st + sz < 2 ^ 32 ->
  add_free_begin st sz c p s = Ret (OS_ERR_MALLOC, s) \/
  exists s', add_free_begin st sz c p s = Ret (OS_NO_ERR, s') /\ freed s A p st sz s'.
Proof.
  intros HR HA Hle Hst Hsz Hend. unfold add_free_begin.
  pose proof (mr_seg _ _ _ HR p) as Hseg. pose proof (mr_ok _ _ _ HR p) as Hok.
  pose proof (mr_nodup _ _ _ HR p) as Hnd. rewrite HA in Hseg, Hok, Hnd.
  pose proof Hseg as (Hc0 & (a & Ha & Es & Ez & En) & Hs2). simpl in Hok, Hnd.
  destruct (areas_ok_in _ (cs, cz) Hok) as (Hc1 & Hc2 & Hc3); [set_solver|].
  destruct (areas_ok_lt [] _ _ Hok) as [_ Hlt]. unfold fin in *. simpl in Hc1, Hc2, Hc3, Hlt.
  apply NoDup_cons in Hnd as [Hcl Hnd].
  erewrite exec_get_area by done. rewrite Es, Ez, u32_small by lia.
  case_decide as Hm.
  - right. msteps. eexists. split; [done|].
    rewrite insert_insert_eq.
    apply (freed_intro s A L p st sz _ ((c, (st, cz + sz)) :: l2) L); try done; simpl.
    + rewrite !list_of_areas, (mr_head _ _ _ HR p), HA. done.
    + split_and!; try done.
      * eexists. rewrite lookup_insert_eq. split_and!; try done. simpl. rewrite ?Ez. apply u32_small. lia.
      * by apply aseg_insert_ne.
    + apply (areas_ok_replace [] [(cs, cz)]); unfold fin; simpl; try lia; [done| |].
      * intros b Hb. by apply not_elem_of_nil in Hb.
      * intros b Hb. specialize (Hlt b Hb). lia.
    + by constructor.
    + intros z Hz Hz'. exfalso. apply Hz. by rewrite HA.
    + intros z Hz Hz'. rewrite lookup_insert_ne by set_solver. done.
    + apply (mr_heap _ _ _ HR).
    + rewrite lookup_insert_ne by done. apply HR.
    + apply mem_ok_insert; [exact (mr_block _ _ _ HR)|by eexists].
    + intros b. rewrite HA. simpl. rewrite !covers_cons. unfold fin. simpl.
      assert (st <= b < st + (cz + sz) <-> cs <= b < cs + cz \/ st <= b < st + sz) by lia. tauto.
    + intros Hb _. rewrite HA in Hb. simpl in *. destruct Hb as [(a' & Ha' & Hp) Hb]. split.
      * eexists. rewrite lookup_insert_eq. split; [done|]. by simplify_eq.
      * by apply aback_insert_ne.
  - destruct (exec_m_kmalloc s A L (fun p0 => if decide (p0 = NULL) then ret OS_ERR_MALLOC else
      store_area p0 (mk_area st sz c NULL) >>> upd_area c (with_a_prev p0) >>>
      modify (set_list p p0) >>> ret OS_NO_ERR) HR)
      as [-> | (x & m & h' & Hx & Hxa & HxL & Hh & Hm' & ->)].
    { left. by rewrite decide_True. }
    right. rewrite decide_False by done. assert (x <> c) by congruence.
    msteps. eexists. split; [done|].
    assert (x ∉ c :: l2.*1) as HxA.
    { intros Hin. destruct (aseg_dom _ _ _ x Hseg Hin) as [_ [? ?]]. congruence. }
    apply not_elem_of_cons in HxA as [_ HxA].
    apply (freed_intro s A L p st sz _ ((x, (st, sz)) :: (c, (cs, cz)) :: l2) (<[x := m]> L));
      try done; simpl; rewrite ?areas_set_list, ?heap_set_list, ?list_of_set_list; simpl; try done.
    + intros q Hq. by rewrite list_of_set_list_ne, !list_of_areas, list_of_mk.
    + split_and!; try done.
      * eexists. rewrite lookup_insert_ne, lookup_insert_eq by done. done.
      * eexists. rewrite lookup_insert_eq. done.
      * apply aseg_insert_ne; [done|]. by apply aseg_insert_ne.
    + apply (areas_ok_replace [] []); unfold fin; simpl; try lia; [done| |].
      * intros b Hb. by apply not_elem_of_nil in Hb.
      * intros b [->|Hb]%elem_of_cons; simpl; [lia|]. specialize (Hlt b Hb). lia.
    + rewrite !NoDup_cons. set_solver.
    + intros z Hz [->|Hz']%elem_of_cons; [done|]. rewrite HA in Hz. done.
    + intros z Hz Hz'. rewrite !lookup_insert_ne by set_solver. done.
    + rewrite !lookup_insert_ne by done. apply HR.
    + apply mem_ok_insert.
      * apply mem_ok_fresh; [exact (mr_block _ _ _ HR)|done].
      * rewrite lookup_insert_ne by done. by eexists.
    + intros b. rewrite HA. simpl. rewrite !covers_cons. unfold fin. simpl. tauto.
    + intros Hb _. rewrite HA in Hb. simpl in *. destruct Hb as [(a' & Ha' & Hp) Hb].
      split; [|split].
      * eexists. rewrite lookup_insert_ne, lookup_insert_eq by done. done.
      * eexists. rewrite lookup_insert_eq. done.
      * apply aback_insert_ne; [done|]. by apply aback_insert_ne.
Qed.

(** Between two areas: what the four sub-cases share. *)
Lemma mid_context s A L p l1 y ys yz c cs cz l2 :
  mrep s A L -> A p = l1 ++ (y, (ys, yz)) :: (c, (cs, cz)) :: l2 ->
  exists ay ac, ms_areas s !! y = Some ay /\ ms_areas s !! c = Some ac /\
    a_start ay = ys /\ a_size ay = yz /\ a_next ay = c /\ a_start ac = cs /\ a_size ac = cz /\
    a_next ac = default NULL (head l2.*1) /\
    y <> NULL /\ c <> NULL /\ y <> c /\
    (y ∉ l1.*1) /\ (c ∉ l1.*1) /\ (y ∉ l2.*1) /\ (c ∉ l2.*1) /\
    aseg (ms_areas s) l1 y /\ aseg (ms_areas s) l2 NULL /\
    0 <= ys /\ 0 < yz /\ ys + yz < cs /\ 0 < cz /\ cs + cz < 2 ^ 32 /\
    (forall x, x ∈ l1.*2 -> fin x < ys) /\ (forall x, x ∈ l2.*2 -> cs + cz < x.1).
Proof.
  intros HR HA. pose proof (mr_seg _ _ _ HR p) as Hseg. pose proof (mr_ok _ _ _ HR p) as Hok.
  pose proof (mr_nodup _ _ _ HR p) as Hnd. rewrite HA in Hseg, Hok, Hnd.
  apply aseg_app in Hseg as [Hs1 Hs2]. simpl in Hs1, Hs2.
  destruct Hs2 as (Hy & (ay & Hay & ? & ? & ?) & Hc & (ac & Hac & ? & ? & ?) & Hs2).
  rewrite fmap_app in Hok. rewrite fmap_app in Hnd. simpl in Hok, Hnd.
  destruct (areas_ok_in _ (ys, yz) Hok) as (? & ? & _); [set_solver|].
  destruct (areas_ok_in _ (cs, cz) Hok) as (_ & ? & ?); [set_solver|].
  destruct (areas_ok_lt _ _ _ Hok) as [Hl1 Hl2].
  assert (areas_ok ((l1.*2 ++ [(ys, yz)]) ++ (cs, cz) :: l2.*2)) as Hok2
    by (by rewrite <- app_assoc).
  destruct (areas_ok_lt _ _ _ Hok2) as [_ Hl3].
  specialize (Hl2 (cs, cz) ltac:(set_solver)). unfold fin in *. simpl in *.
  rewrite NoDup_app, !NoDup_cons in Hnd. destruct Hnd as (_ & Hd & Hyn & Hcn & _).
  exists ay, ac. split_and!; try done; try lia; try set_solver.
Qed.

Lemma NoDup_drop_second (y c : Z) l1 l2 : NoDup (l1 ++ y :: c :: l2) -> NoDup (l1 ++ y :: l2).
Proof.
  rewrite !NoDup_app, !NoDup_cons. intros (? & Hd & Hy & Hc & ?).
  rewrite not_elem_of_cons in Hy. destruct Hy. split_and!; try done.
  intros z Hz. specialize (Hd z Hz). rewrite !not_elem_of_cons in *. tauto.
Qed.

Lemma not_in_mid (z y c : Z) l1 l2 : z ∉ l1 ++ y :: c :: l2 -> y <> z /\ c <> z.
Proof. set_solver. Qed.

Lemma mid_back s l1 y c l2 :
  aback (ms_areas s) NULL (l1 ++ y :: c :: l2) ->
  aback (ms_areas s) NULL l1 /\
  (exists a, ms_areas s !! y = Some a /\ a_prev a = default NULL (last l1)) /\
  (exists a, ms_areas s !! c = Some a /\ a_prev a = y) /\ aback (ms_areas s) c l2.
Proof. intros [H1 (H2 & H3 & H4)]%aback_app. done. Qed.

Ltac mid_start HR HA :=
  destruct (mid_context _ _ _ _ _ _ _ _ _ _ _ _ HR HA)
    as (ay & ac & Hay & Hac & Eys & Eyz & Eyn & Ecs & Ecz & Ecn & Hy0 & Hc0 & Hyc &
        Hy1 & Hc1 & Hy2 & Hc2 & Hs1 & Hs2 & ? & ? & ? & ? & ? & Hl1 & Hl2).

(** The gap is filled: three areas become one. *)
Lemma add_free_merge s A L p st sz l1 y ys yz c cs cz l2 :
  mrep s A L -> A p = l1 ++ (y, (ys, yz)) :: (c, (cs, cz)) :: l2 ->
  ys + yz = st -> st + sz = cs -> 0 < sz ->
  exists s', add_free_mid st sz y c s = Ret (OS_NO_ERR, s') /\ freed s A p st sz s'.
Proof.
  intros HR HA E1 E2 Hsz. mid_start HR HA. unfold add_free_mid.
  erewrite !exec_get_area by done. rewrite Eys, Eyz, Ecs, Ecz.
  rewrite decide_True by (rewrite u32_small; lia). rewrite decide_True by (rewrite u32_small; lia).
  pose proof (mr_nodup _ _ _ HR p) as Hnd. pose proof (mr_ok _ _ _ HR p) as Hok.
  rewrite HA, fmap_app in Hnd. rewrite HA, fmap_app in Hok. simpl in Hnd, Hok.
  destruct (mr_block _ _ _ HR c) as (m & Hm & _); [by eexists|].
  msteps. eexists. split; [done|]. rewrite insert_insert_eq.
  apply (freed_intro s A L p st sz _ (l1 ++ (y, (ys, yz + (sz + cz))) :: l2) (delete c L));
    try done; simpl.
  - rewrite list_of_mk, (mr_head _ _ _ HR p), HA, !fmap_app. by destruct l1 as [|[??]].
  - apply aseg_app. simpl. split_and!; try done.
    + apply (aseg_ext (ms_areas s)); [|done]. intros z Hz.
      rewrite lookup_delete_ne, lookup_insert_ne by congruence. done.
    + eexists. rewrite lookup_delete_ne, lookup_insert_eq by done.
      split_and!; try done. simpl. rewrite ?Eyz, ?Ecz. apply u32_small. lia.
    + apply (aseg_ext (ms_areas s)); [|done]. intros z Hz.
      rewrite lookup_delete_ne, lookup_insert_ne by congruence. done.
  - rewrite fmap_app. simpl.
    apply (areas_ok_replace _ [(ys, yz); (cs, cz)]); unfold fin; simpl; try done; try lia.
    intros b Hb. specialize (Hl2 b Hb). lia.
  - rewrite fmap_app. simpl. by apply (NoDup_drop_second y c).
  - intros z Hz Hz'. exfalso. apply Hz. rewrite HA. rewrite fmap_app in Hz' |- *.
    simpl in *. clear - Hz'. set_solver.
  - intros z Hz _. rewrite HA, fmap_app in Hz. apply not_in_mid in Hz as [? ?].
    rewrite lookup_delete_ne, lookup_insert_ne by done. done.
  - by apply (kfree_spec _ _ _ m); [apply (mr_heap _ _ _ HR)|].
  - rewrite lookup_delete_ne, lookup_insert_ne by done. apply HR.
  - apply mem_ok_delete, mem_ok_insert; [exact (mr_block _ _ _ HR)|by eexists].
  - intros b. rewrite HA, !fmap_app, !covers_app. simpl. rewrite !covers_cons. unfold fin. simpl.
    assert (ys <= b < ys + (yz + (sz + cz)) <->
            ys <= b < ys + yz \/ cs <= b < cs + cz \/ st <= b < st + sz) by lia. tauto.
  - intros Hb Hgap. rewrite HA, fmap_app in Hb. rewrite fmap_app. simpl in *.
    apply mid_back in Hb as (Hb1 & (a1 & Ha1 & Hp1) & _ & Hb2).
    assert (l2 = []) as ->.
    { destruct l2 as [|[x ax] l2]; [done|]. exfalso. apply Hgap. rewrite HA, fmap_app. simpl.
      by exists l1.*2, (ys, yz), (cs, cz), ax, l2.*2. }
    apply aback_app. simpl. split_and!; try done.
    + apply (aback_ext (ms_areas s)); [|done]. intros z Hz.
      rewrite lookup_delete_ne, lookup_insert_ne by congruence. done.
    + eexists. rewrite lookup_delete_ne, lookup_insert_eq by done. split; [done|]. by simplify_eq.
Qed.

(** The area before is extended. *)
Lemma add_free_extend_left s A L p st sz l1 y ys yz c cs cz l2 :
  mrep s A L -> A p = l1 ++ (y, (ys, yz)) :: (c, (cs, cz)) :: l2 ->
  ys + yz = st -> st + sz < cs -> 0 < sz ->
  exists s', add_free_mid st sz y c s = Ret (OS_NO_ERR, s') /\ freed s A p st sz s'.
Proof.
  intros HR HA E1 E2 Hsz. mid_start HR HA. unfold add_free_mid.
  erewrite !exec_get_area by done. rewrite Eys, Eyz, Ecs.
  rewrite decide_True by (rewrite u32_small; lia).
  rewrite (decide_False (P := u32 (st + sz) = cs)) by (rewrite u32_small; lia).
  pose proof (mr_nodup _ _ _ HR p) as Hnd. pose proof (mr_ok _ _ _ HR p) as Hok.
  rewrite HA, fmap_app in Hnd. rewrite HA, fmap_app in Hok. simpl in Hnd, Hok.
  msteps. eexists. split; [done|].
  apply (freed_intro s A L p st sz _ (l1 ++ (y, (ys, yz + sz)) :: (c, (cs, cz)) :: l2) L);
    try done; simpl.
  - rewrite list_of_areas, (mr_head _ _ _ HR p), HA, !fmap_app. by destruct l1 as [|[??]].
  - apply aseg_app. simpl. split_and!; try done.
    + by apply aseg_insert_ne.
    + eexists. rewrite lookup_insert_eq. split_and!; try done. simpl. rewrite ?Eyz, ?Ecz. apply u32_small. lia.
    + exists ac. by rewrite lookup_insert_ne.
    + by apply aseg_insert_ne.
  - rewrite fmap_app. simpl.
    apply (areas_ok_replace _ [(ys, yz)]); unfold fin; simpl; try done; try lia.
    intros b [->|Hb]%elem_of_cons; simpl; [lia|]. specialize (Hl2 b Hb). lia.
  - by rewrite fmap_app.
  - intros z Hz Hz'. exfalso. apply Hz. rewrite HA. by rewrite fmap_app in Hz' |- *.
  - intros z Hz _. rewrite HA, fmap_app in Hz. apply not_in_mid in Hz as [? ?].
    by rewrite lookup_insert_ne by done.
  - apply (mr_heap _ _ _ HR).
  - rewrite lookup_insert_ne by done. apply HR.
  - apply mem_ok_insert; [exact (mr_block _ _ _ HR)|by eexists].
  - intros b. rewrite HA, !fmap_app, !covers_app. simpl. rewrite !covers_cons. unfold fin. simpl.
    assert (ys <= b < ys + (yz + sz) <-> ys <= b < ys + yz \/ st <= b < st + sz) by lia. tauto.
  - intros Hb _. rewrite HA, fmap_app in Hb. rewrite fmap_app. simpl in *.
    apply mid_back in Hb as (Hb1 & (a1 & Ha1 & Hp1) & (a2 & Ha2 & Hp2) & Hb2).
    apply aback_app. simpl. split_and!.
    + by apply aback_insert_ne.
    + eexists. rewrite lookup_insert_eq. split; [done|]. by simplify_eq.
    + exists a2. by rewrite lookup_insert_ne.
    + by apply aback_insert_ne.
Qed.

(** The area after is extended downwards. *)
Lemma add_free_extend_right s A L p st sz l1 y ys yz c cs cz l2 :
  mrep s A L -> A p = l1 ++ (y, (ys, yz)) :: (c, (cs, cz)) :: l2 ->
  ys + yz < st -> st + sz = cs -> 0 < sz ->
  exists s', add_free_mid st sz y c s = Ret (OS_NO_ERR, s') /\ freed s A p st sz s'.
Proof.
  intros HR HA E1 E2 Hsz. mid_start HR HA. unfold add_free_mid.
  erewrite !exec_get_area by done. rewrite Eys, Eyz, Ecs, Ecz.
  rewrite (decide_False (P := u32 (ys + yz) = st)) by (rewrite u32_small; lia).
  rewrite decide_True by (rewrite u32_small; lia).
  pose proof (mr_nodup _ _ _ HR p) as Hnd. pose proof (mr_ok _ _ _ HR p) as Hok.
  rewrite HA, fmap_app in Hnd. rewrite HA, fmap_app in Hok. simpl in Hnd, Hok.
  msteps. eexists. split; [done|]. rewrite insert_insert_eq.
  apply (freed_intro s A L p st sz _ (l1 ++ (y, (ys, yz)) :: (c, (st, cz + sz)) :: l2) L);
    try done; simpl.
  - rewrite !list_of_areas, (mr_head _ _ _ HR p), HA, !fmap_app. by destruct l1 as [|[??]].
  - apply aseg_app. simpl. split_and!; try done.
    + by apply aseg_insert_ne.
    + exists ay. by rewrite lookup_insert_ne.
    + eexists. rewrite lookup_insert_eq. split_and!; try done. simpl. rewrite ?Eyz, ?Ecz. apply u32_small. lia.
    + by apply aseg_insert_ne.
  - rewrite fmap_app. simpl.
    rewrite (cons_middle (ys, yz)), app_assoc.
    apply (areas_ok_replace _ [(cs, cz)]); unfold fin; simpl; try done; try lia.
    + by rewrite <- app_assoc.
    + intros b [Hb| ->%list_elem_of_singleton]%elem_of_app; simpl; [|lia].
      specialize (Hl1 b Hb). unfold fin in Hl1. lia.
    + intros b Hb. specialize (Hl2 b Hb). lia.
  - by rewrite fmap_app.
  - intros z Hz Hz'. exfalso. apply Hz. rewrite HA. by rewrite fmap_app in Hz' |- *.
  - intros z Hz _. rewrite HA, fmap_app in Hz. apply not_in_mid in Hz as [? ?].
    by rewrite lookup_insert_ne by done.
  - apply (mr_heap _ _ _ HR).
  - rewrite lookup_insert_ne by done. apply HR.
  - apply mem_ok_insert; [exact (mr_block _ _ _ HR)|by eexists].
  - intros b. rewrite HA, !fmap_app, !covers_app. simpl. rewrite !covers_cons. unfold fin. simpl.
    assert (st <= b < st + (cz + sz) <-> cs <= b < cs + cz \/ st <= b < st + sz) by lia. tauto.
  - intros Hb _. rewrite HA, fmap_app in Hb. rewrite fmap_app. simpl in *.
    apply mid_back in Hb as (Hb1 & (a1 & Ha1 & Hp1) & (a2 & Ha2 & Hp2) & Hb2).
    apply aback_app. simpl. split_and!.
    + by apply aback_insert_ne.
    + exists a1. by rewrite lookup_insert_ne.
    + eexists. rewrite lookup_insert_eq. split; [done|]. by simplify_eq.
    + by apply aback_insert_ne.
Qed.

(** A new area between the two. *)
Lemma add_free_between s A L p st sz l1 y ys yz c cs cz l2 :
  mrep s A L -> A p = l1 ++ (y, (ys, yz)) :: (c, (cs, cz)) :: l2 ->
  ys + yz < st -> st + sz < cs -> 0 < sz ->
  add_free_mid st sz y c s = Ret (OS_ERR_MALLOC, s) \/
  exists s', add_free_mid st sz y c s = Ret (OS_NO_ERR, s') /\ freed s A p st sz s'.
Proof.
  intros HR HA E1 E2 Hsz. mid_start HR HA. unfold add_free_mid.
  erewrite !exec_get_area by done. rewrite Eys, Eyz, Ecs.
  rewrite (decide_False (P := u32 (ys + yz) = st)) by (rewrite u32_small; lia).
  rewrite (decide_False (P := u32 (st + sz) = cs)) by (rewrite u32_small; lia).
  pose proof (mr_nodup _ _ _ HR p) as Hnd. pose proof (mr_ok _ _ _ HR p) as Hok.
  rewrite HA, fmap_app in Hnd. rewrite HA, fmap_app in Hok. simpl in Hnd, Hok.
  destruct (exec_m_kmalloc s A L (fun p0 => if decide (p0 = NULL) then ret OS_ERR_MALLOC else
      store_area p0 (mk_area st sz c y) >>> upd_area y (with_a_next p0) >>>
      upd_area c (with_a_prev p0) >>> ret OS_NO_ERR) HR)
    as [-> | (x & m & h' & Hx & Hxa & HxL & Hh & Hm' & ->)].
  { left. by rewrite decide_True. }
  right. rewrite decide_False by done. assert (x <> y /\ x <> c) as [Hxy Hxc] by (split; congruence).
  msteps. eexists. split; [done|].
  assert (x ∉ (A p).*1) as HxA.
  { intros Hin. destruct (aseg_dom _ _ _ _ (mr_seg _ _ _ HR p) Hin) as [_ [? ?]]. congruence. }
  rewrite HA, fmap_app in HxA. simpl in HxA.
  apply (freed_intro s A L p st sz _
    (l1 ++ (y, (ys, yz)) :: (x, (st, sz)) :: (c, (cs, cz)) :: l2) (<[x := m]> L)); try done; simpl.
  - rewrite !list_of_areas, list_of_mk, (mr_head _ _ _ HR p), HA, !fmap_app.
    by destruct l1 as [|[??]].
  - apply aseg_app. simpl. split_and!; try done.
    + do 3 (apply aseg_insert_ne; [done || (clear - HxA; set_solver)|]). done.
    + eexists. rewrite lookup_insert_ne, lookup_insert_eq by done. done.
    + eexists. rewrite !lookup_insert_ne, lookup_insert_eq by done. done.
    + eexists. rewrite lookup_insert_eq. done.
    + do 3 (apply aseg_insert_ne; [done || (clear - HxA; set_solver)|]). done.
  - rewrite fmap_app. simpl.
    rewrite (cons_middle (ys, yz)), app_assoc.
    apply (areas_ok_replace _ []); unfold fin; simpl; try done; try lia.
    + by rewrite <- app_assoc.
    + intros b [Hb| ->%list_elem_of_singleton]%elem_of_app; simpl; [|lia].
      specialize (Hl1 b Hb). unfold fin in Hl1. lia.
    + intros b [->|Hb]%elem_of_cons; simpl; [lia|]. specialize (Hl2 b Hb). lia.
  - rewrite fmap_app. simpl.
    rewrite (cons_middle y), app_assoc. apply NoDup_middle; by rewrite <- app_assoc.
  - intros z Hz Hz'. rewrite fmap_app in Hz'. rewrite HA, fmap_app in Hz. simpl in *.
    assert (z = x) as ->; [|done]. clear - Hz Hz'. set_solver.
  - intros z Hz Hz'. rewrite fmap_app in Hz'. simpl in Hz'.
    assert (z <> y /\ z <> x /\ z <> c) as (? & ? & ?) by (clear - Hz'; set_solver).
    by rewrite !lookup_insert_ne by done.
  - rewrite !lookup_insert_ne by done. apply HR.
  - apply mem_ok_insert; [apply mem_ok_insert|].
    + apply mem_ok_fresh; [exact (mr_block _ _ _ HR)|done].
    + rewrite lookup_insert_ne by done. by eexists.
    + rewrite !lookup_insert_ne by done. by eexists.
  - intros b. rewrite HA, !fmap_app, !covers_app. simpl. rewrite !covers_cons. unfold fin. simpl. tauto.
  - intros Hb _. rewrite HA, fmap_app in Hb. rewrite fmap_app. simpl in *.
    apply mid_back in Hb as (Hb1 & (a1 & Ha1 & Hp1) & (a2 & Ha2 & Hp2) & Hb2).
    apply aback_app. simpl. split_and!.
    + do 3 (apply aback_insert_ne; [done || (clear - HxA; set_solver)|]). done.
    + eexists. rewrite lookup_insert_ne, lookup_insert_eq by done. split; [done|]. by simplify_eq.
    + eexists. rewrite !lookup_insert_ne, lookup_insert_eq by done. done.
    + eexists. rewrite lookup_insert_eq. done.
    + do 3 (apply aback_insert_ne; [done || (clear - HxA; set_solver)|]). done.
Qed.
End AddFreeCases.

(** ** [add_free] *)
Section AddFreeSpec.
Context {ops : AllocOps} `{!AllocSpec ops}.
Implicit Types (s : mstore) (A : pool -> list area).

Lemma last_fst_snoc (l : list area) y a : last (l ++ [(y, a)]).*1 = Some y.
Proof. by rewrite fmap_app, last_app. Qed.

Lemma add_free_spec s A L p st sz :
  mrep s A L -> 0 <= st -> 0 < sz -> st + sz < 2 ^ 32 ->
  (forall a, head (A p).*2 = Some a -> st < a.1 -> st + sz <= a.1) ->
  (add_free st sz (Some p) s = Fault /\ A p = []) \/
  add_free st sz (Some p) s = Ret (OS_ERR_MALLOC, s) \/
  (add_free st sz (Some p) s = Ret (OS_ERR_UNAUTHORIZED_ACTION, s) /\
     exists x, covers (A p).*2 x /\ st <= x < st + sz) \/
  (exists s', add_free st sz (Some p) s = Ret (OS_NO_ERR, s') /\ freed s A p st sz s').
Proof.
  intros HR Hst Hsz Hend Hfirst. unfold add_free. rewrite exec_gets.
  rewrite (mr_head _ _ _ HR p).
  destruct (A p) as [|[f [fs fz]] l] eqn:HA.
  { rewrite decide_True by done.
    destruct (add_free_first_spec s A L p st sz) as [?|(s' & ? & ?)]; eauto 6. }
  pose proof (mr_seg _ _ _ HR p) as Hseg. rewrite HA in Hseg.
  pose proof (mr_nodup _ _ _ HR p) as Hnd. rewrite HA in Hnd.
  assert (f <> NULL) as Hf by apply Hseg. simpl head. simpl default.
  rewrite decide_False by done. rewrite exec_gets.
  destruct (add_free_walk_ok st s ((f, (fs, fz)) :: l) (walk_fuel s) f Hseg)
    as (l1 & l2 & El & H1 & H2 & Hrun).
  { unfold walk_fuel. pose proof (aseg_length _ _ _ Hseg Hnd). lia. }
  simpl head in Hrun. simpl default in Hrun. rewrite (bind_ret _ _ _ _ _ Hrun). clear Hrun.
  pose proof (mr_ok _ _ _ HR p) as Hok. rewrite HA in Hok.
  destruct l1 as [|[y [ys yz]] l1 _] using rev_ind.
  - simpl in El. subst l2. simpl.
    destruct Hseg as (_ & (a & Ha & Es & Ez & _) & _).
    assert (st < fs) by (apply (H2 _ eq_refl)).
    erewrite exec_get_area by done. rewrite decide_False by tauto. rewrite decide_False by tauto.
    rewrite bind_ret_l. cbv iota.
    rewrite decide_False by done. rewrite decide_True by done.
    destruct (add_free_begin_spec s A L p st sz f fs fz l) as [?|(s' & ? & ?)]; eauto 6.
    apply (Hfirst (fs, fz)); [done|simpl; lia].
  - rewrite last_fst_snoc. simpl default.
    rewrite El, fmap_app, fmap_app in Hok. simpl in Hok. rewrite <- app_assoc in Hok.
    destruct (areas_ok_in _ (ys, yz) Hok) as (Hy1 & Hy2 & Hy3); [set_solver|].
    destruct (areas_ok_lt _ _ _ Hok) as [_ Hl2lt]. unfold fin in Hy1, Hy2, Hy3, Hl2lt. simpl in Hy1, Hy2, Hy3, Hl2lt.
    assert (ys <= st) as Hyst.
    { rewrite Forall_app, Forall_singleton in H1. destruct H1 as [_ H1]. exact H1. }
    rewrite El in Hseg, Hnd. rewrite <- app_assoc in Hseg, Hnd, El. simpl in Hseg, Hnd, El.
    destruct (aseg_lookup _ _ _ y ys yz Hseg) as (Hy0 & a & Ha & Es & Ez); [set_solver|].
    erewrite exec_get_area by done. rewrite Es, Ez, u32_small by lia.
    assert (forall x, covers (((f, (fs, fz)) :: l).*2) x <->
                      covers (l1.*2 ++ (ys, yz) :: l2.*2) x) as Hcov
      by (intros x; rewrite El, fmap_app; done).
    destruct (decide (y <> default NULL (head l2.*1) /\ ys + yz > st)) as [[_ Hov]|Hno].
    { right. right. left. split; [done|]. exists st. split; [|lia].
      apply Hcov, covers_app. right. apply covers_cons. left. unfold fin. simpl. lia. }
    destruct l2 as [|[c [cs cz]] l2]; simpl in *.
    + assert (ys + yz <= st) by (destruct (decide (ys + yz > st)); [tauto|lia]).
      rewrite (decide_False (P := y <> NULL /\ NULL <> NULL)) by tauto.
      rewrite bind_ret_l. cbv iota.
      destruct (add_free_end_spec s A L p st sz l1 y ys yz) as [?|(s' & ? & ?)];
        rewrite ?HA; eauto 6.
    + assert (y <> c) as Hyc.
      { clear - Hnd. rewrite fmap_app, NoDup_app in Hnd. simpl in Hnd.
        rewrite !NoDup_cons in Hnd. set_solver. }
      assert (c <> NULL) as Hc0.
      { eapply (aseg_lookup _ _ _ c cs cz); [exact Hseg|set_solver]. }
      assert (ys + yz <= st) by (destruct (decide (ys + yz > st)); [tauto|lia]).
      rewrite decide_True by done.
      destruct (aseg_lookup _ _ _ c cs cz Hseg) as (_ & ac & Hac & Ecs & Ecz); [set_solver|].
      rewrite bind_assoc. erewrite exec_get_area by done.
      rewrite bind_ret_l. cbv iota. rewrite Ecs, u32_small by lia.
      specialize (H2 _ eq_refl). simpl in H2.
      destruct (decide (st + sz > cs)) as [Hov|Hov].
      { rewrite bool_decide_true by done. right. right. left. split; [done|].
        exists cs. split; [|lia]. apply Hcov, covers_app. right. simpl.
        rewrite !covers_cons. right. left. unfold fin. simpl.
        destruct (areas_ok_in _ (cs, cz) Hok) as (_ & ? & _); [set_solver|]. simpl in *. lia. }
      rewrite bool_decide_false by done.
      rewrite decide_False by done. rewrite decide_False by done.
      rewrite <- HA in El. right.
      destruct (decide (ys + yz = st)), (decide (st + sz = cs)).
      * destruct (add_free_merge s A L p st sz l1 y ys yz c cs cz l2) as (s' & ? & ?); eauto 6.
      * destruct (add_free_extend_left s A L p st sz l1 y ys yz c cs cz l2) as (s' & ? & ?); eauto 6; lia.
      * destruct (add_free_extend_right s A L p st sz l1 y ys yz c cs cz l2) as (s' & ? & ?); eauto 6; lia.
      * destruct (add_free_between s A L p st sz l1 y ys yz c cs cz l2) as [?|(s' & ? & ?)]; eauto 6; lia.
Qed.
End AddFreeSpec.

(** * Taking blocks

    [remove_free] unlinks an area, [get_block] takes the start of the first
    area that is large enough. *)

Section RemoveFree.
Context {ops : AllocOps} `{!AllocSpec ops}.
Implicit Types (s : mstore) (A : pool -> list area).

Lemma aseg_relink ns l1 y ay a x nx :
  aseg ns (l1 ++ [(y, ay)]) x -> NoDup (l1 ++ [(y, ay)]).*1 -> ns !! y = Some a ->
  aseg (<[y := with_a_next nx a]> ns) (l1 ++ [(y, ay)]) nx.
Proof.
  intros [Hs1 Hs2]%aseg_app Hnd Ha. destruct ay as [st sz].
  rewrite fmap_app, NoDup_app in Hnd. destruct Hnd as (_ & Hd & _).
  assert (y ∉ l1.*1) as Hy by (intros Hin; apply (Hd y Hin); set_solver).
  apply aseg_app. split; [by apply aseg_insert_ne|].
  simpl in *. destruct Hs2 as (? & (a' & Ha' & ? & ? & ?) & _). simplify_eq.
  split_and!; try done. eexists. rewrite lookup_insert_eq. done.
Qed.

Lemma list_snoc_case {X Y} (l : list (X * Y)) : l = [] \/ exists l' x y, l = l' ++ [(x, y)].
Proof.
  destruct l as [|e l]; [by left|right].
  destruct (exists_last (l := e :: l)) as (l' & [x y] & ->); [done|]. by exists l', x, y.
Qed.

Lemma aseg_delete_ne ns l nx x : x ∉ l.*1 -> aseg ns l nx -> aseg (delete x ns) l nx.
Proof. intros Hx. apply aseg_ext. intros y Hy. apply lookup_delete_ne. congruence. Qed.

Lemma aback_delete_ne ns p l x : x ∉ l -> aback ns p l -> aback (delete x ns) p l.
Proof. intros Hx. apply aback_ext. intros y Hy. apply lookup_delete_ne. congruence. Qed.

Lemma aback_upd_next ns p l y a v :
  ns !! y = Some a -> aback ns p l -> aback (<[y := with_a_next v a]> ns) p l.
Proof.
  revert p. induction l as [|x l IH]; intros p Ha; simpl; [done|].
  intros [(b & Hb & Hp) Hl]. split; [|by apply IH].
  destruct (decide (y = x)) as [->|Hne].
  - eexists. rewrite lookup_insert_eq. split; [done|]. by simplify_eq.
  - exists b. by rewrite lookup_insert_ne.
Qed.

Lemma list_of_mk' l h m s :
  list_of l (mk_mstore h m (kernel_free_frames s) (kernel_free_pages s)) = list_of l s.
Proof. by destruct l. Qed.

(** The area [x] leaves its list; its neighbours are linked to each other. *)
Lemma remove_free_run s p l1 x vx l2 :
  list_of p s = default NULL (head (l1 ++ (x, vx) :: l2).*1) ->
  aseg (ms_areas s) (l1 ++ (x, vx) :: l2) NULL ->
  aback (ms_areas s) NULL (l1 ++ (x, vx) :: l2).*1 ->
  NoDup (l1 ++ (x, vx) :: l2).*1 ->
  exists s', remove_free x p s = Ret (tt, s') /\
    list_of p s' = default NULL (head (l1 ++ l2).*1) /\
    (forall q, q <> p -> list_of q s' = list_of q s) /\
    ms_heap s' = kfree x (ms_heap s) /\
    aseg (ms_areas s') (l1 ++ l2) NULL /\
    aback (ms_areas s') NULL (l1 ++ l2).*1 /\
    (forall z, z ∉ (l1 ++ (x, vx) :: l2).*1 -> ms_areas s' !! z = ms_areas s !! z) /\
    (forall z, is_Some (ms_areas s' !! z) -> z <> x /\ is_Some (ms_areas s !! z)).
Proof.
  intros Hhd Hseg Hback Hnd. rewrite fmap_app in Hback, Hnd. simpl in Hback, Hnd.
  apply aseg_app in Hseg as [Hs1 Hs2]. destruct vx as [xs xz]. simpl in Hs1, Hs2.
  destruct Hs2 as (Hx0 & (a & Ha & _ & _ & Hn) & Hs2).
  apply aback_app in Hback as [Hb1 [(a' & Ha' & Hp) Hb2]].
  assert (a' = a) as -> by congruence.
  apply NoDup_app in Hnd as (Hnd1 & Hd & Hnd2). apply NoDup_cons in Hnd2 as [Hx2 Hnd2].
  assert (x ∉ l1.*1) as Hx1 by (intros Hin; apply (Hd x Hin); set_solver).
  unfold remove_free. erewrite exec_get_area by done. rewrite Hn, Hp.
  destruct (list_snoc_case l1) as [->|(l1' & y & ay & ->)], l2 as [|[n [nst nsz]] l2];
    rewrite ?last_fst_snoc; simpl head; simpl default.
  - (* alone *)
    rewrite !decide_True by done. eexists. split; [done|]. simpl.
    split_and!; try done.
    + apply list_of_set_list.
    + intros q Hq. by rewrite list_of_set_list_ne, list_of_mk.
    + apply heap_set_list.
    + intros z Hz. rewrite areas_set_list. simpl. apply lookup_delete_ne. set_solver.
    + intros z. rewrite areas_set_list. simpl. rewrite lookup_delete_is_Some. intros [? ?]. split; congruence.
  - (* first *)
    simpl in Hs2, Hb2. destruct Hs2 as (Hn0 & (an & Han & ? & ? & ?) & Hs2).
    assert (n ∉ l2.*1) as Hnl by (by apply NoDup_cons in Hnd2 as [? _]).
    assert (x <> n) as Hxn by (intros ->; apply Hx2; set_solver).
    rewrite decide_False by done. rewrite decide_True by done.
    mstep. mstep. eexists. split; [done|]. simpl.
    rewrite ?areas_set_list, ?heap_set_list. simpl. split_and!; try done.
    + by rewrite list_of_mk', list_of_set_list.
    + intros q Hq. by rewrite list_of_mk', list_of_set_list_ne, ?list_of_areas.
    + exists (with_a_prev NULL an). by rewrite lookup_delete_ne, lookup_insert_eq by done.
    + apply aseg_delete_ne; [set_solver|]. by apply aseg_insert_ne.
    + eexists. by rewrite lookup_delete_ne, lookup_insert_eq by done.
    + apply aback_delete_ne; [set_solver|]. apply aback_insert_ne; [done|apply Hb2].
    + intros z Hz. assert (x <> z /\ n <> z) as [? ?] by (clear - Hz; set_solver).
      by rewrite lookup_delete_ne, lookup_insert_ne by done.
    + intros z. rewrite lookup_delete_is_Some, lookup_insert_is_Some.
      intros [? Hz]. split; [congruence|]. destruct Hz as [<-|[_ Hz]]; [by eexists|done].
  - (* last *)
    assert (exists a, ms_areas s !! y = Some a) as [ay' Hay].
    { destruct (aseg_dom _ _ _ y Hs1) as [_ [? ?]]; [rewrite fmap_app; set_solver|eauto]. }
    assert (y <> NULL) as Hy0 by (apply (aseg_dom _ _ _ y Hs1); rewrite fmap_app; set_solver).
    assert (x <> y) as Hxy by (intros ->; apply Hx1; rewrite fmap_app; set_solver).
    rewrite decide_True by done. rewrite decide_False by done.
    mstep. eexists. split; [done|]. simpl. rewrite app_nil_r. split_and!; try done.
    + rewrite list_of_mk', ?list_of_areas, Hhd, !fmap_app. by destruct l1' as [|[??]].
    + apply aseg_delete_ne; [done|]. by apply (aseg_relink _ _ _ _ _ x).
    + apply aback_delete_ne; [done|]. by apply aback_upd_next.
    + intros z Hz. rewrite fmap_app in Hz. simpl in Hz.
      assert (x <> z /\ y <> z) as [? ?]
        by (rewrite fmap_app in Hz; simpl in Hz; clear - Hz; set_solver).
      by rewrite lookup_delete_ne, lookup_insert_ne by done.
    + intros z. rewrite lookup_delete_is_Some, lookup_insert_is_Some.
      intros [? Hz]. split; [congruence|]. destruct Hz as [<-|[_ Hz]]; [by eexists|done].
  - (* between two areas *)
    simpl in Hs2, Hb2. destruct Hs2 as (Hn0 & (an & Han & ? & ? & ?) & Hs2).
    assert (n ∉ l2.*1) as Hnl by (by apply NoDup_cons in Hnd2 as [? _]).
    assert (x <> n) as Hxn by (intros ->; apply Hx2; set_solver).
    assert (exists a, ms_areas s !! y = Some a) as [ay' Hay].
    { destruct (aseg_dom _ _ _ y Hs1) as [_ [? ?]]; [rewrite fmap_app; set_solver|eauto]. }
    assert (y <> NULL) as Hy0 by (apply (aseg_dom _ _ _ y Hs1); rewrite fmap_app; set_solver).
    assert (x <> y) as Hxy by (intros ->; apply Hx1; rewrite fmap_app; set_solver).
    assert (n ∉ (l1' ++ [(y, ay)]).*1) as Hn1 by (intros Hin; apply (Hd n Hin); set_solver).
    assert (y ∉ l2.*1) as Hy2.
    { intros Hin. apply (Hd y); [rewrite fmap_app; set_solver|set_solver]. }
    assert (n <> y) as Hny by (intros ->; apply Hn1; rewrite fmap_app; set_solver).
    rewrite !decide_False by done.
    mstep. mstep. eexists. split; [done|]. simpl. split_and!; try done.
    + rewrite list_of_mk', ?list_of_areas, Hhd, !fmap_app. by destruct l1' as [|[??]].
    + apply aseg_app. simpl. split_and!; try done.
      * apply aseg_delete_ne; [done|]. apply (aseg_relink _ _ _ _ _ x); [|done|by rewrite lookup_insert_ne].
        by apply aseg_insert_ne.
      * exists (with_a_prev y an). by rewrite lookup_delete_ne, lookup_insert_ne, lookup_insert_eq by done.
      * apply aseg_delete_ne; [set_solver|]. do 2 (apply aseg_insert_ne; [done|]). done.
    + rewrite fmap_app. apply aback_app. rewrite last_fst_snoc. simpl. split_and!.
      * apply aback_delete_ne; [done|]. apply aback_upd_next; [by rewrite lookup_insert_ne|].
        by apply aback_insert_ne.
      * eexists. by rewrite lookup_delete_ne, lookup_insert_ne, lookup_insert_eq by done.
      * apply aback_delete_ne; [set_solver|]. do 2 (apply aback_insert_ne; [done|]). apply Hb2.
    + intros z Hz. rewrite fmap_app in Hz. simpl in Hz. rewrite fmap_app in Hz. simpl in Hz.
      assert (x <> z /\ y <> z /\ n <> z) as (? & ? & ?) by (clear - Hz; set_solver).
      by rewrite lookup_delete_ne, !lookup_insert_ne by done.
    + intros z. rewrite lookup_delete_is_Some, !lookup_insert_is_Some.
      intros [? Hz]. split; [congruence|].
      destruct Hz as [<-|[_ [<-|[_ Hz]]]]; [by eexists|by eexists|done].
Qed.
End RemoveFree.

Section GetBlock.
Context {ops : AllocOps} `{!AllocSpec ops}.
Implicit Types (s : mstore) (A : pool -> list area).

(** [bytes] at [st] are no longer free in pool [p], and nothing else changed. *)
Definition taken s A (p : pool) (st bytes : Z) s' : Prop :=
  exists l' L', mrep s' (<[p := l']> A) L' /\
    (forall x, covers l'.*2 x <-> covers (A p).*2 x /\ ~ st <= x < st + bytes) /\
    back_ok s' (<[p := l']> A) p /\
    (forall q, q <> p -> back_ok s A q -> back_ok s' (<[p := l']> A) q).

Lemma covers_other l1 st sz l2 x :
  areas_ok (l1 ++ (st, sz) :: l2) -> covers l1 x \/ covers l2 x -> ~ st <= x < st + sz.
Proof.
  intros Hok. destruct (areas_ok_lt _ _ _ Hok) as [H1 H2].
  intros [(a & Ha & ?)|(a & Ha & ?)]; [specialize (H1 a Ha)|specialize (H2 a Ha)];
    unfold fin in *; simpl in *; lia.
Qed.

(** The area keeps its end and loses its first [bytes]. *)
Lemma shrink_spec s A L p l1 x st sz l2 bytes :
  mrep s A L -> back_ok s A p -> A p = l1 ++ (x, (st, sz)) :: l2 -> 0 < bytes < sz ->
  forall a, ms_areas s !! x = Some a ->
  taken s A p st bytes
    (with_areas (<[x := mk_area (st + bytes) (sz - bytes) (a_next a) (a_prev a)]> (ms_areas s)) s).
Proof.
  intros HR HB HA Hb a Ha. unfold back_ok in HB.
  pose proof (mr_seg _ _ _ HR p) as Hseg. pose proof (mr_ok _ _ _ HR p) as Hok.
  pose proof (mr_nodup _ _ _ HR p) as Hnd. rewrite HA in Hseg, HB.
  rewrite HA, fmap_app in Hok. rewrite HA, fmap_app in Hnd. rewrite fmap_app in HB.
  simpl in Hok, Hnd, HB.
  apply aseg_app in Hseg as [Hs1 (Hx0 & (a' & Ha' & E1 & E2 & E3) & Hs2)].
  assert (a' = a) as -> by congruence.
  apply NoDup_app in Hnd as (Hnd1 & Hd & Hnd2). apply NoDup_cons in Hnd2 as [Hx2 Hnd2].
  assert (x ∉ l1.*1) as Hx1 by (intros Hin; apply (Hd x Hin); set_solver).
  destruct (areas_ok_in _ (st, sz) Hok) as (Ho1 & Ho2 & Ho3); [clear; set_solver|].
  destruct (areas_ok_lt _ _ _ Hok) as [Hlt1 Hlt2]. unfold fin in Ho1, Ho2, Ho3, Hlt1, Hlt2.
  simpl in Ho1, Ho2, Ho3, Hlt1, Hlt2.
  set (l' := l1 ++ (x, (st + bytes, sz - bytes)) :: l2).
  assert (l'.*1 = (A p).*1) as El by (unfold l'; rewrite HA, !fmap_app; done).
  destruct (mrep_update s (with_areas (<[x := mk_area (st + bytes) (sz - bytes) (a_next a) (a_prev a)]>
      (ms_areas s)) s) A L L p l' HR) as [HR' Ho].
  - rewrite list_of_areas, El. apply HR.
  - intros q _. by rewrite list_of_areas.
  - apply aseg_app. simpl. split_and!; try done.
    + by apply aseg_insert_ne.
    + eexists. rewrite lookup_insert_eq. done.
    + by apply aseg_insert_ne.
  - unfold l'. rewrite fmap_app. apply (areas_ok_replace _ [(st, sz)] _ _ Hok);
      unfold fin; simpl; try lia.
    + intros b Hb'. specialize (Hlt1 b Hb'). lia.
    + intros b Hb'. specialize (Hlt2 b Hb'). lia.
  - rewrite El. apply HR.
  - rewrite El. done.
  - intros z Hz _. simpl. rewrite lookup_insert_ne; [done|]. intros ->. apply Hz.
    rewrite HA, fmap_app. clear. set_solver.
  - apply HR.
  - simpl. rewrite lookup_insert_ne by done. apply HR.
  - simpl. apply mem_ok_insert; [exact (mr_block _ _ _ HR)|by eexists].
  - exists l', L. split; [done|]. split; [|split; [|done]].
    + intros y. unfold l'. rewrite HA, !fmap_app, !covers_app. simpl. rewrite !covers_cons.
      pose proof (covers_other _ _ _ _ y Hok) as Hoth. unfold fin. simpl.
      assert (st + bytes <= y < st + bytes + (sz - bytes) <->
              st <= y < st + sz /\ ~ st <= y < st + bytes) as -> by lia.
      assert (~ (st <= y < st + sz) -> ~ (st <= y < st + bytes)) by lia. tauto.
    + unfold back_ok. rewrite fn_lookup_insert, El, HA, fmap_app. simpl.
      apply aback_app in HB as [Hb1 [(a' & Ha'' & Hp) Hb2]]. apply aback_app. simpl. split_and!.
      * by apply aback_insert_ne.
      * eexists. rewrite lookup_insert_eq. split; [done|]. by simplify_eq.
      * by apply aback_insert_ne.
Qed.

(** The whole area is taken and its node freed. *)
Lemma take_all_spec s A L p l1 x st sz l2 a v :
  mrep s A L -> back_ok s A p -> A p = l1 ++ (x, (st, sz)) :: l2 -> ms_areas s !! x = Some a ->
  exists s', remove_free x p (with_areas (<[x := mk_area v 0 (a_next a) (a_prev a)]> (ms_areas s)) s) =
      Ret (tt, s') /\ taken s A p st sz s'.
Proof.
  intros HR HB HA Ha. unfold back_ok in HB.
  pose proof (mr_seg _ _ _ HR p) as Hseg. pose proof (mr_ok _ _ _ HR p) as Hok.
  pose proof (mr_nodup _ _ _ HR p) as Hnd. pose proof (mr_head _ _ _ HR p) as Hhd.
  rewrite HA in Hseg, HB, Hhd, Hnd. rewrite HA, fmap_app in Hok. simpl in Hok.
  set (s1 := with_areas _ s).
  pose proof Hseg as Hseg0. apply aseg_app in Hseg0 as [Hs1 (Hx0 & (a' & Ha' & E1 & E2 & E3) & Hs2)].
  assert (a' = a) as -> by congruence.
  pose proof Hnd as Hnd0. rewrite fmap_app in Hnd0. simpl in Hnd0.
  apply NoDup_app in Hnd0 as (Hnd1 & Hd & Hnd2). apply NoDup_cons in Hnd2 as [Hx2 Hnd2].
  assert (x ∉ l1.*1) as Hx1 by (intros Hin; apply (Hd x Hin); clear; set_solver).
  destruct (remove_free_run s1 p l1 x (v, 0) l2) as
    (s' & Hrun & Hh' & Hoth & Hheap & Hseg' & Hback' & Hfr & Hdom).
  { unfold s1. rewrite list_of_areas, Hhd, !fmap_app. done. }
  { apply aseg_app. simpl. split_and!; try done.
    - by apply aseg_insert_ne.
    - eexists. rewrite lookup_insert_eq. done.
    - by apply aseg_insert_ne. }
  { rewrite fmap_app in HB |- *. simpl in *.
    apply aback_app in HB as [Hb1 [(a' & Ha'' & Hp) Hb2]]. apply aback_app. simpl. split_and!.
    - by apply aback_insert_ne.
    - eexists. rewrite lookup_insert_eq. split; [done|]. by simplify_eq.
    - by apply aback_insert_ne. }
  { by rewrite fmap_app in Hnd |- *. }
  exists s'. split; [done|].
  destruct (mr_block _ _ _ HR x) as (m & Hm & _); [by eexists|].
  destruct (mrep_update s s' A L (delete x L) p (l1 ++ l2) HR) as [HR' Ho]; try done.
  - rewrite fmap_app. apply areas_ok_remove in Hok. done.
  - rewrite fmap_app. apply NoDup_app. split_and!; [done| |done].
    intros z Hz Hz2. apply (Hd z Hz). clear - Hz2. set_solver.
  - intros z Hz Hz'. exfalso. apply Hz. rewrite HA. rewrite fmap_app in Hz' |- *. simpl.
    clear - Hz'. set_solver.
  - intros z Hz _. rewrite HA in Hz. rewrite Hfr by (rewrite fmap_app in Hz |- *; exact Hz).
    unfold s1. simpl. rewrite lookup_insert_ne; [done|]. intros ->. apply Hz.
    rewrite fmap_app. clear. set_solver.
  - rewrite Hheap. unfold s1. simpl. by apply (kfree_spec _ _ _ m); [apply HR|].
  - destruct (ms_areas s' !! NULL) eqn:E; [|done]. destruct (Hdom NULL) as [? Hs]; [by eexists|].
    unfold s1 in Hs. simpl in Hs. rewrite lookup_insert_ne in Hs by done.
    rewrite (mr_null _ _ _ HR) in Hs. by destruct Hs.
  - intros z Hz. destruct (Hdom z Hz) as [Hzx Hs]. unfold s1 in Hs. simpl in Hs.
    rewrite lookup_insert_ne in Hs by done. rewrite lookup_delete_ne by done.
    by apply (mr_block _ _ _ HR).
  - exists (l1 ++ l2), (delete x L). split; [done|]. split; [|split; [|done]].
    + intros y. rewrite HA, !fmap_app, !covers_app. simpl. rewrite covers_cons.
      pose proof (covers_other _ _ _ _ y Hok). unfold fin. simpl. tauto.
    + unfold back_ok. by rewrite fn_lookup_insert.
Qed.

(** [get_block] on a well-formed pool. *)
Lemma get_block_spec s A L p n :
  mrep s A L -> back_ok s A p -> 0 < n -> 4096 * n < 2 ^ 32 ->
  (get_block p n s = Ret ((NULL, OS_ERR_NO_MORE_FREE_MEM), s) /\
     Forall (fun a => a.2.2 < 4096 * n) (A p)) \/
  exists l1 x st sz l2 s', A p = l1 ++ (x, (st, sz)) :: l2 /\ 4096 * n <= sz /\
    Forall (fun a => a.2.2 < 4096 * n) l1 /\
    get_block p n s = Ret ((st, OS_NO_ERR), s') /\ taken s A p st (4096 * n) s'.
Proof.
  intros HR HB Hn Hw. unfold get_block. rewrite !exec_gets, (mr_head _ _ _ HR p).
  unfold KERNEL_PAGE_SIZE. rewrite u32_small by lia.
  pose proof (mr_seg _ _ _ HR p) as Hseg.
  assert (length (A p) < walk_fuel s)%nat as Hf.
  { unfold walk_fuel. pose proof (aseg_length _ _ _ Hseg (mr_nodup _ _ _ HR p)). lia. }
  destruct (get_block_walk_ok (4096 * n) s (A p) (walk_fuel s) Hseg Hf)
    as [(l1 & x & st & sz & l2 & HA & Hle & Hl1 & Hrun)|[Hall Hrun]];
    rewrite (bind_ret _ _ _ _ _ Hrun); [right|by left].
  destruct (aseg_lookup _ _ _ x st sz Hseg) as (Hx0 & a & Ha & Es & Ez);
    [rewrite HA; clear; set_solver|].
  pose proof (mr_ok _ _ _ HR p) as Hok. rewrite HA, fmap_app in Hok. simpl in Hok.
  destruct (areas_ok_in _ (st, sz) Hok) as (Ho1 & Ho2 & Ho3); [clear; set_solver|].
  unfold fin in *. simpl in Ho1, Ho2, Ho3.
  rewrite decide_False by done. erewrite exec_get_area by done. rewrite Es, Ez.
  do 2 mstep. rewrite insert_insert_eq. rewrite !u32_small by lia.
  exists l1, x, st, sz, l2.
  destruct (decide (sz - 4096 * n = 0)) as [E|E].
  - destruct (take_all_spec s A L p l1 x st sz l2 a (st + 4096 * n) HR HB HA Ha)
      as (s' & Hrun' & Ht).
    exists s'. replace (4096 * n) with sz in * by lia. split_and!; try done.
    rewrite Ez, E. etransitivity; [exact (bind_ret _ _ _ _ _ Hrun')|done].
  - eexists. split; [done|]. split; [done|]. split; [done|]. split; [reflexivity|].
    pose proof (shrink_spec s A L p l1 x st sz l2 (4096 * n) HR HB HA ltac:(lia) a Ha) as Ht.
    rewrite Ez. exact Ht.
Qed.
End GetBlock.
