(* ===== verification/MemAllocTheorems.v ===== *)
(** * The properties of the frame and page pools

    What [memory/memalloc.c] promises to the paging code and the drivers, and
    the corner cases in which it does not keep the promise. *)
From stdpp Require Import sorting functions.
From S2P Require Import Prelude Alloc KHeap KHeapSpec KHeapTheorems.
From S2P Require Import Frames MemAlloc MemAllocSpec.

(** ** Concrete stores *)
Definition boot_mstore : mstore := mk_mstore demo_kheap ∅ NULL NULL.

Lemma boot_mstore_rep : mrep boot_mstore (fun _ => []) ∅.
Proof.
  split; simpl; try done.
  - by intros [].
  - intros _. split; constructor.
  - intros _. constructor.
  - intros p1 p2 x Hx. by apply not_elem_of_nil in Hx.
  - exact demo_kheap_rep.
  - intros x. rewrite lookup_empty. by intros [? ?].
Qed.

(** A store with one free area of four frames at 0x10000. *)
Definition one_area : outcome (OS_RETURN_E * mstore) :=
  memalloc_free_kframes 65536 4 boot_mstore.

Definition store_of {A} (o : outcome (A * mstore)) : mstore :=
  match o with Ret (_, s) => s | _ => boot_mstore end.

Section Theorems.
Context {ops : AllocOps} `{!AllocSpec ops}.
Implicit Types (s : mstore) (A : pool -> list area).

Lemma mrep_ext s A A' L : mrep s A L -> (forall q, A q = A' q) -> mrep s A' L.
Proof.
  intros [] HA. split; intros; rewrite <- ?HA in *; eauto.
Qed.

(** giving frames back adds exactly their addresses to the free pool,
    which stays sorted, disjoint and fully merged; a block that overlaps free
    memory is refused without any change, and so is one for which the heap has
    no room left. *)
Theorem free_kframes_correct s A L st n :
  mrep s A L -> 0 <= st -> 0 < n -> st + 4096 * n < 2 ^ 32 ->
  (forall a, head (A Frames).*2 = Some a -> st < a.1 -> st + 4096 * n <= a.1) ->
  (memalloc_free_kframes st n s = Fault /\ A Frames = []) \/
  memalloc_free_kframes st n s = Ret (OS_ERR_MALLOC, s) \/
  (memalloc_free_kframes st n s = Ret (OS_ERR_UNAUTHORIZED_ACTION, s) /\
     exists x, covers (A Frames).*2 x /\ st <= x < st + 4096 * n) \/
  (exists s' l' L', memalloc_free_kframes st n s = Ret (OS_NO_ERR, s') /\
     mrep s' (<[Frames := l']> A) L' /\
     forall x, covers l'.*2 x <-> covers (A Frames).*2 x \/ st <= x < st + 4096 * n).
Proof.
  intros HR Hst Hn Hend Hfirst. unfold memalloc_free_kframes, KERNEL_PAGE_SIZE.
  replace (n * 4096) with (4096 * n) by lia. rewrite u32_small by lia.
  destruct (add_free_spec s A L Frames st (4096 * n) HR Hst ltac:(lia) Hend Hfirst)
    as [?|[?|[?|(s' & Hrun & l' & L' & HR' & Hc & _)]]]; auto.
  do 3 right. by exists s', l', L'.
Qed.

(** C33: When the backward links of the list of free frames are right
    ([back_ok]), an allocation of [n] frames, of less than 2^32 bytes, returns
    the start of the first area that is large enough: these frames are removed
    from the pool, nothing else is, and the backward links are still right.  It
    fails, changing nothing, only when no area can hold the request.  The
    backward links are right in a new pool and a release keeps them so, but for
    one that fills exactly the gap between two areas with a third after them
    ([gap_fill_leaves_dangling_prev]), after which an allocation can fault. *)
Theorem alloc_kframes_correct s A L n :
  mrep s A L -> back_ok s A Frames -> 0 < n -> 4096 * n < 2 ^ 32 ->
  (memalloc_alloc_kframes n s = Ret ((NULL, OS_ERR_NO_MORE_FREE_MEM), s) /\
     forall a, a ∈ (A Frames).*2 -> a.2 < 4096 * n) \/
  exists l1 st size l2, (A Frames).*2 = l1 ++ (st, size) :: l2 /\ 4096 * n <= size /\
    (forall a, a ∈ l1 -> a.2 < 4096 * n) /\
    exists s' l' L', memalloc_alloc_kframes n s = Ret ((st, OS_NO_ERR), s') /\
      mrep s' (<[Frames := l']> A) L' /\ back_ok s' (<[Frames := l']> A) Frames /\
      (forall x, covers l'.*2 x <-> covers (A Frames).*2 x /\ ~ st <= x < st + 4096 * n).
Proof.
  intros HR HB Hn Hw.
  destruct (get_block_spec s A L Frames n HR HB Hn Hw)
    as [[Hrun Hall]|(l1 & x & st & sz & l2 & s' & HA & Hle & Hall & Hrun & l' & L' & HR' & Hc & HB' & _)].
  - left. split; [done|]. intros a (e & -> & He)%list_elem_of_fmap.
    rewrite Forall_forall in Hall. by apply Hall.
  - right. exists l1.*2, st, sz, l2.*2. split; [by rewrite HA, fmap_app|]. split; [done|]. split.
    + intros a (e & -> & He)%list_elem_of_fmap. rewrite Forall_forall in Hall. by apply Hall.
    + by exists s', l', L'.
Qed.

(** frames that are allocated and given back leave the free pool exactly
    as it was (or the heap refuses the node the pool needs to describe it). *)
Theorem alloc_free_roundtrip s A L n st s1 :
  mrep s A L -> back_ok s A Frames -> 0 < n -> 4096 * n < 2 ^ 32 ->
  memalloc_alloc_kframes n s = Ret ((st, OS_NO_ERR), s1) ->
  memalloc_free_kframes st n s1 = Fault \/
  memalloc_free_kframes st n s1 = Ret (OS_ERR_MALLOC, s1) \/
  exists s2 l2 L2, memalloc_free_kframes st n s1 = Ret (OS_NO_ERR, s2) /\
    mrep s2 (<[Frames := l2]> A) L2 /\
    forall x, covers l2.*2 x <-> covers (A Frames).*2 x.
Proof.
  intros HR HB Hn Hw Hrun.
  destruct (get_block_spec s A L Frames n HR HB Hn Hw)
    as [[Hrun' _]|(l1 & x & st' & sz & l2 & s' & HA & Hle & _ & Hrun' & l' & L' & HR' & Hc & HB' & _)];
    unfold memalloc_alloc_kframes in Hrun; rewrite Hrun' in Hrun; [done|].
  injection Hrun as -> ->.
  pose proof (mr_ok _ _ _ HR Frames) as Hok. rewrite HA, fmap_app in Hok. simpl in Hok.
  destruct (areas_ok_in _ (st, sz) Hok) as (? & ? & ?); [clear; set_solver|].
  unfold fin in *; simpl in *.
  assert (forall y, st <= y < st + 4096 * n -> covers (A Frames).*2 y) as Hin.
  { intros y Hy. exists (st, sz). split; [|unfold fin; simpl; lia].
    rewrite HA, fmap_app. clear. set_solver. }
  unfold memalloc_free_kframes, KERNEL_PAGE_SIZE.
  replace (n * 4096) with (4096 * n) by lia. rewrite u32_small by lia.
  destruct (add_free_spec s1 _ L' Frames st (4096 * n) HR')
    as [[? _]|[?|[[_ (y & Hy & Hy')]|(s2 & Hrun2 & l3 & L3 & HR3 & Hc3 & _)]]]; try lia; auto.
  - (* an area that starts inside the block would still be free *)
    intros a Ha Hlt. destruct (decide (st + 4096 * n <= a.1)); [done|]. exfalso.
    rewrite fn_lookup_insert in Ha.
    assert (a ∈ l'.*2) as Hal by (by apply head_Some_elem_of).
    pose proof (mr_ok _ _ _ HR' Frames) as Hok'. rewrite fn_lookup_insert in Hok'.
    destruct (areas_ok_in _ a Hok' Hal) as (? & ? & ?).
    assert (covers l'.*2 a.1) as [_ Hn']%Hc by (exists a; split; [done|unfold fin; lia]). lia.
  - exfalso. rewrite fn_lookup_insert in Hy. apply Hc in Hy. lia.
  - right. right. exists s2, l3, L3. split; [done|].
    split.
    { apply (mrep_ext _ _ _ _ HR3). intros q.
      destruct (decide (Frames = q)) as [<-|]; [by rewrite !fn_lookup_insert|].
      by rewrite !fn_lookup_insert_ne. }
    intros y. rewrite Hc3, fn_lookup_insert, Hc. split; [intros [[? _]|?]; auto|].
    intros Hy. destruct (decide (st <= y < st + 4096 * n)); auto.
Qed.
End Theorems.

(** when a freed block fills the gap between two areas, the node of the
    second is freed but the [prev] pointer of the area after it still points
    to it; emptying that area later goes through the dangling pointer. *)
Theorem gap_fill_leaves_dangling_prev :
  result_of ((memalloc_free_kframes 65536 1 >>> memalloc_free_kframes 73728 1 >>>
   memalloc_free_kframes 81920 4 >>> memalloc_free_kframes 69632 1) boot_mstore) = Some OS_NO_ERR /\
  is_fault ((memalloc_free_kframes 65536 1 >>> memalloc_free_kframes 73728 1 >>>
   memalloc_free_kframes 81920 4 >>> memalloc_free_kframes 69632 1 >>>
   memalloc_alloc_kframes 4) boot_mstore) = true.
Proof. split; vm_compute; reflexivity. Qed.

(** nothing checks that a block placed before the first area ends before
    that area starts: the overlapping block is accepted and the same frame is
    then handed out twice. *)
Theorem free_before_first_not_checked :
  result_of ((memalloc_free_kframes 86016 1 >>>
    let* e := memalloc_free_kframes 81920 2 in
    memalloc_alloc_kframes 1 >>>
    let* (f1, _) := memalloc_alloc_kframes 1 in
    let* (f2, _) := memalloc_alloc_kframes 1 in
    ret (e, f1, f2)) boot_mstore) = Some (OS_NO_ERR, 86016, 86016).
Proof. vm_compute. reflexivity. Qed.

(** adding the first area of a pool does not survive a full heap: the
    test after [kmalloc] looks at the wrong pointer and the null node is
    written to. *)
Theorem first_area_out_of_memory_faults :
  forall st n, memalloc_free_kframes st n (mk_mstore bss_kheap ∅ NULL NULL) = Fault.
Proof. intros st n. reflexivity. Qed.

(** a request of 2^20 frames wraps to zero bytes and succeeds, with an
    address whose frames all stay free. *)
Theorem alloc_request_wraps :
  let s := store_of (memalloc_free_kframes 65536 4 boot_mstore) in
  result_of (memalloc_alloc_kframes (2 ^ 20) s) = Some (65536, OS_NO_ERR) /\
  result_of ((memalloc_alloc_kframes (2 ^ 20) >>> memalloc_alloc_kframes 4) s) =
    Some (65536, OS_NO_ERR).
Proof. vm_compute. split; reflexivity. Qed.

(** the guard of [memalloc_free_kpages] adds the high-half offset to an
    address that already includes it; the sum wraps, so pages of the kernel
    image itself are accepted. *)
Theorem free_kpages_guard_wraps {ops : AllocOps} kernel_end page_addr n s :
  KERNEL_MEM_OFFSET <= kernel_end < 2 ^ 32 -> kernel_end - 2 ^ 29 <= page_addr ->
  memalloc_free_kpages kernel_end page_addr n s =
    add_free page_addr (u32 (n * KERNEL_PAGE_SIZE)) (Some Pages) s.
Proof.
  intros Hk Hp. unfold memalloc_free_kpages, KERNEL_MEM_OFFSET in *. rewrite decide_False; [done|].
  unfold u32. replace (3758096384 + kernel_end) with (kernel_end - 2 ^ 29 + 1 * 2 ^ 32) by lia.
  rewrite Z.mod_add by lia. rewrite Z.mod_small by lia. lia.
Qed.

(** ** Witnesses *)
Lemma one_area_run : exists s L,
  memalloc_free_kframes 65536 4 boot_mstore = Ret (OS_NO_ERR, s) /\
  exists A, mrep s A L /\ (forall x, covers (A Frames).*2 x <-> 65536 <= x < 65536 + 4096 * 4) /\
    back_ok s A Frames.
Proof.
  destruct (add_free_spec boot_mstore _ ∅ Frames 65536 (4096 * 4) boot_mstore_rep)
    as [[H _]|[H|[[H _]|(s' & Hrun & l' & L' & HR & Hc & Hb & _)]]]; try lia.
  - intros a Ha. discriminate Ha.
  - exfalso. apply (f_equal result_of) in H. vm_compute in H. discriminate H.
  - exfalso. apply (f_equal result_of) in H. vm_compute in H. discriminate H.
  - exfalso. apply (f_equal result_of) in H. vm_compute in H. discriminate H.
  - exists s', L'. split; [exact Hrun|]. exists (<[Frames := l']> (fun _ => [])).
    split; [done|]. split.
    + intros x. rewrite fn_lookup_insert, Hc. simpl. rewrite covers_nil. tauto.
    + apply Hb; [done|]. intros (l1 & a & b & c & l2 & E & _). by destruct l1.
Qed.

Lemma free_kframes_correct_witness :
  mrep boot_mstore (fun _ => []) ∅ /\
  exists s' l' L', memalloc_free_kframes 65536 4 boot_mstore = Ret (OS_NO_ERR, s') /\
    mrep s' (<[Frames := l']> (fun _ => [])) L' /\ covers l'.*2 70000.
Proof.
  split; [exact boot_mstore_rep|].
  destruct (free_kframes_correct boot_mstore _ ∅ 65536 4 boot_mstore_rep
    ltac:(lia) ltac:(lia) ltac:(lia) ltac:(discriminate))
    as [[H _]|[H|[[H _]|(s' & l' & L' & Hrun & HR & Hc)]]].
  1-3: exfalso; apply (f_equal result_of) in H; vm_compute in H; discriminate H.
  exists s', l', L'. split; [exact Hrun|]. split; [exact HR|]. apply Hc. right. lia.
Defined.

Lemma alloc_kframes_correct_witness :
  exists s A L s' l' L', mrep s A L /\ back_ok s A Frames /\
    memalloc_alloc_kframes 3 s = Ret ((65536, OS_NO_ERR), s') /\
    mrep s' (<[Frames := l']> A) L' /\ covers l'.*2 77824.
Proof.
  destruct one_area_run as (s & L & Hrun & A & HR & Hc & HB).
  destruct (alloc_kframes_correct s A L 3 HR HB ltac:(lia) ltac:(lia))
    as [[H _]|(l1 & st & size & l2 & _ & _ & _ & s' & l' & L' & H & HR' & HB' & Hc')].
  - exfalso. assert (s = store_of (memalloc_free_kframes 65536 4 boot_mstore)) as -> by (by rewrite Hrun).
    apply (f_equal result_of) in H. vm_compute in H. discriminate H.
  - assert (st = 65536) as ->.
    { assert (s = store_of (memalloc_free_kframes 65536 4 boot_mstore)) as -> by (by rewrite Hrun).
      apply (f_equal result_of) in H. vm_compute in H. congruence. }
    exists s, A, L, s', l', L'. split; [exact HR|]. split; [exact HB|]. split; [exact H|]. split; [exact HR'|].
    apply Hc'. split; [apply Hc; lia|lia].
Defined.

Lemma alloc_free_roundtrip_witness :
  exists s A s1, memalloc_alloc_kframes 3 s = Ret ((65536, OS_NO_ERR), s1) /\
    exists s2 l2, memalloc_free_kframes 65536 3 s1 = Ret (OS_NO_ERR, s2) /\
      forall x : Z, covers (l2 : list area).*2 x <-> covers (A Frames : list area).*2 x.
Proof.
  destruct one_area_run as (s & L & Hrun & A & HR & Hc & HB).
  assert (s = store_of (memalloc_free_kframes 65536 4 boot_mstore)) as Es by (by rewrite Hrun).
  assert (result_of (memalloc_alloc_kframes 3 s) = Some (65536, OS_NO_ERR)) as Hres
    by (rewrite Es; vm_compute; reflexivity).
  assert (result_of ((memalloc_alloc_kframes 3 >>> memalloc_free_kframes 65536 3) s) =
    Some OS_NO_ERR) as Hres2 by (rewrite Es; vm_compute; reflexivity).
  destruct (memalloc_alloc_kframes 3 s) as [[v s1]| | |] eqn:Ha; try discriminate Hres.
  injection Hres as ->. rewrite (bind_ret _ _ _ _ _ Ha) in Hres2.
  exists s, A, s1. split; [exact Ha|].
  destruct (alloc_free_roundtrip s A L 3 65536 s1 HR HB ltac:(lia) ltac:(lia) Ha)
    as [H|[H|(s2 & l2 & L2 & H & _ & Hc2)]].
  - exfalso. rewrite H in Hres2. discriminate Hres2.
  - exfalso. rewrite H in Hres2. discriminate Hres2.
  - exists s2, l2. split; [exact H|exact Hc2].
Defined.

Lemma free_kpages_guard_wraps_witness :
  memalloc_free_kpages 3759144960 3758620672 1 boot_mstore =
    add_free 3758620672 4096 (Some Pages) boot_mstore.
Proof.
  apply (free_kpages_guard_wraps 3759144960 3758620672 1 boot_mstore);
    unfold KERNEL_MEM_OFFSET; lia.
Defined.
