(* ===== verification/FramePool.v ===== *)
(** * The pool of [memory/memalloc.c] is a frame pool *)
From stdpp Require Import sorting functions.
From S2P Require Import Prelude Alloc Frames MemAlloc MemAllocSpec MemAllocTheorems.

#[export] Instance memalloc_frames (ops : AllocOps) : FrameOps := {|
  frames := mstore;
  alloc_kframes := memalloc_alloc_kframes;
  free_kframes := memalloc_free_kframes;
|}.

Section Pool.
Context {ops : AllocOps} `{!AllocSpec ops}.
Implicit Types (s : mstore) (A : pool -> list area) (U : Z -> Prop).

(** Free memory is made of whole frames. *)
Definition pool_rep s U : Prop :=
  exists A L, mrep s A L /\ forall x, covers (A Frames).*2 x <-> U (x / 4096).

Definition pool_links s : Prop := exists A L, mrep s A L /\ back_ok s A Frames.

(** The areas of a pool are determined by the store. *)
Lemma aseg_inj ns l1 l2 :
  default NULL (head l1.*1) = default NULL (head l2.*1) ->
  aseg ns l1 NULL -> aseg ns l2 NULL -> l1 = l2.
Proof.
  revert l2. induction l1 as [|[x [st sz]] l1 IH]; intros [|[y [st' sz']] l2]; simpl; [done|..].
  - intros E _ [Hy _]. congruence.
  - intros E [Hx _]. congruence.
  - intros <- (_ & (a & Ha & <- & <- & Hn) & H1) (_ & (a' & Ha' & <- & <- & Hn') & H2).
    simplify_eq. f_equal. apply IH; [congruence|done..].
Qed.

Lemma mrep_inj s A A' L L' p : mrep s A L -> mrep s A' L' -> A p = A' p.
Proof.
  intros H H'. apply (aseg_inj (ms_areas s)); [|apply H|apply H'].
  by rewrite <- (mr_head _ _ _ H p), <- (mr_head _ _ _ H' p).
Qed.

(** An area of a pool of whole frames starts at a frame. *)
Lemma area_start_aligned (l : list (Z * Z)) a U :
  areas_ok l -> a ∈ l -> (forall x, covers l x <-> U (x / 4096)) -> a.1 mod 4096 = 0.
Proof.
  intros Hok Ha HU. destruct (areas_ok_in _ _ Hok Ha) as (H1 & H2 & _).
  destruct (decide (a.1 mod 4096 = 0)) as [|Hm]; [done|]. exfalso.
  assert (covers l (a.1 - 1)) as (b & Hb & Hbx).
  { apply HU. replace ((a.1 - 1) / 4096) with (a.1 / 4096).
    - apply HU. exists a. split; [done|]. unfold fin. lia.
    - pose proof (Z.div_mod a.1 4096). pose proof (Z.mod_pos_bound a.1 4096).
      apply Z.div_unique_pos with (a.1 mod 4096 - 1); lia. }
  apply list_elem_of_split in Ha as (l1 & l2 & ->).
  apply areas_ok_lt in Hok as [Hl Hr]. rewrite elem_of_app, elem_of_cons in Hb.
  unfold fin in *. destruct Hb as [Hb|[-> |Hb]]; [|lia|].
  - specialize (Hl b Hb). lia.
  - specialize (Hr b Hb). lia.
Qed.

Lemma pool_free_correct s U a n :
  pool_rep s U -> 0 <= a -> a mod 4096 = 0 -> 0 < n -> a + 4096 * n < 2 ^ 32 ->
  (forall k, block a n k -> ~ U k) ->
  memalloc_free_kframes a n s = Fault /\ (forall k, ~ U k) \/
  memalloc_free_kframes a n s = Ret (OS_ERR_MALLOC, s) \/
  exists s', memalloc_free_kframes a n s = Ret (OS_NO_ERR, s') /\
    pool_rep s' (fun k => U k \/ block a n k).
Proof.
  intros (A & L & HR & HU) Ha Hm Hn Hend Hfree.
  assert (forall x, a <= x < a + 4096 * n <-> block a n (x / 4096)) as Hblk.
  { intros x. unfold block. pose proof (Z.div_mod a 4096).
    pose proof (Z.div_mod x 4096). pose proof (Z.mod_pos_bound x 4096). nia. }
  unfold memalloc_free_kframes, KERNEL_PAGE_SIZE.
  replace (n * 4096) with (4096 * n) by lia. rewrite u32_small by lia.
  destruct (add_free_spec s A L Frames a (4096 * n) HR Ha ltac:(lia) Hend)
    as [[Hf He]|[?|[(_ & x & Hx & Hin)|(s' & Hrun & l' & L' & HR' & Hc & _)]]].
  - intros b Hb Hlt. destruct (decide (a + 4096 * n <= b.1)); [done|]. exfalso.
    assert (b ∈ (A Frames).*2) as Hbl by (by apply head_Some_elem_of).
    destruct (areas_ok_in _ b (mr_ok _ _ _ HR Frames) Hbl) as (? & ? & ?).
    apply (Hfree (b.1 / 4096)); [apply Hblk; lia|]. apply HU. exists b. split; [done|]. unfold fin. lia.
  - left. split; [done|]. intros k Hk. assert (covers (A Frames).*2 (k * 4096)) as (b & Hb & _)
      by (apply HU; by rewrite Z.div_mul by lia).
    rewrite He in Hb. by apply not_elem_of_nil in Hb.
  - right. by left.
  - exfalso. apply (Hfree (x / 4096)); [by apply Hblk|by apply HU].
  - do 2 right. exists s'. split; [done|]. exists (<[Frames := l']> A), L'. split; [done|].
    intros x. rewrite fn_lookup_insert, Hc, HU, Hblk. done.
Qed.

Lemma pool_rep_inj s U V : pool_rep s U -> pool_rep s V -> forall k, U k <-> V k.
Proof.
  intros (A & L & HR & HU) (A' & L' & HR' & HV) k. specialize (HU (k * 4096)). specialize (HV (k * 4096)).
  rewrite Z.div_mul in HU, HV by lia. rewrite <- HU, <- HV. by rewrite (mrep_inj _ _ _ _ _ Frames HR HR').
Qed.

(** Areas do not touch, so that contiguous free frames are in one area. *)
Lemma areas_within (l : list (Z * Z)) lo hi :
  areas_ok l -> lo < hi -> (forall x, lo <= x < hi -> covers l x) ->
  exists b, b ∈ l /\ hi - lo <= b.2.
Proof.
  intros Hok Hlt Hcov. destruct (Hcov lo) as (b & Hb & Hbx); [lia|]. exists b. split; [done|].
  destruct (decide (fin b < hi)) as [Hend|]; [|unfold fin in *; lia]. exfalso.
  destruct (Hcov (fin b)) as (c & Hc & Hcx); [lia|].
  apply list_elem_of_split in Hb as (l1 & l2 & ->). destruct (areas_ok_lt _ _ _ Hok) as [Hl Hr].
  rewrite elem_of_app, elem_of_cons in Hc. destruct Hc as [Hc|[-> |Hc]].
  - specialize (Hl c Hc). unfold fin in *. lia.
  - lia.
  - specialize (Hr c Hc). lia.
Qed.

Lemma pool_no_block s A L U n :
  mrep s A L -> (forall x, covers (A Frames).*2 x <-> U (x / 4096)) -> 0 < n ->
  (forall b, b ∈ (A Frames).*2 -> b.2 < 4096 * n) -> no_block U n.
Proof.
  intros HR HU Hn Hall a Hm Hblk.
  destruct (areas_within (A Frames).*2 a (a + 4096 * n) (mr_ok _ _ _ HR Frames)) as (b & Hb & Hsz); [lia| |].
  - intros x Hx. apply HU, Hblk. unfold block. pose proof (Z.div_mod a 4096).
    pose proof (Z.div_mod x 4096). pose proof (Z.mod_pos_bound x 4096). nia.
  - specialize (Hall b Hb). lia.
Qed.

Lemma pool_alloc_correct s U n :
  pool_rep s U -> pool_links s -> 0 < n < 2 ^ 20 ->
  memalloc_alloc_kframes n s = Ret ((NULL, OS_ERR_NO_MORE_FREE_MEM), s) /\ no_block U n \/
  exists a s', memalloc_alloc_kframes n s = Ret ((a, OS_NO_ERR), s') /\
    0 <= a /\ a mod 4096 = 0 /\ a + 4096 * n < 2 ^ 32 /\
    (forall k, block a n k -> U k) /\
    pool_rep s' (fun k => U k /\ ~ block a n k) /\ pool_links s'.
Proof.
  intros (A & L & HR & HU) (A0 & L0 & HR0 & HB0) Hn.
  assert (back_ok s A Frames) as HB by (unfold back_ok; by rewrite <- (mrep_inj _ _ _ _ _ Frames HR0 HR)).
  destruct (get_block_spec s A L Frames n HR HB)
    as [[Hrun Hall]|(l1 & x & st & sz & l2 & s' & HA & Hle & _ & Hrun & l' & L' & HR' & Hc & HB' & _)];
    [lia..| |].
  { left. split; [done|]. apply (pool_no_block s A L); [done|done|lia|].
    intros b (c & -> & Hc)%list_elem_of_fmap. rewrite Forall_forall in Hall. by apply Hall. }
  right. exists st, s'. split; [done|].
  assert ((st, sz) ∈ (A Frames).*2) as Hin by (rewrite HA, fmap_app; clear; set_solver).
  destruct (areas_ok_in _ _ (mr_ok _ _ _ HR Frames) Hin) as (H1 & H2 & H3). unfold fin in *. simpl in *.
  assert (st mod 4096 = 0) as Hm by exact (area_start_aligned _ _ _ (mr_ok _ _ _ HR Frames) Hin HU).
  assert (forall y, st <= y < st + 4096 * n <-> block st n (y / 4096)) as Hblk.
  { intros y. unfold block. pose proof (Z.div_mod st 4096).
    pose proof (Z.div_mod y 4096). pose proof (Z.mod_pos_bound y 4096). nia. }
  split_and!; [done|done|lia| | |].
  - intros k Hk. assert (k * 4096 / 4096 = k) as Ek by (by rewrite Z.div_mul by lia).
    rewrite <- Ek. apply HU. exists (st, sz). split; [done|]. unfold fin. simpl.
    rewrite <- Ek in Hk. apply Hblk in Hk. lia.
  - exists (<[Frames := l']> A), L'. split; [done|]. intros y. rewrite fn_lookup_insert, Hc, HU, Hblk. done.
  - by exists (<[Frames := l']> A), L'.
Qed.
End Pool.

#[export] Instance memalloc_frame_spec (ops : AllocOps) `{!AllocSpec ops} :
  FrameSpec (memalloc_frames ops).
Proof.
  refine {| frames_rep := pool_rep : @frames (memalloc_frames ops) -> _; links_ok := pool_links |}.
  - exact pool_rep_inj.
  - intros f U V HUV (A & L & HR & HU). exists A, L. split; [done|]. intros x. by rewrite HU.
  - exact pool_alloc_correct.
  - exact pool_free_correct.
Defined.
