(* ===== verification/ByteMem.v ===== *)
(** * Byte-addressed memory

    The functions of [lib/] read and write bytes through [char] pointers: a
    memory maps addresses to bytes (0 to 255), an access to an address that
    holds no byte is undefined.  Blocks of bytes and null-terminated strings
    in a memory, and the accesses of the proofs. *)
From S2P Require Import Prelude.

Abbreviation mem := (gmap Z Z).

Definition load (p : Z) : M mem Z := fun m =>
  match m !! p with Some b => Ret (b, m) | None => Fault end.

Definition store (p b : Z) : M mem unit := fun m =>
  match m !! p with Some _ => Ret (tt, <[p := u8 b]> m) | None => Fault end.

(** A loop that reads one more byte at each turn stops, or leaves the memory,
    before it has made more turns than there are bytes. *)
Definition mem_fuel (m : mem) : nat := S (size m).

(** ** Blocks and strings *)

Definition bytes_at (m : mem) (p : Z) (l : list Z) : Prop :=
  forall i x, l !! i = Some x -> m !! (p + Z.of_nat i) = Some x.

(** The characters before the null byte. *)
Definition is_string (l : list Z) : Prop := Forall (fun c => 0 < c < 256) l.

Record cstr (m : mem) (p : Z) (l : list Z) : Prop := {
  cs_bytes : bytes_at m p (l ++ [0]);
  cs_chars : is_string l
}.

(** The addresses [p], ..., [p + n - 1] hold bytes. *)
Definition mapped (m : mem) (p : Z) (n : nat) : Prop :=
  forall i : nat, (i < n)%nat -> is_Some (m !! (p + Z.of_nat i)).

Fixpoint put (m : mem) (p : Z) (l : list Z) : mem :=
  match l with
  | [] => m
  | x :: l => put (<[p := x]> m) (p + 1) l
  end.

Lemma bytes_at_nil m p : bytes_at m p [].
Proof. done. Qed.

Lemma bytes_at_cons m p x l : bytes_at m p (x :: l) <-> m !! p = Some x /\ bytes_at m (p + 1) l.
Proof.
  split.
  - intros H. split; [rewrite <- (Z.add_0_r p); by apply (H 0%nat)|].
    intros i y Hi. replace (p + 1 + Z.of_nat i) with (p + Z.of_nat (S i)) by lia. by apply H.
  - intros [H1 H2] [|i] y Hi.
    + rewrite Z.add_0_r. simpl in Hi. congruence.
    + replace (p + Z.of_nat (S i)) with (p + 1 + Z.of_nat i) by lia. by apply H2.
Qed.

Lemma bytes_at_app m p l k :
  bytes_at m p (l ++ k) <-> bytes_at m p l /\ bytes_at m (p + Z.of_nat (length l)) k.
Proof.
  revert p. induction l as [|x l IH]; intros p.
  { simpl. rewrite Z.add_0_r. split; [by split|by intros []]. }
  cbn [app length]. rewrite !bytes_at_cons, IH.
  replace (p + Z.of_nat (S (length l))) with (p + 1 + Z.of_nat (length l)) by lia. tauto.
Qed.

Lemma cstr_cons m p c l : cstr m p (c :: l) <-> m !! p = Some c /\ 0 < c < 256 /\ cstr m (p + 1) l.
Proof.
  split.
  - intros [Hb Hc]. cbn [app] in Hb. apply bytes_at_cons in Hb as [? ?]. apply Forall_cons in Hc as [? ?].
    split; [done|]. split; [done|]. by split.
  - intros (Hp & Hc & [Hb Hs]). split; [by apply bytes_at_cons|by apply Forall_cons].
Qed.

Lemma cstr_nil m p : cstr m p [] <-> m !! p = Some 0.
Proof.
  split.
  - intros [Hb _]. by apply bytes_at_cons in Hb as [? _].
  - intros Hp. split; [|constructor]. by apply bytes_at_cons.
Qed.

Lemma cstr_app m p l k : cstr m p (l ++ k) <-> bytes_at m p l /\ is_string l /\ cstr m (p + Z.of_nat (length l)) k.
Proof.
  split.
  - intros [Hb Hs]. rewrite <- app_assoc in Hb. apply bytes_at_app in Hb as [? ?].
    apply Forall_app in Hs as [? ?]. by split_and!.
  - intros (H1 & H2 & [H3 H4]). split; [|by apply Forall_app].
    rewrite <- app_assoc. by apply bytes_at_app.
Qed.

Lemma mapped_bytes m p l : bytes_at m p l -> mapped m p (length l).
Proof. intros H i [x Hx]%lookup_lt_is_Some. rewrite (H _ _ Hx). by eexists. Qed.

Lemma mapped_S m p n : mapped m p (S n) <-> is_Some (m !! p) /\ mapped m (p + 1) n.
Proof.
  split.
  - intros H. split; [specialize (H 0%nat ltac:(lia)); by rewrite Z.add_0_r in H|].
    intros i Hi. replace (p + 1 + Z.of_nat i) with (p + Z.of_nat (S i)) by lia. apply H. lia.
  - intros [H1 H2] [|i] Hi; [by rewrite Z.add_0_r|].
    replace (p + Z.of_nat (S i)) with (p + 1 + Z.of_nat i) by lia. apply H2. lia.
Qed.

Lemma mapped_le m p n k : mapped m p n -> (k <= n)%nat -> mapped m p k.
Proof. intros H Hk i Hi. apply H. lia. Qed.

(** There are at least as many bytes as addresses in a block. *)
Lemma mapped_size m p n : mapped m p n -> (n <= size m)%nat.
Proof.
  intros H. rewrite <- (size_dom (D := gset Z) m).
  assert (length (seqZ p (Z.of_nat n)) = n) as Hl by (rewrite length_seqZ; lia).
  rewrite <- Hl at 1. rewrite <- (size_list_to_set (C := gset Z)) by apply NoDup_seqZ.
  apply subseteq_size. intros x Hx%elem_of_list_to_set%elem_of_seqZ.
  apply elem_of_dom. replace x with (p + Z.of_nat (Z.to_nat (x - p))) by lia. apply H. lia.
Qed.

Lemma mapped_fuel m p n : mapped m p n -> (n < mem_fuel m)%nat.
Proof. intros H%mapped_size. unfold mem_fuel. lia. Qed.

(** ** Writes *)

Lemma put_lookup m p l i x : l !! i = Some x -> put m p l !! (p + Z.of_nat i) = Some x.
Proof.
  revert m p i. induction l as [|y l IH]; intros m p i Hi; [done|].
  cbn [put]. destruct i as [|i].
  - simpl in Hi. injection Hi as ->. rewrite Z.add_0_r. clear IH.
    assert (forall m q, p < q -> put m q l !! p = m !! p) as H.
    { clear m. induction l as [|z l IH]; intros m q Hq; [done|]. cbn [put].
      rewrite IH by lia. by rewrite lookup_insert_ne by lia. }
    rewrite H by lia. by rewrite lookup_insert_eq.
  - replace (p + Z.of_nat (S i)) with (p + 1 + Z.of_nat i) by lia. by apply IH.
Qed.

Lemma put_lookup_ne m p l k : ~ (p <= k < p + Z.of_nat (length l)) -> put m p l !! k = m !! k.
Proof.
  revert m p. induction l as [|y l IH]; intros m p Hk; [done|]. cbn [put length] in *.
  rewrite IH by lia. by rewrite lookup_insert_ne by lia.
Qed.

Lemma bytes_at_put m p l : bytes_at (put m p l) p l.
Proof. intros i x. apply put_lookup. Qed.

Lemma put_app m p l k : put m p (l ++ k) = put (put m p l) (p + Z.of_nat (length l)) k.
Proof.
  revert m p. induction l as [|x l IH]; intros m p; [simpl; by rewrite Z.add_0_r|].
  cbn [app put length]. rewrite IH. f_equal. lia.
Qed.

Lemma put_mapped m p l q n : mapped m q n -> mapped (put m p l) q n.
Proof.
  revert m p. induction l as [|x l IH]; intros m p H; [done|]. cbn [put]. apply IH.
  intros i Hi. destruct (decide (p = q + Z.of_nat i)) as [->|]; [rewrite lookup_insert_eq; by eexists|].
  rewrite lookup_insert_ne by done. by apply H.
Qed.

(** Two ranges of addresses with nothing in common. *)
Definition apart (p : Z) (n : nat) (q : Z) (k : nat) : Prop :=
  p + Z.of_nat n <= q \/ q + Z.of_nat k <= p.

Lemma bytes_at_put_apart m p l q k :
  apart p (length l) q (length k) -> bytes_at m q k -> bytes_at (put m p l) q k.
Proof.
  intros Ha H i x Hi. rewrite put_lookup_ne; [by apply H|]. apply lookup_lt_Some in Hi.
  unfold apart in Ha. lia.
Qed.

Lemma cstr_put_apart m p l q k :
  apart p (length l) q (S (length k)) -> cstr m q k -> cstr (put m p l) q k.
Proof.
  intros Ha [Hb Hs]. split; [|done]. apply bytes_at_put_apart; [|done]. by rewrite length_app, Nat.add_1_r.
Qed.

Lemma put_zeros m a n k : a <= k < a + Z.of_nat n -> put m a (replicate n 0) !! k = Some 0.
Proof.
  intros Hk. replace k with (a + Z.of_nat (Z.to_nat (k - a))) by lia. apply put_lookup, lookup_replicate_2. lia.
Qed.

(** The bytes of a block. *)
Definition bytes_from (m : mem) (p : Z) (n : nat) : list Z := map (fun i => m !!! (p + Z.of_nat i)) (seq 0 n).

Lemma bytes_from_at m p n : mapped m p n -> bytes_at m p (bytes_from m p n).
Proof.
  intros H i x Hx. unfold bytes_from in Hx. apply list_lookup_fmap_Some in Hx as (j & -> & Hj).
  apply lookup_seq in Hj as [-> Hj]. destruct (H i Hj) as [b Hb]. unfold lookup_total, map_lookup_total.
  by rewrite Nat.add_0_l, Hb.
Qed.

Lemma bytes_from_length m p n : length (bytes_from m p n) = n.
Proof. unfold bytes_from. by rewrite length_map, length_seq. Qed.

(** A string that is not written. *)
Lemma cstr_frame m m' p l : cstr m p l ->
  (forall k, p <= k < p + Z.of_nat (length l) + 1 -> m' !! k = m !! k) -> cstr m' p l.
Proof.
  intros [Hb Hs] Hk. split; [|done]. intros i x Hi. rewrite Hk; [by apply Hb|].
  apply lookup_lt_Some in Hi. rewrite length_app in Hi. simpl in Hi. lia.
Qed.

(** ** Accesses *)

Lemma load_run {A} p b (k : Z -> M mem A) m : m !! p = Some b -> bind (load p) k m = k b m.
Proof. intros H. unfold bind, load. by rewrite H. Qed.

Lemma store_run {A} p b (k : unit -> M mem A) m :
  is_Some (m !! p) -> 0 <= b < 256 -> bind (store p b) k m = k tt (<[p := b]> m).
Proof. intros [x H] Hb. unfold bind, store. rewrite H. unfold u8. by rewrite Z.mod_small. Qed.

Lemma store_run_last p b m :
  is_Some (m !! p) -> 0 <= b < 256 -> store p b m = Ret (tt, <[p := b]> m).
Proof. intros [x H] Hb. unfold store. rewrite H. unfold u8. by rewrite Z.mod_small. Qed.

Lemma store_fault {A} p b (k : unit -> M mem A) m : m !! p = None -> bind (store p b) k m = Fault.
Proof. intros H. unfold bind, store. by rewrite H. Qed.

(** Small memories for examples. *)
Lemma cstr_put m p l : is_string l -> cstr (put m p (l ++ [0])) p l.
Proof. intros Hl. split; [apply bytes_at_put|done]. Qed.

Ltac solve_string := repeat (apply Forall_cons; split; [lia|]); apply Forall_nil_2.
