(* ===== verification/MemInfo.v ===== *)
(** * The memory map ([memory/meminfo.c])

    [memory_map_init] reads the map the boot loader left in memory, entry by
    entry, into the table that [memalloc.c] and the paging code use.  The
    memory is the bytes of [ByteMem]; the layouts of the two structures of the
    boot loader are those of [core/multiboot.h]. *)
From S2P Require Import Prelude Frames MemAlloc ByteMem.

(** ** Little-endian words *)

Definition load32 (p : Z) : M mem Z :=
  let* b0 := load p in
  let* b1 := load (p + 1) in
  let* b2 := load (p + 2) in
  let* b3 := load (p + 3) in
  ret (b0 + 2 ^ 8 * b1 + 2 ^ 16 * b2 + 2 ^ 24 * b3).

Definition load64 (p : Z) : M mem Z :=
  let* l := load32 p in
  let* h := load32 (p + 4) in
  ret (l + 2 ^ 32 * h).

(** ** [struct multiboot_info] and [struct multiboot_mmap_entry] *)

Definition info_mmap_length (info : Z) : M mem Z := load32 (info + 44).
Definition info_mmap_addr (info : Z) : M mem Z := load32 (info + 48).

Definition entry_size (mmap : Z) : M mem Z := load32 mmap.
Definition entry_addr (mmap : Z) : M mem Z := load64 (mmap + 4).
Definition entry_len (mmap : Z) : M mem Z := load64 (mmap + 12).
Definition entry_type (mmap : Z) : M mem Z := load32 (mmap + 20).

(** ** The variables of the file *)

Definition MAP_SIZE : nat := 100.

Record meminfo : Type := mk_meminfo {
  mi_ram : mem;
  multiboot_data_ptr : Z;
  memory_map_size : Z;
  memory_map_data : list mem_range; (* the entries written so far *)
  total_memory : Z;
  static_used_memory : Z
}.

Definition set_data_ptr (v : Z) (s : meminfo) : meminfo :=
  mk_meminfo (mi_ram s) v (memory_map_size s) (memory_map_data s) (total_memory s) (static_used_memory s).
Definition set_map_size (v : Z) (s : meminfo) : meminfo :=
  mk_meminfo (mi_ram s) (multiboot_data_ptr s) v (memory_map_data s) (total_memory s) (static_used_memory s).
Definition set_map_data (v : list mem_range) (s : meminfo) : meminfo :=
  mk_meminfo (mi_ram s) (multiboot_data_ptr s) (memory_map_size s) v (total_memory s) (static_used_memory s).
Definition set_total (v : Z) (s : meminfo) : meminfo :=
  mk_meminfo (mi_ram s) (multiboot_data_ptr s) (memory_map_size s) (memory_map_data s) v (static_used_memory s).

Definition ram {A} (m : M mem A) : M meminfo A :=
  zoom mi_ram (fun r s => mk_meminfo r (multiboot_data_ptr s) (memory_map_size s)
    (memory_map_data s) (total_memory s) (static_used_memory s)) m.

(** [memory_map_data[i] = r;] for the next free [i]: past the table it is
    undefined. *)
Definition map_push (r : mem_range) : M meminfo unit :=
  let* l := gets memory_map_data in
  if decide (length l < MAP_SIZE)%nat then modify (set_map_data (l ++ [r])) else fault.

(** ** [memory_map_init] *)

(** The [while] loop, with [i] entries read; returns [i]. *)
Fixpoint map_init_loop (fuel : nat) (mmap mmap_end i : Z) : M meminfo Z :=
  match fuel with
  | O => diverge
  | S fuel =>
    if decide (mmap < mmap_end) then
      let* addr := ram (entry_addr mmap) in
      if decide (i <> 0 /\ u32 addr = 0) then ret i
      else
        let* len := ram (entry_len mmap) in
        let* total := gets total_memory in
        modify (set_total (u64 (total + len))) >>>
        let* type := ram (entry_type mmap) in
        map_push (mk_range (u32 addr) (u32 (u32 addr + u32 len)) type) >>>
        let* size := ram (entry_size mmap) in
        map_init_loop fuel (u32 (mmap + size + 4)) mmap_end (i + 1)
    else ret i
  end.

(** The table is written from its start. *)
Definition memory_map_init : M meminfo OS_RETURN_E :=
  let* p := gets multiboot_data_ptr in
  let p := u32 (p + KERNEL_MEM_OFFSET) in
  modify (set_data_ptr p) >>>
  let* addr := ram (info_mmap_addr p) in
  let mmap := u32 (addr + KERNEL_MEM_OFFSET) in
  let* len := ram (info_mmap_length p) in
  let mmap_end := u32 (mmap + len) in
  modify (set_map_data []) >>>
  let* i := map_init_loop (S (Z.to_nat len)) mmap mmap_end 0 in
  modify (set_map_size i) >>>
  ret OS_NO_ERR.

(** ** The readers *)

(** [kheap_mem_used] is a 32-bit variable of [kheap.c], declared here as a
    64-bit one: the read takes the four bytes that follow it too. *)
Definition meminfo_kernel_heap_usage (kheap_mem_used next_word : Z) : Z :=
  kheap_mem_used + 2 ^ 32 * next_word.

Definition meminfo_kernel_heap_size (heap_start heap_end : Z) : Z := u32 (heap_end - heap_start).

Definition meminfo_kernel_memory_usage (s : meminfo) (kheap_mem_used next_word : Z) : Z :=
  u64 (static_used_memory s + meminfo_kernel_heap_usage kheap_mem_used next_word).

Definition meminfo_kernel_total_size (kernel_end : Z) : Z := u32 (kernel_end - KERNEL_MEM_OFFSET).

Definition meminfo_get_memory_size (s : meminfo) : Z := total_memory s.
