(* ===== verification/MemInfoTheorems.v ===== *)
(** * The memory map: properties

    The table is the boot loader's map cut at the first entry that starts at a
    multiple of 4 GiB; what the cut lets through, and maps that are too
    long. *)
From S2P Require Import Prelude Frames MemAlloc ByteMem MemInfo.

(** An entry of the boot loader: the bytes after the size field, then the
    fields. *)
Record mmap_entry : Type := mk_entry {
  me_size : Z;
  me_addr : Z;
  me_len : Z;
  me_type : Z
}.

Definition reads {A} (m : M mem A) (r : mem) (a : A) : Prop := m r = Ret (a, r).

Record entry_at (r : mem) (p : Z) (e : mmap_entry) : Prop := {
  ea_size : reads (entry_size p) r (me_size e);
  ea_addr : reads (entry_addr p) r (me_addr e);
  ea_len : reads (entry_len p) r (me_len e);
  ea_type : reads (entry_type p) r (me_type e);
  ea_range : 0 <= me_size e /\ p + me_size e + 4 < 2 ^ 32
}.

(** The map from [p] up to [q]. *)
Fixpoint map_at (r : mem) (p q : Z) (es : list mmap_entry) : Prop :=
  match es with
  | [] => p = q
  | e :: es => p < q /\ entry_at r p e /\ map_at r (p + me_size e + 4) q es
  end.

(** The entries before the first one whose address has its low half null. *)
Fixpoint below_4G (es : list mmap_entry) : list mmap_entry :=
  match es with
  | [] => []
  | e :: es => if decide (u32 (me_addr e) = 0) then [] else e :: below_4G es
  end.

(** The first entry is always taken. *)
Definition registered (es : list mmap_entry) : list mmap_entry :=
  match es with [] => [] | e :: es => e :: below_4G es end.

Definition range_of (e : mmap_entry) : mem_range :=
  mk_range (u32 (me_addr e)) (u32 (u32 (me_addr e) + u32 (me_len e))) (me_type e).

Definition total_len (es : list mmap_entry) : Z := foldr (fun e n => me_len e + n) 0 es.

Lemma exec_ram {A B} (m : M mem A) (k : A -> M meminfo B) s a :
  reads m (mi_ram s) a -> bind (ram m) k s = k a s.
Proof.
  unfold reads, bind, ram, zoom. intros ->. by destruct s.
Qed.

Lemma u64_add_idemp a b : u64 (u64 a + b) = u64 (a + b).
Proof. unfold u64. by rewrite Zplus_mod_idemp_l. Qed.

Lemma map_at_le r p q es : 0 <= p -> map_at r p q es -> p <= q < 2 ^ 32 \/ (p = q /\ es = []).
Proof.
  revert p. induction es as [|e es IH]; intros p Hp; [by right|]. intros (Hlt & [_ _ _ _ He] & H).
  left. destruct (IH (p + me_size e + 4)) as [?|[? _]]; [lia|done|lia|lia].
Qed.

Lemma map_step fuel p q i s e :
  p < q -> entry_at (mi_ram s) p e -> ~ (i <> 0 /\ u32 (me_addr e) = 0) -> 0 <= p ->
  map_init_loop (S fuel) p q i s =
    if decide (length (memory_map_data s) < MAP_SIZE)%nat then
      map_init_loop fuel (p + me_size e + 4) q (i + 1)
        (set_map_data (memory_map_data s ++ [range_of e]) (set_total (u64 (total_memory s + me_len e)) s))
    else Fault.
Proof.
  intros Hpq [Hs Ha Hl Ht Hr] Hi Hp. cbn [map_init_loop]. rewrite decide_True by done.
  rewrite (exec_ram _ _ _ _ Ha), decide_False by done.
  rewrite (exec_ram _ _ _ _ Hl), exec_gets, exec_modify.
  set (s1 := set_total (u64 (total_memory s + me_len e)) s).
  rewrite (exec_ram _ _ s1 (me_type e)) by exact Ht. fold (range_of e). unfold map_push. rewrite bind_assoc, exec_gets.
  change (memory_map_data s1) with (memory_map_data s).
  destruct (decide (length (memory_map_data s) < MAP_SIZE)%nat); [|done].
  rewrite exec_modify, (exec_ram _ _ _ (me_size e)), u32_small by (lia || exact Hs). done.
Qed.

(** What the loop does with the entries [es] of which [cut] are taken. *)
Definition loop_result (i : Z) (cut : list mmap_entry) (s : meminfo) : outcome (Z * meminfo) :=
  if decide (length (memory_map_data s) + length cut <= MAP_SIZE)%nat then
    Ret (i + Z.of_nat (length cut),
      set_map_data (memory_map_data s ++ (range_of <$> cut)) (set_total (u64 (total_memory s + total_len cut)) s))
  else Fault.

Lemma loop_result_nil i s :
  (length (memory_map_data s) <= MAP_SIZE)%nat -> 0 <= total_memory s < 2 ^ 64 ->
  loop_result i [] s = Ret (i, s).
Proof.
  intros H Ht. unfold loop_result. rewrite decide_True by (simpl; lia). destruct s; simpl in *.
  unfold set_map_data, set_total. simpl. rewrite app_nil_r, !Z.add_0_r, u64_small by done. done.
Qed.

Lemma loop_result_cons i e cut s :
  (length (memory_map_data s) < MAP_SIZE)%nat ->
  loop_result (i + 1) cut
    (set_map_data (memory_map_data s ++ [range_of e]) (set_total (u64 (total_memory s + me_len e)) s)) =
  loop_result i (e :: cut) s.
Proof.
  intros H. unfold loop_result.
  change (memory_map_data (set_map_data ?l _)) with l. rewrite length_app. cbn [length fmap list_fmap total_len foldr].
  destruct (decide _) as [H1|H1], (decide _) as [H2|H2]; try done; try (exfalso; simpl in *; lia).
  unfold set_map_data, set_total. simpl. rewrite <- app_assoc, u64_add_idemp.
  replace (i + 1 + Z.of_nat (length cut)) with (i + Z.of_nat (S (length cut))) by lia.
  by rewrite <- Z.add_assoc.
Qed.

Lemma map_init_loop_run es : forall fuel p q i s,
  0 <= p -> map_at (mi_ram s) p q es -> (Z.to_nat (q - p) < fuel)%nat -> 0 < i ->
  (length (memory_map_data s) <= MAP_SIZE)%nat -> 0 <= total_memory s < 2 ^ 64 ->
  map_init_loop fuel p q i s = loop_result i (below_4G es) s.
Proof.
  induction es as [|e es IH]; intros [|fuel] p q i s Hp Hm Hf Hi Hl Ht; try lia.
  - simpl in Hm. cbn [map_init_loop below_4G]. rewrite decide_False by lia. by rewrite loop_result_nil.
  - destruct Hm as (Hpq & He & Hm). cbn [below_4G].
    destruct (decide (u32 (me_addr e) = 0)) as [Hz|Hz].
    { cbn [map_init_loop]. rewrite decide_True by done. rewrite (exec_ram _ _ _ _ (ea_addr _ _ _ He)).
      rewrite decide_True by (split; [lia|done]). by rewrite loop_result_nil. }
    rewrite (map_step _ _ _ _ _ e) by (done || tauto). pose proof (ea_range _ _ _ He).
    destruct (decide (length (memory_map_data s) < MAP_SIZE)%nat) as [Hlt|Hge].
    + rewrite IH; [by apply loop_result_cons|lia|done|lia|lia| |].
      * cbn [memory_map_data set_map_data]. rewrite length_app. simpl. lia.
      * apply u64_range.
    + unfold loop_result. rewrite decide_False by (cbn [length]; lia). done.
Qed.

(** ** Properties *)

(** C32: [memory_map_init] fills the table with the boot loader's entries, in
    order, up to the first one (not the very first) whose address has a null
    low half, and adds their lengths up; the loop ends.  A map with more than
    the 100 entries of the table is written past its end. *)
Theorem memory_map_init_correct s ptr mmap len es :
  multiboot_data_ptr s = ptr ->
  let info := u32 (ptr + KERNEL_MEM_OFFSET) in
  reads (info_mmap_addr info) (mi_ram s) mmap -> reads (info_mmap_length info) (mi_ram s) len ->
  let start := u32 (mmap + KERNEL_MEM_OFFSET) in
  0 <= len -> start + len < 2 ^ 32 -> map_at (mi_ram s) start (start + len) es ->
  0 <= total_memory s < 2 ^ 64 ->
  if decide (length (registered es) <= MAP_SIZE)%nat then
    exists s', memory_map_init s = Ret (OS_NO_ERR, s') /\
      memory_map_data s' = range_of <$> registered es /\
      memory_map_size s' = Z.of_nat (length (memory_map_data s')) /\
      meminfo_get_memory_size s' = u64 (total_memory s + total_len (registered es)) /\
      multiboot_data_ptr s' = info /\ mi_ram s' = mi_ram s
  else memory_map_init s = Fault.
Proof.
  intros Hptr info Ha Hl start Hlen Hend Hm Ht. unfold memory_map_init.
  rewrite exec_gets, Hptr, exec_modify. fold info.
  rewrite (exec_ram _ _ _ mmap) by done. rewrite (exec_ram _ _ _ len) by done. fold start.
  rewrite (u32_small (start + len)) by (pose proof (u32_range (mmap + KERNEL_MEM_OFFSET)); lia).
  rewrite exec_modify. set (s1 := set_map_data [] (set_data_ptr info s)).
  pose proof (u32_range (mmap + KERNEL_MEM_OFFSET)) as Hstart.
  assert (map_init_loop (S (Z.to_nat len)) start (start + len) 0 s1 = loop_result 0 (registered es) s1) as Hloop.
  { destruct es as [|e es].
    - simpl in Hm. cbn [map_init_loop registered]. rewrite decide_False by lia. by rewrite loop_result_nil by (simpl; lia || done).
    - destruct Hm as (Hpq & He & Hm). rewrite (map_step _ _ _ _ _ e); [|done|done|by intros []|lia].
      pose proof (ea_range _ _ _ He). rewrite decide_True by (simpl; unfold MAP_SIZE; lia). cbn [registered].
      destruct (Z.to_nat len) as [|fuel] eqn:Ef; [lia|].
      rewrite (map_init_loop_run es); [apply (loop_result_cons 0); simpl; unfold MAP_SIZE; lia|lia|done|lia|lia| |].
      + simpl. unfold MAP_SIZE. lia.
      + apply u64_range. }
  unfold loop_result in Hloop. change (memory_map_data s1) with (@nil mem_range) in Hloop.
  cbn [length Nat.add app] in Hloop.
  destruct (decide (length (registered es) <= MAP_SIZE)%nat) as [Hfit|Hlong].
  - rewrite (bind_ret _ _ _ _ _ Hloop), exec_modify. eexists. split; [done|]. simpl. split_and!; try done.
    by rewrite length_fmap.
  - unfold bind. by rewrite Hloop.
Qed.

(** ** What the code does not mean *)

(** An area above 4 GiB that does not start at a multiple of 4 GiB is
    registered under the low half of its address. *)
Lemma high_area_registered e0 size len :
  registered [e0; mk_entry size (2 ^ 32 + 2 ^ 29) len 1] = [e0; mk_entry size (2 ^ 32 + 2 ^ 29) len 1] /\
  r_base (range_of (mk_entry size (2 ^ 32 + 2 ^ 29) len 1)) = 2 ^ 29.
Proof. done. Qed.

(** An area that ends with the address space gets a null limit. *)
Lemma top_area_limit size : range_of (mk_entry size (2 ^ 32 - 2 ^ 18) (2 ^ 18) 2) = mk_range (2 ^ 32 - 2 ^ 18) 0 2.
Proof. done. Qed.

(** The usage is the heap's only when the word after the variable is null. *)
Lemma heap_usage_reads_next used next :
  0 <= used < 2 ^ 32 -> 0 <= next < 2 ^ 32 -> meminfo_kernel_heap_usage used next = used <-> next = 0.
Proof. unfold meminfo_kernel_heap_usage. lia. Qed.

(** [static_used_memory] is never assigned: the kernel's usage is the heap's. *)
Lemma memory_usage_is_heap_usage s used next :
  static_used_memory s = 0 -> 0 <= used < 2 ^ 32 -> 0 <= next < 2 ^ 32 ->
  meminfo_kernel_memory_usage s used next = meminfo_kernel_heap_usage used next.
Proof.
  intros H Hu Hn. unfold meminfo_kernel_memory_usage, meminfo_kernel_heap_usage. rewrite H, u64_small; lia.
Qed.

(** ** Witness: two areas of memory and one above 4 GiB *)

Definition le32 (x : Z) : list Z := [u8 x; u8 (x / 2 ^ 8); u8 (x / 2 ^ 16); u8 (x / 2 ^ 24)].
Definition entry_bytes (e : mmap_entry) : list Z :=
  le32 (me_size e) ++ le32 (me_addr e) ++ le32 (me_addr e / 2 ^ 32) ++ le32 (me_len e) ++
  le32 (me_len e / 2 ^ 32) ++ le32 (me_type e).

Definition boot_entries : list mmap_entry :=
  [mk_entry 20 0 654336 1; mk_entry 20 1048576 267386880 1; mk_entry 20 (2 ^ 32) (2 ^ 30) 1].

(** The structure of the boot loader at 0x10000, the map at 0x20000. *)
Definition boot_ram : mem :=
  put (put ∅ (65536 + KERNEL_MEM_OFFSET + 44) (le32 72 ++ le32 131072)) (131072 + KERNEL_MEM_OFFSET)
    (concat (map entry_bytes boot_entries)).

Definition boot_meminfo : meminfo := mk_meminfo boot_ram 65536 0 [] 0 0.

Lemma boot_map : map_at boot_ram 3758227456 3758227528 boot_entries.
Proof.
  unfold boot_entries. cbn [map_at me_size].
  split; [lia|]. split; [split; [reflexivity|reflexivity|reflexivity|reflexivity|simpl; lia]|].
  split; [lia|]. split; [split; [reflexivity|reflexivity|reflexivity|reflexivity|simpl; lia]|].
  split; [lia|]. split; [split; [reflexivity|reflexivity|reflexivity|reflexivity|simpl; lia]|]. lia.
Qed.

Lemma memory_map_init_correct_witness :
  (reads (info_mmap_addr 3758161920) boot_ram 131072 /\ reads (info_mmap_length 3758161920) boot_ram 72 /\
   map_at boot_ram 3758227456 3758227528 boot_entries) /\
  exists s', memory_map_init boot_meminfo = Ret (OS_NO_ERR, s') /\
    memory_map_data s' = [mk_range 0 654336 1; mk_range 1048576 268435456 1] /\ memory_map_size s' = 2.
Proof.
  assert (reads (info_mmap_addr 3758161920) boot_ram 131072) as H1 by reflexivity.
  assert (reads (info_mmap_length 3758161920) boot_ram 72) as H2 by reflexivity.
  pose proof boot_map as H3. split; [split; [exact H1|split; [exact H2|exact H3]]|].
  destruct (memory_map_init_correct boot_meminfo 65536 131072 72 boot_entries eq_refl H1 H2
    ltac:(lia) ltac:(reflexivity) H3 ltac:(simpl; lia)) as (s' & Hr & Hd & Hs & _).
  exists s'. split; [exact Hr|]. rewrite Hs, Hd. split; reflexivity.
Defined.
