(* ===== verification/FaultHandlers.v ===== *)
(** * Page fault handlers ([memory/paging.c])

    The list of the handlers that page faults are given to, sorted by the
    start of their address range, and the exception handler of
    [arch/cpu/i386/paging.c] that searches it. *)
From S2P Require Import Prelude Alloc Critical Interrupts.

Definition PAGE_FAULT_LINE : Z := 14.
Definition sizeof_mem_handler : Z := 16.

(** [struct mem_handler]; a handler is the address of its code. *)
Record mem_handler_t : Type := mk_mem_handler {
  mh_start : Z;
  mh_end : Z;
  mh_handler : Z;
  mh_next : Z;
}.

#[export] Instance mem_handler_t_eq_dec : EqDecision mem_handler_t.
Proof. solve_decision. Defined.

Definition with_mh_next (v : Z) (h : mem_handler_t) : mem_handler_t :=
  mk_mem_handler (mh_start h) (mh_end h) (mh_handler h) v.

Section Ops.
Context {ops : AllocOps}.

Record fstore : Type := mk_fstore {
  fs_heap : heap;
  fs_handlers : gmap Z mem_handler_t;
  handler_list : Z;
}.

Definition with_fs_handlers (m : gmap Z mem_handler_t) (s : fstore) : fstore :=
  mk_fstore (fs_heap s) m (handler_list s).
Definition with_handler_list (v : Z) (s : fstore) : fstore :=
  mk_fstore (fs_heap s) (fs_handlers s) v.

Definition get_mem_handler (p : Z) : M fstore mem_handler_t := fun s =>
  match fs_handlers s !! p with Some h => Ret (h, s) | None => Fault end.
Definition upd_mem_handler (p : Z) (f : mem_handler_t -> mem_handler_t) : M fstore unit := fun s =>
  match fs_handlers s !! p with
  | Some h => Ret (tt, with_fs_handlers (<[p := f h]> (fs_handlers s)) s)
  | None => Fault
  end.

Definition f_kmalloc : M fstore Z := fun s =>
  let '(p, h) := kmalloc sizeof_mem_handler (fs_heap s) in
  Ret (p, mk_fstore h (fs_handlers s) (handler_list s)).
Definition f_kfree (p : Z) : M fstore unit := fun s =>
  Ret (tt, mk_fstore (kfree p (fs_heap s)) (delete p (fs_handlers s)) (handler_list s)).

(** The search loop: the last range that does not start after [range_start]
    and the one that follows it. *)
Fixpoint range_walk (fuel : nat) (range_start cursor_pre cursor : Z) : M fstore (Z * Z) :=
  match fuel with
  | O => diverge
  | S fuel =>
      if decide (cursor = NULL) then ret (cursor_pre, cursor)
      else
        let* c := get_mem_handler cursor in
        if decide (mh_start c <= range_start) then range_walk fuel range_start cursor (mh_next c)
        else ret (cursor_pre, cursor)
  end.

Definition walk_fuel (s : fstore) : nat := S (size (fs_handlers s)).

(** The range is refused. *)
Definition drop_range (new_range : Z) : M fstore OS_RETURN_E :=
  f_kfree new_range >>> ret OS_ERR_HANDLER_ALREADY_EXISTS.

(** The body of the critical section. *)
Definition register_range (handler range_start range_end : Z) : M fstore OS_RETURN_E :=
  let* new_range := f_kmalloc in
  if decide (new_range = NULL) then ret OS_ERR_MALLOC
  else
    modify (fun s => with_fs_handlers
      (<[new_range := mk_mem_handler range_start range_end handler NULL]> (fs_handlers s)) s) >>>
    let* first := gets handler_list in
    if decide (first <> NULL) then
      let* fuel := gets walk_fuel in
      let* (cursor_pre, cursor) := range_walk fuel range_start first first in
      if decide (cursor <> NULL) then
        let* c := get_mem_handler cursor in
        if decide (cursor = first) then
          if decide (mh_start c < range_end) then drop_range new_range
          else
            upd_mem_handler new_range (with_mh_next cursor) >>>
            modify (with_handler_list new_range) >>>
            ret OS_NO_ERR
        else
          let* pre := get_mem_handler cursor_pre in
          if decide (mh_end pre > range_start \/ mh_start c < range_end)
          then drop_range new_range
          else
            upd_mem_handler new_range (with_mh_next (mh_next pre)) >>>
            upd_mem_handler cursor_pre (with_mh_next new_range) >>>
            ret OS_NO_ERR
      else
        let* pre := get_mem_handler cursor_pre in
        if decide (mh_end pre > range_start) then drop_range new_range
        else
          upd_mem_handler cursor_pre (with_mh_next new_range) >>>
          ret OS_NO_ERR
    else
      modify (with_handler_list new_range) >>> ret OS_NO_ERR.

Definition paging_register_fault_handler (e : cpu_env) (handler range_start range_end : Z) :
  M (kstate fstore) OS_RETURN_E :=
  if decide (handler = NULL) then ret OS_ERR_NULL_POINTER
  else if decide (range_end <= range_start) then ret OS_ERR_UNAUTHORIZED_ACTION
  else critical e FaultLock (lift (register_range handler range_start range_end)).

Definition paging_get_handler_list : M fstore Z := gets handler_list.

(** *** The exception handler

    [fault_address] is the content of CR2; the list is read without taking
    the lock. *)
Fixpoint fault_walk (fuel : nat) (fault_address cursor : Z) : M fstore Z :=
  match fuel with
  | O => diverge
  | S fuel =>
      if decide (cursor = NULL) then ret NULL
      else
        let* c := get_mem_handler cursor in
        if decide (mh_start c <= fault_address /\ mh_end c > fault_address) then ret cursor
        else fault_walk fuel fault_address (mh_next c)
  end.

Definition paging_fault_general_handler (int_id fault_address : Z) : M fstore dispatch :=
  if decide (int_id <> PAGE_FAULT_LINE) then ret RunPanic
  else
    let* first := paging_get_handler_list in
    let* fuel := gets walk_fuel in
    let* cursor := fault_walk fuel fault_address first in
    if decide (cursor = NULL) then ret RunPanic
    else
      let* c := get_mem_handler cursor in
      ret (RunHandler (mh_handler c)).
End Ops.
