(* ===== verification/FaultTheorems.v ===== *)
(** * The properties of the page fault handlers

    The sorted list of ranges is a partial map from addresses to handlers. *)
From stdpp Require Import sorting.
From S2P Require Import Prelude Alloc Critical Interrupts FaultHandlers.
From S2P Require Import KHeap KHeapSpec KHeapTheorems.

(** A range of the list, with the address of its node. *)
Record range : Type := mk_frange {
  rg_node : Z;
  rg_start : Z;
  rg_end : Z;
  rg_handler : Z;
}.

Section Handlers.
Context {ops : AllocOps} `{!AllocSpec ops}.
Implicit Types (s : fstore) (m : gmap Z mem_handler_t) (l : list range) (L : gmap Z Z).

(** The ranges [l] linked from [p] to [q]. *)
Fixpoint hseg m p l q : Prop :=
  match l with
  | [] => p = q
  | r :: l => p = rg_node r /\ p <> NULL /\
      exists n, m !! p = Some (mk_mem_handler (rg_start r) (rg_end r) (rg_handler r) n) /\
        hseg m n l q
  end.

(** [r1] ends before [r2] starts. *)
Definition before (r1 r2 : range) : Prop := rg_end r1 <= rg_start r2.

(** Ranges are not empty, sorted and disjoint. *)
Record ranges_ok l : Prop := {
  ro_nonempty : Forall (fun r => rg_start r < rg_end r /\ rg_handler r <> NULL) l;
  ro_sorted : StronglySorted before l;
  ro_nodes : NoDup (rg_node <$> l);
}.

Record frep s l L : Prop := {
  fr_list : hseg (fs_handlers s) (handler_list s) l NULL;
  fr_ok : ranges_ok l;
  fr_heap : heap_rep (fs_heap s) L;
  fr_live p : is_Some (fs_handlers s !! p) -> is_Some (L !! p);
}.

Lemma hseg_app m p l1 l2 q :
  hseg m p (l1 ++ l2) q <-> exists n, hseg m p l1 n /\ hseg m n l2 q.
Proof.
  revert p. induction l1 as [|r l1 IH]; intros p; simpl; [naive_solver|].
  setoid_rewrite IH. naive_solver.
Qed.

(** A node outside the segment can be changed. *)
Lemma hseg_insert m p l q x h :
  x ∉ rg_node <$> l -> hseg m p l q -> hseg (<[x := h]> m) p l q.
Proof.
  revert p. induction l as [|r l IH]; intros p; [done|]. simpl.
  intros [Hne Hx]%not_elem_of_cons (-> & Hn & n & Hm & Hl).
  split; [done|]. split; [done|]. exists n. split; [by rewrite lookup_insert_ne by congruence|].
  by apply IH.
Qed.

Lemma hseg_delete m p l q x :
  x ∉ rg_node <$> l -> hseg m p l q -> hseg (delete x m) p l q.
Proof.
  revert p. induction l as [|r l IH]; intros p; [done|]. simpl.
  intros [Hne Hx]%not_elem_of_cons (-> & Hn & n & Hm & Hl).
  split; [done|]. split; [done|]. exists n. split; [by rewrite lookup_delete_ne by congruence|].
  by apply IH.
Qed.

Lemma hseg_live m p l q r : hseg m p l q -> r ∈ l -> is_Some (m !! rg_node r).
Proof.
  revert p. induction l as [|r' l IH]; intros p; [intros _ H; destruct (not_elem_of_nil _ H)|].
  simpl. intros (-> & _ & n & Hm & Hl) [-> | Hr]%elem_of_cons; [by eexists|]. by apply (IH n).
Qed.

(** The list is not longer than the store. *)
Lemma hseg_length m p l q :
  hseg m p l q -> NoDup (rg_node <$> l) -> (length l <= size m)%nat.
Proof.
  intros Hl Hnd. rewrite <- (length_fmap rg_node l).
  rewrite <- (size_list_to_set (C := gset Z)) by done. rewrite <- size_dom.
  apply subseteq_size. intros x Hx%elem_of_list_to_set%list_elem_of_fmap.
  destruct Hx as (r & -> & Hr). apply elem_of_dom. by eapply hseg_live.
Qed.

(** ** The walks *)
Lemma range_walk_run l2 fuel s rs pre p :
  hseg (fs_handlers s) p l2 NULL -> (length l2 < fuel)%nat -> StronglySorted before l2 ->
  Forall (fun r => rg_start r < rg_end r /\ rg_handler r <> NULL) l2 ->
  exists la lb, l2 = la ++ lb /\
    range_walk fuel rs pre p s =
      Ret ((default pre (rg_node <$> last la), default NULL (rg_node <$> head lb)), s) /\
    Forall (fun r => rg_start r <= rs) la /\ Forall (fun r => rs < rg_start r) lb.
Proof.
  revert fuel pre p. induction l2 as [|r l IH]; intros [|fuel] pre p Hl Hf Hs Hne;
    simpl in Hf; try lia.
  - exists [], []. simpl in Hl. subst p. split_and!; try constructor.
  - simpl in Hl. destruct Hl as (-> & Hp & n & Hm & Hl).
    apply StronglySorted_inv in Hs as [Hs Hr]. apply Forall_cons in Hne as [[Hne1 _] Hne].
    simpl. rewrite decide_False by done. unfold get_mem_handler at 1, bind at 1. rewrite Hm. simpl.
    case_decide as Hc.
    + destruct (IH fuel (rg_node r) n) as (la & lb & -> & Hrun & Ha & Hb); [done|lia|done..|].
      exists (r :: la), lb. split_and!; [done| |by constructor|done]. rewrite Hrun.
      rewrite last_cons. by destruct (last la).
    + exists [], (r :: l). split_and!; [done|done|constructor|]. constructor; [lia|].
      eapply Forall_impl; [exact Hr|]. unfold before. intros r'. simpl. lia.
Qed.

(** The handler of an address. *)
Fixpoint handler_at l (a : Z) : option Z :=
  match l with
  | [] => None
  | r :: l => if decide (rg_start r <= a /\ rg_end r > a) then Some (rg_handler r) else handler_at l a
  end.

Lemma fault_walk_run l fuel s a p :
  hseg (fs_handlers s) p l NULL -> (length l < fuel)%nat ->
  exists c, fault_walk fuel a p s = Ret (c, s) /\
    match handler_at l a with
    | Some h => c <> NULL /\ exists n, fs_handlers s !! c = Some n /\ mh_handler n = h
    | None => c = NULL
    end.
Proof.
  revert fuel p. induction l as [|r l IH]; intros [|fuel] p Hl Hf; simpl in Hf; try lia.
  - simpl in Hl. subst p. by exists NULL.
  - simpl in Hl. destruct Hl as (-> & Hp & n & Hm & Hl).
    simpl. rewrite decide_False by done. unfold get_mem_handler at 1, bind at 1. rewrite Hm. simpl.
    case_decide as Hc; [|apply (IH fuel n Hl); lia].
    exists (rg_node r). split; [done|]. split; [done|]. by eexists.
Qed.

(** ** Insertion in the abstract list *)
Lemma handler_at_app la lb a :
  handler_at (la ++ lb) a = match handler_at la a with Some h => Some h | None => handler_at lb a end.
Proof. induction la as [|r la IH]; [done|]. simpl. by case_decide. Qed.

Lemma handler_at_None l a :
  handler_at l a = None <-> Forall (fun r => a < rg_start r \/ rg_end r <= a) l.
Proof.
  induction l as [|r l IH]; [split; [constructor|done]|]. simpl. rewrite Forall_cons.
  case_decide; [naive_solver lia|]. rewrite IH. naive_solver lia.
Qed.

(** No address between [rs] and [re] has a handler. *)
Definition free_on (f : Z -> option Z) (rs re : Z) : Prop := forall a, rs <= a < re -> f a = None.

(** The two ranges next to a new one decide whether it overlaps any. *)
Definition fits la lb (rs re : Z) : Prop :=
  (forall r, last la = Some r -> rg_end r <= rs) /\ (forall r, head lb = Some r -> re <= rg_start r).

Lemma fits_all la lb rs re :
  ranges_ok (la ++ lb) -> fits la lb rs re ->
  Forall (fun r => rg_end r <= rs) la /\ Forall (fun r => re <= rg_start r) lb.
Proof.
  intros [Hne Hs _] [Hl Hr]. apply StronglySorted_app in Hs as (_ & Hsa & Hsb).
  apply Forall_app in Hne as [Hna Hnb]. split.
  - destruct la as [|x la' _] using rev_ind; [constructor|]. rewrite last_snoc in Hl.
    specialize (Hl _ eq_refl). apply StronglySorted_app in Hsa as (Hx & _ & _).
    apply Forall_app in Hna as [_ [[Hx1 _] _]%Forall_cons].
    apply Forall_app. split; [|by repeat constructor]. apply Forall_forall. intros y Hy.
    assert (before y x) as Hb by (apply Hx; [done|by apply list_elem_of_singleton]).
    unfold before in Hb. lia.
  - destruct lb as [|x lb]; [constructor|]. specialize (Hr _ eq_refl).
    apply StronglySorted_inv in Hsb as [_ Hsb]. apply Forall_cons in Hnb as [[Hx1 _] _].
    constructor; [done|]. eapply Forall_impl; [exact Hsb|]. unfold before. intros y Hy. lia.
Qed.

Lemma fits_free la lb rs re :
  ranges_ok (la ++ lb) -> rs < re ->
  Forall (fun r => rg_start r <= rs) la -> Forall (fun r => rs < rg_start r) lb ->
  fits la lb rs re <-> free_on (handler_at (la ++ lb)) rs re.
Proof.
  intros Hok Hre Ha Hb. split.
  - intros Hf. destruct (fits_all _ _ _ _ Hok Hf) as [H1 H2]. intros a Hr.
    apply handler_at_None, Forall_app. split; eapply Forall_impl; [exact H1| |exact H2|]; simpl; lia.
  - intros Hf. destruct Hok as [Hne _ _]. apply Forall_app in Hne as [Hna Hnb]. split; intros r Hr.
    + apply last_Some_elem_of in Hr. rewrite Forall_forall in Ha, Hna.
      specialize (Hf rs ltac:(lia)). apply handler_at_None in Hf.
      apply Forall_app in Hf as [Hf _]. rewrite Forall_forall in Hf.
      specialize (Ha _ Hr). specialize (Hf _ Hr). simpl in *. lia.
    + destruct lb as [|x lb]; [done|]. injection Hr as ->.
      apply Forall_cons in Hb as [Hx _]. apply Forall_cons in Hnb as [[Hx1 _] _].
      destruct (decide (re <= rg_start r)) as [|Hn]; [done|].
      specialize (Hf (rg_start r) ltac:(lia)). apply handler_at_None in Hf.
      apply Forall_app in Hf as [_ [Hf _]%Forall_cons]. lia.
Qed.

Lemma insert_ok la lb r :
  ranges_ok (la ++ lb) -> rg_start r < rg_end r -> rg_handler r <> NULL ->
  rg_node r ∉ rg_node <$> la ++ lb -> fits la lb (rg_start r) (rg_end r) ->
  ranges_ok (la ++ r :: lb).
Proof.
  intros Hok Hr Hh Hn Hf. destruct (fits_all _ _ _ _ Hok Hf) as [H1 H2].
  destruct Hok as [Hne Hs Hnd]. rewrite fmap_app in Hn, Hnd.
  apply StronglySorted_app in Hs as (Hab & Hsa & Hsb). apply Forall_app in Hne as [Hna Hnb].
  rewrite Forall_forall in H1. split.
  - apply Forall_app. split; [done|]. by constructor.
  - apply StronglySorted_app. split_and!; [|done|by constructor].
    intros x y Hx [-> | Hy]%elem_of_cons; [by apply H1|by apply Hab].
  - rewrite fmap_app, fmap_cons. rewrite <- Permutation_middle. by constructor.
Qed.

Lemma handler_at_insert la lb r a :
  free_on (handler_at (la ++ lb)) (rg_start r) (rg_end r) ->
  handler_at (la ++ r :: lb) a =
    if decide (rg_start r <= a < rg_end r) then Some (rg_handler r) else handler_at (la ++ lb) a.
Proof.
  intros Hf. rewrite !handler_at_app. simpl. destruct (decide (rg_start r <= a < rg_end r)) as [Ha|Ha].
  - specialize (Hf a Ha). rewrite handler_at_app in Hf.
    destruct (handler_at la a); [done|]. by rewrite decide_True by lia.
  - by rewrite (decide_False (P := rg_start r <= a /\ rg_end r > a)) by lia.
Qed.

(** ** Linking a node *)
Lemma hseg_last m p la x n :
  hseg m p (la ++ [x]) n ->
  m !! rg_node x = Some (mk_mem_handler (rg_start x) (rg_end x) (rg_handler x) n).
Proof. intros (k & _ & -> & _ & n' & Hm & ->)%hseg_app. exact Hm. Qed.

Lemma hseg_relink m p la x n q :
  NoDup (rg_node <$> la ++ [x]) -> hseg m p (la ++ [x]) n ->
  hseg (<[rg_node x := mk_mem_handler (rg_start x) (rg_end x) (rg_handler x) q]> m) p (la ++ [x]) q.
Proof.
  rewrite fmap_app, NoDup_app. intros (_ & Hx & _) (k & H1 & Hk & Hn & n' & Hm & _)%hseg_app.
  subst k. assert (rg_node x ∉ rg_node <$> la) as Hxa by (intros Hin; apply (Hx _ Hin); by apply list_elem_of_singleton).
  apply hseg_app. exists (rg_node x). split; [by apply hseg_insert|]. simpl. split; [done|]. split; [done|].
  exists q. split; [apply lookup_insert_eq|done].
Qed.

(** The store once the range is linked before the nodes of [lb]. *)
Definition linked s la lb r : fstore :=
  let nxt := default NULL (rg_node <$> head lb) in
  let m := <[rg_node r := mk_mem_handler (rg_start r) (rg_end r) (rg_handler r) nxt]> (fs_handlers s) in
  match last la with
  | None => mk_fstore (fs_heap s) m (rg_node r)
  | Some x => mk_fstore (fs_heap s)
      (<[rg_node x := mk_mem_handler (rg_start x) (rg_end x) (rg_handler x) (rg_node r)]> m)
      (handler_list s)
  end.

Lemma hseg_head m p l : hseg m p l NULL -> p = default NULL (rg_node <$> head l).
Proof. destruct l; simpl; naive_solver. Qed.

Lemma linked_hseg s la lb r :
  hseg (fs_handlers s) (handler_list s) (la ++ lb) NULL -> NoDup (rg_node <$> la ++ lb) ->
  rg_node r ∉ rg_node <$> la ++ lb -> rg_node r <> NULL ->
  hseg (fs_handlers (linked s la lb r)) (handler_list (linked s la lb r)) (la ++ r :: lb) NULL.
Proof.
  intros Hl Hnd Hr Hn. unfold linked. destruct la as [|x la _] using rev_ind; simpl.
  - split; [done|]. split; [done|]. eexists. split; [apply lookup_insert_eq|].
    rewrite <- (hseg_head _ _ lb Hl). by apply hseg_insert.
  - rewrite last_snoc. simpl. apply hseg_app in Hl as (k & Ha & Hb).
    rewrite fmap_app in Hnd, Hr. apply NoDup_app in Hnd as (Hna & Hdis & Hnb).
    apply not_elem_of_app in Hr as [Hra Hrb].
    assert (rg_node x ∈ rg_node <$> la ++ [x]) as Hx
      by (apply list_elem_of_fmap; exists x; split; [done|apply elem_of_app; right; by apply list_elem_of_singleton]).
    apply hseg_app. exists (rg_node r). split; [by apply (hseg_relink _ _ _ _ k), hseg_insert|].
    simpl. split; [done|]. split; [done|]. eexists. split.
    + rewrite lookup_insert_ne; [apply lookup_insert_eq|]. intros E. rewrite E in Hx. done.
    + rewrite <- (hseg_head _ _ _ Hb). apply hseg_insert; [by apply Hdis|]. by apply hseg_insert.
Qed.

Lemma hseg_nonnull m p l q : hseg m p l q -> l <> [] -> p <> NULL.
Proof. destruct l; simpl; naive_solver. Qed.

Lemma hseg_first m p l q : hseg m p l q -> l <> [] -> p ∈ rg_node <$> l.
Proof. destruct l as [|r l]; [done|]. intros (-> & _) _. constructor. Qed.

(** ** [register_range] *)
Definition drops (p : Z) (h : heap) s : outcome (OS_RETURN_E * fstore) :=
  Ret (OS_ERR_HANDLER_ALREADY_EXISTS, mk_fstore (kfree p h) (fs_handlers s) (handler_list s)).

Lemma drop_range_run p h r s :
  fs_handlers s !! p = None ->
  drop_range p (mk_fstore h (<[p := r]> (fs_handlers s)) (handler_list s)) = drops p h s.
Proof.
  intros Hp. unfold drop_range, f_kfree, bind, drops. simpl. by rewrite delete_insert_id.
Qed.

Lemma get_mem_handler_bind {A} p n (k : mem_handler_t -> M fstore A) s :
  fs_handlers s !! p = Some n -> bind (get_mem_handler p) k s = k n s.
Proof. intros H. unfold bind, get_mem_handler. by rewrite H. Qed.

Lemma upd_mem_handler_bind {A} p f n (k : unit -> M fstore A) s :
  fs_handlers s !! p = Some n ->
  bind (upd_mem_handler p f) k s = k tt (with_fs_handlers (<[p := f n]> (fs_handlers s)) s).
Proof. intros H. unfold bind, upd_mem_handler. by rewrite H. Qed.

Lemma register_range_exec s l h rs re p0 hp :
  hseg (fs_handlers s) (handler_list s) l NULL -> ranges_ok l ->
  kmalloc sizeof_mem_handler (fs_heap s) = (p0, hp) -> p0 <> NULL -> fs_handlers s !! p0 = None ->
  exists la lb, l = la ++ lb /\ Forall (fun r => rg_start r <= rs) la /\
    Forall (fun r => rs < rg_start r) lb /\
    (fits la lb rs re /\ register_range h rs re s =
       Ret (OS_NO_ERR, linked (mk_fstore hp (fs_handlers s) (handler_list s)) la lb
                         (mk_frange p0 rs re h)) \/
     ~ fits la lb rs re /\ register_range h rs re s = drops p0 hp s).
Proof.
  intros Hl [Hne Hs Hnd] Hk Hp0 Hnew.
  assert (p0 ∉ rg_node <$> l) as Hp0l.
  { intros (r & -> & Hr)%list_elem_of_fmap. destruct (hseg_live _ _ _ _ _ Hl Hr). congruence. }
  set (n0 := mk_mem_handler rs re h NULL).
  set (s1 := mk_fstore hp (<[p0 := n0]> (fs_handlers s)) (handler_list s)).
  assert (hseg (fs_handlers s1) (handler_list s) l NULL) as Hl1 by (by apply hseg_insert).
  destruct (range_walk_run l (walk_fuel s1) s1 rs (handler_list s) (handler_list s))
    as (la & lb & -> & Hrun & Ha & Hb); [done| |done..|].
  { unfold walk_fuel. pose proof (hseg_length _ _ _ _ Hl1 Hnd). lia. }
  exists la, lb. split; [done|]. split; [done|]. split; [done|].
  assert (register_range h rs re s = (
    if decide (handler_list s <> NULL) then
      if decide (default NULL (rg_node <$> head lb) <> NULL) then
        let* c := get_mem_handler (default NULL (rg_node <$> head lb)) in
        if decide (default NULL (rg_node <$> head lb) = handler_list s) then
          if decide (mh_start c < re) then drop_range p0
          else
            upd_mem_handler p0 (with_mh_next (default NULL (rg_node <$> head lb))) >>>
            modify (with_handler_list p0) >>> ret OS_NO_ERR
        else
          let* pre := get_mem_handler (default (handler_list s) (rg_node <$> last la)) in
          if decide (mh_end pre > rs \/ mh_start c < re) then drop_range p0
          else
            upd_mem_handler p0 (with_mh_next (mh_next pre)) >>>
            upd_mem_handler (default (handler_list s) (rg_node <$> last la)) (with_mh_next p0) >>>
            ret OS_NO_ERR
      else
        let* pre := get_mem_handler (default (handler_list s) (rg_node <$> last la)) in
        if decide (mh_end pre > rs) then drop_range p0
        else
          upd_mem_handler (default (handler_list s) (rg_node <$> last la)) (with_mh_next p0) >>>
          ret OS_NO_ERR
    else modify (with_handler_list p0) >>> ret OS_NO_ERR) s1) as ->.
  { unfold register_range, f_kmalloc. unfold bind at 1. rewrite Hk. rewrite decide_False by done.
    rewrite exec_modify, exec_gets. cbn [handler_list with_fs_handlers].
    destruct (decide (handler_list s <> NULL)); [|done]. rewrite exec_gets.
    by rewrite (bind_ret _ _ _ _ _ Hrun). }
  clear Hrun. destruct lb as [|c lb]; [rewrite app_nil_r in *|];
    (destruct la as [|x la _] using rev_ind; [|rewrite last_snoc]).
  - simpl in Hl. rewrite Hl. left. split; [done|]. done.
  - rewrite decide_True by (apply (hseg_nonnull _ _ _ _ Hl); by destruct la).
    rewrite decide_False by (intros H; by apply H). pose proof (hseg_last _ _ _ _ _ Hl1) as Hx.
    rewrite (get_mem_handler_bind _ _ _ _ Hx).
    case_decide as Hc; simpl in Hc.
    + right. split; [intros [H _]; specialize (H x (last_snoc _ _)); lia|by apply drop_range_run].
    + left. split; [split; [rewrite last_snoc; intros ? [= <-]; lia|done]|].
      rewrite (upd_mem_handler_bind _ _ _ _ _ Hx). unfold linked. by rewrite last_snoc.
  - destruct Hl as (Hp & Hn & n & Hm & Hl). simpl. rewrite Hp, !decide_True by congruence.
    rewrite (get_mem_handler_bind _ (mk_mem_handler (rg_start c) (rg_end c) (rg_handler c) n))
      by (simpl; rewrite lookup_insert_ne;
            [by rewrite <- Hp|intros E; apply Hp0l; rewrite E; constructor]).
    rewrite (decide_True (P := rg_node c = rg_node c)) by done.
    case_decide as Hc; simpl in Hc.
    + right. split; [intros [_ H]; specialize (H c eq_refl); lia|by apply drop_range_run].
    + left. split; [split; [done|intros ? [= <-]; lia]|].
      rewrite (upd_mem_handler_bind _ _ n0) by apply lookup_insert_eq.
      unfold linked. simpl. unfold modify, bind, ret. simpl. by rewrite insert_insert_eq.
  - apply hseg_app in Hl1 as (k & Hla & Hkc & Hcn & n & Hm & Hlb). subst k.
    assert (p0 <> rg_node x) as Hxp.
    { intros ->. apply Hp0l. rewrite !fmap_app. set_solver. }
    pose proof (hseg_last _ _ _ _ _ Hla) as Hx. cbn [head fmap option_fmap option_map default id].
    rewrite decide_True by (apply (hseg_nonnull _ _ _ _ Hl); by destruct la).
    rewrite decide_True by done.
    rewrite (get_mem_handler_bind _ _ _ _ Hm). rewrite decide_False.
    2: { rewrite fmap_app in Hnd. apply NoDup_app in Hnd as (_ & Hdis & _). intros E.
      apply (Hdis (rg_node c)); [rewrite E; apply (hseg_first _ _ _ _ Hla); by destruct la|constructor]. }
    rewrite (get_mem_handler_bind _ _ _ _ Hx).
    case_decide as Hc; simpl in Hc.
    + right. split; [|by apply drop_range_run].
      intros [H1 H2]. specialize (H1 x (last_snoc _ _)). specialize (H2 c eq_refl). lia.
    + left. split; [split; [rewrite last_snoc; intros ? [= <-]; lia|intros ? [= <-]; lia]|].
      rewrite (upd_mem_handler_bind _ _ n0) by apply lookup_insert_eq.
      cbn [with_fs_handlers fs_handlers s1 mh_next].
      erewrite upd_mem_handler_bind
        by (simpl; rewrite insert_insert_eq, lookup_insert_ne; [|exact Hxp];
            unfold s1 in Hx; simpl in Hx; rewrite lookup_insert_ne in Hx by exact Hxp; exact Hx).
      unfold linked. rewrite last_snoc. simpl. by rewrite insert_insert_eq.
Qed.

(** A registration keeps the representation, whatever its result. *)
Lemma register_range_run s l L h rs re :
  frep s l L -> h <> NULL -> rs < re ->
  exists err s', register_range h rs re s = Ret (err, s') /\
    (err = OS_ERR_MALLOC /\ s' = s \/
     err = OS_ERR_HANDLER_ALREADY_EXISTS /\ ~ free_on (handler_at l) rs re /\
       (exists L', frep s' l L') \/
     err = OS_NO_ERR /\ free_on (handler_at l) rs re /\
       exists l' L', frep s' l' L' /\
         forall a, handler_at l' a = if decide (rs <= a < re) then Some h else handler_at l a).
Proof.
  intros [Hl Hok HH Hlive] Hh Hre.
  destruct (kmalloc sizeof_mem_handler (fs_heap s)) as [p0 hp] eqn:Hk.
  assert (0 <= sizeof_mem_handler <= kmalloc_max) as Hsz by (unfold sizeof_mem_handler, kmalloc_max; lia).
  destruct (kmalloc_spec _ _ _ _ _ HH Hsz Hk)
    as [[-> ->]|(Hp0 & n & _ & _ & HL & _ & HH')].
  { exists OS_ERR_MALLOC, s. split; [|by left]. unfold register_range, f_kmalloc, bind. rewrite Hk.
    rewrite decide_True by done. by destruct s. }
  assert (fs_handlers s !! p0 = None) as Hnew.
  { destruct (fs_handlers s !! p0) eqn:E; [|done]. destruct (Hlive p0); [by eexists|congruence]. }
  destruct (register_range_exec s l h rs re p0 hp Hl Hok Hk Hp0 Hnew)
    as (la & lb & -> & Ha & Hb & [[Hf Hrun]|[Hf Hrun]]); eexists _, _; (split; [exact Hrun|]);
    rewrite (fits_free la lb rs re) in Hf by done.
  - right. right. split; [done|]. split; [done|].
    exists (la ++ mk_frange p0 rs re h :: lb), (<[p0 := n]> L). split; [|intros a; by apply handler_at_insert].
    assert (p0 ∉ rg_node <$> la ++ lb) as Hp0l.
    { intros (r & -> & Hr)%list_elem_of_fmap. destruct (hseg_live _ _ _ _ _ Hl Hr). congruence. }
    split.
    + apply linked_hseg; [done|apply Hok|done|done].
    + apply insert_ok; try done. simpl. by rewrite (fits_free la lb rs re).
    + unfold linked. by destruct (last la).
    + intros p Hp. rewrite lookup_insert_is_Some. destruct (decide (p0 = p)) as [->|Hne]; [by left|].
      right. split; [done|]. apply Hlive.
      destruct (last la) as [x|] eqn:Ex; unfold linked in Hp; rewrite Ex in Hp; simpl in Hp.
      * apply lookup_insert_is_Some in Hp as [<-|[_ Hp]].
        -- apply (hseg_live _ _ _ _ x Hl). apply elem_of_app. left. by apply last_Some_elem_of.
        -- by rewrite lookup_insert_ne in Hp.
      * by rewrite lookup_insert_ne in Hp.
  - right. left. split; [done|]. split; [done|]. exists (delete p0 (<[p0 := n]> L)). split; simpl; try done.
    + eapply kfree_spec; [done|apply lookup_insert_eq].
    + intros p Hp. rewrite delete_insert_id by done. by apply Hlive.
Qed.

(** ** The abstract map

    Registrations and page faults against a partial map from addresses to
    handlers. *)
Inductive fh_op : Type :=
  | Register (h rs re : Z)
  | PageFault (a : Z).

Inductive fh_result : Type :=
  | Registered (err : OS_RETURN_E)
  | Dispatched (d : dispatch).

Definition cover (f : Z -> option Z) (h rs re a : Z) : option Z :=
  if decide (rs <= a < re) then Some h else f a.

Inductive map_step (f : Z -> option Z) : fh_op -> fh_result -> (Z -> option Z) -> Prop :=
  | step_null rs re :
      map_step f (Register NULL rs re) (Registered OS_ERR_NULL_POINTER) f
  | step_empty h rs re : h <> NULL -> re <= rs ->
      map_step f (Register h rs re) (Registered OS_ERR_UNAUTHORIZED_ACTION) f
  | step_no_memory h rs re : h <> NULL -> rs < re ->
      map_step f (Register h rs re) (Registered OS_ERR_MALLOC) f
  | step_overlap h rs re : h <> NULL -> rs < re -> ~ free_on f rs re ->
      map_step f (Register h rs re) (Registered OS_ERR_HANDLER_ALREADY_EXISTS) f
  | step_registered h rs re : h <> NULL -> rs < re -> free_on f rs re ->
      map_step f (Register h rs re) (Registered OS_NO_ERR) (cover f h rs re)
  | step_fault a :
      map_step f (PageFault a)
        (Dispatched (match f a with Some h => RunHandler h | None => RunPanic end)) f.

Inductive map_trace (f : Z -> option Z) : list fh_op -> list fh_result -> (Z -> option Z) -> Prop :=
  | trace_nil : map_trace f [] [] f
  | trace_cons o r f1 os rs f2 :
      map_step f o r f1 -> map_trace f1 os rs f2 -> map_trace f (o :: os) (r :: rs) f2.

Definition fh_step (e : cpu_env) (o : fh_op) : M (kstate fstore) fh_result :=
  match o with
  | Register h rs re =>
      let* err := paging_register_fault_handler e h rs re in ret (Registered err)
  | PageFault a =>
      let* d := lift (paging_fault_general_handler PAGE_FAULT_LINE a) in ret (Dispatched d)
  end.

Fixpoint fh_run (e : cpu_env) (os : list fh_op) : M (kstate fstore) (list fh_result) :=
  match os with
  | [] => ret []
  | o :: os => let* r := fh_step e o in let* rs := fh_run e os in ret (r :: rs)
  end.

(** The list of the store [s] is the map [f]. *)
Definition maps_to s (f : Z -> option Z) : Prop :=
  exists l L, frep s l L /\ forall a, handler_at l a = f a.

Lemma free_on_ext f g rs re : (forall a, f a = g a) -> free_on f rs re <-> free_on g rs re.
Proof. intros H. unfold free_on. by setoid_rewrite H. Qed.

Lemma fault_dispatch s f a :
  maps_to s f -> paging_fault_general_handler PAGE_FAULT_LINE a s =
    Ret (match f a with Some h => RunHandler h | None => RunPanic end, s).
Proof.
  intros (l & L & [Hl [_ _ Hnd] _ _] & Hf). rewrite <- Hf.
  destruct (fault_walk_run l (walk_fuel s) s a (handler_list s) Hl) as (c & Hrun & Hc).
  { unfold walk_fuel. pose proof (hseg_length _ _ _ _ Hl Hnd). lia. }
  unfold paging_fault_general_handler, paging_get_handler_list. rewrite decide_False by tauto.
  rewrite exec_gets, exec_gets, (bind_ret _ _ _ _ _ Hrun).
  destruct (handler_at l a) as [h|]; [|by rewrite decide_True].
  destruct Hc as (Hn & n & Hm & <-). rewrite decide_False by done.
  by rewrite (get_mem_handler_bind _ _ _ _ Hm).
Qed.

Lemma fh_step_refines (e : cpu_env) o (t : kstate fstore) f :
  flag_ok t -> lock_free FaultLock t -> maps_to (core t) f ->
  exists r t' f', fh_step e o t = Ret (r, t') /\ map_step f o r f' /\
    maps_to (core t') f' /\ same_locks t t'.
Proof.
  intros Hfl Hlk Hf. destruct o as [h rs re|a]; simpl.
  2: { exists (Dispatched (match f a with Some h => RunHandler h | None => RunPanic end)), t, f.
    split; [|split; [constructor|split; [done|split; done]]].
    rewrite (bind_ret _ _ _ _ _ (lift_run _ _ _ _ (fault_dispatch (core t) f a Hf))).
    unfold ret. by destruct t. }
  unfold paging_register_fault_handler.
  destruct (decide (h = NULL)) as [->|Hh].
  { eexists _, t, f. split; [done|]. split; [constructor|]. split; [done|split; done]. }
  destruct (decide (re <= rs)) as [Hre|Hre].
  { eexists _, t, f. split; [done|]. split; [by constructor|]. split; [done|split; done]. }
  pose proof Hf as (l & L & HR & Hl).
  destruct (register_range_run (core t) l L h rs re HR Hh) as (err & s' & Hrun & H); [lia|].
  destruct (critical_lift e FaultLock _ t _ _ Hfl Hlk Hrun) as (t' & Ht & Hc & Hs).
  rewrite (free_on_ext _ f _ _ Hl) in H. rewrite (bind_ret _ _ _ _ _ Ht).
  destruct H as [[-> ->]|[(-> & Hov & L' & HR')|(-> & Hfree & l' & L' & HR' & Hl')]].
  - eexists _, t', f. split; [done|]. split; [constructor; [done|lia]|]. split; [by rewrite Hc|done].
  - eexists _, t', f. split; [done|]. split; [constructor; [done|lia|done]|]. split; [|done].
    exists l, L'. by rewrite Hc.
  - eexists _, t', (cover f h rs re). split; [done|]. split; [constructor; [done|lia|done]|].
    split; [|done]. exists l', L'. rewrite Hc. split; [done|]. intros a. rewrite Hl', Hl. done.
Qed.

(** C14: the list of page fault handlers is a partial map from addresses to
    handlers.  Along any sequence of registrations and page faults, a
    registration is refused exactly when it has no handler, is empty, overlaps
    a registered range, or there is no memory; otherwise every address of its
    range gets the handler and no other address changes; and a fault runs the
    handler of its address, or panics when it has none. *)
Theorem fault_handlers_refine_map (e : cpu_env) os (t : kstate fstore) f :
  flag_ok t -> lock_free FaultLock t -> maps_to (core t) f ->
  exists rs t' f', fh_run e os t = Ret (rs, t') /\ map_trace f os rs f' /\
    maps_to (core t') f' /\ same_locks t t'.
Proof.
  revert t f. induction os as [|o os IH]; intros t f Hfl Hlk Hf.
  { exists [], t, f. split; [done|]. split; [constructor|]. split; [done|split; done]. }
  destruct (fh_step_refines e o t f Hfl Hlk Hf) as (r & t1 & f1 & H1 & Hs1 & Hf1 & Hk1).
  destruct (IH t1 f1) as (rs & t2 & f2 & H2 & Hs2 & Hf2 & Hk2);
    [by eapply same_locks_flag|by eapply same_locks_free|done|].
  exists (r :: rs), t2, f2. simpl. rewrite (bind_ret _ _ _ _ _ H1), (bind_ret _ _ _ _ _ H2).
  split; [done|]. split; [by econstructor|]. split; [done|]. by eapply same_locks_trans.
Qed.
End Handlers.

(** *** Witness: from the empty list, on the heap of the kernel *)
Definition boot_faults : kstate fstore :=
  mk_kstate (mk_fstore demo_kheap ∅ NULL) 1 (fun _ => SPINLOCK_INIT_VALUE).

Lemma boot_faults_maps : maps_to (core boot_faults) (fun _ => None).
Proof.
  exists [], ∅. split; [|done]. split; simpl.
  - done.
  - split; constructor.
  - exact demo_kheap_rep.
  - intros p. rewrite lookup_empty. by intros [? ?].
Qed.

Definition fault_script : list fh_op :=
  [Register 77 4096 8192; Register 78 0 4096; Register 79 4000 5000; Register 79 8192 8200;
   PageFault 8191; PageFault 8192; PageFault 9000].

Definition fault_script_results : list fh_result :=
  [Registered OS_NO_ERR; Registered OS_NO_ERR; Registered OS_ERR_HANDLER_ALREADY_EXISTS;
   Registered OS_NO_ERR; Dispatched (RunHandler 77); Dispatched (RunHandler 79);
   Dispatched RunPanic].

Lemma fault_script_run :
  result_of (fh_run (mk_cpu 0 2) fault_script boot_faults) = Some fault_script_results.
Proof. vm_compute. reflexivity. Qed.

Lemma fault_handlers_refine_map_witness :
  exists f', map_trace (fun _ => None) fault_script fault_script_results f'.
Proof.
  destruct (fault_handlers_refine_map (mk_cpu 0 2) fault_script boot_faults (fun _ => None)
    (or_intror eq_refl) eq_refl boot_faults_maps) as (rs & t' & f' & Hrun & Htr & _).
  pose proof fault_script_run as Hres. rewrite Hrun in Hres. cbn [result_of] in Hres.
  injection Hres as ->. exists f'. exact Htr.
Defined.
