(* ===== verification/Paging.v ===== *)
(** * Paging on i386 ([arch/cpu/i386/paging.c])

    Page tables in physical memory, edited through the recursive entry of the
    page directory: every access goes through the translation of the
    processor, [mmu]. *)
From stdpp Require Import functions.
From S2P Require Import Prelude Critical Interrupts Frames FaultHandlers.

(** ** Constants ([arch_paging.h], [config.h]) *)
Definition PAGE_ALIGN_MASK : Z := 4294963200.        (* 0xFFFFF000 *)
Definition PG_ENTRY_MASK : Z := 4294963200.          (* 0xFFFFF000 *)
Definition KERNEL_PGDIR_SIZE : Z := 1024.
Definition KERNEL_RESERVED_PAGING : Z := 4.
Definition PG_DIR_OFFSET : Z := 22.
Definition PG_TABLE_OFFSET : Z := 12.
Definition PAGING_RECUR_PG_DIR : Z := 4294963200.    (* 0xFFFFF000 *)
Definition PAGING_RECUR_PG_TABLE : Z := 4290772992.  (* 0xFFC00000 *)

Definition FLAG_PRESENT : Z := 1.
Definition FLAG_READ_WRITE : Z := 2.
Definition FLAG_CACHE_DISABLED : Z := 16.
Definition FLAG_HARDWARE : Z := 512.

(** The flags of every page directory entry: supervisor, 4 KB. *)
Definition PG_DIR_FLAGS : Z := Z.lor FLAG_READ_WRITE FLAG_PRESENT.

Definition page_dir_index (va : Z) : Z := Z.shiftr va PG_DIR_OFFSET.
Definition page_table_index (va : Z) : Z := Z.land (Z.shiftr va PG_TABLE_OFFSET) 1023.

Section Ops.
Context {fops : FrameOps}.

(** [phys] holds the words of the physical memory, zero when not written;
    [pg_init] and [pg_enabled] are the variables [init] and [enabled]. *)
Record pstore : Type := mk_pstore {
  ps_frames : frames;
  ps_exceptions : handlers;
  phys : gmap Z Z;
  cr0 : Z;
  cr3 : Z;
  pg_init : Z;
  pg_enabled : Z;
}.

Definition with_ps_frames (v : frames) (s : pstore) : pstore :=
  mk_pstore v (ps_exceptions s) (phys s) (cr0 s) (cr3 s) (pg_init s) (pg_enabled s).
Definition with_ps_exceptions (v : handlers) (s : pstore) : pstore :=
  mk_pstore (ps_frames s) v (phys s) (cr0 s) (cr3 s) (pg_init s) (pg_enabled s).
Definition with_phys (v : gmap Z Z) (s : pstore) : pstore :=
  mk_pstore (ps_frames s) (ps_exceptions s) v (cr0 s) (cr3 s) (pg_init s) (pg_enabled s).
Definition with_cr0 (v : Z) (s : pstore) : pstore :=
  mk_pstore (ps_frames s) (ps_exceptions s) (phys s) v (cr3 s) (pg_init s) (pg_enabled s).
Definition with_cr3 (v : Z) (s : pstore) : pstore :=
  mk_pstore (ps_frames s) (ps_exceptions s) (phys s) (cr0 s) v (pg_init s) (pg_enabled s).
Definition with_pg_init (v : Z) (s : pstore) : pstore :=
  mk_pstore (ps_frames s) (ps_exceptions s) (phys s) (cr0 s) (cr3 s) v (pg_enabled s).
Definition with_pg_enabled (v : Z) (s : pstore) : pstore :=
  mk_pstore (ps_frames s) (ps_exceptions s) (phys s) (cr0 s) (cr3 s) (pg_init s) v.

(** ** The processor

    A two-level walk from CR3 in 4 KB pages; a write needs the read/write
    flag at both levels (CR0.WP).  The translation cache is not modelled. *)
Definition word (s : pstore) (pa : Z) : Z := default 0 (phys s !! pa).
Definition set_word (pa w : Z) (s : pstore) : pstore := with_phys (<[pa := w]> (phys s)) s.

Definition allows (write : bool) (e : Z) : bool :=
  Z.testbit e 0 && (negb write || Z.testbit e 1).

Definition mmu (write : bool) (va : Z) (s : pstore) : option Z :=
  if negb (Z.testbit (cr0 s) 31) then Some va
  else
    let pde := word s (cr3 s + 4 * page_dir_index va) in
    if negb (allows write pde) then None
    else
      let pte := word s (Z.land pde PG_ENTRY_MASK + 4 * page_table_index va) in
      if negb (allows write pte) then None
      else Some (Z.land pte PG_ENTRY_MASK + Z.land va 4095).

Definition vread (va : Z) : M pstore Z := fun s =>
  match mmu false va s with Some pa => Ret (word s pa, s) | None => Fault end.
Definition vwrite (va w : Z) : M pstore unit := fun s =>
  match mmu true va s with Some pa => Ret (tt, set_word pa w s) | None => Fault end.

(** ** The recursive mapping *)
Definition read_pgdir (i : Z) : M pstore Z := vread (PAGING_RECUR_PG_DIR + 4 * i).
Definition write_pgdir (i w : Z) : M pstore unit := vwrite (PAGING_RECUR_PG_DIR + 4 * i) w.
Definition pgtable_addr (pgdir_entry : Z) : Z :=
  PAGING_RECUR_PG_TABLE + KERNEL_PAGE_SIZE * pgdir_entry.
Definition read_pgtable (d i : Z) : M pstore Z := vread (pgtable_addr d + 4 * i).
Definition write_pgtable (d i w : Z) : M pstore unit := vwrite (pgtable_addr d + 4 * i) w.

Variable e : cpu_env.

Definition memalloc_alloc_kframes (n : Z) : M (kstate pstore) (Z * OS_RETURN_E) :=
  critical e MemallocLock (lift (zoom ps_frames with_ps_frames (alloc_kframes n))).
Definition memalloc_free_kframes (a n : Z) : M (kstate pstore) OS_RETURN_E :=
  critical e MemallocLock (lift (zoom ps_frames with_ps_frames (free_kframes a n))).

(** [size >= KERNEL_PAGE_SIZE ? size - KERNEL_PAGE_SIZE : 0] *)
Definition less_page (size : Z) : Z :=
  if decide (size >= KERNEL_PAGE_SIZE) then size - KERNEL_PAGE_SIZE else 0.
(** A loop over [size] bytes runs at most this many times. *)
Definition page_fuel (size : Z) : nat := S (S (Z.to_nat (size / KERNEL_PAGE_SIZE))).

(** ** [is_mapped] *)
Fixpoint is_mapped_loop (fuel : nat) (start_align to_check : Z) : M pstore Z :=
  match fuel with
  | O => diverge
  | S fuel =>
      if decide (to_check = 0) then ret 0
      else
        let pgdir_entry := page_dir_index start_align in
        let pgtable_entry := page_table_index start_align in
        let* pde := read_pgdir pgdir_entry in
        let* found :=
          (if decide (Z.land pde FLAG_PRESENT <> 0) then
             let* pte := read_pgtable pgdir_entry pgtable_entry in
             ret (bool_decide (Z.land pte FLAG_PRESENT <> 0))
           else ret false) in
        if found : bool then ret 1
        else is_mapped_loop fuel (u32 (start_align + KERNEL_PAGE_SIZE)) (less_page to_check)
  end.

Definition is_mapped (start_addr size : Z) : M (kstate pstore) Z :=
  critical e PagingLock (lift (
    let start_align := Z.land start_addr PAGE_ALIGN_MASK in
    let to_check := u32 (size + (start_addr - start_align)) in
    is_mapped_loop (page_fuel to_check) start_align to_check)).

(** ** [kernel_mmap_internal] *)

(** [for(i = 0; i < KERNEL_PGDIR_SIZE; ++i) pgtable[i] = 0;] *)
Fixpoint zero_table (count : nat) (d i : Z) : M pstore unit :=
  match count with
  | O => ret tt
  | S count => write_pgtable d i 0 >>> zero_table count d (i + 1)
  end.

(** The page table of a directory entry, allocated when there is none. *)
Definition ensure_table (d : Z) : M (kstate pstore) OS_RETURN_E :=
  let* pde := lift (read_pgdir d) in
  if decide (Z.land pde FLAG_PRESENT = 0) then
    let* (pgtable, err) := memalloc_alloc_kframes 1 in
    if decide (err <> OS_NO_ERR) then ret err
    else
      lift (write_pgdir d (Z.lor pgtable PG_DIR_FLAGS)) >>>
      lift (zero_table (Z.to_nat KERNEL_PGDIR_SIZE) d 0) >>>
      ret OS_NO_ERR
  else ret OS_NO_ERR.

Definition page_flags (read_only cache_enabled hardware : Z) : Z :=
  Z.lor (Z.lor (Z.lor (if decide (read_only <> 0) then 0 else FLAG_READ_WRITE)
                      (if decide (cache_enabled <> 0) then 0 else FLAG_CACHE_DISABLED))
               (if decide (hardware <> 0) then FLAG_HARDWARE else 0)) FLAG_PRESENT.

Fixpoint map_loop (fuel : nat) (flags virt_align phys_align to_map : Z) :
  M (kstate pstore) OS_RETURN_E :=
  match fuel with
  | O => diverge
  | S fuel =>
      if decide (to_map = 0) then ret OS_NO_ERR
      else
        let pgdir_entry := page_dir_index virt_align in
        let pgtable_entry := page_table_index virt_align in
        let* err := ensure_table pgdir_entry in
        if decide (err <> OS_NO_ERR) then ret err
        else
          lift (write_pgtable pgdir_entry pgtable_entry (Z.lor phys_align flags)) >>>
          map_loop fuel flags (u32 (virt_align + KERNEL_PAGE_SIZE))
            (u32 (phys_align + KERNEL_PAGE_SIZE)) (less_page to_map)
  end.

(** When the region is already mapped the function returns from inside its
    critical section. *)
Definition kernel_mmap_internal
  (virt_addr phys_addr mapping_size read_only cache_enabled hardware : Z) :
  M (kstate pstore) OS_RETURN_E :=
  let* int_state := ENTER_CRITICAL e PagingLock in
  let virt_align := Z.land virt_addr PAGE_ALIGN_MASK in
  let phys_align := Z.land phys_addr PAGE_ALIGN_MASK in
  let to_map := u32 (mapping_size + (virt_addr - virt_align)) in
  let* mapped := is_mapped virt_align to_map in
  if decide (mapped <> 0) then ret OS_ERR_MAPPING_ALREADY_EXISTS
  else
    let* err := map_loop (page_fuel to_map) (page_flags read_only cache_enabled hardware)
                  virt_align phys_align to_map in
    EXIT_CRITICAL e int_state PagingLock >>>
    ret err.

Definition kernel_mmap_hw (virt_addr phys_addr mapping_size read_only : Z) :
  M (kstate pstore) OS_RETURN_E :=
  kernel_mmap_internal virt_addr phys_addr mapping_size read_only 0 1.

(** The end of a region, rounded up to a page. *)
Definition map_end (virt_addr size : Z) : Z :=
  let end_map := u32 (virt_addr + size) in
  if decide (end_map mod KERNEL_PAGE_SIZE <> 0)
  then u32 (Z.land end_map PAGE_ALIGN_MASK + KERNEL_PAGE_SIZE) else end_map.

Definition kernel_mmap (virt_addr mapping_size read_only : Z) : M (kstate pstore) OS_RETURN_E :=
  let start_map := Z.land virt_addr PAGE_ALIGN_MASK in
  let page_count := u32 (map_end virt_addr mapping_size - start_map) / KERNEL_PAGE_SIZE in
  let* (frames, err) := memalloc_alloc_kframes page_count in
  if decide (err <> OS_NO_ERR) then ret err
  else
    let* err := kernel_mmap_internal virt_addr frames mapping_size read_only 1 0 in
    (if decide (err <> OS_NO_ERR) then
       let* _ := memalloc_free_kframes frames page_count in ret tt
     else ret tt) >>>
    ret err.

(** ** [kernel_munmap] *)

(** The page at the entry is released. *)
Definition unmap_page (d i : Z) : M (kstate pstore) unit :=
  let* pte := lift (read_pgtable d i) in
  if decide (Z.land pte FLAG_PRESENT <> 0) then
    (if decide (Z.land pte FLAG_HARDWARE = 0) then
       let* _ := memalloc_free_kframes (Z.land pte PG_ENTRY_MASK) 1 in ret tt
     else ret tt) >>>
    lift (write_pgtable d i 0)
    (* [INVAL_PAGE]: the translation cache is not modelled *)
  else ret tt.

(** Whether one of the entries from [i] on is present. *)
Fixpoint table_in_use (count : nat) (d i : Z) : M pstore bool :=
  match count with
  | O => ret false
  | S count =>
      let* pte := read_pgtable d i in
      if decide (Z.land pte FLAG_PRESENT <> 0) then ret true else table_in_use count d (i + 1)
  end.

(** An empty page table is released. *)
Definition drop_table (d : Z) : M (kstate pstore) unit :=
  let* acc := lift (table_in_use (Z.to_nat KERNEL_PGDIR_SIZE) d 0) in
  if acc : bool then ret tt
  else
    let* pde := lift (read_pgdir d) in
    let* _ := memalloc_free_kframes (Z.land pde PG_ENTRY_MASK) 1 in
    lift (write_pgdir d 0).

Fixpoint unmap_loop (fuel : nat) (start_map to_unmap : Z) : M (kstate pstore) unit :=
  match fuel with
  | O => diverge
  | S fuel =>
      if decide (to_unmap = 0) then ret tt
      else
        let pgdir_entry := page_dir_index start_map in
        let pgtable_entry := page_table_index start_map in
        let* pde := lift (read_pgdir pgdir_entry) in
        (if decide (Z.land pde FLAG_PRESENT <> 0) then
           unmap_page pgdir_entry pgtable_entry >>> drop_table pgdir_entry
         else ret tt) >>>
        unmap_loop fuel (u32 (start_map + KERNEL_PAGE_SIZE)) (less_page to_unmap)
  end.

Definition kernel_munmap (virt_addr mapping_size : Z) : M (kstate pstore) OS_RETURN_E :=
  critical e PagingLock (
    let start_map := Z.land virt_addr PAGE_ALIGN_MASK in
    let to_unmap := u32 (map_end virt_addr mapping_size - start_map) in
    unmap_loop (page_fuel to_unmap) start_map to_unmap >>>
    ret OS_NO_ERR).

(** ** Initialisation

    The addresses the linker gives to the sections and to the two tables of
    the file. *)
Record kernel_image : Type := mk_image {
  code_start : Z; code_end : Z;
  rodata_start : Z; rodata_end : Z;
  data_start : Z; data_end : Z;
  bss_start : Z; bss_end : Z;
  struct_start : Z; struct_end : Z;
  heap_start : Z; heap_end : Z;
  kernel_pgdir : Z;
  min_pgtable : Z;
}.

Variable image : kernel_image.

(** A write to a variable of the kernel, which the boot page tables map at a
    constant offset. *)
Definition write_static (va w : Z) : M pstore unit :=
  modify (set_word (u32 (va - KERNEL_MEM_OFFSET)) w).

Fixpoint map_section_loop (fuel : nat) (start_addr_align to_map read_only : Z) : M pstore unit :=
  match fuel with
  | O => diverge
  | S fuel =>
      if decide (to_map > 0) then
        let pg_dir_entry := page_dir_index start_addr_align in
        let pg_table_entry := page_table_index start_addr_align in
        let offset := u32 (start_addr_align - KERNEL_MEM_OFFSET) in
        let min_pgtable_entry := Z.land (Z.shiftr offset PG_DIR_OFFSET) 1023 in
        let table := min_pgtable image + 4096 * min_pgtable_entry in
        if decide (min_pgtable_entry >= KERNEL_RESERVED_PAGING) then fault
        else
          write_static (table + 4 * pg_table_entry)
            (Z.lor (Z.lor offset (if decide (read_only <> 0) then 0 else FLAG_READ_WRITE))
                   FLAG_PRESENT) >>>
          write_static (kernel_pgdir image + 4 * pg_dir_entry)
            (Z.lor (u32 (table - KERNEL_MEM_OFFSET)) PG_DIR_FLAGS) >>>
          map_section_loop fuel (u32 (start_addr_align + KERNEL_PAGE_SIZE))
            (to_map - KERNEL_PAGE_SIZE) read_only
      else ret tt
  end.

Definition map_kernel_section (start_addr size read_only : Z) : M pstore unit :=
  let start_addr_align := Z.land start_addr PAGE_ALIGN_MASK in
  let to_map := u32 (start_addr - start_addr_align + size) in
  map_section_loop (page_fuel to_map) start_addr_align to_map read_only.

Fixpoint zero_pgdir (count : nat) (i : Z) : M pstore unit :=
  match count with
  | O => ret tt
  | S count => write_static (kernel_pgdir image + 4 * i) 0 >>> zero_pgdir count (i + 1)
  end.

(** [fault_handler] is the address of [paging_fault_general_handler]. *)
Definition paging_init (fault_handler : Z) : M (kstate pstore) OS_RETURN_E :=
  lift (zero_pgdir (Z.to_nat KERNEL_PGDIR_SIZE) 0) >>>
  lift (write_static (kernel_pgdir image + 4 * (KERNEL_PGDIR_SIZE - 1))
         (Z.lor (u32 (kernel_pgdir image - KERNEL_MEM_OFFSET)) PG_DIR_FLAGS)) >>>
  lift (map_kernel_section (code_start image) (u32 (code_end image - code_start image)) 1) >>>
  lift (map_kernel_section (rodata_start image) (u32 (rodata_end image - rodata_start image)) 1) >>>
  lift (map_kernel_section (data_start image) (u32 (data_end image - data_start image)) 0) >>>
  lift (map_kernel_section (bss_start image) (u32 (bss_end image - bss_start image)) 0) >>>
  lift (map_kernel_section (struct_start image) (u32 (struct_end image - struct_start image)) 1) >>>
  lift (map_kernel_section (heap_start image) (u32 (heap_end image - heap_start image)) 0) >>>
  let* err := kzoom ps_exceptions with_ps_exceptions
                (kernel_exception_register_handler e PAGE_FAULT_LINE fault_handler) in
  lift (modify (with_cr3 (u32 (kernel_pgdir image - KERNEL_MEM_OFFSET)))) >>>
  lift (modify (with_pg_init 1)) >>>
  ret err.

(** [or $0x80010000] and [and $0x7FF7FFFF] on CR0. *)
Definition paging_enable : M pstore OS_RETURN_E :=
  let* i := gets pg_init in
  if decide (i = 0) then ret OS_ERR_PAGING_NOT_INIT
  else
    let* en := gets pg_enabled in
    if decide (en = 1) then ret OS_NO_ERR
    else
      modify (fun s => with_cr0 (Z.lor (cr0 s) 2147549184) s) >>>
      modify (with_pg_enabled 1) >>>
      ret OS_NO_ERR.

Definition paging_disable : M pstore OS_RETURN_E :=
  let* i := gets pg_init in
  if decide (i = 0) then ret OS_ERR_PAGING_NOT_INIT
  else
    let* en := gets pg_enabled in
    if decide (en = 0) then ret OS_NO_ERR
    else
      modify (fun s => with_cr0 (Z.land (cr0 s) 2146959359) s) >>>
      modify (with_pg_enabled 0) >>>
      ret OS_NO_ERR.
End Ops.
