(* ===== verification/PagingSpec.v ===== *)
(** * The page tables as a map of pages

    What the accesses through the recursive mapping read and write, the
    invariant of the page tables, and the two updates the code makes: an entry
    of a table, and a new table. *)
From stdpp Require Import functions.
From S2P Require Import Prelude Critical Interrupts Frames FaultHandlers Paging.

(** ** Bits *)
Lemma land_mask a : 0 <= a < 2 ^ 32 -> Z.land a PG_ENTRY_MASK = a - a mod 4096.
Proof.
  intros Ha. change PG_ENTRY_MASK with (Z.shiftl (Z.ones 20) 12).
  assert (Z.land a (Z.shiftl (Z.ones 20) 12) = Z.shiftl (Z.land (Z.shiftr a 12) (Z.ones 20)) 12) as ->.
  { apply Z.bits_inj'. intros n Hn. rewrite Z.land_spec, !Z.shiftl_spec by lia.
    destruct (Z.le_gt_cases 12 n).
    - rewrite Z.land_spec, Z.shiftr_spec by lia. by replace (n - 12 + 12) with n by lia.
    - rewrite !(Z.testbit_neg_r _ (n - 12)) by lia. by rewrite andb_false_r. }
  rewrite Z.land_ones by lia. rewrite Z.shiftl_mul_pow2, Z.shiftr_div_pow2 by lia.
  change (2 ^ 12) with 4096.
  rewrite (Z.mod_small (a / 4096)); [pose proof (Z.div_mod a 4096); lia|].
  split; [apply Z.div_pos; lia|apply Z.div_lt_upper_bound; lia].
Qed.

Lemma land_mask_range a : 0 <= Z.land a PG_ENTRY_MASK < 2 ^ 32 /\ Z.land a PG_ENTRY_MASK mod 4096 = 0.
Proof.
  assert (Z.land a PG_ENTRY_MASK = Z.land (a mod 2 ^ 32) PG_ENTRY_MASK) as ->.
  { rewrite <- (Z.land_ones a 32) by lia. by rewrite <- Z.land_assoc. }
  pose proof (Z.mod_pos_bound a (2 ^ 32)). rewrite land_mask by lia.
  pose proof (Z.div_mod (a mod 2 ^ 32) 4096). pose proof (Z.mod_pos_bound (a mod 2 ^ 32) 4096).
  split; [lia|]. replace (a mod 2 ^ 32 - (a mod 2 ^ 32) mod 4096) with (a mod 2 ^ 32 / 4096 * 4096) by lia.
  by apply Z.mod_mul.
Qed.

(** Flags below the address of a frame. *)
Lemma lor_low f fl : f mod 4096 = 0 -> 0 <= fl < 4096 -> Z.lor f fl = f + fl.
Proof.
  intros Hf Hfl. assert (Z.land f fl = 0) as H0.
  { assert (fl = Z.land (Z.ones 12) fl) as ->
      by (rewrite Z.land_comm, Z.land_ones by lia; symmetry; apply Z.mod_small; lia).
    rewrite Z.land_assoc, Z.land_ones by lia. change (2 ^ 12) with 4096. by rewrite Hf. }
  by rewrite <- Z.lxor_lor, Z.add_nocarry_lxor.
Qed.

Lemma testbit_low f n : f mod 4096 = 0 -> 0 <= n < 12 -> Z.testbit f n = false.
Proof.
  intros Hf Hn. rewrite <- (Z.mod_pow2_bits_low f 12 n) by lia. change (2 ^ 12) with 4096.
  rewrite Hf. apply Z.bits_0.
Qed.

Lemma testbit_entry f fl n :
  f mod 4096 = 0 -> 0 <= n < 12 -> Z.testbit (Z.lor f fl) n = Z.testbit fl n.
Proof. intros Hf Hn. by rewrite Z.lor_spec, (testbit_low f). Qed.

Lemma entry_frame f fl :
  0 <= f < 2 ^ 32 -> f mod 4096 = 0 -> 0 <= fl < 4096 -> Z.land (Z.lor f fl) PG_ENTRY_MASK = f.
Proof.
  intros Hf Hm Hfl. rewrite lor_low by done.
  assert (f + 4096 <= 2 ^ 32) by (pose proof (Z.div_mod f 4096); change (2 ^ 32) with (1048576 * 4096) in *; nia).
  rewrite land_mask by lia. rewrite <- Z.add_mod_idemp_l, Hm by lia. simpl.
  rewrite (Z.mod_small fl) by lia. lia.
Qed.

Lemma land_bit w k : 0 <= k -> Z.land w (2 ^ k) = 0 <-> Z.testbit w k = false.
Proof.
  intros Hk. split.
  - intros H. apply (f_equal (fun x => Z.testbit x k)) in H.
    rewrite Z.land_spec, Z.pow2_bits_true, andb_true_r, Z.bits_0 in H by lia. exact H.
  - intros H. apply Z.bits_inj'. intros n Hn. rewrite Z.land_spec, Z.bits_0, Z.pow2_bits_eqb by lia.
    destruct (Z.eqb_spec k n) as [<-|]; [by rewrite H|by rewrite andb_false_r].
Qed.

Lemma land_present w : Z.land w FLAG_PRESENT = 0 <-> Z.testbit w 0 = false.
Proof. exact (land_bit w 0 ltac:(lia)). Qed.

Lemma land_hardware w : Z.land w FLAG_HARDWARE = 0 <-> Z.testbit w 9 = false.
Proof. exact (land_bit w 9 ltac:(lia)). Qed.

(** ** Addresses *)
Lemma page_dir_index_eq va : page_dir_index va = va / 4194304.
Proof. unfold page_dir_index, PG_DIR_OFFSET. by rewrite Z.shiftr_div_pow2 by lia. Qed.

Lemma page_table_index_eq va : page_table_index va = va / 4096 mod 1024.
Proof.
  unfold page_table_index, PG_TABLE_OFFSET. rewrite Z.shiftr_div_pow2 by lia.
  by rewrite (Z.land_ones _ 10) by lia.
Qed.

Lemma offset_eq va : Z.land va 4095 = va mod 4096.
Proof. by rewrite (Z.land_ones _ 12) by lia. Qed.

Section Tables.
Context {fops : FrameOps} `{!FrameSpec fops}.
Implicit Types (s : pstore) (U : Z -> Prop).

Definition present (w : Z) : bool := Z.testbit w 0.
Definition pde s (d : Z) : Z := word s (cr3 s + 4 * d).
Definition table s (d : Z) : Z := Z.land (pde s d) PG_ENTRY_MASK.

(** The entry of the page number [v], and the page it maps, if any. *)
Definition pte s (v : Z) : Z := word s (table s (v / 1024) + 4 * (v mod 1024)).
Definition page s (v : Z) : option Z :=
  if present (pde s (v / 1024)) && present (pte s v) then Some (pte s v) else None.

(** The recursive entry is in place, the page tables are distinct frames, and
    no table is a free frame. *)
Record pg_ok s U : Prop := {
  pg_paging : Z.testbit (cr0 s) 31 = true;
  pg_dir : 0 <= cr3 s < 2 ^ 32 /\ cr3 s mod 4096 = 0;
  pg_self : pde s 1023 = Z.lor (cr3 s) PG_DIR_FLAGS;
  pg_rw d : 0 <= d < 1023 -> present (pde s d) = true -> Z.testbit (pde s d) 1 = true;
  pg_table d : 0 <= d < 1023 -> present (pde s d) = true ->
    table s d <> cr3 s /\ table s d + 4096 < 2 ^ 32 /\ ~ U (table s d / 4096);
  pg_inj d d' : 0 <= d < 1023 -> 0 <= d' < 1023 -> present (pde s d) = true ->
    present (pde s d') = true -> table s d = table s d' -> d = d';
  pg_free_dir : ~ U (cr3 s / 4096);
  pg_frames : frames_rep (ps_frames s) U;
}.

Lemma table_range s d : 0 <= table s d < 2 ^ 32 /\ table s d mod 4096 = 0.
Proof. apply land_mask_range. Qed.

Lemma pg_dir_flags_bits : Z.testbit PG_DIR_FLAGS 0 = true /\ Z.testbit PG_DIR_FLAGS 1 = true /\ 0 <= PG_DIR_FLAGS < 4096.
Proof. by vm_compute. Qed.

(** *** What the recursive addresses designate *)
Lemma mmu_dir s U wr d :
  pg_ok s U -> 0 <= d < 1024 -> mmu wr (PAGING_RECUR_PG_DIR + 4 * d) s = Some (cr3 s + 4 * d).
Proof.
  intros H Hd. destruct (pg_dir _ _ H) as [Hc Hm]. destruct pg_dir_flags_bits as (F0 & F1 & F2).
  unfold mmu. rewrite (pg_paging _ _ H). simpl negb.
  rewrite page_dir_index_eq, page_table_index_eq, offset_eq. unfold PAGING_RECUR_PG_DIR.
  replace ((4294963200 + 4 * d) / 4194304) with 1023 by (apply Z.div_unique with (4190208 + 4 * d); lia).
  replace ((4294963200 + 4 * d) / 4096) with 1048575 by (apply Z.div_unique with (4 * d); lia).
  replace ((4294963200 + 4 * d) mod 4096) with (4 * d) by (apply Z.mod_unique with 1048575; lia).
  replace (1048575 mod 1024) with 1023 by done.
  change (word s (cr3 s + 4 * 1023)) with (pde s 1023). rewrite (pg_self _ _ H).
  assert (allows wr (Z.lor (cr3 s) PG_DIR_FLAGS) = true) as Ha.
  { unfold allows. rewrite !testbit_entry by (done || lia). rewrite F0, F1. by destruct wr. }
  rewrite Ha, entry_frame by done. simpl negb.
  change (word s (cr3 s + 4 * 1023)) with (pde s 1023). rewrite (pg_self _ _ H), Ha.
  by rewrite entry_frame.
Qed.

Lemma mmu_table s U wr d i :
  pg_ok s U -> 0 <= d < 1023 -> present (pde s d) = true -> 0 <= i < 1024 ->
  mmu wr (pgtable_addr d + 4 * i) s = Some (table s d + 4 * i).
Proof.
  intros H Hd Hp Hi. destruct (pg_dir _ _ H) as [Hc Hm]. destruct pg_dir_flags_bits as (F0 & F1 & F2).
  unfold mmu. rewrite (pg_paging _ _ H). simpl negb.
  rewrite page_dir_index_eq, page_table_index_eq, offset_eq.
  unfold pgtable_addr, PAGING_RECUR_PG_TABLE, KERNEL_PAGE_SIZE.
  replace ((4290772992 + 4096 * d + 4 * i) / 4194304) with 1023
    by (apply Z.div_unique with (4096 * d + 4 * i); lia).
  replace ((4290772992 + 4096 * d + 4 * i) / 4096) with (1047552 + d)
    by (apply Z.div_unique with (4 * i); lia).
  replace ((4290772992 + 4096 * d + 4 * i) mod 4096) with (4 * i)
    by (apply Z.mod_unique with (1047552 + d); lia).
  replace ((1047552 + d) mod 1024) with d by (apply Z.mod_unique with 1023; lia).
  change (word s (cr3 s + 4 * 1023)) with (pde s 1023). rewrite (pg_self _ _ H).
  assert (allows wr (Z.lor (cr3 s) PG_DIR_FLAGS) = true) as Ha.
  { unfold allows. rewrite !testbit_entry by (done || lia). rewrite F0, F1. by destruct wr. }
  rewrite Ha, entry_frame by done. simpl negb.
  change (word s (cr3 s + 4 * d)) with (pde s d).
  assert (allows wr (pde s d) = true) as ->; [|done].
  unfold allows. rewrite (pg_rw _ _ H d Hd Hp). unfold present in Hp. rewrite Hp. by destruct wr.
Qed.

Lemma read_pgdir_run s U d :
  pg_ok s U -> 0 <= d < 1024 -> read_pgdir d s = Ret (pde s d, s).
Proof. intros H Hd. unfold read_pgdir, vread. by rewrite (mmu_dir s U). Qed.

Lemma write_pgdir_run s U d w :
  pg_ok s U -> 0 <= d < 1024 -> write_pgdir d w s = Ret (tt, set_word (cr3 s + 4 * d) w s).
Proof. intros H Hd. unfold write_pgdir, vwrite. by rewrite (mmu_dir s U). Qed.

Lemma read_pgtable_run s U d i :
  pg_ok s U -> 0 <= d < 1023 -> present (pde s d) = true -> 0 <= i < 1024 ->
  read_pgtable d i s = Ret (word s (table s d + 4 * i), s).
Proof. intros. unfold read_pgtable, vread. by rewrite (mmu_table s U). Qed.

Lemma write_pgtable_run s U d i w :
  pg_ok s U -> 0 <= d < 1023 -> present (pde s d) = true -> 0 <= i < 1024 ->
  write_pgtable d i w s = Ret (tt, set_word (table s d + 4 * i) w s).
Proof. intros. unfold write_pgtable, vwrite. by rewrite (mmu_table s U). Qed.

(** ** Updates *)
Lemma word_set a w s b : word (set_word a w s) b = if decide (a = b) then w else word s b.
Proof. unfold word, set_word. simpl. rewrite lookup_insert. by case_decide. Qed.

Lemma word_eq f f' i i' :
  f mod 4096 = 0 -> f' mod 4096 = 0 -> 0 <= i < 1024 -> 0 <= i' < 1024 ->
  f + 4 * i = f' + 4 * i' -> f = f' /\ i = i'.
Proof. intros. pose proof (Z.div_mod f 4096). pose proof (Z.div_mod f' 4096). lia. Qed.

(** Only words of page tables may differ. *)
Record kept s s' : Prop := {
  kept_frames : ps_frames s' = ps_frames s;
  kept_cr3 : cr3 s' = cr3 s;
  kept_pde d : 0 <= d < 1024 -> pde s' d = pde s d;
}.

Lemma kept_refl s : kept s s.
Proof. done. Qed.
Lemma kept_trans s1 s2 s3 : kept s1 s2 -> kept s2 s3 -> kept s1 s3.
Proof. intros [H0 H1 H2] [H0' H3 H4]. split; [congruence..|]. intros d Hd. by rewrite H4, H2. Qed.
Lemma kept_table s s' d : kept s s' -> 0 <= d < 1024 -> table s' d = table s d.
Proof. intros H Hd. unfold table. by rewrite (kept_pde _ _ H). Qed.

(** The same tables with other free frames. *)
Lemma pg_ok_kept s s' U :
  pg_ok s U -> kept s s' -> cr0 s' = cr0 s -> pg_ok s' U.
Proof.
  intros H Hk H0. destruct Hk as [Hf Hc Hp]. assert (forall d, 0 <= d < 1024 -> table s' d = table s d) as Ht
    by (intros d Hd; unfold table; by rewrite Hp).
  destruct H as [P1 P2 P3 P4 P5 P6 P7 P8]. split; rewrite ?H0, ?Hc, ?Hf; try done.
  - by rewrite Hp by lia.
  - intros d Hd. rewrite Hp by lia. by apply P4.
  - intros d Hd. rewrite Hp, Ht by lia. by apply P5.
  - intros d d' Hd Hd'. rewrite !Hp, !Ht by lia. by apply P6.
Qed.

Lemma page_number v d i : 0 <= i < 1024 -> v = 1024 * d + i <-> v / 1024 = d /\ v mod 1024 = i.
Proof.
  intros Hi. pose proof (Z.div_mod v 1024). split; [|lia]. intros ->.
  split; [symmetry; apply Z.div_unique with i; lia|symmetry; apply Z.mod_unique with d; lia].
Qed.

Definition entry_page (w : Z) : option Z := if present w then Some w else None.

(** Pages the tables can hold: those below the recursive window. *)
Definition page_ok (v : Z) : Prop := 0 <= v < 1047552.

Lemma page_ok_dir v : page_ok v -> 0 <= v / 1024 < 1023 /\ 0 <= v mod 1024 < 1024.
Proof.
  intros Hv. unfold page_ok in Hv. pose proof (Z.div_mod v 1024). pose proof (Z.mod_pos_bound v 1024). lia.
Qed.

(** An entry of a table is written. *)
Lemma write_entry s U d i w :
  pg_ok s U -> 0 <= d < 1023 -> present (pde s d) = true -> 0 <= i < 1024 ->
  let s' := set_word (table s d + 4 * i) w s in
  pg_ok s' U /\ kept s s' /\
  forall v, page_ok v -> page s' v = if decide (v = 1024 * d + i) then entry_page w else page s v.
Proof.
  intros H Hd Hp Hi s'. destruct (pg_dir _ _ H) as [Hc Hm]. destruct (table_range s d) as [Ht Htm].
  destruct (pg_table _ _ H d Hd Hp) as (Hne & _ & _).
  assert (kept s s') as Hk.
  { split; [done..|]. intros d' Hd'. unfold pde, s'. rewrite word_set. simpl.
    rewrite decide_False; [done|]. intros [E _]%word_eq; (done || lia). }
  assert (pg_ok s' U) as H' by (by apply (pg_ok_kept s)).
  split; [done|]. split; [done|]. intros v Hv. destruct (page_ok_dir v Hv) as [Hvd Hvi].
  unfold page. rewrite (kept_pde _ _ Hk) by lia.
  destruct (present (pde s (v / 1024))) eqn:Epv; simpl.
  - unfold pte. rewrite (kept_table _ _ _ Hk) by lia. unfold s'. rewrite word_set.
    destruct (table_range s (v / 1024)) as [_ Htv].
    destruct (decide (v = 1024 * d + i)) as [E|E].
    + apply page_number in E as [-> ->]; [|done]. by rewrite decide_True.
    + rewrite decide_False; [done|]. intros [E1 E2]%word_eq; [|done..].
      apply E, page_number; [done|]. split; [|done]. symmetry. by apply (pg_inj _ _ H).
  - destruct (decide (v = 1024 * d + i)) as [E|E]; [|done].
    apply page_number in E as [E _]; [|done]. congruence.
Qed.

Lemma zero_table_run n s U d i :
  pg_ok s U -> 0 <= d < 1023 -> present (pde s d) = true -> 0 <= i -> i + Z.of_nat n <= 1024 ->
  exists s', zero_table n d i s = Ret (tt, s') /\ pg_ok s' U /\ kept s s' /\
    forall v, page_ok v ->
      page s' v = if decide (v / 1024 = d /\ i <= v mod 1024 < i + Z.of_nat n) then None else page s v.
Proof.
  revert s i. induction n as [|n IH]; intros s i H Hd Hp Hi Hn.
  - exists s. split; [done|]. split; [done|]. split; [apply kept_refl|]. intros v Hv.
    by rewrite decide_False by lia.
  - destruct (write_entry s U d i 0 H Hd Hp) as (H1 & Hk1 & Hv1); [lia|].
    set (s1 := set_word (table s d + 4 * i) 0 s) in *.
    destruct (IH s1 (i + 1)) as (s' & Hrun & H' & Hk & Hv'); [done..|by rewrite (kept_pde _ _ Hk1) by lia|lia|lia|].
    exists s'. simpl. rewrite (bind_ret _ _ _ _ _ (write_pgtable_run s U d i 0 H Hd Hp ltac:(lia))).
    split; [done|]. split; [done|]. split; [by eapply kept_trans|]. intros v Hv. rewrite Hv', Hv1 by done.
    destruct (page_ok_dir v Hv). pose proof (Z.div_mod v 1024).
    repeat case_decide; try done; exfalso; lia.
Qed.

(** A directory entry is written. *)
Lemma pde_write s U d w d' :
  pg_ok s U -> 0 <= d < 1024 -> 0 <= d' < 1024 ->
  pde (set_word (cr3 s + 4 * d) w s) d' = if decide (d = d') then w else pde s d'.
Proof.
  intros H Hd Hd'. unfold pde. rewrite word_set. simpl.
  repeat case_decide; try done; exfalso; lia.
Qed.

Lemma page_dir_write s U d w v :
  pg_ok s U -> 0 <= d < 1023 -> page_ok v -> v / 1024 <> d ->
  page (set_word (cr3 s + 4 * d) w s) v = page s v.
Proof.
  intros H Hd Hv Hne. destruct (page_ok_dir v Hv) as [Hvd Hvi]. destruct (pg_dir _ _ H) as [_ Hm].
  unfold page, pte, table. rewrite !(pde_write s U) by (done || lia). rewrite !decide_False by congruence.
  fold (table s (v / 1024)). destruct (present (pde s (v / 1024))) eqn:Ep; [|done].
  destruct (pg_table _ _ H (v / 1024) Hvd Ep) as (Hne' & _). destruct (table_range s (v / 1024)) as [_ Htm].
  rewrite word_set. simpl. rewrite decide_False; [done|]. intros [E _]%word_eq; (done || lia).
Qed.

(** The directory gets a new table, the frame [a]; or loses one. *)
Lemma pg_ok_new_table s U d a :
  pg_ok s U -> 0 <= d < 1023 -> present (pde s d) = false ->
  0 <= a -> a + 4096 < 2 ^ 32 -> a mod 4096 = 0 -> ~ U (a / 4096) ->
  a <> cr3 s -> (forall d', 0 <= d' < 1023 -> present (pde s d') = true -> table s d' <> a) ->
  pg_ok (set_word (cr3 s + 4 * d) (Z.lor a PG_DIR_FLAGS) s) U.
Proof.
  intros H Hd Hp Ha Hhi Hm HU Hc Ht. destruct pg_dir_flags_bits as (F0 & F1 & F2).
  set (s' := set_word _ _ s).
  assert (forall d', 0 <= d' < 1024 -> pde s' d' = if decide (d = d') then Z.lor a PG_DIR_FLAGS else pde s d')
    as Hpde by (intros; by apply (pde_write s U); [|lia|]).
  assert (forall d', 0 <= d' < 1024 -> table s' d' = if decide (d = d') then a else table s d') as Htab.
  { intros d' Hd'. unfold table. rewrite Hpde by lia. case_decide; [apply entry_frame; (done || lia)|done]. }
  pose proof H as [P1 P2 P3 P4 P5 P6 P7 P8]. split; try done.
  - rewrite Hpde by lia. by rewrite decide_False by lia.
  - intros d' Hd'. rewrite Hpde by lia. case_decide; [intros _; by rewrite testbit_entry by lia|by apply P4].
  - intros d' Hd'. rewrite Hpde, Htab by lia. case_decide; [intros _; split_and!; done|by apply P5].
  - intros d1 d2 H1 H2. rewrite !Hpde, !Htab by lia.
    repeat case_decide; subst; try done; intros E1 E2 E; [by apply Ht in E2|by apply Ht in E1|by apply P6].
Qed.

Lemma pg_ok_drop_table s U V d f :
  pg_ok s U -> 0 <= d < 1023 -> present (pde s d) = true ->
  frames_rep f V -> (forall k, V k -> U k \/ k = table s d / 4096) ->
  pg_ok (set_word (cr3 s + 4 * d) 0 (with_ps_frames f s)) V.
Proof.
  intros H Hd Hp Hf HV. set (s' := set_word _ _ _).
  assert (forall d', 0 <= d' < 1024 -> pde s' d' = if decide (d = d') then 0 else pde s d')
    as Hpde by (intros; by apply (pde_write s U); [|lia|]).
  assert (forall d', 0 <= d' < 1024 -> d <> d' -> table s' d' = table s d') as Htab.
  { intros d' Hd' Hne. unfold table. rewrite Hpde by lia. by rewrite decide_False. }
  assert (forall a, a mod 4096 = 0 -> a / 4096 = table s d / 4096 -> a = table s d) as Hdiv.
  { intros a Ha E. destruct (table_range s d) as [_ Hm]. pose proof (Z.div_mod a 4096).
    pose proof (Z.div_mod (table s d) 4096). lia. }
  pose proof H as [P1 P2 P3 P4 P5 P6 P7 P8]. destruct (P5 d Hd Hp) as (T1 & T2 & T3). split; try done.
  - rewrite Hpde by lia. by rewrite decide_False by lia.
  - intros d' Hd'. rewrite Hpde by lia. case_decide; [done|by apply P4].
  - intros d' Hd'. rewrite Hpde by lia. case_decide as E; [done|]. intros Hp'. rewrite Htab by (done || lia).
    destruct (P5 d' Hd' Hp') as (Q1 & Q2 & Q3). split_and!; try done.
    intros [Hu|Hu]%HV; [done|]. apply Hdiv in Hu; [|apply table_range]. by apply P6 in Hu.
  - intros d1 d2 H1 H2. rewrite !Hpde by lia. repeat case_decide; try done.
    rewrite !Htab by (done || lia). by apply P6.
  - simpl. intros [Hu|Hu]%HV; [done|]. apply Hdiv in Hu; [congruence|apply P2].
Qed.

(** The same tables with other free frames. *)
Lemma pg_ok_frames s U V f :
  pg_ok s U -> frames_rep f V -> ~ V (cr3 s / 4096) ->
  (forall d, 0 <= d < 1023 -> present (pde s d) = true -> ~ V (table s d / 4096)) ->
  pg_ok (with_ps_frames f s) V.
Proof.
  intros [P1 P2 P3 P4 P5 P6 P7 P8] Hf Hc Ht. split; try done.
  intros d Hd Hp. destruct (P5 d Hd Hp) as (? & ? & _). split_and!; [done|done|by apply Ht].
Qed.
End Tables.
