(* ===== verification/PagingMap.v ===== *)
(** * Mapping pages

    The execution of [kernel_mmap_internal] and of the frame operations it
    calls, as changes of the map of pages of [PagingSpec]. *)
From stdpp Require Import functions.
From S2P Require Import Prelude Critical Interrupts Frames FaultHandlers Paging PagingSpec.

Section Operations.
Context {fops : FrameOps} `{!FrameSpec fops} (e : cpu_env).
Implicit Types (t : kstate pstore) (s : pstore) (U : Z -> Prop).

(** Inside a section on the lock of the file, entered from [t0]. *)
Definition inside_paging t0 t : Prop :=
  lock_free PagingLock t0 /\ lock_free MemallocLock t0 /\ in_section e PagingLock t0 t.

Lemma inside_flag t0 t : inside_paging t0 t -> flag_ok t.
Proof. intros (_ & _ & H). left. apply H. Qed.
Lemma inside_memalloc t0 t : inside_paging t0 t -> lock_free MemallocLock t.
Proof. intros (_ & Hm & H). by apply (section_free e PagingLock MemallocLock t0). Qed.
Lemma inside_moves t0 t t' : inside_paging t0 t -> same_locks t t' -> inside_paging t0 t'.
Proof. intros (H1 & H2 & H) Hs. split_and!; [done|done|by eapply section_moves]. Qed.
Lemma inside_core t0 t s : inside_paging t0 t -> inside_paging t0 (with_core s t).
Proof. intros (H1 & H2 & H). split_and!; [done|done|by apply section_core]. Qed.

(** ** Frames *)
Lemma alloc_run t U n :
  flag_ok t -> lock_free MemallocLock t -> pg_ok (core t) U -> links_ok (ps_frames (core t)) ->
  0 < n < 2 ^ 20 ->
  exists t', same_locks t t' /\
  (memalloc_alloc_kframes e n t = Ret ((NULL, OS_ERR_NO_MORE_FREE_MEM), t') /\ core t' = core t /\ no_block U n \/
   exists a f, memalloc_alloc_kframes e n t = Ret ((a, OS_NO_ERR), t') /\
     core t' = with_ps_frames f (core t) /\ links_ok f /\
     0 <= a /\ a mod 4096 = 0 /\ a + 4096 * n < 2 ^ 32 /\ (forall k, block a n k -> U k) /\
     pg_ok (core t') (fun k => U k /\ ~ block a n k)).
Proof.
  intros Hfl Hm H Hl Hn. unfold memalloc_alloc_kframes.
  destruct (alloc_kframes_spec _ U n (pg_frames _ _ H) Hl Hn)
    as [[Hrun Hno]|(a & f & Hrun & H1 & H2 & H3 & H4 & H5 & H6)].
  - assert (zoom ps_frames with_ps_frames (alloc_kframes n) (core t) =
      Ret ((NULL, OS_ERR_NO_MORE_FREE_MEM), core t)) as Hz
      by (unfold zoom; rewrite Hrun; by destruct (core t)).
    destruct (critical_lift e MemallocLock _ t _ _ Hfl Hm Hz) as (t' & Ht & Hc & Hs).
    exists t'. split; [done|]. by left.
  - assert (zoom ps_frames with_ps_frames (alloc_kframes n) (core t) =
      Ret ((a, OS_NO_ERR), with_ps_frames f (core t))) as Hz by (unfold zoom; by rewrite Hrun).
    destruct (critical_lift e MemallocLock _ t _ _ Hfl Hm Hz) as (t' & Ht & Hc & Hs).
    exists t'. split; [done|]. right. exists a, f. split_and!; try done. rewrite Hc.
    apply (pg_ok_frames _ U); [done|done|intros [Hu _]; by apply (pg_free_dir _ _ H)|].
    intros d Hd Hp [Hu _]. by destruct (pg_table _ _ H d Hd Hp) as (_ & _ & Ht').
Qed.

(** The free frames after the release of a block that returned [err]. *)
Definition given_back U err (a n k : Z) : Prop := U k \/ err = OS_NO_ERR /\ block a n k.

(** A release finds the pool empty and faults, or is refused for want of
    memory, or adds the block to the pool. *)
Lemma free_run t U a n :
  flag_ok t -> lock_free MemallocLock t -> frames_rep (ps_frames (core t)) U ->
  0 <= a -> a mod 4096 = 0 -> 0 < n -> a + 4096 * n < 2 ^ 32 -> (forall k, block a n k -> ~ U k) ->
  memalloc_free_kframes e a n t = Fault /\ (forall k, ~ U k) \/
  exists err t' f, memalloc_free_kframes e a n t = Ret (err, t') /\ same_locks t t' /\
    core t' = with_ps_frames f (core t) /\ free_kframes a n (ps_frames (core t)) = Ret (err, f) /\
    (err = OS_NO_ERR \/ err = OS_ERR_MALLOC) /\ frames_rep f (given_back U err a n).
Proof.
  intros Hfl Hm HR Ha Hma Hn Hhi Hu. unfold memalloc_free_kframes.
  set (m := zoom ps_frames with_ps_frames (free_kframes a n)).
  assert (forall err f, free_kframes a n (ps_frames (core t)) = Ret (err, f) ->
    exists t', critical e MemallocLock (lift m) t = Ret (err, t') /\ same_locks t t' /\
      core t' = with_ps_frames f (core t)) as Hrun.
  { intros err f Hf. assert (m (core t) = Ret (err, with_ps_frames f (core t))) as Hz by (unfold m, zoom; by rewrite Hf).
    destruct (critical_lift e MemallocLock _ t _ _ Hfl Hm Hz) as (t' & Ht & Hc & Hs). by exists t'. }
  destruct (free_kframes_spec _ U a n HR Ha Hma Hn Hhi Hu) as [[Hf He]|[Hf|(f & Hf & HV)]].
  - left. split; [|done]. unfold critical. rewrite (bind_ret _ _ _ _ _ (enter_run e _ t Hm)).
    unfold bind, lift, m, zoom. change (core (inside e MemallocLock t)) with (core t). by rewrite Hf.
  - right. destruct (Hrun _ _ Hf) as (t' & H1 & H2 & H3). exists OS_ERR_MALLOC, t', (ps_frames (core t)).
    split_and!; try done; [by right|]. apply (frames_ext _ U); [|done]. unfold given_back. naive_solver.
  - right. destruct (Hrun _ _ Hf) as (t' & H1 & H2 & H3). exists OS_NO_ERR, t', f.
    split_and!; try done; [by left|]. eapply frames_ext; [|exact HV]. unfold given_back. naive_solver.
Qed.

(** ** Mapping *)

(** The frame of a page table of [s'] that [s] does not have. *)
Definition new_table s s' (k : Z) : Prop :=
  exists d, 0 <= d < 1023 /\ present (pde s d) = false /\ present (pde s' d) = true /\ k = table s' d / 4096.

(** The page tables of [s] are still there; the new ones, for entries of the
    directory in [D], were free frames, and are the only frames that are no
    longer free. *)
Record more_tables (D : Z -> Prop) s U s' (V : Z -> Prop) : Prop := {
  mt_cr3 : cr3 s' = cr3 s;
  mt_old d : 0 <= d < 1023 -> present (pde s d) = true -> present (pde s' d) = true /\ table s' d = table s d;
  mt_new d : 0 <= d < 1023 -> present (pde s' d) = true -> present (pde s d) = true \/ D d /\ U (table s' d / 4096);
  mt_frames k : V k <-> U k /\ ~ new_table s s' k
}.

Lemma more_tables_refl D s U : more_tables D s U s U.
Proof. split; auto. intros k. split; [|tauto]. intros Hk. split; [done|]. intros (d & _ & H1 & H2 & _). congruence. Qed.

Lemma more_tables_kept D s U s1 s2 V : more_tables D s U s1 V -> kept s1 s2 -> more_tables D s U s2 V.
Proof.
  intros [H1 H2 H3 H4] Hk. split.
  - rewrite (kept_cr3 _ _ Hk). done.
  - intros d Hd. rewrite (kept_pde _ _ Hk), (kept_table _ _ _ Hk) by lia. by apply H2.
  - intros d Hd. rewrite (kept_pde _ _ Hk), (kept_table _ _ _ Hk) by lia. by apply H3.
  - intros k. rewrite H4. unfold new_table. split; intros [HU Hn]; (split; [done|]); intros (d & Hd & P1 & P2 & E);
      apply Hn; exists d; rewrite ?(kept_pde _ _ Hk), ?(kept_table _ _ _ Hk) in * by lia; done.
Qed.

Lemma more_tables_less D s U s' V : more_tables D s U s' V -> forall k, V k -> U k.
Proof. intros H k Hk. by apply (mt_frames _ _ _ _ _ H) in Hk as [? _]. Qed.

Lemma more_tables_weak (D D' : Z -> Prop) s U s' V :
  (forall d, D d -> D' d) -> more_tables D s U s' V -> more_tables D' s U s' V.
Proof.
  intros HD [H1 H2 H3 H4]. split; try done. intros d Hd Hp. destruct (H3 d Hd Hp) as [?|[? ?]]; auto.
Qed.

Lemma more_tables_trans D s1 U V W s2 s3 :
  more_tables D s1 U s2 V -> more_tables D s2 V s3 W -> more_tables D s1 U s3 W.
Proof.
  intros H12 H23. pose proof (more_tables_less _ _ _ _ _ H12) as HV.
  destruct H12 as [H1 H2 H3 H4], H23 as [H5 H6 H7 H8]. split.
  - congruence.
  - intros d Hd Hp. destruct (H2 d Hd Hp) as [Hp2 <-]. by apply H6.
  - intros d Hd Hp. destruct (H7 d Hd Hp) as [Hp2|[? ?]]; [|right; auto].
    destruct (H6 d Hd Hp2) as [_ ->]. by apply H3.
  - intros k. rewrite H8, H4. split.
    + intros [[Hu Hn1] Hn2]. split; [done|]. intros (d & Hd & Hp1 & Hp3 & E).
      destruct (present (pde s2 d)) eqn:Hp2.
      * apply Hn1. exists d. destruct (H6 d Hd Hp2) as [_ Ht]. by rewrite Ht in E.
      * apply Hn2. by exists d.
    + intros [Hu Hn]. split; [split; [done|]|]; intros (d & Hd & Hp1 & Hp3 & E); apply Hn; exists d.
      * destruct (H6 d Hd Hp3) as [Hp ->]. done.
      * destruct (present (pde s1 d)) eqn:Hp0; [|done]. destruct (H2 d Hd Hp0) as [Hp _]. congruence.
Qed.

Lemma ensure_table_run t0 t U d :
  inside_paging t0 t -> pg_ok (core t) U -> links_ok (ps_frames (core t)) -> 0 <= d < 1023 ->
  exists err t' V, ensure_table e d t = Ret (err, t') /\ inside_paging t0 t' /\
    pg_ok (core t') V /\ links_ok (ps_frames (core t')) /\
    (forall v, page_ok v -> page (core t') v = page (core t) v) /\
    more_tables (eq d) (core t) U (core t') V /\
    (err = OS_NO_ERR /\ present (pde (core t') d) = true \/
     err = OS_ERR_NO_MORE_FREE_MEM /\ core t' = core t /\ present (pde (core t) d) = false /\ (forall k, ~ V k)).
Proof.
  intros Hin H Hl Hd. unfold ensure_table.
  rewrite (exec_lift_read _ _ _ _ (read_pgdir_run _ _ d H ltac:(lia))).
  destruct (present (pde (core t) d)) eqn:Hp.
  { rewrite decide_False by (unfold present in Hp; rewrite land_present, Hp; done).
    exists OS_NO_ERR, t, U. split_and!; try done; [apply more_tables_refl|by left]. }
  rewrite decide_True by (by apply land_present).
  destruct (alloc_run t U 1 (inside_flag _ _ Hin) (inside_memalloc _ _ Hin) H Hl)
    as (t1 & Hs1 & [(Hrun & Hc & Hno)|(a & f & Hrun & Hc & Hlf & Ha & Hma & Hhi & HU & H1)]); [lia| |];
    rewrite (bind_ret _ _ _ _ _ Hrun); cbv beta iota.
  { rewrite decide_True by done. exists OS_ERR_NO_MORE_FREE_MEM, t1, U.
    split_and!; rewrite ?Hc; try done; [by eapply inside_moves|apply more_tables_refl|].
    right. split_and!; [done|done|done|by apply no_block_one]. }
  rewrite decide_False by tauto.
  assert (U (a / 4096)) as HUa by (apply HU; unfold block; lia).
  assert (forall b, b mod 4096 = 0 -> ~ U (b / 4096) -> b <> a) as Hneq by (intros b _ Hb ->; done).
  pose proof (pg_dir _ _ H) as [_ Hmc].
  set (V := fun k => U k /\ ~ block a 1 k) in *.
  assert (pg_ok (set_word (cr3 (core t1) + 4 * d) (Z.lor a PG_DIR_FLAGS) (core t1)) V) as H2.
  { rewrite Hc in H1 |- *. apply pg_ok_new_table; try done.
    - intros [_ Hb]. apply Hb. unfold block. lia.
    - apply not_eq_sym, Hneq; [done|apply (pg_free_dir _ _ H)].
    - intros d' Hd' Hp'. apply Hneq; [apply table_range|].
      by destruct (pg_table _ _ H d' Hd' Hp') as (_ & _ & ?). }
  rewrite (exec_lift _ _ _ _ _ (write_pgdir_run _ _ d (Z.lor a PG_DIR_FLAGS) H1 ltac:(lia))).
  set (s2 := set_word _ _ (core t1)) in *.
  assert (present (pde s2 d) = true) as Hp2.
  { unfold s2. rewrite (pde_write _ V) by (done || lia). rewrite decide_True by done.
    unfold present. rewrite testbit_entry by (done || lia). apply pg_dir_flags_bits. }
  destruct (zero_table_run (Z.to_nat KERNEL_PGDIR_SIZE) s2 V d 0 H2 Hd Hp2)
    as (s3 & Hz & H3 & Hk & Hv); [lia|done|].
  rewrite (exec_lift _ _ _ tt s3) by exact Hz.
  eexists OS_NO_ERR, _, V. split; [done|]. split_and!; try done.
  - by apply inside_core, inside_core, (inside_moves t0 t).
  - simpl. rewrite (kept_frames _ _ Hk). simpl. by rewrite Hc.
  - intros v Hv0. simpl. rewrite Hv by done. destruct (page_ok_dir v Hv0).
    change (0 + Z.of_nat (Z.to_nat KERNEL_PGDIR_SIZE)) with 1024. case_decide as Hvd.
    + unfold page. destruct Hvd as [-> _]. by rewrite Hp.
    + unfold s2. rewrite (page_dir_write _ V) by (done || lia). by rewrite Hc.
  - apply (more_tables_kept _ _ _ s2); [|done].
    assert (forall d', 0 <= d' < 1024 ->
      pde s2 d' = if decide (d = d') then Z.lor a PG_DIR_FLAGS else pde (core t) d') as Hpde
      by (intros d' Hd'; unfold s2; rewrite (pde_write _ V) by (done || lia); by rewrite Hc).
    assert (table s2 d = a) as Htd.
    { unfold table. rewrite Hpde, decide_True by (done || lia). by rewrite entry_frame by (done || lia). }
    split; [change (cr3 (core t1) = cr3 (core t)); by rewrite Hc| | |].
    + intros d' Hd' Hp'. unfold table. rewrite Hpde by lia. case_decide; [congruence|done].
    + intros d' Hd'. destruct (decide (d = d')) as [<-|Hne]; [right; by rewrite Htd|].
      rewrite Hpde, decide_False by (done || lia). by left.
    + intros k. unfold V. assert (block a 1 k <-> new_table (core t) s2 k) as ->; [|done].
      unfold block. split.
      * intros Hkb. exists d. split_and!; [lia|lia|done|done|]. rewrite Htd. lia.
      * intros (d' & Hd' & Hp' & Hp2' & ->). rewrite Hpde in Hp2' by lia.
        destruct (decide (d = d')) as [<-|]; [|congruence]. rewrite Htd. lia.
  - left. split; [done|]. simpl. by rewrite (kept_pde _ _ Hk) by lia.
Qed.

(** The address of the page [v]. *)
Lemma page_indices v : page_dir_index (4096 * v) = v / 1024 /\ page_table_index (4096 * v) = v mod 1024.
Proof.
  rewrite page_dir_index_eq, page_table_index_eq. rewrite (Z.mul_comm 4096 v), Z.div_mul by lia.
  split; [|done]. change 4194304 with (1024 * 4096). by rewrite Z.div_mul_cancel_r by lia.
Qed.

(** The number of pages of a region of [size] bytes that starts a page. *)
Definition pages_of (size : Z) : Z := (size + 4095) / 4096.

Lemma pages_of_0 size : 0 <= size -> (size = 0 <-> pages_of size = 0) /\ 0 <= pages_of size.
Proof. unfold pages_of. intros H. div_lia. Qed.

Lemma pages_of_less size : 0 < size -> pages_of (less_page size) = pages_of size - 1 /\ 0 <= less_page size.
Proof. unfold pages_of, less_page, KERNEL_PAGE_SIZE. intros H. case_decide; div_lia. Qed.

Lemma page_fuel_enough size : 0 <= size -> (Z.to_nat (pages_of size) < page_fuel size)%nat.
Proof. unfold pages_of, page_fuel, KERNEL_PAGE_SIZE. intros H. div_lia. Qed.

Lemma next_page v : 0 <= v < 1048575 -> u32 (4096 * v + KERNEL_PAGE_SIZE) = 4096 * (v + 1).
Proof. intros H. unfold KERNEL_PAGE_SIZE. rewrite u32_small by lia. lia. Qed.

Lemma is_mapped_loop_run fuel s U v size :
  pg_ok s U -> 0 <= size -> (Z.to_nat (pages_of size) < fuel)%nat -> 0 <= v ->
  v + pages_of size <= 1047552 ->
  is_mapped_loop fuel (4096 * v) size s = Ret (0, s) /\
    (forall x, v <= x < v + pages_of size -> page s x = None) \/
  is_mapped_loop fuel (4096 * v) size s = Ret (1, s) /\
    (exists x, v <= x < v + pages_of size /\ page s x <> None).
Proof.
  revert v size. induction fuel as [|fuel IH]; intros v size H Hsz Hf Hv Hend; [lia|].
  destruct (pages_of_0 size Hsz) as [H0 Hnn]. simpl.
  destruct (decide (size = 0)) as [E|E]; [left; split; [done|]; lia|].
  destruct (pages_of_less size) as [Hless Hl0]; [lia|].
  assert (page_ok v) as Hpv by (unfold page_ok; lia). destruct (page_ok_dir v Hpv) as [Hd Hi].
  destruct (page_indices v) as [-> ->].
  rewrite (bind_ret _ _ _ _ _ (read_pgdir_run s U (v / 1024) H ltac:(lia))).
  assert (page s v <> None -> exists x, v <= x < v + pages_of size /\ page s x <> None) as Hhit
    by (intros Hn; exists v; split; [lia|done]).
  assert (page s v = None ->
    is_mapped_loop fuel (u32 (4096 * v + KERNEL_PAGE_SIZE)) (less_page size) s = Ret (0, s) /\
      (forall x, v <= x < v + pages_of size -> page s x = None) \/
    is_mapped_loop fuel (u32 (4096 * v + KERNEL_PAGE_SIZE)) (less_page size) s = Ret (1, s) /\
      (exists x, v <= x < v + pages_of size /\ page s x <> None)) as Hmiss.
  { intros Hn. rewrite next_page by lia.
    destruct (IH (v + 1) (less_page size)) as [[Hr Hx]|[Hr (x & Hx & Hpx)]]; try done; try lia.
    - left. split; [done|]. intros x Hx'. destruct (decide (x = v)) as [->|]; [done|]. apply Hx. lia.
    - right. split; [done|]. exists x. split; [lia|done]. }
  unfold page at 1 in Hmiss. unfold page at 1 in Hhit.
  destruct (present (pde s (v / 1024))) eqn:Hp.
  - rewrite decide_True by (rewrite land_present; unfold present in Hp; by rewrite Hp).
    rewrite bind_assoc.
    rewrite (bind_ret _ _ _ _ _ (read_pgtable_run s U (v / 1024) (v mod 1024) H Hd Hp Hi)).
    change (word s (table s (v / 1024) + 4 * (v mod 1024))) with (pte s v).
    unfold present in Hmiss, Hhit. cbn [andb] in Hmiss, Hhit. rewrite bind_ret_l.
    destruct (Z.testbit (pte s v) 0) eqn:Hb.
    + rewrite bool_decide_true by (rewrite land_present, Hb; done). right. split; [done|]. by apply Hhit.
    + rewrite bool_decide_false by (rewrite land_present, Hb; tauto). by apply Hmiss.
  - rewrite decide_False by (rewrite land_present; unfold present in Hp; rewrite Hp; tauto).
    rewrite bind_ret_l. by apply Hmiss.
Qed.

(** The entries of the directory for [n] pages from [v] on. *)
Definition entries_of (v n d : Z) : Prop := exists x, v <= x < v + n /\ d = x / 1024.

(** Mapping page after page: [k] pages are mapped, all of them unless there
    is no frame for a page table. *)
Lemma map_loop_run fuel t0 t U fl v p size :
  inside_paging t0 t -> pg_ok (core t) U -> links_ok (ps_frames (core t)) ->
  0 <= fl < 4096 -> Z.testbit fl 0 = true -> 0 <= size -> (Z.to_nat (pages_of size) < fuel)%nat ->
  0 <= v -> v + pages_of size <= 1047552 -> 0 <= p -> p + pages_of size < 2 ^ 20 ->
  exists err t' V k, map_loop e fuel fl (4096 * v) (4096 * p) size t = Ret (err, t') /\
    inside_paging t0 t' /\ pg_ok (core t') V /\ links_ok (ps_frames (core t')) /\
    (err = OS_NO_ERR /\ k = pages_of size \/
     err = OS_ERR_NO_MORE_FREE_MEM /\ 0 <= k < pages_of size /\
       present (pde (core t) ((v + k) / 1024)) = false /\ (forall j, ~ V j)) /\
    more_tables (entries_of v (pages_of size)) (core t) U (core t') V /\
    forall x, page_ok x -> page (core t') x =
      if decide (v <= x < v + k) then Some (4096 * (p + (x - v)) + fl) else page (core t) x.
Proof.
  revert t U v p size. induction fuel as [|fuel IH];
    intros t U v p size Hin H Hl Hfl Hb Hsz Hf Hv Hend Hp Hpend; [lia|].
  destruct (pages_of_0 size Hsz) as [H0 Hnn]. simpl.
  destruct (decide (size = 0)) as [E|E].
  { exists OS_NO_ERR, t, U, 0. split_and!; try done; [left; split; [done|lia]|apply more_tables_refl|].
    intros x _. by rewrite decide_False by lia. }
  destruct (pages_of_less size) as [Hless Hl0]; [lia|].
  assert (page_ok v) as Hpv by (unfold page_ok; lia). destruct (page_ok_dir v Hpv) as [Hd Hi].
  destruct (page_indices v) as [-> ->].
  destruct (ensure_table_run t0 t U (v / 1024) Hin H Hl Hd)
    as (err & t1 & V & Hrun & Hin1 & H1 & Hl1 & Hpg & Hmore & [[-> Hpr]|(-> & Hc & Hnp & He)]);
    rewrite (bind_ret _ _ _ _ _ Hrun).
  2: { rewrite decide_True by done. exists OS_ERR_NO_MORE_FREE_MEM, t1, V, 0.
    split_and!; try done; [right; split_and!; [done|lia|lia|by rewrite Z.add_0_r|done]
      |eapply more_tables_weak; [|exact Hmore]; intros d <-; exists v; split; [lia|done]|].
    intros x _. by rewrite Hc, decide_False by lia. }
  rewrite decide_False by tauto.
  rewrite (exec_lift _ _ _ _ _ (write_pgtable_run _ V (v / 1024) (v mod 1024) _ H1 Hd Hpr Hi)).
  destruct (write_entry _ V (v / 1024) (v mod 1024) (Z.lor (4096 * p) fl) H1 Hd Hpr Hi)
    as (H2 & Hk2 & Hv2).
  set (s2 := set_word _ _ (core t1)) in *.
  rewrite (next_page v), (next_page p) by lia.
  destruct (IH (with_core s2 t1) V (v + 1) (p + 1) (less_page size))
    as (err & t' & V' & k & Hrun' & Hin' & H' & Hl' & Hr & Hmore' & Hx); try done; try lia.
  { by apply inside_core. }
  exists err, t', V', (k + 1). split_and!; try done; [|
    eapply more_tables_trans; [eapply more_tables_kept; [|exact Hk2];
      eapply more_tables_weak; [|exact Hmore]; intros d <-; exists v; split; [lia|done]
      |eapply more_tables_weak; [|exact Hmore']; intros d (x & Hx1 & ->); exists x; split; [lia|done]]|].
  { destruct Hr as [[-> ->]|(-> & Hkr & Hny & He)]; [left; split; [done|lia]|right].
    split_and!; [done|lia|lia| |done]. replace (v + 1 + k) with (v + (k + 1)) in Hny by lia.
    destruct (present (pde (core t) ((v + (k + 1)) / 1024))) eqn:Ep; [|done].
    destruct (page_ok_dir (v + (k + 1))) as [Hyd _]; [unfold page_ok; lia|].
    apply (mt_old _ _ _ _ _ Hmore) in Ep as [Ep _]; [|done]. simpl in Hny. rewrite (kept_pde _ _ Hk2) in Hny by lia. congruence. }
  intros x Hpx. rewrite Hx by done. simpl. rewrite Hv2 by done.
  rewrite <- (proj2 (page_number v (v / 1024) (v mod 1024) Hi)) by done.
  assert (0 <= k) by (destruct Hr as [[_ ->]|(_ & Hk & _)]; lia). unfold entry_page, present.
  destruct (decide (x = v)) as [->|Hne].
  - rewrite decide_False, decide_True by lia. rewrite testbit_entry by (done || lia || (rewrite Z.mul_comm; by apply Z.mod_mul)).
    rewrite Hb, lor_low by (done || (rewrite Z.mul_comm; by apply Z.mod_mul)). f_equal. lia.
  - rewrite Hpg by done. repeat case_decide; try done; try (f_equal; lia); exfalso; lia.
Qed.

(** ** A region of virtual memory *)

(** The pages of [size] bytes at [va], below the recursive window. *)
Definition region (va size : Z) : Prop := 0 <= va /\ 0 < size /\ va + size <= PAGING_RECUR_PG_TABLE.
Definition region_pages (va size : Z) : Z := pages_of (size + va mod 4096).
Definition in_region (va size x : Z) : Prop := va / 4096 <= x < va / 4096 + region_pages va size.
Definition region_entries (va size : Z) : Z -> Prop := entries_of (va / 4096) (region_pages va size).

Lemma region_bounds va size :
  region va size -> 0 <= va / 4096 /\ va / 4096 + region_pages va size <= 1047552 /\
    0 < region_pages va size.
Proof.
  unfold region, region_pages, pages_of, PAGING_RECUR_PG_TABLE. intros (H1 & H2 & H3). div_lia.
Qed.

Lemma region_start va : 0 <= va < 2 ^ 32 -> Z.land va PAGE_ALIGN_MASK = 4096 * (va / 4096).
Proof. intros H. change PAGE_ALIGN_MASK with PG_ENTRY_MASK. rewrite land_mask by done. div_lia. Qed.

Lemma page_flags_ok ro cache hw :
  0 <= page_flags ro cache hw < 4096 /\ Z.testbit (page_flags ro cache hw) 0 = true.
Proof. unfold page_flags. repeat case_decide; by vm_compute. Qed.

(** A caller's state. *)
Definition paging_ready t U : Prop :=
  flag_ok t /\ lock_free PagingLock t /\ lock_free MemallocLock t /\ pg_ok (core t) U /\
  links_ok (ps_frames (core t)).

(** What [kernel_mmap_internal] has done when it returns [err] after [k] pages. *)
Definition mapped_pages t va pa fl k t' : Prop :=
  forall x, page_ok x -> page (core t') x =
    if decide (va / 4096 <= x < va / 4096 + k) then Some (4096 * (pa / 4096 + (x - va / 4096)) + fl)
    else page (core t) x.

Lemma paging_inside t U : paging_ready t U -> inside_paging t (inside e PagingLock t).
Proof. intros (_ & Hl & Hm & _). split_and!; [done|done|by apply enter_section]. Qed.

Lemma is_mapped_run t U va size :
  paging_ready t U -> region va size ->
  exists r t1, is_mapped e (4096 * (va / 4096)) (size + va mod 4096) (inside e PagingLock t) = Ret (r, t1) /\
    inside_paging t t1 /\ core t1 = core t /\
    (r = 0 /\ (forall x, in_region va size x -> page (core t) x = None) \/
     r = 1 /\ (exists x, in_region va size x /\ page (core t) x <> None)).
Proof.
  intros HR Hr. destruct (region_bounds _ _ Hr) as (Hv & Hend & Hpos).
  pose proof (paging_inside _ _ HR) as Hin. destruct HR as (Hfl & Hlk & Hm & H & Hl).
  unfold region, PAGING_RECUR_PG_TABLE in Hr. unfold is_mapped.
  rewrite region_start by div_lia.
  replace (4096 * (va / 4096) / 4096) with (va / 4096) by (rewrite Z.mul_comm, Z.div_mul; lia).
  rewrite Z.sub_diag, Z.add_0_r, u32_small by div_lia.
  assert (forall a s', is_mapped_loop (page_fuel (size + va mod 4096)) (4096 * (va / 4096))
      (size + va mod 4096) (core t) = Ret (a, s') ->
    exists t1, critical e PagingLock (lift (is_mapped_loop (page_fuel (size + va mod 4096))
      (4096 * (va / 4096)) (size + va mod 4096))) (inside e PagingLock t) = Ret (a, t1) /\
      core t1 = s' /\ in_section e PagingLock t t1) as Hcrit
    by (intros a s' Hrun; apply nested_section; [done|by apply Hin|done]).
  destruct (is_mapped_loop_run (page_fuel (size + va mod 4096)) (core t) U (va / 4096) (size + va mod 4096))
    as [[Hrun Hx]|[Hrun Hx]]; [done|div_lia|apply page_fuel_enough; div_lia|done|done|..];
    destruct (Hcrit _ _ Hrun) as (t1 & Ht & Hc & Hs); eexists _, t1; (split; [exact Ht|]);
    (split; [split_and!; done|]); (split; [done|]); auto.
Qed.

Lemma mmap_internal_run t U va pa size ro cache hw :
  paging_ready t U -> region va size -> 0 <= pa -> pa / 4096 + region_pages va size < 2 ^ 20 ->
  (exists x, in_region va size x /\ page (core t) x <> None) /\
    (exists t', kernel_mmap_internal e va pa size ro cache hw t =
       Ret (OS_ERR_MAPPING_ALREADY_EXISTS, t') /\ core t' = core t /\ in_section e PagingLock t t') \/
  (forall x, in_region va size x -> page (core t) x = None) /\
    (exists err t' V k, kernel_mmap_internal e va pa size ro cache hw t = Ret (err, t') /\
       paging_ready t' V /\ same_locks t t' /\
       (err = OS_NO_ERR /\ k = region_pages va size \/
        err = OS_ERR_NO_MORE_FREE_MEM /\ 0 <= k < region_pages va size /\
          present (pde (core t) ((va / 4096 + k) / 1024)) = false /\ (forall j, ~ V j)) /\
       more_tables (region_entries va size) (core t) U (core t') V /\
       mapped_pages t va pa (page_flags ro cache hw) k t').
Proof.
  intros HR Hr Hpa Hpend. destruct (region_bounds _ _ Hr) as (Hv & Hend & Hpos).
  destruct (is_mapped_run t U va size HR Hr) as (r & t1 & Hrun & Hin & Hc & Hres).
  pose proof HR as (Hfl & Hlk & Hm & H & Hl).
  unfold region, PAGING_RECUR_PG_TABLE in Hr. unfold kernel_mmap_internal.
  rewrite (bind_ret _ _ _ _ _ (enter_run e PagingLock t Hlk)).
  rewrite (region_start va), (region_start pa) by div_lia.
  replace (u32 (size + (va - 4096 * (va / 4096)))) with (size + va mod 4096)
    by (rewrite u32_small by div_lia; div_lia).
  rewrite (bind_ret _ _ _ _ _ Hrun). destruct Hres as [[-> Hnone]|[-> Hsome]]; [right|left].
  2: { rewrite decide_True by done. split; [done|]. exists t1. split_and!; [done|done|apply Hin]. }
  split; [done|]. rewrite decide_False by tauto.
  destruct (page_flags_ok ro cache hw) as [Hf1 Hf2].
  destruct (map_loop_run (page_fuel (size + va mod 4096)) t t1 U (page_flags ro cache hw)
    (va / 4096) (pa / 4096) (size + va mod 4096)) as
    (err & t2 & V & k & Hrun2 & Hin2 & H2 & Hl2 & Hres & Hmore & Hpg);
    try (by rewrite Hc); try done; [div_lia|apply page_fuel_enough; div_lia|div_lia|].
  rewrite (bind_ret _ _ _ _ _ Hrun2).
  destruct (exit_section e PagingLock t t2 Hfl Hlk) as (t3 & Hx & Hc3 & Hs); [apply Hin2|].
  rewrite (bind_ret _ _ _ _ _ Hx). exists err, t3, V, k. split; [done|].
  rewrite Hc in Hpg, Hres, Hmore. split_and!; try done; [|by rewrite Hc3|].
  - unfold paging_ready. rewrite Hc3.
    split_and!; [by eapply same_locks_flag|by eapply same_locks_free|by eapply same_locks_free|done..].
  - intros x Hx'. rewrite Hc3. by apply Hpg.
Qed.

End Operations.
