(* ===== verification/PagingTheorems.v ===== *)
(** * The properties of the paging code

    Mapping, unmapping and their composition, with witnesses on the pool of
    [memalloc.c] and the heap of the kernel. *)
From stdpp Require Import functions.
From S2P Require Import Prelude Alloc Critical Interrupts KHeap KHeapSpec KHeapTheorems.
From S2P Require Import Frames MemAlloc MemAllocSpec MemAllocTheorems FramePool FaultHandlers.
From S2P Require Import Paging PagingSpec PagingMap.

Section Operations.
Context {fops : FrameOps} `{!FrameSpec fops} (e : cpu_env).
Implicit Types (t : kstate pstore) (s : pstore) (U : Z -> Prop).

(** mapping a hardware region that is not mapped yet.  It fails, with
    [OS_ERR_NO_MORE_FREE_MEM], only at a page whose table is missing, when no
    frame is left for it; otherwise every page of the region is mapped to the frame
    at the same distance from [pa], with the requested flags, uncached and
    marked as hardware, and no other page changes.  The page tables stay well
    formed, frames are only taken, and the lock and the interrupts are left
    as they were. *)
Theorem mmap_hw_correct t U va pa size ro :
  paging_ready t U -> region va size -> 0 <= pa -> pa / 4096 + region_pages va size < 2 ^ 20 ->
  (forall x, in_region va size x -> page (core t) x = None) ->
  exists err t' V k, kernel_mmap_hw e va pa size ro t = Ret (err, t') /\
    paging_ready t' V /\ same_locks t t' /\
    (err = OS_NO_ERR /\ k = region_pages va size \/
     err = OS_ERR_NO_MORE_FREE_MEM /\ 0 <= k < region_pages va size /\
       present (pde (core t) ((va / 4096 + k) / 1024)) = false /\ (forall j, ~ V j)) /\
    more_tables (region_entries va size) (core t) U (core t') V /\
    mapped_pages t va pa (page_flags ro 0 1) k t'.
Proof.
  intros HR Hr Hpa Hpend Hnone.
  destruct (mmap_internal_run e t U va pa size ro 0 1 HR Hr Hpa Hpend) as [[(x & Hx & Hn) _]|[_ H]];
    [by rewrite Hnone in Hn|exact H].
Qed.

(** a request for a region with a page that is already mapped changes no
    table and no frame, but returns from inside the critical section: the
    interrupts stay disabled, and with several CPUs the lock keeps the caller
    as its owner. *)
Theorem mmap_existing_stays_in_section t U va pa size ro x :
  paging_ready t U -> region va size -> 0 <= pa -> pa / 4096 + region_pages va size < 2 ^ 20 ->
  in_region va size x -> page (core t) x <> None ->
  exists t', kernel_mmap_hw e va pa size ro t = Ret (OS_ERR_MAPPING_ALREADY_EXISTS, t') /\
    core t' = core t /\ int_flag t' = 0 /\
    (booted_cpu_count e > 1 -> nesting (locks t' PagingLock) = 1 /\
       current_tid (locks t' PagingLock) = cpu_get_id e).
Proof.
  intros HR Hr Hpa Hpend Hx Hn.
  destruct (mmap_internal_run e t U va pa size ro 0 1 HR Hr Hpa Hpend)
    as [[_ (t' & Hrun & Hc & Hs)]|[Hnone _]]; [|by rewrite Hnone in Hn].
  exists t'. split; [exact Hrun|]. split; [done|]. destruct Hs as [H1 H2 _]. split; [done|].
  intros Hb. destruct (decide (booted_cpu_count e > 1)); [|done]. destruct H2 as [v ->]. done.
Qed.

(** ** Unmapping *)
Definition frame_of (w : Z) : Z := Z.land w PG_ENTRY_MASK.

(** The frame of the page [x] is in nobody else's use: it will be released.
    Pages mapped to hardware have no frame to release. *)
Definition releasable s U (x : Z) : Prop :=
  forall w, page s x = Some w -> Z.testbit w 9 = false ->
    frame_of w + 4096 < 2 ^ 32 /\ ~ U (frame_of w / 4096) /\ frame_of w <> cr3 s /\
    forall d, 0 <= d < 1023 -> present (pde s d) = true -> table s d <> frame_of w.

(** The releases of single frames made one after the other, with their
    results. *)
Inductive pool_run : list (Z * OS_RETURN_E) -> frames -> frames -> Prop :=
  | pool_run_nil f : pool_run [] f f
  | pool_run_cons a err l f f1 f2 :
      free_kframes a 1 f = Ret (err, f1) -> pool_run l f1 f2 -> pool_run ((a, err) :: l) f f2.

Lemma pool_run_app l1 l2 f f1 f2 : pool_run l1 f f1 -> pool_run l2 f1 f2 -> pool_run (l1 ++ l2) f f2.
Proof. induction 1; [done|]. intros. econstructor; eauto. Qed.

Lemma pool_run_one a err f f1 : free_kframes a 1 f = Ret (err, f1) -> pool_run [(a, err)] f f1.
Proof. intros. econstructor; [done|constructor]. Qed.

(** The frames that were accepted, and those that were not for want of memory. *)
Definition accepted (l : list (Z * OS_RETURN_E)) (k : Z) : Prop := exists a, (a, OS_NO_ERR) ∈ l /\ k = a / 4096.
Definition refused (l : list (Z * OS_RETURN_E)) (k : Z) : Prop := exists a, (a, OS_ERR_MALLOC) ∈ l /\ k = a / 4096.

Lemma accepted_app l1 l2 k : accepted (l1 ++ l2) k <-> accepted l1 k \/ accepted l2 k.
Proof. unfold accepted. setoid_rewrite elem_of_app. naive_solver. Qed.

Lemma accepted_one a err k : accepted [(a, err)] k <-> err = OS_NO_ERR /\ k = a / 4096.
Proof.
  unfold accepted. setoid_rewrite list_elem_of_singleton. split; [by intros (? & [= -> <-] & ->)|].
  intros [-> ->]. by exists a.
Qed.

(** The frames of [n] pages from [v] on that are not hardware, and the page
    tables that are no longer there. *)
Definition page_frame s (v n a : Z) : Prop :=
  exists x w, v <= x < v + n /\ page s x = Some w /\ Z.testbit w 9 = false /\ a = frame_of w.
Definition dropped s s' (a : Z) : Prop :=
  exists d, 0 <= d < 1023 /\ present (pde s d) = true /\ present (pde s' d) = false /\ a = table s d.

(** What the release of [n] pages from [v] on changes: [l] are the releases
    it made.  A page table of one of these pages stays only if it holds
    another page. *)
Record unmapped (v n : Z) s U s' (V : Z -> Prop) (l : list (Z * OS_RETURN_E)) : Prop := {
  um_cr3 : cr3 s' = cr3 s;
  um_pages x : page_ok x -> page s' x = if decide (v <= x < v + n) then None else page s x;
  um_tables d : 0 <= d < 1023 -> present (pde s' d) = true ->
    present (pde s d) = true /\ table s' d = table s d;
  um_emptied x : v <= x < v + n -> present (pde s' (x / 1024)) = true ->
    exists y, page_ok y /\ y / 1024 = x / 1024 /\ page s' y <> None;
  um_pool : pool_run l (ps_frames s) (ps_frames s');
  um_errors a err : (a, err) ∈ l -> err = OS_NO_ERR \/ err = OS_ERR_MALLOC;
  um_given a : (exists err, (a, err) ∈ l) <-> page_frame s v n a \/ dropped s s' a;
  um_frames k : V k <-> U k \/ accepted l k;
}.

Lemma unmapped_none v s U : unmapped v 0 s U s U [].
Proof.
  split; try done; auto.
  - intros x _. by rewrite decide_False by lia.
  - lia.
  - constructor.
  - by intros a err H%not_elem_of_nil.
  - intros a. split; [intros [err H]; by apply not_elem_of_nil in H|].
    intros [(x & w & Hx & _)|(d & _ & H1 & H2 & _)]; [lia|congruence].
  - intros k. split; [by left|]. intros [?|(a & Ha & _)]; [done|]. by apply not_elem_of_nil in Ha.
Qed.

Lemma unmapped_grow v n s U s' V l k : unmapped v n s U s' V l -> U k -> V k.
Proof. intros H Hk. apply (um_frames _ _ _ _ _ _ _ H). by left. Qed.

Lemma unmapped_new v n s U s' V l k : unmapped v n s U s' V l -> V k ->
  U k \/ (exists d, 0 <= d < 1023 /\ present (pde s d) = true /\ k = table s d / 4096) \/
  (exists x w, v <= x < v + n /\ page s x = Some w /\ Z.testbit w 9 = false /\ k = frame_of w / 4096).
Proof.
  intros H [Hk|(a & Ha & ->)]%(um_frames _ _ _ _ _ _ _ H); [by left|]. right.
  destruct (proj1 (um_given _ _ _ _ _ _ _ H a)) as [(x & w & Hx & Hw & Hb & ->)|(d & Hd & Hp & _ & ->)];
    [by eexists|right; by exists x, w|left; by exists d].
Qed.

(** The first page, then the others. *)
Lemma unmapped_trans v n s U s1 V1 s2 V2 l1 l2 :
  0 <= v -> 0 <= n -> v + (n + 1) <= 1047552 ->
  unmapped v 1 s U s1 V1 l1 -> unmapped (v + 1) n s1 V1 s2 V2 l2 -> unmapped v (n + 1) s U s2 V2 (l1 ++ l2).
Proof.
  intros Hv Hn Hend [A1 A2 A3 A4 A5 A6 A7 A8] [B1 B2 B3 B4 B5 B6 B7 B8].
  assert (forall x, v + 1 <= x < v + 1 + n -> page s1 x = page s x) as Hrest
    by (intros x Hx; rewrite A2, decide_False by (unfold page_ok; lia); done).
  split.
  - congruence.
  - intros x Hx. rewrite B2, A2 by done. repeat case_decide; (done || lia).
  - intros d Hd Hp. destruct (B3 d Hd Hp) as [Hp1 ->]. by apply A3.
  - intros x Hx Hp. destruct (decide (v + 1 <= x < v + 1 + n)) as [Hin|Hout]; [by apply B4|].
    assert (x = v) as -> by lia. destruct (page_ok_dir v ltac:(unfold page_ok; lia)) as [Hd _].
    destruct (A4 v ltac:(lia) (proj1 (B3 _ Hd Hp))) as (y & Hy & Ey & Hn1).
    destruct (decide (v + 1 <= y < v + 1 + n)) as [Hin|Hout2].
    + destruct (B4 y Hin) as (z & Hz & Ez & Hn2); [by rewrite Ey|]. exists z. split; [done|]. split; [congruence|done].
    + exists y. split; [done|]. split; [done|]. by rewrite B2, decide_False.
  - by eapply pool_run_app.
  - intros a err [H|H]%elem_of_app; [by apply (A6 a)|by apply (B6 a)].
  - intros a. setoid_rewrite elem_of_app.
    assert ((exists err, (a, err) ∈ l1 \/ (a, err) ∈ l2) <-> (exists err, (a, err) ∈ l1) \/ (exists err, (a, err) ∈ l2))
      as -> by naive_solver.
    rewrite A7, B7. unfold page_frame, dropped. split.
    + intros [[(x & w & Hx & H)|(d & Hd & H1 & H2 & E)]|[(x & w & Hx & Hw & H)|(d & Hd & H1 & H2 & E)]].
      * left. exists x, w. split; [lia|done].
      * right. exists d. split_and!; [lia|lia|done| |done]. apply not_true_iff_false. intros Hp.
        destruct (B3 d Hd Hp). congruence.
      * left. exists x, w. rewrite Hrest in Hw by done. split; [lia|done].
      * right. exists d. destruct (A3 d Hd H1) as [Hp ->] in E. done.
    + intros [(x & w & Hx & Hw & H)|(d & Hd & H1 & H2 & E)].
      * destruct (decide (x = v)) as [->|].
        -- left. left. exists v, w. split; [lia|done].
        -- right. left. exists x, w. rewrite Hrest by lia. split; [lia|done].
      * destruct (present (pde s1 d)) eqn:Hp.
        -- right. right. exists d. destruct (A3 d Hd Hp) as [_ ->]. done.
        -- left. right. by exists d.
  - intros k. rewrite B8, A8, accepted_app. tauto.
Qed.

Lemma same_frame a b : a mod 4096 = 0 -> b mod 4096 = 0 -> a / 4096 = b / 4096 -> a = b.
Proof. intros. pose proof (Z.div_mod a 4096). pose proof (Z.div_mod b 4096). lia. Qed.

Lemma frame_aligned w : frame_of w mod 4096 = 0.
Proof. apply land_mask_range. Qed.

(** The entry of the page [v] is cleared. *)
Lemma clear_entry s U d i :
  pg_ok s U -> 0 <= d < 1023 -> present (pde s d) = true -> 0 <= i < 1024 ->
  let s' := set_word (table s d + 4 * i) 0 s in
  pg_ok s' U /\ kept s s' /\
  forall x, page_ok x -> page s' x = if decide (x = 1024 * d + i) then None else page s x.
Proof. intros H Hd Hp Hi. exact (write_entry s U d i 0 H Hd Hp Hi). Qed.

Lemma pg_ok_given s U f err a :
  pg_ok s U -> frames_rep f (given_back U err a 1) -> a mod 4096 = 0 -> a <> cr3 s ->
  (forall d, 0 <= d < 1023 -> present (pde s d) = true -> table s d <> a) ->
  pg_ok (with_ps_frames f s) (given_back U err a 1).
Proof.
  intros H Hf Ha Hc Ht. assert (forall k, block a 1 k -> k = a / 4096) as Hb by (unfold block; lia).
  apply (pg_ok_frames _ U); [done|done| |].
  - intros [Hu|[_ Hu%Hb]]; [by apply (pg_free_dir _ _ H)|].
    apply same_frame in Hu; [congruence|apply (pg_dir _ _ H)|done].
  - intros d Hd Hp [Hu|[_ Hu%Hb]]; [by apply (pg_table _ _ H d Hd Hp)|].
    apply same_frame in Hu; [by apply (Ht d)|apply table_range|done].
Qed.

(** The release of one frame. *)
Lemma free_one_run t0 t U a :
  inside_paging e t0 t -> pg_ok (core t) U -> (exists k, U k) -> 0 <= a -> a mod 4096 = 0 ->
  a + 4096 < 2 ^ 32 -> ~ U (a / 4096) ->
  exists err t1 f, memalloc_free_kframes e a 1 t = Ret (err, t1) /\ inside_paging e t0 t1 /\
    core t1 = with_ps_frames f (core t) /\ pool_run [(a, err)] (ps_frames (core t)) f /\
    (err = OS_NO_ERR \/ err = OS_ERR_MALLOC) /\ frames_rep f (given_back U err a 1) /\
    forall k, given_back U err a 1 k <-> U k \/ accepted [(a, err)] k.
Proof.
  intros Hin H [k0 Hk0] Ha Hma Hhi Hu. assert (forall k, block a 1 k <-> k = a / 4096) as Hb by (unfold block; lia).
  destruct (free_run e t U a 1 (inside_flag e _ _ Hin) (inside_memalloc e _ _ Hin) (pg_frames _ _ H))
    as [[_ He]|(err & t1 & f & Hrun & Hs & Hc & Hf & Herr & HR)]; [done|done|lia|lia|by intros k ->%Hb|by destruct (He k0)|].
  exists err, t1, f. split_and!; try done; [by eapply (inside_moves e)|by apply pool_run_one|].
  intros k. unfold given_back. rewrite accepted_one, Hb. tauto.
Qed.

(** What is done to the page [v] before its table is looked at. *)
Record entry_cleared (v : Z) s U s' (V : Z -> Prop) (l : list (Z * OS_RETURN_E)) : Prop := {
  ec_cr3 : cr3 s' = cr3 s;
  ec_pde d : 0 <= d < 1024 -> pde s' d = pde s d;
  ec_pages x : page_ok x -> page s' x = if decide (x = v) then None else page s x;
  ec_pool : pool_run l (ps_frames s) (ps_frames s');
  ec_errors a err : (a, err) ∈ l -> err = OS_NO_ERR \/ err = OS_ERR_MALLOC;
  ec_given a : (exists err, (a, err) ∈ l) <-> page_frame s v 1 a;
  ec_frames k : V k <-> U k \/ accepted l k;
}.

Lemma page_frame_one s v a : page_frame s v 1 a <-> exists w, page s v = Some w /\ Z.testbit w 9 = false /\ a = frame_of w.
Proof.
  unfold page_frame. split.
  - intros (x & w & Hx & H). exists w. by replace v with x by lia.
  - intros (w & H). exists v, w. split; [lia|done].
Qed.

Lemma accepted_nil k : accepted [] k <-> False.
Proof. split; [|done]. intros (a & Ha & _). by apply not_elem_of_nil in Ha. Qed.

Lemma no_release (P : Z -> Prop) : (forall a, ~ P a) ->
  forall a, (exists err, (a, err) ∈ ([] : list (Z * OS_RETURN_E))) <-> P a.
Proof. intros HP a. split; [intros [err Ha]; by apply not_elem_of_nil in Ha|by intros ?%HP]. Qed.

Lemma unmap_page_run t0 t U d i :
  inside_paging e t0 t -> pg_ok (core t) U -> (exists k, U k) -> 0 <= d < 1023 ->
  present (pde (core t) d) = true -> 0 <= i < 1024 -> releasable (core t) U (1024 * d + i) ->
  exists t' V l, unmap_page e d i t = Ret (tt, t') /\ inside_paging e t0 t' /\ pg_ok (core t') V /\
    entry_cleared (1024 * d + i) (core t) U (core t') V l.
Proof.
  intros Hin H HU Hd Hp Hi Hrel. set (s := core t) in *. set (v := 1024 * d + i) in *.
  assert (page_ok v) as Hpv by (unfold page_ok, v; lia).
  assert (page s v = entry_page (word s (table s d + 4 * i))) as Hpage.
  { unfold page, pte. destruct (proj1 (page_number v d i Hi) eq_refl) as [-> ->]. by rewrite Hp. }
  unfold unmap_page. rewrite (exec_lift_read _ _ _ _ (read_pgtable_run s U d i H Hd Hp Hi)).
  set (w := word s (table s d + 4 * i)) in *. unfold entry_page in Hpage.
  destruct (present w) eqn:Hw.
  2: { rewrite decide_False by (rewrite land_present; unfold present in Hw; rewrite Hw; tauto).
    exists t, U, []. split_and!; try done. split; try done.
    - intros x _. case_decide as E; [by rewrite E|done].
    - constructor.
    - by intros a err Ha%not_elem_of_nil.
    - apply no_release. intros a (w' & Hw' & _)%page_frame_one. congruence.
    - intros k. rewrite accepted_nil. tauto. }
  rewrite decide_True by (rewrite land_present; unfold present in Hw; by rewrite Hw).
  (* the write, on any state with the tables of [s] *)
  assert (forall t1 V f l, inside_paging e t0 t1 -> core t1 = with_ps_frames f s ->
    pg_ok (with_ps_frames f s) V -> pool_run l (ps_frames s) f ->
    (forall a err, (a, err) ∈ l -> err = OS_NO_ERR \/ err = OS_ERR_MALLOC) ->
    (forall a, (exists err, (a, err) ∈ l) <-> page_frame s v 1 a) -> (forall k, V k <-> U k \/ accepted l k) ->
    exists t', lift (write_pgtable d i 0) t1 = Ret (tt, t') /\ inside_paging e t0 t' /\
      pg_ok (core t') V /\ entry_cleared v s U (core t') V l) as Hwrite.
  { intros t1 V f l Hin1 Hc1 H1 Hpool Herr Hgiven Hacc. set (s1 := with_ps_frames f s) in *.
    destruct (clear_entry s1 V d i H1 Hd Hp Hi) as (H2 & Hk & Hx).
    eexists. split; [apply lift_run; rewrite Hc1; by apply (write_pgtable_run s1 V)|].
    split; [by apply (inside_core e)|]. split; [done|]. split; try done.
    intros d' Hd'. apply (kept_pde _ _ Hk d' Hd'). }
  case_decide as Hhw; rewrite land_hardware in Hhw.
  - destruct (Hrel w Hpage Hhw) as (R1 & R2 & R3 & R4).
    destruct (free_one_run t0 t U (frame_of w) Hin H HU) as (err & t1 & f & Hrun & Hin1 & Hc1 & Hpool & Herr & HR1 & HV);
      [apply land_mask_range|apply frame_aligned|done|done|].
    destruct (Hwrite t1 (given_back U err (frame_of w) 1) f [(frame_of w, err)]) as (t' & Hw' & Hrest); try done.
    + apply pg_ok_given; try done. apply frame_aligned.
    + by intros a err' [= -> ->]%list_elem_of_singleton.
    + intros a. rewrite page_frame_one, Hpage. setoid_rewrite list_elem_of_singleton.
      split; [intros [err' [= -> ->]]; by exists w|intros (w' & [= <-] & _ & ->); by exists err].
    + eexists t', _, _. split; [|exact Hrest]. rewrite bind_assoc, (bind_ret _ _ _ _ _ Hrun), bind_ret_l. exact Hw'.
  - destruct (Hwrite t U (ps_frames s) []) as (t' & Hw' & Hrest); try done.
    + by destruct (core t).
    + by destruct (core t).
    + constructor.
    + by intros a err Ha%not_elem_of_nil.
    + apply no_release. intros a (w' & Hw' & Hb & _)%page_frame_one. congruence.
    + intros k. rewrite accepted_nil. tauto.
    + exists t', U, []. split; [|exact Hrest]. rewrite bind_ret_l. exact Hw'.
Qed.

Lemma table_in_use_run n s U d i :
  pg_ok s U -> 0 <= d < 1023 -> present (pde s d) = true -> 0 <= i -> i + Z.of_nat n <= 1024 ->
  exists b, table_in_use n d i s = Ret (b, s) /\
    (b = false -> forall j, i <= j < i + Z.of_nat n -> present (word s (table s d + 4 * j)) = false) /\
    (b = true -> exists j, i <= j < i + Z.of_nat n /\ present (word s (table s d + 4 * j)) = true).
Proof.
  revert i. induction n as [|n IH]; intros i H Hd Hp Hi Hn; [exists false; split; [done|]; split; [lia|done]|].
  simpl. rewrite (bind_ret _ _ _ _ _ (read_pgtable_run s U d i H Hd Hp ltac:(lia))).
  case_decide as Hc; rewrite land_present in Hc.
  { exists true. split; [done|]. split; [done|]. intros _. exists i. split; [lia|]. unfold present.
    by apply not_false_iff_true. }
  destruct (IH (i + 1)) as (b & Hrun & Hb & Ht); try done; try lia. exists b. split; [done|]. split.
  - intros Hf j Hj. destruct (decide (j = i)) as [->|]; [|apply Hb; [done|lia]].
    unfold present. destruct (Z.testbit _ 0); [tauto|done].
  - intros Hb'. destruct (Ht Hb') as (j & Hj & Hpj). exists j. split; [lia|done].
Qed.

(** A table that holds a page stays; an empty one goes back to the pool, and
    no page is lost with it. *)
Record table_checked (d : Z) s U s' (V : Z -> Prop) (l : list (Z * OS_RETURN_E)) : Prop := {
  tc_cr3 : cr3 s' = cr3 s;
  tc_pages x : page_ok x -> page s' x = page s x;
  tc_others d' : 0 <= d' < 1024 -> d' <> d -> pde s' d' = pde s d';
  tc_stays : present (pde s' d) = true ->
    pde s' d = pde s d /\ exists y, page_ok y /\ y / 1024 = d /\ page s' y <> None;
  tc_pool : pool_run l (ps_frames s) (ps_frames s');
  tc_errors a err : (a, err) ∈ l -> err = OS_NO_ERR \/ err = OS_ERR_MALLOC;
  tc_given a : (exists err, (a, err) ∈ l) <-> present (pde s' d) = false /\ a = table s d;
  tc_frames k : V k <-> U k \/ accepted l k;
}.

Lemma drop_table_run t0 t U d :
  inside_paging e t0 t -> pg_ok (core t) U -> (exists k, U k) -> 0 <= d < 1023 ->
  present (pde (core t) d) = true ->
  exists t' V l, drop_table e d t = Ret (tt, t') /\ inside_paging e t0 t' /\ pg_ok (core t') V /\
    table_checked d (core t) U (core t') V l.
Proof.
  intros Hin H HU Hd Hp. set (s := core t) in *. unfold drop_table.
  destruct (table_in_use_run (Z.to_nat KERNEL_PGDIR_SIZE) s U d 0 H Hd Hp) as (b & Hrun & Hb & Hb'); [lia|done|].
  change (0 + Z.of_nat (Z.to_nat KERNEL_PGDIR_SIZE)) with 1024 in *.
  rewrite (exec_lift_read _ _ _ _ Hrun). destruct b.
  { destruct (Hb' eq_refl) as (j & Hj & Hpj). exists t, U, []. split_and!; try done. split; try done.
    - intros _. split; [done|]. exists (1024 * d + j).
      destruct (proj1 (page_number (1024 * d + j) d j Hj) eq_refl) as [E1 E2].
      split; [unfold page_ok; lia|]. split; [done|]. fold s. unfold page, pte. by rewrite E1, E2, Hp, Hpj.
    - constructor.
    - by intros a err Ha%not_elem_of_nil.
    - apply no_release. intros a [Hn _]. fold s in Hn. congruence.
    - intros k. rewrite accepted_nil. tauto. }
  specialize (Hb eq_refl). rewrite (exec_lift_read _ _ _ _ (read_pgdir_run s U d H ltac:(lia))).
  fold (table s d). destruct (pg_table _ _ H d Hd Hp) as (T1 & T2 & T3).
  destruct (table_range s d) as [Hr Hm].
  destruct (free_one_run t0 t U (table s d) Hin H HU) as (err & t1 & f & Hf & Hin1 & Hc1 & Hpool & Herr & HR1 & HV);
    [lia|done|done|done|].
  rewrite (bind_ret _ _ _ _ _ Hf).
  set (s2 := set_word (cr3 s + 4 * d) 0 (with_ps_frames f s)).
  assert (write_pgdir d 0 (core t1) = Ret (tt, s2)) as Hw.
  { rewrite Hc1. unfold write_pgdir, vwrite. fold s.
    change (mmu true (PAGING_RECUR_PG_DIR + 4 * d) (with_ps_frames f s))
      with (mmu true (PAGING_RECUR_PG_DIR + 4 * d) s).
    rewrite (mmu_dir s U true d H) by lia. done. }
  assert (forall d', 0 <= d' < 1024 -> pde s2 d' = if decide (d = d') then 0 else pde s d') as Hpde
    by (intros; by apply (pde_write s U); [|lia|]).
  assert (present (pde s2 d) = false) as Hgone by (rewrite Hpde by lia; by rewrite decide_True).
  exists (with_core s2 t1), (given_back U err (table s d) 1), [(table s d, err)].
  split; [by apply lift_run|]. split; [by apply (inside_core e)|].
  split; [apply (pg_ok_drop_table s U); try done; intros k [?|[_ Hk]]; [by left|right; unfold block in Hk; lia]|].
  split; try done.
  - intros x Hx. simpl. destruct (page_ok_dir x Hx) as [Hxd Hxi].
    destruct (decide (x / 1024 = d)) as [E|E].
    + unfold page. rewrite Hpde, decide_True by (done || lia). simpl. rewrite E, Hp. unfold pte.
      rewrite E, Hb; [done|lia].
    + exact (page_dir_write s U d 0 x H Hd Hx E).
  - intros d' Hd' Hne. cbn [core with_core]. by rewrite Hpde, decide_False by (done || lia).
  - cbn [core with_core]. by rewrite Hgone.
  - by intros a err' [= -> ->]%list_elem_of_singleton.
  - intros a. setoid_rewrite list_elem_of_singleton. cbn [core with_core]. rewrite Hgone.
    split; [by intros [err' [= -> ->]]|intros [_ ->]; by exists err].
Qed.

(** One page of the loop. *)
Lemma step_unmapped s U s1 V1 s2 V2 l1 l2 v :
  page_ok v -> present (pde s (v / 1024)) = true ->
  entry_cleared v s U s1 V1 l1 -> table_checked (v / 1024) s1 V1 s2 V2 l2 -> unmapped v 1 s U s2 V2 (l1 ++ l2).
Proof.
  intros Hv Hp [C1 C2 C3 C4 C5 C6 C7] [D1 D2 D3 D4 D5 D6 D7 D8]. destruct (page_ok_dir v Hv) as [Hd Hi].
  assert (forall d, 0 <= d < 1023 -> table s1 d = table s d) as Ht by (intros d ?; unfold table; by rewrite C2 by lia).
  split.
  - congruence.
  - intros x Hx. rewrite D2, C3 by done. repeat case_decide; (done || lia).
  - intros d Hd' Hp'. destruct (decide (d = v / 1024)) as [->|Hne].
    + destruct (D4 Hp') as [E _]. split; [done|]. unfold table. by rewrite E, C2 by lia.
    + unfold table. rewrite D3, C2 in * by lia. done.
  - intros x Hx Hp'. replace x with v in * by lia. by destruct (D4 Hp') as [_ (y & Hy)]; exists y.
  - by eapply pool_run_app.
  - intros a err [H|H]%elem_of_app; [by apply (C5 a)|by apply (D6 a)].
  - intros a. setoid_rewrite elem_of_app.
    assert ((exists err, (a, err) ∈ l1 \/ (a, err) ∈ l2) <-> (exists err, (a, err) ∈ l1) \/ (exists err, (a, err) ∈ l2))
      as -> by naive_solver.
    rewrite C6, D7. unfold dropped. split.
    + intros [?|[Hn ->]]; [by left|]. right. exists (v / 1024). by rewrite Ht.
    + intros [?|(d & Hd' & H1 & H2 & ->)]; [by left|]. right.
      destruct (decide (d = v / 1024)) as [->|Hne]; [by rewrite Ht|]. rewrite D3, C2 in H2 by lia. congruence.
  - intros k. rewrite D8, C7, accepted_app. tauto.
Qed.

Lemma unmap_step_run t0 t U v :
  inside_paging e t0 t -> pg_ok (core t) U -> (exists k, U k) -> page_ok v -> releasable (core t) U v ->
  exists t' V l, (let* pde := lift (read_pgdir (v / 1024)) in
      if decide (Z.land pde FLAG_PRESENT <> 0)
      then unmap_page e (v / 1024) (v mod 1024) >>> drop_table e (v / 1024)
      else ret tt) t = Ret (tt, t') /\
    inside_paging e t0 t' /\ pg_ok (core t') V /\ unmapped v 1 (core t) U (core t') V l.
Proof.
  intros Hin H HU Hv Hrel. destruct (page_ok_dir v Hv) as [Hd Hi].
  assert (v = 1024 * (v / 1024) + v mod 1024) as Ev by (apply Z.div_mod; lia).
  rewrite (exec_lift_read _ _ _ _ (read_pgdir_run _ U (v / 1024) H ltac:(lia))).
  destruct (present (pde (core t) (v / 1024))) eqn:Hp.
  2: { rewrite decide_False by (rewrite land_present; unfold present in Hp; rewrite Hp; tauto).
    exists t, U, []. split_and!; try done.
    assert (page (core t) v = None) as Hnone by (unfold page; by rewrite Hp).
    split; try done.
    - intros x _. case_decide as E; [by replace x with v by lia|done].
    - intros x Hx Hpx. replace x with v in Hpx by lia. congruence.
    - constructor.
    - by intros a err Ha%not_elem_of_nil.
    - apply no_release. intros a [(w & Hw & _)%page_frame_one|(d & _ & H1 & H2 & _)]; congruence.
    - intros k. rewrite accepted_nil. tauto. }
  rewrite decide_True by (rewrite land_present; unfold present in Hp; by rewrite Hp).
  rewrite Ev in Hrel.
  destruct (unmap_page_run t0 t U (v / 1024) (v mod 1024) Hin H HU Hd Hp Hi Hrel)
    as (t1 & V1 & l1 & Hrun1 & Hin1 & H1 & Hec). rewrite <- Ev in Hec.
  rewrite (bind_ret _ _ _ _ _ Hrun1).
  destruct (drop_table_run t0 t1 V1 (v / 1024) Hin1 H1) as (t2 & V & l2 & Hrun2 & Hin2 & H2 & Htc);
    [destruct HU as [k Hk]; exists k; apply (ec_frames _ _ _ _ _ _ Hec); by left|done
    |by rewrite (ec_pde _ _ _ _ _ _ Hec) by lia|].
  exists t2, V, (l1 ++ l2). split_and!; [done|done|done|]. by eapply step_unmapped.
Qed.

(** The frames of two different pages differ. *)
Definition distinct_frames s (lo hi : Z) : Prop :=
  forall x y w w', lo <= x < hi -> lo <= y < hi -> page s x = Some w -> page s y = Some w' ->
    Z.testbit w 9 = false -> Z.testbit w' 9 = false -> frame_of w = frame_of w' -> x = y.

Lemma releasable_step s U s' V l v hi x :
  unmapped v 1 s U s' V l -> distinct_frames s v hi -> v < x < hi -> page_ok x -> page_ok v ->
  releasable s U x -> releasable s' V x.
Proof.
  intros Hum Hd Hx Hpx Hpv Hrel w Hw Hhw. rewrite (um_pages _ _ _ _ _ _ _ Hum), decide_False in Hw by (done || lia).
  destruct (Hrel w Hw Hhw) as (R1 & R2 & R3 & R4).
  split_and!; [done| |by rewrite (um_cr3 _ _ _ _ _ _ _ Hum)|].
  - intros [?|[(d & Hd1 & Hd2 & E)|(y & w' & Hy & Hw' & Hhw' & E)]]%(unmapped_new _ _ _ _ _ _ _ _ Hum); [done|..].
    + apply same_frame in E; [|apply frame_aligned|apply table_range]. by apply (R4 d).
    + apply same_frame in E; [|apply frame_aligned..]. assert (x = y); [|lia].
      by apply (Hd x y w w'); try lia.
  - intros d Hd1 Hd2. destruct (um_tables _ _ _ _ _ _ _ Hum d Hd1 Hd2) as [Hp ->]. by apply R4.
Qed.

Lemma unmap_loop_run fuel t0 t U v size :
  inside_paging e t0 t -> pg_ok (core t) U -> (exists k, U k) ->
  0 <= size -> (Z.to_nat (pages_of size) < fuel)%nat -> 0 <= v -> v + pages_of size <= 1047552 ->
  (forall x, v <= x < v + pages_of size -> releasable (core t) U x) ->
  distinct_frames (core t) v (v + pages_of size) ->
  exists t' V l, unmap_loop e fuel (4096 * v) size t = Ret (tt, t') /\ inside_paging e t0 t' /\
    pg_ok (core t') V /\ unmapped v (pages_of size) (core t) U (core t') V l.
Proof.
  revert t U v size. induction fuel as [|fuel IH];
    intros t U v size Hin H HU Hsz Hf Hv Hend Hrel Hdis; [lia|].
  destruct (pages_of_0 size Hsz) as [H0 Hnn]. simpl.
  destruct (decide (size = 0)) as [E|E].
  { exists t, U, []. split_and!; try done. rewrite (proj1 H0 E). apply unmapped_none. }
  destruct (pages_of_less size) as [Hless Hl0]; [lia|].
  assert (page_ok v) as Hpv by (unfold page_ok; lia).
  destruct (unmap_step_run t0 t U v Hin H HU Hpv) as (t1 & V1 & l1 & Hrun & Hin1 & H1 & Hum); [apply Hrel; lia|].
  destruct (page_indices v) as [-> ->].
  rewrite <- bind_assoc, (bind_ret _ _ _ _ _ Hrun), next_page by lia.
  pose proof (um_pages _ _ _ _ _ _ _ Hum) as C2.
  destruct (IH t1 V1 (v + 1) (less_page size)) as (t' & V & l & Hrun' & Hin' & H' & Hum');
    try done; try lia.
  - destruct HU as [k Hk]. exists k. by eapply unmapped_grow.
  - intros x Hx. apply (releasable_step (core t) U _ _ l1 v (v + pages_of size)); try done; try lia;
      [unfold page_ok; lia|apply Hrel; lia].
  - intros x y w w' Hx Hy Hpx Hpy. rewrite C2, decide_False in Hpx by (unfold page_ok; lia).
    rewrite C2, decide_False in Hpy by (unfold page_ok; lia). apply (Hdis x y w w'); (done || lia).
  - exists t', V, (l1 ++ l). split_and!; try done.
    replace (pages_of size) with (pages_of (less_page size) + 1) by lia. eapply unmapped_trans; [lia|lia|lia|done|done].
Qed.

(** The end of a region, as the code computes it. *)
Lemma map_end_eq va size :
  region va size -> map_end va size - 4096 * (va / 4096) = 4096 * region_pages va size /\
    0 <= map_end va size < 2 ^ 32.
Proof.
  unfold region, region_pages, pages_of, PAGING_RECUR_PG_TABLE, map_end, KERNEL_PAGE_SIZE.
  intros (H1 & H2 & H3). rewrite (u32_small (va + size)) by lia.
  case_decide; [|div_lia]. rewrite region_start by lia. rewrite u32_small by div_lia. div_lia.
Qed.

(** What [kernel_munmap] leaves, after the releases [l]. *)
Definition unmapped_region t U va size t' (V : Z -> Prop) l : Prop :=
  same_locks t t' /\ pg_ok (core t') V /\
  unmapped (va / 4096) (region_pages va size) (core t) U (core t') V l.

Lemma munmap_run t U va size :
  flag_ok t -> lock_free PagingLock t -> lock_free MemallocLock t -> pg_ok (core t) U ->
  region va size -> (exists k, U k) ->
  (forall x, in_region va size x -> releasable (core t) U x) ->
  distinct_frames (core t) (va / 4096) (va / 4096 + region_pages va size) ->
  exists t' V l, kernel_munmap e va size t = Ret (OS_NO_ERR, t') /\ unmapped_region t U va size t' V l.
Proof.
  intros Hfl Hlk Hm H Hr HU Hrel Hdis. destruct (region_bounds _ _ Hr) as (Hv & Hend & Hpos).
  destruct (map_end_eq va size Hr) as [Hmap Hmr].
  assert (pages_of (4096 * region_pages va size) = region_pages va size) as Hn
    by (unfold pages_of; div_lia).
  unfold kernel_munmap, critical. rewrite (bind_ret _ _ _ _ _ (enter_run e PagingLock t Hlk)).
  rewrite region_start by (unfold region, PAGING_RECUR_PG_TABLE in Hr; lia).
  rewrite Hmap, u32_small by lia.
  destruct (unmap_loop_run (page_fuel (4096 * region_pages va size)) t (inside e PagingLock t) U
    (va / 4096) (4096 * region_pages va size)) as (t1 & V & l & Hrun & Hin & H1 & Hum);
    rewrite ?Hn; try done; try lia.
  { split_and!; [done|done|by apply enter_section]. }
  { rewrite <- Hn at 1. apply page_fuel_enough. lia. }
  rewrite bind_assoc, (bind_ret _ _ _ _ _ Hrun), bind_ret_l.
  destruct (exit_section e PagingLock t t1 Hfl Hlk) as (t2 & Hx & Hc & Hs); [apply Hin|].
  rewrite (bind_ret _ _ _ _ _ Hx). exists t2, V, l. split; [done|]. unfold unmapped_region. rewrite Hc.
  by rewrite Hn in Hum.
Qed.

(** C5: Unmapping a region.  Every page of it is unmapped and no other page
    changes; a page table stays only if it holds another page.  The frames
    given to the pool, one after the other, are exactly those of the pages of
    the region that are not hardware and those of the page tables that are
    gone; each is free again unless the pool refuses it for want of memory, and
    no other frame is freed.  The page tables stay well formed, the lock and
    the interrupts as they were.  The frames must not be free already, nor
    shared with another page of the region or with a table, and the pool must
    have a free frame, for [memalloc_free_kframes] to be defined. *)
Theorem kernel_munmap_correct t U va size :
  paging_ready t U -> region va size -> (exists k, U k) ->
  (forall x, in_region va size x -> releasable (core t) U x) ->
  distinct_frames (core t) (va / 4096) (va / 4096 + region_pages va size) ->
  exists t' V l, kernel_munmap e va size t = Ret (OS_NO_ERR, t') /\ unmapped_region t U va size t' V l.
Proof. intros (Hfl & Hlk & Hm & H & _). by apply munmap_run. Qed.

(** ** Allocating and mapping *)

(** The frames of [U] but for [n] frames at [a]. *)
Definition without U (a n k : Z) : Prop := U k /\ ~ block a n k.

(** Frames for [n] pages, at the address [a]. *)
Definition free_block U (a n : Z) : Prop :=
  0 <= a /\ a mod 4096 = 0 /\ a + 4096 * n < 2 ^ 32 /\ forall k, block a n k -> U k.

(** The region got the frames at [a]; the page tables it lacked were taken
    from the pool, where the frames of [V] are left. *)
Definition mapped_region t U va size ro t' (a : Z) (V : Z -> Prop) : Prop :=
  paging_ready t' V /\ same_locks t t' /\ free_block U a (region_pages va size) /\
  more_tables (region_entries va size) (core t) (without U a (region_pages va size)) (core t') V /\
  mapped_pages t va a (page_flags ro 1 0) (region_pages va size) t'.

(** The ways [kernel_mmap] ends. *)
Inductive mmap_outcome t U (va size ro : Z) : outcome (OS_RETURN_E * kstate pstore) -> Prop :=
  (* there are not enough contiguous frames: nothing changes *)
  | MapNoFrames t' :
      no_block U (region_pages va size) -> core t' = core t -> same_locks t t' ->
      mmap_outcome t U va size ro (Ret (OS_ERR_NO_MORE_FREE_MEM, t'))
  (* each page of the region gets its frame *)
  | MapDone a t' V :
      (forall x, in_region va size x -> page (core t) x = None) ->
      mapped_region t U va size ro t' a V ->
      mmap_outcome t U va size ro (Ret (OS_NO_ERR, t'))
  (* a page is mapped already: no table changes and the frames are given
     back, but the section on the lock of the file is not left *)
  | MapExisting x a err f t' :
      in_region va size x -> page (core t) x <> None -> free_block U a (region_pages va size) ->
      core t' = with_ps_frames f (core t) -> err = OS_NO_ERR \/ err = OS_ERR_MALLOC ->
      frames_rep f (given_back (without U a (region_pages va size)) err a (region_pages va size)) ->
      in_section e PagingLock t t' ->
      mmap_outcome t U va size ro (Ret (OS_ERR_MAPPING_ALREADY_EXISTS, t'))
  (* no frame is left for the table of the page after the [k] first ones: these
     stay mapped, to frames that are given back *)
  | MapNoTable a k err t' V :
      (forall x, in_region va size x -> page (core t) x = None) ->
      free_block U a (region_pages va size) -> 0 <= k < region_pages va size ->
      present (pde (core t) ((va / 4096 + k) / 1024)) = false -> (forall j, ~ V j) ->
      more_tables (region_entries va size) (core t) (without U a (region_pages va size)) (core t') V ->
      mapped_pages t va a (page_flags ro 1 0) k t' -> err = OS_NO_ERR \/ err = OS_ERR_MALLOC ->
      pg_ok (core t') (given_back V err a (region_pages va size)) -> same_locks t t' ->
      mmap_outcome t U va size ro (Ret (OS_ERR_NO_MORE_FREE_MEM, t'))
  (* the frames cannot be given back to a pool that has no frame left *)
  | MapPoolEmpty x a s V :
      in_region va size x -> page (core t) x <> None \/ present (pde (core t) (x / 1024)) = false ->
      free_block U a (region_pages va size) ->
      more_tables (region_entries va size) (core t) (without U a (region_pages va size)) s V -> (forall k, ~ V k) ->
      mmap_outcome t U va size ro Fault.

(** The frames are given back after a failure. *)
Lemma give_back_run t V a n err :
  flag_ok t -> lock_free MemallocLock t -> pg_ok (core t) V -> 0 <= a -> a mod 4096 = 0 -> 0 < n ->
  a + 4096 * n < 2 ^ 32 -> (forall k, block a n k -> ~ V k) ->
  let m : M (kstate pstore) OS_RETURN_E := (let* _ := memalloc_free_kframes e a n in ret tt) >>> ret err in
  m t = Fault /\ (forall k, ~ V k) \/
  exists r t' f, m t = Ret (err, t') /\ same_locks t t' /\ core t' = with_ps_frames f (core t) /\
    (r = OS_NO_ERR \/ r = OS_ERR_MALLOC) /\ frames_rep f (given_back V r a n).
Proof.
  intros Hfl Hm H Ha Hma Hn Hhi Hd m.
  destruct (free_run e t V a n Hfl Hm (pg_frames _ _ H) Ha Hma Hn Hhi Hd)
    as [[Hf He]|(r & t' & f & Hf & Hs & Hc & _ & Hr & HR)].
  - left. split; [|done]. unfold m, bind. by rewrite Hf.
  - right. exists r, t', f. split; [|done]. unfold m. by rewrite bind_assoc, (bind_ret _ _ _ _ _ Hf).
Qed.

(** A block that is given back holds no table. *)
Lemma pg_ok_given_back s U V D s' a n r f :
  pg_ok s U -> more_tables D s (without U a n) s' V -> pg_ok s' V -> (forall k, block a n k -> U k) ->
  frames_rep f (given_back V r a n) -> pg_ok (with_ps_frames f s') (given_back V r a n).
Proof.
  intros H Hm H' HU Hf. apply (pg_ok_frames _ V); [done|done| |].
  - intros [Hv|[_ Hb%HU]]; [by apply (pg_free_dir _ _ H')|]. rewrite (mt_cr3 _ _ _ _ _ Hm) in Hb.
    by apply (pg_free_dir _ _ H).
  - intros d Hd Hp [Hv|[_ Hb]]; [by apply (pg_table _ _ H' d Hd Hp)|].
    destruct (mt_new _ _ _ _ _ Hm d Hd Hp) as [Hp0|[_ [_ Hn]]]; [|done].
    destruct (mt_old _ _ _ _ _ Hm d Hd Hp0) as [_ E]. rewrite E in Hb. by apply (pg_table _ _ H d Hd Hp0), HU.
Qed.

Lemma mmap_run t U va size ro :
  paging_ready t U -> region va size -> mmap_outcome t U va size ro (kernel_mmap e va size ro t).
Proof.
  intros HR0 Hr. pose proof HR0 as (Hfl & Hlk & Hm & H & Hl).
  destruct (region_bounds _ _ Hr) as (Hv & Hend & Hpos). destruct (map_end_eq va size Hr) as [Hmap _].
  unfold kernel_mmap. rewrite region_start by (unfold region, PAGING_RECUR_PG_TABLE in Hr; lia).
  replace (u32 (map_end va size - 4096 * (va / 4096)) / KERNEL_PAGE_SIZE) with (region_pages va size).
  2: { rewrite Hmap, u32_small by lia. unfold KERNEL_PAGE_SIZE. by rewrite Z.mul_comm, Z.div_mul. }
  set (n := region_pages va size) in *.
  destruct (alloc_run e t U n Hfl Hm H Hl)
    as (t1 & Hs1 & [(Hrun & Hc & Hno)|(a & f & Hrun & Hc & Hlf & Ha & Hma & Hhi & HU & H1)]); [lia| |];
    rewrite (bind_ret _ _ _ _ _ Hrun); cbv beta iota.
  { rewrite decide_True by done. by apply MapNoFrames. }
  rewrite decide_False by tauto. fold (without U a n) in H1.
  assert (free_block U a n) as Hblock by done.
  assert (paging_ready t1 (without U a n)) as HR1.
  { unfold paging_ready. split_and!; [by eapply same_locks_flag|by eapply same_locks_free
      |by eapply same_locks_free|done|by rewrite Hc]. }
  assert (forall x, page (core t1) x = page (core t) x) as Hpg1 by (intros x; by rewrite Hc).
  assert (a / 4096 + n < 2 ^ 20) as Ha20 by div_lia.
  assert (forall D s V, more_tables D (core t1) (without U a n) s V -> more_tables D (core t) (without U a n) s V) as Hmt
    by (intros D s V [M1 M2 M3 M4]; rewrite Hc in M1, M2, M3, M4; split; done).
  destruct (mmap_internal_run e t1 (without U a n) va a size ro 1 0 HR1 Hr Ha Ha20)
    as [[(x & Hx & Hn) (t2 & Hrun2 & Hc2 & Hsec)]|[Hnone (err & t2 & V & k & Hrun2 & HR2 & Hs2 & Hres & Hmore & Hpg)]];
    rewrite (bind_ret _ _ _ _ _ Hrun2).
  - rewrite decide_True by done. rewrite Hpg1 in Hn.
    pose proof HR1 as (_ & _ & Hm1 & _).
    destruct (give_back_run t2 (without U a n) a n OS_ERR_MAPPING_ALREADY_EXISTS)
      as [[Hf He]|(r & t3 & f3 & Hf & Hs3 & Hc3 & Hr3 & HV3)].
    + left. apply Hsec.
    + by apply (section_free e PagingLock MemallocLock t1).
    + by rewrite Hc2.
    + done.
    + done.
    + done.
    + done.
    + by intros k Hk [_ ?].
    + rewrite Hf. eapply (MapPoolEmpty t U va size ro x a (core t) (without U a n));
        [done|by left|done|apply more_tables_refl|done].
    + rewrite Hf. apply (MapExisting t U va size ro x a r f3); try done.
      { rewrite Hc3, Hc2, Hc. done. }
      eapply section_moves; [|exact Hs3]. by eapply section_before.
  - pose proof (Hmt _ _ _ Hmore) as Hmore'. destruct Hres as [[-> ->]|(-> & Hk & Hnp & He2)].
    + rewrite decide_False by tauto. rewrite bind_ret_l. apply (MapDone t U va size ro a t2 V).
      * intros x Hx. by rewrite <- Hpg1, Hnone.
      * split; [done|]. split; [by eapply same_locks_trans|]. split; [done|]. split; [done|].
        intros x Hx. by rewrite Hpg, Hpg1.
    + rewrite decide_True by done. pose proof HR2 as (Hfl2 & _ & Hm2 & H2 & _).
      pose proof (more_tables_less _ _ _ _ _ Hmore') as HVU.
      destruct (give_back_run t2 V a n OS_ERR_NO_MORE_FREE_MEM Hfl2 Hm2 H2 Ha Hma Hpos Hhi)
        as [[Hf He]|(r & t3 & f3 & Hf & Hs3 & Hc3 & Hr3 & HV3)]; [by intros j Hj [_ ?]%HVU| |].
      * rewrite Hf. apply (MapPoolEmpty t U va size ro (va / 4096 + k) a (core t2) V); try done; [unfold in_region; lia|].
        right. by rewrite Hc in Hnp.
      * rewrite Hf. apply (MapNoTable t U va size ro a k r t3 V); try done.
        -- intros y Hy. by rewrite <- Hpg1, Hnone.
        -- by rewrite Hc in Hnp.
        -- rewrite Hc3. destruct Hmore' as [M1 M2 M3 M4]. split; [exact M1|exact M2|exact M3|exact M4].
        -- intros y Hy. rewrite Hc3. change (page (with_ps_frames f3 (core t2)) y) with (page (core t2) y).
           by rewrite Hpg, Hpg1.
        -- rewrite Hc3. eapply pg_ok_given_back; [exact H|exact Hmore'|exact H2|exact HU|exact HV3].
        -- eapply same_locks_trans; [exact Hs1|]. by eapply same_locks_trans.
Qed.

(** A call that succeeds. *)
Lemma outcome_ok t U va size ro t1 :
  mmap_outcome t U va size ro (Ret (OS_NO_ERR, t1)) ->
  exists a V, (forall x, in_region va size x -> page (core t) x = None) /\ mapped_region t U va size ro t1 a V.
Proof. inversion 1; subst. by exists a, V. Qed.

Lemma mmap_ok t U va size ro t1 :
  paging_ready t U -> region va size -> kernel_mmap e va size ro t = Ret (OS_NO_ERR, t1) ->
  exists a V, (forall x, in_region va size x -> page (core t) x = None) /\ mapped_region t U va size ro t1 a V.
Proof.
  intros HR Hr Hrun. pose proof (mmap_run t U va size ro HR Hr) as Hout. rewrite Hrun in Hout.
  exact (outcome_ok _ _ _ _ _ _ Hout).
Qed.

(** C4: Every way in which [kernel_mmap] ends, from a state whose page tables
    are well formed, whose locks are free and whose pool has right backward
    links, for a region below the recursive window.  Without enough contiguous
    frames nothing changes.  When no page of the region is mapped, each page
    gets its own frame, in the order of contiguous frames that were free, with
    the flags asked for; page tables are taken from the pool for the entries
    of the directory that lack one, no frame but these and those of the
    region leaves the pool, and no other page changes.  When a page is mapped
    already the tables do not change and the frames are given back, but the
    section is not left.  When there is no frame for a page table the first
    pages stay mapped although the frames are given back.  Giving frames back
    faults only when the pool is left without a frame. *)
Theorem kernel_mmap_correct t U va size ro :
  paging_ready t U -> region va size -> mmap_outcome t U va size ro (kernel_mmap e va size ro t).
Proof. apply mmap_run. Qed.

(** The page [x] of a region that was just mapped. *)
Lemma mapped_page t U va size ro t' a V x :
  region va size -> mapped_region t U va size ro t' a V -> in_region va size x ->
  exists w, page (core t') x = Some w /\ Z.testbit w 9 = false /\ frame_of w = a + 4096 * (x - va / 4096) /\
    block a (region_pages va size) (frame_of w / 4096).
Proof.
  intros Hr (_ & _ & (Ha & Hma & Hhi & _) & _ & Hpg) Hx. unfold in_region in Hx.
  destruct (region_bounds _ _ Hr) as (Hv & Hend & Hpos). destruct (page_flags_ok ro 1 0) as [Hfl _].
  assert (Z.testbit (page_flags ro 1 0) 9 = false) as Hhw by (unfold page_flags; by repeat case_decide).
  eexists. split; [rewrite Hpg, decide_True by (done || unfold page_ok; lia); reflexivity|].
  assert ((4096 * (a / 4096 + (x - va / 4096))) mod 4096 = 0) as Hm by (rewrite Z.mul_comm; by apply Z.mod_mul).
  assert (0 <= 4096 * (a / 4096 + (x - va / 4096)) < 2 ^ 32) as Hb by div_lia.
  unfold frame_of. rewrite <- lor_low by done. rewrite entry_frame by done.
  split; [by rewrite testbit_entry by (done || lia)|].
  assert (4096 * (a / 4096 + (x - va / 4096)) = a + 4096 * (x - va / 4096)) as E by div_lia.
  split; [done|]. rewrite Z.mul_comm, Z.div_mul by done. unfold block. lia.
Qed.

(** The pages that were just mapped can be released. *)
Lemma mapped_releasable t U va size ro t' a V :
  pg_ok (core t) U -> region va size -> mapped_region t U va size ro t' a V ->
  (forall x, in_region va size x -> releasable (core t') V x) /\
  distinct_frames (core t') (va / 4096) (va / 4096 + region_pages va size).
Proof.
  intros H Hr Hm. pose proof (fun x => mapped_page _ _ _ _ _ _ _ _ x Hr Hm) as Hframe.
  destruct Hm as (_ & _ & (Ha & Hma & Hhi & HU) & Hmore & _). split.
  - intros x Hx w Hw _. destruct (Hframe x Hx) as (w' & Hw' & _ & E & Hblk). simplify_eq. split_and!.
    + rewrite E. unfold in_region in Hx. lia.
    + by intros [_ ?]%(more_tables_less _ _ _ _ _ Hmore).
    + rewrite (mt_cr3 _ _ _ _ _ Hmore). intros Ec. rewrite Ec in Hblk. by apply (pg_free_dir _ _ H), HU.
    + intros d Hd Hp Ed. rewrite <- Ed in Hblk. destruct (mt_new _ _ _ _ _ Hmore d Hd Hp) as [Hp0|[_ [_ Hn]]]; [|done].
      destruct (mt_old _ _ _ _ _ Hmore d Hd Hp0) as [_ Ht]. rewrite Ht in Hblk.
      by apply (pg_table _ _ H d Hd Hp0), HU.
  - intros x y w w' Hx Hy Hw Hw' _ _ E.
    destruct (Hframe x Hx) as (? & Hw1 & _ & E1 & _), (Hframe y Hy) as (? & Hw2 & _ & E2 & _).
    simplify_eq. lia.
Qed.

(** No page table that was taken for the region is left. *)
Lemma no_new_table t U va size ro t1 a V t2 W l d :
  (forall x, in_region va size x -> page (core t) x = None) ->
  mapped_region t U va size ro t1 a V -> unmapped_region t1 V va size t2 W l ->
  (forall x, page_ok x -> page (core t2) x = page (core t) x) ->
  0 <= d < 1023 -> present (pde (core t2) d) = true ->
  present (pde (core t) d) = true /\ table (core t2) d = table (core t) d.
Proof.
  intros Hnone (_ & _ & _ & Hmore & _) (_ & _ & Hum) Hpages Hd Hp2.
  destruct (um_tables _ _ _ _ _ _ _ Hum d Hd Hp2) as [Hp1 ->].
  destruct (mt_new _ _ _ _ _ Hmore d Hd Hp1) as [Hp|[(x & Hx & ->) _]].
  - split; [done|]. by apply (mt_old _ _ _ _ _ Hmore).
  - destruct (um_emptied _ _ _ _ _ _ _ Hum x Hx Hp2) as (y & Hy & Ey & Hn).
    rewrite Hpages in Hn by done. destruct (present (pde (core t) (x / 1024))) eqn:Hp.
    + split; [done|]. by apply (mt_old _ _ _ _ _ Hmore).
    + exfalso. apply Hn. unfold page. by rewrite Ey, Hp.
Qed.

(** The frames of the tables that [t] has and [t'] has not. *)
Definition table_gone t t' (k : Z) : Prop := exists a, dropped (core t) (core t') a /\ k = a / 4096.

Lemma released l a : (forall a err, (a, err) ∈ l -> err = OS_NO_ERR \/ err = OS_ERR_MALLOC) ->
  (exists err, (a, err) ∈ l) -> accepted l (a / 4096) \/ refused l (a / 4096).
Proof. intros Herr [err Hin]. destruct (Herr _ _ Hin) as [-> | ->]; [left|right]; by exists a. Qed.

(** The free frames after the two calls. *)
Lemma roundtrip_frames t U va size ro t1 a V t2 W l :
  pg_ok (core t) U -> region va size ->
  mapped_region t U va size ro t1 a V -> unmapped_region t1 V va size t2 W l ->
  (forall d, 0 <= d < 1023 -> present (pde (core t2) d) = true -> present (pde (core t) d) = true) ->
  (forall k, W k -> U k \/ table_gone t t2 k) /\
  (forall k, U k \/ table_gone t t2 k -> W k \/ refused l k).
Proof.
  intros H Hr Hm (_ & _ & Hum) Hno. pose proof (fun x => mapped_page _ _ _ _ _ _ _ _ x Hr Hm) as Hpage.
  destruct Hm as (_ & _ & (Ha & Hma & Hhi & HU) & Hmore & _).
  pose proof (um_given _ _ _ _ _ _ _ Hum) as Hg. pose proof (um_frames _ _ _ _ _ _ _ Hum) as HW. split.
  - intros k [HV|(b & Hb & ->)]%HW; [left; by apply (more_tables_less _ _ _ _ _ Hmore) in HV as [? _]|].
    destruct (proj1 (Hg b) (ex_intro _ OS_NO_ERR Hb)) as [(x & w & Hx & Hw & _ & ->)|(d & Hd & Hp1 & Hp2 & ->)].
    + left. destruct (Hpage x Hx) as (w' & Hw' & _ & _ & Hblk). simplify_eq. by apply HU.
    + destruct (mt_new _ _ _ _ _ Hmore d Hd Hp1) as [Hp|[_ [? _]]]; [right|by left].
      exists (table (core t) d). destruct (mt_old _ _ _ _ _ Hmore d Hd Hp) as [_ ->]. split; [|done]. by exists d.
  - assert (forall b, page_frame (core t1) (va / 4096) (region_pages va size) b \/ dropped (core t1) (core t2) b ->
      W (b / 4096) \/ refused l (b / 4096)) as Hrel.
    { intros b Hb. destruct (released l b (um_errors _ _ _ _ _ _ _ Hum) (proj2 (Hg b) Hb)); [left|by right].
      apply HW. by right. }
    intros k [Hk|(b & (d & Hd & Hp & Hp2 & ->) & ->)].
    2: { apply Hrel. right. exists d. destruct (mt_old _ _ _ _ _ Hmore d Hd Hp) as [Hp1 ->]. done. }
    destruct (decide (Exists (fun p => p.1 / 4096 = k) l)) as [He|He].
    + apply Exists_exists in He as ([b err] & Hb & <-). apply Hrel, Hg. by exists err.
    + assert (forall b, k = b / 4096 ->
        ~ (page_frame (core t1) (va / 4096) (region_pages va size) b \/ dropped (core t1) (core t2) b)) as Hnot
        by (intros b -> [err Hin]%Hg; apply He, Exists_exists; by exists (b, err)).
      left. apply HW. left. apply (mt_frames _ _ _ _ _ Hmore). split; [split; [done|]|].
      * intros Hblk. unfold block in Hblk. destruct (Hpage (va / 4096 + (k - a / 4096))) as (w & Hw & Hb & E & _);
          [unfold in_region; lia|].
        apply (Hnot (frame_of w)); [rewrite E; div_lia|]. left. eexists _, w. split; [|done]. lia.
      * intros (d & Hd & Hp & Hp1 & E). apply (Hnot _ E). right. exists d. split_and!; [lia|lia|done| |done].
        apply not_true_iff_false. intros Hp2. apply Hno in Hp2; [congruence|done].
Qed.

(** C19: [kernel_mmap] followed by [kernel_munmap] of the same region, when
    the first call succeeds.  The page tables are well formed and the locks
    free before the calls, the backward links of the pool are right, the
    region is below the recursive window, and the pool still has a frame after
    the first call.  Then the second call succeeds, every page is mapped as it
    was, no page table is left that was not there, and the locks are as they
    were.  No frame is lost and none is made up: the frames that are free
    afterwards were free before or held a page table that was empty and is
    gone; and each of these frames is free again, unless one of the releases
    [l] that the second call made was refused for want of memory. *)
Theorem mmap_munmap_roundtrip t U va size ro t1 :
  paging_ready t U -> region va size -> kernel_mmap e va size ro t = Ret (OS_NO_ERR, t1) ->
  (exists V k, frames_rep (ps_frames (core t1)) V /\ V k) ->
  exists t2 W l, kernel_munmap e va size t1 = Ret (OS_NO_ERR, t2) /\ same_locks t t2 /\ pg_ok (core t2) W /\
    (forall x, page_ok x -> page (core t2) x = page (core t) x) /\
    (forall d, 0 <= d < 1023 -> present (pde (core t2) d) = true ->
       present (pde (core t) d) = true /\ table (core t2) d = table (core t) d) /\
    pool_run l (ps_frames (core t1)) (ps_frames (core t2)) /\
    (forall k, W k -> U k \/ table_gone t t2 k) /\
    (forall k, U k \/ table_gone t t2 k -> W k \/ refused l k).
Proof.
  intros HR Hr Hrun (V' & k & HV' & Hk). pose proof HR as (_ & _ & _ & H & _).
  destruct (mmap_ok t U va size ro t1 HR Hr Hrun) as (a & V & Hnone & Hm).
  destruct (mapped_releasable _ _ _ _ _ _ _ _ H Hr Hm) as [Hrel Hdis].
  pose proof Hm as ((Hfl & Hlk & Hml & H1 & _) & Hs & _ & _ & Hpg).
  assert (exists k, V k) as HVk by (exists k; by eapply (frames_inj _ _ _ HV' (pg_frames _ _ H1))).
  destruct (munmap_run t1 V va size Hfl Hlk Hml H1 Hr HVk Hrel Hdis) as (t2 & W & l & Hrun2 & Hu).
  pose proof Hu as (Hs2 & H2 & Hum).
  assert (forall x, page_ok x -> page (core t2) x = page (core t) x) as Hpages.
  { intros x Hx. rewrite (um_pages _ _ _ _ _ _ _ Hum) by done. case_decide as Hin; [by rewrite Hnone|].
    by rewrite Hpg, decide_False. }
  pose proof (fun d => no_new_table _ _ _ _ _ _ _ _ _ _ _ d Hnone Hm Hu Hpages) as Hno.
  destruct (roundtrip_frames _ _ _ _ _ _ _ _ _ _ _ H Hr Hm Hu) as [F1 F2]; [intros d Hd Hp; by apply Hno|].
  exists t2, W, l. split_and!; try done; [by eapply same_locks_trans|apply Hum].
Qed.
End Operations.

(** CR0 after [paging_disable]: the mask clears bit 19, not the write-protect
    bit 16 that [paging_enable] set. *)
Theorem paging_disable_keeps_write_protect {fops : FrameOps} (s : pstore) :
  pg_init s = 1 -> pg_enabled s = 0 ->
  exists s1 s2, paging_enable s = Ret (OS_NO_ERR, s1) /\ paging_disable s1 = Ret (OS_NO_ERR, s2) /\
    Z.testbit (cr0 s1) 31 = true /\ Z.testbit (cr0 s1) 16 = true /\
    Z.testbit (cr0 s2) 31 = false /\ Z.testbit (cr0 s2) 16 = true.
Proof.
  intros Hi He.
  exists (with_pg_enabled 1 (with_cr0 (Z.lor (cr0 s) 2147549184) s)),
    (with_pg_enabled 0 (with_cr0 (Z.land (Z.lor (cr0 s) 2147549184) 2146959359) s)).
  split. { unfold paging_enable. rewrite exec_gets, Hi. simpl. rewrite exec_gets, He. done. }
  split. { unfold paging_disable. rewrite exec_gets. cbn [pg_init with_pg_enabled with_cr0]. by rewrite Hi. }
  cbn [cr0 with_pg_enabled with_cr0]. rewrite !Z.land_spec, !Z.lor_spec.
  rewrite !orb_true_r. done.
Qed.

(** ** Witnesses

    A page directory in the frame 1 with one page table, the frame 2; four
    free frames at 0x10000. *)
Definition demo_image : gmap Z Z := {[ 8188 := 4099; 4096 := 8195 ]}.
Definition demo_pstore : pstore :=
  mk_pstore (store_of one_area : frames) (fun _ => mk_handler 0 NULL) demo_image 2147549185 4096 1 1.
Definition demo_paging : kstate pstore :=
  mk_kstate demo_pstore 1 (fun _ => SPINLOCK_INIT_VALUE).
Definition demo_free (k : Z) : Prop := 16 <= k < 20.

Lemma demo_pde d : pde demo_pstore d =
  if decide (d = 1023) then 4099 else if decide (d = 0) then 8195 else 0.
Proof.
  unfold pde, word, demo_pstore, demo_image. cbn [phys cr3].
  destruct (decide (d = 1023)) as [->|H1]; [reflexivity|].
  rewrite lookup_insert_ne by lia. destruct (decide (d = 0)) as [->|H2]; [reflexivity|].
  rewrite lookup_singleton_ne by lia. reflexivity.
Qed.

Lemma demo_pg_ok : pg_ok demo_pstore demo_free /\ links_ok (ps_frames demo_pstore).
Proof.
  destruct one_area_run as (s & L & Hrun & A & HR & Hc & HB).
  assert (store_of one_area = s) as Es by (unfold one_area; rewrite Hrun; reflexivity).
  change (ps_frames demo_pstore) with (store_of one_area : mstore).
  rewrite Es. split; [|exact (ex_intro _ A (ex_intro _ L (conj HR HB)))].
  split.
  - reflexivity.
  - change (cr3 demo_pstore) with 4096. split; [lia|reflexivity].
  - reflexivity.
  - intros d Hd. rewrite demo_pde. repeat case_decide; [lia|reflexivity|discriminate].
  - intros d Hd. unfold table. rewrite demo_pde. repeat case_decide; [lia| |discriminate].
    intros _. split; [discriminate|]. split; [reflexivity|]. unfold demo_free.
    change (Z.land 8195 PG_ENTRY_MASK / 4096) with 2. lia.
  - intros d d' Hd Hd'. rewrite !demo_pde. repeat case_decide; try lia; discriminate.
  - unfold demo_free. change (cr3 demo_pstore / 4096) with 1. lia.
  - change (ps_frames demo_pstore) with (store_of one_area : mstore). rewrite Es.
    exists A, L. split; [exact HR|]. intros x. rewrite Hc. unfold demo_free. div_lia.
Qed.

Lemma demo_paging_ready : paging_ready demo_paging demo_free.
Proof.
  destruct demo_pg_ok. split_and!; [by right|reflexivity|reflexivity|assumption|assumption].
Qed.

Lemma demo_page x : page_ok x -> page demo_pstore x = None.
Proof.
  intros Hx. destruct (page_ok_dir x Hx) as [Hd Hi]. unfold page. rewrite demo_pde.
  destruct (decide (x / 1024 = 1023)) as [E|_]; [lia|].
  destruct (decide (x / 1024 = 0)) as [E|_]; [|reflexivity].
  unfold pte, table. rewrite demo_pde, E.
  change (if decide (0 = 1023) then 4099 else if decide (0 = 0) then 8195 else 0) with 8195.
  change (Z.land 8195 PG_ENTRY_MASK) with 8192. unfold word, demo_pstore, demo_image. cbn [phys].
  rewrite lookup_insert_ne, lookup_singleton_ne by lia. reflexivity.
Qed.

(** Two pages at 0x5000. *)
Lemma demo_region : region 20480 8192 /\ region_pages 20480 8192 = 2.
Proof. split; [split_and!; [lia|lia|unfold PAGING_RECUR_PG_TABLE; lia]|reflexivity]. Qed.

Lemma demo_in_region x : in_region 20480 8192 x -> x = 5 \/ x = 6.
Proof.
  unfold in_region. rewrite (proj2 demo_region). change (20480 / 4096) with 5. lia.
Qed.

Lemma demo_unmapped x : in_region 20480 8192 x -> page demo_pstore x = None.
Proof. intros [-> | ->]%demo_in_region; apply demo_page; unfold page_ok; lia. Qed.

Lemma demo_tables x : in_region 20480 8192 x -> present (pde demo_pstore (x / 1024)) = true.
Proof. intros [-> | ->]%demo_in_region; rewrite demo_pde; reflexivity. Qed.

Lemma mmap_hw_correct_witness :
  exists err t' V, kernel_mmap_hw (mk_cpu 0 2) 20480 4276092928 8192 0 demo_paging = Ret (err, t') /\
    paging_ready t' V /\ err = OS_NO_ERR /\
    page (core t') 6 = Some (4276097024 + page_flags 0 0 1).
Proof.
  destruct (mmap_hw_correct (mk_cpu 0 2) demo_paging demo_free 20480 4276092928 8192 0
    demo_paging_ready (proj1 demo_region)) as (err & t' & V & k & Hrun & HR & _ & Hres & _ & Hpg).
  - lia.
  - rewrite (proj2 demo_region). vm_compute. reflexivity.
  - exact demo_unmapped.
  - exists err, t', V. split; [exact Hrun|]. split; [exact HR|].
    destruct Hres as [[-> ->]|(_ & Hk & Hn & _)].
    + split; [reflexivity|]. rewrite Hpg by (unfold page_ok; lia).
      rewrite (proj2 demo_region). rewrite decide_True by (change (20480 / 4096) with 5; lia). reflexivity.
    + exfalso. change (core demo_paging) with demo_pstore in Hn. rewrite demo_tables in Hn; [discriminate Hn|].
      unfold in_region. lia.
Defined.

(** Two pages at 0x3FF000, the second of which has no page table: the call
    takes three of the four free frames. *)
Lemma split_region : region 4190208 8192 /\ region_pages 4190208 8192 = 2.
Proof. split; [split_and!; [lia|lia|unfold PAGING_RECUR_PG_TABLE; lia]|reflexivity]. Qed.

Definition mapped_paging : kstate pstore :=
  match kernel_mmap (mk_cpu 0 2) 4190208 8192 0 demo_paging with Ret (_, t) => t | _ => demo_paging end.

Lemma mapped_paging_run :
  kernel_mmap (mk_cpu 0 2) 4190208 8192 0 demo_paging = Ret (OS_NO_ERR, mapped_paging).
Proof.
  assert (result_of (kernel_mmap (mk_cpu 0 2) 4190208 8192 0 demo_paging) = Some OS_NO_ERR) as H
    by (vm_compute; reflexivity).
  unfold mapped_paging.
  destruct (kernel_mmap (mk_cpu 0 2) 4190208 8192 0 demo_paging) as [[r t]| | |]; try discriminate H.
  injection H as ->. reflexivity.
Qed.

(** The frame 19 is left. *)
Lemma mapped_paging_left : exists V k, frames_rep (ps_frames (core mapped_paging)) V /\ V k.
Proof.
  destruct (mmap_ok (mk_cpu 0 2) demo_paging demo_free 4190208 8192 0 mapped_paging
    demo_paging_ready (proj1 split_region) mapped_paging_run) as (a & V & _ & HR & _ & (Ha & Hma & _) & Hmore & Hpg).
  exists V, 19. split; [apply HR|].
  assert (a = 65536) as ->.
  { assert (page (core mapped_paging) 1023 = Some 65539) as E by (vm_compute; reflexivity).
    rewrite Hpg, (proj2 split_region) in E by (unfold page_ok; lia).
    change (4190208 / 4096) with 1023 in E. rewrite decide_True in E by lia.
    change (page_flags 0 1 0) with 3 in E. injection E as E. div_lia. }
  apply (mt_frames _ _ _ _ _ Hmore). split; [split; [unfold demo_free; lia|]|].
  - unfold block. rewrite (proj2 split_region). change (65536 / 4096) with 16. lia.
  - intros (d & Hd & Hp0 & Hp1 & E).
    destruct (mt_new _ _ _ _ _ Hmore d Hd Hp1) as [Hp|[(x & Hx & Ed) _]]; [congruence|].
    rewrite (proj2 split_region) in Hx. change (4190208 / 4096) with 1023 in Hx.
    assert (d = 0 \/ d = 1) as [-> | ->] by div_lia.
    + change (core demo_paging) with demo_pstore in Hp0. rewrite demo_pde in Hp0. discriminate Hp0.
    + assert (table (core mapped_paging) 1 / 4096 = 18) as E18 by (vm_compute; reflexivity). lia.
Qed.

Lemma kernel_mmap_correct_witness :
  exists a V, mapped_region demo_paging demo_free 4190208 8192 0 mapped_paging a V /\
    present (pde (core demo_paging) 1) = false /\ present (pde (core mapped_paging) 1) = true.
Proof.
  pose proof (kernel_mmap_correct (mk_cpu 0 2) demo_paging demo_free 4190208 8192 0
    demo_paging_ready (proj1 split_region)) as H.
  rewrite mapped_paging_run in H. destruct (outcome_ok _ _ _ _ _ _ _ H) as (a & V & _ & Hm).
  exists a, V. split; [exact Hm|]. split; vm_compute; reflexivity.
Defined.

Lemma mmap_munmap_roundtrip_witness :
  exists t2 W l, kernel_munmap (mk_cpu 0 2) 4190208 8192 mapped_paging = Ret (OS_NO_ERR, t2) /\
    page (core t2) 1023 = None /\ present (pde (core t2) 1) = false /\ (W 16 \/ refused l 16).
Proof.
  destruct (mmap_munmap_roundtrip (mk_cpu 0 2) demo_paging demo_free 4190208 8192 0 mapped_paging
    demo_paging_ready (proj1 split_region) mapped_paging_run mapped_paging_left)
    as (t2 & W & l & Hrun & _ & _ & Hpg & Htab & _ & _ & HW).
  exists t2, W, l. split; [exact Hrun|]. split_and!.
  - rewrite Hpg by (unfold page_ok; lia). apply demo_page. unfold page_ok. lia.
  - apply not_true_iff_false. intros Hp. destruct (Htab 1 ltac:(lia) Hp) as [Hp1 _].
    change (core demo_paging) with demo_pstore in Hp1. rewrite demo_pde in Hp1. discriminate Hp1.
  - apply HW. left. unfold demo_free. lia.
Defined.

(** A page that is mapped to hardware has nothing to release. *)
Definition hw_paging : kstate pstore :=
  with_core (set_word 8212 (4276092928 + 531) demo_pstore) demo_paging.

Lemma hw_paging_pages : pg_ok (core hw_paging) demo_free /\
  forall v, page_ok v -> page (core hw_paging) v = if decide (v = 5) then Some 4276093459 else None.
Proof.
  destruct (write_entry demo_pstore demo_free 0 5 4276093459 (proj1 demo_pg_ok)) as (H & _ & Hv);
    [lia|rewrite demo_pde; reflexivity|lia|].
  assert (table demo_pstore 0 = 8192) as E by (unfold table; rewrite demo_pde; reflexivity).
  rewrite E in H, Hv. split; [exact H|]. intros v Hp. unfold hw_paging. cbn [core with_core].
  change (4276092928 + 531) with 4276093459. change 8212 with (8192 + 4 * 5). rewrite Hv by exact Hp.
  change (1024 * 0 + 5) with 5. destruct (decide (v = 5)); [reflexivity|]. apply demo_page. exact Hp.
Qed.

Lemma hw_paging_ready : paging_ready hw_paging demo_free.
Proof.
  destruct demo_paging_ready as (H1 & H2 & H3 & _ & H5).
  split_and!; [exact H1|exact H2|exact H3|exact (proj1 hw_paging_pages)|exact H5].
Qed.

Lemma mmap_existing_stays_in_section_witness :
  exists t', kernel_mmap_hw (mk_cpu 0 2) 20480 4276092928 8192 0 hw_paging =
      Ret (OS_ERR_MAPPING_ALREADY_EXISTS, t') /\ int_flag t' = 0 /\ nesting (locks t' PagingLock) = 1.
Proof.
  destruct (mmap_existing_stays_in_section (mk_cpu 0 2) hw_paging demo_free 20480 4276092928 8192 0 5
    hw_paging_ready (proj1 demo_region)) as (t' & Hrun & _ & Hf & Hn).
  - lia.
  - rewrite (proj2 demo_region). vm_compute. reflexivity.
  - unfold in_region. rewrite (proj2 demo_region). change (20480 / 4096) with 5. lia.
  - rewrite (proj2 hw_paging_pages) by (unfold page_ok; lia). discriminate.
  - exists t'. split; [exact Hrun|]. split; [exact Hf|]. apply Hn. reflexivity.
Defined.

Lemma kernel_munmap_correct_witness :
  exists t', kernel_munmap (mk_cpu 0 2) 20480 8192 hw_paging = Ret (OS_NO_ERR, t') /\
    page (core t') 5 = None.
Proof.
  destruct (kernel_munmap_correct (mk_cpu 0 2) hw_paging demo_free 20480 8192
    hw_paging_ready (proj1 demo_region)) as (t' & V & l & Hrun & _ & _ & Hum).
  - exists 16. unfold demo_free. lia.
  - intros x Hx w Hw Hb. rewrite (proj2 hw_paging_pages) in Hw
      by (destruct (demo_in_region x Hx) as [-> | ->]; unfold page_ok; lia).
    destruct (decide (x = 5)); [injection Hw as <-; discriminate Hb|discriminate Hw].
  - rewrite (proj2 demo_region). change (20480 / 4096) with 5. intros x y w w' Hx Hy Hw Hw' Hb.
    rewrite (proj2 hw_paging_pages) in Hw by (unfold page_ok; lia).
    destruct (decide (x = 5)); [injection Hw as <-; discriminate Hb|discriminate Hw].
  - exists t'. split; [exact Hrun|]. rewrite (um_pages _ _ _ _ _ _ _ Hum) by (unfold page_ok; lia).
    rewrite decide_True; [reflexivity|]. rewrite (proj2 demo_region). change (20480 / 4096) with 5. lia.
Defined.

Lemma paging_disable_keeps_write_protect_witness :
  exists s, paging_disable (with_cr0 2147549185 demo_pstore) = Ret (OS_NO_ERR, s) /\
    Z.testbit (cr0 s) 16 = true.
Proof.
  destruct (paging_disable_keeps_write_protect (with_pg_enabled 0 (with_cr0 1 demo_pstore)) eq_refl eq_refl)
    as (s1 & s2 & H1 & H2 & _ & _ & _ & H).
  apply Ret_inj in H1 as [_ E]. rewrite <- E in H2. exists s2. split; [exact H2|exact H].
Defined.

(** when a page table cannot be allocated half-way, [kernel_mmap] releases
    the frames but leaves the pages it has already mapped: here three pages
    stay mapped to frames that are free, and the first of them is handed out
    again. *)
Theorem mmap_failure_leaves_mapping :
  result_of ((let* err := kernel_mmap (mk_cpu 0 2) 4182016 16384 0 in
    let* w := gets (fun t => page (core t) 1021) in
    let* r := memalloc_alloc_kframes (mk_cpu 0 2) 1 in
    ret (err, w, r)) demo_paging) =
  Some (OS_ERR_NO_MORE_FREE_MEM, Some (65536 + page_flags 0 1 0), (65536, OS_NO_ERR)).
Proof. vm_compute. reflexivity. Qed.
