(* ===== verification/PagingInit.v ===== *)
(** * The initial page tables

    [paging_init] builds the page tables of the kernel image from its static
    page directory and four static page tables. *)
From stdpp Require Import functions.
From S2P Require Import Prelude Alloc Critical Interrupts KHeap KHeapSpec KHeapTheorems.
From S2P Require Import Frames MemAlloc MemAllocSpec MemAllocTheorems FramePool FaultHandlers.
From S2P Require Import Paging PagingSpec PagingMap.

Section Init.
Context {fops : FrameOps} `{!FrameSpec fops} (image : kernel_image).
Implicit Types (t : kstate pstore) (s : pstore) (U : Z -> Prop).

(** The physical addresses of the directory and of the four tables. *)
Definition dir_frame : Z := kernel_pgdir image - KERNEL_MEM_OFFSET.
Definition static_table (k : Z) : Z := min_pgtable image - KERNEL_MEM_OFFSET + 4096 * k.

(** They are aligned, apart, and not in the pool of free frames. *)
Record image_ok U : Prop := {
  im_dir : 0 <= dir_frame < 2 ^ 29 /\ dir_frame mod 4096 = 0 /\ ~ U (dir_frame / 4096);
  im_table : 0 <= static_table 0 /\ static_table 4 < 2 ^ 29 /\ static_table 0 mod 4096 = 0;
  im_table_free k : 0 <= k < 4 -> ~ U (static_table k / 4096);
  im_apart k : 0 <= k < 4 -> static_table k <> dir_frame;
}.

(** What the processor will see once CR3 is loaded. *)
Definition view s : pstore := with_cr3 dir_frame s.

Record boot_ok s U : Prop := {
  bo_pg : pg_ok (view s) U;
  bo_link k : 0 <= k < 4 ->
    pde (view s) (896 + k) = 0 /\ (forall i, 0 <= i < 1024 -> word s (static_table k + 4 * i) = 0) \/
    pde (view s) (896 + k) = Z.lor (static_table k) PG_DIR_FLAGS;
  bo_none d : 0 <= d < 1023 -> ~ 896 <= d < 900 -> pde (view s) d = 0;
}.

Lemma static_table_ok U k :
  image_ok U -> 0 <= k < 4 ->
  0 <= static_table k /\ static_table k + 4096 < 2 ^ 32 /\ static_table k mod 4096 = 0.
Proof.
  intros H Hk. destruct (im_table _ H) as (H1 & H2 & H3). unfold static_table in *.
  split; [lia|]. split; [lia|].
  replace (min_pgtable image - KERNEL_MEM_OFFSET + 4096 * k)
    with (min_pgtable image - KERNEL_MEM_OFFSET + 4096 * 0 + k * 4096) by lia.
  by rewrite Z.mod_add.
Qed.

Lemma static_table_inj k k' : static_table k = static_table k' -> k = k'.
Proof. unfold static_table. lia. Qed.

Lemma write_static_run va w s :
  0 <= va - KERNEL_MEM_OFFSET < 2 ^ 32 ->
  write_static va w s = Ret (tt, set_word (va - KERNEL_MEM_OFFSET) w s).
Proof. intros H. unfold write_static, modify. by rewrite u32_small. Qed.

(** ** One page of a section *)
Definition link_page (k i w : Z) s : pstore :=
  set_word (dir_frame + 4 * (896 + k)) (Z.lor (static_table k) PG_DIR_FLAGS)
    (set_word (static_table k + 4 * i) w s).

(** The entry and the link can be written in either order; writing a link
    that is there changes nothing. *)
Lemma link_page_swap U k i w s :
  image_ok U -> 0 <= k < 4 -> 0 <= i < 1024 ->
  link_page k i w s = set_word (static_table k + 4 * i) w
    (set_word (dir_frame + 4 * (896 + k)) (Z.lor (static_table k) PG_DIR_FLAGS) s).
Proof.
  intros H Hk Hi. unfold link_page, set_word, with_phys. simpl. f_equal.
  apply insert_insert_ne. destruct (static_table_ok U k H Hk) as (_ & _ & Hm).
  destruct (im_dir _ H) as (_ & Hm' & _). intros [E _]%word_eq; try done; try lia.
  by apply (im_apart _ H k).
Qed.

Lemma set_word_same a w s : word s a = w -> w <> 0 -> set_word a w s = s.
Proof.
  unfold word, set_word. intros Hw Hn. destruct (phys s !! a) as [w'|] eqn:E; simpl in Hw; [|congruence].
  subst w'. unfold with_phys. rewrite insert_id by done. by destruct s.
Qed.

(** Linking a static table that is empty. *)
Lemma link_table U s k :
  image_ok U -> boot_ok s U -> 0 <= k < 4 ->
  let s' := set_word (dir_frame + 4 * (896 + k)) (Z.lor (static_table k) PG_DIR_FLAGS) s in
  pg_ok (view s') U /\ present (pde (view s') (896 + k)) = true /\
  table (view s') (896 + k) = static_table k /\
  (forall d, 0 <= d < 1024 -> d <> 896 + k -> pde (view s') d = pde (view s) d) /\
  forall x, page_ok x -> page (view s') x = page (view s) x.
Proof.
  intros HI HB Hk s'. destruct (static_table_ok U k HI Hk) as (T1 & T2 & T3).
  destruct pg_dir_flags_bits as (F0 & F1 & F2). pose proof (bo_pg _ _ HB) as H.
  assert (forall d, 0 <= d < 1024 ->
    pde (view s') d = if decide (896 + k = d) then Z.lor (static_table k) PG_DIR_FLAGS else pde (view s) d)
    as Hpde by (intros d Hd; apply (pde_write (view s) U (896 + k)); [done|lia|lia]).
  assert (pde (view s') (896 + k) = Z.lor (static_table k) PG_DIR_FLAGS) as Hd
    by (rewrite Hpde by lia; by rewrite decide_True).
  assert (present (pde (view s') (896 + k)) = true) as Hp
    by (rewrite Hd; unfold present; by rewrite testbit_entry by (done || lia)).
  assert (table (view s') (896 + k) = static_table k) as Ht
    by (unfold table; rewrite Hd; by apply entry_frame; [lia| |]).
  destruct (bo_link _ _ HB k Hk) as [[Hz Hw]|Hl].
  2: { assert (s' = s) as ->.
    { apply set_word_same; [exact Hl|]. rewrite lor_low by done. change PG_DIR_FLAGS with 3. lia. }
    split_and!; done. }
  split_and!; [|done|done| |].
  - apply (pg_ok_new_table (view s) U (896 + k)); try done; try lia.
    + by rewrite Hz.
    + by apply (im_table_free _ HI).
    + by apply (im_apart _ HI).
    + intros d Hd' Hp' E. destruct (decide (896 <= d < 900)) as [Hr|Hr].
      * destruct (bo_link _ _ HB (d - 896)) as [[Hz' _]|Hl']; [lia| |];
          replace (896 + (d - 896)) with d in * by lia; [by rewrite Hz' in Hp'|].
        unfold table in E. rewrite Hl' in E. destruct (static_table_ok U (d - 896) HI) as (? & ? & ?); [lia|].
        rewrite entry_frame in E by (done || lia). apply static_table_inj in E.
        assert (d = 896 + k) as -> by lia. by rewrite Hz in Hp'.
      * by rewrite (bo_none _ _ HB) in Hp' by lia.
  - intros d Hd' Hne. rewrite Hpde by lia. by rewrite decide_False by congruence.
  - intros x Hx. destruct (page_ok_dir x Hx) as [Hxd Hxi].
    destruct (decide (x / 1024 = 896 + k)) as [E|E];
      [|by apply (page_dir_write (view s) U (896 + k)); [|lia| |]].
    unfold page. rewrite E, Hz, Hp. unfold pte. rewrite E, Ht.
    change (word (view s')) with (word s'). unfold s'. rewrite word_set.
    rewrite decide_False, Hw by (done || (destruct (im_dir _ HI) as (_ & ? & _);
      intros [E' _]%word_eq; [by apply (im_apart _ HI k)|done|done|lia|lia])). done.
Qed.

(** Only the memory changes. *)
Definition same_but_phys s s' : Prop := s' = with_phys (phys s') s.

Lemma same_but_phys_trans s1 s2 s3 : same_but_phys s1 s2 -> same_but_phys s2 s3 -> same_but_phys s1 s3.
Proof. unfold same_but_phys. intros H1 H2. rewrite H2, H1. done. Qed.

Lemma link_page_run U s k i w :
  image_ok U -> boot_ok s U -> 0 <= k < 4 -> 0 <= i < 1024 ->
  let s' := link_page k i w s in
  boot_ok s' U /\ same_but_phys s s' /\
  forall x, page_ok x ->
    page (view s') x = if decide (x = 1024 * (896 + k) + i) then entry_page w else page (view s) x.
Proof.
  intros HI HB Hk Hi s'. destruct (link_table U s k HI HB Hk) as (H1 & Hp & Ht & Hother & Hpg).
  unfold s'. rewrite (link_page_swap U) by done.
  set (s1 := set_word (dir_frame + 4 * (896 + k)) _ s) in *.
  destruct (write_entry (view s1) U (896 + k) i w H1) as (H2 & Hk2 & Hv2); [lia|done|lia|].
  rewrite Ht in H2, Hk2, Hv2.
  destruct (static_table_ok U k HI Hk) as (_ & _ & Hm).
  split; [|split; [done|intros x Hx; rewrite <- Hpg by done; by apply Hv2]].
  split; [exact H2| |].
  - intros k' Hk'. change (view (set_word (static_table k + 4 * i) w s1))
      with (set_word (static_table k + 4 * i) w (view s1)). rewrite (kept_pde _ _ Hk2) by lia.
    destruct (decide (k' = k)) as [->|Hne].
    + right. unfold s1. change (view (set_word ?a ?b s)) with (set_word a b (view s)).
      rewrite (pde_write (view s) U) by (apply HB || lia). by rewrite decide_True.
    + rewrite Hother by lia. destruct (bo_link _ _ HB k' Hk') as [[Hz Hw]|Hl]; [left|by right].
      split; [done|]. intros j Hj. destruct (static_table_ok U k' HI Hk') as (_ & _ & Hm').
      unfold s1. rewrite !word_set. rewrite decide_False, decide_False; [by apply Hw|..].
      * destruct (im_dir _ HI) as (_ & ? & _). intros [E _]%word_eq; [by apply (im_apart _ HI k')|done|done|lia|lia].
      * intros [E%static_table_inj _]%word_eq; [done|done|done|lia|lia].
  - intros d Hd Hr. change (view (set_word (static_table k + 4 * i) w s1))
      with (set_word (static_table k + 4 * i) w (view s1)). rewrite (kept_pde _ _ Hk2) by lia.
    rewrite Hother by lia. by apply (bo_none _ _ HB).
Qed.

(** ** A section *)
Definition kernel_page (read_only x : Z) : option Z :=
  Some (4096 * x - KERNEL_MEM_OFFSET + (if decide (read_only <> 0) then 1 else 3)).

Lemma section_entry_page v ro :
  entry_page (Z.lor (Z.lor (4096 * (v - 917504)) (if decide (ro <> 0) then 0 else FLAG_READ_WRITE))
                FLAG_PRESENT) = kernel_page ro v.
Proof.
  rewrite <- Z.lor_assoc. set (fl := Z.lor _ FLAG_PRESENT).
  assert (fl = (if decide (ro <> 0) then 1 else 3)) as -> by (unfold fl; by case_decide).
  assert (4096 * (v - 917504) mod 4096 = 0) as Hm by (rewrite Z.mul_comm; by apply Z.mod_mul).
  unfold entry_page, kernel_page, present. rewrite testbit_entry by (done || lia).
  rewrite lor_low by (done || (case_decide; lia)).
  assert (Z.testbit (if decide (ro <> 0) then 1 else 3) 0 = true) as -> by (by case_decide).
  f_equal. unfold KERNEL_MEM_OFFSET. lia.
Qed.

Lemma map_section_run fuel U s v n ro :
  image_ok U -> boot_ok s U -> (Z.to_nat (pages_of n) < fuel)%nat ->
  917504 <= v -> v + pages_of n <= 921600 ->
  exists s', map_section_loop image fuel (4096 * v) n ro s = Ret (tt, s') /\
    boot_ok s' U /\ same_but_phys s s' /\
    forall x, page_ok x -> page (view s') x =
      if decide (v <= x < v + pages_of n) then kernel_page ro x else page (view s) x.
Proof.
  revert s v n. induction fuel as [|fuel IH]; intros s v n HI HB Hf Hv Hend; [lia|]. cbn [map_section_loop].
  case_decide as Hn.
  2: { exists s. split_and!; try done; [by destruct s|]. intros x _.
    assert (pages_of n <= 0) by (unfold pages_of; div_lia). by rewrite decide_False by lia. }
  assert (pages_of (n - 4096) = pages_of n - 1) as Hpn by (unfold pages_of; div_lia).
  assert (0 < pages_of n) as Hpos by (unfold pages_of; div_lia).
  assert (page_ok v) as Hpv by (unfold page_ok; lia). destruct (page_ok_dir v Hpv) as [Hd Hi].
  destruct (page_indices v) as [-> ->].
  assert (896 <= v / 1024 < 900) as Hvd by div_lia.
  assert (u32 (4096 * v - KERNEL_MEM_OFFSET) = 4096 * (v - 917504)) as ->
    by (unfold KERNEL_MEM_OFFSET; rewrite u32_small by lia; lia).
  assert (Z.land (Z.shiftr (4096 * (v - 917504)) PG_DIR_OFFSET) 1023 = v / 1024 - 896) as ->.
  { change (Z.shiftr (4096 * (v - 917504)) PG_DIR_OFFSET) with (page_dir_index (4096 * (v - 917504))).
    rewrite (proj1 (page_indices (v - 917504))), (Z.land_ones _ 10) by lia.
    change (2 ^ 10) with 1024. div_lia. }
  rewrite decide_False by (unfold KERNEL_RESERVED_PAGING; lia).
  destruct (static_table_ok U (v / 1024 - 896) HI) as (T1 & T2 & T3); [lia|].
  destruct (im_dir _ HI) as (D1 & D2 & _). unfold static_table in T1, T2. unfold dir_frame in D1.
  rewrite (bind_ret _ _ _ _ _ (write_static_run (min_pgtable image + 4096 * (v / 1024 - 896) + 4 * (v mod 1024)) _ s ltac:(lia))).
  rewrite (bind_ret _ _ _ _ _ (write_static_run (kernel_pgdir image + 4 * (v / 1024)) _ _ ltac:(lia))).
  rewrite (u32_small (min_pgtable image + 4096 * (v / 1024 - 896) - KERNEL_MEM_OFFSET)) by lia.
  set (w := Z.lor (Z.lor (4096 * (v - 917504)) _) FLAG_PRESENT).
  replace (kernel_pgdir image + 4 * (v / 1024) - KERNEL_MEM_OFFSET)
    with (dir_frame + 4 * (896 + (v / 1024 - 896))) by (unfold dir_frame; lia).
  replace (min_pgtable image + 4096 * (v / 1024 - 896) + 4 * (v mod 1024) - KERNEL_MEM_OFFSET)
    with (static_table (v / 1024 - 896) + 4 * (v mod 1024)) by (unfold static_table; lia).
  replace (min_pgtable image + 4096 * (v / 1024 - 896) - KERNEL_MEM_OFFSET)
    with (static_table (v / 1024 - 896)) by (unfold static_table; lia).
  fold (link_page (v / 1024 - 896) (v mod 1024) w s).
  destruct (link_page_run U s (v / 1024 - 896) (v mod 1024) w HI HB) as (HB1 & Hs1 & Hv1); [lia|lia|].
  rewrite next_page by lia. unfold KERNEL_PAGE_SIZE.
  destruct (IH _ (v + 1) (n - 4096) HI HB1) as (s' & Hrun & HB' & Hs' & Hv'); [lia|lia|lia|].
  exists s'. split; [exact Hrun|]. split; [done|]. split; [exact (same_but_phys_trans _ _ _ Hs1 Hs')|].
  intros x Hx. rewrite Hv', Hv1 by done.
  replace (1024 * (896 + (v / 1024 - 896)) + v mod 1024) with v by (pose proof (Z.div_mod v 1024); lia).
  unfold w. rewrite section_entry_page.
  repeat case_decide; subst; try done; exfalso; lia.
Qed.

(** The sections lie in the four tables. *)
Definition section_ok (st en : Z) : Prop :=
  KERNEL_MEM_OFFSET <= st <= en /\ en <= KERNEL_MEM_OFFSET + 2 ^ 24.

Lemma map_kernel_section_run U s st en ro :
  image_ok U -> boot_ok s U -> section_ok st en ->
  exists s', map_kernel_section image st (u32 (en - st)) ro s = Ret (tt, s') /\
    boot_ok s' U /\ same_but_phys s s' /\
    forall x, page_ok x -> page (view s') x =
      if decide (in_region st (en - st) x) then kernel_page ro x else page (view s) x.
Proof.
  intros HI HB Hs. unfold section_ok, KERNEL_MEM_OFFSET in Hs. unfold map_kernel_section.
  rewrite region_start by lia. rewrite (u32_small (en - st)) by lia.
  replace (u32 (st - 4096 * (st / 4096) + (en - st))) with (en - st + st mod 4096)
    by (rewrite u32_small by div_lia; div_lia).
  destruct (map_section_run (page_fuel (en - st + st mod 4096)) U s (st / 4096) (en - st + st mod 4096) ro HI HB)
    as (s' & Hrun & HB' & Hs' & Hv); [apply page_fuel_enough; div_lia|div_lia|unfold pages_of; div_lia|].
  exists s'. split; [exact Hrun|]. split; [done|]. split; [done|]. exact Hv.
Qed.

(** ** The directory before any section *)
Lemma zero_pgdir_run n i s :
  0 <= kernel_pgdir image - KERNEL_MEM_OFFSET < 2 ^ 29 -> 0 <= i -> i + Z.of_nat n <= 1024 ->
  exists s', zero_pgdir image n i s = Ret (tt, s') /\ same_but_phys s s' /\
    (forall j, i <= j < i + Z.of_nat n -> word s' (dir_frame + 4 * j) = 0) /\
    (forall a, (forall j, i <= j < i + Z.of_nat n -> a <> dir_frame + 4 * j) -> word s' a = word s a).
Proof.
  intros HD. revert i s. induction n as [|n IH]; intros i s Hi Hn.
  { exists s. split; [done|]. split; [by destruct s|]. split; [lia|done]. }
  cbn [zero_pgdir]. rewrite (bind_ret _ _ _ _ _ (write_static_run (kernel_pgdir image + 4 * i) 0 s ltac:(lia))).
  replace (kernel_pgdir image + 4 * i - KERNEL_MEM_OFFSET) with (dir_frame + 4 * i)
    by (unfold dir_frame; lia).
  destruct (IH (i + 1) (set_word (dir_frame + 4 * i) 0 s)) as (s' & Hrun & Hs & Hz & Ho); [lia|lia|].
  exists s'. split; [done|]. split; [by rewrite Hs|]. split.
  - intros j Hj. destruct (decide (j = i)) as [->|]; [|apply Hz; lia].
    rewrite Ho by (intros j' Hj'; lia). rewrite word_set. by rewrite decide_True.
  - intros a Ha. rewrite Ho by (intros j Hj; apply Ha; lia). rewrite word_set.
    rewrite decide_False; [done|]. intros <-. apply (Ha i); [lia|done].
Qed.

Lemma boot_directory U s :
  image_ok U -> Z.testbit (cr0 s) 31 = true -> frames_rep (ps_frames s) U ->
  (forall k i, 0 <= k < 4 -> 0 <= i < 1024 -> word s (static_table k + 4 * i) = 0) ->
  exists s1 s', zero_pgdir image (Z.to_nat KERNEL_PGDIR_SIZE) 0 s = Ret (tt, s1) /\
    write_static (kernel_pgdir image + 4 * (KERNEL_PGDIR_SIZE - 1))
      (Z.lor (u32 (kernel_pgdir image - KERNEL_MEM_OFFSET)) PG_DIR_FLAGS) s1 = Ret (tt, s') /\
    boot_ok s' U /\ same_but_phys s s' /\ forall x, page_ok x -> page (view s') x = None.
Proof.
  intros HI Hpg Hfr Hbss. destruct (im_dir _ HI) as (D1 & D2 & D3). pose proof D1 as D1'. unfold dir_frame in D1'.
  destruct (zero_pgdir_run (Z.to_nat KERNEL_PGDIR_SIZE) 0 s D1') as (s1 & Hrun & Hs1 & Hz & Ho); [lia|done|].
  set (s2 := set_word (dir_frame + 4 * 1023) (Z.lor dir_frame PG_DIR_FLAGS) s1).
  exists s1, s2. split; [done|]. split.
  { rewrite (u32_small (kernel_pgdir image - KERNEL_MEM_OFFSET)) by lia.
    rewrite write_static_run by (unfold KERNEL_PGDIR_SIZE; lia).
    replace (kernel_pgdir image + 4 * (KERNEL_PGDIR_SIZE - 1) - KERNEL_MEM_OFFSET)
      with (dir_frame + 4 * 1023) by (unfold dir_frame, KERNEL_PGDIR_SIZE; lia). done. }
  assert (forall d, 0 <= d < 1024 ->
    pde (view s2) d = if decide (d = 1023) then Z.lor dir_frame PG_DIR_FLAGS else 0) as Hpde.
  { intros d Hd. change (pde (view s2) d) with (word s2 (dir_frame + 4 * d)). unfold s2. rewrite word_set.
    destruct (decide (d = 1023)) as [->|Hne]; [by rewrite decide_True|].
    rewrite decide_False by lia. apply Hz. change (Z.of_nat (Z.to_nat KERNEL_PGDIR_SIZE)) with 1024. lia. }
  assert (forall d, 0 <= d < 1023 -> pde (view s2) d = 0) as Hpde0
    by (intros d Hd; rewrite Hpde by lia; by rewrite decide_False by lia).
  assert (same_but_phys s s2) as Hs2 by (unfold same_but_phys, s2; by rewrite Hs1).
  split; [split; [split|..]|split; [done|]].
  - by rewrite Hs2.
  - split; [change (cr3 (view s2)) with dir_frame; lia|exact D2].
  - rewrite Hpde by lia. by rewrite decide_True.
  - intros d Hd. rewrite Hpde0 by lia. done.
  - intros d Hd. rewrite Hpde0 by lia. done.
  - intros d d' Hd Hd'. rewrite Hpde0 by lia. done.
  - exact D3.
  - by rewrite Hs2.
  - intros k Hk. left. split; [apply Hpde0; lia|]. intros i Hi.
    destruct (static_table_ok U k HI Hk) as (_ & _ & Hm). unfold s2. rewrite word_set.
    rewrite decide_False; [rewrite Ho; [by apply Hbss|]|].
    + intros j Hj. change (Z.of_nat (Z.to_nat KERNEL_PGDIR_SIZE)) with 1024 in Hj.
      intros [E _]%word_eq; [by apply (im_apart _ HI k)|done|done|lia|lia].
    + intros [E _]%word_eq; [by apply (im_apart _ HI k)|done|done|lia|lia].
  - intros d Hd _. by apply Hpde0.
  - intros x Hx. destruct (page_ok_dir x Hx) as [Hd _]. unfold page. by rewrite Hpde0.
Qed.

(** ** [paging_init] *)
Definition sections : list (Z * Z * Z) :=
  [(code_start image, code_end image, 1); (rodata_start image, rodata_end image, 1);
   (data_start image, data_end image, 0); (bss_start image, bss_end image, 0);
   (struct_start image, struct_end image, 1); (heap_start image, heap_end image, 0)].

(** The page [x] of the kernel: that of the last section that contains it. *)
Fixpoint image_page (l : list (Z * Z * Z)) (x : Z) (acc : option Z) : option Z :=
  match l with
  | [] => acc
  | (st, en, ro) :: l =>
      image_page l x (if decide (in_region st (en - st) x) then kernel_page ro x else acc)
  end.

(** The state [s'] has the image's sections up to those of [l]. *)
Definition built s U s' (l : list (Z * Z * Z)) : Prop :=
  boot_ok s' U /\ same_but_phys s s' /\
  forall x, page_ok x -> page (view s') x = image_page l x None.

Lemma image_page_snoc l st en ro x acc :
  image_page (l ++ [(st, en, ro)]) x acc =
    if decide (in_region st (en - st) x) then kernel_page ro x else image_page l x acc.
Proof. revert acc. induction l as [|[[a b] c] l IH]; intros acc; [done|]. simpl. apply IH. Qed.

Lemma section_step {A} U s t l st en ro (k : unit -> M (kstate pstore) A) :
  image_ok U -> built s U (core t) l -> section_ok st en ->
  exists s', bind (lift (map_kernel_section image st (u32 (en - st)) ro)) k t = k tt (with_core s' t) /\
    built s U s' (l ++ [(st, en, ro)]).
Proof.
  intros HI (HB & Hs & Hpg) Hst.
  destruct (map_kernel_section_run U (core t) st en ro HI HB Hst) as (s' & Hrun & HB' & Hs' & Hv).
  exists s'. split; [exact (exec_lift _ _ _ _ _ Hrun)|]. split; [done|].
  split; [exact (same_but_phys_trans _ _ _ Hs Hs')|]. intros x Hx.
  rewrite image_page_snoc, Hv by done. case_decide; [done|]. by apply Hpg.
Qed.

Definition fault_line_result (hs : handlers) : OS_RETURN_E :=
  if decide (handler (hs PAGE_FAULT_LINE) = NULL) then OS_NO_ERR
  else OS_ERR_INTERRUPT_ALREADY_REGISTERED.
Definition fault_line_handlers (hs : handlers) (h l : Z) : custom_handler :=
  if decide (handler (hs PAGE_FAULT_LINE) = NULL /\ l = PAGE_FAULT_LINE) then mk_handler 1 h else hs l.

Lemma register_fault_line (e : cpu_env) (t : kstate handlers) h :
  flag_ok t -> lock_free ExceptionLock t -> h <> NULL ->
  exists t' : kstate handlers, kernel_exception_register_handler e PAGE_FAULT_LINE h t =
      Ret (fault_line_result (core t), t') /\
    (forall l, core t' l = fault_line_handlers (core t) h l) /\ same_locks t t'.
Proof.
  intros Hf Hl Hh. unfold kernel_exception_register_handler.
  rewrite decide_False by (vm_compute; intros [H|H]; discriminate H). rewrite decide_False by done.
  match goal with |- context [critical _ _ (lift ?m) _] =>
    assert (exists hs, m (core t) = Ret (fault_line_result (core t), hs) /\
      forall l, hs l = fault_line_handlers (core t) h l) as (hs & Hrun & Hhs) end.
  { rewrite exec_gets. unfold fault_line_result, fault_line_handlers.
    destruct (decide (handler (core t PAGE_FAULT_LINE) = NULL)) as [E|E].
    - rewrite decide_False by tauto. eexists. split; [done|]. intros l.
      unfold insert, fn_insert. simpl. repeat case_decide; naive_solver.
    - rewrite decide_True by done. exists (core t). split; [done|]. intros l.
      by rewrite decide_False by tauto. }
  destruct (critical_lift e ExceptionLock _ t _ _ Hf Hl Hrun) as (t' & Ht & Hc & Hs).
  exists t'. split; [done|]. split; [by rewrite Hc|done].
Qed.

(** Runs the next section of the goal. *)
Ltac run_section HI HB s' HB' :=
  match goal with |- context [bind (lift (map_kernel_section _ ?st (u32 (?en - ?st)) ?ro)) ?k ?t] =>
    let E := fresh "E" in
    destruct (section_step _ _ t _ st en ro k HI HB ltac:(assumption)) as (s' & E & HB');
    rewrite E; clear E
  end.

(** C6: [paging_init], from the boot page tables.  Whatever the exception
    table answers, it leaves well-formed page tables with the recursive entry,
    in which every page of a section of the kernel is mapped to its place in
    the image, writable unless the section is read-only, and no other page
    below the recursive window is mapped; the frames of the pool are
    untouched. *)
Theorem paging_init_correct (e : cpu_env) t U h :
  flag_ok t -> lock_free ExceptionLock t -> h <> NULL -> image_ok U ->
  Forall (fun x => section_ok x.1.1 x.1.2) sections ->
  Z.testbit (cr0 (core t)) 31 = true -> frames_rep (ps_frames (core t)) U ->
  (forall k i, 0 <= k < 4 -> 0 <= i < 1024 -> word (core t) (static_table k + 4 * i) = 0) ->
  exists t', paging_init e image h t = Ret (fault_line_result (ps_exceptions (core t)), t') /\
    same_locks t t' /\ pg_init (core t') = 1 /\
    (forall l, ps_exceptions (core t') l = fault_line_handlers (ps_exceptions (core t)) h l) /\
    pg_ok (core t') U /\
    forall x, page_ok x -> page (core t') x = image_page sections x None.
Proof.
  intros Hf Hl Hh HI Hsec Hpg Hfr Hbss. unfold paging_init.
  destruct (boot_directory U (core t) HI Hpg Hfr Hbss) as (s1 & s2 & Hr1 & Hr2 & HB & Hs & Hv).
  rewrite (exec_lift _ _ t _ _ Hr1), (exec_lift _ _ (with_core s1 t) _ _ Hr2).
  assert (built (core t) U s2 []) as HB0 by (split_and!; done).
  unfold sections in Hsec. do 6 apply Forall_cons in Hsec as [? Hsec].
  simpl fst in *. simpl snd in *.
  run_section HI HB0 s3 HB1. run_section HI HB1 s4 HB2. run_section HI HB2 s5 HB3.
  run_section HI HB3 s6 HB4. run_section HI HB4 s7 HB5. run_section HI HB5 s8 HB6.
  destruct HB6 as (HB6 & Hs8 & Hpages).
  destruct (register_fault_line e (with_core (ps_exceptions s8) t) h Hf Hl Hh) as (tx & Hx & Hhs & Hlx).
  set (t8 := with_core s8 _).
  assert (kzoom ps_exceptions with_ps_exceptions
      (kernel_exception_register_handler e PAGE_FAULT_LINE h) t8 =
    Ret (fault_line_result (ps_exceptions s8),
      mk_kstate (with_ps_exceptions (core tx) s8) (int_flag tx) (locks tx))) as Hz.
  { unfold kzoom, zoom. change (with_core (ps_exceptions (core t8)) t8)
      with (with_core (ps_exceptions s8) t). by rewrite Hx. }
  rewrite (bind_ret _ _ _ _ _ Hz). clear Hz t8.
  assert (ps_exceptions s8 = ps_exceptions (core t)) as He by (by rewrite Hs8).
  rewrite He in *. eexists. split; [reflexivity|]. split; [exact Hlx|]. split; [reflexivity|].
  split; [exact Hhs|]. destruct (im_dir _ HI) as (D1 & _ & _). unfold dir_frame in D1.
  simpl. rewrite (u32_small (kernel_pgdir image - KERNEL_MEM_OFFSET)) by lia. split.
  - apply (pg_ok_kept (view s8)); [apply HB6|split; done|done].
  - exact Hpages.
Qed.
End Init.

(** *** Witness: an image at 1 MB, with the pool of four frames *)
Definition demo_kernel : kernel_image :=
  let b := KERNEL_MEM_OFFSET in
  mk_image (b + 1048576) (b + 1050624) (b + 1052672) (b + 1052688) (b + 1056768) (b + 1057024)
    (b + 1060864) (b + 1089536) (b + 1089536) (b + 1089792) (b + 1093632) (b + 1097728)
    (b + 1060864) (b + 1064960).

Definition pool_free (k : Z) : Prop := 16 <= k < 20.

Definition boot_paging : kstate pstore :=
  mk_kstate (mk_pstore (store_of one_area : frames) (fun _ => mk_handler 0 NULL) ∅ 2147549184 0 0 0) 1
    (fun _ => SPINLOCK_INIT_VALUE).

Lemma demo_kernel_ok : image_ok demo_kernel pool_free.
Proof.
  split.
  - change (dir_frame demo_kernel) with 1060864. split; [lia|]. split; [reflexivity|].
    unfold pool_free. change (1060864 / 4096) with 259. lia.
  - change (static_table demo_kernel 0) with 1064960. change (static_table demo_kernel 4) with 1081344.
    split; [lia|]. split; [lia|reflexivity].
  - intros k Hk. change (static_table demo_kernel k) with (1064960 + 4096 * k). unfold pool_free. div_lia.
  - intros k Hk. change (static_table demo_kernel k) with (1064960 + 4096 * k).
    change (dir_frame demo_kernel) with 1060864. lia.
Qed.

Lemma boot_pool : frames_rep (ps_frames (core boot_paging)) pool_free.
Proof.
  destruct one_area_run as (s & L & Hrun & A & HR & Hc & _).
  assert (store_of one_area = s) as Es by (unfold one_area; rewrite Hrun; reflexivity).
  change (ps_frames (core boot_paging)) with (store_of one_area : mstore). rewrite Es.
  exists A, L. split; [exact HR|]. intros x. rewrite Hc. unfold pool_free. div_lia.
Qed.

Lemma demo_sections : Forall (fun x => section_ok x.1.1 x.1.2) (sections demo_kernel).
Proof.
  unfold sections, demo_kernel, section_ok. cbn.
  repeat (constructor; [cbn [fst snd]; lia|]). constructor.
Qed.

Lemma paging_init_correct_witness :
  exists t', paging_init (mk_cpu 0 2) demo_kernel 4242 boot_paging = Ret (OS_NO_ERR, t') /\
    pg_ok (core t') pool_free /\
    page (core t') 917760 = Some 1048577 /\ page (core t') 917771 = Some 1093635 /\
    page (core t') 917772 = None.
Proof.
  destruct (paging_init_correct demo_kernel (mk_cpu 0 2) boot_paging pool_free 4242
    (or_intror eq_refl) eq_refl ltac:(discriminate) demo_kernel_ok demo_sections eq_refl boot_pool
    (fun _ _ _ _ => eq_refl)) as (t' & Hrun & _ & _ & _ & Hok & Hpg).
  exists t'. split; [exact Hrun|]. split; [exact Hok|].
  rewrite !Hpg by (unfold page_ok; lia). split; [|split]; reflexivity.
Defined.
