(* ===== verification/LibDiv.v ===== *)
(** * 64-bit division ([lib/div64.c], [lib/udivmoddi4.c])

    The compiler calls these functions for the operators [/] and [%] on 64-bit
    integers.  [__qdivrem] is Knuth's algorithm D on 16-bit digits kept in
    three arrays of five digits; its locals [u], [v] and [q] are pointers that
    move inside the arrays, here an offset each.  [__udivmoddi4] shifts and
    subtracts.  Both are proved in [LibDivTheorems]. *)
From S2P Require Import Prelude.

(** ** Digits ([HALF_BITS] is 16) *)

Definition HALF_BITS : Z := 16.
Definition B : Z := 2 ^ HALF_BITS.
Definition digit (x : Z) : Z := x mod 2 ^ 16.
Definition HHALF (x : Z) : Z := Z.shiftr (u32 x) HALF_BITS.
Definition LHALF (x : Z) : Z := Z.land (u32 x) (B - 1).
Definition COMBINE (a b : Z) : Z := Z.lor (u32 (Z.shiftl (u32 a) HALF_BITS)) b.

(** The two 32-bit halves of a quad. *)
Definition quad_high (x : Z) : Z := Z.shiftr x 32.
Definition quad_low (x : Z) : Z := Z.land x (2 ^ 32 - 1).
Definition quad (h l : Z) : Z := Z.lor (Z.shiftl h 32) l.

(** ** The three arrays, with whatever they hold when the function starts *)

Inductive space : Type := uspace | vspace | qspace.
#[export] Instance space_eq_dec : EqDecision space.
Proof. solve_decision. Defined.

Definition digits : Type := space -> Z -> Z.

Definition dset (s : digits) (sp : space) (i x : Z) : digits := fun sp' i' =>
  if decide (sp' = sp /\ i' = i) then x else s sp' i'.

(** An access outside of the five digits is undefined. *)
Definition rd (sp : space) (i : Z) : M digits Z := fun s =>
  if decide (0 <= i < 5) then Ret (s sp i, s) else Fault.
Definition wr (sp : space) (i x : Z) : M digits unit := fun s =>
  if decide (0 <= i < 5) then Ret (tt, dset s sp i (digit x)) else Fault.

(** ** [shl] *)

Fixpoint shl_loop (k : nat) (sp : space) (p i sh : Z) : M digits unit :=
  match k with
  | O => ret tt
  | S k =>
    let* x := rd sp (p + i) in
    let* y := rd sp (p + i + 1) in
    wr sp (p + i) (Z.lor (LHALF (u32 (Z.shiftl x sh))) (Z.shiftr y (HALF_BITS - sh))) >>>
    shl_loop k sp p (i + 1) sh
  end.

Definition shl (sp : space) (p len sh : Z) : M digits unit :=
  shl_loop (Z.to_nat len) sp p 0 sh >>>
  let* x := rd sp (p + len) in
  wr sp (p + len) (LHALF (u32 (Z.shiftl x sh))).

(** ** [__qdivrem] *)

(** [u[0] = 0; u[1] = (digit)HHALF(tmp.ul[H]); ...] *)
Definition split_quad (sp : space) (x : Z) : M digits unit :=
  wr sp 1 (HHALF (quad_high x)) >>>
  wr sp 2 (LHALF (quad_high x)) >>>
  wr sp 3 (HHALF (quad_low x)) >>>
  wr sp 4 (LHALF (quad_low x)).

Definition join_quad (sp : space) : M digits Z :=
  let* a := rd sp 1 in
  let* b := rd sp 2 in
  let* c := rd sp 3 in
  let* d := rd sp 4 in
  ret (quad (COMBINE a b) (COMBINE c d)).

(** [for (n = 4; v[1] == 0; v++) if (--n == 1) ...]: the number of digits of
    the divisor and the offset of [v]; 1 for the change of plan. *)
Fixpoint divisor_loop (fuel : nat) (n v : Z) : M digits (Z * Z) :=
  match fuel with
  | O => diverge
  | S fuel =>
    let* v1 := rd vspace (v + 1) in
    if decide (v1 = 0) then
      if decide (n - 1 = 1) then ret (1, v) else divisor_loop fuel (n - 1) (v + 1)
    else ret (n, v)
  end.

(** The division by a single digit, unrolled. *)
Definition short_division (v : Z) (arq : bool) : M digits (Z * option Z) :=
  let* t := rd vspace (v + 2) in
  let* u1 := rd uspace 1 in
  let* u2 := rd uspace 2 in
  let* u3 := rd uspace 3 in
  let* u4 := rd uspace 4 in
  let q1 := digit (u1 / t) in
  let rbj := COMBINE (u1 mod t) u2 in
  let q2 := digit (rbj / t) in
  let rbj := COMBINE (rbj mod t) u3 in
  let q3 := digit (rbj / t) in
  let rbj := COMBINE (rbj mod t) u4 in
  let q4 := digit (rbj / t) in
  ret (quad (COMBINE q1 q2) (COMBINE q3 q4), if arq then Some (rbj mod t) else None).

(** [for (m = 4 - n; u[1] == 0; u++) m--;] *)
Fixpoint dividend_loop (fuel : nat) (m u : Z) : M digits (Z * Z) :=
  match fuel with
  | O => diverge
  | S fuel =>
    let* u1 := rd uspace (u + 1) in
    if decide (u1 = 0) then dividend_loop fuel (m - 1) (u + 1) else ret (m, u)
  end.

(** [for (i = 4 - m; --i >= 0;) q[i] = 0;] *)
Fixpoint zero_loop (i : nat) : M digits unit :=
  match i with
  | O => ret tt
  | S i => wr qspace (Z.of_nat i) 0 >>> zero_loop i
  end.

(** D1: [for (t = v[1]; t < B / 2; t <<= 1) d++;] *)
Fixpoint norm_loop (fuel : nat) (t d : Z) : option Z :=
  match fuel with
  | O => None
  | S fuel => if decide (t < B / 2) then norm_loop fuel (u32 (Z.shiftl t 1)) (d + 1) else Some d
  end.

(** D3: the loop that lowers the estimate, entered at its test, and entered
    at the label [qhat_too_big]. *)
Fixpoint qhat_test (fuel : nat) (v1 v2 uj2 qhat rhat : Z) : option Z :=
  match fuel with
  | O => None
  | S fuel =>
    if decide (u32 (v2 * qhat) > COMBINE rhat uj2) then
      let qhat := u32 (qhat - 1) in
      let rhat := u32 (rhat + v1) in
      if decide (rhat >= B) then Some qhat else qhat_test fuel v1 v2 uj2 qhat rhat
    else Some qhat
  end.

Definition qhat_too_big (fuel : nat) (v1 v2 uj2 qhat rhat : Z) : option Z :=
  let qhat := u32 (qhat - 1) in
  let rhat := u32 (rhat + v1) in
  if decide (rhat >= B) then Some qhat else qhat_test fuel v1 v2 uj2 qhat rhat.

Definition estimate (v1 v2 uj0 uj1 uj2 : Z) : option Z :=
  if decide (uj0 = v1) then qhat_too_big 3 v1 v2 uj2 B uj1
  else
    let nn := COMBINE uj0 uj1 in
    qhat_test 3 v1 v2 uj2 (nn / v1) (nn mod v1).

(** D4: [for (t = 0, i = n; i > 0; i--) ...]; returns the borrow. *)
Fixpoint mulsub_loop (i : nat) (u v j qhat t : Z) : M digits Z :=
  match i with
  | O => ret t
  | S i' =>
    let* ui := rd uspace (u + (Z.of_nat i + j)) in
    let* vi := rd vspace (v + Z.of_nat i) in
    let t := u32 (ui - u32 (vi * qhat) - t) in
    wr uspace (u + (Z.of_nat i + j)) (LHALF t) >>>
    mulsub_loop i' u v j qhat (Z.land (u32 (B - HHALF t)) (B - 1))
  end.

(** D6: [for (t = 0, i = n; i > 0; i--) ...]; returns the carry. *)
Fixpoint addback_loop (i : nat) (u v j t : Z) : M digits Z :=
  match i with
  | O => ret t
  | S i' =>
    let* ui := rd uspace (u + (Z.of_nat i + j)) in
    let* vi := rd vspace (v + Z.of_nat i) in
    let t := u32 (t + (ui + vi)) in
    wr uspace (u + (Z.of_nat i + j)) (LHALF t) >>>
    addback_loop i' u v j (HHALF t)
  end.

(** One turn of the main loop: D3 to D6 and the store of the digit. *)
Definition division_step (n u v q j v1 v2 : Z) : M digits unit :=
  let* uj0 := rd uspace (u + (j + 0)) in
  let* uj1 := rd uspace (u + (j + 1)) in
  let* uj2 := rd uspace (u + (j + 2)) in
  match estimate v1 v2 uj0 uj1 uj2 with
  | None => diverge
  | Some qhat =>
    let* t := mulsub_loop (Z.to_nat n) u v j qhat 0 in
    let* uj := rd uspace (u + j) in
    let t := u32 (uj - t) in
    wr uspace (u + j) (LHALF t) >>>
    if decide (HHALF t <> 0) then
      let qhat := u32 (qhat - 1) in
      let* t := addback_loop (Z.to_nat n) u v j 0 in
      let* uj := rd uspace (u + j) in
      wr uspace (u + j) (LHALF (u32 (uj + t))) >>>
      wr qspace (q + j) (digit qhat)
    else wr qspace (q + j) (digit qhat)
  end.

(** [do { ... } while (++j <= m);] with [k] turns left. *)
Fixpoint division_loop (k : nat) (n u v q j v1 v2 : Z) : M digits unit :=
  match k with
  | O => ret tt
  | S k => division_step n u v q j v1 v2 >>> division_loop k n u v q (j + 1) v1 v2
  end.

(** [for (i = m + n; i > m; --i) u[i] = (u[i] >> d) | LHALF(u[i - 1] << (HALF_BITS - d));] *)
Fixpoint unshift_loop (k : nat) (u m d : Z) : M digits unit :=
  match k with
  | O => ret tt
  | S k' =>
    let* x := rd uspace (u + (m + Z.of_nat k)) in
    let* y := rd uspace (u + (m + Z.of_nat k - 1)) in
    wr uspace (u + (m + Z.of_nat k))
       (Z.lor (Z.shiftr x d) (LHALF (u32 (Z.shiftl y (HALF_BITS - d))))) >>>
    unshift_loop k' u m d
  end.

Definition remainder (u m n d : Z) (arq : bool) : M digits (option Z) :=
  if arq then
    (if decide (d <> 0) then unshift_loop (Z.to_nat n) u m d >>> wr uspace (u + m) 0
     else ret tt) >>>
    let* r := join_quad uspace in
    ret (Some r)
  else ret None.

Definition long_division (n v : Z) (arq : bool) : M digits (Z * option Z) :=
  let* (m, u) := dividend_loop 5 (4 - n) 0 in
  zero_loop (Z.to_nat (4 - m)) >>>
  let q := 4 - m in
  let* t := rd vspace (v + 1) in
  match norm_loop 17 t 0 with
  | None => diverge
  | Some d =>
    (if decide (d > 0) then
       shl uspace u (m + n) d >>> shl vspace (v + 1) (n - 1) d
     else ret tt) >>>
    let* v1 := rd vspace (v + 1) in
    let* v2 := rd vspace (v + 2) in
    division_loop (Z.to_nat (m + 1)) n u v q 0 v1 v2 >>>
    let* rem := remainder u m n d arq in
    let* quo := join_quad qspace in
    ret (quo, rem)
  end.

(** The value and, when [arq] is not null, what it stores at [arq]. *)
Definition __qdivrem (uq vq : Z) (arq : bool) : M digits (Z * option Z) :=
  if decide (vq = 0) then ret (0, if arq then Some uq else None)
  else if decide (uq < vq) then ret (0, if arq then Some uq else None)
  else
    wr uspace 0 0 >>>
    split_quad uspace uq >>>
    split_quad vspace vq >>>
    let* (n, v) := divisor_loop 4 4 0 in
    if decide (n = 1) then short_division v arq else long_division n v arq.

Definition __umoddi3 (a b : Z) : M digits Z :=
  let* (_, r) := __qdivrem a b true in
  match r with Some r => ret r | None => fault end.

Definition __udivdi3 (a b : Z) : M digits Z :=
  let* (q, _) := __qdivrem a b false in ret q.

(** ** [__udivmoddi4] *)

(** [while ((int64_t)den >= 0) { den <<= 1; qbit <<= 1; }] *)
Fixpoint justify_loop (fuel : nat) (den qbit : Z) : option (Z * Z) :=
  match fuel with
  | O => None
  | S fuel =>
    if decide (den < 2 ^ 63) then justify_loop fuel (u64 (Z.shiftl den 1)) (u64 (Z.shiftl qbit 1))
    else Some (den, qbit)
  end.

(** [while (qbit) { ... }]: the quotient and the remainder. *)
Fixpoint subtract_loop (fuel : nat) (num den qbit quot : Z) : option (Z * Z) :=
  match fuel with
  | O => None
  | S fuel =>
    if decide (qbit = 0) then Some (quot, num)
    else
      let '(num, quot) :=
        if decide (den <= num) then (u64 (num - den), u64 (quot + qbit)) else (num, quot) in
      subtract_loop fuel num (Z.shiftr den 1) (Z.shiftr qbit 1) quot
  end.

(** A null divisor is divided by, which is undefined. *)
Definition __udivmoddi4 (num den : Z) (rem_p : bool) : M digits (Z * option Z) :=
  if decide (den = 0) then fault
  else
    match justify_loop 64 den 1 with
    | None => diverge
    | Some (den, qbit) =>
      match subtract_loop 65 num den qbit 0 with
      | None => diverge
      | Some (quot, num) => ret (quot, if rem_p then Some num else None)
      end
    end.
