(* ===== verification/LibDivSpec.v ===== *)
(** * 64-bit division: digits and loops

    The halves and the digits as arithmetic, the value of a sequence of
    digits, then the loops of [__qdivrem] one by one. *)
From S2P Require Import Prelude LibDiv.

(** ** Halves and digits as arithmetic *)

Lemma lor_mul_add a b k : 0 <= k -> 0 <= b < 2 ^ k -> Z.lor (a * 2 ^ k) b = a * 2 ^ k + b.
Proof.
  intros Hk Hb. symmetry. apply Z.add_nocarry_lor.
  rewrite <- (Z.mod_small b (2 ^ k)) by done. rewrite <- Z.land_ones by done.
  rewrite (Z.land_comm b), Z.land_assoc, Z.land_ones by done.
  rewrite Z.mod_mul by lia. apply Z.land_0_l.
Qed.

Lemma B_eq : B = 65536. Proof. done. Qed.

Lemma HHALF_div x : 0 <= x < 2 ^ 32 -> HHALF x = x / B.
Proof. intros. unfold HHALF, B. rewrite u32_small by done. by rewrite Z.shiftr_div_pow2. Qed.

Lemma LHALF_mod x : LHALF x = x mod B.
Proof.
  unfold LHALF, B. change (2 ^ HALF_BITS - 1) with (Z.ones 16). rewrite Z.land_ones by done.
  unfold u32, HALF_BITS. div_lia.
Qed.

Lemma LHALF_range x : 0 <= LHALF x < B.
Proof. rewrite LHALF_mod. by apply Z.mod_pos_bound. Qed.

Lemma digit_small x : 0 <= x < B -> digit x = x.
Proof. intros. unfold digit. by apply Z.mod_small. Qed.

Lemma COMBINE_add a b : 0 <= a < B -> 0 <= b < B -> COMBINE a b = a * B + b.
Proof.
  rewrite B_eq. intros. unfold COMBINE. rewrite (u32_small a), Z.shiftl_mul_pow2 by (done || lia).
  change (2 ^ HALF_BITS) with 65536. rewrite u32_small by lia.
  by apply (lor_mul_add a b 16).
Qed.

Lemma quad_add h l : 0 <= l < 2 ^ 32 -> quad h l = h * 2 ^ 32 + l.
Proof. intros. unfold quad. rewrite Z.shiftl_mul_pow2 by done. by apply lor_mul_add. Qed.

Lemma quad_high_div x : quad_high x = x / 2 ^ 32.
Proof. unfold quad_high. by rewrite Z.shiftr_div_pow2. Qed.

Lemma quad_low_mod x : quad_low x = x mod 2 ^ 32.
Proof. unfold quad_low. change (2 ^ 32 - 1) with (Z.ones 32). by rewrite Z.land_ones. Qed.

(** ** The value of digits, the most significant first *)

Fixpoint digits_val (a : Z -> Z) (lo : Z) (n : nat) : Z :=
  match n with
  | O => 0
  | S n => a lo * B ^ Z.of_nat n + digits_val a (lo + 1) n
  end.

Definition is_digits (a : Z -> Z) (lo : Z) (n : nat) : Prop :=
  forall i, lo <= i < lo + Z.of_nat n -> 0 <= a i < B.

Lemma pow_B_S n : B ^ Z.of_nat (S n) = B * B ^ Z.of_nat n.
Proof. rewrite Nat2Z.inj_succ. by rewrite Z.pow_succ_r by lia. Qed.

Lemma pow_B_pos n : 0 < B ^ Z.of_nat n.
Proof. apply Z.pow_pos_nonneg; [done|lia]. Qed.

Lemma digits_val_ext a b lo n :
  (forall i, lo <= i < lo + Z.of_nat n -> a i = b i) -> digits_val a lo n = digits_val b lo n.
Proof.
  revert lo. induction n as [|n IH]; intros lo H; [done|].
  cbn [digits_val]. rewrite H by lia. rewrite (IH (lo + 1)); [done|]. intros. apply H. lia.
Qed.

Lemma digits_val_range a lo n : is_digits a lo n -> 0 <= digits_val a lo n < B ^ Z.of_nat n.
Proof.
  revert lo. induction n as [|n IH]; intros lo H; [done|].
  cbn [digits_val]. rewrite pow_B_S. specialize (IH (lo + 1)).
  assert (0 <= a lo < B) by (apply H; lia).
  assert (is_digits a (lo + 1) n) as Hn by (intros i Hi; apply H; lia).
  specialize (IH Hn). pose proof (pow_B_pos n). nia.
Qed.

Lemma digits_val_snoc a lo n :
  digits_val a lo (S n) = digits_val a lo n * B + a (lo + Z.of_nat n).
Proof.
  revert lo. induction n as [|n IH]; intros lo.
  { cbn [digits_val]. replace (lo + Z.of_nat 0) with lo by lia. simpl (Z.of_nat 0). lia. }
  cbn [digits_val]. cbn [digits_val] in IH. rewrite IH, pow_B_S.
  replace (lo + 1 + Z.of_nat n) with (lo + Z.of_nat (S n)) by lia. lia.
Qed.

Lemma digits_val_app a lo n k :
  digits_val a lo (n + k) = digits_val a lo n * B ^ Z.of_nat k + digits_val a (lo + Z.of_nat n) k.
Proof.
  revert lo. induction n as [|n IH]; intros lo.
  { cbn [digits_val Nat.add]. replace (lo + Z.of_nat 0) with lo by lia. lia. }
  cbn [digits_val Nat.add]. rewrite IH, Nat2Z.inj_add, Z.pow_add_r by lia.
  replace (lo + 1 + Z.of_nat n) with (lo + Z.of_nat (S n)) by lia. lia.
Qed.

Lemma digits_val_zero a lo n :
  (forall i, lo <= i < lo + Z.of_nat n -> a i = 0) -> digits_val a lo n = 0.
Proof.
  revert lo. induction n as [|n IH]; intros lo H; [done|].
  cbn [digits_val]. rewrite H, IH; [done| |lia]. intros. apply H. lia.
Qed.

(** A value below [B ^ k] has only zeros before its last [k] digits. *)
Lemma digits_val_high_zero a lo n k :
  is_digits a lo (n + k) -> digits_val a lo (n + k) < B ^ Z.of_nat k ->
  forall i, lo <= i < lo + Z.of_nat n -> a i = 0.
Proof.
  revert lo. induction n as [|n IH]; intros lo Hd Hv i Hi; [lia|].
  cbn [Nat.add digits_val] in Hv.
  assert (is_digits a (lo + 1) (n + k)) as Hd1 by (intros x Hx; apply Hd; lia).
  pose proof (digits_val_range _ _ _ Hd1). assert (0 <= a lo < B) as Ha by (apply Hd; lia).
  assert (B ^ Z.of_nat k <= B ^ Z.of_nat (n + k)) by (apply Z.pow_le_mono_r; [done|lia]).
  pose proof (pow_B_pos k).
  assert (a lo = 0) as Hz by nia.
  destruct (decide (i = lo)) as [->|]; [done|].
  apply (IH (lo + 1)); [done| |lia]. rewrite Hz in Hv. lia.
Qed.

(** ** Accesses *)

Lemma rd_run {A} sp i (k : Z -> M digits A) s :
  0 <= i < 5 -> bind (rd sp i) k s = k (s sp i) s.
Proof. intros. unfold bind, rd. by rewrite decide_True. Qed.

Lemma wr_run {A} sp i x (k : unit -> M digits A) s :
  0 <= i < 5 -> 0 <= x < B -> bind (wr sp i x) k s = k tt (dset s sp i x).
Proof. intros. unfold bind, wr. by rewrite decide_True, digit_small. Qed.

Lemma wr_run_last sp i x s :
  0 <= i < 5 -> 0 <= x < B -> wr sp i x s = Ret (tt, dset s sp i x).
Proof. intros. unfold wr. by rewrite decide_True, digit_small. Qed.

Lemma dset_eq s sp i x : dset s sp i x sp i = x.
Proof. unfold dset. by rewrite decide_True. Qed.

Lemma dset_ne s sp i x sp' i' : sp' <> sp \/ i' <> i -> dset s sp i x sp' i' = s sp' i'.
Proof. intros. unfold dset. rewrite decide_False; [done|]. intros []. naive_solver. Qed.

Lemma rd_run_eq {A} sp i i' (k : Z -> M digits A) s :
  i = i' -> 0 <= i' < 5 -> bind (rd sp i) k s = k (s sp i') s.
Proof. intros -> ?. by apply rd_run. Qed.

(** ** The estimate of a quotient digit *)

Lemma qhat_test_spec fuel v1 v2 uj2 qhat rhat :
  0 <= v1 < B -> 0 <= v2 < B -> 0 <= uj2 < B -> 0 <= qhat < B -> 0 <= rhat < B ->
  B <= rhat + (Z.of_nat fuel - 1) * v1 ->
  exists qh, qhat_test fuel v1 v2 uj2 qhat rhat = Some qh /\ 0 <= qh <= qhat /\
    qh * (v1 * B + v2) <= (qhat * v1 + rhat) * B + uj2 /\
    forall q, 0 <= q <= qhat -> q * (v1 * B + v2) <= (qhat * v1 + rhat) * B + uj2 -> q <= qh.
Proof.
  revert qhat rhat. induction fuel as [|fuel IH]; intros qhat rhat H1 H2 H3 Hq Hr Hf; [lia|].
  cbn [qhat_test]. rewrite COMBINE_add by done. rewrite (u32_small (v2 * qhat)) by (rewrite B_eq in *; nia).
  destruct (decide (v2 * qhat > rhat * B + uj2)) as [Hgt|Hle].
  2:{ exists qhat. split_and!; [done|lia|lia|lia|]. intros. lia. }
  assert (0 < qhat) by nia.
  rewrite !u32_small by (rewrite B_eq in *; lia).
  assert (forall q, 0 <= q <= qhat -> q * (v1 * B + v2) <= (qhat * v1 + rhat) * B + uj2 -> q <= qhat - 1) as Hlow.
  { intros q Hb Hv. destruct (decide (q = qhat)) as [->|]; lia. }
  destruct (decide (rhat + v1 >= B)).
  { exists (qhat - 1). split_and!; [done|lia|lia| |].
    - assert ((qhat - 1) * v2 <= B * B) by nia. nia.
    - intros q Hb Hv. by apply Hlow. }
  destruct (IH (qhat - 1) (rhat + v1)) as (qh & Hqh & Hb & Hm & Hmax); [lia..|].
  replace ((qhat - 1) * v1 + (rhat + v1)) with (qhat * v1 + rhat) in * by lia.
  exists qh. split_and!; [done|lia|lia|done|]. intros q Hq' Hv. apply Hmax; [|done]. specialize (Hlow q Hq' Hv). lia.
Qed.

(** The estimate is the quotient of the first three digits by the first two. *)
Lemma estimate_spec v1 v2 uj0 uj1 uj2 :
  B / 2 <= v1 < B -> 0 <= v2 < B -> 0 <= uj0 <= v1 -> 0 <= uj1 < B -> 0 <= uj2 < B ->
  exists qh, estimate v1 v2 uj0 uj1 uj2 = Some qh /\ 0 <= qh < B /\
    qh * (v1 * B + v2) <= (uj0 * B + uj1) * B + uj2 /\
    forall q, 0 <= q < B -> q * (v1 * B + v2) <= (uj0 * B + uj1) * B + uj2 -> q <= qh.
Proof.
  intros H1 H2 H0 Hu1 Hu2. unfold estimate. change (B / 2) with 32768 in H1. pose proof B_eq as HB.
  destruct (decide (uj0 = v1)) as [->|Hne].
  - unfold qhat_too_big. rewrite !u32_small by lia.
    destruct (decide (uj1 + v1 >= B)).
    { exists (B - 1). split_and!; [done|lia|lia|nia|]. intros. lia. }
    destruct (qhat_test_spec 3 v1 v2 uj2 (B - 1) (uj1 + v1)) as (qh & Hqh & Hb & Hm & Hmax); [lia..|].
    replace ((B - 1) * v1 + (uj1 + v1)) with (v1 * B + uj1) in * by lia.
    exists qh. split_and!; [done|lia|lia|done|]. intros. apply Hmax; [lia|done].
  - rewrite COMBINE_add by lia. set (nn := uj0 * B + uj1).
    assert (nn / v1 < B) by (apply Z.div_lt_upper_bound; unfold nn; nia).
    assert (0 <= nn / v1) by (apply Z.div_pos; unfold nn; lia).
    pose proof (Z.mod_pos_bound nn v1 ltac:(lia)) as Hr. pose proof (Z.div_mod nn v1 ltac:(lia)) as Hd.
    destruct (qhat_test_spec 3 v1 v2 uj2 (nn / v1) (nn mod v1)) as (qh & Hqh & Hb & Hm & Hmax); [lia..|].
    replace (nn / v1 * v1 + nn mod v1) with nn in * by lia.
    exists qh. split_and!; [done|lia|lia|done|]. intros q Hq Hv. apply Hmax; [|done].
    split; [lia|]. apply Z.div_le_lower_bound; [lia|]. nia.
Qed.

(** It is the quotient of the whole numbers, or one more. *)
Lemma estimate_close qh U V U3 V2 ul vl P :
  0 < P -> U = U3 * P + ul -> 0 <= ul < P -> V = V2 * P + vl -> 0 <= vl < P ->
  B <= V2 -> 0 <= U < V * B -> 0 <= qh < B -> qh * V2 <= U3 ->
  (forall q, 0 <= q < B -> q * V2 <= U3 -> q <= qh) ->
  U / V <= qh <= U / V + 1.
Proof.
  intros HP HU Hul HV Hvl HV2 Hlt Hqh Hle Hmax. pose proof B_eq.
  assert (0 < V) by nia.
  pose proof (Z.div_mod U V ltac:(lia)) as Hdm. pose proof (Z.mod_pos_bound U V ltac:(lia)).
  set (q := U / V) in *.
  assert (0 <= q < B) as Hq by (split; [apply Z.div_pos; lia|apply Z.div_lt_upper_bound; lia]).
  split.
  - apply Hmax; [done|]. assert (q * V2 * P < (U3 + 1) * P) by nia. nia.
  - destruct (decide (qh = 0)); [lia|]. enough (qh - 1 <= q) by lia.
    apply Z.div_le_lower_bound; [lia|].
    assert ((qh - 1) * (V2 + 1) <= U3) by nia. nia.
Qed.

(** ** D4 and D6: subtract the multiple, add back *)

(** What a loop leaves alone. *)
Definition same_except (s s' : digits) (sp : space) (lo : Z) (n : nat) : Prop :=
  forall sp' k, ~ (sp' = sp /\ lo <= k < lo + Z.of_nat n) -> s' sp' k = s sp' k.

Lemma same_except_dset s s1 sp i x lo n lo' n' :
  same_except (dset s sp i x) s1 sp lo n -> lo' <= lo -> lo + Z.of_nat n <= lo' + Z.of_nat n' ->
  lo' <= i < lo' + Z.of_nat n' -> same_except s s1 sp lo' n'.
Proof.
  intros H Hlo Hn Hi sp' k Hk. rewrite H; [|intros []; apply Hk; split; [done|lia]].
  apply dset_ne. destruct (decide (sp' = sp)) as [->|]; [right|by left]. intros ->. apply Hk. by split.
Qed.

Lemma is_digits_dset s sp i x lo n sp' :
  is_digits (s sp') lo n -> 0 <= x < B -> is_digits (dset s sp i x sp') lo n.
Proof.
  intros H Hx k Hk. unfold dset. destruct (decide _); [done|]. by apply H.
Qed.

Lemma is_digits_sub a lo n lo' n' :
  is_digits a lo n -> lo <= lo' -> lo' + Z.of_nat n' <= lo + Z.of_nat n -> is_digits a lo' n'.
Proof. intros H ?? k ?. apply H. lia. Qed.

(** * The loops of [__qdivrem]

    Each loop as an equation between the values of the digits before and
    after it, and what it leaves alone. *)

(** The borrow of a subtraction kept in a 32-bit word. *)
Lemma borrow_eq x :
  - (B - 1) * B <= x < B -> LHALF (u32 x) = x mod B /\ Z.land (u32 (B - HHALF (u32 x))) (B - 1) = - (x / B) /\
    0 <= - (x / B) < B.
Proof.
  intros Hx. rewrite B_eq in Hx. rewrite LHALF_mod, HHALF_div by apply u32_range.
  change (B - 1) with (Z.ones 16). rewrite Z.land_ones by done. rewrite B_eq. change (2 ^ 16) with 65536.
  unfold u32. change (2 ^ 32) with 4294967296. split_and!; div_lia.
Qed.

Lemma mulsub_run i u v j qhat t s :
  0 <= u + j -> u + j + Z.of_nat i < 5 -> 0 <= v -> v + Z.of_nat i < 5 ->
  is_digits (s uspace) (u + j + 1) i -> is_digits (s vspace) (v + 1) i ->
  0 <= qhat < B -> 0 <= t < B ->
  exists t' s', mulsub_loop i u v j qhat t s = Ret (t', s') /\ 0 <= t' < B /\
    is_digits (s' uspace) (u + j + 1) i /\ same_except s s' uspace (u + j + 1) i /\
    digits_val (s' uspace) (u + j + 1) i - t' * B ^ Z.of_nat i =
      digits_val (s uspace) (u + j + 1) i - qhat * digits_val (s vspace) (v + 1) i - t.
Proof.
  revert t s. induction i as [|i IH]; intros t s Hu Hu' Hv Hv' Du Dv Hq Ht.
  { exists t, s. split_and!; [done|lia|lia|done|done|]. cbn [digits_val]. lia. }
  cbn [mulsub_loop]. set (p := u + (Z.of_nat (S i) + j)).
  rewrite rd_run by lia. rewrite rd_run by lia.
  assert (0 <= s uspace p < B) as Hp by (apply Du; lia).
  assert (0 <= s vspace (v + Z.of_nat (S i)) < B) as Hvi by (apply Dv; lia).
  set (vi := s vspace (v + Z.of_nat (S i))) in *. set (ui := s uspace p) in *.
  rewrite (u32_small (vi * qhat)) by (rewrite B_eq in *; nia).
  set (x := ui - vi * qhat - t).
  destruct (borrow_eq x) as (Hl & Hb & Hr); [subst x; rewrite B_eq in *; nia|].
  rewrite Hl, Hb. assert (0 <= x mod B < B) as Hm by (by apply Z.mod_pos_bound).
  rewrite wr_run by lia. set (s1 := dset s uspace p (x mod B)).
  destruct (IH (- (x / B)) s1) as (t' & s' & Hrun & Ht' & Hd & Hsame & Hval); try lia.
  { apply is_digits_dset; [|done]. eapply is_digits_sub; [exact Du|lia|lia]. }
  { intros k Hk. unfold s1. rewrite dset_ne by (left; done). apply Dv. lia. }
  assert (s' uspace p = x mod B) as Hs'p.
  { rewrite Hsame by (intros []; lia). apply dset_eq. }
  exists t', s'. split_and!; [done|lia|lia| | |].
  - intros k Hk. destruct (decide (k = p)) as [->|]; [by rewrite Hs'p|]. apply Hd. lia.
  - eapply same_except_dset; [exact Hsame|lia..].
  - rewrite !digits_val_snoc, pow_B_S.
    replace (u + j + 1 + Z.of_nat i) with p by lia. replace (v + 1 + Z.of_nat i) with (v + Z.of_nat (S i)) by lia.
    fold ui vi. rewrite Hs'p.
    assert (digits_val (s1 uspace) (u + j + 1) i = digits_val (s uspace) (u + j + 1) i) as E1
      by (apply digits_val_ext; intros; apply dset_ne; right; lia).
    assert (digits_val (s1 vspace) (v + 1) i = digits_val (s vspace) (v + 1) i) as E2
      by (apply digits_val_ext; intros; apply dset_ne; by left).
    rewrite E1, E2 in Hval. pose proof (Z.div_mod x B ltac:(done)). subst x. nia.
Qed.

Lemma addback_run i u v j t s :
  0 <= u + j -> u + j + Z.of_nat i < 5 -> 0 <= v -> v + Z.of_nat i < 5 ->
  is_digits (s uspace) (u + j + 1) i -> is_digits (s vspace) (v + 1) i -> 0 <= t < B ->
  exists t' s', addback_loop i u v j t s = Ret (t', s') /\ 0 <= t' < B /\
    is_digits (s' uspace) (u + j + 1) i /\ same_except s s' uspace (u + j + 1) i /\
    digits_val (s' uspace) (u + j + 1) i + t' * B ^ Z.of_nat i =
      digits_val (s uspace) (u + j + 1) i + digits_val (s vspace) (v + 1) i + t.
Proof.
  revert t s. induction i as [|i IH]; intros t s Hu Hu' Hv Hv' Du Dv Ht.
  { exists t, s. split_and!; [done|lia|lia|done|done|]. cbn [digits_val]. lia. }
  cbn [addback_loop]. set (p := u + (Z.of_nat (S i) + j)).
  rewrite rd_run by lia. rewrite rd_run by lia.
  assert (0 <= s uspace p < B) as Hp by (apply Du; lia).
  assert (0 <= s vspace (v + Z.of_nat (S i)) < B) as Hvi by (apply Dv; lia).
  set (vi := s vspace (v + Z.of_nat (S i))) in *. set (ui := s uspace p) in *.
  rewrite u32_small by (rewrite B_eq in *; lia). set (x := t + (ui + vi)).
  rewrite LHALF_mod, HHALF_div by (subst x; rewrite B_eq in *; lia).
  assert (0 <= x mod B < B) as Hm by (by apply Z.mod_pos_bound).
  rewrite wr_run by lia. set (s1 := dset s uspace p (x mod B)).
  pose proof (Z.div_mod x B ltac:(done)) as Hdm.
  destruct (IH (x / B) s1) as (t' & s' & Hrun & Ht' & Hd & Hsame & Hval); try lia.
  { apply is_digits_dset; [|done]. eapply is_digits_sub; [exact Du|lia|lia]. }
  { intros k Hk. unfold s1. rewrite dset_ne by (left; done). apply Dv. lia. }
  { subst x. rewrite B_eq in *. div_lia. }
  assert (s' uspace p = x mod B) as Hs'p.
  { rewrite Hsame by (intros []; lia). apply dset_eq. }
  exists t', s'. split_and!; [done|lia|lia| | |].
  - intros k Hk. destruct (decide (k = p)) as [->|]; [by rewrite Hs'p|]. apply Hd. lia.
  - eapply same_except_dset; [exact Hsame|lia..].
  - rewrite !digits_val_snoc, pow_B_S.
    replace (u + j + 1 + Z.of_nat i) with p by lia. replace (v + 1 + Z.of_nat i) with (v + Z.of_nat (S i)) by lia.
    fold ui vi. rewrite Hs'p.
    assert (digits_val (s1 uspace) (u + j + 1) i = digits_val (s uspace) (u + j + 1) i) as E1
      by (apply digits_val_ext; intros; apply dset_ne; right; lia).
    assert (digits_val (s1 vspace) (v + 1) i = digits_val (s vspace) (v + 1) i) as E2
      by (apply digits_val_ext; intros; apply dset_ne; by left).
    rewrite E1, E2 in Hval. subst x. nia.
Qed.

(** ** One turn of the main loop *)

Lemma digits_val_2 a lo : digits_val a lo 2 = a lo * B + a (lo + 1).
Proof. cbn [digits_val]. change (B ^ Z.of_nat 1) with B. change (B ^ Z.of_nat 0) with 1. lia. Qed.

Lemma digits_val_3 a lo : digits_val a lo 3 = (a lo * B + a (lo + 1)) * B + a (lo + 2).
Proof.
  cbn [digits_val]. replace (lo + 1 + 1) with (lo + 2) by lia.
  change (B ^ Z.of_nat 2) with (B * B). change (B ^ Z.of_nat 1) with B. change (B ^ Z.of_nat 0) with 1. lia.
Qed.

Lemma digits_val_S a lo n : digits_val a lo (S n) = a lo * B ^ Z.of_nat n + digits_val a (lo + 1) n.
Proof. done. Qed.

(** The first digit of a smaller number is not larger. *)
Lemma top_digit_le a b lo lo' n :
  is_digits a lo (S n) -> is_digits b lo' (S n) ->
  digits_val a lo (S n) < digits_val b lo' (S n) -> a lo <= b lo'.
Proof.
  intros Ha Hb. rewrite !digits_val_S. pose proof (pow_B_pos n).
  assert (is_digits a (lo + 1) n) as Ha' by (eapply is_digits_sub; [exact Ha|lia|lia]).
  assert (is_digits b (lo' + 1) n) as Hb' by (eapply is_digits_sub; [exact Hb|lia|lia]).
  pose proof (digits_val_range _ _ _ Ha'). pose proof (digits_val_range _ _ _ Hb'). nia.
Qed.

Section Step.
Context (n : nat) (u v j : Z) (s : digits).
Hypothesis (Hn : (2 <= n)%nat) (Hu : 0 <= u + j) (Hu' : u + j + Z.of_nat n < 5).
Hypothesis (Hv : 0 <= v) (Hv' : v + Z.of_nat n < 5).
Hypothesis (Du : is_digits (s uspace) (u + j) (S n)) (Dv : is_digits (s vspace) (v + 1) n).
Hypothesis (Hnorm : B / 2 <= s vspace (v + 1)).
Let U : Z := digits_val (s uspace) (u + j) (S n).
Let V : Z := digits_val (s vspace) (v + 1) n.
Hypothesis (Hlt : digits_val (s uspace) (u + j) n < V).

Lemma divisor_pos : 0 < V /\ V < B ^ Z.of_nat n.
Proof.
  pose proof (digits_val_range _ _ _ Dv) as H. split; [|apply H].
  subst V. destruct n as [|n']; [lia|]. rewrite digits_val_S in *.
  change (B / 2) with 32768 in Hnorm. pose proof (pow_B_pos n').
  assert (is_digits (s vspace) (v + 1 + 1) n') as Hd by (eapply is_digits_sub; [exact Dv|lia|lia]).
  pose proof (digits_val_range _ _ _ Hd). nia.
Qed.

Lemma dividend_bound : 0 <= U < V * B.
Proof.
  split; [by apply (digits_val_range _ _ _ Du)|]. subst U. rewrite digits_val_snoc.
  assert (0 <= s uspace (u + j + Z.of_nat n) < B) by (apply Du; lia). nia.
Qed.

Lemma estimate_step :
  exists qh, estimate (s vspace (v + 1)) (s vspace (v + 2)) (s uspace (u + j))
      (s uspace (u + j + 1)) (s uspace (u + j + 2)) = Some qh /\
    0 <= qh < B /\ U / V <= qh <= U / V + 1.
Proof.
  pose proof divisor_pos. pose proof dividend_bound. pose proof B_eq.
  destruct (estimate_spec (s vspace (v + 1)) (s vspace (v + 2)) (s uspace (u + j))
    (s uspace (u + j + 1)) (s uspace (u + j + 2))) as (qh & He & Hb & Hle & Hmax).
  { split; [done|]. apply Dv. lia. }
  { apply Dv. lia. }
  { split; [apply Du; lia|]. destruct n as [|n'] eqn:E; [lia|].
    apply (top_digit_le _ _ _ _ n'); [|done|done]. eapply is_digits_sub; [exact Du|lia|lia]. }
  1,2: apply Du; lia.
  exists qh. split; [done|]. split; [done|].
  destruct n as [|[|k]] eqn:E; [lia|lia|].
  assert (is_digits (s uspace) (u + j + 3) k) as Dul by (eapply is_digits_sub; [exact Du|lia|lia]).
  assert (is_digits (s vspace) (v + 1 + 2) k) as Dvl by (eapply is_digits_sub; [exact Dv|lia|lia]).
  assert (0 <= s vspace (v + 2) < B) by (apply Dv; lia).
  eapply (estimate_close qh U V _ _ (digits_val (s uspace) (u + j + 3) k)
    (digits_val (s vspace) (v + 1 + 2) k) (B ^ Z.of_nat k)
    (pow_B_pos k)); [| | | | | |exact Hb|exact Hle|exact Hmax];
    [|by apply digits_val_range| |by apply digits_val_range| |done].
  - subst U. rewrite <- digits_val_3. apply (digits_val_app _ _ 3 k).
  - subst V. replace (v + 2) with (v + 1 + 1) by lia. rewrite <- digits_val_2.
    apply (digits_val_app _ _ 2 k).
  - change (B / 2) with 32768 in Hnorm. nia.
Qed.

(** The last two stores: the top digit is null, the quotient digit is set. *)
Lemma step_finish q s1 :
  same_except s s1 uspace (u + j) (S n) -> is_digits (s1 uspace) (u + j + 1) n ->
  digits_val (s1 uspace) (u + j + 1) n = U mod V ->
  let s' := dset (dset s1 uspace (u + j) 0) qspace (q + j) (U / V) in
  s' qspace (q + j) = U / V /\ is_digits (s' uspace) (u + j) (S n) /\
  digits_val (s' uspace) (u + j) (S n) = U mod V /\
  forall sp k, ~ (sp = uspace /\ u + j <= k <= u + j + Z.of_nat n) -> ~ (sp = qspace /\ k = q + j) ->
    s' sp k = s sp k.
Proof.
  intros HS HD HV s'.
  assert (forall k, s' uspace k = if decide (k = u + j) then 0 else s1 uspace k) as Hs'.
  { intros k. unfold s'. rewrite dset_ne by (by left).
    unfold dset. repeat case_decide; naive_solver. }
  split_and!.
  - apply dset_eq.
  - intros k Hk. rewrite Hs'. case_decide; [done|]. apply HD. lia.
  - rewrite digits_val_S, Hs', decide_True by done.
    rewrite (digits_val_ext _ (s1 uspace)), HV; [lia|]. intros k Hk. rewrite Hs', decide_False by lia. done.
  - intros sp k Hk Hk'. unfold s'. rewrite dset_ne by (destruct (decide (sp = qspace)); naive_solver).
    destruct (decide (sp = uspace)) as [->|].
    + rewrite dset_ne by (right; intros ->; apply Hk; split; [done|lia]).
      apply HS. intros [_ ?]. apply Hk. split; [done|lia].
    + rewrite dset_ne by (by left). apply HS. naive_solver.
Qed.

(** The new digit is the quotient, the digits of the dividend hold the
    remainder. *)
Lemma division_step_run q :
  0 <= q + j < 5 ->
  exists s', division_step (Z.of_nat n) u v q j (s vspace (v + 1)) (s vspace (v + 2)) s = Ret (tt, s') /\
    s' qspace (q + j) = U / V /\ is_digits (s' uspace) (u + j) (S n) /\
    digits_val (s' uspace) (u + j) (S n) = U mod V /\
    forall sp k, ~ (sp = uspace /\ u + j <= k <= u + j + Z.of_nat n) -> ~ (sp = qspace /\ k = q + j) ->
      s' sp k = s sp k.
Proof.
  intros Hqj. destruct divisor_pos as [HV HVn]. pose proof dividend_bound as HU. pose proof B_eq as HB.
  destruct estimate_step as (qh & He & Hqh & Hclose).
  unfold division_step. rewrite (rd_run_eq _ _ (u + j)) by lia.
  rewrite (rd_run_eq _ _ (u + j + 1)) by lia. rewrite (rd_run_eq _ _ (u + j + 2)) by lia.
  rewrite He, Nat2Z.id.
  destruct (mulsub_run n u v j qh 0 s) as (t & s1 & H1 & Ht & D1 & S1 & V1); try lia; [|done|].
  { eapply is_digits_sub; [exact Du|lia|lia]. }
  rewrite (bind_ret _ _ _ _ _ H1), rd_run by lia.
  assert (s1 uspace (u + j) = s uspace (u + j)) as Htop by (apply S1; intros []; lia). rewrite Htop.
  pose proof (digits_val_range _ _ _ D1) as R1. pose proof (pow_B_pos n) as HP.
  fold V in V1. set (P := B ^ Z.of_nat n) in *. set (W := digits_val (s1 uspace) (u + j + 1) n) in *.
  set (x := s uspace (u + j) - t).
  assert (0 <= s uspace (u + j) < B) as Hx0 by (apply Du; lia).
  assert (x * P + W = U - qh * V) as HR by (subst U; rewrite digits_val_S; fold P; subst x; lia).
  pose proof (Z.div_mod U V ltac:(lia)) as Hdm. pose proof (Z.mod_pos_bound U V HV) as Hmod.
  assert (qh = U / V \/ qh = U / V + 1) as [Hq|Hq] by lia.
  - (* no borrow *)
    assert (x = 0) as -> by nia. change (u32 0) with 0. change (LHALF 0) with 0.
    rewrite wr_run by lia. rewrite decide_False by (intros Hc; by apply Hc).
    rewrite digit_small, wr_run_last by lia. eexists; split; [done|]. rewrite Hq. apply step_finish; [|done|].
    + intros sp k Hk. apply S1. intros []; apply Hk; split; [done|lia].
    + rewrite Hq in HR. fold W. lia.
  - (* one too many: add back *)
    assert (x = - 1) as -> by nia.
    change (u32 (-1)) with 4294967295. change (LHALF 4294967295) with 65535.
    rewrite wr_run by lia. rewrite decide_True by done.
    set (s2 := dset s1 uspace (u + j) 65535).
    assert (digits_val (s2 uspace) (u + j + 1) n = W) as E2
      by (apply digits_val_ext; intros; apply dset_ne; right; lia).
    assert (forall k, s2 vspace k = s vspace k) as E2v
      by (intros; unfold s2; rewrite dset_ne by (by left); apply S1; by intros []).
    destruct (addback_run n u v j 0 s2) as (t2 & s3 & H3 & Ht2 & D3 & S3 & V3); try lia.
    { apply is_digits_dset; [done|lia]. }
    { intros k Hk. rewrite E2v. by apply Dv. }
    rewrite (bind_ret _ _ _ _ _ H3), rd_run by lia.
    rewrite E2, (digits_val_ext (s2 vspace) (s vspace)) in V3 by (intros; apply E2v).
    pose proof (digits_val_range _ _ _ D3) as R3. fold P V in V3, R3.
    assert (t2 = 1) as -> by nia.
    assert (s3 uspace (u + j) = 65535) as -> by (rewrite S3 by (intros []; lia); apply dset_eq).
    change (LHALF (u32 (65535 + 1))) with 0. rewrite wr_run by lia.
    rewrite (u32_small (qh - 1)), digit_small, wr_run_last by lia.
    eexists; split; [done|]. replace (qh - 1) with (U / V) by lia. apply step_finish; [|done|].
    + intros sp k Hk. rewrite S3 by (intros []; apply Hk; split; [done|lia]). unfold s2. rewrite dset_ne.
      * apply S1. intros []; apply Hk; split; [done|lia].
      * destruct (decide (sp = uspace)) as [->|]; [|by left]. right. intros ->. apply Hk. split; [done|lia].
    + rewrite Hq in HR. lia.
Qed.
End Step.

(** ** The main loop *)

Lemma division_loop_run n u v q v1 v2 k : forall j s,
  (2 <= n)%nat -> 0 <= u -> 0 <= j -> u + j + Z.of_nat n + Z.of_nat k = 5 ->
  0 <= v -> v + Z.of_nat n < 5 -> 0 <= q -> q + j + Z.of_nat k = 5 ->
  is_digits (s uspace) (u + j) (n + k) -> is_digits (s vspace) (v + 1) n ->
  B / 2 <= s vspace (v + 1) -> v1 = s vspace (v + 1) -> v2 = s vspace (v + 2) ->
  let V := digits_val (s vspace) (v + 1) n in
  digits_val (s uspace) (u + j) n < V ->
  exists s', division_loop k (Z.of_nat n) u v q j v1 v2 s = Ret (tt, s') /\
    is_digits (s' uspace) (u + j) (n + k) /\ is_digits (s' qspace) (q + j) k /\
    digits_val (s' uspace) (u + j) (n + k) = digits_val (s uspace) (u + j) (n + k) mod V /\
    digits_val (s' qspace) (q + j) k = digits_val (s uspace) (u + j) (n + k) / V /\
    forall sp i, ~ (sp = uspace /\ u + j <= i < 5) -> ~ (sp = qspace /\ q + j <= i < 5) ->
      s' sp i = s sp i.
Proof.
  induction k as [|k IH]; intros j s Hn Hu Hj Huj Hv Hv' Hq Hqj Du Dv Hnorm -> -> V Hlt.
  { exists s. rewrite Nat.add_0_r in *. pose proof (digits_val_range _ _ _ Du).
    split_and!; [done|done|intros i Hi; lia| | |done].
    - symmetry. apply Z.mod_small. lia.
    - symmetry. apply Z.div_small. lia. }
  cbn [division_loop].
  assert (is_digits (s uspace) (u + j) (S n)) as Du1 by (eapply is_digits_sub; [exact Du|lia|lia]).
  destruct (division_step_run n u v j s Hn ltac:(lia) ltac:(lia) Hv Hv' Du1 Dv Hnorm Hlt q ltac:(lia))
    as (s1 & H1 & Hq1 & D1 & V1 & F1).
  rewrite (bind_ret _ _ _ _ _ H1). fold V in Hq1, V1.
  destruct (divisor_pos n u v j s) as [HV HVn]; [done|lia|done..|]. fold V in HV, HVn.
  set (U := digits_val (s uspace) (u + j) (S n)) in *.
  pose proof (Z.mod_pos_bound U V HV) as Hmod. pose proof (Z.div_mod U V ltac:(lia)) as Hdm.
  assert (forall i, s1 vspace i = s vspace i) as Ev by (intros; apply F1; by intros []).
  assert (0 <= U / V < B) as HqB.
  { destruct (dividend_bound n u v j s); [done|lia|lia|done..|]. split; [apply Z.div_pos; lia|apply Z.div_lt_upper_bound; lia]. }
  assert (is_digits (s1 uspace) (u + j + 1) (n + k)) as D1'.
  { intros i Hi. destruct (decide (i <= u + j + Z.of_nat n)); [apply D1; lia|].
    rewrite F1 by (intros []; lia || done). apply Du. lia. }
  assert (digits_val (s1 uspace) (u + j + 1) n = U mod V /\ s1 uspace (u + j) = 0) as [V1' Hz].
  { rewrite digits_val_S in V1. assert (0 <= s1 uspace (u + j) < B) by (apply D1; lia).
    assert (is_digits (s1 uspace) (u + j + 1) n) as Dn by (eapply is_digits_sub; [exact D1|lia|lia]).
    pose proof (digits_val_range _ _ _ Dn). pose proof (pow_B_pos n).
    assert (s1 uspace (u + j) = 0) as Hz by nia. rewrite Hz in V1. by split; [lia|]. }
  assert (digits_val (s1 vspace) (v + 1) n = V) as EV by (apply digits_val_ext; intros; apply Ev).
  destruct (IH (j + 1) s1) as (s' & Hr & D' & Dq' & Vu' & Vq' & F'); try done; try lia.
  { by replace (u + (j + 1)) with (u + j + 1) by lia. }
  { intros i Hi. rewrite Ev. by apply Dv. }
  { by rewrite Ev. }
  { rewrite EV. replace (u + (j + 1)) with (u + j + 1) by lia. lia. }
  rewrite EV in *. replace (u + (j + 1)) with (u + j + 1) in * by lia.
  replace (q + (j + 1)) with (q + j + 1) in * by lia.
  set (X1 := digits_val (s1 uspace) (u + j + 1) (n + k)) in *.
  assert (digits_val (s uspace) (u + j) (n + S k) = U / V * B ^ Z.of_nat k * V + X1) as HX.
  { replace (n + S k)%nat with (S n + k)%nat by lia. rewrite digits_val_app. fold U. subst X1.
    rewrite digits_val_app, V1'. rewrite (digits_val_ext (s1 uspace) (s uspace) (u + j + 1 + Z.of_nat n)).
    - replace (u + j + 1 + Z.of_nat n) with (u + j + Z.of_nat (S n)) by lia. nia.
    - intros i Hi. apply F1; intros []; [lia|done]. }
  assert (s' uspace (u + j) = 0) as Hz' by (rewrite F' by (intros []; lia || done); done).
  assert (s' qspace (q + j) = U / V) as Hq' by (rewrite F' by (intros []; lia || done); done).
  exists s'. rewrite HX. split_and!.
  - done.
  - intros i Hi. destruct (decide (i = u + j)) as [->|]; [rewrite Hz'; lia|]. apply D'. lia.
  - intros i Hi. destruct (decide (i = q + j)) as [->|]; [rewrite Hq'; lia|]. apply Dq'. lia.
  - rewrite Nat.add_succ_r, digits_val_S, Hz', Vu'. rewrite (Z.add_comm (U / V * B ^ Z.of_nat k * V)), Z.mod_add by lia. lia.
  - rewrite digits_val_S, Hq', Vq'. rewrite Z.div_add_l by lia. lia.
  - intros sp i Hi Hi'. rewrite F'; [apply F1| |]; intros []; try (apply Hi; split; [done|lia]);
      apply Hi'; split; done || lia.
Qed.

(** ** Shifts of digits *)

Lemma shift_digit sh x y :
  0 < sh < 16 -> 0 <= x < B -> 0 <= y < B ->
  Z.lor (LHALF (u32 (Z.shiftl x sh))) (Z.shiftr y (HALF_BITS - sh)) =
    x * 2 ^ sh - x / 2 ^ (16 - sh) * B + y / 2 ^ (16 - sh) /\
  0 <= x * 2 ^ sh - x / 2 ^ (16 - sh) * B + y / 2 ^ (16 - sh) < B /\
  LHALF (u32 (Z.shiftl x sh)) = x * 2 ^ sh - x / 2 ^ (16 - sh) * B.
Proof.
  intros Hsh Hx Hy.
  assert (2 ^ sh * 2 ^ (16 - sh) = B) as HB by (rewrite <- Z.pow_add_r by lia; by replace (sh + (16 - sh)) with 16 by lia).
  set (d := 2 ^ sh) in *. set (e := 2 ^ (16 - sh)) in *.
  assert (0 < d /\ 0 < e) as [Hd He] by (split; apply Z.pow_pos_nonneg; lia).
  assert (d <= B) by nia.
  assert (x * d - x / e * B = (x mod e) * d) as Hlow by (pose proof (Z.div_mod x e ltac:(lia)); nia).
  assert (0 <= y / e < d) as Hye by (split; [apply Z.div_pos; lia|apply Z.div_lt_upper_bound; nia]).
  pose proof (Z.mod_pos_bound x e He) as Hm.
  assert (LHALF (u32 (Z.shiftl x sh)) = (x mod e) * d) as Hl.
  { rewrite Z.shiftl_mul_pow2 by lia. fold d. rewrite u32_small by (rewrite B_eq in *; nia).
    rewrite LHALF_mod, <- HB, (Z.mul_comm d e), Z.mul_mod_distr_r by lia. done. }
  rewrite Hl, Hlow. split_and!; [|nia|nia|done].
  rewrite Z.shiftr_div_pow2 by (unfold HALF_BITS; lia). apply lor_mul_add; [lia|done].
Qed.

Lemma shl_from_run k sp p sh : forall i s,
  0 <= p + i -> p + i + Z.of_nat k < 5 -> 0 < sh < 16 -> is_digits (s sp) (p + i) (S k) ->
  exists s', (shl_loop k sp p i sh >>>
      let* x := rd sp (p + (i + Z.of_nat k)) in
      wr sp (p + (i + Z.of_nat k)) (LHALF (u32 (Z.shiftl x sh)))) s = Ret (tt, s') /\
    is_digits (s' sp) (p + i) (S k) /\ same_except s s' sp (p + i) (S k) /\
    digits_val (s' sp) (p + i) (S k) =
      digits_val (s sp) (p + i) (S k) * 2 ^ sh - s sp (p + i) / 2 ^ (16 - sh) * B ^ Z.of_nat (S k).
Proof.
  induction k as [|k IH]; intros i s Hp Hp' Hsh D.
  { cbn [shl_loop]. rewrite bind_ret_l. rewrite (rd_run_eq _ _ (p + i)) by lia.
    assert (0 <= s sp (p + i) < B) as Hx by (apply D; lia).
    destruct (shift_digit sh (s sp (p + i)) 0) as (_ & Hr & Hl); [done|done|done|].
    rewrite Z.div_0_l, Z.add_0_r in Hr by (apply Z.pow_nonzero; lia).
    rewrite wr_run_last by (rewrite ?Hl; lia). replace (p + (i + Z.of_nat 0)) with (p + i) by lia.
    eexists; split; [done|]. split_and!.
    - apply is_digits_dset; [done|apply LHALF_range].
    - intros sp' k Hk. apply dset_ne. destruct (decide (sp' = sp)) as [->|]; [right|by left].
      intros ->. apply Hk. split; [done|lia].
    - cbn [digits_val]. rewrite dset_eq, Hl. change (B ^ Z.of_nat 0) with 1. change (B ^ Z.of_nat 1) with B. lia. }
  cbn [shl_loop]. rewrite bind_assoc, rd_run by lia. rewrite bind_assoc, rd_run by lia.
  assert (0 <= s sp (p + i) < B) as Hx by (apply D; lia).
  assert (0 <= s sp (p + i + 1) < B) as Hy by (apply D; lia).
  destruct (shift_digit sh (s sp (p + i)) (s sp (p + i + 1))) as (Hw & Hr & _); [done|done|done|].
  rewrite Hw, bind_assoc, wr_run by lia. set (w := _ - _ + _) in *. set (s1 := dset s sp (p + i) w).
  destruct (IH (i + 1) s1) as (s' & H' & D' & S' & V'); try lia.
  { apply is_digits_dset; [|done]. eapply is_digits_sub; [exact D|lia|lia]. }
  replace (p + (i + 1 + Z.of_nat k)) with (p + (i + Z.of_nat (S k))) in H' by lia.
  replace (p + (i + 1)) with (p + i + 1) in * by lia.
  exists s'. rewrite H'. split; [done|].
  assert (s' sp (p + i) = w) as Hw' by (rewrite S' by (intros []; lia); apply dset_eq).
  split_and!.
  - intros z Hz. destruct (decide (z = p + i)) as [->|]; [by rewrite Hw'|]. apply D'. lia.
  - eapply same_except_dset; [exact S'|lia..].
  - rewrite (digits_val_S (s' sp)), Hw', V'. rewrite (digits_val_S (s sp)).
    assert (s1 sp (p + i + 1) = s sp (p + i + 1)) as -> by (apply dset_ne; right; lia).
    rewrite (digits_val_ext (s1 sp) (s sp)) by (intros; apply dset_ne; right; lia).
    rewrite !pow_B_S. subst w. lia.
Qed.

Lemma shl_run sp p len sh s :
  0 <= p -> p + Z.of_nat len < 5 -> 0 < sh < 16 -> is_digits (s sp) p (S len) ->
  exists s', shl sp p (Z.of_nat len) sh s = Ret (tt, s') /\
    is_digits (s' sp) p (S len) /\ same_except s s' sp p (S len) /\
    digits_val (s' sp) p (S len) =
      digits_val (s sp) p (S len) * 2 ^ sh - s sp p / 2 ^ (16 - sh) * B ^ Z.of_nat (S len).
Proof.
  intros Hp Hp' Hsh D. pose proof (shl_from_run len sp p sh 0 s) as H.
  rewrite Z.add_0_l, Z.add_0_r in H. unfold shl. rewrite Nat2Z.id. by apply H.
Qed.

Lemma unshift_run k u m d : forall s,
  0 <= u + m -> u + m + Z.of_nat k < 5 -> 0 < d < 16 -> is_digits (s uspace) (u + m) (S k) ->
  exists s', unshift_loop k u m d s = Ret (tt, s') /\
    is_digits (s' uspace) (u + m + 1) k /\ same_except s s' uspace (u + m + 1) k /\
    digits_val (s' uspace) (u + m + 1) k * 2 ^ d =
      digits_val (s uspace) (u + m + 1) k + s uspace (u + m) mod 2 ^ d * B ^ Z.of_nat k
      - s uspace (u + m + Z.of_nat k) mod 2 ^ d.
Proof.
  induction k as [|k IH]; intros s Hp Hp' Hd D.
  { exists s. split_and!; [done|intros i Hi; lia|done|].
    cbn [digits_val]. replace (u + m + Z.of_nat 0) with (u + m) by lia. lia. }
  cbn [unshift_loop]. set (p := u + (m + Z.of_nat (S k))).
  rewrite rd_run by lia. rewrite (rd_run_eq _ _ (p - 1)) by lia.
  assert (0 <= s uspace p < B) as Hx by (apply D; lia).
  assert (0 <= s uspace (p - 1) < B) as Hy by (apply D; lia).
  destruct (shift_digit (16 - d) (s uspace (p - 1)) (s uspace p)) as (Hw & Hr & _); [lia|done|done|].
  change HALF_BITS with 16 in *. replace (16 - (16 - d)) with d in * by lia.
  rewrite Z.lor_comm, Hw, wr_run by lia. set (w := _ - _ + _) in *. set (s1 := dset s uspace p w).
  destruct (IH s1) as (s' & H' & D' & S' & V'); try lia.
  { apply is_digits_dset; [|done]. eapply is_digits_sub; [exact D|lia|lia]. }
  exists s'. split; [done|].
  assert (s' uspace p = w) as Hw' by (rewrite S' by (intros []; lia); apply dset_eq).
  split_and!.
  - intros z Hz. destruct (decide (z = p)) as [->|]; [by rewrite Hw'|]. apply D'. lia.
  - eapply same_except_dset; [exact S'|lia..].
  - rewrite !digits_val_snoc. replace (u + m + 1 + Z.of_nat k) with p by lia.
    replace (u + m + Z.of_nat (S k)) with p by lia. replace (u + m + Z.of_nat k) with (p - 1) in V' by lia.
    rewrite Hw', pow_B_S.
    rewrite (digits_val_ext (s1 uspace) (s uspace)) in V' by (intros; apply dset_ne; right; lia).
    unfold s1 in V'. rewrite !dset_ne in V' by (right; lia).
    assert (2 ^ d * 2 ^ (16 - d) = B) as HB by (rewrite <- Z.pow_add_r by lia; by replace (d + (16 - d)) with 16 by lia).
    pose proof (Z.pow_pos_nonneg 2 d ltac:(lia) ltac:(lia)).
    pose proof (Z.div_mod (s uspace p) (2 ^ d) ltac:(lia)).
    pose proof (Z.div_mod (s uspace (p - 1)) (2 ^ d) ltac:(lia)).
    assert (w * 2 ^ d = s uspace p - s uspace p mod 2 ^ d + s uspace (p - 1) mod 2 ^ d * B) by (subst w; nia).
    nia.
Qed.
