(* ===== verification/LibDivTheorems.v ===== *)
(** * 64-bit division: properties

    [__qdivrem] computes the quotient and the remainder, so do [__udivdi3] and
    [__umoddi3]; the shift-and-subtract routine [__udivmoddi4] computes the
    same. *)
From S2P Require Import Prelude LibDiv LibDivSpec.

(** ** Splitting and joining quads *)

Lemma split_quad_run {A} sp x (k : unit -> M digits A) s :
  0 <= x < 2 ^ 64 ->
  exists s', bind (split_quad sp x) k s = k tt s' /\
    is_digits (s' sp) 1 4 /\ digits_val (s' sp) 1 4 = x /\ same_except s s' sp 1 4.
Proof.
  intros Hx. unfold split_quad. rewrite !quad_high_div, !quad_low_mod.
  rewrite !HHALF_div, !LHALF_mod by div_lia. rewrite B_eq.
  repeat (rewrite bind_assoc, wr_run by (rewrite ?B_eq; div_lia)).
  rewrite wr_run by (rewrite ?B_eq; div_lia).
  match goal with |- exists s', k tt ?s4 = _ /\ _ => set (s' := s4) end.
  assert (s' sp 1 = x / 2 ^ 32 / 65536 /\ s' sp 2 = (x / 2 ^ 32) mod 65536 /\
    s' sp 3 = x mod 2 ^ 32 / 65536 /\ s' sp 4 = (x mod 2 ^ 32) mod 65536) as (E1 & E2 & E3 & E4).
  { split_and!; unfold s'; repeat (rewrite dset_ne by (right; lia)); by rewrite dset_eq. }
  exists s'. split; [done|]. split_and!.
  - intros i Hi. assert (i = 1 \/ i = 2 \/ i = 3 \/ i = 4) as Hc by lia. rewrite B_eq.
    destruct Hc as [->|[->|[->| ->]]]; rewrite ?E1, ?E2, ?E3, ?E4; div_lia.
  - rewrite (digits_val_snoc _ 1 3), digits_val_3.
    change (1 + 1) with 2. change (1 + 2) with 3. change (1 + Z.of_nat 3) with 4.
    rewrite E1, E2, E3, E4, B_eq. div_lia.
  - intros sp' i Hk. unfold s'. rewrite !dset_ne; [done|destruct (decide (sp' = sp)) as [->|]; [right|by left]..];
      intros ->; apply Hk; split; done.
Qed.

Lemma join_quad_run {A} sp (k : Z -> M digits A) s :
  is_digits (s sp) 1 4 -> bind (join_quad sp) k s = k (digits_val (s sp) 1 4) s.
Proof.
  intros D. unfold join_quad.
  repeat (rewrite bind_assoc, rd_run by lia). rewrite bind_ret_l.
  assert (0 <= s sp 1 < B /\ 0 <= s sp 2 < B /\ 0 <= s sp 3 < B /\ 0 <= s sp 4 < B) as (?&?&?&?)
    by (split_and!; apply D; lia).
  rewrite !COMBINE_add by done. rewrite quad_add by (rewrite B_eq in *; lia).
  rewrite (digits_val_snoc _ 1 3), digits_val_3.
  change (1 + 1) with 2. change (1 + 2) with 3. change (1 + Z.of_nat 3) with 4.
  f_equal. rewrite B_eq. lia.
Qed.

(** ** The leading zeros *)

Lemma digits_val_high_nonzero a lo n k :
  is_digits a lo (n + k) -> B ^ Z.of_nat k <= digits_val a lo (n + k) ->
  exists i : nat, (i < n)%nat /\ a (lo + Z.of_nat i) <> 0.
Proof.
  revert lo. induction n as [|n IH]; intros lo D H.
  { pose proof (digits_val_range _ _ _ D). simpl in *. lia. }
  destruct (decide (a lo = 0)) as [Hz|Hnz].
  - cbn [Nat.add] in *. rewrite digits_val_S, Hz in H.
    destruct (IH (lo + 1)) as (i & Hi & Ha); [|lia|].
    { eapply is_digits_sub; [exact D|lia|lia]. }
    exists (S i). split; [lia|]. by replace (lo + Z.of_nat (S i)) with (lo + 1 + Z.of_nat i) by lia.
  - exists 0%nat. split; [lia|]. by replace (lo + Z.of_nat 0) with lo by lia.
Qed.

Lemma dividend_loop_run fuel k m u s :
  (k < fuel)%nat -> 0 <= u -> u + 1 + Z.of_nat k < 5 -> s uspace (u + 1 + Z.of_nat k) <> 0 ->
  exists k' : nat, (k' <= k)%nat /\
    dividend_loop fuel m u s = Ret ((m - Z.of_nat k', u + Z.of_nat k'), s) /\
    s uspace (u + Z.of_nat k' + 1) <> 0 /\ forall i, u < i <= u + Z.of_nat k' -> s uspace i = 0.
Proof.
  revert k m u. induction fuel as [|fuel IH]; intros k m u Hk Hu Hb Hnz; [lia|].
  cbn [dividend_loop]. rewrite rd_run by lia. destruct (decide (s uspace (u + 1) = 0)) as [Hz|Hz].
  - destruct k as [|k]; [by replace (u + 1 + Z.of_nat 0) with (u + 1) in Hnz by lia|].
    destruct (IH k (m - 1) (u + 1)) as (k' & Hk' & -> & Hnz' & H0); [lia..| |].
    { by replace (u + 1 + 1 + Z.of_nat k) with (u + 1 + Z.of_nat (S k)) by lia. }
    exists (S k'). split_and!; [lia|do 3 f_equal; lia| |].
    + by replace (u + Z.of_nat (S k') + 1) with (u + 1 + Z.of_nat k' + 1) by lia.
    + intros i Hi. destruct (decide (i = u + 1)) as [->|]; [done|]. apply H0. lia.
  - exists 0%nat. split_and!; [lia|unfold ret; do 3 f_equal; lia| |intros; lia].
    by replace (u + Z.of_nat 0 + 1) with (u + 1) by lia.
Qed.

(** Either the divisor has a single digit, or [n] digits start after [v]. *)
Lemma divisor_loop_run s :
  is_digits (s vspace) 1 4 -> 0 < digits_val (s vspace) 1 4 ->
  (divisor_loop 4 4 0 s = Ret ((1, 2), s) /\ digits_val (s vspace) 1 4 = s vspace 4) \/
  exists n : nat, (2 <= n <= 4)%nat /\ divisor_loop 4 4 0 s = Ret ((Z.of_nat n, 4 - Z.of_nat n), s) /\
    s vspace (4 - Z.of_nat n + 1) <> 0 /\ forall i, 1 <= i <= 4 - Z.of_nat n -> s vspace i = 0.
Proof.
  intros D Hpos. cbn [divisor_loop]. rewrite rd_run by lia.
  destruct (decide (s vspace (0 + 1) = 0)) as [H1|H1].
  2:{ right. exists 4%nat. split_and!; [lia|lia|done|done|]. intros. lia. }
  rewrite decide_False by done. rewrite rd_run by lia.
  destruct (decide (s vspace (0 + 1 + 1) = 0)) as [H2|H2].
  2:{ right. exists 3%nat. split_and!; [lia|lia|done|done|]. intros i Hi. by assert (i = 0 + 1) as -> by lia. }
  rewrite decide_False by done. rewrite rd_run by lia.
  destruct (decide (s vspace (0 + 1 + 1 + 1) = 0)) as [H3|H3].
  - left. split; [done|]. rewrite (digits_val_snoc _ 1 3), digits_val_3.
    change (0 + 1 + 1 + 1) with (1 + 2) in H3. change (0 + 1) with 1 in *. by rewrite H1, H2, H3.
  - right. exists 2%nat. split_and!; [lia|lia|done|done|]. intros i Hi.
    assert (i = 0 + 1 \/ i = 0 + 1 + 1) as [->| ->] by lia; done.
Qed.

(** ** The scaling *)

Lemma norm_loop_run fuel t d :
  0 < t < B -> B / 2 <= t * 2 ^ (Z.of_nat fuel - 1) ->
  exists e, norm_loop fuel t d = Some (d + e) /\ 0 <= e < 16 /\ B / 2 <= t * 2 ^ e < B.
Proof.
  change (B / 2) with 32768. rewrite B_eq. revert t d.
  enough (forall t d k, 0 < t < 65536 -> 32768 <= t * 2 ^ (Z.of_nat fuel - 1) -> 0 <= k -> 2 ^ k <= t ->
    exists e, norm_loop fuel t d = Some (d + e) /\ 0 <= e /\ e + k < 16 /\ 32768 <= t * 2 ^ e < 65536) as H.
  { intros t d Ht Hf. destruct (H t d 0) as (e & ? & ? & ? & ?); [done|done|lia|lia|].
    exists e. split_and!; [done|lia..]. }
  induction fuel as [|fuel IH]; intros t d k Ht Hf Hk Hkt.
  { change (2 ^ (Z.of_nat 0 - 1)) with 0 in Hf. lia. }
  cbn [norm_loop]. change (B / 2) with 32768. destruct (decide (t < 32768)).
  - rewrite Z.shiftl_mul_pow2 by lia. change (2 ^ 1) with 2. rewrite u32_small by lia.
    destruct (IH (t * 2) (d + 1) (k + 1)) as (e & He & H1 & H2 & H3); [lia| |lia| |].
    + destruct fuel as [|fuel]; [change (2 ^ (Z.of_nat 1 - 1)) with 1 in Hf; lia|].
      replace (Z.of_nat (S (S fuel)) - 1) with (Z.succ (Z.of_nat (S fuel) - 1)) in Hf by lia.
      rewrite Z.pow_succ_r in Hf by lia. lia.
    + rewrite Z.pow_add_r by lia. lia.
    + exists (e + 1). rewrite He. rewrite Z.pow_add_r by lia. change (2 ^ 1) with 2.
      split_and!; [f_equal; lia|lia..].
  - exists 0. rewrite Z.add_0_r. change (2 ^ 0) with 1.
    assert (k < 16) by (apply (Z.pow_lt_mono_r_iff 2); lia). split_and!; [done|lia..].
Qed.

Lemma zero_loop_run i s :
  (i <= 5)%nat ->
  exists s', zero_loop i s = Ret (tt, s') /\ (forall k, 0 <= k < Z.of_nat i -> s' qspace k = 0) /\
    same_except s s' qspace 0 i.
Proof.
  revert s. induction i as [|i IH]; intros s Hi.
  { exists s. split_and!; [done| |done]. intros. lia. }
  cbn [zero_loop]. rewrite wr_run by (rewrite ?B_eq; lia).
  destruct (IH (dset s qspace (Z.of_nat i) 0)) as (s' & Hr & Hz & Hs); [lia|].
  exists s'. split_and!; [done| |].
  - intros k Hk. destruct (decide (k = Z.of_nat i)) as [->|]; [|apply Hz; lia].
    rewrite Hs by (intros []; lia). apply dset_eq.
  - eapply same_except_dset; [exact Hs|lia..].
Qed.

(** ** The long division *)

Section Long.
Context (n m : nat) (uq vq : Z).
Hypothesis (Hn : (2 <= n)%nat) (Hnm : (n + m <= 4)%nat).
Let v : Z := 4 - Z.of_nat n.
Let u : Z := 4 - Z.of_nat n - Z.of_nat m.

(** Both numbers scaled by [2 ^ d]. *)
Record scaled (s : digits) (d : Z) : Prop := {
  sc_u : is_digits (s uspace) u (S (n + m));
  sc_u_val : digits_val (s uspace) u (S (n + m)) = uq * 2 ^ d;
  sc_u_zero : forall i, 0 <= i < u -> s uspace i = 0;
  sc_v : is_digits (s vspace) (v + 1) n;
  sc_v_val : digits_val (s vspace) (v + 1) n = vq * 2 ^ d;
  sc_q : forall i, 0 <= i < 4 - Z.of_nat m -> s qspace i = 0
}.

Lemma top_digit_small (t d : Z) :
  0 <= d < 16 -> 0 <= t -> t * 2 ^ d < B -> t / 2 ^ (16 - d) = 0.
Proof.
  intros Hd Ht Hlt. apply Z.div_small. split; [done|].
  assert (2 ^ d * 2 ^ (16 - d) = B) by (rewrite <- Z.pow_add_r by lia; by replace (d + (16 - d)) with 16 by lia).
  assert (0 < 2 ^ d) by (apply Z.pow_pos_nonneg; lia). nia.
Qed.

Lemma scale_run s d :
  scaled s 0 -> s uspace u = 0 -> 0 <= d < 16 ->
  B / 2 <= s vspace (v + 1) * 2 ^ d < B ->
  exists s', (if decide (d > 0) then
      shl uspace u (Z.of_nat m + Z.of_nat n) d >>> shl vspace (v + 1) (Z.of_nat n - 1) d
    else ret tt) s = Ret (tt, s') /\ scaled s' d /\ B / 2 <= s' vspace (v + 1).
Proof.
  intros [Du Vu Zu Dv Vv Zq] Hz Hd Ht. rewrite Z.mul_1_r in Vu, Vv.
  destruct (decide (d > 0)) as [Hd0|Hd0].
  2:{ assert (d = 0) as -> by lia. rewrite Z.mul_1_r in Ht. exists s. split_and!; [done| |lia].
      by split; rewrite ?Z.mul_1_r. }
  replace (Z.of_nat m + Z.of_nat n) with (Z.of_nat (n + m)) by lia.
  replace (Z.of_nat n - 1) with (Z.of_nat (n - 1)) by lia.
  destruct (shl_run uspace u (n + m) d s) as (s1 & H1 & D1 & S1 & V1); try lia; [done|].
  rewrite (bind_ret _ _ _ _ _ H1). rewrite Hz, Z.div_0_l in V1 by (apply Z.pow_nonzero; lia).
  assert (forall i, s1 vspace i = s vspace i) as Ev by (intros; apply S1; by intros []).
  destruct (shl_run vspace (v + 1) (n - 1) d s1) as (s2 & H2 & D2 & S2 & V2); try lia.
  { replace (S (n - 1)) with n by lia. intros i Hi. rewrite Ev. by apply Dv. }
  replace (S (n - 1)) with n in * by lia.
  assert (0 <= s vspace (v + 1) < B) as Htop by (apply Dv; lia).
  rewrite Ev, (digits_val_ext (s1 vspace) (s vspace)), Vv in V2 by (intros; apply Ev).
  rewrite (top_digit_small (s vspace (v + 1)) d) in V2 by lia.
  assert (forall i, s2 uspace i = s1 uspace i) as Eu by (intros; apply S2; by intros []).
  exists s2. split; [done|]. split; [split|].
  - intros i Hi. rewrite Eu. by apply D1.
  - rewrite (digits_val_ext _ (s1 uspace)) by (intros; apply Eu). rewrite V1, Vu. lia.
  - intros i Hi. rewrite Eu, S1 by (intros []; lia). by apply Zu.
  - done.
  - lia.
  - intros i Hi. rewrite S2, S1 by (by intros []). by apply Zq.
  - destruct n as [|n']; [lia|]. rewrite digits_val_S in V2, Vv.
    assert (is_digits (s2 vspace) (v + 1 + 1) n') as Dl2 by (eapply is_digits_sub; [exact D2|lia|lia]).
    assert (is_digits (s vspace) (v + 1 + 1) n') as Dl by (eapply is_digits_sub; [exact Dv|lia|lia]).
    pose proof (digits_val_range _ _ _ Dl2). pose proof (digits_val_range _ _ _ Dl).
    pose proof (pow_B_pos n'). assert (0 < 2 ^ d) by (apply Z.pow_pos_nonneg; lia).
    change (B / 2) with 32768 in *. nia.
Qed.

Hypothesis (Huq : 0 <= uq < B ^ Z.of_nat (n + m)) (Hvq : B ^ Z.of_nat (n - 1) <= vq).

(** The high digits of the dividend are below the divisor. *)
Lemma scaled_start s d : scaled s d -> 0 <= d -> digits_val (s uspace) u n < digits_val (s vspace) (v + 1) n.
Proof.
  intros [Du Vu _ _ Vv _] Hd. rewrite Vv.
  replace (S (n + m)) with (n + S m)%nat in * by lia. rewrite digits_val_app in Vu.
  assert (is_digits (s uspace) (u + Z.of_nat n) (S m)) as Dl by (eapply is_digits_sub; [exact Du|lia|lia]).
  pose proof (digits_val_range _ _ _ Dl). pose proof (pow_B_pos (S m)).
  assert (B ^ Z.of_nat (n + m) = B ^ Z.of_nat (n - 1) * B ^ Z.of_nat (S m)) as HP
    by (rewrite <- Z.pow_add_r by lia; f_equal; lia).
  assert (0 < 2 ^ d) by (apply Z.pow_pos_nonneg; lia). set (P := B ^ Z.of_nat (S m)) in *.
  assert (uq < vq * P) by nia.
  assert (digits_val (s uspace) u n * P < vq * 2 ^ d * P) by nia. nia.
Qed.

Lemma quotient_run s d :
  scaled s d -> 0 <= d -> B / 2 <= s vspace (v + 1) ->
  exists s', division_loop (S m) (Z.of_nat n) u v (4 - Z.of_nat m) 0
      (s vspace (v + 1)) (s vspace (v + 2)) s = Ret (tt, s') /\
    is_digits (s' uspace) u (S (n + m)) /\ (forall i, 0 <= i <= u + Z.of_nat m -> s' uspace i = 0) /\
    digits_val (s' uspace) (u + Z.of_nat m + 1) n = uq mod vq * 2 ^ d /\
    is_digits (s' qspace) 1 4 /\ digits_val (s' qspace) 1 4 = uq / vq.
Proof.
  intros Hs Hd Hnorm. pose proof (scaled_start _ _ Hs Hd) as Hlt. destruct Hs as [Du Vu Zu Dv Vv Zq].
  assert (0 < 2 ^ d) as H2 by (apply Z.pow_pos_nonneg; lia).
  pose proof (pow_B_pos (n - 1)) as HB. assert (0 < vq) by lia.
  replace (S (n + m)) with (n + S m)%nat in * by lia.
  destruct (division_loop_run n u v (4 - Z.of_nat m) (s vspace (v + 1)) (s vspace (v + 2)) (S m) 0 s)
    as (s' & Hr & Du' & Dq' & Vu' & Vq' & F'); rewrite ?Z.add_0_r in *; try done; try lia.
  exists s'. rewrite Vu, Vv in Vu', Vq'. rewrite Z.mul_mod_distr_r in Vu' by lia. rewrite Z.div_mul_cancel_r in Vq' by lia.
  assert (digits_val (s' uspace) u (S m + n) < B ^ Z.of_nat n) as Hsmall.
  { rewrite Nat.add_comm, Vu'. pose proof (digits_val_range _ _ _ Dv) as Hr'. rewrite Vv in Hr'.
    pose proof (Z.mod_pos_bound uq vq ltac:(lia)). nia. }
  assert (forall i, u <= i < u + Z.of_nat (S m) -> s' uspace i = 0) as Hz.
  { eapply (digits_val_high_zero _ _ (S m) n); [by rewrite Nat.add_comm|done]. }
  assert (forall i, 0 <= i < 4 - Z.of_nat m -> s' qspace i = 0) as Hzq.
  { intros i Hi. rewrite F'; [by apply Zq|by intros []|intros []; lia]. }
  split_and!; [done|done| | | |].
  - intros i Hi. destruct (decide (u <= i)); [apply Hz; lia|].
    rewrite F'; [apply Zu; lia|intros []; lia|by intros []].
  - rewrite <- Vu', (Nat.add_comm n), digits_val_app, (digits_val_zero _ u (S m)) by done.
    replace (u + Z.of_nat m + 1) with (u + Z.of_nat (S m)) by lia. lia.
  - intros i Hi. destruct (decide (i < 4 - Z.of_nat m)); [rewrite Hzq by lia; done|]. apply Dq'. lia.
  - rewrite <- Vq'. replace 4%nat with (3 - m + S m)%nat at 1 by lia.
    rewrite digits_val_app, (digits_val_zero _ 1 (3 - m)) by (intros; apply Hzq; lia).
    replace (1 + Z.of_nat (3 - m)) with (4 - Z.of_nat m) by lia. lia.
Qed.

Lemma remainder_run s d arq :
  0 <= d < 16 -> is_digits (s uspace) u (S (n + m)) ->
  (forall i, 0 <= i <= u + Z.of_nat m -> s uspace i = 0) ->
  digits_val (s uspace) (u + Z.of_nat m + 1) n = uq mod vq * 2 ^ d ->
  exists s', remainder u (Z.of_nat m) (Z.of_nat n) d arq s = Ret (if arq then Some (uq mod vq) else None, s') /\
    forall i, s' qspace i = s qspace i.
Proof.
  intros Hd Du Hz Hv. unfold remainder. destruct arq; [|by exists s].
  assert (exists s1, (if decide (d <> 0) then unshift_loop (Z.to_nat (Z.of_nat n)) u (Z.of_nat m) d >>>
        wr uspace (u + Z.of_nat m) 0 else ret tt) s = Ret (tt, s1) /\
      (forall i, 1 <= i <= u + Z.of_nat m -> s1 uspace i = 0) /\
      is_digits (s1 uspace) (u + Z.of_nat m + 1) n /\
      digits_val (s1 uspace) (u + Z.of_nat m + 1) n = uq mod vq /\
      forall i, s1 qspace i = s qspace i) as (s1 & H1 & Z1 & D1 & V1 & Q1).
  { destruct (decide (d <> 0)) as [Hd0|Hd0].
    - destruct (unshift_run n u (Z.of_nat m) d s) as (s1 & H1 & D1 & S1 & V1); try lia.
      { eapply is_digits_sub; [exact Du|lia|lia]. }
      rewrite Nat2Z.id, (bind_ret _ _ _ _ _ H1), wr_run_last by (rewrite ?B_eq; lia).
      eexists; split; [done|]. split_and!.
      + intros i Hi. unfold dset. case_decide; [done|]. rewrite S1 by (intros []; lia). apply Hz. lia.
      + by apply is_digits_dset.
      + rewrite (digits_val_ext _ (s1 uspace)) by (intros; apply dset_ne; right; lia).
        assert (0 < 2 ^ d) as H2 by (apply Z.pow_pos_nonneg; lia).
        rewrite (Hz (u + Z.of_nat m)), Z.mod_0_l in V1 by lia.
        pose proof (Z.mod_pos_bound (s uspace (u + Z.of_nat m + Z.of_nat n)) (2 ^ d) H2). nia.
      + intros i. rewrite dset_ne by (by left). apply S1. by intros [].
    - assert (d = 0) as -> by lia. exists s. rewrite Z.mul_1_r in Hv. split_and!; try done.
      + intros. apply Hz. lia.
      + eapply is_digits_sub; [exact Du|lia|lia]. }
  rewrite (bind_ret _ _ _ _ _ H1).
  assert (is_digits (s1 uspace) 1 4) as D4.
  { intros i Hi. destruct (decide (i <= u + Z.of_nat m)); [rewrite Z1 by lia; done|]. apply D1. lia. }
  rewrite join_quad_run by done. exists s1. split; [|done].
  replace (digits_val (s1 uspace) 1 4) with (uq mod vq); [done|]. rewrite <- V1.
  replace 4%nat with (4 - n + n)%nat at 1 by lia.
  rewrite digits_val_app, (digits_val_zero _ 1 (4 - n)) by (intros; apply Z1; lia).
  replace (1 + Z.of_nat (4 - n)) with (u + Z.of_nat m + 1) by lia. lia.
Qed.
End Long.

Lemma digits_val_strip a lo n k :
  (forall i, lo <= i < lo + Z.of_nat n -> a i = 0) ->
  digits_val a lo (n + k) = digits_val a (lo + Z.of_nat n) k.
Proof. intros H. rewrite digits_val_app, digits_val_zero by done. lia. Qed.

Lemma long_division_run n uq vq arq s :
  (2 <= n <= 4)%nat -> s uspace 0 = 0 ->
  is_digits (s uspace) 1 4 -> digits_val (s uspace) 1 4 = uq ->
  is_digits (s vspace) 1 4 -> digits_val (s vspace) 1 4 = vq ->
  s vspace (4 - Z.of_nat n + 1) <> 0 -> (forall i, 1 <= i <= 4 - Z.of_nat n -> s vspace i = 0) ->
  vq <= uq ->
  exists s', long_division (Z.of_nat n) (4 - Z.of_nat n) arq s =
    Ret ((uq / vq, if arq then Some (uq mod vq) else None), s').
Proof.
  intros Hn Hu0 Du Vu Dv Vv Htop Hvz Hle. unfold long_division.
  replace 4%nat with (4 - n + n)%nat in Vv at 1 by lia. rewrite digits_val_strip in Vv by (intros; apply Hvz; lia).
  replace (1 + Z.of_nat (4 - n)) with (4 - Z.of_nat n + 1) in Vv by lia. set (v := 4 - Z.of_nat n) in *.
  assert (is_digits (s vspace) (v + 1) n) as Dv' by (eapply is_digits_sub; [exact Dv|lia|lia]).
  assert (0 <= s vspace (v + 1) < B) as Ht by (apply Dv; lia).
  assert (B ^ Z.of_nat (n - 1) <= vq) as Hvq.
  { rewrite <- Vv. replace n with (S (n - 1)) at 2 by lia. rewrite digits_val_S.
    assert (is_digits (s vspace) (v + 1 + 1) (n - 1)) as Dl by (eapply is_digits_sub; [exact Dv'|lia|lia]).
    pose proof (digits_val_range _ _ _ Dl). pose proof (pow_B_pos (n - 1)). nia. }
  destruct (digits_val_high_nonzero (s uspace) 1 (5 - n) (n - 1)) as (i & Hi & Hnz).
  1,2: replace (5 - n + (n - 1))%nat with 4%nat by lia; try done; lia.
  destruct (dividend_loop_run 5 i v 0 s) as (k & Hk & Hr & Hnz' & Huz); [lia|lia|lia|done|].
  rewrite (bind_ret _ _ _ _ _ Hr). clear Hr Hnz Hnz'. rewrite Z.add_0_l in *.
  set (m := (4 - n - k)%nat). replace (v - Z.of_nat k) with (Z.of_nat m) by lia.
  replace (Z.of_nat k) with (v - Z.of_nat m) in * by lia.
  destruct (zero_loop_run (Z.to_nat (4 - Z.of_nat m)) s) as (s1 & H1 & Z1 & S1); [lia|].
  rewrite (bind_ret _ _ _ _ _ H1), rd_run by lia.
  assert (forall i, s1 uspace i = s uspace i) as Eu by (intros; apply S1; by intros []).
  assert (forall i, s1 vspace i = s vspace i) as Ev by (intros; apply S1; by intros []).
  assert (s uspace (v - Z.of_nat m) = 0) as Hu1.
  { destruct (decide (v - Z.of_nat m = 0)) as [->|]; [done|]. apply Huz. lia. }
  assert (digits_val (s uspace) (v - Z.of_nat m + 1) (n + m) = uq) as Vu'.
  { rewrite <- Vu. replace 4%nat with (k + (n + m))%nat by lia. rewrite (digits_val_strip _ 1) by (intros; apply Huz; lia).
    f_equal. lia. }
  assert (is_digits (s uspace) (v - Z.of_nat m + 1) (n + m)) as Du' by (eapply is_digits_sub; [exact Du|lia|lia]).
  pose proof (digits_val_range _ _ _ Du') as Huq. rewrite Vu' in Huq.
  assert (scaled n m uq vq s1 0) as Hsc.
  { split; fold v; rewrite ?Z.mul_1_r.
    - intros j Hj. rewrite Eu. destruct (decide (j = v - Z.of_nat m)) as [->|]; [by rewrite Hu1|]. apply Du'. lia.
    - rewrite digits_val_S, Eu, Hu1. rewrite (digits_val_ext _ (s uspace)) by (intros; apply Eu). lia.
    - intros j Hj. rewrite Eu. destruct (decide (j = 0)) as [->|]; [done|]. apply Huz. lia.
    - intros j Hj. rewrite Ev. by apply Dv'.
    - by rewrite (digits_val_ext _ (s vspace)) by (intros; apply Ev).
    - intros j Hj. apply Z1. lia. }
  rewrite Ev. destruct (norm_loop_run 17 (s vspace (v + 1)) 0) as (d & -> & Hd & Hnorm); [lia| |].
  { change (2 ^ (Z.of_nat 17 - 1)) with B. rewrite B_eq. change (65536 / 2) with 32768. lia. }
  rewrite Z.add_0_l.
  destruct (scale_run n m uq vq) with (s := s1) (d := d) as (s2 & H2 & Sc2 & N2); try done; try lia.
  { fold v. by rewrite Eu. } { fold v. by rewrite Ev. }
  fold v in H2, N2. rewrite (bind_ret _ _ _ _ _ H2), !rd_run by lia.
  destruct (quotient_run n m uq vq) with (s := s2) (d := d)
    as (s3 & H3 & Du3 & Z3 & Vu3 & Dq3 & Vq3); try done; try lia.
  fold v in H3, Du3, Z3, Vu3. replace (Z.to_nat (Z.of_nat m + 1)) with (S m) by lia.
  rewrite (bind_ret _ _ _ _ _ H3).
  destruct (remainder_run n m uq vq) with (s := s3) (d := d) (arq := arq) as (s4 & H4 & Eq4); try done; try lia.
  fold v in H4. rewrite (bind_ret _ _ _ _ _ H4).
  rewrite join_quad_run by (intros j Hj; rewrite Eq4; by apply Dq3).
  rewrite (digits_val_ext _ (s3 qspace)) by (intros; apply Eq4). rewrite Vq3. by exists s4.
Qed.

(** ** The short division *)

Lemma short_step r x t :
  0 <= r < t -> t < B -> 0 <= x < B ->
  exists q r', digit (COMBINE r x / t) = q /\ COMBINE r x mod t = r' /\ 0 <= q < B /\ 0 <= r' < t /\
    r * B + x = q * t + r'.
Proof.
  intros Hr Ht Hx. rewrite COMBINE_add by lia.
  pose proof (Z.div_mod (r * B + x) t ltac:(lia)) as Hdm. pose proof (Z.mod_pos_bound (r * B + x) t ltac:(lia)).
  assert (0 <= (r * B + x) / t < B) as Hq.
  { split; [apply Z.div_pos; rewrite ?B_eq in *; lia|apply Z.div_lt_upper_bound; rewrite B_eq in *; lia]. }
  rewrite digit_small by done. do 2 eexists. split_and!; try done; lia.
Qed.

Lemma short_division_run uq t arq s :
  is_digits (s uspace) 1 4 -> digits_val (s uspace) 1 4 = uq -> s vspace 4 = t -> 0 < t < B ->
  short_division 2 arq s = Ret ((uq / t, if arq then Some (uq mod t) else None), s).
Proof.
  intros D Vu Hv Ht. unfold short_division. rewrite (rd_run_eq _ _ 4) by lia.
  do 4 rewrite rd_run by lia. rewrite Hv.
  assert (0 <= s uspace 1 < B /\ 0 <= s uspace 2 < B /\ 0 <= s uspace 3 < B /\ 0 <= s uspace 4 < B)
    as (?&?&?&?) by (split_and!; apply D; lia).
  rewrite (digits_val_snoc _ 1 3), digits_val_3 in Vu.
  change (1 + 1) with 2 in Vu. change (1 + 2) with 3 in Vu. change (1 + Z.of_nat 3) with 4 in Vu.
  destruct (short_step 0 (s uspace 1) t) as (q1 & r1 & Hq1 & Hr1 & Bq1 & Br1 & E1); [lia|lia|done|].
  rewrite COMBINE_add in Hq1, Hr1 by (done || lia). rewrite Z.mul_0_l, Z.add_0_l in *. rewrite Hq1, Hr1.
  destruct (short_step r1 (s uspace 2) t) as (q2 & r2 & Hq2 & Hr2 & Bq2 & Br2 & E2); [lia|lia|done|].
  rewrite Hq2, Hr2.
  destruct (short_step r2 (s uspace 3) t) as (q3 & r3 & Hq3 & Hr3 & Bq3 & Br3 & E3); [lia|lia|done|].
  rewrite Hq3, Hr3.
  destruct (short_step r3 (s uspace 4) t) as (q4 & r4 & Hq4 & Hr4 & Bq4 & Br4 & E4); [lia|lia|done|].
  rewrite Hq4, Hr4, !COMBINE_add by done. rewrite quad_add by (rewrite B_eq in *; lia).
  assert (uq = t * ((q1 * B + q2) * 2 ^ 32 + (q3 * B + q4)) + r4) as HU by (rewrite B_eq in *; nia).
  unfold ret. do 3 f_equal; [by apply (Z.div_unique_pos _ _ _ r4)|].
  destruct arq; [|done]. f_equal. by eapply (Z.mod_unique_pos _ _ _ r4).
Qed.

Lemma qdivrem_run uq vq arq s :
  0 <= uq < 2 ^ 64 -> 0 < vq < 2 ^ 64 ->
  exists s', __qdivrem uq vq arq s = Ret ((uq / vq, if arq then Some (uq mod vq) else None), s').
Proof.
  intros Hu Hv. unfold __qdivrem. rewrite decide_False by lia.
  destruct (decide (uq < vq)) as [Hlt|Hge].
  { rewrite Z.div_small, Z.mod_small by lia. by exists s. }
  rewrite wr_run by (rewrite ?B_eq; lia). set (s0 := dset s uspace 0 0).
  match goal with |- exists _, bind _ ?k _ = _ => destruct (split_quad_run uspace uq k s0 Hu) as (s1 & -> & D1 & V1 & S1) end.
  match goal with |- exists _, bind _ ?k _ = _ => destruct (split_quad_run vspace vq k s1) as (s2 & -> & D2 & V2 & S2); [lia|] end.
  assert (forall i, s2 uspace i = s1 uspace i) as Eu by (intros; apply S2; by intros []).
  assert (is_digits (s2 uspace) 1 4) as Du by (intros i Hi; rewrite Eu; by apply D1).
  assert (digits_val (s2 uspace) 1 4 = uq) as Vu by (by rewrite (digits_val_ext _ (s1 uspace)) by (intros; apply Eu)).
  destruct (divisor_loop_run s2 D2) as [(Hr & Hone)|(n & Hn & Hr & Htop & Hz)]; [lia| |];
    rewrite (bind_ret _ _ _ _ _ Hr).
  - rewrite decide_True by done. exists s2. apply short_division_run; [done|done|congruence|].
    split; [lia|]. rewrite <- V2, Hone. apply D2. lia.
  - rewrite decide_False by lia. apply long_division_run; try done; [|lia].
    rewrite Eu, S1 by (intros []; lia). apply dset_eq.
Qed.

(** ** Shift and subtract *)

Lemma justify_loop_run fuel : forall den qbit j,
  0 < den < 2 ^ 64 -> 2 ^ 63 <= den * 2 ^ (Z.of_nat fuel - 1) -> 0 <= j -> 2 ^ j <= den -> qbit = 2 ^ j ->
  exists k, justify_loop fuel den qbit = Some (den * 2 ^ k, qbit * 2 ^ k) /\ 0 <= k /\ j + k < 64 /\
    2 ^ 63 <= den * 2 ^ k < 2 ^ 64.
Proof.
  induction fuel as [|fuel IH]; intros den qbit j Hd Hf Hj Hjd ->.
  { change (2 ^ (Z.of_nat 0 - 1)) with 0 in Hf. lia. }
  cbn [justify_loop]. assert (j < 64) by (apply (Z.pow_lt_mono_r_iff 2); lia).
  destruct (decide (den < 2 ^ 63)) as [Hlt|Hge].
  - rewrite !Z.shiftl_mul_pow2 by lia. change (2 ^ 1) with 2.
    assert (2 ^ (j + 1) = 2 ^ j * 2) as Hj1 by (by rewrite Z.pow_add_r by lia).
    rewrite !u64_small by lia.
    destruct (IH (den * 2) (2 ^ j * 2) (j + 1)) as (k & Hk & H1 & H2 & H3); try lia.
    + destruct fuel as [|fuel]; [change (2 ^ (Z.of_nat 1 - 1)) with 1 in Hf; lia|].
      replace (Z.of_nat (S (S fuel)) - 1) with (Z.succ (Z.of_nat (S fuel) - 1)) in Hf by lia.
      rewrite Z.pow_succ_r in Hf by lia. lia.
    + exists (k + 1). rewrite Hk, Z.pow_add_r by lia. change (2 ^ 1) with 2.
      split_and!; [do 2 f_equal; lia|lia..].
  - exists 0. change (2 ^ 0) with 1. rewrite !Z.mul_1_r. split_and!; [done|lia..].
Qed.

Lemma subtract_loop_run k : forall fuel num den quot,
  (k + 1 < fuel)%nat -> 0 < den -> 0 <= num < den * 2 ^ (Z.of_nat k + 1) -> 0 <= quot ->
  den * 2 ^ Z.of_nat k < 2 ^ 64 -> quot * den + num < 2 ^ 64 ->
  subtract_loop fuel num (den * 2 ^ Z.of_nat k) (2 ^ Z.of_nat k) quot =
    Some (quot + num / den, num mod den).
Proof.
  induction k as [|k IH]; intros [|[|fuel]] num den quot Hf Hd Hn Hq Hdk Hb; try lia.
  - change (2 ^ Z.of_nat 0) with 1 in *. change (2 ^ (Z.of_nat 0 + 1)) with 2 in Hn. rewrite Z.mul_1_r.
    cbn [subtract_loop]. rewrite decide_False by done. change (Z.shiftr 1 1) with 0.
    destruct (decide (den <= num)); rewrite decide_True by done; do 2 f_equal.
    + rewrite u64_small by nia. f_equal. apply (Z.div_unique_pos _ _ _ (num - den)); lia.
    + rewrite u64_small by lia. apply (Z.mod_unique_pos _ _ 1); lia.
    + rewrite Z.div_small; lia.
    + symmetry. apply Z.mod_small. lia.
  - assert (2 ^ Z.of_nat (S k) = 2 * 2 ^ Z.of_nat k) as Hp
      by (rewrite Nat2Z.inj_succ, Z.pow_succ_r by lia; done).
    assert (2 ^ (Z.of_nat (S k) + 1) = 2 * 2 ^ Z.of_nat (S k)) as Hp1 by (rewrite Z.pow_add_r by lia; lia).
    assert (2 ^ (Z.of_nat k + 1) = 2 ^ Z.of_nat (S k)) as Hp2 by (f_equal; lia).
    assert (0 < 2 ^ Z.of_nat k) as Hpos by (apply Z.pow_pos_nonneg; lia).
    assert (Z.shiftr (den * 2 ^ Z.of_nat (S k)) 1 = den * 2 ^ Z.of_nat k) as Hs1
      by (rewrite Z.shiftr_div_pow2, Hp by lia; change (2 ^ 1) with 2; div_lia).
    assert (Z.shiftr (2 ^ Z.of_nat (S k)) 1 = 2 ^ Z.of_nat k) as Hs2
      by (rewrite Z.shiftr_div_pow2, Hp by lia; change (2 ^ 1) with 2; div_lia).
    remember (S fuel) as f. cbn [subtract_loop]. rewrite decide_False by lia. rewrite Hs1, Hs2.
    set (b := 2 ^ Z.of_nat (S k)) in *.
    destruct (decide (den * b <= num)).
    + rewrite !u64_small by nia. rewrite IH; try lia; try nia.
      do 2 f_equal.
      * replace num with (num - den * b + b * den) at 2 by lia. rewrite Z.div_add by lia. lia.
      * replace num with (num - den * b + b * den) at 2 by lia. by rewrite Z.mod_add by lia.
    + apply IH; lia.
Qed.

Lemma udivmoddi4_run num den r s :
  0 <= num < 2 ^ 64 -> 0 < den < 2 ^ 64 ->
  __udivmoddi4 num den r s = Ret ((num / den, if r then Some (num mod den) else None), s).
Proof.
  intros Hn Hd. unfold __udivmoddi4. rewrite decide_False by lia.
  destruct (justify_loop_run 64 den 1 0) as (k & -> & Hk & Hk64 & Hlt); [done| |lia|change (2 ^ 0) with 1; lia|done|].
  { change (2 ^ (Z.of_nat 64 - 1)) with (2 ^ 63). lia. }
  rewrite Z.mul_1_l.
  pose proof (subtract_loop_run (Z.to_nat k) 65 num den 0) as H. rewrite !Z2Nat.id in H by lia.
  rewrite H; [done|lia|lia| |lia|lia|lia].
  rewrite Z.pow_add_r by lia. change (2 ^ 1) with 2. lia.
Qed.

(** ** Properties *)

(** C11: [__qdivrem] returns, for every pair of 64-bit numbers and whatever its
    arrays hold before, the quotient and, when asked for, the remainder; a null
    divisor gives 0 and the dividend.  No access leaves the arrays and every
    loop ends. *)
Theorem qdivrem_correct uq vq arq s :
  0 <= uq < 2 ^ 64 -> 0 <= vq < 2 ^ 64 ->
  exists s', __qdivrem uq vq arq s =
    Ret ((if decide (vq = 0) then 0 else uq / vq,
          if arq then Some (if decide (vq = 0) then uq else uq mod vq) else None), s').
Proof.
  intros Hu Hv. destruct (decide (vq = 0)) as [->|Hnz].
  - unfold __qdivrem. rewrite decide_True by done. by exists s.
  - apply qdivrem_run; lia.
Qed.

(** the operators [/] and [%] of the compiler: [__udivdi3] and
    [__umoddi3] compute the division with remainder, and the shift-and-subtract
    routine [__udivmoddi4] gives the same numbers as the long division. *)
Theorem division_routines_agree a b s :
  0 <= a < 2 ^ 64 -> 0 < b < 2 ^ 64 ->
  exists q r s1 s2,
    __udivdi3 a b s = Ret (q, s1) /\ __umoddi3 a b s = Ret (r, s2) /\
    __udivmoddi4 a b true s = Ret ((q, Some r), s) /\ a = q * b + r /\ 0 <= r < b.
Proof.
  intros Ha Hb. destruct (qdivrem_run a b false s Ha Hb) as (s1 & H1).
  destruct (qdivrem_run a b true s Ha Hb) as (s2 & H2).
  exists (a / b), (a mod b), s1, s2. unfold __udivdi3, __umoddi3.
  rewrite (bind_ret _ _ _ _ _ H1), (bind_ret _ _ _ _ _ H2), udivmoddi4_run by done.
  pose proof (Z.div_mod a b ltac:(lia)). pose proof (Z.mod_pos_bound a b ltac:(lia)).
  split_and!; try done; lia.
Qed.

(** A null divisor: the long division returns, the other divides by it. *)
Lemma null_divisor_differs num r s :
  result_of (__qdivrem num 0 r s) = Some (0, if r then Some num else None) /\
  is_fault (__udivmoddi4 num 0 r s) = true.
Proof. done. Qed.

(** ** Witnesses *)

Definition garbage : digits := fun _ i => 40000 + i.

(** A dividend whose first estimate is too large, so that it is added back. *)
Lemma qdivrem_correct_witness :
  (0 <= 0x7fff800100000000 < 2 ^ 64 /\ 0 <= 0x800080020005 < 2 ^ 64) /\
  exists s', __qdivrem 0x7fff800100000000 0x800080020005 true garbage =
    Ret ((0x7fff800100000000 / 0x800080020005, Some (0x7fff800100000000 mod 0x800080020005)), s').
Proof.
  split; [lia|]. exact (qdivrem_correct 0x7fff800100000000 0x800080020005 true garbage ltac:(lia) ltac:(lia)).
Defined.

Lemma division_routines_agree_witness :
  (0 <= 2 ^ 64 - 1 < 2 ^ 64 /\ 0 < 1000 < 2 ^ 64) /\
  exists q r s1 s2,
    __udivdi3 (2 ^ 64 - 1) 1000 garbage = Ret (q, s1) /\ __umoddi3 (2 ^ 64 - 1) 1000 garbage = Ret (r, s2) /\
    __udivmoddi4 (2 ^ 64 - 1) 1000 true garbage = Ret ((q, Some r), garbage) /\
    2 ^ 64 - 1 = q * 1000 + r /\ 0 <= r < 1000.
Proof. split; [lia|]. apply (division_routines_agree (2 ^ 64 - 1) 1000 garbage); lia. Defined.
