(* ===== verification/LibNum.v ===== *)
(** * Numbers as strings ([lib/itoa.c], [lib/uitoa.c])

    The 64-bit operators [%] and [/] are the calls of [LibDiv]; the local
    array [tmp] is the list of the characters written in it so far. *)
From S2P Require Import Prelude LibDiv LibDivSpec LibDivTheorems ByteMem.

(** A call that uses no memory but its own stack. *)
Definition on_stack {A} (m : M digits A) : M mem A := fun t =>
  match m (fun _ _ => 0) with
  | Ret (a, _) => Ret (a, t)
  | Panic e => Panic e
  | Fault => Fault
  | Diverge => Diverge
  end.

(** "0123456789ABCDEF" *)
Definition hex_table : list Z :=
  [48; 49; 50; 51; 52; 53; 54; 55; 56; 57; 65; 66; 67; 68; 69; 70].

Definition TMP_SIZE : Z := 128.

(** [tmp[pos++] = c;] past the end of the array is undefined. *)
Definition tmp_push (tmp : list Z) (c : Z) : M mem (list Z) :=
  if decide (Z.of_nat (length tmp) < TMP_SIZE) then ret (tmp ++ [c]) else fault.

(** [while (i != 0) { tmp[pos++] = hex_table[i % base]; i /= base; }] *)
Fixpoint digits_loop (fuel : nat) (i base : Z) (tmp : list Z) : M mem (list Z) :=
  match fuel with
  | O => diverge
  | S fuel =>
    if decide (i = 0) then ret tmp
    else
      let* r := on_stack (__umoddi3 i base) in
      match hex_table !! Z.to_nat r with
      | None => fault
      | Some c =>
        let* tmp := tmp_push tmp c in
        let* i := on_stack (__udivdi3 i base) in
        digits_loop fuel i base tmp
      end
  end.

(** [for (opos = 0; opos < top; --pos, ++opos) buf[opos] = tmp[pos];] with [k]
    turns left, that is [pos = k - 1]. *)
Fixpoint reverse_loop (k : nat) (buf opos : Z) (tmp : list Z) : M mem unit :=
  match k with
  | O => ret tt
  | S pos =>
    match tmp !! pos with
    | None => fault
    | Some c => store (buf + opos) c >>> reverse_loop pos buf (opos + 1) tmp
    end
  end.

Definition uitoa (i buf base : Z) : M mem unit :=
  if decide (i = 0 \/ base > 16) then
    store buf 48 >>> store (buf + 1) 0
  else
    let* tmp := digits_loop 130 i base [] in
    let top := length tmp in
    reverse_loop top buf 0 tmp >>>
    store (buf + Z.of_nat top) 0.

(** [i *= -1] wraps around for the least number. *)
Definition i64 (z : Z) : Z := (z + 2 ^ 63) mod 2 ^ 64 - 2 ^ 63.

Definition itoa (i buf base : Z) : M mem unit :=
  if decide (base > 16) then ret tt
  else if decide (base = 10 /\ i < 0) then
    store buf 45 >>> uitoa (u64 (i64 (i * -1))) (buf + 1) base
  else uitoa (u64 i) buf base.
