(* ===== verification/LibNumTheorems.v ===== *)
(** * Numbers as strings: properties

    What [uitoa] and [itoa] write reads back as the number, in every base from
    2 to 16; the bases they do not handle. *)
From S2P Require Import Prelude LibDiv LibDivSpec LibDivTheorems ByteMem LibNum.

(** ** Numerals *)

Definition hex_char (d : Z) : Z := if decide (d < 10) then 48 + d else 55 + d.
Definition char_val (c : Z) : Z := if decide (c < 58) then c - 48 else c - 55.

(** The number a sequence of characters stands for, the most significant
    first. *)
Definition parse (base : Z) (l : list Z) : Z := foldl (fun a c => a * base + char_val c) 0 l.

Definition is_digit (base c : Z) : Prop := exists d, 0 <= d < base /\ c = hex_char d.

(** Digits of the base, at least one, and no leading zero. *)
Record is_numeral (base : Z) (l : list Z) : Prop := {
  nu_digits : Forall (is_digit base) l;
  nu_first : head l <> None /\ (head l = Some 48 -> l = [48])
}.

Lemma hex_table_char d : 0 <= d < 16 -> hex_table !! Z.to_nat d = Some (hex_char d).
Proof.
  intros Hd. unfold hex_char, hex_table.
  assert (exists n, (n < 16)%nat /\ d = Z.of_nat n) as (n & Hn & ->) by (exists (Z.to_nat d); lia).
  rewrite Nat2Z.id. do 16 (destruct n as [|n]; [done|]). lia.
Qed.

Lemma char_val_hex d : 0 <= d < 16 -> char_val (hex_char d) = d.
Proof. intros. unfold char_val, hex_char. repeat case_decide; lia. Qed.

Lemma hex_char_range d : 0 <= d < 16 -> 0 < hex_char d < 256.
Proof. intros. unfold hex_char. case_decide; lia. Qed.

Lemma hex_char_zero d : 0 <= d -> hex_char d = 48 -> d = 0.
Proof. unfold hex_char. case_decide; lia. Qed.

Lemma is_digit_range base c : base <= 16 -> is_digit base c -> 0 < c < 256.
Proof. intros Hb (d & Hd & ->). apply hex_char_range. lia. Qed.

Lemma parse_snoc base l c : parse base (l ++ [c]) = parse base l * base + char_val c.
Proof. unfold parse. by rewrite foldl_app. Qed.

(** A number has one numeral. *)
Lemma digit_val base c : base <= 16 -> is_digit base c -> 0 <= char_val c < base /\ c = hex_char (char_val c).
Proof. intros Hb (d & Hd & ->). by rewrite char_val_hex by lia. Qed.

Lemma parse_pos base l :
  1 <= base <= 16 -> Forall (is_digit base) l -> l <> [] -> head l <> Some 48 -> 0 < parse base l.
Proof.
  intros Hb. induction l as [|c l IH] using rev_ind; [done|]. intros [Hl Hc]%Forall_app _ Hh.
  apply Forall_cons in Hc as [Hc _]. apply digit_val in Hc as [Hc Hce]; [|lia]. rewrite parse_snoc.
  destruct l as [|b l].
  - cbn [app head] in Hh. assert (char_val c <> 0) by (intros E; rewrite E in Hce; by subst).
    change (parse base []) with 0. lia.
  - specialize (IH Hl ltac:(done) Hh). nia.
Qed.

Lemma parse_inj base l : forall k,
  2 <= base <= 16 -> Forall (is_digit base) l -> Forall (is_digit base) k ->
  head l <> Some 48 -> head k <> Some 48 -> parse base l = parse base k -> l = k.
Proof.
  induction l as [|c l IH] using rev_ind; intros k Hb Hl Hk Hhl Hhk E.
  - destruct k as [|b k]; [done|]. pose proof (parse_pos base (b :: k) ltac:(lia) Hk ltac:(done) Hhk).
    change (parse base []) with 0 in E. lia.
  - destruct k as [|b k _] using rev_ind.
    { pose proof (parse_pos base (l ++ [c]) ltac:(lia) Hl ltac:(by destruct l) Hhl).
      change (parse base []) with 0 in E. lia. }
    apply Forall_app in Hl as [Hl Hc]. apply Forall_app in Hk as [Hk Hd].
    apply Forall_cons in Hc as [Hc _]. apply Forall_cons in Hd as [Hd _].
    apply digit_val in Hc as [Hc Hce]; [|lia]. apply digit_val in Hd as [Hd Hde]; [|lia].
    rewrite !parse_snoc, !(Z.mul_comm _ base) in E.
    apply Z.div_mod_unique in E as [E2 E1]; [|by left..].
    rewrite (IH k) by (done || (destruct l, k; done)). by rewrite Hce, Hde, E1.
Qed.

Lemma numeral_unique base l k :
  2 <= base <= 16 -> is_numeral base l -> is_numeral base k -> parse base l = parse base k -> l = k.
Proof.
  intros Hb [Hl [Hl1 Hl2]] [Hk [Hk1 Hk2]] E.
  assert (forall j, Forall (is_digit base) j -> head j <> None -> head j <> Some 48 -> parse base j <> parse base [48]) as H.
  { intros j Hj Hn H0. pose proof (parse_pos base j ltac:(lia) Hj ltac:(by destruct j) H0).
    change (parse base [48]) with (0 * base + 0). lia. }
  destruct (decide (head l = Some 48)) as [Hl0|Hl0], (decide (head k = Some 48)) as [Hk0|Hk0].
  - by rewrite (Hl2 Hl0), (Hk2 Hk0).
  - rewrite (Hl2 Hl0) in E. by destruct (H k Hk Hk1 Hk0).
  - rewrite (Hk2 Hk0) in E. by destruct (H l Hl Hl1 Hl0).
  - by apply (parse_inj base).
Qed.

(** ** The library's operators *)

Lemma umoddi3_stack a b t : 0 <= a < 2 ^ 64 -> 0 < b < 2 ^ 64 -> on_stack (__umoddi3 a b) t = Ret (a mod b, t).
Proof.
  intros Ha Hb. unfold on_stack, __umoddi3.
  destruct (qdivrem_run a b true (fun _ _ => 0) Ha Hb) as (s' & H). by rewrite (bind_ret _ _ _ _ _ H).
Qed.

Lemma udivdi3_stack a b t : 0 <= a < 2 ^ 64 -> 0 < b < 2 ^ 64 -> on_stack (__udivdi3 a b) t = Ret (a / b, t).
Proof.
  intros Ha Hb. unfold on_stack, __udivdi3.
  destruct (qdivrem_run a b false (fun _ _ => 0) Ha Hb) as (s' & H). by rewrite (bind_ret _ _ _ _ _ H).
Qed.

(** ** The digits *)

Lemma digits_run base k : forall fuel i tmp m,
  2 <= base <= 16 -> 0 <= i < 2 ^ 64 -> i < base ^ Z.of_nat k ->
  (length tmp + k <= 128)%nat -> (k < fuel)%nat ->
  exists cs, digits_loop fuel i base tmp m = Ret (tmp ++ cs, m) /\ (length cs <= k)%nat /\
    parse base (reverse cs) = i /\ Forall (is_digit base) cs /\
    (i = 0 -> cs = []) /\ (i <> 0 -> exists c, last cs = Some c /\ c <> 48).
Proof.
  induction k as [|k IH]; intros [|fuel] i tmp m Hb Hi Hk Hl Hf; try lia; cbn [digits_loop].
  - assert (i = 0) as -> by (change (base ^ Z.of_nat 0) with 1 in Hk; lia).
    rewrite decide_True by done. exists []. rewrite app_nil_r. by split_and!.
  - destruct (decide (i = 0)) as [->|Hnz].
    { exists []. rewrite app_nil_r. split_and!; try done. simpl. lia. }
    rewrite (bind_ret _ _ _ _ _ (umoddi3_stack i base m Hi ltac:(lia))).
    pose proof (Z.mod_pos_bound i base ltac:(lia)) as Hm. pose proof (Z.div_mod i base ltac:(lia)) as Hdm.
    rewrite hex_table_char by lia. unfold tmp_push. rewrite decide_True by (unfold TMP_SIZE; lia).
    rewrite bind_ret_l, (bind_ret _ _ _ _ _ (udivdi3_stack i base m Hi ltac:(lia))).
    rewrite Nat2Z.inj_succ, Z.pow_succ_r in Hk by lia.
    assert (0 <= i / base) by (apply Z.div_pos; lia).
    assert (i / base < base ^ Z.of_nat k) as Hk' by (apply Z.div_lt_upper_bound; lia).
    assert (i / base <= i) by (apply Z.div_le_upper_bound; nia).
    destruct (IH fuel (i / base) (tmp ++ [hex_char (i mod base)]) m) as (cs & -> & Hlen & Hp & Hd & Hz0 & Hz1);
      [lia|lia|done|rewrite length_app; simpl; lia|lia|].
    exists (hex_char (i mod base) :: cs). split_and!.
    + by rewrite <- app_assoc.
    + simpl. lia.
    + rewrite reverse_cons, parse_snoc, Hp, char_val_hex by lia. lia.
    + constructor; [|done]. by exists (i mod base).
    + done.
    + intros _. destruct (decide (i / base = 0)) as [E|E].
      * rewrite (Hz0 E). exists (hex_char (i mod base)). split; [done|].
        intros ?%hex_char_zero; [|lia]. rewrite E in Hdm. lia.
      * destruct (Hz1 E) as (c & Hc & Hc0). exists c. split; [|done]. rewrite last_cons, Hc. done.
Qed.

Lemma reverse_run tmp k : forall buf opos m,
  (k <= length tmp)%nat -> Forall (fun c => 0 <= c < 256) tmp -> mapped m (buf + opos) k ->
  reverse_loop k buf opos tmp m = Ret (tt, put m (buf + opos) (reverse (take k tmp))).
Proof.
  induction k as [|k IH]; intros buf opos m Hk Hc Hm; [done|]. cbn [reverse_loop].
  destruct (lookup_lt_is_Some_2 tmp k) as [c Hck]; [lia|]. rewrite Hck.
  apply mapped_S in Hm as [H1 H2].
  rewrite store_run; [|done|by eapply Forall_lookup_1 in Hc].
  rewrite IH; [|lia|done|].
  - rewrite (take_S_r _ _ _ Hck), reverse_snoc. cbn [put]. by replace (buf + (opos + 1)) with (buf + opos + 1) by lia.
  - replace (buf + (opos + 1)) with (buf + opos + 1) by lia.
    apply (put_mapped m (buf + opos) [c]). done.
Qed.

(** [n] digits are enough for the number. *)
Lemma uitoa_run i buf base n m :
  2 <= base <= 16 -> 0 <= i < 2 ^ 64 -> i < base ^ Z.of_nat n -> (1 <= n)%nat -> mapped m buf (S n) ->
  exists l, uitoa i buf base m = Ret (tt, put m buf (l ++ [0])) /\ is_numeral base l /\
    parse base l = i /\ (length l <= n)%nat.
Proof.
  intros Hb Hi Hn Hn1 Hm. unfold uitoa. destruct (decide (i = 0 \/ base > 16)) as [Hz|Hz].
  - assert (i = 0) as -> by lia. exists [48].
    destruct n as [|n]; [lia|]. apply mapped_S in Hm as [H1 Hm]. apply mapped_S in Hm as [H2 _].
    rewrite store_run by (done || lia).
    rewrite store_run_last; [|destruct (decide (buf = buf + 1)); [lia|by rewrite lookup_insert_ne by lia]|lia].
    split_and!; [done| |done|simpl; lia].
    split; [|split; [done|done]]. constructor; [|done]. exists 0. split; [lia|done].
  - set (k := Nat.min n 64).
    assert (2 ^ 64 <= base ^ 64) as H64 by (apply Z.pow_le_mono_l; lia).
    assert (i < base ^ Z.of_nat k) as Hk.
    { unfold k. destruct (Nat.min_spec n 64) as [[_ ->]|[_ ->]]; [done|]. change (Z.of_nat 64) with 64. lia. }
    destruct (digits_run base k 130 i [] m) as (cs & Hr & Hl & Hp & Hd & _ & Hlast); [lia|lia|done|simpl; lia|lia|].
    rewrite (bind_ret _ _ _ _ _ Hr). cbn [app].
    assert (Forall (fun c => 0 <= c < 256) cs) as Hc.
    { eapply Forall_impl; [exact Hd|]. intros c Hc%is_digit_range; lia. }
    assert (mapped m buf (length cs)) as Hmc by (eapply mapped_le; [exact Hm|lia]).
    pose proof (reverse_run cs (length cs) buf 0 m) as Hrev. rewrite Z.add_0_r, firstn_all in Hrev.
    rewrite (bind_ret _ _ _ _ _ (Hrev ltac:(lia) Hc Hmc)).
    rewrite store_run_last; [|apply put_mapped with (n := S n); [done|lia]|lia].
    exists (reverse cs). split_and!; [|split|done|rewrite length_reverse; lia].
    + rewrite put_app, length_reverse. done.
    + by apply Forall_reverse.
    + destruct Hlast as (c & Hc1 & Hc2); [lia|]. rewrite head_reverse, Hc1. split; [done|]. congruence.
Qed.

(** ** Properties *)

(** C36: what [uitoa] writes in bases 2 to 16 is a null-terminated numeral of the
    base, without leading zeros, that reads back as the number; [n] characters
    and the null byte are enough for a number below [base ^ n], and no other
    byte is written. *)
Theorem uitoa_roundtrip i buf base n m :
  2 <= base <= 16 -> 0 <= i < 2 ^ 64 -> i < base ^ Z.of_nat n -> (1 <= n)%nat -> mapped m buf (S n) ->
  exists l m', uitoa i buf base m = Ret (tt, m') /\ cstr m' buf l /\ is_numeral base l /\
    parse base l = i /\ (length l <= n)%nat /\
    forall k, ~ (buf <= k <= buf + Z.of_nat n) -> m' !! k = m !! k.
Proof.
  intros Hb Hi Hn Hn1 Hm. destruct (uitoa_run i buf base n m Hb Hi Hn Hn1 Hm) as (l & Hr & Hl & Hp & Hlen).
  exists l, (put m buf (l ++ [0])). split_and!; try done; [|apply Hl..|].
  - split; [apply bytes_at_put|]. destruct Hl as [Hd _]. eapply Forall_impl; [exact Hd|].
    intros c Hc%is_digit_range; lia.
  - intros k Hk. apply put_lookup_ne. rewrite length_app. simpl. lia.
Qed.

Definition parse_signed (l : list Z) : Z :=
  match l with 45 :: l => - parse 10 l | _ => parse 10 l end.

Lemma parse_signed_digits l : Forall (is_digit 10) l -> parse_signed l = parse 10 l.
Proof.
  intros H. destruct l as [|c l]; [done|]. apply Forall_cons in H as [(d & Hd & ->) _].
  unfold parse_signed. assert (hex_char d <> 45) as Hne by (unfold hex_char; case_decide; lia).
  destruct (hex_char d) as [|q|q]; try done. do 6 (destruct q as [q|q|]; try done).
Qed.

(** [itoa] in base 10 writes the sign and the absolute value of any 64-bit
    number, the least one included. *)
Theorem itoa_roundtrip i buf n m :
  - 2 ^ 63 <= i < 2 ^ 63 -> Z.abs i < 10 ^ Z.of_nat n -> (1 <= n)%nat -> mapped m buf (S (S n)) ->
  exists l m', itoa i buf 10 m = Ret (tt, m') /\ cstr m' buf l /\ parse_signed l = i /\
    (length l <= S n)%nat.
Proof.
  intros Hi Hn Hn1 Hm. unfold itoa. rewrite decide_False by lia.
  assert (forall l, Forall (is_digit 10) l -> is_string l) as Hstr.
  { intros l Hl. eapply Forall_impl; [exact Hl|]. intros c Hc%is_digit_range; lia. }
  destruct (decide (10 = 10 /\ i < 0)) as [[_ Hneg]|Hpos].
  - pose proof Hm as Hm'. apply mapped_S in Hm as [H1 H2]. rewrite store_run by (done || lia).
    assert (u64 (i64 (i * -1)) = - i) as ->.
    { unfold u64, i64. change (2 ^ 63) with 9223372036854775808 in *. change (2 ^ 64) with 18446744073709551616.
      div_lia. }
    destruct (uitoa_run (- i) (buf + 1) 10 n (<[buf := 45]> m)) as (l & Hr & [Hd _] & Hp & Hlen); try lia.
    { by apply (put_mapped m buf [45]). }
    exists (45 :: l), (put m buf ((45 :: l) ++ [0])). split_and!; [done| | |simpl; lia].
    + split; [apply bytes_at_put|]. constructor; [lia|by apply Hstr].
    + simpl. lia.
  - rewrite u64_small by lia.
    destruct (uitoa_run i buf 10 n m) as (l & Hr & [Hd _] & Hp & Hlen); try lia.
    { eapply mapped_le; [exact Hm|lia]. }
    exists l, (put m buf (l ++ [0])). split_and!; [done| | |lia].
    + split; [apply bytes_at_put|by apply Hstr].
    + by rewrite parse_signed_digits.
Qed.

(** In base 1 the quotient never gets smaller: the loop fills [tmp] and writes
    past its end. *)
Lemma uitoa_base_one_overflows i buf m :
  0 < i < 2 ^ 64 -> uitoa i buf 1 m = Fault.
Proof.
  intros Hi. unfold uitoa. rewrite decide_False by lia.
  enough (forall fuel tmp, (length tmp <= 128)%nat -> (128 < length tmp + fuel)%nat ->
    digits_loop fuel i 1 tmp m = Fault) as H by (unfold bind; by rewrite H by (simpl; lia)).
  induction fuel as [|fuel IH]; intros tmp H1 H2; [lia|]. cbn [digits_loop].
  rewrite decide_False by lia.
  rewrite (bind_ret _ _ _ _ _ (umoddi3_stack i 1 m ltac:(lia) ltac:(lia))), Z.mod_1_r.
  rewrite (hex_table_char 0) by lia. unfold tmp_push, TMP_SIZE. destruct (decide (Z.of_nat (length tmp) < 128)); [|done].
  rewrite bind_ret_l, (bind_ret _ _ _ _ _ (udivdi3_stack i 1 m ltac:(lia) ltac:(lia))), Z.div_1_r.
  apply IH; rewrite length_app; simpl; lia.
Qed.

(** In base 0 the table of digits is read past its end. *)
Lemma uitoa_base_zero_faults i buf m : 16 <= i < 2 ^ 64 -> uitoa i buf 0 m = Fault.
Proof.
  intros Hi. unfold uitoa. rewrite decide_False by lia. unfold bind at 1. cbn [digits_loop].
  rewrite decide_False by lia.
  assert (on_stack (__umoddi3 i 0) m = Ret (i, m)) as H by done.
  rewrite (bind_ret _ _ _ _ _ H). rewrite lookup_ge_None_2; [done|]. simpl. lia.
Qed.

(** Above 16, [uitoa] writes 0 for every number, [itoa] writes nothing. *)
Lemma large_base_ignored i buf base m :
  base > 16 -> is_Some (m !! buf) -> is_Some (m !! (buf + 1)) ->
  uitoa i buf base m = Ret (tt, put m buf [48; 0]) /\ itoa i buf base m = Ret (tt, m).
Proof.
  intros Hb H1 H2. unfold uitoa, itoa. rewrite decide_True by lia. rewrite store_run by (done || lia).
  rewrite store_run_last; [|by rewrite lookup_insert_ne by lia|lia]. by rewrite decide_True by lia.
Qed.

(** ** Witnesses *)

Definition blank_bytes : mem := put ∅ 100 (replicate 30 7).

Lemma blank_mapped n : (n <= 30)%nat -> mapped blank_bytes 100 n.
Proof.
  intros H. apply mapped_le with 30%nat; [|done]. change 30%nat with (length (replicate 30 7)).
  apply mapped_bytes, bytes_at_put.
Qed.

Lemma uitoa_roundtrip_witness :
  (2 <= 16 <= 16 /\ 0 <= 3735928559 < 2 ^ 64 /\ 3735928559 < 16 ^ Z.of_nat 8 /\ (1 <= 8)%nat /\
   mapped blank_bytes 100 9) /\
  exists l m', uitoa 3735928559 100 16 blank_bytes = Ret (tt, m') /\ cstr m' 100 l /\ is_numeral 16 l /\
    parse 16 l = 3735928559 /\ (length l <= 8)%nat /\
    forall k, ~ (100 <= k <= 100 + Z.of_nat 8) -> m' !! k = blank_bytes !! k.
Proof.
  assert (mapped blank_bytes 100 9) as Hm by (apply blank_mapped; lia).
  split; [split_and!; first [lia|exact Hm]|].
  apply (uitoa_roundtrip 3735928559 100 16 8 blank_bytes); [lia|lia|reflexivity|lia|exact Hm].
Defined.

Lemma itoa_roundtrip_witness :
  (- 2 ^ 63 <= - 2 ^ 63 < 2 ^ 63 /\ Z.abs (- 2 ^ 63) < 10 ^ Z.of_nat 19 /\ (1 <= 19)%nat /\
   mapped blank_bytes 100 21) /\
  exists l m', itoa (- 2 ^ 63) 100 10 blank_bytes = Ret (tt, m') /\ cstr m' 100 l /\
    parse_signed l = - 2 ^ 63 /\ (length l <= 20)%nat.
Proof.
  assert (mapped blank_bytes 100 21) as Hm by (apply blank_mapped; lia).
  split; [split_and!; first [lia|exact Hm]|].
  apply (itoa_roundtrip (- 2 ^ 63) 100 19 blank_bytes); [lia|reflexivity|lia|exact Hm].
Defined.
