(* ===== verification/LibString.v ===== *)
(** * Strings and blocks of bytes ([lib/str*.c], [lib/mem*.c])

    Each function on the memory of [ByteMem], with its loop.  A pointer that
    runs along a string is an address; [(char)c] and [(unsigned char)c] keep
    the low byte.  [memcpy], [memset] and [memmove] are their portable
    branches: the i386 ones are assembly. *)
From stdpp Require Import functions.
From S2P Require Import Prelude ByteMem.

(** The loops on null-terminated strings. *)
Definition with_fuel {A} (f : nat -> M mem A) : M mem A := let* n := gets mem_fuel in f n.

(** ** Length and search *)

(** [while ( *ss) ss++;] *)
Fixpoint strlen_loop (fuel : nat) (ss : Z) : M mem Z :=
  match fuel with
  | O => diverge
  | S fuel => let* b := load ss in if decide (b <> 0) then strlen_loop fuel (ss + 1) else ret ss
  end.

Definition strlen (s : Z) : M mem Z :=
  let* ss := with_fuel (fun fuel => strlen_loop fuel s) in ret (ss - s).

(** [while ((maxlen > 0) && *ss) { ss++; maxlen--; }] *)
Fixpoint strnlen_loop (maxlen : nat) (ss : Z) : M mem Z :=
  match maxlen with
  | O => ret ss
  | S maxlen => let* b := load ss in if decide (b <> 0) then strnlen_loop maxlen (ss + 1) else ret ss
  end.

Definition strnlen (s maxlen : Z) : M mem Z :=
  let* ss := strnlen_loop (Z.to_nat maxlen) s in ret (ss - s).

Fixpoint strchr_loop (fuel : nat) (s c : Z) : M mem Z :=
  match fuel with
  | O => diverge
  | S fuel =>
    let* b := load s in
    if decide (b <> u8 c) then if decide (b = 0) then ret NULL else strchr_loop fuel (s + 1) c
    else ret s
  end.

Definition strchr (s c : Z) : M mem Z := with_fuel (fun fuel => strchr_loop fuel s c).

Fixpoint strrchr_loop (fuel : nat) (s c found : Z) : M mem Z :=
  match fuel with
  | O => diverge
  | S fuel =>
    let* b := load s in
    if decide (b <> 0) then strrchr_loop fuel (s + 1) c (if decide (b = u8 c) then s else found)
    else ret found
  end.

Definition strrchr (s c : Z) : M mem Z := with_fuel (fun fuel => strrchr_loop fuel s c NULL).

Fixpoint memchr_loop (n : nat) (sp c : Z) : M mem Z :=
  match n with
  | O => ret NULL
  | S n => let* b := load sp in if decide (b = u8 c) then ret sp else memchr_loop n (sp + 1) c
  end.

Definition memchr (s c n : Z) : M mem Z := memchr_loop (Z.to_nat n) s c.

Fixpoint memrchr_loop (n : nat) (sp c : Z) : M mem Z :=
  match n with
  | O => ret NULL
  | S n => let* b := load sp in if decide (b = u8 c) then ret sp else memrchr_loop n (sp - 1) c
  end.

Definition memrchr (s c n : Z) : M mem Z := memrchr_loop (Z.to_nat n) (s + n - 1) c.

(** ** Comparison *)

Fixpoint strcmp_loop (fuel : nat) (c1 c2 : Z) : M mem Z :=
  match fuel with
  | O => diverge
  | S fuel =>
    let* ch := load c1 in
    let* b := load c2 in
    let d := ch - b in
    if decide (d <> 0 \/ ch = 0) then ret d else strcmp_loop fuel (c1 + 1) (c2 + 1)
  end.

Definition strcmp (s1 s2 : Z) : M mem Z := with_fuel (fun fuel => strcmp_loop fuel s1 s2).

Fixpoint strncmp_loop (n : nat) (c1 c2 d : Z) : M mem Z :=
  match n with
  | O => ret d
  | S n =>
    let* ch := load c1 in
    let* b := load c2 in
    let d := ch - b in
    if decide (d <> 0 \/ ch = 0) then ret d else strncmp_loop n (c1 + 1) (c2 + 1) d
  end.

Definition strncmp (s1 s2 n : Z) : M mem Z := strncmp_loop (Z.to_nat n) s1 s2 0.

Fixpoint memcmp_loop (n : nat) (c1 c2 d : Z) : M mem Z :=
  match n with
  | O => ret d
  | S n =>
    let* a := load c1 in
    let* b := load c2 in
    let d := a - b in
    if decide (d <> 0) then ret d else memcmp_loop n (c1 + 1) (c2 + 1) d
  end.

Definition memcmp (s1 s2 n : Z) : M mem Z := memcmp_loop (Z.to_nat n) s1 s2 0.

(** ** Copies *)

(** [do { *q++ = ch = *p++; } while (ch);] *)
Fixpoint strcpy_loop (fuel : nat) (q p : Z) : M mem unit :=
  match fuel with
  | O => diverge
  | S fuel =>
    let* ch := load p in
    store q ch >>>
    if decide (ch <> 0) then strcpy_loop fuel (q + 1) (p + 1) else ret tt
  end.

Definition strcpy (dst src : Z) : M mem Z :=
  with_fuel (fun fuel => strcpy_loop fuel dst src) >>> ret dst.

Fixpoint memset_loop (n : nat) (q c : Z) : M mem unit :=
  match n with O => ret tt | S n => store q c >>> memset_loop n (q + 1) c end.

Definition memset (dst c n : Z) : M mem Z := memset_loop (Z.to_nat n) dst c >>> ret dst.

Fixpoint memcpy_loop (n : nat) (q p : Z) : M mem unit :=
  match n with
  | O => ret tt
  | S n => let* b := load p in store q b >>> memcpy_loop n (q + 1) (p + 1)
  end.

Definition memcpy (dst src n : Z) : M mem Z := memcpy_loop (Z.to_nat n) dst src >>> ret dst.

(** [while (n--) { *--q = *--p; }] *)
Fixpoint memmove_back (n : nat) (q p : Z) : M mem unit :=
  match n with
  | O => ret tt
  | S n => let* b := load (p - 1) in store (q - 1) b >>> memmove_back n (q - 1) (p - 1)
  end.

Definition memmove (dst src n : Z) : M mem Z :=
  (if decide (dst < src) then memcpy_loop (Z.to_nat n) dst src
   else memmove_back (Z.to_nat n) (dst + n) (src + n)) >>> ret dst.

Fixpoint strncpy_loop (n : nat) (q p : Z) : M mem (Z * Z) :=
  match n with
  | O => ret (q, 0)
  | S n =>
    let* ch := load p in
    store q ch >>>
    if decide (ch = 0) then ret (q + 1, Z.of_nat n) else strncpy_loop n (q + 1) (p + 1)
  end.

Definition strncpy (dst src n : Z) : M mem Z :=
  let* (q, n) := strncpy_loop (Z.to_nat n) dst src in
  memset q 0 n >>> ret dst.

Definition strcat (dst src : Z) : M mem Z :=
  let* q := strchr dst 0 in
  strcpy q src >>> ret dst.

(** [true] when the loop returns from the function. *)
Fixpoint strncat_loop (n : nat) (q p : Z) : M mem (bool * Z) :=
  match n with
  | O => ret (false, q)
  | S n =>
    let* ch := load p in
    store q ch >>>
    if decide (ch = 0) then ret (true, q + 1) else strncat_loop n (q + 1) (p + 1)
  end.

Definition strncat (dst src n : Z) : M mem Z :=
  let* q := strchr dst 0 in
  let* (returned, q) := strncat_loop (Z.to_nat n) q src in
  if returned : bool then ret dst else store q 0 >>> ret dst.

(** [while (bytes < size && *q) { q++; bytes++; }]: [bytes] and [q]. *)
Fixpoint strlcat_end (size : nat) (bytes q : Z) : M mem (Z * Z) :=
  match size with
  | O => ret (bytes, q)
  | S size =>
    let* b := load q in
    if decide (b <> 0) then strlcat_end size (bytes + 1) (q + 1) else ret (bytes, q)
  end.

(** [while ((ch = *p++)) { if (bytes + 1 < size) *q++ = ch; bytes++; }] *)
Fixpoint strlcat_loop (fuel : nat) (bytes q p size : Z) : M mem (Z * Z) :=
  match fuel with
  | O => diverge
  | S fuel =>
    let* ch := load p in
    if decide (ch = 0) then ret (bytes, q)
    else
      let* q := if decide (u32 (bytes + 1) < size) then store q ch >>> ret (q + 1) else ret q in
      strlcat_loop fuel (u32 (bytes + 1)) q (p + 1) size
  end.

Definition strlcat (dst src size : Z) : M mem Z :=
  let* (bytes, q) := strlcat_end (Z.to_nat size) 0 dst in
  if decide (bytes = size) then let* n := strlen src in ret (u32 (bytes + n))
  else
    let* (bytes, q) := with_fuel (fun fuel => strlcat_loop fuel bytes q src size) in
    store q 0 >>> ret bytes.

(** Copy up to and including a character: the address after it, or null. *)
Fixpoint memccpy_loop (n : nat) (q p c : Z) : M mem Z :=
  match n with
  | O => ret NULL
  | S n =>
    let* ch := load p in
    store q ch >>>
    if decide (ch = u8 c) then ret (q + 1) else memccpy_loop n (q + 1) (p + 1) c
  end.

Definition memccpy (dst src c n : Z) : M mem Z := memccpy_loop (Z.to_nat n) dst src c.

Fixpoint memswap_loop (n : nat) (p q : Z) : M mem unit :=
  match n with
  | O => ret tt
  | S n =>
    let* tmp := load p in
    let* b := load q in
    store p b >>> store q tmp >>> memswap_loop n (p + 1) (q + 1)
  end.

Definition memswap (m1 m2 n : Z) : M mem unit := memswap_loop (Z.to_nat n) m1 m2.

(** ** Search of a block *)

(** The loop for needles of at least two bytes: [k] and [l] are how far it
    moves on when the second byte differs, and when it does not. *)
Fixpoint memmem_loop (fuel : nat) (y n x m j k l : Z) : M mem Z :=
  match fuel with
  | O => diverge
  | S fuel =>
    if decide (j <= n - m) then
      let* x1 := load (x + 1) in
      let* y1 := load (y + (j + 1)) in
      if decide (x1 <> y1) then memmem_loop fuel y n x m (j + k) k l
      else
        let* d := memcmp (x + 2) (y + j + 2) (m - 2) in
        if decide (d = 0) then
          let* x0 := load x in
          let* y0 := load (y + j) in
          if decide (x0 = y0) then ret (y + j) else memmem_loop fuel y n x m (j + l) k l
        else memmem_loop fuel y n x m (j + l) k l
    else ret NULL
  end.

(** [do { if ( *y == *x) return y; y++; } while (--n);] *)
Fixpoint memmem_one (n : nat) (y x : Z) : M mem Z :=
  match n with
  | O => ret NULL
  | S n =>
    let* b := load y in
    let* c := load x in
    if decide (b = c) then ret y else memmem_one n (y + 1) x
  end.

Definition memmem (haystack n needle m : Z) : M mem Z :=
  if decide (m > n \/ m = 0 \/ n = 0) then ret NULL
  else if decide (1 <> m) then
    let* x0 := load needle in
    let* x1 := load (needle + 1) in
    let '(k, l) := if decide (x0 = x1) then (2, 1) else (1, 2) in
    memmem_loop (S (Z.to_nat n)) haystack n needle m 0 k l
  else memmem_one (Z.to_nat n) haystack needle.

Definition strstr (haystack needle : Z) : M mem Z :=
  let* n := strlen haystack in
  let* m := strlen needle in
  memmem haystack n needle m.

(** ** Spans and tokens *)

(** [while ( *map) matchmap[(unsigned char) *map++] = 1;] *)
Fixpoint matchmap_loop (fuel : nat) (map : Z) (matchmap : Z -> Z) : M mem (Z -> Z) :=
  match fuel with
  | O => diverge
  | S fuel =>
    let* b := load map in
    if decide (b <> 0) then matchmap_loop fuel (map + 1) (<[b := 1]> matchmap)
    else ret matchmap
  end.

(** [while (matchmap[(unsigned char) *s++] ^ parity) n++;] *)
Fixpoint span_loop (fuel : nat) (s : Z) (matchmap : Z -> Z) (parity n : Z) : M mem Z :=
  match fuel with
  | O => diverge
  | S fuel =>
    let* b := load s in
    if decide (Z.lxor (matchmap b) parity <> 0) then span_loop fuel (s + 1) matchmap parity (n + 1)
    else ret n
  end.

Definition __strxspn (s map parity : Z) : M mem Z :=
  let* matchmap := with_fuel (fun fuel => matchmap_loop fuel map (fun _ => 0)) in
  with_fuel (fun fuel => span_loop fuel s (<[0 := parity]> matchmap) parity 0).

Definition strspn (s accept : Z) : M mem Z := __strxspn s accept 0.
Definition strcspn (s reject : Z) : M mem Z := __strxspn s reject 1.

Definition strpbrk (s accept : Z) : M mem Z :=
  let* n := __strxspn s accept 1 in
  let ss := s + n in
  let* b := load ss in
  ret (if decide (b <> 0) then ss else NULL).

(** Takes [*stringp]; the token, and the new [*stringp]. *)
Definition strsep (s delim : Z) : M mem (Z * Z) :=
  if decide (s = NULL) then ret (NULL, s)
  else
    let* e := strpbrk s delim in
    if decide (e <> NULL) then store e 0 >>> ret (s, e + 1) else ret (s, e).

(** With the static [holder]: the token and the new [holder]. *)
Definition strtok (s delim holder : Z) : M mem (Z * Z) :=
  strsep (if decide (s <> NULL) then s else holder) delim.
