(* ===== verification/LibStringTheorems.v ===== *)
(** * Strings and blocks of bytes: length, comparison and copies

    Each function of [LibString] as an operation on lists of bytes. *)
From stdpp Require Import functions.
From S2P Require Import Prelude ByteMem LibString.

Lemma cstr_mapped m p l : cstr m p l -> mapped m p (S (length l)).
Proof.
  intros [Hb _]. apply mapped_bytes in Hb. by rewrite length_app, Nat.add_1_r in Hb.
Qed.

Lemma cstr_fuel m p l : cstr m p l -> (S (length l) < mem_fuel m)%nat.
Proof. intros H%cstr_mapped%mapped_fuel. done. Qed.

(** The first byte of a string, and what follows when it is not null. *)
Lemma cstr_first m p l :
  cstr m p l ->
  match l with
  | [] => m !! p = Some 0
  | c :: l => m !! p = Some c /\ 0 < c < 256 /\ cstr m (p + 1) l
  end.
Proof. destruct l; [apply cstr_nil|apply cstr_cons]. Qed.

(** ** Length and search *)

Lemma strlen_loop_run l : forall fuel p m,
  cstr m p l -> (length l < fuel)%nat -> strlen_loop fuel p m = Ret (p + Z.of_nat (length l), m).
Proof.
  induction l as [|c l IH]; intros [|fuel] p m H Hf; simpl in Hf; try lia; apply cstr_first in H; cbn [strlen_loop].
  - rewrite (load_run _ _ _ _ H), decide_False by lia. simpl. by rewrite Z.add_0_r.
  - destruct H as (Hc & Hr & H). rewrite (load_run _ _ _ _ Hc), decide_True by lia.
    rewrite IH by (done || lia). cbn [length]. do 2 f_equal. lia.
Qed.

Lemma strlen_run {A} s l (k : Z -> M mem A) m :
  cstr m s l -> bind (strlen s) k m = k (Z.of_nat (length l)) m.
Proof.
  intros H. pose proof (cstr_fuel _ _ _ H) as Hf. unfold strlen, with_fuel.
  rewrite !bind_assoc, exec_gets.
  rewrite (bind_ret _ _ _ _ _ (strlen_loop_run l (mem_fuel m) s m H ltac:(lia))), bind_ret_l. f_equal. lia.
Qed.

Lemma strlen_ret s l m : cstr m s l -> strlen s m = Ret (Z.of_nat (length l), m).
Proof.
  intros H. pose proof (strlen_run s l ret m H) as Hs. unfold bind, ret in Hs.
  by destruct (strlen s m) as [[]| | |].
Qed.

Lemma strnlen_run s l n m :
  cstr m s l -> strnlen s (Z.of_nat n) m = Ret (Z.of_nat (n `min` length l), m).
Proof.
  intros H. unfold strnlen. rewrite Nat2Z.id.
  enough (forall p, cstr m p l -> strnlen_loop n p m = Ret (p + Z.of_nat (n `min` length l), m)) as Hl.
  { rewrite (bind_ret _ _ _ _ _ (Hl s H)). unfold ret. do 2 f_equal. lia. }
  clear H. revert n. induction l as [|c l IH]; intros [|n] p H; cbn [strnlen_loop length Nat.min];
    rewrite ?Z.add_0_r; try done; apply cstr_first in H.
  - by rewrite (load_run _ _ _ _ H), decide_False by lia.
  - destruct H as (Hc & Hr & H). rewrite (load_run _ _ _ _ Hc), decide_True by lia.
    rewrite IH by done. do 2 f_equal. lia.
Qed.

(** The address of the first byte that satisfies [P], or null. *)
Definition first_at (P : Z -> Prop) `{!forall x, Decision (P x)} (p : Z) (l : list Z) : Z :=
  match list_find P l with Some (i, _) => p + Z.of_nat i | None => NULL end.

Lemma first_at_cons P `{!forall x, Decision (P x)} p c l :
  first_at P p (c :: l) = if decide (P c) then p else first_at P (p + 1) l.
Proof.
  unfold first_at. cbn [list_find]. destruct (decide (P c)); [simpl; lia|].
  destruct (list_find P l) as [[i x]|]; simpl; lia.
Qed.

(** [strchr] finds the terminator too. *)
Lemma strchr_run {A} s l c (k : Z -> M mem A) m :
  cstr m s l -> bind (strchr s c) k m = k (first_at (fun b => b = u8 c) s (l ++ [0])) m.
Proof.
  intros H. pose proof (cstr_fuel _ _ _ H) as Hf. unfold strchr, with_fuel. rewrite bind_assoc, exec_gets.
  enough (forall fuel p, cstr m p l -> (length l < fuel)%nat ->
    strchr_loop fuel p c m = Ret (first_at (fun b => b = u8 c) p (l ++ [0]), m)) as Hl
    by (by rewrite (bind_ret _ _ _ _ _ (Hl (mem_fuel m) s H ltac:(lia)))).
  clear. induction l as [|b l IH]; intros [|fuel] p H Hf; simpl in Hf; try lia; apply cstr_first in H;
    cbn [strchr_loop app]; rewrite first_at_cons.
  - rewrite (load_run _ _ _ _ H). destruct (decide (0 = u8 c)); [by rewrite decide_False by tauto|].
    by rewrite !decide_True by done.
  - destruct H as (Hc & Hr & H). rewrite (load_run _ _ _ _ Hc).
    destruct (decide (b = u8 c)); [by rewrite decide_False by tauto|].
    rewrite decide_True, decide_False by (done || lia). apply IH; [done|lia].
Qed.

Lemma first_at_terminator p l : is_string l -> first_at (fun b => b = u8 0) p (l ++ [0]) = p + Z.of_nat (length l).
Proof.
  revert p. induction l as [|c l IH]; intros p Hl; cbn [app]; rewrite first_at_cons.
  - rewrite decide_True by done. simpl. lia.
  - apply Forall_cons in Hl as [Hc Hl]. rewrite decide_False by (change (u8 0) with 0; lia).
    rewrite IH by done. cbn [length]. lia.
Qed.

Lemma memchr_run s l c m :
  bytes_at m s l -> memchr s c (Z.of_nat (length l)) m = Ret (first_at (fun b => b = u8 c) s l, m).
Proof.
  unfold memchr. rewrite Nat2Z.id. revert s. induction l as [|b l IH]; intros s H; [done|].
  apply bytes_at_cons in H as [Hb H]. cbn [length memchr_loop]. rewrite first_at_cons, (load_run _ _ _ _ Hb).
  destruct (decide (b = u8 c)); [done|by apply IH].
Qed.

(** The address of the last byte that satisfies [P], or [d]. *)
Fixpoint last_at (P : Z -> Prop) `{!forall x, Decision (P x)} (p : Z) (l : list Z) (d : Z) : Z :=
  match l with
  | [] => d
  | b :: l => last_at P (p + 1) l (if decide (P b) then p else d)
  end.

Lemma strrchr_run s l c m :
  cstr m s l -> strrchr s c m = Ret (last_at (fun b => b = u8 c) s l NULL, m).
Proof.
  intros H. pose proof (cstr_fuel _ _ _ H) as Hf. unfold strrchr, with_fuel. rewrite exec_gets.
  assert (length l < mem_fuel m)%nat as Hl by lia. clear Hf. generalize NULL. revert Hl.
  generalize (mem_fuel m). revert s H. induction l as [|b l IH]; intros p H [|fuel] Hl d; simpl in Hl; try lia;
    apply cstr_first in H; cbn [strrchr_loop last_at].
  - by rewrite (load_run _ _ _ _ H), decide_False by lia.
  - destruct H as (Hc & Hr & H). rewrite (load_run _ _ _ _ Hc), decide_True by lia. apply IH; [done|lia].
Qed.

Lemma memrchr_run s l c m :
  bytes_at m s l -> memrchr s c (Z.of_nat (length l)) m = Ret (last_at (fun b => b = u8 c) s l NULL, m).
Proof.
  intros H. unfold memrchr. rewrite Nat2Z.id. revert H. induction l as [|b l IH] using rev_ind; intros H; [done|].
  rewrite length_app, Nat.add_1_r. cbn [memrchr_loop]. apply bytes_at_app in H as [H Hb].
  apply bytes_at_cons in Hb as [Hb _].
  replace (s + Z.of_nat (S (length l)) - 1) with (s + Z.of_nat (length l)) by lia.
  rewrite (load_run _ _ _ _ Hb).
  assert (forall p d, last_at (fun b => b = u8 c) p (l ++ [b]) d =
    if decide (b = u8 c) then p + Z.of_nat (length l) else last_at (fun b => b = u8 c) p l d) as E.
  { clear. induction l as [|x l IH]; intros p d; cbn [app last_at length].
    - destruct (decide (b = u8 c)); [lia|done].
    - rewrite IH. destruct (decide (b = u8 c)); [lia|done]. }
  rewrite E. destruct (decide (b = u8 c)); [done|]. by apply IH.
Qed.

(** ** Comparison *)

(** The difference of the first bytes that differ, the terminator being
    smaller than any character. *)
Fixpoint first_diff (a b : list Z) : Z :=
  match a, b with
  | [], [] => 0
  | [], y :: _ => - y
  | x :: _, [] => x
  | x :: a, y :: b => if decide (x = y) then first_diff a b else x - y
  end.

Lemma strcmp_run s1 s2 a b m :
  cstr m s1 a -> cstr m s2 b -> strcmp s1 s2 m = Ret (first_diff a b, m).
Proof.
  intros Ha Hb. pose proof (cstr_fuel _ _ _ Ha) as Hf. unfold strcmp, with_fuel. rewrite exec_gets.
  assert (length a < mem_fuel m)%nat as Hl by lia. clear Hf. revert Hl. generalize (mem_fuel m).
  revert s1 s2 b Ha Hb. induction a as [|x a IH]; intros s1 s2 b Ha Hb [|fuel] Hl; simpl in Hl; try lia;
    cbn [strcmp_loop]; apply cstr_first in Ha; apply cstr_first in Hb.
  - rewrite (load_run _ _ _ _ Ha). destruct b as [|y b]; [|destruct Hb as [Hb _]];
      rewrite (load_run _ _ _ _ Hb); by rewrite decide_True by tauto.
  - destruct Ha as (Hx & Hxr & Ha). rewrite (load_run _ _ _ _ Hx). destruct b as [|y b].
    + rewrite (load_run _ _ _ _ Hb), decide_True by lia. unfold ret. cbn [first_diff]. do 2 f_equal. lia.
    + destruct Hb as (Hy & Hyr & Hb). rewrite (load_run _ _ _ _ Hy). cbn [first_diff].
      destruct (decide (x = y)) as [->|Hne]; [|by rewrite decide_True by lia].
      rewrite decide_False by lia. apply IH; [done|done|lia].
Qed.

Lemma strncmp_run s1 s2 a b n m :
  cstr m s1 a -> cstr m s2 b ->
  strncmp s1 s2 (Z.of_nat n) m = Ret (first_diff (take n a) (take n b), m).
Proof.
  intros Ha Hb. unfold strncmp. rewrite Nat2Z.id.
  revert s1 s2 a b Ha Hb. induction n as [|n IH]; intros s1 s2 a b Ha Hb; [done|].
  cbn [strncmp_loop]. apply cstr_first in Ha; apply cstr_first in Hb. destruct a as [|x a]; cbn [take].
  - rewrite (load_run _ _ _ _ Ha). destruct b as [|y b]; [|destruct Hb as [Hb _]];
      rewrite (load_run _ _ _ _ Hb); by rewrite decide_True by tauto.
  - destruct Ha as (Hx & Hxr & Ha). rewrite (load_run _ _ _ _ Hx). destruct b as [|y b].
    + rewrite (load_run _ _ _ _ Hb), decide_True by lia. unfold ret. cbn [first_diff take]. do 2 f_equal. lia.
    + destruct Hb as (Hy & Hyr & Hb). rewrite (load_run _ _ _ _ Hy). cbn [first_diff take].
      destruct (decide (x = y)) as [->|Hne]; [|by rewrite decide_True by lia].
      rewrite decide_False by lia. replace (y - y) with 0 by lia. by apply IH.
Qed.

Lemma memcmp_run p q a b m :
  bytes_at m p a -> bytes_at m q b -> length a = length b ->
  memcmp p q (Z.of_nat (length a)) m = Ret (first_diff a b, m).
Proof.
  intros Ha Hb Hl. unfold memcmp. rewrite Nat2Z.id.
  revert p q b Ha Hb Hl. induction a as [|x a IH]; intros p q [|y b] Ha Hb Hl; try done.
  apply bytes_at_cons in Ha as [Hx Ha]. apply bytes_at_cons in Hb as [Hy Hb]. cbn [length memcmp_loop first_diff].
  rewrite (load_run _ _ _ _ Hx), (load_run _ _ _ _ Hy). destruct (decide (x = y)) as [->|Hne].
  - rewrite decide_False by lia. replace (y - y) with 0 by lia. apply IH; [done|done|]. by injection Hl.
  - by rewrite decide_True by lia.
Qed.

(** [first_diff] is the order of the dictionary. *)
Inductive lex_lt : list Z -> list Z -> Prop :=
  | lex_nil y b : lex_lt [] (y :: b)
  | lex_head x y a b : x < y -> lex_lt (x :: a) (y :: b)
  | lex_tail x a b : lex_lt a b -> lex_lt (x :: a) (x :: b).

Lemma first_diff_zero a b : is_string a -> is_string b -> first_diff a b = 0 <-> a = b.
Proof.
  revert b. induction a as [|x a IH]; intros [|y b] Ha Hb; cbn [first_diff]; try done;
    rewrite ?Forall_cons in *.
  - apply Forall_cons in Hb as [Hy _]. split; [lia|done].
  - apply Forall_cons in Ha as [Hx _]. split; [lia|done].
  - apply Forall_cons in Ha as [Hx Ha]. apply Forall_cons in Hb as [Hy Hb].
    destruct (decide (x = y)) as [->|Hne]; [rewrite IH by done; split; [by intros ->|by intros [=]]|].
    split; [lia|]. by intros [=].
Qed.

Lemma first_diff_lt a b : is_string a -> is_string b -> first_diff a b < 0 <-> lex_lt a b.
Proof.
  revert b. induction a as [|x a IH]; intros [|y b] Ha Hb; cbn [first_diff].
  - split; [lia|intros H; inversion H].
  - apply Forall_cons in Hb as [Hy _]. split; [constructor|lia].
  - apply Forall_cons in Ha as [Hx _]. split; [lia|intros H; inversion H].
  - apply Forall_cons in Ha as [Hx Ha]. apply Forall_cons in Hb as [Hy Hb].
    destruct (decide (x = y)) as [->|Hne].
    + rewrite IH by done. split; [apply lex_tail|]. intros H. inversion H; subst; [lia|done].
    + split; [intros; apply lex_head; lia|]. intros H. inversion H; subst; [lia|done].
Qed.

(** ** Copies *)

Lemma apart_tail q n p k : apart q (S n) p (S k) -> apart (q + 1) n (p + 1) k.
Proof. unfold apart. lia. Qed.

Lemma bytes_at_insert_ne m p l q x :
  ~ (p <= q < p + Z.of_nat (length l)) -> bytes_at m p l -> bytes_at (<[q := x]> m) p l.
Proof.
  intros Hq H i y Hi. rewrite lookup_insert_ne; [by apply H|]. apply lookup_lt_Some in Hi. lia.
Qed.

Lemma cstr_insert_ne m p l q x :
  ~ (p <= q <= p + Z.of_nat (length l)) -> cstr m p l -> cstr (<[q := x]> m) p l.
Proof.
  intros Hq [Hb Hs]. split; [|done]. apply bytes_at_insert_ne; [|done]. rewrite length_app. simpl. lia.
Qed.

Lemma strcpy_loop_run l : forall fuel q p m,
  cstr m p l -> mapped m q (S (length l)) -> apart q (S (length l)) p (S (length l)) ->
  (length l < fuel)%nat -> strcpy_loop fuel q p m = Ret (tt, put m q (l ++ [0])).
Proof.
  induction l as [|c l IH]; intros [|fuel] q p m H Hm Ha Hf; simpl in Hf; try lia;
    apply cstr_first in H; apply mapped_S in Hm as [Hq Hm]; cbn [strcpy_loop].
  - rewrite (load_run _ _ _ _ H), store_run by (done || lia). by rewrite decide_False by lia.
  - destruct H as (Hc & Hr & H). rewrite (load_run _ _ _ _ Hc), store_run by (done || lia).
    rewrite decide_True by lia. unfold apart in Ha. cbn [length] in *. rewrite IH; [done| | | |lia].
    + apply cstr_insert_ne; [lia|done].
    + by apply (put_mapped m q [c]).
    + unfold apart. lia.
Qed.

Lemma strcpy_run dst src l m :
  cstr m src l -> mapped m dst (S (length l)) -> apart dst (S (length l)) src (S (length l)) ->
  strcpy dst src m = Ret (dst, put m dst (l ++ [0])).
Proof.
  intros H Hm Ha. pose proof (cstr_fuel _ _ _ H). unfold strcpy, with_fuel. rewrite bind_assoc, exec_gets.
  by rewrite (bind_ret _ _ _ _ _ (strcpy_loop_run l (mem_fuel m) dst src m H Hm Ha ltac:(lia))).
Qed.

Lemma memset_run dst c n m :
  mapped m dst n -> 0 <= c < 256 -> memset dst c (Z.of_nat n) m = Ret (dst, put m dst (replicate n c)).
Proof.
  intros Hm Hc. unfold memset. rewrite Nat2Z.id.
  enough (forall q, mapped m q n -> memset_loop n q c m = Ret (tt, put m q (replicate n c))) as Hl
    by (by rewrite (bind_ret _ _ _ _ _ (Hl dst Hm))).
  clear Hm. revert m. induction n as [|n IH]; intros m q Hm; [done|]. apply mapped_S in Hm as [Hq Hm].
  cbn [memset_loop replicate put]. rewrite store_run by done. apply IH. by apply (put_mapped m q [c]).
Qed.

Definition is_bytes (l : list Z) : Prop := Forall (fun c => 0 <= c < 256) l.

(** The forward copy is right when the source is not overwritten before it is
    read. *)
Lemma memcpy_loop_run l : forall q p m,
  bytes_at m p l -> is_bytes l -> mapped m q (length l) -> q < p \/ apart q (length l) p (length l) ->
  memcpy_loop (length l) q p m = Ret (tt, put m q l).
Proof.
  induction l as [|c l IH]; intros q p m H Hl Hm Ha; [done|].
  apply bytes_at_cons in H as [Hc H]. apply Forall_cons in Hl as [Hcr Hl]. apply mapped_S in Hm as [Hq Hm].
  cbn [length memcpy_loop put]. rewrite (load_run _ _ _ _ Hc), store_run by done.
  unfold apart in Ha. cbn [length] in Ha. apply IH.
  - apply bytes_at_insert_ne; [lia|done].
  - done.
  - by apply (put_mapped m q [c]).
  - unfold apart. lia.
Qed.

Lemma memmove_back_run l : forall q p m,
  bytes_at m p l -> is_bytes l -> mapped m q (length l) -> p <= q ->
  memmove_back (length l) (q + Z.of_nat (length l)) (p + Z.of_nat (length l)) m = Ret (tt, put m q l).
Proof.
  induction l as [|c l IH] using rev_ind; intros q p m H Hl Hm Hpq; [done|].
  apply bytes_at_app in H as [H Hc]. apply bytes_at_cons in Hc as [Hc _].
  apply Forall_app in Hl as [Hl Hcr]. apply Forall_cons in Hcr as [Hcr _].
  rewrite length_app, Nat.add_1_r in *. cbn [memmove_back].
  replace (p + Z.of_nat (S (length l)) - 1) with (p + Z.of_nat (length l)) by lia.
  replace (q + Z.of_nat (S (length l)) - 1) with (q + Z.of_nat (length l)) by lia.
  assert (is_Some (m !! (q + Z.of_nat (length l)))) as Hq by (apply Hm; lia).
  rewrite (load_run _ _ _ _ Hc), store_run by done. rewrite IH.
  - rewrite put_app. cbn [put].
    assert (forall k m q j x, j = q + Z.of_nat (length k) + 0 -> put (<[j := x]> m) q k = <[j := x]> (put m q k)) as E.
    { clear. induction k as [|y k IH]; intros m q j x Hj; [done|]. cbn [put length] in *.
      rewrite insert_insert_ne by lia. apply IH. lia. }
    by rewrite E by lia.
  - apply bytes_at_insert_ne; [lia|done].
  - done.
  - apply (put_mapped m _ [c]). by eapply mapped_le; [exact Hm|lia].
  - done.
Qed.

Lemma memmove_run dst src l m :
  bytes_at m src l -> is_bytes l -> mapped m dst (length l) ->
  memmove dst src (Z.of_nat (length l)) m = Ret (dst, put m dst l).
Proof.
  intros H Hl Hm. unfold memmove. rewrite Nat2Z.id. destruct (decide (dst < src)) as [Hlt|Hge].
  - by rewrite (bind_ret _ _ _ _ _ (memcpy_loop_run l dst src m H Hl Hm ltac:(by left))).
  - by rewrite (bind_ret _ _ _ _ _ (memmove_back_run l dst src m H Hl Hm ltac:(lia))).
Qed.

Lemma memcpy_run dst src l m :
  bytes_at m src l -> is_bytes l -> mapped m dst (length l) -> apart dst (length l) src (length l) ->
  memcpy dst src (Z.of_nat (length l)) m = Ret (dst, put m dst l).
Proof.
  intros H Hl Hm Ha. unfold memcpy. rewrite Nat2Z.id.
  by rewrite (bind_ret _ _ _ _ _ (memcpy_loop_run l dst src m H Hl Hm ltac:(by right))).
Qed.

(** [strncpy]: the characters that fit, then null bytes up to [n]. *)
Lemma strncpy_loop_run n : forall l q p m,
  cstr m p l -> mapped m q n -> apart q n p (S (length l)) ->
  exists j, strncpy_loop n q p m =
    Ret ((q + Z.of_nat j, Z.of_nat (n - j)), put m q (take j (l ++ [0]))) /\
    (j <= n)%nat /\ take j (l ++ [0]) ++ replicate (n - j) 0 = take n l ++ replicate (n - length l) 0 /\
    (j <= S (length l))%nat.
Proof.
  induction n as [|n IH]; intros l q p m H Hm Ha.
  { exists 0%nat. cbn [strncpy_loop]. rewrite Z.add_0_r. split_and!; [done|lia|done|lia]. }
  cbn [strncpy_loop]. apply mapped_S in Hm as [Hq Hm]. apply cstr_first in H. destruct l as [|c l].
  - rewrite (load_run _ _ _ _ H), store_run by (done || lia). rewrite decide_True by done.
    exists 1%nat. split_and!; [|lia| |simpl; lia].
    + unfold ret. do 3 f_equal. lia.
    + cbn [app take length]. rewrite Nat.sub_0_r. replace (S n - 1)%nat with n by lia.
      done.
  - destruct H as (Hc & Hr & H). rewrite (load_run _ _ _ _ Hc), store_run by (done || lia).
    rewrite decide_False by lia. unfold apart in Ha. cbn [length] in Ha.
    destruct (IH l (q + 1) (p + 1) (<[q := c]> m)) as (j & -> & Hj & Ht & Hjl).
    + apply cstr_insert_ne; [lia|done].
    + by apply (put_mapped m q [c]).
    + unfold apart. lia.
    + exists (S j). split_and!; [|lia| |simpl; lia].
      * cbn [app take put]. do 3 f_equal. lia.
      * cbn [app take length Nat.sub]. by rewrite Ht.
Qed.

Lemma strncpy_run dst src l n m :
  cstr m src l -> mapped m dst n -> apart dst n src (S (length l)) ->
  strncpy dst src (Z.of_nat n) m = Ret (dst, put m dst (take n l ++ replicate (n - length l) 0)).
Proof.
  intros H Hm Ha. unfold strncpy. rewrite Nat2Z.id.
  destruct (strncpy_loop_run n l dst src m H Hm Ha) as (j & Hr & Hj & Ht & Hjl).
  rewrite (bind_ret _ _ _ _ _ Hr).
  assert (length (take j (l ++ [0])) = j) as Hlen by (rewrite length_take, length_app; simpl; lia).
  set (m1 := put m dst (take j (l ++ [0]))) in *.
  assert (mapped m1 (dst + Z.of_nat j) (n - j)) as Hm1.
  { apply put_mapped. intros i Hi. replace (dst + Z.of_nat j + Z.of_nat i) with (dst + Z.of_nat (j + i)) by lia.
    apply Hm. lia. }
  rewrite (bind_ret _ _ _ _ _ (memset_run _ 0 _ _ Hm1 ltac:(lia))). rewrite <- Ht, put_app, Hlen. done.
Qed.

(** ** Concatenation *)

Lemma cstr_end m p a : cstr m p a -> cstr m (p + Z.of_nat (length a)) [].
Proof. intros H. rewrite <- (app_nil_r a) in H. by apply cstr_app in H as (_ & _ & ?). Qed.

Lemma strcat_run dst src a b m :
  cstr m dst a -> cstr m src b -> mapped m dst (S (length a + length b)) ->
  apart dst (S (length a + length b)) src (S (length b)) ->
  strcat dst src m = Ret (dst, put m (dst + Z.of_nat (length a)) (b ++ [0])).
Proof.
  intros Ha Hb Hm Hap. unfold strcat. rewrite (strchr_run _ _ _ _ _ Ha), first_at_terminator by apply Ha.
  assert (mapped m (dst + Z.of_nat (length a)) (S (length b))) as Hm'.
  { intros i Hi. replace (dst + Z.of_nat (length a) + Z.of_nat i) with (dst + Z.of_nat (length a + i)) by lia.
    apply Hm. lia. }
  rewrite (bind_ret _ _ _ _ _ (strcpy_run _ _ _ _ Hb Hm' ltac:(unfold apart in *; lia))). done.
Qed.

(** A string whose end is overwritten by another string. *)
Lemma cstr_extend m p a b :
  cstr m p a -> is_string b -> cstr (put m (p + Z.of_nat (length a)) (b ++ [0])) p (a ++ b).
Proof.
  intros [Hb Hs] Hbs. split; [|by apply Forall_app].
  apply bytes_at_app in Hb as [Hb _]. rewrite <- app_assoc. apply bytes_at_app. split; [|apply bytes_at_put].
  apply bytes_at_put_apart; [unfold apart; lia|done].
Qed.

Lemma strncat_loop_run n : forall l q p m,
  cstr m p l -> mapped m q (S (n `min` length l)) -> apart q (S (n `min` length l)) p (S (length l)) ->
  exists r q' m', strncat_loop n q p m = Ret ((r, q'), m') /\
    (if r : bool then m' = put m q (take n l ++ [0])
     else q' = q + Z.of_nat n /\ m' = put m q (take n l) /\ (n <= length l)%nat).
Proof.
  induction n as [|n IH]; intros l q p m H Hm Ha.
  { exists false, q, m. split; [done|]. simpl. split_and!; [lia|done|lia]. }
  cbn [strncat_loop]. apply mapped_S in Hm as [Hq Hm]. apply cstr_first in H. destruct l as [|c l].
  - rewrite (load_run _ _ _ _ H), store_run by (done || lia). rewrite decide_True by done.
    exists true, (q + 1), (<[q := 0]> m). by split.
  - destruct H as (Hc & Hr & H). rewrite (load_run _ _ _ _ Hc), store_run by (done || lia).
    rewrite decide_False by lia. unfold apart in Ha. cbn [length Nat.min] in Ha, Hm.
    destruct (IH l (q + 1) (p + 1) (<[q := c]> m)) as (r & q' & m' & -> & Hres).
    + apply cstr_insert_ne; [lia|done].
    + by apply (put_mapped m q [c]).
    + unfold apart. lia.
    + exists r, q', m'. split; [done|]. cbn [take app put]. destruct r; [done|].
      destruct Hres as (-> & -> & Hle). split_and!; [lia|done|simpl; lia].
Qed.

Lemma strncat_run dst src a b n m :
  cstr m dst a -> cstr m src b -> mapped m dst (S (length a + n `min` length b)) ->
  apart dst (S (length a + n `min` length b)) src (S (length b)) ->
  strncat dst src (Z.of_nat n) m = Ret (dst, put m (dst + Z.of_nat (length a)) (take n b ++ [0])).
Proof.
  intros Ha Hb Hm Hap. unfold strncat.
  rewrite (strchr_run _ _ _ _ _ Ha), first_at_terminator, Nat2Z.id by apply Ha.
  set (e := dst + Z.of_nat (length a)).
  assert (mapped m e (S (n `min` length b))) as Hm'.
  { intros i Hi. replace (e + Z.of_nat i) with (dst + Z.of_nat (length a + i)) by lia. apply Hm. lia. }
  destruct (strncat_loop_run n b e src m Hb Hm' ltac:(unfold apart in *; lia)) as (r & q' & m' & Hr & Hres).
  rewrite (bind_ret _ _ _ _ _ Hr). destruct r; [by rewrite Hres|]. destruct Hres as (-> & -> & Hn).
  rewrite store_run; [|apply put_mapped with (n := S (n `min` length b)); [done|lia]|lia].
  rewrite put_app, length_take. replace (n `min` length b)%nat with n by lia. done.
Qed.

(** *** [strlcat] *)

Lemma strlcat_end_run size : forall bytes q a m,
  cstr m q a ->
  strlcat_end size bytes q m =
    Ret ((bytes + Z.of_nat (size `min` length a), q + Z.of_nat (size `min` length a)), m).
Proof.
  induction size as [|size IH]; intros bytes q a m H; cbn [strlcat_end Nat.min].
  { by rewrite !Z.add_0_r. }
  apply cstr_first in H. destruct a as [|c a]; cbn [length].
  - rewrite (load_run _ _ _ _ H), decide_False by lia. by rewrite !Z.add_0_r.
  - destruct H as (Hc & Hr & H). rewrite (load_run _ _ _ _ Hc), decide_True by lia.
    rewrite (IH _ _ a) by done. do 3 f_equal; lia.
Qed.

(** [room] characters still fit before the null byte. *)
Lemma strlcat_loop_run b : forall fuel bytes q p size room m,
  cstr m p b -> mapped m q (S (room `min` length b)) -> apart q (S (room `min` length b)) p (S (length b)) ->
  0 <= bytes -> bytes + Z.of_nat (length b) < 2 ^ 32 -> room = Z.to_nat (size - 1 - bytes) ->
  (length b < fuel)%nat ->
  strlcat_loop fuel bytes q p size m =
    Ret ((bytes + Z.of_nat (length b), q + Z.of_nat (room `min` length b)), put m q (take room b)).
Proof.
  induction b as [|c b IH]; intros [|fuel] bytes q p size room m H Hm Ha Hb0 Hb Hroom Hf; cbn [length] in *; try lia;
    apply cstr_first in H; cbn [strlcat_loop].
  - rewrite (load_run _ _ _ _ H), decide_True by done. rewrite Nat.min_0_r, !Z.add_0_r, take_nil. done.
  - destruct H as (Hc & Hr & H). rewrite (load_run _ _ _ _ Hc), decide_False by lia.
    rewrite u32_small by lia. apply mapped_S in Hm as [Hq Hm].
    destruct (decide (bytes + 1 < size)) as [Hlt|Hge].
    + destruct room as [|room]; [lia|]. cbn [Nat.min] in *. rewrite bind_assoc, store_run by (done || lia).
      rewrite bind_ret_l. unfold apart in Ha.
      rewrite (IH fuel (bytes + 1) (q + 1) (p + 1) size room); try lia.
      * cbn [take put]. do 3 f_equal; lia.
      * apply cstr_insert_ne; [lia|done].
      * by apply (put_mapped m q [c]).
      * unfold apart. lia.
    + assert (room = 0%nat) as -> by lia. rewrite bind_ret_l.
      rewrite (IH fuel (bytes + 1) q (p + 1) size 0%nat); try lia; try done.
      * simpl. do 3 f_equal; lia.
      * apply mapped_S. split; [done|]. intros i Hi. simpl in Hi. lia.
      * unfold apart in *. simpl in *. lia.
Qed.

Lemma strlcat_run dst src a b size m :
  cstr m dst a -> cstr m src b -> (length a < size)%nat ->
  let n := Nat.min (length a + length b) (size - 1) in
  mapped m dst (S n) -> apart dst (S n) src (S (length b)) ->
  Z.of_nat (length a + length b) < 2 ^ 32 ->
  strlcat dst src (Z.of_nat size) m =
    Ret (Z.of_nat (length a + length b), put m (dst + Z.of_nat (length a)) (take (size - 1 - length a) b ++ [0])).
Proof.
  intros Ha Hb Hsz n Hm Hap H32. unfold strlcat. rewrite Nat2Z.id.
  rewrite (bind_ret _ _ _ _ _ (strlcat_end_run size 0 dst a m Ha)), Z.add_0_l.
  replace (size `min` length a)%nat with (length a) by lia. rewrite decide_False by lia.
  set (room := (size - 1 - length a)%nat). set (e := dst + Z.of_nat (length a)).
  assert (mapped m e (S (room `min` length b))) as Hm'.
  { intros i Hi. replace (e + Z.of_nat i) with (dst + Z.of_nat (length a + i)) by lia. apply Hm. lia. }
  pose proof (cstr_fuel _ _ _ Hb) as Hf. unfold with_fuel. rewrite bind_assoc, exec_gets.
  rewrite (bind_ret _ _ _ _ _ (strlcat_loop_run b (mem_fuel m) (Z.of_nat (length a)) e src (Z.of_nat size) room m
    Hb Hm' ltac:(unfold apart in *; lia) ltac:(lia) ltac:(lia) ltac:(lia) ltac:(lia))).
  rewrite store_run; [|apply put_mapped with (n := S (room `min` length b)); [done|lia]|lia].
  rewrite put_app, length_take. cbn [put]. unfold ret. do 2 f_equal. lia.
Qed.

Lemma strlcat_full_run dst src a b size m :
  cstr m dst a -> cstr m src b -> (size <= length a)%nat -> Z.of_nat (size + length b) < 2 ^ 32 ->
  strlcat dst src (Z.of_nat size) m = Ret (Z.of_nat (size + length b), m).
Proof.
  intros Ha Hb Hsz H32. unfold strlcat. rewrite Nat2Z.id.
  rewrite (bind_ret _ _ _ _ _ (strlcat_end_run size 0 dst a m Ha)), Z.add_0_l.
  replace (size `min` length a)%nat with size by lia. rewrite decide_True by done.
  rewrite (strlen_run _ _ _ _ Hb), u32_small by lia. unfold ret. do 2 f_equal. lia.
Qed.

(** [memccpy] stops after the first [c], which it copies. *)
Lemma memccpy_run l : forall dst src c m,
  bytes_at m src l -> is_bytes l -> mapped m dst (length l) -> apart dst (length l) src (length l) ->
  exists n, memccpy dst src c (Z.of_nat (length l)) m =
      Ret (if decide (u8 c ∈ l) then dst + Z.of_nat n else NULL, put m dst (take n l)) /\
    (n <= length l)%nat /\ (u8 c ∈ l -> exists k, take n l = k ++ [u8 c] /\ u8 c ∉ k) /\
    (u8 c ∉ l -> n = length l).
Proof.
  unfold memccpy. setoid_rewrite Nat2Z.id.
  induction l as [|b l IH]; intros q p c m H Hl Hm Ha.
  { exists 0%nat. rewrite decide_False by apply not_elem_of_nil. split_and!; [done|simpl; lia| |done].
    by intros ?%not_elem_of_nil. }
  apply bytes_at_cons in H as [Hc H]. apply Forall_cons in Hl as [Hbr Hl]. apply mapped_S in Hm as [Hq Hm].
  cbn [length memccpy_loop]. rewrite (load_run _ _ _ _ Hc), store_run by done.
  destruct (decide (b = u8 c)) as [->|Hne].
  - exists 1%nat. rewrite decide_True by (apply elem_of_cons; by left).
    split_and!; [done|lia| |].
    + intros _. exists []. by split; [|apply not_elem_of_nil].
    + intros Hn. exfalso. apply Hn, elem_of_cons. by left.
  - unfold apart in Ha. cbn [length] in Ha.
    destruct (IH (q + 1) (p + 1) c (<[q := b]> m)) as (n & -> & Hn & Hin & Hout).
    + apply bytes_at_insert_ne; [lia|done].
    + done.
    + by apply (put_mapped m q [b]).
    + unfold apart. lia.
    + assert (u8 c ∈ b :: l <-> u8 c ∈ l) as E by (rewrite elem_of_cons; split; [intros [?|?]; [congruence|done]|by right]).
      exists (S n). split_and!; [|simpl; lia| |].
      * cbn [take put]. destruct (decide (u8 c ∈ l)), (decide (u8 c ∈ b :: l)); try tauto; do 2 f_equal; lia.
      * rewrite E. intros Hl'. destruct (Hin Hl') as (k & Hk & Hnk). exists (b :: k). cbn [take]. rewrite Hk.
        split; [done|]. rewrite elem_of_cons. intros [?|?]; [congruence|done].
      * rewrite E. intros Hnl. by rewrite (Hout Hnl).
Qed.

(** [memswap] exchanges two blocks. *)
Lemma memswap_run l : forall k p q m,
  bytes_at m p l -> bytes_at m q k -> is_bytes l -> is_bytes k -> length l = length k ->
  apart p (length l) q (length l) ->
  exists m', memswap p q (Z.of_nat (length l)) m = Ret (tt, m') /\ bytes_at m' p k /\ bytes_at m' q l /\
    forall x, ~ (p <= x < p + Z.of_nat (length l)) -> ~ (q <= x < q + Z.of_nat (length l)) -> m' !! x = m !! x.
Proof.
  unfold memswap. setoid_rewrite Nat2Z.id.
  induction l as [|a l IH]; intros [|b k] p q m Hp Hq Hl Hk Hlen Ha; try done; [by exists m|].
  apply bytes_at_cons in Hp as [Hpa Hp]. apply bytes_at_cons in Hq as [Hqb Hq].
  apply Forall_cons in Hl as [Har Hl]. apply Forall_cons in Hk as [Hbr Hk]. injection Hlen as Hlen.
  cbn [length memswap_loop]. rewrite (load_run _ _ _ _ Hpa), (load_run _ _ _ _ Hqb).
  unfold apart in Ha. cbn [length] in Ha.
  rewrite store_run by (done || by eexists).
  rewrite store_run; [|rewrite lookup_insert_ne by lia; by eexists|done].
  set (m1 := <[q := a]> (<[p := b]> m)).
  destruct (IH k (p + 1) (q + 1) m1) as (m' & -> & H1 & H2 & H3); try done; [| |unfold apart; lia|].
  1,2: unfold m1; apply bytes_at_insert_ne; [lia|]; apply bytes_at_insert_ne; [lia|done].
  exists m'. split; [done|].
  assert (m' !! p = Some b) as E1.
  { rewrite H3 by lia. unfold m1. rewrite lookup_insert_ne by lia. by rewrite lookup_insert_eq. }
  assert (m' !! q = Some a) as E2.
  { rewrite H3 by lia. unfold m1. by rewrite lookup_insert_eq. }
  split_and!; [by apply bytes_at_cons|by apply bytes_at_cons|].
  intros x Hx1 Hx2. rewrite H3 by lia. unfold m1. by rewrite !lookup_insert_ne by lia.
Qed.

(** ** Properties *)

(** [strcmp] compares two strings as the dictionary does: its result is 0
    for equal strings, negative when the first comes before, positive when it
    comes after; it reads no byte past either terminator and writes none. *)
Theorem strcmp_lexicographic s1 s2 a b m :
  cstr m s1 a -> cstr m s2 b ->
  exists d, strcmp s1 s2 m = Ret (d, m) /\ (d = 0 <-> a = b) /\ (d < 0 <-> lex_lt a b) /\
    (d > 0 <-> lex_lt b a).
Proof.
  intros Ha Hb. exists (first_diff a b). split; [by apply strcmp_run|].
  destruct Ha as [_ Ha], Hb as [_ Hb].
  split; [by apply first_diff_zero|]. split; [by apply first_diff_lt|].
  rewrite <- first_diff_lt by done.
  assert (first_diff b a = - first_diff a b) as E; [|rewrite E; lia].
  clear. revert b. induction a as [|x a IH]; intros [|y b]; cbn [first_diff]; try lia.
  repeat case_decide; try congruence; try lia; apply IH.
Qed.

(** C38: [strlcat] appends what fits in [size] bytes: the result is the first
    [size - 1] characters of the concatenation, always terminated, no byte is
    written outside of the [size] bytes of the destination, and the value is
    the length the concatenation would have, so that a caller sees the
    truncation.  A destination that fills its [size] bytes is left alone. *)
Theorem strlcat_bounded dst src a b size m :
  cstr m dst a -> cstr m src b -> mapped m dst size -> apart dst size src (S (length b)) ->
  Z.of_nat (length a + length b) < 2 ^ 32 ->
  exists m', strlcat dst src (Z.of_nat size) m =
      Ret (Z.of_nat (length a `min` size + length b), m') /\
    ((length a < size)%nat -> cstr m' dst (take (size - 1) (a ++ b))) /\
    ((size <= length a)%nat -> m' = m) /\ cstr m' src b /\
    forall x, ~ (dst <= x < dst + Z.of_nat size) -> m' !! x = m !! x.
Proof.
  intros Ha Hb Hm Hap H32. destruct (decide (length a < size)%nat) as [Hlt|Hge].
  - set (n := Nat.min (length a + length b) (size - 1)).
    set (k := take (size - 1 - length a) b). set (e := dst + Z.of_nat (length a)).
    assert (length (k ++ [0]) = S (Nat.min (size - 1 - length a) (length b))) as Hk
      by (rewrite length_app, Nat.add_1_r; unfold k; by rewrite length_take).
    exists (put m e (k ++ [0])). replace (length a `min` size)%nat with (length a) by lia. split_and!.
    + apply strlcat_run; try done; [by eapply mapped_le; [exact Hm|lia]|unfold apart in *; lia].
    + intros _. rewrite take_app, take_ge by lia. apply cstr_extend; [done|]. apply Forall_take. apply Hb.
    + lia.
    + apply cstr_put_apart; [rewrite Hk; unfold apart, e in *; lia|done].
    + intros x Hx. apply put_lookup_ne. rewrite Hk. unfold e. lia.
  - exists m. replace (length a `min` size)%nat with size by lia. split_and!; try done; try lia.
    apply (strlcat_full_run dst src a b); [done..|lia|lia].
Qed.

(** [memmove] copies a block over any other, also one that it overlaps on
    either side, and writes nothing else. *)
Theorem memmove_correct dst src l m :
  bytes_at m src l -> is_bytes l -> mapped m dst (length l) ->
  exists m', memmove dst src (Z.of_nat (length l)) m = Ret (dst, m') /\ bytes_at m' dst l /\
    forall x, ~ (dst <= x < dst + Z.of_nat (length l)) -> m' !! x = m !! x.
Proof.
  intros H Hl Hm. exists (put m dst l). split; [by apply memmove_run|]. split; [apply bytes_at_put|].
  intros x Hx. by apply put_lookup_ne.
Qed.

(** ** Witnesses: "ab" at 100 in a buffer of 6 bytes, "acde" at 200 *)

Definition demo_bytes : mem := put (put ∅ 100 ([97; 98] ++ [0] ++ [7; 7; 7])) 200 ([97; 99; 100; 101] ++ [0]).

Lemma demo_strings :
  cstr demo_bytes 100 [97; 98] /\ cstr demo_bytes 200 [97; 99; 100; 101] /\ mapped demo_bytes 100 6.
Proof.
  split; [|split].
  - apply cstr_put_apart; [unfold apart; simpl; lia|]. rewrite app_assoc, put_app. split; [|solve_string].
    apply bytes_at_put_apart; [unfold apart; simpl; lia|]. apply bytes_at_put.
  - apply cstr_put. solve_string.
  - apply put_mapped. apply (mapped_bytes _ _ ([97; 98] ++ [0] ++ [7; 7; 7])), bytes_at_put.
Qed.

Lemma strcmp_lexicographic_witness :
  (cstr demo_bytes 100 [97; 98] /\ cstr demo_bytes 200 [97; 99; 100; 101]) /\
  exists d, strcmp 100 200 demo_bytes = Ret (d, demo_bytes) /\ (d = 0 <-> [97; 98] = [97; 99; 100; 101]) /\
    (d < 0 <-> lex_lt [97; 98] [97; 99; 100; 101]) /\ (d > 0 <-> lex_lt [97; 99; 100; 101] [97; 98]).
Proof.
  destruct demo_strings as (Ha & Hb & _). split; [split; [exact Ha|exact Hb]|].
  exact (strcmp_lexicographic 100 200 _ _ demo_bytes Ha Hb).
Defined.

(** "acde" does not fit: the result is "abacd". *)
Lemma strlcat_bounded_witness :
  (cstr demo_bytes 100 [97; 98] /\ cstr demo_bytes 200 [97; 99; 100; 101] /\ mapped demo_bytes 100 6 /\
   apart 100 6 200 5) /\
  exists m', strlcat 100 200 6 demo_bytes = Ret (6, m') /\ cstr m' 100 [97; 98; 97; 99; 100].
Proof.
  destruct demo_strings as (Ha & Hb & Hm). assert (apart 100 6 200 5) as Hap by (unfold apart; lia).
  split; [split_and!; [exact Ha|exact Hb|exact Hm|exact Hap]|].
  destruct (strlcat_bounded 100 200 _ _ 6 demo_bytes Ha Hb Hm Hap ltac:(simpl; lia)) as (m' & Hr & Hc & _).
  exists m'. split; [exact Hr|]. exact (Hc ltac:(simpl; lia)).
Defined.

(** A block moved one byte up, over itself. *)
Lemma memmove_correct_witness :
  (bytes_at demo_bytes 200 [97; 99; 100; 101] /\ is_bytes [97; 99; 100; 101] /\ mapped demo_bytes 201 4) /\
  exists m', memmove 201 200 4 demo_bytes = Ret (201, m') /\ bytes_at m' 201 [97; 99; 100; 101] /\
    forall x, ~ (201 <= x < 205) -> m' !! x = demo_bytes !! x.
Proof.
  assert (bytes_at demo_bytes 200 [97; 99; 100; 101]) as H
    by (destruct demo_strings as (_ & [Hb _] & _); apply bytes_at_app in Hb; tauto).
  assert (is_bytes [97; 99; 100; 101]) as Hl by (unfold is_bytes; solve_string).
  assert (mapped demo_bytes 201 4) as Hm.
  { assert (mapped demo_bytes 200 5) as H5 by (apply (cstr_mapped demo_bytes 200 [97; 99; 100; 101]), demo_strings).
    by apply mapped_S in H5 as [_ H5]. }
  split; [split_and!; [exact H|exact Hl|exact Hm]|].
  exact (memmove_correct 201 200 [97; 99; 100; 101] demo_bytes H Hl Hm).
Defined.
