(* ===== verification/LibSearch.v ===== *)
(** * Strings and blocks of bytes: search and tokens

    [memmem] and [strstr] find the first occurrence of a block in another;
    [__strxspn] and the functions on it; the tokens that repeated calls of
    [strtok] give. *)
From stdpp Require Import functions.
From S2P Require Import Prelude ByteMem LibString LibStringTheorems.

(** ** Occurrences *)

Definition occurs (X Y : list Z) (j : nat) : Prop := take (length X) (drop j Y) = X.

Lemma occurs_bound X Y j : X <> [] -> occurs X Y j -> (j + length X <= length Y)%nat.
Proof.
  unfold occurs. intros Hne H. apply (f_equal length) in H. rewrite length_take, length_drop in H.
  assert (length X <> 0%nat) by (by destruct X). lia.
Qed.

Lemma occurs_two x0 x1 X Y j y0 y1 :
  Y !! j = Some y0 -> Y !! S j = Some y1 ->
  occurs (x0 :: x1 :: X) Y j <-> x0 = y0 /\ x1 = y1 /\ take (length X) (drop (2 + j) Y) = X.
Proof.
  intros H0 H1. unfold occurs. cbn [length].
  rewrite (drop_S _ _ _ H0). rewrite (drop_S _ _ _ H1). cbn [take].
  change (2 + j)%nat with (S (S j)). split; [by intros [=]|]. intros (-> & -> & E). by rewrite E.
Qed.

Lemma first_diff_eq a b : length a = length b -> first_diff a b = 0 <-> a = b.
Proof.
  revert b. induction a as [|x a IH]; intros [|y b] Hl; try done. cbn [first_diff]. injection Hl as Hl.
  destruct (decide (x = y)) as [->|Hne]; [rewrite IH by done; split; [by intros ->|by intros [=]]|].
  split; [lia|]. by intros [=].
Qed.

Lemma bytes_at_drop m p l j : bytes_at m p l -> bytes_at m (p + Z.of_nat j) (drop j l).
Proof.
  intros H i x Hi. rewrite lookup_drop in Hi.
  replace (p + Z.of_nat j + Z.of_nat i) with (p + Z.of_nat (j + i)) by lia. by apply H.
Qed.

Lemma bytes_at_take m p l j : bytes_at m p l -> bytes_at m p (take j l).
Proof. intros H i x Hi. apply lookup_take_Some in Hi as [Hi _]. by apply H. Qed.

(** The first occurrence, as an address, or null. *)
Definition first_occurrence (X Y : list Z) (y r : Z) : Prop :=
  (exists j, r = y + Z.of_nat j /\ occurs X Y j /\ forall i, (i < j)%nat -> ~ occurs X Y i) \/
  (r = NULL /\ forall i, ~ occurs X Y i).

Section Memmem.
Context (m : mem) (y x : Z) (Y X' : list Z) (x0 x1 : Z).
Let X : list Z := x0 :: x1 :: X'.
Hypothesis (HY : bytes_at m y Y) (HX : bytes_at m x X) (Hlen : (length X <= length Y)%nat).
Context (k l : nat).
Hypothesis (Hkl : if decide (x0 = x1) then k = 2%nat /\ l = 1%nat else k = 1%nat /\ l = 2%nat).

(** What the loop moves over does not match. *)
Lemma memmem_skip j y0 y1 :
  Y !! j = Some y0 -> Y !! S j = Some y1 -> ~ occurs X Y j ->
  forall i, (j <= i < j + (if decide (x1 = y1) then l else k))%nat -> ~ occurs X Y i.
Proof.
  intros H0 H1 Hj i Hi Ho. destruct (decide (i = j)) as [->|Hne]; [done|].
  assert (i = S j) as -> by (repeat case_decide; lia).
  pose proof (occurs_bound X Y (S j) ltac:(done) Ho) as Hb. cbn [X length] in Hb.
  destruct (lookup_lt_is_Some_2 Y (S (S j))) as [y2 H2]; [lia|].
  apply (occurs_two _ _ _ _ _ _ _ H1 H2) in Ho as (E0 & _).
  repeat case_decide; first [lia|congruence].
Qed.

Lemma memcmp_tail j :
  (j + length X <= length Y)%nat ->
  memcmp (x + 2) (y + Z.of_nat j + 2) (Z.of_nat (length X) - 2) m =
    Ret (first_diff X' (take (length X') (drop (2 + j) Y)), m).
Proof.
  intros Hj. cbn [X length] in *.
  replace (Z.of_nat (S (S (length X'))) - 2) with (Z.of_nat (length X')) by lia.
  apply memcmp_run.
  - apply bytes_at_cons in HX as [_ H]. apply bytes_at_cons in H as [_ H]. by replace (x + 2) with (x + 1 + 1) by lia.
  - replace (y + Z.of_nat j + 2) with (y + Z.of_nat (2 + j)) by lia. by apply bytes_at_take, bytes_at_drop.
  - rewrite length_take, length_drop. lia.
Qed.

Lemma memmem_loop_run fuel : forall j,
  (forall i, (i < j)%nat -> ~ occurs X Y i) -> (0 < fuel)%nat ->
  (length Y + 2 <= j + fuel + length X)%nat ->
  exists r, memmem_loop fuel y (Z.of_nat (length Y)) x (Z.of_nat (length X)) (Z.of_nat j)
      (Z.of_nat k) (Z.of_nat l) m = Ret (r, m) /\ first_occurrence X Y y r.
Proof.
  induction fuel as [|fuel IH]; intros j Hb Hf Hjf; [lia|]. cbn [memmem_loop].
  destruct (decide (Z.of_nat j <= Z.of_nat (length Y) - Z.of_nat (length X))) as [Hj|Hj].
  2:{ exists NULL. split; [done|]. right. split; [done|]. intros i Ho.
      destruct (decide (i < j)%nat) as [Hi|Hi]; [by apply (Hb i)|].
      apply occurs_bound in Ho; [lia|done]. }
  assert (2 <= length X)%nat as HX2 by (cbn [X length]; lia).
  destruct (lookup_lt_is_Some_2 Y j) as [y0 H0]; [lia|].
  destruct (lookup_lt_is_Some_2 Y (S j)) as [y1 H1]; [lia|].
  assert (m !! x = Some x0 /\ m !! (x + 1) = Some x1) as [Hx0 Hx1].
  { apply bytes_at_cons in HX as [? H]. by apply bytes_at_cons in H as [? _]. }
  pose proof (HY _ _ H0) as Hy0. pose proof (HY _ _ H1) as Hy1.
  assert (forall j', (j < j')%nat -> (j' <= j + 2)%nat -> (forall i, (j <= i < j')%nat -> ~ occurs X Y i) ->
    exists r, memmem_loop fuel y (Z.of_nat (length Y)) x (Z.of_nat (length X)) (Z.of_nat j')
      (Z.of_nat k) (Z.of_nat l) m = Ret (r, m) /\ first_occurrence X Y y r) as Hnext.
  { intros j' Hj1 Hj2 Hno. apply IH; [|lia|lia]. intros i Hi.
    destruct (decide (i < j)%nat); [by apply Hb|]. apply Hno. lia. }
  assert (1 <= k <= 2 /\ 1 <= l <= 2)%nat as [Hk Hl] by (case_decide; lia).
  rewrite (load_run _ _ _ _ Hx1).
  rewrite (load_run _ y1) by (replace (y + (Z.of_nat j + 1)) with (y + Z.of_nat (S j)) by lia; done).
  pose proof (memmem_skip j y0 y1 H0 H1) as Hskip.
  destruct (decide (x1 <> y1)) as [Hne|Heq].
  { rewrite decide_False in Hskip by done. rewrite <- Nat2Z.inj_add. apply Hnext; [lia|lia|]. intros i Hi.
    apply Hskip; [|lia]. intros (_ & E & _)%(occurs_two _ _ _ _ _ _ _ H0 H1). done. }
  assert (x1 = y1) as E1 by (destruct (decide (x1 = y1)); [done|by exfalso; apply Heq]).
  rewrite decide_True in Hskip by done.
  rewrite (bind_ret _ _ _ _ _ (memcmp_tail j ltac:(lia))).
  assert (~ occurs X Y j -> exists r, memmem_loop fuel y (Z.of_nat (length Y)) x (Z.of_nat (length X))
      (Z.of_nat j + Z.of_nat l) (Z.of_nat k) (Z.of_nat l) m = Ret (r, m) /\ first_occurrence X Y y r) as Hmove.
  { intros Hno. rewrite <- Nat2Z.inj_add. apply Hnext; [lia|lia|]. intros i Hi. apply Hskip; [done|lia]. }
  assert (length X' = length (take (length X') (drop (2 + j) Y))) as Hlt
    by (rewrite length_take, length_drop; cbn [X length] in *; lia).
  destruct (decide (first_diff X' (take (length X') (drop (2 + j) Y)) = 0)) as [E|E].
  - apply (first_diff_eq _ _ Hlt) in E. rewrite (load_run _ _ _ _ Hx0), (load_run _ _ _ _ Hy0).
    destruct (decide (x0 = y0)) as [->|Hne0].
    + exists (y + Z.of_nat j). split; [done|]. left. exists j. split; [done|]. split; [|done].
      by apply (occurs_two _ _ _ _ _ _ _ H0 H1).
    + apply Hmove. intros (E0 & _)%(occurs_two _ _ _ _ _ _ _ H0 H1). done.
  - apply Hmove. intros (_ & _ & E2)%(occurs_two _ _ _ _ _ _ _ H0 H1).
    apply E, (first_diff_eq _ _ Hlt). by symmetry.
Qed.
End Memmem.

Lemma memmem_one_run m x c Y : forall y,
  bytes_at m y Y -> m !! x = Some c ->
  exists r, memmem_one (length Y) y x m = Ret (r, m) /\ first_occurrence [c] Y y r.
Proof.
  induction Y as [|b Y IH]; intros y HY Hx.
  { exists NULL. split; [done|]. right. split; [done|]. intros i Ho. apply occurs_bound in Ho; [simpl in Ho; lia|done]. }
  apply bytes_at_cons in HY as [Hb HY]. cbn [length memmem_one].
  rewrite (load_run _ _ _ _ Hb), (load_run _ _ _ _ Hx). destruct (decide (b = c)) as [->|Hne].
  - exists y. split; [done|]. left. exists 0%nat. split; [lia|]. split; [done|]. lia.
  - destruct (IH (y + 1) HY Hx) as (r & -> & [(j & -> & Ho & Hf)|(-> & Hn)]).
    + eexists. split; [done|]. left. exists (S j). split; [lia|]. split; [done|].
      intros [|i] Hi; [|apply (Hf i); lia]. intros E. unfold occurs in E. simpl in E. congruence.
    + exists NULL. split; [done|]. right. split; [done|]. intros [|i]; [|apply (Hn i)].
      intros E. unfold occurs in E. simpl in E. congruence.
Qed.

Lemma memmem_run m y x Y X :
  bytes_at m y Y -> bytes_at m x X -> X <> [] ->
  exists r, memmem y (Z.of_nat (length Y)) x (Z.of_nat (length X)) m = Ret (r, m) /\ first_occurrence X Y y r.
Proof.
  intros HY HX Hne. assert (length X <> 0%nat) as HX0 by (by destruct X). unfold memmem.
  destruct (decide _) as [Hc|Hc].
  { exists NULL. split; [done|]. right. split; [done|]. intros i Ho%occurs_bound; [lia|done]. }
  destruct X as [|x0 [|x1 X]]; [done| |].
  - rewrite decide_False by (intros E; by apply E). rewrite Nat2Z.id. apply memmem_one_run; [done|].
    by apply bytes_at_cons in HX as [? _].
  - rewrite decide_True by (cbn [length]; lia).
    assert (m !! x = Some x0 /\ m !! (x + 1) = Some x1) as [Hx0 Hx1].
    { apply bytes_at_cons in HX as [? H]. by apply bytes_at_cons in H as [? _]. }
    rewrite (load_run _ _ _ _ Hx0), (load_run _ _ _ _ Hx1), Nat2Z.id.
    set (kl := if decide (x0 = x1) then (2, 1) else (1, 2)).
    pose proof (memmem_loop_run m y x Y X x0 x1 HY HX ltac:(lia)) as H.
    unfold kl. destruct (decide (x0 = x1)) as [E|E].
    + apply (H 2%nat 1%nat ltac:(done) (S (length Y)) 0%nat); [lia|lia|cbn [length]; lia].
    + apply (H 1%nat 2%nat ltac:(done) (S (length Y)) 0%nat); [lia|lia|cbn [length]; lia].
Qed.

(** ** Spans *)

(** The length of the longest prefix whose bytes satisfy [P]. *)
Fixpoint span (P : Z -> Prop) `{!forall x, Decision (P x)} (l : list Z) : nat :=
  match l with
  | [] => 0
  | c :: l => if decide (P c) then S (span P l) else 0
  end.

Lemma span_le P `{!forall x, Decision (P x)} l : (span P l <= length l)%nat.
Proof. induction l as [|c l IH]; cbn [span length]; [done|]. case_decide; lia. Qed.

Lemma matchmap_run d : forall fuel p g m,
  cstr m p d -> (length d < fuel)%nat ->
  exists f, matchmap_loop fuel p g m = Ret (f, m) /\ forall b, f b = if decide (b ∈ d) then 1 else g b.
Proof.
  induction d as [|c d IH]; intros [|fuel] p g m H Hf; simpl in Hf; try lia; apply cstr_first in H; cbn [matchmap_loop].
  - rewrite (load_run _ _ _ _ H), decide_False by lia. exists g. split; [done|]. intros b.
    by rewrite decide_False by apply not_elem_of_nil.
  - destruct H as (Hc & Hr & H). rewrite (load_run _ _ _ _ Hc), decide_True by lia.
    destruct (IH fuel (p + 1) (<[c := 1]> g) m H ltac:(lia)) as (f & Hrun & Hfb). exists f.
    split; [exact Hrun|]. intros b. rewrite Hfb.
    destruct (decide (b ∈ d)) as [Hin|Hin], (decide (b ∈ c :: d)) as [Hin'|Hin']; rewrite elem_of_cons in Hin'; try done.
    + exfalso. tauto.
    + destruct Hin' as [->|]; [by rewrite fn_lookup_insert|done].
    + rewrite fn_lookup_insert_ne; [done|]. intros ->. tauto.
Qed.

Lemma span_run P `{Hdec : !forall x, Decision (P x)} f parity l : forall fuel p n m,
  cstr m p l -> (length l < fuel)%nat -> f 0 = parity ->
  (forall b, 0 < b < 256 -> Z.lxor (f b) parity <> 0 <-> P b) ->
  span_loop fuel p f parity n m = Ret (n + Z.of_nat (span P l), m).
Proof.
  induction l as [|c l IH]; intros [|fuel] p n m H Hfl Hz Hf; simpl in Hfl; try lia; apply cstr_first in H;
    cbn [span_loop span].
  - rewrite (load_run _ _ _ _ H), Hz, Z.lxor_nilpotent, decide_False by (intros E; by apply E). by rewrite Z.add_0_r.
  - destruct H as (Hc & Hr & H). rewrite (load_run _ _ _ _ Hc). specialize (Hf c Hr) as Hfc.
    destruct (decide (P c)) as [HP|HP].
    + rewrite decide_True by tauto. rewrite IH by (done || lia). do 2 f_equal. lia.
    + rewrite decide_False by tauto. by rewrite Z.add_0_r.
Qed.

Lemma strxspn_run {A} P `{!forall x, Decision (P x)} s map parity l d (k : Z -> M mem A) m :
  cstr m s l -> cstr m map d ->
  (parity = 0 /\ (forall b, P b <-> b ∈ d)) \/ (parity = 1 /\ (forall b, P b <-> b ∉ d)) ->
  bind (__strxspn s map parity) k m = k (Z.of_nat (span P l)) m.
Proof.
  intros Hl Hd Hp. pose proof (cstr_fuel _ _ _ Hl). pose proof (cstr_fuel _ _ _ Hd).
  unfold __strxspn, with_fuel. rewrite !bind_assoc, exec_gets.
  destruct (matchmap_run d (mem_fuel m) map (fun _ => 0) m Hd ltac:(lia)) as (f & Hrun & Hf).
  rewrite (bind_ret _ _ _ _ _ Hrun), bind_assoc, exec_gets.
  assert (span_loop (mem_fuel m) s (<[0 := parity]> f) parity 0 m = Ret (0 + Z.of_nat (span P l), m)) as Hs.
  { apply span_run; [done|lia|apply fn_lookup_insert|]. intros b Hb.
    rewrite fn_lookup_insert_ne by lia. rewrite Hf.
    destruct Hp as [[-> Hp]|[-> Hp]]; rewrite Hp; destruct (decide (b ∈ d)) as [Hin|Hin]; split; done || tauto. }
  by rewrite (bind_ret _ _ _ _ _ Hs).
Qed.

Lemma strspn_run s accept l d m :
  cstr m s l -> cstr m accept d -> strspn s accept m = Ret (Z.of_nat (span (fun c => c ∈ d) l), m).
Proof.
  intros Hl Hd. pose proof (strxspn_run (fun c => c ∈ d) s accept 0 l d ret m Hl Hd) as H.
  unfold strspn. revert H. unfold bind. destruct (__strxspn s accept 0 m) as [[]| | |]; intros H; apply H; by left.
Qed.

Lemma strcspn_run s reject l d m :
  cstr m s l -> cstr m reject d -> strcspn s reject m = Ret (Z.of_nat (span (fun c => c ∉ d) l), m).
Proof.
  intros Hl Hd. pose proof (strxspn_run (fun c => c ∉ d) s reject 1 l d ret m Hl Hd) as H.
  unfold strcspn. revert H. unfold bind. destruct (__strxspn s reject 1 m) as [[]| | |]; intros H; apply H; by right.
Qed.

(** The byte after a prefix. *)
Lemma cstr_lookup m p l n :
  cstr m p l -> (n <= length l)%nat -> m !! (p + Z.of_nat n) = Some (default 0 (l !! n)).
Proof.
  intros [Hb _] Hn. destruct (l !! n) as [c|] eqn:E; simpl.
  - apply Hb. by apply lookup_app_l_Some.
  - apply lookup_ge_None in E. apply Hb. rewrite lookup_app_r by lia. by replace (n - length l)%nat with 0%nat by lia.
Qed.

Lemma strpbrk_run {A} s accept l d (k : Z -> M mem A) m :
  cstr m s l -> cstr m accept d ->
  let n := span (fun c => c ∉ d) l in
  bind (strpbrk s accept) k m = k (if decide (n < length l)%nat then s + Z.of_nat n else NULL) m.
Proof.
  intros Hl Hd n. unfold strpbrk. rewrite bind_assoc.
  rewrite (strxspn_run (fun c => c ∉ d) _ _ _ _ _ _ _ Hl Hd) by (by right). fold n.
  rewrite bind_assoc, (load_run _ _ _ _ (cstr_lookup _ _ _ n Hl (span_le _ _))), bind_ret_l.
  destruct (decide (n < length l)%nat) as [Hn|Hn].
  - destruct (lookup_lt_is_Some_2 l n Hn) as [c Hc]. rewrite Hc. simpl.
    destruct Hl as [_ Hs]. pose proof (Forall_lookup_1 _ _ _ _ Hs Hc). simpl in *. by rewrite decide_True by lia.
  - rewrite lookup_ge_None_2 by lia. by rewrite decide_False by (intros E; by apply E).
Qed.

(** ** Tokens *)

(** The pieces of a string between the characters of [d]. *)
Fixpoint split_on (d l : list Z) : list (list Z) :=
  match l with
  | [] => [[]]
  | c :: l =>
    if decide (c ∈ d) then [] :: split_on d l
    else match split_on d l with [] => [[c]] | w :: ws => (c :: w) :: ws end
  end.

Lemma split_on_span d l :
  let n := span (fun c => c ∉ d) l in
  split_on d l = if decide (n < length l)%nat then take n l :: split_on d (drop (S n) l) else [l].
Proof.
  induction l as [|c l IH]; cbn [split_on span length]; [done|].
  destruct (decide (c ∈ d)) as [Hin|Hin].
  - rewrite (decide_False (P := c ∉ d)) by tauto. cbn [take]. rewrite decide_True by lia.
    by rewrite skipn_cons, drop_0.
  - rewrite (decide_True (P := c ∉ d)) by done. simpl in IH. rewrite IH.
    destruct (decide (span _ l < length l)%nat) as [Hn|Hn].
    + rewrite decide_True by lia. cbn [take]. by rewrite (skipn_cons (S _)).
    + by rewrite decide_False by lia.
Qed.

(** A client that asks [strtok] for every token. *)
Fixpoint strtok_rest (fuel : nat) (delim holder : Z) : M mem (list Z) :=
  match fuel with
  | O => diverge
  | S fuel =>
    let* (t, holder) := strtok NULL delim holder in
    if decide (t = NULL) then ret [] else
    let* ts := strtok_rest fuel delim holder in ret (t :: ts)
  end.

Definition strtok_all (fuel : nat) (s delim holder : Z) : M mem (list Z) :=
  let* (t, holder) := strtok s delim holder in
  let* ts := strtok_rest fuel delim holder in ret (t :: ts).

Lemma strsep_run s delim l d m :
  0 < s -> cstr m s l -> cstr m delim d ->
  let n := span (fun c => c ∉ d) l in
  strsep s delim m =
    if decide (n < length l)%nat then Ret ((s, s + Z.of_nat n + 1), <[s + Z.of_nat n := 0]> m)
    else Ret ((s, NULL), m).
Proof.
  intros Hs Hl Hd n. unfold strsep. rewrite decide_False by (unfold NULL; lia).
  rewrite (strpbrk_run _ _ _ _ _ _ Hl Hd). fold n.
  destruct (decide (n < length l)%nat) as [Hn|Hn].
  - rewrite decide_True by (unfold NULL; lia).
    by rewrite store_run by (lia || (rewrite (cstr_lookup _ _ _ n Hl) by lia; by eexists)).
  - rewrite decide_False by (intros E; by apply E). done.
Qed.

(** The string at [s] becomes its first piece, the rest follows. *)
Lemma cstr_cut m s l n :
  cstr m s l -> (n < length l)%nat ->
  cstr (<[s + Z.of_nat n := 0]> m) s (take n l) /\
  cstr (<[s + Z.of_nat n := 0]> m) (s + Z.of_nat n + 1) (drop (S n) l).
Proof.
  intros H Hn. destruct (lookup_lt_is_Some_2 l n Hn) as [c Hc].
  rewrite <- (take_drop_middle l n c Hc) in H.
  assert (length (take n l) = n) as Hlen by (rewrite length_take; lia).
  apply cstr_app in H as (Hb & Hs & H). rewrite Hlen in H. apply cstr_cons in H as (_ & _ & H). split.
  - split; [|done]. apply bytes_at_app. split; [apply bytes_at_insert_ne; [rewrite Hlen; lia|done]|].
    rewrite Hlen. apply bytes_at_cons. by rewrite lookup_insert_eq.
  - apply cstr_insert_ne; [lia|done].
Qed.

Lemma strtok_rest_run delim d n : forall fuel l holder m,
  length l = n -> 0 < holder -> cstr m holder l -> cstr m delim d ->
  apart holder (S (length l)) delim (S (length d)) -> (S n < fuel)%nat ->
  exists ts m', strtok_rest fuel delim holder m = Ret (ts, m') /\
    Forall2 (cstr m') ts (split_on d l) /\
    forall x, ~ (holder <= x < holder + Z.of_nat (length l)) -> m' !! x = m !! x.
Proof.
  induction n as [n IH] using lt_wf_ind; intros [|fuel] l holder m Hl Hh H Hd Ha Hf; [lia|].
  cbn [strtok_rest]. unfold strtok at 1. rewrite decide_False by (intros E; by apply E).
  pose proof (strsep_run holder delim l d m Hh H Hd) as Hsep. rewrite split_on_span. set (k := span _ l) in *.
  simpl in Hsep. destruct (decide (k < length l)%nat) as [Hk|Hk].
  - rewrite (bind_ret _ _ _ _ _ Hsep), decide_False by (unfold NULL; lia).
    destruct (cstr_cut _ _ _ _ H Hk) as [H1 H2]. set (m1 := <[holder + Z.of_nat k := 0]> m) in *.
    assert (length (drop (S k) l) = length l - S k)%nat as Hld by apply length_drop.
    unfold apart in Ha.
    destruct (IH (length l - S k)%nat ltac:(lia) fuel (drop (S k) l) (holder + Z.of_nat k + 1) m1)
      as (ts & m' & Hr & Hts & Hfr); try done; try lia.
    { apply cstr_insert_ne; [lia|done]. }
    { unfold apart. lia. }
    rewrite (bind_ret _ _ _ _ _ Hr). exists (holder :: ts), m'. split; [done|]. rewrite Hld in Hfr. split.
    + constructor; [|done]. destruct H1 as [Hb1 Hs1]. split; [|done]. intros i x Hi. rewrite Hfr; [by apply Hb1|].
      apply lookup_lt_Some in Hi. rewrite length_app, length_take in Hi. simpl in Hi. lia.
    + intros x Hx. rewrite Hfr by lia. unfold m1. by rewrite lookup_insert_ne by lia.
  - rewrite (bind_ret _ _ _ _ _ Hsep), decide_False by (unfold NULL; lia).
    destruct fuel as [|fuel]; [lia|]. cbn [strtok_rest]. unfold strtok.
    rewrite decide_False by (intros E; by apply E). unfold strsep. rewrite decide_True by done.
    exists [holder], m. split; [done|]. split; [|done]. by repeat constructor; try apply H.
Qed.

(** ** Properties *)

(** C35: [strstr] returns the address of the first occurrence of a non-empty
    needle, or null when there is none: the steps of two bytes of [memmem]
    skip no occurrence. *)
Theorem strstr_first_occurrence haystack needle Y X m :
  cstr m haystack Y -> cstr m needle X -> X <> [] ->
  exists r, strstr haystack needle m = Ret (r, m) /\ first_occurrence X Y haystack r.
Proof.
  intros HY HX Hne. unfold strstr. rewrite (strlen_run _ _ _ _ HY), (strlen_run _ _ _ _ HX).
  apply memmem_run; [|..|done].
  - destruct HY as [HY _]. by apply bytes_at_app in HY as [? _].
  - destruct HX as [HX _]. by apply bytes_at_app in HX as [? _].
Qed.

(** C37: repeated calls of [strtok] cut a string in place at the delimiters:
    the addresses returned, in order, are those of the pieces of the string,
    each a string of its own in the final memory; nothing outside of the string
    changes and the calls end. *)
Theorem strtok_all_tokens s delim holder l d m :
  0 < s -> cstr m s l -> cstr m delim d -> apart s (S (length l)) delim (S (length d)) ->
  exists ts m', strtok_all (length l + 2) s delim holder m = Ret (ts, m') /\
    Forall2 (cstr m') ts (split_on d l) /\
    forall x, ~ (s <= x < s + Z.of_nat (length l)) -> m' !! x = m !! x.
Proof.
  intros Hs H Hd Ha.
  destruct (strtok_rest_run delim d (length l) (length l + 3) l s m) as (ts & m' & Hr & Hts & Hfr);
    [done..|lia|].
  assert (strtok_all (length l + 2) s delim holder m = strtok_rest (length l + 3) delim s m) as E.
  { replace (length l + 3)%nat with (S (length l + 2)) by lia. cbn [strtok_rest]. unfold strtok_all.
    unfold strtok at 1 2. rewrite decide_True by (unfold NULL; lia). rewrite decide_False by (intros E; by apply E).
    pose proof (strsep_run s delim l d m Hs H Hd) as Hsep. simpl in Hsep.
    case_decide; rewrite !(bind_ret _ _ _ _ _ Hsep); by rewrite decide_False by (unfold NULL; lia). }
  exists ts, m'. by rewrite E.
Qed.

(** Two delimiters in a row give an empty token; the standard function skips
    them. *)
Lemma strtok_empty_token :
  result_of (strtok_all 6 100 200 0 (put (put ∅ 100 [97; 44; 44; 98; 0]) 200 [44; 0])) = Some [100; 102; 103].
Proof. vm_compute. done. Qed.

(** The empty needle is not found, and the terminator is not found by
    [strrchr]. *)
Lemma strstr_empty_needle haystack needle Y m :
  cstr m haystack Y -> cstr m needle [] -> strstr haystack needle m = Ret (NULL, m).
Proof.
  intros HY HX. unfold strstr. rewrite (strlen_run _ _ _ _ HY), (strlen_run _ _ _ _ HX).
  unfold memmem. by rewrite decide_True by (right; by left).
Qed.

Lemma strrchr_terminator s l m : cstr m s l -> strrchr s 0 m = Ret (NULL, m).
Proof.
  intros H. rewrite (strrchr_run s l 0 m H). destruct H as [_ H]. do 2 f_equal. clear m. revert s.
  induction l as [|c l IH]; intros s; [done|]. apply Forall_cons in H as [Hc H]. cbn [last_at].
  rewrite decide_False by (change (u8 0) with 0; lia). by apply IH.
Qed.

(** ** Witnesses *)

(** "aab" in "aaab": the first two bytes of the needle are the same. *)
Definition search_bytes : mem := put (put ∅ 100 ([97; 97; 97; 98] ++ [0])) 200 ([97; 97; 98] ++ [0]).

Lemma strstr_first_occurrence_witness :
  (cstr search_bytes 100 [97; 97; 97; 98] /\ cstr search_bytes 200 [97; 97; 98] /\ [97; 97; 98] <> []) /\
  exists r, strstr 100 200 search_bytes = Ret (r, search_bytes) /\
    first_occurrence [97; 97; 98] [97; 97; 97; 98] 100 r.
Proof.
  assert (cstr search_bytes 100 [97; 97; 97; 98]) as H1
    by (apply cstr_put_apart; [unfold apart; simpl; lia|apply cstr_put; solve_string]).
  assert (cstr search_bytes 200 [97; 97; 98]) as H2 by (apply cstr_put; solve_string).
  split; [split_and!; [exact H1|exact H2|discriminate]|].
  exact (strstr_first_occurrence 100 200 _ _ search_bytes H1 H2 ltac:(discriminate)).
Defined.

(** "a,,b" with the delimiter ",". *)
Definition token_bytes : mem := put (put ∅ 100 ([97; 44; 44; 98] ++ [0])) 200 ([44] ++ [0]).

Lemma strtok_all_tokens_witness :
  (0 < 100 /\ cstr token_bytes 100 [97; 44; 44; 98] /\ cstr token_bytes 200 [44] /\ apart 100 5 200 2) /\
  exists ts m', strtok_all 6 100 200 0 token_bytes = Ret (ts, m') /\
    Forall2 (cstr m') ts [[97]; []; [98]] /\
    forall x, ~ (100 <= x < 104) -> m' !! x = token_bytes !! x.
Proof.
  assert (cstr token_bytes 100 [97; 44; 44; 98]) as H1
    by (apply cstr_put_apart; [unfold apart; simpl; lia|apply cstr_put; solve_string]).
  assert (cstr token_bytes 200 [44]) as H2 by (apply cstr_put; solve_string).
  assert (apart 100 5 200 2) as H3 by (unfold apart; lia).
  split; [split_and!; [lia|exact H1|exact H2|exact H3]|].
  exact (strtok_all_tokens 100 200 0 _ _ token_bytes ltac:(lia) H1 H2 H3).
Defined.
