(* ===== verification/Cpu.v ===== *)
(** * The CPU's tables and the use of its SSE registers

    The segment, interrupt and task tables of
    [arch/cpu/i386/cpu_settings.c] and [cpu_structs.c], with the registers
    that point to them, and from [arch/cpu/i386/cpu.c] the handler that moves
    the SSE registers between threads.  The addresses the linker gives to the
    tables and to the assembly handlers are parameters. *)
From S2P Require Import Prelude Interrupts.

(** ** Constants ([cpu_settings.h], [cpu_structs.h], [config.h]) *)

Definition KERNEL_CS_32 : Z := 8.
Definition KERNEL_DS_32 : Z := 16.
Definition KERNEL_CS_16 : Z := 24.
Definition KERNEL_DS_16 : Z := 32.
Definition TSS_SEGMENT : Z := 40.
Definition SEGMENT_BASE : Z := 0.
Definition SEGMENT_LIMIT : Z := 0xFFFFF.

Definition GDT_FLAG_GRANULARITY_4K : Z := 0x800000.
Definition GDT_FLAG_16_BIT_SEGMENT : Z := 0.
Definition GDT_FLAG_32_BIT_SEGMENT : Z := 0x400000.
Definition GDT_FLAG_SEGMENT_PRESENT : Z := 0x8000.
Definition GDT_FLAG_PL0 : Z := 0.
Definition GDT_FLAG_CODE_TYPE : Z := 0x1000.
Definition GDT_FLAG_DATA_TYPE : Z := 0x1000.
Definition GDT_TYPE_EXECUTABLE : Z := 8.
Definition GDT_TYPE_GROW_DOWN : Z := 0.
Definition GDT_TYPE_PROTECTED : Z := 0.
Definition GDT_TYPE_READABLE : Z := 2.
Definition GDT_TYPE_WRITABLE : Z := 2.
Definition GDT_TYPE_ACCESSED : Z := 1.

Definition IDT_FLAG_PL0 : Z := 0.
Definition IDT_FLAG_PRESENT : Z := 0x80.
Definition IDT_TYPE_INT_GATE : Z := 0xE.

Definition CPU_COUNT : nat := 4. (* MAX_CPU_COUNT *)
Definition GDT_ENTRY_COUNT : nat := 6 + CPU_COUNT.
Definition IDT_ENTRY_COUNT : nat := 256.
Definition KERNEL_STACK_SIZE : Z := 0x4000.

(** ** [struct cpu_tss_entry] *)

Record cpu_tss_entry : Type := mk_tss {
  prev_tss : Z;
  esp0 : Z; ss0 : Z; esp1 : Z; ss1 : Z; esp2 : Z; ss2 : Z;
  tss_cr3 : Z; tss_eip : Z; tss_eflags : Z;
  tss_eax : Z; tss_ecx : Z; tss_edx : Z; tss_ebx : Z;
  tss_esp : Z; tss_ebp : Z; tss_esi : Z; tss_edi : Z;
  tss_es : Z; tss_cs : Z; tss_ss : Z; tss_ds : Z; tss_fs : Z; tss_gs : Z;
  tss_ldt : Z; tss_trap : Z; iomap_base : Z
}.

Definition zero_tss : cpu_tss_entry :=
  mk_tss 0 0 0 0 0 0 0 0 0 0 0 0 0 0 0 0 0 0 0 0 0 0 0 0 0 0 0.

(** 25 double words and two words. *)
Definition sizeof_tss : Z := 104.

(** ** The tables and the registers *)

Record cpu_tables : Type := mk_tables {
  cpu_gdt : list Z;
  cpu_idt : list Z;
  cpu_tss : list cpu_tss_entry;
  gdtr : option (Z * Z); (* size and base, once loaded *)
  idtr : option (Z * Z);
  task_register : Z;
  code_register : Z;
  data_registers : Z
}.

Definition set_gdt (v : list Z) (s : cpu_tables) : cpu_tables :=
  mk_tables v (cpu_idt s) (cpu_tss s) (gdtr s) (idtr s) (task_register s) (code_register s)
    (data_registers s).
Definition set_idt (v : list Z) (s : cpu_tables) : cpu_tables :=
  mk_tables (cpu_gdt s) v (cpu_tss s) (gdtr s) (idtr s) (task_register s) (code_register s)
    (data_registers s).
Definition set_tss (v : list cpu_tss_entry) (s : cpu_tables) : cpu_tables :=
  mk_tables (cpu_gdt s) (cpu_idt s) v (gdtr s) (idtr s) (task_register s) (code_register s)
    (data_registers s).

(** [lgdt], the loads of the data segment registers and the far jump. *)
Definition load_gdt (size base : Z) (s : cpu_tables) : cpu_tables :=
  mk_tables (cpu_gdt s) (cpu_idt s) (cpu_tss s) (Some (size, base)) (idtr s) (task_register s)
    KERNEL_CS_32 KERNEL_DS_32.
(** [lidt] *)
Definition load_idt (size base : Z) (s : cpu_tables) : cpu_tables :=
  mk_tables (cpu_gdt s) (cpu_idt s) (cpu_tss s) (gdtr s) (Some (size, base)) (task_register s)
    (code_register s) (data_registers s).
(** [ltr] *)
Definition load_tr (sel : Z) (s : cpu_tables) : cpu_tables :=
  mk_tables (cpu_gdt s) (cpu_idt s) (cpu_tss s) (gdtr s) (idtr s) sel (code_register s)
    (data_registers s).

Record cpu_symbols : Type := mk_symbols {
  addr_gdt : Z;
  addr_idt : Z;
  addr_tss : Z;
  addr_stacks : Z;
  interrupt_handler : Z -> Z (* interrupt_handler_0 to interrupt_handler_255 *)
}.

(** ** Formats of the entries *)

Definition format_gdt_entry (base limit type flags : Z) : Z :=
  let lo_part := Z.lor (u32 (Z.shiftl (Z.land base 0xFFFF) 16)) (Z.land limit 0xFFFF) in
  let hi_part := Z.land (Z.shiftr base 16) 0xFF in
  let hi_part := Z.lor hi_part (Z.shiftl (Z.land type 0xF) 8) in
  let hi_part := Z.lor hi_part (Z.land flags 0x00F0F000) in
  let hi_part := Z.lor hi_part (Z.land limit 0xF0000) in
  let hi_part := Z.lor hi_part (Z.land base 0xFF000000) in
  Z.lor lo_part (Z.shiftl hi_part 32).

Definition format_idt_entry (handler type flags : Z) : Z :=
  let lo_part := Z.lor (Z.shiftl KERNEL_CS_32 16) (Z.land handler 0xFFFF) in
  let hi_part :=
    Z.lor (Z.lor (Z.land handler 0xFFFF0000) (Z.shiftl (Z.land flags 0xF0) 8))
      (Z.shiftl (Z.land type 0xF) 8) in
  Z.lor lo_part (Z.shiftl hi_part 32).

Section Setup.
Context (y : cpu_symbols).

(** The [switch] over the 256 lines. *)
Definition get_handler (int_id : Z) : Z :=
  if decide (0 <= int_id <= 255) then interrupt_handler y int_id else interrupt_handler y 0.

(** [format_..._entry(&table[i], ...)]: past the table it is undefined. *)
Definition write_gdt (i v : Z) : M cpu_tables unit :=
  let* t := gets cpu_gdt in
  if decide (0 <= i < Z.of_nat (length t)) then modify (set_gdt (<[Z.to_nat i := v]> t)) else fault.

Definition write_idt (i v : Z) : M cpu_tables unit :=
  let* t := gets cpu_idt in
  if decide (0 <= i < Z.of_nat (length t)) then modify (set_idt (<[Z.to_nat i := v]> t)) else fault.

Definition upd_tss (i : Z) (f : cpu_tss_entry -> cpu_tss_entry) : M cpu_tables unit :=
  let* t := gets cpu_tss in
  match t !! Z.to_nat i with
  | None => fault
  | Some x => modify (set_tss (<[Z.to_nat i := f x]> t))
  end.

(** ** [cpu_setup_gdt] *)

Definition kernel_code_seg_flags : Z :=
  Z.lor (Z.lor (Z.lor (Z.lor GDT_FLAG_GRANULARITY_4K GDT_FLAG_32_BIT_SEGMENT) GDT_FLAG_PL0)
    GDT_FLAG_SEGMENT_PRESENT) GDT_FLAG_CODE_TYPE.
Definition kernel_code_seg_type : Z :=
  Z.lor (Z.lor GDT_TYPE_EXECUTABLE GDT_TYPE_READABLE) GDT_TYPE_PROTECTED.
Definition kernel_data_seg_flags : Z :=
  Z.lor (Z.lor (Z.lor (Z.lor GDT_FLAG_GRANULARITY_4K GDT_FLAG_32_BIT_SEGMENT) GDT_FLAG_PL0)
    GDT_FLAG_SEGMENT_PRESENT) GDT_FLAG_DATA_TYPE.
Definition kernel_data_seg_type : Z := Z.lor GDT_TYPE_WRITABLE GDT_TYPE_GROW_DOWN.
Definition kernel_code_16_seg_flags : Z :=
  Z.lor (Z.lor (Z.lor (Z.lor GDT_FLAG_GRANULARITY_4K GDT_FLAG_16_BIT_SEGMENT) GDT_FLAG_PL0)
    GDT_FLAG_SEGMENT_PRESENT) GDT_FLAG_CODE_TYPE.
Definition kernel_code_16_seg_type : Z :=
  Z.lor (Z.lor GDT_TYPE_EXECUTABLE GDT_TYPE_READABLE) GDT_TYPE_PROTECTED.
Definition kernel_data_16_seg_flags : Z :=
  Z.lor (Z.lor (Z.lor (Z.lor GDT_FLAG_GRANULARITY_4K GDT_FLAG_16_BIT_SEGMENT) GDT_FLAG_PL0)
    GDT_FLAG_SEGMENT_PRESENT) GDT_FLAG_DATA_TYPE.
Definition kernel_data_16_seg_type : Z := Z.lor GDT_TYPE_WRITABLE GDT_TYPE_GROW_DOWN.
Definition tss_seg_flags : Z :=
  Z.lor (Z.lor GDT_FLAG_32_BIT_SEGMENT GDT_FLAG_SEGMENT_PRESENT) GDT_FLAG_PL0.
Definition tss_seg_type : Z := Z.lor GDT_TYPE_ACCESSED GDT_TYPE_EXECUTABLE.

(** The descriptor of the task state at [base]. *)
Definition tss_descriptor (base : Z) : Z :=
  format_gdt_entry base (u32 (base + sizeof_tss)) tss_seg_type tss_seg_flags.

(** [for (i = 1; i < MAX_CPU_COUNT; ++i)], [n] turns from [i] on. *)
Fixpoint tss_descriptors_loop (n : nat) (i : Z) : M cpu_tables unit :=
  match n with
  | O => ret tt
  | S n =>
    write_gdt ((TSS_SEGMENT + i * 8) / 8)
      (tss_descriptor (u32 (addr_tss y + (i - 1) * sizeof_tss))) >>>
    tss_descriptors_loop n (i + 1)
  end.

Definition cpu_setup_gdt : M cpu_tables unit :=
  modify (fun s => set_gdt (replicate (length (cpu_gdt s)) 0) s) >>>
  write_gdt (KERNEL_CS_32 / 8)
    (format_gdt_entry SEGMENT_BASE SEGMENT_LIMIT kernel_code_seg_type kernel_code_seg_flags) >>>
  write_gdt (KERNEL_DS_32 / 8)
    (format_gdt_entry SEGMENT_BASE SEGMENT_LIMIT kernel_data_seg_type kernel_data_seg_flags) >>>
  write_gdt (KERNEL_CS_16 / 8)
    (format_gdt_entry SEGMENT_BASE SEGMENT_LIMIT kernel_code_16_seg_type kernel_code_16_seg_flags) >>>
  write_gdt (KERNEL_DS_16 / 8)
    (format_gdt_entry SEGMENT_BASE SEGMENT_LIMIT kernel_data_16_seg_type kernel_data_16_seg_flags) >>>
  write_gdt (TSS_SEGMENT / 8) (tss_descriptor (addr_tss y)) >>>
  tss_descriptors_loop (CPU_COUNT - 1) 1 >>>
  modify (load_gdt (8 * Z.of_nat GDT_ENTRY_COUNT - 1) (addr_gdt y)).

(** ** [cpu_setup_idt] *)

Fixpoint idt_loop (n : nat) (i : Z) : M cpu_tables unit :=
  match n with
  | O => ret tt
  | S n =>
    write_idt i (format_idt_entry (get_handler i) IDT_TYPE_INT_GATE
                   (Z.lor IDT_FLAG_PRESENT IDT_FLAG_PL0)) >>>
    idt_loop n (i + 1)
  end.

Definition cpu_setup_idt : M cpu_tables unit :=
  modify (fun s => set_idt (replicate (length (cpu_idt s)) 0) s) >>>
  idt_loop IDT_ENTRY_COUNT 0 >>>
  modify (load_idt (8 * Z.of_nat IDT_ENTRY_COUNT - 1) (addr_idt y)).

(** ** [cpu_setup_tss] *)

(** The assignments to [cpu_tss[i]]; [stack] is [cpu_stacks[i] + KERNEL_STACK_SIZE]. *)
Definition init_tss (stack : Z) (t : cpu_tss_entry) : cpu_tss_entry :=
  mk_tss (prev_tss t) stack KERNEL_DS_32 (esp1 t) (ss1 t) (esp2 t) (ss2 t)
    (tss_cr3 t) (tss_eip t) (tss_eflags t) (tss_eax t) (tss_ecx t) (tss_edx t) (tss_ebx t)
    (tss_esp t) (tss_ebp t) (tss_esi t) (tss_edi t)
    KERNEL_DS_32 KERNEL_CS_32 KERNEL_DS_32 KERNEL_DS_32 KERNEL_DS_32 KERNEL_DS_32
    (tss_ldt t) (tss_trap t) sizeof_tss.

Definition stack_top (i : Z) : Z := u32 (addr_stacks y + i * KERNEL_STACK_SIZE + KERNEL_STACK_SIZE).

Fixpoint tss_loop (n : nat) (i : Z) : M cpu_tables unit :=
  match n with
  | O => ret tt
  | S n => upd_tss i (init_tss (stack_top i)) >>> tss_loop n (i + 1)
  end.

Definition cpu_setup_tss : M cpu_tables unit :=
  modify (fun s => set_tss (replicate (length (cpu_tss s)) zero_tss) s) >>>
  tss_loop (CPU_COUNT - 1) 0 >>>
  modify (load_tr TSS_SEGMENT).
End Setup.

(** ** The SSE registers ([sse_use_exception_handler]) *)

Definition DEVICE_NOT_FOUND_LINE : Z := 7.

(** The registers of one CPU, what [fxsave] wrote in memory, and
    [sse_save_region].  [task_switched] is the bit TS of CR0: while it is set
    the first use of SSE raises the exception. *)
Record sse_state (R : Type) : Type := mk_sse {
  task_switched : bool;
  sse_registers : R;
  saved_areas : gmap Z R;
  sse_save_region : Z -> Z
}.
Arguments mk_sse {R}.
Arguments task_switched {R}.
Arguments sse_registers {R}.
Arguments saved_areas {R}.
Arguments sse_save_region {R}.

Section Sse.
Context {R : Type} (cpu_id : Z).

Definition clear_task_switched (s : sse_state R) : sse_state R :=
  mk_sse false (sse_registers s) (saved_areas s) (sse_save_region s).

(** The aligned area in the storage of a thread. *)
Definition fxregs_addr (thread_storage : Z) : Z := u32 (Z.land thread_storage 0xFFFFFFF0 + 16).

(** The instruction [fxsave] *)
Definition fxsave (p : Z) (s : sse_state R) : sse_state R :=
  mk_sse (task_switched s) (sse_registers s) (<[p := sse_registers s]> (saved_areas s))
    (sse_save_region s).

Definition set_save_region (p : Z) (s : sse_state R) : sse_state R :=
  mk_sse (task_switched s) (sse_registers s) (saved_areas s)
    (fun c => if decide (c = cpu_id) then p else sse_save_region s c).

(** [thread_storage] is the one of [sched_get_self()]. *)
Definition sse_use_exception_handler (int_id thread_storage : Z) : M (sse_state R) unit :=
  (if decide (int_id <> DEVICE_NOT_FOUND_LINE) then kernel_panic OR_ERR_UNAUTHORIZED_INTERRUPT_LINE
   else ret tt) >>>
  modify clear_task_switched >>>
  let* region := gets (fun s => sse_save_region s cpu_id) in
  (if decide (region <> NULL /\ region <> thread_storage)
   then modify (fxsave (fxregs_addr thread_storage)) else ret tt) >>>
  let* region := gets (fun s => sse_save_region s cpu_id) in
  if decide (region <> thread_storage) then
    modify (fxsave (fxregs_addr thread_storage)) >>>
    modify (set_save_region thread_storage)
  else ret tt.

(** The part of [cpu_restore_context] that sets the bit TS. *)
Definition set_task_switched (s : sse_state R) : sse_state R :=
  mk_sse true (sse_registers s) (saved_areas s) (sse_save_region s).
End Sse.

(** ** Interrupts from the code *)

Definition CPU_EFLAGS_IF : Z := 0x200.

(** [cpu_get_interrupt_state] and [cpu_get_saved_interrupt_state], on the
    value of EFLAGS. *)
Definition cpu_get_interrupt_state (eflags : Z) : Z :=
  if decide (Z.land eflags CPU_EFLAGS_IF <> 0) then 1 else 0.
Definition cpu_get_saved_interrupt_state (eflags : Z) : Z := Z.land eflags CPU_EFLAGS_IF.

(** The [switch] has one [int] instruction per line; [int_n] is its effect. *)
Definition cpu_raise_interrupt {S} (int_n : Z -> M S unit) (set_irq_eoi : Z -> M S OS_RETURN_E)
    (interrupt_line : Z) : M S OS_RETURN_E :=
  if decide (interrupt_line > MAX_INTERRUPT_LINE) then ret OS_ERR_UNAUTHORIZED_ACTION
  else int_n interrupt_line >>> set_irq_eoi interrupt_line.
