(* ===== verification/CpuTheorems.v ===== *)
(** * The CPU's tables: properties

    What the processor reads in the entries the kernel formats, the tables
    after the set-up, and the SSE registers across switches. *)
From S2P Require Import Prelude Interrupts Cpu.

(** ** Descriptors as the processor reads them *)

(** Bits [k] to [k + w - 1] of a word. *)
Definition field (d k w : Z) : Z := (d / 2 ^ k) mod 2 ^ w.

Record segment : Type := mk_segment {
  sg_base : Z;
  sg_limit : Z;
  sg_type : Z;
  sg_code_data : bool; (* S: not a system segment *)
  sg_level : Z;
  sg_present : bool;
  sg_long : bool;
  sg_32bit : bool;
  sg_pages : bool (* G: the limit counts pages *)
}.

(** Bits 16 to 39 and 56 to 63 are the base, 0 to 15 and 48 to 51 the limit. *)
Definition decode_segment (d : Z) : segment :=
  mk_segment (field d 16 24 + 2 ^ 24 * field d 56 8) (field d 0 16 + 2 ^ 16 * field d 48 4)
    (field d 40 4) (Z.testbit d 44) (field d 45 2) (Z.testbit d 47)
    (Z.testbit d 53) (Z.testbit d 54) (Z.testbit d 55).

Record gate : Type := mk_gate {
  gt_offset : Z;
  gt_selector : Z;
  gt_type : Z;
  gt_level : Z;
  gt_present : bool
}.

Definition decode_gate (d : Z) : gate :=
  mk_gate (field d 0 16 + 2 ^ 16 * field d 48 16) (field d 16 16) (field d 40 4) (field d 45 2)
    (Z.testbit d 47).

(** ** Bits of a formatted entry *)

Lemma testbit_field d k w n : 0 <= k -> 0 <= w -> 0 <= n ->
  Z.testbit (field d k w) n = (n <? w) && Z.testbit d (n + k).
Proof.
  intros. unfold field. destruct (Z.ltb_spec n w).
  - rewrite Z.mod_pow2_bits_low by lia. by rewrite Z.div_pow2_bits by lia.
  - by rewrite Z.mod_pow2_bits_high by lia.
Qed.

Lemma testbit_mask w j n : 0 <= w -> 0 <= j ->
  Z.testbit (Z.shiftl (Z.ones w) j) n = (j <=? n) && (n <? j + w).
Proof.
  intros. destruct (decide (n < 0)).
  { rewrite Z.testbit_neg_r by lia. by destruct (Z.leb_spec j n); [lia|]. }
  rewrite Z.shiftl_spec by lia. destruct (Z.leb_spec j n) as [Hj|Hj].
  - simpl. destruct (Z.ltb_spec n (j + w)); [apply Z.ones_spec_low; lia|apply Z.ones_spec_high; lia].
  - apply Z.testbit_neg_r. lia.
Qed.

Lemma testbit_u32 x n : 0 <= n -> Z.testbit (u32 x) n = (n <? 32) && Z.testbit x n.
Proof.
  intros. unfold u32. destruct (Z.ltb_spec n 32).
  - by rewrite Z.mod_pow2_bits_low.
  - by rewrite Z.mod_pow2_bits_high by lia.
Qed.

(** Splits on the position of the bit. *)
Ltac bit_cases :=
  repeat match goal with
  | |- context [?a <? ?b] => destruct (Z.ltb_spec a b); try lia
  | |- context [?a <=? ?b] => destruct (Z.leb_spec a b); try lia
  end;
  repeat rewrite Z.testbit_neg_r by lia; cbn [andb orb];
  rewrite ?Bool.andb_false_r, ?Bool.andb_true_r, ?Bool.orb_false_r, ?Bool.orb_false_l; try done; try (f_equal; lia).

(** Two fields of a word, side by side. *)
Lemma join_fields a b k : 0 <= k -> 0 <= a < 2 ^ k -> a + 2 ^ k * b = Z.lor (Z.shiftl b k) a.
Proof.
  intros Hk Ha. rewrite Z.shiftl_mul_pow2 by done. rewrite <- Z.add_nocarry_lor; [lia|].
  apply Z.bits_inj'. intros n Hn. rewrite Z.land_spec, Z.bits_0, <- Z.shiftl_mul_pow2 by done.
  rewrite Z.shiftl_spec by done. destruct (decide (n < k)).
  - by rewrite Z.testbit_neg_r by lia.
  - rewrite <- (Z.mod_small a (2 ^ k)) by done. rewrite Z.mod_pow2_bits_high by lia. apply Bool.andb_false_r.
Qed.

Definition gdt_bit (base limit type flags n : Z) : bool :=
  if decide (n < 16) then Z.testbit limit n
  else if decide (n < 40) then Z.testbit base (n - 16)
  else if decide (n < 44) then Z.testbit type (n - 40)
  else if decide (n < 48) then Z.testbit flags (n - 32)
  else if decide (n < 52) then Z.testbit limit (n - 32)
  else if decide (n < 56) then Z.testbit flags (n - 32)
  else (n <? 64) && Z.testbit base (n - 32).

Lemma gdt_entry_bit base limit type flags n : 0 <= n ->
  Z.testbit (format_gdt_entry base limit type flags) n = gdt_bit base limit type flags n.
Proof.
  intros Hn. unfold format_gdt_entry, gdt_bit.
  change 0xFFFF with (Z.shiftl (Z.ones 16) 0). change 0xFF with (Z.shiftl (Z.ones 8) 0).
  change 0xF with (Z.shiftl (Z.ones 4) 0). change 0xF0000 with (Z.shiftl (Z.ones 4) 16).
  change 0xFF000000 with (Z.shiftl (Z.ones 8) 24).
  change 0x00F0F000 with (Z.lor (Z.shiftl (Z.ones 4) 12) (Z.shiftl (Z.ones 4) 20)).
  rewrite !Z.lor_spec, (Z.shiftl_spec _ 32) by done. rewrite testbit_u32 by done.
  rewrite Z.land_spec, testbit_mask by done. rewrite Z.shiftl_spec, Z.land_spec, testbit_mask by done.
  destruct (decide (n < 32)) as [Hl|Hl].
  - rewrite (Z.testbit_neg_r _ (n - 32)) by lia. repeat case_decide; try lia; bit_cases.
  - rewrite !Z.lor_spec, !Z.land_spec, !testbit_mask, Z.lor_spec, !testbit_mask by done.
    rewrite Z.shiftr_spec, Z.shiftl_spec, Z.land_spec, testbit_mask by lia.
    repeat case_decide; try lia; bit_cases.
Qed.

Lemma field_range d k w : 0 <= w -> 0 <= field d k w < 2 ^ w.
Proof. intros. unfold field. apply Z.mod_pos_bound. lia. Qed.

Lemma testbit_two_fields d k w k' w' n :
  0 <= k -> 0 <= w -> 0 <= k' -> 0 <= w' -> 0 <= n ->
  Z.testbit (field d k w + 2 ^ w * field d k' w') n =
    if decide (n < w) then Z.testbit d (n + k) else (n <? w + w') && Z.testbit d (n - w + k').
Proof.
  intros. rewrite join_fields by (done || by apply field_range).
  rewrite Z.lor_spec, Z.shiftl_spec, (testbit_field d k w) by done. case_decide.
  - rewrite (Z.testbit_neg_r _ (n - w)) by lia. by destruct (Z.ltb_spec n w); [|lia].
  - rewrite testbit_field by lia. bit_cases.
Qed.

Lemma testbit_mod x k n : 0 <= k -> 0 <= n -> Z.testbit (x mod 2 ^ k) n = (n <? k) && Z.testbit x n.
Proof.
  intros. destruct (Z.ltb_spec n k); [by apply Z.mod_pow2_bits_low|by apply Z.mod_pow2_bits_high; lia].
Qed.

(** A formatted entry decodes to the fields it was made of. *)
Lemma gdt_entry_decodes base limit type flags :
  0 <= base < 2 ^ 32 ->
  decode_segment (format_gdt_entry base limit type flags) =
    mk_segment base (limit mod 2 ^ 20) (type mod 2 ^ 4) (Z.testbit flags 12) (field flags 13 2)
      (Z.testbit flags 15) (Z.testbit flags 21) (Z.testbit flags 22) (Z.testbit flags 23).
Proof.
  intros Hb. unfold decode_segment. rewrite !gdt_entry_bit by done.
  f_equal; try done; apply Z.bits_inj'; intros n Hn.
  - transitivity (Z.testbit (base mod 2 ^ 32) n); [|by rewrite Z.mod_small].
    rewrite testbit_two_fields, testbit_mod, !gdt_entry_bit by lia. unfold gdt_bit.
    repeat case_decide; try lia; bit_cases.
  - rewrite testbit_two_fields, testbit_mod, !gdt_entry_bit by lia. unfold gdt_bit.
    repeat case_decide; try lia; bit_cases.
  - rewrite testbit_field, testbit_mod, gdt_entry_bit by lia. unfold gdt_bit.
    repeat case_decide; try lia; bit_cases.
  - rewrite !testbit_field, gdt_entry_bit by lia. unfold gdt_bit.
    repeat case_decide; try lia; bit_cases.
Qed.

Definition idt_bit (handler type flags n : Z) : bool :=
  if decide (n < 16) then Z.testbit handler n
  else if decide (n < 32) then Z.testbit KERNEL_CS_32 (n - 16)
  else if decide (n < 40) then false
  else if decide (n < 44) then Z.testbit type (n - 40)
  else if decide (n < 48) then Z.testbit flags (n - 40)
  else (n <? 64) && Z.testbit handler (n - 32).

Lemma idt_entry_bit handler type flags n : 0 <= n ->
  Z.testbit (format_idt_entry handler type flags) n = idt_bit handler type flags n.
Proof.
  intros Hn. unfold format_idt_entry, idt_bit.
  change 0xFFFF with (Z.shiftl (Z.ones 16) 0). change 0xF with (Z.shiftl (Z.ones 4) 0).
  change 0xF0 with (Z.shiftl (Z.ones 4) 4). change 0xFFFF0000 with (Z.shiftl (Z.ones 16) 16).
  assert (Z.testbit KERNEL_CS_32 (n - 16) = (16 <=? n) && (n <? 32) && Z.testbit KERNEL_CS_32 (n - 16)) as E.
  { destruct (Z.leb_spec 16 n); [|by rewrite Z.testbit_neg_r by lia].
    destruct (Z.ltb_spec n 32); [done|]. rewrite Z.bits_above_log2; [done|done|]. simpl. lia. }
  rewrite !Z.lor_spec, (Z.shiftl_spec _ 32), (Z.shiftl_spec _ 16), E by done.
  rewrite Z.land_spec, testbit_mask by done.
  destruct (decide (n < 32)) as [Hl|Hl].
  - rewrite (Z.testbit_neg_r _ (n - 32)) by lia. repeat case_decide; try lia; bit_cases.
  - rewrite !Z.lor_spec, Z.land_spec, testbit_mask, !(Z.shiftl_spec _ 8), !Z.land_spec, !testbit_mask by lia.
    repeat case_decide; try lia; bit_cases.
Qed.

Lemma idt_entry_decodes handler type flags :
  0 <= handler < 2 ^ 32 ->
  decode_gate (format_idt_entry handler type flags) =
    mk_gate handler KERNEL_CS_32 (type mod 2 ^ 4) (field flags 5 2) (Z.testbit flags 7).
Proof.
  intros Hb. unfold decode_gate. rewrite idt_entry_bit by done.
  f_equal; try done; apply Z.bits_inj'; intros n Hn.
  - transitivity (Z.testbit (handler mod 2 ^ 32) n); [|by rewrite Z.mod_small].
    rewrite testbit_two_fields, testbit_mod, !idt_entry_bit by lia. unfold idt_bit.
    repeat case_decide; try lia; bit_cases.
  - rewrite testbit_field, idt_entry_bit by lia. unfold idt_bit.
    destruct (Z.ltb_spec n 16); [|symmetry; apply Z.bits_above_log2; [done|simpl; lia]].
    repeat case_decide; try lia; bit_cases.
  - rewrite testbit_field, testbit_mod, idt_entry_bit by lia. unfold idt_bit.
    repeat case_decide; try lia; bit_cases.
  - rewrite !testbit_field, idt_entry_bit by lia. unfold idt_bit.
    repeat case_decide; try lia; bit_cases.
Qed.

(** ** The set-up *)

Section Setup.
Context (y : cpu_symbols).

Lemma gdt_run s :
  length (cpu_gdt s) = GDT_ENTRY_COUNT ->
  cpu_setup_gdt y s = Ret (tt, load_gdt 79 (addr_gdt y) (set_gdt
    ([0; format_gdt_entry 0 0xFFFFF 10 0xC09000; format_gdt_entry 0 0xFFFFF 2 0xC09000;
      format_gdt_entry 0 0xFFFFF 10 0x809000; format_gdt_entry 0 0xFFFFF 2 0x809000;
      tss_descriptor (addr_tss y)] ++
      ((fun i => tss_descriptor (u32 (addr_tss y + i * sizeof_tss))) <$> [0; 1; 2]) ++ [0]) s)).
Proof. intros H. unfold cpu_setup_gdt. rewrite exec_modify, H. reflexivity. Qed.

Definition int_gate (i : Z) : Z :=
  format_idt_entry (get_handler y i) IDT_TYPE_INT_GATE (Z.lor IDT_FLAG_PRESENT IDT_FLAG_PL0).

Lemma idt_loop_run n : forall i s,
  0 <= i -> i + Z.of_nat n <= Z.of_nat (length (cpu_idt s)) ->
  exists l, idt_loop y n i s = Ret (tt, set_idt l s) /\ length l = length (cpu_idt s) /\
    forall j : nat, l !! j =
      if decide (i <= Z.of_nat j < i + Z.of_nat n) then Some (int_gate (Z.of_nat j)) else cpu_idt s !! j.
Proof.
  induction n as [|n IH]; intros i s Hi Hn.
  { exists (cpu_idt s). split; [by destruct s|]. split; [done|]. intros j. by rewrite decide_False by lia. }
  cbn [idt_loop]. fold (int_gate i). set (t := <[Z.to_nat i := int_gate i]> (cpu_idt s)).
  assert (write_idt i (int_gate i) s = Ret (tt, set_idt t s)) as Hw.
  { unfold write_idt. rewrite exec_gets, decide_True by lia. done. }
  rewrite (bind_ret _ _ _ _ _ Hw).
  assert (length t = length (cpu_idt s)) as Ht by apply length_insert.
  destruct (IH (i + 1) (set_idt t s)) as (l & Hr & Hl & Hj); [lia|simpl; lia|].
  exists l. split; [done|]. split; [by rewrite Hl|]. intros j. rewrite Hj. cbn [set_idt cpu_idt].
  repeat case_decide; try lia; try done; unfold t.
  - assert (j = Z.to_nat i) as -> by lia. rewrite list_lookup_insert_eq by lia. f_equal. f_equal. lia.
  - by rewrite list_lookup_insert_ne by lia.
Qed.

Lemma idt_run s :
  length (cpu_idt s) = IDT_ENTRY_COUNT ->
  exists l, cpu_setup_idt y s = Ret (tt, load_idt 2047 (addr_idt y) (set_idt l s)) /\
    forall i, 0 <= i < 256 -> l !! Z.to_nat i = Some (int_gate i).
Proof.
  intros H. unfold cpu_setup_idt. rewrite exec_modify, H.
  destruct (idt_loop_run IDT_ENTRY_COUNT 0 (set_idt (replicate IDT_ENTRY_COUNT 0) s)) as (l & Hr & _ & Hl);
    [lia|reflexivity|].
  exists l. rewrite (bind_ret _ _ _ _ _ Hr). split; [reflexivity|].
  intros i Hi. rewrite Hl, Z2Nat.id by lia. by rewrite decide_True by (unfold IDT_ENTRY_COUNT; lia).
Qed.

Lemma tss_run s :
  length (cpu_tss s) = CPU_COUNT ->
  cpu_setup_tss y s = Ret (tt, load_tr TSS_SEGMENT (set_tss
    (((fun i => init_tss (stack_top y i) zero_tss) <$> [0; 1; 2]) ++ [zero_tss]) s)).
Proof. intros H. unfold cpu_setup_tss. rewrite exec_modify, H. reflexivity. Qed.

(** The three calls of the start-up code. *)
Definition setup_tables : M cpu_tables unit := cpu_setup_gdt y >>> cpu_setup_idt y >>> cpu_setup_tss y.

(** What a selector designates in the table. *)
Definition segment_at (s : cpu_tables) (sel : Z) : option segment :=
  decode_segment <$> cpu_gdt s !! Z.to_nat (sel / 8).

(** A present segment of the most privileged level that covers the whole
    address space. *)
Definition flat (type : Z) (code32 : bool) : segment :=
  mk_segment 0 0xFFFFF type true 0 true false code32 true.

Record tables_ok (s : cpu_tables) : Prop := {
  to_null : cpu_gdt s !! 0%nat = Some 0;
  to_gdtr : gdtr s = Some (8 * Z.of_nat (length (cpu_gdt s)) - 1, addr_gdt y);
  to_idtr : idtr s = Some (8 * 256 - 1, addr_idt y);
  to_code : segment_at s (code_register s) = Some (flat 10 true);
  to_data : segment_at s (data_registers s) = Some (flat 2 true);
  to_code16 : segment_at s KERNEL_CS_16 = Some (flat 10 false);
  to_data16 : segment_at s KERNEL_DS_16 = Some (flat 2 false);
  (* each interrupt runs its handler in the code segment *)
  to_gates i : 0 <= i < 256 -> exists d, cpu_idt s !! Z.to_nat i = Some d /\
    decode_gate d = mk_gate (interrupt_handler y i) (code_register s) 14 0 true;
  (* the task register designates the first task state, which has a stack *)
  to_task : exists g t, segment_at s (task_register s) = Some g /\ cpu_tss s !! 0%nat = Some t /\
    sg_base g = addr_tss y /\ sg_type g = 9 /\ sg_code_data g = false /\ sg_present g = true /\
    esp0 t = stack_top y 0 /\ ss0 t = data_registers s
}.

(** C30: From tables of the right sizes the set-up leaves flat segments, a gate
    to its handler for every interrupt, and a task state with a stack. *)
Theorem setup_tables_correct s :
  length (cpu_gdt s) = GDT_ENTRY_COUNT -> length (cpu_idt s) = IDT_ENTRY_COUNT ->
  length (cpu_tss s) = CPU_COUNT -> 0 <= addr_tss y < 2 ^ 32 ->
  (forall i, 0 <= i < 256 -> 0 <= interrupt_handler y i < 2 ^ 32) ->
  exists s', setup_tables s = Ret (tt, s') /\ tables_ok s'.
Proof.
  intros Hg Hi Ht Ha Hh. unfold setup_tables. rewrite (bind_ret _ _ _ _ _ (gdt_run s Hg)).
  match goal with |- context [load_gdt 79 _ ?s1] => destruct (idt_run (load_gdt 79 (addr_gdt y) s1)) as (l & Hr & Hl) end.
  { done. }
  rewrite (bind_ret _ _ _ _ _ Hr), tss_run by done.
  eexists. split; [reflexivity|]. split; try reflexivity.
  - intros i Hr'. exists (int_gate i). split; [by apply Hl|]. unfold int_gate, get_handler.
    rewrite decide_True by lia. rewrite idt_entry_decodes by auto. reflexivity.
  - eexists _, _. split; [reflexivity|]. split; [reflexivity|].
    unfold tss_descriptor. rewrite gdt_entry_decodes by done. by split_and!.
Qed.
End Setup.

(** ** The task states of the other CPUs *)

Lemma tss_base b : 0 <= b < 2 ^ 32 -> sg_base (decode_segment (tss_descriptor b)) = b.
Proof. intros Hb. unfold tss_descriptor. by rewrite gdt_entry_decodes. Qed.

(** The descriptor of CPU [i] (from the second on) designates the task state
    of the CPU before it: the second shares the first one's, the last task
    state has no descriptor, and no stack either. *)
Lemma tss_shifted y s s' : length (cpu_gdt s) = GDT_ENTRY_COUNT ->
  0 <= addr_tss y -> addr_tss y + 3 * sizeof_tss < 2 ^ 32 ->
  cpu_setup_gdt y s = Ret (tt, s') ->
  sg_base <$> segment_at s' TSS_SEGMENT = Some (addr_tss y) /\
  forall i, 1 <= i < 4 -> sg_base <$> segment_at s' (TSS_SEGMENT + 8 * i) = Some (addr_tss y + (i - 1) * sizeof_tss).
Proof.
  unfold sizeof_tss. intros Hg H0 H1. rewrite (gdt_run y s Hg). intros [_ <-]%Ret_inj. split.
  - transitivity (Some (sg_base (decode_segment (tss_descriptor (addr_tss y))))); [reflexivity|].
    by rewrite tss_base by lia.
  - intros i Hi.
    transitivity (Some (sg_base (decode_segment (tss_descriptor (u32 (addr_tss y + (i - 1) * 104)))))).
    { assert (i = 1 \/ i = 2 \/ i = 3) as [-> | [-> | ->]] by lia; reflexivity. }
    by rewrite u32_small, tss_base by lia.
Qed.

(** The limit of a task state is computed from its address, not from its
    size. *)
Lemma tss_limit_from_address base : 0 <= base < 2 ^ 32 ->
  sg_limit (decode_segment (tss_descriptor base)) = (base + sizeof_tss) mod 2 ^ 20.
Proof.
  intros Hb. unfold tss_descriptor. rewrite gdt_entry_decodes by done. simpl. unfold u32.
  apply Z.bits_inj'. intros n Hn. rewrite !testbit_mod by lia. by bit_cases.
Qed.

Lemma last_tss_unset y s s' : length (cpu_tss s) = CPU_COUNT ->
  cpu_setup_tss y s = Ret (tt, s') -> cpu_tss s' !! 3%nat = Some zero_tss.
Proof. intros Ht. rewrite (tss_run y s Ht). by intros [_ <-]%Ret_inj. Qed.

(** ** The SSE registers *)

(** A thread that uses SSE after another gets the other's registers, which are
    saved in its own area: they are never loaded. *)
Lemma sse_registers_not_restored {R} (s : sse_state R) c p :
  exists s', sse_use_exception_handler c DEVICE_NOT_FOUND_LINE p s = Ret (tt, s') /\
    task_switched s' = false /\ sse_registers s' = sse_registers s /\ sse_save_region s' c = p /\
    saved_areas s' = if decide (sse_save_region s c = p) then saved_areas s
                     else <[fxregs_addr p := sse_registers s]> (saved_areas s).
Proof.
  unfold sse_use_exception_handler. rewrite decide_False by tauto.
  rewrite bind_ret_l, exec_modify, exec_gets.
  change (sse_save_region (clear_task_switched s) c) with (sse_save_region s c).
  destruct (decide (sse_save_region s c = p)) as [He|Hne].
  - rewrite decide_False by tauto. rewrite bind_ret_l, exec_gets.
    rewrite decide_False by (cbn; tauto). eexists. split; [reflexivity|]. by split_and!.
  - destruct (decide (sse_save_region s c <> NULL /\ sse_save_region s c <> p)) as [H|H];
      rewrite ?exec_modify, ?bind_ret_l, exec_gets, decide_True by done;
      rewrite exec_modify; eexists; (split; [reflexivity|]);
      cbn; rewrite decide_True by done; split_and!; try done. by rewrite insert_insert_eq.
Qed.

(** ** Witnesses *)

Definition demo_symbols : cpu_symbols :=
  mk_symbols 0xE0300000 0xE0300100 0xE0301000 0xE0310000 (fun i => 0xE0100000 + 16 * i).
Definition boot_tables : cpu_tables :=
  mk_tables (replicate GDT_ENTRY_COUNT 7) (replicate IDT_ENTRY_COUNT 7) (replicate CPU_COUNT zero_tss)
    None None 0 0 0.

Lemma setup_tables_correct_witness :
  (length (cpu_gdt boot_tables) = GDT_ENTRY_COUNT /\ length (cpu_idt boot_tables) = IDT_ENTRY_COUNT /\
   length (cpu_tss boot_tables) = CPU_COUNT /\ 0 <= addr_tss demo_symbols < 2 ^ 32) /\
  exists s', setup_tables demo_symbols boot_tables = Ret (tt, s') /\ tables_ok demo_symbols s'.
Proof.
  split; [done|]. apply (setup_tables_correct demo_symbols boot_tables); try done.
  intros i Hi. cbn. lia.
Defined.
