(* ===== verification/Ports.v ===== *)
(** * Input and output ports

    The drivers talk to the devices through ports.  A history lists the
    accesses so far, the oldest first; the value a read gives is a function of
    the history and the port, the device, which is a parameter. *)
From S2P Require Import Prelude ByteMem.

Inductive io_event : Type :=
  | Outb (value port : Z)
  | Inb (port value : Z)
  | Outw (value port : Z)
  | Inw (port value : Z).

#[export] Instance io_event_eq_dec : EqDecision io_event.
Proof. solve_decision. Defined.

Definition history : Type := list io_event.

Definition cpu_outb (value port : Z) : M history unit := modify (fun h => h ++ [Outb (u8 value) port]).

Definition cpu_outw (value port : Z) : M history unit := modify (fun h => h ++ [Outw (u16 value) port]).

Section Device.
Context (device : history -> Z -> Z).

Definition cpu_inb (port : Z) : M history Z := fun h =>
  let v := u8 (device h port) in Ret (v, h ++ [Inb port v]).

Definition cpu_inw (port : Z) : M history Z := fun h =>
  let v := u16 (device h port) in Ret (v, h ++ [Inw port v]).

(** The history after [n] reads of a port. *)
Fixpoint reads (n : nat) (port : Z) (h : history) : history :=
  match n with O => h | S n => reads n port (h ++ [Inb port (u8 (device h port))]) end.
End Device.

(** The bytes written to a port. *)
Definition written (port : Z) (h : history) : list Z :=
  omap (fun e => match e with Outb v p => if decide (p = port) then Some v else None | _ => None end) h.

Lemma written_app port h k : written port (h ++ k) = written port h ++ written port k.
Proof. apply omap_app. Qed.

Lemma written_reads dev n p port h : written port (reads dev n p h) = written port h.
Proof.
  revert h. induction n as [|n IH]; intros h; [done|]. cbn [reads]. rewrite IH, written_app. apply app_nil_r.
Qed.

(** ** Memory and devices together *)

Definition world (D : Type) : Type := mem * D.

Definition in_mem {D A} (m : M mem A) : M (world D) A := zoom fst (fun r w => (r, snd w)) m.
Definition in_dev {D A} (m : M D A) : M (world D) A := zoom snd (fun d w => (fst w, d)) m.

Lemma in_mem_run {D A B} (f : M mem A) a m m' (d : D) (k : A -> M (world D) B) :
  f m = Ret (a, m') -> bind (in_mem f) k (m, d) = k a (m', d).
Proof. intros H. unfold bind, in_mem, zoom. simpl. by rewrite H. Qed.

Lemma in_dev_run {D A B} (f : M D A) a m (d d' : D) (k : A -> M (world D) B) :
  f d = Ret (a, d') -> bind (in_dev f) k (m, d) = k a (m, d').
Proof. intros H. unfold bind, in_dev, zoom. simpl. by rewrite H. Qed.

Lemma in_dev_last {D A} (f : M D A) a m (d d' : D) :
  f d = Ret (a, d') -> in_dev f (m, d) = Ret (a, (m, d')).
Proof. intros H. unfold in_dev, zoom. simpl. by rewrite H. Qed.

Lemma load_in_mem {D A} p b m (d : D) (k : Z -> M (world D) A) :
  m !! p = Some b -> bind (in_mem (load p)) k (m, d) = k b (m, d).
Proof. intros H. apply in_mem_run. unfold load. by rewrite H. Qed.
