(* ===== verification/Serial.v ===== *)
(** * The serial port ([arch/x86/serial.c])

    The driver on the history of port accesses.  [polls] bounds how long a
    loop waits for the line: a device that stays busy longer is one the loop
    never leaves. *)
From S2P Require Import Prelude ByteMem LibString Ports.

Definition COM1 : Z := 0x3F8.
Definition COM2 : Z := 0x2F8.
Definition COM3 : Z := 0x3E8.
Definition COM4 : Z := 0x2E8.
Definition SERIAL_DEBUG_PORT : Z := COM1.

Definition SERIAL_DATA_PORT (port : Z) : Z := port.
Definition SERIAL_DATA_PORT_2 (port : Z) : Z := port + 1.
Definition SERIAL_FIFO_COMMAND_PORT (port : Z) : Z := port + 2.
Definition SERIAL_LINE_COMMAND_PORT (port : Z) : Z := port + 3.
Definition SERIAL_MODEM_COMMAND_PORT (port : Z) : Z := port + 4.
Definition SERIAL_LINE_STATUS_PORT (port : Z) : Z := port + 5.

Definition SERIAL_DATA_LENGTH_8 : Z := 3.
Definition SERIAL_STOP_BIT_1 : Z := 0.
Definition SERIAL_DLAB_ENABLED : Z := 0x80.
Definition SERIAL_ENABLE_FIFO : Z := 1.
Definition SERIAL_CLEAR_RECV_FIFO : Z := 2.
Definition SERIAL_CLEAR_SEND_FIFO : Z := 4.
Definition SERIAL_FIFO_DEPTH_14 : Z := 0.
Definition BAUDRATE_9600 : Z := 12.

Record serial : Type := mk_serial {
  serial_init_done : Z;
  serial_ports : history
}.

Definition on_ports {A} (m : M history A) : M serial A :=
  zoom serial_ports (fun h s => mk_serial (serial_init_done s) h) m.

(** ** Initialisation *)

(** The last argument of the three setters is a [uint8_t]. *)
Definition set_line (attr com : Z) : M serial OS_RETURN_E :=
  on_ports (cpu_outb attr (SERIAL_LINE_COMMAND_PORT (u8 com))) >>> ret OS_NO_ERR.

Definition set_buffer (attr com : Z) : M serial OS_RETURN_E :=
  on_ports (cpu_outb attr (SERIAL_FIFO_COMMAND_PORT (u8 com))) >>> ret OS_NO_ERR.

Definition set_baudrate (rate com : Z) : M serial OS_RETURN_E :=
  on_ports (cpu_outb SERIAL_DLAB_ENABLED (SERIAL_LINE_COMMAND_PORT (u8 com))) >>>
  on_ports (cpu_outb (Z.land (Z.shiftr rate 8) 0xFF) (SERIAL_DATA_PORT (u8 com))) >>>
  on_ports (cpu_outb (Z.land rate 0xFF) (SERIAL_DATA_PORT_2 (u8 com))) >>>
  ret OS_NO_ERR.

(** The body of the loop of [serial_init] for the port [com]. *)
Definition init_port (com : Z) : M serial OS_RETURN_E :=
  let attr := Z.lor SERIAL_DATA_LENGTH_8 SERIAL_STOP_BIT_1 in
  (if decide (com = COM1 \/ com = COM2)
   then on_ports (cpu_outb 1 (SERIAL_DATA_PORT_2 com))
   else on_ports (cpu_outb 0 (SERIAL_DATA_PORT_2 com))) >>>
  let* err := set_baudrate BAUDRATE_9600 com in
  if decide (err <> OS_NO_ERR) then ret err
  else
    let* err := set_line attr com in
    if decide (err <> OS_NO_ERR) then ret err
    else
      let* err := set_buffer (Z.lor (Z.lor (Z.lor (Z.lor 0xC0 SERIAL_ENABLE_FIFO) SERIAL_CLEAR_RECV_FIFO)
                                SERIAL_CLEAR_SEND_FIFO) SERIAL_FIFO_DEPTH_14) com in
      if decide (err <> OS_NO_ERR) then ret err
      else on_ports (cpu_outb 0x0B (SERIAL_MODEM_COMMAND_PORT com)) >>> ret err.

Fixpoint init_ports (coms : list Z) (err : OS_RETURN_E) : M serial OS_RETURN_E :=
  match coms with
  | [] => modify (fun s => mk_serial 1 (serial_ports s)) >>> ret err
  | com :: coms =>
      let* err := init_port com in
      if decide (err <> OS_NO_ERR) then ret err else init_ports coms err
  end.

Definition serial_init : M serial OS_RETURN_E := init_ports [COM1; COM2; COM3; COM4] OS_NO_ERR.

Section Driver.
Context (device : history -> Z -> Z) (polls : nat).

(** [while((cpu_inb(SERIAL_LINE_STATUS_PORT(port)) & 0x20) == 0) {}] *)
Fixpoint wait_line (fuel : nat) (port : Z) : M history unit :=
  match fuel with
  | O => diverge
  | S fuel =>
    let* v := cpu_inb device (SERIAL_LINE_STATUS_PORT port) in
    if decide (Z.land v 0x20 = 0) then wait_line fuel port else ret tt
  end.

(** The function, with its recursive call as an argument. *)
Definition serial_write_body (rec : Z -> Z -> M serial unit) (port data : Z) : M serial unit :=
  let* init_done := gets serial_init_done in
  if decide (init_done = 0) then ret tt
  else if decide (port <> COM1 /\ port <> COM2 /\ port <> COM3 /\ port <> COM4) then ret tt
  else
    on_ports (wait_line polls port) >>>
    (if decide (data = 10) then rec port 13 >>> on_ports (cpu_outb 10 port)
     else on_ports (cpu_outb data port)) >>>
    on_ports (wait_line polls port).

(** The recursive call has the carriage return as data: it makes none. *)
Definition serial_write : Z -> Z -> M serial unit :=
  serial_write_body (serial_write_body (fun _ _ => diverge)).

Fixpoint line_feeds (n : nat) : M serial unit :=
  match n with O => ret tt | S n => serial_write SERIAL_DEBUG_PORT 10 >>> line_feeds n end.

Definition serial_clear_screen : M serial unit := line_feeds 25.

(** [down] is [direction == SCROLL_DOWN]. *)
Definition serial_scroll (down : bool) (lines_count : Z) : M serial unit :=
  if down then line_feeds (Z.to_nat lines_count) else ret tt.

Definition serial_put_cursor_at (line column : Z) : M serial OS_RETURN_E := ret OS_ERR_NOT_SUPPORTED.
Definition serial_save_cursor : M serial OS_RETURN_E := ret OS_ERR_NOT_SUPPORTED.
Definition serial_restore_cursor : M serial OS_RETURN_E := ret OS_ERR_NOT_SUPPORTED.
Definition serial_save_color_scheme : M serial OS_RETURN_E := ret OS_ERR_NOT_SUPPORTED.

(** *** Strings *)

(** The length is computed again at each turn. *)
Fixpoint put_string_loop (fuel : nat) (string i : Z) : M (world serial) unit :=
  match fuel with
  | O => diverge
  | S fuel =>
    let* n := in_mem (strlen string) in
    if decide (i < n) then
      let* c := in_mem (load (string + i)) in
      in_dev (serial_write SERIAL_DEBUG_PORT c) >>>
      put_string_loop fuel string (i + 1)
    else ret tt
  end.

Definition serial_put_string (string : Z) : M (world serial) unit :=
  let* fuel := in_mem (gets mem_fuel) in put_string_loop fuel string 0.

Definition serial_put_char (character : Z) : M (world serial) unit :=
  in_dev (serial_write SERIAL_DEBUG_PORT character).

Fixpoint write_keyboard_loop (len : nat) (str i : Z) : M (world serial) unit :=
  match len with
  | O => ret tt
  | S len =>
    let* c := in_mem (load (str + i)) in
    in_dev (serial_write SERIAL_DEBUG_PORT c) >>> write_keyboard_loop len str (i + 1)
  end.

Definition serial_console_write_keyboard (str len : Z) : M (world serial) unit :=
  write_keyboard_loop (Z.to_nat len) str 0.

(** *** Input *)

Definition serial_received (port : Z) : M serial Z :=
  let* v := on_ports (cpu_inb device (SERIAL_LINE_STATUS_PORT port)) in ret (Z.land v 1).

Fixpoint wait_received (fuel : nat) (port : Z) : M serial unit :=
  match fuel with
  | O => diverge
  | S fuel => let* r := serial_received port in if decide (r = 0) then wait_received fuel port else ret tt
  end.

Definition serial_read (port : Z) : M serial Z :=
  wait_received polls port >>> on_ports (cpu_inb device (SERIAL_DATA_PORT port)).
End Driver.
