(* ===== verification/KernelOutput.v ===== *)
(** * Formatted output ([io/kernel_output.c])

    The formatter and the functions on top of it.  An output is a pair of
    functions, as [output_t]; a device has a state of its own, apart from the
    memory that holds the strings.  The arguments that follow the format are
    the list of the 32-bit words of the stack; the address of the local buffer
    [tmp_seq] is an argument. *)
From S2P Require Import Prelude LibDiv LibDivTheorems ByteMem LibNum LibString Ports.

(** ** [output_t] *)

Section Output.
Context {D : Type}.

Record output_t : Type := mk_output {
  putc : Z -> M (world D) unit;
  puts : Z -> M (world D) unit
}.

(** ** [toupper] and [tolower] *)

Definition upper (c : Z) : Z := if decide (c > 96 /\ c < 123) then c - 32 else c.
Definition lower (c : Z) : Z := if decide (c > 64 /\ c < 91) then c + 32 else c.

(** A byte is written only when it changes. *)
Fixpoint case_loop (fuel : nat) (change : Z -> Z) (string : Z) : M mem unit :=
  match fuel with
  | O => diverge
  | S fuel =>
    let* c := load string in
    if decide (c <> 0) then
      (if decide (change c <> c) then store string (change c) else ret tt) >>>
      case_loop fuel change (string + 1)
    else ret tt
  end.

Definition toupper (string : Z) : M mem unit := with_fuel (fun fuel => case_loop fuel upper string).
Definition tolower (string : Z) : M mem unit := with_fuel (fun fuel => case_loop fuel lower string).

(** ** [formater] *)

(** The variables of the loop; [va] is the rest of the arguments. *)
Record fmt : Type := mk_fmt {
  modifier : bool;
  length_mod : Z;
  padding_mod : Z;
  upper_mod : bool;
  pad_char_mod : Z;
  va : list Z
}.

Definition fresh_fmt (args : list Z) : fmt := mk_fmt false 4 0 false 32 args.

Definition set_modifier (v : bool) (f : fmt) : fmt :=
  mk_fmt v (length_mod f) (padding_mod f) (upper_mod f) (pad_char_mod f) (va f).
Definition set_length_mod (v : Z) (f : fmt) : fmt :=
  mk_fmt (modifier f) v (padding_mod f) (upper_mod f) (pad_char_mod f) (va f).
Definition set_padding_mod (v : Z) (f : fmt) : fmt :=
  mk_fmt (modifier f) (length_mod f) v (upper_mod f) (pad_char_mod f) (va f).
Definition set_upper_mod (v : bool) (f : fmt) : fmt :=
  mk_fmt (modifier f) (length_mod f) (padding_mod f) v (pad_char_mod f) (va f).
Definition set_pad_char_mod (v : Z) (f : fmt) : fmt :=
  mk_fmt (modifier f) (length_mod f) (padding_mod f) (upper_mod f) v (va f).
Definition set_va (v : list Z) (f : fmt) : fmt :=
  mk_fmt (modifier f) (length_mod f) (padding_mod f) (upper_mod f) (pad_char_mod f) v.

(** [__builtin_va_arg] on the words: reading past the arguments is
    undefined. *)
Definition va_word (args : list Z) : M (world D) (Z * list Z) :=
  match args with w :: args => ret (w, args) | [] => fault end.

Definition va_quad (args : list Z) : M (world D) (Z * list Z) :=
  let* (l, args) := va_word args in
  let* (h, args) := va_word args in
  ret (l + 2 ^ 32 * h, args).

(** [GET_SEQ_VAL] *)
Definition get_seq_val (length_mod : Z) (args : list Z) : M (world D) (Z * list Z) :=
  let length_mod := if decide (length_mod > 8) then 8 else length_mod in
  if decide (length_mod = 1) then let* (w, args) := va_word args in ret (Z.land w 0xFF, args)
  else if decide (length_mod = 2) then let* (w, args) := va_word args in ret (Z.land w 0xFFFF, args)
  else if decide (length_mod = 4) then va_word args
  else if decide (length_mod = 8) then va_quad args
  else va_word args.

(** The [while] loop of [PAD_SEQ]: a byte counts at most 255 turns. *)
Fixpoint pad_loop (fuel : nat) (out : output_t) (c padding str_size : Z) : M (world D) unit :=
  match fuel with
  | O => diverge
  | S fuel =>
    if decide (padding > str_size) then
      putc out c >>> pad_loop fuel out c (u8 (padding - 1)) str_size
    else ret tt
  end.

Section Format.
Context (tmp_seq : Z) (current_output used_output : output_t).

Definition pad_seq (f : fmt) : M (world D) unit :=
  let* str_size := in_mem (strlen tmp_seq) in
  pad_loop 256 used_output (pad_char_mod f) (padding_mod f) str_size.

(** What the number conversions share; [size_t] keeps 32 bits of the value. *)
Definition number (conv : Z -> M mem unit) (change : M mem unit) (f : fmt) : M (world D) (list Z) :=
  let* (v, args) := get_seq_val (length_mod f) (va f) in
  let seq_val := u32 v in
  in_mem (memset tmp_seq 0 128) >>>
  in_mem (conv seq_val) >>>
  pad_seq f >>>
  in_mem change >>>
  puts used_output tmp_seq >>>
  ret args.

Definition change_case (f : fmt) : M mem unit := if upper_mod f then toupper tmp_seq else tolower tmp_seq.

Definition hex_number (f : fmt) : M (world D) (list Z) :=
  number (fun v => uitoa v tmp_seq 16) (change_case f) f.

Definition pointer (f : fmt) : M (world D) (list Z) :=
  hex_number (set_length_mod 4 (set_pad_char_mod 48 (set_padding_mod 8 f))).

(** [padding_mod = padding_mod * 10 + d;] *)
Definition more_padding (d : Z) (f : fmt) : fmt := set_padding_mod (u8 (padding_mod f * 10 + d)) f.

(** The [switch]: [inl] when it continues the loop, [inr] with the arguments
    left when it breaks. *)
Definition directive (c : Z) (f : fmt) : M (world D) (fmt + list Z) :=
  if decide (c = 104) then ret (inl (set_length_mod (length_mod f / 2) f))
  else if decide (c = 108) then ret (inl (set_length_mod (u8 (length_mod f * 2)) f))
  else if decide (c = 115) then
    let* (args_value, args) := va_word (va f) in
    puts current_output args_value >>> ret (inr args)
  else if decide (c = 100 \/ c = 105) then
    let* args := number (fun v => itoa v tmp_seq 10) (ret tt) f in ret (inr args)
  else if decide (c = 117) then
    let* args := number (fun v => uitoa v tmp_seq 10) (ret tt) f in ret (inr args)
  else if decide (c = 88) then let* args := hex_number (set_upper_mod true f) in ret (inr args)
  else if decide (c = 120) then let* args := hex_number f in ret (inr args)
  else if decide (c = 80) then let* args := pointer (set_upper_mod true f) in ret (inr args)
  else if decide (c = 112) then let* args := pointer f in ret (inr args)
  else if decide (c = 99) then
    let* (v, args) := get_seq_val 1 (va f) in
    in_mem (store tmp_seq v) >>>
    let* b := in_mem (load tmp_seq) in
    putc used_output b >>> ret (inr args)
  else if decide (c = 48) then
    ret (inl (if decide (padding_mod f = 0) then set_pad_char_mod 48 f else more_padding 0 f))
  else if decide (49 <= c <= 57) then ret (inl (more_padding (c - 48) f))
  else ret (inl f).

(** One turn of the [for] loop. *)
Definition format_char (c : Z) (f : fmt) : M (world D) fmt :=
  if decide (c = 37) then
    let f := set_modifier (negb (modifier f)) f in
    if modifier f then ret f
    else putc used_output c >>> ret (fresh_fmt (va f))
  else if modifier f then
    let* r := directive c f in
    match r with inl f => ret f | inr args => ret (fresh_fmt args) end
  else putc used_output c >>> ret (fresh_fmt (va f)).

(** [n] turns are left, from [pos] on. *)
Fixpoint format_loop (n : nat) (str pos : Z) (f : fmt) : M (world D) unit :=
  match n with
  | O => ret tt
  | S n =>
    let* c := in_mem (load (str + pos)) in
    let* f := format_char c f in
    format_loop n str (pos + 1) f
  end.

Definition formater (str : Z) (args : list Z) : M (world D) unit :=
  let* str_length := in_mem (strlen str) in
  format_loop (Z.to_nat str_length) str 0 (fresh_fmt args).
End Format.
End Output.
Arguments output_t D : clear implicits.
Arguments mk_output {D}.
