(* ===== verification/KernelOutputTheorems.v ===== *)
(** * Formatted output: properties

    What the formatter sends to its output for a format made of literal
    characters and conversions. *)
From S2P Require Import Prelude LibDiv LibDivTheorems ByteMem LibNum LibNumTheorems LibString.
From S2P Require Import LibStringTheorems Ports KernelOutput.

(** ** Outputs *)

(** What an output promises: once its device is [ok], a character sends [tr]
    of it, a string its characters in order, and [emitted] lists what was
    sent. *)
Record channel (D : Type) : Type := mk_channel {
  ch_ok : D -> Prop;
  ch_tr : Z -> list Z;
  ch_emitted : D -> list Z
}.
Arguments mk_channel {D}.
Arguments ch_ok {D}.
Arguments ch_tr {D}.
Arguments ch_emitted {D}.

(** The text [l] has gone through the channel. *)
Definition sent {D} (ch : channel D) (d : D) (l : list Z) (d' : D) : Prop :=
  ch_ok ch d' /\ ch_emitted ch d' = ch_emitted ch d ++ (l ≫= ch_tr ch).

Class Emits {D : Type} (o : output_t D) (ch : channel D) : Prop := {
  putc_emits c m d : 0 < c < 256 -> ch_ok ch d ->
    exists d', putc o c (m, d) = Ret (tt, (m, d')) /\ sent ch d [c] d';
  puts_emits p l m d : cstr m p l -> ch_ok ch d ->
    exists d', puts o p (m, d) = Ret (tt, (m, d')) /\ sent ch d l d'
}.

Lemma sent_nil {D} (ch : channel D) d : ch_ok ch d -> sent ch d [] d.
Proof. intros H. split; [done|]. by rewrite app_nil_r. Qed.

Lemma sent_app {D} (ch : channel D) d l d1 k d2 : sent ch d l d1 -> sent ch d1 k d2 -> sent ch d (l ++ k) d2.
Proof. intros [_ E1] [H2 E2]. split; [done|]. by rewrite E2, E1, bind_app, app_assoc. Qed.

Lemma sent_ok {D} (ch : channel D) d l d' : sent ch d l d' -> ch_ok ch d'.
Proof. by intros []. Qed.

(** ** Formats *)

Inductive length_char : Type := Short | Long.

Inductive conversion : Type := Decimal | Unsigned | Hexa (up : bool).

Inductive item : Type :=
  | Lit (c : Z)
  | Percent
  | Str
  | Chr
  | Ptr (up : bool)
  | Num (zero : bool) (width : list Z) (lengths : list length_char) (conv : conversion).

Definition length_text (x : length_char) : Z := match x with Short => 104 | Long => 108 end.
Definition conv_text (c : conversion) : Z :=
  match c with Decimal => 100 | Unsigned => 117 | Hexa true => 88 | Hexa false => 120 end.

(** The characters of an item in the format. *)
Definition item_text (i : item) : list Z :=
  match i with
  | Lit c => [c]
  | Percent => [37; 37]
  | Str => [37; 115]
  | Chr => [37; 99]
  | Ptr true => [37; 80]
  | Ptr false => [37; 112]
  | Num zero width lengths conv =>
      37 :: (if zero then [48] else []) ++ (Z.add 48 <$> width) ++ (length_text <$> lengths) ++ [conv_text conv]
  end.

Definition format_text (items : list item) : list Z := items ≫= item_text.

(** The width a list of decimal digits stands for. *)
Definition width_val (w : list Z) : Z := foldl (fun a d => a * 10 + d) 0 w.

(** Bytes of the argument: 4, halved by each h and doubled by each l. *)
Definition length_val (ls : list length_char) : Z :=
  foldl (fun a x => match x with Short => a / 2 | Long => u8 (a * 2) end) 4 ls.

Definition item_ok (i : item) : Prop :=
  match i with
  | Lit c => 0 < c < 256 /\ c <> 37
  | Num _ width lengths _ =>
      Forall (fun d => 0 <= d < 10) width /\ (forall d w, width = d :: w -> 1 <= d) /\ width_val width < 256
  | _ => True
  end.

(** The value of a conversion and the arguments left: the low bytes of the
    first word; a value of eight bytes takes two words and keeps the low
    one. *)
Definition take_value (len : Z) (args : list Z) : option (Z * list Z) :=
  match args with
  | [] => None
  | w :: args =>
      if decide (len >= 8) then match args with [] => None | _ :: args => Some (w, args) end
      else Some (if decide (len = 1) then w mod 2 ^ 8 else if decide (len = 2) then w mod 2 ^ 16 else w, args)
  end.

(** [l] is the text of [v] in a base. *)
Definition shows (base v : Z) (l : list Z) : Prop := is_numeral base l /\ parse base l = v.

Definition pad_text (c width : Z) (l : list Z) : list Z :=
  replicate (Z.to_nat (width - Z.of_nat (length l))) c ++ l.

Definition conv_shows (c : conversion) (v : Z) (txt : list Z) : Prop :=
  match c with
  | Decimal | Unsigned => shows 10 v txt
  | Hexa up => exists l, shows 16 v l /\ txt = (if up then upper else lower) <$> l
  end.

(** The text of an item for some arguments, and the arguments left. *)
Inductive item_shows (m : mem) (tmp : Z) : item -> list Z -> list Z -> list Z -> Prop :=
  | show_lit c args : item_shows m tmp (Lit c) args [c] args
  | show_percent args : item_shows m tmp Percent args [37] args
  | show_str p args l : cstr m p l -> apart tmp 128 p (S (length l)) -> item_shows m tmp Str (p :: args) l args
  | show_chr w args : 0 < w mod 2 ^ 8 -> item_shows m tmp Chr (w :: args) [w mod 2 ^ 8] args
  | show_ptr up w args txt : conv_shows (Hexa up) w txt ->
      item_shows m tmp (Ptr up) (w :: args) (pad_text 48 8 txt) args
  | show_num (zero : bool) width ls c args v args' txt :
      take_value (length_val ls) args = Some (v, args') -> conv_shows c v txt ->
      item_shows m tmp (Num zero width ls c) args
        (pad_text (if zero then 48 else 32) (width_val width) txt) args'.

Inductive format_shows (m : mem) (tmp : Z) : list item -> list Z -> list Z -> Prop :=
  | shows_end args : format_shows m tmp [] args []
  | shows_item i items args out args' rest :
      item_shows m tmp i args out args' -> format_shows m tmp items args' rest ->
      format_shows m tmp (i :: items) args (out ++ rest).

(** ** Execution *)

Section Run.
Context {D : Type} (used cur : output_t D) (ch : channel D) (tmp : Z).
Context `{!Emits used ch} `{!Emits cur ch}.
Implicit Types (m : mem) (d : D).

(** The local buffer is the only memory that changes. *)
Record scratch (m m' : mem) : Prop := {
  sc_mapped : mapped m' tmp 128;
  sc_others k : ~ (tmp <= k < tmp + 128) -> m' !! k = m !! k
}.

Lemma scratch_refl m : mapped m tmp 128 -> scratch m m.
Proof. by split. Qed.

Lemma scratch_trans m1 m2 m3 : scratch m1 m2 -> scratch m2 m3 -> scratch m1 m3.
Proof. intros [_ H1] [H2 H3]. split; [done|]. intros k Hk. by rewrite H3, H1. Qed.

Lemma scratch_put m p' : mapped m tmp 128 -> (length p' <= 128)%nat -> scratch m (put m tmp p').
Proof.
  intros Hm Hp. split; [by apply put_mapped|]. intros k Hk. apply put_lookup_ne. lia.
Qed.

Lemma scratch_bytes m m' p l : scratch m m' -> apart tmp 128 p (length l) -> bytes_at m p l -> bytes_at m' p l.
Proof.
  intros [_ H] Ha Hb i x Hi. rewrite H; [by apply Hb|]. apply lookup_lt_Some in Hi. unfold apart in Ha. lia.
Qed.

Lemma scratch_cstr m m' p l : scratch m m' -> apart tmp 128 p (S (length l)) -> cstr m p l -> cstr m' p l.
Proof.
  intros Hs Ha [Hb Hc]. split; [|done]. eapply scratch_bytes; [done|by rewrite length_app, Nat.add_1_r|done].
Qed.

Lemma pad_loop_run fuel c : forall padding n m d,
  0 < c < 256 -> 0 <= padding < 256 -> 0 <= n -> (Z.to_nat padding < fuel)%nat -> ch_ok ch d ->
  exists d', pad_loop fuel used c padding n (m, d) = Ret (tt, (m, d')) /\
    sent ch d (replicate (Z.to_nat (padding - n)) c) d'.
Proof.
  induction fuel as [|fuel IH]; intros padding n m d Hc Hp Hn Hf Hk; [lia|]. cbn [pad_loop].
  case_decide.
  - destruct (putc_emits (o := used) c m d Hc Hk) as (d1 & H1 & E1).
    rewrite (bind_ret _ _ _ _ _ H1). assert (u8 (padding - 1) = padding - 1) as -> by (apply Z.mod_small; lia).
    destruct (IH (padding - 1) n m d1) as (d2 & H2 & E2); [done|lia..|by eapply sent_ok|]. exists d2.
    split; [done|]. replace (Z.to_nat (padding - n)) with (S (Z.to_nat (padding - 1 - n))) by lia.
    by apply (sent_app ch d [c] d1).
  - exists d. split; [done|]. replace (Z.to_nat (padding - n)) with 0%nat by lia. by apply sent_nil.
Qed.

Lemma case_loop_run f fuel : forall m s l,
  (f = upper \/ f = lower) -> cstr m s l -> (length l < fuel)%nat ->
  case_loop fuel f s m = Ret (tt, put m s (f <$> l)).
Proof.
  induction fuel as [|fuel IH]; intros m s l Hf Hl Hfu; [lia|]. cbn [case_loop].
  destruct l as [|c l].
  { apply cstr_nil in Hl. rewrite (load_run _ _ _ _ Hl). done. }
  apply cstr_cons in Hl as (Hc & Hr & Hl). rewrite (load_run _ _ _ _ Hc), decide_True by lia.
  assert (0 <= f c < 256) as Hfc by (destruct Hf as [-> | ->]; unfold upper, lower; case_decide; lia).
  cbn [fmap list_fmap put length] in *. case_decide as Hch.
  - rewrite store_run by (done || by eexists). apply IH; [done| |lia].
    eapply (cstr_put_apart m s [f c]); [|done]. unfold apart. simpl. lia.
  - assert (f c = c) as -> by lia. rewrite bind_ret_l, insert_id by done. apply IH; [done..|lia].
Qed.

(** A string written by a conversion, then changed in place. *)
Lemma shown_string base v l : base <= 16 -> shows base v l -> is_string l.
Proof.
  intros Hb [[Hd _] _]. eapply Forall_impl; [exact Hd|]. intros c Hc%is_digit_range; lia.
Qed.

Lemma case_string f l : (f = upper \/ f = lower) -> is_string l -> is_string (f <$> l).
Proof.
  intros Hf Hl. apply Forall_fmap. eapply Forall_impl; [exact Hl|]. intros c Hc. simpl in *.
  destruct Hf as [-> | ->]; unfold upper, lower; case_decide; lia.
Qed.

(** What [number] needs of its two arguments, for a text [l] that becomes [txt]. *)
Definition converts (conv : Z -> M mem unit) (change : M mem unit) (v : Z) (txt : list Z) : Prop :=
  forall m, mapped m tmp 128 -> exists l, conv v m = Ret (tt, put m tmp (l ++ [0])) /\
    is_string l /\ is_string txt /\ length l = length txt /\ (length txt < 128)%nat /\
    forall m', cstr m' tmp l -> change m' = Ret (tt, put m' tmp txt).

Lemma number_run conv change f v w args' txt m d :
  mapped m tmp 128 -> ch_ok ch d -> 0 <= padding_mod f < 256 -> 0 < pad_char_mod f < 256 ->
  (forall s, get_seq_val (D := D) (length_mod f) (va f) s = Ret ((w, args'), s)) -> u32 w = v ->
  converts conv change v txt ->
  exists m' d', number tmp used conv change f (m, d) = Ret (args', (m', d')) /\ scratch m m' /\
    sent ch d (pad_text (pad_char_mod f) (padding_mod f) txt) d'.
Proof.
  intros Hm Hk Hp Hc Hg Hw Hconv. unfold number. rewrite (bind_ret _ _ _ _ _ (Hg _)), Hw.
  assert (scratch m (put m tmp (replicate 128 0))) as S1 by (by apply scratch_put).
  rewrite (in_mem_run _ _ _ _ _ _ (memset_run tmp 0 128 m Hm ltac:(lia))).
  set (m1 := put m tmp (replicate 128 0)) in *.
  destruct (Hconv m1 (sc_mapped _ _ S1)) as (l & Hcv & Hl & Htxt & Hll & Hlen & Hch).
  rewrite (in_mem_run _ _ _ _ _ _ Hcv). set (m2 := put m1 tmp (l ++ [0])) in *.
  assert (cstr m2 tmp l) as Hl2 by (by apply cstr_put).
  assert (scratch m m2) as S2.
  { eapply scratch_trans; [exact S1|]. apply scratch_put; [apply S1|]. rewrite length_app. simpl. lia. }
  unfold pad_seq. rewrite !bind_assoc, (in_mem_run _ _ _ _ _ _ (strlen_ret _ _ _ Hl2)).
  destruct (pad_loop_run 256 (pad_char_mod f) (padding_mod f) (Z.of_nat (length l)) m2 d) as (d1 & H1 & E1);
    [done..|lia|lia|done|].
  rewrite (bind_ret _ _ _ _ _ H1). rewrite (in_mem_run _ _ _ _ _ _ (Hch _ Hl2)).
  set (m3 := put m2 tmp txt).
  assert (cstr m3 tmp txt) as Hl3.
  { split; [|done]. apply bytes_at_app. split; [apply bytes_at_put|]. rewrite <- Hll.
    apply bytes_at_put_apart; [unfold apart; rewrite Hll; simpl; lia|].
    apply cs_bytes in Hl2. by apply bytes_at_app in Hl2 as [_ ?]. }
  destruct (puts_emits (o := used) tmp txt m3 d1 Hl3 (sent_ok _ _ _ _ E1)) as (d2 & H2 & E2).
  rewrite (bind_ret _ _ _ _ _ H2). exists m3, d2. split; [done|]. split.
  { eapply scratch_trans; [exact S2|]. apply scratch_put; [apply S2|lia]. }
  unfold pad_text. rewrite <- Hll. by eapply sent_app.
Qed.

Lemma uitoa_converts base v txt change f :
  2 <= base <= 16 -> 0 <= v < 2 ^ 32 -> shows base v txt ->
  is_string (f <$> txt) -> (forall m, cstr m tmp txt -> change m = Ret (tt, put m tmp (f <$> txt))) ->
  converts (fun v => uitoa v tmp base) change v (f <$> txt).
Proof.
  intros Hb Hv [Hn Hp] Hf Hc m Hm.
  assert (v < base ^ Z.of_nat 33) as Hbig.
  { apply Z.lt_le_trans with (2 ^ Z.of_nat 33); [lia|]. apply Z.pow_le_mono_l. lia. }
  destruct (uitoa_run v tmp base 33 m Hb ltac:(lia) Hbig ltac:(lia)) as (l & Hr & Hl & Hpl & Hlen).
  { eapply mapped_le; [exact Hm|lia]. }
  assert (l = txt) as -> by (apply (numeral_unique base); [done..|by rewrite Hpl, Hp]).
  exists txt. rewrite length_fmap. split_and!; try done; [|lia]. by apply (shown_string base v); [lia|].
Qed.

Lemma put_same m p l : bytes_at m p l -> put m p l = m.
Proof.
  revert p. induction l as [|x l IH]; intros p; [done|]. intros [Hx Hl]%bytes_at_cons. cbn [put].
  rewrite insert_id by done. by apply IH.
Qed.

Lemma plain_converts base v txt :
  2 <= base <= 16 -> 0 <= v < 2 ^ 32 -> shows base v txt ->
  converts (fun v => uitoa v tmp base) (ret tt) v txt.
Proof.
  intros Hb Hv Hs. rewrite <- (list_fmap_id txt). apply (uitoa_converts base v txt (ret tt) id); try done.
  - rewrite list_fmap_id. apply (shown_string base v); [lia|done].
  - intros m [Hm _]. rewrite list_fmap_id. apply bytes_at_app in Hm as [Hm _]. by rewrite put_same.
Qed.

Lemma itoa_converts v txt :
  0 <= v < 2 ^ 32 -> shows 10 v txt -> converts (fun v => itoa v tmp 10) (ret tt) v txt.
Proof.
  intros Hv Hs m Hm. destruct (plain_converts 10 v txt ltac:(lia) Hv Hs m Hm) as (l & Hr & Hl).
  exists l. split; [|done]. unfold itoa. rewrite !decide_False by lia. by rewrite u64_small by lia.
Qed.

Lemma hex_converts f v txt :
  0 <= v < 2 ^ 32 -> conv_shows (Hexa (upper_mod f)) v txt ->
  converts (fun v => uitoa v tmp 16) (change_case tmp f) v txt.
Proof.
  intros Hv (l & Hl & ->). unfold change_case.
  assert (forall g, (g = upper \/ g = lower) -> forall m, cstr m tmp l ->
    with_fuel (fun fuel => case_loop fuel g tmp) m = Ret (tt, put m tmp (g <$> l))) as Hg.
  { intros g Hg m Hm. unfold with_fuel. rewrite exec_gets. apply case_loop_run; [done..|].
    apply cstr_fuel in Hm. lia. }
  destruct (upper_mod f); (apply uitoa_converts; [lia|done..| |]);
    try (apply case_string; [auto|by apply (shown_string 16 v)]); apply Hg; auto.
Qed.

(** ** Arguments *)

Definition is_word (w : Z) : Prop := 0 <= w < 2 ^ 32.

Lemma get_seq_val_run len args v args' :
  Forall is_word args -> take_value len args = Some (v, args') ->
  exists w, (forall s, get_seq_val (D := D) len args s = Ret ((w, args'), s)) /\ u32 w = v /\
    is_word v /\ Forall is_word args'.
Proof.
  intros Ha Hv. destruct args as [|x args]; [done|]. apply Forall_cons in Ha as [Hx Ha]. simpl in Hv.
  unfold get_seq_val. case_decide as H8.
  - destruct args as [|y args]; [done|]. injection Hv as <- <-. apply Forall_cons in Ha as [_ Ha].
    exists (x + 2 ^ 32 * y). split_and!; try done.
    + intros s. destruct (decide (len > 8)); [done|]. by assert (len = 8) as -> by lia.
    + unfold u32. rewrite Z.mul_comm, Z_mod_plus_full. by apply Z.mod_small.
  - rewrite (decide_False (P := len > 8)) by lia. injection Hv as <- <-.
    assert (forall k, 0 <= k <= 32 -> is_word (x mod 2 ^ k)) as Hw.
    { intros k Hk. unfold is_word. pose proof (Z.mod_pos_bound x (2 ^ k) ltac:(lia)).
      pose proof (Z.pow_le_mono_r 2 k 32). lia. }
    rewrite (decide_False (P := len = 8)) by lia.
    repeat (case_decide; [eexists; split; [intros s; reflexivity|]; split_and!; try done|]).
    + change 0xFF with (Z.ones 8). rewrite Z.land_ones by lia. by apply u32_small, (Hw 8).
    + by apply (Hw 8).
    + change 0xFFFF with (Z.ones 16). rewrite Z.land_ones by lia. by apply u32_small, (Hw 16).
    + by apply (Hw 16).
    + by apply u32_small.
    + eexists. split; [intros s; reflexivity|]. split_and!; try done. by apply u32_small.
Qed.

(** ** The loop *)

Definition run_loop (n : nat) (str pos : Z) (f : fmt) : M (world D) unit :=
  format_loop tmp cur used n str pos f.

Lemma format_step n str pos f c m d f' s' :
  m !! (str + pos) = Some c -> format_char tmp cur used c f (m, d) = Ret (f', s') ->
  run_loop (S n) str pos f (m, d) = run_loop n str (pos + 1) f' s'.
Proof.
  intros Hc Hf. unfold run_loop. cbn [format_loop]. rewrite (load_in_mem _ _ _ _ _ Hc).
  by rewrite (bind_ret _ _ _ _ _ Hf).
Qed.

(** The characters of a directive before its last one change the variables of
    the loop only. *)
Definition mod_step (f : fmt) (c : Z) : fmt :=
  if decide (c = 104) then set_length_mod (length_mod f / 2) f
  else if decide (c = 108) then set_length_mod (u8 (length_mod f * 2)) f
  else if decide (c = 48 /\ padding_mod f = 0) then set_pad_char_mod 48 f
  else more_padding (c - 48) f.

Definition is_mod (c : Z) : Prop := c = 104 \/ c = 108 \/ 48 <= c <= 57.

Lemma mods_run cs : forall n str pos f m d,
  bytes_at m (str + pos) cs -> Forall is_mod cs -> modifier f = true ->
  run_loop (length cs + n) str pos f (m, d) =
    run_loop n str (pos + Z.of_nat (length cs)) (foldl mod_step f cs) (m, d).
Proof.
  induction cs as [|c cs IH]; intros n str pos f m d Hb Hm Hf; [by rewrite Z.add_0_r|].
  apply bytes_at_cons in Hb as [Hc Hb]. apply Forall_cons in Hm as [Hcm Hm].
  assert (format_char tmp cur used c f (m, d) = Ret (mod_step f c, (m, d))) as Hs.
  { unfold is_mod in Hcm. unfold format_char. rewrite decide_False, Hf by lia. unfold directive, mod_step.
    destruct (decide (c = 104)); [done|]. destruct (decide (c = 108)); [done|].
    repeat (rewrite decide_False by lia). destruct (decide (c = 48)) as [->|].
    - destruct (decide (padding_mod f = 0)); [by rewrite decide_True by done|by rewrite decide_False by tauto].
    - rewrite decide_True by lia. by rewrite (decide_False (P := c = 48 /\ _)) by tauto. }
  cbn [length plus foldl]. rewrite (format_step _ _ _ _ _ _ _ _ _ Hc Hs). rewrite IH.
  - f_equal. lia.
  - by rewrite <- Z.add_assoc in Hb.
  - done.
  - unfold mod_step. by repeat case_decide.
Qed.

(** What the variables become. *)
Lemma width_step w : forall f, Forall (fun e => 0 <= e < 10) w ->
  (padding_mod f = 0 -> forall e w', w = e :: w' -> 1 <= e) ->
  0 <= padding_mod f -> foldl (fun a e => a * 10 + e) (padding_mod f) w < 256 ->
  foldl mod_step f (Z.add 48 <$> w) =
    set_padding_mod (foldl (fun a e => a * 10 + e) (padding_mod f) w) f.
Proof.
  induction w as [|x w IH]; intros f Hw Hz Hp Hlt; [by destruct f|].
  apply Forall_cons in Hw as [Hx Hw]. cbn [foldl fmap list_fmap] in *.
  assert (forall v a, Forall (fun e => 0 <= e < 10) v -> 0 <= a -> a <= foldl (fun a e => a * 10 + e) a v) as Hmono.
  { clear. induction v as [|b v IH]; intros a Hv Ha; [simpl; lia|]. apply Forall_cons in Hv as [Hb Hv].
    cbn [foldl]. specialize (IH (a * 10 + b) Hv ltac:(lia)). lia. }
  pose proof (Hmono w (padding_mod f * 10 + x) Hw ltac:(lia)) as Hm.
  assert (mod_step f (48 + x) = set_padding_mod (padding_mod f * 10 + x) f) as ->.
  { unfold mod_step. rewrite !decide_False; [|..|lia|lia].
    - unfold more_padding, u8. f_equal. rewrite Z.mod_small; lia.
    - intros [H48 H0]. specialize (Hz H0 x w eq_refl). lia. }
  rewrite IH; try done; cbn [set_padding_mod padding_mod]; [|lia].
  intros H0 e w' ->. assert (padding_mod f = 0) as H1 by lia. specialize (Hz H1 x (e :: w') eq_refl). lia.
Qed.

Lemma length_step ls : forall f,
  foldl mod_step f (length_text <$> ls) =
    set_length_mod (foldl (fun a x => match x with Short => a / 2 | Long => u8 (a * 2) end) (length_mod f) ls) f.
Proof.
  induction ls as [|x ls IH]; intros f; [by destruct f|]. cbn [foldl fmap list_fmap]. by rewrite IH; destruct x.
Qed.

Lemma num_mods (zero : bool) width ls args :
  item_ok (Num zero width ls Decimal) ->
  foldl mod_step (set_modifier true (fresh_fmt args))
    ((if zero then [48] else []) ++ (Z.add 48 <$> width) ++ (length_text <$> ls)) =
    mk_fmt true (length_val ls) (width_val width) false (if zero then 48 else 32) args.
Proof.
  intros (Hw & Hz & Hlt). rewrite !foldl_app. set (f := foldl mod_step _ (if zero then _ else _)).
  assert (f = mk_fmt true 4 0 false (if zero then 48 else 32) args) as -> by (by destruct zero).
  by rewrite length_step, width_step.
Qed.

Lemma mods_are_mods (zero : bool) width ls :
  Forall (fun x => 0 <= x < 10) width ->
  Forall is_mod ((if zero then [48] else []) ++ (Z.add 48 <$> width) ++ (length_text <$> ls)).
Proof.
  intros Hw. unfold is_mod. rewrite !Forall_app. split_and!.
  - destruct zero; [|done]. constructor; [lia|done].
  - apply Forall_fmap. eapply Forall_impl; [exact Hw|]. simpl. lia.
  - apply Forall_fmap, Forall_true. intros []; simpl; lia.
Qed.

(** Last character of a directive. *)
Lemma directive_done c f m d args' s' :
  c <> 37 -> modifier f = true -> directive tmp cur used c f (m, d) = Ret (inr args', s') ->
  format_char tmp cur used c f (m, d) = Ret (fresh_fmt args', s').
Proof.
  intros Hc Hf Hd. unfold format_char. rewrite decide_False, Hf by done. by rewrite (bind_ret _ _ _ _ _ Hd).
Qed.

(** The arguments of [number] for a conversion. *)
Lemma conv_run c f m d v txt args' :
  mapped m tmp 128 -> ch_ok ch d -> 0 <= padding_mod f < 256 -> 0 < pad_char_mod f < 256 -> upper_mod f = false ->
  Forall is_word (va f) -> take_value (length_mod f) (va f) = Some (v, args') -> conv_shows c v txt ->
  exists m' d', directive tmp cur used (conv_text c) f (m, d) = Ret (inr args', (m', d')) /\ scratch m m' /\
    sent ch d (pad_text (pad_char_mod f) (padding_mod f) txt) d' /\ Forall is_word args'.
Proof.
  intros Hm Hk Hp Hc Hu Ha Hv Ht.
  destruct (get_seq_val_run _ _ _ _ Ha Hv) as (w & Hg & Hw & Hword & Ha').
  assert (exists conv change f', directive tmp cur used (conv_text c) f = (let* args := number tmp used conv change f' in ret (inr args))
    /\ converts conv change v txt /\ f' = set_upper_mod (upper_mod f') f) as (conv & change & f' & Hd & Hcv & Hf).
  { destruct c as [| |up].
    - eexists _, _, f. split; [reflexivity|]. split; [by apply itoa_converts|]. by destruct f.
    - eexists _, _, f. split; [reflexivity|]. split; [by apply plain_converts|]. by destruct f.
    - exists (fun v => uitoa v tmp 16), (change_case tmp (set_upper_mod up f)), (set_upper_mod up f).
      split; [destruct up; [reflexivity|by destruct f; simpl in Hu; subst]|]. split; [by apply hex_converts|done]. }
  destruct (number_run conv change f' v w args' txt m d) as (m' & d' & Hn & Hs & He).
  - done.
  - done.
  - by rewrite Hf.
  - by rewrite Hf.
  - rewrite Hf. exact Hg.
  - done.
  - done.
  - exists m', d'. rewrite Hd, (bind_ret _ _ _ _ _ Hn). split_and!; [done..| |done]. by rewrite Hf in He.
Qed.

Lemma ptr_run up f m d w args txt :
  mapped m tmp 128 -> ch_ok ch d -> upper_mod f = false -> Forall is_word (va f) -> va f = w :: args ->
  conv_shows (Hexa up) w txt ->
  exists m' d', directive tmp cur used (if up then 80 else 112) f (m, d) = Ret (inr args, (m', d')) /\ scratch m m' /\
    sent ch d (pad_text 48 8 txt) d' /\ Forall is_word args.
Proof.
  intros Hm Hk Hu Ha Hv Ht.
  set (f' := set_length_mod 4 (set_pad_char_mod 48 (set_padding_mod 8 f))).
  destruct (conv_run (Hexa up) f' m d w txt args) as (m' & d' & Hd & H); try done.
  { simpl. by rewrite Hv. }
  exists m', d'. split; [|done]. rewrite <- Hd. by destruct up.
Qed.

(** A directive: the percent sign, characters that change the variables, and
    the one that prints. *)
Lemma directive_item cs c n str pos args args' m d m' d' :
  bytes_at m (str + pos) (37 :: cs ++ [c]) -> Forall is_mod cs -> c <> 37 ->
  directive tmp cur used c (foldl mod_step (set_modifier true (fresh_fmt args)) cs) (m, d) =
    Ret (inr args', (m', d')) ->
  run_loop (length (37 :: cs ++ [c]) + n) str pos (fresh_fmt args) (m, d) =
    run_loop n str (pos + Z.of_nat (length (37 :: cs ++ [c]))) (fresh_fmt args') (m', d').
Proof.
  intros Hb Hcs Hc Hd. apply bytes_at_cons in Hb as [H37 Hb]. apply bytes_at_app in Hb as [Hb Hl].
  apply bytes_at_cons in Hl as [Hl _].
  cbn [length]. rewrite length_app. cbn [length].
  replace (S (length cs + 1) + n)%nat with (S (length cs + S n)) by lia.
  rewrite (format_step _ _ _ _ _ _ _ _ _ H37 (eq_refl : format_char tmp cur used 37 (fresh_fmt args) (m, d) =
    Ret (set_modifier true (fresh_fmt args), (m, d)))).
  rewrite mods_run by (done || by rewrite Z.add_assoc).
  assert (modifier (foldl mod_step (set_modifier true (fresh_fmt args)) cs) = true) as Hm.
  { clear. generalize (set_modifier true (fresh_fmt args)), (eq_refl : modifier (set_modifier true (fresh_fmt args)) = true).
    induction cs as [|x cs IH]; intros f Hf; [done|]. apply IH. unfold mod_step. by repeat case_decide. }
  erewrite format_step; [|replace (str + (pos + 1 + Z.of_nat (length cs))) with (str + pos + 1 + Z.of_nat (length cs)) by lia; exact Hl
    |by apply directive_done].
  f_equal. lia.
Qed.

(** The loop is past an item: its text is out, the arguments left are words. *)
Definition item_done i args out args' n str pos m d : Prop :=
  exists m' d', run_loop (length (item_text i) + n) str pos (fresh_fmt args) (m, d) =
      run_loop n str (pos + Z.of_nat (length (item_text i))) (fresh_fmt args') (m', d') /\
    scratch m m' /\ sent ch d (out) d' /\ Forall is_word args'.

Lemma lit_run c args n str pos m d :
  item_ok (Lit c) -> mapped m tmp 128 -> ch_ok ch d -> Forall is_word args -> bytes_at m (str + pos) [c] ->
  item_done (Lit c) args [c] args n str pos m d.
Proof.
  intros [Hc H37] Hm Hk Ha [Hb _]%bytes_at_cons. destruct (putc_emits (o := used) c m d Hc Hk) as (d1 & H1 & E1).
  exists m, d1. split_and!; [|by apply scratch_refl|done|done].
  cbn [item_text length plus]. rewrite (format_step _ _ _ _ c m d (fresh_fmt args) (m, d1) Hb); [done|].
  unfold format_char. rewrite decide_False by done. cbn [modifier fresh_fmt]. by rewrite (bind_ret _ _ _ _ _ H1).
Qed.

Lemma percent_run args n str pos m d :
  mapped m tmp 128 -> ch_ok ch d -> Forall is_word args -> bytes_at m (str + pos) [37; 37] ->
  item_done Percent args [37] args n str pos m d.
Proof.
  intros Hm Hk Ha [Hb1 [Hb2 _]%bytes_at_cons]%bytes_at_cons.
  destruct (putc_emits (o := used) 37 m d ltac:(lia) Hk) as (d1 & H1 & E1).
  exists m, d1. split_and!; [|by apply scratch_refl|done|done].
  cbn [item_text length plus].
  rewrite (format_step _ _ _ _ 37 m d (set_modifier true (fresh_fmt args)) (m, d) Hb1) by done.
  rewrite (format_step _ _ _ _ 37 m d (fresh_fmt args) (m, d1)); [f_equal; lia|by rewrite Z.add_assoc|].
  unfold format_char. rewrite decide_True by done. cbn [modifier set_modifier negb]. by rewrite (bind_ret _ _ _ _ _ H1).
Qed.

Lemma chr_run w args n str pos m d :
  0 < w mod 2 ^ 8 -> mapped m tmp 128 -> ch_ok ch d -> Forall is_word args -> bytes_at m (str + pos) [37; 99] ->
  item_done Chr (w :: args) [w mod 2 ^ 8] args n str pos m d.
Proof.
  intros Hw Hm Hk Ha Hb. pose proof (Z.mod_pos_bound w (2 ^ 8) ltac:(lia)) as Hr.
  set (m1 := <[tmp := w mod 2 ^ 8]> m).
  destruct (putc_emits (o := used) (w mod 2 ^ 8) m1 d ltac:(lia) Hk) as (d1 & H1 & E1).
  exists m1, d1. split_and!; [|by apply (scratch_put m [w mod 2 ^ 8]); [|simpl; lia]|done|done].
  apply (directive_item [] 99); [done..|].
  assert (Z.land w 0xFF = w mod 2 ^ 8) as Hl by (by apply (Z.land_ones w 8)).
  transitivity ((in_mem (store tmp (Z.land w 0xFF)) >>> let* b := in_mem (load tmp) in
      putc used b >>> ret (inr (A := fmt) args)) (m, d)); [reflexivity|].
  rewrite Hl. erewrite in_mem_run; [|apply store_run_last; [|lia]].
  2:{ specialize (Hm 0%nat ltac:(lia)). by rewrite Z.add_0_r in Hm. }
  fold m1. rewrite (load_in_mem _ (w mod 2 ^ 8)) by apply lookup_insert_eq. by rewrite (bind_ret _ _ _ _ _ H1).
Qed.

Lemma width_val_nonneg w : Forall (fun x => 0 <= x < 10) w -> 0 <= width_val w.
Proof.
  induction w as [|x w IH] using rev_ind; [done|]. intros [Hw Hx]%Forall_app.
  apply Forall_cons in Hx as [Hx _]. unfold width_val in *. rewrite foldl_app. simpl. specialize (IH Hw). lia.
Qed.

Lemma num_run (zero : bool) width ls c args v args' txt n str pos m d :
  item_ok (Num zero width ls c) -> mapped m tmp 128 -> ch_ok ch d -> Forall is_word args ->
  take_value (length_val ls) args = Some (v, args') -> conv_shows c v txt ->
  bytes_at m (str + pos) (item_text (Num zero width ls c)) ->
  item_done (Num zero width ls c) args (pad_text (if zero then 48 else 32) (width_val width) txt) args' n str pos m d.
Proof.
  intros Hok Hm Hk Ha Hv Ht Hb. pose proof Hok as (Hw & _ & Hlt). pose proof (width_val_nonneg _ Hw).
  set (cs := (if zero then [48] else []) ++ (Z.add 48 <$> width) ++ (length_text <$> ls)).
  assert (item_text (Num zero width ls c) = 37 :: cs ++ [conv_text c]) as Hi
    by (unfold cs; simpl; by rewrite <- !app_assoc).
  unfold item_done. rewrite Hi in *.
  destruct (conv_run c (mk_fmt true (length_val ls) (width_val width) false (if zero then 48 else 32) args)
    m d v txt args') as (m' & d' & Hd & H'); try done; [by destruct zero|].
  exists m', d'. split; [|done]. apply directive_item; [done|by apply mods_are_mods|by destruct c as [| |[]]|].
  unfold cs. by rewrite num_mods.
Qed.

Lemma item_run m0 i args out args' n str pos m d :
  item_ok i -> item_shows m0 tmp i args out args' -> scratch m0 m -> ch_ok ch d -> Forall is_word args ->
  bytes_at m (str + pos) (item_text i) -> item_done i args out args' n str pos m d.
Proof.
  intros Hok Hs H0 Hk Ha Hb. pose proof (sc_mapped _ _ H0) as Hm. destruct Hs as
    [c args|args|p args l Hl Hap|w args Hw|up w args txt Ht|zero width ls c args v args' txt Hv Ht].
  - by apply lit_run.
  - by apply percent_run.
  - assert (cstr m p l) as Hl' by (by eapply scratch_cstr).
    destruct (puts_emits (o := cur) p l m d Hl' Hk) as (d1 & H1 & E1).
    exists m, d1. apply Forall_cons in Ha as [_ Ha]. split_and!; [|by apply scratch_refl|done|done].
    apply (directive_item [] 115); [done..|].
    transitivity ((puts cur p >>> ret (inr (A := fmt) args)) (m, d)); [reflexivity|]. by rewrite (bind_ret _ _ _ _ _ H1).
  - apply Forall_cons in Ha as [_ Ha]. by apply chr_run.
  - destruct (ptr_run up (set_modifier true (fresh_fmt (w :: args))) m d w args txt) as (m' & d' & Hd & H'); try done.
    exists m', d'. split; [|done]. by destruct up; apply (directive_item [] _).
  - by eapply num_run.
Qed.

Lemma items_run m0 items args out str :
  format_shows m0 tmp items args out -> Forall item_ok items -> Forall is_word args ->
  forall pos m d, scratch m0 m -> ch_ok ch d -> apart tmp 128 (str + pos) (length (format_text items)) ->
  bytes_at m (str + pos) (format_text items) ->
  exists m' d', run_loop (length (format_text items)) str pos (fresh_fmt args) (m, d) = Ret (tt, (m', d')) /\
    scratch m m' /\ sent ch d (out) d'.
Proof.
  induction 1 as [args|i items args out args' rest Hi _ IH]; intros Hok Ha pos m d Hs Hk Hap Hb.
  - exists m, d. split; [done|]. split; [|by apply sent_nil]. apply scratch_refl, (sc_mapped _ _ Hs).
  - apply Forall_cons in Hok as [Hok1 Hok]. cbn [format_text mbind list_bind] in *. fold (format_text items) in *.
    change (item_text i ++ (items ≫= item_text)) with (item_text i ++ format_text items) in *.
    rewrite length_app in *. apply bytes_at_app in Hb as [Hb1 Hb2].
    destruct (item_run m0 i args out args' (length (format_text items)) str pos m d) as (m1 & d1 & H1 & S1 & E1 & Ha1);
      [done..|]. rewrite H1.
    destruct (IH Hok Ha1 (pos + Z.of_nat (length (item_text i))) m1 d1) as (m2 & d2 & H2 & S2 & E2).
    + by eapply scratch_trans.
    + by eapply sent_ok.
    + unfold apart in *. lia.
    + rewrite Z.add_assoc. eapply scratch_bytes; [exact S1| |done]. unfold apart in *. lia.
    + exists m2, d2. split; [done|]. split; [by eapply scratch_trans|].
      by eapply sent_app.
Qed.

Lemma scratch_item m m' i args out args' : scratch m m' ->
  item_shows m tmp i args out args' -> item_shows m' tmp i args out args'.
Proof.
  intros Hs. destruct 1; econstructor; eauto. by eapply scratch_cstr.
Qed.

Lemma scratch_shows m m' items args out : scratch m m' ->
  format_shows m tmp items args out -> format_shows m' tmp items args out.
Proof. intros Hs. induction 1; econstructor; eauto using scratch_item. Qed.

Lemma formater_run m d str items args txt :
  ch_ok ch d -> cstr m str (format_text items) -> Forall item_ok items -> Forall is_word args ->
  mapped m tmp 128 -> apart tmp 128 str (S (length (format_text items))) ->
  format_shows m tmp items args txt ->
  exists m' d', formater tmp cur used str args (m, d) = Ret (tt, (m', d')) /\ scratch m m' /\ sent ch d txt d'.
Proof.
  intros Hk Hs Hok Ha Hm Hap Hf. unfold formater. rewrite (in_mem_run _ _ _ _ _ _ (strlen_ret _ _ _ Hs)).
  rewrite Nat2Z.id. apply (items_run m items args txt str Hf Hok Ha 0 m d).
  - by apply scratch_refl.
  - done.
  - unfold apart in *. lia.
  - rewrite Z.add_0_r. apply cs_bytes in Hs. by apply bytes_at_app in Hs as [? _].
Qed.
End Run.

(** ** Properties *)

(** C28: For a format made of characters and conversions the formatter returns
    and sends exactly the text of the items to its output, padded and in the
    requested base, whether a conversion goes through the output it is given
    or through the current one; no memory but its local buffer changes.  The
    text is that of the code: [%d] prints an unsigned number, and of an
    argument of 64 bits the low 32 are printed. *)
Theorem formater_correct {D} (cur used : output_t D) (ch : channel D) `{!Emits used ch} `{!Emits cur ch}
    tmp str items args txt m d :
  ch_ok ch d -> cstr m str (format_text items) -> Forall item_ok items -> Forall is_word args ->
  mapped m tmp 128 -> apart tmp 128 str (S (length (format_text items))) ->
  format_shows m tmp items args txt ->
  exists m' d', formater tmp cur used str args (m, d) = Ret (tt, (m', d')) /\ sent ch d txt d' /\
    forall k, ~ (tmp <= k < tmp + 128) -> m' !! k = m !! k.
Proof.
  intros Hk Hs Hok Ha Hm Hap Hf.
  destruct (formater_run used cur ch tmp m d str items args txt) as (m' & d' & H & S & E); [done..|].
  exists m', d'. split; [done|]. split; [done|apply S].
Qed.

(** ** What the directives do not do *)

(** A negative number is printed as an unsigned one: [seq_val] is a
    [size_t]. *)
Lemma negative_number_unsigned tmp (f : fmt) out args (m : mem) (d : history) :
  va f = 0xFFFFFFFF :: args -> length_mod f = 4 ->
  number tmp (D := history) out (fun v => itoa v tmp 10) (ret tt) f (m, d) =
  number tmp out (fun _ => itoa 4294967295 tmp 10) (ret tt) f (m, d).
Proof. intros Ha Hl. unfold number. by rewrite Hl, Ha. Qed.

(** [%llu] takes eight bytes and keeps four. *)
Lemma long_number_truncated l h args : is_word l ->
  exists v, (forall s : mem * history, get_seq_val 8 (l :: h :: args) s = Ret ((v, args), s)) /\ u32 v = l.
Proof. intros Hl. exists (l + 2 ^ 32 * h). split; [done|]. unfold u32, is_word in *. Z.div_mod_to_equations. lia. Qed.

(** A string goes to the current output, whatever output is used. *)
Lemma string_to_current_output {D} tmp (cur used : output_t D) f p args w :
  va f = p :: args -> directive tmp cur used 115 f w = (puts cur p >>> ret (inr args)) w.
Proof. intros Ha. unfold directive. repeat (rewrite decide_False by lia || rewrite decide_True by done). by rewrite Ha. Qed.

(** A character that is no directive is skipped and the modifier stays on. *)
Lemma unknown_directive_skipped {D} tmp (cur used : output_t D) f w :
  modifier f = true -> format_char tmp cur used 122 f w = Ret (f, w).
Proof. intros Hm. unfold format_char. rewrite decide_False by lia. by rewrite Hm. Qed.
