(* ===== verification/SerialTheorems.v ===== *)
(** * The serial port: properties

    What a write sends, the strings, and what the initialisation configures. *)
From S2P Require Import Prelude ByteMem LibString LibStringTheorems Ports Serial KernelOutput.
From S2P Require Import KernelOutputTheorems.

Section Driver.
Context (device : history -> Z -> Z) (polls : nat).

(** The line of a port is free after fewer reads of its status than a wait
    makes. *)
Definition line_answers (port : Z) : Prop :=
  forall h, exists n, (n < polls)%nat /\
    (forall k, (k < n)%nat ->
      Z.land (u8 (device (reads device k (SERIAL_LINE_STATUS_PORT port) h) (SERIAL_LINE_STATUS_PORT port))) 0x20 = 0) /\
    Z.land (u8 (device (reads device n (SERIAL_LINE_STATUS_PORT port) h) (SERIAL_LINE_STATUS_PORT port))) 0x20 <> 0.

Lemma wait_line_run port n : forall fuel h,
  (n < fuel)%nat ->
  (forall k, (k < n)%nat ->
    Z.land (u8 (device (reads device k (SERIAL_LINE_STATUS_PORT port) h) (SERIAL_LINE_STATUS_PORT port))) 0x20 = 0) ->
  Z.land (u8 (device (reads device n (SERIAL_LINE_STATUS_PORT port) h) (SERIAL_LINE_STATUS_PORT port))) 0x20 <> 0 ->
  wait_line device fuel port h = Ret (tt, reads device (S n) (SERIAL_LINE_STATUS_PORT port) h).
Proof.
  induction n as [|n IH]; intros [|fuel] h Hf Hk Hn; try lia; cbn [wait_line];
    unfold bind at 1, cpu_inb; cbn [reads] in *.
  - by rewrite decide_False by done.
  - rewrite decide_True by (apply (Hk 0%nat); lia). apply IH; [lia| |done].
    intros k Hkn. apply (Hk (S k)). lia.
Qed.

(** What a character becomes on the line. *)
Definition line_char (c : Z) : list Z := if decide (c = 10) then [13; 10] else [c].

(** A port whose driver is initialised; what was sent to it. *)
Definition line (port : Z) : channel serial :=
  mk_channel (fun s => serial_init_done s <> 0) line_char (fun s => written port (serial_ports s)).

Context (port : Z).
Hypothesis (Hport : port = COM1 \/ port = COM2 \/ port = COM3 \/ port = COM4).
Hypothesis (Hdev : line_answers port).

(** The driver's variable stays, the bytes [l] are written to the port. *)
Definition wrote (s : serial) (l : list Z) (s' : serial) : Prop :=
  serial_init_done s' = serial_init_done s /\
  written port (serial_ports s') = written port (serial_ports s) ++ l.

Lemma wrote_trans s1 l s2 k s3 : wrote s1 l s2 -> wrote s2 k s3 -> wrote s1 (l ++ k) s3.
Proof. intros [H1 E1] [H2 E2]. split; [by rewrite H2|]. by rewrite E2, E1, app_assoc. Qed.

Lemma wait_run s : exists s', on_ports (wait_line device polls port) s = Ret (tt, s') /\ wrote s [] s'.
Proof.
  destruct (Hdev (serial_ports s)) as (n & Hn & Hk & Hz).
  eexists. unfold on_ports, zoom. rewrite (wait_line_run port n) by done. split; [done|].
  split; [done|]. cbn [serial_ports]. by rewrite written_reads, app_nil_r.
Qed.

Lemma outb_run v s : 0 <= v < 256 -> exists s', on_ports (cpu_outb v port) s = Ret (tt, s') /\ wrote s [v] s'.
Proof.
  intros Hv. eexists. split; [done|]. split; [done|]. cbn [serial_ports]. rewrite written_app. simpl.
  rewrite decide_True by done. unfold u8. by rewrite Z.mod_small.
Qed.

(** The body for any data but the line feed. *)
Lemma write_plain rec c s : serial_init_done s <> 0 -> 0 <= c < 256 -> c <> 10 ->
  exists s', serial_write_body device polls rec port c s = Ret (tt, s') /\ wrote s [c] s'.
Proof.
  intros Hi Hc Hn. unfold serial_write_body. rewrite exec_gets, decide_False, decide_False by (done || tauto).
  destruct (wait_run s) as (s1 & H1 & W1). rewrite (bind_ret _ _ _ _ _ H1), decide_False by done.
  destruct (outb_run c s1 Hc) as (s2 & H2 & W2). rewrite (bind_ret _ _ _ _ _ H2).
  destruct (wait_run s2) as (s3 & H3 & W3). exists s3. split; [done|].
  by apply (wrote_trans s [] s1 _ s3 W1), (wrote_trans s1 [c] s2 []).
Qed.

Lemma serial_write_run c s : serial_init_done s <> 0 -> 0 <= c < 256 ->
  exists s', serial_write device polls port c s = Ret (tt, s') /\ wrote s (line_char c) s'.
Proof.
  intros Hi Hc. unfold serial_write, line_char. case_decide as H10; [subst c|by apply write_plain].
  unfold serial_write_body at 1. rewrite exec_gets, decide_False, decide_False by (done || tauto).
  destruct (wait_run s) as (s1 & H1 & W1). rewrite (bind_ret _ _ _ _ _ H1), decide_True by done.
  destruct (write_plain (fun _ _ => diverge) 13 s1) as (s2 & H2 & W2); [by rewrite (proj1 W1)|lia..|].
  rewrite bind_assoc, (bind_ret _ _ _ _ _ H2).
  destruct (outb_run 10 s2) as (s3 & H3 & W3); [lia|]. rewrite (bind_ret _ _ _ _ _ H3).
  destruct (wait_run s3) as (s4 & H4 & W4). exists s4. split; [done|].
  apply (wrote_trans s [] s1 _ s4 W1), (wrote_trans s1 [13] s2 [10] s4 W2), (wrote_trans s2 [10] s3 [] s4 W3 W4).
Qed.

(** Whether the driver is initialised or not. *)
Lemma serial_write_answers c s : 0 <= c < 256 -> exists s', serial_write device polls port c s = Ret (tt, s').
Proof.
  intros Hc. destruct (decide (serial_init_done s = 0)) as [H0|H0].
  - eexists. unfold serial_write, serial_write_body at 1. rewrite exec_gets, decide_True by done. reflexivity.
  - destruct (serial_write_run c s H0 Hc) as (s' & H & _). by eexists.
Qed.
End Driver.

(** ** The serial output *)

Section Output.
Context (device : history -> Z -> Z) (polls : nat).
Hypothesis (Hdev : line_answers device polls COM1).

Definition serial_output : output_t serial :=
  mk_output (serial_put_char device polls) (serial_put_string device polls).

Lemma wrote_sent s c s' : serial_init_done s <> 0 -> wrote COM1 s (line_char c) s' -> sent (line COM1) s [c] s'.
Proof. intros Hi [H1 H2]. split; cbn; [by rewrite H1|]. by rewrite H2, app_nil_r. Qed.

Lemma put_char_run c m s : serial_init_done s <> 0 -> 0 <= c < 256 ->
  exists s', serial_put_char device polls c (m, s) = Ret (tt, (m, s')) /\ sent (line COM1) s [c] s'.
Proof.
  intros Hi Hc. destruct (serial_write_run device polls COM1 ltac:(by left) Hdev c s Hi Hc) as (s' & H & W).
  exists s'. split; [by apply in_dev_last|by apply wrote_sent].
Qed.

Lemma put_string_loop_run string l m : cstr m string l -> forall n k fuel s,
  serial_init_done s <> 0 -> drop k l = n -> (length n < fuel)%nat -> (k <= length l)%nat ->
  exists s', put_string_loop device polls fuel string (Z.of_nat k) (m, s) = Ret (tt, (m, s')) /\
    sent (line COM1) s n s'.
Proof.
  intros Hl. induction n as [|c n IH]; intros k [|fuel] s Hi Hk Hf Hle; simpl in Hf; try lia; cbn [put_string_loop];
    rewrite (in_mem_run _ _ _ _ _ _ (strlen_ret _ _ _ Hl)).
  - apply (f_equal length) in Hk. rewrite length_drop in Hk. simpl in Hk. rewrite decide_False by lia.
    exists s. split; [done|by apply sent_nil].
  - assert (l !! k = Some c) as Hc by (rewrite <- (Nat.add_0_r k), <- lookup_drop, Hk; done).
    pose proof (lookup_lt_Some _ _ _ Hc). rewrite decide_True by lia.
    pose proof (cs_bytes _ _ _ Hl) as Hb. apply bytes_at_app in Hb as [Hb _].
    rewrite (load_in_mem _ c) by (by apply Hb).
    assert (0 < c < 256) as Hcr by (by apply (Forall_lookup_1 _ _ _ _ (cs_chars _ _ _ Hl) Hc)).
    destruct (put_char_run c m s Hi) as (s1 & H1 & S1); [lia|]. unfold serial_put_char in H1.
    rewrite (bind_ret _ _ _ _ _ H1). replace (Z.of_nat k + 1) with (Z.of_nat (S k)) by lia.
    destruct (IH (S k) fuel s1) as (s2 & H2 & S2); [apply S1| |lia|lia|].
    { replace (S k) with (k + 1)%nat by lia. rewrite <- drop_drop, Hk. done. }
    exists s2. split; [done|]. by apply (sent_app (line COM1) s [c] s1).
Qed.

#[export] Instance serial_emits : Emits serial_output (line COM1).
Proof.
  split.
  - intros c m s Hc Hk. apply put_char_run; [done|lia].
  - intros p l m s Hl Hk. cbn [puts serial_output]. unfold serial_put_string.
    rewrite (in_mem_run _ (mem_fuel m) m m) by done.
    apply (put_string_loop_run p l m Hl l 0); [done|done| |lia]. apply cstr_fuel in Hl. lia.
Qed.
End Output.

(** ** The initialisation *)

(** What the body of the loop sends, with the port the setters keep. *)
Definition port_setup (com : Z) : history :=
  [Outb (if decide (com = COM1 \/ com = COM2) then 1 else 0) (com + 1);
   Outb 0x80 (u8 com + 3); Outb 0 (u8 com); Outb 12 (u8 com + 1);
   Outb 3 (u8 com + 3); Outb 0xC7 (u8 com + 2); Outb 0x0B (com + 4)].

Lemma init_port_run com s :
  init_port com s = Ret (OS_NO_ERR, mk_serial (serial_init_done s) (serial_ports s ++ port_setup com)).
Proof.
  assert (forall A v p (k : unit -> M serial A) s,
    bind (on_ports (cpu_outb v p)) k s = k tt (mk_serial (serial_init_done s) (serial_ports s ++ [Outb (u8 v) p]))) as Ho by done.
  unfold init_port, set_baudrate, set_line, set_buffer, port_setup.
  case_decide; repeat first [rewrite bind_assoc|rewrite Ho|rewrite bind_ret_l|rewrite decide_False by tauto];
    unfold ret; cbn [serial_ports serial_init_done]; rewrite <- !app_assoc; reflexivity.
Qed.

(** The setters keep 8 bits of the port: the line, buffer and speed registers
    of no port are written. *)
Lemma serial_init_misses_ports s :
  exists s', serial_init s = Ret (OS_NO_ERR, s') /\ serial_init_done s' = 1 /\
    forall com, com = COM1 \/ com = COM2 \/ com = COM3 \/ com = COM4 ->
      written (SERIAL_LINE_COMMAND_PORT com) (serial_ports s') = written (SERIAL_LINE_COMMAND_PORT com) (serial_ports s) /\
      written (SERIAL_FIFO_COMMAND_PORT com) (serial_ports s') = written (SERIAL_FIFO_COMMAND_PORT com) (serial_ports s) /\
      written (SERIAL_DATA_PORT com) (serial_ports s') = written (SERIAL_DATA_PORT com) (serial_ports s).
Proof.
  exists (mk_serial 1 ((((serial_ports s ++ port_setup COM1) ++ port_setup COM2) ++ port_setup COM3) ++ port_setup COM4)).
  split; [|split; [done|]].
  { unfold serial_init. cbn [init_ports]. do 4 rewrite (bind_ret _ _ _ _ _ (init_port_run _ _)), decide_False by tauto.
    reflexivity. }
  cbn [serial_ports]. intros com Hcom. rewrite !written_app.
  destruct Hcom as [-> |[-> |[-> | ->]]]; split_and!; cbn; by rewrite !app_nil_r.
Qed.

(** Even for a port that fits, the two halves of the divisor are swapped: the
    low byte goes to the register of the high one. *)
Lemma set_baudrate_swaps rate com s : 0 <= com < 256 ->
  exists s', set_baudrate rate com s = Ret (OS_NO_ERR, s') /\
    serial_ports s' = serial_ports s ++
      [Outb SERIAL_DLAB_ENABLED (com + 3); Outb (u8 (Z.land (Z.shiftr rate 8) 0xFF)) com;
       Outb (u8 (Z.land rate 0xFF)) (com + 1)].
Proof.
  intros Hc. eexists. split; [reflexivity|]. cbn. by rewrite <- !app_assoc; unfold u8; rewrite (Z.mod_small com).
Qed.

(** ** Witness *)

(** A device whose line is always free. *)
Definition idle_device (_ : history) (_ : Z) : Z := 0x20.

Lemma idle_line_answers port : line_answers idle_device 1 port.
Proof. intros h. exists 0%nat. split; [lia|]. split; [lia|done]. Qed.

(** [printf("%d\n", 42)] on the first port. *)
Definition demo_items : list item := [Num false [] [] Decimal; Lit 10].
Definition demo_memory : mem := put (put ∅ 1000 (format_text demo_items ++ [0])) 2000 (replicate 128 0).

Lemma demo_memory_ok :
  cstr demo_memory 1000 (format_text demo_items) /\ Forall item_ok demo_items /\ mapped demo_memory 2000 128 /\
  apart 2000 128 1000 (S (length (format_text demo_items))).
Proof.
  assert (apart 2000 128 1000 (S (length (format_text demo_items)))) as Ha by (unfold apart; simpl; lia).
  unfold demo_memory. split_and!; [|repeat constructor; simpl; try lia; discriminate| |done].
  - apply cstr_put_apart; [by rewrite length_replicate|]. apply cstr_put. unfold is_string, demo_items. simpl. solve_string.
  - rewrite <- (length_replicate 128 0). apply mapped_bytes, bytes_at_put.
Qed.

Lemma demo_shows m : format_shows m 2000 demo_items [42] [52; 50; 10].
Proof.
  apply (shows_item _ _ (Num false [] [] Decimal) _ [42] (pad_text 32 0 [52; 50]) [] [10]).
  - apply (show_num _ _ false [] [] Decimal [42] 42 [] [52; 50]); [done|]. split; [|done].
    split; [|done]. apply Forall_cons. split; [by exists 4|]. apply Forall_cons. split; [by exists 2|]. by apply Forall_nil.
  - apply (shows_item _ _ _ _ [] [10] [] []); constructor.
Qed.

Lemma formater_correct_witness :
  (cstr demo_memory 1000 (format_text demo_items) /\ format_shows demo_memory 2000 demo_items [42] [52; 50; 10]) /\
  exists m' s', formater 2000 (serial_output idle_device 1) (serial_output idle_device 1) 1000 [42]
      (demo_memory, mk_serial 1 []) = Ret (tt, (m', s')) /\
    sent (line COM1) (mk_serial 1 []) [52; 50; 10] s' /\
    forall k, ~ (2000 <= k < 2000 + 128) -> m' !! k = demo_memory !! k.
Proof.
  destruct demo_memory_ok as (Hs & Hok & Hm & Ha). pose proof (demo_shows demo_memory) as Hf.
  pose proof (serial_emits idle_device 1 (idle_line_answers COM1)) as He.
  split; [by split|].
  apply (formater_correct (serial_output idle_device 1) (serial_output idle_device 1) (line COM1) 2000 1000
    demo_items [42]); try done. repeat constructor; done.
Defined.
