(* ===== verification/Vga.v ===== *)
(** * The text screen ([arch/x86/vga_text.c])

    The driver on the memory that holds the frame buffer, two bytes per
    character, and on the ports of the cursor.  The kernel is built with
    [KERNEL_DEBUG]: every character also goes to the first serial port. *)
From S2P Require Import Prelude ByteMem LibString Ports Serial.

Definition VGA_TEXT_FRAMEBUFFER : Z := 0xB8000.
Definition VGA_TEXT_SCREEN_DATA_PORT : Z := 0x3D5.
Definition VGA_TEXT_SCREEN_COMM_PORT : Z := 0x3D4.
Definition VGA_TEXT_SCREEN_COL_SIZE : Z := 80.
Definition VGA_TEXT_SCREEN_LINE_SIZE : Z := 25.
Definition VGA_TEXT_CURSOR_COMM_LOW : Z := 0x0F.
Definition VGA_TEXT_CURSOR_COMM_HIGH : Z := 0x0E.

(** ** Data of [io/graphic.h] *)

Record cursor_t : Type := mk_cursor { cur_x : Z; cur_y : Z }.

Record colorscheme_t : Type := mk_scheme { foreground : Z; background : Z; vga_color : Z }.

Inductive SCROLL_DIRECTION_E : Type := SCROLL_DOWN | SCROLL_UP.
#[export] Instance SCROLL_DIRECTION_eq_dec : EqDecision SCROLL_DIRECTION_E.
Proof. solve_decision. Defined.

(** ** The variables of the file *)

Record vga : Type := mk_vga {
  screen_scheme : colorscheme_t;
  screen_cursor : cursor_t;
  last_printed_cursor : cursor_t;
  last_columns : list Z; (* VGA_TEXT_SCREEN_LINE_SIZE bytes *)
  vga_framebuffer : Z;
  vga_serial : serial
}.

Definition set_scheme (v : colorscheme_t) (s : vga) : vga :=
  mk_vga v (screen_cursor s) (last_printed_cursor s) (last_columns s) (vga_framebuffer s) (vga_serial s).
Definition set_cursor (v : cursor_t) (s : vga) : vga :=
  mk_vga (screen_scheme s) v (last_printed_cursor s) (last_columns s) (vga_framebuffer s) (vga_serial s).
Definition set_last_printed (v : cursor_t) (s : vga) : vga :=
  mk_vga (screen_scheme s) (screen_cursor s) v (last_columns s) (vga_framebuffer s) (vga_serial s).
Definition set_last_columns (v : list Z) (s : vga) : vga :=
  mk_vga (screen_scheme s) (screen_cursor s) (last_printed_cursor s) v (vga_framebuffer s) (vga_serial s).
Definition set_framebuffer (v : Z) (s : vga) : vga :=
  mk_vga (screen_scheme s) (screen_cursor s) (last_printed_cursor s) (last_columns s) v (vga_serial s).
Definition set_serial (v : serial) (s : vga) : vga :=
  mk_vga (screen_scheme s) (screen_cursor s) (last_printed_cursor s) (last_columns s) (vga_framebuffer s) v.

Definition on_serial {A} (m : M serial A) : M vga A := zoom vga_serial set_serial m.

(** [last_columns[i] = v;], [last_columns[i]]: past the table it is
    undefined. *)
Definition set_last_column (i v : Z) : M vga unit :=
  let* l := gets last_columns in
  if decide (0 <= i < Z.of_nat (length l))
  then modify (set_last_columns (<[Z.to_nat i := u8 v]> l)) else fault.

Definition get_last_column (i : Z) : M vga Z :=
  let* l := gets last_columns in
  if decide (0 <= i) then match l !! Z.to_nat i with Some v => ret v | None => fault end else fault.

(** ** Cursor, frame buffer, colours *)

Definition cursor_ports (pos : Z) : M serial unit :=
  on_ports (cpu_outb VGA_TEXT_CURSOR_COMM_LOW VGA_TEXT_SCREEN_COMM_PORT) >>>
  on_ports (cpu_outb (Z.land pos 0x00FF) VGA_TEXT_SCREEN_DATA_PORT) >>>
  on_ports (cpu_outb VGA_TEXT_CURSOR_COMM_HIGH VGA_TEXT_SCREEN_COMM_PORT) >>>
  on_ports (cpu_outb (Z.shiftr (Z.land pos 0xFF00) 8) VGA_TEXT_SCREEN_DATA_PORT).

Definition vga_put_cursor_at (line column : Z) : M vga OS_RETURN_E :=
  if decide (column > VGA_TEXT_SCREEN_COL_SIZE \/ line > VGA_TEXT_SCREEN_LINE_SIZE)
  then ret OS_ERR_OUT_OF_BOUND
  else
    modify (set_cursor (mk_cursor column line)) >>>
    on_serial (cursor_ports (column + line * VGA_TEXT_SCREEN_COL_SIZE)) >>>
    ret OS_NO_ERR.

(** A buffer is [None] when the pointer is null; the new content is
    returned. *)
Definition vga_save_cursor (buffer : option cursor_t) : M vga (OS_RETURN_E * option cursor_t) :=
  match buffer with
  | None => ret (OS_ERR_NULL_POINTER, None)
  | Some _ => let* c := gets screen_cursor in ret (OS_NO_ERR, Some c)
  end.

Definition vga_restore_cursor (buffer : cursor_t) : M vga OS_RETURN_E :=
  if decide (cur_x buffer >= VGA_TEXT_SCREEN_COL_SIZE \/ cur_y buffer >= VGA_TEXT_SCREEN_LINE_SIZE)
  then ret OS_ERR_OUT_OF_BOUND
  else vga_put_cursor_at (cur_y buffer) (cur_x buffer) >>> ret OS_NO_ERR.

Definition vga_set_color_scheme (color_scheme : colorscheme_t) : M vga unit :=
  modify (fun s => set_scheme (mk_scheme (foreground color_scheme) (background color_scheme)
                                 (vga_color (screen_scheme s))) s).

Definition vga_save_color_scheme (buffer : option colorscheme_t) : M vga (OS_RETURN_E * option colorscheme_t) :=
  match buffer with
  | None => ret (OS_ERR_NULL_POINTER, None)
  | Some b =>
      let* c := gets screen_scheme in
      ret (OS_NO_ERR, Some (mk_scheme (foreground c) (background c) (vga_color b)))
  end.

(** The address of a character, [uint16_t] cells. *)
Definition vga_get_framebuffer (line column : Z) (s : vga) : Z :=
  if decide (line > VGA_TEXT_SCREEN_LINE_SIZE - 1 \/ column > VGA_TEXT_SCREEN_COL_SIZE - 1)
  then vga_framebuffer s
  else vga_framebuffer s + 2 * (column + line * VGA_TEXT_SCREEN_COL_SIZE).

Definition vga_init : M vga OS_RETURN_E :=
  modify (set_framebuffer VGA_TEXT_FRAMEBUFFER) >>> ret OS_NO_ERR.

(** A character with the current colours. *)
Definition vga_cell (character : Z) (c : colorscheme_t) : Z :=
  Z.lor (Z.lor character (Z.land (Z.shiftl (background c) 8) 0xF000))
    (Z.land (Z.shiftl (foreground c) 8) 0x0F00).

Definition store16 (p v : Z) : M mem unit := store p (v mod 2 ^ 8) >>> store (p + 1) ((v / 2 ^ 8) mod 2 ^ 8).

Definition vga_print_char (line column character : Z) : M (world vga) OS_RETURN_E :=
  if decide (line > VGA_TEXT_SCREEN_LINE_SIZE - 1 \/ column > VGA_TEXT_SCREEN_COL_SIZE - 1)
  then ret OS_ERR_OUT_OF_BOUND
  else
    let* screen_mem := in_dev (gets (vga_get_framebuffer line column)) in
    let* c := in_dev (gets screen_scheme) in
    in_mem (store16 screen_mem (vga_cell character c)) >>> ret OS_NO_ERR.

(** ** Clearing and scrolling *)

Fixpoint clear_cells (n : nat) (line j blank : Z) : M (world vga) unit :=
  match n with
  | O => ret tt
  | S n =>
    let* p := in_dev (gets (vga_get_framebuffer line j)) in
    in_mem (store16 p blank) >>> clear_cells n line (j + 1) blank
  end.

Fixpoint clear_lines (n : nat) (i blank : Z) : M (world vga) unit :=
  match n with
  | O => ret tt
  | S n =>
    clear_cells (Z.to_nat VGA_TEXT_SCREEN_COL_SIZE) i 0 blank >>>
    in_dev (set_last_column i 0) >>> clear_lines n (i + 1) blank
  end.

Definition vga_clear_screen : M (world vga) unit :=
  let* c := in_dev (gets screen_scheme) in
  clear_lines (Z.to_nat VGA_TEXT_SCREEN_LINE_SIZE) 0 (vga_cell 32 c).

(** [for(i = 0; i < VGA_TEXT_SCREEN_LINE_SIZE - 1; ++i)], [n] turns left. *)
Fixpoint move_lines (n : nat) (i : Z) : M (world vga) unit :=
  match n with
  | O => ret tt
  | S n =>
    let* dst := in_dev (gets (vga_get_framebuffer i 0)) in
    let* src := in_dev (gets (vga_get_framebuffer (i + 1) 0)) in
    in_mem (memmove dst src (2 * VGA_TEXT_SCREEN_COL_SIZE)) >>>
    let* c := in_dev (get_last_column (i + 1)) in
    in_dev (set_last_column i c) >>>
    move_lines n (i + 1)
  end.

(** [for(j = 0; j < to_scroll; ++j)] *)
Fixpoint scroll_lines (n : nat) : M (world vga) unit :=
  match n with
  | O => ret tt
  | S n =>
    move_lines (Z.to_nat (VGA_TEXT_SCREEN_LINE_SIZE - 1)) 0 >>>
    in_dev (set_last_column (VGA_TEXT_SCREEN_LINE_SIZE - 1) 0) >>>
    scroll_lines n
  end.

Fixpoint clear_last_line (n : nat) (i : Z) : M (world vga) unit :=
  match n with
  | O => ret tt
  | S n => vga_print_char (VGA_TEXT_SCREEN_LINE_SIZE - 1) i 32 >>> clear_last_line n (i + 1)
  end.

Definition vga_scroll (direction : SCROLL_DIRECTION_E) (lines_count : Z) : M (world vga) unit :=
  let to_scroll :=
    if decide (VGA_TEXT_SCREEN_LINE_SIZE < lines_count) then VGA_TEXT_SCREEN_LINE_SIZE else lines_count in
  (if decide (direction = SCROLL_DOWN) then
     scroll_lines (Z.to_nat to_scroll) >>> clear_last_line (Z.to_nat VGA_TEXT_SCREEN_COL_SIZE) 0
   else ret tt) >>>
  in_dev (vga_put_cursor_at (VGA_TEXT_SCREEN_LINE_SIZE - to_scroll) 0) >>>
  let* l := in_dev (gets last_printed_cursor) in
  in_dev (modify (set_last_printed
    (if decide (to_scroll <= cur_y l) then mk_cursor (cur_x l) (cur_y l - to_scroll) else mk_cursor 0 0))).

(** ** Characters *)

Section Driver.
Context (device : history -> Z -> Z) (polls : nat).

Definition cursor : M (world vga) cursor_t := in_dev (gets screen_cursor).

(** [last_columns[screen_cursor.y] = screen_cursor.x;] *)
Definition mark_column : M (world vga) unit :=
  let* c := cursor in in_dev (set_last_column (cur_y c) (cur_x c)).

Definition put_cursor (line column : Z) : M (world vga) unit :=
  in_dev (vga_put_cursor_at line column) >>> ret tt.

Definition print_regular (character : Z) : M (world vga) unit :=
  let* c := cursor in
  in_dev (modify (set_cursor (mk_cursor (u32 (cur_x c + 1)) (cur_y c)))) >>>
  vga_print_char (cur_y c) (cur_x c) character >>>
  let* c := cursor in
  (if decide (cur_x c > VGA_TEXT_SCREEN_COL_SIZE - 1)
   then put_cursor (cur_y c + 1) 0 >>> mark_column else ret tt) >>>
  let* c := cursor in
  if decide (cur_y c >= VGA_TEXT_SCREEN_LINE_SIZE) then vga_scroll SCROLL_DOWN 1
  else put_cursor (cur_y c) (cur_x c) >>> mark_column.

(** Erases the character under the cursor, which has moved. *)
Definition erase : M (world vga) unit :=
  let* c := cursor in vga_print_char (cur_y c) (cur_x c) 32 >>> ret tt.

Definition backspace : M (world vga) unit :=
  let* c := cursor in
  let* l := in_dev (gets last_printed_cursor) in
  if decide (cur_y l = cur_y c) then
    if decide (cur_x c > cur_x l) then put_cursor (cur_y c) (cur_x c - 1) >>> mark_column >>> erase else ret tt
  else if decide (cur_y l < cur_y c) then
    if decide (cur_x c > 0) then put_cursor (cur_y c) (cur_x c - 1) >>> mark_column >>> erase
    else
      let* k := in_dev (get_last_column (cur_y c - 1)) in
      (if decide (k >= VGA_TEXT_SCREEN_COL_SIZE)
       then in_dev (set_last_column (cur_y c - 1) (VGA_TEXT_SCREEN_COL_SIZE - 1)) else ret tt) >>>
      let* k := in_dev (get_last_column (cur_y c - 1)) in
      put_cursor (cur_y c - 1) k >>> erase
  else ret tt.

Definition tab : M (world vga) unit :=
  let* c := cursor in
  (if decide (cur_x c + 8 < VGA_TEXT_SCREEN_COL_SIZE - 1)
   then put_cursor (cur_y c) (cur_x c + (8 - cur_x c mod 8))
   else put_cursor (cur_y c) (VGA_TEXT_SCREEN_COL_SIZE - 1)) >>>
  mark_column.

Definition line_feed : M (world vga) unit :=
  let* c := cursor in
  if decide (cur_y c < VGA_TEXT_SCREEN_LINE_SIZE - 1) then put_cursor (cur_y c + 1) 0 >>> mark_column
  else vga_scroll SCROLL_DOWN 1.

Definition line_return : M (world vga) unit :=
  let* c := cursor in put_cursor (cur_y c) 0 >>> mark_column.

(** [character] is a byte; as a [char] those from 128 on are negative, and no
    case is for them. *)
Definition vga_process_char (character : Z) : M (world vga) unit :=
  in_dev (on_serial (serial_write device polls COM1 character)) >>>
  if decide (character > 31 /\ character < 127) then print_regular character
  else if decide (character = 8) then backspace
  else if decide (character = 9) then tab
  else if decide (character = 10) then line_feed
  else if decide (character = 12) then vga_clear_screen
  else if decide (character = 13) then line_return
  else ret tt.

Definition vga_put_char (character : Z) : M (world vga) unit :=
  vga_process_char character >>>
  let* c := cursor in in_dev (modify (set_last_printed c)).

Fixpoint vga_put_string_loop (fuel : nat) (string i : Z) : M (world vga) unit :=
  match fuel with
  | O => diverge
  | S fuel =>
    let* n := in_mem (strlen string) in
    if decide (i < n) then
      let* c := in_mem (load (string + i)) in
      vga_put_char c >>> vga_put_string_loop fuel string (i + 1)
    else ret tt
  end.

Definition vga_put_string (string : Z) : M (world vga) unit :=
  let* fuel := in_mem (gets mem_fuel) in vga_put_string_loop fuel string 0.

Fixpoint vga_write_keyboard_loop (n : nat) (string i : Z) : M (world vga) unit :=
  match n with
  | O => ret tt
  | S n =>
    let* c := in_mem (load (string + i)) in
    vga_process_char c >>> vga_write_keyboard_loop n string (i + 1)
  end.

Definition vga_console_write_keyboard (string size : Z) : M (world vga) unit :=
  vga_write_keyboard_loop (Z.to_nat size) string 0.
End Driver.
