(* ===== verification/VgaTheorems.v ===== *)
(** * The text screen: properties

    The driver refines a terminal: a grid of cells with a cursor, on which
    each character is a function. *)
From S2P Require Import Prelude ByteMem LibString LibStringTheorems Ports Serial Vga.
From S2P Require Import KernelOutputTheorems SerialTheorems.

(** ** The terminal *)

Record terminal : Type := mk_terminal {
  tm_cells : list Z;      (* 25 lines of 80 *)
  tm_cursor : cursor_t;
  tm_last : cursor_t;     (* after the last printed character *)
  tm_columns : list Z     (* where each line ends *)
}.

Definition at_cursor (c : cursor_t) : nat := Z.to_nat (cur_x c + 80 * cur_y c).

Definition set_cell (c : cursor_t) (v : Z) (t : terminal) : terminal :=
  mk_terminal (<[at_cursor c := v]> (tm_cells t)) (tm_cursor t) (tm_last t) (tm_columns t).

(** The cursor moves and its line ends there. *)
Definition move_to (x y : Z) (t : terminal) : terminal :=
  mk_terminal (tm_cells t) (mk_cursor x y) (tm_last t) (<[Z.to_nat y := x]> (tm_columns t)).

(** One line up, a blank line at the bottom. *)
Definition scroll_up (blank : Z) (t : terminal) : terminal :=
  mk_terminal (drop 80 (tm_cells t) ++ replicate 80 blank) (mk_cursor 0 24)
    (if decide (1 <= cur_y (tm_last t)) then mk_cursor (cur_x (tm_last t)) (cur_y (tm_last t) - 1)
     else mk_cursor 0 0)
    (drop 1 (tm_columns t) ++ [0]).

(** A printable character; none after the last cell of the screen. *)
Definition type_regular (v : Z) (t : terminal) : option terminal :=
  let '(mk_cursor x y) := tm_cursor t in
  let t := set_cell (tm_cursor t) v t in
  if decide (x < 79) then Some (move_to (x + 1) y t)
  else if decide (y < 24) then Some (move_to 0 (y + 1) t) else None.

Definition type_backspace (blank : Z) (t : terminal) : terminal :=
  let '(mk_cursor x y) := tm_cursor t in
  let l := tm_last t in
  if decide (cur_y l < y \/ (cur_y l = y /\ cur_x l < x)) then
    if decide (0 < x) then set_cell (mk_cursor (x - 1) y) blank (move_to (x - 1) y t)
    else
      let k := Z.min 79 (nth (Z.to_nat (y - 1)) (tm_columns t) 0) in
      let cols := if decide (nth (Z.to_nat (y - 1)) (tm_columns t) 0 >= 80)
                  then <[Z.to_nat (y - 1) := 79]> (tm_columns t) else tm_columns t in
      set_cell (mk_cursor k (y - 1)) blank
        (mk_terminal (tm_cells t) (mk_cursor k (y - 1)) (tm_last t) cols)
  else t.

(** [blank] is a space and [v] the character, in the current colours. *)
Definition type_char (blank v c : Z) (t : terminal) : option terminal :=
  let '(mk_cursor x y) := tm_cursor t in
  if decide (c > 31 /\ c < 127) then type_regular v t
  else if decide (c = 8) then Some (type_backspace blank t)
  else if decide (c = 9) then Some (move_to (if decide (x + 8 < 79) then x + (8 - x mod 8) else 79) y t)
  else if decide (c = 10) then Some (if decide (y < 24) then move_to 0 (y + 1) t else scroll_up blank t)
  else if decide (c = 12) then Some (mk_terminal (replicate 2000 blank) (tm_cursor t) (tm_last t) (replicate 25 0))
  else if decide (c = 13) then Some (move_to 0 y t)
  else Some t.

Record terminal_ok (t : terminal) : Prop := {
  tk_cells : length (tm_cells t) = 2000%nat;
  tk_x : 0 <= cur_x (tm_cursor t) < 80;
  tk_y : 0 <= cur_y (tm_cursor t) < 25;
  tk_columns : length (tm_columns t) = 25%nat;
  tk_column : Forall (fun k => 0 <= k < 256) (tm_columns t);
  tk_last_x : 0 <= cur_x (tm_last t);
  tk_last_y : 0 <= cur_y (tm_last t)
}.

(** ** What the driver's state shows *)

Definition cell_bytes (v : Z) : list Z := [v mod 2 ^ 8; (v / 2 ^ 8) mod 2 ^ 8].

Definition flat (cells : list Z) : list Z := cells ≫= cell_bytes.

Record displays (w : world vga) (t : terminal) : Prop := {
  dp_cells : bytes_at w.1 (vga_framebuffer w.2) (flat (tm_cells t));
  dp_cursor : screen_cursor w.2 = tm_cursor t;
  dp_last : last_printed_cursor w.2 = tm_last t;
  dp_columns : last_columns w.2 = tm_columns t
}.

(** Only the frame buffer changes in memory; the frame buffer and the colours
    stay what they are. *)
Record screen_frame (w w' : world vga) : Prop := {
  sf_mem k : ~ (vga_framebuffer w.2 <= k < vga_framebuffer w.2 + 4000) -> w'.1 !! k = w.1 !! k;
  sf_fb : vga_framebuffer w'.2 = vga_framebuffer w.2;
  sf_scheme : screen_scheme w'.2 = screen_scheme w.2
}.

Lemma frame_refl w : screen_frame w w.
Proof. by split. Qed.

Lemma frame_trans w1 w2 w3 : screen_frame w1 w2 -> screen_frame w2 w3 -> screen_frame w1 w3.
Proof.
  intros [H1 H2 H3] [K1 K2 K3]. split; [|by rewrite K2|by rewrite K3].
  intros k Hk. rewrite K1, H1; [done..|by rewrite H2].
Qed.

(** ** Cells in memory *)

Lemma length_flat l : length (flat l) = (2 * length l)%nat.
Proof. unfold flat. induction l as [|v l IH]; [done|]. cbn. rewrite IH. lia. Qed.

Lemma flat_app l k : flat (l ++ k) = flat l ++ flat k.
Proof. apply bind_app. Qed.

Lemma flat_bytes l : is_bytes (flat l).
Proof.
  unfold flat. induction l as [|v l IH]; [constructor|]. cbn.
  repeat (constructor; [by apply Z.mod_pos_bound|]). exact IH.
Qed.

(** A block of cells is replaced by another of the same length. *)
Lemma put_block m fb a x b y :
  bytes_at m fb (flat (a ++ x ++ b)) -> length x = length y ->
  bytes_at (put m (fb + 2 * Z.of_nat (length a)) (flat y)) fb (flat (a ++ y ++ b)).
Proof.
  rewrite !flat_app, !bytes_at_app, !length_flat. intros (Ha & Hx & Hb) Hl.
  replace (fb + Z.of_nat (2 * length a)) with (fb + 2 * Z.of_nat (length a)) in * by lia.
  split; [|split].
  - apply bytes_at_put_apart; [|done]. unfold apart. rewrite !length_flat. lia.
  - apply bytes_at_put.
  - rewrite <- Hl. apply bytes_at_put_apart; [|done]. unfold apart. rewrite !length_flat. lia.
Qed.

Lemma put_block_frame m fb n y k : (n + length y <= 2000)%nat -> ~ (fb <= k < fb + 4000) ->
  put m (fb + 2 * Z.of_nat n) (flat y) !! k = m !! k.
Proof. intros Hn Hk. apply put_lookup_ne. rewrite length_flat. lia. Qed.

Lemma store16_run m fb cells i v :
  bytes_at m fb (flat cells) -> (i < length cells)%nat ->
  store16 (fb + 2 * Z.of_nat i) v m = Ret (tt, put m (fb + 2 * Z.of_nat i) (flat [v])) /\
  bytes_at (put m (fb + 2 * Z.of_nat i) (flat [v])) fb (flat (<[i := v]> cells)).
Proof.
  intros Hb Hi. destruct (lookup_lt_is_Some_2 _ _ Hi) as [x Hx].
  pose proof (take_drop_middle _ _ _ Hx) as E. split.
  - rewrite <- E, flat_app, bytes_at_app in Hb. destruct Hb as [_ Hb].
    change (x :: drop (S i) cells) with ([x] ++ drop (S i) cells) in Hb.
    rewrite flat_app, bytes_at_app, length_flat, length_take, Nat.min_l in Hb by lia. destruct Hb as [Hb _].
    replace (fb + Z.of_nat (2 * i)) with (fb + 2 * Z.of_nat i) in Hb by lia.
    apply mapped_bytes in Hb. rewrite length_flat in Hb.
    apply mapped_S in Hb as [H1 Hb]. apply mapped_S in Hb as [H2 _].
    unfold store16. rewrite store_run by (done || by apply Z.mod_pos_bound).
    rewrite store_run_last; [done| |by apply Z.mod_pos_bound]. by rewrite lookup_insert_ne by lia.
  - rewrite <- E in Hb at 1. rewrite insert_take_drop by done.
    replace i with (length (take i cells)) at 1 by (rewrite length_take; lia).
    by apply (put_block m fb (take i cells) [x] (drop (S i) cells) [v]).
Qed.

(** ** Execution *)

(** [op] returns [a] and shows [t']. *)
Definition evolves {A} (op : M (world vga) A) (a : A) (w : world vga) (t' : terminal) : Prop :=
  exists w', op w = Ret (a, w') /\ displays w' t' /\ screen_frame w w'.

Definition with_cursor (c : cursor_t) (t : terminal) : terminal :=
  mk_terminal (tm_cells t) c (tm_last t) (tm_columns t).
Definition with_columns (l : list Z) (t : terminal) : terminal :=
  mk_terminal (tm_cells t) (tm_cursor t) (tm_last t) l.

Lemma evolves_bind {A B} (op : M (world vga) A) (k : A -> M (world vga) B) a b w t1 t2 :
  evolves op a w t1 ->
  (forall w1, displays w1 t1 -> screen_frame w w1 -> evolves (k a) b w1 t2) -> evolves (bind op k) b w t2.
Proof.
  intros (w1 & H1 & D1 & F1) H. destruct (H w1 D1 F1) as (w2 & H2 & D2 & F2).
  exists w2. rewrite (bind_ret _ _ _ _ _ H1). split; [done|]. split; [done|by eapply frame_trans].
Qed.

Lemma evolves_ret {A} (a : A) w t : displays w t -> evolves (ret a) a w t.
Proof. intros H. exists w. split; [done|]. split; [done|apply frame_refl]. Qed.

Lemma evolves_gets {A B} (f : vga -> A) (k : A -> M (world vga) B) b w t :
  evolves (k (f w.2)) b w t -> evolves (bind (in_dev (gets f)) k) b w t.
Proof. intros (w' & H & D). exists w'. split; [|done]. by destruct w. Qed.

Lemma evolves_cursor {B} (k : cursor_t -> M (world vga) B) b w t t' :
  displays w t -> evolves (k (tm_cursor t)) b w t' -> evolves (bind cursor k) b w t'.
Proof. intros D H. apply evolves_gets. by rewrite (dp_cursor _ _ D). Qed.

(** A change of the driver's variables alone. *)
Lemma evolves_dev {A} (op : M vga A) a w t' s' :
  op w.2 = Ret (a, s') -> displays (w.1, s') t' -> vga_framebuffer s' = vga_framebuffer w.2 ->
  screen_scheme s' = screen_scheme w.2 -> evolves (in_dev op) a w t'.
Proof. intros H D E1 E2. exists (w.1, s'). destruct w. split; [by apply in_dev_last|]. by split. Qed.

Lemma set_last_column_run i v w t : displays w t -> length (tm_columns t) = 25%nat -> 0 <= i < 25 -> 0 <= v < 256 ->
  evolves (in_dev (set_last_column i v)) tt w (with_columns (<[Z.to_nat i := v]> (tm_columns t)) t).
Proof.
  intros [D1 D2 D3 D4] Hl Hi Hv. eapply evolves_dev.
  - unfold set_last_column. rewrite exec_gets, D4, decide_True by lia. reflexivity.
  - split; try done. simpl. unfold u8. by rewrite Z.mod_small.
  - done.
  - done.
Qed.

Lemma get_last_column_run i w t : displays w t -> length (tm_columns t) = 25%nat -> 0 <= i < 25 ->
  evolves (in_dev (get_last_column i)) (nth (Z.to_nat i) (tm_columns t) 0) w t.
Proof.
  intros D Hl Hi. destruct (lookup_lt_is_Some_2 (tm_columns t) (Z.to_nat i)) as [v Hv]; [lia|].
  rewrite (nth_lookup_Some _ _ _ _ Hv). eapply evolves_dev.
  - unfold get_last_column. rewrite exec_gets, (dp_columns _ _ D), decide_True, Hv by lia. reflexivity.
  - by destruct w.
  - done.
  - done.
Qed.

Lemma put_cursor_at_run line col w t : displays w t -> 0 <= col <= 80 -> 0 <= line <= 25 ->
  evolves (in_dev (vga_put_cursor_at line col)) OS_NO_ERR w (with_cursor (mk_cursor col line) t).
Proof.
  intros [D1 D2 D3 D4] Hc Hl. eapply evolves_dev.
  - unfold vga_put_cursor_at. rewrite decide_False by (unfold VGA_TEXT_SCREEN_COL_SIZE, VGA_TEXT_SCREEN_LINE_SIZE; lia).
    reflexivity.
  - by split.
  - done.
  - done.
Qed.

Lemma put_cursor_run line col w t : displays w t -> 0 <= col <= 80 -> 0 <= line <= 25 ->
  evolves (put_cursor line col) tt w (with_cursor (mk_cursor col line) t).
Proof.
  intros D Hc Hl. eapply evolves_bind; [by apply put_cursor_at_run|]. intros w1 D1 _. by apply evolves_ret.
Qed.

(** The cursor moves inside of the screen and marks the end of its line. *)
Lemma move_run line col w t :
  displays w t -> length (tm_columns t) = 25%nat -> 0 <= col <= 80 -> 0 <= line < 25 ->
  evolves (put_cursor line col >>> mark_column) tt w (move_to col line t).
Proof.
  intros D Hl Hc Hli. eapply evolves_bind; [apply put_cursor_run; [done|lia..]|]. intros w1 D1 _.
  unfold mark_column. eapply evolves_cursor; [done|]. cbn [tm_cursor with_cursor cur_x cur_y].
  by apply (set_last_column_run line col w1 _ D1); [|lia|lia].
Qed.

Lemma framebuffer_cell line col s : 0 <= col < 80 -> 0 <= line < 25 ->
  vga_get_framebuffer line col s = vga_framebuffer s + 2 * Z.of_nat (at_cursor (mk_cursor col line)).
Proof.
  intros Hc Hl. unfold vga_get_framebuffer, VGA_TEXT_SCREEN_LINE_SIZE, VGA_TEXT_SCREEN_COL_SIZE.
  rewrite decide_False by lia. unfold at_cursor. simpl. lia.
Qed.

Lemma print_char_run line col c w t :
  displays w t -> length (tm_cells t) = 2000%nat -> 0 <= col < 80 -> 0 <= line < 25 ->
  evolves (vga_print_char line col c) OS_NO_ERR w (set_cell (mk_cursor col line) (vga_cell c (screen_scheme w.2)) t).
Proof.
  intros [D1 D2 D3 D4] Hl Hc Hli. unfold vga_print_char.
  rewrite decide_False by (unfold VGA_TEXT_SCREEN_COL_SIZE, VGA_TEXT_SCREEN_LINE_SIZE; lia).
  do 2 apply evolves_gets. rewrite framebuffer_cell by done.
  set (i := at_cursor (mk_cursor col line)). assert (i < 2000)%nat as Hi by (unfold i, at_cursor; simpl; lia).
  destruct w as [m s]. cbn [fst snd] in *.
  destruct (store16_run m (vga_framebuffer s) (tm_cells t) i (vga_cell c (screen_scheme s)) D1) as [H B]; [lia|].
  eexists. rewrite (in_mem_run _ _ _ _ _ _ H). split; [reflexivity|]. split; [by split|].
  split; try done. intros k Hk. cbn [fst snd] in *. apply put_block_frame; [simpl; lia|done].
Qed.

(** ** Loops *)

Definition with_cells (l : list Z) (t : terminal) : terminal :=
  mk_terminal l (tm_cursor t) (tm_last t) (tm_columns t).

(** [n] elements from [k] on become [v]. *)
Definition fill (k n : nat) (v : Z) (l : list Z) : list Z := take k l ++ replicate n v ++ drop (k + n) l.

Lemma fill_0 k v l : fill k 0 v l = l.
Proof. unfold fill. rewrite Nat.add_0_r. apply take_drop. Qed.

Lemma fill_S k n v l : (k < length l)%nat -> fill (S k) n v (<[k := v]> l) = fill k (S n) v l.
Proof.
  intros Hk. unfold fill. rewrite (take_S_r _ _ v) by (by apply list_lookup_insert_eq).
  rewrite take_insert_ge by lia. rewrite <- app_assoc. simpl.
  rewrite drop_insert_lt by lia. do 3 f_equal. f_equal. lia.
Qed.

Lemma length_fill k n v l : (k + n <= length l)%nat -> length (fill k n v l) = length l.
Proof. intros H. unfold fill. rewrite !length_app, length_take, length_replicate, length_drop. lia. Qed.

Lemma fill_fill k n p v l : (k + n <= length l)%nat -> fill (k + n) p v (fill k n v l) = fill k (n + p) v l.
Proof.
  intros H. unfold fill at 2. rewrite app_assoc. set (x := take k l ++ replicate n v).
  assert (length x = (k + n)%nat) as Hx by (unfold x; rewrite length_app, length_take, length_replicate; lia).
  unfold fill. rewrite <- Hx at 1. rewrite take_app_length, drop_app_ge, Hx, drop_drop by lia.
  unfold x. rewrite replicate_add, <- !app_assoc. do 4 f_equal. lia.
Qed.

Lemma clear_last_line_run n : forall i w t,
  displays w t -> length (tm_cells t) = 2000%nat -> 0 <= i -> i + Z.of_nat n <= 80 ->
  evolves (clear_last_line n i) tt w
    (with_cells (fill (Z.to_nat (1920 + i)) n (vga_cell 32 (screen_scheme w.2)) (tm_cells t)) t).
Proof.
  induction n as [|n IH]; intros i w t D Hl Hi Hn; cbn [clear_last_line].
  { rewrite fill_0. apply evolves_ret. by destruct t. }
  eapply evolves_bind; [apply print_char_run; [done..|lia|unfold VGA_TEXT_SCREEN_LINE_SIZE; lia]|].
  intros w1 D1 F1. assert (at_cursor (mk_cursor i (VGA_TEXT_SCREEN_LINE_SIZE - 1)) = Z.to_nat (1920 + i)) as E
    by (unfold at_cursor, VGA_TEXT_SCREEN_LINE_SIZE; simpl; lia).
  unfold set_cell in D1. rewrite E in D1. rewrite <- (sf_scheme _ _ F1) in *.
  rewrite <- fill_S by lia. replace (S (Z.to_nat (1920 + i))) with (Z.to_nat (1920 + (i + 1))) by lia.
  apply (IH (i + 1) w1 _ D1); [by simpl; rewrite length_insert|lia..].
Qed.

Lemma clear_cells_run n : forall line j blank w t,
  displays w t -> length (tm_cells t) = 2000%nat -> 0 <= j -> j + Z.of_nat n <= 80 -> 0 <= line < 25 ->
  evolves (clear_cells n line j blank) tt w
    (with_cells (fill (at_cursor (mk_cursor j line)) n blank (tm_cells t)) t).
Proof.
  induction n as [|n IH]; intros line j blank w t D Hl Hj Hn Hli; cbn [clear_cells].
  { rewrite fill_0. apply evolves_ret. by destruct t. }
  apply evolves_gets. rewrite framebuffer_cell by lia.
  set (i := at_cursor (mk_cursor j line)). assert (i < 2000)%nat as Hi by (unfold i, at_cursor; simpl; lia).
  destruct w as [m s]. destruct D as [D1 D2 D3 D4]. cbn [fst snd] in *.
  destruct (store16_run m (vga_framebuffer s) (tm_cells t) i blank D1) as [H B]; [lia|].
  eapply (evolves_bind (in_mem (store16 (vga_framebuffer s + 2 * Z.of_nat i) blank)) _ tt tt (m, s)
    (with_cells (<[i := blank]> (tm_cells t)) t)).
  - eexists. split; [unfold in_mem, zoom; simpl; rewrite H; reflexivity|]. split; [by split|].
    split; try done. intros k Hk. cbn [fst snd] in *. apply put_block_frame; [simpl; lia|done].
  - intros w1 Dw _. rewrite <- fill_S by lia.
    replace (S i) with (at_cursor (mk_cursor (j + 1) line)) by (unfold i, at_cursor; simpl; lia).
    apply (IH line (j + 1) blank w1 _ Dw); [by simpl; rewrite length_insert|lia..].
Qed.

Lemma clear_lines_run n : forall i blank w t,
  displays w t -> length (tm_cells t) = 2000%nat -> length (tm_columns t) = 25%nat ->
  0 <= i -> i + Z.of_nat n <= 25 ->
  evolves (clear_lines n i blank) tt w
    (with_columns (fill (Z.to_nat i) n 0 (tm_columns t))
      (with_cells (fill (Z.to_nat (80 * i)) (80 * n) blank (tm_cells t)) t)).
Proof.
  induction n as [|n IH]; intros i blank w t D Hl Hc Hi Hn; cbn [clear_lines].
  { rewrite Nat.mul_0_r, !fill_0. apply evolves_ret. by destruct t. }
  eapply evolves_bind; [apply clear_cells_run; [done..|lia|unfold VGA_TEXT_SCREEN_COL_SIZE; lia|lia]|].
  intros w1 D1 _.
  eapply evolves_bind; [apply (set_last_column_run i 0 _ _ D1); simpl; lia|]. intros w2 D2 _.
  change (Z.to_nat VGA_TEXT_SCREEN_COL_SIZE) with 80%nat in *.
  assert (at_cursor (mk_cursor 0 i) = Z.to_nat (80 * i)) as E by (unfold at_cursor; simpl; lia).
  rewrite E in D2. assert (length (fill (Z.to_nat (80 * i)) 80 blank (tm_cells t)) = 2000%nat) as Hf
    by (rewrite length_fill; lia).
  eassert _ as H. { apply (IH (i + 1) blank w2 _ D2); [done|by simpl; rewrite length_insert|lia..]. }
  cbn [tm_columns tm_cells with_cells with_columns] in H.
  replace (Z.to_nat (i + 1)) with (S (Z.to_nat i)) in H by lia. rewrite fill_S in H by lia.
  replace (Z.to_nat (80 * (i + 1))) with (Z.to_nat (80 * i) + 80)%nat in H by lia.
  rewrite fill_fill in H by lia. by replace (80 * S n)%nat with (80 + 80 * n)%nat by lia.
Qed.

(** A line is copied over the one above it. *)
Lemma move_line_step (a x y b : list Z) w t :
  displays w t -> tm_cells t = a ++ x ++ y ++ b -> length x = 80%nat -> length y = 80%nat ->
  length (tm_cells t) = 2000%nat ->
  evolves (in_mem (memmove (vga_framebuffer w.2 + 2 * Z.of_nat (length a))
             (vga_framebuffer w.2 + 2 * Z.of_nat (length a + 80)) (2 * VGA_TEXT_SCREEN_COL_SIZE)))
    (vga_framebuffer w.2 + 2 * Z.of_nat (length a)) w (with_cells (a ++ y ++ y ++ b) t).
Proof.
  intros [D1 D2 D3 D4] Ht Hx Hy Hl. destruct w as [m s]. cbn [fst snd] in *. set (fb := vga_framebuffer s) in *.
  rewrite Ht in D1. pose proof D1 as Dy. rewrite !flat_app, !bytes_at_app, !length_flat in Dy.
  destruct Dy as (_ & Dx & Dy & _). rewrite Hx in Dy.
  replace (fb + Z.of_nat (2 * length a) + Z.of_nat (2 * 80)) with (fb + 2 * Z.of_nat (length a + 80)) in Dy by lia.
  replace (fb + Z.of_nat (2 * length a)) with (fb + 2 * Z.of_nat (length a)) in Dx by lia.
  assert (memmove (fb + 2 * Z.of_nat (length a)) (fb + 2 * Z.of_nat (length a + 80)) (2 * VGA_TEXT_SCREEN_COL_SIZE) m =
    Ret (fb + 2 * Z.of_nat (length a), put m (fb + 2 * Z.of_nat (length a)) (flat y))) as H.
  { change (2 * VGA_TEXT_SCREEN_COL_SIZE) with (Z.of_nat (2 * 80)). rewrite <- Hy, <- length_flat.
    apply memmove_run; [by rewrite Hy|apply flat_bytes|]. apply mapped_bytes in Dx.
    rewrite length_flat in *. by rewrite Hy, <- Hx. }
  exists (put m (fb + 2 * Z.of_nat (length a)) (flat y), s).
  split; [unfold in_mem, zoom; simpl; by rewrite H|]. split.
  - split; try done. cbn [fst snd tm_cells with_cells]. fold fb. apply (put_block m fb a x (y ++ b) y D1). lia.
  - rewrite Ht, !length_app in Hl. split; try done. intros k Hk. cbn [fst snd] in *. apply put_block_frame; [lia|done].
Qed.

Definition shifted (k i : nat) (l : list Z) : list Z := take (k * i) (drop k l) ++ drop (k * i) l.

Lemma move_lines_run c0 k0 n : forall i w t,
  displays w t -> length c0 = 2000%nat -> length k0 = 25%nat -> Forall (fun k => 0 <= k < 256) k0 ->
  (i + n = 24)%nat -> tm_cells t = shifted 80 i c0 -> tm_columns t = shifted 1 i k0 ->
  evolves (move_lines n (Z.of_nat i)) tt w (with_columns (shifted 1 24 k0) (with_cells (shifted 80 24 c0) t)).
Proof.
  induction n as [|n IH]; intros i w t D Hc Hk Hkr Hi Et Ek; cbn [move_lines].
  { assert (i = 24%nat) as -> by lia. apply evolves_ret. rewrite <- Et, <- Ek. by destruct t. }
  do 2 apply evolves_gets. rewrite !framebuffer_cell by lia.
  set (a := take (80 * i) (drop 80 c0)). set (x := take 80 (drop (80 * i) c0)).
  set (y := take 80 (drop (80 * i + 80) c0)). set (b := drop (80 * i + 160) c0).
  assert (length a = (80 * i)%nat) as La by (unfold a; rewrite length_take, length_drop; lia).
  assert (length x = 80%nat /\ length y = 80%nat) as [Lx Ly]
    by (unfold x, y; rewrite !length_take, !length_drop; lia).
  assert (tm_cells t = a ++ x ++ y ++ b) as Ea.
  { rewrite Et. unfold shifted. f_equal. rewrite <- (take_drop 80 (drop (80 * i) c0)) at 1. f_equal.
    rewrite drop_drop. rewrite <- (take_drop 80 (drop (80 * i + 80) c0)) at 1. f_equal.
    rewrite drop_drop. unfold b. f_equal. lia. }
  assert (a ++ y ++ y ++ b = shifted 80 (S i) c0) as Es.
  { unfold shifted. replace (80 * S i)%nat with (80 * i + 80)%nat by lia.
    rewrite <- (take_take_drop (drop 80 c0) (80 * i) 80), <- app_assoc. f_equal. rewrite drop_drop.
    replace (80 + 80 * i)%nat with (80 * i + 80)%nat by lia. fold y. f_equal.
    rewrite <- (take_drop 80 (drop (80 * i + 80) c0)). fold y. rewrite drop_drop. unfold b. do 2 f_equal. lia. }
  eapply evolves_bind.
  { replace (at_cursor (mk_cursor 0 (Z.of_nat i))) with (length a) by (rewrite La; unfold at_cursor; simpl; lia).
    replace (at_cursor (mk_cursor 0 (Z.of_nat i + 1))) with (length a + 80)%nat by (rewrite La; unfold at_cursor; simpl; lia).
    apply (move_line_step a x y b); [done..|]. rewrite Ea, !length_app, La, Lx, Ly. unfold b. rewrite length_drop. lia. }
  intros w1 D1 _. rewrite Es in D1.
  assert (length (tm_columns t) = 25%nat) as Lk
    by (rewrite Ek; unfold shifted; rewrite length_app, length_take, !length_drop; lia).
  destruct (lookup_lt_is_Some_2 k0 (S i)) as [v Hv]; [lia|].
  assert (nth (S i) (tm_columns t) 0 = v) as Hn.
  { apply nth_lookup_Some. rewrite Ek. unfold shifted. rewrite lookup_app_r; rewrite length_take, length_drop; [|lia].
    rewrite lookup_drop. rewrite <- Hv. f_equal. lia. }
  eapply evolves_bind; [apply (get_last_column_run (Z.of_nat i + 1) _ _ D1); [done|lia]|]. intros w2 D2 _.
  replace (Z.to_nat (Z.of_nat i + 1)) with (S i) by lia. cbn [tm_columns with_cells]. rewrite Hn.
  eapply evolves_bind.
  { apply (set_last_column_run (Z.of_nat i) v _ _ D2); [done|lia|]. by apply (Forall_lookup_1 _ _ _ _ Hkr Hv). }
  intros w3 D3 _. rewrite Nat2Z.id in D3. cbn [tm_columns with_cells] in D3.
  replace (Z.of_nat i + 1) with (Z.of_nat (S i)) by lia.
  apply (IH (S i) w3 _ D3); try done; [lia|]. cbn [tm_columns with_columns]. rewrite Ek. unfold shifted.
  rewrite !Nat.mul_1_l. rewrite (take_S_r _ _ v) by (by rewrite lookup_drop).
  rewrite insert_app_r_alt; rewrite length_take, length_drop; [|lia].
  replace (i - i `min` (length k0 - 1))%nat with 0%nat by lia. rewrite <- app_assoc. f_equal.
  destruct (lookup_lt_is_Some_2 k0 i) as [u Hu]; [lia|]. by rewrite (drop_S _ _ _ Hu).
Qed.

(** ** Scrolling and clearing *)

(** All the lines go one up, the last one stays. *)
Lemma scroll_lines_run w t :
  displays w t -> terminal_ok t ->
  evolves (scroll_lines 1) tt w
    (with_columns (drop 1 (tm_columns t) ++ [0]) (with_cells (shifted 80 24 (tm_cells t)) t)).
Proof.
  intros D [Hc _ _ Hk Hkr _ _]. cbn [scroll_lines].
  eapply evolves_bind; [apply (move_lines_run (tm_cells t) (tm_columns t) 24 0 w t D); done|].
  intros w1 D1 _. assert (length (shifted 1 24 (tm_columns t)) = 25%nat) as Hs
    by (unfold shifted; rewrite length_app, length_take, !length_drop; lia).
  eapply evolves_bind; [apply (set_last_column_run 24 0 w1 _ D1); [done|lia..]|]. intros w2 D2 _.
  apply evolves_ret. cbn [with_columns tm_columns] in D2.
  assert (<[Z.to_nat 24 := 0]> (shifted 1 24 (tm_columns t)) = drop 1 (tm_columns t) ++ [0]) as E; [|by rewrite E in D2].
  unfold shifted. change (Z.to_nat 24) with 24%nat. rewrite Nat.mul_1_l.
  rewrite (take_ge (drop 1 (tm_columns t))) by (rewrite length_drop; lia).
  rewrite insert_app_r_alt; rewrite length_drop; [|lia]. replace (24 - (length (tm_columns t) - 1))%nat with 0%nat by lia.
  destruct (lookup_lt_is_Some_2 (tm_columns t) 24) as [u Hu]; [lia|].
  by rewrite (drop_S _ _ _ Hu), (drop_ge _ 25) by lia.
Qed.

Lemma scroll_run w t :
  displays w t -> terminal_ok t ->
  evolves (vga_scroll SCROLL_DOWN 1) tt w (scroll_up (vga_cell 32 (screen_scheme w.2)) t).
Proof.
  intros D Hok. pose proof Hok as [Hc _ _ _ _ _ _]. unfold vga_scroll.
  rewrite (decide_False (P := VGA_TEXT_SCREEN_LINE_SIZE < 1)) by (unfold VGA_TEXT_SCREEN_LINE_SIZE; lia).
  rewrite decide_True by done. change (Z.to_nat 1) with 1%nat.
  set (blank := vga_cell 32 (screen_scheme w.2)).
  eapply (evolves_bind _ _ tt _ _ (with_columns (drop 1 (tm_columns t) ++ [0])
    (with_cells (fill (Z.to_nat (1920 + 0)) 80 blank (shifted 80 24 (tm_cells t))) t))).
  { eapply evolves_bind; [by apply scroll_lines_run|]. intros w1 D1 F1. unfold blank. rewrite <- (sf_scheme _ _ F1).
    apply (clear_last_line_run 80 0 w1 _ D1); [|lia..].
    cbn [tm_cells with_cells with_columns]. unfold shifted. rewrite length_app, length_take, !length_drop. lia. }
  intros w2 D2 _. cbn [tm_cells with_cells with_columns] in D2.
  assert (fill (Z.to_nat (1920 + 0)) 80 blank (shifted 80 24 (tm_cells t)) =
    drop 80 (tm_cells t) ++ replicate 80 blank) as E.
  { unfold fill, shifted. rewrite (take_ge (drop 80 (tm_cells t))) by (rewrite length_drop; lia).
    rewrite take_app_length' by (rewrite length_drop; lia).
    rewrite (drop_ge (_ ++ _)) by (rewrite length_app, !length_drop; lia). by rewrite app_nil_r. }
  rewrite E in D2.
  eapply evolves_bind; [apply (put_cursor_at_run (VGA_TEXT_SCREEN_LINE_SIZE - 1) 0 w2 _ D2); unfold VGA_TEXT_SCREEN_LINE_SIZE; lia|].
  intros w3 D3 _. apply evolves_gets. rewrite (dp_last _ _ D3). eapply evolves_dev; [reflexivity| |done|done].
  destruct D3 as [A1 A2 A3 A4]. by split.
Qed.

Lemma clear_screen_run w t :
  displays w t -> terminal_ok t ->
  evolves vga_clear_screen tt w
    (mk_terminal (replicate 2000 (vga_cell 32 (screen_scheme w.2))) (tm_cursor t) (tm_last t) (replicate 25 0)).
Proof.
  intros D [Hc _ _ Hk _ _ _]. unfold vga_clear_screen. apply evolves_gets.
  destruct (clear_lines_run 25 0 (vga_cell 32 (screen_scheme w.2)) w t D Hc Hk ltac:(lia) ltac:(lia)) as (w' & H & D' & F).
  exists w'. split; [done|]. split; [|done].
  assert (forall n v l, length l = n -> fill 0 n v l = replicate n v) as Hf.
  { intros n v l Hl. unfold fill. rewrite take_0, drop_ge by lia. by rewrite app_nil_r. }
  change (Z.to_nat (80 * 0)) with 0%nat in D'. change (Z.to_nat 0) with 0%nat in D'.
  change (80 * 25)%nat with 2000%nat in D'. by rewrite !Hf in D'.
Qed.

(** ** Characters *)

Section Driver.
Context (device : history -> Z -> Z) (polls : nat).
Hypothesis (Hdev : line_answers device polls COM1).

Lemma serial_copy_run c w t : displays w t -> 0 <= c < 256 ->
  evolves (in_dev (on_serial (serial_write device polls COM1 c))) tt w t.
Proof.
  intros [D1 D2 D3 D4] Hc.
  destruct (serial_write_answers device polls COM1 ltac:(by left) Hdev c (vga_serial w.2) Hc) as [s' Hs].
  eapply evolves_dev; [unfold on_serial, zoom; by rewrite Hs|by split|done|done].
Qed.

Lemma print_regular_run c w t t' :
  displays w t -> terminal_ok t -> type_regular (vga_cell c (screen_scheme w.2)) t = Some t' ->
  evolves (print_regular c) tt w t'.
Proof.
  intros D [Hc Hx Hy Hk _ _ _] Ht. unfold type_regular in Ht. destruct (tm_cursor t) as [x y] eqn:Ec.
  cbn [cur_x cur_y] in *. unfold print_regular. eapply evolves_cursor; [done|]. rewrite Ec. cbn [cur_x cur_y].
  assert (u32 (x + 1) = x + 1) as -> by (apply u32_small; lia).
  eapply evolves_bind.
  { eapply (evolves_dev _ _ _ (with_cursor (mk_cursor (x + 1) y) t)); [reflexivity| |done|done].
    destruct D as [A1 A2 A3 A4]. by split. }
  intros w1 D1 F1. rewrite <- (sf_scheme _ _ F1) in Ht.
  eapply evolves_bind; [by apply (print_char_run y x c w1 _ D1)|]. intros w2 D2 _.
  eapply evolves_cursor; [done|]. cbn [tm_cursor set_cell with_cursor cur_x cur_y].
  set (tc := set_cell (mk_cursor x y) (vga_cell c (screen_scheme w1.2)) (with_cursor (mk_cursor (x + 1) y) t)) in *.
  assert (forall u v, move_to u v (move_to u v tc) =
    move_to u v (set_cell (mk_cursor x y) (vga_cell c (screen_scheme w1.2)) t)) as Hmm.
  { intros u v. unfold move_to. cbn. by rewrite list_insert_insert_eq. }
  unfold VGA_TEXT_SCREEN_COL_SIZE, VGA_TEXT_SCREEN_LINE_SIZE. destruct (decide (x < 79)) as [Hlt|Hge].
  - injection Ht as <-. rewrite decide_False by lia.
    eapply evolves_bind; [by apply evolves_ret|]. intros w3 D3 _. eapply evolves_cursor; [done|].
    cbn [tm_cursor tc set_cell with_cursor cur_x cur_y]. rewrite decide_False by lia.
    apply (move_run y (x + 1) w3 tc D3); [done|lia|lia].
  - case_decide as Hy24; [|done]. injection Ht as <-. rewrite decide_True by lia.
    eapply evolves_bind; [apply (move_run (y + 1) 0 w2 tc D2); [done|lia|lia]|]. intros w3 D3 _.
    eapply evolves_cursor; [done|]. cbn [tm_cursor move_to cur_x cur_y]. rewrite decide_False by lia.
    rewrite <- Hmm.
    apply (move_run (y + 1) 0 w3 (move_to 0 (y + 1) tc) D3); [|lia..]. cbn. by rewrite length_insert.
Qed.

(** Past the last cell of the screen the driver writes after the end of
    [last_columns]. *)
Lemma print_regular_overflow c w t :
  displays w t -> terminal_ok t -> tm_cursor t = mk_cursor 79 24 -> print_regular c w = Fault.
Proof.
  intros D [Hc _ _ Hk _ _ _] Ec. unfold print_regular.
  assert (evolves (in_dev (modify (set_cursor (mk_cursor (u32 (79 + 1)) 24)))) tt w (with_cursor (mk_cursor 80 24) t)) as (w1 & H1 & D1 & F1).
  { eapply evolves_dev; [reflexivity| |done|done]. destruct D as [A1 A2 A3 A4]. by split. }
  destruct (print_char_run 24 79 c w1 _ D1 Hc ltac:(lia) ltac:(lia)) as (w2 & H2 & D2 & _).
  destruct (put_cursor_run 25 0 w2 _ D2 ltac:(lia) ltac:(lia)) as (w3 & H3 & D3 & _).
  assert (forall A (f : cursor_t -> M (world vga) A) w t, displays w t -> bind cursor f w = f (tm_cursor t) w) as Hcur.
  { intros A f [m s] t0 [_ E _ _]. cbn in *. unfold cursor, bind, in_dev, zoom, gets. cbn. by rewrite E. }
  rewrite (Hcur _ _ _ _ D), Ec. cbn [cur_x cur_y]. rewrite (bind_ret _ _ _ _ _ H1), (bind_ret _ _ _ _ _ H2).
  rewrite (Hcur _ _ _ _ D2). cbn [tm_cursor set_cell with_cursor cur_x cur_y]. rewrite decide_True by done.
  rewrite bind_assoc, (bind_ret _ _ _ _ _ H3).
  unfold mark_column at 1. rewrite bind_assoc, (Hcur _ _ _ _ D3). cbn [tm_cursor with_cursor cur_x cur_y].
  destruct w3 as [m3 s3]. unfold bind at 1, in_dev, zoom. cbn [fst snd].
  unfold set_last_column, bind at 1, gets. pose proof (dp_columns _ _ D3) as E. cbn [fst snd tm_columns with_cursor set_cell] in E.
  by rewrite E, decide_False by lia.
Qed.

Lemma erase_run w t :
  displays w t -> length (tm_cells t) = 2000%nat -> 0 <= cur_x (tm_cursor t) < 80 -> 0 <= cur_y (tm_cursor t) < 25 ->
  evolves erase tt w (set_cell (tm_cursor t) (vga_cell 32 (screen_scheme w.2)) t).
Proof.
  intros D Hc Hx Hy. unfold erase. eapply evolves_cursor; [done|].
  destruct (tm_cursor t) as [x y] eqn:E. eapply evolves_bind; [by apply (print_char_run y x 32 w t D)|].
  intros w1 D1 _. by apply evolves_ret.
Qed.

Lemma erase_back_run x y w t :
  displays w t -> length (tm_cells t) = 2000%nat -> length (tm_columns t) = 25%nat -> 0 < x < 80 -> 0 <= y < 25 ->
  evolves (put_cursor y (x - 1) >>> mark_column >>> erase) tt w
    (set_cell (mk_cursor (x - 1) y) (vga_cell 32 (screen_scheme w.2)) (move_to (x - 1) y t)).
Proof.
  intros D Hc Hk Hx Hy.
  destruct (move_run y (x - 1) w t D Hk ltac:(lia) Hy) as (w1 & H1 & D1 & F1). rewrite <- (sf_scheme _ _ F1).
  destruct (erase_run w1 _ D1 Hc) as (w2 & H2 & D2 & F2); [cbn; lia..|].
  exists w2. split; [|split; [done|by eapply frame_trans]].
  rewrite <- bind_assoc. by rewrite (bind_ret _ _ _ _ _ H1).
Qed.

Lemma backspace_run w t :
  displays w t -> terminal_ok t -> evolves backspace tt w (type_backspace (vga_cell 32 (screen_scheme w.2)) t).
Proof.
  intros D [Hc Hx Hy Hk Hkr Hlx Hly]. unfold backspace, type_backspace. eapply evolves_cursor; [done|].
  apply evolves_gets. rewrite (dp_last _ _ D). destruct (tm_cursor t) as [x y] eqn:Ec. cbn [cur_x cur_y] in *.
  destruct (decide (cur_y (tm_last t) = y)) as [He|Hne].
  - case_decide as Hgt.
    + rewrite !decide_True by lia. by apply erase_back_run; [..|lia|].
    + rewrite decide_False by lia. by apply evolves_ret.
  - case_decide as Hlt; [|rewrite decide_False by lia; by apply evolves_ret].
    rewrite (decide_True (P := cur_y (tm_last t) < y \/ _)) by lia.
    case_decide as Hx0; [rewrite decide_True by lia; by apply erase_back_run; [..|lia|]|].
    rewrite (decide_False (P := 0 < x)) by lia.
    set (k := nth (Z.to_nat (y - 1)) (tm_columns t) 0).
    assert (0 <= k < 256) as Hk0.
    { destruct (lookup_lt_is_Some_2 (tm_columns t) (Z.to_nat (y - 1))) as [v Hv]; [lia|].
      unfold k. rewrite (nth_lookup_Some _ _ _ _ Hv). by apply (Forall_lookup_1 _ _ _ _ Hkr Hv). }
    eapply evolves_bind; [apply (get_last_column_run (y - 1) w t D Hk); lia|]. fold k. intros w1 D1 F1.
    rewrite <- (sf_scheme _ _ F1). set (cols := if decide (k >= 80) then _ else _).
    eapply (evolves_bind _ _ tt tt _ (with_columns cols t)).
    { unfold VGA_TEXT_SCREEN_COL_SIZE, cols. case_decide.
      - apply (set_last_column_run (y - 1) (80 - 1) w1 t D1); [done|lia|lia].
      - apply evolves_ret. by destruct t. }
    intros w2 D2 F2. rewrite <- (sf_scheme _ _ F2).
    assert (length cols = 25%nat) as Lc by (unfold cols; case_decide; by rewrite ?length_insert).
    assert (nth (Z.to_nat (y - 1)) cols 0 = Z.min 79 k) as En.
    { unfold cols. case_decide.
      - erewrite nth_lookup_Some by (apply list_lookup_insert_eq; lia). lia.
      - fold k. lia. }
    eapply evolves_bind; [apply (get_last_column_run (y - 1) w2 _ D2); [done|lia]|]. intros w3 D3 F3.
    cbn [tm_columns with_columns]. rewrite En, <- (sf_scheme _ _ F3).
    destruct (put_cursor_run (y - 1) (Z.min 79 k) w3 _ D3 ltac:(lia) ltac:(lia)) as (w4 & H4 & D4 & F4).
    destruct (erase_run w4 _ D4 Hc) as (w5 & H5 & D5 & F5); [cbn; lia..|].
    exists w5. rewrite (bind_ret _ _ _ _ _ H4), <- (sf_scheme _ _ F4).
    split; [done|]. split; [done|by eapply frame_trans].
Qed.

(** *** The invariant *)

Lemma move_to_ok x y t : terminal_ok t -> 0 <= x < 80 -> 0 <= y < 25 -> terminal_ok (move_to x y t).
Proof.
  intros [A1 A2 A3 A4 A5 A6 A7] Hx Hy. split; cbn; try done; [by rewrite length_insert|].
  apply Forall_insert; [done|lia].
Qed.

Lemma set_cell_ok c v t : terminal_ok t -> terminal_ok (set_cell c v t).
Proof. intros [A1 A2 A3 A4 A5 A6 A7]. split; cbn; try done. by rewrite length_insert. Qed.

Lemma scroll_up_ok v t : terminal_ok t -> terminal_ok (scroll_up v t).
Proof.
  intros [A1 A2 A3 A4 A5 A6 A7]. split; cbn [tm_cells tm_cursor tm_last tm_columns scroll_up cur_x cur_y]; try lia.
  - rewrite length_app, length_drop, length_replicate. lia.
  - rewrite length_app, length_drop. simpl. lia.
  - apply Forall_app. split; [by apply Forall_drop|]. constructor; [lia|done].
  - case_decide; cbn; lia.
  - case_decide; cbn; lia.
Qed.

Lemma backspace_ok v t : terminal_ok t -> terminal_ok (type_backspace v t).
Proof.
  intros Hok. pose proof Hok as [A1 A2 A3 A4 A5 A6 A7]. unfold type_backspace.
  destruct (tm_cursor t) as [x y] eqn:E. cbn [cur_x cur_y] in *. case_decide as Hc; [|done].
  case_decide as Hx; [by apply set_cell_ok, move_to_ok; [|lia|]|].
  set (k := nth (Z.to_nat (y - 1)) (tm_columns t) 0).
  assert (0 <= k < 256) as Hk0.
  { destruct (lookup_lt_is_Some_2 (tm_columns t) (Z.to_nat (y - 1))) as [u Hu]; [lia|].
    unfold k. rewrite (nth_lookup_Some _ _ _ _ Hu). by apply (Forall_lookup_1 _ _ _ _ A5 Hu). }
  apply set_cell_ok. split; cbn; try done; try lia.
  - case_decide; [by rewrite length_insert|done].
  - case_decide; [apply Forall_insert; [done|lia]|done].
Qed.

Lemma type_char_ok blank v c t t' : terminal_ok t -> type_char blank v c t = Some t' -> terminal_ok t'.
Proof.
  intros Hok. pose proof Hok as [A1 A2 A3 A4 A5 A6 A7]. unfold type_char, type_regular.
  destruct (tm_cursor t) as [x y] eqn:E. cbn [cur_x cur_y] in *. intros H.
  repeat case_decide; simplify_eq; try done.
  - apply move_to_ok; [by apply set_cell_ok|lia|lia].
  - apply move_to_ok; [by apply set_cell_ok|lia|lia].
  - by apply backspace_ok.
  - pose proof (Z.mod_pos_bound x 8). apply move_to_ok; [done|lia|lia].
  - apply move_to_ok; [done|lia|lia].
  - apply move_to_ok; [done|lia|lia].
  - by apply scroll_up_ok.
  - split; cbn [tm_cells tm_cursor tm_last tm_columns]; try rewrite E; cbn [cur_x cur_y]; try done.
    by apply Forall_replicate.
  - apply move_to_ok; [done|lia|lia].
Qed.

(** *** One character *)

Lemma process_char_run c w t :
  displays w t -> terminal_ok t -> 0 <= c < 256 ->
  match type_char (vga_cell 32 (screen_scheme w.2)) (vga_cell c (screen_scheme w.2)) c t with
  | Some t' => evolves (vga_process_char device polls c) tt w t'
  | None => vga_process_char device polls c w = Fault
  end.
Proof.
  intros D Hok Hc. pose proof Hok as [A1 A2 A3 A4 A5 A6 A7]. unfold vga_process_char, type_char.
  destruct (serial_copy_run c w t D Hc) as (w1 & H1 & D1 & F1).
  rewrite <- (sf_scheme _ _ F1).
  assert (forall op t', evolves op tt w1 t' -> evolves
    (in_dev (on_serial (serial_write device polls COM1 c)) >>> op) tt w t') as Hgo.
  { intros op t' (w2 & H2 & D2 & F2). exists w2. rewrite (bind_ret _ _ _ _ _ H1).
    split; [done|]. split; [done|by eapply frame_trans]. }
  destruct (tm_cursor t) as [x y] eqn:E. cbn [cur_x cur_y] in *.
  destruct (decide (c > 31 /\ c < 127)).
  { destruct (type_regular (vga_cell c (screen_scheme w1.2)) t) as [t'|] eqn:Et.
    - apply Hgo. by apply (print_regular_run c w1 t).
    - rewrite (bind_ret _ _ _ _ _ H1). apply (print_regular_overflow c w1 t D1 Hok).
      unfold type_regular in Et. rewrite E in *. repeat case_decide; try done. f_equal; lia. }
  destruct (decide (c = 8)); [by apply Hgo, (backspace_run w1 t)|].
  destruct (decide (c = 9)).
  { apply Hgo. unfold tab. eapply evolves_cursor; [done|]. rewrite E. cbn [cur_x cur_y].
    unfold VGA_TEXT_SCREEN_COL_SIZE. pose proof (Z.mod_pos_bound x 8).
    destruct (decide (x + 8 < 79)); [rewrite decide_True by lia|rewrite decide_False by lia];
      (apply move_run; [done..|lia|lia]). }
  destruct (decide (c = 10)).
  { apply Hgo. unfold line_feed. eapply evolves_cursor; [done|]. rewrite E. cbn [cur_x cur_y].
    unfold VGA_TEXT_SCREEN_LINE_SIZE. destruct (decide (y < 24)).
    - rewrite decide_True by lia. apply move_run; [done..|lia|lia].
    - rewrite decide_False by lia. by apply scroll_run. }
  destruct (decide (c = 12)); [apply Hgo; rewrite <- E; by apply clear_screen_run|].
  destruct (decide (c = 13)); [|by apply Hgo, evolves_ret].
  apply Hgo. unfold line_return. eapply evolves_cursor; [done|]. rewrite E. apply move_run; [done..|lia|done].
Qed.

(** What [vga_put_char] does of a character, and [vga_put_string] of a
    string. *)
Definition put_typed (s : colorscheme_t) (c : Z) (t : terminal) : option terminal :=
  match type_char (vga_cell 32 s) (vga_cell c s) c t with
  | Some t => Some (mk_terminal (tm_cells t) (tm_cursor t) (tm_cursor t) (tm_columns t))
  | None => None
  end.

Fixpoint type_string (s : colorscheme_t) (l : list Z) (t : terminal) : option terminal :=
  match l with
  | [] => Some t
  | c :: l => match put_typed s c t with Some t => type_string s l t | None => None end
  end.

Lemma put_typed_ok s c t t' : terminal_ok t -> put_typed s c t = Some t' -> terminal_ok t'.
Proof.
  unfold put_typed. intros Hok. destruct (type_char _ _ _ _) as [t1|] eqn:E; [|done]. intros [= <-].
  destruct (type_char_ok _ _ _ _ _ Hok E). split; cbn; try done; lia.
Qed.

Lemma vga_put_char_run c w t :
  displays w t -> terminal_ok t -> 0 <= c < 256 ->
  match put_typed (screen_scheme w.2) c t with
  | Some t' => evolves (vga_put_char device polls c) tt w t'
  | None => vga_put_char device polls c w = Fault
  end.
Proof.
  intros D Hok Hc. pose proof (process_char_run c w t D Hok Hc) as H. unfold put_typed, vga_put_char.
  destruct (type_char _ _ _ _) as [t1|]; [|unfold bind; by rewrite H].
  eapply evolves_bind; [exact H|]. intros w1 D1 _. eapply evolves_cursor; [done|].
  eapply evolves_dev; [reflexivity| |done|done]. destruct D1 as [B1 B2 B3 B4]. by split.
Qed.

Lemma put_string_loop_refines string l : forall n k fuel w t,
  cstr w.1 string l -> apart (vga_framebuffer w.2) 4000 string (S (length l)) ->
  displays w t -> terminal_ok t -> drop k l = n -> (length n < fuel)%nat -> (k <= length l)%nat ->
  match type_string (screen_scheme w.2) n t with
  | Some t' => evolves (vga_put_string_loop device polls fuel string (Z.of_nat k)) tt w t' /\ terminal_ok t'
  | None => vga_put_string_loop device polls fuel string (Z.of_nat k) w = Fault
  end.
Proof.
  induction n as [|c n IH]; intros k [|fuel] [m s] t Hl Ha D Hok Hk Hf Hle; simpl in Hf; try lia;
    cbn [vga_put_string_loop type_string fst snd] in *.
  - apply (f_equal length) in Hk. rewrite length_drop in Hk. simpl in Hk. split; [|done].
    exists (m, s). rewrite (in_mem_run _ _ _ _ _ _ (strlen_ret _ _ _ Hl)), decide_False by lia.
    split; [done|]. split; [done|apply frame_refl].
  - assert (l !! k = Some c) as Hc by (rewrite <- (Nat.add_0_r k), <- lookup_drop, Hk; done).
    pose proof (lookup_lt_Some _ _ _ Hc). rewrite (in_mem_run _ _ _ _ _ _ (strlen_ret _ _ _ Hl)).
    rewrite decide_True by lia. pose proof (cs_bytes _ _ _ Hl) as Hb. apply bytes_at_app in Hb as [Hb _].
    assert (0 < c < 256) as Hcr by (by apply (Forall_lookup_1 _ _ _ _ (cs_chars _ _ _ Hl) Hc)).
    pose proof (vga_put_char_run c (m, s) t D Hok ltac:(lia)) as Hput. cbn [snd] in Hput.
    destruct (put_typed (screen_scheme s) c t) as [t1|] eqn:Et.
    2:{ rewrite (load_in_mem _ c) by (by apply Hb). unfold bind at 1. by rewrite Hput. }
    destruct Hput as (w1 & H1 & D1 & F1).
    assert (cstr w1.1 string l) as Hl1.
    { eapply cstr_frame; [exact Hl|]. intros i Hi. apply F1. simpl. unfold apart in Ha. lia. }
    assert (drop (S k) l = n) as Hk1 by (replace (S k) with (k + 1)%nat by lia; by rewrite <- drop_drop, Hk).
    specialize (IH (S k) fuel w1 t1 Hl1). rewrite (sf_fb _ _ F1), (sf_scheme _ _ F1) in IH. cbn [fst snd] in IH.
    specialize (IH Ha D1 (put_typed_ok _ _ _ _ Hok Et) Hk1 ltac:(lia) ltac:(lia)).
    replace (Z.of_nat (S k)) with (Z.of_nat k + 1) in IH by lia.
    destruct (type_string (screen_scheme s) n t1) as [t2|].
    + destruct IH as [(w2 & H2 & D2 & F2) Hok2]. split; [|done]. exists w2.
      rewrite (in_mem_run _ _ _ _ _ _ (strlen_ret _ _ _ Hl)), decide_True by lia.
      rewrite (load_in_mem _ c) by (by apply Hb). rewrite (bind_ret _ _ _ _ _ H1).
      split; [done|]. split; [done|by eapply frame_trans].
    + rewrite (load_in_mem _ c) by (by apply Hb). by rewrite (bind_ret _ _ _ _ _ H1).
Qed.
End Driver.

(** ** Properties *)

(** C21: The text driver refines the terminal: printing a string that lies
    outside of the frame buffer leaves on the screen what typing its
    characters one by one leaves on the terminal (wrapping, tabs, line feeds,
    scrolling, clearing), keeps the cursor on the screen and touches no other
    memory; when a character falls on the last cell of the screen the driver
    writes past its table. *)
Theorem vga_put_string_refines device polls string l w t :
  line_answers device polls COM1 -> cstr w.1 string l ->
  apart (vga_framebuffer w.2) 4000 string (S (length l)) -> displays w t -> terminal_ok t ->
  match type_string (screen_scheme w.2) l t with
  | Some t' => evolves (vga_put_string device polls string) tt w t' /\ terminal_ok t'
  | None => vga_put_string device polls string w = Fault
  end.
Proof.
  intros Hdev Hl Ha D Hok.
  pose proof (put_string_loop_refines device polls Hdev string l l 0 (mem_fuel w.1) w t Hl Ha D Hok
    eq_refl ltac:(apply cstr_fuel in Hl; lia) ltac:(lia)) as H.
  destruct w as [m s]. unfold vga_put_string, evolves. by rewrite (in_mem_run _ (mem_fuel m) m m).
Qed.

(** ** Witness *)

Definition demo_vga : vga :=
  mk_vga (mk_scheme 15 0 1) (mk_cursor 78 0) (mk_cursor 78 0) (replicate 25 0) VGA_TEXT_FRAMEBUFFER (mk_serial 0 []).
Definition demo_screen : terminal :=
  mk_terminal (replicate 2000 0) (mk_cursor 78 0) (mk_cursor 78 0) (replicate 25 0).
Definition demo_ram : mem := put (put ∅ 100 ([65; 66; 67; 10] ++ [0])) VGA_TEXT_FRAMEBUFFER (flat (replicate 2000 0)).

Definition demo_typed : option terminal := type_string (mk_scheme 15 0 1) [65; 66; 67; 10] demo_screen.

Lemma demo_typed_shows :
  match demo_typed with
  | Some t' => tm_cursor t' = mk_cursor 0 2 /\ take 3 (drop 78 (tm_cells t')) = [3905; 3906; 3907]
  | None => False
  end.
Proof. vm_compute. by split. Qed.

Lemma vga_put_string_refines_witness :
  (line_answers idle_device 1 COM1 /\ cstr demo_ram 100 [65; 66; 67; 10] /\
   apart VGA_TEXT_FRAMEBUFFER 4000 100 5 /\ displays (demo_ram, demo_vga) demo_screen /\ terminal_ok demo_screen) /\
  exists t', demo_typed = Some t' /\
    tm_cursor t' = mk_cursor 0 2 /\ take 3 (drop 78 (tm_cells t')) = [3905; 3906; 3907] /\
    evolves (vga_put_string idle_device 1 100) tt (demo_ram, demo_vga) t' /\ terminal_ok t'.
Proof.
  assert (line_answers idle_device 1 COM1) as Hd by apply idle_line_answers.
  assert (cstr demo_ram 100 [65; 66; 67; 10]) as Hs.
  { unfold demo_ram. apply cstr_put_apart; [rewrite length_flat, length_replicate; unfold apart; simpl; unfold VGA_TEXT_FRAMEBUFFER; lia|].
    apply cstr_put. unfold is_string. solve_string. }
  assert (apart VGA_TEXT_FRAMEBUFFER 4000 100 5) as Ha by (unfold apart, VGA_TEXT_FRAMEBUFFER; lia).
  assert (displays (demo_ram, demo_vga) demo_screen) as Hw by (split; try done; apply bytes_at_put).
  assert (terminal_ok demo_screen) as Hok.
  { split; try done; cbn; try lia. repeat constructor; lia. }
  split; [by split_and!|].
  pose proof (vga_put_string_refines idle_device 1 100 [65; 66; 67; 10] (demo_ram, demo_vga) demo_screen Hd Hs Ha Hw Hok) as H.
  pose proof demo_typed_shows as E. change (screen_scheme (demo_ram, demo_vga).2) with (mk_scheme 15 0 1) in H.
  unfold demo_typed in *. revert H E.
  generalize (type_string (mk_scheme 15 0 1) [65; 66; 67; 10] demo_screen). intros [t'|] H E; [|destruct E].
  destruct E as [E1 E2]. exists t'. split; [reflexivity|]. split; [exact E1|]. split; [exact E2|exact H].
Defined.
