(* ===== verification/Console.v ===== *)
(** * The console ([io/graphic.c], [io/kernel_output.c], [lib/printf.c], [lib/perror.c])

    The selected graphic driver and the functions that print through it, on
    top of the formatter of [KernelOutput].  A driver is a record of optional
    functions, as a structure of pointers; the two drivers of the record type
    are the serial one and the text screen.  The addresses of the string
    literals are a parameter. *)
From Stdlib Require Import String Ascii.
From S2P Require Import Prelude ByteMem Ports Serial KernelOutput Vga.

(** ** Drivers *)

(** [struct kernel_graphic_driver]; a buffer argument is [None] when the
    pointer is null, and its new content is returned. *)
Record kernel_graphic_driver_t : Type := mk_driver {
  clear_screen : option (M (world vga) unit);
  put_cursor_at : option (Z -> Z -> M (world vga) OS_RETURN_E);
  save_cursor : option (option cursor_t -> M (world vga) (OS_RETURN_E * option cursor_t));
  restore_cursor : option (cursor_t -> M (world vga) OS_RETURN_E);
  scroll : option (SCROLL_DIRECTION_E -> Z -> M (world vga) unit);
  set_color_scheme : option (colorscheme_t -> M (world vga) unit);
  save_color_scheme : option (option colorscheme_t -> M (world vga) (OS_RETURN_E * option colorscheme_t));
  put_string : option (Z -> M (world vga) unit);
  put_char : option (Z -> M (world vga) unit);
  console_write_keyboard : option (Z -> Z -> M (world vga) unit)
}.

(** The serial driver keeps its state in that of the text screen, which
    copies to it. *)
Definition on_line {A} (m : M (world serial) A) : M (world vga) A :=
  zoom (fun w => (fst w, vga_serial (snd w))) (fun r w => (fst r, set_serial (snd r) (snd w))) m.

Section Drivers.
Context (device : history -> Z -> Z) (polls : nat).

Definition serial_set_color_scheme (color_scheme : colorscheme_t) : M serial unit := ret tt.

Definition serial_text_driver : kernel_graphic_driver_t :=
  mk_driver
    (Some (in_dev (on_serial (serial_clear_screen device polls))))
    (Some (fun line column => in_dev (on_serial (serial_put_cursor_at line column))))
    (Some (fun buffer => in_dev (on_serial (let* err := serial_save_cursor in ret (err, buffer)))))
    (Some (fun buffer => in_dev (on_serial serial_restore_cursor)))
    (Some (fun direction lines_count =>
       in_dev (on_serial (serial_scroll device polls (bool_decide (direction = SCROLL_DOWN)) lines_count))))
    (Some (fun color_scheme => in_dev (on_serial (serial_set_color_scheme color_scheme))))
    (Some (fun buffer => in_dev (on_serial (let* err := serial_save_color_scheme in ret (err, buffer)))))
    (Some (fun string => on_line (serial_put_string device polls string)))
    (Some (fun character => on_line (serial_put_char device polls character)))
    (Some (fun str len => on_line (serial_console_write_keyboard device polls str len))).

Definition vga_text_driver : kernel_graphic_driver_t :=
  mk_driver
    (Some vga_clear_screen)
    (Some (fun line column => in_dev (vga_put_cursor_at line column)))
    (Some (fun buffer => in_dev (vga_save_cursor buffer)))
    (Some (fun buffer => in_dev (vga_restore_cursor buffer)))
    (Some vga_scroll)
    (Some (fun color_scheme => in_dev (vga_set_color_scheme color_scheme)))
    (Some (fun buffer => in_dev (vga_save_color_scheme buffer)))
    (Some (vga_put_string device polls))
    (Some (vga_put_char device polls))
    (Some (vga_console_write_keyboard device polls)).
End Drivers.

(** ** The variables of [graphic.c] and [kernel_output.c] *)

(** [current_output] holds two null pointers, then the two functions of
    [graphic.c] for ever. *)
Record console : Type := mk_console {
  graphic_driver : kernel_graphic_driver_t;
  output_set : bool;
  screen : vga
}.

Definition set_driver (v : kernel_graphic_driver_t) (c : console) : console := mk_console v (output_set c) (screen c).
Definition set_output (v : bool) (c : console) : console := mk_console (graphic_driver c) v (screen c).
Definition set_screen (v : vga) (c : console) : console := mk_console (graphic_driver c) (output_set c) v.

Definition on_screen {A} (m : M (world vga) A) : M (world console) A :=
  zoom (fun w => (fst w, screen (snd w))) (fun r w => (fst r, set_screen (snd r) (snd w))) m.

(** ** [graphic.c] *)

(** The argument is [None] when the pointer is null. *)
Definition graphic_set_selected_driver (driver : option kernel_graphic_driver_t) : M console OS_RETURN_E :=
  match driver with
  | Some (mk_driver (Some _) (Some _) (Some _) (Some _) (Some _) (Some _) (Some _) (Some _) (Some _) (Some _) as d) =>
      modify (set_driver d) >>> ret OS_NO_ERR
  | _ => ret OS_ERR_NULL_POINTER
  end.

Definition graphic_get_selected_driver : M console kernel_graphic_driver_t := gets graphic_driver.

(** A call through a field of the driver. *)
Definition driver_call {F A} (field : kernel_graphic_driver_t -> option F) (call : F -> M (world vga) A) :
    M (world console) A :=
  let* d := in_dev (gets graphic_driver) in
  match field d with Some f => on_screen (call f) | None => fault end.

Definition graphic_clear_screen : M (world console) unit := driver_call clear_screen (fun f => f).
Definition graphic_put_cursor_at (line column : Z) : M (world console) OS_RETURN_E :=
  driver_call put_cursor_at (fun f => f line column).
Definition graphic_save_cursor (buffer : option cursor_t) : M (world console) (OS_RETURN_E * option cursor_t) :=
  driver_call save_cursor (fun f => f buffer).
Definition graphic_restore_cursor (buffer : cursor_t) : M (world console) OS_RETURN_E :=
  driver_call restore_cursor (fun f => f buffer).
Definition graphic_scroll (direction : SCROLL_DIRECTION_E) (lines_count : Z) : M (world console) unit :=
  driver_call scroll (fun f => f direction lines_count).
Definition graphic_set_color_scheme (color_scheme : colorscheme_t) : M (world console) unit :=
  driver_call set_color_scheme (fun f => f color_scheme).
Definition graphic_save_color_scheme (buffer : option colorscheme_t) :
    M (world console) (OS_RETURN_E * option colorscheme_t) :=
  driver_call save_color_scheme (fun f => f buffer).
Definition graphic_put_string (str : Z) : M (world console) unit := driver_call put_string (fun f => f str).
Definition graphic_put_char (character : Z) : M (world console) unit := driver_call put_char (fun f => f character).
Definition graphic_console_write_keyboard (str len : Z) : M (world console) unit :=
  driver_call console_write_keyboard (fun f => f str len).

(** ** [kernel_output.c] *)

Definition BG_BLACK : Z := 0x00.
Definition FG_GREEN : Z := 0x02.
Definition FG_CYAN : Z := 0x03.
Definition FG_RED : Z := 0x04.
Definition FG_YELLOW : Z := 0x0E.

Definition graphic_output : output_t console := mk_output graphic_put_char graphic_put_string.
Definition null_output : output_t console := mk_output (fun _ => fault) (fun _ => fault).

Definition output_value (set : bool) : output_t console := if set then graphic_output else null_output.

(** [current_output], read at each call. *)
Definition current_output : output_t console :=
  mk_output (fun c => let* set := in_dev (gets output_set) in putc (output_value set) c)
            (fun s => let* set := in_dev (gets output_set) in puts (output_value set) s).

Section Print.
Context (device : history -> Z -> Z) (polls : nat).
(** The address of a string literal, that of [tmp_seq], and what the local
    [buffer] holds before it is written. *)
Context (literal : string -> Z) (tmp_seq : Z) (garbage : colorscheme_t).

(** The current output is passed by value. *)
Definition kprint_fmt (str : Z) (args : list Z) : M (world console) unit :=
  let* set := in_dev (gets output_set) in
  formater tmp_seq current_output (output_value set) str args.

Definition serial_output_of : output_t console :=
  mk_output (fun c => on_screen (on_line (serial_put_char device polls c)))
            (fun s => on_screen (on_line (serial_put_string device polls s))).

Definition kprint_fmt_serial (str : Z) (args : list Z) : M (world console) unit :=
  formater tmp_seq current_output serial_output_of str args.

Definition tag_printf (fmt : Z) (args : list Z) : M (world console) unit :=
  if decide (fmt = NULL) then ret tt else kprint_fmt fmt args.

(** The two assignments to the fields of [current_output]. *)
Definition use_graphic : M (world console) unit := in_dev (modify (set_output true)).

Definition kernel_printf (fmt : Z) (args : list Z) : M (world console) unit :=
  if decide (fmt = NULL) then ret tt else use_graphic >>> kprint_fmt fmt args.

(** The common text of [kernel_error], [kernel_success], [kernel_info] and
    [kernel_debug]. *)
Definition tagged (color : Z) (tag : string) (fmt : Z) (args : list Z) : M (world console) unit :=
  if decide (fmt = NULL) then ret tt
  else
    let new_scheme := mk_scheme color BG_BLACK 1 in
    use_graphic >>>
    let* r := graphic_save_color_scheme (Some garbage) in
    let buffer := default garbage (snd r) in
    graphic_set_color_scheme new_scheme >>>
    tag_printf (literal tag) [] >>>
    graphic_set_color_scheme buffer >>>
    kprint_fmt fmt args.

Definition kernel_error (fmt : Z) (args : list Z) : M (world console) unit := tagged FG_RED "[ERROR] " fmt args.
Definition kernel_success (fmt : Z) (args : list Z) : M (world console) unit := tagged FG_GREEN "[OK] " fmt args.
Definition kernel_info (fmt : Z) (args : list Z) : M (world console) unit := tagged FG_CYAN "[INFO] " fmt args.
Definition kernel_debug (fmt : Z) (args : list Z) : M (world console) unit := tagged FG_YELLOW "[DEBUG] " fmt args.

Definition kernel_serial_debug (fmt : Z) (args : list Z) : M (world console) unit :=
  if decide (fmt = NULL) then ret tt
  else kprint_fmt_serial (literal "[DEBUG] ") args >>> kprint_fmt_serial fmt args.

Definition kernel_doprint (str : Z) (args : list Z) : M (world console) unit :=
  if decide (str = NULL) then ret tt else use_graphic >>> kprint_fmt str args.

(** ** [lib/printf.c] *)

Definition vprintf (fmt : Z) (args : list Z) : M (world console) Z := kernel_doprint fmt args >>> ret 0.
Definition printf (fmt : Z) (args : list Z) : M (world console) Z := vprintf fmt args.
Definition putchar (c : Z) : M (world console) Z := graphic_put_char (u8 c) >>> ret (u8 c).

Fixpoint putchar_loop (fuel : nat) (s : Z) : M (world console) unit :=
  match fuel with
  | O => diverge
  | S fuel =>
    let* c := in_mem (load s) in
    if decide (c <> 0) then putchar c >>> putchar_loop fuel (s + 1) else ret tt
  end.

(** [puts] of the library. *)
Definition lib_puts (s : Z) : M (world console) Z :=
  let* fuel := in_mem (gets mem_fuel) in
  putchar_loop fuel s >>> putchar 10 >>> ret 0.

(** ** [lib/perror.c] *)

(** The cases of the [switch]. *)
Definition perror_cases : list (OS_RETURN_E * string) :=
  [(OS_ERR_OUT_OF_BOUND, "Index out of bound"%string);
   (OS_ERR_NO_MORE_FREE_EVENT, "No more free event to allocate"%string);
   (OS_ERR_NULL_POINTER, "Null pointer used"%string);
   (OS_ERR_NO_SUCH_ID, "No such id"%string);
   (OR_ERR_UNAUTHORIZED_INTERRUPT_LINE, "No such interrupt line or protected line"%string);
   (OS_ERR_INTERRUPT_ALREADY_REGISTERED, "A handler is already registered for this line."%string);
   (OS_ERR_INTERRUPT_NOT_REGISTERED, "Not any handler registered for this line."%string);
   (OS_ERR_NO_SUCH_IRQ_LINE, "No such IRQ line"%string);
   (OS_ERR_MALLOC, "Malloc error"%string);
   (OS_ERR_UNAUTHORIZED_ACTION, "Unauthorized action"%string);
   (OS_ERR_FORBIDEN_PRIORITY, "Forbiden priority"%string);
   (OS_ERR_MUTEX_UNINITIALIZED, "Mutex not initialized"%string);
   (OS_ERR_SEM_UNINITIALIZED, "Semaphore not initialized"%string);
   (OS_ERR_MAILBOX_NON_INITIALIZED, "Mailbox not initialized"%string);
   (OS_ERR_QUEUE_NON_INITIALIZED, "Queue not initialized"%string);
   (OS_ERR_NO_SEM_BLOCKED, "Thread is not blocked by semaphore"%string);
   (OS_ERR_NO_MUTEX_BLOCKED, "Thread is not blocked by mutex"%string);
   (OS_MUTEX_LOCKED, "Mutex locked"%string);
   (OS_SEM_LOCKED, "Semaphore locked"%string);
   (OS_ERR_GRAPHIC_MODE_NOT_SUPPORTED, "Graphic mode is not supported"%string);
   (OS_ERR_CHECKSUM_FAILED, "Checksum failed"%string);
   (OS_ERR_ACPI_UNSUPPORTED, "ACPI unsuported"%string);
   (OS_ERR_NO_SUCH_LAPIC_ID, "No such LAPIC id"%string);
   (OS_ERR_NO_SUCH_SERIAL_BAUDRATE, "Baudrate not supported"%string);
   (OS_ERR_NO_SUCH_SERIAL_PARITY, "Serial parity not supported"%string);
   (OS_ERR_ATA_DEVICE_NOT_PRESENT, "ATA device is not present"%string);
   (OS_ERR_ATA_DEVICE_ERROR, "ATA device error"%string);
   (OS_ERR_ATA_BAD_SECTOR_NUMBER, "ATA driver do not support this sector number"%string);
   (OS_ERR_ATA_SIZE_TO_HUGE,
     "ATA driver do not support this read/write size, try to divide your request into mulstiple read/write"%string);
   (OS_ERR_VESA_NOT_SUPPORTED, "VESA is not supported"%string);
   (OS_ERR_VESA_MODE_NOT_SUPPORTED, "VESA mode not supported"%string);
   (OS_ERR_VESA_NOT_INIT, "VESA driver non initialized"%string);
   (OS_ERR_NO_MORE_FREE_MEM, "No more free memory in the system"%string);
   (OS_ERR_PAGING_NOT_INIT, "Paging has not been initialized"%string);
   (OS_ERR_MAPPING_ALREADY_EXISTS, "Address already mapped to memory"%string);
   (OS_ERR_MEMORY_NOT_MAPPED, "Address is not mapped to memory"%string);
   (OS_ERR_SMBIOS_NOT_FOUND, "SMBIOS structures not found"%string);
   (OS_ERR_BAD_HANDLER, "Bad interrupt handler"%string);
   (OS_ERR_MBR_PARTITION_INDEX_TOO_LARGE, "MBR Partition index too large"%string);
   (OS_ERR_KERNEL_MEM_OFFSET_UNALIGNED, "Kernel alignment error"%string)].

Definition perror_text (error : Z) : string :=
  match list_find (fun c => OS_RETURN_code (fst c) = error) perror_cases with
  | Some (_, (_, text)) => text
  | None => "Unknown error"%string
  end.

Definition perror (error : Z) : M (world console) Z := printf (literal (perror_text error)) [] >>> ret 0.
End Print.
