(* ===== verification/ConsoleTheorems.v ===== *)
(** * The console: properties

    What the printing functions send when the serial driver is selected, and
    the selection of drivers. *)
From Stdlib Require Import String Ascii.
From S2P Require Import Prelude LibDiv ByteMem LibNum LibString LibStringTheorems Ports.
From S2P Require Import Serial KernelOutput KernelOutputTheorems SerialTheorems Vga Console.

(** ** Selection *)

Definition complete (d : kernel_graphic_driver_t) : Prop :=
  is_Some (clear_screen d) /\ is_Some (put_cursor_at d) /\ is_Some (save_cursor d) /\ is_Some (restore_cursor d) /\
  is_Some (scroll d) /\ is_Some (set_color_scheme d) /\ is_Some (save_color_scheme d) /\ is_Some (put_string d) /\
  is_Some (put_char d) /\ is_Some (console_write_keyboard d).

(** A field whose absence settles the refusal. *)
Ltac missing a :=
  destruct a;
    [|right; split;
        [by intros H; destruct_and!; match goal with H : is_Some None |- _ => destruct H end|by repeat case_match]].

(** A driver with all its functions is selected, any other is refused. *)
Lemma graphic_set_selected_driver_run d c :
  (complete d /\ graphic_set_selected_driver (Some d) c = Ret (OS_NO_ERR, set_driver d c)) \/
  (~ complete d /\ graphic_set_selected_driver (Some d) c = Ret (OS_ERR_NULL_POINTER, c)).
Proof.
  unfold complete. destruct d as [a1 a2 a3 a4 a5 a6 a7 a8 a9 a10]. cbn.
  missing a1. missing a2. missing a3. missing a4. missing a5.
  missing a6. missing a7. missing a8. missing a9. missing a10.
  left. split; [split_and!; by eexists|done].
Qed.

(** ** Plain text *)

Definition chars (s : string) : list Z := (fun a => Z.of_N (N_of_ascii a)) <$> list_ascii_of_string s.

(** No terminator and no directive. *)
Definition plain (s : string) : Prop := Forall (fun c => 0 < c < 256 /\ c <> 37) (chars s).

#[export] Instance plain_dec s : Decision (plain s).
Proof. unfold plain. apply _. Defined.

Lemma plain_items s : format_text (Lit <$> chars s) = chars s.
Proof. unfold format_text. induction (chars s) as [|c l IH]; [done|]. cbn. by rewrite IH. Qed.

Lemma plain_ok s : plain s -> Forall item_ok (Lit <$> chars s).
Proof. intros H. by apply Forall_fmap. Qed.

Lemma plain_shows m tmp s args : format_shows m tmp (Lit <$> chars s) args (chars s).
Proof.
  induction (chars s) as [|c l IH]; [constructor|]. cbn.
  apply (shows_item _ _ (Lit c) _ args [c] args l); [constructor|done].
Qed.

(** ** The serial driver *)

Section Console.
Context (device : history -> Z -> Z) (polls : nat).
Hypothesis (Hdev : line_answers device polls COM1).

(** The console when the initialised serial driver is selected. *)
Definition on_serial_driver (c : console) : Prop :=
  graphic_driver c = serial_text_driver device polls /\ serial_init_done (vga_serial (screen c)) <> 0.

(** The bytes sent on the line so far. *)
Definition line_bytes (c : console) : list Z := written COM1 (serial_ports (vga_serial (screen c))).

Definition console_line : channel console :=
  mk_channel (fun c => on_serial_driver c /\ output_set c = true) line_char line_bytes.

Definition with_line (s : serial) (c : console) : console := set_screen (set_serial s (screen c)) c.

Lemma on_line_run {A} (f : M (world serial) A) a m c s' :
  f (m, vga_serial (screen c)) = Ret (a, (m, s')) ->
  on_screen (on_line f) (m, c) = Ret (a, (m, with_line s' c)).
Proof. intros H. unfold on_screen, on_line, zoom. cbn. by rewrite H. Qed.

Lemma with_line_sent l c s' : on_serial_driver c -> output_set c = true ->
  sent (line COM1) (vga_serial (screen c)) l s' -> sent console_line c l (with_line s' c).
Proof. intros [Hd Hi] Ho [H1 H2]. by split. Qed.

Lemma graphic_run m c :
  on_serial_driver c ->
  (forall ch, graphic_put_char ch (m, c) = on_screen (on_line (serial_put_char device polls ch)) (m, c)) /\
  (forall str, graphic_put_string str (m, c) = on_screen (on_line (serial_put_string device polls str)) (m, c)) /\
  (forall b, graphic_save_color_scheme (Some b) (m, c) = Ret ((OS_ERR_NOT_SUPPORTED, Some b), (m, c))) /\
  (forall s, graphic_set_color_scheme s (m, c) = Ret (tt, (m, c))).
Proof.
  intros [Hd _]. destruct c as [d o s]. cbn in Hd. subst d. by destruct s.
Qed.

#[export] Instance serial_output_emits : Emits (serial_output_of device polls) console_line.
Proof.
  pose proof (serial_emits device polls Hdev) as [Hc Hs]. split.
  - intros x m c Hx [Hok Ho]. destruct (Hc x m (vga_serial (screen c)) Hx) as (s' & H1 & S1); [apply Hok|].
    exists (with_line s' c). split; [by apply on_line_run|by apply with_line_sent].
  - intros p l m c Hl [Hok Ho]. destruct (Hs p l m (vga_serial (screen c)) Hl) as (s' & H1 & S1); [apply Hok|].
    exists (with_line s' c). split; [by apply on_line_run|by apply with_line_sent].
Qed.

#[export] Instance graphic_emits : Emits graphic_output console_line.
Proof.
  split.
  - intros x m c Hx Hok. destruct (graphic_run m c (proj1 Hok)) as (H & _). cbn [putc graphic_output]. rewrite H.
    by apply (putc_emits (o := serial_output_of device polls)).
  - intros p l m c Hl Hok. destruct (graphic_run m c (proj1 Hok)) as (_ & H & _). cbn [puts graphic_output]. rewrite H.
    by apply (puts_emits (o := serial_output_of device polls)).
Qed.

#[export] Instance current_emits : Emits current_output console_line.
Proof.
  split.
  - intros x m c Hx Hok. cbn [putc current_output]. rewrite (in_dev_run _ (output_set c) m c c) by done.
    destruct Hok as [Hok Ho]. rewrite Ho. by apply (putc_emits (o := graphic_output)).
  - intros p l m c Hl Hok. cbn [puts current_output]. rewrite (in_dev_run _ (output_set c) m c c) by done.
    destruct Hok as [Hok Ho]. rewrite Ho. by apply (puts_emits (o := graphic_output)).
Qed.

(** ** Printing *)

Context (literal : string -> Z) (tmp : Z) (garbage : colorscheme_t).

Record literal_ok (m : mem) (s : string) : Prop := {
  lo_string : cstr m (literal s) (chars s);
  lo_apart : apart tmp 128 (literal s) (S (length (chars s)));
  lo_null : literal s <> NULL
}.

Lemma kprint_run m c str items args txt :
  on_serial_driver c -> output_set c = true -> cstr m str (format_text items) -> Forall item_ok items ->
  Forall is_word args -> mapped m tmp 128 -> apart tmp 128 str (S (length (format_text items))) ->
  format_shows m tmp items args txt ->
  exists m' c', kprint_fmt tmp str args (m, c) = Ret (tt, (m', c')) /\ scratch tmp m m' /\ sent console_line c txt c'.
Proof.
  intros Hs Ho Hf Hok Ha Hm Hap Ht. unfold kprint_fmt. rewrite (in_dev_run _ (output_set c) m c c) by done. rewrite Ho.
  by apply (formater_run graphic_output current_output console_line tmp m c str items).
Qed.

(** What a printing function does with any format, from a console that
    [ready] describes. *)
Definition prints_when (ready : console -> Prop) (print : Z -> list Z -> M (world console) unit) (tag : list Z) : Prop :=
  forall m c str items args txt,
  on_serial_driver c -> ready c -> str <> NULL -> cstr m str (format_text items) -> Forall item_ok items ->
  Forall is_word args -> mapped m tmp 128 -> apart tmp 128 str (S (length (format_text items))) ->
  format_shows m tmp items args txt ->
  Forall (literal_ok m) ["[ERROR] "; "[OK] "; "[INFO] "; "[DEBUG] "]%string ->
  exists m' c', print str args (m, c) = Ret (tt, (m', c')) /\ on_serial_driver c' /\
    line_bytes c' = line_bytes c ++ ((tag ++ txt) ≫= line_char) /\
    forall k, ~ (tmp <= k < tmp + 128) -> m' !! k = m !! k.

Definition prints : (Z -> list Z -> M (world console) unit) -> list Z -> Prop := prints_when (fun _ => True).

(** The traces on the serial line send their strings to the current output,
    which the first print sets. *)
Definition prints_after_first : (Z -> list Z -> M (world console) unit) -> list Z -> Prop :=
  prints_when (fun c => output_set c = true).

Lemma use_graphic_run {A} m c (k : unit -> M (world console) A) :
  bind use_graphic k (m, c) = k tt (m, set_output true c).
Proof. done. Qed.

Lemma printf_prints : prints (kernel_printf tmp) [].
Proof.
  intros m c str items args txt Hs _ Hn Hf Hok Ha Hm Hap Ht _. unfold kernel_printf.
  rewrite decide_False, use_graphic_run by done.
  destruct (kprint_run m (set_output true c) str items args txt) as (m' & c' & H & S & [[K _] E]); [done..|].
  exists m', c'. split; [done|]. split; [done|]. split; [done|apply S].
Qed.

Lemma tagged_prints color tag :
  In tag ["[ERROR] "; "[OK] "; "[INFO] "; "[DEBUG] "]%string -> plain tag ->
  prints (tagged literal tmp garbage color tag) (chars tag).
Proof.
  intros Hin Hp m c str items args txt Hs _ Hn Hf Hok Ha Hm Hap Ht Hl. unfold tagged.
  rewrite decide_False, use_graphic_run by done. set (c0 := set_output true c).
  assert (on_serial_driver c0) as Hs0 by done. destruct (graphic_run m c0 Hs0) as (_ & _ & Hsave & Hset).
  rewrite (bind_ret _ _ _ _ _ (Hsave _)), (bind_ret _ _ _ _ _ (Hset _)). unfold tag_printf.
  rewrite list.Forall_forall in Hl. destruct (Hl tag) as [L1 L2 L3]; [by apply list_elem_of_In|].
  rewrite decide_False by done.
  destruct (kprint_run m c0 (literal tag) (Lit <$> chars tag) [] (chars tag)) as (m1 & c1 & H1 & S1 & E1);
    rewrite ?plain_items; try done; [by apply plain_ok|apply plain_shows|].
  rewrite (bind_ret _ _ _ _ _ H1). destruct E1 as [[Hs1 Ho1] E1].
  destruct (graphic_run m1 c1 Hs1) as (_ & _ & _ & Hset1). rewrite (bind_ret _ _ _ _ _ (Hset1 _)).
  destruct (kprint_run m1 c1 str items args txt) as (m2 & c2 & H2 & S2 & [[Hs2 _] E2]); try done.
  - by eapply scratch_cstr.
  - by apply S1.
  - by eapply scratch_shows.
  - exists m2, c2. split; [done|]. split; [done|]. split.
    + change (line_bytes c) with (line_bytes c0). rewrite bind_app, app_assoc.
      change (ch_emitted console_line) with line_bytes in *. by rewrite E2, E1.
    + intros k Hk. rewrite (sc_others _ _ _ S2) by done. by apply S1.
Qed.

Lemma serial_debug_prints : prints_after_first (kernel_serial_debug device polls literal tmp) (chars "[DEBUG] ").
Proof.
  intros m c str items args txt Hs Ho Hn Hf Hok Ha Hm Hap Ht Hl. unfold kernel_serial_debug, kprint_fmt_serial.
  rewrite decide_False by done. rewrite list.Forall_forall in Hl.
  destruct (Hl "[DEBUG] "%string) as [L1 L2 L3]; [apply list_elem_of_In; simpl; auto|].
  destruct (formater_run (serial_output_of device polls) current_output console_line tmp m c (literal "[DEBUG] ")
    (Lit <$> chars "[DEBUG] ") args (chars "[DEBUG] ")) as (m1 & c1 & H1 & S1 & [Ok1 E1]);
    rewrite ?plain_items; try done; [apply plain_ok; unfold plain; cbn; solve_string|apply plain_shows|].
  rewrite (bind_ret _ _ _ _ _ H1). destruct Ok1 as [Hs1 Ho1].
  destruct (formater_run (serial_output_of device polls) current_output console_line tmp m1 c1 str items args txt)
    as (m2 & c2 & H2 & S2 & [[Hs2 _] E2]); try done.
  - by eapply scratch_cstr.
  - by apply S1.
  - by eapply scratch_shows.
  - exists m2, c2. split; [done|]. split; [done|]. split.
    + rewrite bind_app, app_assoc. change (ch_emitted console_line) with line_bytes in *. by rewrite E2, E1.
    + intros k Hk. rewrite (sc_others _ _ _ S2) by done. by apply S1.
Qed.

(** C29: When the selected driver is the initialised serial one, whose line
    becomes free within [polls] reads, [kernel_printf], [kernel_doprint],
    [kernel_error], [kernel_success], [kernel_info] and [kernel_debug] return
    for any format with its arguments and send on the first port exactly their
    tag and the text of the format, every line feed preceded by a carriage
    return; only the buffer [tmp_seq] of the memory changes.  So does
    [kernel_serial_debug] once one of the others has printed. *)
Theorem kernel_output_correct :
  prints (kernel_printf tmp) [] /\ prints (kernel_doprint tmp) [] /\
  prints (kernel_error literal tmp garbage) (chars "[ERROR] ") /\
  prints (kernel_success literal tmp garbage) (chars "[OK] ") /\
  prints (kernel_info literal tmp garbage) (chars "[INFO] ") /\
  prints (kernel_debug literal tmp garbage) (chars "[DEBUG] ") /\
  prints_after_first (kernel_serial_debug device polls literal tmp) (chars "[DEBUG] ").
Proof.
  split_and!; [apply printf_prints|apply printf_prints|apply tagged_prints..|apply serial_debug_prints]; simpl; auto;
    unfold plain; cbn; solve_string.
Qed.

(** ** [printf], [puts] and [perror] *)

Lemma vprintf_run fmt args w : fmt <> NULL ->
  vprintf tmp fmt args w = (kernel_printf tmp fmt args >>> ret 0) w.
Proof. done. Qed.

Lemma perror_texts_plain : Forall (fun c => plain (snd c)) perror_cases.
Proof. apply (bool_decide_unpack _). by vm_compute. Qed.

(** The serial traces send their strings elsewhere: before the first print
    the two functions of the current output are null. *)
Lemma serial_debug_string_faults m c p args :
  output_set c = false ->
  directive tmp current_output (serial_output_of device polls) 115 (mk_fmt true 4 0 false 32 (p :: args)) (m, c) = Fault.
Proof.
  intros Ho. rewrite (string_to_current_output _ _ _ _ p args) by done. cbn [puts current_output].
  rewrite bind_assoc, (in_dev_run _ (output_set c) m c c) by done. by rewrite Ho.
Qed.
End Console.

(** The codes without a text, the successful return among them. *)
Lemma perror_unknown e : perror_text (OS_RETURN_code e) = "Unknown error"%string <->
  In e [OS_NO_ERR; OS_ACPI_NOT_INITIALIZED; OS_ERR_BAD_PARTITION_FORMAT; OS_ERR_PART_ALREADY_MOUNTED;
    OS_ERR_PART_NOT_MOUNTED; OS_ERR_MOUNT_POINT_USED; OS_ERR_WRONG_MOUNT_POINT; OS_ERR_UNSUPPORTED_DEVICE_TYPE;
    OS_ERR_WRONG_FAT32_BPB; OS_ERR_WRONG_FILESYSTEM; OS_ERR_FAT32_BPS_NOT_SUPPORTED; OS_ERR_FAT32_REQ_TOO_BIG;
    OS_ERR_NOT_A_FOLDER; OS_ERR_FILE_NOT_FOUND; OS_ERR_NOT_A_FILE; OS_ERR_FILE_ALREADY_EXISTS; OS_ERR_BAD_CLUSTER;
    OS_ERR_BAD_FILE_NAME; OS_ERR_PERMISSION_DENIED; OS_ERR_NOT_SUPPORTED; OS_ERR_HANDLER_ALREADY_EXISTS].
Proof.
  split.
  - destruct e; try (intros H; exfalso; vm_compute in H; discriminate H); intros _; simpl; tauto.
  - simpl. intros H. repeat (destruct H as [<-|H]; [reflexivity|]). destruct H.
Qed.

(** ** Witness *)

Definition demo_literal (s : string) : Z :=
  if decide (s = "[ERROR] "%string) then 3000
  else if decide (s = "[OK] "%string) then 3020
  else if decide (s = "[INFO] "%string) then 3040 else 3060.

Definition put_literal (s : string) (m : mem) : mem := put m (demo_literal s) (chars s ++ [0]).

Definition tagged_memory : mem :=
  put_literal "[DEBUG] " (put_literal "[INFO] " (put_literal "[OK] " (put_literal "[ERROR] " demo_memory))).

Definition demo_console : console :=
  mk_console (serial_text_driver idle_device 1) false
    (mk_vga (mk_scheme 15 0 1) (mk_cursor 0 0) (mk_cursor 0 0) (replicate 25 0) VGA_TEXT_FRAMEBUFFER (mk_serial 1 [])).

Ltac literal_places :=
  change (demo_literal "[ERROR] ") with 3000; change (demo_literal "[OK] ") with 3020;
  change (demo_literal "[INFO] ") with 3040; change (demo_literal "[DEBUG] ") with 3060.

Ltac skip_literals := repeat (apply cstr_put_apart; [unfold apart; cbn; lia|]).

Lemma demo_literals :
  Forall (literal_ok demo_literal 2000 tagged_memory) ["[ERROR] "; "[OK] "; "[INFO] "; "[DEBUG] "]%string.
Proof.
  repeat (apply Forall_cons; split); try apply Forall_nil_2.
  all: split; [unfold tagged_memory, put_literal|..]; literal_places; try done; try (unfold apart; cbn; lia).
  all: skip_literals; apply cstr_put; unfold is_string; cbn; solve_string.
Qed.

Lemma kernel_output_correct_witness :
  (line_answers idle_device 1 COM1 /\ format_shows tagged_memory 2000 demo_items [42] [52; 50; 10]) /\
  exists m' c', kernel_error demo_literal 2000 (mk_scheme 0 0 0) 1000 [42] (tagged_memory, demo_console) = Ret (tt, (m', c')) /\
    line_bytes c' = [91; 69; 82; 82; 79; 82; 93; 32; 52; 50; 13; 10].
Proof.
  split; [split; [apply idle_line_answers|apply demo_shows]|].
  destruct (kernel_output_correct idle_device 1 (idle_line_answers COM1) demo_literal 2000 (mk_scheme 0 0 0))
    as (_ & _ & H & _).
  destruct demo_memory_ok as (Hs & Hok & Hm & Ha).
  assert (cstr tagged_memory 1000 (format_text demo_items)) as Hs'
    by (unfold tagged_memory, put_literal; literal_places;
        do 4 (apply cstr_put_apart; [unfold apart; cbn; lia|]); exact Hs).
  assert (mapped tagged_memory 2000 128) as Hm'
    by (unfold tagged_memory, put_literal; do 4 apply put_mapped; exact Hm).
  assert (on_serial_driver idle_device 1 demo_console) as Hd by (split; [reflexivity|discriminate]).
  assert (Forall is_word [42]) as Hw by (apply Forall_singleton; unfold is_word; lia).
  destruct (H tagged_memory demo_console 1000 demo_items [42] [52; 50; 10] Hd I ltac:(discriminate) Hs' Hok Hw Hm' Ha
    (demo_shows _) demo_literals) as (m' & c' & H1 & _ & E & _).
  exists m', c'. split; [exact H1|]. rewrite E. reflexivity.
Defined.
