(* ===== verification/Pic.v ===== *)
(** * The interrupt controller ([arch/x86/pic.c])

    The driver of the two cascaded controllers on the history of port
    accesses, and the driver structure it gives to the interrupt manager. *)
From S2P Require Import Prelude Critical Interrupts ByteMem Ports.

Definition PIC_MASTER_COMM_PORT : Z := 0x20.
Definition PIC_MASTER_DATA_PORT : Z := 0x21.
Definition PIC_SLAVE_COMM_PORT : Z := 0xa0.
Definition PIC_SLAVE_DATA_PORT : Z := 0xa1.
Definition PIC_EOI : Z := 0x20.
Definition PIC_ICW1_ICW4 : Z := 0x01.
Definition PIC_ICW1_INIT : Z := 0x10.
Definition PIC_ICW4_8086 : Z := 0x01.
Definition PIC_READ_ISR : Z := 0x0B.
Definition PIC_MAX_IRQ_LINE : Z := 15.
Definition PIC_CASCADING_IRQ : Z := 2.
Definition PIC_SPURIOUS_IRQ_MASK : Z := 0x80.
Definition PIC_SPURIOUS_IRQ_MASTER : Z := 0x07.
Definition PIC_SPURIOUS_IRQ_SLAVE : Z := 0x0F.
Definition INT_PIC_IRQ_OFFSET : Z := 0x30.
Definition PIC0_BASE_INTERRUPT_LINE : Z := INT_PIC_IRQ_OFFSET.
Definition PIC1_BASE_INTERRUPT_LINE : Z := INT_PIC_IRQ_OFFSET + 8.

Section Pic.
Context (device : history -> Z -> Z) (e : cpu_env).

Definition pic_init : M history OS_RETURN_E :=
  cpu_outb (Z.lor PIC_ICW1_ICW4 PIC_ICW1_INIT) PIC_MASTER_COMM_PORT >>>
  cpu_outb PIC0_BASE_INTERRUPT_LINE PIC_MASTER_DATA_PORT >>>
  cpu_outb 0x4 PIC_MASTER_DATA_PORT >>>
  cpu_outb PIC_ICW4_8086 PIC_MASTER_DATA_PORT >>>
  cpu_outb (Z.lor PIC_ICW1_ICW4 PIC_ICW1_INIT) PIC_SLAVE_COMM_PORT >>>
  cpu_outb PIC1_BASE_INTERRUPT_LINE PIC_SLAVE_DATA_PORT >>>
  cpu_outb 0x2 PIC_SLAVE_DATA_PORT >>>
  cpu_outb PIC_ICW4_8086 PIC_SLAVE_DATA_PORT >>>
  cpu_outb PIC_EOI PIC_MASTER_COMM_PORT >>>
  cpu_outb PIC_EOI PIC_SLAVE_COMM_PORT >>>
  cpu_outb 0xFF PIC_MASTER_DATA_PORT >>>
  cpu_outb 0xFF PIC_SLAVE_DATA_PORT >>>
  ret OS_NO_ERR.

(** ** Masks *)

(** [init_mask |= 1 << line] or [init_mask &= ~(1 << line)], on a byte. *)
Definition new_mask (line enabled init_mask : Z) : Z :=
  if decide (enabled = 0) then u8 (Z.lor init_mask (Z.shiftl 1 line))
  else u8 (Z.land init_mask (Z.lnot (Z.shiftl 1 line))).

(** Reads the mask, changes a line of it, writes it. *)
Definition update_mask (port line enabled : Z) : M history Z :=
  let* init_mask := cpu_inb device port in
  cpu_outb (new_mask line enabled init_mask) port >>>
  ret (new_mask line enabled init_mask).

(** What [pic_set_irq_mask] does in its critical section. *)
Definition set_mask (irq_number enabled : Z) : M history OS_RETURN_E :=
  (if decide (irq_number < 8) then update_mask PIC_MASTER_DATA_PORT irq_number enabled >>> ret tt else ret tt) >>>
  (if decide (irq_number > 7) then
     let cascading_number := irq_number - 8 in
     update_mask PIC_MASTER_DATA_PORT PIC_CASCADING_IRQ 1 >>>
     let* init_mask := update_mask PIC_SLAVE_DATA_PORT cascading_number enabled in
     if decide (init_mask = 0xFF) then update_mask PIC_MASTER_DATA_PORT PIC_CASCADING_IRQ 0 >>> ret tt else ret tt
   else ret tt) >>>
  ret OS_NO_ERR.

Definition pic_set_irq_mask (irq_number enabled : Z) : M (kstate history) OS_RETURN_E :=
  if decide (irq_number > PIC_MAX_IRQ_LINE) then ret OS_ERR_NO_SUCH_IRQ_LINE
  else critical e PicLock (lift (set_mask irq_number enabled)).

Definition pic_disable : M (kstate history) OS_RETURN_E :=
  critical e PicLock (lift (
    cpu_outb 0xFF PIC_MASTER_DATA_PORT >>> cpu_outb 0xFF PIC_SLAVE_DATA_PORT >>> ret OS_NO_ERR)).

(** ** Ends of interrupt *)

Definition pic_set_irq_eoi (irq_number : Z) : M history OS_RETURN_E :=
  if decide (irq_number > PIC_MAX_IRQ_LINE) then ret OS_ERR_NO_SUCH_IRQ_LINE
  else
    (if decide (irq_number > 7) then cpu_outb PIC_EOI PIC_SLAVE_COMM_PORT else ret tt) >>>
    cpu_outb PIC_EOI PIC_MASTER_COMM_PORT >>>
    ret OS_NO_ERR.

(** The register of the interrupts in service. *)
Definition read_isr (port : Z) : M history Z := cpu_outb PIC_READ_ISR port >>> cpu_inb device port.

Definition pic_handle_spurious_irq (int_number : Z) : M history INTERRUPT_TYPE_E :=
  let irq_number := u32 (int_number - INT_PIC_IRQ_OFFSET) in
  if decide (irq_number > PIC_MAX_IRQ_LINE) then ret INTERRUPT_TYPE_REGULAR
  else if decide (irq_number > 7) then
    if decide (irq_number <> PIC_SPURIOUS_IRQ_SLAVE) then ret INTERRUPT_TYPE_REGULAR
    else
      let* isr_val := read_isr PIC_SLAVE_COMM_PORT in
      if decide (Z.land isr_val PIC_SPURIOUS_IRQ_MASK <> 0) then ret INTERRUPT_TYPE_REGULAR
      else pic_set_irq_eoi PIC_CASCADING_IRQ >>> ret INTERRUPT_TYPE_SPURIOUS
  else
    if decide (irq_number <> PIC_SPURIOUS_IRQ_MASTER) then ret INTERRUPT_TYPE_REGULAR
    else
      let* isr_val := read_isr PIC_MASTER_COMM_PORT in
      if decide (Z.land isr_val PIC_SPURIOUS_IRQ_MASK <> 0) then ret INTERRUPT_TYPE_REGULAR
      else ret INTERRUPT_TYPE_SPURIOUS.

Definition pic_get_irq_int_line (irq_number : Z) : Z :=
  if decide (irq_number > PIC_MAX_IRQ_LINE) then -1 else irq_number + INT_PIC_IRQ_OFFSET.

(** ** The driver structure

    The manager's driver functions are functions of the controller: the
    operations above always return, and their critical section leaves the
    locks as they were. *)
Definition total {A} (m : M history A) (d : A) (h : history) : A * history :=
  match m h with Ret r => r | _ => (d, h) end.

Definition pic_driver : interrupt_driver history :=
  mk_driver
    (Some (fun irq_number enabled =>
       total (if decide (irq_number > PIC_MAX_IRQ_LINE) then ret OS_ERR_NO_SUCH_IRQ_LINE
              else set_mask irq_number enabled) OS_NO_ERR))
    (Some (fun irq_number => total (pic_set_irq_eoi irq_number) OS_NO_ERR))
    (Some (fun int_number => total (pic_handle_spurious_irq int_number) INTERRUPT_TYPE_REGULAR))
    (Some pic_get_irq_int_line).
End Pic.
