(* ===== verification/PicTheorems.v ===== *)
(** * The interrupt controller: properties

    The mask registers as a set of open lines, and the spurious
    interrupts. *)
From S2P Require Import Prelude Critical Interrupts ByteMem Ports Pic.

(** ** Bits of a byte *)

Definition is_byte (m : Z) : Prop := 0 <= m < 256.

Lemma byte_bits_eq m k : is_byte m -> is_byte k -> (forall i, 0 <= i < 8 -> Z.testbit m i = Z.testbit k i) -> m = k.
Proof.
  intros Hm Hk H. apply Z.bits_inj'. intros i Hi. destruct (decide (i < 8)); [by apply H|].
  rewrite !Z.bits_above_log2; try done; try apply Hm; try apply Hk.
  - destruct (decide (k = 0)) as [->|]; [simpl; lia|]. apply Z.log2_lt_pow2; [unfold is_byte in *; lia|].
    apply Z.lt_le_trans with (2 ^ 8); [unfold is_byte in *; lia|apply Z.pow_le_mono_r; lia].
  - destruct (decide (m = 0)) as [->|]; [simpl; lia|]. apply Z.log2_lt_pow2; [unfold is_byte in *; lia|].
    apply Z.lt_le_trans with (2 ^ 8); [unfold is_byte in *; lia|apply Z.pow_le_mono_r; lia].
Qed.

Lemma u8_byte v : is_byte (u8 v).
Proof. unfold is_byte, u8. apply Z.mod_pos_bound. lia. Qed.

Lemma u8_bit v i : 0 <= i < 8 -> Z.testbit (u8 v) i = Z.testbit v i.
Proof. intros. unfold u8. change 256 with (2 ^ 8). by rewrite Z.mod_pow2_bits_low by lia. Qed.

Lemma new_mask_bit line enabled m i : 0 <= line < 8 -> 0 <= i < 8 ->
  Z.testbit (new_mask line enabled m) i = if decide (i = line) then bool_decide (enabled = 0) else Z.testbit m i.
Proof.
  intros Hl Hi. assert (Z.testbit (Z.shiftl 1 line) i = bool_decide (i = line)) as Hs.
  { rewrite Z.shiftl_spec by lia. case_bool_decide as H; [by rewrite H, Z.sub_diag|].
    destruct (decide (i < line)); [apply Z.testbit_neg_r; lia|].
    by rewrite Z.bits_above_log2 by (simpl; lia). }
  unfold new_mask. destruct (decide (enabled = 0)) as [He|He]; rewrite u8_bit by done.
  - rewrite Z.lor_spec, Hs, (bool_decide_true (enabled = 0)) by done.
    case_decide; [rewrite bool_decide_true by done; apply orb_true_r|rewrite bool_decide_false by done; apply orb_false_r].
  - rewrite Z.land_spec, Z.lnot_spec, Hs, (bool_decide_false (enabled = 0)) by (done || lia).
    case_decide; [rewrite bool_decide_true by done; apply andb_false_r|rewrite bool_decide_false by done; apply andb_true_r].
Qed.

Lemma new_mask_byte line enabled m : is_byte (new_mask line enabled m).
Proof. unfold new_mask. case_decide; apply u8_byte. Qed.

(** ** The last byte sent to a port *)

Lemma last_inb port p v h : last (written port (h ++ [Inb p v])) = last (written port h).
Proof. rewrite written_app. f_equal. apply app_nil_r. Qed.

Lemma last_outb port v p h :
  last (written port (h ++ [Outb v p])) = if decide (p = port) then Some v else last (written port h).
Proof. rewrite written_app. unfold written at 2. simpl. case_decide; [apply last_snoc|by rewrite app_nil_r]. Qed.

(** ** The accesses to other ports *)

Definition io_port (x : io_event) : Z :=
  match x with Outb _ p | Inb p _ | Outw _ p | Inw p _ => p end.

Definition elsewhere (h : history) : history :=
  filter (fun x => io_port x <> PIC_MASTER_DATA_PORT /\ io_port x <> PIC_SLAVE_DATA_PORT) h.

Lemma elsewhere_app h k : elsewhere (h ++ k) = elsewhere h ++ elsewhere k.
Proof. apply filter_app. Qed.

Lemma update_mask_elsewhere device port line enabled : port = PIC_MASTER_DATA_PORT \/ port = PIC_SLAVE_DATA_PORT ->
  forall h, exists v h', update_mask device port line enabled h = Ret (v, h') /\ elsewhere h' = elsewhere h.
Proof.
  intros Hp h. eexists _, _. split; [reflexivity|]. rewrite !elsewhere_app.
  destruct Hp as [->| ->]; cbn; by rewrite !app_nil_r.
Qed.

(** A mask request makes no access to another port. *)
Lemma set_mask_elsewhere device irq enabled h r h' :
  set_mask device irq enabled h = Ret (r, h') -> elsewhere h' = elsewhere h.
Proof.
  pose proof (fun l e h => update_mask_elsewhere device _ l e (or_introl eq_refl) h) as Hm.
  pose proof (fun l e h => update_mask_elsewhere device _ l e (or_intror eq_refl) h) as Hs.
  unfold set_mask. destruct (decide (irq < 8)) as [Hlow|Hlow].
  - destruct (Hm irq enabled h) as (v & h1 & H1 & E1).
    rewrite !bind_assoc, (bind_ret _ _ _ _ _ H1), bind_ret_l, decide_False, bind_ret_l by lia.
    by intros [= <- <-].
  - rewrite bind_ret_l, decide_True by lia. rewrite !bind_assoc.
    destruct (Hm PIC_CASCADING_IRQ 1 h) as (v1 & h1 & H1 & E1). rewrite (bind_ret _ _ _ _ _ H1).
    destruct (Hs (irq - 8) enabled h1) as (v2 & h2 & H2 & E2). rewrite !bind_assoc, (bind_ret _ _ _ _ _ H2).
    case_decide.
    + destruct (Hm PIC_CASCADING_IRQ 0 h2) as (v3 & h3 & H3 & E3).
      rewrite !bind_assoc, (bind_ret _ _ _ _ _ H3), !bind_ret_l. intros [= <- <-]. by rewrite E3, E2.
    + rewrite !bind_ret_l. intros [= <- <-]. by rewrite E2.
Qed.

(** ** The mask registers *)

Section Pic.
Context (device : history -> Z -> Z) (e : cpu_env).

(** A controller gives back the mask it was last sent. *)
Definition masks_read (port : Z) : Prop :=
  forall h m, last (written port h) = Some m -> device h port = m.

Hypothesis (Hmaster : masks_read PIC_MASTER_DATA_PORT).
Hypothesis (Hslave : masks_read PIC_SLAVE_DATA_PORT).

(** The line is open in a mask. *)
Definition is_open (m line : Z) : Prop := Z.testbit m line = false.

(** The masks [mm] and [sm] let exactly the lines of [E] through: a line of
    the second controller also needs the cascade. *)
Record masks_show (mm sm : Z) (E : gset Z) : Prop := {
  ms_master : is_byte mm;
  ms_slave : is_byte sm;
  ms_low i : 0 <= i < 8 -> i <> PIC_CASCADING_IRQ -> is_open mm i <-> i ∈ E;
  ms_high i : 8 <= i < 16 -> is_open sm (i - 8) <-> i ∈ E;
  ms_cascade : is_open mm PIC_CASCADING_IRQ <-> exists i, 8 <= i < 16 /\ i ∈ E;
}.

Definition pic_shows (h : history) (E : gset Z) : Prop :=
  exists mm sm, last (written PIC_MASTER_DATA_PORT h) = Some mm /\
    last (written PIC_SLAVE_DATA_PORT h) = Some sm /\ masks_show mm sm E.

(** The registers after a history. *)
Definition masks_are (mm sm : Z) (h : history) : Prop :=
  last (written PIC_MASTER_DATA_PORT h) = Some mm /\ last (written PIC_SLAVE_DATA_PORT h) = Some sm /\
  is_byte mm /\ is_byte sm.

Lemma update_master line enabled mm sm h : masks_are mm sm h ->
  exists h', update_mask device PIC_MASTER_DATA_PORT line enabled h = Ret (new_mask line enabled mm, h') /\
    masks_are (new_mask line enabled mm) sm h'.
Proof.
  intros (H1 & H2 & B1 & B2). unfold update_mask, bind, cpu_inb. rewrite (Hmaster _ _ H1).
  assert (u8 mm = mm) as -> by (apply Z.mod_small; exact B1). eexists. split; [done|].
  split_and!; [| |apply new_mask_byte|done]; rewrite last_outb, last_inb; [|done].
  f_equal. apply Z.mod_small, new_mask_byte.
Qed.

Lemma update_slave line enabled mm sm h : masks_are mm sm h ->
  exists h', update_mask device PIC_SLAVE_DATA_PORT line enabled h = Ret (new_mask line enabled sm, h') /\
    masks_are mm (new_mask line enabled sm) h'.
Proof.
  intros (H1 & H2 & B1 & B2). unfold update_mask, bind, cpu_inb. rewrite (Hslave _ _ H2).
  assert (u8 sm = sm) as -> by (apply Z.mod_small; exact B2). eexists. split; [done|].
  split_and!; [| |done|apply new_mask_byte]; rewrite last_outb, last_inb; [done|].
  f_equal. apply Z.mod_small, new_mask_byte.
Qed.

(** *** The sets of open lines

    [clear]: the set tactics would make every lemma depend on the controller. *)

Definition request (irq enabled : Z) (E : gset Z) : gset Z :=
  if decide (enabled = 0) then E ∖ {[irq]} else {[irq]} ∪ E.

Lemma elem_request i irq enabled E : i ∈ request irq enabled E <-> if decide (i = irq) then enabled <> 0 else i ∈ E.
Proof. clear Hmaster Hslave. unfold request. repeat case_decide; set_solver. Qed.

Lemma open_new_mask m line enabled i : 0 <= line < 8 -> 0 <= i < 8 ->
  is_open (new_mask line enabled m) i <-> if decide (i = line) then enabled <> 0 else is_open m i.
Proof.
  clear Hmaster Hslave. intros Hl Hi. unfold is_open. rewrite new_mask_bit by done. case_decide; [|done].
  case_bool_decide; naive_solver.
Qed.

(** A full second mask is one without open lines. *)
Lemma full_mask sm (E : gset Z) : is_byte sm -> (forall i, 8 <= i < 16 -> is_open sm (i - 8) <-> i ∈ E) ->
  sm = 0xFF <-> ~ exists i, 8 <= i < 16 /\ i ∈ E.
Proof.
  intros Hb Hi. split.
  - intros -> (i & Hr & Hin). apply (Hi i Hr) in Hin. unfold is_open in Hin.
    assert (exists n, (n < 8)%nat /\ i - 8 = Z.of_nat n) as (n & Hn & En) by (exists (Z.to_nat (i - 8)); lia).
    rewrite En in Hin. do 8 (destruct n as [|n]; [by vm_compute in Hin|]). lia.
  - intros Hno. apply byte_bits_eq; [done|unfold is_byte; lia|]. intros i Hr.
    assert (Z.testbit 255 i = true) as ->.
    { assert (exists n, (n < 8)%nat /\ i = Z.of_nat n) as (n & Hn & ->) by (exists (Z.to_nat i); lia).
      do 8 (destruct n as [|n]; [done|]). lia. }
    apply not_false_iff_true. intros Ho. apply Hno. exists (i + 8). split; [lia|]. apply Hi; [lia|].
    unfold is_open. by rewrite Z.add_simpl_r.
Qed.

Lemma exists_high (E : gset Z) : Decision (exists i, 8 <= i < 16 /\ i ∈ E).
Proof.
  destruct (decide (Exists (fun i => i ∈ E) (seqZ 8 8))) as [H|H]; [left|right].
  - apply Exists_exists in H as (i & Hi%elem_of_seqZ & HE). exists i. split; [lia|done].
  - intros (i & Hi & HE). apply H, Exists_exists. exists i. split; [apply elem_of_seqZ; lia|done].
Qed.

Lemma low_step mm sm E irq enabled : masks_show mm sm E -> 0 <= irq < 8 -> irq <> PIC_CASCADING_IRQ ->
  masks_show (new_mask irq enabled mm) sm (request irq enabled E).
Proof.
  intros [B1 B2 Hl Hh Hc] Hi Hn. split; [apply new_mask_byte|done|..].
  - intros i Hr Hi2. rewrite open_new_mask, elem_request by done. case_decide; [done|by apply Hl].
  - intros i Hr. rewrite elem_request, decide_False by lia. by apply Hh.
  - rewrite open_new_mask, decide_False, Hc by (done || (unfold PIC_CASCADING_IRQ in *; lia)).
    split; intros (i & Hr & HE); exists i; (split; [done|]); [|revert HE];
      rewrite elem_request, decide_False by lia; done.
Qed.

Lemma high_step mm sm E irq enabled : masks_show mm sm E -> 8 <= irq < 16 ->
  let mm1 := new_mask PIC_CASCADING_IRQ 1 mm in
  let sm' := new_mask (irq - 8) enabled sm in
  masks_show (if decide (sm' = 0xFF) then new_mask PIC_CASCADING_IRQ 0 mm1 else mm1) sm' (request irq enabled E).
Proof.
  intros [B1 B2 Hl Hh Hc] Hi mm1 sm'. set (E' := request irq enabled E).
  assert (is_byte sm') as Bs by apply new_mask_byte.
  assert (forall i, 8 <= i < 16 -> is_open sm' (i - 8) <-> i ∈ E') as Hh'.
  { intros i Hr. unfold sm', E'. rewrite open_new_mask, elem_request by lia.
    destruct (decide (i = irq)); [by rewrite decide_True by lia|]. rewrite decide_False by lia. by apply Hh. }
  pose proof (full_mask sm' E' Bs Hh') as Hf. pose proof (exists_high E') as Hd.
  assert (0 <= PIC_CASCADING_IRQ < 8) as Hcr by (unfold PIC_CASCADING_IRQ; lia).
  assert (forall i, 0 <= i < 8 -> i <> PIC_CASCADING_IRQ -> is_open mm i <-> i ∈ E') as Hl'.
  { intros i Hr Hi2. unfold E'. rewrite elem_request, decide_False by lia. by apply Hl. }
  case_decide as Hs.
  - split; [apply new_mask_byte|done| |done|].
    + intros i Hr Hi2. unfold mm1. rewrite open_new_mask, decide_False by done.
      rewrite open_new_mask, decide_False by done. by apply Hl'.
    + rewrite open_new_mask, decide_True by done. apply Hf in Hs. split; [done|]. intros H. by destruct Hs.
  - split; [apply new_mask_byte|done| |done|].
    + intros i Hr Hi2. unfold mm1. rewrite open_new_mask, decide_False by done. by apply Hl'.
    + unfold mm1. rewrite open_new_mask, decide_True by done. split; [intros _|done].
      destruct Hd as [H|H]; [done|]. by apply Hf in H.
Qed.

Lemma set_mask_shows irq enabled h E : pic_shows h E -> 0 <= irq < 16 -> irq <> PIC_CASCADING_IRQ ->
  exists h', set_mask device irq enabled h = Ret (OS_NO_ERR, h') /\ pic_shows h' (request irq enabled E).
Proof.
  intros (mm & sm & H1 & H2 & S) Hi Hn.
  assert (masks_are mm sm h) as A0 by (split_and!; try done; apply S).
  unfold set_mask. destruct (decide (irq < 8)) as [Hlow|Hlow].
  - destruct (update_master irq enabled mm sm h A0) as (h1 & R1 & A1).
    rewrite !bind_assoc, (bind_ret _ _ _ _ _ R1), bind_ret_l, decide_False, bind_ret_l by lia.
    exists h1. split; [done|]. destruct A1 as (L1 & L2 & _). eexists _, sm. split; [done|]. split; [done|].
    apply low_step; [done|lia|done].
  - rewrite bind_ret_l, decide_True by lia. rewrite !bind_assoc.
    destruct (update_master PIC_CASCADING_IRQ 1 mm sm h A0) as (h1 & R1 & A1). rewrite (bind_ret _ _ _ _ _ R1).
    destruct (update_slave (irq - 8) enabled _ sm h1 A1) as (h2 & R2 & A2).
    rewrite !bind_assoc, (bind_ret _ _ _ _ _ R2).
    pose proof (high_step mm sm E irq enabled S ltac:(lia)) as Hstep. cbv zeta in Hstep.
    case_decide as Hs.
    + destruct (update_master PIC_CASCADING_IRQ 0 _ _ h2 A2) as (h3 & R3 & A3).
      rewrite !bind_assoc, (bind_ret _ _ _ _ _ R3), !bind_ret_l. exists h3. split; [done|].
      destruct A3 as (L1 & L2 & _). eexists _, _. split; [done|]. split; [done|done].
    + rewrite !bind_ret_l. exists h2. split; [done|].
      destruct A2 as (L1 & L2 & _). eexists _, _. split; [done|]. split; [done|done].
Qed.

Lemma pic_init_shows h : exists h', pic_init h = Ret (OS_NO_ERR, h') /\ pic_shows h' ∅.
Proof.
  clear Hmaster Hslave. eexists. split; [reflexivity|]. exists 0xFF, 0xFF. split_and!.
  - cbn. repeat rewrite last_outb. done.
  - cbn. repeat rewrite last_outb. done.
  - split; unfold is_byte; try lia.
    + intros i Hr _. split; [|set_solver]. intros Ho. exfalso. revert Ho.
      assert (0xFF = Z.ones 8) as -> by done. unfold is_open. by rewrite Z.ones_spec_low by lia.
    + intros i Hr. split; [|set_solver]. intros Ho. exfalso. revert Ho.
      assert (0xFF = Z.ones 8) as -> by done. unfold is_open. by rewrite Z.ones_spec_low by lia.
    + split; [done|]. set_solver.
Qed.

(** ** Sequences of requests *)

(** The requests one after the other. *)
Fixpoint requests (l : list (Z * Z)) : M (kstate history) unit :=
  match l with
  | [] => ret tt
  | (irq, enabled) :: l => pic_set_irq_mask device e irq enabled >>> requests l
  end.

Definition requested (l : list (Z * Z)) (E : gset Z) : gset Z := foldl (fun E r => request r.1 r.2 E) E l.

Definition request_ok (r : Z * Z) : Prop := 0 <= r.1 < 16 /\ r.1 <> PIC_CASCADING_IRQ.

Lemma pic_set_irq_mask_run irq enabled t E :
  flag_ok t -> lock_free PicLock t -> pic_shows (core t) E -> 0 <= irq < 16 -> irq <> PIC_CASCADING_IRQ ->
  exists t', pic_set_irq_mask device e irq enabled t = Ret (OS_NO_ERR, t') /\ same_locks t t' /\
    pic_shows (core t') (request irq enabled E).
Proof.
  intros Hf Hl Hs Hi Hn. unfold pic_set_irq_mask. rewrite decide_False by (unfold PIC_MAX_IRQ_LINE; lia).
  destruct (set_mask_shows irq enabled _ _ Hs Hi Hn) as (h' & R & Hs').
  destruct (critical_lift e PicLock _ t _ _ Hf Hl R) as (t' & Ht & Hc & Hsl).
  exists t'. split_and!; [done..|]. by rewrite Hc.
Qed.

(** C23: After the initialisation and any sequence of mask requests, the
    cascade line apart, the two mask registers let exactly the lines through
    whose last request enabled them: a line of the second controller is open
    there and the cascade of the first is open if and only if one is. *)
Theorem pic_masks_refine l t :
  flag_ok t -> lock_free PicLock t -> Forall request_ok l ->
  exists t', (lift pic_init >>> requests l) t = Ret (tt, t') /\ same_locks t t' /\
    pic_shows (core t') (requested l ∅).
Proof.
  intros Hf Hl Hok. destruct (pic_init_shows (core t)) as (h & Hi & Hs).
  rewrite (exec_lift _ _ _ _ _ Hi).
  assert (same_locks t (with_core h t)) as Hst by (by split).
  assert (flag_ok (with_core h t)) as Hf1 by done. assert (lock_free PicLock (with_core h t)) as Hl1 by done.
  change h with (core (with_core h t)) in Hs. revert Hf1 Hl1 Hs Hst. generalize (with_core h t) (∅ : gset Z).
  clear Hi Hf Hl. induction Hok as [|[irq enabled] l [Hr Hn] _ IH]; intros t1 E Hf Hl Hs Hst.
  { exists t1. by split_and!. }
  destruct (pic_set_irq_mask_run irq enabled t1 E Hf Hl Hs Hr Hn) as (t2 & H2 & S2 & Hs2).
  cbn [requests]. rewrite (bind_ret _ _ _ _ _ H2).
  destruct (IH t2 (request irq enabled E)) as (t3 & H3 & S3 & Hs3);
    [by eapply same_locks_flag|by eapply same_locks_free|done|by eapply same_locks_trans|].
  exists t3. by split_and!.
Qed.
End Pic.

(** ** Spurious interrupts *)

(** Only lines 7 and 15 can be spurious, when their bit in the register of the
    interrupts in service is clear; the first controller then gets the end of
    the cascaded interrupt. *)
Lemma spurious_classified device n h : 0 <= n < 256 ->
  let isr port := u8 (device (h ++ [Outb PIC_READ_ISR port]) port) in
  let asked port := (h ++ [Outb PIC_READ_ISR port]) ++ [Inb port (isr port)] in
  pic_handle_spurious_irq device n h =
    if decide (n = 0x37) then
      Ret (if Z.testbit (isr PIC_MASTER_COMM_PORT) 7 then INTERRUPT_TYPE_REGULAR else INTERRUPT_TYPE_SPURIOUS,
           asked PIC_MASTER_COMM_PORT)
    else if decide (n = 0x3F) then
      if Z.testbit (isr PIC_SLAVE_COMM_PORT) 7 then Ret (INTERRUPT_TYPE_REGULAR, asked PIC_SLAVE_COMM_PORT)
      else Ret (INTERRUPT_TYPE_SPURIOUS, asked PIC_SLAVE_COMM_PORT ++ [Outb PIC_EOI PIC_MASTER_COMM_PORT])
    else Ret (INTERRUPT_TYPE_REGULAR, h).
Proof.
  intros Hn isr asked.
  assert (forall v, Z.land v PIC_SPURIOUS_IRQ_MASK <> 0 <-> Z.testbit v 7 = true) as Hbit.
  { intros v. unfold PIC_SPURIOUS_IRQ_MASK. change 128 with (2 ^ 7). split.
    - intros H. apply not_false_iff_true. intros Hb. apply H. apply Z.bits_inj'. intros i Hi.
      rewrite Z.land_spec, Z.pow2_bits_eqb, Z.bits_0 by lia. destruct (Z.eqb_spec 7 i) as [<-|]; [by rewrite Hb|].
      apply andb_false_r.
    - intros Hb H. apply (f_equal (fun x => Z.testbit x 7)) in H. rewrite Z.land_spec, Hb in H. done. }
  unfold pic_handle_spurious_irq, INT_PIC_IRQ_OFFSET, PIC_MAX_IRQ_LINE, PIC_SPURIOUS_IRQ_SLAVE, PIC_SPURIOUS_IRQ_MASTER.
  destruct (decide (n < 48)) as [Hs|Hs].
  { rewrite decide_True by (unfold u32; Z.div_mod_to_equations; lia). rewrite !decide_False by lia. done. }
  assert (u32 (n - 48) = n - 48) as -> by (apply u32_small; lia).
  destruct (decide (n - 48 > 15)); [rewrite !decide_False by lia; done|].
  destruct (decide (n - 48 > 7)).
  - rewrite (decide_False (P := n = 55)) by lia. destruct (decide (n = 63)) as [->|]; [|by rewrite decide_True by lia].
    rewrite decide_False by lia. unfold read_isr, bind, cpu_inb, cpu_outb, modify. fold (isr PIC_SLAVE_COMM_PORT).
    fold (asked PIC_SLAVE_COMM_PORT). destruct (Z.testbit _ 7) eqn:Hb.
    + rewrite decide_True by (by apply Hbit). done.
    + rewrite decide_False by (intros Hc%Hbit; by pose proof (eq_trans (eq_sym Hc) Hb)). done.
  - rewrite (decide_False (P := n = 63)) by lia. destruct (decide (n = 55)) as [->|]; [|by rewrite decide_True by lia].
    rewrite decide_False by lia. unfold read_isr, bind, cpu_inb, cpu_outb, modify. fold (isr PIC_MASTER_COMM_PORT).
    fold (asked PIC_MASTER_COMM_PORT). destruct (Z.testbit _ 7) eqn:Hb.
    + rewrite decide_True by (by apply Hbit). done.
    + rewrite decide_False by (intros Hc%Hbit; by pose proof (eq_trans (eq_sym Hc) Hb)). done.
Qed.

(** ** The controller under the interrupt manager *)

(** A mask request through the manager, once the driver is selected. *)
Lemma manager_mask_run device s irq enabled E :
  masks_read device PIC_MASTER_DATA_PORT -> masks_read device PIC_SLAVE_DATA_PORT ->
  driver s = pic_driver device -> pic_shows (controller s) E -> 0 <= irq < 16 -> irq <> PIC_CASCADING_IRQ ->
  exists h, kernel_interrupt_set_irq_mask irq enabled s = Ret (OS_NO_ERR, with_controller h s) /\
    pic_shows h (request irq enabled E) /\ elsewhere h = elsewhere (controller s).
Proof.
  intros Hm Hs Hd HE Hr Hn. destruct (set_mask_shows device Hm Hs irq enabled _ E HE Hr Hn) as (h & R & HE').
  exists h. split; [|split; [done|by eapply set_mask_elsewhere]]. unfold kernel_interrupt_set_irq_mask, bind, gets, call_driver. rewrite Hd. cbn.
  rewrite decide_False by (unfold PIC_MAX_IRQ_LINE; lia). unfold total. by rewrite R.
Qed.

(** ** Witness *)

Definition mask_device (h : history) (port : Z) : Z := default 0 (last (written port h)).

Lemma mask_device_reads port : masks_read mask_device port.
Proof. intros h m H. unfold mask_device. by rewrite H. Qed.

Lemma pic_masks_refine_witness :
  (masks_read mask_device PIC_MASTER_DATA_PORT /\ Forall request_ok [(1, 1); (9, 1); (9, 0); (12, 1)]) /\
  exists t', (lift pic_init >>> requests mask_device (mk_cpu 0 2) [(1, 1); (9, 1); (9, 0); (12, 1)])
      (mk_kstate [] 1 (fun _ => SPINLOCK_INIT_VALUE)) = Ret (tt, t') /\
    same_locks (mk_kstate [] 1 (fun _ => SPINLOCK_INIT_VALUE)) t' /\ pic_shows (core t') {[1; 12]}.
Proof.
  assert (Forall request_ok [(1, 1); (9, 1); (9, 0); (12, 1)]) as Hok
    by (repeat constructor; unfold PIC_CASCADING_IRQ; simpl; lia).
  split; [split; [apply mask_device_reads|exact Hok]|].
  assert (requested [(1, 1); (9, 1); (9, 0); (12, 1)] ∅ = {[1; 12]}) as <- by (vm_compute; reflexivity).
  apply (pic_masks_refine mask_device (mk_cpu 0 2) (mask_device_reads _) (mask_device_reads _));
    [by right|reflexivity|exact Hok].
Defined.
