(* ===== verification/Timers.v ===== *)
(** * The two timers ([arch/x86/pit.c], [arch/x86/rtc.c])

    Both drivers on the interrupt manager, whose controller state is the
    history of port accesses.  [pit_enable] and [rtc_enable] have the same
    body on the variables of their file, and so have the two [..._disable]. *)
From S2P Require Import Prelude Critical Interrupts ByteMem Ports.

Definition PIT_IRQ_LINE : Z := 0.
Definition RTC_IRQ_LINE : Z := 8.

Definition PIT_COMM_PORT : Z := 0x34.
Definition PIT_DATA_PORT : Z := 0x40.
Definition PIT_COMM_SET_FREQ : Z := 0x43.
Definition PIT_QUARTZ_FREQ : Z := 0x1234DD.
Definition PIT_INIT_FREQ : Z := 100.
Definition PIT_MIN_FREQ : Z := 20.
Definition PIT_MAX_FREQ : Z := 8000.

Definition RTC_INIT_RATE : Z := 10.
Definition RTC_MIN_FREQ : Z := 2.
Definition RTC_MAX_FREQ : Z := 8192.
Definition RTC_QUARTZ_FREQ : Z := 32768.
Definition CMOS_SECONDS_REGISTER : Z := 0x00.
Definition CMOS_MINUTES_REGISTER : Z := 0x02.
Definition CMOS_HOURS_REGISTER : Z := 0x04.
Definition CMOS_DAY_REGISTER : Z := 0x07.
Definition CMOS_MONTH_REGISTER : Z := 0x08.
Definition CMOS_YEAR_REGISTER : Z := 0x09.
Definition CMOS_CENTURY_REGISTER : Z := 0x00.
Definition CMOS_NMI_DISABLE_BIT : Z := 0x01.
Definition CMOS_ENABLE_RTC : Z := 0x40.
Definition CMOS_REG_A : Z := 0x0A.
Definition CMOS_REG_B : Z := 0x0B.
Definition CMOS_REG_C : Z := 0x0C.
Definition CMOS_COMM_PORT : Z := 0x70.
Definition CMOS_DATA_PORT : Z := 0x71.
Definition UINT32_MAX : Z := 0xFFFFFFFF.

(** ** The variables of the two files and the manager *)

Record date_t : Type := mk_date { weekday : Z; day : Z; month : Z; year : Z }.

#[export] Instance date_eq_dec : EqDecision date_t.
Proof. solve_decision. Defined.

Record timers : Type := mk_timers {
  pit_nesting : Z;  (* disabled_nesting of pit.c *)
  tick_freq : Z;
  rtc_nesting : Z;  (* disabled_nesting of rtc.c *)
  rtc_frequency : Z;
  day_time : Z;
  date : date_t;
  manager : int_state history
}.

Definition set_pit_nesting (v : Z) (s : timers) : timers :=
  mk_timers v (tick_freq s) (rtc_nesting s) (rtc_frequency s) (day_time s) (date s) (manager s).
Definition set_tick_freq (v : Z) (s : timers) : timers :=
  mk_timers (pit_nesting s) v (rtc_nesting s) (rtc_frequency s) (day_time s) (date s) (manager s).
Definition set_rtc_nesting (v : Z) (s : timers) : timers :=
  mk_timers (pit_nesting s) (tick_freq s) v (rtc_frequency s) (day_time s) (date s) (manager s).
Definition set_rtc_frequency (v : Z) (s : timers) : timers :=
  mk_timers (pit_nesting s) (tick_freq s) (rtc_nesting s) v (day_time s) (date s) (manager s).
Definition set_day_time (v : Z) (s : timers) : timers :=
  mk_timers (pit_nesting s) (tick_freq s) (rtc_nesting s) (rtc_frequency s) v (date s) (manager s).
Definition set_date (v : date_t) (s : timers) : timers :=
  mk_timers (pit_nesting s) (tick_freq s) (rtc_nesting s) (rtc_frequency s) (day_time s) v (manager s).
Definition set_manager (v : int_state history) (s : timers) : timers :=
  mk_timers (pit_nesting s) (tick_freq s) (rtc_nesting s) (rtc_frequency s) (day_time s) (date s) v.

Definition on_manager {A} (m : M (int_state history) A) : M timers A := zoom manager set_manager m.

Definition ports {A} (m : M history A) : M timers A :=
  on_manager (zoom controller with_controller m).

(** What is proper to a file: its line, its lock, its [disabled_nesting]. *)
Record timer_file : Type := mk_file {
  irq_line : Z;
  file_lock : lock_id;
  nesting_of : timers -> Z;
  set_nesting : Z -> timers -> timers
}.

Definition pit_file : timer_file := mk_file PIT_IRQ_LINE PitLock pit_nesting set_pit_nesting.
Definition rtc_file : timer_file := mk_file RTC_IRQ_LINE RtcLock rtc_nesting set_rtc_nesting.

Section Timers.
Context (device : history -> Z -> Z) (e : cpu_env).
(** The addresses of the two functions [dummy_handler]. *)
Context (pit_dummy_handler rtc_dummy_handler : Z).

(** ** Enabling and disabling *)

Definition less_nesting (f : timer_file) (s : timers) : timers :=
  if decide (nesting_of f s > 0) then set_nesting f (nesting_of f s - 1) s else s.

Definition more_nesting (f : timer_file) (s : timers) : timers :=
  if decide (nesting_of f s < UINT32_MAX) then set_nesting f (nesting_of f s + 1) s else s.

Definition timer_enable (f : timer_file) : M (kstate timers) OS_RETURN_E :=
  let* x := ENTER_CRITICAL e (file_lock f) in
  lift (modify (less_nesting f)) >>>
  let* n := lift (gets (nesting_of f)) in
  if decide (n = 0) then
    EXIT_CRITICAL e x (file_lock f) >>>
    lift (on_manager (kernel_interrupt_set_irq_mask (irq_line f) 1))
  else EXIT_CRITICAL e x (file_lock f) >>> ret OS_NO_ERR.

Definition timer_disable (f : timer_file) : M (kstate timers) OS_RETURN_E :=
  critical e (file_lock f) (lift (
    modify (more_nesting f) >>> on_manager (kernel_interrupt_set_irq_mask (irq_line f) 0))).

Definition pit_enable : M (kstate timers) OS_RETURN_E := timer_enable pit_file.
Definition pit_disable : M (kstate timers) OS_RETURN_E := timer_disable pit_file.
Definition rtc_enable : M (kstate timers) OS_RETURN_E := timer_enable rtc_file.
Definition rtc_disable : M (kstate timers) OS_RETURN_E := timer_disable rtc_file.

(** ** Frequencies *)

(** Between the two macros: the timer is disabled, then programmed. *)
Definition reprogram (f : timer_file) (set : M timers unit) : M (kstate timers) OS_RETURN_E :=
  let* x := ENTER_CRITICAL e (file_lock f) in
  let* err := timer_disable f in
  if decide (err <> OS_NO_ERR) then EXIT_CRITICAL e x (file_lock f) >>> ret err
  else lift set >>> EXIT_CRITICAL e x (file_lock f) >>> timer_enable f.

Definition pit_divisor (freq : Z) : Z := u16 (PIT_QUARTZ_FREQ / freq).

Definition program_pit (freq : Z) : M timers unit :=
  modify (set_tick_freq freq) >>>
  ports (cpu_outb PIT_COMM_SET_FREQ PIT_COMM_PORT) >>>
  ports (cpu_outb (Z.land (pit_divisor freq) 0x00FF) PIT_DATA_PORT) >>>
  ports (cpu_outb (Z.shiftr (pit_divisor freq) 8) PIT_DATA_PORT).

Definition pit_set_frequency (freq : Z) : M (kstate timers) OS_RETURN_E :=
  if decide (freq < PIT_MIN_FREQ \/ freq > PIT_MAX_FREQ) then ret OS_ERR_OUT_OF_BOUND
  else reprogram pit_file (program_pit freq).

Definition pit_get_frequency (s : timers) : Z := tick_freq s.

Definition rtc_rate (frequency : Z) : Z :=
  if decide (frequency < 4) then 15
  else if decide (frequency < 8) then 14
  else if decide (frequency < 16) then 13
  else if decide (frequency < 32) then 12
  else if decide (frequency < 64) then 11
  else if decide (frequency < 128) then 10
  else if decide (frequency < 256) then 9
  else if decide (frequency < 512) then 8
  else if decide (frequency < 1024) then 7
  else if decide (frequency < 2048) then 6
  else if decide (frequency < 4096) then 5
  else if decide (frequency < 8192) then 4
  else 3.

(** Selects a register of the CMOS and reads it. *)
Definition cmos_read (reg : Z) : M history Z :=
  cpu_outb reg CMOS_COMM_PORT >>> cpu_inb device CMOS_DATA_PORT.

(** With the interrupts of the CMOS masked. *)
Definition nmi_off (reg : Z) : Z := Z.lor (Z.shiftl CMOS_NMI_DISABLE_BIT 7) reg.

Definition cmos_update (reg : Z) (f : Z -> Z) : M history unit :=
  let* prev := cmos_read (nmi_off reg) in
  cpu_outb (nmi_off reg) CMOS_COMM_PORT >>> cpu_outb (f prev) CMOS_DATA_PORT.

Definition program_rtc (rate : Z) : M timers unit :=
  ports (cmos_update CMOS_REG_A (fun prev_rate => Z.lor (Z.land prev_rate 0xF0) rate)) >>>
  modify (set_rtc_frequency (Z.shiftr RTC_QUARTZ_FREQ (rate - 1))).

Definition rtc_set_frequency (frequency : Z) : M (kstate timers) OS_RETURN_E :=
  if decide (frequency < RTC_MIN_FREQ \/ frequency > RTC_MAX_FREQ) then ret OS_ERR_OUT_OF_BOUND
  else reprogram rtc_file (program_rtc (rtc_rate frequency)).

Definition rtc_get_frequency (s : timers) : Z := rtc_frequency s.

(** ** Handlers *)

Definition register_irq (irq handler : Z) : M (kstate timers) OS_RETURN_E :=
  kzoom manager set_manager (kernel_interrupt_register_irq_handler e irq handler).
Definition remove_irq (irq : Z) : M (kstate timers) OS_RETURN_E :=
  kzoom manager set_manager (kernel_interrupt_remove_irq_handler e irq).

Definition pit_set_handler (handler : Z) : M (kstate timers) OS_RETURN_E :=
  if decide (handler = NULL) then ret OS_ERR_NULL_POINTER
  else
    let* x := ENTER_CRITICAL e PitLock in
    let* err := pit_disable in
    if decide (err <> OS_NO_ERR) then EXIT_CRITICAL e x PitLock >>> ret err
    else
      let* err := remove_irq PIT_IRQ_LINE in
      if decide (err <> OS_NO_ERR) then EXIT_CRITICAL e x PitLock >>> pit_enable >>> ret err
      else
        let* err := register_irq PIT_IRQ_LINE handler in
        if decide (err <> OS_NO_ERR) then EXIT_CRITICAL e x PitLock >>> pit_enable >>> ret err
        else EXIT_CRITICAL e x PitLock >>> pit_enable.

(** After a failed registration the timer is not enabled again. *)
Definition rtc_set_handler (handler : Z) : M (kstate timers) OS_RETURN_E :=
  if decide (handler = NULL) then ret OS_ERR_NULL_POINTER
  else
    let* x := ENTER_CRITICAL e RtcLock in
    let* err := rtc_disable in
    if decide (err <> OS_NO_ERR) then EXIT_CRITICAL e x RtcLock >>> ret err
    else
      let* err := remove_irq RTC_IRQ_LINE in
      if decide (err <> OS_NO_ERR) then EXIT_CRITICAL e x RtcLock >>> rtc_enable >>> ret err
      else
        let* err := register_irq RTC_IRQ_LINE handler in
        if decide (err <> OS_NO_ERR) then EXIT_CRITICAL e x RtcLock >>> ret err
        else EXIT_CRITICAL e x RtcLock >>> rtc_enable.

Definition pit_remove_handler : M (kstate timers) OS_RETURN_E := pit_set_handler pit_dummy_handler.
Definition rtc_remove_handler : M (kstate timers) OS_RETURN_E := rtc_set_handler rtc_dummy_handler.
Definition pit_get_irq : Z := PIT_IRQ_LINE.
Definition rtc_get_irq : Z := RTC_IRQ_LINE.

(** ** The time of day *)

(** What is read, before any conversion; the variables have 8 bits but
    [hours] and the fields of the date. *)
Record raw_time : Type := mk_raw {
  r_seconds : Z; r_minutes : Z; r_hours : Z; r_day : Z; r_month : Z; r_year : Z; r_reg_b : Z
}.

Definition read_time : M history raw_time :=
  let* seconds := cmos_read CMOS_SECONDS_REGISTER in
  let* minutes := cmos_read CMOS_MINUTES_REGISTER in
  let* hours := cmos_read CMOS_HOURS_REGISTER in
  let* day := cmos_read CMOS_DAY_REGISTER in
  let* month := cmos_read CMOS_MONTH_REGISTER in
  let* year := cmos_read CMOS_YEAR_REGISTER in
  let* reg_b := cmos_read CMOS_REG_B in
  ret (mk_raw seconds minutes hours day month year reg_b).

Definition bcd (v : Z) : Z := Z.land v 0x0F + (v / 16) * 10.

(** The conversion from BCD when the bit 2 of the register B is clear. *)
Definition convert_bcd (t : raw_time) : raw_time :=
  if decide (Z.land (r_reg_b t) 0x04 = 0) then
    mk_raw (u8 (bcd (r_seconds t))) (u8 (bcd (r_minutes t)))
      (Z.lor (Z.land (r_hours t) 0x0F + (Z.land (r_hours t) 0x70 / 16) * 10) (Z.land (r_hours t) 0x80))
      (bcd (r_day t)) (bcd (r_month t)) (bcd (r_year t)) (r_reg_b t)
  else t.

(** To 24 hours when the bit 1 is clear. *)
Definition convert_hours (t : raw_time) : Z :=
  if decide (Z.land (r_reg_b t) 0x02 = 0 /\ Z.land (r_hours t) 0x80 >= 1)
  then (Z.land (r_hours t) 0x7F + 12) mod 24 else r_hours t.

(** [CMOS_CENTURY_REGISTER] is 0: the century is not read. *)
Definition compute_date (t : raw_time) : date_t :=
  let year := u16 (r_year t + 2000) in
  mk_date ((r_day t + r_month t + year + year / 4 + 1) mod 7 + 1) (r_day t) (r_month t) year.

Definition rtc_update_time : M timers unit :=
  let* t := ports read_time in
  let t := convert_bcd t in
  let hours := convert_hours t in
  modify (set_date (compute_date t)) >>>
  modify (set_day_time (u32 (r_seconds t + 60 * r_minutes t + 3600 * hours))) >>>
  ports (cmos_read CMOS_REG_C) >>> ret tt.

Definition rtc_get_current_daytime (s : timers) : Z := day_time s.
Definition rtc_get_current_date (s : timers) : date_t := date s.

(** [dummy_handler] of each file. *)
Definition pit_tick : M timers unit := on_manager (kernel_interrupt_set_irq_eoi PIT_IRQ_LINE) >>> ret tt.
Definition rtc_tick : M timers unit :=
  rtc_update_time >>> on_manager (kernel_interrupt_set_irq_eoi RTC_IRQ_LINE) >>> ret tt.

(** ** Initialisation *)

Definition pit_init : M (kstate timers) OS_RETURN_E :=
  lift (modify (set_pit_nesting 1)) >>>
  let* err := pit_set_frequency PIT_INIT_FREQ in
  if decide (err <> OS_NO_ERR) then ret err
  else
    let* err := register_irq PIT_IRQ_LINE pit_dummy_handler in
    if decide (err <> OS_NO_ERR) then ret err else pit_enable.

Definition rtc_init : M (kstate timers) OS_RETURN_E :=
  lift (modify (set_day_time 0)) >>>
  lift (modify (set_date (mk_date 0 0 0 0))) >>>
  lift (ports (cmos_update CMOS_REG_B (fun prev_ored => Z.lor prev_ored CMOS_ENABLE_RTC))) >>>
  lift (ports (cmos_update CMOS_REG_A (fun prev_rate => Z.lor (Z.land prev_rate 0xF0) RTC_INIT_RATE))) >>>
  lift (modify (set_rtc_frequency (Z.shiftr RTC_QUARTZ_FREQ (RTC_INIT_RATE - 1)))) >>>
  let* err := register_irq RTC_IRQ_LINE rtc_dummy_handler in
  if decide (err <> OS_NO_ERR) then ret err
  else
    let* err := lift (on_manager (kernel_interrupt_set_irq_mask RTC_IRQ_LINE 1)) in
    if decide (err <> OS_NO_ERR) then ret err
    else
      lift (ports (cmos_read CMOS_REG_C)) >>>
      lift (modify (set_rtc_nesting 1)) >>>
      let* err := rtc_enable in
      lift rtc_update_time >>> ret err.
End Timers.
