(* ===== verification/TimersTheorems.v ===== *)
(** * The two timers: properties

    The nesting of the two drivers against the masks of the interrupt
    controller, the frequencies, and the time read from the CMOS. *)
From S2P Require Import Prelude Critical Interrupts InterruptTheorems ByteMem Ports Pic.
From S2P Require Import PicTheorems Timers.

(** ** What the two drivers promise *)

Inductive which : Type := Pit | Rtc.

Definition file (w : which) : timer_file := match w with Pit => pit_file | Rtc => rtc_file end.

Record tspec : Type := mk_tspec {
  sp_pit : Z;      (* how deep the PIT is disabled *)
  sp_rtc : Z;
  sp_pit_freq : Z;
  sp_rtc_freq : Z
}.

Definition depth (w : which) (a : tspec) : Z := match w with Pit => sp_pit a | Rtc => sp_rtc a end.
Definition set_depth (w : which) (v : Z) (a : tspec) : tspec :=
  match w with
  | Pit => mk_tspec v (sp_rtc a) (sp_pit_freq a) (sp_rtc_freq a)
  | Rtc => mk_tspec (sp_pit a) v (sp_pit_freq a) (sp_rtc_freq a)
  end.
Definition shallower (w : which) (a : tspec) : tspec := set_depth w (Z.max 0 (depth w a - 1)) a.
Definition deeper (w : which) (a : tspec) : tspec := set_depth w (Z.min UINT32_MAX (depth w a + 1)) a.
Definition set_pit_freq (v : Z) (a : tspec) : tspec := mk_tspec (sp_pit a) (sp_rtc a) v (sp_rtc_freq a).
Definition set_rtc_freq (v : Z) (a : tspec) : tspec := mk_tspec (sp_pit a) (sp_rtc a) (sp_pit_freq a) v.

(** A line is open when its timer is enabled; [L] are the other lines. *)
Definition open_lines (L : gset Z) (a : tspec) : gset Z :=
  L ∪ (if decide (sp_pit a = 0) then {[PIT_IRQ_LINE]} else ∅) ∪ (if decide (sp_rtc a = 0) then {[RTC_IRQ_LINE]} else ∅).

Inductive call : Type :=
  | Enable (w : which)
  | Disable (w : which)
  | SetPit (freq : Z)
  | SetRtc (freq : Z).

(** A new frequency disables the timer, then enables it. *)
Definition call_spec (c : call) (a : tspec) : OS_RETURN_E * tspec :=
  match c with
  | Enable w => (OS_NO_ERR, shallower w a)
  | Disable w => (OS_NO_ERR, deeper w a)
  | SetPit freq =>
      if decide (20 <= freq <= 8000) then (OS_NO_ERR, set_pit_freq freq (shallower Pit (deeper Pit a)))
      else (OS_ERR_OUT_OF_BOUND, a)
  | SetRtc freq =>
      if decide (2 <= freq <= 8192) then (OS_NO_ERR, set_rtc_freq (2 ^ Z.log2 freq) (shallower Rtc (deeper Rtc a)))
      else (OS_ERR_OUT_OF_BOUND, a)
  end.

Fixpoint calls_spec (l : list call) (a : tspec) : list OS_RETURN_E * tspec :=
  match l with
  | [] => ([], a)
  | c :: l => let '(r, a) := call_spec c a in let '(rs, a) := calls_spec l a in (r :: rs, a)
  end.

(** The accesses of a call to the ports outside the interrupt controller, in
    their order.  A frequency of the PIT is its divisor, low byte first; the
    value and the port of the command before it are exchanged in [pit.h].  A
    frequency of the RTC is a rate in the low bits of register A of the CMOS,
    whose other bits are those read. *)
Definition pit_accesses (freq : Z) (x : history) : Prop :=
  let divisor := 0x1234DD / freq in
  x = [Outb 0x43 0x34; Outb (divisor mod 256) 0x40; Outb (divisor / 256) 0x40].

Definition rtc_accesses (freq : Z) (x : history) : Prop :=
  exists prev, 0 <= prev < 256 /\
    x = [Outb 0x8A 0x70; Inb 0x71 prev; Outb 0x8A 0x70; Outb (prev / 16 * 16 + (16 - Z.log2 freq)) 0x71].

Definition call_accesses (c : call) (x : history) : Prop :=
  match c with
  | Enable _ | Disable _ => x = []
  | SetPit freq => if decide (20 <= freq <= 8000) then pit_accesses freq x else x = []
  | SetRtc freq => if decide (2 <= freq <= 8192) then rtc_accesses freq x else x = []
  end.

Fixpoint calls_accesses (l : list call) (x : history) : Prop :=
  match l with
  | [] => x = []
  | c :: l => exists y z, x = y ++ z /\ call_accesses c y /\ calls_accesses l z
  end.

(** ** The drivers *)

Section Timers.
Context (device : history -> Z -> Z) (e : cpu_env).
(** The handler table, which no call changes. *)
Context (tab : handlers).
Hypothesis (Hmaster : masks_read device PIC_MASTER_DATA_PORT).
Hypothesis (Hslave : masks_read device PIC_SLAVE_DATA_PORT).

Definition run_call (c : call) : M (kstate timers) OS_RETURN_E :=
  match c with
  | Enable w => timer_enable e (file w)
  | Disable w => timer_disable e (file w)
  | SetPit freq => pit_set_frequency e freq
  | SetRtc freq => rtc_set_frequency device e freq
  end.

Fixpoint run_calls (l : list call) : M (kstate timers) (list OS_RETURN_E) :=
  match l with
  | [] => ret []
  | c :: l => let* r := run_call c in let* rs := run_calls l in ret (r :: rs)
  end.

Record timers_show (s : timers) (a : tspec) (L : gset Z) (P : history) : Prop := {
  ts_driver : driver (manager s) = pic_driver device;
  ts_pit : pit_nesting s = sp_pit a /\ 0 <= sp_pit a <= UINT32_MAX;
  ts_rtc : rtc_nesting s = sp_rtc a /\ 0 <= sp_rtc a <= UINT32_MAX;
  ts_pit_freq : pit_get_frequency s = sp_pit_freq a;
  ts_rtc_freq : rtc_get_frequency s = sp_rtc_freq a;
  ts_others : (PIT_IRQ_LINE ∉ L) /\ (RTC_IRQ_LINE ∉ L);
  ts_lines : pic_shows (controller (manager s)) (open_lines L a);
  ts_ports : elsewhere (controller (manager s)) = P;
  ts_table : kernel_interrupt_handlers (manager s) = tab
}.

(** The state with other nestings. *)
Definition at_depth (w : which) (v : Z) (s : timers) : timers := set_nesting (file w) v s.

Definition after (h : history) (s : timers) : timers := set_manager (with_controller h (manager s)) s.

Lemma request_open w v L a : PIT_IRQ_LINE ∉ L -> RTC_IRQ_LINE ∉ L ->
  request (irq_line (file w)) (if decide (v = 0) then 1 else 0) (open_lines L a) = open_lines L (set_depth w v a).
Proof.
  clear Hmaster Hslave. intros H1 H2. apply set_eq. intros i. rewrite elem_request. unfold open_lines.
  destruct w; cbn; repeat case_decide; subst; set_solver.
Qed.

(** The mask request of a timer that is at depth [v] from now on. *)
Lemma mask_run w v s a L P : timers_show s a L P -> 0 <= v <= UINT32_MAX ->
  exists h, on_manager (kernel_interrupt_set_irq_mask (irq_line (file w)) (if decide (v = 0) then 1 else 0))
      (at_depth w v s) = Ret (OS_NO_ERR, after h (at_depth w v s)) /\
    timers_show (after h (at_depth w v s)) (set_depth w v a) L P.
Proof.
  intros [Hd Hp Hr Hpf Hrf [Hl1 Hl2] Hs HP Ht] Hv.
  assert (manager (at_depth w v s) = manager s) as Hm by (by destruct w).
  destruct (manager_mask_run device (manager (at_depth w v s)) (irq_line (file w)) (if decide (v = 0) then 1 else 0)
    (open_lines L a)) as (h & R & HE & HP'); try done; try by rewrite Hm.
  { destruct w; unfold PIC_CASCADING_IRQ; cbn; unfold PIT_IRQ_LINE, RTC_IRQ_LINE; lia. }
  { destruct w; unfold PIC_CASCADING_IRQ; cbn; unfold PIT_IRQ_LINE, RTC_IRQ_LINE; lia. }
  exists h. split; [unfold on_manager, zoom; by rewrite R|].
  rewrite request_open in HE by done. rewrite Hm, HP in HP'. destruct w; split; cbn; try done; lia.
Qed.

(** The depth alone: only between two depths that are not null. *)
Lemma depth_run w v s a L P : timers_show s a L P -> 0 < v <= UINT32_MAX -> depth w a <> 0 ->
  timers_show (at_depth w v s) (set_depth w v a) L P.
Proof.
  intros [Hd Hp Hr Hpf Hrf Ho Hs HP Ht] Hv Hn. destruct w; split; cbn in *; try done; try lia.
  all: unfold open_lines in *; cbn in *; rewrite ?(decide_False (P := v = 0)) by lia.
  - by rewrite (decide_False (P := sp_pit a = 0)) in Hs.
  - by rewrite (decide_False (P := sp_rtc a = 0)) in Hs.
Qed.

Lemma less_nesting_depth w s a L P : timers_show s a L P ->
  less_nesting (file w) s = at_depth w (Z.max 0 (depth w a - 1)) s.
Proof.
  intros [_ [Hp Hpr] [Hr Hrr] _ _ _ _ _ _]. destruct s, a. unfold less_nesting, at_depth.
  destruct w; cbn in *; subst; unfold set_pit_nesting, set_rtc_nesting; case_decide; cbn; f_equal; lia.
Qed.

Lemma more_nesting_depth w s a L P : timers_show s a L P ->
  more_nesting (file w) s = at_depth w (Z.min UINT32_MAX (depth w a + 1)) s.
Proof.
  intros [_ [Hp Hpr] [Hr Hrr] _ _ _ _ _ _]. destruct s, a. unfold more_nesting, at_depth.
  destruct w; cbn in *; subst; unfold set_pit_nesting, set_rtc_nesting; case_decide; cbn; f_equal;
    unfold UINT32_MAX in *; lia.
Qed.

Lemma depth_range w s a L P : timers_show s a L P -> 0 <= depth w a <= UINT32_MAX.
Proof. intros [_ Hp Hr _ _ _ _ _ _]. destruct w; cbn; lia. Qed.

(** *** Enabling and disabling *)

Lemma disable_body w s a L P : timers_show s a L P ->
  exists s', (modify (more_nesting (file w)) >>> on_manager (kernel_interrupt_set_irq_mask (irq_line (file w)) 0)) s
    = Ret (OS_NO_ERR, s') /\ timers_show s' (deeper w a) L P.
Proof.
  intros Hs. pose proof (depth_range w _ _ _ _ Hs) as Hr. set (v := Z.min UINT32_MAX (depth w a + 1)).
  destruct (mask_run w v s a L P Hs) as (h & R & Hs'); [unfold v, UINT32_MAX in *; lia|].
  rewrite decide_False in R by (unfold v, UINT32_MAX in *; lia).
  exists (after h (at_depth w v s)). split; [|done].
  rewrite exec_modify, (more_nesting_depth w s a L P Hs). exact R.
Qed.

Lemma disable_run w t a L P : flag_ok t -> lock_free (file_lock (file w)) t -> timers_show (core t) a L P ->
  exists t', timer_disable e (file w) t = Ret (OS_NO_ERR, t') /\ same_locks t t' /\ timers_show (core t') (deeper w a) L P.
Proof.
  intros Hf Hl Hs. destruct (disable_body w _ _ _ _ Hs) as (s' & R & Hs').
  destruct (critical_lift e (file_lock (file w)) _ t _ _ Hf Hl R) as (t' & Ht & Hc & Hsl).
  exists t'. split_and!; [done..|]. by rewrite Hc.
Qed.

Lemma enable_run w t a L P : flag_ok t -> lock_free (file_lock (file w)) t -> timers_show (core t) a L P ->
  exists t', timer_enable e (file w) t = Ret (OS_NO_ERR, t') /\ same_locks t t' /\ timers_show (core t') (shallower w a) L P.
Proof.
  intros Hf Hl Hs. pose proof (depth_range w _ _ _ _ Hs) as Hr. unfold timer_enable.
  rewrite (bind_ret _ _ _ _ _ (enter_run e _ t Hl)).
  set (v := Z.max 0 (depth w a - 1)). set (t1 := inside e (file_lock (file w)) t).
  rewrite (exec_lift _ _ t1 tt (at_depth w v (core t))) by
    (unfold modify; change (core t1) with (core t); by rewrite (less_nesting_depth w (core t) a L P Hs)).
  set (t2 := with_core (at_depth w v (core t)) t1).
  assert (nesting_of (file w) (core t2) = v) as Hn by (by destruct w).
  rewrite (exec_lift_read _ _ t2 v) by (unfold gets; by rewrite Hn).
  assert (in_section e (file_lock (file w)) t t2) as Hin by apply section_core, enter_section.
  destruct (exit_section e _ t t2 Hf Hl Hin) as (t3 & H3 & Hc & Hsl).
  case_decide as Hv; rewrite (bind_ret _ _ _ _ _ H3).
  - destruct (mask_run w v (core t) a L P Hs) as (h & R & Hs'); [unfold v, UINT32_MAX in *; lia|].
    rewrite decide_True in R by done.
    exists (with_core (after h (at_depth w v (core t))) t3). split.
    { apply lift_run. rewrite Hc. exact R. }
    split; [done|]. exact Hs'.
  - exists t3. split; [done|]. split; [done|]. rewrite Hc. apply depth_run; [done|unfold v, UINT32_MAX in *; lia|].
    unfold v in Hv. lia.
Qed.

(** *** New frequencies *)

(** Programming a timer changes its frequency, by the accesses [acc]. *)
Definition programs (set : M timers unit) (g : tspec -> tspec) (acc : history -> Prop) : Prop :=
  forall s a L P, timers_show s a L P ->
  exists s' x, set s = Ret (tt, s') /\ acc x /\ timers_show s' (g a) L (P ++ x).

Lemma reprogram_run w set g acc t a L P :
  (forall a, depth w (g a) = depth w a) -> (forall v a, set_depth w v (g a) = g (set_depth w v a)) ->
  programs set g acc -> flag_ok t -> lock_free (file_lock (file w)) t -> timers_show (core t) a L P ->
  exists t' x, reprogram e (file w) set t = Ret (OS_NO_ERR, t') /\ same_locks t t' /\ acc x /\
    timers_show (core t') (g (shallower w (deeper w a))) L (P ++ x).
Proof.
  intros Hg1 Hg2 Hp Hf Hl Hs. unfold reprogram. rewrite (bind_ret _ _ _ _ _ (enter_run e _ t Hl)).
  destruct (disable_body w _ _ _ _ Hs) as (s1 & R1 & Hs1).
  destruct (nested_section e (file_lock (file w)) _ t (inside e (file_lock (file w)) t) OS_NO_ERR s1 Hl
    (enter_section _ _ _) R1) as (t2 & H2 & Hc2 & Hin2).
  unfold timer_disable. rewrite (bind_ret _ _ _ _ _ H2), decide_False by tauto.
  destruct (Hp s1 _ L P Hs1) as (s3 & x & R3 & Hx & Hs3). rewrite <- Hc2 in R3. rewrite (exec_lift _ _ _ _ _ R3).
  destruct (exit_section e _ t _ Hf Hl (section_core _ _ _ _ s3 Hin2)) as (t4 & H4 & Hc4 & Hsl4).
  rewrite (bind_ret _ _ _ _ _ H4).
  destruct (enable_run w t4 (g (deeper w a)) L (P ++ x)) as (t5 & H5 & Hsl5 & Hs5).
  - by eapply same_locks_flag.
  - by eapply same_locks_free.
  - by rewrite Hc4.
  - exists t5, x. split; [done|]. split; [by eapply same_locks_trans|]. split; [done|].
    unfold shallower in *. by rewrite Hg1, Hg2 in Hs5.
Qed.

(** Accesses that leave the two masks alone. *)
Definition away (x : history) : Prop :=
  Forall (fun x => io_port x <> PIC_MASTER_DATA_PORT /\ io_port x <> PIC_SLAVE_DATA_PORT) x.

Lemma written_away port h x : port = PIC_MASTER_DATA_PORT \/ port = PIC_SLAVE_DATA_PORT -> away x ->
  written port (h ++ x) = written port h.
Proof.
  intros Hp Hx. rewrite written_app. enough (written port x = []) as -> by apply app_nil_r.
  induction Hx as [|y x [H1 H2] _ IH]; [done|]. unfold written in *. cbn.
  destruct y; cbn in *; rewrite ?IH; try done. rewrite decide_False; [done|]. by destruct Hp; subst.
Qed.

Lemma away_show s a L P x : timers_show s a L P -> away x ->
  timers_show (after (controller (manager s) ++ x) s) a L (P ++ x).
Proof.
  intros [Hd Hp Hr Hpf Hrf Ho (mm & sm & H1 & H2 & Hm) HP Ht] Hx. split; try done.
  - exists mm, sm. change (controller (manager (after (controller (manager s) ++ x) s))) with (controller (manager s) ++ x).
    rewrite !written_away by auto. done.
  - change (controller (manager (after (controller (manager s) ++ x) s))) with (controller (manager s) ++ x).
    rewrite elsewhere_app, HP. f_equal. unfold elsewhere. induction Hx as [|y x Hy _ IH]; [done|].
    etrans; [by apply filter_cons_True|]. by f_equal.
Qed.

Lemma ports_run {A B} (m : M history A) (k : A -> M timers B) s x h :
  m (controller (manager s)) = Ret (x, h) -> bind (ports m) k s = k x (after h s).
Proof. intros H. unfold bind, ports, on_manager, zoom. by rewrite H. Qed.

Lemma set_tick_show v s a L P : timers_show s a L P -> timers_show (set_tick_freq v s) (set_pit_freq v a) L P.
Proof. by intros [? ? ? ? ? ? ? ?]. Qed.
Lemma set_rtc_show v s a L P : timers_show s a L P -> timers_show (set_rtc_frequency v s) (set_rtc_freq v a) L P.
Proof. by intros [? ? ? ? ? ? ? ?]. Qed.

(** A frequency that fits in 16 bits, once divided. *)
Lemma pit_divisor_eq freq : 20 <= freq <= 8000 ->
  pit_divisor freq = 0x1234DD / freq /\ 0 <= 0x1234DD / freq < 2 ^ 16.
Proof.
  intros Hf. assert (0 <= 0x1234DD / freq <= 59659) as Hd.
  { split; [apply Z.div_pos; lia|]. apply Z.lt_succ_r, Z.div_lt_upper_bound; lia. }
  unfold pit_divisor, PIT_QUARTZ_FREQ, u16. split; [apply Z.mod_small; lia|lia].
Qed.

Ltac away_ports := repeat (apply Forall_cons; split; [by split|]); constructor.

Lemma program_pit_programs freq : 20 <= freq <= 8000 ->
  programs (program_pit freq) (set_pit_freq freq) (pit_accesses freq).
Proof.
  intros Hf s a L P Hs. destruct (pit_divisor_eq freq Hf) as [Ed Hd].
  assert (u8 (Z.land (pit_divisor freq) 255) = 0x1234DD / freq mod 256) as E1.
  { rewrite Ed. change 255 with (Z.ones 8). rewrite Z.land_ones by lia. apply Z.mod_mod. lia. }
  assert (u8 (Z.shiftr (pit_divisor freq) 8) = 0x1234DD / freq / 256) as E2.
  { rewrite Ed, Z.shiftr_div_pow2 by lia. apply Z.mod_small. div_lia. }
  set (x := [Outb 0x43 0x34; Outb (0x1234DD / freq mod 256) 0x40; Outb (0x1234DD / freq / 256) 0x40]).
  set (s1 := set_tick_freq freq s). exists (after (controller (manager s1) ++ x) s1), x. split; [|split].
  - unfold program_pit. rewrite exec_modify. fold s1.
    unfold ports, on_manager, cpu_outb, zoom, modify, bind. cbn. rewrite E1, E2, <- !app_assoc. reflexivity.
  - reflexivity.
  - apply away_show; [by apply set_tick_show|away_ports].
Qed.

(** The rate gives the largest power of two below the frequency. *)
Lemma rtc_rate_frequency freq : 2 <= freq <= 8192 ->
  Z.shiftr RTC_QUARTZ_FREQ (rtc_rate freq - 1) = 2 ^ Z.log2 freq.
Proof.
  intros Hf.
  assert (forall n, 1 <= n -> 2 ^ n <= freq < 2 ^ Z.succ n -> Z.log2 freq = n) as Hlog
    by (intros n Hn Hr; apply Z.log2_unique; lia).
  unfold rtc_rate. repeat case_decide.
  1: rewrite (Hlog 1) by lia; reflexivity.
  1: rewrite (Hlog 2) by lia; reflexivity.
  1: rewrite (Hlog 3) by lia; reflexivity.
  1: rewrite (Hlog 4) by lia; reflexivity.
  1: rewrite (Hlog 5) by lia; reflexivity.
  1: rewrite (Hlog 6) by lia; reflexivity.
  1: rewrite (Hlog 7) by lia; reflexivity.
  1: rewrite (Hlog 8) by lia; reflexivity.
  1: rewrite (Hlog 9) by lia; reflexivity.
  1: rewrite (Hlog 10) by lia; reflexivity.
  1: rewrite (Hlog 11) by lia; reflexivity.
  1: rewrite (Hlog 12) by lia; reflexivity.
  rewrite (Hlog 13) by lia. reflexivity.
Qed.

Lemma rtc_rate_log freq : 2 <= freq <= 8192 -> rtc_rate freq = 16 - Z.log2 freq.
Proof.
  intros Hf. pose proof (rtc_rate_frequency freq Hf) as H.
  assert (1 <= Z.log2 freq <= 13) as Hl.
  { pose proof (Z.log2_le_mono 2 freq ltac:(lia)). pose proof (Z.log2_le_mono freq 8192 ltac:(lia)). by split. }
  assert (3 <= rtc_rate freq <= 15) as Hr by (unfold rtc_rate; repeat case_decide; lia).
  rewrite Z.shiftr_div_pow2 in H by lia. change RTC_QUARTZ_FREQ with (2 ^ 15) in H.
  rewrite <- Z.pow_sub_r in H by lia. apply Z.pow_inj_r in H; lia.
Qed.

(** The rate takes the low bits of the register. *)
Lemma rate_value prev rate : 0 <= prev < 256 -> 0 <= rate < 16 ->
  u8 (Z.lor (Z.land prev 0xF0) rate) = prev / 16 * 16 + rate.
Proof.
  intros Hp Hr. assert (Z.land prev 0xF0 = prev / 16 * 2 ^ 4) as ->.
  { change 0xF0 with (Z.shiftl (Z.ones 4) 4). rewrite <- Z.shiftl_mul_pow2 by lia.
    change 16 with (2 ^ 4). rewrite <- Z.shiftr_div_pow2 by lia.
    apply Z.bits_inj'. intros n Hn. rewrite Z.land_spec, !Z.shiftl_spec by done.
    destruct (decide (n < 4)); [rewrite !(Z.testbit_neg_r _ (n - 4)) by lia; apply andb_false_r|].
    rewrite Z.shiftr_spec, Z.sub_add by lia. destruct (decide (n < 8)).
    - rewrite Z.ones_spec_low by lia. apply andb_true_r.
    - rewrite (Z.bits_above_log2 prev); [done|lia|]. destruct (decide (prev = 0)) as [->|]; [simpl; lia|].
      apply Z.log2_lt_pow2; [lia|]. apply Z.lt_le_trans with (2 ^ 8); [lia|apply Z.pow_le_mono_r; lia]. }
  rewrite Z.lor_comm, lor_above by lia. change (2 ^ 4) with 16. unfold u8. rewrite Z.mod_small by div_lia. lia.
Qed.

Lemma program_rtc_programs freq : 2 <= freq <= 8192 ->
  programs (program_rtc device (rtc_rate freq)) (set_rtc_freq (2 ^ Z.log2 freq)) (rtc_accesses freq).
Proof.
  intros Hf s a L P Hs. rewrite <- (rtc_rate_frequency freq Hf).
  set (h1 := controller (manager s) ++ [Outb 0x8A 0x70]). set (prev := u8 (device h1 0x71)).
  assert (0 <= prev < 256) as Hp by (apply Z.mod_pos_bound; lia).
  set (x := [Outb 0x8A 0x70; Inb 0x71 prev; Outb 0x8A 0x70; Outb (prev / 16 * 16 + (16 - Z.log2 freq)) 0x71]).
  set (s1 := after (controller (manager s) ++ x) s).
  exists (set_rtc_frequency (Z.shiftr RTC_QUARTZ_FREQ (rtc_rate freq - 1)) s1), x. split; [|split].
  - unfold program_rtc. rewrite (ports_run _ _ _ tt (controller (manager s) ++ x)); [done|].
    unfold x. rewrite <- (rtc_rate_log freq Hf), <- rate_value by
      (done || (unfold rtc_rate; repeat case_decide; lia)).
    unfold cmos_update, cmos_read, cpu_outb, cpu_inb, modify, bind. cbn. fold h1. fold prev.
    unfold h1. by rewrite <- !app_assoc.
  - by exists prev.
  - apply set_rtc_show, away_show; [exact Hs|away_ports].
Qed.

(** *** Calls *)

Lemma call_run c t a L P :
  flag_ok t -> lock_free PitLock t -> lock_free RtcLock t -> timers_show (core t) a L P ->
  exists t' x, run_call c t = Ret ((call_spec c a).1, t') /\ same_locks t t' /\ call_accesses c x /\
    timers_show (core t') (call_spec c a).2 L (P ++ x).
Proof.
  intros Hf Hp Hr Hs.
  assert (forall s a, timers_show s a L P -> timers_show s a L (P ++ [])) as Hnil by (intros; by rewrite app_nil_r).
  destruct c as [w|w|freq|freq]; cbn [run_call call_spec call_accesses fst snd].
  - destruct (enable_run w t a L P Hf ltac:(by destruct w) Hs) as (t' & ? & ? & ?). exists t', []. auto.
  - destruct (disable_run w t a L P Hf ltac:(by destruct w) Hs) as (t' & ? & ? & ?). exists t', []. auto.
  - unfold pit_set_frequency, PIT_MIN_FREQ, PIT_MAX_FREQ. destruct (decide (20 <= freq <= 8000)).
    + rewrite decide_False by lia.
      apply (reprogram_run Pit _ (set_pit_freq freq)); try done. by apply program_pit_programs.
    + rewrite decide_True by lia. exists t, []. split; [done|]. split; [done|]. split; [done|by apply Hnil].
  - unfold rtc_set_frequency, RTC_MIN_FREQ, RTC_MAX_FREQ. destruct (decide (2 <= freq <= 8192)).
    + rewrite decide_False by lia.
      apply (reprogram_run Rtc _ (set_rtc_freq _)); try done. by apply program_rtc_programs.
    + rewrite decide_True by lia. exists t, []. split; [done|]. split; [done|]. split; [done|by apply Hnil].
Qed.

(** C22: Any sequence of calls that enable, disable or reprogram the two
    timers returns what the specification says.  Afterwards the line of a
    timer is open at the interrupt controller if and only if the timer is at
    depth 0, the other lines being as before, and the accesses to the other
    ports are, in order, those of the new frequencies: the divisor of the PIT
    in two bytes, after a command whose value and port are exchanged, and the
    rate of the RTC.  The controller, a PIC, gives back the masks it was sent,
    and both drivers' locks are free. *)
Theorem timers_refine l t a L P :
  flag_ok t -> lock_free PitLock t -> lock_free RtcLock t -> timers_show (core t) a L P ->
  exists t' x, run_calls l t = Ret ((calls_spec l a).1, t') /\ same_locks t t' /\ calls_accesses l x /\
    timers_show (core t') (calls_spec l a).2 L (P ++ x).
Proof.
  revert t a P. induction l as [|c l IH]; intros t a P Hf Hp Hr Hs; cbn [run_calls calls_spec calls_accesses].
  { exists t, []. rewrite app_nil_r. by split_and!. }
  destruct (call_run c t a L P Hf Hp Hr Hs) as (t1 & y & H1 & S1 & Hy & Hs1). rewrite (bind_ret _ _ _ _ _ H1).
  destruct (call_spec c a) as [r a1]. cbn in *.
  destruct (IH t1 a1 (P ++ y)) as (t2 & z & H2 & S2 & Hz & Hs2);
    [by eapply same_locks_flag|by eapply same_locks_free|by eapply same_locks_free|done|].
  rewrite (bind_ret _ _ _ _ _ H2). destruct (calls_spec l a1) as [rs a2]. cbn in *.
  exists t2, (y ++ z). split; [done|]. split; [by eapply same_locks_trans|].
  split; [by exists y, z|by rewrite app_assoc].
Qed.
End Timers.

(** ** Initialisation of the PIT *)

Section Init.
Context (device : history -> Z -> Z) (e : cpu_env).
Hypothesis (Hmaster : masks_read device PIC_MASTER_DATA_PORT).
Hypothesis (Hslave : masks_read device PIC_SLAVE_DATA_PORT).

(** The table with one more handler. *)
Definition added (l h : Z) (tab tab' : handlers) : Prop :=
  tab' l = mk_handler 1 h /\ forall k, k <> l -> tab' k = tab k.

Lemma register_run irq h t tab a L P :
  flag_ok t -> lock_free InterruptLock t -> timers_show device tab (core t) a L P -> 0 <= irq <= PIC_MAX_IRQ_LINE ->
  h <> NULL -> handler (tab (irq + INT_PIC_IRQ_OFFSET)) = NULL ->
  exists t' tab', register_irq e irq h t = Ret (OS_NO_ERR, t') /\ same_locks t t' /\
    timers_show device tab' (core t') a L P /\ added (irq + INT_PIC_IRQ_OFFSET) h tab tab'.
Proof.
  intros Hf Hl Hs Hi Hh Hfree. set (l := irq + INT_PIC_IRQ_OFFSET) in *. set (k := with_core tab t).
  assert (exists k', kernel_interrupt_register_int_handler e l h k = Ret (OS_NO_ERR, k') /\
    core k' = <[l := mk_handler 1 h]> (<[l := mk_handler (enabled (tab l)) h]> tab) /\ same_locks k k')
    as (k' & Hk & Hc & Hsl).
  { unfold kernel_interrupt_register_int_handler, MIN_INTERRUPT_LINE, MAX_INTERRUPT_LINE.
    rewrite decide_False by (unfold l, INT_PIC_IRQ_OFFSET, PIC_MAX_IRQ_LINE in *; lia). rewrite decide_False by done.
    apply critical_lift; [done|done|]. unfold bind at 1, gets. rewrite decide_False by (intros Hx; by apply Hx).
    rewrite !exec_modify. cbn [core k with_core]. by rewrite handlers_insert. }
  assert (kernel_interrupt_handlers (manager (core t)) = tab) as Htab by apply Hs.
  assert (pic_get_irq_int_line irq = l) as Hline
    by (unfold pic_get_irq_int_line; by rewrite decide_False by lia).
  exists (mk_kstate (set_manager (with_handlers (core k') (manager (core t))) (core t)) (int_flag k') (locks k')), (core k').
  split.
  - unfold register_irq, kzoom, zoom, kernel_interrupt_register_irq_handler, irq_int_line, bind. cbn.
    rewrite (ts_driver _ _ _ _ _ _ Hs). cbn. rewrite Hline.
    rewrite decide_False by (unfold l, INT_PIC_IRQ_OFFSET; lia). unfold on_handlers, kzoom, zoom. cbn.
    rewrite Htab.
    change (with_core tab _) with k. by rewrite Hk.
  - split; [exact Hsl|]. split; [by destruct Hs|]. rewrite Hc. split; [apply handlers_insert|].
    intros j Hj. by rewrite !handlers_insert_ne.
Qed.

(** After [pit_init] the PIT runs at 100 Hz, its line open and its handler
    registered. *)
Lemma pit_init_run h t tab a L P :
  flag_ok t -> lock_free InterruptLock t -> lock_free PitLock t ->
  timers_show device tab (set_pit_nesting 1 (core t)) a L P -> h <> NULL ->
  handler (tab (PIT_IRQ_LINE + INT_PIC_IRQ_OFFSET)) = NULL ->
  exists t' tab' x, pit_init e h t = Ret (OS_NO_ERR, t') /\ same_locks t t' /\ pit_accesses 100 x /\
    timers_show device tab' (core t') (set_depth Pit 0 (set_pit_freq 100 a)) L (P ++ x) /\
    added (PIT_IRQ_LINE + INT_PIC_IRQ_OFFSET) h tab tab'.
Proof.
  intros Hf Hli Hl Hs Hh Hfree. unfold pit_init.
  rewrite (exec_lift (S := timers) _ _ t tt (set_pit_nesting 1 (core t))) by done.
  set (t0 := with_core (set_pit_nesting 1 (core t)) t).
  assert (sp_pit a = 1) as Ha by (by destruct Hs as [_ [<- _] _ _ _ _ _ _ _]).
  destruct (reprogram_run device e tab Hmaster Hslave Pit (program_pit PIT_INIT_FREQ) (set_pit_freq 100) (pit_accesses 100) t0 a L P)
    as (t1 & x & H1 & S1 & Hx & Hs1); [done|done|by apply program_pit_programs|done|done|done|].
  unfold pit_set_frequency. rewrite decide_False by (unfold PIT_INIT_FREQ, PIT_MIN_FREQ, PIT_MAX_FREQ; lia).
  rewrite (bind_ret _ _ _ _ _ H1), decide_False by tauto.
  destruct (register_run PIT_IRQ_LINE h t1 tab (set_pit_freq 100 (shallower Pit (deeper Pit a))) L (P ++ x)) as (t2 & tab' & H2 & S2 & Hs2 & Hadd);
    [by eapply same_locks_flag|by eapply same_locks_free|exact Hs1|unfold PIT_IRQ_LINE, PIC_MAX_IRQ_LINE; lia|done|done|].
  rewrite (bind_ret _ _ _ _ _ H2), decide_False by tauto.
  assert (same_locks t t2) as St by (apply (same_locks_trans t t1 t2); [exact S1|exact S2]).
  destruct (enable_run device e tab' Hmaster Hslave Pit t2 (set_pit_freq 100 (shallower Pit (deeper Pit a))) L (P ++ x)) as (t3 & H3 & S3 & Hs3);
    [by eapply same_locks_flag|by eapply same_locks_free|exact Hs2|].
  exists t3, tab', x. split; [exact H3|]. split; [by eapply same_locks_trans|]. split; [done|]. split; [|done].
  destruct a. cbn in *. by subst.
Qed.
End Init.

(** ** Witness *)

Definition after_pic_init : history := match pic_init [] with Ret (_, h) => h | _ => [] end.

Definition demo_timers : timers :=
  mk_timers 1 0 1 64 0 (mk_date 0 0 0 0)
    (mk_int_state (fun _ => mk_handler 0 NULL) (pic_driver mask_device) 0 after_pic_init).

Definition demo_calls : list call := [Enable Pit; SetPit 200; SetPit 9; Disable Rtc; Enable Rtc; Enable Rtc; SetRtc 20].

Lemma demo_timers_show :
  timers_show mask_device (fun _ => mk_handler 0 NULL) demo_timers (mk_tspec 1 1 0 64) ∅ (elsewhere after_pic_init).
Proof.
  assert (open_lines ∅ (mk_tspec 1 1 0 64) = ∅) as E by (vm_compute; reflexivity).
  assert (pic_shows after_pic_init ∅) as Hs
    by (unfold after_pic_init; destruct (pic_init_shows []) as (h & -> & Hs); exact Hs).
  split; [done| | |done|done|done|by rewrite E|done|done]; (split; [done|unfold UINT32_MAX; cbn; lia]).
Qed.

Lemma timers_refine_witness :
  timers_show mask_device (fun _ => mk_handler 0 NULL) demo_timers (mk_tspec 1 1 0 64) ∅ (elsewhere after_pic_init) /\
  exists t' prev, run_calls mask_device (mk_cpu 0 2) demo_calls (mk_kstate demo_timers 1 (fun _ => SPINLOCK_INIT_VALUE)) =
      Ret ([OS_NO_ERR; OS_NO_ERR; OS_ERR_OUT_OF_BOUND; OS_NO_ERR; OS_NO_ERR; OS_NO_ERR; OS_NO_ERR], t') /\
    pit_get_frequency (core t') = 200 /\ rtc_get_frequency (core t') = 16 /\
    pic_shows (controller (manager (core t'))) {[PIT_IRQ_LINE; RTC_IRQ_LINE]} /\
    elsewhere (controller (manager (core t'))) = elsewhere after_pic_init ++
      [Outb 0x43 0x34; Outb 77 0x40; Outb 23 0x40;
       Outb 0x8A 0x70; Inb 0x71 prev; Outb 0x8A 0x70; Outb (prev / 16 * 16 + 12) 0x71].
Proof.
  split; [apply demo_timers_show|].
  destruct (timers_refine mask_device (mk_cpu 0 2) (fun _ => mk_handler 0 NULL) (mask_device_reads _)
    (mask_device_reads _) demo_calls (mk_kstate demo_timers 1 (fun _ => SPINLOCK_INIT_VALUE)) (mk_tspec 1 1 0 64) ∅
    (elsewhere after_pic_init)) as (t' & x & H & _ & Hx & Hs); [by right|reflexivity..|apply demo_timers_show|].
  change (calls_spec demo_calls (mk_tspec 1 1 0 64)).2 with (mk_tspec 0 0 200 16) in Hs.
  cbn in Hx. destruct Hx as (? & ? & -> & -> & ? & ? & -> & -> & ? & ? & -> & -> & ? & ? & -> & -> & ? & ? & -> & -> &
    ? & ? & -> & -> & ? & ? & -> & (prev & _ & ->) & ->).
  exists t', prev. split; [exact H|]. split; [apply Hs|]. split; [apply Hs|].
  split; [|exact (ts_ports _ _ _ _ _ _ Hs)]. pose proof (ts_lines _ _ _ _ _ _ Hs) as Hl.
  assert (open_lines ∅ (mk_tspec 0 0 200 16) = {[PIT_IRQ_LINE; RTC_IRQ_LINE]}) as E by (vm_compute; reflexivity).
  by rewrite E in Hl.
Defined.
