(* ===== verification/RtcTheorems.v ===== *)
(** * The time of day: properties

    The time and the date read from the CMOS, for each encoding of its
    registers. *)
From S2P Require Import Prelude Critical Interrupts ByteMem Ports Pic PicTheorems Timers.
From S2P Require Import TimersTheorems.

(** ** The clock *)

Record clock : Type := mk_clock {
  c_second : Z; c_minute : Z; c_hour : Z; (* 0 to 23 *)
  c_day : Z; c_month : Z; c_year : Z (* in its century *)
}.

Record clock_ok (c : clock) : Prop := {
  ck_second : 0 <= c_second c < 60;
  ck_minute : 0 <= c_minute c < 60;
  ck_hour : 0 <= c_hour c < 24;
  ck_day : 1 <= c_day c <= 31;
  ck_month : 1 <= c_month c <= 12;
  ck_year : 0 <= c_year c < 100
}.

(** ** Its registers *)

Definition encode (binary : bool) (v : Z) : Z := if binary then v else 16 * (v / 10) + v mod 10.

(** On a clock of 12 hours the bit 7 stands for the afternoon. *)
Definition encode_hour (binary h24 : bool) (h : Z) : Z :=
  if h24 then encode binary h
  else encode binary (if decide (h mod 12 = 0) then 12 else h mod 12) + (if decide (12 <= h) then 128 else 0).

Record registers_show (binary h24 : bool) (regs : Z -> Z) (c : clock) : Prop := {
  rg_second : regs CMOS_SECONDS_REGISTER = encode binary (c_second c);
  rg_minute : regs CMOS_MINUTES_REGISTER = encode binary (c_minute c);
  rg_hour : regs CMOS_HOURS_REGISTER = encode_hour binary h24 (c_hour c);
  rg_day : regs CMOS_DAY_REGISTER = encode binary (c_day c);
  rg_month : regs CMOS_MONTH_REGISTER = encode binary (c_month c);
  rg_year : regs CMOS_YEAR_REGISTER = encode binary (c_year c);
  rg_binary : Z.land (u8 (regs CMOS_REG_B)) 0x04 = 0 <-> binary = false;
  rg_h24 : Z.land (u8 (regs CMOS_REG_B)) 0x02 = 0 <-> h24 = false
}.

(** ** Decoding *)

Lemma encode_range binary v : 0 <= v < 100 -> 0 <= encode binary v < 256.
Proof. intros. unfold encode. destruct binary; [lia|]. Z.div_mod_to_equations. lia. Qed.

Lemma bcd_encode v : 0 <= v < 100 -> bcd (encode false v) = v.
Proof.
  intros. unfold bcd, encode. change 0x0F with (Z.ones 4). rewrite Z.land_ones by lia.
  Z.div_mod_to_equations. lia.
Qed.

Lemma encode_hour_range binary h24 h : 0 <= h < 24 -> 0 <= encode_hour binary h24 h < 256.
Proof.
  intros. unfold encode_hour, encode. destruct h24, binary; repeat case_decide; Z.div_mod_to_equations; lia.
Qed.

(** The hour the code computes: on a clock of 12 hours noon is read as
    midnight and midnight as noon. *)
Definition read_hour (h24 : bool) (h : Z) : Z :=
  if h24 then h else if decide (h = 0) then 12 else if decide (h = 12) then 0 else h.

Lemma hour_read (binary h24 : bool) h s m d mo y b :
  0 <= h < 24 -> (Z.land b 0x04 = 0 <-> binary = false) -> (Z.land b 0x02 = 0 <-> h24 = false) ->
  convert_hours (convert_bcd (mk_raw s m (encode_hour binary h24 h) d mo y b)) = read_hour h24 h.
Proof.
  intros Hh Hb H24. unfold convert_bcd. cbn [r_reg_b].
  assert (exists n, (n < 24)%nat /\ h = Z.of_nat n) as (n & Hn & ->) by (exists (Z.to_nat h); lia).
  assert (forall raw, r_reg_b raw = b -> convert_hours raw =
    if h24 then r_hours raw
    else if decide (Z.land (r_hours raw) 0x80 >= 1) then (Z.land (r_hours raw) 0x7F + 12) mod 24 else r_hours raw) as Hc.
  { intros raw Hr. unfold convert_hours. rewrite Hr. destruct h24.
    - rewrite decide_False; [done|]. intros [Hz _]. by apply H24 in Hz.
    - assert (Z.land b 0x02 = 0) as Hz by (by apply H24).
      destruct (decide (Z.land (r_hours raw) 0x80 >= 1)); [by rewrite decide_True|by rewrite decide_False by tauto]. }
  rewrite Hc by (by case_decide). clear Hc. destruct binary.
  - rewrite decide_False by (intros Hz; by apply Hb in Hz). cbn [r_hours].
    destruct h24; do 24 (destruct n as [|n]; [by vm_compute|]); lia.
  - rewrite decide_True by (by apply Hb). cbn [r_hours].
    destruct h24; do 24 (destruct n as [|n]; [by vm_compute|]); lia.
Qed.

(** ** Reading *)

Section Rtc.
Context (device : history -> Z -> Z) (regs : Z -> Z).

(** The CMOS answers with the register that was last selected. *)
Definition cmos_answers : Prop :=
  forall h r, last (written CMOS_COMM_PORT h) = Some r -> device h CMOS_DATA_PORT = regs (r mod 128).

Hypothesis (Hcmos : cmos_answers).

Lemma cmos_read_run r h : 0 <= r < 128 ->
  exists h', cmos_read device r h = Ret (u8 (regs r), h').
Proof.
  intros Hr. unfold cmos_read, bind, cpu_outb, modify, cpu_inb. eexists.
  rewrite (Hcmos _ r); [by rewrite Z.mod_small by lia|].
  rewrite last_outb, decide_True by done. f_equal. apply Z.mod_small. lia.
Qed.

Lemma read_time_run h :
  exists h', read_time device h = Ret (mk_raw (u8 (regs CMOS_SECONDS_REGISTER)) (u8 (regs CMOS_MINUTES_REGISTER))
    (u8 (regs CMOS_HOURS_REGISTER)) (u8 (regs CMOS_DAY_REGISTER)) (u8 (regs CMOS_MONTH_REGISTER))
    (u8 (regs CMOS_YEAR_REGISTER)) (u8 (regs CMOS_REG_B)), h').
Proof.
  unfold read_time.
  do 7 (lazymatch goal with |- exists h', bind (cmos_read device ?r) _ ?h = _ =>
    let H := fresh in destruct (cmos_read_run r h) as [? H]; [by split; vm_compute|];
    rewrite (bind_ret _ _ _ _ _ H); clear H end).
  by eexists.
Qed.

(** C25: For a clock of 24 hours, whether its registers are in binary or in
    BCD, the update returns and stores the seconds since midnight and the
    date in the years 2000 of the time the registers show; for one of 12
    hours it does but for the hours of noon and midnight, which are
    exchanged. *)
Theorem rtc_update_time_correct binary h24 c s :
  clock_ok c -> registers_show binary h24 regs c ->
  exists s', rtc_update_time device s = Ret (tt, s') /\
    rtc_get_current_daytime s' = c_second c + 60 * c_minute c + 3600 * read_hour h24 (c_hour c) /\
    day (rtc_get_current_date s') = c_day c /\ month (rtc_get_current_date s') = c_month c /\
    year (rtc_get_current_date s') = 2000 + c_year c.
Proof.
  intros [K1 K2 K3 K4 K5 K6] [R1 R2 R3 R4 R5 R6 R7 R8].
  destruct (read_time_run (controller (manager s))) as (h & H). unfold rtc_update_time.
  assert (forall v, 0 <= v < 256 -> u8 v = v) as Hu by (intros; by apply Z.mod_small).
  rewrite R1, R2, R3, R4, R5, R6 in H.
  rewrite !(Hu (encode _ _)), (Hu (encode_hour _ _ _)) in H by
    (apply encode_hour_range || apply encode_range; lia).
  rewrite (ports_run _ _ _ _ _ H), !exec_modify.
  match goal with |- exists s', bind (ports _) _ ?s2 = _ /\ _ =>
    destruct (cmos_read_run CMOS_REG_C (controller (manager s2))) as (h' & H'); [by split; vm_compute|];
    rewrite (ports_run _ _ _ _ _ H') end.
  eexists. split; [reflexivity|].
  cbn [rtc_get_current_daytime rtc_get_current_date day_time date set_manager set_day_time set_date].
  rewrite hour_read by done.
  assert (0 <= read_hour h24 (c_hour c) < 24) as Hh by (unfold read_hour; destruct h24; repeat case_decide; lia).
  assert (forall f v, f = encode binary v -> 0 <= v < 100 ->
    (if decide (Z.land (u8 (regs CMOS_REG_B)) 0x04 = 0) then bcd f else f) = v) as Hf.
  { intros f v -> Hv. case_decide as Hd; [apply R7 in Hd as ->; by apply bcd_encode|].
    destruct binary; [done|]. exfalso. apply Hd. by apply R7. }
  unfold convert_bcd, compute_date. cbn [r_reg_b].
  pose proof (Hf _ _ eq_refl (conj (proj1 K1) (Z.lt_trans _ 60 100 (proj2 K1) ltac:(lia)))) as F1.
  pose proof (Hf _ _ eq_refl (conj (proj1 K2) (Z.lt_trans _ 60 100 (proj2 K2) ltac:(lia)))) as F2.
  pose proof (Hf _ (c_day c) eq_refl ltac:(lia)) as F4. pose proof (Hf _ (c_month c) eq_refl ltac:(lia)) as F5.
  pose proof (Hf _ (c_year c) eq_refl ltac:(lia)) as F6.
  case_decide; cbn [r_seconds r_minutes r_hours r_day r_month r_year day month year weekday];
    rewrite ?F1, ?F2, ?F4, ?F5, ?F6, ?(Hu (c_second c)), ?(Hu (c_minute c)) by lia.
  all: split; [apply u32_small; lia|]; split; [done|]; split; [done|];
    (transitivity (u16 (c_year c + 2000)); [reflexivity|unfold u16; rewrite Z.mod_small; lia]).
Qed.
End Rtc.

(** The day of the week does not follow the calendar: from the last day of a
    month to the first of the next it goes back. *)
Lemma weekday_jumps :
  weekday (compute_date (mk_raw 0 0 0 31 1 20 0)) = 4 /\ weekday (compute_date (mk_raw 0 0 0 1 2 20 0)) = 3.
Proof. by split. Qed.

(** ** Witness *)

Definition demo_regs (r : Z) : Z :=
  if decide (r = CMOS_SECONDS_REGISTER) then 0x59 else if decide (r = CMOS_MINUTES_REGISTER) then 0x30
  else if decide (r = CMOS_HOURS_REGISTER) then 0x91 else if decide (r = CMOS_DAY_REGISTER) then 0x28
  else if decide (r = CMOS_MONTH_REGISTER) then 0x12 else if decide (r = CMOS_YEAR_REGISTER) then 0x19 else 0.

(** Half past eleven in the evening on a clock of 12 hours, in BCD. *)
Definition demo_clock : clock := mk_clock 59 30 23 28 12 19.

Definition cmos_device (h : history) (port : Z) : Z := demo_regs (default 0 (last (written CMOS_COMM_PORT h)) mod 128).

Lemma rtc_update_time_correct_witness :
  (cmos_answers cmos_device demo_regs /\ clock_ok demo_clock /\ registers_show false false demo_regs demo_clock) /\
  exists s', rtc_update_time cmos_device (mk_timers 0 0 0 0 0 (mk_date 0 0 0 0)
      (mk_int_state (fun _ => mk_handler 0 NULL) (pic_driver cmos_device) 0 [])) = Ret (tt, s') /\
    rtc_get_current_daytime s' = 84659 /\ day (rtc_get_current_date s') = 28 /\
    month (rtc_get_current_date s') = 12 /\ year (rtc_get_current_date s') = 2019.
Proof.
  assert (cmos_answers cmos_device demo_regs) as Ha
    by (intros h r Hr; unfold cmos_device; by rewrite Hr).
  assert (clock_ok demo_clock) as Hc by (split; cbn; lia).
  assert (registers_show false false demo_regs demo_clock) as Hr by (split; vm_compute; done).
  split; [by split_and!|].
  exact (rtc_update_time_correct cmos_device demo_regs Ha false false demo_clock _ Hc Hr).
Defined.
