(* ===== verification/Acpi.v ===== *)
(** * The tables of the firmware ([arch/x86/acpi.c])

    The search of the ACPI tables in memory, their checks, and what the kernel
    keeps of them: the processors and the I/O APIC of the MADT.  The pages
    are mapped by functions of the paging component, seen here as operations on
    a state of their own. *)
From stdpp Require Import functions.
From S2P Require Import Prelude Frames ByteMem MemInfo Ports.

Definition APIC_TYPE_LOCAL_APIC : Z := 0x0.
Definition APIC_TYPE_IO_APIC : Z := 0x1.
Definition APIC_TYPE_INTERRUPT_OVERRIDE : Z := 0x2.
Definition ACPI_RSDP_SIG : Z := 0x2052545020445352.
Definition ACPI_RSDT_SIG : Z := 0x54445352.
Definition ACPI_XSDT_SIG : Z := 0x54445358.
Definition ACPI_FACP_SIG : Z := 0x50434146.
Definition ACPI_FACS_SIG : Z := 0x53434146.
Definition ACPI_APIC_SIG : Z := 0x43495041.
Definition ACPI_DSDT_SIG : Z := 0x54445344.
Definition MAX_IO_APIC_COUNT : Z := 1.
Definition MAX_CPU_COUNT : Z := 4.

(** Sizes and fields of the packed structures, by their offsets. *)
Definition sizeof_header : Z := 36.
Definition sizeof_madt : Z := 44.
Definition sizeof_rsdt : Z := 40.
Definition sizeof_rsdp : Z := 20.
Definition sizeof_rsdp_2 : Z := 36.
Definition sizeof_fadt : Z := 244.

Definition header_signature (p : Z) : M mem Z := load32 p.
Definition header_length (p : Z) : M mem Z := load32 (p + 4).
Definition local_apic_addr (p : Z) : M mem Z := load32 (p + 36).
Definition entry_kind (p : Z) : M mem Z := load p.
Definition entry_length (p : Z) : M mem Z := load (p + 1).
Definition acpi_cpu_id (p : Z) : M mem Z := load (p + 2).
Definition apic_id (p : Z) : M mem Z := load (p + 3).
Definition io_apic_addr (p : Z) : M mem Z := load32 (p + 4).
Definition override_source (p : Z) : M mem Z := load (p + 3).
Definition override_interrupt (p : Z) : M mem Z := load32 (p + 4).
Definition firmware_control (p : Z) : M mem Z := load32 (p + 36).
Definition fadt_dsdt (p : Z) : M mem Z := load32 (p + 40).
Definition rsdp_revision (p : Z) : M mem Z := load (p + 15).
Definition rsdt_address (p : Z) : M mem Z := load32 (p + 16).
Definition xsdt_address (p : Z) : M mem Z := load64 (p + 24).

(** ** The variables of the file *)

Inductive acpi_table : Type := RSDP | RSDT | XSDT | FADT | FACS | DSDT | MADT.

#[export] Instance acpi_table_eq_dec : EqDecision acpi_table.
Proof. solve_decision. Defined.

(** [parse_success] and [table_ptr] hold [..._parse_success] and the pointer
    of each table; [paging] is the state of the mappings. *)
Record acpi (P : Type) : Type := mk_acpi {
  cpu_count : Z;
  cpu_ids : list Z;       (* MAX_CPU_COUNT *)
  cpu_lapic : list Z;     (* MAX_CPU_COUNT *)
  io_apic_count : Z;
  io_apic_tables : list Z; (* MAX_IO_APIC_COUNT *)
  parse_success : acpi_table -> Z;
  table_ptr : acpi_table -> Z;
  has_xsdt : Z;
  acpi_initialized : Z;
  paging : P
}.
Arguments mk_acpi {P}.
Arguments cpu_count {P}.
Arguments cpu_ids {P}.
Arguments cpu_lapic {P}.
Arguments io_apic_count {P}.
Arguments io_apic_tables {P}.
Arguments parse_success {P}.
Arguments table_ptr {P}.
Arguments has_xsdt {P}.
Arguments acpi_initialized {P}.
Arguments paging {P}.

Section Acpi.
Context {P : Type} (kernel_mmap_hw : Z -> Z -> Z -> Z -> M P OS_RETURN_E) (kernel_munmap : Z -> Z -> M P OS_RETURN_E).
Implicit Types s : acpi P.

Definition set_cpus (n : Z) (ids lapics : list Z) s : acpi P :=
  mk_acpi n ids lapics (io_apic_count s) (io_apic_tables s) (parse_success s) (table_ptr s) (has_xsdt s)
    (acpi_initialized s) (paging s).
Definition set_io_apics (n : Z) (tables : list Z) s : acpi P :=
  mk_acpi (cpu_count s) (cpu_ids s) (cpu_lapic s) n tables (parse_success s) (table_ptr s) (has_xsdt s)
    (acpi_initialized s) (paging s).
Definition set_success (t : acpi_table) (v : Z) s : acpi P :=
  mk_acpi (cpu_count s) (cpu_ids s) (cpu_lapic s) (io_apic_count s) (io_apic_tables s) (<[t := v]> (parse_success s))
    (table_ptr s) (has_xsdt s) (acpi_initialized s) (paging s).
Definition set_table (t : acpi_table) (p : Z) s : acpi P :=
  mk_acpi (cpu_count s) (cpu_ids s) (cpu_lapic s) (io_apic_count s) (io_apic_tables s) (parse_success s)
    (<[t := p]> (table_ptr s)) (has_xsdt s) (acpi_initialized s) (paging s).
Definition set_has_xsdt (v : Z) s : acpi P :=
  mk_acpi (cpu_count s) (cpu_ids s) (cpu_lapic s) (io_apic_count s) (io_apic_tables s) (parse_success s)
    (table_ptr s) v (acpi_initialized s) (paging s).
Definition set_initialized (v : Z) s : acpi P :=
  mk_acpi (cpu_count s) (cpu_ids s) (cpu_lapic s) (io_apic_count s) (io_apic_tables s) (parse_success s)
    (table_ptr s) (has_xsdt s) v (paging s).
Definition set_paging (v : P) s : acpi P :=
  mk_acpi (cpu_count s) (cpu_ids s) (cpu_lapic s) (io_apic_count s) (io_apic_tables s) (parse_success s)
    (table_ptr s) (has_xsdt s) (acpi_initialized s) v.

Definition on_paging {A} (m : M P A) : M (world (acpi P)) A := in_dev (zoom paging set_paging m).

(** A table has been parsed: its flag and its pointer. *)
Definition parsed (t : acpi_table) (p : Z) : M (world (acpi P)) unit :=
  in_dev (modify (set_success t 1)) >>> in_dev (modify (set_table t p)).

(** ** Mappings *)

(** [n] bounds the pages of the request. *)
Fixpoint map_pages (n : nat) (addr_align size : Z) : M (world (acpi P)) OS_RETURN_E :=
  match n with
  | O => diverge
  | S n =>
    if decide (size = 0) then ret OS_NO_ERR
    else
      let* err := on_paging (kernel_mmap_hw addr_align addr_align KERNEL_PAGE_SIZE 1) in
      if decide (err <> OS_NO_ERR /\ err <> OS_ERR_MAPPING_ALREADY_EXISTS) then ret err
      else
        map_pages n (u32 (addr_align + KERNEL_PAGE_SIZE))
          (if decide (size >= KERNEL_PAGE_SIZE) then size - KERNEL_PAGE_SIZE else 0)
  end.

Definition acpi_map_data (start_addr size : Z) : M (world (acpi P)) OS_RETURN_E :=
  let addr_align := Z.land start_addr (Z.lnot (KERNEL_PAGE_SIZE - 1)) in
  let size := u32 (size + start_addr - addr_align) in
  map_pages (Z.to_nat (size / KERNEL_PAGE_SIZE + 2)) addr_align size.

(** The calls that stop at an error. *)
Definition check (call : M (world (acpi P)) OS_RETURN_E) (k : M (world (acpi P)) OS_RETURN_E) :
    M (world (acpi P)) OS_RETURN_E :=
  let* err := call in if decide (err <> OS_NO_ERR) then ret err else k.

(** ** Checksums *)

(** [for(i = 0; i < header.length; ++i) sum += ...], with the width of [i] and
    [sum]. *)
Fixpoint sum_loop (fuel : nat) (width : Z -> Z) (p i sum : Z) : M mem Z :=
  match fuel with
  | O => diverge
  | S fuel =>
    let* n := header_length p in
    if decide (i < n) then
      let* b := load (p + i) in sum_loop fuel width p (width (i + 1)) (width (sum + b))
    else ret sum
  end.

Definition checksum (width : Z -> Z) (p : Z) : M mem Z :=
  let* n := header_length p in sum_loop (S (Z.to_nat n)) width p 0 0.

(** The same on a structure of constant size. *)
Fixpoint sum_bytes (n : nat) (p i sum : Z) : M mem Z :=
  match n with
  | O => ret sum
  | S n => let* b := load (p + i) in sum_bytes n p (i + 1) (u8 (sum + b))
  end.

(** ** Tables *)

(** An entry of the MADT. *)
Definition add_cpu (entry : Z) : M (world (acpi P)) unit :=
  let* s := in_dev (gets (fun s => s)) in
  if decide (cpu_count s < MAX_CPU_COUNT) then
    let* id := in_mem (acpi_cpu_id entry) in
    in_dev (modify (set_cpus (cpu_count s + 1) (<[Z.to_nat (cpu_count s) := id]> (cpu_ids s))
                      (<[Z.to_nat (cpu_count s) := entry]> (cpu_lapic s))))
  else ret tt.

Definition add_io_apic (entry : Z) : M (world (acpi P)) unit :=
  let* s := in_dev (gets (fun s => s)) in
  if decide (io_apic_count s < MAX_IO_APIC_COUNT) then
    in_dev (modify (set_io_apics (io_apic_count s + 1)
                      (<[Z.to_nat (io_apic_count s) := entry]> (io_apic_tables s))))
  else ret tt.

(** [n] bounds the entries: one has at least a byte, unless its length is 0
    and the loop never ends. *)
Fixpoint madt_loop (n : nat) (madt_entry madt_limit : Z) : M (world (acpi P)) unit :=
  match n with
  | O => diverge
  | S n =>
    if decide (madt_entry < madt_limit) then
      let* type := in_mem (entry_kind madt_entry) in
      (if decide (type = APIC_TYPE_LOCAL_APIC) then add_cpu madt_entry
       else if decide (type = APIC_TYPE_IO_APIC) then add_io_apic madt_entry
       else ret tt) >>>
      let* length := in_mem (entry_length madt_entry) in
      madt_loop n (u32 (madt_entry + length)) madt_limit
    else ret tt
  end.

Definition acpi_parse_apic (madt_ptr : Z) : M (world (acpi P)) OS_RETURN_E :=
  if decide (madt_ptr = NULL) then ret OS_ERR_NULL_POINTER
  else check (acpi_map_data madt_ptr sizeof_madt) (
    let* sum := in_mem (checksum u32 madt_ptr) in
    if decide (Z.land sum 0xFF <> 0) then ret OS_ERR_CHECKSUM_FAILED
    else
      let* signature := in_mem (header_signature madt_ptr) in
      if decide (signature <> ACPI_APIC_SIG) then ret OS_ERR_CHECKSUM_FAILED
      else
        let* length := in_mem (header_length madt_ptr) in
        let madt_entry := u32 (madt_ptr + sizeof_madt) in
        let madt_limit := u32 (madt_ptr + length) in
        check (acpi_map_data madt_entry (u32 (madt_limit - madt_entry))) (
          in_dev (modify (fun s => set_cpus 0 (cpu_ids s) (cpu_lapic s) s)) >>>
          in_dev (modify (fun s => set_io_apics 0 (io_apic_tables s) s)) >>>
          madt_loop (S (Z.to_nat (madt_limit - madt_entry))) madt_entry madt_limit >>>
          ret OS_NO_ERR)).

Definition acpi_parse_facs (facs_ptr : Z) : M (world (acpi P)) OS_RETURN_E :=
  if decide (facs_ptr = NULL) then ret OS_ERR_NULL_POINTER
  else check (acpi_map_data facs_ptr sizeof_header) (
    let* signature := in_mem (header_signature facs_ptr) in
    if decide (signature <> ACPI_FACS_SIG) then ret OS_ERR_CHECKSUM_FAILED else ret OS_NO_ERR).

Definition acpi_parse_dsdt (dsdt_ptr : Z) : M (world (acpi P)) OS_RETURN_E :=
  if decide (dsdt_ptr = NULL) then ret OS_ERR_NULL_POINTER
  else check (acpi_map_data dsdt_ptr sizeof_header) (
    let* length := in_mem (header_length dsdt_ptr) in
    check (acpi_map_data dsdt_ptr length) (
      let* sum := in_mem (checksum u32 dsdt_ptr) in
      if decide (Z.land sum 0xFF <> 0) then ret OS_ERR_CHECKSUM_FAILED
      else
        let* signature := in_mem (header_signature dsdt_ptr) in
        if decide (signature <> ACPI_DSDT_SIG) then ret OS_ERR_CHECKSUM_FAILED else ret OS_NO_ERR)).

Definition acpi_parse_fadt (fadt_ptr : Z) : M (world (acpi P)) OS_RETURN_E :=
  if decide (fadt_ptr = NULL) then ret OS_ERR_NULL_POINTER
  else check (acpi_map_data fadt_ptr sizeof_fadt) (
    let* sum := in_mem (checksum u32 fadt_ptr) in
    if decide (Z.land sum 0xFF <> 0) then ret OS_ERR_CHECKSUM_FAILED
    else
      let* signature := in_mem (header_signature fadt_ptr) in
      if decide (signature <> ACPI_FACP_SIG) then ret OS_ERR_CHECKSUM_FAILED
      else
        let* facs_ptr := in_mem (firmware_control fadt_ptr) in
        check (acpi_parse_facs facs_ptr) (
          parsed FACS facs_ptr >>>
          let* dsdt_ptr := in_mem (fadt_dsdt fadt_ptr) in
          check (acpi_parse_dsdt dsdt_ptr) (parsed DSDT dsdt_ptr >>> ret OS_NO_ERR))).

Definition acpi_parse_dt (header : Z) : M (world (acpi P)) OS_RETURN_E :=
  if decide (header = NULL) then ret OS_ERR_NULL_POINTER
  else check (acpi_map_data header sizeof_header) (
    let* signature := in_mem (header_signature header) in
    if decide (signature = ACPI_FACP_SIG) then
      let* err := acpi_parse_fadt header in
      if decide (err = OS_NO_ERR) then parsed FADT header >>> ret err else ret err
    else if decide (signature = ACPI_APIC_SIG) then
      let* err := acpi_parse_apic header in
      if decide (err = OS_NO_ERR) then parsed MADT header >>> ret err else ret err
    else ret OS_NO_ERR).

(** The pointers of the RSDT have 4 bytes, those of the XSDT 8; the latter are
    cut to 32 bits. *)
Fixpoint dt_loop (n : nat) (size : Z) (pointer : Z -> M mem Z) (range_begin range_end : Z) (err : OS_RETURN_E) :
    M (world (acpi P)) OS_RETURN_E :=
  match n with
  | O => diverge
  | S n =>
    if decide (range_begin < range_end) then
      let* address := in_mem (pointer range_begin) in
      let* err := acpi_parse_dt (u32 address) in
      if decide (err <> OS_NO_ERR) then ret err
      else dt_loop n size pointer (u32 (range_begin + size)) range_end err
    else ret err
  end.

(** What [acpi_parse_rsdt] and [acpi_parse_xsdt] share: [i] and [sum] have 8
    bits. *)
Definition parse_sdt (sig size : Z) (pointer : Z -> M mem Z) (sdt_ptr : Z) : M (world (acpi P)) OS_RETURN_E :=
  if decide (sdt_ptr = NULL) then ret OS_ERR_NULL_POINTER
  else check (acpi_map_data sdt_ptr sizeof_rsdt) (
    let* sum := in_mem (checksum u8 sdt_ptr) in
    if decide (Z.land sum 0xFF <> 0) then ret OS_ERR_CHECKSUM_FAILED
    else
      let* signature := in_mem (header_signature sdt_ptr) in
      if decide (signature <> sig) then ret OS_ERR_CHECKSUM_FAILED
      else
        let* length := in_mem (header_length sdt_ptr) in
        let range_begin := u32 (sdt_ptr + sizeof_header) in
        let range_end := u32 (sdt_ptr + length) in
        check (acpi_map_data range_begin (u32 (range_end - range_begin))) (
          dt_loop (S (Z.to_nat (range_end - range_begin))) size pointer range_begin range_end OS_NO_ERR)).

Definition acpi_parse_rsdt (rsdt_ptr : Z) : M (world (acpi P)) OS_RETURN_E := parse_sdt ACPI_RSDT_SIG 4 load32 rsdt_ptr.
Definition acpi_parse_xsdt (xsdt_ptr : Z) : M (world (acpi P)) OS_RETURN_E := parse_sdt ACPI_XSDT_SIG 8 load64 xsdt_ptr.

(** The success of a table whose pointer is not kept. *)
Definition succeeds (t : acpi_table) : M (world (acpi P)) unit := in_dev (modify (set_success t 1)).

Definition acpi_parse_rsdp (rsdp_desc : Z) : M (world (acpi P)) OS_RETURN_E :=
  if decide (rsdp_desc = NULL) then ret OS_ERR_NULL_POINTER
  else check (acpi_map_data rsdp_desc sizeof_rsdp) (
    let* sum := in_mem (sum_bytes (Z.to_nat sizeof_rsdp) rsdp_desc 0 0) in
    if decide (Z.land sum 0xFF <> 0) then ret OS_ERR_CHECKSUM_FAILED
    else
      let* revision := in_mem (rsdp_revision rsdp_desc) in
      if decide (revision = 0) then
        let* rsdt_ptr := in_mem (rsdt_address rsdp_desc) in
        check (acpi_parse_rsdt rsdt_ptr) (succeeds RSDT >>> ret OS_NO_ERR)
      else if decide (revision = 2) then
        let* sum := in_mem (sum_bytes (Z.to_nat sizeof_rsdp_2) rsdp_desc 0 0) in
        if decide (sum <> 0) then ret OS_ERR_CHECKSUM_FAILED
        else
          let* xsdt_addr := in_mem (xsdt_address rsdp_desc) in
          if decide (xsdt_addr <> 0) then
            check (acpi_parse_xsdt (u32 xsdt_addr))
              (succeeds XSDT >>> in_dev (modify (set_has_xsdt 1)) >>> ret OS_NO_ERR)
          else
            let* rsdt_ptr := in_mem (rsdt_address rsdp_desc) in
            check (acpi_parse_rsdt rsdt_ptr) (succeeds RSDT >>> ret OS_NO_ERR)
      else ret OS_ERR_ACPI_UNSUPPORTED).

(** ** Initialisation *)

(** [n] steps of 8 bytes are left; the error of a table is dropped. *)
Fixpoint search_loop (n : nat) (range_begin : Z) : M (world (acpi P)) unit :=
  match n with
  | O => ret tt
  | S n =>
    let* signature := in_mem (load64 range_begin) in
    if decide (signature = ACPI_RSDP_SIG) then
      let* err := acpi_parse_rsdp range_begin in
      if decide (err = OS_NO_ERR) then
        in_dev (modify (set_table RSDP range_begin)) >>> in_dev (modify (set_success RSDP 1))
      else search_loop n (range_begin + 8)
    else search_loop n (range_begin + 8)
  end.

Definition clear_acpi s : acpi P :=
  mk_acpi 0 (replicate (Z.to_nat MAX_CPU_COUNT) 0) (replicate (Z.to_nat MAX_CPU_COUNT) NULL)
    0 (replicate (Z.to_nat MAX_IO_APIC_COUNT) NULL) (fun _ => 0) (fun _ => NULL) 0 (acpi_initialized s) (paging s).

(** From 0xE0000 to 0xFFFFF there are 16384 steps. *)
Definition acpi_init : M (world (acpi P)) OS_RETURN_E :=
  in_dev (modify clear_acpi) >>>
  check (on_paging (kernel_mmap_hw 0xE0000 0xE0000 0x20000 1)) (
    search_loop (Z.to_nat 0x4000) 0xE0000 >>>
    check (on_paging (kernel_munmap 0xE0000 0x20000)) (
      in_dev (modify (set_initialized 1)) >>> ret OS_NO_ERR)).

(** ** Readers *)

Definition acpi_get_io_apic_available s : Z :=
  if decide (acpi_initialized s <> 1) then -1 else if decide (io_apic_count s > 0) then 1 else 0.

Definition acpi_get_lapic_available s : Z :=
  if decide (acpi_initialized s <> 1) then -1 else if decide (cpu_count s > 0) then 1 else 0.

Fixpoint override_loop (n : nat) (base limit irq_number : Z) : M mem Z :=
  match n with
  | O => diverge
  | S n =>
    if decide (base < limit) then
      let* type := entry_kind base in
      let* source := if decide (type = APIC_TYPE_INTERRUPT_OVERRIDE) then override_source base else ret (-1) in
      if decide (type = APIC_TYPE_INTERRUPT_OVERRIDE /\ source = irq_number) then
        let* interrupt := override_interrupt base in ret (i32 interrupt)
      else
        let* length := entry_length base in
        override_loop n (u32 (base + length)) limit irq_number
    else ret (i32 irq_number)
  end.

Definition acpi_get_remmaped_irq (irq_number : Z) : M (world (acpi P)) Z :=
  let* s := in_dev (gets (fun s => s)) in
  if decide (acpi_initialized s <> 1) then ret (-1)
  else if decide (parse_success s MADT = 0) then ret (i32 irq_number)
  else
    let madt := table_ptr s MADT in
    let* length := in_mem (header_length madt) in
    let base := u32 (madt + sizeof_madt) in
    let limit := u32 (madt + length) in
    in_mem (override_loop (S (Z.to_nat (limit - base))) base limit irq_number).

(** An element of a table; past its end it is undefined. *)
Definition element (l : list Z) (i : Z) : M (world (acpi P)) Z :=
  match l !! Z.to_nat i with Some x => ret x | None => fault end.

Definition acpi_get_io_apic_address (io_apic_id : Z) : M (world (acpi P)) Z :=
  let* s := in_dev (gets (fun s => s)) in
  if decide (acpi_initialized s <> 1) then ret NULL
  else if decide (parse_success s MADT = 0) then ret NULL
  else if decide (io_apic_id > io_apic_count s) then ret NULL
  else let* table := element (io_apic_tables s) io_apic_id in in_mem (io_apic_addr table).

Definition acpi_get_lapic_addr : M (world (acpi P)) Z :=
  let* s := in_dev (gets (fun s => s)) in
  if decide (acpi_initialized s <> 1) then ret NULL
  else if decide (parse_success s MADT = 0) then ret NULL
  else in_mem (local_apic_addr (table_ptr s MADT)).

(** [n] elements from [i] on. *)
Fixpoint lapic_loop (n : nat) (i lapic_id : Z) : M (world (acpi P)) OS_RETURN_E :=
  match n with
  | O => ret OS_ERR_NO_SUCH_LAPIC_ID
  | S n =>
    let* s := in_dev (gets (fun s => s)) in
    let* lapic := element (cpu_lapic s) i in
    let* id := in_mem (apic_id lapic) in
    if decide (id = lapic_id) then ret OS_NO_ERR else lapic_loop n (i + 1) lapic_id
  end.

Definition acpi_check_lapic_id (lapic_id : Z) : M (world (acpi P)) OS_RETURN_E :=
  let* s := in_dev (gets (fun s => s)) in
  if decide (acpi_initialized s <> 1) then ret OS_ACPI_NOT_INITIALIZED
  else lapic_loop (Z.to_nat (cpu_count s)) 0 lapic_id.

Definition acpi_get_detected_cpu_count s : Z := if decide (cpu_count s = 0) then -1 else cpu_count s.
Definition acpi_get_cpu_ids s : list Z := cpu_ids s.
Definition acpi_get_cpu_lapics s : list Z := cpu_lapic s.
End Acpi.
