(* ===== verification/AcpiTheorems.v ===== *)
(** * The tables of the firmware: properties

    What the parser keeps of a MADT and what its readers answer, and the
    tables it never finishes to read. *)
From stdpp Require Import functions.
From S2P Require Import Prelude Frames ByteMem MemInfo Ports MemInfoTheorems Acpi.

(** ** The MADT *)

(** The header of an entry, then what the kernel reads of the entries it
    knows: two bytes and a word. *)
Record apic_entry : Type := mk_entry {
  ae_type : Z; ae_length : Z; ae_byte2 : Z; ae_byte3 : Z; ae_word : Z
}.

Record apic_entry_at (m : mem) (p : Z) (e : apic_entry) : Prop := {
  aa_type : reads (entry_kind p) m (ae_type e);
  aa_length : reads (entry_length p) m (ae_length e);
  aa_fields : 0 <= ae_type e <= 2 ->
    reads (load (p + 2)) m (ae_byte2 e) /\ reads (load (p + 3)) m (ae_byte3 e) /\ reads (load32 (p + 4)) m (ae_word e);
  aa_range : 2 <= ae_length e < 256
}.

(** The entries from [p] to [q]. *)
Fixpoint entries_at (m : mem) (p q : Z) (es : list apic_entry) : Prop :=
  match es with
  | [] => p = q
  | e :: es => apic_entry_at m p e /\ entries_at m (p + ae_length e) q es
  end.

(** The entries with their addresses. *)
Fixpoint located (p : Z) (es : list apic_entry) : list (Z * apic_entry) :=
  match es with
  | [] => []
  | e :: es => (p, e) :: located (p + ae_length e) es
  end.

Definition of_type (t : Z) (l : list (Z * apic_entry)) : list (Z * apic_entry) := filter (fun x => ae_type x.2 = t) l.

Definition sum_of (l : list Z) : Z := foldr Z.add 0 l.

Record madt_at (m : mem) (p n lapic_addr : Z) (es : list apic_entry) : Prop := {
  ma_place : 0 < p /\ 44 <= n /\ p + n < 2 ^ 32;
  ma_signature : reads (header_signature p) m ACPI_APIC_SIG;
  ma_length : reads (header_length p) m n;
  ma_lapic : reads (local_apic_addr p) m lapic_addr;
  ma_sum : exists l, bytes_at m p l /\ Z.of_nat (length l) = n /\ sum_of l mod 256 = 0;
  ma_entries : entries_at m (p + 44) (p + n) es
}.

(** The processors and I/O APICs the kernel keeps. *)
Definition kept_cpus (p : Z) (es : list apic_entry) : list (Z * apic_entry) :=
  take 4 (of_type APIC_TYPE_LOCAL_APIC (located (p + 44) es)).
Definition kept_io_apics (p : Z) (es : list apic_entry) : list (Z * apic_entry) :=
  take 1 (of_type APIC_TYPE_IO_APIC (located (p + 44) es)).

(** The line an interrupt is moved to: the first override of its number. *)
Fixpoint remapped (es : list apic_entry) (irq : Z) : Z :=
  match es with
  | [] => irq
  | e :: es =>
      if decide (ae_type e = APIC_TYPE_INTERRUPT_OVERRIDE /\ ae_byte3 e = irq) then i32 (ae_word e) else remapped es irq
  end.

Section Acpi.
Context {P : Type} (kernel_mmap_hw : Z -> Z -> Z -> Z -> M P OS_RETURN_E).
Implicit Types (s : acpi P) (m : mem).

(** The mapping of a page at its own address succeeds or finds it mapped. *)
Definition maps_pages : Prop :=
  forall a x, exists err x', kernel_mmap_hw a a KERNEL_PAGE_SIZE 1 x = Ret (err, x') /\
    (err = OS_NO_ERR \/ err = OS_ERR_MAPPING_ALREADY_EXISTS).

Hypothesis (Hmap : maps_pages).

Lemma map_pages_run n : forall a size m s, 0 <= size <= (Z.of_nat n - 1) * KERNEL_PAGE_SIZE ->
  exists x, map_pages kernel_mmap_hw n a size (m, s) = Ret (OS_NO_ERR, (m, set_paging x s)).
Proof.
  induction n as [|n IH]; intros a size m s Hn; [unfold KERNEL_PAGE_SIZE in *; lia|].
  cbn [map_pages]. case_decide as Hz; [exists (paging s); by destruct s|].
  destruct (Hmap a (paging s)) as (err & x' & Hx & He). unfold on_paging.
  rewrite (in_dev_run _ err m s (set_paging x' s)) by (unfold zoom; by rewrite Hx).
  rewrite decide_False by (destruct He as [-> | ->]; intros [? ?]; done).
  destruct (IH (u32 (a + KERNEL_PAGE_SIZE)) (if decide (size >= KERNEL_PAGE_SIZE) then size - KERNEL_PAGE_SIZE else 0)
    m (set_paging x' s)) as (x & Hr); [unfold KERNEL_PAGE_SIZE in *; case_decide; lia|].
  exists x. rewrite Hr. by destruct s.
Qed.

Lemma check_map_run a size m s (k : M (world (acpi P)) OS_RETURN_E) :
  exists x, check (acpi_map_data kernel_mmap_hw a size) k (m, s) = k (m, set_paging x s).
Proof.
  unfold check, acpi_map_data. set (a' := Z.land _ _). set (sz := u32 _).
  assert (0 <= sz) by (unfold sz, u32; apply Z.mod_pos_bound; lia).
  destruct (map_pages_run (Z.to_nat (sz / KERNEL_PAGE_SIZE + 2)) a' sz m s) as (x & H1).
  { clearbody sz. unfold KERNEL_PAGE_SIZE. Z.div_mod_to_equations. lia. }
  exists x. by rewrite (bind_ret _ _ _ _ _ H1), decide_False by tauto.
Qed.

(** ** Checksums *)

Lemma reads_in_mem {A B} (f : M mem A) a m s (k : A -> M (world (acpi P)) B) :
  reads f m a -> bind (in_mem f) k (m, s) = k a (m, s).
Proof. apply in_mem_run. Qed.

Lemma sum_loop_run width p n m : (forall x, width x mod 256 = x mod 256) -> (forall x, 0 <= x <= n -> width x = x) ->
  reads (header_length p) m n -> forall fuel l i sum, bytes_at m (p + i) l -> 0 <= i -> i + Z.of_nat (length l) = n ->
  (length l < fuel)%nat ->
  exists r, sum_loop fuel width p i sum m = Ret (r, m) /\ r mod 256 = (sum + sum_of l) mod 256.
Proof.
  intros Hw Hi Hn. induction fuel as [|fuel IH]; intros l i sum Hb H0 Hl Hf; [lia|]. cbn [sum_loop].
  rewrite (bind_ret _ _ _ _ _ Hn). destruct l as [|b l]; cbn [length] in *.
  - rewrite decide_False by lia. exists sum. split; [done|]. f_equal. cbn. lia.
  - rewrite decide_True by lia. apply bytes_at_cons in Hb as [Hb1 Hb2].
    assert (load (p + i) m = Ret (b, m)) as Hload by (unfold load; by rewrite Hb1).
    rewrite (bind_ret _ _ _ _ _ Hload), (Hi (i + 1)) by lia.
    destruct (IH l (i + 1) (width (sum + b))) as (r & Hr & Hm); [by rewrite Z.add_assoc|lia..|].
    exists r. split; [done|]. rewrite Hm. cbn [sum_of foldr].
    rewrite <- Zplus_mod_idemp_l, Hw, Zplus_mod_idemp_l. f_equal. unfold sum_of. lia.
Qed.

Lemma low_byte r : Z.land r 0xFF = r mod 256.
Proof. change 0xFF with (Z.ones 8). by rewrite Z.land_ones by lia. Qed.

Lemma checksum_run p n l m : reads (header_length p) m n -> 0 <= n < 2 ^ 32 -> bytes_at m p l -> Z.of_nat (length l) = n ->
  exists r, reads (checksum u32 p) m r /\ Z.land r 0xFF = sum_of l mod 256.
Proof.
  intros Hn Hr Hb Hl. unfold reads, checksum. rewrite (bind_ret _ _ _ _ _ Hn).
  destruct (sum_loop_run u32 p n m) with (fuel := S (Z.to_nat n)) (l := l) (i := 0) (sum := 0) as (r & H & Hm);
    [|intros; apply u32_small; lia|done|by rewrite Z.add_0_r|lia..|].
  { intros x. unfold u32. change (2 ^ 32) with (256 * 2 ^ 24). by rewrite Z.rem_mul_r, Z.mul_comm, Z_mod_plus_full,
      Z.mod_mod by lia. }
  exists r. split; [done|]. by rewrite low_byte, Hm.
Qed.

(** ** The loop over the entries *)

(** The processors found so far are those of [C], the I/O APICs those of
    [I]. *)
Record found (C I : list (Z * apic_entry)) s : Prop := {
  fd_count : cpu_count s = Z.of_nat (length C);
  fd_length : (length C <= 4)%nat /\ length (cpu_ids s) = 4%nat /\ length (cpu_lapic s) = 4%nat;
  fd_ids : take (length C) (cpu_ids s) = (fun x => ae_byte2 x.2) <$> C;
  fd_lapics : take (length C) (cpu_lapic s) = fst <$> C;
  fd_io : io_apic_count s = Z.of_nat (length I);
  fd_io_length : (length I <= 1)%nat /\ length (io_apic_tables s) = 1%nat;
  fd_tables : take (length I) (io_apic_tables s) = fst <$> I
}.

(** The rest of the state. *)
Definition same_tables s s' : Prop :=
  parse_success s' = parse_success s /\ table_ptr s' = table_ptr s /\ acpi_initialized s' = acpi_initialized s.

Lemma same_tables_trans s1 s2 s3 : same_tables s1 s2 -> same_tables s2 s3 -> same_tables s1 s3.
Proof. intros (A & B & C) (D & E & F). split_and!; congruence. Qed.

Lemma take_snoc_insert {A} (l k : list A) n x : (n < length l)%nat -> take n l = k ->
  take (S n) (<[n := x]> l) = k ++ [x].
Proof.
  intros Hn <-. rewrite (take_S_r _ _ x) by (by apply list_lookup_insert_eq). f_equal.
  apply take_insert_ge. lia.
Qed.

Lemma add_cpu_run C I p e m s : found C I s -> reads (acpi_cpu_id p) m (ae_byte2 e) ->
  exists s', add_cpu p (m, s) = Ret (tt, (m, s')) /\
    found (if decide (length C < 4)%nat then C ++ [(p, e)] else C) I s' /\ same_tables s s'.
Proof.
  intros [F1 F2 F3 F4 F5 F6 F7] Hr. unfold add_cpu. rewrite (in_dev_run _ s m s s) by done.
  rewrite F1. case_decide as Hlt; case_decide as Hl4; unfold MAX_CPU_COUNT in *; try lia.
  - rewrite (reads_in_mem _ _ _ _ _ Hr). rewrite Nat2Z.id. eexists. split; [reflexivity|]. split; [|by split_and!].
    split; cbn; rewrite ?length_app, ?length_insert; cbn; try lia; try done.
    + rewrite Nat.add_1_r, fmap_app. apply take_snoc_insert; [lia|done].
    + rewrite Nat.add_1_r, fmap_app. apply take_snoc_insert; [lia|done].
  - exists s. split; [done|]. split; [done|by split_and!].
Qed.

Lemma add_io_run C I p e m s : found C I s ->
  exists s', add_io_apic p (m, s) = Ret (tt, (m, s')) /\
    found C (if decide (length I < 1)%nat then I ++ [(p, e)] else I) s' /\ same_tables s s'.
Proof.
  intros [F1 F2 F3 F4 F5 F6 F7]. unfold add_io_apic. rewrite (in_dev_run _ s m s s) by done.
  rewrite F5. case_decide as Hlt; case_decide as Hl4; unfold MAX_IO_APIC_COUNT in *; try lia.
  - rewrite Nat2Z.id. eexists. split; [reflexivity|]. split; [|by split_and!].
    split; cbn; rewrite ?length_app, ?length_insert; cbn; try lia; try done.
    rewrite Nat.add_1_r, fmap_app. apply take_snoc_insert; [lia|done].
  - exists s. split; [done|]. split; [done|by split_and!].
Qed.

Lemma take_app_step {A} n (C l : list A) x : (length C <= n)%nat ->
  take n ((if decide (length C < n)%nat then C ++ [x] else C) ++ l) = take n (C ++ x :: l).
Proof.
  intros Hn. case_decide as H; [by rewrite <- app_assoc|].
  rewrite !take_app_le by lia. done.
Qed.

Lemma entries_le m p q es : entries_at m p q es -> p <= q.
Proof.
  revert p. induction es as [|e es IH]; intros p; cbn; [lia|]. intros [[_ _ _ Hr] H%IH]. lia.
Qed.

Lemma madt_loop_run q m : q < 2 ^ 32 -> forall es n p C I s,
  entries_at m p q es -> 0 <= p -> q - p < Z.of_nat n -> found C I s ->
  exists s', madt_loop n p q (m, s) = Ret (tt, (m, s')) /\ same_tables s s' /\
    found (take 4 (C ++ of_type APIC_TYPE_LOCAL_APIC (located p es)))
      (take 1 (I ++ of_type APIC_TYPE_IO_APIC (located p es))) s'.
Proof.
  intros Hq. induction es as [|e es IH]; intros [|n] p C I s He Hp Hn Hf; cbn [entries_at] in He; try lia.
  { cbn [madt_loop]. rewrite decide_False by lia. exists s. split; [done|]. split; [by split_and!|].
    cbn. rewrite !app_nil_r, !take_ge by apply Hf. done. }
  { destruct He as [He1 He2]. apply entries_le in He2. destruct He1 as [_ _ _ Hr]. lia. }
  destruct He as [[A1 A2 A3 A4] He]. pose proof (entries_le _ _ _ _ He) as Hle.
  cbn [madt_loop]. rewrite decide_True by lia. rewrite (reads_in_mem _ _ _ _ _ A1).
  assert (exists s1, (if decide (ae_type e = APIC_TYPE_LOCAL_APIC) then add_cpu p
      else if decide (ae_type e = APIC_TYPE_IO_APIC) then add_io_apic p else ret tt) (m, s) = Ret (tt, (m, s1)) /\
    same_tables s s1 /\
    found (if decide (ae_type e = APIC_TYPE_LOCAL_APIC) then if decide (length C < 4)%nat then C ++ [(p, e)] else C else C)
      (if decide (ae_type e = APIC_TYPE_IO_APIC) then if decide (length I < 1)%nat then I ++ [(p, e)] else I else I) s1)
    as (s1 & H1 & S1 & F1).
  { destruct (decide (ae_type e = APIC_TYPE_LOCAL_APIC)) as [Ht|Ht].
    - rewrite (decide_False (P := ae_type e = APIC_TYPE_IO_APIC)) by (rewrite Ht; done).
      destruct (add_cpu_run C I p e m s Hf) as (s1 & H1 & F1 & S1);
        [apply A3; rewrite Ht; unfold APIC_TYPE_LOCAL_APIC; lia|]. by exists s1.
    - destruct (decide (ae_type e = APIC_TYPE_IO_APIC)) as [Ht'|Ht'].
      + destruct (add_io_run C I p e m s Hf) as (s1 & H1 & F1 & S1). by exists s1.
      + exists s. split; [done|]. split; [by split_and!|done]. }
  rewrite (bind_ret _ _ _ _ _ H1), (reads_in_mem _ _ _ _ _ A2).
  rewrite u32_small by lia.
  destruct (IH n (p + ae_length e) _ _ s1 He ltac:(lia) ltac:(lia) F1) as (s2 & H2 & S2 & F2).
  exists s2. split; [done|]. split; [by eapply same_tables_trans|].
  assert (length C <= 4)%nat as HC by apply Hf. assert (length I <= 1)%nat as HI by apply Hf.
  assert (forall t, of_type t (located p (e :: es)) =
    if decide (ae_type e = t) then (p, e) :: of_type t (located (p + ae_length e) es)
    else of_type t (located (p + ae_length e) es)) as Hot by (intros t; unfold of_type; cbn [located]; by rewrite filter_cons).
  rewrite !Hot. destruct (decide (ae_type e = APIC_TYPE_LOCAL_APIC)) as [Ht|Ht],
    (decide (ae_type e = APIC_TYPE_IO_APIC)) as [Ht'|Ht']; rewrite ?take_app_step in F2 by done; done.
Qed.

(** ** The table and its readers *)

Definition tables_sized s : Prop :=
  length (cpu_ids s) = 4%nat /\ length (cpu_lapic s) = 4%nat /\ length (io_apic_tables s) = 1%nat.

Lemma found_cleared s : tables_sized s ->
  found [] [] (set_io_apics 0 (io_apic_tables s) (set_cpus 0 (cpu_ids s) (cpu_lapic s) s)).
Proof. intros (? & ? & ?). split; cbn; split_and?; done || lia. Qed.

Lemma acpi_parse_apic_run p n lapic_addr es m s : madt_at m p n lapic_addr es -> tables_sized s ->
  exists s', acpi_parse_apic kernel_mmap_hw p (m, s) = Ret (OS_NO_ERR, (m, s')) /\
    same_tables s s' /\ found (kept_cpus p es) (kept_io_apics p es) s'.
Proof.
  intros [(Hp & Hn & Hpn) Hsig Hlen _ (l & Hb & Hl & Hsum) He] (L1 & L2 & L3). unfold acpi_parse_apic.
  rewrite decide_False by (unfold NULL; lia).
  destruct (checksum_run p n l m Hlen ltac:(lia) Hb Hl) as (r & Hr & Hr0).
  edestruct check_map_run as (x1 & ->). rewrite (reads_in_mem _ _ _ _ _ Hr), decide_False by lia.
  rewrite (reads_in_mem _ _ _ _ _ Hsig), decide_False by tauto. rewrite (reads_in_mem _ _ _ _ _ Hlen).
  unfold sizeof_madt. rewrite !(u32_small (p + _)) by lia.
  edestruct check_map_run as (x2 & ->). erewrite in_dev_run by reflexivity. erewrite in_dev_run by reflexivity.
  edestruct (madt_loop_run (p + n) m ltac:(lia) es (S (Z.to_nat (p + n - (p + 44)))) (p + 44) [] [] _ He ltac:(lia) ltac:(lia)
    (found_cleared (set_paging x2 (set_paging x1 s)) (conj L1 (conj L2 L3)))) as (s' & H & HS & HF).
  exists s'. rewrite (bind_ret _ _ _ _ _ H). split; [done|]. split; [|done].
  eapply same_tables_trans; [|done]. by split_and!.
Qed.

Lemma acpi_parse_dt_run p n lapic_addr es m s : madt_at m p n lapic_addr es -> tables_sized s ->
  exists s', acpi_parse_dt kernel_mmap_hw p (m, s) = Ret (OS_NO_ERR, (m, s')) /\
    parse_success s' MADT = 1 /\ table_ptr s' MADT = p /\ acpi_initialized s' = acpi_initialized s /\
    found (kept_cpus p es) (kept_io_apics p es) s'.
Proof.
  intros H Hs. unfold acpi_parse_dt. pose proof (ma_place _ _ _ _ _ H) as (Hp & _).
  rewrite decide_False by (unfold NULL; lia). edestruct check_map_run as (x1 & ->).
  rewrite (reads_in_mem _ _ _ _ _ (ma_signature _ _ _ _ _ H)), decide_False, decide_True by done.
  destruct (acpi_parse_apic_run p n lapic_addr es m (set_paging x1 s) H Hs) as (s' & Hr & (S1 & S2 & S3) & HF).
  rewrite (bind_ret _ _ _ _ _ Hr), decide_True by done. unfold parsed.
  eexists. split; [reflexivity|]. cbn. rewrite !fn_lookup_insert. split_and!; try done.
  by destruct HF.
Qed.

Lemma located_entries m q es : forall p, entries_at m p q es -> Forall (fun x => apic_entry_at m x.1 x.2) (located p es).
Proof.
  induction es as [|e es IH]; intros p; cbn; [by constructor|]. intros [He H]. constructor; [done|by apply IH].
Qed.

Lemma of_type_entries m p q es t n x : entries_at m p q es -> 0 <= t <= 2 -> x ∈ take n (of_type t (located p es)) ->
  ae_type x.2 = t /\ reads (load (x.1 + 2)) m (ae_byte2 x.2) /\ reads (load (x.1 + 3)) m (ae_byte3 x.2) /\
  reads (load32 (x.1 + 4)) m (ae_word x.2).
Proof.
  intros He Ht (i & Hx & _)%elem_of_take. apply list_elem_of_lookup_2 in Hx. apply list_elem_of_filter in Hx as [Hx Hin].
  apply located_entries in He. rewrite Forall_forall in He. destruct (He x Hin) as [_ _ H _].
  split; [done|]. apply H. lia.
Qed.

Lemma override_loop_run q m irq : q < 2 ^ 32 -> 0 <= irq < 2 ^ 31 -> forall es n p,
  entries_at m p q es -> 0 <= p -> q - p < Z.of_nat n ->
  reads (override_loop n p q irq) m (remapped es irq).
Proof.
  intros Hq Hirq. unfold reads. induction es as [|e es IH]; intros [|n] p He Hp Hn; cbn [entries_at] in He; try lia.
  { cbn [override_loop]. rewrite decide_False by lia. unfold ret. by rewrite i32_small by lia. }
  { destruct He as [He1 He2]. apply entries_le in He2. destruct He1 as [_ _ _ Hr]. lia. }
  destruct He as [[A1 A2 A3 A4] He]. pose proof (entries_le _ _ _ _ He) as Hle.
  cbn [override_loop remapped]. rewrite decide_True by lia. rewrite (bind_ret _ _ _ _ _ A1).
  assert (IH' : forall k, k = (let* length := entry_length p in override_loop n (u32 (p + length)) q irq) m ->
    k = Ret (remapped es irq, m)).
  { intros k ->. rewrite (bind_ret _ _ _ _ _ A2), u32_small by lia. apply IH; [done|lia..]. }
  destruct (decide (ae_type e = APIC_TYPE_INTERRUPT_OVERRIDE)) as [Ht|Ht].
  - destruct (A3 ltac:(rewrite Ht; unfold APIC_TYPE_INTERRUPT_OVERRIDE; lia)) as (_ & B3 & B4).
    rewrite (bind_ret _ _ _ _ _ B3). cbv beta. case_decide; [|by apply IH'].
    by rewrite (bind_ret _ _ _ _ _ B4).
  - cbn [bind ret]. rewrite !(decide_False (P := _ /\ _)) by tauto. by apply IH'.
Qed.

Lemma element_run l i x m s : l !! Z.to_nat i = Some x -> element l i (m, s) = Ret (x, (m, s)).
Proof. unfold element. by intros ->. Qed.

(** The table of the processors found so far: its [i]-th element. *)
Lemma found_lapic C I s i x : found C I s -> C !! i = Some x -> cpu_lapic s !! i = Some x.1.
Proof.
  intros H Hx. assert (take (length C) (cpu_lapic s) !! i = Some x.1) as Ht
    by (rewrite (fd_lapics _ _ _ H), list_lookup_fmap, Hx; done).
  apply lookup_take_Some in Ht. tauto.
Qed.

Lemma lapic_loop_run C I m s id : found C I s -> Forall (fun x => reads (load (x.1 + 3)) m (ae_byte3 x.2)) C ->
  forall K pre, C = pre ++ K ->
  lapic_loop (length K) (Z.of_nat (length pre)) id (m, s) =
    Ret (if decide (id ∈ (fun x => ae_byte3 x.2) <$> K) then OS_NO_ERR else OS_ERR_NO_SUCH_LAPIC_ID, (m, s)).
Proof.
  intros Hf Hr. induction K as [|x K IH]; intros pre HC.
  { cbn. by rewrite decide_False by (by apply not_elem_of_nil). }
  cbn [lapic_loop length]. rewrite (in_dev_run _ s m s s) by done.
  assert (C !! length pre = Some x) as Hx by (rewrite HC; by apply list_lookup_middle).
  rewrite (bind_ret _ _ _ x.1 (m, s)) by (apply element_run; rewrite Nat2Z.id; by eapply found_lapic).
  assert (reads (apic_id x.1) m (ae_byte3 x.2)) as Hi by (rewrite Forall_lookup in Hr; by apply (Hr _ _ Hx)).
  rewrite (reads_in_mem _ _ _ _ _ Hi). rewrite fmap_cons. destruct (decide (ae_byte3 x.2 = id)) as [Hd|Hd].
  { rewrite decide_True by (subst id; apply list_elem_of_here). done. }
  specialize (IH (pre ++ [x])). rewrite length_app in IH. cbn [length] in IH.
  replace (Z.of_nat (length pre) + 1) with (Z.of_nat (length pre + 1)) by lia.
  rewrite IH by (rewrite HC, <- app_assoc; done). do 2 f_equal.
  apply decide_ext. rewrite elem_of_cons. naive_solver.
Qed.

(** What the readers answer once a MADT has been parsed. *)
Record answers (cpus io_apics : list (Z * apic_entry)) (es : list apic_entry) (lapic_addr : Z) m s : Prop := {
  an_count : acpi_get_detected_cpu_count s = match cpus with [] => -1 | _ => Z.of_nat (length cpus) end;
  an_ids : take (length cpus) (acpi_get_cpu_ids s) = (fun x => ae_byte2 x.2) <$> cpus;
  an_lapic_available : acpi_get_lapic_available s = match cpus with [] => 0 | _ => 1 end;
  an_io_available : acpi_get_io_apic_available s = match io_apics with [] => 0 | _ => 1 end;
  an_lapic : acpi_get_lapic_addr (m, s) = Ret (lapic_addr, (m, s));
  an_check id : acpi_check_lapic_id id (m, s) =
    Ret (if decide (id ∈ (fun x => ae_byte3 x.2) <$> cpus) then OS_NO_ERR else OS_ERR_NO_SUCH_LAPIC_ID, (m, s));
  an_io x : io_apics = [x] -> acpi_get_io_apic_address 0 (m, s) = Ret (ae_word x.2, (m, s));
  an_irq irq : 0 <= irq < 2 ^ 31 -> acpi_get_remmaped_irq irq (m, s) = Ret (remapped es irq, (m, s))
}.

Lemma acpi_answers p n lapic_addr es m s : madt_at m p n lapic_addr es ->
  found (kept_cpus p es) (kept_io_apics p es) s ->
  acpi_initialized s = 1 -> parse_success s MADT = 1 -> table_ptr s MADT = p ->
  answers (kept_cpus p es) (kept_io_apics p es) es lapic_addr m s.
Proof.
  intros [(Hp & Hn & Hpn) _ Hlen Hla _ He] Hf Hi Hs Ht.
  split.
  - unfold acpi_get_detected_cpu_count. rewrite (fd_count _ _ _ Hf). by destruct (kept_cpus p es).
  - apply Hf.
  - unfold acpi_get_lapic_available. rewrite Hi, (fd_count _ _ _ Hf). by destruct (kept_cpus p es).
  - unfold acpi_get_io_apic_available. rewrite Hi, (fd_io _ _ _ Hf). by destruct (kept_io_apics p es).
  - unfold acpi_get_lapic_addr. rewrite (in_dev_run _ s m s s) by done.
    rewrite decide_False, decide_False by lia. rewrite Ht.
    unfold in_mem, zoom. cbn [fst]. by rewrite Hla.
  - intros id. unfold acpi_check_lapic_id. rewrite (in_dev_run _ s m s s) by done.
    rewrite decide_False by (rewrite Hi; tauto). rewrite (fd_count _ _ _ Hf), Nat2Z.id.
    apply (lapic_loop_run _ _ m s id Hf) with (pre := []); [|done].
    apply Forall_forall. intros x Hx. by apply (of_type_entries _ _ _ _ _ _ _ He) in Hx as (_ & _ & ? & _).
  - intros x Hx. unfold acpi_get_io_apic_address. rewrite (in_dev_run _ s m s s) by done.
    rewrite decide_False, decide_False, decide_False by (rewrite ?(fd_io _ _ _ Hf), ?Hx; cbn; lia).
    pose proof (fd_tables _ _ _ Hf) as Htab. rewrite Hx in Htab. cbn in Htab.
    rewrite (bind_ret _ _ _ x.1 (m, s)) by (apply element_run; by destruct (io_apic_tables s) as [|? ?]; simplify_eq/=).
    assert (x ∈ kept_io_apics p es) as Hin by (rewrite Hx; apply list_elem_of_here).
    apply (of_type_entries _ _ _ _ _ _ _ He) in Hin as (_ & _ & _ & Hw); [|done].
    unfold in_mem, zoom, io_apic_addr. cbn [fst]. by rewrite Hw.
  - intros irq Hirq. unfold acpi_get_remmaped_irq. rewrite (in_dev_run _ s m s s) by done.
    rewrite decide_False, decide_False by lia. rewrite Ht, (reads_in_mem _ _ _ _ _ Hlen).
    unfold sizeof_madt. rewrite !u32_small by lia. unfold in_mem, zoom. cbn [fst].
    by rewrite (override_loop_run (p + n) m irq ltac:(lia) Hirq es (S (Z.to_nat (p + n - (p + 44)))) (p + 44) He
      ltac:(lia) ltac:(lia)).
Qed.

(** C26: A table of the firmware that is a well-formed MADT, whose bytes sum to
    0 and whose entries fill it, is accepted whatever pages were mapped; once
    the ACPI is initialised the readers give its first four processors in
    order, its first I/O APIC, its local APIC address, tell exactly the local
    APICs of these processors, and redirect an interrupt by the first override
    of its number. *)
Theorem acpi_madt_correct p n lapic_addr es m s : madt_at m p n lapic_addr es -> tables_sized s ->
  exists s', acpi_parse_dt kernel_mmap_hw p (m, s) = Ret (OS_NO_ERR, (m, s')) /\
    answers (kept_cpus p es) (kept_io_apics p es) es lapic_addr m (set_initialized 1 s').
Proof.
  intros H Hs. destruct (acpi_parse_dt_run p n lapic_addr es m s H Hs) as (s' & Hr & H1 & H2 & _ & Hf).
  exists s'. split; [done|]. eapply acpi_answers; try done. by destruct Hf.
Qed.
End Acpi.

(** ** Tables that are never finished, and what the initialisation hides *)

Section Defects.
Context {P : Type} (kernel_mmap_hw : Z -> Z -> Z -> Z -> M P OS_RETURN_E) (kernel_munmap : Z -> Z -> M P OS_RETURN_E).
Implicit Types (s : acpi P) (m : mem).

(** The index of the sum of a RSDT or XSDT has 8 bits: of a table of more than
    255 bytes it never reaches the end. *)
Lemma long_sdt_never_ends p n m : reads (header_length p) m n -> 255 < n ->
  (forall i, 0 <= i < 256 -> is_Some (m !! (p + i))) ->
  forall fuel i sum, 0 <= i < 256 -> sum_loop fuel u8 p i sum m = Diverge.
Proof.
  intros Hn Hlong Hb. induction fuel as [|fuel IH]; intros i sum Hi; [done|]. cbn [sum_loop].
  rewrite (bind_ret _ _ _ _ _ Hn), decide_True by lia. destruct (Hb i Hi) as (b & Hbi).
  assert (load (p + i) m = Ret (b, m)) as Hload by (unfold load; by rewrite Hbi).
  rewrite (bind_ret _ _ _ _ _ Hload). apply IH. apply Z.mod_pos_bound. lia.
Qed.

(** An entry of length 0 holds the walk of a MADT for ever. *)
Lemma empty_entry_never_ends p q t m s : p < q -> 0 <= p < 2 ^ 32 -> reads (entry_kind p) m t -> 1 < t ->
  reads (entry_length p) m 0 -> forall n, madt_loop n p q (m, s) = Diverge.
Proof.
  intros Hq Hp Ht Ht1 Hl. induction n as [|n IH]; [done|]. cbn [madt_loop].
  rewrite decide_True by done. rewrite (reads_in_mem _ _ _ _ _ Ht).
  unfold APIC_TYPE_LOCAL_APIC, APIC_TYPE_IO_APIC. rewrite decide_False, decide_False by lia.
  rewrite bind_ret_l, (reads_in_mem _ _ _ _ _ Hl), Z.add_0_r, u32_small by lia. apply IH.
Qed.

(** The number of an I/O APIC that equals their count is looked for past the
    end of the table. *)
Lemma io_apic_past_the_end m s : acpi_initialized s = 1 -> parse_success s MADT <> 0 -> io_apic_count s = 1 ->
  length (io_apic_tables s) = 1%nat -> acpi_get_io_apic_address 1 (m, s) = Fault.
Proof.
  intros Hi Hs Hc Hl. unfold acpi_get_io_apic_address. rewrite (in_dev_run _ s m s s) by done.
  rewrite decide_False, decide_False, decide_False by lia. unfold element, bind.
  by rewrite lookup_ge_None_2 by (rewrite Hl; done).
Qed.

(** Without a RSDP in the area of the firmware the initialisation succeeds,
    nothing being parsed. *)
Lemma search_nothing m s n : forall a, (forall i, a <= i < a + 8 * Z.of_nat n ->
    exists v, reads (load64 i) m v /\ v <> ACPI_RSDP_SIG) ->
  search_loop kernel_mmap_hw n a (m, s) = Ret (tt, (m, s)).
Proof.
  induction n as [|n IH]; intros a H; [done|]. cbn [search_loop].
  destruct (H a ltac:(lia)) as (v & Hv & Hne). rewrite (reads_in_mem _ _ _ _ _ Hv), decide_False by done.
  apply IH. intros i Hi. apply H. lia.
Qed.

Lemma acpi_init_without_rsdp m s x1 x2 :
  kernel_mmap_hw 0xE0000 0xE0000 0x20000 1 (paging s) = Ret (OS_NO_ERR, x1) ->
  kernel_munmap 0xE0000 0x20000 x1 = Ret (OS_NO_ERR, x2) ->
  (forall i, 0xE0000 <= i < 0x100000 -> exists v, reads (load64 i) m v /\ v <> ACPI_RSDP_SIG) ->
  exists s', acpi_init kernel_mmap_hw kernel_munmap (m, s) = Ret (OS_NO_ERR, (m, s')) /\
    acpi_initialized s' = 1 /\ forall t, parse_success s' t = 0.
Proof.
  intros H1 H2 H. unfold acpi_init, check, on_paging. erewrite in_dev_run by reflexivity.
  rewrite (in_dev_run _ OS_NO_ERR m _ (set_paging x1 (clear_acpi s))) by (unfold zoom; cbn; by rewrite H1).
  rewrite decide_False by tauto.
  rewrite (bind_ret _ _ _ _ _ (search_nothing m _ (Z.to_nat 0x4000) 0xE0000
    ltac:(intros i Hi; apply H; lia))).
  rewrite (in_dev_run _ OS_NO_ERR m _ (set_paging x2 (clear_acpi s))) by (unfold zoom; cbn; by rewrite H2).
  rewrite decide_False by tauto. eexists. split; [reflexivity|]. done.
Qed.
End Defects.

(** ** A machine of two processors *)

Definition two_cpus : list apic_entry :=
  [mk_entry 0 8 0 0 1; mk_entry 0 8 1 2 1; mk_entry 1 12 1 0 0xFEC00000; mk_entry 2 10 0 0 2].

Definition two_cpus_bytes : list Z :=
  [65; 80; 73; 67; 82; 0; 0; 0; 1; 194] ++ replicate 26 0 ++ [0; 0; 224; 254; 1; 0; 0; 0] ++
  [0; 8; 0; 0; 1; 0; 0; 0; 0; 8; 1; 2; 1; 0; 0; 0; 1; 12; 1; 0; 0; 0; 192; 254; 0; 0; 0; 0;
   2; 10; 0; 0; 2; 0; 0; 0; 0; 0].

Definition two_cpus_ram : mem := put ∅ 0x1F0000 two_cpus_bytes.

Definition no_tables : acpi unit :=
  mk_acpi 0 [0; 0; 0; 0] [0; 0; 0; 0] 0 [0] (fun _ => 0) (fun _ => 0) 0 0 tt.

Lemma two_cpus_at : madt_at two_cpus_ram 0x1F0000 82 0xFEE00000 two_cpus.
Proof.
  split; [lia|reflexivity..| |].
  - exists two_cpus_bytes. split; [apply bytes_at_put|]. split; reflexivity.
  - unfold two_cpus. cbn [entries_at ae_length].
    repeat first [split; [split; [reflexivity|reflexivity|intros _; split_and!; reflexivity|cbn; lia]|]|reflexivity].
Qed.

Theorem acpi_madt_correct_witness :
  (madt_at two_cpus_ram 0x1F0000 82 0xFEE00000 two_cpus /\ tables_sized no_tables) /\
  exists s', acpi_parse_dt (fun _ _ _ _ => ret OS_NO_ERR) 0x1F0000 (two_cpus_ram, no_tables) =
      Ret (OS_NO_ERR, (two_cpus_ram, s')) /\
    acpi_get_detected_cpu_count (set_initialized 1 s') = 2 /\
    acpi_get_io_apic_address 0 (two_cpus_ram, set_initialized 1 s') =
      Ret (0xFEC00000, (two_cpus_ram, set_initialized 1 s')) /\
    acpi_get_remmaped_irq 0 (two_cpus_ram, set_initialized 1 s') = Ret (2, (two_cpus_ram, set_initialized 1 s')).
Proof.
  assert (tables_sized no_tables) as Hs by (split; [|split]; reflexivity).
  split; [split; [exact two_cpus_at|exact Hs]|].
  assert (maps_pages (fun _ _ _ _ => ret (S := unit) OS_NO_ERR)) as Hmap
    by (intros a x; exists OS_NO_ERR, x; split; [reflexivity|left; reflexivity]).
  destruct (acpi_madt_correct (fun _ _ _ _ => ret OS_NO_ERR) Hmap _ _ _ _ _ _ two_cpus_at Hs) as (s' & Hr & H).
  exists s'. split; [exact Hr|]. split; [rewrite (an_count _ _ _ _ _ _ H); reflexivity|].
  split; [exact (an_io _ _ _ _ _ _ H (0x1F003C, mk_entry 1 12 1 0 0xFEC00000) eq_refl)|].
  rewrite (an_irq _ _ _ _ _ _ H) by lia. reflexivity.
Defined.
