(* ===== verification/Ata.v ===== *)
(** * The disks ([arch/x86/ata_pio.c])

    The driver of the ATA disks on the history of port accesses, their data in
    the memory.  [polls] bounds how long a disk stays busy. *)
From S2P Require Import Prelude Critical ByteMem Ports.

Definition ATA_PIO_PRIMARY_PORT_ADDRESS : Z := 0x1F0.
Definition ATA_PIO_DATA_PORT_OFFSET : Z := 0x000.
Definition ATA_PIO_ERROR_PORT_OFFSET : Z := 0x001.
Definition ATA_PIO_SC_PORT_OFFSET : Z := 0x002.
Definition ATA_PIO_LBALOW_PORT_OFFSET : Z := 0x003.
Definition ATA_PIO_LBAMID_PORT_OFFSET : Z := 0x004.
Definition ATA_PIO_LBAHIG_PORT_OFFSET : Z := 0x005.
Definition ATA_PIO_DEVICE_PORT_OFFSET : Z := 0x006.
Definition ATA_PIO_COMMAND_PORT_OFFSET : Z := 0x007.
Definition ATA_PIO_CONTROL_PORT_OFFSET : Z := 0x206.
Definition ATA_PIO_IDENTIFY_COMMAND : Z := 0xEC.
Definition ATA_PIO_READ_SECTOR_COMMAND : Z := 0x20.
Definition ATA_PIO_WRITE_SECTOR_COMMAND : Z := 0x30.
Definition ATA_PIO_FLUSH_SECTOR_COMMAND : Z := 0xE7.
Definition ATA_PIO_FLAG_BUSY : Z := 0x80.
Definition ATA_PIO_FLAG_ERR : Z := 0x01.
Definition ATA_PIO_SECTOR_SIZE : Z := 512.

Inductive ATA_PIO_TYPE_E : Type := MASTER | SLAVE.

#[export] Instance ATA_PIO_TYPE_E_eq_dec : EqDecision ATA_PIO_TYPE_E.
Proof. solve_decision. Defined.

(** The lock of a device is named by the address of the structure. *)
Record ata_pio_device_t : Type := mk_ata_device {
  ata_port : Z;
  ata_type : ATA_PIO_TYPE_E;
  ata_address : Z
}.

Section Ata.
Context (device : history -> Z -> Z) (polls : nat) (e : cpu_env).

(** [type == MASTER ? master : slave]. *)
Definition by_type (t : ATA_PIO_TYPE_E) (master slave : Z) : Z := match t with MASTER => master | SLAVE => slave end.

Definition busy (status : Z) : Prop :=
  Z.land status ATA_PIO_FLAG_BUSY = ATA_PIO_FLAG_BUSY /\ Z.land status ATA_PIO_FLAG_ERR <> ATA_PIO_FLAG_ERR.

#[export] Instance busy_dec status : Decision (busy status).
Proof. unfold busy. apply _. Defined.

(** The loop that waits for the end of a command, from the last status. *)
Fixpoint wait_ready (n : nat) (port status : Z) : M history Z :=
  match n with
  | O => diverge
  | S n =>
    if decide (busy status) then
      let* status := cpu_inb device (port + ATA_PIO_COMMAND_PORT_OFFSET) in wait_ready n port status
    else ret status
  end.

Fixpoint read_words (n : nat) (port : Z) : M history unit :=
  match n with O => ret tt | S n => cpu_inw device (port + ATA_PIO_DATA_PORT_OFFSET) >>> read_words n port end.

(** The 256 words of the description of a disk are read and dropped. *)
Definition ata_pio_identify_device (d : ata_pio_device_t) : M history OS_RETURN_E :=
  let port := ata_port d in
  cpu_outb (by_type (ata_type d) 0xA0 0xB0) (port + ATA_PIO_DEVICE_PORT_OFFSET) >>>
  cpu_outb 0x00 (port + ATA_PIO_CONTROL_PORT_OFFSET) >>>
  let* status := cpu_inb device (port + ATA_PIO_COMMAND_PORT_OFFSET) in
  if decide (status = 0xFF) then ret OS_ERR_ATA_DEVICE_NOT_PRESENT
  else
    cpu_outb (by_type (ata_type d) 0xA0 0xB0) (port + ATA_PIO_DEVICE_PORT_OFFSET) >>>
    cpu_outb 0x00 (port + ATA_PIO_SC_PORT_OFFSET) >>>
    cpu_outb 0x00 (port + ATA_PIO_LBALOW_PORT_OFFSET) >>>
    cpu_outb 0x00 (port + ATA_PIO_LBAMID_PORT_OFFSET) >>>
    cpu_outb 0x00 (port + ATA_PIO_LBAHIG_PORT_OFFSET) >>>
    cpu_outb ATA_PIO_IDENTIFY_COMMAND (port + ATA_PIO_COMMAND_PORT_OFFSET) >>>
    let* status := cpu_inb device (port + ATA_PIO_COMMAND_PORT_OFFSET) in
    if decide (status = 0x00) then ret OS_ERR_ATA_DEVICE_NOT_PRESENT
    else
      let* status := wait_ready polls port status in
      if decide (Z.land status ATA_PIO_FLAG_ERR = ATA_PIO_FLAG_ERR) then ret OS_ERR_ATA_DEVICE_ERROR
      else read_words 256 port >>> ret OS_NO_ERR.

(** The configuration has the primary port only. *)
Definition ata_pio_init : M history OS_RETURN_E :=
  let* err := ata_pio_identify_device (mk_ata_device ATA_PIO_PRIMARY_PORT_ADDRESS MASTER 0) in
  let* err := ata_pio_identify_device (mk_ata_device ATA_PIO_PRIMARY_PORT_ADDRESS SLAVE 0) in
  if decide (err = OS_ERR_ATA_DEVICE_NOT_PRESENT) then ret OS_NO_ERR else ret err.

(** The registers of a command on a sector, then the command. *)
Definition sector_command (d : ata_pio_device_t) (sector command : Z) : M history unit :=
  let port := ata_port d in
  cpu_outb (Z.lor (by_type (ata_type d) 0xE0 0xF0) (Z.shiftr (Z.land sector 0x0F000000) 24))
    (port + ATA_PIO_DEVICE_PORT_OFFSET) >>>
  cpu_outb 0 (port + ATA_PIO_ERROR_PORT_OFFSET) >>>
  cpu_outb 1 (port + ATA_PIO_SC_PORT_OFFSET) >>>
  cpu_outb (Z.land sector 0x000000FF) (port + ATA_PIO_LBALOW_PORT_OFFSET) >>>
  cpu_outb (Z.shiftr (Z.land sector 0x0000FF00) 8) (port + ATA_PIO_LBAMID_PORT_OFFSET) >>>
  cpu_outb (Z.shiftr (Z.land sector 0x00FF0000) 16) (port + ATA_PIO_LBAHIG_PORT_OFFSET) >>>
  cpu_outb command (port + ATA_PIO_COMMAND_PORT_OFFSET).

(** The words of a sector from byte [i] on; [n] bounds the loop. *)
Fixpoint read_loop (n : nat) (port buffer i size : Z) : M (world history) unit :=
  match n with
  | O => diverge
  | S n =>
    if decide (i < size) then
      let* data := in_dev (cpu_inw device (port + ATA_PIO_DATA_PORT_OFFSET)) in
      in_mem (store (buffer + i) (Z.land data 0xFF)) >>>
      (if decide (i + 1 < size) then in_mem (store (buffer + i + 1) (Z.land (Z.shiftr data 8) 0xFF)) else ret tt) >>>
      read_loop n port buffer (i + 2) size
    else ret tt
  end.

Fixpoint skip_loop (n : nat) (port i : Z) : M history unit :=
  match n with
  | O => diverge
  | S n =>
    if decide (i < ATA_PIO_SECTOR_SIZE) then
      cpu_inw device (port + ATA_PIO_DATA_PORT_OFFSET) >>> skip_loop n port (i + 2)
    else ret tt
  end.

Fixpoint write_loop (n : nat) (port buffer i size : Z) : M (world history) unit :=
  match n with
  | O => diverge
  | S n =>
    if decide (i < size) then
      let* low := in_mem (load (buffer + i)) in
      let* high := if decide (i + 1 < size) then in_mem (load (buffer + i + 1)) else ret 0 in
      in_dev (cpu_outw (Z.lor (Z.land low 0x00FF) (u16 (Z.shiftl high 8))) (port + ATA_PIO_DATA_PORT_OFFSET)) >>>
      write_loop n port buffer (i + 2) size
    else ret tt
  end.

Fixpoint pad_sector (n : nat) (port i : Z) : M history unit :=
  match n with
  | O => diverge
  | S n =>
    if decide (i < ATA_PIO_SECTOR_SIZE) then
      cpu_outw 0x0000 (port + ATA_PIO_DATA_PORT_OFFSET) >>> pad_sector n port (i + 2)
    else ret tt
  end.

(** A sector has 256 words. *)
Definition words_fuel : nat := 257.

Definition read_sector (d : ata_pio_device_t) (sector buffer size : Z) : M (world history) OS_RETURN_E :=
  in_dev (sector_command d sector ATA_PIO_READ_SECTOR_COMMAND) >>>
  let* status := in_dev (cpu_inb device (ata_port d + ATA_PIO_COMMAND_PORT_OFFSET)) in
  if decide (status = 0x00) then ret OS_ERR_ATA_DEVICE_NOT_PRESENT
  else
    let* status := in_dev (wait_ready polls (ata_port d) status) in
    if decide (Z.land status ATA_PIO_FLAG_ERR = ATA_PIO_FLAG_ERR) then ret OS_ERR_ATA_DEVICE_ERROR
    else
      read_loop words_fuel (ata_port d) buffer 0 size >>>
      in_dev (skip_loop words_fuel (ata_port d) (size + size mod 2)) >>>
      ret OS_NO_ERR.

Definition ata_pio_read_sector (d : ata_pio_device_t) (sector buffer size : Z) :
    M (kstate (world history)) OS_RETURN_E :=
  if decide (sector > 0x0FFFFFFF) then ret OS_ERR_ATA_BAD_SECTOR_NUMBER
  else if decide (size > ATA_PIO_SECTOR_SIZE) then ret OS_ERR_ATA_SIZE_TO_HUGE
  else critical e (ObjLock (ata_address d)) (lift (read_sector d sector buffer size)).

(** The test of a null status is made twice; the second one never succeeds. *)
Definition flush (d : ata_pio_device_t) : M history OS_RETURN_E :=
  cpu_outb (by_type (ata_type d) 0xE0 0xF0) (ata_port d + ATA_PIO_DEVICE_PORT_OFFSET) >>>
  cpu_outb ATA_PIO_FLUSH_SECTOR_COMMAND (ata_port d + ATA_PIO_COMMAND_PORT_OFFSET) >>>
  let* status := cpu_inb device (ata_port d + ATA_PIO_COMMAND_PORT_OFFSET) in
  if decide (status = 0x00) then ret OS_ERR_ATA_DEVICE_NOT_PRESENT
  else if decide (status = 0) then ret OS_ERR_ATA_DEVICE_ERROR
  else
    let* status := wait_ready polls (ata_port d) status in
    if decide (Z.land status ATA_PIO_FLAG_ERR = 1) then ret OS_ERR_ATA_DEVICE_ERROR else ret OS_NO_ERR.

Definition ata_pio_flush (d : ata_pio_device_t) : M (kstate (world history)) OS_RETURN_E :=
  critical e (ObjLock (ata_address d)) (lift (in_dev (flush d))).

Definition write_sector (d : ata_pio_device_t) (sector buffer size : Z) : M (world history) unit :=
  in_dev (sector_command d sector ATA_PIO_WRITE_SECTOR_COMMAND) >>>
  write_loop words_fuel (ata_port d) buffer 0 size >>>
  in_dev (pad_sector words_fuel (ata_port d) (size + size mod 2)).

Definition ata_pio_write_sector (d : ata_pio_device_t) (sector buffer size : Z) :
    M (kstate (world history)) OS_RETURN_E :=
  if decide (sector > 0x0FFFFFFF) then ret OS_ERR_ATA_BAD_SECTOR_NUMBER
  else if decide (size > ATA_PIO_SECTOR_SIZE) then ret OS_ERR_ATA_SIZE_TO_HUGE
  else
    critical e (ObjLock (ata_address d)) (lift (write_sector d sector buffer size)) >>>
    ata_pio_flush d.
End Ata.
