(* ===== verification/AtaTheorems.v ===== *)
(** * The disks: properties

    With a drive that keeps its sectors, reads and writes of any parts of
    sectors are those of an array of blocks of 512 bytes. *)
From stdpp Require Import functions.
From S2P Require Import Prelude Critical ByteMem Ports Ata.

(** ** Bytes and words *)

Fixpoint words_of (l : list Z) : list Z :=
  match l with
  | [] => []
  | [a] => [a]
  | a :: b :: l => a + 256 * b :: words_of l
  end.

Fixpoint bytes_of (ws : list Z) : list Z :=
  match ws with
  | [] => []
  | w :: ws => w mod 256 :: w / 256 :: bytes_of ws
  end.

Definition is_byte (b : Z) : Prop := 0 <= b < 256.

Lemma pairs_ind (P : list Z -> Prop) :
  P [] -> (forall a, P [a]) -> (forall a b l, P l -> P (a :: b :: l)) -> forall l, P l.
Proof.
  intros H0 H1 H2. enough (forall l, P l /\ forall a, P (a :: l)) as H by apply H.
  induction l as [|b l [IH1 IH2]]; split; auto.
Qed.

Lemma bytes_of_app l k : bytes_of (l ++ k) = bytes_of l ++ bytes_of k.
Proof. induction l as [|w l IH]; cbn; [done|]. by rewrite IH. Qed.

Lemma bytes_of_zeros n : bytes_of (replicate n 0) = replicate (2 * n) 0.
Proof.
  induction n as [|n IH]; [done|]. cbn [replicate bytes_of]. rewrite IH.
  replace (2 * S n)%nat with (S (S (2 * n))) by lia. done.
Qed.

(** The bytes of the words: those of the list, and a null one when their
    number is odd. *)
Lemma bytes_of_words l : Forall is_byte l ->
  bytes_of (words_of l) = l ++ replicate (length l mod 2) 0.
Proof.
  induction l as [|a|a b l IH] using pairs_ind; intros Hl.
  - done.
  - apply Forall_cons in Hl as [Ha _]. unfold is_byte in Ha. cbn [words_of bytes_of length].
    rewrite Z.mod_small, Z.div_small by lia. done.
  - do 2 apply Forall_cons in Hl as [? Hl]. unfold is_byte in *. cbn [words_of bytes_of length].
    rewrite IH by done. replace ((a + 256 * b) mod 256) with a by div_lia. replace ((a + 256 * b) / 256) with b by div_lia.
    replace (S (S (length l))) with (length l + 1 * 2)%nat by lia. by rewrite Nat.Div0.mod_add.
Qed.

Lemma words_of_length l : length (words_of l) = ((length l + 1) / 2)%nat.
Proof.
  induction l as [|a|a b l IH] using pairs_ind; [done|done|]. cbn [words_of length]. rewrite IH.
  replace (S (S (length l)) + 1)%nat with (length l + 1 + 1 * 2)%nat by lia. rewrite Nat.div_add by done. lia.
Qed.

(** A sector: the bytes, then zeros. *)
Definition sector_of (l : list Z) : list Z := l ++ replicate (512 - length l) 0.

Lemma words_of_range l : Forall is_byte l -> Forall (fun w => 0 <= w < 2 ^ 16) (words_of l).
Proof.
  unfold is_byte. induction l as [|a|a b l IH] using pairs_ind; intros Hl; cbn [words_of].
  - constructor.
  - apply Forall_cons in Hl as [? _]. apply Forall_cons. split; [lia|constructor].
  - do 2 apply Forall_cons in Hl as [? Hl]. apply Forall_cons. split; [lia|by apply IH].
Qed.

(** The words of a sector: those of the bytes, then null ones. *)
Lemma sector_words l (size : Z) : Forall is_byte l -> Z.of_nat (length l) = size -> size <= 512 ->
  let ws := words_of l ++ replicate (Z.to_nat ((512 - (size + size mod 2)) / 2)) 0 in
  Forall (fun w => 0 <= w < 2 ^ 16) ws /\ length ws = 256%nat /\ bytes_of ws = sector_of l.
Proof.
  intros Hl <- Hle ws. unfold ws. set (n := length l) in *. split; [|split].
  - apply Forall_app. split; [by apply words_of_range|]. apply Forall_replicate. lia.
  - rewrite length_app, length_replicate, words_of_length. fold n. clearbody n. apply Nat2Z.inj.
    rewrite Nat2Z.inj_add, Nat2Z.inj_div, Z2Nat.id; div_lia.
  - rewrite bytes_of_app, bytes_of_words, bytes_of_zeros, <- app_assoc, <- replicate_add by done.
    unfold sector_of. fold n. do 2 f_equal. clearbody n. apply Nat2Z.inj.
    rewrite Nat2Z.inj_add, Nat2Z.inj_mod, Nat2Z.inj_mul, Z2Nat.id; div_lia.
Qed.

(** ** The commands *)

Definition select (t : ATA_PIO_TYPE_E) : Z := match t with MASTER => 0xE0 | SLAVE => 0xF0 end.

Section Traces.
Context (port : Z).

Definition command_trace (t : ATA_PIO_TYPE_E) (s c : Z) : history :=
  [Outb (select t + s / 2 ^ 24) (port + 6); Outb 0 (port + 1); Outb 1 (port + 2); Outb (s mod 2 ^ 8) (port + 3);
   Outb (s / 2 ^ 8 mod 2 ^ 8) (port + 4); Outb (s / 2 ^ 16 mod 2 ^ 8) (port + 5); Outb c (port + 7)].

Definition flush_trace (t : ATA_PIO_TYPE_E) : history := [Outb (select t) (port + 6); Outb 0xE7 (port + 7)].

Definition data_trace (ws : list Z) : history := map (fun w => Outw w port) ws.

Definition is_status (x : io_event) : Prop := exists v, x = Inb (port + 7) v.
Definition is_data (x : io_event) : Prop := exists v, x = Inw port v.

(** ** What the drives promise

    A status shows a drive that is not busy and has no error; a drive that
    asks for a transfer of data; a drive whose command is done. *)
Definition quiet (v : Z) : Prop := Z.land v 0x80 <> 0x80 /\ Z.land v 0x01 <> 0x01.
Definition data_requested (v : Z) : Prop := quiet v /\ Z.land v 0x08 = 0x08.
Definition command_done (v : Z) : Prop := quiet v /\ Z.land v 0x40 = 0x40.

Context (device : history -> Z -> Z) (polls : nat).

(** The status that read number [k] after the history gives. *)
Definition status (k : nat) (h : history) : Z := u8 (device (reads device k (port + 7) h) (port + 7)).

(** The drive is busy for less than [polls] reads, then shows [P]. *)
Definition settles (P : Z -> Prop) (h : history) : Prop :=
  exists k, (k < polls)%nat /\ (forall i, (i < k)%nat -> busy (status i h)) /\ P (status k h).

(** The drives of a port, when no command is pending: the sectors they hold
    and how commands read and change them.  Data are given only after a status
    that asks for their transfer, and taken only if the drive asks for them. *)
Record ata_drive (idle : history -> Prop) (content : history -> ATA_PIO_TYPE_E * Z -> list Z) : Prop := {
  ad_sector h x : idle h -> length (content h x) = 512%nat /\ Forall is_byte (content h x);
  ad_ready h t s : idle h -> 0 <= s < 2 ^ 28 -> settles data_requested (h ++ command_trace t s 0x20);
  ad_data h t s k r w : idle h -> 0 <= s < 2 ^ 28 -> Forall is_data r ->
    let h0 := h ++ command_trace t s 0x20 in
    data_requested (status k h0) -> words_of (content h (t, s)) !! length r = Some w ->
    u16 (device (reads device (S k) (port + 7) h0 ++ r) port) = w;
  ad_read h t s k r : idle h -> 0 <= s < 2 ^ 28 -> Forall is_data r -> length r = 256%nat ->
    let h0 := h ++ command_trace t s 0x20 in
    let h' := reads device (S k) (port + 7) h0 ++ r in
    data_requested (status k h0) -> idle h' /\ forall x, content h' x = content h x;
  ad_write h t s ws : idle h -> 0 <= s < 2 ^ 28 -> Forall (fun w => 0 <= w < 2 ^ 16) ws -> length ws = 256%nat ->
    let h0 := h ++ command_trace t s 0x30 in
    let h' := h0 ++ data_trace ws in
    data_requested (status 0 h0) -> command_done (status 0 h') ->
    idle h' /\ forall x, content h' x = if decide (x = (t, s)) then bytes_of ws else content h x;
  ad_flush_ready h t : idle h -> settles command_done (h ++ flush_trace t);
  ad_flush h t k : idle h ->
    let h0 := h ++ flush_trace t in
    let h' := reads device (S k) (port + 7) h0 in
    command_done (status k h0) -> idle h' /\ forall x, content h' x = content h x
}.

(** The driver does not read the status between the command of a write, its
    data and the flush: it relies on drives that ask for the data as soon as
    the command is written, and have stored them as soon as they are. *)
Record prompt_drive (idle : history -> Prop) : Prop := {
  pd_request h t s : idle h -> 0 <= s < 2 ^ 28 -> data_requested (status 0 (h ++ command_trace t s 0x30));
  pd_stored h t s ws : idle h -> 0 <= s < 2 ^ 28 -> Forall (fun w => 0 <= w < 2 ^ 16) ws -> length ws = 256%nat ->
    command_done (status 0 ((h ++ command_trace t s 0x30) ++ data_trace ws))
}.
End Traces.

(** ** The steps of the driver *)

Section Ata.
Context (port : Z).

Lemma top_bits t x : 0 <= x < 16 -> Z.lor (by_type t 0xE0 0xF0) x = select t + x.
Proof.
  intros Hx. assert (x = 0 \/ x = 1 \/ x = 2 \/ x = 3 \/ x = 4 \/ x = 5 \/ x = 6 \/ x = 7 \/ x = 8 \/ x = 9 \/ x = 10 \/
    x = 11 \/ x = 12 \/ x = 13 \/ x = 14 \/ x = 15) as H by lia.
  destruct t; repeat destruct H as [->|H]; try done; by subst x.
Qed.

(** A byte of the number of a sector. *)
Lemma sector_byte s n : 0 <= n -> Z.shiftr (Z.land s (Z.shiftl 0xFF n)) n = s / 2 ^ n mod 2 ^ 8.
Proof.
  intros Hn. rewrite Z.shiftr_land, Z.shiftr_shiftl_l, Z.sub_diag, Z.shiftl_0_r, Z.shiftr_div_pow2 by lia.
  change 0xFF with (Z.ones 8). by rewrite Z.land_ones by lia.
Qed.

Lemma sector_command_run t a s c h : 0 <= s < 2 ^ 28 -> 0 <= c < 256 ->
  sector_command (mk_ata_device port t a) s c h = Ret (tt, h ++ command_trace port t s c).
Proof.
  intros Hs Hc. unfold sector_command, command_trace. cbn [ata_port ata_type].
  assert (Z.shiftr (Z.land s 0x0F000000) 24 = s / 2 ^ 24) as ->.
  { change 0x0F000000 with (Z.shiftl 0xF 24). rewrite Z.shiftr_land, Z.shiftr_shiftl_l, Z.sub_diag, Z.shiftl_0_r,
      Z.shiftr_div_pow2 by lia. change 0xF with (Z.ones 4). rewrite Z.land_ones by lia. apply Z.mod_small. div_lia. }
  rewrite top_bits by div_lia. pose proof (Z.land_ones s 8 ltac:(lia)) as E0.
  pose proof (sector_byte s 8 ltac:(lia)) as E1. pose proof (sector_byte s 16 ltac:(lia)) as E2.
  change (Z.ones 8) with 0xFF in E0. change (Z.shiftl 0xFF 8) with 0xFF00 in E1.
  change (Z.shiftl 0xFF 16) with 0xFF0000 in E2. rewrite E0, E1, E2. unfold cpu_outb.
  rewrite !exec_modify. unfold modify. rewrite <- !app_assoc. cbn [app].
  assert (forall x, 0 <= x < 256 -> u8 x = x) as Hu by (intros; by apply Z.mod_small).
  rewrite !Hu; [done|try (apply Z.mod_pos_bound; lia); try lia..].
  destruct t; cbn [select]; div_lia.
Qed.

Lemma word_low w : Z.land w 0xFF = w mod 256.
Proof. change 0xFF with (Z.ones 8). by rewrite Z.land_ones by lia. Qed.

Lemma word_high w : 0 <= w < 2 ^ 16 -> Z.land (Z.shiftr w 8) 0xFF = w / 256.
Proof. intros Hw. rewrite word_low, Z.shiftr_div_pow2 by lia. apply Z.mod_small. div_lia. Qed.

(** *** Writing *)

Lemma word_bytes a b : is_byte a -> is_byte b -> Z.lor (Z.land a 0x00FF) (u16 (Z.shiftl b 8)) = a + 256 * b.
Proof.
  unfold is_byte. intros Ha Hb. rewrite word_low, Z.mod_small, Z.shiftl_mul_pow2 by lia.
  unfold u16. rewrite Z.mod_small, lor_above by lia. lia.
Qed.

Lemma cpu_outw_eq w h : 0 <= w < 2 ^ 16 ->
  cpu_outw w (port + ATA_PIO_DATA_PORT_OFFSET) h = Ret (tt, h ++ data_trace port [w]).
Proof.
  intros Hw. unfold cpu_outw, modify, ATA_PIO_DATA_PORT_OFFSET, u16. rewrite Z.add_0_r, Z.mod_small by done. done.
Qed.

Lemma write_loop_run buffer l : forall n i m h, bytes_at m (buffer + i) l -> Forall is_byte l -> 0 <= i ->
  (S (length l) < 2 * n)%nat ->
  write_loop n port buffer i (i + Z.of_nat (length l)) (m, h) = Ret (tt, (m, h ++ data_trace port (words_of l))).
Proof.
  induction l as [|a|a b l IH] using pairs_ind; intros [|n] i m h Hm Hl Hi Hn; cbn [length] in *; try lia;
    cbn [write_loop].
  - rewrite decide_False by lia. cbn. by rewrite app_nil_r.
  - apply Forall_cons in Hl as [Ha _]. apply bytes_at_cons in Hm as [Hm _]. rewrite decide_True by lia.
    rewrite (load_in_mem _ _ _ _ _ Hm), decide_False by lia. rewrite bind_ret_l, word_bytes by (done || unfold is_byte; lia).
    unfold is_byte in Ha. erewrite in_dev_run by (apply cpu_outw_eq; lia).
    destruct n as [|n]; [lia|]. cbn [write_loop]. rewrite decide_False by lia.
    cbn [words_of]. by replace (a + 256 * 0) with a by lia.
  - do 2 apply Forall_cons in Hl as [? Hl]. apply bytes_at_cons in Hm as [Ha Hm]. apply bytes_at_cons in Hm as [Hb Hm].
    rewrite decide_True by lia. rewrite (load_in_mem _ _ _ _ _ Ha), decide_True by lia.
    rewrite (load_in_mem _ _ _ _ _ Hb), word_bytes by done.
    unfold is_byte in *. erewrite in_dev_run by (apply cpu_outw_eq; lia).
    replace (i + Z.of_nat (S (S (length l)))) with (i + 2 + Z.of_nat (length l)) by lia.
    rewrite IH; [by rewrite <- app_assoc| |done|lia|lia]. by replace (buffer + (i + 2)) with (buffer + i + 1 + 1) by lia.
Qed.

Lemma pad_sector_run n : forall i h, i <= 512 -> 512 - i < 2 * Z.of_nat n -> i mod 2 = 0 ->
  pad_sector n port i h = Ret (tt, h ++ data_trace port (replicate (Z.to_nat ((512 - i) / 2)) 0)).
Proof.
  induction n as [|n IH]; intros i h Hi Hn Hm; [lia|]. cbn [pad_sector]. unfold ATA_PIO_SECTOR_SIZE.
  case_decide; [|replace i with 512 by lia; cbn; by rewrite app_nil_r].
  rewrite (bind_ret _ _ _ _ _ (cpu_outw_eq 0 h ltac:(lia))), IH by div_lia.
  rewrite <- app_assoc. replace (Z.to_nat ((512 - i) / 2)) with (S (Z.to_nat ((512 - (i + 2)) / 2))) by div_lia. done.
Qed.

(** *** Waiting *)

Context (device : history -> Z -> Z) (polls : nat).

Abbreviation st := (status port device).

Lemma status_step n h : reads device (S n) (port + 7) h = reads device n (port + 7) h ++ [Inb (port + 7) (st n h)].
Proof.
  revert h. induction n as [|n IH]; intros h; [done|]. cbn [reads] in *. rewrite IH. done.
Qed.

Lemma wait_ready_run k h : (forall i, (i < k)%nat -> busy (st i h)) -> ~ busy (st k h) ->
  forall n j, (j <= k)%nat -> (k - j < n)%nat ->
  wait_ready device n port (st j h) (reads device (S j) (port + 7) h) = Ret (st k h, reads device (S k) (port + 7) h).
Proof.
  intros Hb Hk. induction n as [|n IH]; intros j Hj Hn; [lia|]. cbn [wait_ready].
  destruct (decide (j = k)) as [->|]; [by rewrite decide_False|].
  rewrite decide_True by (apply Hb; lia). unfold cpu_inb at 1.
  erewrite bind_ret by reflexivity. change (port + ATA_PIO_COMMAND_PORT_OFFSET) with (port + 7).
  change (u8 (device (reads device (S j) (port + 7) h) (port + 7))) with (st (S j) h).
  rewrite <- status_step. apply IH; lia.
Qed.

(** The status after a command, and the history up to it. *)
Lemma settled P h : settles port device polls P h -> (forall v, P v -> quiet v /\ v <> 0) ->
  exists k, P (st k h) /\ u8 (device h (port + 7)) = st 0 h /\ st 0 h <> 0 /\ Z.land (st k h) 1 <> 1 /\
    wait_ready device polls port (st 0 h) (h ++ [Inb (port + 7) (st 0 h)]) =
      Ret (st k h, reads device (S k) (port + 7) h).
Proof.
  intros (k & Hk & Hb & Hp) HP. destruct (HP _ Hp) as [[Hq He] Hn]. exists k. split; [done|]. split; [done|].
  split; [|split; [done|by apply (wait_ready_run k h Hb (fun H => Hq (proj1 H)) polls 0); lia]].
  destruct k as [|k]; [done|]. intros H. destruct (Hb 0%nat ltac:(lia)) as [Hx _]. rewrite H in Hx. done.
Qed.

Lemma requested_quiet v : data_requested v -> quiet v /\ v <> 0.
Proof. intros [Hq Hd]. split; [done|]. by intros ->. Qed.

Lemma done_quiet v : command_done v -> quiet v /\ v <> 0.
Proof. intros [Hq Hd]. split; [done|]. by intros ->. Qed.

(** *** Reading *)

(** From the history [h] on, the drive gives the words [ws]. *)
Definition gives (h : history) (ws : list Z) : Prop :=
  forall r w, Forall (is_data port) r -> ws !! length r = Some w -> u16 (device (h ++ r) port) = w.

Lemma gives_cons h w ws : gives h (w :: ws) -> u16 (device h port) = w /\ gives (h ++ [Inw port w]) ws.
Proof.
  intros H. split; [rewrite <- (app_nil_r h); by apply (H [] w); [constructor|]|].
  intros r w' Hr Hw. rewrite <- app_assoc. apply (H ([Inw port w] ++ r) w'); [|done].
  apply Forall_cons. split; [by eexists|done].
Qed.

Lemma cpu_inw_eq h : cpu_inw device (port + ATA_PIO_DATA_PORT_OFFSET) h =
  Ret (u16 (device h port), h ++ [Inw port (u16 (device h port))]).
Proof. unfold cpu_inw, ATA_PIO_DATA_PORT_OFFSET. by rewrite Z.add_0_r. Qed.

Lemma store_in_mem {A} p b m h (k : unit -> M (world history) A) : is_Some (m !! p) -> 0 <= b < 256 ->
  bind (in_mem (store p b)) k (m, h) = k tt (<[p := b]> m, h).
Proof. intros H Hb. apply in_mem_run. by apply store_run_last. Qed.

Lemma u16_range z : 0 <= u16 z < 2 ^ 16.
Proof. apply Z.mod_pos_bound. lia. Qed.

Lemma read_loop_run buffer ws : forall n i size m h,
  gives h ws -> 0 <= i -> size - i <= Z.of_nat (2 * length ws) -> (length ws < n)%nat ->
  mapped m (buffer + i) (Z.to_nat (size - i)) ->
  exists r, Forall (is_data port) r /\ Z.of_nat (length r) = (Z.max 0 (size - i) + 1) / 2 /\
    read_loop device n port buffer i size (m, h) =
      Ret (tt, (put m (buffer + i) (take (Z.to_nat (size - i)) (bytes_of ws)), h ++ r)).
Proof.
  induction ws as [|w ws IH]; intros [|n] i size m h Hg Hi Hs Hn Hm; cbn [length] in *; try lia.
  { cbn [read_loop]. rewrite decide_False by lia. exists []. cbn [bytes_of]. rewrite app_nil_r, take_nil. split; [constructor|]. split; [|done].
    cbn. div_lia. }
  cbn [read_loop]. destruct (decide (i < size)) as [Hlt|Hge].
  2: { exists []. rewrite app_nil_r. replace (Z.to_nat (size - i)) with 0%nat by lia. split; [constructor|]. split; [cbn; div_lia|done]. }
  apply gives_cons in Hg as [Hw Hg]. pose proof (u16_range (device h port)) as Hr. rewrite Hw in Hr.
  rewrite (in_dev_run _ w m h (h ++ [Inw port w])) by (by rewrite cpu_inw_eq, Hw).
  rewrite word_low, word_high by done.
  assert (is_Some (m !! (buffer + i))) as Hi0.
  { destruct (Z.to_nat (size - i)) as [|k] eqn:Hk; [lia|]. apply mapped_S in Hm. tauto. }
  rewrite store_in_mem by (done || (apply Z.mod_pos_bound; lia)).
  set (m1 := <[buffer + i := w mod 256]> m).
  assert (0 <= w / 256 < 256) as Hb by div_lia.
  destruct (decide (i + 1 < size)) as [Hlt1|Hge1].
  - replace (Z.to_nat (size - i)) with (S (S (Z.to_nat (size - (i + 2))))) in * by lia.
    apply mapped_S in Hm as [_ Hm]. apply mapped_S in Hm as [Hi1 Hm].
    rewrite store_in_mem; [|unfold m1; by rewrite lookup_insert_ne by lia|done].
    destruct (IH n (i + 2) size (<[buffer + i + 1 := w / 256]> m1) (h ++ [Inw port w])) as (r & Hr1 & Hr2 & Hr3);
      [done|lia|lia|lia| |].
    { intros j Hj. replace (buffer + (i + 2)) with (buffer + i + 1 + 1) by lia. unfold m1.
      rewrite !lookup_insert_ne by lia. by apply Hm. }
    exists (Inw port w :: r). rewrite Hr3, <- app_assoc. split; [apply Forall_cons; split; [by eexists|done]|].
    split; [cbn [length]; div_lia|]. cbn [bytes_of take put]. unfold m1. do 4 f_equal. lia.
  - replace (Z.to_nat (size - i)) with 1%nat by lia. rewrite bind_ret_l. destruct n as [|n]; [lia|]. cbn [read_loop].
    rewrite decide_False by lia. exists [Inw port w].
    split; [apply Forall_cons; split; [by eexists|constructor]|]. split; [cbn [length]; div_lia|]. done.
Qed.

Lemma skip_loop_run n : forall i h, i <= 512 -> 512 - i < 2 * Z.of_nat n -> i mod 2 = 0 ->
  exists r, Forall (is_data port) r /\ Z.of_nat (length r) = (512 - i) / 2 /\
    skip_loop device n port i h = Ret (tt, h ++ r).
Proof.
  induction n as [|n IH]; intros i h Hi Hn Hm; [lia|]. cbn [skip_loop]. unfold ATA_PIO_SECTOR_SIZE.
  case_decide; [|exists []; rewrite app_nil_r; split; [constructor|split; [cbn; div_lia|done]]].
  rewrite (bind_ret _ _ _ _ _ (cpu_inw_eq h)).
  destruct (IH (i + 2) (h ++ [Inw port (u16 (device h port))])) as (r & Hr1 & Hr2 & Hr3); [div_lia..|].
  eexists (_ :: r). rewrite Hr3, <- app_assoc. split; [apply Forall_cons; split; [by eexists|done]|].
  split; [cbn [length]; div_lia|done].
Qed.

End Ata.

(** ** The array of blocks *)

Definition blocks : Type := ATA_PIO_TYPE_E * Z -> list Z.

(** A request on part of a sector: the drive, the sector, the address and the
    size of the data in memory. *)
Inductive disk_op : Type :=
  | ReadOp (t : ATA_PIO_TYPE_E) (sector buffer size : Z)
  | WriteOp (t : ATA_PIO_TYPE_E) (sector buffer size : Z).

(** What a request returns and does to the memory and the blocks. *)
Definition op_effect (o : disk_op) (m : mem) (D : blocks) : OS_RETURN_E * (mem * blocks) :=
  match o with
  | ReadOp t s buffer size | WriteOp t s buffer size =>
      if decide (s > 0x0FFFFFFF) then (OS_ERR_ATA_BAD_SECTOR_NUMBER, (m, D))
      else if decide (size > 512) then (OS_ERR_ATA_SIZE_TO_HUGE, (m, D))
      else
        match o with
        | ReadOp _ _ _ _ => (OS_NO_ERR, (put m buffer (take (Z.to_nat size) (D (t, s))), D))
        | WriteOp _ _ _ _ => (OS_NO_ERR, (m, <[(t, s) := sector_of (bytes_from m buffer (Z.to_nat size))]> D))
        end
  end.

Fixpoint ops_effect (l : list disk_op) (m : mem) (D : blocks) : list OS_RETURN_E * (mem * blocks) :=
  match l with
  | [] => ([], (m, D))
  | o :: l =>
      let '(r, (m1, D1)) := op_effect o m D in
      let '(rs, w) := ops_effect l m1 D1 in (r :: rs, w)
  end.

Definition op_ok (m : mem) (o : disk_op) : Prop :=
  match o with
  | ReadOp _ s buffer size | WriteOp _ s buffer size => 0 <= s /\ 0 <= size /\ mapped m buffer (Z.to_nat size)
  end.

Definition mem_bytes (m : mem) : Prop := forall p b, m !! p = Some b -> is_byte b.

Lemma bytes_from_byte m p n : mem_bytes m -> mapped m p n -> Forall is_byte (bytes_from m p n).
Proof.
  intros Hm Hp. apply Forall_lookup_2. intros i x Hx. apply (Hm (p + Z.of_nat i)). by apply (bytes_from_at m p n).
Qed.

Lemma put_bytes m p l : mem_bytes m -> Forall is_byte l -> mem_bytes (put m p l).
Proof.
  revert m p. induction l as [|x l IH]; intros m p Hm Hl; [done|]. apply Forall_cons in Hl as [Hx Hl]. cbn [put].
  apply IH; [|done]. intros q b [[_ <-]|[_ Hq]]%lookup_insert_Some; [done|by eapply Hm].
Qed.

Section Disk.
Context (device : history -> Z -> Z) (polls : nat) (e : cpu_env) (port : Z) (address : ATA_PIO_TYPE_E -> Z).
Context (idle : history -> Prop) (content : history -> blocks).
Hypothesis (Hdrive : ata_drive port device polls idle content).
Hypothesis (Hprompt : prompt_drive port device idle).

Definition run_op (o : disk_op) : M (kstate (world history)) OS_RETURN_E :=
  match o with
  | ReadOp t s buffer size => ata_pio_read_sector device polls e (mk_ata_device port t (address t)) s buffer size
  | WriteOp t s buffer size => ata_pio_write_sector device polls e (mk_ata_device port t (address t)) s buffer size
  end.

Fixpoint run_ops (l : list disk_op) : M (kstate (world history)) (list OS_RETURN_E) :=
  match l with
  | [] => ret []
  | o :: l => let* r := run_op o in let* rs := run_ops l in ret (r :: rs)
  end.

(** The drives are idle and hold the blocks. *)
Definition holds (h : history) (D : blocks) : Prop := idle h /\ forall x, content h x = D x.

Lemma read_sector_run t a s buffer size m h D :
  holds h D -> 0 <= s < 2 ^ 28 -> 0 <= size <= 512 -> mapped m buffer (Z.to_nat size) ->
  exists h', read_sector device polls (mk_ata_device port t a) s buffer size (m, h) =
    Ret (OS_NO_ERR, (put m buffer (take (Z.to_nat size) (D (t, s))), h')) /\ holds h' D.
Proof.
  intros [Hi HD] Hs Hz Hm. destruct (ad_sector _ _ _ _ _ Hdrive h (t, s) Hi) as [Hlen Hbytes].
  rewrite <- HD. set (ws := words_of (content h (t, s))).
  assert (length ws = 256%nat) as Hws by (unfold ws; by rewrite words_of_length, Hlen).
  destruct (settled port device polls _ _ (ad_ready _ _ _ _ _ Hdrive h t s Hi Hs) requested_quiet)
    as (k & Hk & H0 & H1 & H2 & Hw).
  unfold read_sector. cbn [ata_port].
  rewrite (in_dev_run _ _ _ _ _ _ (sector_command_run port t a s 0x20 h Hs ltac:(lia))).
  unfold cpu_inb. erewrite in_dev_run by reflexivity. cbn beta. change (port + ATA_PIO_COMMAND_PORT_OFFSET) with (port + 7).
  rewrite H0, decide_False by done. erewrite in_dev_run by exact Hw.
  unfold ATA_PIO_FLAG_ERR. rewrite decide_False by done.
  destruct (read_loop_run port device buffer ws words_fuel 0 size m
      (reads device (S k) (port + 7) (h ++ command_trace port t s 32))) as (r & Hr1 & Hr2 & Hr3); [|done|rewrite Hws; lia|rewrite Hws; unfold words_fuel; lia|by rewrite Z.add_0_r, Z.sub_0_r|].
  { intros r w Hr Hx. by apply (ad_data _ _ _ _ _ Hdrive). }
  rewrite (bind_ret _ _ _ _ _ Hr3). rewrite Z.add_0_r, Z.sub_0_r in *.
  destruct (skip_loop_run port device words_fuel (size + size mod 2)
      (reads device (S k) (port + 7) (h ++ command_trace port t s 32) ++ r)) as (r' & Hr1' & Hr2' & Hr3'); [div_lia|unfold words_fuel; div_lia|div_lia|].
  erewrite in_dev_run by exact Hr3'.
  assert (bytes_of ws = content h (t, s)) as ->.
  { unfold ws. rewrite bytes_of_words by done. rewrite Hlen. by rewrite app_nil_r. }
  eexists. split; [reflexivity|]. rewrite <- app_assoc.
  destruct (ad_read _ _ _ _ _ Hdrive h t s k (r ++ r') Hi Hs) as [Hi' HD'];
    [by apply Forall_app|rewrite length_app; div_lia|done|].
  split; [done|]. intros x. by rewrite HD'.
Qed.

Lemma write_sector_run t a s buffer size m h D :
  holds h D -> 0 <= s < 2 ^ 28 -> 0 <= size <= 512 -> mem_bytes m -> mapped m buffer (Z.to_nat size) ->
  exists h', write_sector (mk_ata_device port t a) s buffer size (m, h) = Ret (tt, (m, h')) /\
    holds h' (<[(t, s) := sector_of (bytes_from m buffer (Z.to_nat size))]> D).
Proof.
  intros [Hi HD] Hs Hz Hb Hm. set (l := bytes_from m buffer (Z.to_nat size)).
  assert (Z.of_nat (length l) = size) as Hlen by (unfold l; rewrite bytes_from_length; lia).
  assert (Forall is_byte l) as Hl by (by apply bytes_from_byte).
  assert (bytes_at m buffer l) as Hat by (by apply bytes_from_at). clearbody l.
  unfold write_sector. cbn [ata_port].
  rewrite (in_dev_run _ _ _ _ _ _ (sector_command_run port t a s 0x30 h Hs ltac:(lia))).
  pose proof (write_loop_run port buffer l words_fuel 0 m (h ++ command_trace port t s ATA_PIO_WRITE_SECTOR_COMMAND))
    as Hw. rewrite Hlen, Z.add_0_r, Z.add_0_l in Hw.
  assert (S (length l) < 2 * words_fuel)%nat as Hfuel by (unfold words_fuel; lia).
  rewrite (bind_ret _ _ _ _ _ (Hw Hat Hl ltac:(lia) Hfuel)).
  rewrite (in_dev_last _ tt m _ _ (pad_sector_run port words_fuel (size + size mod 2) _ ltac:(div_lia)
    ltac:(unfold words_fuel; div_lia) ltac:(div_lia))).
  destruct (sector_words l size Hl Hlen ltac:(lia)) as (Hr & Hn & Hsec).
  eexists. split; [reflexivity|]. rewrite <- (app_assoc _ (data_trace _ _)). unfold data_trace. rewrite <- map_app.
  destruct (ad_write _ _ _ _ _ Hdrive h t s _ Hi Hs Hr Hn (pd_request _ _ _ Hprompt h t s Hi Hs)
    (pd_stored _ _ _ Hprompt h t s _ Hi Hs Hr Hn)) as [Hi' HD']. split; [done|].
  intros x. etrans; [apply HD'|]. rewrite Hsec. unfold insert, fn_insert. rewrite HD.
  repeat case_decide; congruence.
Qed.

Lemma flush_run t a h D : holds h D ->
  exists h', flush device polls (mk_ata_device port t a) h = Ret (OS_NO_ERR, h') /\ holds h' D.
Proof.
  intros [Hi HD]. destruct (settled port device polls _ _ (ad_flush_ready _ _ _ _ _ Hdrive h t Hi) done_quiet)
    as (k & Hk & H0 & H1 & H2 & Hw).
  unfold flush. cbn [ata_port ata_type].
  replace (by_type t 224 240) with (select t) by (by destruct t).
  assert (forall v p (k : unit -> M history OS_RETURN_E) h, 0 <= v < 256 -> bind (cpu_outb v p) k h = k tt (h ++ [Outb v p])) as Ho.
  { intros v p k' h' Hv. unfold cpu_outb, u8. by rewrite exec_modify, Z.mod_small. }
  rewrite !Ho by (try (destruct t; cbn; lia); unfold ATA_PIO_FLUSH_SECTOR_COMMAND; lia).
  rewrite <- app_assoc. unfold cpu_inb at 1. erewrite bind_ret by reflexivity.
  change (port + ATA_PIO_COMMAND_PORT_OFFSET) with (port + 7).
  change ([Outb (select t) (port + ATA_PIO_DEVICE_PORT_OFFSET)] ++ [Outb ATA_PIO_FLUSH_SECTOR_COMMAND (port + 7)])
    with (flush_trace port t).
  rewrite H0, decide_False, decide_False by done. rewrite (bind_ret _ _ _ _ _ Hw).
  unfold ATA_PIO_FLAG_ERR. rewrite decide_False by done. eexists. split; [reflexivity|].
  destruct (ad_flush _ _ _ _ _ Hdrive h t k Hi Hk) as [Hi' HD']. split; [done|]. intros x. by rewrite HD'.
Qed.

(** *** A request *)

Lemma op_effect_mem o m D : mem_bytes m -> (forall x, Forall is_byte (D x)) ->
  mem_bytes (op_effect o m D).2.1 /\ forall p n, mapped m p n -> mapped (op_effect o m D).2.1 p n.
Proof.
  intros Hm HD. destruct o; cbn [op_effect]; do 2 (case_decide; [done|]); cbn; split; try done.
  - apply put_bytes; [done|]. by apply Forall_take.
  - intros p n. apply put_mapped.
Qed.

Lemma holds_bytes h D : holds h D -> forall x, Forall is_byte (D x).
Proof. intros [Hi HD] x. rewrite <- HD. by apply (ad_sector _ _ _ _ _ Hdrive). Qed.

Definition unlocked (t : kstate (world history)) : Prop :=
  flag_ok t /\ lock_free (ObjLock (address MASTER)) t /\ lock_free (ObjLock (address SLAVE)) t.

Lemma unlocked_moves t t' : unlocked t -> same_locks t t' -> unlocked t'.
Proof. intros (? & ? & ?) Hsl. split_and!; [by eapply same_locks_flag|by eapply same_locks_free..]. Qed.

Lemma op_run o t m h D : core t = (m, h) -> unlocked t -> holds h D -> mem_bytes m -> op_ok m o ->
  exists t' h', run_op o t = Ret ((op_effect o m D).1, t') /\ same_locks t t' /\
    core t' = ((op_effect o m D).2.1, h') /\ holds h' (op_effect o m D).2.2.
Proof.
  intros Hc (Hf & Hl1 & Hl2) Hh Hb Ho.
  assert (forall k, lock_free (ObjLock (address k)) t) as Hl by (by intros []).
  destruct o as [k s buffer size|k s buffer size]; cbn [run_op op_effect op_ok] in *; destruct Ho as (Hs & Hz & Hm).
  - unfold ata_pio_read_sector, ATA_PIO_SECTOR_SIZE. case_decide; [by exists t, h|]. case_decide; [by exists t, h|].
    destruct (read_sector_run k (address k) s buffer size m h D Hh ltac:(lia) ltac:(lia) Hm) as (h' & Hr & Hh').
    rewrite <- Hc in Hr. destruct (critical_lift e (ObjLock (address k)) _ t _ _ Hf (Hl k) Hr) as (t' & Ht & Hc' & Hsl).
    by exists t', h'.
  - unfold ata_pio_write_sector, ATA_PIO_SECTOR_SIZE. case_decide; [by exists t, h|]. case_decide; [by exists t, h|].
    destruct (write_sector_run k (address k) s buffer size m h D Hh ltac:(lia) ltac:(lia) Hb Hm) as (h1 & Hr & Hh1).
    rewrite <- Hc in Hr. destruct (critical_lift e (ObjLock (address k)) _ t _ _ Hf (Hl k) Hr) as (t1 & Ht & Hc1 & Hsl).
    rewrite (bind_ret _ _ _ _ _ Ht). destruct (flush_run k (address k) h1 _ Hh1) as (h' & Hfl & Hh').
    assert (in_dev (flush device polls (mk_ata_device port k (address k))) (core t1) = Ret (OS_NO_ERR, (m, h'))) as Hfl'
      by (rewrite Hc1; by apply in_dev_last).
    destruct (critical_lift e (ObjLock (address k)) _ t1 _ _ (same_locks_flag _ _ Hsl Hf)
      (same_locks_free _ _ _ Hsl (Hl k)) Hfl') as (t' & Ht' & Hc' & Hsl').
    exists t', h'. split; [done|]. split; [by eapply same_locks_trans|done].
Qed.

(** C20: Any sequence of reads and writes of parts of sectors returns what the
    array of blocks returns, leaves in the memory exactly the bytes read, and
    the drives hold the blocks written, completed by zeros; requests past the
    last sector or larger than a sector change nothing.  The drives
    ([ata_drive]) give the data of a read only once a status, not busy, asks
    for their transfer, which they show after less than [polls] busy ones, and
    report no error; and they are prompt ([prompt_drive]): they ask for the
    data of a write as soon as the command is written and have stored them
    with the last word, since the driver reads no status there. *)
Theorem ata_refines_blocks l t m h D :
  core t = (m, h) -> unlocked t -> holds h D -> mem_bytes m -> Forall (op_ok m) l ->
  exists t' h', run_ops l t = Ret ((ops_effect l m D).1, t') /\ same_locks t t' /\
    core t' = ((ops_effect l m D).2.1, h') /\ holds h' (ops_effect l m D).2.2.
Proof.
  revert t m h D. induction l as [|o l IH]; intros t m h D Hc Hu Hh Hb Ho; cbn [run_ops ops_effect].
  { by exists t, h. }
  apply Forall_cons in Ho as [Ho Hl].
  destruct (op_run o t m h D Hc Hu Hh Hb Ho) as (t1 & h1 & H1 & S1 & C1 & Hh1).
  destruct (op_effect_mem o m D Hb (holds_bytes h D Hh)) as [Hb1 Hm1].
  rewrite (bind_ret _ _ _ _ _ H1). destruct (op_effect o m D) as [r [m1 D1]]. cbn in *.
  destruct (IH t1 m1 h1 D1) as (t2 & h2 & H2 & S2 & C2 & Hh2); [done|by eapply unlocked_moves|done|done| |].
  { eapply Forall_impl; [exact Hl|]. intros [] (? & ? & ?); cbn; split_and!; auto. }
  rewrite (bind_ret _ _ _ _ _ H2). destruct (ops_effect l m1 D1) as [rs [m2 D2]]. cbn in *.
  exists t2, h2. split; [done|]. split; [by eapply same_locks_trans|done].
Qed.
End Disk.

(** ** What the initialisation hides *)

(** The error of the master is lost: only the result of the slave counts. *)
Lemma ata_init_drops_master device polls h h1 h2 r1 :
  ata_pio_identify_device device polls (mk_ata_device 0x1F0 MASTER 0) h = Ret (r1, h1) ->
  ata_pio_identify_device device polls (mk_ata_device 0x1F0 SLAVE 0) h1 = Ret (OS_ERR_ATA_DEVICE_NOT_PRESENT, h2) ->
  ata_pio_init device polls h = Ret (OS_NO_ERR, h2).
Proof. intros H1 H2. unfold ata_pio_init. by rewrite (bind_ret _ _ _ _ _ H1), (bind_ret _ _ _ _ _ H2). Qed.
