(* ===== verification/AtaDrive.v ===== *)
(** * A pair of drives

    Drives on the primary port that meet what [AtaTheorems.ata_drive] and
    [AtaTheorems.prompt_drive] ask, as a machine on the accesses to their
    registers that is busy for two reads of its status after a command to read
    or to flush, and gives no data meanwhile; and a write read back from them. *)
From stdpp Require Import functions.
From S2P Require Import Prelude Critical ByteMem Ports Ata AtaTheorems.

(** What a drive is doing: nothing, sending the words left of a sector, or
    receiving those of a sector. *)
Inductive drive_mode : Type :=
  | Waiting
  | Sending (ws : list Z)
  | Receiving (x : ATA_PIO_TYPE_E * Z) (ws : list Z).

Record drive : Type := mk_drive {
  dr_type : ATA_PIO_TYPE_E;
  dr_top : Z;
  dr_high : Z;
  dr_mid : Z;
  dr_low : Z;
  dr_busy : nat;
  dr_mode : drive_mode;
  dr_blocks : blocks
}.

Definition received (ws : list Z) : list Z := take 512 (bytes_of ws ++ replicate 512 0).

Definition sectors (d : drive) : blocks :=
  match dr_mode d with Receiving x ws => <[x := received ws]> (dr_blocks d) | _ => dr_blocks d end.

Definition selected (d : drive) : ATA_PIO_TYPE_E * Z :=
  (dr_type d, dr_top d * 2 ^ 24 + dr_high d * 2 ^ 16 + dr_mid d * 2 ^ 8 + dr_low d).

Definition enter (n : nat) (m : drive_mode) (d : drive) : drive :=
  mk_drive (dr_type d) (dr_top d) (dr_high d) (dr_mid d) (dr_low d) n m (sectors d).

(** What a command makes of the drive: how many reads of the status find it
    busy, and what it does then. *)
Definition command_delay (c : Z) : nat := if decide (c = 0x30) then 0%nat else 2%nat.

Definition command_mode (d : drive) (x : ATA_PIO_TYPE_E * Z) (c : Z) : drive_mode :=
  if decide (c = 0x20) then Sending (words_of (sectors d x))
  else if decide (c = 0x30) then Receiving x [] else Waiting.

Definition write_register (d : drive) (v r : Z) : drive :=
  let '(mk_drive t top high mid low n m b) := d in
  if decide (r = 6) then mk_drive (if decide (v / 16 = 0xE) then MASTER else SLAVE) (v mod 16) high mid low n m b
  else if decide (r = 5) then mk_drive t top v mid low n m b
  else if decide (r = 4) then mk_drive t top high v low n m b
  else if decide (r = 3) then mk_drive t top high mid v n m b
  else if decide (r = 7) then enter (command_delay v) (command_mode d (selected d) v) d
  else d.

Definition with_mode (m : drive_mode) (d : drive) : drive :=
  mk_drive (dr_type d) (dr_top d) (dr_high d) (dr_mid d) (dr_low d) (dr_busy d) m (dr_blocks d).

Definition less_busy (d : drive) : drive :=
  mk_drive (dr_type d) (dr_top d) (dr_high d) (dr_mid d) (dr_low d) (pred (dr_busy d)) (dr_mode d) (dr_blocks d).

(** A busy drive only answers reads of its status. *)
Definition drive_step (d : drive) (x : io_event) : drive :=
  match dr_busy d, x with
  | S _, Inb _ _ => less_busy d
  | S _, _ => d
  | O, Outb v p => write_register d v (p - 0x1F0)
  | O, Inb _ _ => d
  | O, Outw v p => match dr_mode d with Receiving x ws => with_mode (Receiving x (ws ++ [u16 v])) d | _ => d end
  | O, Inw p _ => match dr_mode d with Sending ws => with_mode (Sending (tail ws)) d | _ => d end
  end.

Definition drive_off : drive := mk_drive MASTER 0 0 0 0 0 Waiting (fun _ => replicate 512 0).

Definition drive_after (h : history) : drive := foldl drive_step drive_off h.

(** Busy; data requested; ready. *)
Definition drive_status (d : drive) : Z :=
  match dr_busy d, dr_mode d with
  | S _, _ => 0x80
  | O, Sending (_ :: _) => 0x58
  | O, Receiving _ ws => if decide (length ws < 256)%nat then 0x58 else 0x50
  | O, _ => 0x50
  end.

Definition drive_data (d : drive) : Z :=
  match dr_busy d, dr_mode d with O, Sending (w :: _) => w | _, _ => 0 end.

Definition drive_device (h : history) (p : Z) : Z :=
  if decide (p = 0x1F0) then drive_data (drive_after h) else drive_status (drive_after h).

Definition drive_idle (h : history) : Prop :=
  dr_busy (drive_after h) = 0%nat /\
  match dr_mode (drive_after h) with
  | Waiting => True
  | Sending ws => ws = []
  | Receiving _ ws => length ws = 256%nat
  end.

Definition drive_content (h : history) : blocks := sectors (drive_after h).

Lemma drive_after_app h k : drive_after (h ++ k) = foldl drive_step (drive_after h) k.
Proof. apply foldl_app. Qed.

(** ** Sectors *)

Definition is_sector (l : list Z) : Prop := length l = 512%nat /\ Forall is_byte l.

Lemma bytes_of_byte ws : Forall (fun w => 0 <= w < 2 ^ 16) ws -> Forall is_byte (bytes_of ws).
Proof.
  induction ws as [|w ws IH]; intros H; [constructor|]. apply Forall_cons in H as [Hw H]. cbn [bytes_of].
  unfold is_byte in *. apply Forall_cons. split; [div_lia|]. apply Forall_cons. split; [div_lia|by apply IH].
Qed.

Lemma bytes_of_length ws : length (bytes_of ws) = (2 * length ws)%nat.
Proof. induction ws as [|w ws IH]; [done|]. cbn [bytes_of length]. lia. Qed.

Lemma received_sector ws : Forall (fun w => 0 <= w < 2 ^ 16) ws -> is_sector (received ws).
Proof.
  intros H. unfold received. split; [rewrite length_take, length_app, length_replicate; lia|].
  apply Forall_take, Forall_app. split; [by apply bytes_of_byte|]. apply Forall_replicate. unfold is_byte. lia.
Qed.

Lemma received_full ws : length ws = 256%nat -> received ws = bytes_of ws.
Proof. intros H. unfold received. rewrite take_app_length'; [done|]. rewrite bytes_of_length, H. done. Qed.

Definition well_formed (d : drive) : Prop :=
  (forall x, is_sector (dr_blocks d x)) /\
  match dr_mode d with Receiving _ ws => Forall (fun w => 0 <= w < 2 ^ 16) ws | _ => True end.

Lemma sectors_ok d : well_formed d -> forall x, is_sector (sectors d x).
Proof.
  intros [H1 H2] x. unfold sectors. destruct (dr_mode d); try apply H1. unfold insert, fn_insert.
  case_decide; [by apply received_sector|apply H1].
Qed.

Lemma step_well_formed d x : well_formed d -> well_formed (drive_step d x).
Proof.
  intros H. pose proof (sectors_ok d H) as Hs. pose proof H as [H1 H2]. unfold drive_step.
  destruct (dr_busy d) eqn:Hb; [|by destruct x]. destruct x as [v p|p v|v p|p v]; [|done|..].
  - unfold write_register. destruct d as [t top high mid low n m b]. repeat case_decide; try (split; [done|]; done).
    all: split; [exact Hs|cbn; unfold command_mode; repeat case_decide; done].
  - destruct (dr_mode d) eqn:Hm; try (split; [done|by rewrite Hm]). split; [done|]. cbn.
    apply Forall_app. split; [done|]. apply Forall_cons. split; [apply u16_range|constructor].
  - destruct (dr_mode d) eqn:Hm; try (split; [done|by rewrite Hm]). by split.
Qed.

Lemma drive_well_formed h : well_formed (drive_after h).
Proof.
  unfold drive_after. assert (well_formed drive_off) as H.
  { split; [|done]. intros x. split; [reflexivity|].
    change (dr_blocks drive_off x) with (replicate 512 0). apply Forall_replicate. unfold is_byte. lia. }
  revert H. generalize drive_off. induction h as [|x h IH]; intros d Hd; [done|]. cbn [foldl].
  by apply IH, step_well_formed.
Qed.

(** ** Commands *)

Section Registers.
Context (t : ATA_PIO_TYPE_E) (top high mid low : Z) (m : drive_mode) (b : blocks).
Let d : drive := mk_drive t top high mid low 0 m b.

Lemma set_device v : drive_step d (Outb v (0x1F0 + 6)) =
  mk_drive (if decide (v / 16 = 0xE) then MASTER else SLAVE) (v mod 16) high mid low 0 m b.
Proof. reflexivity. Qed.
Lemma set_other v : drive_step d (Outb v (0x1F0 + 1)) = d /\ drive_step d (Outb v (0x1F0 + 2)) = d.
Proof. by split. Qed.
Lemma set_low v : drive_step d (Outb v (0x1F0 + 3)) = mk_drive t top high mid v 0 m b.
Proof. reflexivity. Qed.
Lemma set_mid v : drive_step d (Outb v (0x1F0 + 4)) = mk_drive t top high v low 0 m b.
Proof. reflexivity. Qed.
Lemma set_high v : drive_step d (Outb v (0x1F0 + 5)) = mk_drive t top v mid low 0 m b.
Proof. reflexivity. Qed.
Lemma set_command v : drive_step d (Outb v (0x1F0 + 7)) = enter (command_delay v) (command_mode d (selected d) v) d.
Proof. reflexivity. Qed.
End Registers.

Lemma select_type t x : 0 <= x < 16 -> (if decide ((select t + x) / 16 = 0xE) then MASTER else SLAVE) = t.
Proof. intros Hx. destruct t; cbn [select]; case_decide; try done; exfalso; div_lia. Qed.

Lemma select_top t x : 0 <= x < 16 -> (select t + x) mod 16 = x.
Proof. intros Hx. destruct t; cbn [select]; div_lia. Qed.

(** The drive does [m], is busy for [n] reads and has written [b]. *)
Definition drive_in (d : drive) (n : nat) (m : drive_mode) (b : blocks) : Prop :=
  dr_busy d = n /\ dr_mode d = m /\ dr_blocks d = b.

Lemma command_steps d t s c : dr_busy d = 0%nat -> 0 <= s < 2 ^ 28 ->
  drive_in (foldl drive_step d (command_trace 0x1F0 t s c)) (command_delay c) (command_mode d (t, s) c) (sectors d).
Proof.
  intros Hd Hs. destruct d as [t0 top high mid low n m b]. cbn in Hd. subst n. unfold command_trace. cbn [foldl].
  rewrite set_device. rewrite (proj1 (set_other _ _ _ _ _ _ _ _)), (proj2 (set_other _ _ _ _ _ _ _ _)).
  rewrite set_low, set_mid, set_high, set_command, select_type, select_top by div_lia.
  unfold selected, enter. cbn [dr_mode dr_blocks dr_type dr_top dr_high dr_mid dr_low]. split; [done|]. split; [|done].
  assert (s / 2 ^ 24 * 2 ^ 24 + s / 2 ^ 16 mod 2 ^ 8 * 2 ^ 16 + s / 2 ^ 8 mod 2 ^ 8 * 2 ^ 8 + s mod 2 ^ 8 = s) as -> by div_lia.
  done.
Qed.

Lemma flush_steps d t : dr_busy d = 0%nat -> drive_in (foldl drive_step d (flush_trace 0x1F0 t)) 2 Waiting (sectors d).
Proof. intros Hd. destruct d as [t0 top high mid low n m b]. cbn in Hd. subst n. by destruct t. Qed.

(** Each read of the status leaves the drive less busy. *)
Lemma status_steps k : forall h n m b, drive_in (drive_after h) n m b ->
  drive_in (drive_after (reads drive_device k (0x1F0 + 7) h)) (n - k) m b.
Proof.
  induction k as [|k IH]; intros h n m b H; [by rewrite Nat.sub_0_r|]. cbn [reads].
  replace (n - S k)%nat with (pred n - k)%nat by lia. apply IH. unfold drive_after. rewrite foldl_app.
  fold (drive_after h). destruct H as (Hn & Hm & Hb). cbn [foldl]. unfold drive_step. rewrite Hn.
  destruct n; [done|]. unfold less_busy. split; [cbn; by rewrite Hn|done].
Qed.

(** The status of read number [k]. *)
Lemma status_of k h n m b : drive_in (drive_after h) n m b ->
  status 0x1F0 drive_device k h = if decide (k < n)%nat then 0x80 else drive_status (mk_drive MASTER 0 0 0 0 0 m b).
Proof.
  intros H. unfold status. pose proof (status_steps k h n m b H) as (H1 & H2 & _).
  unfold drive_device at 1. rewrite decide_False by done. unfold drive_status. rewrite H1, H2. cbn [dr_busy dr_mode].
  case_decide.
  - by destruct (n - k)%nat eqn:Hk; [lia|].
  - replace (n - k)%nat with 0%nat by lia. destruct m as [|[]|]; try done. by case_decide.
Qed.

Lemma not_busy k h n m b : drive_in (drive_after h) n m b -> quiet (status 0x1F0 drive_device k h) -> (n <= k)%nat.
Proof. intros H Hq. rewrite (status_of k h n m b H) in Hq. case_decide; [|lia]. by destruct Hq as [[] _]. Qed.

Lemma data_steps r : forall d ws b, Forall (is_data 0x1F0) r -> drive_in d 0 (Sending ws) b ->
  drive_in (foldl drive_step d r) 0 (Sending (drop (length r) ws)) b.
Proof.
  induction r as [|x r IH]; intros d ws b H Hd; [by rewrite drop_0|]. apply Forall_cons in H as [[v ->] H].
  destruct Hd as (Hn & Hm & Hb). cbn [foldl length]. unfold drive_step at 2. rewrite Hn, Hm.
  replace (drop (S (length r)) ws) with (drop (length r) (tail ws)) by (destruct ws; cbn; by rewrite ?drop_nil).
  apply IH; [done|]. by split.
Qed.

Lemma word_steps ws : forall d x pre b, Forall (fun w => 0 <= w < 2 ^ 16) ws -> drive_in d 0 (Receiving x pre) b ->
  drive_in (foldl drive_step d (data_trace 0x1F0 ws)) 0 (Receiving x (pre ++ ws)) b.
Proof.
  induction ws as [|w ws IH]; intros d x pre b H Hd; [by rewrite app_nil_r|]. apply Forall_cons in H as [Hw H].
  destruct Hd as (Hn & Hm & Hb). cbn [data_trace map foldl]. unfold drive_step at 2. rewrite Hn, Hm.
  unfold u16. rewrite Z.mod_small, (cons_middle w pre ws), app_assoc by done.
  apply IH; [done|]. by split.
Qed.

(** An idle drive shows its blocks. *)
Lemma idle_sectors d m b x : dr_mode d = m -> dr_blocks d = b ->
  sectors d x = match m with Receiving y ws => <[y := received ws]> b x | _ => b x end.
Proof. intros <- <-. unfold sectors. by destruct (dr_mode d). Qed.

(** The drive after a command. *)
Lemma after_command h t s c : drive_idle h -> 0 <= s < 2 ^ 28 ->
  drive_in (drive_after (h ++ command_trace 0x1F0 t s c)) (command_delay c) (command_mode (drive_after h) (t, s) c)
    (sectors (drive_after h)).
Proof. intros [Hi _] Hs. rewrite drive_after_app. by apply command_steps. Qed.

Lemma after_flush h t : drive_idle h ->
  drive_in (drive_after (h ++ flush_trace 0x1F0 t)) 2 Waiting (sectors (drive_after h)).
Proof. intros [Hi _]. rewrite drive_after_app. by apply flush_steps. Qed.

(** A drive that is busy for two reads settles at the third. *)
Lemma drive_settles P h m b : drive_in (drive_after h) 2 m b -> P (drive_status (mk_drive MASTER 0 0 0 0 0 m b)) ->
  settles 0x1F0 drive_device 3 P h.
Proof.
  intros Hd Hp. exists 2%nat. split; [lia|]. rewrite (status_of 2 h 2 m b Hd). split; [|exact Hp].
  intros i Hi. rewrite (status_of i h 2 m b Hd), decide_True by done. done.
Qed.

(** The words of a read once the drive asks for their transfer. *)
Lemma drive_reading h t s k r : drive_idle h -> 0 <= s < 2 ^ 28 -> Forall (is_data 0x1F0) r ->
  quiet (status 0x1F0 drive_device k (h ++ command_trace 0x1F0 t s 0x20)) ->
  drive_in (drive_after (reads drive_device (S k) (0x1F0 + 7) (h ++ command_trace 0x1F0 t s 0x20) ++ r)) 0
    (Sending (drop (length r) (words_of (drive_content h (t, s))))) (drive_content h).
Proof.
  intros Hi Hs Hr Hq. pose proof (after_command h t s 0x20 Hi Hs) as Hd.
  pose proof (not_busy k _ _ _ _ Hd Hq) as Hk. pose proof (status_steps (S k) _ _ _ _ Hd) as Hd'.
  replace (command_delay 0x20 - S k)%nat with 0%nat in Hd' by (unfold command_delay in *; cbn in *; lia).
  rewrite drive_after_app. by apply data_steps.
Qed.

(** The words of a write. *)
Lemma drive_writing h t s ws : drive_idle h -> 0 <= s < 2 ^ 28 -> Forall (fun w => 0 <= w < 2 ^ 16) ws ->
  drive_in (drive_after ((h ++ command_trace 0x1F0 t s 0x30) ++ data_trace 0x1F0 ws)) 0 (Receiving (t, s) ws)
    (drive_content h).
Proof.
  intros Hi Hs Hw. pose proof (after_command h t s 0x30 Hi Hs) as Hd. rewrite drive_after_app.
  by apply (word_steps ws _ _ []).
Qed.

Lemma sector_full h x : length (words_of (drive_content h x)) = 256%nat /\
  Forall (fun w => 0 <= w < 2 ^ 16) (words_of (drive_content h x)).
Proof.
  destruct (sectors_ok _ (drive_well_formed h) x) as [Hlen Hb]. split; [|by apply words_of_range].
  unfold drive_content. by rewrite words_of_length, Hlen.
Qed.

Lemma drive_is_drive : ata_drive 0x1F0 drive_device 3 drive_idle drive_content.
Proof.
  split.
  - intros h x _. apply sectors_ok, drive_well_formed.
  - intros h t s Hi Hs. eapply drive_settles; [exact (after_command h t s 0x20 Hi Hs)|].
    destruct (sector_full h (t, s)) as [Hlen _]. unfold drive_content in Hlen. unfold command_mode.
    rewrite decide_True by done. by destruct (words_of (sectors (drive_after h) (t, s))) as [|w l].
  - intros h t s k r w Hi Hs Hr h0 [Hq _] Hw.
    pose proof (drive_reading h t s k r Hi Hs Hr Hq) as (Hn & Hm & _).
    unfold drive_device at 1. rewrite decide_True by done. unfold drive_data. unfold h0 in *.
    rewrite Hn, Hm, (drop_S _ _ _ Hw). destruct (sector_full h (t, s)) as [_ Hb].
    rewrite Forall_lookup in Hb. unfold u16. by apply Z.mod_small, (Hb _ _ Hw).
  - intros h t s k r Hi Hs Hr Hlen h0 h' [Hq _].
    pose proof (drive_reading h t s k r Hi Hs Hr Hq) as (Hn & Hm & Hb). unfold h', h0.
    split; [|intros x; unfold drive_content at 1; rewrite (idle_sectors _ _ _ x Hm Hb); done].
    split; [done|]. rewrite Hm. destruct (sector_full h (t, s)) as [Hw _]. apply drop_ge. by rewrite Hlen, Hw.
  - intros h t s ws Hi Hs Hr Hlen h0 h' _ _.
    pose proof (drive_writing h t s ws Hi Hs Hr) as (Hn & Hm & Hb). unfold h', h0.
    split; [split; [done|by rewrite Hm]|]. intros x. unfold drive_content at 1.
    rewrite (idle_sectors _ _ _ x Hm Hb), received_full by done.
    unfold insert, fn_insert. repeat case_decide; congruence.
  - intros h t Hi. by eapply drive_settles; [exact (after_flush h t Hi)|].
  - intros h t k Hi h0 h' [Hq _]. pose proof (after_flush h t Hi) as Hd.
    pose proof (not_busy k _ _ _ _ Hd Hq) as Hk. pose proof (status_steps (S k) _ _ _ _ Hd) as (Hn & Hm & Hb).
    unfold h', h0. split; [split; [rewrite Hn; lia|by rewrite Hm]|].
    intros x. unfold drive_content at 1. by rewrite (idle_sectors _ _ _ x Hm Hb).
Qed.

Lemma drive_is_prompt : prompt_drive 0x1F0 drive_device drive_idle.
Proof.
  split.
  - intros h t s Hi Hs. by rewrite (status_of 0 _ _ _ _ (after_command h t s 0x30 Hi Hs)).
  - intros h t s ws Hi Hs Hr Hlen. rewrite (status_of 0 _ _ _ _ (drive_writing h t s ws Hi Hs Hr)).
    cbn [drive_status dr_busy dr_mode]. rewrite decide_False by lia. by rewrite decide_False by lia.
Qed.

(** Right after its command, a read would find no data. *)
Lemma no_data_while_busy h t s : drive_idle h -> 0 <= s < 2 ^ 28 ->
  drive_device (h ++ command_trace 0x1F0 t s 0x20) 0x1F0 = 0.
Proof.
  intros Hi Hs. pose proof (after_command h t s 0x20 Hi Hs) as (Hn & Hm & _). unfold drive_device.
  rewrite decide_True by done. unfold drive_data. by rewrite Hn.
Qed.

(** ** A write, read back *)

Definition disk_memory : mem := put (put ∅ 16 [65; 66; 67]) 32 [1; 2; 3; 4].

Definition disk_state : kstate (world history) := mk_kstate (disk_memory, []) 1 (fun _ => SPINLOCK_INIT_VALUE).

Definition disk_ops : list disk_op := [WriteOp SLAVE 70000 16 3; ReadOp SLAVE 70000 32 4; ReadOp MASTER 0x10000000 32 4].

Lemma disk_memory_bytes : mem_bytes disk_memory.
Proof.
  apply put_bytes; [apply put_bytes|]; [intros p b H; by rewrite lookup_empty in H| |];
    unfold is_byte; repeat (apply Forall_cons; split; [lia|]); constructor.
Qed.

Theorem ata_refines_blocks_witness :
  (core disk_state = (disk_memory, []) /\ unlocked (fun _ => 0) disk_state /\
   holds drive_idle drive_content [] (fun _ => replicate 512 0) /\ mem_bytes disk_memory /\
   Forall (op_ok disk_memory) disk_ops) /\
  exists t' h', run_ops drive_device 3 (mk_cpu 0 1) 0x1F0 (fun _ => 0) disk_ops disk_state =
      Ret ([OS_NO_ERR; OS_NO_ERR; OS_ERR_ATA_BAD_SECTOR_NUMBER], t') /\
    core t' = (put disk_memory 32 [65; 66; 67; 0], h').
Proof.
  assert (unlocked (fun _ => 0) disk_state) as Hu by (split; [right; reflexivity|split; reflexivity]).
  assert (holds drive_idle drive_content [] (fun _ => replicate 512 0)) as Hh by (split; [split; [reflexivity|exact I]|reflexivity]).
  assert (Forall (op_ok disk_memory) disk_ops) as Ho.
  { repeat (apply Forall_cons; split; [split; [lia|split; [lia|]]|]); [..|constructor];
      intros i Hi; repeat (destruct i as [|i]; [eexists; vm_compute; reflexivity|]); exfalso; simpl in Hi; lia. }
  split; [split; [reflexivity|split; [exact Hu|split; [exact Hh|split; [exact disk_memory_bytes|exact Ho]]]]|].
  destruct (ata_refines_blocks drive_device 3 (mk_cpu 0 1) 0x1F0 (fun _ => 0) drive_idle drive_content drive_is_drive
    drive_is_prompt disk_ops disk_state disk_memory [] _ eq_refl Hu Hh disk_memory_bytes Ho) as (t' & h' & Hr & _ & Hc & _).
  exists t', h'. split; [rewrite Hr; reflexivity|]. rewrite Hc. reflexivity.
Defined.
