(* ===== verification/Keyboard.v ===== *)
(** * The keyboard ([arch/x86/keyboard.c])

    The key map, the handler of the key codes, which edits the buffer of a
    reader and shows the characters on the console, and the functions of the
    readers.  The accesses to the ports of the keyboard are in the history of
    the interrupt controller. *)
From Stdlib Require Import String.
From S2P Require Import Prelude Critical Interrupts ByteMem Ports Console.

Definition KEYBOARD_COMM_PORT : Z := 0x64.
Definition KEYBOARD_DATA_PORT : Z := 0x60.
Definition KBD_IRQ_LINE : Z := 1.
Definition KEY_BACKSPACE : Z := 8.
Definition KEY_TAB : Z := 9.
Definition KEY_RETURN : Z := 10.
Definition KEY_LSHIFT : Z := 0x0400.
Definition KEY_RSHIFT : Z := 0x0500.
Definition KBD_LSHIFT : Z := 0x1.
Definition KBD_RSHIFT : Z := 0x2.
Definition KEY_PGUP : Z := 0x80.
Definition KEY_PGDOWN : Z := 0x81.

(** The two maps have 128 entries; those the initialiser does not name are
    null. *)
Definition key_map (named : list Z) : list Z := named ++ replicate (128 - length named) 0.

Definition regular : list Z := key_map
  [0; 0; 49; 50; 51; 52; 53; 54; 55; 56; 57; 48; 45; 61; KEY_BACKSPACE; KEY_TAB; 113; 119; 101; 114; 116; 121; 117;
   105; 111; 112; 0; 0; KEY_RETURN; 0; 97; 115; 100; 102; 103; 104; 106; 107; 108; 59; 0; 0; KEY_LSHIFT; 60; 122; 120;
   99; 118; 98; 110; 109; 44; 46; 32; KEY_RSHIFT; 0; 0; 32; 32; 0; 0; 0; 0; 0; 0; 0; 0; 0; 0; 0; 0; 0; 0; KEY_PGUP;
   0; 0; 0; 0; 0; 0; 0; KEY_PGDOWN; 0].

Definition shifted : list Z := key_map
  [0; 0; 33; 34; 47; 36; 37; 63; 38; 42; 40; 41; 95; 43; KEY_BACKSPACE; KEY_TAB; 81; 87; 69; 82; 84; 89; 85; 73; 79;
   80; 0; 0; KEY_RETURN; 0; 65; 83; 68; 70; 71; 72; 74; 75; 76; 58; 0; 0; KEY_LSHIFT; 62; 90; 88; 67; 86; 66; 78; 77;
   39; 46; 32; KEY_RSHIFT; 0; 0; 32; 32; 0; 0; 0; 0; 0; 0; 0; 0; 0; 0; 0; 0; 0; 0; KEY_PGUP; 0; 0; 0; 0; 0; 0; 0;
   KEY_PGDOWN; 0].

(** Two's complement reading of a byte. *)
Definition i8 (z : Z) : Z := (z + 2 ^ 7) mod 2 ^ 8 - 2 ^ 7.

(** ** The variables of the file *)

Record kbd_buffer_t : Type := mk_kbd_buffer {
  buf_type : Z;   (* 0: not initialised, 1: read, 2: getchar *)
  char_buf : Z;
  read_size : Z;
  read_count : Z  (* read *)
}.

(** With the console and the interrupt manager that the driver calls. *)
Record keyboard : Type := mk_keyboard {
  secure_input : Z;
  display_keyboard : Z;
  keyboard_flags : Z;
  kbd_buf : kbd_buffer_t;
  kbd_console : console;
  kbd_manager : int_state history
}.

Definition set_secure (v : Z) (s : keyboard) : keyboard :=
  mk_keyboard v (display_keyboard s) (keyboard_flags s) (kbd_buf s) (kbd_console s) (kbd_manager s).
Definition set_display (v : Z) (s : keyboard) : keyboard :=
  mk_keyboard (secure_input s) v (keyboard_flags s) (kbd_buf s) (kbd_console s) (kbd_manager s).
Definition set_flags (v : Z) (s : keyboard) : keyboard :=
  mk_keyboard (secure_input s) (display_keyboard s) v (kbd_buf s) (kbd_console s) (kbd_manager s).
Definition set_buf (v : kbd_buffer_t) (s : keyboard) : keyboard :=
  mk_keyboard (secure_input s) (display_keyboard s) (keyboard_flags s) v (kbd_console s) (kbd_manager s).
Definition set_console (v : console) (s : keyboard) : keyboard :=
  mk_keyboard (secure_input s) (display_keyboard s) (keyboard_flags s) (kbd_buf s) v (kbd_manager s).
Definition set_kbd_manager (v : int_state history) (s : keyboard) : keyboard :=
  mk_keyboard (secure_input s) (display_keyboard s) (keyboard_flags s) (kbd_buf s) (kbd_console s) v.

Definition set_type (v : Z) (b : kbd_buffer_t) : kbd_buffer_t := mk_kbd_buffer v (char_buf b) (read_size b) (read_count b).
Definition set_read (v : Z) (b : kbd_buffer_t) : kbd_buffer_t := mk_kbd_buffer (buf_type b) (char_buf b) (read_size b) v.

Definition upd_buf (f : kbd_buffer_t -> kbd_buffer_t) : M (world keyboard) unit :=
  in_dev (modify (fun s => set_buf (f (kbd_buf s)) s)).

Definition on_console {A} (m : M (world console) A) : M (world keyboard) A :=
  zoom (fun w => (fst w, kbd_console (snd w))) (fun r w => (fst r, set_console (snd r) (snd w))) m.

Definition on_manager {A} (m : M (int_state history) A) : M (world keyboard) A :=
  in_dev (zoom kbd_manager set_kbd_manager m).

Section Keyboard.
Context (device : history -> Z -> Z) (e : cpu_env).
(** The address of a string literal, that of the local [character], and that
    of the interrupt handler. *)
Context (literal : string -> Z) (character_addr handler_addr : Z).

(** ** Key codes *)

(** [kbd_buf.char_buf[kbd_buf.read++] = character], when there is room. *)
Definition push_char (character : Z) : M (world keyboard) unit :=
  let* s := in_dev (gets (fun s => s)) in
  let b := kbd_buf s in
  if decide (read_count b < read_size b) then
    upd_buf (set_read (u32 (read_count b + 1))) >>> in_mem (store (char_buf b + read_count b) character)
  else ret tt.

(** The buffer of the reader; a character is a byte. *)
Definition edit (character : Z) : M (world keyboard) unit :=
  let* s := in_dev (gets (fun s => s)) in
  if decide (buf_type (kbd_buf s) = 1) then
    if decide (character = KEY_RETURN) then push_char character >>> upd_buf (set_type 0)
    else if decide (character = KEY_BACKSPACE) then
      (if decide (read_count (kbd_buf s) > 0) then upd_buf (set_read (u32 (read_count (kbd_buf s) - 1))) else ret tt) >>>
      let* s := in_dev (gets (fun s => s)) in
      in_mem (store (char_buf (kbd_buf s) + read_count (kbd_buf s)) 0)
    else push_char character
  else if decide (buf_type (kbd_buf s) = 2) then push_char character >>> upd_buf (set_type 0)
  else ret tt.

(** The character shown on the console. *)
Definition display (character : Z) : M (world keyboard) unit :=
  let* s := in_dev (gets (fun s => s)) in
  if decide (display_keyboard s <> 0) then
    if decide (secure_input s <> 0 /\ character <> KEY_RETURN /\ character <> KEY_BACKSPACE) then
      on_console (graphic_console_write_keyboard (literal "*") 1)
    else on_console (graphic_console_write_keyboard character_addr 1)
  else ret tt.

(** An element of a map; past its end it is undefined. *)
Definition key_of (map : list Z) (keycode : Z) : M (world keyboard) Z :=
  match map !! Z.to_nat keycode with Some k => ret k | None => fault end.

Definition manage_keycode (keycode : Z) : M (world keyboard) unit :=
  if decide (keycode > 0) then
    let* reg := key_of regular keycode in
    let* shi := key_of shifted keycode in
    if decide (reg = KEY_LSHIFT) then in_dev (modify (fun s => set_flags (Z.lor (keyboard_flags s) KBD_LSHIFT) s))
    else if decide (reg = KEY_RSHIFT) then in_dev (modify (fun s => set_flags (Z.lor (keyboard_flags s) KBD_RSHIFT) s))
    else if decide (reg <> 0 \/ shi <> 0) then
      let* s := in_dev (gets (fun s => s)) in
      let shift := i8 (Z.lor (Z.land (keyboard_flags s) KBD_LSHIFT) (Z.land (keyboard_flags s) KBD_RSHIFT)) in
      let character := u8 (if decide (shift > 0) then shi else reg) in
      in_mem (store character_addr character) >>>
      edit character >>>
      display character
    else ret tt
  else
    let new_keycode := 128 + keycode in
    let* reg := key_of regular new_keycode in
    if decide (reg = KEY_LSHIFT) then
      in_dev (modify (fun s => set_flags (Z.land (keyboard_flags s) (u32 (Z.lnot KBD_LSHIFT))) s))
    else if decide (reg = KEY_RSHIFT) then
      in_dev (modify (fun s => set_flags (Z.land (keyboard_flags s) (u32 (Z.lnot KBD_RSHIFT))) s))
    else ret tt.

(** ** The interrupt handler *)

Definition ports {A} (m : M history A) : M (world keyboard) A := on_manager (zoom controller with_controller m).

Definition keyboard_interrupt_handler : M (world keyboard) unit :=
  let* status := ports (cpu_inb device KEYBOARD_COMM_PORT) in
  (if decide (Z.land status 0x100001 = 1) then
     let* data := ports (cpu_inb device KEYBOARD_DATA_PORT) in manage_keycode (i8 data)
   else ret tt) >>>
  on_manager (kernel_interrupt_set_irq_eoi KBD_IRQ_LINE) >>>
  ret tt.

Definition keyboard_init : M (kstate (world keyboard)) OS_RETURN_E :=
  lift (in_dev (modify (set_flags 0))) >>>
  lift (in_dev (modify (set_display 1))) >>>
  lift (upd_buf (fun _ => mk_kbd_buffer 0 NULL 0 0)) >>>
  let* err := kzoom (fun w => kbd_manager (snd w)) (fun v w => (fst w, set_kbd_manager v (snd w)))
    (kernel_interrupt_register_irq_handler e KBD_IRQ_LINE handler_addr) in
  if decide (err <> OS_NO_ERR) then ret err
  else lift (on_manager (kernel_interrupt_set_irq_mask KBD_IRQ_LINE 1)).

(** ** Readers *)

Definition keyboard_read (buffer size : Z) : M (world keyboard) Z :=
  if decide (buffer = NULL \/ size = 0) then ret 0
  else
    upd_buf (fun _ => mk_kbd_buffer 1 buffer size 0) >>>
    let* read := in_dev (gets (fun s => read_count (kbd_buf s))) in
    upd_buf (fun _ => mk_kbd_buffer 0 NULL 0 0) >>>
    ret read.

Definition keyboard_secure_read (buffer size : Z) : M (world keyboard) Z :=
  let* new_size := keyboard_read buffer size in
  in_mem (store (buffer + (if decide (new_size < u32 (size - 1)) then new_size else u32 (size - 1))) 0) >>>
  ret new_size.

Definition keyboard_getch (character : Z) : M (world keyboard) unit :=
  if decide (character = NULL) then ret tt
  else
    upd_buf (fun _ => mk_kbd_buffer 2 character 1 0) >>>
    upd_buf (fun _ => mk_kbd_buffer 0 NULL 0 0).

Definition keyboard_enable_secure (s : keyboard) : keyboard := set_secure 1 s.
Definition keyboard_disable_secure (s : keyboard) : keyboard := set_secure 0 s.
Definition keyboard_enable_display (s : keyboard) : keyboard := set_display 1 s.
Definition keyboard_disable_display (s : keyboard) : keyboard := set_display 0 s.
End Keyboard.
