(* ===== verification/KeyboardTheorems.v ===== *)
(** * The keyboard: properties

    The keys typed while a buffer is open edit it as a line, and their
    characters go to the console. *)
From Stdlib Require Import String.
From S2P Require Import Prelude Critical Interrupts ByteMem Ports Serial KernelOutput.
From S2P Require Import KernelOutputTheorems SerialTheorems Vga Console Keyboard.

(** ** The line editor *)

Record editor : Type := mk_editor {
  ed_left : bool;       (* the shift keys held *)
  ed_right : bool;
  ed_text : list Z;
  ed_open : bool
}.

Section Editor.
Context (cap : nat).

(** A character typed. *)
Definition ed_type (c : Z) (ed : editor) : editor :=
  if ed_open ed then
    let longer := if decide (length (ed_text ed) < cap)%nat then ed_text ed ++ [c] else ed_text ed in
    if decide (c = 10) then mk_editor (ed_left ed) (ed_right ed) longer false
    else if decide (c = 8) then mk_editor (ed_left ed) (ed_right ed) (removelast (ed_text ed)) true
    else mk_editor (ed_left ed) (ed_right ed) longer true
  else ed.

Definition key_at (map : list Z) (k : Z) : Z := map !!! Z.to_nat k.

(** A key pressed (a positive code) or released, and the character it types. *)
Definition ed_key (k : Z) (ed : editor) : editor * list Z :=
  if decide (0 < k) then
    if decide (key_at regular k = KEY_LSHIFT) then (mk_editor true (ed_right ed) (ed_text ed) (ed_open ed), [])
    else if decide (key_at regular k = KEY_RSHIFT) then (mk_editor (ed_left ed) true (ed_text ed) (ed_open ed), [])
    else if decide (key_at regular k = 0 /\ key_at shifted k = 0) then (ed, [])
    else
      let c := u8 (key_at (if ed_left ed || ed_right ed then shifted else regular) k) in (ed_type c ed, [c])
  else
    if decide (key_at regular (128 + k) = KEY_LSHIFT) then (mk_editor false (ed_right ed) (ed_text ed) (ed_open ed), [])
    else if decide (key_at regular (128 + k) = KEY_RSHIFT) then
      (mk_editor (ed_left ed) false (ed_text ed) (ed_open ed), [])
    else (ed, []).

Fixpoint ed_keys (ks : list Z) (ed : editor) : editor * list Z :=
  match ks with
  | [] => (ed, [])
  | k :: ks =>
      let '(ed1, c) := ed_key k ed in
      let '(ed2, cs) := ed_keys ks ed1 in (ed2, c ++ cs)
  end.
End Editor.

(** What a typed character sends to the line of the console. *)
Definition echo (secure display c : Z) : list Z :=
  if decide (display = 0) then []
  else if decide (secure <> 0 /\ c <> 10 /\ c <> 8) then line_char 42 else line_char c.

Definition echoes (secure display : Z) (cs : list Z) : list Z := flat_map (echo secure display) cs.

Lemma echoes_app a b l k : echoes a b (l ++ k) = echoes a b l ++ echoes a b k.
Proof. apply flat_map_app. Qed.

(** ** The driver *)

Definition kbd_line (s : keyboard) : serial := vga_serial (screen (kbd_console s)).

Section Keyboard.
Context (serial_device : history -> Z -> Z) (polls : nat).
Hypothesis (Hdev : line_answers serial_device polls COM1).
Context (literal : string -> Z) (character_addr buffer : Z) (cap : nat).

(** The memory: the buffer, the local variable and the literal are apart. *)
Definition buffer_free (a : Z) : Prop := ~ (buffer <= a < buffer + Z.of_nat cap).

Record memory_ok (m : mem) : Prop := {
  mo_buffer : mapped m buffer cap;
  mo_local : is_Some (m !! character_addr) /\ buffer_free character_addr;
  mo_star : m !! literal "*"%string = Some 42 /\ buffer_free (literal "*"%string) /\ literal "*"%string <> character_addr
}.

(** The console is the serial line. *)
Definition console_ok (s : keyboard) : Prop :=
  graphic_driver (kbd_console s) = serial_text_driver serial_device polls /\ serial_init_done (kbd_line s) <> 0.

Record shows (ed : editor) (m : mem) (s : keyboard) : Prop := {
  sh_flags : keyboard_flags s = Z.lor (if ed_left ed then KBD_LSHIFT else 0) (if ed_right ed then KBD_RSHIFT else 0);
  sh_buf : kbd_buf s = mk_kbd_buffer (if ed_open ed then 1 else 0) buffer (Z.of_nat cap) (Z.of_nat (length (ed_text ed)));
  sh_room : (length (ed_text ed) <= cap)%nat;
  sh_text : bytes_at m buffer (ed_text ed);
  sh_mem : memory_ok m;
  sh_console : console_ok s
}.

Hypothesis (Hcap : 0 < Z.of_nat cap < 2 ^ 32).

(** What an operation keeps: the modes of the display, and the memory at the
    addresses [P]. *)
Definition keeps (P : Z -> Prop) (m m' : mem) (s s' : keyboard) : Prop :=
  secure_input s' = secure_input s /\ display_keyboard s' = display_keyboard s /\ forall a, P a -> m' !! a = m !! a.

Lemma keeps_refl P m s : keeps P m m s s.
Proof. by split_and!. Qed.

Lemma keeps_trans P m1 m2 m3 s1 s2 s3 : keeps P m1 m2 s1 s2 -> keeps P m2 m3 s2 s3 -> keeps P m1 m3 s1 s3.
Proof. intros (A1 & A2 & A3) (B1 & B2 & B3). split_and!; [congruence..|]. intros a Ha. by rewrite B3, A3. Qed.

(** The addresses that typing leaves as they are. *)
Definition outside (a : Z) : Prop := buffer_free a /\ a <> character_addr.

Lemma keeps_outside m m' s s' : keeps buffer_free m m' s s' -> keeps outside m m' s s'.
Proof. intros (A1 & A2 & A3). split_and!; [done..|]. intros a [Ha _]. by apply A3. Qed.

(** *** The memory *)

Lemma memory_insert m a b : memory_ok m -> (a = character_addr \/ ~ buffer_free a) -> memory_ok (<[a := b]> m).
Proof.
  intros [M1 [M2 M3] (M4 & M5 & M6)] Ha. split.
  - intros i Hi. destruct (decide (a = buffer + Z.of_nat i)) as [->|];
      [rewrite lookup_insert_eq; by eexists|rewrite lookup_insert_ne by done; by apply M1].
  - split; [|done]. destruct (decide (a = character_addr)) as [->|];
      [rewrite lookup_insert_eq; by eexists|by rewrite lookup_insert_ne].
  - split; [|done]. rewrite lookup_insert_ne; [done|]. intros ->. by destruct Ha.
Qed.

Lemma in_buffer i : (i < cap)%nat -> ~ buffer_free (buffer + Z.of_nat i).
Proof. unfold buffer_free. lia. Qed.

Lemma store_buffer {A} i c m s (k : unit -> M (world keyboard) A) :
  memory_ok m -> (i < cap)%nat -> 0 <= c < 256 ->
  bind (in_mem (store (buffer + Z.of_nat i) c)) k (m, s) = k tt (<[buffer + Z.of_nat i := c]> m, s).
Proof. intros Hm Hi Hc. apply in_mem_run. apply store_run_last; [by apply (mo_buffer m Hm)|done]. Qed.

Lemma bytes_at_snoc m l c : bytes_at m buffer l -> bytes_at (<[buffer + Z.of_nat (length l) := c]> m) buffer (l ++ [c]).
Proof.
  intros H i x Hx. apply lookup_snoc_Some in Hx as [[Hi Hx]|[-> <-]]; [|by rewrite lookup_insert_eq].
  rewrite lookup_insert_ne by lia. by apply H.
Qed.

(** *** The buffer *)

Lemma upd_buf_run {A} f m s (k : unit -> M (world keyboard) A) :
  bind (upd_buf f) k (m, s) = k tt (m, set_buf (f (kbd_buf s)) s).
Proof. done. Qed.

Lemma keeps_insert i c m s b : (i < cap)%nat -> keeps buffer_free m (<[buffer + Z.of_nat i := c]> m) s (set_buf b s).
Proof.
  intros Hi. split_and!; [done..|]. intros a Ha. rewrite lookup_insert_ne; [done|]. intros <-.
  by apply (in_buffer i).
Qed.

(** The text with one more character, if there is room. *)
Definition longer (text : list Z) (c : Z) : list Z := if decide (length text < cap)%nat then text ++ [c] else text.

Lemma push_char_run l r text c m s : shows (mk_editor l r text true) m s -> 0 <= c < 256 ->
  exists m' s', push_char c (m, s) = Ret (tt, (m', s')) /\ shows (mk_editor l r (longer text c) true) m' s' /\
    keeps buffer_free m m' s s' /\ kbd_console s' = kbd_console s.
Proof.
  intros [F B R T Mem C] Hc. cbn in F, B, R, T. unfold push_char, longer. rewrite (in_dev_run _ s m s s) by done. rewrite B.
  cbn [read_count read_size char_buf]. destruct (decide (length text < cap)%nat) as [Hlt|Hge].
  - rewrite decide_True by lia. rewrite upd_buf_run, B, u32_small by lia. cbn [set_read buf_type char_buf read_size].
    rewrite <- (bind_ret_l tt (fun _ => in_mem _)).
    eexists _, _. split.
    { unfold in_mem, zoom. cbn [fst bind ret]. rewrite store_run_last; [reflexivity|by apply (mo_buffer m Mem)|done]. }
    split; [|split; [by apply keeps_insert|done]].
    split; cbn; try done.
    + unfold set_read. cbn. rewrite length_app. f_equal. cbn [length]. lia.
    + rewrite length_app. cbn. lia.
    + by apply bytes_at_snoc.
    + apply memory_insert; [done|]. right. by apply in_buffer.
  - rewrite decide_False by lia. exists m, s. split; [done|]. split; [|split; [apply keeps_refl|done]]. by split.
Qed.

Lemma rub_out_run l r text m s : shows (mk_editor l r text true) m s ->
  exists m' s', ((if decide (read_count (kbd_buf s) > 0) then upd_buf (set_read (u32 (read_count (kbd_buf s) - 1))) else ret tt) >>>
      let* s := in_dev (gets (fun s => s)) in
      in_mem (store (char_buf (kbd_buf s) + read_count (kbd_buf s)) 0)) (m, s) = Ret (tt, (m', s')) /\
    shows (mk_editor l r (removelast text) true) m' s' /\ keeps buffer_free m m' s s' /\ kbd_console s' = kbd_console s.
Proof.
  intros [F B R T Mem C]. cbn in F, B, R, T. set (n := length (removelast text)).
  assert (n = (length text - 1)%nat) as Hn.
  { unfold n. rewrite removelast_firstn_len, length_take. lia. }
  set (s1 := set_buf (mk_kbd_buffer 1 buffer (Z.of_nat cap) (Z.of_nat n)) s).
  assert (forall A (k : unit -> M (world keyboard) A), bind
    (if decide (read_count (kbd_buf s) > 0) then upd_buf (set_read (u32 (read_count (kbd_buf s) - 1))) else ret tt) k (m, s) =
    k tt (m, s1)) as H1.
  { intros A k. rewrite B. cbn [read_count]. case_decide.
    - replace (Z.of_nat (length text) - 1) with (Z.of_nat n) by lia. by rewrite upd_buf_run, B, u32_small by lia.
    - rewrite bind_ret_l. unfold s1. replace n with (length text) by lia. rewrite <- B. by destruct s. }
  rewrite H1. rewrite (in_dev_run _ s1 m s1 s1) by done. unfold s1. cbn [kbd_buf set_buf char_buf read_count].
  eexists _, _. split.
  { unfold in_mem, zoom. cbn [fst]. rewrite store_run_last; [reflexivity|apply (mo_buffer m Mem); lia|lia]. }
  split; [|split; [apply keeps_insert; lia|done]].
  split; cbn; try done; try lia.
  - intros i x Hx. pose proof (lookup_lt_Some _ _ _ Hx) as Hlt. fold n in Hlt. rewrite lookup_insert_ne by lia.
    apply T. rewrite removelast_firstn_len in Hx. by apply lookup_take_Some in Hx as [? _].
  - apply memory_insert; [done|]. right. apply in_buffer. lia.
Qed.

Lemma edit_run c ed m s : shows ed m s -> 0 <= c < 256 ->
  exists m' s', edit c (m, s) = Ret (tt, (m', s')) /\ shows (ed_type cap c ed) m' s' /\ keeps buffer_free m m' s s' /\
    kbd_console s' = kbd_console s.
Proof.
  intros H Hc. destruct ed as [l r text op]. pose proof (sh_buf _ _ _ H) as B. cbn in B.
  unfold edit, ed_type. cbn [ed_open ed_left ed_right ed_text]. fold (longer text c).
  rewrite (in_dev_run _ s m s s) by done. unfold KEY_RETURN, KEY_BACKSPACE. destruct op.
  - rewrite decide_True by (by rewrite B).
    destruct (decide (c = 10)); [|destruct (decide (c = 8)); [by apply rub_out_run|by apply push_char_run]].
    destruct (push_char_run l r text c m s H Hc) as (m1 & s1 & H1 & S1 & K1 & C1). rewrite (bind_ret _ _ _ _ _ H1).
    exists m1, (set_buf (set_type 0 (kbd_buf s1)) s1). split; [done|]. split; [|by split].
    destruct S1 as [S2 S3 S4 S5 S6 S7]. split; try done. cbn. rewrite S3. done.
  - rewrite decide_False, decide_False by (by rewrite B). exists m, s.
    split; [done|]. split; [done|]. split; [apply keeps_refl|done].
Qed.

(** *** The console *)

Lemma console_write_run p b m s : m !! p = Some b -> 0 <= b < 256 -> console_ok s ->
  exists s', on_console (graphic_console_write_keyboard p 1) (m, s) = Ret (tt, (m, s')) /\ console_ok s' /\
    wrote COM1 (kbd_line s) (line_char b) (kbd_line s') /\ exists c, s' = set_console c s.
Proof.
  intros Hp Hb [Hd Hi].
  destruct (serial_write_run serial_device polls COM1 ltac:(by left) Hdev b (kbd_line s) Hi Hb) as (sr & Hw & Hs).
  assert (serial_console_write_keyboard serial_device polls p 1 (m, kbd_line s) = Ret (tt, (m, sr))) as Hr.
  { unfold serial_console_write_keyboard. change (Z.to_nat 1) with 1%nat. cbn [write_keyboard_loop].
    rewrite Z.add_0_r, (load_in_mem _ _ _ _ _ Hp). by rewrite (in_dev_run _ _ _ _ _ _ Hw). }
  set (c := set_screen (set_serial sr (screen (kbd_console s))) (kbd_console s)).
  assert (graphic_console_write_keyboard p 1 (m, kbd_console s) = Ret (tt, (m, c))) as Hg.
  { unfold graphic_console_write_keyboard, driver_call. erewrite in_dev_run by reflexivity. rewrite Hd.
    cbn [console_write_keyboard serial_text_driver]. unfold on_screen, on_line, zoom. cbn [fst snd].
    fold (kbd_line s). by rewrite Hr. }
  exists (set_console c s). split; [unfold on_console, zoom; cbn [fst snd]; by rewrite Hg|].
  assert (kbd_line (set_console c s) = sr) as Hl by (unfold kbd_line, c; by destruct (screen (kbd_console s))).
  split; [split; [done|rewrite Hl; by rewrite (proj1 Hs)]|]. split; [by rewrite Hl|]. by exists c.
Qed.

Lemma display_run c ed m s : shows ed m s -> 0 <= c < 256 -> m !! character_addr = Some c ->
  exists s', display literal character_addr c (m, s) = Ret (tt, (m, s')) /\ shows ed m s' /\ keeps outside m m s s' /\
    wrote COM1 (kbd_line s) (echo (secure_input s) (display_keyboard s) c) (kbd_line s').
Proof.
  intros H Hc Hm. unfold display, echo. rewrite (in_dev_run _ s m s s) by done. unfold KEY_RETURN, KEY_BACKSPACE.
  destruct (decide (display_keyboard s = 0)) as [Hd|Hd].
  { rewrite decide_False by tauto. exists s. split; [done|]. split; [done|]. split; [apply keeps_refl|].
    split; [done|by rewrite app_nil_r]. }
  rewrite decide_True by done. destruct H as [F B R T Mem C].
  pose proof (proj1 (mo_star m Mem)) as Hstar.
  case_decide.
  - destruct (console_write_run _ 42 m s Hstar ltac:(lia) C) as (s' & H1 & H2 & H3 & k & ->).
    eexists. split; [exact H1|]. split; [by split|]. split; [by split_and!|done].
  - destruct (console_write_run _ c m s Hm Hc C) as (s' & H1 & H2 & H3 & k & ->).
    eexists. split; [exact H1|]. split; [by split|]. split; [by split_and!|done].
Qed.

(** *** A key *)

Lemma key_of_run map k m s : (Z.to_nat k < length map)%nat -> key_of map k (m, s) = Ret (key_at map k, (m, s)).
Proof.
  intros H. unfold key_of, key_at. apply lookup_lt_is_Some in H as [x Hx].
  by rewrite Hx, (list_lookup_total_correct _ _ _ Hx).
Qed.

Lemma map_length : length regular = 128%nat /\ length shifted = 128%nat.
Proof. by split. Qed.

(** The flags when a shift key is pressed or released. *)
Lemma flags_run ed m s (l r : bool) f : shows ed m s ->
  f (Z.lor (if ed_left ed then KBD_LSHIFT else 0) (if ed_right ed then KBD_RSHIFT else 0)) =
    Z.lor (if l then KBD_LSHIFT else 0) (if r then KBD_RSHIFT else 0) ->
  exists m' s', in_dev (modify (fun s => set_flags (f (keyboard_flags s)) s)) (m, s) = Ret (tt, (m', s')) /\
    shows (mk_editor l r (ed_text ed) (ed_open ed)) m' s' /\ keeps outside m m' s s' /\ wrote COM1 (kbd_line s) [] (kbd_line s').
Proof.
  intros [F B R T Mem C] Hf. exists m, (set_flags (f (keyboard_flags s)) s). split; [done|]. rewrite <- F in Hf.
  split; [by split|]. split; [by split_and!|]. split; [done|by rewrite app_nil_r].
Qed.

Lemma shift_held (l r : bool) : let f := Z.lor (if l then KBD_LSHIFT else 0) (if r then KBD_RSHIFT else 0) in
  i8 (Z.lor (Z.land f KBD_LSHIFT) (Z.land f KBD_RSHIFT)) > 0 <-> l || r = true.
Proof. destruct l, r; vm_compute; split; done. Qed.

Lemma idle_run ed m s : shows ed m s -> exists m' s', ret tt (m, s) = Ret (tt, (m', s')) /\ shows ed m' s' /\
  keeps outside m m' s s' /\ wrote COM1 (kbd_line s) [] (kbd_line s').
Proof. intros H. exists m, s. split; [done|]. split; [done|]. split; [apply keeps_refl|split; [done|by rewrite app_nil_r]]. Qed.

(** A key that types the character [c]. *)
Lemma type_run c ed m s : shows ed m s -> 0 <= c < 256 ->
  exists m' s', (in_mem (store character_addr c) >>> edit c >>> display literal character_addr c) (m, s) = Ret (tt, (m', s')) /\
    shows (ed_type cap c ed) m' s' /\ keeps outside m m' s s' /\
    wrote COM1 (kbd_line s) (echo (secure_input s) (display_keyboard s) c) (kbd_line s').
Proof.
  intros H Hc. pose proof (sh_mem _ _ _ H) as Mem. destruct (mo_local m Mem) as [Hx Hfree].
  rewrite (in_mem_run _ tt m _ s) by (by apply store_run_last). set (m1 := <[character_addr := c]> m).
  assert (shows ed m1 s) as H1.
  { destruct H as [F B R T _ C]. split; try done; [|apply memory_insert; [done|by left]].
    intros i x Hi. unfold m1. rewrite lookup_insert_ne; [by apply T|]. intros ->. apply Hfree.
    apply lookup_lt_Some in Hi. lia. }
  destruct (edit_run c ed m1 s H1 Hc) as (m2 & s2 & H2 & S2 & K2 & C2). rewrite (bind_ret _ _ _ _ _ H2).
  assert (is_Some (m2 !! character_addr)) as Hx2 by apply (sh_mem _ _ _ S2).
  assert (m2 !! character_addr = Some c) as Hc2
    by (rewrite (proj2 (proj2 K2)) by done; apply lookup_insert_eq).
  destruct (display_run c _ m2 s2 S2 Hc Hc2) as (s3 & H3 & S3 & K3 & W3).
  exists m2, s3. split; [done|]. split; [done|].
  assert (keeps outside m m1 s s) as K1.
  { split_and!; [done..|]. intros a [_ Ha]. unfold m1. by rewrite lookup_insert_ne. }
  split; [eapply keeps_trans; [exact K1|]; eapply keeps_trans; [by apply keeps_outside|done]|].
  destruct K2 as (E1 & E2 & _). rewrite E1, E2 in W3.
  assert (kbd_line s2 = kbd_line s) as <- by (unfold kbd_line; by rewrite C2). done.
Qed.

Lemma manage_keycode_run k ed m s : shows ed m s -> -128 <= k <= 127 -> k <> 0 ->
  exists m' s', manage_keycode literal character_addr k (m, s) = Ret (tt, (m', s')) /\
    shows (ed_key cap k ed).1 m' s' /\ keeps outside m m' s s' /\
    wrote COM1 (kbd_line s) (echoes (secure_input s) (display_keyboard s) (ed_key cap k ed).2) (kbd_line s').
Proof.
  intros H Hk H0. destruct map_length as [Lr Ls]. unfold manage_keycode, ed_key. destruct (decide (0 < k)) as [Hpos|Hneg].
  - rewrite decide_True by lia. rewrite (bind_ret _ _ _ _ _ (key_of_run regular k m s ltac:(lia))).
    rewrite (bind_ret _ _ _ _ _ (key_of_run shifted k m s ltac:(lia))).
    destruct (decide (key_at regular k = KEY_LSHIFT)).
    { apply (flags_run ed m s true (ed_right ed) (fun f => Z.lor f KBD_LSHIFT)); [done|].
      by destruct (ed_left ed), (ed_right ed). }
    destruct (decide (key_at regular k = KEY_RSHIFT)).
    { apply (flags_run ed m s (ed_left ed) true (fun f => Z.lor f KBD_RSHIFT)); [done|].
      by destruct (ed_left ed), (ed_right ed). }
    destruct (decide (key_at regular k = 0 /\ key_at shifted k = 0)).
    { rewrite decide_False by lia. by apply idle_run. }
    rewrite decide_True by lia. rewrite (in_dev_run _ s m s s) by done.
    pose proof (shift_held (ed_left ed) (ed_right ed)) as Hs. rewrite <- (sh_flags _ _ _ H) in Hs. cbv zeta in Hs.
    assert ((if decide (i8 (Z.lor (Z.land (keyboard_flags s) KBD_LSHIFT) (Z.land (keyboard_flags s) KBD_RSHIFT)) > 0)
      then key_at shifted k else key_at regular k) = key_at (if ed_left ed || ed_right ed then shifted else regular) k) as ->.
    { destruct (ed_left ed || ed_right ed); case_decide; try done; [by destruct Hs as [_ Hs]; specialize (Hs eq_refl)|].
      by apply Hs in H1. }
    cbn [fst snd echoes flat_map]. rewrite app_nil_r. apply type_run; [done|]. apply Z.mod_pos_bound. lia.
  - rewrite decide_False by lia. rewrite (bind_ret _ _ _ _ _ (key_of_run regular (128 + k) m s ltac:(lia))).
    destruct (decide (key_at regular (128 + k) = KEY_LSHIFT)).
    { apply (flags_run ed m s false (ed_right ed) (fun f => Z.land f (u32 (Z.lnot KBD_LSHIFT)))); [done|].
      by destruct (ed_left ed), (ed_right ed). }
    destruct (decide (key_at regular (128 + k) = KEY_RSHIFT)); [|by apply idle_run].
    apply (flags_run ed m s (ed_left ed) false (fun f => Z.land f (u32 (Z.lnot KBD_RSHIFT)))); [done|].
    by destruct (ed_left ed), (ed_right ed).
Qed.

(** The key codes one after the other. *)
Fixpoint manage_keycodes (ks : list Z) : M (world keyboard) unit :=
  match ks with
  | [] => ret tt
  | k :: ks => manage_keycode literal character_addr k >>> manage_keycodes ks
  end.

(** C27: While a reader's buffer is open, any sequence of key codes edits it as
    a line: characters with the shift keys held, up to the size of the buffer,
    backspaces, until the return key closes it; the memory outside of it is as
    before, and exactly the characters typed, or stars in secure mode, are sent
    to the serial console.  The null code is excluded
    ([null_code_past_the_map]); the characters of the keys are those of the key
    maps of the driver, which the line editor shares. *)
Theorem keyboard_edits_line ks ed m s : shows ed m s -> Forall (fun k => -128 <= k <= 127 /\ k <> 0) ks ->
  exists m' s', manage_keycodes ks (m, s) = Ret (tt, (m', s')) /\ shows (ed_keys cap ks ed).1 m' s' /\
    keeps outside m m' s s' /\
    wrote COM1 (kbd_line s) (echoes (secure_input s) (display_keyboard s) (ed_keys cap ks ed).2) (kbd_line s').
Proof.
  revert ed m s. induction ks as [|k ks IH]; intros ed m s H Hk; cbn [manage_keycodes ed_keys]; [by apply idle_run|].
  apply Forall_cons in Hk as [[Hk H0] Hks].
  destruct (manage_keycode_run k ed m s H Hk H0) as (m1 & s1 & H1 & S1 & K1 & W1). rewrite (bind_ret _ _ _ _ _ H1).
  destruct (ed_key cap k ed) as [ed1 c]. cbn [fst snd] in *.
  destruct (IH ed1 m1 s1 S1 Hks) as (m2 & s2 & H2 & S2 & K2 & W2).
  destruct (ed_keys cap ks ed1) as [ed2 cs]. cbn [fst snd] in *. exists m2, s2.
  split; [done|]. split; [done|]. split; [by eapply keeps_trans|]. rewrite echoes_app.
  destruct K1 as (E1 & E2 & _). rewrite E1, E2 in W2. by eapply wrote_trans.
Qed.
End Keyboard.

(** ** The readers and the codes outside of the map *)

(** Without the semaphores of the disabled lines a read returns at once, with
    nothing. *)
Lemma keyboard_read_empty buffer size m s : exists s', keyboard_read buffer size (m, s) = Ret (0, (m, s')).
Proof. unfold keyboard_read. case_decide; eexists; reflexivity. Qed.

(** A secure read of size 0 writes a byte. *)
Lemma secure_read_writes_past buffer m s : keyboard_secure_read buffer 0 (m, s) = (in_mem (store buffer 0) >>> ret 0) (m, s).
Proof.
  unfold keyboard_secure_read, keyboard_read. rewrite decide_True by (by right).
  rewrite bind_ret_l, decide_True by (by vm_compute). by rewrite Z.add_0_r.
Qed.

(** The null code, which a keyboard sends when it detects an error, is taken
    for a release and reads past the map. *)
Lemma null_code_past_the_map literal a m s : manage_keycode literal a 0 (m, s) = Fault.
Proof. done. Qed.

(** The status register is a byte: the bit of the mask above it is never set,
    so that the data of the mouse are taken for keys. *)
Lemma mouse_bit_not_tested v : 0 <= v < 256 -> Z.land v 0x100001 = Z.land v 1.
Proof.
  intros Hv. change 0x100001 with (Z.lor (Z.shiftl 1 20) 1). rewrite Z.land_lor_distr_r.
  change (Z.shiftl 1 20) with (1 * 2 ^ 20). by rewrite land_above, Z.lor_0_l by lia.
Qed.

(** ** A line *)

(** Shift and a, b, backspace, return. *)
Definition typed_codes : list Z := [42; 30; -86; 48; 14; 28].

Definition typed_memory : mem := put (put (put ∅ 100 [0; 0; 0; 0]) 200 [0]) 300 [42].

Definition typed_keyboard : keyboard :=
  mk_keyboard 0 1 0 (mk_kbd_buffer 1 100 4 0)
    (mk_console (serial_text_driver idle_device 1) true
      (mk_vga (mk_scheme 15 0 1) (mk_cursor 0 0) (mk_cursor 0 0) [] 0 (mk_serial 1 [])))
    (mk_int_state (fun _ => mk_handler 0 NULL) (Interrupts.mk_driver None None None None) 0 []).

Lemma typed_shows : shows idle_device 1 (fun _ => 300) 200 100 4 (mk_editor false false [] true) typed_memory typed_keyboard.
Proof.
  split; cbn [ed_text]; [reflexivity|reflexivity|cbn; lia|apply bytes_at_nil| |split; [reflexivity|done]].
  split; [|split; [eexists; vm_compute; reflexivity|unfold buffer_free; lia]|split; [by vm_compute|split; [unfold buffer_free; lia|done]]].
  intros i Hi. repeat (destruct i as [|i]; [eexists; vm_compute; reflexivity|]). lia.
Qed.

Theorem keyboard_edits_line_witness :
  (shows idle_device 1 (fun _ => 300) 200 100 4 (mk_editor false false [] true) typed_memory typed_keyboard /\
   Forall (fun k => -128 <= k <= 127 /\ k <> 0) typed_codes) /\
  exists m' s', manage_keycodes (fun _ => 300) 200 typed_codes (typed_memory, typed_keyboard) = Ret (tt, (m', s')) /\
    bytes_at m' 100 [65; 10] /\ buf_type (kbd_buf s') = 0 /\ read_count (kbd_buf s') = 2 /\
    written COM1 (serial_ports (kbd_line s')) = [65; 98; 8; 13; 10].
Proof.
  assert (Forall (fun k => -128 <= k <= 127 /\ k <> 0) typed_codes) as Hk
    by (repeat (apply Forall_cons; split; [lia|]); constructor).
  split; [split; [exact typed_shows|exact Hk]|].
  destruct (keyboard_edits_line idle_device 1 (idle_line_answers COM1) (fun _ => 300) 200 100 4 ltac:(lia)
    typed_codes _ _ _ typed_shows Hk) as (m' & s' & Hr & Hs & _ & Hw).
  exists m', s'. split; [exact Hr|]. split; [exact (sh_text _ _ _ _ _ _ _ _ _ Hs)|].
  pose proof (sh_buf _ _ _ _ _ _ _ _ _ Hs) as Hb.
  split; [rewrite Hb; reflexivity|]. split; [rewrite Hb; reflexivity|]. destruct Hw as [_ Hw]. rewrite Hw. reflexivity.
Defined.
