(* ===== verification/Apic.v ===== *)
(** * The advanced interrupt controllers ([arch/x86/io_apic.c], [arch/x86/lapic.c], [io/mmio.h])

    The I/O APIC, which redirects the lines of the devices to interrupts, and
    the local APIC, with its timer and the messages to the other processors,
    on the history of the accesses to their registers in memory.  [polls]
    bounds how long a message stays pending. *)
From S2P Require Import Prelude Critical Frames Interrupts ByteMem Ports Pic Timers Acpi.

(** ** Registers in memory *)

Inductive bus_event : Type :=
  | Write32 (addr value : Z)
  | Read32 (addr value : Z).

#[export] Instance bus_event_eq_dec : EqDecision bus_event.
Proof. solve_decision. Defined.

Definition bus : Type := list bus_event.

Definition mapped_io_write_32 (addr value : Z) : M bus unit := modify (fun h => h ++ [Write32 addr (u32 value)]).

Definition mapped_io_read_32 (device : bus -> Z -> Z) (addr : Z) : M bus Z := fun h =>
  let v := u32 (device h addr) in Ret (v, h ++ [Read32 addr v]).

Definition IOREGSEL : Z := 0x00.
Definition IOWIN : Z := 0x10.
Definition IOAPICVER : Z := 0x01.
Definition IOREDTBL : Z := 0x10.
Definition IO_APIC_MAX_IRQ_LINE : Z := 23.
Definition INT_IOAPIC_IRQ_OFFSET : Z := 0x40.
Definition LAPIC_TIMER_INTERRUPT_LINE : Z := 0x20.
Definition LAPIC_SPURIOUS_INT_LINE : Z := MAX_INTERRUPT_LINE.
Definition LAPIC_ID : Z := 0x20.
Definition LAPIC_TPR : Z := 0x80.
Definition LAPIC_EOI : Z := 0xB0.
Definition LAPIC_LDR : Z := 0xD0.
Definition LAPIC_DFR : Z := 0xE0.
Definition LAPIC_SVR : Z := 0xF0.
Definition LAPIC_ICRLO : Z := 0x300.
Definition LAPIC_ICRHI : Z := 0x310.
Definition LAPIC_TIMER : Z := 0x320.
Definition LAPIC_TICR : Z := 0x380.
Definition LAPIC_TCCR : Z := 0x390.
Definition LAPIC_TDCR : Z := 0x3E0.
Definition ICR_INIT : Z := 0x500.
Definition ICR_STARTUP : Z := 0x600.
Definition ICR_PHYSICAL : Z := 0x0.
Definition ICR_SEND_PENDING : Z := 0x1000.
Definition ICR_ASSERT : Z := 0x4000.
Definition ICR_EDGE : Z := 0x0.
Definition ICR_NO_SHORTHAND : Z := 0x0.
Definition ICR_DESTINATION_SHIFT : Z := 24.
Definition LAPIC_TIMER_MODE_PERIODIC : Z := 0x20000.
Definition LAPIC_DIVIDER_16 : Z := 0x3.
Definition LAPIC_LVT_INT_MASKED : Z := 0x10000.

(** ** The variables of the two files

    With the bus and the ACPI, which the two drivers read. *)
Record apic (P : Type) : Type := mk_apic {
  io_enabled : Z;              (* enabled of io_apic.c *)
  io_apic_base_addr : Z;
  max_redirect_count : Z;
  lapic_base_addr : Z;
  wait_int : Z;
  global_lapic_freq : Z;
  init_lapic_timer_frequency : Z;
  the_bus : bus;
  tables : acpi P
}.
Arguments mk_apic {P}.
Arguments io_enabled {P}.
Arguments io_apic_base_addr {P}.
Arguments max_redirect_count {P}.
Arguments lapic_base_addr {P}.
Arguments wait_int {P}.
Arguments global_lapic_freq {P}.
Arguments init_lapic_timer_frequency {P}.
Arguments the_bus {P}.
Arguments tables {P}.

Section Apic.
Context {P : Type} (kernel_mmap_hw : Z -> Z -> Z -> Z -> M P OS_RETURN_E) (kernel_munmap : Z -> Z -> M P OS_RETURN_E).
Context (device : bus -> Z -> Z) (polls : nat) (e : cpu_env).
Implicit Types s : apic P.

Definition set_io_enabled (v : Z) s : apic P :=
  mk_apic v (io_apic_base_addr s) (max_redirect_count s) (lapic_base_addr s) (wait_int s) (global_lapic_freq s)
    (init_lapic_timer_frequency s) (the_bus s) (tables s).
Definition set_io_apic_base (v : Z) s : apic P :=
  mk_apic (io_enabled s) v (max_redirect_count s) (lapic_base_addr s) (wait_int s) (global_lapic_freq s)
    (init_lapic_timer_frequency s) (the_bus s) (tables s).
Definition set_max_redirect (v : Z) s : apic P :=
  mk_apic (io_enabled s) (io_apic_base_addr s) v (lapic_base_addr s) (wait_int s) (global_lapic_freq s)
    (init_lapic_timer_frequency s) (the_bus s) (tables s).
Definition set_lapic_base (v : Z) s : apic P :=
  mk_apic (io_enabled s) (io_apic_base_addr s) (max_redirect_count s) v (wait_int s) (global_lapic_freq s)
    (init_lapic_timer_frequency s) (the_bus s) (tables s).
Definition set_wait_int (v : Z) s : apic P :=
  mk_apic (io_enabled s) (io_apic_base_addr s) (max_redirect_count s) (lapic_base_addr s) v (global_lapic_freq s)
    (init_lapic_timer_frequency s) (the_bus s) (tables s).
Definition set_lapic_freq (v : Z) s : apic P :=
  mk_apic (io_enabled s) (io_apic_base_addr s) (max_redirect_count s) (lapic_base_addr s) (wait_int s) v
    (init_lapic_timer_frequency s) (the_bus s) (tables s).
Definition set_init_freq (v : Z) s : apic P :=
  mk_apic (io_enabled s) (io_apic_base_addr s) (max_redirect_count s) (lapic_base_addr s) (wait_int s)
    (global_lapic_freq s) v (the_bus s) (tables s).
Definition set_bus (v : bus) s : apic P :=
  mk_apic (io_enabled s) (io_apic_base_addr s) (max_redirect_count s) (lapic_base_addr s) (wait_int s)
    (global_lapic_freq s) (init_lapic_timer_frequency s) v (tables s).
Definition set_tables (v : acpi P) s : apic P :=
  mk_apic (io_enabled s) (io_apic_base_addr s) (max_redirect_count s) (lapic_base_addr s) (wait_int s)
    (global_lapic_freq s) (init_lapic_timer_frequency s) (the_bus s) v.

Definition on_bus {A} (m : M bus A) : M (world (apic P)) A := in_dev (zoom the_bus set_bus m).
Definition on_acpi {A} (m : M (world (acpi P)) A) : M (world (apic P)) A :=
  zoom (fun w => (fst w, tables (snd w))) (fun r w => (fst r, set_tables (snd r) (snd w))) m.
Definition map_hw (a : Z) : M (world (apic P)) OS_RETURN_E := on_acpi (on_paging (kernel_mmap_hw a a 0x1000 0)).

(** The test of the two files for the presence of the controllers. *)
Definition no_apic s : Prop :=
  acpi_get_io_apic_available (tables s) = 0 \/ acpi_get_lapic_available (tables s) = 0.

#[export] Instance no_apic_dec s : Decision (no_apic s).
Proof. unfold no_apic. apply _. Defined.

(** ** The I/O APIC *)

Definition io_apic_write (reg val : Z) : M (world (apic P)) unit :=
  let* s := in_dev (gets (fun s => s)) in
  on_bus (mapped_io_write_32 (io_apic_base_addr s + IOREGSEL) reg) >>>
  on_bus (mapped_io_write_32 (io_apic_base_addr s + IOWIN) val).

Definition io_apic_read (reg : Z) : M (world (apic P)) Z :=
  let* s := in_dev (gets (fun s => s)) in
  on_bus (mapped_io_write_32 (io_apic_base_addr s + IOREGSEL) reg) >>>
  on_bus (mapped_io_read_32 device (io_apic_base_addr s + IOWIN)).

(** [(~enabled & 0x1) << 16]. *)
Definition mask_bit (enabled : Z) : Z := Z.shiftl (Z.land (u32 (Z.lnot enabled)) 0x1) 16.

(** The two registers of a line. *)
Definition redirect (irq_number enabled : Z) : M (world (apic P)) OS_RETURN_E :=
  let entry_lo := Z.lor (u32 (irq_number + INT_IOAPIC_IRQ_OFFSET)) (mask_bit enabled) in
  let* actual_irq := on_acpi (acpi_get_remmaped_irq irq_number) in
  io_apic_write (u32 (IOREDTBL + u32 actual_irq * 2)) entry_lo >>>
  io_apic_write (u32 (IOREDTBL + u32 actual_irq * 2 + 1)) 0 >>>
  ret OS_NO_ERR.

Definition io_apic_set_irq_mask (irq_number enabled : Z) : M (kstate (world (apic P))) OS_RETURN_E :=
  let* s := lift (in_dev (gets (fun s => s))) in
  if decide (irq_number >= max_redirect_count s) then ret OS_ERR_NO_SUCH_IRQ_LINE
  else critical e IoApicLock (lift (redirect irq_number enabled)).

(** The lines from [i] on, [n] of them. *)
Fixpoint mask_lines (n : nat) (i : Z) : M (kstate (world (apic P))) OS_RETURN_E :=
  match n with
  | O => ret OS_NO_ERR
  | S n =>
    let* err := io_apic_set_irq_mask i 0 in
    if decide (err <> OS_NO_ERR) then
      let* s := lift (in_dev (gets (fun s => s))) in
      lift (on_acpi (on_paging (kernel_munmap (io_apic_base_addr s) 0x1000))) >>> ret err
    else mask_lines n (i + 1)
  end.

Definition io_apic_init : M (kstate (world (apic P))) OS_RETURN_E :=
  let* s := lift (in_dev (gets (fun s => s))) in
  if decide (no_apic s) then ret OS_ERR_NOT_SUPPORTED
  else
    let* base := lift (on_acpi (acpi_get_io_apic_address 0)) in
    lift (in_dev (modify (set_io_apic_base base))) >>>
    let* err := lift (map_hw base) in
    if decide (err <> OS_NO_ERR) then ret err
    else
      let* read_count := lift (io_apic_read IOAPICVER) in
      let max := Z.land (Z.shiftr read_count 16) 0xff + 1 in
      lift (in_dev (modify (set_max_redirect max))) >>>
      let* err := mask_lines (Z.to_nat max) 0 in
      if decide (err <> OS_NO_ERR) then ret err
      else lift (in_dev (modify (set_io_enabled 1))) >>> ret OS_NO_ERR.

Definition lapic_read (reg : Z) : M (world (apic P)) Z :=
  let* s := in_dev (gets (fun s => s)) in on_bus (mapped_io_read_32 device (u32 (lapic_base_addr s + reg))).
Definition lapic_write (reg data : Z) : M (world (apic P)) unit :=
  let* s := in_dev (gets (fun s => s)) in on_bus (mapped_io_write_32 (u32 (lapic_base_addr s + reg)) data).

Definition lapic_set_int_eoi (interrupt_line : Z) : M (world (apic P)) OS_RETURN_E :=
  if decide (interrupt_line > MAX_INTERRUPT_LINE) then ret OS_ERR_NO_SUCH_IRQ_LINE
  else lapic_write LAPIC_EOI 0 >>> ret OS_NO_ERR.

Definition io_apic_set_irq_eoi (irq_number : Z) : M (world (apic P)) OS_RETURN_E := lapic_set_int_eoi irq_number.

Definition io_apic_handle_spurious_irq (int_number : Z) : M (world (apic P)) INTERRUPT_TYPE_E :=
  let irq_id := i32 (int_number - INT_PIC_IRQ_OFFSET) in
  if decide (irq_id >= 0 /\ irq_id <= PIC_MAX_IRQ_LINE) then
    let* int_type :=
      if decide (int_number >= INT_PIC_IRQ_OFFSET /\ int_number >= INT_PIC_IRQ_OFFSET + 0x0F)
      then lapic_set_int_eoi int_number >>> ret INTERRUPT_TYPE_SPURIOUS else ret INTERRUPT_TYPE_REGULAR in
    if decide (int_number = LAPIC_SPURIOUS_INT_LINE)
    then lapic_set_int_eoi int_number >>> ret INTERRUPT_TYPE_SPURIOUS else ret int_type
  else ret INTERRUPT_TYPE_REGULAR.

Definition io_apic_get_irq_int_line (irq_number : Z) : Z :=
  if decide (irq_number > IO_APIC_MAX_IRQ_LINE) then -1 else irq_number + INT_IOAPIC_IRQ_OFFSET.

Definition io_apic_capable s : Z := if decide (no_apic s) then 0 else 1.

(** ** The local APIC *)

Definition lapic_init : M (world (apic P)) OS_RETURN_E :=
  let* s := in_dev (gets (fun s => s)) in
  if decide (no_apic s) then ret OS_ERR_NOT_SUPPORTED
  else
    let* base := on_acpi acpi_get_lapic_addr in
    in_dev (modify (set_lapic_base base)) >>>
    let* err := map_hw base in
    if decide (err <> OS_NO_ERR /\ err <> OS_ERR_MAPPING_ALREADY_EXISTS) then ret err
    else
      lapic_write LAPIC_TPR 0 >>>
      lapic_write LAPIC_DFR 0xffffffff >>>
      lapic_write LAPIC_LDR 0x01000000 >>>
      lapic_write LAPIC_SVR (Z.lor 0x100 LAPIC_SPURIOUS_INT_LINE) >>>
      ret OS_NO_ERR.

Definition lapic_get_id : M (world (apic P)) Z :=
  let* s := in_dev (gets (fun s => s)) in
  if decide (acpi_get_io_apic_available (tables s) <> 1 \/ acpi_get_lapic_available (tables s) <> 1) then ret (-1)
  else let* id := lapic_read LAPIC_ID in ret (Z.shiftr id 24).

Fixpoint wait_sent (n : nat) : M (world (apic P)) unit :=
  match n with
  | O => diverge
  | S n =>
    let* v := lapic_read LAPIC_ICRLO in if decide (Z.land v ICR_SEND_PENDING <> 0) then wait_sent n else ret tt
  end.

(** What the three functions share: [command] is the low register. *)
Definition send_ipi (lapic_id command : Z) : M (kstate (world (apic P))) OS_RETURN_E :=
  let* s := lift (in_dev (gets (fun s => s))) in
  if decide (no_apic s) then ret OS_ERR_NOT_SUPPORTED
  else critical e IpiLock (lift (
    let* err := on_acpi (acpi_check_lapic_id lapic_id) in
    if decide (err <> OS_NO_ERR) then ret err
    else
      lapic_write LAPIC_ICRHI (u32 (Z.shiftl lapic_id ICR_DESTINATION_SHIFT)) >>>
      lapic_write LAPIC_ICRLO command >>>
      wait_sent polls >>>
      ret err)).

Definition ipi_command (vector mode : Z) : Z :=
  Z.lor (Z.lor (Z.lor (Z.lor (Z.lor vector mode) ICR_PHYSICAL) ICR_ASSERT) ICR_EDGE) ICR_NO_SHORTHAND.

Definition lapic_send_ipi_init (lapic_id : Z) : M (kstate (world (apic P))) OS_RETURN_E :=
  send_ipi lapic_id (ipi_command 0 ICR_INIT).
Definition lapic_send_ipi_startup (lapic_id vector : Z) : M (kstate (world (apic P))) OS_RETURN_E :=
  send_ipi lapic_id (ipi_command (Z.land vector 0xFF) ICR_STARTUP).
Definition lapic_send_ipi (lapic_id vector : Z) : M (kstate (world (apic P))) OS_RETURN_E :=
  send_ipi lapic_id (ipi_command (Z.land vector 0xFF) 0).

(** *** The timer *)

Definition timer_lock : lock_id := LapicTimerLock (cpu_get_id e).

(** A section of the timer functions, after the test they all make. *)
Definition timer_section (body : M (world (apic P)) unit) : M (kstate (world (apic P))) OS_RETURN_E :=
  let* s := lift (in_dev (gets (fun s => s))) in
  if decide (no_apic s) then ret OS_ERR_NOT_SUPPORTED
  else critical e timer_lock (lift (body >>> ret OS_NO_ERR)).

Definition set_timer_count : M (world (apic P)) unit :=
  lapic_write LAPIC_TDCR LAPIC_DIVIDER_16 >>>
  let* s := in_dev (gets (fun s => s)) in
  lapic_write LAPIC_TICR (global_lapic_freq s).

Definition open_timer : M (world (apic P)) unit :=
  lapic_write LAPIC_TIMER (Z.lor LAPIC_TIMER_INTERRUPT_LINE LAPIC_TIMER_MODE_PERIODIC).

Definition lapic_ap_timer_init : M (kstate (world (apic P))) OS_RETURN_E :=
  timer_section (lapic_write LAPIC_TDCR LAPIC_DIVIDER_16 >>> open_timer >>> set_timer_count).

(** A division; by 0 it is undefined. *)
Definition quotient (a b : Z) : M (world (apic P)) Z := if decide (b = 0) then fault else ret (a / b).

Definition lapic_timer_get_frequency : M (kstate (world (apic P))) Z :=
  critical e timer_lock (lift (
    let* s := in_dev (gets (fun s => s)) in quotient (init_lapic_timer_frequency s) (global_lapic_freq s))).

Definition lapic_timer_set_frequency (frequency : Z) : M (kstate (world (apic P))) OS_RETURN_E :=
  timer_section (
    let* s := in_dev (gets (fun s => s)) in
    let* freq := quotient (init_lapic_timer_frequency s) frequency in
    in_dev (modify (set_lapic_freq freq)) >>>
    set_timer_count).

Definition lapic_timer_enable : M (kstate (world (apic P))) OS_RETURN_E := timer_section open_timer.

Definition lapic_timer_disable : M (kstate (world (apic P))) OS_RETURN_E :=
  timer_section (lapic_write LAPIC_TIMER LAPIC_LVT_INT_MASKED).

Definition lapic_timer_get_irq : Z := LAPIC_TIMER_INTERRUPT_LINE.

(** With the interrupt manager, whose controller this is. *)
Definition managed {A} (m : M (kstate (world (apic P))) A) : M (kstate (int_state (world (apic P)))) A :=
  kzoom controller with_controller m.
Definition on_handlers {A} (m : M (kstate handlers) A) : M (kstate (int_state (world (apic P)))) A :=
  kzoom kernel_interrupt_handlers with_handlers m.

Definition lapic_timer_set_handler (handler : Z) : M (kstate (int_state (world (apic P)))) OS_RETURN_E :=
  let* s := managed (lift (in_dev (gets (fun s => s)))) in
  if decide (no_apic s) then ret OS_ERR_NOT_SUPPORTED
  else if decide (handler = NULL) then ret OS_ERR_NULL_POINTER
  else
    let* err := managed lapic_timer_disable in
    if decide (err <> OS_NO_ERR) then ret err
    else
      let* x := ENTER_CRITICAL e timer_lock in
      let* err := on_handlers (kernel_interrupt_remove_int_handler e LAPIC_TIMER_INTERRUPT_LINE) in
      if decide (err <> OS_NO_ERR) then EXIT_CRITICAL e x timer_lock >>> managed lapic_timer_enable >>> ret err
      else
        let* err := on_handlers (kernel_interrupt_register_int_handler e LAPIC_TIMER_INTERRUPT_LINE handler) in
        if decide (err <> OS_NO_ERR) then EXIT_CRITICAL e x timer_lock >>> ret err
        else EXIT_CRITICAL e x timer_lock >>> managed lapic_timer_enable.

Definition lapic_timer_remove_handler (lapic_dummy_handler : Z) : M (kstate (int_state (world (apic P)))) OS_RETURN_E :=
  let* s := managed (lift (in_dev (gets (fun s => s)))) in
  if decide (no_apic s) then ret OS_ERR_NOT_SUPPORTED else lapic_timer_set_handler lapic_dummy_handler.

(** The handler of the ticks without a user. *)
Definition lapic_tick : M (int_state (world (apic P))) unit :=
  kernel_interrupt_set_irq_eoi LAPIC_TIMER_INTERRUPT_LINE >>> ret tt.

(** The two ticks of the PIT between which the timer counts. *)
Definition lapic_init_pit_handler : M (int_state (world (apic P))) unit :=
  zoom controller with_controller (
    let* s := in_dev (gets (fun s => s)) in
    if decide (wait_int s = 1) then
      in_dev (modify (set_wait_int (u8 (wait_int s + 1)))) >>> lapic_write LAPIC_TICR 0xFFFFFFFF
    else if decide (wait_int s = 2) then
      lapic_write LAPIC_TIMER LAPIC_LVT_INT_MASKED >>> in_dev (modify (set_wait_int 0))
    else ret tt) >>>
  kernel_interrupt_set_irq_eoi PIT_IRQ_LINE >>> ret tt.
End Apic.

(** ** The driver structure *)

Definition total_world {P A} (m : M (world (apic P)) A) (d : A) (w : world (apic P)) : A * world (apic P) :=
  match m w with Ret r => r | _ => (d, w) end.

(** As for the PIC, the critical section of the mask leaves the locks as they
    were. *)
Definition io_apic_driver {P} : interrupt_driver (world (apic P)) :=
  Interrupts.mk_driver
    (Some (fun irq_number enabled =>
       total_world (let* s := in_dev (gets (fun s => s)) in
                    if decide (irq_number >= max_redirect_count s) then ret OS_ERR_NO_SUCH_IRQ_LINE
                    else redirect irq_number enabled) OS_NO_ERR))
    (Some (fun irq_number => total_world (io_apic_set_irq_eoi irq_number) OS_NO_ERR))
    (Some (fun int_number => total_world (io_apic_handle_spurious_irq int_number) INTERRUPT_TYPE_REGULAR))
    (Some io_apic_get_irq_int_line).
