(* ===== verification/ApicTheorems.v ===== *)
(** * The advanced interrupt controllers: properties

    The redirection table of the I/O APIC after its initialisation and any
    sequence of mask requests, and the spurious interrupts it does not see. *)
From stdpp Require Import functions.
From S2P Require Import Prelude Critical Frames Interrupts ByteMem Ports Pic Timers.
From S2P Require Import MemInfoTheorems Acpi AcpiTheorems Apic.

(** ** The registers of the I/O APIC

    A write to the window goes to the register selected last. *)
Definition io_step (base : Z) (r : Z * (Z -> Z)) (x : bus_event) : Z * (Z -> Z) :=
  match x with
  | Write32 a v =>
      if decide (a = base + IOREGSEL) then (v, r.2)
      else if decide (a = base + IOWIN) then (r.1, <[r.1 := v]> r.2) else r
  | Read32 _ _ => r
  end.

(** The registers, from what they hold at reset on. *)
Definition io_registers (reset : Z -> Z) (base : Z) (h : bus) : Z -> Z := (foldl (io_step base) (0, reset) h).2.

(** The low and high registers of the lines. *)
Definition redirections : Type := Z -> Z * Z.

Definition registers_show (reset : Z -> Z) (base : Z) (h : bus) (T : redirections) : Prop :=
  forall j, 0 <= j < 2 ^ 30 -> io_registers reset base h (IOREDTBL + 2 * j) = (T j).1 /\
    io_registers reset base h (IOREDTBL + 2 * j + 1) = (T j).2.

(** The interrupt of a line, and its mask unless [enabled] is odd. *)
Definition entry_of (irq_number enabled : Z) : Z * Z :=
  (irq_number + 0x40 + (if Z.odd enabled then 0 else 0x10000), 0).

Definition request : Type := Z * Z. (* the line and [enabled] *)

Definition request_result (max : Z) (q : request) : OS_RETURN_E :=
  if decide (q.1 >= max) then OS_ERR_NO_SUCH_IRQ_LINE else OS_NO_ERR.

(** The entry goes to the line the firmware moved the interrupt to. *)
Definition request_effect (max : Z) (es : list apic_entry) (T : redirections) (q : request) : redirections :=
  if decide (q.1 >= max) then T else <[remapped es q.1 := entry_of q.1 q.2]> T.

Definition requests_effect (max : Z) (es : list apic_entry) (l : list request) (T : redirections) : redirections :=
  foldl (request_effect max es) T l.

(** The requests of the initialisation: each interrupt is masked. *)
Definition all_masked (max : Z) : list request := map (fun i => (Z.of_nat i, 0)) (seq 0 (Z.to_nat max)).

(** The requests that reach a line. *)
Definition reaches (max : Z) (es : list apic_entry) (j : Z) (q : request) : Prop :=
  q.1 < max /\ remapped es q.1 = j.

#[export] Instance reaches_dec max es j q : Decision (reaches max es j q).
Proof. unfold reaches. apply _. Defined.

(** The entries of a table after requests: that of the last one that reaches
    the line, and the old one of a line that none reaches. *)
Definition table_after (max : Z) (es : list apic_entry) (l : list request) (T : redirections) : redirections := fun j =>
  match last (filter (reaches max es j) l) with Some q => entry_of q.1 q.2 | None => T j end.

Lemma requests_effect_table max es l T j : requests_effect max es l T j = table_after max es l T j.
Proof.
  unfold requests_effect, table_after. induction l as [|q l IH] using rev_ind; [done|].
  rewrite foldl_app, filter_app. cbn [foldl]. unfold request_effect at 1.
  destruct (decide (reaches max es j q)) as [[Hm Hj]|Hn].
  - rewrite filter_cons_True, filter_nil, last_snoc, decide_False by (done || lia).
    unfold insert, fn_insert. by rewrite decide_True.
  - rewrite filter_cons_False, filter_nil, app_nil_r by done. rewrite <- IH.
    destruct (decide (q.1 >= max)); [done|]. unfold insert, fn_insert. rewrite decide_False; [done|].
    intros Hj. apply Hn. split; [lia|done].
Qed.

Section Apic.
Context {P : Type} (kernel_mmap_hw : Z -> Z -> Z -> Z -> M P OS_RETURN_E) (kernel_munmap : Z -> Z -> M P OS_RETURN_E).
Context (device : bus -> Z -> Z) (e : cpu_env) (reset : Z -> Z).
(** The MADT of the machine, with an I/O APIC. *)
Context (p n lapic_addr : Z) (es : list apic_entry) (io : Z * apic_entry).
Hypothesis (Hio : kept_io_apics p es = [io]).
Hypothesis (Hremap : forall irq, 0 <= irq < 256 -> 0 <= remapped es irq < 2 ^ 30).
Implicit Types s : apic P.

Definition knows (m : mem) (a : acpi P) : Prop :=
  madt_at m p n lapic_addr es /\ found (kept_cpus p es) (kept_io_apics p es) a /\
  acpi_initialized a = 1 /\ parse_success a MADT = 1 /\ table_ptr a MADT = p.

Lemma knows_answers m a : knows m a -> answers (kept_cpus p es) (kept_io_apics p es) es lapic_addr m a.
Proof. intros (H1 & H2 & H3 & H4 & H5). by apply (acpi_answers p n). Qed.

Lemma knows_paging m a x : knows m a -> knows m (set_paging x a).
Proof. intros (H1 & [] & H3 & H4 & H5). by split_and!. Qed.

Lemma on_acpi_read {A B} (f : M (world (acpi P)) A) v m s (k : A -> M (world (apic P)) B) :
  f (m, tables s) = Ret (v, (m, tables s)) -> bind (on_acpi f) k (m, s) = k v (m, s).
Proof. intros H. unfold bind, on_acpi, zoom. cbn [fst snd]. rewrite H. by destruct s. Qed.

(** *** Writes *)

Lemma on_bus_write {B} a v m s (k : unit -> M (world (apic P)) B) : 0 <= v < 2 ^ 32 ->
  bind (on_bus (mapped_io_write_32 a v)) k (m, s) = k tt (m, set_bus (the_bus s ++ [Write32 a v]) s).
Proof. intros Hv. unfold on_bus. erewrite in_dev_run by reflexivity. by rewrite u32_small. Qed.

Definition register_trace (base reg v : Z) : bus := [Write32 (base + IOREGSEL) reg; Write32 (base + IOWIN) v].

Lemma io_apic_write_run {B} reg v m s (k : unit -> M (world (apic P)) B) : 0 <= reg < 2 ^ 32 -> 0 <= v < 2 ^ 32 ->
  bind (io_apic_write reg v) k (m, s) = k tt (m, set_bus (the_bus s ++ register_trace (io_apic_base_addr s) reg v) s).
Proof.
  intros Hr Hv. unfold io_apic_write, register_trace. rewrite bind_assoc.
  rewrite (in_dev_run _ s m s s) by done. rewrite bind_assoc, !on_bus_write by done.
  cbn [the_bus set_bus]. by rewrite <- app_assoc.
Qed.

Lemma register_trace_steps base reg v h : foldl (io_step base) (0, reset) (h ++ register_trace base reg v) =
  (reg, <[reg := v]> (io_registers reset base h)).
Proof.
  rewrite foldl_app. unfold register_trace, io_registers. cbn [foldl io_step]. unfold IOREGSEL, IOWIN.
  by rewrite (decide_False (P := base + 16 = base + 0)), (decide_True (P := base + 16 = base + 16)),
    !(decide_True (P := base + 0 = base + 0)) by lia.
Qed.

Lemma io_registers_write base reg v h : io_registers reset base (h ++ register_trace base reg v) = <[reg := v]> (io_registers reset base h).
Proof. unfold io_registers at 1. by rewrite register_trace_steps. Qed.

Lemma entry_lo_value irq en : 0 <= irq < 256 ->
  Z.lor (u32 (irq + INT_IOAPIC_IRQ_OFFSET)) (mask_bit en) = (entry_of irq en).1.
Proof.
  intros Hi. unfold INT_IOAPIC_IRQ_OFFSET, mask_bit, entry_of. rewrite u32_small by lia. cbn [fst].
  assert (Z.land (u32 (Z.lnot en)) 1 = if Z.odd en then 0 else 1) as ->.
  { change 1 with (Z.ones 1) at 1. rewrite Z.land_ones by lia. unfold u32, Z.lnot. change (2 ^ 1) with 2.
    pose proof (Zmod_odd en) as Ho. destruct (Z.odd en); div_lia. }
  destruct (Z.odd en); [by rewrite Z.lor_0_r, Z.add_0_r|].
  change (Z.shiftl 1 16) with (1 * 2 ^ 16). rewrite lor_above by lia. lia.
Qed.

(** *** A request *)

Lemma redirect_run irq en m s : knows m (tables s) -> 0 <= irq < 256 ->
  let base := io_apic_base_addr s in let r := remapped es irq in
  redirect irq en (m, s) = Ret (OS_NO_ERR, (m, set_bus (the_bus s ++
    register_trace base (IOREDTBL + 2 * r) (entry_of irq en).1 ++ register_trace base (IOREDTBL + 2 * r + 1) 0) s)).
Proof.
  intros Hk Hi base r. pose proof (Hremap irq Hi) as Hr. fold r in Hr.
  unfold redirect. rewrite entry_lo_value by done. cbv zeta.
  rewrite (on_acpi_read _ r) by (apply (an_irq _ _ _ _ _ _ (knows_answers _ _ Hk)); lia).
  unfold IOREDTBL. rewrite (u32_small r), !u32_small by lia.
  rewrite !io_apic_write_run by (unfold entry_of; cbn [fst]; try destruct (Z.odd en); lia).
  cbn [the_bus set_bus io_apic_base_addr]. unfold ret. rewrite <- app_assoc.
  replace (16 + r * 2) with (16 + 2 * r) by lia. done.
Qed.

Record io_shows (T : redirections) (w : world (apic P)) : Prop := {
  is_knows : knows (fst w) (tables (snd w));
  is_registers : registers_show reset (io_apic_base_addr (snd w)) (the_bus (snd w)) T
}.

(** What the requests keep. *)
Definition same_io (w w' : world (apic P)) : Prop :=
  max_redirect_count (snd w') = max_redirect_count (snd w) /\ io_apic_base_addr (snd w') = io_apic_base_addr (snd w).

Lemma same_io_trans w1 w2 w3 : same_io w1 w2 -> same_io w2 w3 -> same_io w1 w3.
Proof. intros [? ?] [? ?]. split; congruence. Qed.

Lemma redirect_shows irq en T w : io_shows T w -> 0 <= irq < 256 ->
  exists w', redirect irq en w = Ret (OS_NO_ERR, w') /\ same_io w w' /\
    io_shows (<[remapped es irq := entry_of irq en]> T) w'.
Proof.
  intros [Hk HT] Hi. destruct w as [m s]. cbn [fst snd] in *. pose proof (Hremap irq Hi) as Hr.
  eexists. split; [by apply redirect_run|]. split; [by split|]. split; [done|]. cbn [fst snd the_bus set_bus io_apic_base_addr].
  intros j Hj. destruct (HT j Hj) as [H1 H2]. rewrite app_assoc, !io_registers_write.
  unfold insert, fn_insert. unfold IOREDTBL in *. repeat case_decide; try lia; subst; try done.
Qed.

Lemma request_run q T t : flag_ok t -> lock_free IoApicLock t -> io_shows T (core t) -> 0 <= q.1 ->
  max_redirect_count (snd (core t)) <= 256 ->
  let max := max_redirect_count (snd (core t)) in
  exists t', io_apic_set_irq_mask e q.1 q.2 t = Ret (request_result max q, t') /\ same_locks t t' /\
    same_io (core t) (core t') /\ io_shows (request_effect max es T q) (core t').
Proof.
  intros Hf Hl Hs Hq Hmax max. unfold io_apic_set_irq_mask, request_result, request_effect.
  rewrite (exec_lift_read _ _ t (snd (core t))) by (unfold in_dev, zoom; cbn; by destruct (core t)). fold max.
  destruct (decide (q.1 >= max)) as [Hge|Hlt].
  - exists t. by split_and!.
  - destruct (redirect_shows q.1 q.2 T (core t) Hs ltac:(lia)) as (w' & H1 & H2 & H3).
    destruct (critical_lift e IoApicLock _ t _ _ Hf Hl H1) as (t' & Ht & Hc & Hsl).
    exists t'. rewrite Hc. by split_and!.
Qed.

Fixpoint run_requests (l : list request) : M (kstate (world (apic P))) (list OS_RETURN_E) :=
  match l with
  | [] => ret []
  | q :: l =>
      let* r := io_apic_set_irq_mask e q.1 q.2 in
      let* rs := run_requests l in ret (r :: rs)
  end.

Lemma run_requests_correct l : forall T t, flag_ok t -> lock_free IoApicLock t -> io_shows T (core t) ->
  Forall (fun q => 0 <= q.1) l -> max_redirect_count (snd (core t)) <= 256 ->
  let max := max_redirect_count (snd (core t)) in
  exists t', run_requests l t = Ret (map (request_result max) l, t') /\ same_locks t t' /\
    same_io (core t) (core t') /\ io_shows (requests_effect max es l T) (core t').
Proof.
  induction l as [|q l IH]; intros T t Hf Hl Hs Hq Hmax max; [by exists t|].
  apply Forall_cons in Hq as [Hq Hql]. cbn [run_requests].
  destruct (request_run q T t Hf Hl Hs Hq Hmax) as (t1 & H1 & S1 & E & Hs1). rewrite (bind_ret _ _ _ _ _ H1).
  pose proof (proj1 E) as E1.
  destruct (IH _ t1 (same_locks_flag _ _ S1 Hf) (same_locks_free _ _ _ S1 Hl) Hs1 Hql ltac:(by rewrite E1))
    as (t2 & H2 & S2 & F & Hs2). rewrite (bind_ret _ _ _ _ _ H2). rewrite E1 in *.
  exists t2. split; [done|]. split; [by eapply same_locks_trans|]. split; [by eapply same_io_trans|done].
Qed.

(** *** The initialisation *)

Definition masked_from (i k : nat) : list request := map (fun j => (Z.of_nat j, 0)) (seq i k).

Lemma mask_lines_run k : forall i T t, flag_ok t -> lock_free IoApicLock t -> io_shows T (core t) ->
  max_redirect_count (snd (core t)) <= 256 -> Z.of_nat (i + k) <= max_redirect_count (snd (core t)) ->
  exists t', mask_lines kernel_munmap e k (Z.of_nat i) t = Ret (OS_NO_ERR, t') /\ same_locks t t' /\
    same_io (core t) (core t') /\ io_shows (requests_effect (max_redirect_count (snd (core t))) es (masked_from i k) T) (core t').
Proof.
  induction k as [|k IH]; intros i T t Hf Hl Hs Hmax Hi; [by exists t|].
  cbn [mask_lines]. destruct (request_run (Z.of_nat i, 0) T t Hf Hl Hs ltac:(cbn; lia) Hmax) as (t1 & H1 & S1 & E1 & Hs1).
  cbn [fst snd] in H1. unfold request_result in H1. cbn [fst] in H1. rewrite decide_False in H1 by lia.
  rewrite (bind_ret _ _ _ _ _ H1), decide_False by tauto. pose proof (proj1 E1) as E.
  replace (Z.of_nat i + 1) with (Z.of_nat (S i)) by lia.
  destruct (IH (S i) _ t1 (same_locks_flag _ _ S1 Hf) (same_locks_free _ _ _ S1 Hl) Hs1 ltac:(by rewrite E)
    ltac:(rewrite E; lia)) as (t2 & H2 & S2 & F1 & Hs2). rewrite E in *.
  exists t2. split; [done|]. split; [by eapply same_locks_trans|]. split; [by eapply same_io_trans|done].
Qed.

(** The lines before anything is written to them. *)
Definition table_of (base : Z) (h : bus) : redirections :=
  fun j => (io_registers reset base h (IOREDTBL + 2 * j), io_registers reset base h (IOREDTBL + 2 * j + 1)).

(** The window shows the number of lines when the version register is
    selected. *)
Definition shows_version (base max : Z) : Prop :=
  forall h, (foldl (io_step base) (0, reset) h).1 = IOAPICVER ->
    Z.land (Z.shiftr (u32 (device h (base + IOWIN))) 16) 0xff + 1 = max.

Lemma version_run base max m s : io_apic_base_addr s = base -> shows_version base max ->
  exists v h, io_apic_read device IOAPICVER (m, s) = Ret (v, (m, set_bus h s)) /\ Z.land (Z.shiftr v 16) 0xff + 1 = max /\
    io_registers reset base h = io_registers reset base (the_bus s).
Proof.
  intros Hb Hv. unfold io_apic_read. rewrite (in_dev_run _ s m s s) by done.
  rewrite on_bus_write by (unfold IOAPICVER; lia). set (h1 := the_bus s ++ [Write32 (io_apic_base_addr s + IOREGSEL) IOAPICVER]).
  assert (foldl (io_step base) (0, reset) h1 = (IOAPICVER, io_registers reset base (the_bus s))) as H1.
  { unfold h1. rewrite foldl_app, Hb. cbn [foldl io_step]. by rewrite decide_True. }
  eexists _, (h1 ++ [Read32 (base + IOWIN) _]). split.
  { unfold on_bus, in_dev, zoom, mapped_io_read_32. cbn [fst snd the_bus set_bus io_apic_base_addr]. rewrite Hb. reflexivity. }
  cbn [the_bus set_bus]. split; [apply Hv; by rewrite H1|].
  unfold io_registers at 1. rewrite foldl_app, H1. done.
Qed.

Lemma apic_present m s : knows m (tables s) -> kept_cpus p es <> [] -> ~ no_apic s.
Proof.
  intros Hk Hcpu. pose proof (knows_answers _ _ Hk) as Ha. unfold no_apic.
  rewrite (an_io_available _ _ _ _ _ _ Ha), (an_lapic_available _ _ _ _ _ _ Ha), Hio.
  destruct (kept_cpus p es); [done|]. lia.
Qed.

Lemma land_ff v : 0 <= Z.land v 0xff <= 255.
Proof. rewrite low_byte. pose proof (Z.mod_pos_bound v 256). lia. Qed.

Lemma io_apic_init_run t x max :
  let m := fst (core t) in let s := snd (core t) in let base := ae_word io.2 in
  flag_ok t -> lock_free IoApicLock t -> knows m (tables s) -> kept_cpus p es <> [] ->
  kernel_mmap_hw base base 0x1000 0 (paging (tables s)) = Ret (OS_NO_ERR, x) -> shows_version base max ->
  exists t', io_apic_init kernel_mmap_hw kernel_munmap device e t = Ret (OS_NO_ERR, t') /\ same_locks t t' /\
    max_redirect_count (snd (core t')) = max /\ io_apic_base_addr (snd (core t')) = base /\ max <= 256 /\
    io_shows (requests_effect max es (all_masked max) (table_of base (the_bus s))) (core t').
Proof.
  intros m s base Hf Hl Hk Hcpu Hmap Hver. destruct t as [[m0 s0] fl lk]. cbn [core fst snd] in m, s. subst m s.
  unfold io_apic_init. rewrite (exec_lift_read _ _ _ s0) by done. rewrite decide_False by (by eapply apic_present).
  rewrite (exec_lift_read _ _ _ base).
  2: { pose proof (an_io _ _ _ _ _ _ (knows_answers _ _ Hk) io Hio) as Hr. unfold on_acpi, zoom. cbn [core fst snd].
       cbn [core fst snd] in Hr. rewrite Hr. by destruct s0. }
  erewrite exec_lift by reflexivity.
  rewrite (exec_lift _ _ _ OS_NO_ERR (m0, set_tables (set_paging x (tables s0)) (set_io_apic_base base s0))).
  2: { unfold map_hw, on_acpi, on_paging, in_dev, zoom. cbn. by rewrite Hmap. }
  rewrite decide_False by tauto.
  set (s1 := set_tables (set_paging x (tables s0)) (set_io_apic_base base s0)).
  destruct (version_run base max m0 s1 eq_refl Hver) as (v & h & Hv & Hmaxv & Hregs).
  rewrite (exec_lift _ _ _ v (m0, set_bus h s1)) by exact Hv. cbv zeta. rewrite Hmaxv.
  erewrite exec_lift by reflexivity. set (s2 := set_max_redirect max (set_bus h s1)).
  pose proof (land_ff (Z.shiftr v 16)) as Hff.
  set (t2 := with_core _ _).
  assert (io_shows (table_of base (the_bus s0)) (core t2)) as Hs2.
  { split; [by apply knows_paging|]. intros j Hj. cbn. rewrite Hregs. done. }
  destruct (mask_lines_run (Z.to_nat max) 0 (table_of base (the_bus s0)) t2 Hf Hl Hs2)
    as (t3 & H3 & S3 & [E3 F3] & Hs3); [cbn; lia|cbn; lia|].
  change (Z.of_nat 0) with 0 in H3. rewrite (bind_ret _ _ _ _ _ H3), decide_False by tauto.
  erewrite exec_lift by reflexivity. eexists. split; [reflexivity|]. split; [by destruct S3|].
  split; [exact E3|]. split; [exact F3|]. split; [lia|]. by destruct Hs3.
Qed.

(** C24: On a machine whose MADT names processors and an I/O APIC of [max]
    lines, whose registers can be mapped, [io_apic_init] succeeds, and any
    sequence of mask requests after it returns no error but for lines past the
    last.  The redirection table is then known line by line: a line holds the
    vector and the mask of the last request whose interrupt the firmware moves
    to it, a masked entry if [io_apic_init] made the last one, and a line to
    which no interrupt below [max] is moved still holds what it held before. *)
Theorem io_apic_table_correct l t x max :
  let m := fst (core t) in let s := snd (core t) in let base := ae_word io.2 in
  flag_ok t -> lock_free IoApicLock t -> knows m (tables s) -> kept_cpus p es <> [] ->
  kernel_mmap_hw base base 0x1000 0 (paging (tables s)) = Ret (OS_NO_ERR, x) ->
  shows_version base max -> Forall (fun q => 0 <= q.1) l ->
  exists t', (let* err := io_apic_init kernel_mmap_hw kernel_munmap device e in
              let* rs := run_requests l in ret (err, rs)) t =
      Ret ((OS_NO_ERR, map (request_result max) l), t') /\ same_locks t t' /\
    io_apic_base_addr (snd (core t')) = base /\
    registers_show reset base (the_bus (snd (core t')))
      (table_after max es (all_masked max ++ l) (table_of base (the_bus s))).
Proof.
  intros m s base Hf Hl Hk Hcpu Hmap Hver Hq.
  destruct (io_apic_init_run t x max Hf Hl Hk Hcpu Hmap Hver) as (t1 & H1 & S1 & E1 & B1 & Hm & Hs1).
  rewrite (bind_ret _ _ _ _ _ H1).
  destruct (run_requests_correct l _ t1 (same_locks_flag _ _ S1 Hf) (same_locks_free _ _ _ S1 Hl) Hs1 Hq ltac:(lia))
    as (t2 & H2 & S2 & [E2 B2] & Hs2). rewrite (bind_ret _ _ _ _ _ H2). rewrite E1 in *. rewrite B1 in B2.
  exists t2. split; [done|]. split; [by eapply same_locks_trans|]. split; [done|].
  pose proof (is_registers _ _ Hs2) as Hr. rewrite B2 in Hr.
  intros j Hj. rewrite <- requests_effect_table. unfold requests_effect in *. rewrite foldl_app. by apply Hr.
Qed.

(** ** Interrupts that are not seen *)

(** The test of the spurious interrupt of the local APIC is inside that of
    the lines of the PIC, which it never meets. *)
Lemma lapic_spurious_is_regular (w : world (apic P)) :
  io_apic_handle_spurious_irq LAPIC_SPURIOUS_INT_LINE w = Ret (INTERRUPT_TYPE_REGULAR, w).
Proof. reflexivity. Qed.

(** Of the interrupts of the PIC only the last one is taken for spurious. *)
Lemma pic_spurious_last k (w : world (apic P)) : 0 <= k < 15 ->
  io_apic_handle_spurious_irq (INT_PIC_IRQ_OFFSET + k) w = Ret (INTERRUPT_TYPE_REGULAR, w).
Proof.
  intros Hk. unfold io_apic_handle_spurious_irq, INT_PIC_IRQ_OFFSET, LAPIC_SPURIOUS_INT_LINE, MAX_INTERRUPT_LINE,
    PIC_MAX_IRQ_LINE. rewrite i32_small by lia. rewrite decide_True by lia. rewrite decide_False by lia.
  rewrite bind_ret_l. by rewrite decide_False by lia.
Qed.

(** ** Messages and timer of the local APIC *)

Lemma lapic_write_run {B} reg v m s (k : unit -> M (world (apic P)) B) : 0 <= v < 2 ^ 32 ->
  bind (lapic_write reg v) k (m, s) = k tt (m, set_bus (the_bus s ++ [Write32 (u32 (lapic_base_addr s + reg)) v]) s).
Proof.
  intros Hv. unfold lapic_write. rewrite bind_assoc, (in_dev_run _ s m s s) by done. by rewrite on_bus_write.
Qed.

(** A message to a processor that the MADT does not name is refused, and
    nothing is sent. *)
Lemma send_ipi_unknown polls id c (t : kstate (world (apic P))) :
  let w := core t in
  flag_ok t -> lock_free IpiLock t -> knows w.1 (tables w.2) -> kept_cpus p es <> [] ->
  id ∉ (fun x => ae_byte3 x.2) <$> kept_cpus p es ->
  exists t', send_ipi device polls e id c t = Ret (OS_ERR_NO_SUCH_LAPIC_ID, t') /\ same_locks t t' /\ core t' = core t.
Proof.
  intros w Hf Hl Hk Hcpu Hid. unfold send_ipi. destruct (core t) as [m s] eqn:Hc. subst w. cbn [fst snd] in Hk.
  rewrite (exec_lift_read _ _ t s) by (by rewrite Hc). rewrite decide_False by (by eapply apic_present).
  match goal with |- context [lift ?m] => destruct (critical_lift e IpiLock m t OS_ERR_NO_SUCH_LAPIC_ID (core t) Hf Hl)
    as (t' & Ht & Hc' & Hsl) end; [|exists t'; by rewrite Hc', Hc in *].
  rewrite Hc. rewrite (on_acpi_read _ OS_ERR_NO_SUCH_LAPIC_ID).
  - by rewrite decide_True by done.
  - rewrite (an_check _ _ _ _ _ _ (knows_answers _ _ Hk)). by rewrite decide_False.
Qed.

(** A frequency of 0 is a division by 0. *)
Lemma set_frequency_zero (t : kstate (world (apic P))) :
  ~ no_apic (snd (core t)) -> lock_free (timer_lock e) t -> lapic_timer_set_frequency e 0 t = Fault.
Proof.
  intros Hn Hl. unfold lapic_timer_set_frequency, timer_section.
  rewrite (exec_lift_read _ _ t (snd (core t))) by (unfold in_dev, zoom; cbn; by destruct (core t)).
  rewrite decide_False by done. unfold critical. rewrite (bind_ret _ _ _ _ _ (enter_run e _ t Hl)).
  unfold lift, zoom, bind. cbn. by destruct (core t).
Qed.

(** What is read back is the quotient of the count, which is not smaller than
    what was asked. *)
Lemma frequency_read_back f i : 0 < f <= i -> f <= i / (i / f).
Proof. intros Hf. apply Z.div_le_lower_bound; [apply Z.div_str_pos; lia|]. rewrite Z.mul_comm. apply Z.mul_div_le. lia. Qed.
End Apic.

(** ** The machine of two processors *)

Definition two_cpus_tables : acpi unit :=
  mk_acpi 2 [0; 1; 0; 0] [0x1F002C; 0x1F0034; 0; 0] 1 [0x1F003C]
    (fun t => if decide (t = MADT) then 1 else 0) (fun t => if decide (t = MADT) then 0x1F0000 else 0) 0 1 tt.

Definition two_cpus_state : kstate (world (apic unit)) :=
  mk_kstate (two_cpus_ram, mk_apic 0 0 0 0 0 0 0 [] two_cpus_tables) 1 (fun _ => SPINLOCK_INIT_VALUE).

(** An I/O APIC of 24 lines. *)
Definition io_apic_24 (_ : bus) (_ : Z) : Z := 0x170011.

Lemma two_cpus_known : knows 0x1F0000 82 0xFEE00000 two_cpus two_cpus_ram two_cpus_tables.
Proof.
  split; [exact two_cpus_at|]. split; [|by split_and!].
  split; [reflexivity|split; [vm_compute; lia|by split]|reflexivity|reflexivity|reflexivity|split; [vm_compute; lia|done]|reflexivity].
Qed.

Lemma two_cpus_remap irq : 0 <= irq < 256 -> 0 <= remapped two_cpus irq < 2 ^ 30.
Proof.
  intros H. unfold two_cpus. cbn [remapped ae_type ae_byte3 ae_word].
  unfold APIC_TYPE_INTERRUPT_OVERRIDE. repeat case_decide; try lia; vm_compute; split; done.
Qed.

(** Line 0, whose interrupt the firmware moves to line 2, is not masked by the
    initialisation. *)
Theorem io_apic_table_correct_witness :
  (knows 0x1F0000 82 0xFEE00000 two_cpus (fst (core two_cpus_state)) (tables (snd (core two_cpus_state))) /\
   kept_cpus 0x1F0000 two_cpus <> [] /\ shows_version io_apic_24 (fun _ => 0x55) 0xFEC00000 24) /\
  exists t', (let* err := io_apic_init (fun _ _ _ _ => ret OS_NO_ERR) (fun _ _ => ret OS_NO_ERR) io_apic_24 (mk_cpu 0 4) in
              let* rs := run_requests (mk_cpu 0 4) [(0, 1); (30, 1)] in ret (err, rs)) two_cpus_state =
      Ret ((OS_NO_ERR, [OS_NO_ERR; OS_ERR_NO_SUCH_IRQ_LINE]), t') /\
    let line j := io_registers (fun _ => 0x55) 0xFEC00000 (the_bus (snd (core t'))) (0x10 + 2 * j) in
    line 2 = 0x40 /\ line 1 = 0x10041 /\ line 0 = 0x55.
Proof.
  assert (kept_cpus 0x1F0000 two_cpus <> []) as Hcpu by discriminate.
  assert (shows_version io_apic_24 (fun _ => 0x55) 0xFEC00000 24) as Hver by (intros h _; reflexivity).
  split; [split; [exact two_cpus_known|split; [exact Hcpu|exact Hver]]|].
  destruct (io_apic_table_correct (fun _ _ _ _ => ret OS_NO_ERR) (fun _ _ => ret OS_NO_ERR) io_apic_24 (mk_cpu 0 4)
    (fun _ => 0x55) 0x1F0000 82 0xFEE00000 two_cpus (0x1F003C, mk_entry 1 12 1 0 0xFEC00000) eq_refl two_cpus_remap
    [(0, 1); (30, 1)] two_cpus_state tt 24 (or_intror eq_refl) eq_refl two_cpus_known Hcpu eq_refl Hver
    ltac:(repeat (apply Forall_cons; split; [cbn; lia|]); constructor)) as (t' & Hr & _ & _ & Hs).
  exists t'. split; [exact Hr|]. cbv zeta.
  split; [exact (proj1 (Hs 2 ltac:(lia)))|]. split; [exact (proj1 (Hs 1 ltac:(lia)))|exact (proj1 (Hs 0 ltac:(lia)))].
Defined.
