(* ===== verification/Vesa.v ===== *)
(** * The graphic screen ([arch/x86/vesa.c])

    The drawing functions and the console of the driver, on the memory that
    holds the frame buffer, four bytes per pixel, the array [last_columns] and
    the font.  The kernel is built with [KERNEL_DEBUG]: every character also
    goes to the first serial port. *)
From S2P Require Import Prelude ByteMem MemInfo LibString Ports Serial Vga.

Definition font_width : Z := 8.
Definition font_height : Z := 16.
Definition TAB_WIDTH : Z := 4.

Record vesa_mode : Type := mk_mode {
  vm_width : Z;
  vm_height : Z;
  vm_bpp : Z;
  vm_mode_id : Z;
  framebuffer_phy : Z;
  vm_framebuffer : Z;
  vm_next : Z
}.

(** ** The variables of the file *)

Record vesa : Type := mk_vesa {
  vs_modes : gmap Z vesa_mode; (* the modes, by address *)
  saved_modes : Z;
  current_mode : Z;
  mode_count : Z;
  vesa_supported : Z;
  vs_cursor : cursor_t;
  vs_last : cursor_t;
  vs_scheme : colorscheme_t;
  vs_columns : Z; (* the address of an array of uint32_t *)
  transparent_char : Z;
  save_buff : list Z; (* 256 bytes *)
  virt_buffer : Z;
  vs_serial : serial
}.

Definition set_vs_cursor (v : cursor_t) (s : vesa) : vesa :=
  mk_vesa (vs_modes s) (saved_modes s) (current_mode s) (mode_count s) (vesa_supported s) v (vs_last s)
    (vs_scheme s) (vs_columns s) (transparent_char s) (save_buff s) (virt_buffer s) (vs_serial s).
Definition set_vs_last (v : cursor_t) (s : vesa) : vesa :=
  mk_vesa (vs_modes s) (saved_modes s) (current_mode s) (mode_count s) (vesa_supported s) (vs_cursor s) v
    (vs_scheme s) (vs_columns s) (transparent_char s) (save_buff s) (virt_buffer s) (vs_serial s).
Definition set_vs_scheme (v : colorscheme_t) (s : vesa) : vesa :=
  mk_vesa (vs_modes s) (saved_modes s) (current_mode s) (mode_count s) (vesa_supported s) (vs_cursor s) (vs_last s)
    v (vs_columns s) (transparent_char s) (save_buff s) (virt_buffer s) (vs_serial s).
Definition set_transparent (v : Z) (s : vesa) : vesa :=
  mk_vesa (vs_modes s) (saved_modes s) (current_mode s) (mode_count s) (vesa_supported s) (vs_cursor s) (vs_last s)
    (vs_scheme s) (vs_columns s) v (save_buff s) (virt_buffer s) (vs_serial s).
Definition set_save_buff (v : list Z) (s : vesa) : vesa :=
  mk_vesa (vs_modes s) (saved_modes s) (current_mode s) (mode_count s) (vesa_supported s) (vs_cursor s) (vs_last s)
    (vs_scheme s) (vs_columns s) (transparent_char s) v (virt_buffer s) (vs_serial s).
Definition set_vs_serial (v : serial) (s : vesa) : vesa :=
  mk_vesa (vs_modes s) (saved_modes s) (current_mode s) (mode_count s) (vesa_supported s) (vs_cursor s) (vs_last s)
    (vs_scheme s) (vs_columns s) (transparent_char s) (save_buff s) (virt_buffer s) v.

(** [current_mode->...] *)
Definition mode : M (world vesa) vesa_mode :=
  let* s := in_dev (gets id) in
  match vs_modes s !! current_mode s with Some v => ret v | None => fault end.

Definition var {A} (f : vesa -> A) : M (world vesa) A := in_dev (gets f).

Definition vga_color_table : list Z :=
  [0xFF000000; 0xFF0000AA; 0xFF00AA00; 0xFF00AAAA; 0xFFAA0000; 0xFFAA00AA; 0xFFAA5500; 0xFFAAAAAA;
   0xFF555555; 0xFF5555FF; 0xFF55FF55; 0xFF55FFFF; 0xFFFF5555; 0xFFFF55FF; 0xFFFFFF55; 0xFFFFFFFF].

(** ** Memory *)

Definition store32 (p v : Z) : M mem unit :=
  store p (v mod 2 ^ 8) >>> store (p + 1) ((v / 2 ^ 8) mod 2 ^ 8) >>>
  store (p + 2) ((v / 2 ^ 16) mod 2 ^ 8) >>> store (p + 3) ((v / 2 ^ 24) mod 2 ^ 8).

(** The words and the bytes left are stored in the order of the addresses. *)
Definition fast_memset (dst value size : Z) : M mem unit := memset dst value size >>> ret tt.

(** [sse] is [cpu_is_sse_enabled()].  The blocks of 16 bytes advance both
    pointers; the copy of the rest has the whole size again. *)
Definition fast_memcpy (sse : bool) (dst src size : Z) : M mem unit :=
  if sse then
    memcpy dst src (16 * (size / 16)) >>>
    (if decide (size mod 7 <> 0)
     then memcpy (dst + 16 * (size / 16)) (src + 16 * (size / 16)) size >>> ret tt else ret tt)
  else memcpy dst src size >>> ret tt.

(** ** Pixels *)

(** [virt_buffer] as an array of [uint32_t], at [current_mode->width * y + x]. *)
Definition pixel_addr (m : vesa_mode) (s : vesa) (x y : Z) : Z :=
  u32 (virt_buffer s + 4 * (vm_width m * y + x)).

(** The checks that the drawing functions share, then [k]. *)
Definition in_screen {A} (outside : vesa_mode -> bool) (bad : OS_RETURN_E -> A) (k : vesa_mode -> M (world vesa) A) :
  M (world vesa) A :=
  let* s := in_dev (gets id) in
  if decide (vesa_supported s = 0) then ret (bad OS_ERR_VESA_NOT_SUPPORTED)
  else if decide (current_mode s = NULL) then ret (bad OS_ERR_VESA_NOT_INIT)
  else
    let* m := mode in
    if outside m then ret (bad OS_ERR_OUT_OF_BOUND) else k m.

(** [null] says that one of the four pointers is null; the four values are
    what the function writes through them. *)
Definition vesa_get_pixel (null : bool) (x y : Z) : M (world vesa) (OS_RETURN_E * option (Z * Z * Z * Z)) :=
  let x := u16 x in
  let y := u16 y in
  if null then ret (OS_ERR_NULL_POINTER, None)
  else
    in_screen (fun m => bool_decide (x > vm_width m \/ y > vm_height m)) (fun e => (e, None)) (fun m =>
      let* s := in_dev (gets id) in
      let addr := pixel_addr m s x y in
      let* blue := in_mem (load addr) in
      let* green := in_mem (load (addr + 1)) in
      let* red := in_mem (load (addr + 2)) in
      ret (OS_NO_ERR, Some (0xFF, red, green, blue))).

(** A component of a pixel over the one behind it. *)
Definition blend (alpha v back : Z) : Z := u8 (Z.shiftr (v * alpha + back * (255 - alpha)) 8).

Definition vesa_draw_pixel (x y alpha red green blue : Z) : M (world vesa) OS_RETURN_E :=
  let x := u16 x in
  let y := u16 y in
  in_screen (fun m => bool_decide (x > vm_width m \/ y > vm_height m)) id (fun m =>
    let* s := in_dev (gets id) in
    let addr := pixel_addr m s x y in
    if decide (alpha = 0xFF) then
      in_mem (store32 addr (blue + 2 ^ 8 * green + 2 ^ 16 * red)) >>> ret OS_NO_ERR
    else if decide (alpha <> 0) then
      let* b0 := in_mem (load addr) in
      let* b1 := in_mem (load (addr + 1)) in
      let* b2 := in_mem (load (addr + 2)) in
      in_mem (store32 addr (blend alpha blue b0 + 2 ^ 8 * blend alpha green b1 + 2 ^ 16 * blend alpha red b2)) >>>
      ret OS_NO_ERR
    else ret OS_NO_ERR).

(** [n] times a step that gets the number of the turn, from [i] on. *)
Fixpoint turns (n : nat) (i : Z) (f : Z -> M (world vesa) unit) : M (world vesa) unit :=
  match n with O => ret tt | S n => f i >>> turns n (i + 1) f end.

Definition vesa_draw_rectangle (x y width height alpha red green blue : Z) : M (world vesa) OS_RETURN_E :=
  let x := u16 x in
  let y := u16 y in
  let width := u16 width in
  let height := u16 height in
  in_screen (fun m => bool_decide (x + width > vm_width m \/ y + height > vm_height m)) id (fun _ =>
    turns (Z.to_nat height) y (fun i =>
      turns (Z.to_nat width) x (fun j => vesa_draw_pixel j i alpha red green blue >>> ret tt)) >>>
    ret OS_NO_ERR).

(** The components of a color, as [uint8_t]. *)
Definition color_alpha (c : Z) : Z := u8 (c / 2 ^ 24).
Definition color_red (c : Z) : Z := u8 (c / 2 ^ 16).
Definition color_green (c : Z) : Z := u8 (c / 2 ^ 8).
Definition color_blue (c : Z) : Z := u8 c.

Definition draw_color (x y c : Z) : M (world vesa) unit :=
  vesa_draw_pixel x y (color_alpha c) (color_red c) (color_green c) (color_blue c) >>> ret tt.

Section Font.
Context (font_bitmap : Z).

Definition vesa_drawchar (charracter x y fgcolor bgcolor : Z) : M (world vesa) unit :=
  let glyph := font_bitmap + (charracter - 31) * 16 in
  turns 16 0 (fun cy =>
    turns 8 0 (fun cx =>
      let* g := in_mem (load (glyph + cy)) in
      draw_color (u32 (x + (7 - cx))) (u32 (y + cy)) (if decide (Z.land g (2 ^ cx) <> 0) then fgcolor else bgcolor))).
End Font.

(** ** Readers *)

Definition vesa_get_screen_width : M (world vesa) Z :=
  let* s := in_dev (gets id) in
  if decide (vesa_supported s = 0 \/ current_mode s = NULL) then ret 0
  else let* m := mode in ret (vm_width m).

Definition vesa_get_screen_height : M (world vesa) Z :=
  let* s := in_dev (gets id) in
  if decide (vesa_supported s = 0 \/ current_mode s = NULL) then ret 0
  else let* m := mode in ret (vm_height m).

Definition vesa_get_screen_bpp : M (world vesa) Z :=
  let* s := in_dev (gets id) in
  if decide (vesa_supported s = 0) then ret 0
  else if decide (current_mode s = NULL) then ret 0
  else let* m := mode in ret (u8 (vm_bpp m)).

Definition screen_bytes (m : vesa_mode) : Z := u32 (vm_width m * vm_height m * (vm_bpp m / 8)).

Definition vesa_clear_screen : M (world vesa) unit :=
  let* m := mode in
  let* buffer := var virt_buffer in
  in_mem (fast_memset buffer 0 (screen_bytes m)).

Definition vesa_fill_screen (sse : bool) (pointer : Z) : M (world vesa) unit :=
  let* m := mode in
  let* buffer := var virt_buffer in
  in_mem (fast_memcpy sse buffer pointer (screen_bytes m)).

(** The double buffer is not configured. *)
Definition vesa_flush_buffer : M (world vesa) unit := ret tt.

Definition vesa_set_transparent_char (enabled : Z) : M (world vesa) unit :=
  in_dev (modify (set_transparent (if decide (enabled = 1) then 1 else 0))).

(** ** The cursor *)

Definition saved_byte (index : Z) (s : vesa) : Z := nth (Z.to_nat index) (save_buff s) 0.

(** [vesa_draw_pixel(x, y, save_buff[index], ..., save_buff[index + 3])] *)
Definition restore_pixel (x y index : Z) : M (world vesa) unit :=
  let* s := in_dev (gets id) in
  vesa_draw_pixel x y (saved_byte index s) (saved_byte (index + 1) s) (saved_byte (index + 2) s) (saved_byte
    (index + 3) s) >>> ret tt.

(** [vesa_get_pixel(x, y, &save_buff[index], ..., &save_buff[index + 3])] *)
Definition save_pixel (x y index : Z) : M (world vesa) unit :=
  let* r := vesa_get_pixel false x y in
  match r.2 with
  | None => ret tt
  | Some (alpha, red, green, blue) =>
      in_dev (modify (fun s => set_save_buff
        (<[Z.to_nat (index + 3) := blue]> (<[Z.to_nat (index + 2) := green]>
          (<[Z.to_nat (index + 1) := red]> (<[Z.to_nat index := alpha]> (save_buff s))))) s))
  end.

Definition draw_cursor_pixel (x y index : Z) : M (world vesa) unit :=
  save_pixel x y index >>> vesa_draw_pixel x y 0xFF 0xFF 0xFF 0xFF >>> ret tt.

Definition vesa_put_cursor_at (line column : Z) : M (world vesa) OS_RETURN_E :=
  turns 16 0 (fun i =>
    let* c := var vs_cursor in
    restore_pixel (cur_x c) (u32 (cur_y c + i)) (8 * i) >>>
    restore_pixel (u32 (cur_x c + 1)) (u32 (cur_y c + i)) (8 * i + 4)) >>>
  in_dev (modify (set_vs_cursor (mk_cursor column line))) >>>
  let* m := mode in
  (if decide (u32 (column + 2) < vm_width m) then
     turns 16 0 (fun i =>
       draw_cursor_pixel column (u32 (line + i)) (8 * i) >>>
       draw_cursor_pixel (u32 (column + 1)) (u32 (line + i)) (8 * i + 4))
   else ret tt) >>>
  ret OS_NO_ERR.

Definition vesa_save_cursor (buffer : option cursor_t) : M (world vesa) (OS_RETURN_E * option cursor_t) :=
  match buffer with
  | None => ret (OS_ERR_NULL_POINTER, None)
  | Some _ => let* c := var vs_cursor in ret (OS_NO_ERR, Some c)
  end.

Definition vesa_restore_cursor (buffer : cursor_t) : M (world vesa) OS_RETURN_E :=
  let* m := mode in
  if decide (cur_x buffer >= vm_width m \/ cur_y buffer >= vm_height m) then ret OS_ERR_OUT_OF_BOUND
  else vesa_put_cursor_at (cur_y buffer) (cur_x buffer) >>> ret OS_NO_ERR.

(** [last_columns[i] = v;], [last_columns[i]] *)
Definition set_column (i v : Z) : M (world vesa) unit :=
  let* p := var vs_columns in in_mem (store32 (u32 (p + 4 * i)) v).

Definition get_column (i : Z) : M (world vesa) Z :=
  let* p := var vs_columns in in_mem (load32 (u32 (p + 4 * i))).

(** [last_columns[(screen_cursor.y / font_height)] = screen_cursor.x;] *)
Definition note_column : M (world vesa) unit :=
  let* c := var vs_cursor in set_column (cur_y c / font_height) (cur_x c).

(** ** Scrolling *)

(** [for(i = 0; i < q - 1; ++i)], [n] turns left; the address of the last line
    copied from. *)
Fixpoint move_up (n : nat) (i buffer line_size line_mem_size src : Z) : M (world vesa) Z :=
  match n with
  | O => ret src
  | S n =>
    let dst := u32 (buffer + 4 * (i * line_size)) in
    let src := u32 (dst + 4 * line_size) in
    in_mem (memmove dst src line_mem_size) >>>
    let* c := get_column (i + 1) in
    set_column i c >>>
    move_up n (i + 1) buffer line_size line_mem_size src
  end.

Fixpoint scroll_up_lines (n : nat) (q buffer line_size line_mem_size src : Z) : M (world vesa) Z :=
  match n with
  | O => ret src
  | S n =>
    let* src := move_up (Z.to_nat (q - 1)) 0 buffer line_size line_mem_size src in
    scroll_up_lines n q buffer line_size line_mem_size src
  end.

(** The counter of the lines is a [uint8_t]: with more than 256 of them its
    loop does not end. *)
Definition vesa_scroll (direction : SCROLL_DIRECTION_E) (lines_count : Z) : M (world vesa) unit :=
  let to_scroll := u8 lines_count in
  let* m := mode in
  let q := vm_height m / font_height in
  if decide (q = 0) then fault
  else
    let r := vm_height m mod (q * font_height) in
    let* buffer := var virt_buffer in
    let line_size := font_height * vm_width m in
    let bpp_size := Z.shiftr (Z.lor (vm_bpp m) 7) 3 in
    let line_mem_size := u32 (bpp_size * line_size) in
    (if decide (direction = SCROLL_DOWN) then
       if decide (q - 1 > 255 /\ 0 < to_scroll) then diverge
       else
         let* src := scroll_up_lines (Z.to_nat to_scroll) q buffer line_size line_mem_size
                       (u32 (buffer + 4 * line_size)) in
         in_mem (fast_memset src 0 line_mem_size)
     else ret tt) >>>
    vesa_put_cursor_at (u32 (vm_height m - r - font_height)) 0 >>>
    let* c := var vs_cursor in
    set_column (cur_y c / font_height) 0 >>>
    let* l := var vs_last in
    in_dev (modify (set_vs_last
      (if decide (to_scroll <= cur_y l) then mk_cursor (cur_x l) (u32 (cur_y l - to_scroll * font_height))
       else mk_cursor 0 0))).

(** ** Colors *)

Definition vesa_set_color_scheme (color_scheme : colorscheme_t) : M (world vesa) unit :=
  if decide (vga_color color_scheme <> 0) then
    match vga_color_table !! Z.to_nat (Z.land (foreground color_scheme) 0x0F),
          vga_color_table !! Z.to_nat (Z.shiftr (background color_scheme) 4) with
    | Some f, Some b => in_dev (modify (set_vs_scheme (mk_scheme f b (vga_color color_scheme))))
    | _, _ => fault
    end
  else in_dev (modify (set_vs_scheme (mk_scheme (foreground color_scheme) (background color_scheme) 0))).

Definition vesa_save_color_scheme (buffer : option colorscheme_t) :
  M (world vesa) (OS_RETURN_E * option colorscheme_t) :=
  match buffer with
  | None => ret (OS_ERR_NULL_POINTER, None)
  | Some _ => let* c := var vs_scheme in ret (OS_NO_ERR, Some c)
  end.

(** ** Characters *)

Section Driver.
Context (device : history -> Z -> Z) (polls : nat) (font_bitmap : Z).

(** [vesa_drawchar] with the colors of the screen. *)
Definition draw_text (charracter x y : Z) : M (world vesa) unit :=
  let* s := in_dev (gets id) in
  vesa_drawchar font_bitmap charracter x y (foreground (vs_scheme s))
    (if decide (transparent_char s <> 0) then 0 else background (vs_scheme s)).

Definition put_at (line column : Z) : M (world vesa) unit := vesa_put_cursor_at line column >>> ret tt.

(** The columns from the cursor on, up to [limit], get the background. *)
Definition remove_cursor (limit : Z) : M (world vesa) unit :=
  let* c := var vs_cursor in
  let* s := var vs_scheme in
  turns (Z.to_nat (limit - cur_x c)) (cur_x c) (fun i =>
    turns (Z.to_nat (u32 (cur_y c + font_height) - cur_y c)) (cur_y c) (fun j => draw_color i j (background s))).

Definition end_of_line (m : vesa_mode) : M (world vesa) unit :=
  remove_cursor (vm_width m) >>>
  let* c := var vs_cursor in put_at (u32 (cur_y c + font_height)) 0.

Definition print_printable (character : Z) : M (world vesa) unit :=
  let* m := mode in
  let* c := var vs_cursor in
  (if decide (u32 (cur_x c + font_width) >= vm_width m) then end_of_line m >>> note_column else ret tt) >>>
  let* c := var vs_cursor in
  (if decide (cur_y c > u32 (vm_height m - font_height)) then vesa_scroll SCROLL_DOWN 1 else ret tt) >>>
  let* c := var vs_cursor in
  put_at (cur_y c) (u32 (cur_x c + font_width)) >>>
  let* c := var vs_cursor in
  draw_text character (u32 (cur_x c - font_width)) (cur_y c) >>>
  (if decide (u32 (cur_x c + font_width) >= vm_width m) then end_of_line m else ret tt) >>>
  note_column.

Definition vesa_backspace : M (world vesa) unit :=
  let* l := var vs_last in
  let* c := var vs_cursor in
  let back :=
    draw_text 32 (cur_x c) (cur_y c) >>>
    draw_text 32 (u32 (cur_x c - font_width)) (cur_y c) >>>
    put_at (cur_y c) (u32 (cur_x c - font_width)) >>>
    note_column in
  if decide (cur_y l = cur_y c) then
    if decide (cur_x c > cur_x l) then back else ret tt
  else if decide (cur_y l < cur_y c) then
    if decide (cur_x c > 0) then back
    else
      draw_text 32 (cur_x c) (cur_y c) >>>
      let* k := get_column (cur_y c / font_height - 1) in
      draw_text 32 k (u32 (cur_y c - font_height)) >>>
      let* k := get_column (cur_y c / font_height - 1) in
      put_at (u32 (cur_y c - font_height)) k
  else ret tt.

Definition serial_copy (character : Z) : M (world vesa) unit :=
  in_dev (zoom vs_serial set_vs_serial (serial_write device polls COM1 character)).

(** The number of spaces of a tabulation.  [font_width] is unsigned, and so is
    the division. *)
Definition tab_spaces (m : vesa_mode) (x : Z) : Z :=
  let diff := i32 (vm_width m - (x + TAB_WIDTH * font_width)) in
  if decide (diff < 0) then i32 (TAB_WIDTH + u32 diff / font_width) else TAB_WIDTH.

(** A space is a printable character: the recursive calls of the tabulation
    go to the first case. *)
Definition vesa_tab : M (world vesa) unit :=
  let* m := mode in
  let* c := var vs_cursor in
  turns (Z.to_nat (tab_spaces m (cur_x c))) 0 (fun _ => serial_copy 32 >>> print_printable 32) >>>
  note_column.

Definition vesa_line_feed : M (world vesa) unit :=
  let* m := mode in
  remove_cursor (vm_width m) >>>
  note_column >>>
  let* c := var vs_cursor in
  if decide (u32 (cur_y c + font_height) <= u32 (vm_height m - font_height)) then
    remove_cursor (Z.min (vm_width m) (u32 (cur_x c + font_width))) >>>
    put_at (u32 (cur_y c + font_height)) 0 >>>
    note_column
  else vesa_scroll SCROLL_DOWN 1.

Definition vesa_line_return : M (world vesa) unit :=
  let* c := var vs_cursor in put_at (cur_y c) 0 >>> note_column.

(** [character] is a byte; as a [char] those from 128 on are negative, and no
    case is for them. *)
Definition vesa_process_char (character : Z) : M (world vesa) unit :=
  serial_copy character >>>
  if decide (character > 31 /\ character < 127) then print_printable character
  else if decide (character = 8) then vesa_backspace
  else if decide (character = 9) then vesa_tab
  else if decide (character = 10) then vesa_line_feed
  else if decide (character = 12) then vesa_clear_screen
  else if decide (character = 13) then vesa_line_return
  else ret tt.

Definition vesa_put_char (character : Z) : M (world vesa) unit :=
  vesa_process_char character >>>
  let* c := var vs_cursor in in_dev (modify (set_vs_last c)).

Fixpoint vesa_put_string_loop (fuel : nat) (string i : Z) : M (world vesa) unit :=
  match fuel with
  | O => diverge
  | S fuel =>
    let* n := in_mem (strlen string) in
    if decide (i < n) then
      let* c := in_mem (load (string + i)) in
      vesa_put_char c >>> vesa_put_string_loop fuel string (i + 1)
    else ret tt
  end.

Definition vesa_put_string (string : Z) : M (world vesa) unit :=
  let* fuel := in_mem (gets mem_fuel) in vesa_put_string_loop fuel string 0.

Definition vesa_console_write_keyboard (string size : Z) : M (world vesa) unit :=
  turns (Z.to_nat size) 0 (fun i => let* c := in_mem (load (string + i)) in vesa_process_char c).
End Driver.
