(* ===== verification/VesaScreen.v ===== *)
(** * The graphic screen: the picture and the terminal

    What the drawing functions do to the picture in the frame buffer: each is
    a painter, a function on every pixel.  Then the terminal that the screen
    refines, a picture with a cursor over it, and the cursor, the ends of the
    lines and the scrolling of the driver as operations of the terminal. *)
From S2P Require Import Prelude ByteMem MemInfo LibString LibStringTheorems Ports Vga VgaTheorems.
From S2P Require Import Vesa.

(** Red, green and blue. *)
Definition rgb : Type := Z * Z * Z.
Definition red (p : rgb) : Z := p.1.1.
Definition green (p : rgb) : Z := p.1.2.
Definition blue (p : rgb) : Z := p.2.

Definition rgb_ok (p : rgb) : Prop := 0 <= red p < 256 /\ 0 <= green p < 256 /\ 0 <= blue p < 256.

Definition picture : Type := Z -> Z -> rgb.
Definition painter : Type := Z -> Z -> rgb -> rgb.

Definition white : rgb := (255, 255, 255).
Definition black : rgb := (0, 0, 0).

(** A color of alpha, red, green and blue over a pixel. *)
Definition paint_over (alpha r g b : Z) (p : rgb) : rgb :=
  if decide (alpha = 255) then (r, g, b)
  else if decide (alpha <> 0) then (blend alpha r (red p), blend alpha g (green p), blend alpha b (blue p))
  else p.

Definition paint (c : Z) : rgb -> rgb := paint_over (color_alpha c) (color_red c) (color_green c) (color_blue c).

(** One pixel. *)
Definition dot (a b : Z) (f : rgb -> rgb) : painter :=
  fun x y p => if decide (x = a /\ y = b) then f p else p.

(** A rectangle; the color may depend on the place. *)
Definition area (a b w h : Z) (f : Z -> Z -> rgb -> rgb) : painter :=
  fun x y p => if decide (a <= x < a + w /\ b <= y < b + h) then f x y p else p.

Lemma paint_over_ok alpha r g b p : 0 <= r < 256 -> 0 <= g < 256 -> 0 <= b < 256 ->
  rgb_ok p -> rgb_ok (paint_over alpha r g b p).
Proof.
  intros Hr Hg Hb Hp. unfold paint_over. repeat case_decide; [by split| |done].
  unfold rgb_ok. split_and!; by apply Z.mod_pos_bound.
Qed.

Lemma color_range c : 0 <= color_alpha c < 256 /\ 0 <= color_red c < 256 /\ 0 <= color_green c < 256 /\ 0 <=
  color_blue c < 256.
Proof. split_and!; by apply Z.mod_pos_bound. Qed.

Lemma paint_ok c p : rgb_ok p -> rgb_ok (paint c p).
Proof. destruct (color_range c) as (_ & ? & ? & ?). by apply paint_over_ok. Qed.

Section Screen.
Context (W H fb : Z).
Context (font : Z) (glyph : Z -> Z -> Z).

Record screen_size : Prop := {
  sz_w : 0 < W < 2 ^ 16;
  sz_h : 0 < H < 2 ^ 16;
  sz_fb : 0 < fb;
  sz_end : fb + 4 * (W * H) <= 2 ^ 32
}.

(** The driver shows a mode of this size. *)
Record has_mode (s : vesa) : Prop := {
  hm_supported : vesa_supported s <> 0;
  hm_current : current_mode s <> NULL;
  hm_buffer : virt_buffer s = fb;
  hm_mode : exists m, vs_modes s !! current_mode s = Some m /\ vm_width m = W /\ vm_height m = H /\ vm_bpp m = 32
}.

Definition at_pixel (x y : Z) : Z := fb + 4 * (W * y + x).

Definition pixel_is (m : mem) (a : Z) (p : rgb) : Prop :=
  m !! a = Some (blue p) /\ m !! (a + 1) = Some (green p) /\ m !! (a + 2) = Some (red p) /\
  exists b, m !! (a + 3) = Some b /\ 0 <= b < 256.

Definition shows (m : mem) (V : picture) : Prop :=
  forall x y, 0 <= x < W -> 0 <= y < H -> pixel_is m (at_pixel x y) (V x y) /\ rgb_ok (V x y).

(** The bytes of the frame buffer are the only ones that change. *)
Definition outside_same (m m' : mem) : Prop := forall k, ~ (fb <= k < fb + 4 * (W * H)) -> m' !! k = m !! k.

(** The rows of the characters from 31 to 127 are in memory. *)
Definition font_at (m : mem) : Prop := forall c i, 31 <= c <= 127 -> 0 <= i < 16 ->
  m !! (font + (c - 31) * 16 + i) = Some (glyph c i).

Definition font_apart (p n : Z) : Prop := font + 97 * 16 <= p \/ p + n <= font.

Lemma shows_ext m V V' : shows m V -> (forall x y, 0 <= x < W -> 0 <= y < H -> V x y = V' x y) -> shows m V'.
Proof. intros Hs E x y Hx Hy. rewrite <- E by done. by apply Hs. Qed.

Lemma outside_trans m1 m2 m3 : outside_same m1 m2 -> outside_same m2 m3 -> outside_same m1 m3.
Proof. intros H1 H2 k Hk. by rewrite H2, H1. Qed.

Lemma at_pixel_range x y : 0 <= x < W -> 0 <= y < H -> fb <= at_pixel x y /\ at_pixel x y + 4 <= fb + 4 * (W * H).
Proof. intros Hx Hy. unfold at_pixel. nia. Qed.

(** Different pixels are apart. *)
Lemma at_pixel_apart x y a b : 0 <= x < W -> 0 <= a < W -> ~ (x = a /\ y = b) ->
  at_pixel x y + 4 <= at_pixel a b \/ at_pixel a b + 4 <= at_pixel x y.
Proof. intros Hx Ha Hn. unfold at_pixel. destruct (Z.lt_trichotomy y b) as [|[->|]]; nia. Qed.

(** ** One pixel *)

Section Painters.
Context (Hfont : font_apart fb (4 * (W * H))) (s : vesa).

Lemma font_kept m m' : font_at m -> outside_same m m' -> font_at m'.
Proof. intros Hm Ho c i Hc Hi. unfold font_apart in Hfont. rewrite Ho by lia. by apply Hm. Qed.

(** [op] paints the picture with [F] and keeps the variables of the driver. *)
Definition paints (op : M (world vesa) unit) (F : painter) : Prop := forall m V,
  has_mode s -> font_at m -> shows m V ->
  exists m', op (m, s) = Ret (tt, (m', s)) /\ shows m' (fun x y => F x y (V x y)) /\ outside_same m m'.

Lemma paints_ext op F G : paints op F ->
  (forall x y p, 0 <= x < W -> 0 <= y < H -> F x y p = G x y p) -> paints op G.
Proof.
  intros Hp E m V Hs Hm Hv. destruct (Hp m V Hs Hm Hv) as (m' & H1 & H2 & H3). exists m'. split; [done|].
  split; [|done]. eapply shows_ext; [exact H2|]. intros x y Hx Hy. by apply E.
Qed.

Lemma paints_seq op op2 F G : paints op F -> paints op2 G -> paints (op >>> op2) (fun x y p => G x y (F x y p)).
Proof.
  intros H1 H2 m V Hs Hm Hv. destruct (H1 m V Hs Hm Hv) as (m1 & E1 & V1 & O1).
  destruct (H2 m1 _ Hs (font_kept _ _ Hm O1) V1) as (m2 & E2 & V2 & O2).
  exists m2. rewrite (bind_ret _ _ _ _ _ E1). split; [done|]. split; [done|by eapply outside_trans].
Qed.

Lemma paints_ret : paints (ret tt) (fun _ _ p => p).
Proof. intros m V _ _ Hv. exists m. by split_and!. Qed.

(** A loop whose turn [k] paints the pixels of key [k]. *)
Lemma paints_turns (key : Z -> Z -> Z) (F : Z -> painter) (f : Z -> M (world vesa) unit) n : forall i,
  (forall k, i <= k < i + Z.of_nat n -> paints (f k) (F k)) ->
  (forall k x y p, key x y <> k -> F k x y p = p) ->
  paints (turns n i f) (fun x y p => if decide (i <= key x y < i + Z.of_nat n) then F (key x y) x y p else p).
Proof.
  induction n as [|n IH]; intros i Hf Hk; cbn [turns].
  { eapply paints_ext; [apply paints_ret|]. intros. by rewrite decide_False by lia. }
  eapply paints_ext.
  { eapply paints_seq; [apply Hf; lia|]. apply IH; [|done]. intros k Hi. apply Hf. lia. }
  intros x y p Hx Hy. destruct (decide (key x y = i)) as [E|E].
  - rewrite decide_False by lia. rewrite decide_True by lia. by rewrite E.
  - rewrite (Hk i) by done. destruct (decide (i + 1 <= key x y < i + 1 + Z.of_nat n)).
    + by rewrite decide_True by lia.
    + by rewrite decide_False by lia.
Qed.

Section Size.
Context (Hsize : screen_size).

Lemma pixel_addr_eq md x y : virt_buffer s = fb -> vm_width md = W -> 0 <= x < W -> 0 <= y < H ->
  pixel_addr md s x y = at_pixel x y.
Proof.
  intros Hb Hw Hx Hy. unfold pixel_addr. rewrite Hb, Hw. pose proof (at_pixel_range x y Hx Hy).
  destruct Hsize. apply u32_small. unfold at_pixel in *. lia.
Qed.

Lemma on_screen_run {A} (outside : vesa_mode -> bool) (bad : OS_RETURN_E -> A) k m :
  has_mode s ->
  exists md, vs_modes s !! current_mode s = Some md /\ vm_width md = W /\ vm_height md = H /\ vm_bpp md = 32 /\
    in_screen outside bad k (m, s) = (if outside md then ret (bad OS_ERR_OUT_OF_BOUND) else k md) (m, s).
Proof.
  intros [H1 H2 H3 (md & E & Hw & Hh & Hb)]. exists md. split_and!; try done.
  unfold in_screen. rewrite (in_dev_run _ s _ _ s) by done. rewrite decide_False, decide_False by done.
  unfold mode. rewrite bind_assoc, (in_dev_run _ s _ _ s) by done. cbn [id]. by rewrite E.
Qed.

Lemma get_pixel_run m V x y : has_mode s -> shows m V -> 0 <= x < W -> 0 <= y < H ->
  vesa_get_pixel false x y (m, s) =
    Ret ((OS_NO_ERR, Some (255, red (V x y), green (V x y), blue (V x y))), (m, s)).
Proof.
  intros Hs Hv Hx Hy. destruct Hsize as [Hw Hh _ _]. unfold vesa_get_pixel. rewrite !u16_small by lia.
  edestruct @on_screen_run as (md & _ & Ew & Eh & _ & ->); [done|].
  rewrite bool_decide_eq_false_2 by lia. rewrite (in_dev_run _ s _ _ s) by done. cbn [id].
  rewrite pixel_addr_eq; [|by apply Hs|done..].
  destruct (Hv x y Hx Hy) as ((Hb & Hg & Hr & _) & _).
  by rewrite (load_in_mem _ _ _ _ _ Hb), (load_in_mem _ _ _ _ _ Hg), (load_in_mem _ _ _ _ _ Hr).
Qed.

(** ** Writing a pixel *)

Definition pixel_bytes (p : rgb) : list Z := [blue p; green p; red p; 0].

Lemma store32_run m a v : mapped m a 4 ->
  store32 a v m = Ret (tt, put m a [v mod 2 ^ 8; (v / 2 ^ 8) mod 2 ^ 8; (v / 2 ^ 16) mod 2 ^ 8; (v / 2 ^ 24) mod 2 ^ 8]).
Proof.
  intros Hm. unfold store32. repeat rewrite mapped_S in Hm. destruct Hm as (H0 & H1 & H2 & H3 & _).
  replace (a + 1 + 1 + 1) with (a + 3) in H3 by lia. replace (a + 1 + 1) with (a + 2) in H2 by lia.
  cbn [put]. replace (a + 1 + 1 + 1) with (a + 3) by lia. replace (a + 1 + 1) with (a + 2) by lia.
  do 3 (rewrite store_run; [|rewrite ?lookup_insert_ne by lia; done|by apply Z.mod_pos_bound]).
  rewrite store_run_last; [done|rewrite ?lookup_insert_ne by lia; done|by apply Z.mod_pos_bound].
Qed.

Lemma store_pixel_run m a r g b : mapped m a 4 -> rgb_ok (r, g, b) ->
  store32 a (b + 2 ^ 8 * g + 2 ^ 16 * r) m = Ret (tt, put m a (pixel_bytes (r, g, b))).
Proof.
  intros Hm (Hr & Hg & Hb). cbn in Hr, Hg, Hb. rewrite store32_run by done. unfold pixel_bytes. cbn [red green blue fst snd].
  change (2 ^ 8) with 256. change (2 ^ 16) with 65536. change (2 ^ 24) with 16777216.
  do 2 f_equal. unfold put. do 4 f_equal; Z.to_euclidean_division_equations; lia.
Qed.

Lemma pixel_mapped m V x y : shows m V -> 0 <= x < W -> 0 <= y < H -> mapped m (at_pixel x y) 4.
Proof.
  intros Hv Hx Hy. destruct (Hv x y Hx Hy) as ((H0 & H1 & H2 & (b & H3 & _)) & _). intros i Hi.
  assert (i = 0 \/ i = 1 \/ i = 2 \/ i = 3)%nat as [->|[->|[->| ->]]] by lia;
    [rewrite Z.add_0_r; by eexists|by eexists|by eexists|by eexists].
Qed.

Lemma pixel_written m a p : pixel_is (put m a (pixel_bytes p)) a p.
Proof.
  pose proof (bytes_at_put m a (pixel_bytes p)) as Hb. unfold pixel_is. split_and!.
  - specialize (Hb 0%nat (blue p) eq_refl). by rewrite Z.add_0_r in Hb.
  - by apply (Hb 1%nat).
  - by apply (Hb 2%nat).
  - exists 0. split; [by apply (Hb 3%nat)|done].
Qed.

Lemma pixel_kept m a b p q : pixel_is m a p -> a + 4 <= b \/ b + 4 <= a -> pixel_is (put m b (pixel_bytes q)) a p.
Proof. intros Hp Ha. unfold pixel_is. by rewrite !put_lookup_ne by (cbn; lia). Qed.

Lemma shows_write m V a b p : shows m V -> 0 <= a < W -> 0 <= b < H -> rgb_ok p ->
  shows (put m (at_pixel a b) (pixel_bytes p)) (fun x y => if decide (x = a /\ y = b) then p else V x y) /\
  outside_same m (put m (at_pixel a b) (pixel_bytes p)).
Proof.
  intros Hv Ha Hb Hp. split.
  - intros x y Hx Hy. case_decide as E.
    + destruct E as [-> ->]. split; [apply pixel_written|done].
    + destruct (Hv x y Hx Hy) as [H1 H2]. split; [|done]. apply pixel_kept; [done|by apply at_pixel_apart].
  - intros k Hk. apply put_lookup_ne. pose proof (at_pixel_range a b Ha Hb). cbn. lia.
Qed.

Lemma draw_pixel_run m V x y alpha r g b :
  has_mode s -> shows m V -> 0 <= x < W -> 0 <= y < H -> 0 <= r < 256 -> 0 <= g < 256 -> 0 <= b < 256 ->
  exists m', vesa_draw_pixel x y alpha r g b (m, s) = Ret (OS_NO_ERR, (m', s)) /\
    shows m' (fun u v => dot x y (paint_over alpha r g b) u v (V u v)) /\ outside_same m m'.
Proof.
  intros Hs Hv Hx Hy Hr Hg Hb. pose proof Hsize as [Hw Hh _ _]. unfold vesa_draw_pixel. rewrite !u16_small by lia.
  edestruct @on_screen_run as (md & _ & Ew & Eh & _ & ->); [done|].
  rewrite bool_decide_eq_false_2 by lia. rewrite (in_dev_run _ s _ _ s) by done. cbn [id].
  rewrite pixel_addr_eq; [|by apply Hs|done..].
  assert (forall p, rgb_ok p -> exists m', in_mem (store32 (at_pixel x y) (blue p + 2 ^ 8 * green p + 2 ^ 16
    * red p)) (m, s) =
    Ret (tt, (m', s)) /\ shows m' (fun u v => if decide (u = x /\ v = y) then p else V u v) /\ outside_same m m') as Hwr.
  { intros [[r0 g0] b0] Hp. exists (put m (at_pixel x y) (pixel_bytes (r0, g0, b0))).
    unfold in_mem, zoom. cbn [fst snd red green blue]. rewrite store_pixel_run; [|by eapply pixel_mapped|done].
    split; [done|by apply shows_write]. }
  destruct (Hv x y Hx Hy) as ((Hbl & Hgr & Hre & _) & Hok). unfold dot, paint_over.
  destruct (decide (alpha = 255)).
  - destruct (Hwr (r, g, b)) as (m' & E & V' & O); [done|]. exists m'. cbn [red green blue fst snd] in E.
    rewrite (bind_ret _ _ _ _ _ E). by split.
  - destruct (decide (alpha <> 0)).
    + rewrite (load_in_mem _ _ _ _ _ Hbl), (load_in_mem _ _ _ _ _ Hgr), (load_in_mem _ _ _ _ _ Hre).
      set (p := (blend alpha r (red (V x y)), blend alpha g (green (V x y)), blend alpha b (blue (V x y)))).
      destruct (Hwr p) as (m' & E & V' & O); [unfold rgb_ok; split_and!; by apply Z.mod_pos_bound|].
      exists m'. cbn [p red green blue fst snd] in E. rewrite (bind_ret _ _ _ _ _ E). split; [done|]. split; [|done].
      eapply shows_ext; [exact V'|]. intros u v _ _. cbn beta. case_decide as Eu; [by destruct Eu as [-> ->]|done].
    + exists m. split; [done|]. split; [|done]. eapply shows_ext; [exact Hv|]. intros u v _ _. by case_decide.
Qed.

Lemma draw_pixel_paints x y alpha r g b : 0 <= x < W -> 0 <= y < H -> 0 <= r < 256 -> 0 <= g < 256 -> 0 <= b < 256 ->
  paints (vesa_draw_pixel x y alpha r g b >>> ret tt) (dot x y (paint_over alpha r g b)).
Proof.
  intros Hx Hy Hr Hg Hb m V Hs _ Hv.
  destruct (draw_pixel_run m V x y alpha r g b Hs Hv Hx Hy Hr Hg Hb) as (m' & E & V' & O).
  exists m'. by rewrite (bind_ret _ _ _ _ _ E).
Qed.

Lemma draw_color_paints x y c : 0 <= x < W -> 0 <= y < H -> paints (draw_color x y c) (dot x y (paint c)).
Proof. intros Hx Hy. destruct (color_range c) as (_ & ? & ? & ?). by apply draw_pixel_paints. Qed.

(** ** Rectangles and characters *)

Lemma area_paints a b w h (f : Z -> Z -> M (world vesa) unit) (F : Z -> Z -> rgb -> rgb) :
  (forall x y, a <= x < a + Z.of_nat w -> b <= y < b + Z.of_nat h -> paints (f x y) (dot x y (F x y))) ->
  paints (turns w a (fun x => turns h b (fun y => f x y))) (area a b (Z.of_nat w) (Z.of_nat h) F).
Proof.
  intros Hf. eapply paints_ext.
  - apply (paints_turns (fun x _ => x) (fun k x y p =>
      if decide (b <= y < b + Z.of_nat h) then dot k y (F k y) x y p else p)).
    + intros k Hk. apply (paints_turns (fun _ y => y) (fun j => dot k j (F k j))).
      * intros j Hj. by apply Hf.
      * intros j x y p Hn. unfold dot. by rewrite decide_False by lia.
    + intros k x y p Hn. case_decide; [|done]. unfold dot. by rewrite decide_False by lia.
  - intros x y p _ _. unfold area, dot. repeat case_decide; done || lia.
Qed.

(** Rows first. *)
Lemma area_rows_paints a b w h (f : Z -> Z -> M (world vesa) unit) (F : Z -> Z -> rgb -> rgb) :
  (forall x y, a <= x < a + Z.of_nat w -> b <= y < b + Z.of_nat h -> paints (f y x) (dot x y (F x y))) ->
  paints (turns h b (fun y => turns w a (fun x => f y x))) (area a b (Z.of_nat w) (Z.of_nat h) F).
Proof.
  intros Hf. eapply paints_ext.
  - apply (paints_turns (fun _ y => y) (fun k x y p =>
      if decide (a <= x < a + Z.of_nat w) then dot x k (F x k) x y p else p)).
    + intros k Hk. apply (paints_turns (fun x _ => x) (fun j => dot j k (F j k))).
      * intros j Hj. by apply Hf.
      * intros j x y p Hn. unfold dot. by rewrite decide_False by lia.
    + intros k x y p Hn. case_decide; [|done]. unfold dot. by rewrite decide_False by lia.
  - intros x y p _ _. unfold area, dot. repeat case_decide; done || lia.
Qed.

Lemma draw_rectangle_run m V x y w h alpha r g b :
  has_mode s -> font_at m -> shows m V -> 0 <= x -> 0 <= y -> 0 <= w -> 0 <= h -> x + w <= W -> y + h <= H ->
  0 <= r < 256 -> 0 <= g < 256 -> 0 <= b < 256 ->
  exists m', vesa_draw_rectangle x y w h alpha r g b (m, s) = Ret (OS_NO_ERR, (m', s)) /\
    shows m' (fun u v => area x y w h (fun _ _ => paint_over alpha r g b) u v (V u v)) /\ outside_same m m'.
Proof.
  intros Hs Hm Hv Hx Hy Hw Hh Hxw Hyh Hr Hg Hb. pose proof Hsize as [Hsw Hsh _ _]. unfold vesa_draw_rectangle.
  rewrite !u16_small by lia. edestruct @on_screen_run as (md & _ & Ew & Eh & _ & ->); [done|].
  rewrite bool_decide_eq_false_2 by lia.
  destruct (area_rows_paints x y (Z.to_nat w) (Z.to_nat h)
    (fun i j => vesa_draw_pixel j i alpha r g b >>> ret tt) (fun _ _ => paint_over alpha r g b)) with (m := m) (V := V)
    as (m' & E & V' & O); [|done..|].
  { intros u v Hu Hw'. apply draw_pixel_paints; [lia..|done|done|done]. }
  rewrite !Z2Nat.id in V' by lia. exists m'. by rewrite (bind_ret _ _ _ _ _ E).
Qed.

(** The colors of a character: the bits of a row, the left pixel first. *)
Definition char_color (c fg bg x y : Z) : Z := if Z.testbit (glyph c y) (7 - x) then fg else bg.

Definition char_at (c a b fg bg : Z) : painter :=
  area a b 8 16 (fun x y => paint (char_color c fg bg (x - a) (y - b))).

Lemma vs_land_bit g n : 0 <= n -> (Z.land g (2 ^ n) <> 0) <-> Z.testbit g n = true.
Proof.
  intros Hn. split.
  - intros Hl. destruct (Z.testbit g n) eqn:E; [done|]. destruct Hl. apply Z.bits_inj'. intros k Hk.
    rewrite Z.land_spec, Z.pow2_bits_eqb, Z.bits_0 by done. destruct (Z.eqb_spec n k) as [->|]; [by rewrite
      E|apply andb_false_r].
  - intros Ht Hl. assert (Z.testbit (Z.land g (2 ^ n)) n = true) as Hb
      by (by rewrite Z.land_spec, Ht, Z.pow2_bits_true).
    by rewrite Hl, Z.bits_0 in Hb.
Qed.

Lemma drawchar_paints c a b fg bg : 31 <= c <= 127 -> 0 <= a -> a + 8 <= W -> 0 <= b -> b + 16 <= H ->
  paints (vesa_drawchar font c a b fg bg) (char_at c a b fg bg).
Proof.
  intros Hc Ha Haw Hb Hbh. pose proof Hsize as [Hw Hh _ _]. unfold vesa_drawchar. eapply paints_ext.
  - apply (paints_turns (fun _ y => y - b) (fun i x y p =>
      if decide (0 <= a + 7 - x < 0 + Z.of_nat 8) then dot x (b + i) (paint (char_color c fg bg (x - a) i)) x y p else p)).
    + intros i Hi. cbn beta. eapply paints_ext.
      * apply (paints_turns (fun x _ => a + 7 - x) (fun j => dot (a + (7 - j)) (b + i) (paint (char_color c
        fg bg (7 - j) i)))).
        -- intros j Hj m V Hs Hm Hv. rewrite (load_in_mem _ _ _ _ _ (Hm c i Hc ltac:(lia))).
           rewrite !u32_small by lia. unfold char_color. replace (7 - (7 - j)) with j by lia.
           assert ((if decide (Z.land (glyph c i) (2 ^ j) <> 0) then fg else bg) =
             (if Z.testbit (glyph c i) j then fg else bg)) as ->.
           { rewrite (decide_ext _ _ _ _ (vs_land_bit (glyph c i) j ltac:(lia))). by destruct (Z.testbit (glyph c i) j). }
           apply draw_color_paints; [lia..|done|done|done].
        -- intros j x y p Hn. unfold dot. by rewrite decide_False by lia.
      * intros x y p _ _. destruct (decide (0 <= a + 7 - x < 0 + Z.of_nat 8)) as [H8|H8];
          [rewrite !decide_True by done|by rewrite !decide_False by done].
        replace (7 - (a + 7 - x)) with (x - a) by lia. by replace (a + (x - a)) with x by lia.
    + intros i x y p Hn. case_decide; [|done]. unfold dot. by rewrite decide_False by lia.
  - intros x y p _ _. unfold char_at, area, dot. repeat case_decide; done || lia.
Qed.

(** ** Blocks of memory *)

(** Every byte of the frame buffer is a byte of a pixel. *)
Lemma frame_byte a : fb <= a < fb + 4 * (W * H) ->
  exists x y i, 0 <= x < W /\ 0 <= y < H /\ 0 <= i < 4 /\ a = at_pixel x y + i.
Proof.
  intros Ha. clear - Hsize Ha. destruct Hsize as [Hw Hh _ _]. set (n := (a - fb) / 4). exists (n mod W), (n /
    W), ((a - fb) mod 4).
  assert (0 <= n < W * H) as Hn by (unfold n; Z.to_euclidean_division_equations; nia).
  split; [apply Z.mod_pos_bound; lia|]. split; [split; [apply Z.div_pos; lia|apply Z.div_lt_upper_bound; lia]|].
  split; [by apply Z.mod_pos_bound|]. unfold at_pixel. rewrite <- Z.div_mod by lia. unfold n.
  pose proof (Z.div_mod (a - fb) 4). lia.
Qed.

Lemma frame_value m V a : shows m V -> fb <= a < fb + 4 * (W * H) -> exists b, m !! a = Some b /\ 0 <= b < 256.
Proof.
  intros Hv Ha. destruct (frame_byte a Ha) as (x & y & i & Hx & Hy & Hi & ->).
  destruct (Hv x y Hx Hy) as ((H0 & H1 & H2 & H3) & (Hr & Hg & Hb)).
  assert (i = 0 \/ i = 1 \/ i = 2 \/ i = 3) as [->|[->|[->| ->]]] by lia; [rewrite Z.add_0_r; by eexists|by eexists..|done].
Qed.

Lemma frame_mapped m V a n : shows m V -> fb <= a -> a + Z.of_nat n <= fb + 4 * (W * H) -> mapped m a n.
Proof. intros Hv Ha Hn i Hi. destruct (frame_value m V (a + Z.of_nat i) Hv) as (b & E & _); [lia|]. by eexists. Qed.

(** A block moved inside of the frame buffer. *)
Lemma memmove_frame m V dst src n : shows m V -> fb <= src -> src + Z.of_nat n <= fb + 4 * (W * H) ->
  fb <= dst -> dst + Z.of_nat n <= fb + 4 * (W * H) ->
  exists m', memmove dst src (Z.of_nat n) m = Ret (dst, m') /\
    (forall k, dst <= k < dst + Z.of_nat n -> m' !! k = m !! (src + (k - dst))) /\
    (forall k, ~ (dst <= k < dst + Z.of_nat n) -> m' !! k = m !! k).
Proof.
  intros Hv Hs Hsn Hd Hdn. set (l := bytes_from m src n).
  assert (bytes_at m src l) as Hl by (apply bytes_from_at; by eapply frame_mapped).
  assert (length l = n) as Hn by apply bytes_from_length.
  assert (is_bytes l) as Hb.
  { apply Forall_lookup_2. intros i x Hx. apply lookup_lt_Some in Hx as Hi.
    destruct (frame_value m V (src + Z.of_nat i) Hv) as (b & E & Hb); [lia|]. rewrite (Hl i x Hx) in E. by simplify_eq. }
  exists (put m dst l). rewrite <- Hn at 1. rewrite memmove_run; [|done|done|rewrite Hn; by eapply frame_mapped].
  split; [done|]. split.
  - intros k Hk. destruct (lookup_lt_is_Some_2 l (Z.to_nat (k - dst))) as [x Hx]; [lia|].
    replace k with (dst + Z.of_nat (Z.to_nat (k - dst))) at 1 by lia. rewrite (put_lookup _ _ _ _ _ Hx).
    rewrite <- (Hl _ _ Hx). f_equal. lia.
  - intros k Hk. apply put_lookup_ne. by rewrite Hn.
Qed.

(** Zeros from a row on are black pixels. *)
Lemma memset_frame m V row n : shows m V -> 0 <= row -> 0 <= n -> row + n <= H ->
  exists m', fast_memset (at_pixel 0 row) 0 (4 * (W * n)) m = Ret (tt, m') /\
    shows m' (fun x y => if decide (row <= y < row + n) then black else V x y) /\ outside_same m m'.
Proof.
  intros Hv Hr Hn Hh. destruct Hsize as [Hw Hh' _ _]. set (k := Z.to_nat (4 * (W * n))).
  assert (Z.of_nat k = 4 * (W * n)) as Hk by (unfold k; nia).
  exists (put m (at_pixel 0 row) (replicate k 0)). unfold fast_memset. rewrite <- Hk.
  rewrite (bind_ret _ _ _ _ _ (memset_run (at_pixel 0 row) 0 k m ltac:(eapply frame_mapped; [done|unfold
    at_pixel; nia..]) ltac:(lia))).
  split; [done|]. split.
  - intros x y Hx Hy. destruct (Hv x y Hx Hy) as [Hp Ho]. case_decide as Hin.
    + assert (forall j, 0 <= j < 4 -> put m (at_pixel 0 row) (replicate k 0) !! (at_pixel x y + j) = Some 0) as Hz.
      { intros j Hj. apply put_zeros. unfold at_pixel. nia. }
      split; [|by split_and!]. unfold pixel_is. rewrite <- (Z.add_0_r (at_pixel x y)) at 1.
      split_and!; [by apply Hz..|]. exists 0. split; [by apply Hz|done].
    + split; [|done]. unfold pixel_is. rewrite !put_lookup_ne by (rewrite length_replicate; unfold at_pixel; nia). exact Hp.
  - intros a Ha. apply put_lookup_ne. rewrite length_replicate. unfold at_pixel. nia.
Qed.

Lemma clear_run m V : has_mode s -> shows m V ->
  exists m', vesa_clear_screen (m, s) = Ret (tt, (m', s)) /\ shows m' (fun _ _ => black) /\ outside_same m m'.
Proof.
  intros [H1 H2 H3 (md & E & Hw & Hh & Hb)] Hv. pose proof Hsize as [Hsw Hsh Hf He].
  destruct (memset_frame m V 0 H Hv) as (m' & Em & V' & O); [lia..|].
  exists m'. unfold vesa_clear_screen, mode. rewrite bind_assoc, (in_dev_run _ s _ _ s) by done. cbn [id]. rewrite E.
  unfold var. rewrite bind_ret_l, (in_dev_run _ _ _ _ s) by done.
  replace (screen_bytes md) with (4 * (W * H)).
  - rewrite H3. unfold in_mem, zoom. cbn [fst snd]. replace fb with (at_pixel 0 0) at 1 by (unfold at_pixel; lia).
    rewrite Em. split; [done|]. split; [|done]. eapply shows_ext; [exact V'|]. intros x y Hx Hy. cbn beta. by
      rewrite decide_True by lia.
  - unfold screen_bytes. rewrite Hw, Hh, Hb. change (32 / 8) with 4. rewrite u32_small; nia.
Qed.

End Size.
End Painters.
End Screen.

(** * The terminal

    Moving the cursor never changes the picture; the characters paint it. *)

(** ** The terminal *)

(** [vt_cover] is what is seen at the place of the cursor, two pixels by
    sixteen; there is none before the cursor has been put once. *)
Record vterm : Type := mk_vterm {
  vt_pic : picture;
  vt_cover : option picture;
  vt_cursor : cursor_t;
  vt_last : cursor_t;
  vt_columns : list Z
}.

Definition under_cursor (c : cursor_t) (x y : Z) : Prop := cur_x c <= x < cur_x c + 2 /\ cur_y c <= y < cur_y c + 16.

#[export] Instance under_cursor_dec c x y : Decision (under_cursor c x y).
Proof. unfold under_cursor. apply _. Defined.

Definition covered (t : vterm) (x y : Z) : Prop := is_Some (vt_cover t) /\ under_cursor (vt_cursor t) x y.

#[export] Instance covered_dec t x y : Decision (covered t x y).
Proof. unfold covered. apply _. Defined.

(** What is seen. *)
Definition look (t : vterm) : picture := fun x y =>
  match vt_cover t with
  | Some c => if decide (under_cursor (vt_cursor t) x y) then c x y else vt_pic t x y
  | None => vt_pic t x y
  end.

(** What is drawn over the cursor is lost when it moves. *)
Definition draw (F : painter) (t : vterm) : vterm :=
  mk_vterm (fun x y => if decide (covered t x y) then vt_pic t x y else F x y (vt_pic t x y))
    ((fun c x y => F x y (c x y)) <$> vt_cover t) (vt_cursor t) (vt_last t) (vt_columns t).

Definition move (x y : Z) (t : vterm) : vterm :=
  mk_vterm (vt_pic t) (Some (fun _ _ => white)) (mk_cursor x y) (vt_last t) (vt_columns t).

Definition with_cols (l : list Z) (t : vterm) : vterm :=
  mk_vterm (vt_pic t) (vt_cover t) (vt_cursor t) (vt_last t) l.

(** The line of the cursor ends where it is. *)
Definition note (t : vterm) : vterm :=
  with_cols (<[Z.to_nat (cur_y (vt_cursor t) / 16) := cur_x (vt_cursor t)]> (vt_columns t)) t.

Section Terminal.
Context (W H : Z).

(** The cursor is on a character, and every line ends at one. *)
Definition text_place (x : Z) : Prop := 0 <= x /\ x + 8 <= W /\ x mod 8 = 0.
Definition text_line (y : Z) : Prop := 0 <= y /\ y + 16 <= H /\ y mod 16 = 0.

Record vterm_ok (t : vterm) : Prop := {
  vk_x : text_place (cur_x (vt_cursor t));
  vk_y : text_line (cur_y (vt_cursor t));
  vk_last_x : 0 <= cur_x (vt_last t);
  vk_last_y : 0 <= cur_y (vt_last t) /\ cur_y (vt_last t) mod 16 = 0 /\ cur_y (vt_last t) < 2 ^ 32;
  vk_columns : Z.of_nat (length (vt_columns t)) = H / 16;
  vk_column : Forall text_place (vt_columns t)
}.

Record text_size : Prop := {
  ts_w : 16 <= W;
  ts_h : 32 <= H <= 4096;
  ts_cols : W mod 8 = 0;
  ts_lines : H mod 16 = 0
}.

(** The picture goes up by a line of text, but for what is under the cursor;
    the cursor as it was seen goes up with the rest. *)
Definition scroll_text (t : vterm) : vterm :=
  mk_vterm (fun x y =>
      if decide (covered t x y) then vt_pic t x y
      else if decide (y < H - 16) then look t x (y + 16) else black)
    (Some (fun _ _ => white)) (mk_cursor 0 (H - 16))
    (if decide (1 <= cur_y (vt_last t)) then mk_cursor (cur_x (vt_last t)) (cur_y (vt_last t) - 16)
     else mk_cursor 0 0)
    (drop 1 (vt_columns t) ++ [0]).

Section Places.
Context (Hsize : text_size).

Lemma move_ok x y t : vterm_ok t -> text_place x -> text_line y -> vterm_ok (move x y t).
Proof. intros [] Hx Hy. by split. Qed.

Lemma draw_ok F t : vterm_ok t -> vterm_ok (draw F t).
Proof. intros []. by split. Qed.

Lemma note_ok t : vterm_ok t -> vterm_ok (note t).
Proof. intros []. split; try done; cbn; [by rewrite length_insert|by apply Forall_insert]. Qed.

Lemma first_place : text_place 0.
Proof. destruct Hsize. split_and!; [done|lia|done]. Qed.

Lemma next_line y : text_line y -> y + 32 <= H -> text_line (y + 16).
Proof. intros (H1 & H2 & H3) Hn. split_and!; [lia..|]. by rewrite <- Z.add_mod_idemp_r, Z.add_0_r by done. Qed.

(** A character further, unless it was the last of the line. *)
Lemma next_place x : text_place x -> x + 16 <= W -> text_place (x + 8).
Proof. intros (H1 & H2 & H3) Hn. split_and!; [lia..|]. by rewrite <- Z.add_mod_idemp_r, Z.add_0_r by done. Qed.

Lemma wide x : text_place x -> ~ x + 8 >= W -> x + 16 <= W.
Proof. intros (H1 & H2 & H3) Hn. destruct Hsize. Z.to_euclidean_division_equations. lia. Qed.

Lemma scroll_text_ok t : vterm_ok t -> vterm_ok (scroll_text t).
Proof.
  intros [A1 A2 A3 (A4 & A5 & A6) A7 A8]. pose proof Hsize as [B1 B2 B3 B4].
  split; cbn [vt_cursor vt_last vt_columns scroll_text cur_x cur_y].
  - apply first_place.
  - split_and!; [lia..|]. Z.to_euclidean_division_equations; lia.
  - case_decide; [done|cbn; lia].
  - case_decide; cbn [cur_y]; [|done]. Z.to_euclidean_division_equations; lia.
  - rewrite length_app, length_drop. cbn [length]. assert (2 <= H / 16) by (apply Z.div_le_lower_bound; lia). lia.
  - apply Forall_app. split; [by apply Forall_drop|]. constructor; [apply first_place|constructor].
Qed.
End Places.

Section Text.
Context (glyph : Z -> Z -> Z) (fg bg : Z) (transparent : bool).

Definition blank (limit : Z) (t : vterm) : vterm :=
  let '(mk_cursor x y) := vt_cursor t in draw (area x y (limit - x) 16 (fun _ _ => paint bg)) t.

Lemma blank_cursor limit t : vt_cursor (blank limit t) = vt_cursor t.
Proof. unfold blank. by destruct (vt_cursor t) eqn:E. Qed.

Definition draw_glyph (c x y : Z) : vterm -> vterm :=
  draw (char_at glyph c x y fg (if transparent then 0 else bg)).

(** The rest of the line is blanked and the cursor goes to the next one;
    nothing after the last line of the screen. *)
Definition line_end (t : vterm) : option vterm :=
  let y := cur_y (vt_cursor t) in
  if decide (y + 32 <= H) then Some (move 0 (y + 16) (blank W t)) else None.

Definition vprint (c : Z) (t : vterm) : option vterm :=
  t ← (if decide (cur_x (vt_cursor t) + 8 >= W) then note <$> line_end t else Some t);
  let '(mk_cursor x y) := vt_cursor t in
  let t := draw_glyph c x y (move (x + 8) y t) in
  t ← (if decide (x + 16 >= W) then line_end t else Some t);
  Some (note t).

Definition vline_feed (t : vterm) : vterm :=
  let '(mk_cursor x y) := vt_cursor t in
  let t := note (blank W t) in
  if decide (y + 32 <= H) then note (move 0 (y + 16) (blank (Z.min W (x + 8)) t)) else scroll_text t.

Definition vback (t : vterm) : vterm :=
  let '(mk_cursor x y) := vt_cursor t in
  let l := vt_last t in
  if decide (cur_y l < y \/ (cur_y l = y /\ cur_x l < x)) then
    if decide (0 < x) then note (move (x - 8) y (draw_glyph 32 (x - 8) y (draw_glyph 32 x y t)))
    else
      let k := nth (Z.to_nat (y / 16 - 1)) (vt_columns t) 0 in
      move k (y - 16) (draw_glyph 32 k (y - 16) (draw_glyph 32 x y t))
  else t.

(** A tabulation is four spaces, when there is room for them. *)
Fixpoint vspaces (n : nat) (t : vterm) : option vterm :=
  match n with O => Some t | S n => t ← vprint 32 t; vspaces n t end.

Definition vtab (t : vterm) : option vterm :=
  if decide (cur_x (vt_cursor t) + 32 <= W) then t ← vspaces 4 t; Some (note t) else None.

(** One character. *)
Definition vtype (c : Z) (t : vterm) : option vterm :=
  if decide (c > 31 /\ c < 127) then vprint c t
  else if decide (c = 8) then Some (vback t)
  else if decide (c = 9) then vtab t
  else if decide (c = 10) then Some (vline_feed t)
  else if decide (c = 12) then Some (draw (fun _ _ _ => black) t)
  else if decide (c = 13) then Some (note (move 0 (cur_y (vt_cursor t)) t))
  else Some t.

Definition vput (c : Z) (t : vterm) : option vterm :=
  t ← vtype c t;
  Some (mk_vterm (vt_pic t) (vt_cover t) (vt_cursor t) (vt_cursor t) (vt_columns t)).

Fixpoint vput_all (l : list Z) (t : vterm) : option vterm :=
  match l with [] => Some t | c :: l => t ← vput c t; vput_all l t end.

(** *** The invariant *)

Section Invariant.
Context (Hsize : text_size).

Lemma blank_ok limit t : vterm_ok t -> vterm_ok (blank limit t).
Proof. intros Hok. unfold blank. destruct (vt_cursor t). by apply draw_ok. Qed.

Lemma line_end_ok t t' : vterm_ok t -> line_end t = Some t' -> vterm_ok t' /\ vt_cursor t' = mk_cursor 0
  (cur_y (vt_cursor t) + 16).
Proof.
  intros Hok. unfold line_end. case_decide; [|done]. intros [= <-]. split; [|done].
  apply move_ok; [by apply blank_ok|apply (first_place Hsize)|]. apply next_line; [by apply Hok|done].
Qed.

Lemma vprint_ok c t t' : vterm_ok t -> vprint c t = Some t' -> vterm_ok t'.
Proof.
  intros Hok Hp. unfold vprint in Hp. apply bind_Some in Hp as (t1 & H1 & Hp).
  assert (vterm_ok t1 /\ cur_x (vt_cursor t1) + 16 <= W) as [Hok1 Hw].
  { case_decide as Hx.
    - apply fmap_Some in H1 as (t2 & H2 & ->). destruct (line_end_ok _ _ Hok H2) as [Hk Hc].
      split; [by apply note_ok|]. cbn. rewrite Hc. by apply Hsize.
    - simplify_eq. split; [done|]. apply (wide Hsize); [apply Hok|done]. }
  pose proof (vk_x _ Hok1) as Hx1. pose proof (vk_y _ Hok1) as Hy1. destruct (vt_cursor t1) as [x y] eqn:Ec. cbn in *.
  apply bind_Some in Hp as (t2 & H2 & [= <-]). apply note_ok. assert (vterm_ok (draw_glyph c x y (move (x + 8) y t1))) as Hd.
  { apply draw_ok, move_ok; [done|by apply next_place|done]. }
  case_decide; [by apply (line_end_ok _ _ Hd)|by simplify_eq].
Qed.

Lemma vspaces_ok n : forall t t', vterm_ok t -> vspaces n t = Some t' -> vterm_ok t'.
Proof.
  induction n as [|n IH]; intros t t' Hok Hs; [by simplify_eq/=|].
  apply bind_Some in Hs as (t1 & H1 & Hs). eapply IH; [|done]. by eapply vprint_ok.
Qed.

Lemma vline_feed_ok t : vterm_ok t -> vterm_ok (vline_feed t).
Proof.
  intros Hok. pose proof (vk_y _ Hok) as Hy. unfold vline_feed. destruct (vt_cursor t) as [x y] eqn:Ec. cbn in Hy.
  assert (vterm_ok (note (blank W t))) as Hn by (by apply note_ok, blank_ok).
  case_decide.
  - apply note_ok, move_ok; [by apply blank_ok|apply (first_place Hsize)|by apply next_line].
  - by apply scroll_text_ok.
Qed.

Lemma vback_ok t : vterm_ok t -> vterm_ok (vback t).
Proof.
  intros Hok. pose proof (vk_x _ Hok) as (Hx1 & Hx2 & Hx3). pose proof (vk_y _ Hok) as (Hy1 & Hy2 & Hy3).
  unfold vback. destruct (vt_cursor t) as [x y] eqn:Ec. cbn [cur_x cur_y] in *. case_decide as Hb; [|done].
  assert (forall a b c d, vterm_ok (draw_glyph 32 a b (draw_glyph 32 c d t))) as Hd by (intros; by do 2 apply draw_ok).
  case_decide as Hx.
  - apply note_ok, move_ok; [apply Hd| |done]. split_and!; Z.to_euclidean_division_equations; lia.
  - apply move_ok; [apply Hd| |].
    + destruct (lookup_lt_is_Some_2 (vt_columns t) (Z.to_nat (y / 16 - 1))) as [k Hk].
      { pose proof (vk_columns _ Hok). pose proof (vk_last_y _ Hok) as [? _]. destruct Hsize.
        Z.to_euclidean_division_equations. lia. }
      rewrite (nth_lookup_Some _ _ _ _ Hk). by eapply Forall_lookup_1; [apply (vk_column _ Hok)|].
    + pose proof (vk_last_y _ Hok) as [? _]. pose proof (vk_last_x _ Hok). split_and!;
      Z.to_euclidean_division_equations; lia.
Qed.

Lemma vtype_ok c t t' : vterm_ok t -> vtype c t = Some t' -> vterm_ok t'.
Proof.
  intros Hok. unfold vtype. repeat case_decide; intros Ht; simplify_eq; try done.
  - by eapply vprint_ok.
  - by apply vback_ok.
  - unfold vtab in Ht. case_decide; [|done]. apply bind_Some in Ht as (t1 & Hsp & [= <-]).
    apply note_ok. by eapply vspaces_ok.
  - by apply vline_feed_ok.
  - by apply draw_ok.
  - apply note_ok, move_ok; [done|apply (first_place Hsize)|apply Hok].
Qed.

Lemma vput_ok c t t' : vterm_ok t -> vput c t = Some t' -> vterm_ok t'.
Proof.
  intros Hok Hp. apply bind_Some in Hp as (t1 & H1 & [= <-]). pose proof (vtype_ok _ _ _ Hok H1) as [A1 A2 A3 A4 A5 A6].
  destruct A1 as (? & ? & ?), A2 as (? & ? & ?), Hsize. split; try done; cbn; [|split_and!; lia..]. lia.
Qed.
End Invariant.
End Text.
End Terminal.

(** * The execution of the driver *)

(** What the driver never changes while it prints. *)
Definition settings (s : vesa) : gmap Z vesa_mode * Z * Z * Z * Z * colorscheme_t * Z :=
  (vs_modes s, current_mode s, vesa_supported s, virt_buffer s, vs_columns s, vs_scheme s, transparent_char s).

Definition word_bytes (v : Z) : list Z := [v mod 2 ^ 8; (v / 2 ^ 8) mod 2 ^ 8; (v / 2 ^ 16) mod 2 ^ 8; (v / 2
  ^ 24) mod 2 ^ 8].

Lemma load32_run m p v : bytes_at m p (word_bytes v) -> 0 <= v < 2 ^ 32 -> load32 p m = Ret (v, m).
Proof.
  intros Hb Hv. pose proof (Hb 0%nat _ eq_refl) as H0. rewrite Z.add_0_r in H0. unfold load32.
  rewrite (load_run _ _ _ _ H0), (load_run _ _ _ _ (Hb 1%nat _ eq_refl)), (load_run _ _ _ _ (Hb 2%nat _ eq_refl)),
    (load_run _ _ _ _ (Hb 3%nat _ eq_refl)).
  unfold ret. do 2 f_equal. change (2 ^ 8) with 256 in *. change (2 ^ 16) with 65536 in *.
  change (2 ^ 24) with 16777216 in *. change (2 ^ 32) with 4294967296 in *. Z.to_euclidean_division_equations. lia.
Qed.

Section Console.
Context (W H fb lc font : Z) (glyph : Z -> Z -> Z).

(** The frame buffer, the array of columns and the font have addresses of
    their own. *)
Record layout : Prop := {
  ly_size : screen_size W H fb;
  ly_text : text_size W H;
  ly_font : font_apart font fb (4 * (W * H));
  ly_font_cols : font_apart font lc (4 * (H / 16));
  ly_cols : 0 < lc /\ lc + 4 * (H / 16) <= 2 ^ 32;
  ly_apart : fb + 4 * (W * H) <= lc \/ lc + 4 * (H / 16) <= fb
}.

Definition columns_at (m : mem) (cols : list Z) : Prop := forall i v, cols !! i = Some v ->
  bytes_at m (lc + 4 * Z.of_nat i) (word_bytes v).

(** The four bytes of [save_buff] from [index] on are an opaque pixel. *)
Definition saved_is (buf : list Z) (index : Z) (p : rgb) : Prop :=
  nth (Z.to_nat index) buf 0 = 255 /\ nth (Z.to_nat (index + 1)) buf 0 = red p /\
  nth (Z.to_nat (index + 2)) buf 0 = green p /\ nth (Z.to_nat (index + 3)) buf 0 = blue p.

Definition saves (buf : list Z) (t : vterm) : Prop :=
  match vt_cover t with
  | None => forall i, nth i buf 0 = 0
  | Some _ => forall i d, 0 <= i < 16 -> 0 <= d < 2 ->
      saved_is buf (8 * i + 4 * d) (vt_pic t (cur_x (vt_cursor t) + d) (cur_y (vt_cursor t) + i))
  end.

Record displays (w : world vesa) (t : vterm) : Prop := {
  vd_mode : has_mode W H fb w.2;
  vd_ptr : vs_columns w.2 = lc;
  vd_font : font_at font glyph w.1;
  vd_pic : shows W H fb w.1 (look t);
  vd_under : forall x y, 0 <= x < W -> 0 <= y < H -> rgb_ok (vt_pic t x y);
  vd_cols : columns_at w.1 (vt_columns t);
  vd_cursor : vs_cursor w.2 = vt_cursor t;
  vd_last : vs_last w.2 = vt_last t;
  vd_buf : length (save_buff w.2) = 256%nat /\ is_bytes (save_buff w.2);
  vd_saves : saves (save_buff w.2) t
}.

(** The memory elsewhere and the settings stay what they are. *)
Record frame (w w' : world vesa) : Prop := {
  fr_mem k : ~ (fb <= k < fb + 4 * (W * H)) -> ~ (lc <= k < lc + 4 * (H / 16)) -> w'.1 !! k = w.1 !! k;
  fr_set : settings w'.2 = settings w.2
}.

Lemma vs_frame_refl w : frame w w.
Proof. by split. Qed.

Lemma vs_frame_trans w1 w2 w3 : frame w1 w2 -> frame w2 w3 -> frame w1 w3.
Proof. intros [H1 H2] [H3 H4]. split; [|by rewrite H4]. intros k Hk Hl. by rewrite H3, H1. Qed.

Lemma has_mode_settings s s' : settings s' = settings s -> has_mode W H fb s -> has_mode W H fb s'.
Proof.
  intros E [H1 H2 H3 (md & H4 & H5)]. unfold settings in E. injection E as E1 E2 E3 E4 E5 E6 E7.
  split; [congruence..|]. exists md. split; [congruence|done].
Qed.

(** [op] returns [a] and displays [t']. *)
Definition evolves {A} (op : M (world vesa) A) (a : A) (w : world vesa) (t' : vterm) : Prop :=
  exists w', op w = Ret (a, w') /\ displays w' t' /\ frame w w'.

Lemma vs_evolves_bind {A B} (op : M (world vesa) A) (k : A -> M (world vesa) B) a b w t1 t2 :
  evolves op a w t1 ->
  (forall w1, displays w1 t1 -> frame w w1 -> evolves (k a) b w1 t2) -> evolves (bind op k) b w t2.
Proof.
  intros (w1 & H1 & D1 & F1) Hk. destruct (Hk w1 D1 F1) as (w2 & H2 & D2 & F2).
  exists w2. rewrite (bind_ret _ _ _ _ _ H1). split; [done|]. split; [done|by eapply vs_frame_trans].
Qed.

Lemma vs_evolves_ret {A} (a : A) w t : displays w t -> evolves (ret a) a w t.
Proof. intros D. exists w. split; [done|]. split; [done|apply vs_frame_refl]. Qed.

Lemma var_run {A B} (f : vesa -> A) (k : A -> M (world vesa) B) w : bind (var f) k w = k (f w.2) w.
Proof. by destruct w. Qed.

Lemma evolves_var {A B} (f : vesa -> A) (k : A -> M (world vesa) B) b w t :
  evolves (k (f w.2)) b w t -> evolves (bind (var f) k) b w t.
Proof. intros Hk. unfold evolves. by rewrite var_run. Qed.

Lemma vs_evolves_cursor {B} (k : cursor_t -> M (world vesa) B) b w t t' :
  displays w t -> evolves (k (vt_cursor t)) b w t' -> evolves (bind (var vs_cursor) k) b w t'.
Proof. intros D Hk. apply evolves_var. by rewrite (vd_cursor _ _ D). Qed.

Lemma mode_run {A} (k : vesa_mode -> M (world vesa) A) w : has_mode W H fb w.2 ->
  exists md, vm_width md = W /\ vm_height md = H /\ vm_bpp md = 32 /\ bind mode k w = k md w.
Proof.
  intros [_ _ _ (md & E & Hw & Hh & Hb)]. exists md. split_and!; try done. destruct w as [m s].
  unfold mode. rewrite bind_assoc, (in_dev_run _ s _ _ s) by done. cbn [id snd] in *. by rewrite E.
Qed.

Lemma evolves_mode {A} (k : vesa_mode -> M (world vesa) A) a w t t' : displays w t ->
  (forall md, vm_width md = W -> vm_height md = H -> vm_bpp md = 32 -> evolves (k md) a w t') ->
  evolves (bind mode k) a w t'.
Proof. intros D Hk. unfold evolves. destruct (mode_run k w (vd_mode _ _ D)) as (md & ? & ? & ? & ->). by apply Hk. Qed.

Section Layout.
Context (HL : layout).

Lemma columns_kept m m' cols : columns_at m cols -> Z.of_nat (length cols) = H / 16 ->
  outside_same W H fb m m' -> columns_at m' cols.
Proof.
  intros Hc Hl Ho i v Hi j x Hj. rewrite <- (Hc i v Hi j x Hj). apply Ho.
  apply lookup_lt_Some in Hi, Hj. cbn [length word_bytes] in Hj. destruct HL. lia.
Qed.

(** ** Drawing *)

Lemma look_draw F t x y : look (draw F t) x y = F x y (look t x y).
Proof.
  unfold look, draw. cbn [vt_cover vt_cursor vt_pic]. destruct (vt_cover t) as [c|] eqn:Ec; cbn.
  - case_decide as Hu; [done|]. rewrite decide_False; [done|]. by intros [_ ?].
  - rewrite decide_False; [done|]. intros [[? ?] _]. by rewrite Ec in *.
Qed.

Lemma draw_run op F w t :
  displays w t -> Z.of_nat (length (vt_columns t)) = H / 16 -> paints W H fb font glyph w.2 op F ->
  (forall x y p, rgb_ok p -> rgb_ok (F x y p)) -> evolves op tt w (draw F t).
Proof.
  intros [A1 A2 A3 A4 A5 A6 A7 A8 A9 A10] Hl Hp Hf. destruct w as [m s]. cbn [fst snd] in *.
  destruct (Hp m _ A1 A3 A4) as (m' & E & V & O). exists (m', s). split; [done|]. split.
  - split; cbn [fst snd]; try done.
    + eapply font_kept; [apply HL|done..].
    + eapply shows_ext; [exact V|]. intros x y _ _. by rewrite look_draw.
    + intros x y Hx Hy. cbn. case_decide; [by apply A5|by apply Hf, A5].
    + by eapply columns_kept.
    + unfold saves in *. cbn [vt_cover draw]. destruct (vt_cover t) as [c|] eqn:Ec; cbn; [|done].
      intros i d Hi Hd. rewrite decide_True; [by apply A10|]. split; [by rewrite Ec|]. unfold under_cursor. lia.
  - split; [|done]. intros k Hk _. by apply O.
Qed.

(** ** The cursor *)

Lemma paint_opaque r g b p : paint_over 255 r g b p = (r, g, b).
Proof. done. Qed.

Lemma saved_range s i : is_bytes (save_buff s) -> 0 <= saved_byte i s < 256.
Proof.
  intros Hb. unfold saved_byte. destruct (save_buff s !! Z.to_nat i) as [v|] eqn:E.
  - rewrite (nth_lookup_Some _ _ _ _ E). by apply (Forall_lookup_1 _ _ _ _ Hb E).
  - rewrite nth_lookup, E. simpl. lia.
Qed.

Lemma restore_paints s x y index : 0 <= x < W -> 0 <= y < H ->
  is_bytes (save_buff s) -> 0 <= index ->
  paints W H fb font glyph s (restore_pixel x y index)
    (dot x y (paint_over (saved_byte index s) (saved_byte (index + 1) s) (saved_byte (index + 2) s)
      (saved_byte (index + 3) s))).
Proof.
  intros Hx Hy Hb Hi m V Hs Hm Hv. pose proof (fun i => saved_range s i Hb) as Hr. unfold restore_pixel.
    rewrite (in_dev_run _ s _ _ s) by done. cbn [id].
  assert (paints W H fb font glyph s (vesa_draw_pixel x y (saved_byte index s) (saved_byte (index + 1) s)
    (saved_byte (index + 2) s)
    (saved_byte (index + 3) s) >>> ret tt) (dot x y (paint_over (saved_byte index s) (saved_byte (index + 1)
      s) (saved_byte (index + 2) s)
    (saved_byte (index + 3) s)))) as Hd by (apply draw_pixel_paints; try done; [apply HL|apply Hr..]).
  by apply Hd.
Qed.

(** The first half of [vesa_put_cursor_at]. *)
Definition restore_all : M (world vesa) unit :=
  turns 16 0 (fun i =>
    let* c := var vs_cursor in
    restore_pixel (cur_x c) (u32 (cur_y c + i)) (8 * i) >>>
    restore_pixel (u32 (cur_x c + 1)) (u32 (cur_y c + i)) (8 * i + 4)).

Definition cursor_fits (c : cursor_t) : Prop := 0 <= cur_x c /\ cur_x c + 2 <= W /\ 0 <= cur_y c /\ cur_y c + 16 <= H.

(** What the saved pixels do to the one at their place. *)
Definition uncover (s : vesa) (index : Z) : rgb -> rgb :=
  paint_over (saved_byte index s) (saved_byte (index + 1) s) (saved_byte (index + 2) s) (saved_byte (index + 3) s).

Lemma uncover_saved s index p q : saved_is (save_buff s) index p -> uncover s index q = p.
Proof.
  intros (H1 & H2 & H3 & H4). unfold uncover, saved_byte. rewrite H1, H2, H3, H4. by destruct p as [[? ?] ?].
Qed.

Lemma restore_all_run m s t : displays (m, s) t -> cursor_fits (vt_cursor t) ->
  exists m', restore_all (m, s) = Ret (tt, (m', s)) /\ shows W H fb m' (vt_pic t) /\ outside_same W H fb m m'.
Proof.
  intros [A1 A2 A3 A4 A5 A6 A7 A8 [A9 Ab] A10] (Hx1 & Hx2 & Hy1 & Hy2). cbn [fst snd] in *.
  pose proof HL as [[Hw Hh _ _] _ _ _ _ _].
  set (F := fun i x y p => dot (cur_x (vt_cursor t) + 1) (cur_y (vt_cursor t) + i) (uncover s (8 * i + 4)) x y
    (dot (cur_x (vt_cursor t)) (cur_y (vt_cursor t) + i) (uncover s (8 * i)) x y p)).
  assert (paints W H fb font glyph s restore_all
    (fun x y p => if decide (0 <= y - cur_y (vt_cursor t) < 0 + Z.of_nat 16) then F (y - cur_y (vt_cursor t))
      x y p else p)) as Hp.
  { apply (paints_turns W H fb font glyph (ly_font HL) s (fun _ y => y - cur_y (vt_cursor t)) F).
    - intros i Hi m1 V Hs Hm Hv. rewrite var_run. cbn [snd]. rewrite A7, !u32_small by lia.
      apply (paints_seq W H fb font glyph (ly_font HL)); try done; (apply restore_paints; [lia|lia|done|lia]).
    - intros i x y p Hn. unfold F, dot. by rewrite !decide_False by lia. }
  destruct (Hp m _ A1 A3 A4) as (m' & E & V & O). exists m'. split; [done|]. split; [|done].
  eapply shows_ext; [exact V|]. intros x y Hx Hy. cbn beta. unfold look, F, dot, saves in *.
  destruct (vt_cover t) as [c|].
  - case_decide as Hi.
    + pose proof (A10 (y - cur_y (vt_cursor t)) 0 ltac:(lia) ltac:(lia)) as S0.
      pose proof (A10 (y - cur_y (vt_cursor t)) 1 ltac:(lia) ltac:(lia)) as S1.
      rewrite Z.add_0_r in S0. rewrite Z.mul_1_r in S1.
      replace (cur_y (vt_cursor t) + (y - cur_y (vt_cursor t))) with y in * by lia.
      destruct (decide (x = cur_x (vt_cursor t) + 1 /\ y = y)) as [[-> _]|]; [by apply uncover_saved|].
      destruct (decide (x = cur_x (vt_cursor t) /\ y = y)) as [[-> _]|]; [rewrite Z.add_0_r in S0; by apply uncover_saved|].
      rewrite decide_False; [done|]. unfold under_cursor. lia.
    + rewrite decide_False; [done|]. unfold under_cursor. lia.
  - assert (forall i q, uncover s i q = q) as Hu.
    { intros i q. unfold uncover, saved_byte. by rewrite !A10. }
    repeat case_decide; by rewrite ?Hu.
Qed.

(** A pixel written at [index]. *)
Definition write4 (index : Z) (p : rgb) (buf : list Z) : list Z :=
  <[Z.to_nat (index + 3) := blue p]> (<[Z.to_nat (index + 2) := green p]>
    (<[Z.to_nat (index + 1) := red p]> (<[Z.to_nat index := 255]> buf))).

Lemma write4_bytes index p buf : rgb_ok p -> is_bytes buf -> is_bytes (write4 index p buf).
Proof. intros (Hr & Hg & Hb) H0. unfold write4, is_bytes. by repeat apply Forall_insert. Qed.

Lemma write4_length index p buf : length (write4 index p buf) = length buf.
Proof. unfold write4. by rewrite !length_insert. Qed.

Lemma write4_saved index p buf : 0 <= index -> index + 4 <= Z.of_nat (length buf) -> saved_is (write4 index p buf) index p.
Proof.
  intros Hi Hl. assert (forall i v, write4 index p buf !! i = Some v -> nth i (write4 index p buf) 0 = v) as Hn.
  { intros i v. apply nth_lookup_Some. }
  unfold saved_is. split_and!; apply Hn; unfold write4.
  - rewrite !list_lookup_insert_ne by lia. apply list_lookup_insert_eq. lia.
  - rewrite !list_lookup_insert_ne by lia. apply list_lookup_insert_eq. rewrite ?length_insert. lia.
  - rewrite !list_lookup_insert_ne by lia. apply list_lookup_insert_eq. rewrite ?length_insert. lia.
  - apply list_lookup_insert_eq. rewrite ?length_insert. lia.
Qed.

Lemma write4_other index p buf j q : 0 <= index -> 0 <= j -> index + 4 <= j \/ j + 4 <= index ->
  saved_is buf j q -> saved_is (write4 index p buf) j q.
Proof.
  intros Hi Hj Ha (H0 & H1 & H2 & H3). unfold saved_is, write4. rewrite !nth_lookup in *.
  by rewrite !list_lookup_insert_ne by lia.
Qed.

Lemma draw_cursor_pixel_run m s V x y index : has_mode W H fb s -> font_at font glyph m -> shows W H fb m V
  -> 0 <= x < W -> 0 <= y < H ->
  exists m', draw_cursor_pixel x y index (m, s) = Ret (tt, (m', set_save_buff (write4 index (V x y) (save_buff s)) s)) /\
    shows W H fb m' (fun u v => dot x y (fun _ => white) u v (V u v)) /\ outside_same W H fb m m'.
Proof.
  intros Hs Hm Hv Hx Hy. unfold draw_cursor_pixel, save_pixel. rewrite bind_assoc.
  rewrite (bind_ret _ _ _ _ _ (get_pixel_run W H fb s (ly_size HL) m V x y Hs Hv Hx Hy)). cbn [snd].
  rewrite (in_dev_run _ tt _ _ (set_save_buff (write4 index (V x y) (save_buff s)) s)) by done.
  set (s' := set_save_buff _ s). assert (has_mode W H fb s') as Hs' by (by apply (has_mode_settings s)).
  assert (paints W H fb font glyph s' (vesa_draw_pixel x y 0xFF 0xFF 0xFF 0xFF >>> ret tt)
    (dot x y (paint_over 0xFF 0xFF 0xFF 0xFF))) as Hd by (apply draw_pixel_paints; first [lia|apply HL]).
  by apply Hd.
Qed.

(** The second half of [vesa_put_cursor_at]. *)
Definition save_all (line column : Z) (n : nat) (i : Z) : M (world vesa) unit :=
  turns n i (fun i =>
    draw_cursor_pixel column (u32 (line + i)) (8 * i) >>>
    draw_cursor_pixel (u32 (column + 1)) (u32 (line + i)) (8 * i + 4)).

Definition whitened (c : cursor_t) (n : Z) (P : picture) : picture := fun x y =>
  if decide (cur_x c <= x < cur_x c + 2 /\ cur_y c <= y < cur_y c + n) then white else P x y.

Lemma save_all_run c P n : forall i m s,
  0 <= i -> i + Z.of_nat n = 16 -> cursor_fits c -> has_mode W H fb s -> font_at font glyph m ->
  (forall x y, 0 <= x < W -> 0 <= y < H -> rgb_ok (P x y)) ->
  shows W H fb m (whitened c i P) -> length (save_buff s) = 256%nat -> is_bytes (save_buff s) ->
  (forall j d, 0 <= j < i -> 0 <= d < 2 -> saved_is (save_buff s) (8 * j + 4 * d) (P (cur_x c + d) (cur_y c + j))) ->
  exists m' buf, save_all (cur_y c) (cur_x c) n i (m, s) = Ret (tt, (m', set_save_buff buf s)) /\
    shows W H fb m' (whitened c 16 P) /\ outside_same W H fb m m' /\ length buf = 256%nat /\ is_bytes buf /\
    (forall j d, 0 <= j < 16 -> 0 <= d < 2 -> saved_is buf (8 * j + 4 * d) (P (cur_x c + d) (cur_y c + j))).
Proof.
  induction n as [|n IH]; intros i m s Hi Hn Hc Hs Hm Hok Hv Hl Hb Hsv.
  { exists m, (save_buff s). replace i with 16 in * by lia. split; [by destruct s|]. by split_and!. }
  pose proof HL as [[Hw Hh _ _] _ _ _ _ _]. pose proof Hc as (Hx1 & Hx2 & Hy1 & Hy2).
  unfold save_all. cbn [turns]. fold (save_all (cur_y c) (cur_x c) n (i + 1)).
  rewrite !u32_small by lia. rewrite bind_assoc.
  destruct (draw_cursor_pixel_run m s _ (cur_x c) (cur_y c + i) (8 * i) Hs Hm Hv ltac:(lia) ltac:(lia))
    as (m1 & E1 & V1 & O1). rewrite (bind_ret _ _ _ _ _ E1).
  set (s1 := set_save_buff _ s) in *. assert (has_mode W H fb s1) as Hs1 by (by apply (has_mode_settings s)).
  assert (font_at font glyph m1) as Hm1 by (eapply font_kept; [apply HL|done..]).
  destruct (draw_cursor_pixel_run m1 s1 _ (cur_x c + 1) (cur_y c + i) (8 * i + 4) Hs1 Hm1 V1 ltac:(lia) ltac:(lia))
    as (m2 & E2 & V2 & O2). rewrite (bind_ret _ _ _ _ _ E2).
  set (s2 := set_save_buff _ s1) in *. assert (has_mode W H fb s2) as Hs2 by (by apply (has_mode_settings s1)).
  assert (whitened c i P (cur_x c) (cur_y c + i) = P (cur_x c) (cur_y c + i)) as W0
    by (unfold whitened; by rewrite decide_False by lia).
  assert (dot (cur_x c) (cur_y c + i) (fun _ => white) (cur_x c + 1) (cur_y c + i)
    (whitened c i P (cur_x c + 1) (cur_y c + i)) = P (cur_x c + 1) (cur_y c + i)) as W1
    by (unfold dot, whitened; by rewrite !decide_False by lia).
  assert (save_buff s2 = write4 (8 * i + 4) (P (cur_x c + 1) (cur_y c + i)) (write4 (8 * i) (P (cur_x c)
    (cur_y c + i)) (save_buff s)))
    as Eb by (unfold s2, s1; cbn [save_buff set_save_buff]; by rewrite W0, W1).
  destruct (IH (i + 1) m2 s2) as (m' & buf & E & V' & O & Hr); try done; try lia.
  - by eapply font_kept; [apply HL|..].
  - eapply shows_ext; [exact V2|]. intros x y _ _. cbn beta. unfold dot, whitened. repeat case_decide; done || lia.
  - by rewrite Eb, !write4_length.
  - rewrite Eb. apply write4_bytes; [apply Hok; lia|]. apply write4_bytes; [apply Hok; lia|done].
  - intros j d Hj Hd. rewrite Eb. destruct (decide (j = i)) as [->|].
    + assert (d = 0 \/ d = 1) as [->| ->] by lia.
      * replace (8 * i + 4 * 0) with (8 * i) by lia. rewrite Z.add_0_r. apply write4_other; [lia..|]. apply
        write4_saved; lia.
      * apply write4_saved; rewrite ?write4_length; lia.
    + apply write4_other; [lia..|]. apply write4_other; [lia..|]. apply Hsv; lia.
  - exists m', buf. split; [exact E|]. split; [done|]. split; [|done].
    eapply outside_trans; [exact O1|]. by eapply outside_trans.
Qed.

Definition columns_ok (t : vterm) : Prop := Z.of_nat (length (vt_columns t)) = H / 16.

Lemma vs_put_cursor_at_run line column w t :
  displays w t -> columns_ok t -> cursor_fits (vt_cursor t) -> cursor_fits (mk_cursor column line) -> column + 2 < W ->
  evolves (vesa_put_cursor_at line column) OS_NO_ERR w (move column line t).
Proof.
  intros D Hl Hc Hc' Hlt. destruct w as [m s]. pose proof HL as [[Hw Hh _ _] _ _ _ _ _].
  destruct (restore_all_run m s t D Hc) as (m1 & E1 & V1 & O1). pose proof Hc' as (Hx1 & Hx2 & Hy1 & Hy2).
    cbn [cur_x cur_y] in *.
  destruct D as [A1 A2 A3 A4 A5 A6 A7 A8 [A9 Ab] A10]. cbn [fst snd] in *.
  set (c := mk_cursor column line). set (s1 := set_vs_cursor c s).
  assert (has_mode W H fb s1) as Hs1 by (by apply (has_mode_settings s)).
  assert (font_at font glyph m1) as Hm1 by (eapply font_kept; [apply HL|done..]).
  destruct (save_all_run c (vt_pic t) 16 0 m1 s1) as (m2 & buf & E2 & V2 & O2 & Hb1 & Hb2 & Hb3); try done.
  { eapply shows_ext; [exact V1|]. intros x y _ _. unfold whitened. by rewrite decide_False by lia. }
  { intros j d Hj. lia. }
  exists (m2, set_save_buff buf s1). split.
  - unfold vesa_put_cursor_at. fold restore_all. rewrite (bind_ret _ _ _ _ _ E1), (in_dev_run _ tt _ _ s1) by done.
    destruct (mode_run (fun m => (if decide (u32 (column + 2) < vm_width m) then
      save_all line column 16 0 else ret tt) >>> ret OS_NO_ERR) (m1, s1) Hs1) as (md & Ew & _ & _ & Em).
    unfold save_all in Em at 1. rewrite Em, Ew, u32_small, decide_True by lia. by rewrite (bind_ret _ _ _ _ _ E2).
  - assert (outside_same W H fb m m2) as O by (by eapply outside_trans). split.
    + split; cbn [fst snd move vt_columns vt_pic vt_cover vt_cursor vt_last]; try done.
      * by apply (has_mode_settings s1).
      * eapply font_kept; [apply HL|done..].
      * by eapply columns_kept.
    + split; [|done]. intros k Hk _. by apply O.
Qed.

Lemma put_at_run line column w t :
  displays w t -> columns_ok t -> cursor_fits (vt_cursor t) -> cursor_fits (mk_cursor column line) -> column + 2 < W ->
  evolves (put_at line column) tt w (move column line t).
Proof.
  intros D Hl Hc Hc' Hlt. eapply vs_evolves_bind; [by apply vs_put_cursor_at_run|]. intros w1 D1 _. by apply vs_evolves_ret.
Qed.

(** ** The ends of the lines *)

Lemma word_bytes_length v : length (word_bytes v) = 4%nat.
Proof. done. Qed.

(** The memory of the driver alone: a picture and the ends of the lines. *)
Record raw (m : mem) (s : vesa) (V : picture) (cols : list Z) : Prop := {
  rw_mode : has_mode W H fb s;
  rw_ptr : vs_columns s = lc;
  rw_font : font_at font glyph m;
  rw_pic : shows W H fb m V;
  rw_cols : columns_at m cols;
  rw_length : Z.of_nat (length cols) = H / 16
}.

Definition same_elsewhere (m m' : mem) : Prop := forall k,
  ~ (fb <= k < fb + 4 * (W * H)) -> ~ (lc <= k < lc + 4 * (H / 16)) -> m' !! k = m !! k.

Lemma displays_raw m s t : displays (m, s) t -> columns_ok t -> raw m s (look t) (vt_columns t).
Proof. by intros [A1 A2 A3 A4 A5 A6 A7 A8 A9 A10] Hl. Qed.

Lemma set_column_raw i v m s V cols : raw m s V cols -> 0 <= i < H / 16 ->
  exists m', set_column i v (m, s) = Ret (tt, (m', s)) /\ raw m' s V (<[Z.to_nat i := v]> cols) /\ same_elsewhere m m'.
Proof.
  intros [A1 A2 A3 A4 A6 Hl] Hi. pose proof HL as [_ _ _ Hfc [Hc1 Hc2] Hap].
  assert (u32 (lc + 4 * i) = lc + 4 * i) as Eu by (apply u32_small; lia).
  destruct (lookup_lt_is_Some_2 cols (Z.to_nat i)) as [old Ho]; [lia|].
  pose proof (A6 _ _ Ho) as Hb. rewrite Z2Nat.id in Hb by lia.
  exists (put m (lc + 4 * i) (word_bytes v)). unfold set_column. rewrite var_run. cbn [snd]. rewrite A2, Eu.
  split.
  { unfold in_mem, zoom. cbn [fst snd]. rewrite store32_run; [done|]. by apply mapped_bytes in Hb. }
  assert (forall k, ~ (lc + 4 * i <= k < lc + 4 * i + 4) -> put m (lc + 4 * i) (word_bytes v) !! k = m !! k) as Hk.
  { intros k Hk. apply put_lookup_ne. cbn [length word_bytes]. lia. }
  split; [|intros k _ Hk2; apply Hk; lia]. split; try done.
  - intros c j Hc Hj. rewrite Hk by (unfold font_apart in Hfc; lia). by apply A3.
  - intros x y Hx Hy. destruct (A4 x y Hx Hy) as [Hp Hok]. split; [|done].
    pose proof (at_pixel_range W H fb x y Hx Hy). unfold pixel_is. rewrite !Hk by lia. exact Hp.
  - intros j x Hj. destruct (decide (j = Z.to_nat i)) as [->|Hne].
    + rewrite list_lookup_insert_eq in Hj by lia. injection Hj as <-. rewrite Z2Nat.id by lia. apply bytes_at_put.
    + rewrite list_lookup_insert_ne in Hj by done. apply bytes_at_put_apart; [unfold apart; cbn [length word_bytes]; lia|].
      by apply A6.
  - by rewrite length_insert.
Qed.

Lemma get_column_raw i v m s V cols : raw m s V cols -> cols !! Z.to_nat i = Some v -> 0 <= v < 2 ^ 32 -> 0 <= i ->
  get_column i (m, s) = Ret (v, (m, s)).
Proof.
  intros [A1 A2 A3 A4 A6 Hl] Ho Hv Hi. pose proof HL as [_ _ _ _ [Hc1 Hc2] _]. apply lookup_lt_Some in Ho as Hlt.
  pose proof (A6 _ _ Ho) as Hb. rewrite Z2Nat.id in Hb by lia.
  unfold get_column. rewrite var_run. cbn [snd]. rewrite A2, u32_small by lia.
  unfold in_mem, zoom. cbn [fst snd]. by rewrite (load32_run _ _ _ Hb Hv).
Qed.

Lemma set_column_run i v w t : displays w t -> columns_ok t -> 0 <= i < H / 16 ->
  evolves (set_column i v) tt w (with_cols (<[Z.to_nat i := v]> (vt_columns t)) t).
Proof.
  intros D Hl Hi. destruct w as [m s].
  destruct (set_column_raw i v m s _ _ (displays_raw m s t D Hl) Hi) as (m' & E & [B1 B2 B3 B4 B5 B6] & O).
  exists (m', s). split; [done|]. destruct D as [A1 A2 A3 A4 A5 A6 A7 A8 A9 A10]. by split.
Qed.

Lemma get_column_run i w t : displays w t -> columns_ok t -> Forall (fun v => 0 <= v < 2 ^ 32) (vt_columns t)
  -> 0 <= i < H / 16 ->
  evolves (get_column i) (nth (Z.to_nat i) (vt_columns t) 0) w t.
Proof.
  intros D Hl Hv Hi. unfold columns_ok in Hl. destruct (lookup_lt_is_Some_2 (vt_columns t) (Z.to_nat i)) as [v Ho]; [lia|].
  rewrite (nth_lookup_Some _ _ _ _ Ho). exists w. split; [|split; [done|apply vs_frame_refl]]. destruct w as [m s].
  eapply get_column_raw; [by apply displays_raw|done| |lia]. by apply (Forall_lookup_1 _ _ _ _ Hv Ho).
Qed.

Lemma note_column_run w t : displays w t -> columns_ok t -> 0 <= cur_y (vt_cursor t) < H ->
  evolves note_column tt w (note t).
Proof.
  intros D Hl Hy. unfold note_column. eapply vs_evolves_cursor; [done|]. unfold font_height.
  apply set_column_run; [done..|]. pose proof (ly_text HL) as [_ _ _ Hm].
  split; [apply Z.div_pos; lia|]. apply Z.div_lt_upper_bound; [done|]. Z.to_euclidean_division_equations. lia.
Qed.

(** ** Scrolling *)

(** The first [i] lines of text have come from the line below. *)
Definition risen (i : Z) (V : picture) : picture := fun x y => if decide (y < 16 * i) then V x (y + 16) else V x y.

Lemma move_line_raw i m s V cols : raw m s (risen i V) cols -> 0 <= i -> 16 * i + 32 <= H ->
  exists m', in_mem (memmove (at_pixel W fb 0 (16 * i)) (at_pixel W fb 0 (16 * i + 16)) (4 * (16 * W))) (m, s) =
    Ret (at_pixel W fb 0 (16 * i), (m', s)) /\ raw m' s (risen (i + 1) V) cols /\ same_elsewhere m m'.
Proof.
  intros [A1 A2 A3 A4 A6 Hl] Hi Hih. pose proof HL as [[Hw Hh Hf He] _ Hfo _ _ Hap].
  destruct (memmove_frame W H fb (ly_size HL) m _ (at_pixel W fb 0 (16 * i)) (at_pixel W fb 0 (16 * i + 16))
    (Z.to_nat (64 * W)) A4)
    as (m' & E & Hin & Hout); [unfold at_pixel; rewrite ?Z2Nat.id by lia; nia..|]. rewrite Z2Nat.id in * by lia.
  assert (outside_same W H fb m m') as O.
  { intros k Hk. apply Hout. unfold at_pixel. nia. }
  exists m'. unfold in_mem, zoom. cbn [fst snd]. replace (4 * (16 * W)) with (64 * W) by lia. rewrite E. split; [done|].
  split; [|intros k Hk _; by apply O]. split; try done.
  - by eapply font_kept; [apply HL|..].
  - intros x y Hx Hy. unfold risen in *. destruct (decide (16 * i <= y < 16 * i + 16)) as [Hr|Hr].
    + rewrite decide_True by lia. destruct (A4 x (y + 16) Hx ltac:(lia)) as [Hp Hok].
      rewrite decide_False in Hp, Hok by lia. split; [|done]. unfold pixel_is in *.
      assert (forall j, 0 <= j < 4 -> m' !! (at_pixel W fb x y + j) = m !! (at_pixel W fb x (y + 16) + j)) as Hj.
      { intros j Hj. rewrite Hin by (unfold at_pixel; nia). f_equal. unfold at_pixel. lia. }
      pose proof (Hj 0 ltac:(lia)) as H0. rewrite !Z.add_0_r in H0. by rewrite H0, !Hj by lia.
    + destruct (A4 x y Hx Hy) as [Hp Hok].
      assert ((if decide (y < 16 * (i + 1)) then V x (y + 16) else V x y) = (if decide (y < 16 * i) then V x
        (y + 16) else V x y))
        as -> by (repeat case_decide; done || lia).
      split; [|done]. unfold pixel_is. rewrite !Hout by (unfold at_pixel; nia). exact Hp.
  - eapply columns_kept; [done|done|exact O].
Qed.

Lemma shifted_step (i : nat) (k0 : list Z) v : k0 !! S i = Some v ->
  <[i := v]> (shifted 1 i k0) = shifted 1 (S i) k0.
Proof.
  intros Hv. apply lookup_lt_Some in Hv as Hl. unfold shifted. rewrite !Nat.mul_1_l.
  assert (length (take i (drop 1 k0)) = i) as Ht by (rewrite length_take, length_drop; lia).
  rewrite insert_app_r_alt by lia. rewrite Ht, Nat.sub_diag.
  destruct (drop i k0) as [|x l] eqn:Ed; [apply (f_equal length) in Ed; rewrite length_drop in Ed; simpl in Ed; lia|].
  cbn [insert list_insert]. assert (l = drop (S i) k0) as -> by (rewrite <- Nat.add_1_r, <- drop_drop, Ed; done).
  rewrite (take_S_r (drop 1 k0) i v) by (rewrite lookup_drop; done). by rewrite <- app_assoc.
Qed.

Lemma shifted_next (i : nat) (k0 : list Z) v : k0 !! S i = Some v -> shifted 1 i k0 !! S i = Some v.
Proof.
  intros Hv. apply lookup_lt_Some in Hv as Hl. unfold shifted. rewrite !Nat.mul_1_l.
  rewrite lookup_app_r; rewrite length_take, length_drop; [|lia]. rewrite lookup_drop. rewrite <- Hv. f_equal. lia.
Qed.

Definition line_address (i : Z) : Z := at_pixel W fb 0 (16 * i).

Lemma move_up_run V0 k0 s n : forall i m src,
  raw m s (risen (Z.of_nat i) V0) (shifted 1 i k0) -> Z.of_nat (length k0) = H / 16 ->
  Forall (fun v => 0 <= v < 2 ^ 32) k0 -> (i + n + 1 = length k0)%nat ->
  exists m', move_up n (Z.of_nat i) fb (16 * W) (4 * (16 * W)) src (m, s) =
      Ret (if decide (n = 0%nat) then src else line_address (H / 16 - 1), (m', s)) /\
    raw m' s (risen (H / 16 - 1) V0) (shifted 1 (i + n) k0) /\ same_elsewhere m m'.
Proof.
  induction n as [|n IH]; intros i m src Hr Hk Hkr Hi; cbn [move_up].
  { exists m. split; [done|]. rewrite Nat.add_0_r. by replace (H / 16 - 1) with (Z.of_nat i) by lia. }
  pose proof HL as [[Hw Hh Hf He] [_ _ _ Hm16] _ _ _ _]. assert (H = 16 * (H / 16)) as HH by
    (Z.to_euclidean_division_equations; lia).
  assert (at_pixel W fb 0 (16 * Z.of_nat i) = fb + 4 * (Z.of_nat i * (16 * W))) as Ea by (unfold at_pixel; lia).
  assert (at_pixel W fb 0 (16 * Z.of_nat i + 16) = at_pixel W fb 0 (16 * Z.of_nat i) + 4 * (16 * W)) as Eb by
    (unfold at_pixel; lia).
  pose proof (at_pixel_range W H fb 0 (16 * Z.of_nat i) ltac:(lia) ltac:(lia)) as R1.
  pose proof (at_pixel_range W H fb 0 (16 * Z.of_nat i + 16) ltac:(lia) ltac:(lia)) as R2.
  rewrite <- Ea, (u32_small (at_pixel W fb 0 (16 * Z.of_nat i))), <- Eb, u32_small by lia.
  destruct (move_line_raw _ _ _ _ _ Hr ltac:(lia) ltac:(lia)) as (m1 & E1 & R3 & O1).
  rewrite (bind_ret _ _ _ _ _ E1).
  destruct (lookup_lt_is_Some_2 k0 (S i)) as [v Hv]; [lia|].
  assert (get_column (Z.of_nat i + 1) (m1, s) = Ret (v, (m1, s))) as E2.
  { eapply get_column_raw; [exact R3| |by apply (Forall_lookup_1 _ _ _ _ Hkr Hv)|lia].
    replace (Z.to_nat (Z.of_nat i + 1)) with (S i) by lia. by apply shifted_next. }
  rewrite (bind_ret _ _ _ _ _ E2).
  destruct (set_column_raw (Z.of_nat i) v _ _ _ _ R3 ltac:(lia)) as (m2 & E3 & R4 & O2).
  rewrite (bind_ret _ _ _ _ _ E3). rewrite Nat2Z.id, (shifted_step i k0 v Hv) in R4.
  replace (Z.of_nat i + 1) with (Z.of_nat (S i)) in * by lia.
  destruct (IH (S i) m2 (at_pixel W fb 0 (16 * Z.of_nat i + 16)) R4 Hk Hkr ltac:(lia)) as (m3 & E4 & R5 & O3).
  exists m3. rewrite E4. split; [|split].
  - rewrite (decide_False (P := S n = 0%nat)) by done. case_decide as Hn; [|done]. do 2 f_equal.
    unfold line_address. f_equal. lia.
  - by replace (i + S n)%nat with (S i + n)%nat by lia.
  - intros k Hk1 Hk2. by rewrite O3, O2, O1.
Qed.

(** The memory of the driver has another picture, the cursor is where it was. *)
Lemma displays_repaint m m' s t V cols : displays (m, s) t -> raw m' s V cols ->
  displays (m', s) (with_cols cols (draw (fun x y _ => V x y) t)).
Proof.
  intros [A1 A2 A3 A4 A5 A6 A7 A8 A9 A10] [B1 B2 B3 B4 B5 B6]. split; cbn [fst snd] in *; try done.
  - eapply shows_ext; [exact B4|]. intros x y _ _. symmetry. apply (look_draw (fun x y _ => V x y)).
  - intros x y Hx Hy. cbn. case_decide; [by apply A5|by apply B4].
  - unfold saves in *. cbn [vt_cover draw with_cols]. destruct (vt_cover t) as [c|] eqn:Ec; cbn; [|done].
    intros i d Hi Hd. rewrite decide_True; [by apply A10|]. split; [by rewrite Ec|]. unfold under_cursor. lia.
Qed.

Lemma in_dev_modify_run (f : vesa -> vesa) w : in_dev (modify f) w = Ret (tt, (w.1, f w.2)).
Proof. by destruct w. Qed.

Lemma text_fits x y : text_place W x -> text_line H y -> cursor_fits (mk_cursor x y).
Proof. intros (? & ? & ?) (? & ? & ?). unfold cursor_fits. cbn. lia. Qed.

Lemma ok_fits t : vterm_ok W H t -> cursor_fits (vt_cursor t).
Proof. intros [A1 A2 _ _ _ _]. destruct (vt_cursor t). by apply text_fits. Qed.

Lemma ok_columns t : vterm_ok W H t -> columns_ok t.
Proof. apply vk_columns. Qed.

Lemma ok_words t : vterm_ok W H t -> Forall (fun v => 0 <= v < 2 ^ 32) (vt_columns t).
Proof.
  intros [_ _ _ _ _ Hc]. pose proof HL as [[Hw _ _ _] _ _ _ _ _]. eapply Forall_impl; [exact Hc|]. intros v (? & ? & _). lia.
Qed.

Lemma shifted_last (k0 : list Z) q : length k0 = S q -> <[q := 0]> (shifted 1 q k0) = drop 1 k0 ++ [0].
Proof.
  intros Hl. unfold shifted. rewrite !Nat.mul_1_l, take_ge by (rewrite length_drop; lia).
  rewrite insert_app_r_alt; rewrite length_drop; [|lia]. replace (q - (length k0 - 1))%nat with 0%nat by lia.
  destruct (drop q k0) as [|x l] eqn:Ed; [apply (f_equal length) in Ed; rewrite length_drop in Ed; simpl in Ed; lia|].
  apply (f_equal length) in Ed. rewrite length_drop in Ed. destruct l; [done|]. simpl in Ed. lia.
Qed.

Lemma line_address_last : H / 16 * 16 = H -> line_address (H / 16 - 1) = at_pixel W fb 0 (H - 16).
Proof. intros E. unfold line_address. f_equal. lia. Qed.

(** The copies of the lines and the black line at the bottom. *)
Lemma scroll_copy_run m s t : displays (m, s) t -> vterm_ok W H t ->
  exists m' m'', scroll_up_lines 1 (H / 16) fb (16 * W) (4 * (16 * W)) (u32 (fb + 4 * (16 * W))) (m, s) =
      Ret (at_pixel W fb 0 (H - 16), (m', s)) /\
    in_mem (fast_memset (at_pixel W fb 0 (H - 16)) 0 (4 * (16 * W))) (m', s) = Ret (tt, (m'', s)) /\
    raw m'' s (fun x y => if decide (y < H - 16) then look t x (y + 16) else black)
      (shifted 1 (Z.to_nat (H / 16 - 1)) (vt_columns t)) /\ same_elsewhere m m''.
Proof.
  intros D Hok. pose proof HL as [[Hw Hh Hf He] [_ Hh2 _ Hm16] Hfo _ _ Hap].
  assert (H / 16 * 16 = H) as HH by (Z.to_euclidean_division_equations; lia).
  pose proof (ok_columns t Hok) as Hl. unfold columns_ok in Hl.
  assert (raw m s (risen 0 (look t)) (shifted 1 0 (vt_columns t))) as R0.
  { destruct (displays_raw m s t D (ok_columns t Hok)) as [B1 B2 B3 B4 B5 B6]. split; try done.
    - intros x y Hx Hy. unfold risen. rewrite decide_False by lia. by apply B4. }
  destruct (move_up_run (look t) (vt_columns t) s (Z.to_nat (H / 16 - 1)) 0 m (u32 (fb + 4 * (16 * W))) R0 Hl
    (ok_words t Hok) ltac:(lia))
    as (m1 & E1 & R1 & O1). rewrite decide_False, line_address_last in E1 by lia. rewrite Nat.add_0_l in R1.
  destruct R1 as [B1 B2 B3 B4 B5 B6].
  destruct (memset_frame W H fb (ly_size HL) m1 _ (H - 16) 16 B4) as (m2 & E2 & V2 & O2); [lia..|].
  exists m1, m2. split; [|split; [|split]].
  - cbn [scroll_up_lines]. by rewrite (bind_ret _ _ _ _ _ E1).
  - unfold in_mem, zoom. cbn [fst snd]. replace (4 * (16 * W)) with (4 * (W * 16)) by lia. by rewrite E2.
  - split; try done.
    + by eapply font_kept; [apply HL|..].
    + eapply shows_ext; [exact V2|]. intros x y Hx Hy. cbn beta. unfold risen. repeat case_decide; done || lia.
    + by eapply columns_kept.
  - intros k Hk1 Hk2. rewrite O2 by done. by apply O1.
Qed.

Lemma scroll_text_run w t : displays w t -> vterm_ok W H t ->
  evolves (vesa_scroll SCROLL_DOWN 1) tt w (scroll_text H t).
Proof.
  intros D Hok. destruct w as [m s]. pose proof HL as [[Hw Hh Hf He] [Hw2 Hh2 Hm8 Hm16] _ _ _ _].
  assert (H / 16 * 16 = H) as HH by (Z.to_euclidean_division_equations; lia).
  pose proof (ok_columns t Hok) as Hl. unfold columns_ok in Hl.
  unfold vesa_scroll. eapply evolves_mode; [done|]. intros md Ew Eh Eb. rewrite Ew, Eh, Eb. unfold font_height.
  rewrite (decide_False (P := H / 16 = 0)) by lia. rewrite HH, Z.mod_same, Z.sub_0_r by lia.
  eapply evolves_var. pose proof (hm_buffer _ _ _ _ (vd_mode _ _ D)) as Eb2. cbn [snd] in *. rewrite Eb2.
  change (Z.shiftr (Z.lor 32 7) 3) with 4. rewrite (u32_small (4 * (16 * W))) by lia.
  rewrite decide_True by done. rewrite (decide_False (P := _ /\ _)) by lia. change (Z.to_nat (u8 1)) with 1%nat.
  destruct (scroll_copy_run m s t D Hok) as (m1 & m2 & E1 & E2 & R2 & O2).
  set (cols1 := shifted 1 (Z.to_nat (H / 16 - 1)) (vt_columns t)) in *.
  eapply (vs_evolves_bind _ _ tt tt _ (with_cols cols1 (draw (fun x y _ => if decide (y < H - 16) then look t
    x (y + 16) else black) t))).
  { exists (m2, s). rewrite (bind_ret _ _ _ _ _ E1). split; [exact E2|]. split; [by eapply displays_repaint|]. by split. }
  intros w1 D1 _. assert (Z.of_nat (length cols1) = H / 16) as Hl1 by apply R2. rewrite u32_small by lia.
  eapply vs_evolves_bind; [apply (vs_put_cursor_at_run (H - 16) 0 w1 _ D1)|].
  { exact Hl1. }
  { exact (ok_fits t Hok). }
  { unfold cursor_fits. cbn. lia. }
  { lia. }
  intros w2 D2 _. eapply vs_evolves_cursor; [done|]. cbn [vt_cursor move cur_y].
  eapply vs_evolves_bind; [apply (set_column_run ((H - 16) / 16) 0 w2 _ D2)|].
  { exact Hl1. }
  { split; [apply Z.div_pos; lia|]. Z.to_euclidean_division_equations; lia. }
  intros w3 D3 _. eapply evolves_var. rewrite (vd_last _ _ D3). destruct w3 as [m3 s3].
  eexists. split; [apply in_dev_modify_run|]. split; [|by split].
  cbn [vt_columns with_cols move] in D3.
  assert ((H - 16) / 16 = H / 16 - 1) as Eq by (Z.to_euclidean_division_equations; lia). rewrite Eq in D3.
  unfold cols1 in D3. rewrite shifted_last in D3 by lia. cbn [fst snd].
  destruct D3 as [A1 A2 A3 A4 A5 A6 A7 A8 A9 A10]. split; try done; [by apply (has_mode_settings s3)|].
  cbn [vs_last set_vs_last snd vt_last scroll_text with_cols move draw].
  change (u8 1) with 1. case_decide; [|done]. f_equal. pose proof (vk_last_y _ _ _ Hok) as (? & ? & ?).
  apply u32_small. Z.to_euclidean_division_equations; lia.
Qed.
End Layout.
End Console.
