(* ===== verification/VesaTheorems.v ===== *)
(** * The graphic screen: properties

    The console of the driver refines the terminal: each character paints the
    picture and moves the cursor, which never damages it. *)
From S2P Require Import Prelude ByteMem LibString LibStringTheorems Ports Serial SerialTheorems.
From S2P Require Import Vga Vesa VesaScreen.

Section Characters.
Context (W H fb lc font : Z) (glyph : Z -> Z -> Z).
Context (fg bg : Z) (transparent : bool).

(** The colors of the driver. *)
Record colored (s : vesa) : Prop := {
  co_fg : foreground (vs_scheme s) = fg;
  co_bg : background (vs_scheme s) = bg;
  co_tr : transparent = bool_decide (transparent_char s <> 0)
}.

Record shown (w : world vesa) (t : vterm) : Prop := {
  sn_displays : displays W H fb lc font glyph w t;
  sn_colors : colored w.2;
  sn_ok : vterm_ok W H t
}.

Abbreviation same_rest := (frame W H fb lc).

Lemma colored_frame w w' : same_rest w w' -> colored w.2 -> colored w'.2.
Proof.
  destruct w as [m s], w' as [m' s']. intros [_ E] [H1 H2 H3]. unfold settings in E. cbn [snd] in *.
  injection E as E1 E2 E3 E4 E5 E6 E7. split; [congruence..|]. by rewrite E7.
Qed.

(** [op] leads to [t']. *)
Definition runs (op : M (world vesa) unit) (w : world vesa) (t' : vterm) : Prop :=
  exists w', op w = Ret (tt, w') /\ shown w' t' /\ same_rest w w'.

Lemma runs_evolves op w t t' : shown w t -> vterm_ok W H t' -> evolves W H fb lc font glyph op tt w t' -> runs op w t'.
Proof.
  intros [_ Hc _] Hok (w' & E & D & F). exists w'. split; [done|]. split; [|done]. split; [done| |done].
  by eapply colored_frame.
Qed.

Lemma runs_bind op op2 w t1 t2 : runs op w t1 -> (forall w1, shown w1 t1 -> runs op2 w1 t2) -> runs (op >>> op2) w t2.
Proof.
  intros (w1 & H1 & D1 & F1) Hk. destruct (Hk w1 D1) as (w2 & H2 & D2 & F2).
  exists w2. rewrite (bind_ret _ _ _ _ _ H1). split; [done|]. split; [done|by eapply vs_frame_trans].
Qed.

Lemma runs_ret w t : shown w t -> runs (ret tt) w t.
Proof. intros D. exists w. split; [done|]. split; [done|apply vs_frame_refl]. Qed.

Lemma runs_var {A} (f : vesa -> A) k w t : runs (k (f w.2)) w t -> runs (bind (var f) k) w t.
Proof. intros Hk. unfold runs. by rewrite var_run. Qed.

Lemma runs_cursor k w t t' : shown w t -> runs (k (vt_cursor t)) w t' -> runs (bind (var vs_cursor) k) w t'.
Proof. intros [D _ _] Hk. apply runs_var. by rewrite (vd_cursor _ _ _ _ _ _ _ _ D). Qed.

Lemma runs_mode k w t t' : shown w t ->
  (forall md, vm_width md = W -> vm_height md = H -> vm_bpp md = 32 -> runs (k md) w t') -> runs (bind mode k) w t'.
Proof.
  intros [D _ _] Hk. unfold runs. destruct (mode_run W H fb k w (vd_mode _ _ _ _ _ _ _ _ D)) as (md & ? & ? & ? & ->).
  by apply Hk.
Qed.

Section Layout.
Context (HL : layout W H fb lc font).

Lemma put_at_runs y x w t : shown w t -> text_place W x -> text_line H y -> runs (put_at y x) w (move x y t).
Proof.
  intros Hs Hx Hy. pose proof Hs as [D _ Hok]. eapply runs_evolves; [done|by apply move_ok|].
  apply put_at_run; [done|done|by eapply ok_columns|by eapply ok_fits|by eapply text_fits|]. destruct Hx as (? & ? & ?). lia.
Qed.

Lemma note_runs w t : shown w t -> runs note_column w (note t).
Proof.
  intros Hs. pose proof Hs as [D _ Hok]. eapply runs_evolves; [done|by apply note_ok|].
  apply note_column_run; [done|done|by eapply ok_columns|]. destruct Hok as [_ (? & ? & ?) _ _ _ _]. lia.
Qed.

Lemma draw_runs op F w t : shown w t -> paints W H fb font glyph w.2 op F ->
  (forall x y p, rgb_ok p -> rgb_ok (F x y p)) -> runs op w (draw F t).
Proof.
  intros Hs Hp Hf. pose proof Hs as [D _ Hok]. eapply runs_evolves; [done|by apply draw_ok|].
  apply draw_run; [done|done|by eapply ok_columns|done|done].
Qed.

Lemma area_ok a b w h f x y p : (forall x y p, rgb_ok p -> rgb_ok (f x y p)) -> rgb_ok p -> rgb_ok (area a b w h f x y p).
Proof. intros Hf Hp. unfold area. case_decide; [by apply Hf|done]. Qed.

Lemma remove_cursor_runs limit w t : shown w t -> cur_x (vt_cursor t) <= limit <= W ->
  runs (remove_cursor limit) w (blank bg limit t).
Proof.
  intros Hs Hl. unfold remove_cursor. eapply runs_cursor; [done|]. eapply runs_var.
  pose proof Hs as [_ Hc [(Hx1 & Hx2 & _) (Hy1 & Hy2 & _) _ _ _ _]]. pose proof HL as [[Hw Hh _ _] _ _ _ _ _].
  rewrite (co_bg _ Hc). unfold blank. destruct (vt_cursor t) as [x y]. cbn [cur_x cur_y] in *.
  rewrite u32_small by (unfold font_height; lia). replace (y + font_height - y) with 16 by (unfold font_height; lia).
  apply draw_runs; [done| |intros; apply area_ok; [intros; by apply paint_ok|done]].
  eapply paints_ext; [apply (area_paints W H fb font glyph (ly_font _ _ _ _ _ HL) w.2 x y (Z.to_nat (limit -
    x)) (Z.to_nat 16)
    (fun i j => draw_color i j bg) (fun _ _ => paint bg))|].
  - intros i j Hi Hj. apply draw_color_paints; [apply HL|lia|lia].
  - intros i j p _ _. by rewrite !Z2Nat.id by lia.
Qed.

Lemma draw_text_runs c x y w t : shown w t -> 31 <= c <= 127 -> 0 <= x -> x + 8 <= W -> 0 <= y -> y + 16 <= H ->
  runs (draw_text font c x y) w (draw_glyph glyph fg bg transparent c x y t).
Proof.
  intros Hs Hc Hx Hxw Hy Hyh. unfold draw_text. destruct w as [m s].
  pose proof Hs as [_ [C1 C2 C3] _]. cbn [snd] in *.
  assert ((if decide (transparent_char s <> 0) then 0 else background (vs_scheme s)) = (if transparent then 0 else bg)) as E.
  { rewrite C2, C3. case_bool_decide; case_decide; done || contradiction. }
  unfold runs. rewrite (in_dev_run _ s _ _ s) by done. cbn [id]. rewrite E, C1. apply draw_runs; [done| |].
  - by apply drawchar_paints; [apply HL|apply HL|..].
  - intros u v p Hp. apply area_ok; [intros; by apply paint_ok|done].
Qed.

Lemma end_of_line_runs md w t t' : shown w t -> vm_width md = W -> line_end W H bg t = Some t' -> runs (end_of_line md) w t'.
Proof.
  intros Hs Hw Hl. unfold line_end in Hl. case_decide as Hy; [|done]. injection Hl as <-. pose proof Hs as [_ _ Hok].
  unfold end_of_line. rewrite Hw. pose proof HL as [[_ Hh _ _] Hts _ _ _ _].
  pose proof (vk_x _ _ _ Hok) as (? & ? & ?). pose proof (vk_y _ _ _ Hok) as Hyl.
  eapply runs_bind; [apply remove_cursor_runs; [done|lia]|]. intros w1 Hs1. eapply runs_cursor; [done|].
  rewrite blank_cursor.
  unfold font_height. rewrite u32_small by (destruct Hyl as (? & ? & ?); lia).
  apply put_at_runs; [done|by eapply first_place|]. by apply next_line.
Qed.

Lemma print_printable_runs c w t t' : shown w t -> 31 < c < 127 -> vprint W H glyph fg bg transparent c t = Some t' ->
  runs (print_printable font c) w t'.
Proof.
  intros Hs Hc Hp. unfold vprint in Hp. apply bind_Some in Hp as (t1 & H1 & Hp).
  pose proof HL as [[Hw Hh _ _] Hts _ _ _ _]. pose proof Hs as [_ _ [(Hx1 & Hx2 & _) _ _ _ _ _]].
  unfold print_printable. eapply runs_mode; [done|]. intros md Ew Eh _. rewrite Ew, Eh. eapply runs_cursor; [done|].
  unfold font_width, font_height. rewrite u32_small by lia.
  eapply (runs_bind _ _ _ t1).
  { case_decide as He.
    - apply fmap_Some in H1 as (t2 & H2 & ->). eapply runs_bind; [by eapply end_of_line_runs|]. intros w1 S1.
      by apply note_runs.
    - injection H1 as <-. by apply runs_ret. }
  intros w1 S1. clear Hs w. pose proof S1 as [_ _ [Px Py _ _ _ _]].
  assert (cur_x (vt_cursor t1) + 16 <= W) as Hx16.
  { case_decide as He; [|injection H1 as <-; by apply (wide W H)].
    apply fmap_Some in H1 as (t2 & H2 & ->). unfold line_end in H2. case_decide; [|done]. injection H2 as <-.
    cbn. apply Hts. }
  destruct (vt_cursor t1) as [x y] eqn:Ec. cbn [cur_x cur_y] in *. pose proof Px as (Hx3 & Hx4 & _). pose
    proof Py as (Hy3 & Hy4 & _).
  apply bind_Some in Hp as (t2 & H2 & [= <-]).
  eapply runs_cursor; [done|]. rewrite Ec. cbn [cur_y]. rewrite u32_small, decide_False by lia.
  eapply runs_bind; [by apply runs_ret|]. intros w2 S2. eapply runs_cursor; [done|]. rewrite Ec. cbn [cur_x cur_y].
  rewrite u32_small by lia. eapply runs_bind; [apply put_at_runs; [done|by apply next_place|done]|].
  intros w3 S3. eapply runs_cursor; [done|]. cbn [vt_cursor move cur_x cur_y].
  rewrite u32_small by lia. replace (x + 8 - 8) with x by lia.
  eapply runs_bind; [apply draw_text_runs; [done|lia..]|]. intros w4 S4.
  eapply (runs_bind _ _ _ t2); [|intros w5 S5; by apply note_runs].
  rewrite u32_small by lia. replace (x + 8 + 8) with (x + 16) by lia.
  case_decide; [by eapply end_of_line_runs|]. injection H2 as <-. by apply runs_ret.
Qed.

Lemma back_runs x y w t : shown w t -> vt_cursor t = mk_cursor x y -> 8 <= x ->
  runs (draw_text font 32 x y >>> draw_text font 32 (u32 (x - font_width)) y >>>
        put_at y (u32 (x - font_width)) >>> note_column) w
    (note (move (x - 8) y (draw_glyph glyph fg bg transparent 32 (x - 8) y (draw_glyph glyph fg bg transparent 32 x y t)))).
Proof.
  intros Hs Ec Hx. pose proof HL as [[Hw Hh _ _] Hts _ _ _ _]. pose proof Hs as [_ _ [Px Py _ _ _ _]].
  rewrite Ec in Px, Py. cbn [cur_x cur_y] in *. pose proof Px as (Hx3 & Hx4 & Hx5). pose proof Py as (Hy3 & Hy4 & _).
  unfold font_width. rewrite !u32_small by lia.
  eapply runs_bind; [apply draw_text_runs; [done|lia..]|]. intros w1 S1.
  eapply runs_bind; [apply draw_text_runs; [done|lia..]|]. intros w2 S2.
  eapply runs_bind; [apply put_at_runs; [done| |done]|intros w3 S3; by apply note_runs].
  split_and!; Z.to_euclidean_division_equations; lia.
Qed.

Lemma runs_column i k w t t' : shown w t -> 0 <= i < H / 16 ->
  runs (k (nth (Z.to_nat i) (vt_columns t) 0)) w t' -> runs (bind (get_column i) k) w t'.
Proof.
  intros [D _ Hok] Hi Hk. destruct w as [m s]. pose proof (vk_columns _ _ _ Hok) as Hl.
  destruct (lookup_lt_is_Some_2 (vt_columns t) (Z.to_nat i)) as [v Hv]; [lia|]. rewrite (nth_lookup_Some _ _ _ _ Hv) in Hk.
  assert (raw W H fb lc font glyph m s (look t) (vt_columns t)) as R by (apply displays_raw; [done|by eapply ok_columns]).
  assert (0 <= v < 2 ^ 32) as Hr by (by eapply (Forall_lookup_1 _ _ _ _ (ok_words _ _ _ _ _ HL t Hok))).
  unfold runs. by rewrite (bind_ret _ _ _ _ _ (get_column_raw _ _ _ _ _ _ HL i v m s _ _ R Hv Hr ltac:(lia))).
Qed.

Lemma line_above y : text_line H y -> 0 < y -> text_line H (y - 16) /\ 0 <= y / 16 - 1 < H / 16.
Proof.
  intros (Hy1 & Hy2 & Hy3) Hy. pose proof HL as [[_ Hh _ _] [_ _ _ Hm] _ _ _ _].
  split; [split_and!|split]; Z.to_euclidean_division_equations; lia.
Qed.

Lemma vback_runs w t : shown w t -> runs (vesa_backspace font) w (vback glyph fg bg transparent t).
Proof.
  intros Hs. pose proof HL as [[Hw Hh _ _] Hts _ _ _ _]. pose proof Hs as [D _ Hok].
  pose proof Hok as [Px Py Hlx (Hly & Hly2 & _) Hcl Hcs]. unfold vesa_backspace, vback.
  apply runs_var. rewrite (vd_last _ _ _ _ _ _ _ _ D). eapply runs_cursor; [done|].
  destruct (vt_cursor t) as [x y] eqn:Ec. cbn [cur_x cur_y] in *. set (l := vt_last t) in *.
  pose proof Px as (Hx3 & Hx4 & Hx5). pose proof Py as (Hy3 & Hy4 & Hy5).
  assert (0 < x -> 8 <= x) as Hx8 by (intros; Z.to_euclidean_division_equations; lia).
  destruct (decide (cur_y l = y)) as [He|Hne].
  - destruct (decide (x > cur_x l)).
    + rewrite !decide_True by lia. apply back_runs; [done..|lia].
    + rewrite decide_False by lia. by apply runs_ret.
  - destruct (decide (cur_y l < y)) as [Hlt|]; [|rewrite decide_False by lia; by apply runs_ret].
    rewrite (decide_True (P := cur_y l < y \/ _)) by lia.
    destruct (decide (x > 0)) as [Hx|Hx]; [rewrite decide_True by lia; apply back_runs; [done..|lia]|].
    rewrite (decide_False (P := 0 < x)) by lia. destruct (line_above y Py ltac:(lia)) as [Pa Hi].
    destruct (lookup_lt_is_Some_2 (vt_columns t) (Z.to_nat (y / 16 - 1))) as [k Hk]; [lia|].
    pose proof (Forall_lookup_1 _ _ _ _ Hcs Hk) as Pk. rewrite (nth_lookup_Some _ _ _ _ Hk).
    pose proof Pk as (Hk1 & Hk2 & _). pose proof Pa as (Ha1 & Ha2 & _).
    eapply runs_bind; [apply draw_text_runs; [done|lia..]|]. intros w1 S1. unfold font_height.
    eapply runs_column; [done..|]. cbn [vt_columns draw_glyph draw]. rewrite (nth_lookup_Some _ _ _ _ Hk), u32_small by lia.
    eapply runs_bind; [apply draw_text_runs; [done|lia..]|]. intros w2 S2.
    eapply runs_column; [done..|]. cbn [vt_columns draw_glyph draw]. rewrite (nth_lookup_Some _ _ _ _ Hk).
    by apply put_at_runs.
Qed.

Lemma vline_feed_runs w t : shown w t -> runs vesa_line_feed w (vline_feed W H bg t).
Proof.
  intros Hs. pose proof HL as [[Hw Hh _ _] Hts _ _ _ _]. pose proof Hs as [_ _ [Px Py _ _ _ _]].
  unfold vesa_line_feed, vline_feed. eapply runs_mode; [done|]. intros md Ew Eh _. rewrite Ew, Eh.
  destruct (vt_cursor t) as [x y] eqn:Ec. cbn [cur_x cur_y] in *.
  pose proof Px as (Hx3 & Hx4 & Hx5). pose proof Py as (Hy3 & Hy4 & Hy5).
  eapply runs_bind; [apply remove_cursor_runs; [done|rewrite Ec; cbn; lia]|]. intros w1 S1.
  eapply runs_bind; [by apply note_runs|]. intros w2 S2. eapply runs_cursor; [done|].
  cbn [vt_cursor note with_cols]. rewrite blank_cursor, Ec. cbn [cur_x cur_y]. unfold font_height, font_width.
  rewrite !u32_small by lia. destruct (decide (y + 32 <= H)) as [Hy|Hy].
  - rewrite decide_True by lia. eapply runs_bind.
    { apply remove_cursor_runs; [done|]. cbn [vt_cursor note with_cols]. rewrite blank_cursor, Ec. cbn [cur_x]. lia. }
    intros w3 S3. eapply runs_bind; [apply put_at_runs; [done|by eapply first_place|by apply next_line]|].
    intros w4 S4. by apply note_runs.
  - rewrite decide_False by lia. pose proof S2 as [D2 _ Hok2].
    eapply runs_evolves; [done| |by apply scroll_text_run].
    assert (vterm_ok W H (vline_feed W H bg t)) as Hv by (apply vline_feed_ok; first [exact Hts|apply Hs]).
    unfold vline_feed in Hv. rewrite Ec in Hv. by rewrite decide_False in Hv by lia.
Qed.

Lemma clear_runs w t : shown w t -> runs vesa_clear_screen w (draw (fun _ _ _ => black) t).
Proof.
  intros Hs. pose proof Hs as [D _ Hok]. destruct w as [m s]. eapply runs_evolves; [done|by apply draw_ok|].
  pose proof (displays_raw W H fb lc font glyph m s t D (ok_columns _ _ t Hok)) as [B1 B2 B3 B4 B5 B6].
  destruct (clear_run W H fb s (ly_size _ _ _ _ _ HL) m _ B1 B4) as (m' & E & V & O).
  exists (m', s). split; [done|]. split; [|by split; [intros k Hk _; apply O|]].
  apply (displays_repaint W H fb lc font glyph m m' s t (fun _ _ => black) (vt_columns t) D).
  split; try done; [eapply font_kept; [apply HL|done..]|by eapply columns_kept].
Qed.

(** ** The serial line and the characters *)

Section Driver.
Context (device : history -> Z -> Z) (polls : nat).
Context (Hdev : line_answers device polls COM1).

Lemma serial_copy_runs c w t : shown w t -> 0 <= c < 256 -> runs (serial_copy device polls c) w t.
Proof.
  intros [[A1 A2 A3 A4 A5 A6 A7 A8 A9 A10] Hc Hok] Hr. destruct w as [m s]. cbn [fst snd] in *.
  destruct (serial_write_answers device polls COM1 ltac:(by left) Hdev c (vs_serial s) Hr) as [s' E].
  exists (m, set_vs_serial s' s). split; [unfold serial_copy, in_dev, zoom; cbn [fst snd]; by rewrite E|].
  split; [|by split]. split; [|by destruct Hc|done]. split; try done. by apply (has_mode_settings W H fb s).
Qed.

Lemma vspaces_runs n : forall i w t t', shown w t -> vspaces W H glyph fg bg transparent n t = Some t' ->
  runs (turns n i (fun _ => serial_copy device polls 32 >>> print_printable font 32)) w t'.
Proof.
  induction n as [|n IH]; intros i w t t' Hs Ht; cbn [turns vspaces] in *; [injection Ht as <-; by apply runs_ret|].
  apply bind_Some in Ht as (t1 & H1 & Ht). eapply (runs_bind _ _ _ t1); [|intros w2 S2; by apply (IH _ _ t1)].
  eapply runs_bind; [by apply serial_copy_runs|]. intros w1 S1. by eapply print_printable_runs.
Qed.

Lemma vtab_runs w t t' : shown w t -> vtab W H glyph fg bg transparent t = Some t' -> runs (vesa_tab device polls font) w t'.
Proof.
  intros Hs Ht. unfold vtab in Ht. case_decide as Hx; [|done]. apply bind_Some in Ht as (t1 & H1 & [= <-]).
  pose proof HL as [[Hw Hh _ _] _ _ _ _ _]. pose proof Hs as [_ _ [(Hx1 & _ & _) _ _ _ _ _]].
  unfold vesa_tab. eapply runs_mode; [done|]. intros md Ew _ _. eapply runs_cursor; [done|].
  assert (tab_spaces md (cur_x (vt_cursor t)) = 4) as ->.
  { unfold tab_spaces, TAB_WIDTH, font_width. rewrite Ew, i32_small, decide_False by lia. done. }
  eapply runs_bind; [by eapply (vspaces_runs 4)|]. intros w1 S1. by apply note_runs.
Qed.

Lemma vtype_runs c w t t' : shown w t -> 0 <= c < 256 -> vtype W H glyph fg bg transparent c t = Some t' ->
  runs (vesa_process_char device polls font c) w t'.
Proof.
  intros Hs Hc Ht. unfold vesa_process_char. eapply runs_bind; [by apply serial_copy_runs|]. intros w1 S1.
  unfold vtype in Ht. case_decide; [by eapply print_printable_runs; [|lia|]|].
  case_decide; [injection Ht as <-; by apply vback_runs|].
  case_decide; [by eapply vtab_runs|].
  case_decide; [injection Ht as <-; by apply vline_feed_runs|].
  case_decide; [injection Ht as <-; by apply clear_runs|].
  case_decide; [|injection Ht as <-; by apply runs_ret]. injection Ht as <-. unfold vesa_line_return.
  eapply runs_cursor; [done|]. pose proof S1 as [_ _ [_ Py _ _ _ _]]. pose proof (ly_text _ _ _ _ _ HL).
  eapply runs_bind; [apply put_at_runs; [done|by eapply first_place|done]|]. intros w2 S2. by apply note_runs.
Qed.

Lemma vput_runs c w t t' : shown w t -> 0 <= c < 256 -> vput W H glyph fg bg transparent c t = Some t' ->
  runs (vesa_put_char device polls font c) w t'.
Proof.
  intros Hs Hc Ht. pose proof Hs as [_ _ Hok]. pose proof (vput_ok _ _ _ _ _ _ (ly_text _ _ _ _ _ HL) _ _ _ Hok Ht) as Hok'.
  apply bind_Some in Ht as (t1 & H1 & [= <-]). unfold vesa_put_char.
  eapply runs_bind; [by apply (vtype_runs c w t t1)|]. intros w1 S1. eapply runs_cursor; [done|].
  destruct w1 as [m s]. destruct S1 as [[A1 A2 A3 A4 A5 A6 A7 A8 A9 A10] [C1 C2 C3] _].
  eexists. split; [apply in_dev_modify_run|]. split; [|by split].
  split; [|by split|done]. split; try done. by apply (has_mode_settings W H fb s).
Qed.

(** The string is not in the memory of the driver. *)
Definition text_apart (p n : Z) : Prop :=
  (fb + 4 * (W * H) <= p \/ p + n <= fb) /\ (lc + 4 * (H / 16) <= p \/ p + n <= lc).

Lemma vesa_put_string_loop_runs string l n : forall k fuel w t t',
  shown w t -> cstr w.1 string l -> text_apart string (Z.of_nat (length l) + 1) ->
  drop k l = n -> (length n < fuel)%nat -> (k <= length l)%nat ->
  vput_all W H glyph fg bg transparent n t = Some t' ->
  runs (vesa_put_string_loop device polls font fuel string (Z.of_nat k)) w t'.
Proof.
  induction n as [|c n IH]; intros k fuel w t t' Hs Hstr Ha Hd Hf Hk Ht; (destruct fuel as [|fuel]; [cbn in Hf; lia|]);
    cbn [vesa_put_string_loop vput_all] in *.
  - injection Ht as <-. destruct w as [m s]. unfold runs. rewrite (in_mem_run _ _ _ _ _ _ (strlen_ret _ _ _ Hstr)).
    assert (k = length l) as -> by (apply (f_equal length) in Hd; rewrite length_drop in Hd; simpl in Hd; lia).
    rewrite decide_False by lia. by apply runs_ret.
  - apply bind_Some in Ht as (t1 & H1 & Ht). destruct w as [m s].
    assert (l !! k = Some c) as Hc by (rewrite <- (Nat.add_0_r k), <- lookup_drop; by rewrite Hd).
    assert (k < length l)%nat as Hkl by (by apply lookup_lt_Some in Hc).
    assert (0 <= c < 256) as Hcr by (pose proof (Forall_lookup_1 _ _ _ _ (cs_chars _ _ _ Hstr) Hc); cbn in *; lia).
    assert (m !! (string + Z.of_nat k) = Some c) as Hm.
    { apply (cs_bytes _ _ _ Hstr). by rewrite lookup_app_l. }
    unfold runs. rewrite (in_mem_run _ _ _ _ _ _ (strlen_ret _ _ _ Hstr)). rewrite decide_True by lia.
    rewrite (load_in_mem _ _ _ _ _ Hm).
    destruct (vput_runs c (m, s) t t1 Hs Hcr H1) as (w1 & E1 & S1 & F1). rewrite (bind_ret _ _ _ _ _ E1).
    replace (Z.of_nat k + 1) with (Z.of_nat (S k)) by lia.
    destruct (IH (S k) fuel w1 t1 t' S1) as (w2 & E2 & S2 & F2); try done.
    + eapply cstr_frame; [exact Hstr|]. intros j Hj. apply F1; unfold text_apart in Ha; lia.
    + by rewrite <- Nat.add_1_r, <- drop_drop, Hd.
    + cbn in Hf. lia.
    + exists w2. split; [done|]. split; [done|by eapply vs_frame_trans].
Qed.
End Driver.
End Layout.
End Characters.

(** ** Where the terminal has no next state *)

(** A character in the last place of the last line: the cursor is drawn under
    the screen, past the end of the frame buffer. *)
Lemma put_cursor_below W H fb lc font glyph w t :
  layout W H fb lc font -> displays W H fb lc font glyph w t -> vterm_ok W H t ->
  fb + 4 * (W * H) < 2 ^ 32 -> w.1 !! (fb + 4 * (W * H)) = None -> vesa_put_cursor_at H 0 w = Fault.
Proof.
  intros HL D Hok He Hnone. destruct w as [m s]. pose proof HL as [[Hw Hh Hf _] [Hw2 _ _ _] _ _ _ _].
  destruct (restore_all_run W H fb lc font glyph HL m s t D (ok_fits _ _ _ Hok)) as (m1 & E1 & V1 & O1).
  unfold vesa_put_cursor_at. fold restore_all. rewrite (bind_ret _ _ _ _ _ E1).
  set (s1 := set_vs_cursor (mk_cursor 0 H) s). rewrite (in_dev_run _ tt _ _ s1) by done.
  assert (has_mode W H fb s1) as Hs1 by (apply (has_mode_settings W H fb s); [done|apply (vd_mode _ _ _ _ _ _ _ _ D)]).
  edestruct (@mode_run W H fb) as (md & Ew & _ & _ & ->); [exact Hs1|].
  rewrite Ew, (u32_small (0 + 2)), decide_True by lia. cbn [turns].
  assert (forall B (x : OS_RETURN_E * option (Z * Z * Z * Z) -> M (world vesa) B),
    bind (vesa_get_pixel false 0 (u32 (H + 0))) x (m1, s1) = Fault) as Hg.
  { intros B x. assert (vesa_get_pixel false 0 (u32 (H + 0)) (m1, s1) = Fault) as E; [|unfold bind; by rewrite E].
    unfold vesa_get_pixel. rewrite (u32_small (H + 0)), !u16_small by lia.
    edestruct @on_screen_run as (md' & _ & Ew' & Eh' & _ & ->); [exact Hs1|].
    rewrite bool_decide_eq_false_2 by lia. rewrite (in_dev_run _ s1 _ _ s1) by done. cbn [id].
    assert (pixel_addr md' s1 0 (H + 0) = fb + 4 * (W * H)) as ->.
    { unfold pixel_addr. rewrite Ew'. replace (virt_buffer s1) with fb by (symmetry; apply Hs1). rewrite u32_small; nia. }
    unfold bind at 1, in_mem at 1, zoom at 1. cbn [fst]. unfold load. rewrite O1 by lia. cbn [fst] in Hnone.
      by rewrite Hnone. }
  unfold draw_cursor_pixel at 1, save_pixel at 1. rewrite !bind_assoc. apply Hg.
Qed.

Section LastPlace.
Context (W H fb lc font : Z) (glyph : Z -> Z -> Z) (fg bg : Z) (transparent : bool).

Theorem last_place_leaves_screen c w t :
  layout W H fb lc font -> shown W H fb lc font glyph fg bg transparent w t -> 31 < c < 127 ->
  vt_cursor t = mk_cursor (W - 16) (H - 16) ->
  fb + 4 * (W * H) < 2 ^ 32 -> w.1 !! (fb + 4 * (W * H)) = None -> ~ (lc <= fb + 4 * (W * H) < lc + 4 * (H / 16)) ->
  print_printable font c w = Fault.
Proof.
  intros HL Hs Hc Ec He Hnone Hlc. pose proof HL as [[Hw Hh Hf _] Hts _ _ _ _]. pose proof Hts as [Hw2 Hh2 _ _].
  pose proof Hs as [D _ Hok]. pose proof (vk_x _ _ _ Hok) as Px. pose proof (vk_y _ _ _ Hok) as Py. rewrite
    Ec in Px, Py. cbn in Px, Py.
  unfold print_printable. edestruct (@mode_run W H fb) as (md & Ew & Eh & _ & ->); [by apply (vd_mode _ _ _ _ _ _ _ _ D)|].
  assert (forall w t, shown W H fb lc font glyph fg bg transparent w t -> vs_cursor w.2 = vt_cursor t) as Hcur
    by (intros ? ? [? _ _]; by eapply vd_cursor).
  rewrite Ew, Eh. unfold font_width, font_height. rewrite var_run, (Hcur _ _ Hs), Ec. cbn [cur_x cur_y].
  rewrite (u32_small (W - 16 + 8)), decide_False, bind_ret_l, var_run, (Hcur _ _ Hs), Ec by lia. cbn [cur_x cur_y].
  rewrite (u32_small (H - 16)), decide_False, bind_ret_l, var_run, (Hcur _ _ Hs), Ec by lia. cbn [cur_x cur_y].
  assert (text_place W (W - 16 + 8)) as Pn by (apply next_place; [done|lia]).
  destruct (put_at_runs W H fb lc font glyph fg bg transparent HL (H - 16) (W - 16 + 8) w t Hs Pn Py) as (w1 & E1 & S1 & F1).
  rewrite (u32_small (W - 16 + 8)), (bind_ret _ _ _ _ _ E1), var_run, (Hcur _ _ S1) by lia. cbn [vt_cursor move cur_x cur_y].
  rewrite (u32_small (W - 16 + 8 - 8)), (u32_small (W - 16 + 8 + 8)) by lia. replace (W - 16 + 8 - 8) with (W - 16) by lia.
  destruct (draw_text_runs W H fb lc font glyph fg bg transparent HL c (W - 16) (H - 16) w1 _ S1) as (w2 & E2
    & S2 & F2); [lia..|].
  rewrite (bind_ret _ _ _ _ _ E2), decide_True by lia. unfold end_of_line. rewrite Ew.
  destruct (remove_cursor_runs W H fb lc font glyph fg bg transparent HL W w2 _ S2) as (w3 & E3 & S3 & F3).
  { cbn. lia. }
  rewrite bind_assoc, (bind_ret _ _ _ _ _ E3), bind_assoc, var_run, (Hcur _ _ S3), blank_cursor.
  cbn [vt_cursor draw_glyph draw move cur_y]. unfold font_height. rewrite u32_small by lia.
  replace (H - 16 + 16) with H by lia. unfold put_at. rewrite !bind_assoc. unfold bind at 1.
  pose proof S3 as [D3 _ Hok3]. rewrite (put_cursor_below W H fb lc font glyph w3 _ HL D3 Hok3 He); [done|].
  rewrite (fr_mem _ _ _ _ _ _ F3), (fr_mem _ _ _ _ _ _ F2), (fr_mem _ _ _ _ _ _ F1) by lia. exact Hnone.
Qed.
End LastPlace.

(** ** The properties *)

(** C31: a string printed on the graphic screen paints its characters one after
    the other: the frame buffer shows the terminal's picture with the cursor
    over it, a moved cursor leaves the pixels it covered as they were, lines
    feed, scroll, tabulate and go back as the terminal does, the ends of the
    lines are those of the terminal, and no byte outside of the frame buffer
    and of that array changes. *)
Theorem vesa_put_string_refines device polls W H fb lc font glyph fg bg transparent string l w t t' :
  line_answers device polls COM1 -> layout W H fb lc font ->
  shown W H fb lc font glyph fg bg transparent w t ->
  cstr w.1 string l -> text_apart W H fb lc string (Z.of_nat (length l) + 1) ->
  vput_all W H glyph fg bg transparent l t = Some t' ->
  exists w', vesa_put_string device polls font string w = Ret (tt, w') /\
    shown W H fb lc font glyph fg bg transparent w' t' /\ frame W H fb lc w w'.
Proof.
  intros Hdev HL Hs Hstr Ha Ht.
  pose proof (vesa_put_string_loop_runs W H fb lc font glyph fg bg transparent HL device polls Hdev string l l 0
    (mem_fuel w.1) w t t' Hs Hstr Ha eq_refl ltac:(apply cstr_fuel in Hstr; lia) ltac:(lia) Ht) as Hr.
  destruct w as [m s]. unfold vesa_put_string, runs in *. by rewrite (in_mem_run _ (mem_fuel m) m m).
Qed.

(** Near the end of a line the number of spaces of a tabulation is huge: the
    negative number of the missing pixels is divided as an unsigned one. *)
Theorem tab_near_the_end_runs_away m x :
  0 <= x -> x + 8 <= vm_width m -> vm_width m < 2 ^ 16 -> vm_width m < x + 32 -> tab_spaces m x >= 2 ^ 29.
Proof.
  intros Hx Hw Hs Hn. unfold tab_spaces, TAB_WIDTH, font_width. rewrite i32_small, decide_True by lia.
  assert (u32 (vm_width m - (x + 4 * 8)) = 2 ^ 32 + (vm_width m - (x + 4 * 8))) as ->.
  { unfold u32. symmetry. apply (Z.mod_unique _ _ (-1)); lia. }
  assert (2 ^ 29 - 3 <= (2 ^ 32 + (vm_width m - (x + 4 * 8))) / 8 < 2 ^ 29)
    by (split; [apply Z.div_le_lower_bound; lia|apply Z.div_lt_upper_bound; lia]).
  rewrite i32_small; lia.
Qed.

(** With a VGA color scheme the background is always the first color. *)
Theorem vga_background_is_black c s m : vga_color c <> 0 -> 0 <= background c < 16 -> 0 <= foreground c < 16 ->
  exists s', vesa_set_color_scheme c (m, s) = Ret (tt, (m, s')) /\ background (vs_scheme s') = 0xFF000000.
Proof.
  intros Hv Hb Hf. unfold vesa_set_color_scheme. rewrite decide_True by done.
  assert (Z.shiftr (background c) 4 = 0) as -> by (rewrite Z.shiftr_div_pow2 by done; by apply Z.div_small).
  assert (Z.land (foreground c) 0x0F = foreground c) as ->.
  { change 0x0F with (Z.ones 4). rewrite Z.land_ones by done. by apply Z.mod_small. }
  destruct (lookup_lt_is_Some_2 vga_color_table (Z.to_nat (foreground c))) as [f Hl]; [cbn; lia|].
  rewrite Hl. by eexists.
Qed.

(** With SSE the copy of 16 bytes goes on for another 16. *)
Definition two_blocks : mem := put (put ∅ 4096 (replicate 16 0)) 8192 (replicate 16 1).

Theorem fast_memcpy_overruns :
  fast_memcpy true 4096 8192 16 two_blocks = Fault /\
  fast_memcpy false 4096 8192 16 two_blocks = Ret (tt, put two_blocks 4096 (replicate 16 1)).
Proof. split; vm_compute; reflexivity. Qed.

(** ** Witness: a screen of four characters by two *)

Definition small_glyph (c i : Z) : Z := (c * (i + 1)) mod 256.

Definition small_font : list Z := map (fun k => small_glyph (31 + Z.of_nat k / 16) (Z.of_nat k mod 16)) (seq 0 1552).

Definition small_modes : gmap Z vesa_mode := {[ 7 := mk_mode 32 32 32 0x4118 0xE0000000 65536 0 ]}.

Definition small_vesa : vesa :=
  mk_vesa small_modes 7 7 1 1 (mk_cursor 0 0) (mk_cursor 0 0) (mk_scheme 0xFFFFFF00 0xFF0000AA 0) 1024 0
    (replicate 256 0) 65536 (mk_serial 0 []).

Definition small_text : list Z := [65; 10; 66; 10; 67].

Definition small_memory : mem :=
  put (put (put (put ∅ 100 (small_text ++ [0])) 1024 (replicate 8 0)) 8192 small_font) 65536 (replicate 4096 0).

Definition small_term : vterm := mk_vterm (fun _ _ => black) None (mk_cursor 0 0) (mk_cursor 0 0) [0; 0].

Abbreviation small_typed := (vput_all 32 32 small_glyph 0xFFFFFF00 0xFF0000AA false small_text small_term).

(** The second letter is on the first line, the third under it. *)
Lemma small_typed_shows :
  match small_typed with
  | Some t' => vt_cursor t' = mk_cursor 8 16 /\ vt_columns t' = [8; 8] /\
      map (fun x => vt_pic t' x 16) [0; 1; 2; 3; 4; 5; 6; 7] =
      map (fun b : bool => if b then (255, 255, 0) else (0, 0, 170)) [false; true; false; false; false; false; true; true]
  | None => False
  end.
Proof. vm_compute. by split_and!. Qed.

Lemma small_typed_some : exists t', small_typed = Some t' /\ vt_cursor t' = mk_cursor 8 16.
Proof. pose proof small_typed_shows as H. remember small_typed as o eqn:Eo. clear Eo. destruct o as [t'|];
  [|contradiction H]. exists t'. split; [reflexivity|apply H]. Qed.

Lemma small_layout : layout 32 32 65536 1024 8192.
Proof. split; unfold font_apart; change (32 / 16) with 2; try (split; done || lia); lia. Qed.

Lemma small_font_byte c i : 31 <= c <= 127 -> 0 <= i < 16 ->
  small_font !! Z.to_nat ((c - 31) * 16 + i) = Some (small_glyph c i).
Proof.
  intros Hc Hi. unfold small_font. apply list_lookup_fmap_Some. exists (Z.to_nat ((c - 31) * 16 + i)).
  split; [|apply lookup_seq; lia]. rewrite Z2Nat.id by lia.
  rewrite Z.div_add_l, Z.div_small, (Z.add_comm (_ * 16)), Z.mod_add, Z.mod_small by lia. f_equal. lia.
Qed.

Lemma small_shown : shown 32 32 65536 1024 8192 small_glyph 0xFFFFFF00 0xFF0000AA false (small_memory,
  small_vesa) small_term.
Proof.
  split; [|by split|].
  - split; cbn [fst snd]; try done.
    + split; [done..|]. eexists. split; [reflexivity|done].
    + intros c i Hc Hi. unfold small_memory. rewrite put_lookup_ne by (rewrite length_replicate; lia).
      replace (8192 + (c - 31) * 16 + i) with (8192 + Z.of_nat (Z.to_nat ((c - 31) * 16 + i))) by lia.
      apply put_lookup. by apply small_font_byte.
    + intros x y Hx Hy. assert (forall j, 0 <= j < 4 -> small_memory !! (at_pixel 32 65536 x y + j) = Some 0) as Hz.
      { intros j Hj. unfold small_memory. apply put_zeros. unfold at_pixel. lia. }
      split; [|by split_and!]. unfold pixel_is. rewrite <- (Z.add_0_r (at_pixel 32 65536 x y)) at 1.
      split_and!; [by apply Hz..|]. exists 0. split; [by apply Hz|done].
    + intros i v Hi j x Hj. unfold small_memory. rewrite put_lookup_ne; [rewrite put_lookup_ne|].
      * assert (v = 0) as ->.
        { destruct i as [|[|i]]; simplify_eq/=; done. }
        apply lookup_lt_Some in Hi. change (length (vt_columns small_term)) with 2%nat in Hi.
        assert (x = 0) as ->.
        { change (word_bytes 0) with (replicate 4 0) in Hj. by apply lookup_replicate in Hj as [? _]. }
        apply lookup_lt_Some in Hj. change (length (word_bytes 0)) with 4%nat in Hj.
        apply put_zeros. change (Z.of_nat 8) with 8. lia.
      * apply lookup_lt_Some in Hi, Hj. change (length (vt_columns small_term)) with 2%nat in Hi.
        rewrite word_bytes_length in Hj. lia.
      * apply lookup_lt_Some in Hi, Hj. change (length (vt_columns small_term)) with 2%nat in Hi.
        rewrite word_bytes_length in Hj. rewrite length_replicate. lia.
    + split; [done|]. by apply Forall_replicate.
    + intros i. change (nth i (replicate 256 0) 0 = 0). destruct (decide (i < 256)%nat); [by apply
      nth_lookup_Some, lookup_replicate_2|].
      apply nth_overflow. rewrite length_replicate. lia.
  - split; cbn; try done; repeat constructor; try lia; try done.
Qed.

Lemma vesa_put_string_refines_witness :
  (line_answers idle_device 1 COM1 /\ cstr small_memory 100 small_text) /\
  exists t' w', small_typed = Some t' /\ vt_cursor t' = mk_cursor 8 16 /\
    vesa_put_string idle_device 1 8192 100 (small_memory, small_vesa) = Ret (tt, w') /\
    shown 32 32 65536 1024 8192 small_glyph 0xFFFFFF00 0xFF0000AA false w' t'.
Proof.
  assert (line_answers idle_device 1 COM1) as Hd by apply idle_line_answers.
  assert (cstr small_memory 100 small_text) as Hs.
  { unfold small_memory. do 3 (apply cstr_put_apart; [vm_compute; (by left) || (by right)|]).
    apply cstr_put. unfold is_string, small_text. solve_string. }
  split; [by split|]. destruct small_typed_some as (t' & Ht & Hcur).
  assert (text_apart 32 32 65536 1024 100 (Z.of_nat (length small_text) + 1)) as Ha by (unfold text_apart; cbn; lia).
  destruct (vesa_put_string_refines idle_device 1 32 32 65536 1024 8192 small_glyph 0xFFFFFF00 0xFF0000AA false
    100 small_text (small_memory, small_vesa) small_term t' Hd small_layout small_shown Hs Ha Ht) as (w' & E & S & _).
  exists t', w'. split; [exact Ht|]. split; [exact Hcur|]. split; [exact E|exact S].
Defined.
